(* ===== verification/_CoqProject ===== *)
-Q . S2P
Prelude.v
Layout.v
DevState.v
Console.v
KState.v
KMem.v
Pmap.v
VmRefs.v
VmInv.v
VmOps.v
UserMem.v
VmThms.v
Time.v
Vga.v
Mouse.v
E1000.v
Sched.v
UMem.v
Env.v
Syscall.v
Trap.v
KInv.v
KEx.v
SchedThms.v
EnvOps.v
EnvFree.v
EnvThms.v
SysOps.v
SysSafe.v
UStore.v
TrapThms.v
SysThms.v
PageInit.v
UMonad.v
Str.v
StrThms.v
Fsipc.v
Ide.v
IdeThms.v
Bc.v
BcThms.v
FsEx.v
Fs.v
FsBase.v
FileInv.v
FileThms.v
FileIO.v
FileTrunc.v
FsThms.v
DirThms.v
Serv.v
ServThms.v
Printfmt.v
PrintThms.v
PrintOut.v
PageUse.v
Usys.v
UsysThms.v
KBig.v
Fork.v
ForkThms.v
ForkIso.v
ForkRun.v
ForkEx.v
ForkMain.v
Upcall.v
UpcallThms.v
Pipe.v
PipeThms.v
Kdebug.v
KdebugThms.v
MemInit.v
KernMap.v
FreeCheck.v
MemInitThms.v
LoadThms.v
Machine.v
Fd.v
FdThms.v
PipeSys.v
