(* ===== verification/Prelude.v ===== *)
(** * JOS: a verification library for the lab kernel, its servers and its user library

    The program is an operating system for 32-bit x86 machines with several CPUs, under [src/lab].
    A small kernel ([kern/]) manages physical pages, page tables and environments (processes),
    and drives the console, the screen, the mouse and the network card.  A user library ([lib/])
    builds the rest on system calls: copy-on-write fork, page faults handled by the program, file
    descriptors, pipes, formatted output.  The file system is a server in user mode ([fs/]).

    ** How the code is modelled

    Integers are [Z] with C's conversions written out ([u8], [u16], [u32], [i32] below).  Kernel
    code is a state monad [K] over the record [kstate] ([KState]), with one field per global of
    the kernel, the devices' drivers ([DevState]) and physical memory as words per page.  A run
    ends in an [outcome]: [Ret], [Panic], [Spin], a way out of the kernel ([UserMode], [Halted],
    [Monitor]), or [Stuck] for an access that C leaves undefined and for a loop that does not end.
    User code is a monad [M] ([UMonad]) over any state with a byte memory: class [Mem] has the
    operations, class [MemLaws] what an address space promises, and [lib/string.c] and
    [lib/printfmt.c] are proved once against these classes.  Instances are the address space of a
    running environment on the kernel ([Usys]; its system calls are the kernel's own definitions)
    and that of the file server ([Ide]).

    ** The files

    - Kernel memory, [kern/pmap.c]: [Layout] (constants and macros of [inc/]), [KMem] (bytes of
      physical memory), [Pmap] (allocator, [pgdir_walk], [page_insert], [user_mem_check], ...);
      [VmRefs] and [VmInv] are the invariant [vm_inv]: every reference count is the number of
      entries that point to the page, free pages have none, page tables are private.  [VmOps],
      [UserMem], [VmThms] show that each operation keeps it and does exactly what it should.
      [PageInit], [MemInit], [KernMap], [FreeCheck], [MemInitThms]: the same from boot on.
    - Environments, scheduler and traps: [Sched] ([kern/spinlock.c], [kern/sched.c]), [UMem]
      (the kernel's accesses to user memory), [Env] ([kern/env.c]), [Syscall] ([kern/syscall.c],
      all calls), [Trap] ([kern/trap.c]), [Time].  [KInv] joins [vm_inv] with the table of
      environments in the invariant [kinv].  [SchedThms], [EnvOps], [EnvFree], [EnvThms],
      [LoadThms], [SysOps], [SysSafe], [UStore], [TrapThms], [SysThms] prove it of every call and
      state the isolation of environments; [KEx] is a small machine for examples.
    - The whole kernel: [Machine] has a step relation with boot, creation of environments,
      stores of user programs, traps and interrupts; by induction on its runs no trap ends in
      [Panic] or [Stuck], and every field has a value of its C type.  Left out are the interrupts
      of mouse and network card and the system calls that drive a device or follow a pointer of
      the program in the kernel ([unsafe_calls]); some of these the program can crash the kernel with.
    - Devices: [Console], [Vga], [Mouse], [E1000] with the behaviour of each driver, and the
      transmit ring as a protocol of driver and card.  [Kdebug], [KdebugThms]: the search in the
      debugging tables and its termination.
    - Library: [Str], [StrThms] ([lib/string.c]); [Printfmt], [PrintThms], [PrintOut]
      ([lib/printfmt.c] and its users) with the meaning of a format as specification.
    - User programs on the kernel: [PageUse] (references are mappings), [Usys], [UsysThms], [KBig]
      (a larger example); [Fork], [ForkThms], [ForkIso], [ForkRun], [ForkEx], [ForkMain]
      ([lib/fork.c], [lib/pgfault.c]): after fork each of parent and child sees a memory of its
      own, whatever the order of their stores; [Upcall], [UpcallThms] ([lib/pfentry.S]): a
      handled page fault does not show.
    - Descriptors and pipes: [Fd], [FdThms] ([lib/fd.c], [lib/pageref.c]), [PipeSys]
      (making and closing of [lib/pipe.c]), [Pipe], [PipeThms] (reading and writing as state
      machines that interleave, with the delayed stores of x86: a pipe is a queue).
    - File server: [Fsipc] (shared structures), [Ide], [IdeThms] ([fs/ide.c]), [Bc], [BcThms]
      ([fs/bc.c]: the cache refines the plain disk), [Fs], [FsBase], [FileInv], [FileThms],
      [FileIO], [FileTrunc], [FsThms], [DirThms] ([fs/fs.c]: files are byte sequences, paths name
      entries of a tree), [Serv], [ServThms] ([fs/serv.c]); [FsEx] is a small disk.

    ** Loops and bounds

    Loops over C data take a bound, and running out of it is an error outcome, [Stuck], [Wrong] or
    [None], so that a theorem that code returns also says that the bound was enough.  Bounds are
    the number of addresses ([ADDRS], 2^32, by [kloop] and [mloop] over binary numbers), of
    pages ([free_fuel]), of table entries ([bin_fuel]), or a 16-bit counter's range for drawing;
    nested page faults of the block cache are bounded in [Bc].  Where a loop of the
    code really does not end for some input, a lemma says so for every bound.  Reference counts
    are 16 bits and the code does not check them: theorems whose code adds references assume that
    the count does not wrap ([uses_small] and the like), which the witnesses meet.

    ** Parameters

    Contents of registers and tables of the hardware, addresses chosen by the linker, the value
    an unused register has after a call ([junk]), and messages that are printed on the way are
    arguments of the definitions.

    ** Not modelled

    The boot loader, the entry and trap vectors in assembly, [kern/init.c], the interrupt
    controllers, CPU discovery, PCI and the initialisation of the devices: sequences of port and
    register writes, whose effect only the hardware defines.  The kernel monitor and, except for
    [check_page_free_list], the self-tests of [kern/pmap.c].  In [lib/]: the client of the file
    server ([file.c], and with it [spawn.c] and [stat] of [fd.c]), messages, [wait] and [exit],
    which wait for other environments; the console and line editing; [malloc.c], [args.c] and
    [draw.c]; sockets.  The network server, which runs on lwip, a third-party library; the user
    programs; [fs/fsformat.c] and [fs/test.c].  The kernel serves one trap at a time, since the
    big kernel lock is proved exclusive; invalidations of cached
    translations are recorded as events, the cache itself is not part of the state. *)

From Stdlib Require Export ZArith Lia.
From stdpp Require Export base tactics option list numbers gmap sets strings.

#[export] Set Default Goal Selector "!".
#[global] Open Scope Z_scope.

(** ** Notations of C's bit operations *)

Declare Scope c_scope.
Delimit Scope c_scope with c.
Infix ".&" := Z.land (at level 40, left associativity) : c_scope.
Infix ".|" := Z.lor (at level 45, left associativity) : c_scope.
Infix ".<<" := Z.shiftl (at level 34, left associativity) : c_scope.
Infix ".>>" := Z.shiftr (at level 34, left associativity) : c_scope.
#[global] Open Scope c_scope.

(** ** Machine widths *)

(** [u8], [u16], [u32] are the conversions to C's unsigned types, [i32] the one
    to [int] (two's complement). *)
Definition u8 (x : Z) : Z := x mod 2^8.
Definition u16 (x : Z) : Z := x mod 2^16.
Definition u32 (x : Z) : Z := x mod 2^32.
Definition u64 (x : Z) : Z := x mod 2^64.
Definition i32 (x : Z) : Z := (x + 2^31) mod 2^32 - 2^31.

(** A C condition: every non-zero value is true. *)
Definition truth (x : Z) : bool := negb (x =? 0).

Create HintDb cconst.

Ltac cc := autounfold with cconst in *.
(** [clia] opens the program's constants and calls [lia]. *)
Ltac clia := cc; lia.
(** [dlia] also opens division and modulus by constants. *)
Ltac dlia := cc; Z.div_mod_to_equations; lia.

Lemma u32_range x : 0 <= u32 x < 2^32.
Proof. apply Z.mod_pos_bound. lia. Qed.
Lemma u16_range x : 0 <= u16 x < 2^16.
Proof. apply Z.mod_pos_bound. lia. Qed.
Lemma u8_range x : 0 <= u8 x < 2^8.
Proof. apply Z.mod_pos_bound. lia. Qed.
Lemma i32_range x : - 2^31 <= i32 x < 2^31.
Proof. unfold i32. pose proof (Z.mod_pos_bound (x + 2^31) (2^32)). lia. Qed.

Lemma u32_small x : 0 <= x < 2^32 -> u32 x = x.
Proof. apply Z.mod_small. Qed.
Lemma u16_small x : 0 <= x < 2^16 -> u16 x = x.
Proof. apply Z.mod_small. Qed.
Lemma u8_small x : 0 <= x < 2^8 -> u8 x = x.
Proof. apply Z.mod_small. Qed.
Lemma i32_small x : - 2^31 <= x < 2^31 -> i32 x = x.
Proof. intros. unfold i32. rewrite Z.mod_small; lia. Qed.

Lemma i32_u32 x : i32 (u32 x) = i32 x.
Proof. unfold i32, u32. rewrite (Z.add_mod (x mod 2^32)), Z.mod_mod, <- Z.add_mod by lia. done. Qed.

(** ** Masks as arithmetic *)

Lemma land_ones_mod x n m : 0 <= n -> m = 2^n - 1 -> x .& m = x mod 2^n.
Proof.
  intros Hn ->. rewrite <- Z.land_ones by done. f_equal.
  rewrite Z.ones_equiv. lia.
Qed.

Lemma shiftr_div x n : 0 <= n -> x .>> n = x / 2^n.
Proof. apply Z.shiftr_div_pow2. Qed.

Lemma shiftl_mul x n : 0 <= n -> x .<< n = x * 2^n.
Proof. apply Z.shiftl_mul_pow2. Qed.

(** Disjoint bits: [lor] is addition. *)
Lemma lor_add_high a b n :
  0 <= n -> 0 <= b < 2^n -> (a * 2^n) .| b = a * 2^n + b.
Proof.
  intros Hn Hb.
  assert (Hd : (a * 2^n) .& b = 0).
  { apply Z.bits_inj'. intros i Hi.
    rewrite Z.land_spec, Z.bits_0, <- Z.shiftl_mul_pow2 by lia.
    destruct (Z.lt_ge_cases i n).
    - rewrite Z.shiftl_spec_low by lia. done.
    - rewrite <- (Z.mod_small b (2^n)) by lia.
      rewrite Z.mod_pow2_bits_high by lia. apply andb_false_r. }
  pose proof (Z.add_lor_land (a * 2^n) b). lia.
Qed.

Lemma lor_bound a b n : 0 <= n -> 0 <= a < 2^n -> 0 <= b < 2^n -> 0 <= a .| b < 2^n.
Proof.
  intros Hn Ha Hb. split; [apply Z.lor_nonneg; lia|].
  destruct (decide (a .| b = 0)) as [->|Hne]; [lia|].
  assert (0 <= a .| b) by (apply Z.lor_nonneg; lia).
  apply Z.log2_lt_pow2; [lia|].
  destruct (decide (n = 0)) as [->|]; [exfalso; apply Hne; replace a with 0 by lia; replace b with 0 by lia; done|].
  rewrite Z.log2_lor by lia.
  apply Z.max_lub_lt.
  - destruct (decide (a = 0)) as [->|]; [simpl; lia|]. apply Z.log2_lt_pow2; lia.
  - destruct (decide (b = 0)) as [->|]; [simpl; lia|]. apply Z.log2_lt_pow2; lia.
Qed.

(** Clearing the low [n] bits of a 32-bit value. *)
Lemma land_high_mask x n :
  0 <= n <= 32 -> 0 <= x < 2^32 -> x .& (2^32 - 2^n) = x / 2^n * 2^n.
Proof.
  intros Hn Hx. apply Z.bits_inj'. intros i Hi.
  rewrite Z.land_spec, <- Z.shiftl_mul_pow2 by lia.
  replace (2^32 - 2^n) with (Z.ones (32 - n) .<< n).
  2:{ rewrite Z.shiftl_mul_pow2, Z.ones_equiv by lia.
      replace (2^32) with (2^(32 - n) * 2^n); [lia|].
      rewrite <- Z.pow_add_r by lia. f_equal. lia. }
  destruct (Z.lt_ge_cases i n).
  - rewrite !(Z.shiftl_spec_low _ n i) by lia. apply andb_false_r.
  - rewrite !(Z.shiftl_spec _ n i) by lia.
    rewrite <- Z.shiftr_div_pow2, Z.shiftr_spec by lia.
    replace (i - n + n) with i by lia.
    destruct (Z.lt_ge_cases i 32).
    + rewrite Z.ones_spec_low by lia. apply andb_true_r.
    + rewrite Z.ones_spec_high by lia.
      rewrite <- (Z.mod_small x (2^32)) by lia.
      rewrite Z.mod_pow2_bits_high by lia. done.
Qed.

Lemma land_one_mod x : x .& 1 = x mod 2.
Proof. by apply (land_ones_mod x 1). Qed.

(** ** Sums over lists, for reference counting *)

Fixpoint zsum {A} (f : A -> Z) (l : list A) : Z :=
  match l with [] => 0 | x :: l => f x + zsum f l end.

Section zsum.
Context {A : Type}.
Implicit Types (f g : A -> Z) (l : list A).

Lemma zsum_ext f g l : (forall x, x ∈ l -> f x = g x) -> zsum f l = zsum g l.
Proof.
  induction l as [|a l IH]; intros H; [done|]. simpl. f_equal.
  - apply H. left.
  - apply IH. intros. apply H. by right.
Qed.

Lemma zsum_nonneg f l : (forall x, x ∈ l -> 0 <= f x) -> 0 <= zsum f l.
Proof.
  induction l as [|a l IH]; intros H; simpl; [lia|].
  assert (0 <= f a) by (apply H; left).
  assert (0 <= zsum f l) by (apply IH; intros; apply H; by right). lia.
Qed.

Lemma zsum_app f l1 l2 : zsum f (l1 ++ l2) = zsum f l1 + zsum f l2.
Proof. induction l1 as [|a l1 IH]; simpl; lia. Qed.

Lemma zsum_zero f l : (forall x, x ∈ l -> f x = 0) -> zsum f l = 0.
Proof.
  induction l as [|a l IH]; intros H; simpl; [done|].
  rewrite (H a) by left. rewrite IH; [done|]. intros. apply H. by right.
Qed.

Lemma zsum_zero_inv f l x :
  (forall x, x ∈ l -> 0 <= f x) -> zsum f l <= 0 -> x ∈ l -> f x = 0.
Proof.
  induction l as [|a l IH]; intros H H0 Hx; [by apply elem_of_nil in Hx|].
  simpl in H0.
  assert (0 <= f a) by (apply H; left).
  assert (0 <= zsum f l) by (apply zsum_nonneg; intros; apply H; by right).
  apply elem_of_cons in Hx as [->|Hx]; [lia|].
  apply IH; [|lia|done]. intros. apply H. by right.
Qed.

(** One element changes: the sum changes by that element's difference. *)
Lemma zsum_update f g l x :
  NoDup l -> x ∈ l -> (forall y, y ∈ l -> y <> x -> g y = f y) ->
  zsum g l = zsum f l - f x + g x.
Proof.
  induction l as [|a l IH]; intros Hnd Hx H; [by apply elem_of_nil in Hx|].
  apply NoDup_cons in Hnd as [Ha Hnd]. simpl.
  apply elem_of_cons in Hx as [->|Hx].
  - rewrite (zsum_ext g f l); [lia|]. intros y Hy. apply H; [by right|]. by intros ->.
  - rewrite IH; [|done|done|]. 
    + rewrite (H a); [lia|left|]. by intros ->.
    + intros y Hy. apply H. by right.
Qed.

Lemma zsum_elem_le f l x :
  (forall y, y ∈ l -> 0 <= f y) -> x ∈ l -> f x <= zsum f l.
Proof.
  induction l as [|a l IH]; intros H Hx; [by apply elem_of_nil in Hx|]. simpl.
  assert (0 <= f a) by (apply H; left).
  assert (0 <= zsum f l) by (apply zsum_nonneg; intros; apply H; by right).
  apply elem_of_cons in Hx as [->|Hx]; [lia|].
  assert (f x <= zsum f l); [|lia]. apply IH; [|done]. intros. apply H. by right.
Qed.

(** Two different elements are both counted. *)
Lemma zsum_elem2_le f l x y :
  (forall y, y ∈ l -> 0 <= f y) -> x ∈ l -> y ∈ l -> x <> y -> f x + f y <= zsum f l.
Proof.
  induction l as [|a l IH]; intros H Hx Hy Hne; [by apply elem_of_nil in Hx|]. simpl.
  assert (0 <= f a) by (apply H; left).
  assert (Hl : forall z, z ∈ l -> 0 <= f z) by (intros; apply H; by right).
  apply elem_of_cons in Hx as [->|Hx]; apply elem_of_cons in Hy as [->|Hy]; [done| | |].
  - pose proof (zsum_elem_le f l y Hl Hy). lia.
  - pose proof (zsum_elem_le f l x Hl Hx). lia.
  - specialize (IH Hl Hx Hy Hne). lia.
Qed.

Lemma zsum_perm f l l' : l ≡ₚ l' -> zsum f l = zsum f l'.
Proof. induction 1 as [|x l l' _ IH|x y l|l1 l2 l3 _ IH1 _ IH2]; simpl; [done|lia|lia|lia]. Qed.
End zsum.

(** The indicator of a decidable proposition. *)
Definition ind (b : bool) : Z := if b then 1 else 0.

Lemma ind_range b : 0 <= ind b <= 1.
Proof. destruct b; simpl; lia. Qed.

(** ** First index satisfying a test, the shape of the program's search loops *)

Fixpoint find_first {A} (p : A -> bool) (l : list A) : option A :=
  match l with
  | [] => None
  | x :: l => if p x then Some x else find_first p l
  end.

Lemma find_first_Some {A} (p : A -> bool) l x :
  find_first p l = Some x ->
  exists l1 l2, l = l1 ++ x :: l2 /\ p x = true /\ Forall (fun y => p y = false) l1.
Proof.
  induction l as [|a l IH]; [done|]. simpl. destruct (p a) eqn:Ha.
  - intros [= ->]. by exists [], l.
  - intros (l1 & l2 & -> & Hx & Hl)%IH. exists (a :: l1), l2. repeat split; [done|].
    by constructor.
Qed.

Lemma find_first_None {A} (p : A -> bool) l :
  find_first p l = None <-> Forall (fun y => p y = false) l.
Proof.
  induction l as [|a l IH]; simpl; [split; auto using Forall_nil|].
  destruct (p a) eqn:Ha.
  - split; [done|]. intros [H _]%Forall_cons_1. congruence.
  - rewrite IH. split; [by constructor|]. by intros [_ H]%Forall_cons_1.
Qed.

(** On an ascending range the search finds the least index. *)
Lemma find_first_seqZ p m n i :
  find_first p (seqZ m n) = Some i ->
  m <= i < m + n /\ p i = true /\ forall j, m <= j < i -> p j = false.
Proof.
  intros (l1 & l2 & Heq & Hp & Hl)%find_first_Some.
  assert (Hi : seqZ m n !! length l1 = Some i).
  { rewrite Heq. rewrite lookup_app_r by lia. by rewrite Nat.sub_diag. }
  apply lookup_seqZ in Hi as [-> Hi]. split; [lia|]. split; [done|].
  intros j Hj. rewrite Forall_forall in Hl. apply Hl.
  assert (Hj' : seqZ m n !! Z.to_nat (j - m) = Some j) by (apply lookup_seqZ; lia).
  rewrite Heq, lookup_app_l in Hj' by lia. by eapply list_elem_of_lookup_2.
Qed.

Lemma find_first_seqZ_None p m n :
  find_first p (seqZ m n) = None <-> forall i, m <= i < m + n -> p i = false.
Proof.
  rewrite find_first_None, Forall_forall. setoid_rewrite elem_of_seqZ. done.
Qed.

(** ** Sets *)

Lemma diff_notin (X : gset Z) q : q ∉ X -> X ∖ {[q]} = X.
Proof. set_solver. Qed.
Lemma union_diff_notin (X : gset Z) q : q ∉ X -> (X ∪ {[q]}) ∖ {[q]} = X.
Proof. set_solver. Qed.
