(* ===== verification/Layout.v ===== *)
(** * Layout: the constants and address macros of [inc/mmu.h], [inc/memlayout.h],
    [inc/error.h] and [inc/env.h]

    Addresses are [uint32_t] values, modelled as [Z] in [0, 2^32).  The macros keep
    their C names; the lemmas turn the masks and shifts into division and modulus. *)

From S2P Require Import Prelude.

(** ** Paging constants (inc/mmu.h) *)

Definition NPDENTRIES : Z := 1024.
Definition NPTENTRIES : Z := 1024.
Definition PGSIZE : Z := 4096.
Definition PGSHIFT : Z := 12.
Definition PTSIZE : Z := PGSIZE * NPTENTRIES.
Definition PTXSHIFT : Z := 12.
Definition PDXSHIFT : Z := 22.

Definition PTE_P : Z := 0x001.
Definition PTE_W : Z := 0x002.
Definition PTE_U : Z := 0x004.
Definition PTE_PWT : Z := 0x008.
Definition PTE_PCD : Z := 0x010.
Definition PTE_A : Z := 0x020.
Definition PTE_D : Z := 0x040.
Definition PTE_PS : Z := 0x080.
Definition PTE_AVAIL : Z := 0xE00.
Definition PTE_SYSCALL : Z := PTE_AVAIL .| PTE_P .| PTE_W .| PTE_U.

(** ** Address decomposition (inc/mmu.h) *)

Definition PGNUM (la : Z) : Z := la .>> PTXSHIFT.
Definition PDX (la : Z) : Z := (la .>> PDXSHIFT) .& 0x3FF.
Definition PTX (la : Z) : Z := (la .>> PTXSHIFT) .& 0x3FF.
Definition PGOFF (la : Z) : Z := la .& 0xFFF.
Definition HUGH_PGOFF (la : Z) : Z := la .& 0x3FFFFF.
Definition PGADDR (d t o : Z) : Z := u32 (d .<< PDXSHIFT .| t .<< PTXSHIFT .| o).
Definition PTE_ADDR (pte : Z) : Z := pte .& 0xFFFFF000.

(** ** Rounding (inc/types.h), in [uint32_t] arithmetic *)

Definition ROUNDDOWN (a n : Z) : Z := u32 (u32 a - u32 a mod n).
Definition ROUNDUP (a n : Z) : Z := ROUNDDOWN (u32 a + u32 n - 1) (u32 n).

(** ** Memory map (inc/memlayout.h) *)

Definition KERNBASE : Z := 0xF0000000.
Definition IOPHYSMEM : Z := 0x0A0000.
Definition EXTPHYSMEM : Z := 0x100000.
Definition KSTACKTOP : Z := KERNBASE.
Definition KSTKSIZE : Z := 8 * PGSIZE.
Definition KSTKGAP : Z := 8 * PGSIZE.
Definition MMIOLIM : Z := KSTACKTOP - PTSIZE.
Definition MMIOBASE : Z := MMIOLIM - PTSIZE.
Definition ULIM : Z := MMIOBASE.
Definition UVPT : Z := ULIM - PTSIZE.
Definition UPAGES : Z := UVPT - PTSIZE.
Definition UENVS : Z := UPAGES - PTSIZE.
Definition UTOP : Z := UENVS.
Definition UXSTACKTOP : Z := UTOP.
Definition USTACKTOP : Z := UTOP - 2 * PGSIZE.
Definition UTEXT : Z := 2 * PTSIZE.
Definition UTEMP : Z := PTSIZE.
Definition PFTEMP : Z := UTEMP + PTSIZE - PGSIZE.
Definition USTABDATA : Z := PTSIZE / 2.
Definition MPENTRY_PADDR : Z := 0x7000.

(** ** Segment selectors and flags used by the kernel *)

Definition GD_KT : Z := 0x08.
Definition GD_KD : Z := 0x10.
Definition GD_UT : Z := 0x18.
Definition GD_UD : Z := 0x20.
Definition FL_IF : Z := 0x00000200.
Definition FL_IOPL_3 : Z := 0x00003000.
Definition FEC_PR : Z := 0x1.
Definition FEC_WR : Z := 0x2.
Definition FEC_U : Z := 0x4.
(** A page that [fork] and [spawn] share ([inc/lib.h]) *)
Definition PTE_SHARE : Z := 0x400.

(** ** Error codes (inc/error.h) *)

Definition E_UNSPECIFIED : Z := 1.
Definition E_BAD_ENV : Z := 2.
Definition E_INVAL : Z := 3.
Definition E_NO_MEM : Z := 4.
Definition E_NO_FREE_ENV : Z := 5.
Definition E_FAULT : Z := 6.
Definition E_IPC_NOT_RECV : Z := 7.
Definition E_EOF : Z := 8.
Definition E_NO_DISK : Z := 9.
Definition E_MAX_OPEN : Z := 10.
Definition E_NOT_FOUND : Z := 11.
Definition E_BAD_PATH : Z := 12.
Definition E_FILE_EXISTS : Z := 13.
Definition E_NOT_EXEC : Z := 14.
Definition E_NOT_SUPP : Z := 15.
Definition E_TX_POOL_FULL : Z := 16.
Definition E_RX_POOL_EMPTY : Z := 17.
Definition MAXERROR : Z := 18.

(** ** Environments (inc/env.h) *)

Definition LOG2NENV : Z := 10.
Definition NENV : Z := 1 .<< LOG2NENV.
Definition ENVX (envid : Z) : Z := envid .& (NENV - 1).

Definition ENV_FREE : Z := 0.
Definition ENV_DYING : Z := 1.
Definition ENV_RUNNABLE : Z := 2.
Definition ENV_RUNNING : Z := 3.
Definition ENV_NOT_RUNNABLE : Z := 4.

Definition ENV_TYPE_USER : Z := 0.
Definition ENV_TYPE_FS : Z := 1.
Definition ENV_TYPE_NS : Z := 2.
Definition ENV_TYPE_OUT_NS : Z := 3.
Definition ENV_TYPE_IN_NS : Z := 4.

#[export] Hint Unfold NPDENTRIES NPTENTRIES PGSIZE PGSHIFT PTSIZE PTXSHIFT PDXSHIFT
  KERNBASE IOPHYSMEM EXTPHYSMEM KSTACKTOP KSTKSIZE KSTKGAP MMIOLIM MMIOBASE ULIM UVPT
  UPAGES UENVS UTOP UXSTACKTOP USTACKTOP UTEXT UTEMP PFTEMP USTABDATA MPENTRY_PADDR
  PTE_P PTE_W PTE_U PTE_PWT PTE_PCD PTE_A PTE_D PTE_PS PTE_AVAIL
  E_BAD_ENV E_INVAL E_NO_MEM E_NO_FREE_ENV E_FAULT E_IPC_NOT_RECV E_EOF
  E_NO_DISK E_MAX_OPEN E_NOT_FOUND E_BAD_PATH E_FILE_EXISTS E_NOT_EXEC E_NOT_SUPP
  E_TX_POOL_FULL E_RX_POOL_EMPTY MAXERROR E_UNSPECIFIED
  ENV_FREE ENV_DYING ENV_RUNNABLE ENV_RUNNING ENV_NOT_RUNNABLE
  ENV_TYPE_USER ENV_TYPE_FS ENV_TYPE_NS ENV_TYPE_OUT_NS ENV_TYPE_IN_NS
  GD_KT GD_KD GD_UT GD_UD FL_IF FL_IOPL_3 FEC_PR FEC_WR FEC_U PTE_SHARE : cconst.

(** ** The macros as arithmetic *)

Lemma NENV_eq : NENV = 1024.
Proof. done. Qed.

Lemma PGNUM_div la : PGNUM la = la / 4096.
Proof. unfold PGNUM, PTXSHIFT. by rewrite shiftr_div. Qed.

Lemma PDX_div la : PDX la = la / 4194304 mod 1024.
Proof.
  unfold PDX, PDXSHIFT. rewrite (land_ones_mod _ 10) by lia. by rewrite shiftr_div.
Qed.

Lemma PTX_div la : PTX la = la / 4096 mod 1024.
Proof.
  unfold PTX, PTXSHIFT. rewrite (land_ones_mod _ 10) by lia. by rewrite shiftr_div.
Qed.

Lemma PGOFF_mod la : PGOFF la = la mod 4096.
Proof. unfold PGOFF. by rewrite (land_ones_mod _ 12) by lia. Qed.

Lemma PTE_ADDR_div pte : 0 <= pte < 2^32 -> PTE_ADDR pte = pte / 4096 * 4096.
Proof. intros. unfold PTE_ADDR. by rewrite (land_high_mask _ 12) by lia. Qed.

Lemma ENVX_mod x : ENVX x = x mod 1024.
Proof. unfold ENVX. by rewrite (land_ones_mod _ 10) by done. Qed.

Lemma PDX_range la : 0 <= PDX la < 1024.
Proof. rewrite PDX_div. dlia. Qed.
Lemma PTX_range la : 0 <= PTX la < 1024.
Proof. rewrite PTX_div. dlia. Qed.
Lemma ENVX_range x : 0 <= ENVX x < NENV.
Proof. rewrite ENVX_mod, NENV_eq. dlia. Qed.

Lemma PDX_user va : 0 <= va < UTOP -> PDX va < 955.
Proof. cc. rewrite PDX_div. dlia. Qed.

Lemma ROUNDDOWN_page a : 0 <= a < 2^32 -> ROUNDDOWN a PGSIZE = a / 4096 * 4096.
Proof.
  intros. unfold ROUNDDOWN, PGSIZE. rewrite (u32_small a) by done.
  rewrite u32_small; dlia.
Qed.

Lemma ROUNDUP_page a : 0 <= a <= 2^32 - 4096 -> ROUNDUP a PGSIZE = (a + 4095) / 4096 * 4096.
Proof.
  intros. unfold ROUNDUP, PGSIZE. rewrite (u32_small a), (u32_small 4096) by lia.
  replace (a + 4096 - 1) with (a + 4095) by lia.
  fold PGSIZE. rewrite ROUNDDOWN_page; dlia.
Qed.

Lemma PGADDR_split va :
  0 <= va < 2^32 -> PGADDR (PDX va) (PTX va) (PGOFF va) = va.
Proof.
  intros Hva. unfold PGADDR, PDXSHIFT, PTXSHIFT.
  rewrite PDX_div, PTX_div, PGOFF_mod, !shiftl_mul by lia.
  rewrite (lor_add_high (va / 4194304 mod 1024) (va / 4096 mod 1024 * 2^12) 22) by dlia.
  replace (va / 4194304 mod 1024 * 2^22 + va / 4096 mod 1024 * 2^12)
    with ((va / 4194304 mod 1024 * 1024 + va / 4096 mod 1024) * 2^12) by lia.
  rewrite (lor_add_high _ (va mod 4096) 12) by dlia.
  rewrite u32_small; dlia.
Qed.

Lemma PGADDR_index d t : 0 <= d < 1024 -> 0 <= t < 1024 ->
  PGADDR d t 0 = d * 4194304 + t * 4096.
Proof.
  intros. unfold PGADDR, PDXSHIFT, PTXSHIFT. rewrite Z.lor_0_r, !shiftl_mul by lia.
  rewrite (lor_add_high d (t * 2^12) 22) by dlia. rewrite u32_small; dlia.
Qed.

(** ** Page table entries *)

(** An entry is present when its low bit is set; [pgn] is its page number. *)
Definition present (e : Z) : bool := truth (e .& PTE_P).
Definition pgn (e : Z) : Z := PGNUM (PTE_ADDR e).

Lemma present_mod e : present e = (e mod 2 =? 1).
Proof.
  unfold present, PTE_P, truth. rewrite land_one_mod.
  destruct (Z.eqb_spec (e mod 2) 0), (Z.eqb_spec (e mod 2) 1); try done; dlia.
Qed.

Lemma pgn_div e : 0 <= e < 2^32 -> pgn e = e / 4096.
Proof. intros. unfold pgn. rewrite PTE_ADDR_div, PGNUM_div by done. by rewrite Z.div_mul. Qed.

Lemma present_0 : present 0 = false.
Proof. done. Qed.

(** The entry [pa | perm | PTE_P] of a page [pp]. *)
Definition mkpte (pp perm : Z) : Z := (pp .<< PGSHIFT) .| perm .| PTE_P.

Lemma mkpte_spec pp perm :
  0 <= pp < 2^20 -> 0 <= perm < 4096 ->
  mkpte pp perm = pp * 4096 + (perm .| 1) /\ 0 <= perm .| 1 < 4096.
Proof.
  intros Hp Hm. unfold mkpte, PGSHIFT, PTE_P.
  rewrite shiftl_mul, <- Z.lor_assoc by lia.
  assert (0 <= perm .| 1 < 2^12) by (apply lor_bound; lia).
  split; [|lia]. by apply (lor_add_high _ _ 12).
Qed.

Lemma mkpte_ok pp perm :
  0 <= pp < 2^20 -> 0 <= perm < 4096 ->
  0 <= mkpte pp perm < 2^32 /\ present (mkpte pp perm) = true /\ pgn (mkpte pp perm) = pp.
Proof.
  intros Hp Hm. pose proof (mkpte_spec pp perm Hp Hm) as [He Hb].
  assert (0 <= mkpte pp perm < 2^32) by lia.
  split; [done|]. split.
  - unfold present, mkpte, PTE_P, truth. rewrite Z.land_lor_distr_l.
    change (1 .& 1) with 1. rewrite negb_true_iff, Z.eqb_neq.
    intros [_ ?]%Z.lor_eq_0_iff. lia.
  - rewrite pgn_div by done. rewrite He. rewrite Z.div_add_l by lia. rewrite Z.div_small; lia.
Qed.
