(* ===== verification/DevState.v ===== *)
(** * DevState: the state of the devices' drivers

    One record per driver with its C globals: the console ([kern/console.c]), the mouse
    ([kern/mouse.c]) and the network card ([kern/e1000.c]).  What the hardware will deliver is
    part of the state too: the bytes waiting in the 8042 controller that keyboard and mouse
    share, the bytes waiting in the serial port, and the values of the network card's
    interrupt cause register at its next reads.  The frame buffer of the VGA driver is not
    here: it is ordinary physical memory. *)

From S2P Require Import Prelude.

(** [cons] and the other statics of kern/console.c *)
Record console := mkConsole {
  cons_buf : gmap Z Z;  (* uint8_t buf[CONSBUFSIZE] *)
  cons_rpos : Z;
  cons_wpos : Z;
  kbd_shift : Z;  (* static of kbd_proc_data *)
  serial_exists : bool;
  crt_buf : gmap Z Z;  (* uint16_t cells of the text screen *)
  crt_pos : Z;  (* uint16_t *)
  addr_6845 : Z;
  cons_out : list (Z * Z);  (* outb: port and byte, latest first *)
}.

(** [struct mouse_u_pkt] (inc/mouse.h) *)
Record mouse_u_pkt := mkPkt {
  pkt_x : Z;
  pkt_y : Z;
  pkt_type : Z;
}.

(** The anonymous [packet] of kern/mouse.c *)
Record mouse_packet := mkPacket {
  x_sgn : Z;
  y_sgn : Z;
  l_btn : Z;
  r_btn : Z;
  m_btn : Z;
  x_overflow : Z;
  y_overflow : Z;
  x_mov : Z;
  y_mov : Z;
  pk_tick : Z;
}.

(** The statics of kern/mouse.c *)
Record mouse := mkMouse {
  curr_x : Z;
  curr_y : Z;
  prev_x : Z;
  prev_y : Z;
  packet : mouse_packet;
  lastclicktick : Z;
  recovery : Z;
  color_backup : gmap (Z * Z) Z;  (* color_backup[i][j] *)
  mouse_color : gmap Z Z;
  m_buf : gmap Z mouse_u_pkt;  (* m_pool.buf[BUFSIZE] *)
  m_rpos : Z;
  m_wpos : Z;
}.

(** The fields of [struct e1000_tx_desc] (kern/e1000.h) the driver uses *)
Record e1000_desc := mkDesc {
  desc_addr : Z;
  desc_length : Z;
  desc_cmd : Z;
  desc_status : Z;
}.

(** The globals of kern/e1000.c and the registers of the card the driver reads back *)
Record e1000 := mkE1000 {
  tx_desc_pool : gmap Z e1000_desc;
  rx_desc_pool : gmap Z e1000_desc;
  rec_head_index : Z;
  regs : gmap Z Z;  (* the card's registers as last written, by offset *)
  icr_in : list Z;  (* the interrupt causes the next reads of ICR return *)
  e1000_mac : list Z;
  out_ns : Z;  (* statics of e1000_intr *)
  in_ns : Z;
}.

Record devices := mkDevices {
  cons : console;
  mous : mouse;
  nic : e1000;
  i8042 : list (Z * Z);  (* pending bytes of the controller: status, data *)
  serial_in : list Z;  (* pending bytes of the serial port *)
}.

(** ** Field updates *)

Definition set_cons_buf (v : gmap Z Z) (r : console) : console :=
  mkConsole v (cons_rpos r) (cons_wpos r) (kbd_shift r) (serial_exists r) (crt_buf r) (crt_pos
    r) (addr_6845 r) (cons_out r).
Definition set_cons_rpos (v : Z) (r : console) : console :=
  mkConsole (cons_buf r) v (cons_wpos r) (kbd_shift r) (serial_exists r) (crt_buf r) (crt_pos
    r) (addr_6845 r) (cons_out r).
Definition set_cons_wpos (v : Z) (r : console) : console :=
  mkConsole (cons_buf r) (cons_rpos r) v (kbd_shift r) (serial_exists r) (crt_buf r) (crt_pos
    r) (addr_6845 r) (cons_out r).
Definition set_kbd_shift (v : Z) (r : console) : console :=
  mkConsole (cons_buf r) (cons_rpos r) (cons_wpos r) v (serial_exists r) (crt_buf r) (crt_pos
    r) (addr_6845 r) (cons_out r).
Definition set_serial_exists (v : bool) (r : console) : console :=
  mkConsole (cons_buf r) (cons_rpos r) (cons_wpos r) (kbd_shift r) v (crt_buf r) (crt_pos r)
    (addr_6845 r) (cons_out r).
Definition set_crt_buf (v : gmap Z Z) (r : console) : console :=
  mkConsole (cons_buf r) (cons_rpos r) (cons_wpos r) (kbd_shift r) (serial_exists r) v
    (crt_pos r) (addr_6845 r) (cons_out r).
Definition set_crt_pos (v : Z) (r : console) : console :=
  mkConsole (cons_buf r) (cons_rpos r) (cons_wpos r) (kbd_shift r) (serial_exists r) (crt_buf
    r) v (addr_6845 r) (cons_out r).
Definition set_addr_6845 (v : Z) (r : console) : console :=
  mkConsole (cons_buf r) (cons_rpos r) (cons_wpos r) (kbd_shift r) (serial_exists r) (crt_buf
    r) (crt_pos r) v (cons_out r).
Definition set_cons_out (v : list (Z * Z)) (r : console) : console :=
  mkConsole (cons_buf r) (cons_rpos r) (cons_wpos r) (kbd_shift r) (serial_exists r) (crt_buf
    r) (crt_pos r) (addr_6845 r) v.
Definition set_x_sgn (v : Z) (r : mouse_packet) : mouse_packet :=
  mkPacket v (y_sgn r) (l_btn r) (r_btn r) (m_btn r) (x_overflow r) (y_overflow r) (x_mov r)
    (y_mov r) (pk_tick r).
Definition set_y_sgn (v : Z) (r : mouse_packet) : mouse_packet :=
  mkPacket (x_sgn r) v (l_btn r) (r_btn r) (m_btn r) (x_overflow r) (y_overflow r) (x_mov r)
    (y_mov r) (pk_tick r).
Definition set_l_btn (v : Z) (r : mouse_packet) : mouse_packet :=
  mkPacket (x_sgn r) (y_sgn r) v (r_btn r) (m_btn r) (x_overflow r) (y_overflow r) (x_mov r)
    (y_mov r) (pk_tick r).
Definition set_r_btn (v : Z) (r : mouse_packet) : mouse_packet :=
  mkPacket (x_sgn r) (y_sgn r) (l_btn r) v (m_btn r) (x_overflow r) (y_overflow r) (x_mov r)
    (y_mov r) (pk_tick r).
Definition set_m_btn (v : Z) (r : mouse_packet) : mouse_packet :=
  mkPacket (x_sgn r) (y_sgn r) (l_btn r) (r_btn r) v (x_overflow r) (y_overflow r) (x_mov r)
    (y_mov r) (pk_tick r).
Definition set_x_overflow (v : Z) (r : mouse_packet) : mouse_packet :=
  mkPacket (x_sgn r) (y_sgn r) (l_btn r) (r_btn r) (m_btn r) v (y_overflow r) (x_mov r) (y_mov
    r) (pk_tick r).
Definition set_y_overflow (v : Z) (r : mouse_packet) : mouse_packet :=
  mkPacket (x_sgn r) (y_sgn r) (l_btn r) (r_btn r) (m_btn r) (x_overflow r) v (x_mov r) (y_mov
    r) (pk_tick r).
Definition set_x_mov (v : Z) (r : mouse_packet) : mouse_packet :=
  mkPacket (x_sgn r) (y_sgn r) (l_btn r) (r_btn r) (m_btn r) (x_overflow r) (y_overflow r) v
    (y_mov r) (pk_tick r).
Definition set_y_mov (v : Z) (r : mouse_packet) : mouse_packet :=
  mkPacket (x_sgn r) (y_sgn r) (l_btn r) (r_btn r) (m_btn r) (x_overflow r) (y_overflow r)
    (x_mov r) v (pk_tick r).
Definition set_pk_tick (v : Z) (r : mouse_packet) : mouse_packet :=
  mkPacket (x_sgn r) (y_sgn r) (l_btn r) (r_btn r) (m_btn r) (x_overflow r) (y_overflow r)
    (x_mov r) (y_mov r) v.
Definition set_curr_x (v : Z) (r : mouse) : mouse :=
  mkMouse v (curr_y r) (prev_x r) (prev_y r) (packet r) (lastclicktick r) (recovery r)
    (color_backup r) (mouse_color r) (m_buf r) (m_rpos r) (m_wpos r).
Definition set_curr_y (v : Z) (r : mouse) : mouse :=
  mkMouse (curr_x r) v (prev_x r) (prev_y r) (packet r) (lastclicktick r) (recovery r)
    (color_backup r) (mouse_color r) (m_buf r) (m_rpos r) (m_wpos r).
Definition set_prev_x (v : Z) (r : mouse) : mouse :=
  mkMouse (curr_x r) (curr_y r) v (prev_y r) (packet r) (lastclicktick r) (recovery r)
    (color_backup r) (mouse_color r) (m_buf r) (m_rpos r) (m_wpos r).
Definition set_prev_y (v : Z) (r : mouse) : mouse :=
  mkMouse (curr_x r) (curr_y r) (prev_x r) v (packet r) (lastclicktick r) (recovery r)
    (color_backup r) (mouse_color r) (m_buf r) (m_rpos r) (m_wpos r).
Definition set_packet (v : mouse_packet) (r : mouse) : mouse :=
  mkMouse (curr_x r) (curr_y r) (prev_x r) (prev_y r) v (lastclicktick r) (recovery r)
    (color_backup r) (mouse_color r) (m_buf r) (m_rpos r) (m_wpos r).
Definition set_lastclicktick (v : Z) (r : mouse) : mouse :=
  mkMouse (curr_x r) (curr_y r) (prev_x r) (prev_y r) (packet r) v (recovery r) (color_backup
    r) (mouse_color r) (m_buf r) (m_rpos r) (m_wpos r).
Definition set_recovery (v : Z) (r : mouse) : mouse :=
  mkMouse (curr_x r) (curr_y r) (prev_x r) (prev_y r) (packet r) (lastclicktick r) v
    (color_backup r) (mouse_color r) (m_buf r) (m_rpos r) (m_wpos r).
Definition set_color_backup (v : gmap (Z * Z) Z) (r : mouse) : mouse :=
  mkMouse (curr_x r) (curr_y r) (prev_x r) (prev_y r) (packet r) (lastclicktick r) (recovery
    r) v (mouse_color r) (m_buf r) (m_rpos r) (m_wpos r).
Definition set_mouse_color (v : gmap Z Z) (r : mouse) : mouse :=
  mkMouse (curr_x r) (curr_y r) (prev_x r) (prev_y r) (packet r) (lastclicktick r) (recovery
    r) (color_backup r) v (m_buf r) (m_rpos r) (m_wpos r).
Definition set_m_buf (v : gmap Z mouse_u_pkt) (r : mouse) : mouse :=
  mkMouse (curr_x r) (curr_y r) (prev_x r) (prev_y r) (packet r) (lastclicktick r) (recovery
    r) (color_backup r) (mouse_color r) v (m_rpos r) (m_wpos r).
Definition set_m_rpos (v : Z) (r : mouse) : mouse :=
  mkMouse (curr_x r) (curr_y r) (prev_x r) (prev_y r) (packet r) (lastclicktick r) (recovery
    r) (color_backup r) (mouse_color r) (m_buf r) v (m_wpos r).
Definition set_m_wpos (v : Z) (r : mouse) : mouse :=
  mkMouse (curr_x r) (curr_y r) (prev_x r) (prev_y r) (packet r) (lastclicktick r) (recovery
    r) (color_backup r) (mouse_color r) (m_buf r) (m_rpos r) v.
Definition set_desc_addr (v : Z) (r : e1000_desc) : e1000_desc :=
  mkDesc v (desc_length r) (desc_cmd r) (desc_status r).
Definition set_desc_length (v : Z) (r : e1000_desc) : e1000_desc :=
  mkDesc (desc_addr r) v (desc_cmd r) (desc_status r).
Definition set_desc_cmd (v : Z) (r : e1000_desc) : e1000_desc :=
  mkDesc (desc_addr r) (desc_length r) v (desc_status r).
Definition set_desc_status (v : Z) (r : e1000_desc) : e1000_desc :=
  mkDesc (desc_addr r) (desc_length r) (desc_cmd r) v.
Definition set_tx_desc_pool (v : gmap Z e1000_desc) (r : e1000) : e1000 :=
  mkE1000 v (rx_desc_pool r) (rec_head_index r) (regs r) (icr_in r) (e1000_mac r) (out_ns r)
    (in_ns r).
Definition set_rx_desc_pool (v : gmap Z e1000_desc) (r : e1000) : e1000 :=
  mkE1000 (tx_desc_pool r) v (rec_head_index r) (regs r) (icr_in r) (e1000_mac r) (out_ns r)
    (in_ns r).
Definition set_rec_head_index (v : Z) (r : e1000) : e1000 :=
  mkE1000 (tx_desc_pool r) (rx_desc_pool r) v (regs r) (icr_in r) (e1000_mac r) (out_ns r)
    (in_ns r).
Definition set_regs (v : gmap Z Z) (r : e1000) : e1000 :=
  mkE1000 (tx_desc_pool r) (rx_desc_pool r) (rec_head_index r) v (icr_in r) (e1000_mac r)
    (out_ns r) (in_ns r).
Definition set_icr_in (v : list Z) (r : e1000) : e1000 :=
  mkE1000 (tx_desc_pool r) (rx_desc_pool r) (rec_head_index r) (regs r) v (e1000_mac r)
    (out_ns r) (in_ns r).
Definition set_e1000_mac (v : list Z) (r : e1000) : e1000 :=
  mkE1000 (tx_desc_pool r) (rx_desc_pool r) (rec_head_index r) (regs r) (icr_in r) v (out_ns
    r) (in_ns r).
Definition set_out_ns (v : Z) (r : e1000) : e1000 :=
  mkE1000 (tx_desc_pool r) (rx_desc_pool r) (rec_head_index r) (regs r) (icr_in r) (e1000_mac
    r) v (in_ns r).
Definition set_in_ns (v : Z) (r : e1000) : e1000 :=
  mkE1000 (tx_desc_pool r) (rx_desc_pool r) (rec_head_index r) (regs r) (icr_in r) (e1000_mac
    r) (out_ns r) v.
Definition set_cons (v : console) (r : devices) : devices :=
  mkDevices v (mous r) (nic r) (i8042 r) (serial_in r).
Definition set_mous (v : mouse) (r : devices) : devices :=
  mkDevices (cons r) v (nic r) (i8042 r) (serial_in r).
Definition set_nic (v : e1000) (r : devices) : devices :=
  mkDevices (cons r) (mous r) v (i8042 r) (serial_in r).
Definition set_i8042 (v : list (Z * Z)) (r : devices) : devices :=
  mkDevices (cons r) (mous r) (nic r) v (serial_in r).
Definition set_serial_in (v : list Z) (r : devices) : devices :=
  mkDevices (cons r) (mous r) (nic r) (i8042 r) v.
