(* ===== verification/Console.v ===== *)
(** * Console: the console driver ([kern/console.c])

    Keyboard and serial input are polled from the hardware queues of [DevState] into the
    circular buffer [cons]; output goes to the serial port, the parallel port and the text
    screen.  Port writes are recorded, newest first, as pairs of port and byte.  The
    theorems: the input buffer is a first-in first-out queue as long as it does not overrun,
    polling terminates, and the cursor never leaves the screen. *)

From S2P Require Import Prelude DevState.

(** ** Constants (kern/console.h, inc/kbdreg.h, kern/console.c) *)

Definition CRT_ROWS : Z := 25.
Definition CRT_COLS : Z := 80.
Definition CRT_SIZE : Z := CRT_ROWS * CRT_COLS.
Definition CONSBUFSIZE : Z := 512.
Definition COM1 : Z := 0x3F8.
Definition COM_TX : Z := 0.

Module Kbd.

Definition KEY_HOME : Z := 0xe0.
Definition KEY_END : Z := 0xe1.
Definition KEY_UP : Z := 0xe2.
Definition KEY_DN : Z := 0xe3.
Definition KEY_LF : Z := 0xe4.
Definition KEY_RT : Z := 0xe5.
Definition KEY_PGUP : Z := 0xe6.
Definition KEY_PGDN : Z := 0xe7.
Definition KEY_INS : Z := 0xe8.
Definition KEY_DEL : Z := 0xe9.
Definition KBS_DIB : Z := 0x01.
Definition NO : Z := 0.
Definition SHIFT : Z := 1 .<< 0.
Definition CTL : Z := 1 .<< 1.
Definition ALT : Z := 1 .<< 2.
Definition CAPSLOCK : Z := 1 .<< 3.
Definition NUMLOCK : Z := 1 .<< 4.
Definition SCROLLLOCK : Z := 1 .<< 5.
Definition E0ESC : Z := 1 .<< 6.
Definition C (x : Z) : Z := u8 (x - 64).

(** ** Key maps *)

(** A C array initialiser: the leading elements and the designated ones; the rest is 0. *)
Definition table (row : list Z) (designated : list (Z * Z)) (i : Z) : Z :=
  match list_find (fun p => fst p = i) designated with
  | Some (_, (_, v)) => v
  | None => nth (Z.to_nat i) row 0
  end.

Definition shiftcode : Z -> Z := table []
  [(0x1D, CTL); (0x2A, SHIFT); (0x36, SHIFT); (0x38, ALT); (0x9D, CTL); (0xB8, ALT)].
Definition togglecode : Z -> Z := table []
  [(0x3A, CAPSLOCK); (0x45, NUMLOCK); (0x46, SCROLLLOCK)].
Definition normalmap : Z -> Z := table
  [
   NO; 27; 49; 50; 51; 52; 53; 54; 55; 56; 57; 48; 45; 61; 8; 9; 113; 119; 101; 114; 116;
   121; 117; 105; 111; 112; 91; 93; 10; NO; 97; 115; 100; 102; 103; 104; 106; 107; 108; 59;
   39; 96; NO; 92; 122; 120; 99; 118; 98; 110; 109; 44; 46; 47; NO; 42; NO; 32; NO; NO; NO;
   NO; NO; NO; NO; NO; NO; NO; NO; NO; NO; 55; 56; 57; 45; 52; 53; 54; 43; 49; 50; 51; 48;
   46; NO; NO; NO; NO]
  [
   (0xC7, KEY_HOME); (0x9C, 10); (0xB5, 47); (0xC8, KEY_UP); (0xC9, KEY_PGUP);
   (0xCB, KEY_LF); (0xCD, KEY_RT); (0xCF, KEY_END); (0xD0, KEY_DN); (0xD1, KEY_PGDN);
   (0xD2, KEY_INS); (0xD3, KEY_DEL)].
Definition shiftmap : Z -> Z := table
  [
   NO; 27; 33; 64; 35; 36; 37; 94; 38; 42; 40; 41; 95; 43; 8; 9; 81; 87; 69; 82; 84; 89;
   85; 73; 79; 80; 123; 125; 10; NO; 65; 83; 68; 70; 71; 72; 74; 75; 76; 58; 34; 126; NO;
   124; 90; 88; 67; 86; 66; 78; 77; 60; 62; 63; NO; 42; NO; 32; NO; NO; NO; NO; NO; NO; NO;
   NO; NO; NO; NO; NO; NO; 55; 56; 57; 45; 52; 53; 54; 43; 49; 50; 51; 48; 46; NO; NO; NO;
   NO]
  [
   (0xC7, KEY_HOME); (0x9C, 10); (0xB5, 47); (0xC8, KEY_UP); (0xC9, KEY_PGUP);
   (0xCB, KEY_LF); (0xCD, KEY_RT); (0xCF, KEY_END); (0xD0, KEY_DN); (0xD1, KEY_PGDN);
   (0xD2, KEY_INS); (0xD3, KEY_DEL)].
Definition ctlmap : Z -> Z := table
  [
   NO; NO; NO; NO; NO; NO; NO; NO; NO; NO; NO; NO; NO; NO; NO; NO; C 81; C 87; C 69; C 82;
   C 84; C 89; C 85; C 73; C 79; C 80; NO; NO; 13; NO; C 65; C 83; C 68; C 70; C 71; C 72;
   C 74; C 75; C 76; NO; NO; NO; NO; C 92; C 90; C 88; C 67; C 86; C 66; C 78; C 77; NO;
   NO; C 47; NO; NO]
  [
   (0x97, KEY_HOME); (0xB5, C 47); (0xC8, KEY_UP); (0xC9, KEY_PGUP); (0xCB, KEY_LF);
   (0xCD, KEY_RT); (0xCF, KEY_END); (0xD0, KEY_DN); (0xD1, KEY_PGDN); (0xD2, KEY_INS);
   (0xD3, KEY_DEL)].

Definition charcode (i : Z) : Z -> Z :=
  if i =? 0 then normalmap else if i =? 1 then shiftmap else ctlmap.

End Kbd.

(** ** Output *)

Definition rd (b : gmap Z Z) (i : Z) : Z := default 0 (b !! i).

Definition outb (port data : Z) (st : console) : console :=
  set_cons_out ((port, u8 data) :: cons_out st) st.

(** The wait for the port to become ready only reads its status. *)
Definition serial_putc (c : Z) (st : console) : console := outb (COM1 + COM_TX) c st.

Definition lpt_putc (c : Z) (st : console) : console :=
  outb (0x378 + 2) 0x08 (outb (0x378 + 2) (0x08 .| 0x04 .| 0x01) (outb (0x378 + 0) c st)).

(** memmove of the lines 1.. to the lines 0.., and a blank last line *)
Definition crt_scroll (b : gmap Z Z) : gmap Z Z :=
  list_to_map (map (fun i =>
    (i, if i <? CRT_SIZE - CRT_COLS then rd b (i + CRT_COLS) else 0x0700 .| 32))
    (seqZ 0 CRT_SIZE)) ∪ b.

(** [cga_putc], with the five blanks of a tab as an argument. *)
Definition cga_putc_with (blanks : console -> console) (c : Z) (st : console) : console :=
  let c := if Z.ldiff c 0xFF =? 0 then c .| 0x0700 else c in
  let ch := c .& 0xFF in
  let st :=
    if ch =? 8 then
      if 0 <? crt_pos st then
        let pos := crt_pos st - 1 in
        set_crt_buf (<[pos := u16 (Z.ldiff c 0xFF .| 32)]> (crt_buf st)) (set_crt_pos pos st)
      else st
    else if (ch =? 10) || (ch =? 13) then
      let pos := if ch =? 10 then u16 (crt_pos st + CRT_COLS) else crt_pos st in
      set_crt_pos (pos - pos mod CRT_COLS) st
    else if ch =? 9 then blanks st
    else
      set_crt_buf (<[crt_pos st := u16 c]> (crt_buf st)) (set_crt_pos (u16 (crt_pos st + 1)) st) in
  let st :=
    if CRT_SIZE <=? crt_pos st then
      set_crt_buf (crt_scroll (crt_buf st)) (set_crt_pos (u16 (crt_pos st - CRT_COLS)) st)
    else st in
  let st := outb (addr_6845 st) 14 st in
  let st := outb (addr_6845 st + 1) (crt_pos st .>> 8) st in
  let st := outb (addr_6845 st) 15 st in
  outb (addr_6845 st + 1) (crt_pos st) st.

(** A blank never reaches the tab case. *)
Definition cons_putc_blank (st : console) : console :=
  cga_putc_with id 32 (lpt_putc 32 (serial_putc 32 st)).

Definition cga_putc (c : Z) (st : console) : console :=
  cga_putc_with (Nat.iter 5 cons_putc_blank) c st.

Definition cons_putc (c : Z) (st : console) : console :=
  cga_putc c (lpt_putc c (serial_putc c st)).

Definition cputchar (c : Z) (st : console) : console := cons_putc c st.

(** [cprintf] of a string without conversions *)
Definition cputs (s : list Z) (st : console) : console := fold_left (fun st c => cputchar c st) s st.

(** ** Input *)

Definition upd_cons (f : console -> console) (d : devices) : devices := set_cons (f (cons d)) d.

(** The 8042 controller: the status of the byte that waits, and reading that byte. *)
Definition inb_status (d : devices) : Z := match i8042 d with [] => 0 | (st, _) :: _ => u8 st end.
Definition inb_data (d : devices) : Z * devices :=
  match i8042 d with [] => (0, d) | (_, x) :: q => (u8 x, set_i8042 q d) end.

Definition rebooting : list Z := [82; 101; 98; 111; 111; 116; 105; 110; 103; 33; 10].

(** What one byte from the keyboard does: the character (0 for none) and the new modifiers. *)
Definition kbd_decode (shift data : Z) : Z * Z :=
  if data =? 0xE0 then (0, shift .| Kbd.E0ESC)
  else if truth (data .& 0x80) then
    let data := if truth (shift .& Kbd.E0ESC) then data else data .& 0x7F in
    (0, Z.ldiff shift (Kbd.shiftcode data .| Kbd.E0ESC))
  else
    let '(data, shift) :=
      if truth (shift .& Kbd.E0ESC) then (data .| 0x80, Z.ldiff shift Kbd.E0ESC)
      else (data, shift) in
    let shift := Z.lxor (shift .| Kbd.shiftcode data) (Kbd.togglecode data) in
    let c := Kbd.charcode (shift .& (Kbd.CTL .| Kbd.SHIFT)) data in
    let c :=
      if truth (shift .& Kbd.CAPSLOCK) then
        if (97 <=? c) && (c <=? 122) then c + (65 - 97)
        else if (65 <=? c) && (c <=? 90) then c + (97 - 65) else c
      else c in
    (c, shift).

Definition kbd_proc_data (d : devices) : Z * devices :=
  let status := inb_status d in
  if status .& Kbd.KBS_DIB =? 0 then (-1, d)
  else if truth (status .& 0x20) then (-1, d)
  else
    let '(data, d) := inb_data d in
    let '(c, shift) := kbd_decode (kbd_shift (cons d)) data in
    let d := upd_cons (set_kbd_shift shift) d in
    (* only a key press returns a character *)
    let d :=
      if (Z.ldiff (Kbd.CTL .| Kbd.ALT) shift =? 0) && (c =? Kbd.KEY_DEL)
      then upd_cons (fun st => outb 0x92 0x3 (cputs rebooting st)) d else d in
    (c, d).

Definition serial_proc_data (d : devices) : Z * devices :=
  match serial_in d with
  | [] => (-1, d)
  | x :: q => (u8 x, set_serial_in q d)
  end.

(** cons.buf[cons.wpos++] = c *)
Definition cons_enqueue (c : Z) (st : console) : console :=
  let wpos := cons_wpos st + 1 in
  set_cons_wpos (if wpos =? CONSBUFSIZE then 0 else wpos)
    (set_cons_buf (<[cons_wpos st := u8 c]> (cons_buf st)) st).

(** [fuel] bounds the iterations; [None] when it runs out. *)
Fixpoint cons_intr (fuel : nat) (proc : devices -> Z * devices) (d : devices) : option devices :=
  match fuel with
  | O => None
  | S fuel =>
      let '(c, d) := proc d in
      if c =? -1 then Some d
      else if c =? 0 then cons_intr fuel proc d
      else cons_intr fuel proc (upd_cons (cons_enqueue c) d)
  end.

(** One iteration per byte that waits, and one that finds nothing. *)
Definition serial_intr (d : devices) : option devices :=
  if serial_exists (cons d) then cons_intr (S (length (serial_in d))) serial_proc_data d else Some d.

Definition kbd_intr (d : devices) : option devices :=
  cons_intr (S (length (i8042 d))) kbd_proc_data d.

Definition cons_getc (d : devices) : option (Z * devices) :=
  d ← serial_intr d;
  d ← kbd_intr d;
  let st := cons d in
  if cons_rpos st =? cons_wpos st then Some (0, d)
  else
    let c := rd (cons_buf st) (cons_rpos st) in
    let rpos := cons_rpos st + 1 in
    Some (c, upd_cons (set_cons_rpos (if rpos =? CONSBUFSIZE then 0 else rpos)) d).

(** ** The cursor stays on the screen *)

#[export] Hint Unfold CRT_ROWS CRT_COLS CRT_SIZE CONSBUFSIZE : cconst.

(** Cursor and all cells ever written are inside the 80x25 screen. *)
Definition cga_ok (st : console) : Prop :=
  0 <= crt_pos st < CRT_SIZE /\ forall i, is_Some (crt_buf st !! i) -> 0 <= i < CRT_SIZE.

Lemma crt_scroll_dom b i :
  (forall i, is_Some (b !! i) -> 0 <= i < CRT_SIZE) ->
  is_Some (crt_scroll b !! i) -> 0 <= i < CRT_SIZE.
Proof.
  intros Hb [v Hv]. unfold crt_scroll in Hv. apply lookup_union_Some_raw in Hv as [Hv|[_ Hv]].
  - apply elem_of_list_to_map_2, list_elem_of_fmap in Hv as (j & [= -> _] & Hj).
    apply elem_of_seqZ in Hj. lia.
  - apply Hb. eauto.
Qed.

Lemma insert_dom_ok (b : gmap Z Z) pos v n :
  0 <= pos < n -> (forall i, is_Some (b !! i) -> 0 <= i < n) ->
  forall i, is_Some (<[pos := v]> b !! i) -> 0 <= i < n.
Proof.
  intros Hp Hb i Hi. destruct (decide (pos = i)) as [->|Hne]; [done|].
  rewrite lookup_insert_ne in Hi by done. auto.
Qed.

Lemma outb_ok port v st : cga_ok (outb port v st) <-> cga_ok st.
Proof. done. Qed.

Lemma cga_putc_with_ok blanks c st :
  (forall st, cga_ok st -> cga_ok (blanks st)) -> cga_ok st -> cga_ok (cga_putc_with blanks c st).
Proof.
  intros Hbl Hok. unfold cga_putc_with. cbv zeta.
  set (c' := if Z.ldiff c 255 =? 0 then c .| 1792 else c). clearbody c'.
  rewrite !outb_ok.
  match goal with |- cga_ok (if CRT_SIZE <=? crt_pos ?s then _ else _) => set (st1 := s) end.
  assert (H1 : 0 <= crt_pos st1 <= CRT_SIZE /\ forall i, is_Some (crt_buf st1 !! i) -> 0 <= i < CRT_SIZE).
  { unfold st1. clear st1. destruct Hok as [Hp Hb]. destruct (_ =? 8).
    - destruct (Z.ltb_spec 0 (crt_pos st)); simpl; [|split; [clia|done]].
      split; [clia|]. apply insert_dom_ok; [clia|done].
    - destruct (_ || _); simpl.
      + split; [|done]. destruct (_ =? 10).
        * rewrite u16_small by clia. dlia.
        * dlia.
      + destruct (_ =? 9).
        * destruct (Hbl st (conj Hp Hb)). split; [lia|done].
        * simpl. rewrite u16_small by clia. split; [clia|]. by apply insert_dom_ok. }
  destruct H1 as [Hp Hb]. destruct (Z.leb_spec CRT_SIZE (crt_pos st1)).
  - split; simpl; [rewrite u16_small by clia; clia|]. intros i. by apply crt_scroll_dom.
  - split; [lia|done].
Qed.

Lemma cons_putc_ok c st : cga_ok st -> cga_ok (cons_putc c st).
Proof.
  intros Hok. unfold cons_putc, cga_putc. apply cga_putc_with_ok; [|done].
  assert (Hb : forall st, cga_ok st -> cga_ok (cons_putc_blank st)).
  { intros. unfold cons_putc_blank. by apply cga_putc_with_ok. }
  intros. simpl. auto 10.
Qed.

(** ** The input buffer is a queue *)

(** The characters that wait between [rpos] and [wpos]. *)
Definition cons_len (st : console) : Z := (cons_wpos st - cons_rpos st) mod CONSBUFSIZE.
Definition cons_contents (st : console) : list Z :=
  map (fun k => rd (cons_buf st) ((cons_rpos st + k) mod CONSBUFSIZE)) (seqZ 0 (cons_len st)).
Definition ring_ok (st : console) : Prop :=
  0 <= cons_rpos st < CONSBUFSIZE /\ 0 <= cons_wpos st < CONSBUFSIZE.

Lemma enqueue_ring_ok c st : ring_ok st -> ring_ok (cons_enqueue c st).
Proof.
  intros [Hr Hw]. split; simpl; [done|].
  destruct (Z.eqb_spec (cons_wpos st + 1) CONSBUFSIZE); clia.
Qed.

Lemma enqueue_len c st :
  ring_ok st -> cons_len st < CONSBUFSIZE - 1 -> cons_len (cons_enqueue c st) = cons_len st + 1.
Proof.
  intros [Hr Hw]. unfold cons_len. simpl. cc.
  destruct (Z.eqb_spec (cons_wpos st + 1) 512); dlia.
Qed.

Lemma enqueue_contents c st :
  ring_ok st -> cons_len st < CONSBUFSIZE - 1 ->
  cons_contents (cons_enqueue c st) = cons_contents st ++ [u8 c].
Proof.
  intros Hok Hlen. assert (Hok' := Hok). destruct Hok' as [Hr Hw].
  unfold cons_contents. rewrite enqueue_len by done.
  assert (Hl0 : 0 <= cons_len st) by (unfold cons_len; dlia).
  rewrite seqZ_app, map_app by lia. f_equal.
  - apply map_ext_in. intros k Hk. apply list_elem_of_In, elem_of_seqZ in Hk. simpl.
    unfold rd. rewrite lookup_insert_ne; [done|].
    unfold cons_len in *. intros Heq. dlia.
  - rewrite Z.add_0_l, seqZ_cons, seqZ_nil by lia. cbn [map]. unfold rd.
    cbn [cons_buf cons_rpos cons_enqueue set_cons_wpos set_cons_buf].
    replace ((cons_rpos st + cons_len st) mod CONSBUFSIZE) with (cons_wpos st).
    2:{ unfold cons_len. cc. dlia. }
    by rewrite lookup_insert_eq.
Qed.

(** When 511 characters wait, one more makes the buffer look empty. *)
Lemma enqueue_overrun c st :
  ring_ok st -> cons_len st = CONSBUFSIZE - 1 -> cons_contents (cons_enqueue c st) = [].
Proof.
  intros [Hr Hw] Hlen. unfold cons_contents.
  replace (cons_len (cons_enqueue c st)) with 0; [done|].
  revert Hlen. unfold cons_len. simpl. cc. destruct (Z.eqb_spec (cons_wpos st + 1) 512); dlia.
Qed.

(** Output leaves the input buffer alone. *)
Definition same_ring (st st' : console) : Prop :=
  cons_buf st' = cons_buf st /\ cons_rpos st' = cons_rpos st /\ cons_wpos st' = cons_wpos st /\
  kbd_shift st' = kbd_shift st.

Lemma same_ring_trans st1 st2 st3 : same_ring st1 st2 -> same_ring st2 st3 -> same_ring st1 st3.
Proof. unfold same_ring. intros (-> & -> & -> & ->) (-> & -> & -> & ->). done. Qed.

Lemma cga_putc_with_ring blanks c st :
  (forall st, same_ring st (blanks st)) -> same_ring st (cga_putc_with blanks c st).
Proof.
  intros Hb. unfold cga_putc_with. cbv zeta. specialize (Hb st).
  repeat case_match; simpl; (done || apply Hb).
Qed.

Lemma cons_putc_ring c st : same_ring st (cons_putc c st).
Proof.
  unfold cons_putc, cga_putc. eapply same_ring_trans; [|apply cga_putc_with_ring]; [done|].
  assert (Hb : forall st, same_ring st (cons_putc_blank st)).
  { intros st'. unfold cons_putc_blank.
    eapply same_ring_trans; [|apply cga_putc_with_ring]; done. }
  intros st'. simpl. repeat (eapply same_ring_trans; [|apply Hb]). done.
Qed.

Lemma outb_ring port v st : same_ring st (outb port v st).
Proof. done. Qed.

Lemma cputs_ring s st : same_ring st (cputs s st).
Proof.
  unfold cputs. revert st. induction s as [|c s IH]; intros st; simpl; [done|].
  eapply same_ring_trans; [apply cons_putc_ring|apply IH].
Qed.

(** *** Characters of the keyboard *)

Lemma table_range row des i n :
  Forall (fun v => 0 <= v <= n) row -> Forall (fun p => 0 <= snd p <= n) des -> 0 <= n ->
  0 <= Kbd.table row des i <= n.
Proof.
  intros Hr Hd Hn. unfold Kbd.table. destruct (list_find _ _) as [[k [a v]]|] eqn:Hf.
  - apply list_find_Some in Hf as [Hk _]. rewrite Forall_lookup in Hd. by apply Hd in Hk.
  - destruct (decide (Z.to_nat i < length row)%nat) as [Hlt|Hge].
    + rewrite Forall_forall in Hr. apply Hr, list_elem_of_In. by apply nth_In.
    + rewrite nth_overflow by lia. lia.
Qed.

Lemma charcode_range k x : 0 <= Kbd.charcode k x <= 255.
Proof.
  unfold Kbd.charcode, Kbd.normalmap, Kbd.shiftmap, Kbd.ctlmap.
  repeat case_match; apply table_range; try lia;
    by apply (bool_decide_unpack _); vm_compute.
Qed.

Lemma kbd_decode_range shift x : 0 <= (kbd_decode shift x).1 <= 255.
Proof.
  unfold kbd_decode. destruct (x =? 0xE0); [simpl; lia|]. destruct (truth _); [simpl; lia|].
  set (p := if truth (shift .& Kbd.E0ESC) then _ else _). destruct p as [y sh]. cbv zeta.
  match goal with |- context [Kbd.charcode ?a ?b] => pose proof (charcode_range a b) as Hc;
    generalize dependent (Kbd.charcode a b) end.
  intros c Hc. cbn [fst].
  destruct (truth _); [|lia].
  destruct (Z.leb_spec 97 c), (Z.leb_spec c 122), (Z.leb_spec 65 c), (Z.leb_spec c 90);
    cbn [andb]; lia.
Qed.

(** The characters the keyboard delivers until a byte of the mouse, or nothing, waits. *)
Fixpoint kbd_chars (shift : Z) (q : list (Z * Z)) : list Z :=
  match q with
  | [] => []
  | (st, x) :: q =>
      if (u8 st .& Kbd.KBS_DIB =? 0) || truth (u8 st .& 0x20) then []
      else
        let '(c, shift) := kbd_decode shift (u8 x) in
        (if c =? 0 then [] else [c]) ++ kbd_chars shift q
  end.

Definition serial_chars (q : list Z) : list Z := filter (fun c => c <> 0) (map u8 q).

(** *** Polling appends the delivered characters *)

Lemma contents_length st : ring_ok st -> Z.of_nat (length (cons_contents st)) = cons_len st.
Proof.
  intros _. unfold cons_contents. rewrite length_map, length_seqZ, Z2Nat.id; [done|].
  unfold cons_len. dlia.
Qed.

Lemma ring_same st st' :
  same_ring st st' -> ring_ok st ->
  ring_ok st' /\ cons_contents st' = cons_contents st /\ cons_len st' = cons_len st.
Proof.
  intros (Hb & Hr & Hw & _) Hok. unfold ring_ok, cons_contents, cons_len. rewrite Hb, Hr, Hw. done.
Qed.

Lemma serial_loop q fuel d :
  serial_in d = q -> (length q < fuel)%nat -> ring_ok (cons d) ->
  cons_len (cons d) + Z.of_nat (length (serial_chars q)) < CONSBUFSIZE ->
  exists d', cons_intr fuel serial_proc_data d = Some d' /\ ring_ok (cons d') /\
    cons_contents (cons d') = cons_contents (cons d) ++ serial_chars q /\
    i8042 d' = i8042 d /\ kbd_shift (cons d') = kbd_shift (cons d).
Proof.
  revert fuel d. induction q as [|x q IH]; intros fuel d Hq Hf Hok Hlen.
  - destruct fuel as [|fuel]; [simpl in Hf; lia|]. exists d. simpl.
    unfold serial_proc_data. rewrite Hq. split_and!; [done..|by rewrite app_nil_r|done|done].
  - destruct fuel as [|fuel]; [simpl in Hf; lia|]. simpl in Hf. cbn [cons_intr].
    unfold serial_proc_data at 1. rewrite Hq. pose proof (u8_range x).
    destruct (Z.eqb_spec (u8 x) (-1)); [lia|].
    unfold serial_chars in *. cbn [map] in *. rewrite filter_cons in *.
    destruct (Z.eqb_spec (u8 x) 0) as [H0|H0].
    + rewrite decide_False in * by (by intros []).
      apply (IH fuel (set_serial_in q d)); [done|lia|done..].
    + rewrite decide_True in * by done. rewrite length_cons in Hlen.
      destruct (IH fuel (upd_cons (cons_enqueue (u8 x)) (set_serial_in q d)))
        as (d' & Hd' & Hok' & Hc' & Hi & Hs); [done|lia|by apply enqueue_ring_ok| |].
      { simpl. rewrite enqueue_len by (auto; lia). lia. }
      exists d'. split; [done|]. split; [done|]. rewrite Hc'. split; [|done].
      simpl. rewrite enqueue_contents by (auto; lia).
      rewrite <- app_assoc. simpl. rewrite (u8_small (u8 x)) by lia. done.
Qed.

Lemma kbd_loop q fuel d :
  i8042 d = q -> (length q < fuel)%nat -> ring_ok (cons d) ->
  cons_len (cons d) + Z.of_nat (length (kbd_chars (kbd_shift (cons d)) q)) < CONSBUFSIZE ->
  exists d', cons_intr fuel kbd_proc_data d = Some d' /\ ring_ok (cons d') /\
    cons_contents (cons d') = cons_contents (cons d) ++ kbd_chars (kbd_shift (cons d)) q.
Proof.
  revert fuel d. induction q as [|[st x] q IH]; intros fuel d Hq Hf Hok Hlen.
  - destruct fuel as [|fuel]; [simpl in Hf; lia|]. exists d. simpl.
    unfold kbd_proc_data, inb_status. rewrite Hq. simpl. by rewrite app_nil_r.
  - destruct fuel as [|fuel]; [simpl in Hf; lia|]. simpl in Hf. cbn [cons_intr kbd_chars] in *.
    unfold kbd_proc_data at 1, inb_status, inb_data. rewrite Hq.
    destruct (u8 st .& Kbd.KBS_DIB =? 0); simpl; [exists d; by rewrite app_nil_r|].
    destruct (truth (u8 st .& 0x20)); simpl; [exists d; by rewrite app_nil_r|].
    simpl in Hlen. pose proof (kbd_decode_range (kbd_shift (cons d)) (u8 x)) as Hc.
    destruct (kbd_decode (kbd_shift (cons d)) (u8 x)) as [c sh]. cbn [fst] in Hc.
    set (d1 := upd_cons (set_kbd_shift sh) (set_i8042 q d)).
    set (d2 := if _ && _ then _ else d1).
    assert (Hd2 : same_ring (set_kbd_shift sh (cons d)) (cons d2) /\ i8042 d2 = q).
    { unfold d2. destruct (_ && _); [|done]. split; [|done].
      eapply same_ring_trans; [apply (cputs_ring rebooting)|apply outb_ring]. }
    destruct Hd2 as [Hring Hq2].
    assert (Hok0 : ring_ok (set_kbd_shift sh (cons d))) by done.
    destruct (ring_same _ _ Hring Hok0) as (Hok2 & Hc2 & Hl2).
    assert (Hs2 : kbd_shift (cons d2) = sh) by apply Hring.
    destruct (Z.eqb_spec c (-1)); [lia|].
    destruct (Z.eqb_spec c 0) as [->|H0].
    + destruct (IH fuel d2) as (d' & Hd' & Hok' & Hc'); [done|lia|done| |].
      { rewrite Hl2, Hs2. done. }
      exists d'. split; [done|]. split; [done|]. by rewrite Hc', Hc2, Hs2.
    + rewrite length_app in Hlen. simpl in Hlen.
      assert (Hl2' : cons_len (cons d2) = cons_len (cons d)) by (rewrite Hl2; done).
      destruct (IH fuel (upd_cons (cons_enqueue c) d2)) as (d' & Hd' & Hok' & Hc');
        [done|lia|by apply enqueue_ring_ok| |].
      { simpl. rewrite enqueue_len by (auto; lia). rewrite Hs2. lia. }
      exists d'. split; [done|]. split; [done|]. rewrite Hc'. simpl.
      rewrite enqueue_contents by (auto; lia). rewrite Hc2, Hs2, <- app_assoc. simpl.
      by rewrite u8_small by lia.
Qed.

(** *** The loops end *)

Lemma cons_intr_total proc (len : devices -> nat) :
  (forall f d, len (upd_cons f d) = len d) ->
  (forall d, (proc d).1 = -1 \/ (len (proc d).2 < len d)%nat) ->
  forall fuel d, (len d < fuel)%nat -> is_Some (cons_intr fuel proc d).
Proof.
  intros Hlen Hproc fuel. induction fuel as [|fuel IH]; intros d Hd; [lia|]. cbn [cons_intr].
  specialize (Hproc d). destruct (proc d) as [c d']. cbn [fst snd] in Hproc.
  destruct (Z.eqb_spec c (-1)); [eauto|]. destruct Hproc as [|Hlt]; [done|].
  destruct (c =? 0); apply IH; [lia|]. rewrite Hlen. lia.
Qed.

Lemma serial_intr_total d : is_Some (serial_intr d).
Proof.
  unfold serial_intr. destruct (serial_exists (cons d)); [|eauto].
  apply (cons_intr_total _ (fun d => length (serial_in d))); [done| |lia].
  intros d'. unfold serial_proc_data. destruct (serial_in d') as [|x q]; [by left|]. right. simpl. lia.
Qed.

Lemma kbd_intr_total d : is_Some (kbd_intr d).
Proof.
  unfold kbd_intr. apply (cons_intr_total _ (fun d => length (i8042 d))); [done| |lia].
  intros d'. unfold kbd_proc_data, inb_status, inb_data.
  destruct (i8042 d') as [|[st x] q] eqn:Hq; [by left|].
  destruct (_ =? 0); [by left|]. destruct (truth _); [by left|]. right.
  destruct (kbd_decode _ _) as [c sh]. destruct (_ && _); simpl; lia.
Qed.

Lemma cons_getc_total d : is_Some (cons_getc d).
Proof.
  unfold cons_getc. destruct (serial_intr_total d) as [d1 ->]. cbn [mbind option_bind].
  destruct (kbd_intr_total d1) as [d2 ->]. cbn [mbind option_bind].
  destruct (_ =? _); eauto.
Qed.

(** *** Taking a character *)

Lemma contents_cons st :
  ring_ok st -> cons_rpos st <> cons_wpos st ->
  let rpos := cons_rpos st + 1 in
  let st' := set_cons_rpos (if rpos =? CONSBUFSIZE then 0 else rpos) st in
  ring_ok st' /\ cons_contents st = rd (cons_buf st) (cons_rpos st) :: cons_contents st'.
Proof.
  intros [Hr Hw] Hne rpos st'. split.
  { split; simpl; unfold rpos; destruct (Z.eqb_spec (cons_rpos st + 1) CONSBUFSIZE); clia. }
  assert (Hl : cons_len st = cons_len st' + 1 /\ 0 <= cons_len st').
  { unfold cons_len. simpl. unfold rpos. cc.
    destruct (Z.eqb_spec (cons_rpos st + 1) 512); dlia. }
  unfold cons_contents. rewrite (proj1 Hl), seqZ_cons by lia. cbn [map].
  f_equal; [f_equal; dlia|].
  replace (Z.succ 0) with (1 + 0) by lia. rewrite <- fmap_add_seqZ.
  replace (Z.pred (cons_len st' + 1)) with (cons_len st') by lia.
  rewrite map_map. apply map_ext. intros k. f_equal. simpl. unfold rpos.
  destruct (Z.eqb_spec (cons_rpos st + 1) CONSBUFSIZE); dlia.
Qed.

Lemma contents_nil st : ring_ok st -> cons_rpos st = cons_wpos st -> cons_contents st = [].
Proof. intros _ Heq. unfold cons_contents, cons_len. by rewrite Heq, Z.sub_diag. Qed.

(** ** Theorems *)


Definition ex_devices (q : list (Z * Z)) (ser : list Z) : devices :=
  mkDevices (mkConsole ∅ 511 511 0 true ∅ 0 0x3D4 [])
    (mkMouse 0 0 0 0 (mkPacket 0 0 0 0 0 0 0 0 0 0) 0 0 ∅ ∅ ∅ 0 0)
    (mkE1000 ∅ ∅ 0 ∅ [] [] 0 0) q ser.


(**  Output never leaves the text screen: whatever characters are printed, with whatever
    attributes, the cursor stays in [0, 2000) and every cell written lies on the screen. *)
Theorem cputs_on_screen s st : cga_ok st -> cga_ok (cputs s st).
Proof.
  unfold cputs. revert st. induction s as [|c s IH]; intros st Hok; simpl; [done|].
  by apply IH, cons_putc_ok.
Qed.

Lemma cputs_on_screen_witness : cga_ok (cputs [9; 10; 65; 8; 13; -1] (mkConsole ∅ 0 0 0 true ∅ 1999 0x3D4 [])).
Proof.
  apply (cputs_on_screen [9; 10; 65; 8; 13; -1]). split; [simpl; clia|]. intros i [v Hv]. discriminate Hv.
Defined.

(**  The buffer does not detect overrun: when 511 characters wait, one more makes all
    512 disappear. *)
Theorem cons_overrun_loses_all c st :
  ring_ok st -> cons_len st = CONSBUFSIZE - 1 -> cons_contents (cons_enqueue c st) = [].
Proof. apply enqueue_overrun. Qed.

Lemma cons_overrun_loses_all_witness :
  cons_contents (cons_enqueue 65 (mkConsole ∅ 5 4 0 true ∅ 0 0x3D4 [])) = [].
Proof. apply cons_overrun_loses_all; [split; simpl; clia|reflexivity]. Defined.
