(* ===== verification/KState.v ===== *)
(** * KState: the kernel's global state and the monad its code runs in

    One record holds the globals of [kern/pmap.c], [kern/env.c], [kern/time.c] and the
    per-CPU data of [kern/cpu.h]; physical memory is a map from page number to the 1024
    little-endian words of the page, so that page tables are read and written word by word
    and user data byte by byte.  Pointers into [pages] and [envs] are array indices;
    pointers to page directories and page table entries are kernel virtual addresses.

    Kernel code is a function from the state to an [outcome]: a value, a panic, or one of
    the ways the kernel is left without returning (the [noreturn] functions [env_run] and
    [sched_halt]).  An access outside the arrays or outside physical memory is [Stuck]. *)

From S2P Require Import Prelude Layout.
From S2P Require Export DevState.

(** [struct PageInfo] (inc/memlayout.h) *)
Record PageInfo := mkPageInfo {
  pp_link : option Z;  (* index of the next page on the free list, NULL is None *)
  pp_ref : Z;  (* uint16_t *)
}.

(** [struct PushRegs] (inc/trap.h) *)
Record PushRegs := mkPushRegs {
  reg_edi : Z;
  reg_esi : Z;
  reg_ebp : Z;
  reg_oesp : Z;
  reg_ebx : Z;
  reg_edx : Z;
  reg_ecx : Z;
  reg_eax : Z;
}.

(** [struct Trapframe] (inc/trap.h) *)
Record Trapframe := mkTrapframe {
  tf_regs : PushRegs;
  tf_es : Z;
  tf_padding1 : Z;
  tf_ds : Z;
  tf_padding2 : Z;
  tf_trapno : Z;
  tf_err : Z;
  tf_eip : Z;
  tf_cs : Z;
  tf_padding3 : Z;
  tf_eflags : Z;
  tf_esp : Z;
  tf_ss : Z;
  tf_padding4 : Z;
}.

(** [struct Env] (inc/env.h) *)
Record Env := mkEnv {
  env_tf : Trapframe;
  env_link : option Z;  (* index of the next free Env, NULL is None *)
  env_id : Z;
  env_parent_id : Z;
  env_type : Z;
  env_status : Z;
  env_runs : Z;
  env_cpunum : Z;
  env_pgdir : Z;  (* kernel virtual address, NULL is 0 *)
  env_pgfault_upcall : Z;
  env_ipc_recving : bool;
  env_ipc_dstva : Z;
  env_ipc_value : Z;
  env_ipc_from : Z;
  env_ipc_perm : Z;
  env_priority : Z;
}.

(** [struct CpuInfo] (kern/cpu.h), without the task state segment *)
Record CpuInfo := mkCpuInfo {
  cpu_status : Z;
  cpu_env : option Z;  (* curenv of this CPU: an index of envs, NULL is None *)
}.

(** Effects on the processor that the model records instead of interpreting. *)
Inductive kevent :=
  | Invlpg (va : Z)
  | Lcr3 (pa : Z)
  | LapicEoi  (* lapic_eoi() *)
  | IrqEoi  (* irq_eoi() *)
  | Cprintf (msg : string).

(** ** Physical memory *)

(** [memory] maps a page number to its words; a missing page or word reads as zero. *)
Abbreviation memory := (gmap Z (gmap Z Z)).

(** The kernel's globals *)
Record kstate := mkState {
  npages : Z;  (* pages of physical memory *)
  npages_basemem : Z;
  kern_pgdir : Z;
  pse_support : Z;
  nextfree : Z;  (* static of boot_alloc *)
  mmio_base : Z;  (* static of mmio_map_region *)
  pages : gmap Z PageInfo;  (* the array pages[npages] *)
  page_free_list : option Z;
  mem : memory;  (* physical memory *)
  envs : gmap Z Env;  (* the array envs[NENV] *)
  env_free_list : option Z;
  cpus : gmap Z CpuInfo;  (* the array cpus[NCPU] *)
  cpunum : Z;  (* the CPU executing the kernel *)
  kernel_lock : option Z;  (* the CPU holding the big kernel lock *)
  user_mem_check_addr : Z;
  ticks : Z;
  klog : list kevent;  (* hardware effects, latest first *)
  dev : devices;  (* the device drivers' statics *)
}.

(** ** Field updates *)

Definition set_pp_link (v : option Z) (r : PageInfo) : PageInfo :=
  mkPageInfo v (pp_ref r).
Definition set_pp_ref (v : Z) (r : PageInfo) : PageInfo :=
  mkPageInfo (pp_link r) v.
Definition set_reg_eax (v : Z) (r : PushRegs) : PushRegs :=
  mkPushRegs (reg_edi r) (reg_esi r) (reg_ebp r) (reg_oesp r) (reg_ebx r) (reg_edx r) (reg_ecx r) v.
Definition set_tf_regs (v : PushRegs) (r : Trapframe) : Trapframe :=
    mkTrapframe v (tf_es r) (tf_padding1 r) (tf_ds r) (tf_padding2 r) (tf_trapno r) (tf_err r)
    (tf_eip r) (tf_cs r) (tf_padding3 r) (tf_eflags r) (tf_esp r) (tf_ss r) (tf_padding4 r).
Definition set_tf_es (v : Z) (r : Trapframe) : Trapframe :=
    mkTrapframe (tf_regs r) v (tf_padding1 r) (tf_ds r) (tf_padding2 r) (tf_trapno r) (tf_err r)
    (tf_eip r) (tf_cs r) (tf_padding3 r) (tf_eflags r) (tf_esp r) (tf_ss r) (tf_padding4 r).
Definition set_tf_ds (v : Z) (r : Trapframe) : Trapframe :=
    mkTrapframe (tf_regs r) (tf_es r) (tf_padding1 r) v (tf_padding2 r) (tf_trapno r) (tf_err r)
    (tf_eip r) (tf_cs r) (tf_padding3 r) (tf_eflags r) (tf_esp r) (tf_ss r) (tf_padding4 r).
Definition set_tf_eip (v : Z) (r : Trapframe) : Trapframe :=
    mkTrapframe (tf_regs r) (tf_es r) (tf_padding1 r) (tf_ds r) (tf_padding2 r) (tf_trapno r)
    (tf_err r) v (tf_cs r) (tf_padding3 r) (tf_eflags r) (tf_esp r) (tf_ss r) (tf_padding4 r).
Definition set_tf_cs (v : Z) (r : Trapframe) : Trapframe :=
    mkTrapframe (tf_regs r) (tf_es r) (tf_padding1 r) (tf_ds r) (tf_padding2 r) (tf_trapno r)
    (tf_err r) (tf_eip r) v (tf_padding3 r) (tf_eflags r) (tf_esp r) (tf_ss r) (tf_padding4 r).
Definition set_tf_eflags (v : Z) (r : Trapframe) : Trapframe :=
    mkTrapframe (tf_regs r) (tf_es r) (tf_padding1 r) (tf_ds r) (tf_padding2 r) (tf_trapno r)
    (tf_err r) (tf_eip r) (tf_cs r) (tf_padding3 r) v (tf_esp r) (tf_ss r) (tf_padding4 r).
Definition set_tf_esp (v : Z) (r : Trapframe) : Trapframe :=
    mkTrapframe (tf_regs r) (tf_es r) (tf_padding1 r) (tf_ds r) (tf_padding2 r) (tf_trapno r)
    (tf_err r) (tf_eip r) (tf_cs r) (tf_padding3 r) (tf_eflags r) v (tf_ss r) (tf_padding4 r).
Definition set_tf_ss (v : Z) (r : Trapframe) : Trapframe :=
    mkTrapframe (tf_regs r) (tf_es r) (tf_padding1 r) (tf_ds r) (tf_padding2 r) (tf_trapno r)
    (tf_err r) (tf_eip r) (tf_cs r) (tf_padding3 r) (tf_eflags r) (tf_esp r) v (tf_padding4 r).
Definition set_env_tf (v : Trapframe) (r : Env) : Env :=
    mkEnv v (env_link r) (env_id r) (env_parent_id r) (env_type r) (env_status r) (env_runs r)
    (env_cpunum r) (env_pgdir r) (env_pgfault_upcall r) (env_ipc_recving r) (env_ipc_dstva r)
    (env_ipc_value r) (env_ipc_from r) (env_ipc_perm r) (env_priority r).
Definition set_env_link (v : option Z) (r : Env) : Env :=
    mkEnv (env_tf r) v (env_id r) (env_parent_id r) (env_type r) (env_status r) (env_runs r)
    (env_cpunum r) (env_pgdir r) (env_pgfault_upcall r) (env_ipc_recving r) (env_ipc_dstva r)
    (env_ipc_value r) (env_ipc_from r) (env_ipc_perm r) (env_priority r).
Definition set_env_id (v : Z) (r : Env) : Env :=
    mkEnv (env_tf r) (env_link r) v (env_parent_id r) (env_type r) (env_status r) (env_runs r)
    (env_cpunum r) (env_pgdir r) (env_pgfault_upcall r) (env_ipc_recving r) (env_ipc_dstva r)
    (env_ipc_value r) (env_ipc_from r) (env_ipc_perm r) (env_priority r).
Definition set_env_parent_id (v : Z) (r : Env) : Env :=
    mkEnv (env_tf r) (env_link r) (env_id r) v (env_type r) (env_status r) (env_runs r)
    (env_cpunum r) (env_pgdir r) (env_pgfault_upcall r) (env_ipc_recving r) (env_ipc_dstva r)
    (env_ipc_value r) (env_ipc_from r) (env_ipc_perm r) (env_priority r).
Definition set_env_type (v : Z) (r : Env) : Env :=
    mkEnv (env_tf r) (env_link r) (env_id r) (env_parent_id r) v (env_status r) (env_runs r)
    (env_cpunum r) (env_pgdir r) (env_pgfault_upcall r) (env_ipc_recving r) (env_ipc_dstva r)
    (env_ipc_value r) (env_ipc_from r) (env_ipc_perm r) (env_priority r).
Definition set_env_status (v : Z) (r : Env) : Env :=
    mkEnv (env_tf r) (env_link r) (env_id r) (env_parent_id r) (env_type r) v (env_runs r)
    (env_cpunum r) (env_pgdir r) (env_pgfault_upcall r) (env_ipc_recving r) (env_ipc_dstva r)
    (env_ipc_value r) (env_ipc_from r) (env_ipc_perm r) (env_priority r).
Definition set_env_runs (v : Z) (r : Env) : Env :=
    mkEnv (env_tf r) (env_link r) (env_id r) (env_parent_id r) (env_type r) (env_status r) v
    (env_cpunum r) (env_pgdir r) (env_pgfault_upcall r) (env_ipc_recving r) (env_ipc_dstva r)
    (env_ipc_value r) (env_ipc_from r) (env_ipc_perm r) (env_priority r).
Definition set_env_cpunum (v : Z) (r : Env) : Env :=
    mkEnv (env_tf r) (env_link r) (env_id r) (env_parent_id r) (env_type r) (env_status r)
    (env_runs r) v (env_pgdir r) (env_pgfault_upcall r) (env_ipc_recving r) (env_ipc_dstva r)
    (env_ipc_value r) (env_ipc_from r) (env_ipc_perm r) (env_priority r).
Definition set_env_pgdir (v : Z) (r : Env) : Env :=
    mkEnv (env_tf r) (env_link r) (env_id r) (env_parent_id r) (env_type r) (env_status r)
    (env_runs r) (env_cpunum r) v (env_pgfault_upcall r) (env_ipc_recving r) (env_ipc_dstva r)
    (env_ipc_value r) (env_ipc_from r) (env_ipc_perm r) (env_priority r).
Definition set_env_pgfault_upcall (v : Z) (r : Env) : Env :=
    mkEnv (env_tf r) (env_link r) (env_id r) (env_parent_id r) (env_type r) (env_status r)
    (env_runs r) (env_cpunum r) (env_pgdir r) v (env_ipc_recving r) (env_ipc_dstva r)
    (env_ipc_value r) (env_ipc_from r) (env_ipc_perm r) (env_priority r).
Definition set_env_ipc_recving (v : bool) (r : Env) : Env :=
    mkEnv (env_tf r) (env_link r) (env_id r) (env_parent_id r) (env_type r) (env_status r)
    (env_runs r) (env_cpunum r) (env_pgdir r) (env_pgfault_upcall r) v (env_ipc_dstva r)
    (env_ipc_value r) (env_ipc_from r) (env_ipc_perm r) (env_priority r).
Definition set_env_ipc_dstva (v : Z) (r : Env) : Env :=
    mkEnv (env_tf r) (env_link r) (env_id r) (env_parent_id r) (env_type r) (env_status r)
    (env_runs r) (env_cpunum r) (env_pgdir r) (env_pgfault_upcall r) (env_ipc_recving r) v
    (env_ipc_value r) (env_ipc_from r) (env_ipc_perm r) (env_priority r).
Definition set_env_ipc_value (v : Z) (r : Env) : Env :=
    mkEnv (env_tf r) (env_link r) (env_id r) (env_parent_id r) (env_type r) (env_status r)
    (env_runs r) (env_cpunum r) (env_pgdir r) (env_pgfault_upcall r) (env_ipc_recving r)
    (env_ipc_dstva r) v (env_ipc_from r) (env_ipc_perm r) (env_priority r).
Definition set_env_ipc_from (v : Z) (r : Env) : Env :=
    mkEnv (env_tf r) (env_link r) (env_id r) (env_parent_id r) (env_type r) (env_status r)
    (env_runs r) (env_cpunum r) (env_pgdir r) (env_pgfault_upcall r) (env_ipc_recving r)
    (env_ipc_dstva r) (env_ipc_value r) v (env_ipc_perm r) (env_priority r).
Definition set_env_ipc_perm (v : Z) (r : Env) : Env :=
    mkEnv (env_tf r) (env_link r) (env_id r) (env_parent_id r) (env_type r) (env_status r)
    (env_runs r) (env_cpunum r) (env_pgdir r) (env_pgfault_upcall r) (env_ipc_recving r)
    (env_ipc_dstva r) (env_ipc_value r) (env_ipc_from r) v (env_priority r).
Definition set_env_priority (v : Z) (r : Env) : Env :=
    mkEnv (env_tf r) (env_link r) (env_id r) (env_parent_id r) (env_type r) (env_status r)
    (env_runs r) (env_cpunum r) (env_pgdir r) (env_pgfault_upcall r) (env_ipc_recving r)
    (env_ipc_dstva r) (env_ipc_value r) (env_ipc_from r) (env_ipc_perm r) v.
Definition set_cpu_status (v : Z) (r : CpuInfo) : CpuInfo :=
  mkCpuInfo v (cpu_env r).
Definition set_cpu_env (v : option Z) (r : CpuInfo) : CpuInfo :=
  mkCpuInfo (cpu_status r) v.
Definition set_npages (v : Z) (r : kstate) : kstate :=
    mkState v (npages_basemem r) (kern_pgdir r) (pse_support r) (nextfree r) (mmio_base r)
    (pages r) (page_free_list r) (mem r) (envs r) (env_free_list r) (cpus r) (cpunum r)
    (kernel_lock r) (user_mem_check_addr r) (ticks r) (klog r) (dev r).
Definition set_npages_basemem (v : Z) (r : kstate) : kstate :=
    mkState (npages r) v (kern_pgdir r) (pse_support r) (nextfree r) (mmio_base r) (pages r)
    (page_free_list r) (mem r) (envs r) (env_free_list r) (cpus r) (cpunum r) (kernel_lock r)
    (user_mem_check_addr r) (ticks r) (klog r) (dev r).
Definition set_kern_pgdir (v : Z) (r : kstate) : kstate :=
    mkState (npages r) (npages_basemem r) v (pse_support r) (nextfree r) (mmio_base r) (pages r)
    (page_free_list r) (mem r) (envs r) (env_free_list r) (cpus r) (cpunum r) (kernel_lock r)
    (user_mem_check_addr r) (ticks r) (klog r) (dev r).
Definition set_nextfree (v : Z) (r : kstate) : kstate :=
    mkState (npages r) (npages_basemem r) (kern_pgdir r) (pse_support r) v (mmio_base r) (pages
    r) (page_free_list r) (mem r) (envs r) (env_free_list r) (cpus r) (cpunum r) (kernel_lock r)
    (user_mem_check_addr r) (ticks r) (klog r) (dev r).
Definition set_mmio_base (v : Z) (r : kstate) : kstate :=
    mkState (npages r) (npages_basemem r) (kern_pgdir r) (pse_support r) (nextfree r) v (pages
    r) (page_free_list r) (mem r) (envs r) (env_free_list r) (cpus r) (cpunum r) (kernel_lock r)
    (user_mem_check_addr r) (ticks r) (klog r) (dev r).
Definition set_pages (v : gmap Z PageInfo) (r : kstate) : kstate :=
    mkState (npages r) (npages_basemem r) (kern_pgdir r) (pse_support r) (nextfree r) (mmio_base
    r) v (page_free_list r) (mem r) (envs r) (env_free_list r) (cpus r) (cpunum r) (kernel_lock
    r) (user_mem_check_addr r) (ticks r) (klog r) (dev r).
Definition set_page_free_list (v : option Z) (r : kstate) : kstate :=
    mkState (npages r) (npages_basemem r) (kern_pgdir r) (pse_support r) (nextfree r) (mmio_base
    r) (pages r) v (mem r) (envs r) (env_free_list r) (cpus r) (cpunum r) (kernel_lock r)
    (user_mem_check_addr r) (ticks r) (klog r) (dev r).
Definition set_mem (v : memory) (r : kstate) : kstate :=
    mkState (npages r) (npages_basemem r) (kern_pgdir r) (pse_support r) (nextfree r) (mmio_base
    r) (pages r) (page_free_list r) v (envs r) (env_free_list r) (cpus r) (cpunum r)
    (kernel_lock r) (user_mem_check_addr r) (ticks r) (klog r) (dev r).
Definition set_envs (v : gmap Z Env) (r : kstate) : kstate :=
    mkState (npages r) (npages_basemem r) (kern_pgdir r) (pse_support r) (nextfree r) (mmio_base
    r) (pages r) (page_free_list r) (mem r) v (env_free_list r) (cpus r) (cpunum r) (kernel_lock
    r) (user_mem_check_addr r) (ticks r) (klog r) (dev r).
Definition set_env_free_list (v : option Z) (r : kstate) : kstate :=
    mkState (npages r) (npages_basemem r) (kern_pgdir r) (pse_support r) (nextfree r) (mmio_base
    r) (pages r) (page_free_list r) (mem r) (envs r) v (cpus r) (cpunum r) (kernel_lock r)
    (user_mem_check_addr r) (ticks r) (klog r) (dev r).
Definition set_cpus (v : gmap Z CpuInfo) (r : kstate) : kstate :=
    mkState (npages r) (npages_basemem r) (kern_pgdir r) (pse_support r) (nextfree r) (mmio_base
    r) (pages r) (page_free_list r) (mem r) (envs r) (env_free_list r) v (cpunum r) (kernel_lock
    r) (user_mem_check_addr r) (ticks r) (klog r) (dev r).
Definition set_cpunum (v : Z) (r : kstate) : kstate :=
    mkState (npages r) (npages_basemem r) (kern_pgdir r) (pse_support r) (nextfree r) (mmio_base
    r) (pages r) (page_free_list r) (mem r) (envs r) (env_free_list r) (cpus r) v (kernel_lock
    r) (user_mem_check_addr r) (ticks r) (klog r) (dev r).
Definition set_kernel_lock (v : option Z) (r : kstate) : kstate :=
    mkState (npages r) (npages_basemem r) (kern_pgdir r) (pse_support r) (nextfree r) (mmio_base
    r) (pages r) (page_free_list r) (mem r) (envs r) (env_free_list r) (cpus r) (cpunum r) v
    (user_mem_check_addr r) (ticks r) (klog r) (dev r).
Definition set_user_mem_check_addr (v : Z) (r : kstate) : kstate :=
    mkState (npages r) (npages_basemem r) (kern_pgdir r) (pse_support r) (nextfree r) (mmio_base
    r) (pages r) (page_free_list r) (mem r) (envs r) (env_free_list r) (cpus r) (cpunum r)
    (kernel_lock r) v (ticks r) (klog r) (dev r).
Definition set_ticks (v : Z) (r : kstate) : kstate :=
    mkState (npages r) (npages_basemem r) (kern_pgdir r) (pse_support r) (nextfree r) (mmio_base
    r) (pages r) (page_free_list r) (mem r) (envs r) (env_free_list r) (cpus r) (cpunum r)
    (kernel_lock r) (user_mem_check_addr r) v (klog r) (dev r).
Definition set_klog (v : list kevent) (r : kstate) : kstate :=
    mkState (npages r) (npages_basemem r) (kern_pgdir r) (pse_support r) (nextfree r) (mmio_base
    r) (pages r) (page_free_list r) (mem r) (envs r) (env_free_list r) (cpus r) (cpunum r)
    (kernel_lock r) (user_mem_check_addr r) (ticks r) v (dev r).
Definition set_dev (v : devices) (r : kstate) : kstate :=
    mkState (npages r) (npages_basemem r) (kern_pgdir r) (pse_support r) (nextfree r) (mmio_base
    r) (pages r) (page_free_list r) (mem r) (envs r) (env_free_list r) (cpus r) (cpunum r)
    (kernel_lock r) (user_mem_check_addr r) (ticks r) (klog r) v.

#[export] Instance PageInfo_eq : EqDecision PageInfo.
Proof. solve_decision. Defined.
#[export] Instance PushRegs_eq : EqDecision PushRegs.
Proof. solve_decision. Defined.
#[export] Instance Trapframe_eq : EqDecision Trapframe.
Proof. solve_decision. Defined.
#[export] Instance Env_eq : EqDecision Env.
Proof. solve_decision. Defined.

(** ** Words and bytes of physical memory *)

(** Word [i] of page [pg]. *)
Definition rdw (m : memory) (pg i : Z) : Z := default 0 (default ∅ (m !! pg) !! i).
Definition wrw (m : memory) (pg i v : Z) : memory := <[pg := <[i := v]> (default ∅ (m !! pg))]> m.
(** memset(page, 0, PGSIZE) and memcpy(dst, src, PGSIZE) on whole pages. *)
Definition zero_page (m : memory) (pg : Z) : memory := <[pg := ∅]> m.
Definition copy_page (m : memory) (dst src : Z) : memory := <[dst := default ∅ (m !! src)]> m.

(** Byte [o] of page [pg], in the little-endian words. *)
Definition rdb (m : memory) (pg o : Z) : Z := u8 (rdw m pg (o / 4) .>> (8 * (o mod 4))).
Definition wrb (m : memory) (pg o b : Z) : memory :=
  let w := rdw m pg (o / 4) in
  let sh := 8 * (o mod 4) in
  wrw m pg (o / 4) ((w - ((u8 (w .>> sh)) .<< sh)) + (u8 b .<< sh)).

Lemma rdw_wrw m pg i v pg' i' :
  rdw (wrw m pg i v) pg' i' = if decide (pg = pg' /\ i = i') then v else rdw m pg' i'.
Proof.
  unfold rdw, wrw. destruct (decide (pg = pg')) as [<-|Hp].
  - rewrite lookup_insert_eq. simpl. destruct (decide (i = i')) as [<-|Hi].
    + rewrite lookup_insert_eq. by rewrite decide_True.
    + rewrite lookup_insert_ne by done. rewrite decide_False; [done|]. by intros [_ ?].
  - rewrite lookup_insert_ne by done. rewrite decide_False; [done|]. by intros [? _].
Qed.

Lemma rdw_wrw_eq m pg i v : rdw (wrw m pg i v) pg i = v.
Proof. rewrite rdw_wrw. by rewrite decide_True. Qed.

Lemma rdw_wrw_ne m pg i v pg' i' :
  pg <> pg' \/ i <> i' -> rdw (wrw m pg i v) pg' i' = rdw m pg' i'.
Proof. intros H. rewrite rdw_wrw, decide_False; [done|]. intros [-> ->]. by destruct H. Qed.

Lemma rdw_zero_page m pg pg' i :
  rdw (zero_page m pg) pg' i = if decide (pg = pg') then 0 else rdw m pg' i.
Proof.
  unfold rdw, zero_page. destruct (decide (pg = pg')) as [<-|H].
  - rewrite lookup_insert_eq. simpl. by rewrite lookup_empty.
  - by rewrite lookup_insert_ne.
Qed.

Lemma rdw_copy_page m dst src pg i :
  rdw (copy_page m dst src) pg i = if decide (dst = pg) then rdw m src i else rdw m pg i.
Proof.
  unfold rdw, copy_page. destruct (decide (dst = pg)) as [<-|H].
  - by rewrite lookup_insert_eq.
  - by rewrite lookup_insert_ne.
Qed.

(** ** The kernel monad *)

Inductive outcome (A : Type) :=
  | Ret (a : A) (s : kstate)     (* the function returns *)
  | Panic (s : kstate)           (* panic() *)
  | UserMode (s : kstate)        (* env_pop_tf: user code of curenv runs *)
  | Halted (s : kstate)          (* the CPU halts in sched_halt *)
  | Monitor (s : kstate)         (* no environment left: the kernel monitor *)
  | Spin (s : kstate)            (* waits for the big kernel lock *)
  | Stuck (s : kstate).          (* access outside an array or outside memory *)
Arguments Ret {A} a s.
Arguments Panic {A} s.
Arguments UserMode {A} s.
Arguments Halted {A} s.
Arguments Monitor {A} s.
Arguments Spin {A} s.
Arguments Stuck {A} s.

Definition K (A : Type) : Type := kstate -> outcome A.

#[export] Instance K_ret : MRet K := fun A a s => Ret a s.
#[export] Instance K_bind : MBind K := fun A B f m s =>
  match m s with
  | Ret a s' => f a s'
  | Panic s' => Panic s'
  | UserMode s' => UserMode s'
  | Halted s' => Halted s'
  | Monitor s' => Monitor s'
  | Spin s' => Spin s'
  | Stuck s' => Stuck s'
  end.

Definition get {A} (f : kstate -> A) : K A := fun s => Ret (f s) s.
Definition modify (f : kstate -> kstate) : K unit := fun s => Ret tt (f s).
Definition panic {A} : K A := fun s => Panic s.
Definition stuck {A} : K A := fun s => Stuck s.
(** C's [assert]. *)
Definition kassert (b : bool) : K unit := if b then mret tt else panic.
Definition when (b : bool) (m : K unit) : K unit := if b then m else mret tt.

Lemma bind_Ret {A B} (f : A -> K B) (m : K A) s a s' :
  m s = Ret a s' -> (m ≫= f) s = f a s'.
Proof. unfold mbind, K_bind. by intros ->. Qed.

(** The state an outcome carries. *)
Definition final {A} (o : outcome A) : kstate :=
  match o with
  | Ret _ s | Panic s | UserMode s | Halted s | Monitor s | Spin s | Stuck s => s
  end.

(** ** Pointers and arrays *)

(** The address arithmetic of [_paddr] and [_kaddr] (kern/pmap.h). *)
Definition PADDR (kva : Z) : K Z :=
  if u32 kva <? KERNBASE then panic else mret (u32 (kva - KERNBASE)).
Definition KADDR (pa : Z) : K Z :=
  n ← get npages; if n <=? PGNUM pa then panic else mret (u32 (pa + KERNBASE)).

(** Loads and stores of a word through a kernel virtual address; physical memory is mapped
    at [KERNBASE]. *)
Definition kload (va : Z) : K Z := fun s =>
  let pa := va - KERNBASE in
  if (0 <=? pa) && (pa / 4096 <? npages s) then Ret (rdw (mem s) (pa / 4096) (pa mod 4096 / 4)) s
  else Stuck s.
Definition kstore (va v : Z) : K unit := fun s =>
  let pa := va - KERNBASE in
  if (0 <=? pa) && (pa / 4096 <? npages s)
  then Ret tt (set_mem (wrw (mem s) (pa / 4096) (pa mod 4096 / 4) v) s)
  else Stuck s.

Definition get_page (i : Z) : K PageInfo := fun s =>
  match pages s !! i with Some p => Ret p s | None => Stuck s end.
Definition upd_page (i : Z) (f : PageInfo -> PageInfo) : K unit := fun s =>
  match pages s !! i with
  | Some p => Ret tt (set_pages (<[i := f p]> (pages s)) s)
  | None => Stuck s
  end.

Definition get_env (i : Z) : K Env := fun s =>
  match envs s !! i with Some e => Ret e s | None => Stuck s end.
Definition upd_env (i : Z) (f : Env -> Env) : K unit := fun s =>
  match envs s !! i with
  | Some e => Ret tt (set_envs (<[i := f e]> (envs s)) s)
  | None => Stuck s
  end.

(** [thiscpu] and [curenv] (kern/cpu.h, kern/env.h). *)
Definition thiscpu : K CpuInfo := fun s =>
  match cpus s !! cpunum s with Some c => Ret c s | None => Stuck s end.
Definition curenv : K (option Z) := c ← thiscpu; mret (cpu_env c).
Definition set_thiscpu (f : CpuInfo -> CpuInfo) : K unit := fun s =>
  match cpus s !! cpunum s with
  | Some c => Ret tt (set_cpus (<[cpunum s := f c]> (cpus s)) s)
  | None => Stuck s
  end.
Definition set_curenv (e : option Z) : K unit := set_thiscpu (set_cpu_env e).

Definition emit (e : kevent) : K unit := modify (fun s => set_klog (e :: klog s) s).

(** A counted loop: [for (i = first; ...; i++) body(i)] over the listed indices. *)
Fixpoint kfor {A} (l : list A) (body : A -> K unit) : K unit :=
  match l with
  | [] => mret tt
  | i :: l => body i;; kfor l body
  end.

Section kfor.
Context {A B : Type}.
Implicit Types (l : list A) (body : A -> K unit).

Lemma kfor_ext l body body' s :
  (forall i s, i ∈ l -> body i s = body' i s) -> kfor l body s = kfor l body' s.
Proof.
  revert s. induction l as [|i l IH]; intros s H; [done|]. simpl.
  unfold mbind, K_bind. rewrite H by left. destruct (body' i s); [|done..].
  apply IH. intros. apply H. by right.
Qed.

Lemma kfor_app l1 l2 body s : kfor (l1 ++ l2) body s = (kfor l1 body;; kfor l2 body) s.
Proof.
  revert s. induction l1 as [|i l1 IH]; intros s; [done|]. simpl.
  unfold mbind, K_bind in *. destruct (body i s); (apply IH || done).
Qed.

Lemma kfor_map (f : B -> A) (l : list B) body s :
  kfor (map f l) body s = kfor l (fun i => body (f i)) s.
Proof.
  revert s. induction l as [|i l IH]; intros s; [done|]. simpl.
  unfold mbind, K_bind. destruct (body (f i) s); (apply IH || done).
Qed.

Lemma kfor_flat (g : B -> list A) (l : list B) body s :
  kfor l (fun i => kfor (g i) body) s = kfor (flat_map g l) body s.
Proof.
  revert s. induction l as [|i l IH]; intros s; [done|]. simpl.
  rewrite kfor_app. unfold mbind, K_bind. destruct (kfor (g i) body s); (apply IH || done).
Qed.

Lemma kfor_when (p : A -> bool) l body s :
  kfor l (fun i => when (p i) (body i)) s = kfor (List.filter p l) body s.
Proof.
  revert s. induction l as [|i l IH]; intros s; [done|]. simpl. destruct (p i); simpl.
  - unfold mbind, K_bind. destruct (body i s); (apply IH || done).
  - unfold mbind, K_bind. simpl. apply IH.
Qed.
End kfor.

(** A loop whose body ends with the next loop variables or with the result; after [n] rounds
    it is [Stuck].  The binary counter lets bounds such as the size of the address space be
    evaluated. *)
Fixpoint kiter {A R} (n : positive) (body : A -> K (A + R)) (x : A) : K (A + R) :=
  let twice p x := r ← kiter p body x;
    match r with inl x => kiter p body x | inr v => mret (inr v) end in
  match n with
  | xH => body x
  | xO p => twice p x
  | xI p => r ← body x; match r with inl x => twice p x | inr v => mret (inr v) end
  end.
Definition kloop {A R} (n : positive) (body : A -> K (A + R)) (x : A) : K R :=
  r ← kiter n body x; match r with inl _ => stuck | inr v => mret v end.

(** The rounds of a loop, one at a time *)
Fixpoint ksteps {A R} (n : nat) (body : A -> K (A + R)) (x : A) : K (A + R) :=
  match n with
  | O => mret (inl x)
  | S n => r ← body x; match r with inl x => ksteps n body x | inr v => mret (inr v) end
  end.

Section kiter.
Context {A R : Type} (body : A -> K (A + R)).

Lemma ksteps_add a b x s :
  ksteps (a + b) body x s =
  (r ← ksteps a body x; match r with inl x => ksteps b body x | inr v => mret (inr v) end) s.
Proof.
  revert x s. induction a as [|a IH]; intros x s; [done|]. simpl.
  unfold mbind, K_bind, mret, K_ret in *. destruct (body x s) as [[y|v] s'|?|?|?|?|?|?]; (apply IH || done).
Qed.

Lemma kiter_ksteps n x s : kiter n body x s = ksteps (Pos.to_nat n) body x s.
Proof.
  revert x s. induction n as [p IH|p IH|]; intros x s; simpl kiter.
  - rewrite Pos2Nat.inj_xI. simpl. unfold mbind, K_bind.
    destruct (body x s) as [[y|v] s'|?|?|?|?|?|?]; try done.
    rewrite IH, Nat.add_0_r, ksteps_add. unfold mbind, K_bind.
    destruct (ksteps (Pos.to_nat p) body y s') as [[z|v] s''|?|?|?|?|?|?]; (apply IH || done).
  - rewrite Pos2Nat.inj_xO. simpl. unfold mbind, K_bind. rewrite IH, Nat.add_0_r, ksteps_add.
    unfold mbind, K_bind.
    destruct (ksteps (Pos.to_nat p) body x s) as [[z|v] s''|?|?|?|?|?|?]; (apply IH || done).
  - simpl. unfold mbind, K_bind. destruct (body x s) as [[y|v] s'|?|?|?|?|?|?]; done.
Qed.

(** A round of a loop that has rounds left *)
Lemma ksteps_kloop (m : nat) n x s v s' :
  (m <= Pos.to_nat n)%nat -> ksteps m body x s = Ret (inr v) s' -> kloop n body x s = Ret v s'.
Proof.
  intros Hm H. unfold kloop. unfold mbind, K_bind. rewrite kiter_ksteps.
  replace (Pos.to_nat n) with (m + (Pos.to_nat n - m))%nat by lia. rewrite ksteps_add.
  unfold mbind, K_bind. by rewrite H.
Qed.
End kiter.
