(* ===== verification/KMem.v ===== *)
(** * KMem: bytes of physical memory

    Byte loads and stores through the direct map at [KERNBASE], and the laws of the bytes
    inside the little-endian words of [KState]. *)

From S2P Require Import Prelude Layout KState.

Definition kloadb (va : Z) : K Z := fun s =>
  let pa := va - KERNBASE in
  if (0 <=? pa) && (pa / 4096 <? npages s) then Ret (rdb (mem s) (pa / 4096) (pa mod 4096)) s
  else Stuck s.
Definition kstoreb (va b : Z) : K unit := fun s =>
  let pa := va - KERNBASE in
  if (0 <=? pa) && (pa / 4096 <? npages s)
  then Ret tt (set_mem (wrb (mem s) (pa / 4096) (pa mod 4096) b) s)
  else Stuck s.

(** ** Bytes in a word *)

Definition byte_of (w k : Z) : Z := u8 (w .>> (8 * k)).
Definition set_byte (w k b : Z) : Z := (w - ((u8 (w .>> (8 * k))) .<< (8 * k))) + (u8 b .<< (8 * k)).

Lemma four (k : Z) : 0 <= k < 4 -> k = 0 \/ k = 1 \/ k = 2 \/ k = 3.
Proof. lia. Qed.

Lemma set_byte_range w k b :
  0 <= w < 2^32 -> 0 <= k < 4 -> 0 <= set_byte w k b < 2^32.
Proof.
  intros Hw Hk. unfold set_byte, u8. rewrite !shiftr_div, !shiftl_mul by lia.
  destruct (four k Hk) as [-> | [-> | [-> | ->]]];
    [change (2 ^ (8 * 0)) with 1|change (2 ^ (8 * 1)) with 256|
     change (2 ^ (8 * 2)) with 65536|change (2 ^ (8 * 3)) with 16777216]; dlia.
Qed.

Lemma byte_of_set_byte w k b k' :
  0 <= w < 2^32 -> 0 <= k < 4 -> 0 <= k' < 4 ->
  byte_of (set_byte w k b) k' = if decide (k = k') then u8 b else byte_of w k'.
Proof.
  intros Hw Hk Hk'. unfold byte_of, set_byte, u8. rewrite !shiftr_div, !shiftl_mul by lia.
  destruct (four k Hk) as [-> | [-> | [-> | ->]]], (four k' Hk') as [-> | [-> | [-> | ->]]];
    simpl decide; cbn [decide_rel];
    rewrite ?Z.pow_mul_r by lia; change (2 ^ 8) with 256; change (2 ^ 32) with 4294967296 in *;
    change (256 ^ 0) with 1; change (256 ^ 1) with 256;
    change (256 ^ 2) with 65536; change (256 ^ 3) with 16777216;
    try rewrite decide_True by done; try rewrite decide_False by done; dlia.
Qed.

Lemma rdb_byte m pg o : rdb m pg o = byte_of (rdw m pg (o / 4)) (o mod 4).
Proof. done. Qed.

Lemma wrb_word m pg o b : wrb m pg o b = wrw m pg (o / 4) (set_byte (rdw m pg (o / 4)) (o mod 4) b).
Proof. done. Qed.

Lemma rdb_wrb m pg o b pg' o' :
  (forall pg i, 0 <= rdw m pg i < 2^32) ->
  rdb (wrb m pg o b) pg' o' = if decide (pg = pg' /\ o = o') then u8 b else rdb m pg' o'.
Proof.
  intros Hw. rewrite wrb_word, !rdb_byte, rdw_wrw.
  destruct (decide (pg = pg' /\ o / 4 = o' / 4)) as [[<- Heq]|Hne].
  - rewrite byte_of_set_byte by (try apply Hw; dlia). rewrite Heq.
    destruct (decide (o mod 4 = o' mod 4)) as [Hm|Hm].
    + rewrite decide_True; [done|]. split; [done|]. dlia.
    + rewrite decide_False; [done|]. intros [_ ->]. done.
  - rewrite decide_False; [done|]. intros [-> ->]. apply Hne. done.
Qed.

Lemma wrb_range m pg o b :
  (forall pg i, 0 <= rdw m pg i < 2^32) -> forall pg' i, 0 <= rdw (wrb m pg o b) pg' i < 2^32.
Proof.
  intros Hw pg' i. rewrite wrb_word, rdw_wrw. destruct (decide _); [|done].
  apply set_byte_range; [done|dlia].
Qed.

(** The byte at a kernel virtual address of the direct map. *)
Definition kbyte (s : kstate) (va : Z) : Z :=
  rdb (mem s) ((va - KERNBASE) / 4096) ((va - KERNBASE) mod 4096).
Definition kmapped (s : kstate) (va : Z) : Prop := KERNBASE <= va < KERNBASE + npages s * 4096.

Lemma kloadb_eq s va : kmapped s va -> kloadb va s = Ret (kbyte s va) s.
Proof.
  intros [H1 H2]. unfold kloadb, kbyte.
  destruct (Z.leb_spec 0 (va - KERNBASE)); [|lia].
  destruct (Z.ltb_spec ((va - KERNBASE) / 4096) (npages s)); [done|]. exfalso. dlia.
Qed.

Lemma kstoreb_eq s va b :
  kmapped s va ->
  kstoreb va b s = Ret tt (set_mem (wrb (mem s) ((va - KERNBASE) / 4096) ((va - KERNBASE) mod 4096) b) s).
Proof.
  intros [H1 H2]. unfold kstoreb.
  destruct (Z.leb_spec 0 (va - KERNBASE)); [|lia].
  destruct (Z.ltb_spec ((va - KERNBASE) / 4096) (npages s)); [done|]. exfalso. dlia.
Qed.

Lemma kbyte_wrb s va b va' :
  (forall pg i, 0 <= rdw (mem s) pg i < 2^32) ->
  kbyte (set_mem (wrb (mem s) ((va - KERNBASE) / 4096) ((va - KERNBASE) mod 4096) b) s) va' =
    if decide (va = va') then u8 b else kbyte s va'.
Proof.
  intros Hw. unfold kbyte. simpl. rewrite rdb_wrb by done.
  destruct (decide (va = va')) as [->|Hne]; [by rewrite decide_True|].
  rewrite decide_False; [done|]. intros [Hp Ho]. apply Hne.
  pose proof (Z.div_mod (va - KERNBASE) 4096). pose proof (Z.div_mod (va' - KERNBASE) 4096). lia.
Qed.
