(* ===== verification/Pmap.v ===== *)
(** * Pmap: physical pages and page tables ([kern/pmap.c], [kern/pmap.h])

    The allocator of physical pages with its free list threaded through [pages], the
    two-level page tables in physical memory, and the checks of user pointers.  A
    [struct PageInfo *] is the index of the page; a [pte_t *] or [pde_t *] is a kernel
    virtual address. *)

From S2P Require Import Prelude Layout KState.

Definition ALLOC_ZERO : Z := 1.

(** ** Page numbers, addresses (kern/pmap.h) *)

Definition page2pa (pp : Z) : Z := u32 (pp .<< PGSHIFT).

Definition pa2page (pa : Z) : K Z :=
  n ← get npages;
  if n <=? PGNUM pa then panic else mret (PGNUM pa).

Definition page2kva (pp : Z) : K Z := KADDR (page2pa pp).

(** memset(page2kva(pp), 0, PGSIZE) *)
Definition zero_kva (kva : Z) : K unit := fun s =>
  let pa := kva - KERNBASE in
  if (0 <=? pa) && (pa / 4096 <? npages s)
  then Ret tt (set_mem (zero_page (mem s) (pa / 4096)) s) else Stuck s.

(** ** Boot-time allocation *)

Section Boot.
(** The linker's symbol [end], the first byte after the kernel's bss. *)
Variable kend : Z.

Definition boot_alloc (n : Z) : K Z :=
  nf ← get nextfree;
  when (nf =? 0) (modify (set_nextfree (ROUNDUP kend PGSIZE)));;
  result ← get nextfree;
  when (0 <? n) (modify (set_nextfree (u32 (result + ROUNDUP n PGSIZE))));;
  nf ← get nextfree;
  if nf <? KERNBASE + 0x400000 then mret result else panic.

(** Puts page [i] at the head of the free list with reference count 0. *)
Definition page_init_free (i : Z) : K unit :=
  upd_page i (set_pp_ref 0);;
  fl ← get page_free_list;
  upd_page i (set_pp_link fl);;
  modify (set_page_free_list (Some i)).

Definition page_init : K unit :=
  let io_phys := IOPHYSMEM / PGSIZE in
  nf ← boot_alloc 0;
  nfpa ← PADDR nf;
  let nextfree := nfpa / PGSIZE in
  let mpentry_page := MPENTRY_PADDR / PGSIZE in
  upd_page 0 (set_pp_ref 1);;
  upd_page mpentry_page (set_pp_ref 1);;
  basemem ← get npages_basemem;
  kfor (seqZ 1 (basemem - 1)) (fun i =>
    if i =? mpentry_page then mret tt else page_init_free i);;
  kfor (seqZ io_phys (nextfree - io_phys)) (fun i => upd_page i (set_pp_ref 1));;
  n ← get npages;
  kfor (seqZ nextfree (n - nextfree)) page_init_free.

End Boot.

(** ** Allocation of physical pages *)

Definition page_alloc (alloc_flags : Z) : K (option Z) :=
  fl ← get page_free_list;
  match fl with
  | None => mret None
  | Some page =>
      p ← get_page page;
      modify (set_page_free_list (pp_link p));;
      upd_page page (set_pp_link None);;
      when (truth (alloc_flags .& ALLOC_ZERO)) (kva ← page2kva page; zero_kva kva);;
      mret (Some page)
  end.

Definition page_free (pp : Z) : K unit :=
  p ← get_page pp;
  if truth (pp_ref p) || (match pp_link p with Some _ => true | None => false end) then panic
  else
    fl ← get page_free_list;
    upd_page pp (set_pp_link fl);;
    modify (set_page_free_list (Some pp)).

Definition page_decref (pp : Z) : K unit :=
  p ← get_page pp;
  let r := u16 (pp_ref p - 1) in
  upd_page pp (set_pp_ref r);;
  when (r =? 0) (page_free pp).

(** ** Page tables *)

Definition pgdir_walk (pgdir va create : Z) : K (option Z) :=
  let pdx := PDX va in
  let ptx := PTX va in
  pse ← get pse_support;
  pde ← kload (pgdir + 4 * pdx);
  if (pse =? 1) && truth (pde .& PTE_PS) then mret (Some (pgdir + 4 * pdx)) else
  let found : K (option Z) :=
    pde ← kload (pgdir + 4 * pdx);
    page_table ← KADDR (PTE_ADDR pde);
    mret (Some (page_table + 4 * ptx)) in
  if truth (pde .& PTE_P) then found
  else if create =? 0 then mret None
  else
    new_page ← page_alloc ALLOC_ZERO;
    match new_page with
    | None => mret None
    | Some pp =>
        upd_page pp (set_pp_ref 1);;
        kstore (pgdir + 4 * pdx) (page2pa pp .| PTE_P .| PTE_U .| PTE_W);;
        found
    end.

(** Loads and stores through a [pte_t *] that may be NULL. *)
Definition ptr (p : option Z) : Z := default 0 p.

(** Map [size / PGSIZE] pages; the loop variable [va], [pa] advance by [PGSIZE]. *)
Definition boot_map_region (pgdir va size pa perm : Z) : K unit :=
  kfor (seqZ 0 (size / PGSIZE)) (fun i =>
    pte ← pgdir_walk pgdir (u32 (va + i * PGSIZE)) 1;
    kstore (ptr pte) (u32 (pa + i * PGSIZE) .| perm .| PTE_P)).

Definition boot_kernel_map (pgdir va size pa perm : Z) : K unit :=
  kfor (seqZ 0 (size / PTSIZE + 1)) (fun i =>
    kstore (pgdir + 4 * PDX (u32 (va + i * PTSIZE)))
      (u32 (pa + i * PTSIZE) .| perm .| PTE_P .| PTE_PS)).

(** Returns the page mapped at [va] together with [*pte_store]. *)
Definition page_lookup (pgdir va : Z) : K (option (Z * Z)) :=
  r ← pgdir_walk pgdir va 0;
  match r with
  | None => mret None
  | Some pte =>
      e ← kload pte;
      if truth (e .& PTE_P) then
        pse ← get pse_support;
        if (pse =? 1) && truth (e .& PTE_PS) then
          pp ← pa2page (PTE_ADDR e);
          mret (Some (pp + HUGH_PGOFF va / PGSIZE, pte))
        else
          pp ← pa2page (PTE_ADDR e);
          mret (Some (pp, pte))
      else mret None
  end.

Definition tlb_invalidate (pgdir va : Z) : K unit :=
  c ← curenv;
  match c with
  | None => emit (Invlpg va)
  | Some i => e ← get_env i; when (env_pgdir e =? pgdir) (emit (Invlpg va))
  end.

Definition page_remove (pgdir va : Z) : K unit :=
  r ← page_lookup pgdir va;
  match r with
  | None => mret tt
  | Some (pp, pte) =>
      page_decref pp;;
      kstore pte 0;;
      tlb_invalidate pgdir va
  end.

Definition page_insert (pgdir pp va perm : Z) : K Z :=
  r ← pgdir_walk pgdir va 1;
  match r with
  | None => mret (- E_NO_MEM)
  | Some pte =>
      let pa := page2pa pp in
      e ← kload pte;
      let map_new : K Z :=
        upd_page pp (fun p => set_pp_ref (u16 (pp_ref p + 1)) p);;
        tlb_invalidate pgdir va;;
        kstore pte (pa .| perm .| PTE_P);;
        mret 0 in
      if truth (e .& PTE_P) then
        if PTE_ADDR e =? pa then kstore pte (pa .| perm .| PTE_P);; mret 0
        else page_remove pgdir va;; map_new
      else map_new
  end.

(** ** Device memory *)

Definition mmio_map_region (pa size : Z) : K Z :=
  base ← get mmio_base;
  let size_rounded := ROUNDUP size PGSIZE in
  if (MMIOLIM <=? u32 (base + size_rounded)) || (u32 (base + size_rounded) <? base) then panic
  else
    kd ← get kern_pgdir;
    boot_map_region kd base size_rounded pa (PTE_PCD .| PTE_PWT .| PTE_W);;
    modify (set_mmio_base (u32 (base + size_rounded)));;
    mret base.

(** ** User pointers *)

(** The loop of [user_mem_check]; [fuel] bounds the number of iterations.  Running out of
    fuel is [Stuck]; [user_mem_check] gives one unit per page of the range. *)
Fixpoint user_mem_check_loop (fuel : nat) (pgdir va start end_ permissions : Z) : K Z :=
  if start <? end_ then
    match fuel with
    | O => stuck
    | S fuel =>
        pte ← pgdir_walk pgdir start 0;
        bad ← (if ULIM <=? start then mret true
               else match pte with
                    | None => mret true
                    | Some p => e ← kload p; mret (negb (e .& permissions =? permissions))
                    end : K bool);
        if (bad : bool) then
          modify (set_user_mem_check_addr (if start <? va then va else start));;
          mret (- E_FAULT)
        else user_mem_check_loop fuel pgdir va (u32 (start + PGSIZE)) end_ permissions
    end
  else mret 0.

Definition user_mem_check (env va len perm : Z) : K Z :=
  e ← get_env env;
  let start := ROUNDDOWN va PGSIZE in
  let end_ := ROUNDUP (u32 (va + len)) PGSIZE in
  user_mem_check_loop (Z.to_nat ((end_ - start) / PGSIZE)) (env_pgdir e) va start end_
    (u32 (perm .| PTE_P)).
