(* ===== verification/VmRefs.v ===== *)
(** * VmRefs: counting the references of page tables to physical pages

    [refs m D i] is the number of references to page [i] from the page directories [D]:
    one for each directory that is [i], one for each user page directory entry and one for
    each user page table entry that points to [i].  The lemmas give the effect of each
    elementary change of a table on that number. *)

From S2P Require Import Prelude Layout KState.

(** The page directory entries below [PDX(UTOP)] belong to the environment. *)
Definition NUPDE : Z := PDX UTOP.

Definition upde : list Z := seqZ 0 NUPDE.
Definition ptes : list Z := seqZ 0 NPTENTRIES.

Definition pte_ref (m : memory) (pt i y : Z) : Z :=
  ind (present (rdw m pt y) && (pgn (rdw m pt y) =? i)).
Definition pte_refs (m : memory) (pt i : Z) : Z := zsum (pte_ref m pt i) ptes.
Definition pde_refs (m : memory) (d i x : Z) : Z :=
  if present (rdw m d x) then ind (pgn (rdw m d x) =? i) + pte_refs m (pgn (rdw m d x)) i else 0.
Definition root_refs (m : memory) (i d : Z) : Z := ind (d =? i) + zsum (pde_refs m d i) upde.
Definition refs (m : memory) (D : list Z) (i : Z) : Z := zsum (root_refs m i) D.

(** Page [p] is the page table of entry [x] of directory [d]. *)
Definition pt_of (m : memory) (D : list Z) (d x p : Z) : Prop :=
  d ∈ D /\ x ∈ upde /\ present (rdw m d x) = true /\ pgn (rdw m d x) = p.
Definition is_pt (m : memory) (D : list Z) (p : Z) : Prop := exists d x, pt_of m D d x p.
Definition is_table (m : memory) (D : list Z) (p : Z) : Prop := p ∈ D \/ is_pt m D p.

Lemma NUPDE_eq : NUPDE = 955.
Proof. done. Qed.

Lemma elem_upde x : x ∈ upde <-> 0 <= x < 955.
Proof. unfold upde. rewrite elem_of_seqZ, NUPDE_eq. done. Qed.
Lemma elem_ptes y : y ∈ ptes <-> 0 <= y < 1024.
Proof. unfold ptes, NPTENTRIES. rewrite elem_of_seqZ. done. Qed.
Lemma NoDup_upde : NoDup upde.
Proof. apply NoDup_seqZ. Qed.
Lemma NoDup_ptes : NoDup ptes.
Proof. apply NoDup_seqZ. Qed.

(** ** Signs and lower bounds *)

Section bounds.
Context (m : memory) (D : list Z).

Lemma pte_refs_nonneg pt i : 0 <= pte_refs m pt i.
Proof. apply zsum_nonneg. intros. apply ind_range. Qed.

Lemma pde_refs_nonneg d i x : 0 <= pde_refs m d i x.
Proof.
  unfold pde_refs. destruct (present _); [|lia].
  pose proof (ind_range (pgn (rdw m d x) =? i)).
  pose proof (pte_refs_nonneg (pgn (rdw m d x)) i). lia.
Qed.

Lemma root_refs_nonneg i d : 0 <= root_refs m i d.
Proof.
  unfold root_refs. pose proof (ind_range (d =? i)).
  assert (0 <= zsum (pde_refs m d i) upde); [|lia].
  apply zsum_nonneg. intros. apply pde_refs_nonneg.
Qed.

Lemma refs_nonneg i : 0 <= refs m D i.
Proof. apply zsum_nonneg. intros. apply root_refs_nonneg. Qed.

Lemma pde_refs_ge d x p : pt_of m D d x p -> 1 <= pde_refs m d p x.
Proof.
  intros (_ & _ & Hpr & <-). unfold pde_refs. rewrite Hpr, Z.eqb_refl.
  pose proof (pte_refs_nonneg (pgn (rdw m d x)) (pgn (rdw m d x))). cbn [ind]. lia.
Qed.

Lemma pde_sum_le d i x : x ∈ upde -> pde_refs m d i x <= zsum (pde_refs m d i) upde.
Proof. intros. apply zsum_elem_le; [|done]. intros. apply pde_refs_nonneg. Qed.

Lemma root_refs_le i d : d ∈ D -> root_refs m i d <= refs m D i.
Proof. intros. apply zsum_elem_le; [|done]. intros. apply root_refs_nonneg. Qed.

Lemma root_refs_self d : 1 <= root_refs m d d.
Proof.
  unfold root_refs. rewrite Z.eqb_refl.
  assert (0 <= zsum (pde_refs m d d) upde); [|cbn [ind]; lia].
  apply zsum_nonneg. intros. apply pde_refs_nonneg.
Qed.

Lemma root_refs_pt d x p : pt_of m D d x p -> ind (d =? p) + 1 <= root_refs m p d.
Proof.
  intros H. unfold root_refs. pose proof (pde_refs_ge _ _ _ H).
  destruct H as (_ & Hx & _). pose proof (pde_sum_le d p x Hx). lia.
Qed.

Lemma refs_root d : d ∈ D -> 1 <= refs m D d.
Proof. intros Hd. pose proof (root_refs_le d d Hd). pose proof (root_refs_self d). lia. Qed.

Lemma refs_pt p : is_pt m D p -> 1 <= refs m D p.
Proof.
  intros (d & x & H). pose proof (root_refs_pt _ _ _ H). destruct H as (Hd & _).
  pose proof (root_refs_le p d Hd). pose proof (ind_range (d =? p)). lia.
Qed.

Lemma refs_table p : is_table m D p -> 1 <= refs m D p.
Proof. intros [?|?]; [by apply refs_root|by apply refs_pt]. Qed.

(** A page referenced by a present page table entry is counted. *)
Lemma pte_pde_ge d x p y i :
  pt_of m D d x p -> y ∈ ptes -> present (rdw m p y) = true -> pgn (rdw m p y) = i ->
  ind (p =? i) + 1 <= pde_refs m d i x.
Proof.
  intros (_ & _ & Hpr & Hp) Hy Hq Hi. unfold pde_refs. rewrite Hpr, Hp.
  assert (pte_ref m p i y <= pte_refs m p i) as Hle.
  { apply zsum_elem_le; [|done]. intros. apply ind_range. }
  unfold pte_ref in Hle. rewrite Hq, Hi, Z.eqb_refl in Hle. cbn [ind andb] in Hle. lia.
Qed.

Lemma refs_pte d x p y i :
  pt_of m D d x p -> y ∈ ptes -> present (rdw m p y) = true -> pgn (rdw m p y) = i ->
  1 <= refs m D i.
Proof.
  intros H Hy Hq Hi. pose proof (pte_pde_ge _ _ _ _ _ H Hy Hq Hi).
  destruct H as (Hd & Hx & _). pose proof (root_refs_le i d Hd).
  pose proof (pde_sum_le d i x Hx). pose proof (ind_range (p =? i)).
  pose proof (ind_range (d =? i)). unfold root_refs in *. lia.
Qed.
End bounds.

(** ** A page referenced exactly once has exactly one referrer *)

Section unique.
Context (m : memory) (D : list Z).

Lemma pt_unique d x p d' x' :
  refs m D p = 1 -> pt_of m D d x p -> pt_of m D d' x' p -> d' = d /\ x' = x.
Proof.
  intros H1 H H'.
  destruct (decide (d' = d)) as [->|Hd].
  - split; [done|]. destruct (decide (x' = x)) as [|Hx]; [done|exfalso].
    pose proof (pde_refs_ge m D _ _ _ H). pose proof (pde_refs_ge m D _ _ _ H').
    destruct H as (Hd & Hxu & _), H' as (_ & Hxu' & _).
    pose proof (root_refs_le m D p d Hd).
    assert (pde_refs m d p x + pde_refs m d p x' <= zsum (pde_refs m d p) upde).
    { apply zsum_elem2_le; [|done..]. intros. apply pde_refs_nonneg. }
    pose proof (ind_range (d =? p)). unfold root_refs in *. lia.
  - exfalso. pose proof (root_refs_pt m D _ _ _ H). pose proof (root_refs_pt m D _ _ _ H').
    destruct H as (Hdu & _), H' as (Hdu' & _).
    assert (root_refs m p d + root_refs m p d' <= refs m D p).
    { apply zsum_elem2_le; [|done..]. intros. apply root_refs_nonneg. }
    pose proof (ind_range (d =? p)). pose proof (ind_range (d' =? p)). lia.
Qed.

Lemma pt_not_root d x p d' : refs m D p = 1 -> pt_of m D d x p -> d' ∈ D -> d' <> p.
Proof.
  intros H1 H Hd' ->. pose proof (root_refs_pt m D _ _ _ H). destruct H as (Hd & _).
  destruct (decide (p = d)) as [->|Hne].
  - rewrite Z.eqb_refl in *. pose proof (root_refs_le m D d d Hd). cbn [ind] in *. lia.
  - pose proof (root_refs_self m p).
    assert (root_refs m p d + root_refs m p p <= refs m D p).
    { apply zsum_elem2_le; [|done..]. intros. apply root_refs_nonneg. }
    pose proof (ind_range (d =? p)). lia.
Qed.

Lemma table_not_pte q d x p y :
  is_table m D q -> refs m D q = 1 -> pt_of m D d x p -> y ∈ ptes ->
  present (rdw m p y) = true -> pgn (rdw m p y) <> q.
Proof.
  intros Ht H1 H Hy Hq Hi.
  pose proof (pte_pde_ge m D _ _ _ _ _ H Hy Hq Hi) as Hge.
  destruct Ht as [Ht|(d' & x' & H')].
  - destruct (decide (q = d)) as [->|Hne].
    + destruct H as (Hd & Hx & _). pose proof (root_refs_le m D d d Hd).
      pose proof (pde_sum_le m d d x Hx). pose proof (ind_range (p =? d)).
      unfold root_refs in *. rewrite Z.eqb_refl in *. cbn [ind] in *. lia.
    + destruct H as (Hd & Hx & _). pose proof (pde_sum_le m d q x Hx).
      pose proof (root_refs_self m q).
      assert (root_refs m q d + root_refs m q q <= refs m D q).
      { apply zsum_elem2_le; [|done..]. intros. apply root_refs_nonneg. }
      pose proof (ind_range (p =? q)). pose proof (ind_range (d =? q)).
      unfold root_refs in *. lia.
  - assert (Hd := H). destruct Hd as (Hd & Hx & _).
    pose proof (pde_refs_ge m D _ _ _ H') as Hge'.
    assert (Hd' := H'). destruct Hd' as (Hd' & Hx' & _).
    pose proof (ind_range (p =? q)).
    destruct (decide (d' = d)) as [->|Hne].
    + destruct (decide (x' = x)) as [->|Hnx].
      * assert (q = p) as -> by (destruct H as (_ & _ & _ & <-), H' as (_ & _ & _ & <-); done).
        rewrite Z.eqb_refl in *. pose proof (root_refs_le m D p d Hd).
        pose proof (pde_sum_le m d p x Hx). pose proof (ind_range (d =? p)).
        unfold root_refs in *. cbn [ind] in *. lia.
      * pose proof (root_refs_le m D q d Hd). pose proof (ind_range (d =? q)).
        assert (pde_refs m d q x + pde_refs m d q x' <= zsum (pde_refs m d q) upde).
        { apply zsum_elem2_le; [|done..]. intros. apply pde_refs_nonneg. }
        unfold root_refs in *. lia.
    + pose proof (pde_sum_le m d q x Hx). pose proof (pde_sum_le m d' q x' Hx').
      assert (root_refs m q d + root_refs m q d' <= refs m D q).
      { apply zsum_elem2_le; [|done..]. intros. apply root_refs_nonneg. }
      pose proof (ind_range (d =? q)). pose proof (ind_range (d' =? q)).
      unfold root_refs in *. lia.
Qed.
End unique.

(** ** Effects of table updates *)

(** Memory that agrees on every table has the same references. *)
Lemma refs_frame m m' D i :
  (forall p y, is_table m D p -> rdw m' p y = rdw m p y) ->
  refs m' D i = refs m D i.
Proof.
  intros H. apply zsum_ext. intros d Hd. unfold root_refs. f_equal.
  apply zsum_ext. intros x Hx. unfold pde_refs. rewrite H by (by left).
  destruct (present _) eqn:Hpr; [|done]. f_equal.
  apply zsum_ext. intros y Hy. unfold pte_ref. rewrite H; [done|].
  right. by exists d, x.
Qed.

Lemma is_pt_frame m m' D p :
  (forall d x, d ∈ D -> x ∈ upde -> rdw m' d x = rdw m d x) ->
  is_pt m' D p <-> is_pt m D p.
Proof.
  intros H. split; intros (d & x & Hd & Hx & Hpr & Hp); exists d, x.
  - rewrite H in Hpr, Hp by done. by repeat split.
  - repeat split; [done..| |]; by rewrite H.
Qed.

(** Writing entry [y] of the page table [p]. *)
Lemma refs_set_pte m D d x p y v i :
  NoDup D -> refs m D p = 1 -> pt_of m D d x p -> y ∈ ptes ->
  refs (wrw m p y v) D i =
    refs m D i - pte_ref m p i y + ind (present v && (pgn v =? i)).
Proof.
  intros HD H1 Hpt Hy. assert (Hpt' := Hpt). destruct Hpt' as (Hd & Hx & Hpr & Hp).
  set (m' := wrw m p y v).
  assert (Hroot : forall d' x', d' ∈ D -> rdw m' d' x' = rdw m d' x').
  { intros d' x' Hd'. apply rdw_wrw_ne. left. pose proof (pt_not_root m D d x p d' H1 Hpt Hd'). done. }
  assert (Hother : forall d' x', d' ∈ D -> x' ∈ upde -> ~ (d' = d /\ x' = x) ->
            pde_refs m' d' i x' = pde_refs m d' i x').
  { intros d' x' Hd' Hx' Hne. unfold pde_refs. rewrite Hroot by done.
    destruct (present (rdw m d' x')) eqn:Hpr'; [|done]. f_equal.
    apply zsum_ext. intros y' Hy'. unfold pte_ref. unfold m'. rewrite rdw_wrw_ne; [done|].
    left. intros Heq. apply Hne.
    apply (pt_unique m D d x p d' x' H1 Hpt). by repeat split. }
  assert (Hthis : pde_refs m' d i x = pde_refs m d i x - pte_ref m p i y + ind (present v && (pgn v =? i))).
  { unfold pde_refs. rewrite Hroot by done. rewrite Hpr, Hp. unfold pte_refs.
    rewrite (zsum_update (pte_ref m p i) (pte_ref m' p i) ptes y NoDup_ptes Hy).
    - unfold pte_ref at 3. unfold m'. rewrite rdw_wrw_eq. lia.
    - intros y' _ Hne. unfold pte_ref, m'. rewrite rdw_wrw_ne by (right; congruence). done. }
  unfold refs.
  rewrite (zsum_update (root_refs m i) (root_refs m' i) D d HD Hd).
  - unfold root_refs at 3. rewrite (zsum_update (pde_refs m d i) (pde_refs m' d i) upde x NoDup_upde Hx).
    + rewrite Hthis. unfold root_refs. lia.
    + intros x' Hx' Hne. apply Hother; [done..|]. by intros [_ ?].
  - intros d' Hd' Hne. unfold root_refs. f_equal. apply zsum_ext. intros x' Hx'.
    apply Hother; [done..|]. by intros [? _].
Qed.

(** Writing entry [x] of the directory [d]: the old table's references go away and the new
    table's references come in. *)
Lemma refs_set_pde m D d x v i :
  NoDup D -> d ∈ D -> x ∈ upde -> (forall p, is_pt m D p -> p <> d) ->
  (present v = true -> pgn v <> d) ->
  refs (wrw m d x v) D i =
    refs m D i - pde_refs m d i x
    + (if present v then ind (pgn v =? i) + pte_refs m (pgn v) i else 0).
Proof.
  intros HD Hd Hx Hnpt Hv. set (m' := wrw m d x v).
  assert (Hpt : forall p, p <> d -> pte_refs m' p i = pte_refs m p i).
  { intros p Hne. apply zsum_ext. intros y _. unfold pte_ref, m'.
    rewrite rdw_wrw_ne by (left; congruence). done. }
  assert (Hsame : forall d' x', d' ∈ D -> x' ∈ upde -> ~ (d' = d /\ x' = x) ->
            pde_refs m' d' i x' = pde_refs m d' i x').
  { intros d' x' Hd' Hx' Hne. unfold pde_refs.
    replace (rdw m' d' x') with (rdw m d' x').
    2:{ unfold m'. rewrite rdw_wrw. destruct (decide _) as [[-> ->]|]; [by destruct Hne|done]. }
    destruct (present (rdw m d' x')) eqn:Hpr; [|done]. rewrite Hpt; [done|].
    apply Hnpt. exists d', x'. by repeat split. }
  assert (Hthis : pde_refs m' d i x =
            if present v then ind (pgn v =? i) + pte_refs m (pgn v) i else 0).
  { unfold pde_refs, m'. rewrite rdw_wrw_eq. destruct (present v) eqn:Hpr; [|done].
    fold m'. rewrite Hpt by auto. done. }
  unfold refs.
  rewrite (zsum_update (root_refs m i) (root_refs m' i) D d HD Hd).
  - unfold root_refs at 3. rewrite (zsum_update (pde_refs m d i) (pde_refs m' d i) upde x NoDup_upde Hx).
    + rewrite Hthis. unfold root_refs. lia.
    + intros x' Hx' Hne. apply Hsame; [done..|]. by intros [_ ?].
  - intros d' Hd' Hne. unfold root_refs. f_equal. apply zsum_ext. intros x' Hx'.
    apply Hsame; [done..|]. by intros [? _].
Qed.

Lemma refs_perm m D D' i : D ≡ₚ D' -> refs m D i = refs m D' i.
Proof. apply zsum_perm. Qed.

Lemma is_pt_perm m D D' p : D ≡ₚ D' -> is_pt m D p -> is_pt m D' p.
Proof.
  intros HD (d & x & Hd & H). exists d, x. split; [|done]. by rewrite <- HD.
Qed.

Lemma refs_cons m D d i : refs m (d :: D) i = root_refs m i d + refs m D i.
Proof. done. Qed.

(** A directory whose user half is empty only counts itself. *)
Lemma root_refs_empty m d i :
  (forall x, x ∈ upde -> present (rdw m d x) = false) -> root_refs m i d = ind (d =? i).
Proof.
  intros H. unfold root_refs. rewrite zsum_zero; [lia|].
  intros x Hx. unfold pde_refs. by rewrite H.
Qed.

Lemma pte_refs_empty m p i :
  (forall y, y ∈ ptes -> present (rdw m p y) = false) -> pte_refs m p i = 0.
Proof.
  intros H. apply zsum_zero. intros y Hy. unfold pte_ref. by rewrite H.
Qed.
