(* ===== verification/VmInv.v ===== *)
(** * VmInv: the invariant of the page allocator and of the user page tables

    [pg_inv] describes the array [pages] and the free list threaded through it; [tbl_inv]
    describes the tables in memory; [vm_inv] ties them together: the reference count the
    kernel keeps for a page is the number of references to it from the tables.  [A] is the
    set of pages the allocator manages, [D] the page directories in use, [X] the pages that
    have been allocated and are not referenced yet. *)

From S2P Require Import Prelude Layout KState VmRefs.

(** The kernel virtual address of page [pg]. *)
Definition kva (pg : Z) : Z := KERNBASE + pg * PGSIZE.

(** [fl] is the list of pages linked from [head]. *)
Fixpoint linked (pgs : gmap Z PageInfo) (head : option Z) (fl : list Z) : Prop :=
  match fl with
  | [] => head = None
  | i :: fl => head = Some i /\ exists p, pgs !! i = Some p /\ linked pgs (pp_link p) fl
  end.

Record pg_inv (A X : gset Z) (n : Z) (f : Z -> Z) (pgs : gmap Z PageInfo) (head : option Z) : Prop := {
  pi_npages : 0 < n <= 65536;
  pi_dom : forall i, is_Some (pgs !! i) <-> 0 <= i < n;
  pi_pool : forall i, i ∈ A -> 0 <= i < n;
  pi_ref : forall i p, i ∈ A -> pgs !! i = Some p -> pp_ref p = f i;
  pi_max : forall i, i ∈ A -> 0 <= f i < 2^16;
  pi_list : exists fl, linked pgs head fl /\ NoDup fl /\
    (forall i, i ∈ fl -> i ∉ X) /\
    (forall i, i ∈ fl \/ i ∈ X <-> i ∈ A /\ f i = 0) /\
    (forall i p, i ∈ A -> i ∉ fl -> pgs !! i = Some p -> pp_link p = None);
}.

Record tbl_inv (A : gset Z) (D : list Z) (m : memory) : Prop := {
  ti_nodup : NoDup D;
  ti_word : forall pg i, 0 <= rdw m pg i < 2^32;
  ti_root : forall d, d ∈ D -> d ∈ A;
  ti_ps : forall d x, d ∈ D -> x ∈ upde -> rdw m d x .& PTE_PS = 0;
  ti_pdew : forall d x, d ∈ D -> x ∈ upde -> present (rdw m d x) = true -> rdw m d x .& (PTE_U .| PTE_W) = PTE_U .| PTE_W;
  ti_pde : forall d x p, pt_of m D d x p -> p ∈ A;
  ti_pte : forall d x p y, pt_of m D d x p -> y ∈ ptes -> present (rdw m p y) = true ->
    pgn (rdw m p y) ∈ A /\ rdw m p y .& PTE_PS = 0;
  ti_table : forall p, is_table m D p -> refs m D p = 1;
}.

Definition vm_inv (A : gset Z) (D : list Z) (X : gset Z) (s : kstate) : Prop :=
  tbl_inv A D (mem s) /\ pg_inv A X (npages s) (refs (mem s) D) (pages s) (page_free_list s).

(** ** The free list *)

Lemma linked_frame pgs i p head fl :
  i ∉ fl -> linked (<[i := p]> pgs) head fl <-> linked pgs head fl.
Proof.
  revert head. induction fl as [|j fl IH]; intros head Hi; [done|].
  apply not_elem_of_cons in Hi as [Hij Hi]. simpl.
  rewrite lookup_insert_ne by done. split; intros (-> & q & Hq & Hl); (split; [done|]);
    exists q; (split; [done|]); by apply (IH _ Hi).
Qed.

(** Changing the reference counter of a page keeps every link. *)
Lemma linked_ref pgs i p r head fl :
  pgs !! i = Some p -> linked pgs head fl -> linked (<[i := set_pp_ref r p]> pgs) head fl.
Proof.
  intros Hp. revert head. induction fl as [|j fl IH]; intros head; [done|]. simpl.
  intros (-> & q & Hq & Hl). split; [done|]. destruct (decide (i = j)) as [<-|Hne].
  - rewrite lookup_insert_eq. exists (set_pp_ref r p). split; [done|]. simpl.
    replace q with p in Hl by congruence. by apply IH.
  - rewrite lookup_insert_ne by done. exists q. split; [done|]. by apply IH.
Qed.

Lemma dom_insert_iff {V} (pgs : gmap Z V) i p (P : Z -> Prop) :
  is_Some (pgs !! i) -> (forall j, is_Some (pgs !! j) <-> P j) ->
  forall j, is_Some (<[i := p]> pgs !! j) <-> P j.
Proof.
  intros Hi H j. destruct (decide (i = j)) as [<-|Hne].
  - rewrite lookup_insert_eq, <- H. split; [done|eauto].
  - by rewrite lookup_insert_ne.
Qed.

Section pg.
Context (A X : gset Z) (n : Z) (f : Z -> Z) (pgs : gmap Z PageInfo).

Lemma pg_inv_ext f' head :
  (forall i, i ∈ A -> f' i = f i) -> pg_inv A X n f pgs head -> pg_inv A X n f' pgs head.
Proof.
  intros He [? ? ? Hr Hm (fl & ? & ? & ? & Hfl & ?)]. split; [done..| | |].
  - intros i p Hi Hp. rewrite He by done. eauto.
  - intros i Hi. rewrite He by done. auto.
  - exists fl. split_and!; [done..| |done]. intros i. rewrite Hfl.
    split; intros [Hi Hz]; rewrite He in * by done; done.
Qed.

Lemma pg_inv_page head i :
  pg_inv A X n f pgs head -> i ∈ A ->
  0 <= i < n /\ exists p, pgs !! i = Some p /\ pp_ref p = f i.
Proof.
  intros [? Hd Hp Hr] Hi. assert (Hn : 0 <= i < n) by auto. split; [done|].
  apply Hd in Hn as [p Hpi]. exists p. split; [done|eauto].
Qed.

(** Taking the first page off the free list. *)
Lemma pg_inv_pop q :
  pg_inv A X n f pgs (Some q) ->
  exists p, pgs !! q = Some p /\ q ∈ A /\ q ∉ X /\ f q = 0 /\
    pg_inv A (X ∪ {[q]}) n f (<[q := set_pp_link None p]> pgs) (pp_link p).
Proof.
  intros [? Hd ? Hr ? (fl & Hl & Hnd & Hx & Hfl & Hlk)].
  destruct fl as [|q' fl]; [done|]. destruct Hl as ([= <-] & p & Hp & Hl).
  apply NoDup_cons in Hnd as [Hq Hnd].
  assert (Hqa : q ∈ A /\ f q = 0) by (apply Hfl; left; left).
  destruct Hqa as [Hqa Hq0].
  assert (Hqx : q ∉ X) by (apply Hx; left).
  exists p. repeat (split; [done|]). split; [done| |done| |done|].
  - apply dom_insert_iff; [eauto|done].
  - intros i p' Hi Hp'. destruct (decide (q = i)) as [<-|Hne].
    + rewrite lookup_insert_eq in Hp'. injection Hp' as <-. simpl. eauto.
    + rewrite lookup_insert_ne in Hp' by done. eauto.
  - exists fl. split; [by apply linked_frame|]. split; [done|]. split_and!.
    + intros i Hi. assert (i <> q) by congruence.
      assert (i ∉ X) by (apply Hx; by right). set_solver.
    + intros i. rewrite <- Hfl, elem_of_cons. set_solver.
    + intros i p' Hi Hni Hp'. destruct (decide (q = i)) as [<-|Hne].
      * rewrite lookup_insert_eq in Hp'. by injection Hp' as <-.
      * rewrite lookup_insert_ne in Hp' by done. apply (Hlk i); [done| |done].
        rewrite elem_of_cons. by intros [?|?].
Qed.

(** Putting a page in transit back on the free list. *)
Lemma pg_inv_push head q :
  pg_inv A X n f pgs head -> q ∈ X ->
  exists p, pgs !! q = Some p /\ pp_ref p = 0 /\ pp_link p = None /\
    pg_inv A (X ∖ {[q]}) n f (<[q := set_pp_link head p]> pgs) (Some q).
Proof.
  intros Hinv Hq. assert (Hinv' := Hinv).
  destruct Hinv' as [? Hd ? Hr ? (fl & Hl & Hnd & Hx & Hfl & Hlk)].
  assert (Hqa : q ∈ A /\ f q = 0) by (apply Hfl; auto). destruct Hqa as [Hqa Hq0].
  destruct (pg_inv_page _ q Hinv Hqa) as (_ & p & Hp & Hpr).
  assert (Hnq : q ∉ fl) by (intros ?; by apply (Hx q)).
  exists p. split; [done|]. split; [lia|]. split; [eauto|].
  split; [done| |done| |done|].
  - apply dom_insert_iff; [eauto|done].
  - intros i p' Hi Hp'. destruct (decide (q = i)) as [<-|Hne].
    + rewrite lookup_insert_eq in Hp'. injection Hp' as <-. simpl. eauto.
    + rewrite lookup_insert_ne in Hp' by done. eauto.
  - exists (q :: fl). split_and!.
    + split; [done|]. exists (set_pp_link head p). rewrite lookup_insert_eq. split; [done|].
      by apply linked_frame.
    + by constructor.
    + intros i [->|Hi]%elem_of_cons; [set_solver|]. specialize (Hx i Hi). set_solver.
    + intros i. rewrite <- Hfl, elem_of_cons. destruct (decide (i = q)); set_solver.
    + intros i p' Hi [Hne Hni]%not_elem_of_cons Hp'.
      rewrite lookup_insert_ne in Hp' by done. eauto.
Qed.

(** A reference comes in. *)
Lemma pg_inv_incr head f' q :
  pg_inv A X n f pgs head -> q ∈ A -> q ∈ X \/ 0 < f q -> f q + 1 < 2^16 ->
  (forall i, f' i = f i + ind (q =? i)) ->
  exists p, pgs !! q = Some p /\ pp_ref p = f q /\
    pg_inv A (X ∖ {[q]}) n f' (<[q := set_pp_ref (f q + 1) p]> pgs) head.
Proof.
  intros Hinv Hq Hqx Hmax Hf. assert (Hinv' := Hinv).
  destruct Hinv' as [? Hd ? Hr Hm (fl & Hl & Hnd & Hx & Hfl & Hlk)].
  destruct (pg_inv_page _ q Hinv Hq) as (_ & p & Hp & Hpr).
  assert (Hfq : f' q = f q + 1) by (rewrite Hf, Z.eqb_refl; done).
  assert (Hfo : forall i, i <> q -> f' i = f i).
  { intros i Hi. rewrite Hf. destruct (Z.eqb_spec q i); [congruence|]. cbn [ind]. lia. }
  assert (Hnq : q ∉ fl).
  { intros Hqf. destruct Hqx as [Hqx|Hqx]; [by apply (Hx q)|].
    assert (q ∈ A /\ f q = 0) by (apply Hfl; auto). lia. }
  pose proof (Hm q Hq).
  exists p. split; [done|]. split; [done|]. split; [done| |done| | |].
  - apply dom_insert_iff; [eauto|done].
  - intros i p' Hi Hp'. destruct (decide (q = i)) as [<-|Hne].
    + rewrite lookup_insert_eq in Hp'. injection Hp' as <-. simpl. lia.
    + rewrite lookup_insert_ne in Hp' by done. rewrite Hfo by done. eauto.
  - intros i Hi. destruct (decide (i = q)) as [->|]; [lia|]. rewrite Hfo by done. auto.
  - exists fl. split; [by apply linked_ref|]. split; [done|]. split_and!.
    + intros i Hi. specialize (Hx i Hi). set_solver.
    + intros i. destruct (decide (i = q)) as [->|]; [set_solver by lia|].
      rewrite Hfo, <- Hfl by done. set_solver.
    + intros i p' Hi Hni Hp'. destruct (decide (q = i)) as [<-|Hne].
      * rewrite lookup_insert_eq in Hp'. injection Hp' as <-. simpl. eauto.
      * rewrite lookup_insert_ne in Hp' by done. eauto.
Qed.

(** A reference goes away; a page that loses its last one is in transit. *)
Lemma pg_inv_decr head f' q :
  pg_inv A X n f pgs head -> q ∈ A -> 0 < f q ->
  (forall i, f' i = f i - ind (q =? i)) ->
  exists p, pgs !! q = Some p /\ pp_ref p = f q /\ pp_link p = None /\
    pg_inv A (if f q =? 1 then X ∪ {[q]} else X) n f' (<[q := set_pp_ref (f q - 1) p]> pgs) head.
Proof.
  intros Hinv Hq Hpos Hf. assert (Hinv' := Hinv).
  destruct Hinv' as [? Hd ? Hr Hm (fl & Hl & Hnd & Hx & Hfl & Hlk)].
  destruct (pg_inv_page _ q Hinv Hq) as (_ & p & Hp & Hpr).
  assert (Hfq : f' q = f q - 1) by (rewrite Hf, Z.eqb_refl; done).
  assert (Hfo : forall i, i <> q -> f' i = f i).
  { intros i Hi. rewrite Hf. destruct (Z.eqb_spec q i); [congruence|]. cbn [ind]. lia. }
  assert (Hnq : ~ (q ∈ fl \/ q ∈ X)) by (rewrite Hfl; lia).
  pose proof (Hm q Hq).
  exists p. split; [done|]. split; [done|]. split; [eauto|]. split; [done| |done| | |].
  - apply dom_insert_iff; [eauto|done].
  - intros i p' Hi Hp'. destruct (decide (q = i)) as [<-|Hne].
    + rewrite lookup_insert_eq in Hp'. injection Hp' as <-. simpl. lia.
    + rewrite lookup_insert_ne in Hp' by done. rewrite Hfo by done. eauto.
  - intros i Hi. destruct (decide (i = q)) as [->|]; [lia|]. rewrite Hfo by done. auto.
  - exists fl. split; [by apply linked_ref|]. split; [done|].
    assert (HX : forall i, i ∈ (if f q =? 1 then X ∪ {[q]} else X) <-> i ∈ X \/ (i = q /\ f q = 1)).
    { intros i. destruct (Z.eqb_spec (f q) 1); set_solver by lia. }
    split_and!.
    + intros i Hi. rewrite HX. specialize (Hx i Hi). intros [?|[-> _]]; [done|]. auto.
    + intros i. rewrite HX. destruct (decide (i = q)) as [->|].
      * rewrite Hfq. split; [intros [?|[?|?]]; [naive_solver..|split; [done|lia]]|].
        intros. right. right. split; [done|lia].
      * rewrite Hfo, <- Hfl by done. naive_solver.
    + intros i p' Hi Hni Hp'. destruct (decide (q = i)) as [<-|Hne].
      * rewrite lookup_insert_eq in Hp'. injection Hp' as <-. simpl. eauto.
      * rewrite lookup_insert_ne in Hp' by done. eauto.
Qed.
End pg.

(** ** The tables *)

Section tbl.
Context (A : gset Z) (D : list Z) (m : memory) (H : tbl_inv A D m).

Lemma tbl_table_pool p : is_table m D p -> p ∈ A.
Proof.
  intros [Hp|(d & x & Hp)]; [by apply (ti_root _ _ _ H)|]. by eapply (ti_pde _ _ _ H).
Qed.

Lemma tbl_pt_root d x p : pt_of m D d x p -> p ∉ D.
Proof.
  intros Hp Hin. assert (Hr : refs m D p = 1).
  { apply (ti_table _ _ _ H). right. by exists d, x. }
  by apply (pt_not_root m D d x p p Hr Hp Hin).
Qed.

(** A page that nothing refers to is not a table. *)
Lemma tbl_unref p : refs m D p = 0 -> ~ is_table m D p.
Proof. intros H0 Ht. pose proof (refs_table m D p Ht). lia. Qed.

(** Pages other than the tables can be written freely. *)
Lemma tbl_frame m' :
  (forall p y, is_table m D p -> rdw m' p y = rdw m p y) ->
  (forall p y, 0 <= rdw m' p y < 2^32) -> tbl_inv A D m'.
Proof.
  intros Hf Hw.
  assert (Hroot : forall d x, d ∈ D -> rdw m' d x = rdw m d x) by (intros; apply Hf; by left).
  assert (Hpt : forall d x p, pt_of m' D d x p <-> pt_of m D d x p).
  { intros d x p. unfold pt_of. split; intros (Hd & ?); by rewrite (Hroot d x Hd) in *. }
  split.
  - apply (ti_nodup _ _ _ H).
  - done.
  - apply (ti_root _ _ _ H).
  - intros d x Hd Hx. rewrite Hroot by done. by apply (ti_ps _ _ _ H).
  - intros d x Hd Hx. rewrite Hroot by done. by apply (ti_pdew _ _ _ H).
  - intros d x p Hp. apply Hpt in Hp. by apply (ti_pde _ _ _ H d x).
  - intros d x p y Hp Hy. apply Hpt in Hp.
    rewrite Hf by (right; by exists d, x). by apply (ti_pte _ _ _ H d x).
  - intros p Hp. rewrite (refs_frame m m') by done. apply (ti_table _ _ _ H).
    destruct Hp as [?|(d & x & Hp)]; [by left|]. right. exists d, x. by apply Hpt.
Qed.

(** Writing an entry of a page table. *)
Lemma tbl_set_pte d x p y v :
  pt_of m D d x p -> y ∈ ptes -> 0 <= v < 2^32 ->
  (present v = true -> pgn v ∈ A /\ ~ is_table m D (pgn v) /\ v .& PTE_PS = 0) ->
  tbl_inv A D (wrw m p y v) /\
  (forall i, refs (wrw m p y v) D i =
     refs m D i - pte_ref m p i y + ind (present v && (pgn v =? i))).
Proof.
  intros Hp Hy Hv Hpv.
  assert (Hr : refs m D p = 1) by (apply (ti_table _ _ _ H); right; by exists d, x).
  assert (Hrefs : forall i, refs (wrw m p y v) D i =
     refs m D i - pte_ref m p i y + ind (present v && (pgn v =? i))).
  { intros i. apply (refs_set_pte m D d x); [apply (ti_nodup _ _ _ H)|done..]. }
  split; [|done].
  assert (Hroot : forall d' x', d' ∈ D -> rdw (wrw m p y v) d' x' = rdw m d' x').
  { intros d' x' Hd'. apply rdw_wrw_ne. left. intros ->. by apply (tbl_pt_root d x d'). }
  assert (Hpt : forall d x q, pt_of (wrw m p y v) D d x q <-> pt_of m D d x q).
  { intros d' x' q. unfold pt_of. split; intros (Hd & ?); by rewrite (Hroot d' x' Hd) in *. }
  split.
  - apply (ti_nodup _ _ _ H).
  - intros pg i. rewrite rdw_wrw. destruct (decide _); [done|]. apply (ti_word _ _ _ H).
  - apply (ti_root _ _ _ H).
  - intros d' x' Hd' Hx'. rewrite Hroot by done. by apply (ti_ps _ _ _ H).
  - intros d' x' Hd' Hx'. rewrite Hroot by done. by apply (ti_pdew _ _ _ H).
  - intros d' x' q Hq. apply Hpt in Hq. by apply (ti_pde _ _ _ H d' x').
  - intros d' x' q y' Hq Hy'. apply Hpt in Hq. rewrite rdw_wrw. destruct (decide _).
    + intros Hpr. destruct (Hpv Hpr) as (? & _ & ?). done.
    + by apply (ti_pte _ _ _ H d' x').
  - intros q Hq. assert (Hq' : is_table m D q).
    { destruct Hq as [?|(d' & x' & Hq)]; [by left|]. right. exists d', x'. by apply Hpt. }
    pose proof (ti_table _ _ _ H q Hq') as Hq1.
    rewrite Hrefs, Hq1. unfold pte_ref.
    assert (present (rdw m p y) && (pgn (rdw m p y) =? q) = false) as ->.
    { destruct (present (rdw m p y)) eqn:Hpr; [|done]. simpl. apply Z.eqb_neq.
      by apply (table_not_pte m D q d x). }
    assert (present v && (pgn v =? q) = false) as ->; [|done].
    destruct (present v) eqn:Hpr; [|done]. simpl. apply Z.eqb_neq. intros <-.
    by apply Hpv.
Qed.

Lemma pt_of_set_pde d x v d' x' p :
  d ∈ D -> x ∈ upde ->
  pt_of (wrw m d x v) D d' x' p ->
  (d' = d /\ x' = x /\ present v = true /\ pgn v = p) \/
  (~ (d' = d /\ x' = x) /\ pt_of m D d' x' p).
Proof.
  intros Hd Hx (Hd' & Hx' & Hpr & Hp). rewrite rdw_wrw in *.
  destruct (decide _) as [[<- <-]|Hne]; [by left|]. right.
  split; [|done]. intros [-> ->]. by apply Hne.
Qed.

(** Hanging the empty page table [q] into a directory. *)
Lemma tbl_new_pt d x q v :
  d ∈ D -> x ∈ upde -> present (rdw m d x) = false -> q ∈ A -> refs m D q = 0 ->
  (forall y, y ∈ ptes -> present (rdw m q y) = false) ->
  0 <= v < 2^32 -> present v = true -> pgn v = q -> v .& PTE_PS = 0 -> v .& (PTE_U .| PTE_W) = PTE_U .| PTE_W ->
  tbl_inv A D (wrw m d x v) /\
  (forall i, refs (wrw m d x v) D i = refs m D i + ind (q =? i)).
Proof.
  intros Hd Hx Habs Hq H0 Hempty Hv Hpr Hpg Hps Hpw.
  assert (Hqd : q <> d) by (intros ->; pose proof (refs_root m D d Hd); lia).
  assert (Hnpt : forall p, is_pt m D p -> p <> d).
  { intros p (d' & x' & Hp) ->. by apply (tbl_pt_root d' x' d). }
  assert (Hrefs : forall i, refs (wrw m d x v) D i = refs m D i + ind (q =? i)).
  { intros i. rewrite refs_set_pde; [|apply (ti_nodup _ _ _ H)|done..|congruence].
    rewrite Hpr, Hpg, pte_refs_empty by done. unfold pde_refs. rewrite Habs. lia. }
  split; [|done]. split.
  - apply (ti_nodup _ _ _ H).
  - intros pg i. rewrite rdw_wrw. destruct (decide _); [done|]. apply (ti_word _ _ _ H).
  - apply (ti_root _ _ _ H).
  - intros d' x' Hd' Hx'. rewrite rdw_wrw. destruct (decide _); [done|].
    by apply (ti_ps _ _ _ H).
  - intros d' x' Hd' Hx'. rewrite rdw_wrw. destruct (decide _); [done|].
    by apply (ti_pdew _ _ _ H).
  - intros d' x' p [(-> & -> & _ & <-)|[Hne Hp]]%pt_of_set_pde; [by rewrite Hpg| |done|done].
    by apply (ti_pde _ _ _ H d' x').
  - intros d' x' p y [(-> & -> & _ & <-)|[Hne Hp]]%pt_of_set_pde Hy; [| |done|done].
    + rewrite Hpg, rdw_wrw_ne by auto. rewrite Hempty by done. done.
    + rewrite rdw_wrw_ne; [by apply (ti_pte _ _ _ H d' x')|].
      left. intros ->. by apply (tbl_pt_root d' x' p).
  - intros p Ht. rewrite Hrefs. destruct (Z.eqb_spec q p) as [<-|Hqp]; [rewrite H0; done|].
    rewrite Z.add_0_r. apply (ti_table _ _ _ H).
    destruct Ht as [?|(d' & x' & Hp)]; [by left|].
    apply pt_of_set_pde in Hp as [(-> & -> & _ & <-)|[_ Hp]]; [congruence| |done|done].
    right. by exists d', x'.
Qed.

(** Taking a page table without present entries out of its directory. *)
Lemma tbl_clear_pde d x p :
  pt_of m D d x p -> (forall y, y ∈ ptes -> present (rdw m p y) = false) ->
  tbl_inv A D (wrw m d x 0) /\
  (forall i, refs (wrw m d x 0) D i = refs m D i - ind (p =? i)).
Proof.
  intros Hp Hempty. assert (Hp' := Hp). destruct Hp' as (Hd & Hx & Hpr & Hpg).
  assert (Hnpt : forall p, is_pt m D p -> p <> d).
  { intros p' (d' & x' & Hp') ->. by apply (tbl_pt_root d' x' d). }
  assert (Hrefs : forall i, refs (wrw m d x 0) D i = refs m D i - ind (p =? i)).
  { intros i. rewrite refs_set_pde; [|apply (ti_nodup _ _ _ H)|done..].
    rewrite present_0. unfold pde_refs. rewrite Hpr, Hpg, pte_refs_empty by done. lia. }
  assert (H1 : refs m D p = 1) by (apply (ti_table _ _ _ H); right; by exists d, x).
  split; [|done]. split.
  - apply (ti_nodup _ _ _ H).
  - intros pg i. rewrite rdw_wrw. destruct (decide _); [lia|]. apply (ti_word _ _ _ H).
  - apply (ti_root _ _ _ H).
  - intros d' x' Hd' Hx'. rewrite rdw_wrw. destruct (decide _); [done|].
    by apply (ti_ps _ _ _ H).
  - intros d' x' Hd' Hx'. rewrite rdw_wrw. destruct (decide _); [done|].
    by apply (ti_pdew _ _ _ H).
  - intros d' x' q [(_ & _ & ? & _)|[Hne Hq]]%pt_of_set_pde; [done| |done|done].
    by apply (ti_pde _ _ _ H d' x').
  - intros d' x' q y [(_ & _ & ? & _)|[Hne Hq]]%pt_of_set_pde Hy; [done| |done|done].
    rewrite rdw_wrw_ne; [by apply (ti_pte _ _ _ H d' x')|].
    left. intros ->. by apply (tbl_pt_root d' x' q).
  - intros q Ht. rewrite Hrefs.
    assert (Hq : is_table m D q /\ q <> p).
    { destruct Ht as [Hq|(d' & x' & Hq)].
      - split; [by left|]. intros ->. by apply (tbl_pt_root d x p).
      - apply pt_of_set_pde in Hq as [(_ & _ & ? & _)|[Hne Hq]]; [done| |done|done].
        split; [right; by exists d', x'|]. intros ->. apply Hne.
        by apply (pt_unique m D d x p d' x' H1). }
    destruct Hq as [Hq Hne]. destruct (Z.eqb_spec p q); [congruence|].
    rewrite Z.sub_0_r. by apply (ti_table _ _ _ H).
Qed.

(** A new directory whose user half is empty. *)
Lemma tbl_add_root d :
  d ∈ A -> refs m D d = 0 -> (forall x, x ∈ upde -> rdw m d x = 0) ->
  tbl_inv A (d :: D) m /\
  (forall i, refs m (d :: D) i = refs m D i + ind (d =? i)).
Proof.
  intros Hd H0 Hzero.
  assert (Hempty : forall x, x ∈ upde -> present (rdw m d x) = false) by (intros; by rewrite Hzero).
  assert (Hrefs : forall i, refs m (d :: D) i = refs m D i + ind (d =? i)).
  { intros i. rewrite refs_cons, root_refs_empty by done. lia. }
  assert (Hpt : forall d' x p, pt_of m (d :: D) d' x p -> pt_of m D d' x p).
  { intros d' x p (Hd' & Hx & Hpr & Hp). apply elem_of_cons in Hd' as [->|Hd'].
    - rewrite Hempty in Hpr; done.
    - by repeat split. }
  assert (HdD : d ∉ D) by (intros ?%(refs_root m); lia).
  split; [|done]. split.
  - constructor; [done|apply (ti_nodup _ _ _ H)].
  - apply (ti_word _ _ _ H).
  - intros d' [->|?]%elem_of_cons; [done|]. by apply (ti_root _ _ _ H).
  - intros d' x [->|Hd']%elem_of_cons Hx; [by rewrite Hzero|by apply (ti_ps _ _ _ H)].
  - intros d' x [->|Hd']%elem_of_cons Hx; [by rewrite Hzero|by apply (ti_pdew _ _ _ H)].
  - intros d' x p Hp%Hpt. by apply (ti_pde _ _ _ H d' x).
  - intros d' x p y Hp%Hpt. by apply (ti_pte _ _ _ H d' x).
  - intros p Ht. rewrite Hrefs. destruct (Z.eqb_spec d p) as [<-|Hne]; [rewrite H0; done|].
    rewrite Z.add_0_r. apply (ti_table _ _ _ H).
    destruct Ht as [[->|?]%elem_of_cons|(d' & x & Hp%Hpt)]; [done|by left|].
    right. by exists d', x.
Qed.
End tbl.

(** Dropping a directory whose user half is empty. *)
Lemma tbl_drop_root A D m d D' :
  tbl_inv A D m -> D ≡ₚ d :: D' -> (forall x, x ∈ upde -> present (rdw m d x) = false) ->
  tbl_inv A D' m /\ (forall i, refs m D' i = refs m D i - ind (d =? i)).
Proof.
  intros H HD Hempty.
  assert (Hrefs : forall i, refs m D' i = refs m D i - ind (d =? i)).
  { intros i. rewrite (refs_perm m D (d :: D')), refs_cons, root_refs_empty by done. lia. }
  assert (Hpt : forall d' x p, pt_of m D' d' x p -> pt_of m D d' x p).
  { intros d' x p (Hd' & ?). split; [|done]. rewrite HD. by right. }
  assert (Hnd : NoDup (d :: D')) by (rewrite <- HD; apply (ti_nodup _ _ _ H)).
  apply NoDup_cons in Hnd as [HdD Hnd].
  assert (Hd1 : refs m D d = 1).
  { apply (ti_table _ _ _ H). left. rewrite HD. left. }
  split; [|done]. split.
  - done.
  - apply (ti_word _ _ _ H).
  - intros d' Hd'. apply (ti_root _ _ _ H). rewrite HD. by right.
  - intros d' x Hd'. apply (ti_ps _ _ _ H). rewrite HD. by right.
  - intros d' x Hd'. apply (ti_pdew _ _ _ H). rewrite HD. by right.
  - intros d' x p Hp%Hpt. by apply (ti_pde _ _ _ H d' x).
  - intros d' x p y Hp%Hpt. by apply (ti_pte _ _ _ H d' x).
  - intros p Ht. rewrite Hrefs.
    assert (Hp : is_table m D p /\ p <> d).
    { destruct Ht as [Hp|(d' & x & Hp%Hpt)].
      - split; [left; rewrite HD; by right|]. by intros ->.
      - split; [right; by exists d', x|]. intros ->.
        apply (tbl_pt_root A D m H d' x d Hp). rewrite HD. left. }
    destruct Hp as [Hp Hne]. destruct (Z.eqb_spec d p); [congruence|].
    rewrite Z.sub_0_r. by apply (ti_table _ _ _ H).
Qed.

(** The order of the directories does not matter. *)
Lemma vm_inv_perm A D D' X s : D ≡ₚ D' -> vm_inv A D X s -> vm_inv A D' X s.
Proof.
  intros HD [H Hp].
  assert (Hpt : forall d x p, pt_of (mem s) D' d x p -> pt_of (mem s) D d x p).
  { intros d x p (Hd & ?). split; [by rewrite HD|done]. }
  split.
  - split.
    + rewrite <- HD. apply (ti_nodup _ _ _ H).
    + apply (ti_word _ _ _ H).
    + intros d. rewrite <- HD. apply (ti_root _ _ _ H).
    + intros d x. rewrite <- HD. apply (ti_ps _ _ _ H).
    + intros d x. rewrite <- HD. apply (ti_pdew _ _ _ H).
    + intros d x p Hq%Hpt. by apply (ti_pde _ _ _ H d x).
    + intros d x p y Hq%Hpt. by apply (ti_pte _ _ _ H d x).
    + intros p Ht. rewrite <- (refs_perm _ D D') by done. apply (ti_table _ _ _ H).
      destruct Ht as [?|(d & x & Hq%Hpt)]; [left; by rewrite HD|right; by exists d, x].
  - eapply pg_inv_ext; [|done]. intros. symmetry. by apply refs_perm.
Qed.
