(* ===== verification/VmOps.v ===== *)
(** * VmOps: what the operations of [kern/pmap.c] do to a state satisfying [vm_inv]

    Each operation is run symbolically: it returns, its result is given, the invariant is
    re-established, and everything outside the page arrays, memory and the TLB log keeps
    its value ([vm_frame]). *)

From S2P Require Import Prelude Layout KState Pmap VmRefs VmInv.

(** [ks] runs the plumbing of the kernel monad. *)
Ltac ks := cbv beta iota zeta delta [mbind mret K_bind K_ret get modify panic stuck kassert when fst snd].
(** [kr H] replaces a call whose result is given by [H] and goes on. *)
Ltac kr H := rewrite H; ks.

(** Only the page arrays, physical memory and the TLB log differ. *)
Definition vm_frame (s s' : kstate) : Prop :=
  s' = set_klog (klog s') (set_mem (mem s')
         (set_page_free_list (page_free_list s') (set_pages (pages s') s))).

Lemma vm_frame_refl s : vm_frame s s.
Proof. by destruct s. Qed.
Lemma vm_frame_trans s1 s2 s3 : vm_frame s1 s2 -> vm_frame s2 s3 -> vm_frame s1 s3.
Proof. unfold vm_frame. intros H1 H2. rewrite H2, H1. by destruct s1, s2, s3. Qed.

Lemma vm_frame_npages s s' : vm_frame s s' -> npages s' = npages s.
Proof. by intros ->. Qed.
Lemma vm_frame_envs s s' : vm_frame s s' -> envs s' = envs s.
Proof. by intros ->. Qed.
Lemma vm_frame_cpus s s' : vm_frame s s' -> cpus s' = cpus s /\ cpunum s' = cpunum s.
Proof. by intros ->. Qed.

Create HintDb frame.
#[export] Hint Resolve vm_frame_refl : frame.
#[export] Hint Extern 2 (vm_frame _ _) => reflexivity : frame.

(** ** Loads and stores of page words *)

Lemma page2pa_eq pg : 0 <= pg < 65536 -> page2pa pg = pg * 4096.
Proof.
  intros. unfold page2pa, PGSHIFT. rewrite shiftl_mul, u32_small by lia. lia.
Qed.

Section access.
Context (s : kstate) (Hn : 0 < npages s <= 65536).

Lemma KADDR_page pg : 0 <= pg < npages s -> KADDR (pg * 4096) s = Ret (kva pg) s.
Proof.
  intros. unfold KADDR. ks. rewrite PGNUM_div, Z.div_mul by lia.
  destruct (Z.leb_spec (npages s) pg); [lia|]. ks. unfold kva. rewrite u32_small by clia.
  f_equal. clia.
Qed.

Lemma page2kva_eq pg : 0 <= pg < npages s -> page2kva pg s = Ret (kva pg) s.
Proof. intros. unfold page2kva. rewrite page2pa_eq by lia. by apply KADDR_page. Qed.

Lemma kload_kva pg i :
  0 <= pg < npages s -> 0 <= i < 1024 -> kload (kva pg + 4 * i) s = Ret (rdw (mem s) pg i) s.
Proof.
  intros. unfold kload, kva, PGSIZE.
  replace (KERNBASE + pg * 4096 + 4 * i - KERNBASE) with (pg * 4096 + 4 * i) by lia.
  replace ((pg * 4096 + 4 * i) / 4096) with pg by dlia.
  replace ((pg * 4096 + 4 * i) mod 4096 / 4) with i by dlia.
  destruct (Z.leb_spec 0 (pg * 4096 + 4 * i)); [|lia].
  by destruct (Z.ltb_spec pg (npages s)); [|lia].
Qed.

Lemma kstore_kva pg i v :
  0 <= pg < npages s -> 0 <= i < 1024 ->
  kstore (kva pg + 4 * i) v s = Ret tt (set_mem (wrw (mem s) pg i v) s).
Proof.
  intros. unfold kstore, kva, PGSIZE.
  replace (KERNBASE + pg * 4096 + 4 * i - KERNBASE) with (pg * 4096 + 4 * i) by lia.
  replace ((pg * 4096 + 4 * i) / 4096) with pg by dlia.
  replace ((pg * 4096 + 4 * i) mod 4096 / 4) with i by dlia.
  destruct (Z.leb_spec 0 (pg * 4096 + 4 * i)); [|lia].
  by destruct (Z.ltb_spec pg (npages s)); [|lia].
Qed.

Lemma zero_kva_eq pg :
  0 <= pg < npages s -> zero_kva (kva pg) s = Ret tt (set_mem (zero_page (mem s) pg) s).
Proof.
  intros. unfold zero_kva, kva, PGSIZE.
  replace (KERNBASE + pg * 4096 - KERNBASE) with (pg * 4096) by lia.
  rewrite Z.div_mul by lia.
  destruct (Z.leb_spec 0 (pg * 4096)); [|lia].
  by destruct (Z.ltb_spec pg (npages s)); [|lia].
Qed.

Lemma pa2page_eq e :
  0 <= e < 2^32 -> pgn e < npages s -> pa2page (PTE_ADDR e) s = Ret (pgn e) s.
Proof.
  intros He Hp. unfold pa2page. ks. fold (pgn e). by destruct (Z.leb_spec (npages s) (pgn e)); [lia|].
Qed.

Lemma KADDR_pte e :
  0 <= e < 2^32 -> pgn e < npages s -> KADDR (PTE_ADDR e) s = Ret (kva (pgn e)) s.
Proof.
  intros He Hp. rewrite PTE_ADDR_div by done. rewrite pgn_div in * by done.
  apply KADDR_page. dlia.
Qed.
End access.

Lemma get_page_eq s i p : pages s !! i = Some p -> get_page i s = Ret p s.
Proof. intros H. unfold get_page. by rewrite H. Qed.
Lemma upd_page_eq s i p f :
  pages s !! i = Some p -> upd_page i f s = Ret tt (set_pages (<[i := f p]> (pages s)) s).
Proof. intros H. unfold upd_page. by rewrite H. Qed.
Lemma get_env_eq s i e : envs s !! i = Some e -> get_env i s = Ret e s.
Proof. intros H. unfold get_env. by rewrite H. Qed.
Lemma upd_env_eq s i e f :
  envs s !! i = Some e -> upd_env i f s = Ret tt (set_envs (<[i := f e]> (envs s)) s).
Proof. intros H. unfold upd_env. by rewrite H. Qed.

(** Successive assignments to the fields of one environment *)
Definition with_env (i : Z) (e : Env) (s : kstate) : kstate := set_envs (<[i := e]> (envs s)) s.
Lemma upd_with_env s i e f : upd_env i f (with_env i e s) = Ret tt (with_env i (f e) s).
Proof.
  rewrite (upd_env_eq _ i e) by apply lookup_insert_eq. unfold with_env at 1 2. cbn [envs set_envs].
  by rewrite insert_insert_eq.
Qed.
Lemma get_with_env s i e : get_env i (with_env i e s) = Ret e (with_env i e s).
Proof. apply get_env_eq, lookup_insert_eq. Qed.

Lemma zero_page_word m q pg i :
  (forall pg i, 0 <= rdw m pg i < 2^32) -> 0 <= rdw (zero_page m q) pg i < 2^32.
Proof. intros H. rewrite rdw_zero_page. destruct (decide _); [lia|apply H]. Qed.

(** ** The page allocator *)

Section alloc.
Context {A : gset Z} {D : list Z}.
Implicit Types X : gset Z.

(** Zeroing a page that no table refers to. *)
Lemma vm_inv_zero X s q :
  vm_inv A D X s -> refs (mem s) D q = 0 ->
  vm_inv A D X (set_mem (zero_page (mem s) q) s).
Proof.
  intros [Ht Hp] H0.
  assert (Hf : forall p y, is_table (mem s) D p -> rdw (zero_page (mem s) q) p y = rdw (mem s) p y).
  { intros p y Hp'. rewrite rdw_zero_page. destruct (decide (q = p)) as [->|]; [|done].
    by apply tbl_unref in H0. }
  split; simpl.
  - apply (tbl_frame A D (mem s)); [done..|]. intros. apply zero_page_word, (ti_word _ _ _ Ht).
  - eapply pg_inv_ext; [|done]. intros. by apply refs_frame.
Qed.

Lemma page_alloc_empty s flags :
  page_free_list s = None -> page_alloc flags s = Ret None s.
Proof. intros H. unfold page_alloc. ks. by rewrite H. Qed.

Lemma page_alloc_spec X s flags q :
  vm_inv A D X s -> page_free_list s = Some q ->
  exists s', page_alloc flags s = Ret (Some q) s' /\ vm_inv A D (X ∪ {[q]}) s' /\
    vm_frame s s' /\ klog s' = klog s /\
    q ∈ A /\ q ∉ X /\ refs (mem s) D q = 0 /\
    mem s' = (if truth (flags .& ALLOC_ZERO) then zero_page (mem s) q else mem s).
Proof.
  intros [Ht Hp] Hq. assert (Hp' := Hp). rewrite Hq in Hp'.
  apply pg_inv_pop in Hp' as (p & Hpq & HqA & HqX & H0 & Hp').
  assert (Hn := pi_npages _ _ _ _ _ _ Hp).
  assert (Hqn := pi_pool _ _ _ _ _ _ Hp q HqA).
  set (s1 := set_pages (<[q := set_pp_link None p]> (pages s)) (set_page_free_list (pp_link p) s)).
  assert (Hs1 : vm_inv A D (X ∪ {[q]}) s1) by done.
  unfold page_alloc. ks. kr Hq. rewrite (get_page_eq s q p) by done. ks.
  rewrite (upd_page_eq _ q p) by done. ks. fold s1.
  destruct (truth (flags .& ALLOC_ZERO)).
  - rewrite (page2kva_eq s1) by done. ks. rewrite (zero_kva_eq s1) by done. ks.
    eexists. split; [done|]. split; [by apply vm_inv_zero|]. split_and!; auto with frame.
  - eexists. split; [done|]. split; [done|]. split_and!; auto with frame.
Qed.

Lemma page_free_spec X s q :
  vm_inv A D X s -> q ∈ X ->
  exists s', page_free q s = Ret tt s' /\ vm_inv A D (X ∖ {[q]}) s' /\
    vm_frame s s' /\ mem s' = mem s /\ klog s' = klog s.
Proof.
  intros [Ht Hp] Hq.
  destruct (pg_inv_push _ _ _ _ _ _ q Hp Hq) as (p & Hpq & Hr & Hl & Hp').
  unfold page_free. rewrite (bind_Ret _ _ _ _ _ (get_page_eq s q p Hpq)). rewrite Hr, Hl. change (truth 0) with false. cbn [orb]. ks.
  rewrite (upd_page_eq s q p) by done. ks. eexists. split; [done|].
  split; [by split|]. split_and!; auto with frame.
Qed.

(** [page_decref], as the step from the reference counts [f] to [f']. *)
Lemma page_decref_spec X s q f f' :
  pg_inv A X (npages s) f (pages s) (page_free_list s) -> q ∈ A -> 0 < f q ->
  (forall i, f' i = f i - ind (q =? i)) ->
  exists s', page_decref q s = Ret tt s' /\
    pg_inv A X (npages s) f' (pages s') (page_free_list s') /\
    vm_frame s s' /\ mem s' = mem s /\ klog s' = klog s.
Proof.
  intros Hp HqA Hpos Hf.
  destruct (pg_inv_decr _ _ _ _ _ _ f' q Hp HqA Hpos Hf) as (p & Hpq & Hr & Hl & Hp').
  pose proof (pi_max _ _ _ _ _ _ Hp q HqA) as Hmax.
  unfold page_decref. rewrite (bind_Ret _ _ _ _ _ (get_page_eq s q p Hpq)). ks.
  rewrite Hr, u16_small by lia. rewrite (upd_page_eq s q p) by done. ks.
  destruct (Z.eqb_spec (f q) 1) as [H1|H1].
  - destruct (Z.eqb_spec (f q - 1) 0); [|lia]. rewrite H1 in *.
    set (s1 := set_pages _ s) in *.
    destruct (pg_inv_push _ _ _ _ _ _ q Hp' ltac:(set_solver)) as (p1 & Hp1 & Hr1 & Hl1 & Hp1').
    unfold page_free. rewrite (bind_Ret _ _ _ _ _ (get_page_eq s1 q p1 Hp1)). rewrite Hr1, Hl1. change (truth 0) with false. cbn [orb]. ks.
    rewrite (upd_page_eq s1 q p1) by done. ks. eexists. split; [done|].
    split; [|split_and!; auto with frame].
    rewrite union_diff_notin in Hp1'; [done|].
    destruct (pi_list _ _ _ _ _ _ Hp) as (fl & _ & _ & _ & Hfl & _). intros HqX.
    assert (q ∈ A /\ f q = 0) by (apply Hfl; auto). lia.
  - destruct (Z.eqb_spec (f q - 1) 0); [lia|]. eexists. split; [done|].
    split; [done|split_and!; auto with frame].
Qed.
End alloc.

(** ** Walking the page tables *)

(** The entry that maps [va] in directory [d], when there is one. *)
Definition vmap (m : memory) (d va : Z) : option Z :=
  let pde := rdw m d (PDX va) in
  if present pde then
    let pte := rdw m (pgn pde) (PTX va) in
    if present pte then Some pte else None
  else None.

Lemma PDX_upde va : 0 <= va < UTOP -> PDX va ∈ upde.
Proof. intros H. apply elem_upde. pose proof (PDX_user va H). pose proof (PDX_range va). lia. Qed.
Lemma PTX_ptes va : PTX va ∈ ptes.
Proof. apply elem_ptes, PTX_range. Qed.
#[export] Hint Resolve PDX_upde PTX_ptes PTX_range PDX_range : frame.

(** The flags of an entry are those it is built with. *)
Lemma mkpte_flag pp perm f : 4095 .& f = f -> mkpte pp perm .& f = (perm .| PTE_P) .& f.
Proof.
  intros Hf. unfold mkpte. rewrite <- Z.lor_assoc, Z.land_lor_distr_l, <- Hf, Z.land_assoc.
  rewrite (land_ones_mod (pp .<< PGSHIFT) 12 4095) by lia. unfold PGSHIFT. rewrite shiftl_mul by lia.
  by rewrite Z.mod_mul by lia.
Qed.

Lemma mkpte_ps pp perm :
  perm .& PTE_PS = 0 -> mkpte pp perm .& PTE_PS = 0.
Proof. intros Hp. rewrite mkpte_flag, Z.land_lor_distr_l, Hp by done. done. Qed.

Lemma pde_value q :
  0 <= q < 65536 -> page2pa q .| PTE_P .| PTE_U .| PTE_W = mkpte q (PTE_U .| PTE_W).
Proof.
  intros. rewrite page2pa_eq by lia. unfold mkpte, PGSHIFT. rewrite shiftl_mul by lia.
  change (2^12) with 4096. rewrite <- !Z.lor_assoc. done.
Qed.

Lemma pte_value q perm :
  0 <= q < 65536 -> page2pa q .| perm .| PTE_P = mkpte q perm.
Proof.
  intros. rewrite page2pa_eq by lia. unfold mkpte, PGSHIFT. by rewrite shiftl_mul by lia.
Qed.

Section walk.
Context {A : gset Z} {D : list Z} {X : gset Z} {s : kstate} (Hinv : vm_inv A D X s).
Context (d va : Z) (Hd : d ∈ D) (Hva : 0 <= va < UTOP).

Lemma vm_npages : 0 < npages s <= 65536.
Proof. apply (pi_npages _ _ _ _ _ _ (proj2 Hinv)). Qed.
Lemma vm_pool i : i ∈ A -> 0 <= i < npages s.
Proof. apply (pi_pool _ _ _ _ _ _ (proj2 Hinv)). Qed.
Lemma vm_word pg i : 0 <= rdw (mem s) pg i < 2^32.
Proof. apply (ti_word _ _ _ (proj1 Hinv)). Qed.
Lemma vm_root : 0 <= d < npages s.
Proof. apply vm_pool. by apply (ti_root _ _ _ (proj1 Hinv)). Qed.

Lemma vm_pt_of :
  present (rdw (mem s) d (PDX va)) = true ->
  pt_of (mem s) D d (PDX va) (pgn (rdw (mem s) d (PDX va))).
Proof. intros. repeat split; auto with frame. Qed.

Lemma vm_pt_range :
  present (rdw (mem s) d (PDX va)) = true -> 0 <= pgn (rdw (mem s) d (PDX va)) < npages s.
Proof.
  intros Hpr%vm_pt_of. apply vm_pool. by apply (ti_pde _ _ _ (proj1 Hinv) _ _ _ Hpr).
Qed.

Lemma vm_pde_ps : truth (rdw (mem s) d (PDX va) .& PTE_PS) = false.
Proof. unfold truth. rewrite (ti_ps _ _ _ (proj1 Hinv)); auto with frame. Qed.

Lemma pgdir_walk_present create :
  present (rdw (mem s) d (PDX va)) = true ->
  pgdir_walk (kva d) va create s =
    Ret (Some (kva (pgn (rdw (mem s) d (PDX va))) + 4 * PTX va)) s.
Proof.
  intros Hpr. pose proof vm_npages. pose proof vm_root. unfold pgdir_walk. ks.
  rewrite !(kload_kva s) by auto with frame. ks.
  rewrite vm_pde_ps, andb_false_r. fold (present (rdw (mem s) d (PDX va))). rewrite Hpr. ks.
  rewrite (kload_kva s) by auto with frame. ks.
  rewrite (KADDR_pte s); [done|done|apply vm_word|by apply vm_pt_range].
Qed.

Lemma pgdir_walk_absent :
  present (rdw (mem s) d (PDX va)) = false -> pgdir_walk (kva d) va 0 s = Ret None s.
Proof.
  intros Hpr. pose proof vm_npages. pose proof vm_root. unfold pgdir_walk. ks.
  rewrite !(kload_kva s) by auto with frame. ks.
  rewrite vm_pde_ps, andb_false_r. fold (present (rdw (mem s) d (PDX va))). by rewrite Hpr.
Qed.

Lemma pgdir_walk_nomem create :
  present (rdw (mem s) d (PDX va)) = false -> page_free_list s = None ->
  pgdir_walk (kva d) va create s = Ret None s.
Proof.
  intros Hpr Hfl. pose proof vm_npages. pose proof vm_root. unfold pgdir_walk. ks.
  rewrite !(kload_kva s) by auto with frame. ks.
  rewrite vm_pde_ps, andb_false_r. fold (present (rdw (mem s) d (PDX va))). rewrite Hpr.
  destruct (create =? 0); [done|]. by rewrite page_alloc_empty.
Qed.

(** The memory after the page table [q] has been hung into the directory. *)
Definition walk_mem (q : Z) : memory :=
  wrw (zero_page (mem s) q) d (PDX va) (mkpte q (PTE_U .| PTE_W)).

Lemma walk_mem_tables q :
  q ∈ A -> refs (mem s) D q = 0 -> present (rdw (mem s) d (PDX va)) = false ->
  tbl_inv A D (walk_mem q) /\
  (forall i, refs (walk_mem q) D i = refs (mem s) D i + ind (q =? i)).
Proof.
  intros HqA H0 Hpr. pose proof vm_npages. pose proof (vm_pool q HqA).
  pose proof (vm_inv_zero X s q Hinv H0) as [Ht _]. simpl in Ht.
  assert (Hqd : q <> d) by (intros ->; pose proof (refs_root (mem s) D d Hd); lia).
  assert (Hrefs : forall i, refs (zero_page (mem s) q) D i = refs (mem s) D i).
  { intros i. apply refs_frame. intros p y Hp. rewrite rdw_zero_page.
    destruct (decide (q = p)) as [->|]; [|done]. by apply tbl_unref in H0. }
  destruct (mkpte_ok q (PTE_U .| PTE_W)) as (? & ? & ?); [lia|done|].
  destruct (tbl_new_pt A D _ Ht d (PDX va) q (mkpte q (PTE_U .| PTE_W))) as [Ht' Hr'];
    auto with frame.
  - rewrite rdw_zero_page. by destruct (decide (q = d)).
  - by rewrite Hrefs.
  - intros y _. rewrite rdw_zero_page. by rewrite decide_True.
  - by apply mkpte_ps.
  - by rewrite mkpte_flag.
  - split; [done|]. intros i. unfold walk_mem. by rewrite Hr', Hrefs.
Qed.

Lemma pgdir_walk_create create q :
  present (rdw (mem s) d (PDX va)) = false -> page_free_list s = Some q -> create <> 0 ->
  exists s', pgdir_walk (kva d) va create s = Ret (Some (kva q + 4 * PTX va)) s' /\
    vm_inv A D X s' /\ vm_frame s s' /\ klog s' = klog s /\ mem s' = walk_mem q /\
    q ∈ A /\ q ∉ X /\ refs (mem s) D q = 0.
Proof.
  intros Hpr Hfl Hc. pose proof vm_npages as Hnp. pose proof vm_root as Hdr. unfold pgdir_walk. ks.
  rewrite !(kload_kva s) by auto with frame. ks.
  rewrite vm_pde_ps, andb_false_r. fold (present (rdw (mem s) d (PDX va))). rewrite Hpr.
  destruct (Z.eqb_spec create 0); [done|].
  destruct (page_alloc_spec X s ALLOC_ZERO q Hinv Hfl)
    as (s1 & Hs1 & [Ht1 Hp1] & Hfr1 & Hk1 & HqA & HqX & H0 & Hm1).
  kr Hs1. change (truth (ALLOC_ZERO .& ALLOC_ZERO)) with true in Hm1. simpl in Hm1.
  pose proof (vm_frame_npages _ _ Hfr1) as Hn1. pose proof (vm_pool q HqA) as Hqr.
  destruct (walk_mem_tables q HqA H0 Hpr) as [Ht2 Hr2].
  assert (Hr1 : forall i, refs (mem s1) D i = refs (mem s) D i).
  { intros i. rewrite Hm1. apply refs_frame. intros p y Hp. rewrite rdw_zero_page.
    destruct (decide (q = p)) as [->|]; [|done]. by apply tbl_unref in H0. }
  destruct (pg_inv_incr _ _ _ _ _ _ (refs (walk_mem q) D) q Hp1 HqA) as (p & Hpq & _ & Hp2).
  { left. set_solver. }
  { rewrite Hr1, H0. lia. }
  { intros i. by rewrite Hr2, Hr1. }
  rewrite Hr1, H0 in Hp2.
  rewrite (upd_page_eq s1 q p) by done. ks. rewrite pde_value by lia.
  set (s2 := set_pages _ s1). assert (Hn2 : npages s2 = npages s) by done.
  rewrite (kstore_kva s2) by (rewrite ?Hn2; auto with frame). ks.
  set (s3 := set_mem _ s2). assert (Hn3 : npages s3 = npages s) by done.
  assert (Hm3 : mem s3 = walk_mem q) by (simpl; by rewrite Hm1).
  rewrite (kload_kva s3) by (rewrite ?Hn3; auto with frame). ks. rewrite Hm3.
  unfold walk_mem at 1. rewrite rdw_wrw_eq.
  destruct (mkpte_ok q (PTE_U .| PTE_W)) as (? & ? & Hpg); [lia|done|].
  rewrite (KADDR_pte s3) by (rewrite ?Hn3; lia). ks. rewrite Hpg.
  exists s3. split; [done|]. split.
  { split; [by rewrite Hm3|]. rewrite Hm3. rewrite Hn3, <- Hn1.
    rewrite union_diff_notin in Hp2 by done. done. }
  split; [|split_and!; done].
  eapply vm_frame_trans; [exact Hfr1|]. unfold s3, s2. auto with frame.
Qed.
End walk.

(** ** Mappings before and after *)

Lemma same_page va va' :
  0 <= va < UTOP -> 0 <= va' < UTOP ->
  PDX va' = PDX va /\ PTX va' = PTX va <-> va' / 4096 = va / 4096.
Proof. rewrite !PDX_div, !PTX_div. intros. dlia. Qed.

Section vmap.
Context {A : gset Z} {D : list Z} {m : memory} (H : tbl_inv A D m).

Lemma vmap_set_pte d va p v d' va' :
  pt_of m D d (PDX va) p -> 0 <= va < UTOP -> d' ∈ D -> 0 <= va' < UTOP ->
  vmap (wrw m p (PTX va) v) d' va' =
    if decide (d' = d /\ va' / 4096 = va / 4096)
    then (if present v then Some v else None) else vmap m d' va'.
Proof.
  intros Hp Hva Hd' Hva'. unfold vmap.
  assert (Hpd : p <> d') by (intros <-; by apply (tbl_pt_root A D m H d (PDX va) p)).
  rewrite (rdw_wrw_ne m p (PTX va) v d') by auto.
  assert (Hr : refs m D p = 1) by (apply (ti_table _ _ _ H); right; by exists d, (PDX va)).
  destruct (present (rdw m d' (PDX va'))) eqn:Hpr.
  - rewrite rdw_wrw. destruct (decide (p = _ /\ _)) as [[Hpp HPT]|Hne].
    + destruct (pt_unique m D d (PDX va) p d' (PDX va') Hr Hp) as [-> HPD].
      { repeat split; auto with frame. }
      rewrite decide_True; [done|]. split; [done|]. by apply same_page.
    + rewrite decide_False; [done|]. intros [-> Heq]. apply Hne.
      apply same_page in Heq as [HPD HPT]; [|done..].
      destruct Hp as (_ & _ & _ & <-). by rewrite HPD.
  - rewrite decide_False; [done|]. intros [-> Heq]. apply same_page in Heq as [HPD _]; [|done..].
    destruct Hp as (_ & _ & Hpr' & _). rewrite HPD in Hpr. congruence.
Qed.

(** A mapped page is allocated from the pool and is not a table. *)
Lemma vmap_page d va e :
  d ∈ D -> 0 <= va < UTOP -> vmap m d va = Some e ->
  exists p, pt_of m D d (PDX va) p /\ rdw m p (PTX va) = e /\ present e = true /\
    pgn e ∈ A /\ e .& PTE_PS = 0 /\ 0 < refs m D (pgn e) /\ ~ is_table m D (pgn e).
Proof.
  intros Hd Hva. unfold vmap. destruct (present (rdw m d (PDX va))) eqn:Hpr; [|done].
  destruct (present (rdw m (pgn _) _)) eqn:Hpr'; [|done]. intros [= <-].
  set (p := pgn (rdw m d (PDX va))) in *.
  assert (Hp : pt_of m D d (PDX va) p) by (repeat split; auto with frame).
  destruct (ti_pte _ _ _ H d (PDX va) p (PTX va) Hp) as [HA Hps]; [auto with frame..|].
  exists p. split; [done|]. repeat (split; [done|]). split.
  - pose proof (refs_pte m D d (PDX va) p (PTX va) _ Hp (PTX_ptes va) Hpr' eq_refl). lia.
  - intros Ht. eapply (table_not_pte m D _ d (PDX va) p (PTX va)); eauto with frame.
    by apply (ti_table _ _ _ H).
Qed.

Lemma vmap_absent_pte d va p :
  pt_of m D d (PDX va) p -> vmap m d va = None -> present (rdw m p (PTX va)) = false.
Proof.
  intros (_ & _ & Hpr & <-). unfold vmap. rewrite Hpr. by destruct (present (rdw m (pgn _) _)).
Qed.
End vmap.

(** ** Looking up, removing *)

(** The executing CPU is known and its current environment is in the table. *)
Definition cpu_ok (s : kstate) : Prop :=
  exists c, cpus s !! cpunum s = Some c /\
    forall e, cpu_env c = Some e -> is_Some (envs s !! e).

Lemma cpu_ok_frame s s' : vm_frame s s' -> cpu_ok s -> cpu_ok s'.
Proof. intros ->. done. Qed.

Lemma tlb_invalidate_spec s pgdir va :
  cpu_ok s -> exists k, tlb_invalidate pgdir va s = Ret tt (set_klog k s).
Proof.
  intros (c & Hc & He). unfold tlb_invalidate, curenv, thiscpu, emit. ks. rewrite Hc.
  destruct (cpu_env c) as [i|] eqn:Hi; [|by eexists].
  destruct (He i eq_refl) as [e Hei]. rewrite (get_env_eq s i e) by done.
  destruct (env_pgdir e =? pgdir); [by eexists|]. exists (klog s). by destruct s.
Qed.

Section lookup.
Context {A : gset Z} {D : list Z} {X : gset Z} {s : kstate} (Hinv : vm_inv A D X s).
Context (d va : Z) (Hd : d ∈ D) (Hva : 0 <= va < UTOP).

Lemma page_lookup_none : vmap (mem s) d va = None -> page_lookup (kva d) va s = Ret None s.
Proof.
  intros Hm. unfold page_lookup. ks.
  destruct (present (rdw (mem s) d (PDX va))) eqn:Hpr.
  - rewrite (pgdir_walk_present Hinv) by done. ks.
    rewrite (kload_kva s); [|by apply (vm_pt_range Hinv)|auto with frame]. ks.
    fold (present (rdw (mem s) (pgn (rdw (mem s) d (PDX va))) (PTX va))).
    by rewrite (vmap_absent_pte d va _ (vm_pt_of d va Hd Hva Hpr) Hm).
  - by rewrite (pgdir_walk_absent Hinv) by done.
Qed.

Lemma page_lookup_some e :
  vmap (mem s) d va = Some e ->
  exists p, pt_of (mem s) D d (PDX va) p /\ 0 <= p < npages s /\
    rdw (mem s) p (PTX va) = e /\
    page_lookup (kva d) va s = Ret (Some (pgn e, kva p + 4 * PTX va)) s.
Proof.
  intros Hm. destruct (vmap_page (proj1 Hinv) d va e Hd Hva Hm)
    as (p & Hp & He & Hpr & HA & Hps & _).
  assert (Hpr' := proj1 (proj2 (proj2 Hp))). assert (Hpg := proj2 (proj2 (proj2 Hp))).
  assert (Hrange : 0 <= p < npages s).
  { rewrite <- Hpg. by apply (vm_pt_range Hinv). }
  exists p. repeat (split; [done|]).
  unfold page_lookup. ks. rewrite (pgdir_walk_present Hinv), Hpg by done. ks.
  rewrite (kload_kva s) by auto with frame. ks. rewrite He.
  fold (present e). rewrite Hpr, Hps. change (truth 0) with false. rewrite andb_false_r.
  rewrite (pa2page_eq s); [done| |].
  - rewrite <- He. apply (vm_word Hinv).
  - apply (vm_pool Hinv) in HA. lia.
Qed.

Lemma page_remove_none : vmap (mem s) d va = None -> page_remove (kva d) va s = Ret tt s.
Proof. intros Hm. unfold page_remove. ks. by rewrite page_lookup_none. Qed.

Lemma page_remove_spec e :
  cpu_ok s -> vmap (mem s) d va = Some e ->
  exists p s', pt_of (mem s) D d (PDX va) p /\
    page_remove (kva d) va s = Ret tt s' /\ vm_inv A D X s' /\ vm_frame s s' /\
    mem s' = wrw (mem s) p (PTX va) 0 /\
    (forall i, refs (mem s') D i = refs (mem s) D i - ind (pgn e =? i)).
Proof.
  intros Hcpu Hm. destruct (vmap_page (proj1 Hinv) d va e Hd Hva Hm)
    as (_ & _ & _ & Hpr & HA & _ & Hpos & _).
  destruct (page_lookup_some e Hm) as (p & Hp & Hrange & He & Hl).
  destruct (tbl_set_pte A D _ (proj1 Hinv) d (PDX va) p (PTX va) 0 Hp (PTX_ptes va))
    as [Ht Hr]; [lia|done|].
  assert (Hr' : forall i, refs (wrw (mem s) p (PTX va) 0) D i
                  = refs (mem s) D i - ind (pgn e =? i)).
  { intros i. rewrite Hr. unfold pte_ref. rewrite He, Hpr, present_0. cbn [andb ind]. lia. }
  destruct (page_decref_spec X s (pgn e) _ (refs (wrw (mem s) p (PTX va) 0) D)
    (proj2 Hinv) HA Hpos Hr') as (s1 & Hs1 & Hpg1 & Hf1 & Hm1 & Hk1).
  pose proof (vm_frame_npages _ _ Hf1) as Hn1.
  unfold page_remove. ks. rewrite Hl. ks. kr Hs1.
  rewrite (kstore_kva s1); [|by rewrite Hn1|auto with frame].
  ks. rewrite Hm1. set (s2 := set_mem _ s1).
  assert (Hf2 : vm_frame s s2).
  { eapply vm_frame_trans; [exact Hf1|]. unfold s2. auto with frame. }
  destruct (tlb_invalidate_spec s2 (kva d) va) as [k Hk]; [by apply (cpu_ok_frame s)|].
  rewrite Hk. exists p. eexists. split; [done|]. split; [done|]. split.
  { split; [done|]. simpl. by rewrite Hn1. }
  split; [|done]. eapply vm_frame_trans; [exact Hf2|]. auto with frame.
Qed.
End lookup.

(** ** Inserting *)

Section insert.
Context {A : gset Z} {D : list Z} {X : gset Z} {s : kstate} (Hinv : vm_inv A D X s).
Context (d va : Z) (Hd : d ∈ D) (Hva : 0 <= va < UTOP).

(** Hanging in an empty page table changes no mapping. *)
Lemma vmap_walk_mem q d' va' :
  q ∈ A -> refs (mem s) D q = 0 -> present (rdw (mem s) d (PDX va)) = false ->
  d' ∈ D -> 0 <= va' < UTOP -> vmap (@walk_mem s d va q) d' va' = vmap (mem s) d' va'.
Proof.
  intros HqA H0 Hpr Hd' Hva'. pose proof (vm_npages Hinv). pose proof (vm_pool Hinv q HqA).
  destruct (mkpte_ok q (PTE_U .| PTE_W)) as (_ & Hmp & Hmq); [lia|done|].
  assert (Hq : forall p, is_table (mem s) D p -> q <> p).
  { intros p Hp ->. by apply tbl_unref in H0. }
  unfold vmap, walk_mem. rewrite (rdw_wrw _ d (PDX va) _ d' (PDX va')).
  destruct (decide _) as [[<- Heq]|Hne].
  - rewrite <- Heq, Hpr, Hmp, Hmq. rewrite rdw_wrw_ne.
    + rewrite rdw_zero_page. by rewrite decide_True.
    + left. intros ->. by apply (Hq q); [left|].
  - rewrite (rdw_zero_page _ q d'). rewrite decide_False by (apply Hq; by left).
    destruct (present (rdw (mem s) d' (PDX va'))) eqn:Hpr'; [|done].
    assert (Hp : is_pt (mem s) D (pgn (rdw (mem s) d' (PDX va')))).
    { exists d', (PDX va'). repeat split; auto with frame. }
    rewrite rdw_wrw_ne, rdw_zero_page, decide_False; [done|apply Hq; by right|].
    left. intros ->. destruct Hp as (d1 & x1 & Hp1).
    by apply (tbl_pt_root A D _ (proj1 Hinv) d1 x1 _ Hp1).
Qed.

(** The three outcomes of a creating walk, as [page_insert] sees them: the page table of
    [va] exists afterwards and no mapping has changed, or memory is exhausted. *)
Lemma walk_ok :
  (page_free_list s = None /\ vmap (mem s) d va = None /\
     pgdir_walk (kva d) va 1 s = Ret None s) \/
  exists p s1, pgdir_walk (kva d) va 1 s = Ret (Some (kva p + 4 * PTX va)) s1 /\
    vm_inv A D X s1 /\ vm_frame s s1 /\ pt_of (mem s1) D d (PDX va) p /\ 0 <= p < npages s /\
    (forall d' va', d' ∈ D -> 0 <= va' < UTOP -> vmap (mem s1) d' va' = vmap (mem s) d' va') /\
    (forall i, i ∈ X \/ 0 < refs (mem s) D i ->
       refs (mem s1) D i = refs (mem s) D i /\
       (~ is_table (mem s) D i -> ~ is_table (mem s1) D i /\
          forall y, rdw (mem s1) i y = rdw (mem s) i y)) /\
    (forall i y, i ∉ A -> rdw (mem s1) i y = rdw (mem s) i y).
Proof.
  destruct (present (rdw (mem s) d (PDX va))) eqn:Hpr.
  - right. exists (pgn (rdw (mem s) d (PDX va))), s.
    rewrite (pgdir_walk_present Hinv) by done.
    split_and!; eauto with frame; [by apply vm_pt_of|by apply (vm_pt_range Hinv)..].
  - destruct (page_free_list s) as [q|] eqn:Hfl.
    + right. destruct (pgdir_walk_create Hinv d va Hd Hva 1 q Hpr Hfl) as
        (s1 & Hw & Hinv1 & Hf & _ & Hm & HqA & HqX & H0); [done|].
      pose proof (vm_npages Hinv). pose proof (vm_pool Hinv q HqA) as Hqn.
      destruct (mkpte_ok q (PTE_U .| PTE_W)) as (_ & Hmp & Hmq); [lia|done|].
      destruct (walk_mem_tables Hinv d va Hd Hva q HqA H0 Hpr) as [_ Hr].
      exists q, s1. rewrite Hm. split; [done|]. split; [done|]. split; [done|]. split.
      { repeat split; auto with frame; unfold walk_mem; by rewrite rdw_wrw_eq. }
      split; [done|]. split; [intros; by apply vmap_walk_mem|]. split.
      2:{ intros i y HiA. unfold walk_mem. rewrite rdw_wrw_ne.
          - rewrite rdw_zero_page, decide_False; [done|]. by intros ->.
          - left. intros ->. by apply HiA, (ti_root _ _ _ (proj1 Hinv)). }
      intros i Hi. assert (Hqi : q <> i).
      { intros ->. destruct Hi; [done|lia]. }
      split; [rewrite Hr; destruct (Z.eqb_spec q i); [done|cbn [ind]; lia]|].
      intros Hnt. split.
      * intros [Hi'|(d' & x' & Hi')]; [apply Hnt; by left|].
        destruct Hi' as (Hd' & Hx' & Hpr' & Hpg'). unfold walk_mem in *.
        rewrite rdw_wrw in *. destruct (decide _); [congruence|].
        rewrite rdw_zero_page in *. destruct (decide _); [done|].
        apply Hnt. right. by exists d', x'.
      * intros y. unfold walk_mem. rewrite rdw_wrw_ne.
        -- rewrite rdw_zero_page. by rewrite decide_False.
        -- left. intros ->. apply Hnt. by left.
    + left. split; [done|]. split; [unfold vmap; by rewrite Hpr|].
      by apply (pgdir_walk_nomem Hinv).
Qed.
End insert.

(** What [page_insert] achieves when it returns 0. *)
Definition inserted (A : gset Z) (D : list Z) (X : gset Z) (d pp va perm : Z) (s s' : kstate) : Prop :=
  vm_inv A D (X ∖ {[pp]}) s' /\ vm_frame s s' /\
  vmap (mem s') d va = Some (mkpte pp perm) /\
  (forall d' va', d' ∈ D -> 0 <= va' < UTOP -> ~ (d' = d /\ va' / 4096 = va / 4096) ->
     vmap (mem s') d' va' = vmap (mem s) d' va') /\
  (forall i, i ∈ X \/ 0 < refs (mem s) D i -> ~ is_table (mem s) D i ->
     forall y, rdw (mem s') i y = rdw (mem s) i y) /\
  (forall i y, i ∉ A -> rdw (mem s') i y = rdw (mem s) i y).

(** Storing the new entry in the page table [p] while the counter of [pp] goes up. *)
Lemma map_new_spec A D X s d va p pp perm s1 :
  vm_inv A D X s -> cpu_ok s -> d ∈ D -> 0 <= va < UTOP ->
  pt_of (mem s) D d (PDX va) p -> present (rdw (mem s) p (PTX va)) = false ->
  pp ∈ A -> ~ is_table (mem s) D pp -> pp ∈ X \/ 0 < refs (mem s) D pp ->
  refs (mem s) D pp + 1 < 2^16 -> 0 <= perm < 4096 -> perm .& PTE_PS = 0 ->
  s1 = (upd_page pp (fun p => set_pp_ref (u16 (pp_ref p + 1)) p);;
        tlb_invalidate (kva d) va;;
        kstore (kva p + 4 * PTX va) (page2pa pp .| perm .| PTE_P);;
        mret 0) s ->
  exists s', s1 = Ret 0 s' /\ vm_inv A D (X ∖ {[pp]}) s' /\ vm_frame s s' /\
    mem s' = wrw (mem s) p (PTX va) (mkpte pp perm).
Proof.
  intros Hinv Hcpu Hd Hva Hp Hpr HA Hnt HX Hmax Hperm Hps ->.
  pose proof (vm_npages Hinv) as Hn. pose proof (vm_pool Hinv pp HA) as Hpp.
  assert (Hprange : 0 <= p < npages s).
  { apply (vm_pool Hinv). by apply (ti_pde _ _ _ (proj1 Hinv) _ _ _ Hp). }
  destruct (mkpte_ok pp perm) as (Hv & Hvp & Hvg); [lia|done|].
  destruct (tbl_set_pte A D _ (proj1 Hinv) d (PDX va) p (PTX va) (mkpte pp perm) Hp (PTX_ptes va) Hv)
    as [Ht Hr].
  { intros _. rewrite Hvg. split_and!; [done..|]. by apply mkpte_ps. }
  destruct (pg_inv_incr _ _ _ _ _ _ (refs (wrw (mem s) p (PTX va) (mkpte pp perm)) D) pp
    (proj2 Hinv) HA HX Hmax) as (pi & Hpi & Hpr' & Hpg).
  { intros i. rewrite Hr. unfold pte_ref. rewrite Hpr, Hvp, Hvg. cbn [andb ind]. lia. }
  pose proof (refs_nonneg (mem s) D pp) as Hnn.
  ks. rewrite (upd_page_eq s pp pi) by done. rewrite Hpr', u16_small by lia.
  set (s2 := set_pages _ s).
  assert (Hf2 : vm_frame s s2) by (unfold s2; auto with frame).
  destruct (tlb_invalidate_spec s2 (kva d) va) as [k Hk]; [by apply (cpu_ok_frame s)|].
  rewrite Hk. rewrite (kstore_kva (set_klog k s2)) by auto with frame.
  rewrite pte_value by lia. eexists. split; [done|]. split; [by split|]. split; [|done].
  unfold s2. auto with frame.
Qed.

Section page_insert.
Context (A : gset Z) (D : list Z) (X : gset Z) (s : kstate) (d va pp perm : Z).
Context (Hinv : vm_inv A D X s) (Hcpu : cpu_ok s) (Hd : d ∈ D) (Hva : 0 <= va < UTOP).
Context (HA : pp ∈ A) (Hnt : ~ is_table (mem s) D pp) (HX : pp ∈ X \/ 0 < refs (mem s) D pp).
Context (Hmax : refs (mem s) D pp + 1 < 2^16) (Hperm : 0 <= perm < 4096) (Hps : perm .& PTE_PS = 0).

Lemma insert_pp : 0 <= pp < 65536.
Proof. pose proof (vm_npages Hinv). pose proof (vm_pool Hinv pp HA). lia. Qed.

Lemma insert_pte : 0 <= mkpte pp perm < 2^32 /\ present (mkpte pp perm) = true /\ pgn (mkpte pp perm) = pp.
Proof. pose proof insert_pp. apply mkpte_ok; lia. Qed.

(** The state after the walk: the page table of [va] is [p]. *)
Section walked.
Context (p : Z) (s1 : kstate) (Hinv1 : vm_inv A D X s1) (Hf1 : vm_frame s s1).
Context (Hp : pt_of (mem s1) D d (PDX va) p) (Hprange : 0 <= p < npages s).
Context (Hvm : forall d' va', d' ∈ D -> 0 <= va' < UTOP -> vmap (mem s1) d' va' = vmap (mem s) d' va').
Context (Hrefs : forall i, i ∈ X \/ 0 < refs (mem s) D i ->
  refs (mem s1) D i = refs (mem s) D i /\
  (~ is_table (mem s) D i -> ~ is_table (mem s1) D i /\
     forall y, rdw (mem s1) i y = rdw (mem s) i y)).
Context (Hout : forall i y, i ∉ A -> rdw (mem s1) i y = rdw (mem s) i y).

(** Once the entry is written, the mapping is in place. *)
Lemma inserted_intro s' :
  vm_inv A D (X ∖ {[pp]}) s' -> vm_frame s1 s' ->
  mem s' = wrw (mem s1) p (PTX va) (mkpte pp perm) -> inserted A D X d pp va perm s s'.
Proof.
  intros Hi' Hf' Hm'. destruct insert_pte as (Hv & Hvp & Hvg).
  split; [done|]. split; [by eapply vm_frame_trans|]. rewrite Hm'.
  split; [|split; [|split]].
  - rewrite (vmap_set_pte (proj1 Hinv1) d va p) by done. by rewrite decide_True, Hvp.
  - intros d' va' Hd' Hva' Hne. rewrite (vmap_set_pte (proj1 Hinv1) d va p) by done.
    rewrite decide_False by done. by apply Hvm.
  - intros i Hi Hni y. destruct (Hrefs i Hi) as [_ Hi1]. destruct (Hi1 Hni) as [Hni1 <-].
    apply rdw_wrw_ne. left. intros ->. apply Hni1. right. by exists d, (PDX va).
  - intros i y HiA. rewrite rdw_wrw_ne; [by apply Hout|]. left. intros ->. apply HiA.
    by apply (ti_pde _ _ _ (proj1 Hinv1) d (PDX va)).
Qed.

(** The page is already mapped at [va]: only the permissions change. *)
Lemma insert_same :
  present (rdw (mem s1) p (PTX va)) = true -> pgn (rdw (mem s1) p (PTX va)) = pp ->
  inserted A D X d pp va perm s (set_mem (wrw (mem s1) p (PTX va) (mkpte pp perm)) s1).
Proof.
  intros Hpr Hpe. destruct insert_pte as (Hv & Hvp & Hvg).
  destruct (proj2 (Hrefs pp HX) Hnt) as [Hnt1 _].
  destruct (tbl_set_pte A D _ (proj1 Hinv1) d (PDX va) p (PTX va) (mkpte pp perm) Hp (PTX_ptes va) Hv)
    as [Ht Hr].
  { intros _. rewrite Hvg. split_and!; [done..|]. by apply mkpte_ps. }
  apply inserted_intro; [|auto with frame|done].
  pose proof (refs_pte (mem s1) D d (PDX va) p (PTX va) pp Hp (PTX_ptes va)) as Hpos.
  assert (HppX : pp ∉ X).
  { destruct (pi_list _ _ _ _ _ _ (proj2 Hinv1)) as (fl & _ & _ & _ & Hfl & _). intros HqX.
    assert (pp ∈ A /\ refs (mem s1) D pp = 0) by (apply Hfl; auto). specialize (Hpos Hpr Hpe). lia. }
  rewrite diff_notin by done. split; [done|]. simpl. eapply pg_inv_ext; [|apply Hinv1].
  intros i _. simpl. rewrite Hr. unfold pte_ref. rewrite Hpr, Hvp, Hvg, Hpe. lia.
Qed.

(** A fresh mapping, in a state [s2] that agrees with [s1] on the directories. *)
Lemma insert_new s2 :
  vm_inv A D X s2 -> vm_frame s1 s2 -> present (rdw (mem s2) p (PTX va)) = false ->
  (forall d' x', d' ∈ D -> rdw (mem s2) d' x' = rdw (mem s1) d' x') ->
  refs (mem s2) D pp = refs (mem s1) D pp ->
  wrw (mem s2) p (PTX va) (mkpte pp perm) = wrw (mem s1) p (PTX va) (mkpte pp perm) ->
  exists s', (upd_page pp (fun p => set_pp_ref (u16 (pp_ref p + 1)) p);;
              tlb_invalidate (kva d) va;;
              kstore (kva p + 4 * PTX va) (page2pa pp .| perm .| PTE_P);;
              mret 0) s2 = Ret 0 s' /\ inserted A D X d pp va perm s s'.
Proof.
  intros Hinv2 Hf2 Hpr Hroot Hr2 Hm2.
  destruct (Hrefs pp HX) as [Hrpp Hpp1]. destruct (Hpp1 Hnt) as [Hnt1 _].
  edestruct (map_new_spec A D X s2 d va p pp perm) as (s' & Hs' & Hi' & Hf' & Hm').
  - done.
  - apply (cpu_ok_frame s1); [done|]. by apply (cpu_ok_frame s).
  - done.
  - done.
  - destruct Hp as (? & ? & ? & ?). repeat split; [done..| |]; by rewrite Hroot.
  - done.
  - done.
  - intros Ht. apply Hnt1. destruct Ht as [?|(d' & x' & Hd' & Hx' & ? & ?)]; [by left|].
    right. exists d', x'. repeat split; [done..| |]; by rewrite <- Hroot.
  - by rewrite Hr2, Hrpp.
  - by rewrite Hr2, Hrpp.
  - done.
  - done.
  - done.
  - exists s'. split; [exact Hs'|]. apply inserted_intro; [done|by eapply vm_frame_trans|].
    by rewrite Hm'.
Qed.
End walked.

Lemma page_insert_spec :
  (page_free_list s = None /\ vmap (mem s) d va = None /\
     page_insert (kva d) pp va perm s = Ret (- E_NO_MEM) s) \/
  exists s', page_insert (kva d) pp va perm s = Ret 0 s' /\ inserted A D X d pp va perm s s'.
Proof.
  unfold page_insert. destruct (walk_ok Hinv d va Hd Hva) as [(Hfl & Hm & Hw)|
    (p & s1 & Hw & Hinv1 & Hf1 & Hp & Hprange & Hvm & Hrefs & Hout)].
  { left. ks. by rewrite Hw. }
  right. pose proof (vm_npages Hinv) as Hn. pose proof insert_pp as Hpp.
  pose proof (vm_frame_npages _ _ Hf1) as Hn1. destruct insert_pte as (Hv & Hvp & Hvg).
  rewrite (bind_Ret _ _ _ _ _ Hw).
  rewrite (bind_Ret _ _ _ _ _ (kload_kva s1 p (PTX va) ltac:(lia) (PTX_range va))).
  fold (present (rdw (mem s1) p (PTX va))).
  destruct (present (rdw (mem s1) p (PTX va))) eqn:Hpr.
  2:{ apply (insert_new p s1); auto with frame. }
  set (e := rdw (mem s1) p (PTX va)) in *.
  assert (He : 0 <= e < 2^32) by apply (vm_word Hinv1).
  rewrite PTE_ADDR_div, page2pa_eq by lia.
  destruct (Z.eqb_spec (e / 4096 * 4096) (pp * 4096)) as [Heq|Hneq].
  - rewrite (bind_Ret _ _ _ _ _ (kstore_kva s1 p (PTX va) _ ltac:(lia) (PTX_range va))).
    rewrite <- (page2pa_eq pp), pte_value by lia. eexists. split; [done|].
    apply (insert_same p s1); [done..|]. fold e. rewrite pgn_div by done. lia.
  - assert (Hpe : pgn e <> pp) by (rewrite pgn_div by done; lia).
    assert (Hm1 : vmap (mem s1) d va = Some e).
    { destruct Hp as (_ & _ & Hp2 & Hp3). unfold vmap. rewrite Hp2, Hp3. fold e. by rewrite Hpr. }
    destruct (page_remove_spec Hinv1 d va Hd Hva e (cpu_ok_frame _ _ Hf1 Hcpu) Hm1)
      as (p' & s2 & Hp' & Hrm & Hinv2 & Hf2 & Hm2 & Hr2).
    assert (p' = p) as -> by (destruct Hp as (_ & _ & _ & <-), Hp' as (_ & _ & _ & <-); done).
    rewrite (bind_Ret _ _ _ _ _ Hrm), <- (page2pa_eq pp) by lia.
    apply (insert_new p s1); try done.
    + by rewrite Hm2, rdw_wrw_eq.
    + intros d' x' Hd'. rewrite Hm2. apply rdw_wrw_ne. left. intros ->.
      by apply (tbl_pt_root A D _ (proj1 Hinv1) d (PDX va) d').
    + rewrite Hr2. destruct (Z.eqb_spec (pgn e) pp); [done|]. cbn [ind]. lia.
    + rewrite Hm2. unfold wrw. rewrite lookup_insert_eq. simpl. by rewrite insert_insert_eq, insert_insert_eq.
Qed.
End page_insert.
