(* ===== verification/UserMem.v ===== *)
(** * UserMem: [user_mem_check] grants access to exactly the addresses the page tables allow

    The functional specification of the pointer check of [kern/pmap.c] for address ranges
    that do not wrap around, and what the code does with ranges that do. *)

From S2P Require Import Prelude Layout KState Pmap VmRefs VmInv VmOps.

(** The directory in page [d] can be walked below [lim]: its entries point into physical
    memory. *)
Record dir_ok (s : kstate) (d lim : Z) : Prop := {
  do_npages : 0 < npages s <= 65536;
  do_page : 0 <= d < npages s;
  do_word : forall pg i, 0 <= rdw (mem s) pg i < 2^32;
  do_pde : forall va, 0 <= va < lim -> present (rdw (mem s) d (PDX va)) = true ->
    0 <= pgn (rdw (mem s) d (PDX va)) < npages s;
}.

(** The entry that governs [va]: the page table entry, or the directory entry of a huge page. *)
Definition entry (s : kstate) (d va : Z) : option Z :=
  let pde := rdw (mem s) d (PDX va) in
  if (pse_support s =? 1) && truth (pde .& PTE_PS) then Some pde
  else if present pde then Some (rdw (mem s) (pgn pde) (PTX va)) else None.

(** User code may access [va] with the permissions [perm]. *)
Definition user_ok (s : kstate) (d perm va : Z) : bool :=
  (va <? ULIM) &&
  match entry s d va with
  | Some e => e .& (perm .| PTE_P) =? perm .| PTE_P
  | None => false
  end.

Section walk.
Context (s : kstate) (d lim : Z) (Hdir : dir_ok s d lim).

Lemma pgdir_walk_entry va :
  0 <= va < lim -> exists r, pgdir_walk (kva d) va 0 s = Ret r s /\
    match r with
    | Some p => exists e, entry s d va = Some e /\ kload p s = Ret e s
    | None => entry s d va = None
    end.
Proof.
  intros Hva. destruct Hdir as [Hn Hd Hw Hp]. unfold pgdir_walk, entry. ks.
  rewrite !(kload_kva s) by auto with frame. ks.
  destruct (_ && _).
  { eexists. split; [done|]. eexists. split; [done|]. rewrite (kload_kva s); auto with frame. }
  fold (present (rdw (mem s) d (PDX va))).
  destruct (present (rdw (mem s) d (PDX va))) eqn:Hpr; [|by eexists].
  rewrite (kload_kva s) by auto with frame. ks.
  rewrite (KADDR_pte s) by (try (by apply Hp); auto with frame).
  eexists. split; [done|]. eexists. split; [done|].
  apply kload_kva; auto with frame.
Qed.

Lemma user_ok_page perm a b : 0 <= a -> a / 4096 = b / 4096 -> user_ok s d perm a = user_ok s d perm b.
Proof.
  intros Ha Hab. unfold user_ok, entry.
  replace (PDX b) with (PDX a).
  2:{ rewrite !PDX_div. replace 4194304 with (4096 * 1024) by lia.
      rewrite <- !Z.div_div by lia. by rewrite Hab. }
  replace (PTX b) with (PTX a) by (rewrite !PTX_div; by rewrite Hab).
  f_equal. destruct (Z.ltb_spec a ULIM), (Z.ltb_spec b ULIM); try done; dlia.
Qed.

Context (va perm end_ : Z) (Hend : end_ < 2^32) (Hlim : end_ <= lim).

(** The loop, from page [k] of the range on. *)
Lemma user_mem_check_loop_spec fuel start :
  0 <= start -> end_ = start + 4096 * Z.of_nat fuel -> start mod 4096 = 0 ->
  (user_mem_check_loop fuel (kva d) va start end_ (perm .| PTE_P) s = Ret 0 s /\
     forall a, start <= a < end_ -> user_ok s d perm a = true) \/
  exists a, start <= a < end_ /\ a mod 4096 = 0 /\ user_ok s d perm a = false /\
    (forall b, start <= b < a -> user_ok s d perm b = true) /\
    user_mem_check_loop fuel (kva d) va start end_ (perm .| PTE_P) s =
      Ret (- E_FAULT) (set_user_mem_check_addr (if a <? va then va else a) s).
Proof.
  revert start. induction fuel as [|fuel IH]; intros start Hs He Hal; cbn [user_mem_check_loop].
  { left. destruct (Z.ltb_spec start end_); [lia|]. split; [done|]. lia. }
  destruct (Z.ltb_spec start end_); [|lia].
  destruct (pgdir_walk_entry start ltac:(lia)) as (r & Hr & Hre). ks. rewrite Hr.
  assert (Hstep : user_ok s d perm start = true ->
    forall a, start <= a < start + 4096 -> user_ok s d perm a = true).
  { intros Hok a Ha. rewrite <- Hok. apply user_ok_page; [lia|dlia]. }
  destruct (user_ok s d perm start) eqn:Hok.
  - assert (Hnext : user_mem_check_loop fuel (kva d) va (u32 (start + PGSIZE)) end_ (perm .| PTE_P) s
        = user_mem_check_loop fuel (kva d) va (start + 4096) end_ (perm .| PTE_P) s).
    { rewrite u32_small by clia. done. }
    unfold user_ok in Hok. apply andb_true_iff in Hok as [Hul Hok].
    destruct (Z.leb_spec ULIM start); [lia|].
    destruct r as [p|]; [|by rewrite Hre in Hok]. destruct Hre as (e & Hre & Hp).
    rewrite Hre in Hok. rewrite Hp, Hok. cbn [negb]. rewrite Hnext.
    destruct (IH (start + 4096)) as [[Hl Ha]|(a & Ha & Ham & Hbad & Hall & Hl)]; [lia|lia|dlia| |].
    + left. rewrite Hl. split; [done|]. intros a ?.
      destruct (Z.lt_ge_cases a (start + 4096)); [apply Hstep; [done|lia]|apply Ha; lia].
    + right. exists a. rewrite Hl. split; [lia|]. split; [done|]. split; [done|]. split; [|done].
      intros b ?. destruct (Z.lt_ge_cases b (start + 4096)); [apply Hstep; [done|lia]|apply Hall; lia].
  - right. exists start. split; [lia|]. split; [done|]. split; [done|]. split; [lia|].
    unfold user_ok in Hok. destruct (Z.leb_spec ULIM start); [done|].
    destruct (Z.ltb_spec start ULIM); [|lia]. cbn [andb] in Hok.
    destruct r as [p|]; [|done]. destruct Hre as (e & Hre & Hp).
    rewrite Hre in Hok. by rewrite Hp, Hok.
Qed.
End walk.

Lemma user_mem_check_spec s i e d lim va len perm :
  dir_ok s d lim -> (va + len + 4095) / 4096 * 4096 <= lim -> envs s !! i = Some e -> env_pgdir e = kva d ->
  0 <= va -> 0 < len -> va + len <= 2^32 - 4096 -> 0 <= perm < 2^32 ->
  (user_mem_check i va len perm s = Ret 0 s /\
     forall a, va <= a < va + len -> user_ok s d perm a = true) \/
  exists a, va <= a < va + len /\ user_ok s d perm a = false /\
    (forall b, va <= b < a -> user_ok s d perm b = true) /\
    user_mem_check i va len perm s = Ret (- E_FAULT) (set_user_mem_check_addr a s).
Proof.
  intros Hdir Hlim Hi He Hva Hlen Hmax Hperm.
  unfold user_mem_check. rewrite (bind_Ret _ _ _ _ _ (get_env_eq s i e Hi)). rewrite He.
  rewrite (u32_small (va + len)), ROUNDDOWN_page, ROUNDUP_page by lia.
  rewrite (u32_small (perm .| PTE_P)).
  2:{ apply (lor_bound _ _ 32); unfold PTE_P; lia. }
  set (start := va / 4096 * 4096). set (end_ := (va + len + 4095) / 4096 * 4096).
  assert (Hs : start <= va < start + 4096) by (unfold start; dlia).
  assert (Hsa : start mod 4096 = 0) by (unfold start; dlia).
  assert (Hen : end_ - 4096 < va + len <= end_) by (unfold end_; dlia).
  assert (Hea : end_ mod 4096 = 0) by (unfold end_; dlia).
  unfold PGSIZE.
  destruct (user_mem_check_loop_spec s d lim Hdir va perm end_ ltac:(lia) Hlim
    (Z.to_nat ((end_ - start) / 4096)) start) as [[Hl Hall]|(a & Ha & Ham & Hbad & Hall & Hl)];
    [dlia|dlia|done| |].
  - left. split; [done|]. intros a Hb. apply Hall. lia.
  - right. exists (if a <? va then va else a). rewrite Hl.
    destruct (Z.ltb_spec a va) as [Hlt|Hge].
    + split; [lia|]. split; [|split; [lia|done]].
      rewrite <- Hbad. apply user_ok_page; [lia|dlia].
    + split; [dlia|]. split; [done|]. split; [|done]. intros b Hb. apply Hall. lia.
Qed.
