(* ===== verification/VmThms.v ===== *)
(** * VmThms: the virtual memory theorems, on a small example machine as witness

    The statements collect what [VmOps] and [UserMem] establish: mapping, unmapping and
    allocating pages keep the reference counts equal to the number of references from the
    page tables, and change exactly the mapping they are asked to change. *)

From S2P Require Import Prelude Layout KState Pmap VmRefs VmInv VmOps UserMem.

(** ** A machine with eight pages: page 1 is a page directory, page 2 has been allocated,
    pages 3 to 6 are free, pages 0 and 7 belong to the kernel. *)

Definition ex_pages : gmap Z PageInfo := list_to_map
  [(0, mkPageInfo None 1); (1, mkPageInfo None 1); (2, mkPageInfo None 0);
   (3, mkPageInfo (Some 4) 0); (4, mkPageInfo (Some 5) 0); (5, mkPageInfo (Some 6) 0);
   (6, mkPageInfo None 0); (7, mkPageInfo None 1)].
Definition ex_regs : PushRegs := mkPushRegs 0 0 0 0 0 0 0 0.
Definition ex_tf : Trapframe := mkTrapframe ex_regs 0 0 0 0 0 0 0 0 0 0 0 0 0.
Definition ex_env : Env :=
  mkEnv ex_tf None 4096 0 ENV_TYPE_USER ENV_RUNNING 1 0 (kva 1) 0 false 0 0 0 0 0.
Definition ex_dev : devices :=
  mkDevices (mkConsole ∅ 0 0 0 true ∅ 0 0x3D4 [])
    (mkMouse 0 0 0 0 (mkPacket 0 0 0 0 0 0 0 0 0 0) 0 0 ∅ ∅ ∅ 0 0)
    (mkE1000 ∅ ∅ 0 ∅ [] [] 0 0) [] [].
Definition ex_state : kstate :=
  mkState 8 8 (kva 7) 0 (kva 8) MMIOBASE ex_pages (Some 3) ∅ {[0 := ex_env]} None
    {[0 := mkCpuInfo 1 (Some 0)]} 0 (Some 0) 0 0 [] ex_dev.
Definition ex_A : gset Z := {[1; 2; 3; 4; 5; 6]}.
Definition ex_X : gset Z := {[2]}.

Lemma rdw_empty pg i : rdw ∅ pg i = 0.
Proof. unfold rdw. by rewrite lookup_empty. Qed.

Lemma tbl_inv_nil A m : (forall pg i, 0 <= rdw m pg i < 2^32) -> tbl_inv A [] m.
Proof.
  intros Hw. split.
  - constructor.
  - done.
  - intros ? []%elem_of_nil.
  - intros ? ? []%elem_of_nil.
  - intros ? ? []%elem_of_nil.
  - intros ? ? ? [[]%elem_of_nil _].
  - intros ? ? ? ? [[]%elem_of_nil _].
  - intros p [[]%elem_of_nil|(? & ? & []%elem_of_nil & _)].
Qed.

Lemma ex_tbl : tbl_inv ex_A [1] ∅ /\ forall i, refs ∅ [1] i = ind (1 =? i).
Proof.
  destruct (tbl_add_root ex_A [] ∅ (tbl_inv_nil _ _ ltac:(intros; rewrite rdw_empty; lia)) 1)
    as [Ht Hr]; [set_solver|done|intros; apply rdw_empty|].
  split; [done|]. intros i. rewrite Hr. done.
Qed.

Lemma ex_A_elem i : i ∈ ex_A <-> 1 <= i <= 6.
Proof. unfold ex_A. split; [set_solver by lia|]. intros. 
  assert (i = 1 \/ i = 2 \/ i = 3 \/ i = 4 \/ i = 5 \/ i = 6) by lia. set_solver. Qed.

Lemma range_8 (P : Z -> Prop) :
  P 0 -> P 1 -> P 2 -> P 3 -> P 4 -> P 5 -> P 6 -> P 7 -> forall i, 0 <= i < 8 -> P i.
Proof.
  intros. assert (i = 0 \/ i = 1 \/ i = 2 \/ i = 3 \/ i = 4 \/ i = 5 \/ i = 6 \/ i = 7) by lia.
  naive_solver.
Qed.

Lemma ex_pages_dom i : is_Some (ex_pages !! i) <-> 0 <= i < 8.
Proof.
  split.
  - intros [p Hp]. apply elem_of_list_to_map_2 in Hp. set_solver by lia.
  - revert i. apply range_8; vm_compute; eauto.
Qed.

Lemma ex_inv : vm_inv ex_A [1] ex_X ex_state.
Proof.
  destruct ex_tbl as [Ht Hr]. split; [done|]. apply (pg_inv_ext _ _ _ (fun i => ind (1 =? i))).
  { intros. apply Hr. }
  split.
  - simpl. lia.
  - apply ex_pages_dom.
  - intros i Hi%ex_A_elem. simpl. lia.
  - intros i p Hi%ex_A_elem Hp. assert (0 <= i < 8) as Hi8 by lia. revert p Hp. revert i Hi8 Hi.
    apply (range_8 (fun i => 1 <= i <= 6 -> forall p, ex_pages !! i = Some p -> pp_ref p = ind (1 =? i)));
      intros ? p [= <-]; (done || lia).
  - intros i _. pose proof (ind_range (1 =? i)). lia.
  - exists [3; 4; 5; 6]. split; [|split; [|split; [|split]]].
    + simpl. repeat (split; [done|]; eexists; split; [done|]). done.
    + by apply (bool_decide_unpack _); vm_compute.
    + intros i Hi. unfold ex_X. set_solver by lia.
    + intros i. rewrite ex_A_elem. unfold ex_X. split.
      * intros Hi. assert (2 <= i <= 6) by set_solver by lia. split; [lia|].
        destruct (Z.eqb_spec 1 i); [lia|done].
      * intros [Hi Hz]. destruct (Z.eqb_spec 1 i); [done|].
        assert (i = 2 \/ i = 3 \/ i = 4 \/ i = 5 \/ i = 6) by lia. set_solver.
    + intros i p Hi%ex_A_elem Hni Hp. assert (i = 1 \/ i = 2) as [-> | ->].
      { assert (i <> 3 /\ i <> 4 /\ i <> 5 /\ i <> 6) by set_solver. lia. }
      * by injection Hp as <-.
      * by injection Hp as <-.
Qed.

Lemma ex_cpu_ok : cpu_ok ex_state.
Proof. exists (mkCpuInfo 1 (Some 0)). split; [done|]. intros e [= <-]. by exists ex_env. Qed.

Lemma ex_not_table p : p <> 1 -> ~ is_table (mem ex_state) [1] p.
Proof.
  intros Hp [Hd|(d & x & _ & _ & Hpr & _)].
  - apply list_elem_of_singleton in Hd. lia.
  - simpl in Hpr. by rewrite rdw_empty in Hpr.
Qed.

(** ** Mapping a page *)

(** C11.  [page_insert] on a well-formed machine returns 0 or -E_NO_MEM.  With 0, the address
    [va] of directory [d] maps the page [pp] with the permissions [perm | PTE_P], every other
    user address of every page directory maps what it mapped before, no byte of a page that
    was in use as data has changed, and the kernel's reference counts still equal the number
    of references from the page tables.  With -E_NO_MEM nothing has changed, there was no
    free page, and [va] was not mapped. *)
Theorem page_insert_correct A D X s d va pp perm :
  vm_inv A D X s -> cpu_ok s -> d ∈ D -> 0 <= va < UTOP ->
  pp ∈ A -> ~ is_table (mem s) D pp -> pp ∈ X \/ 0 < refs (mem s) D pp ->
  refs (mem s) D pp + 1 < 2^16 -> 0 <= perm < 4096 -> perm .& PTE_PS = 0 ->
  (page_free_list s = None /\ vmap (mem s) d va = None /\
     page_insert (kva d) pp va perm s = Ret (- E_NO_MEM) s) \/
  exists s', page_insert (kva d) pp va perm s = Ret 0 s' /\ inserted A D X d pp va perm s s'.
Proof. apply page_insert_spec. Qed.

Lemma page_insert_correct_witness :
  exists s', page_insert (kva 1) 2 0x800000 7 ex_state = Ret 0 s' /\
    inserted ex_A [1] ex_X 1 2 0x800000 7 ex_state s'.
Proof.
  destruct (page_insert_correct ex_A [1] ex_X ex_state 1 0x800000 2 7) as [(Hf & _)|H].
  - exact ex_inv.
  - exact ex_cpu_ok.
  - left.
  - clia.
  - apply ex_A_elem. lia.
  - by apply ex_not_table.
  - left. by apply elem_of_singleton.
  - by vm_compute.
  - lia.
  - done.
  - done.
  - exact H.
Defined.

(** C12.  [page_remove] on a well-formed machine returns: when [va] is not mapped nothing
    changes; otherwise [va] is unmapped, every other user address of every directory keeps
    its mapping, the counter of the page that was mapped goes down by one (the page is back
    on the free list when it was the last reference), and the invariant holds again. *)
Theorem page_remove_correct A D X s d va :
  vm_inv A D X s -> cpu_ok s -> d ∈ D -> 0 <= va < UTOP ->
  exists s', page_remove (kva d) va s = Ret tt s' /\ vm_inv A D X s' /\ vm_frame s s' /\
    vmap (mem s') d va = None /\
    (forall d' va', d' ∈ D -> 0 <= va' < UTOP -> ~ (d' = d /\ va' / 4096 = va / 4096) ->
       vmap (mem s') d' va' = vmap (mem s) d' va') /\
    (forall i, refs (mem s') D i = refs (mem s) D i -
       match vmap (mem s) d va with Some e => ind (pgn e =? i) | None => 0 end).
Proof.
  intros Hinv Hcpu Hd Hva. destruct (vmap (mem s) d va) as [e|] eqn:Hm.
  - destruct (page_remove_spec Hinv d va Hd Hva e Hcpu Hm)
      as (p & s' & Hp & Hs' & Hinv' & Hf & Hmem & Hr).
    exists s'. repeat (split; [done|]). rewrite Hmem in *. split; [|split; [|done]].
    + rewrite (vmap_set_pte (proj1 Hinv) d va p) by done. by rewrite decide_True.
    + intros d' va' Hd' Hva' Hne. rewrite (vmap_set_pte (proj1 Hinv) d va p) by done.
      by rewrite decide_False.
  - exists s. rewrite (page_remove_none Hinv) by done. split_and!; auto with frame.
    intros i. lia.
Qed.

Lemma page_remove_correct_witness :
  exists s', page_remove (kva 1) 0x800000 ex_state = Ret tt s' /\ vmap (mem s') 1 0x800000 = None.
Proof.
  destruct (page_remove_correct ex_A [1] ex_X ex_state 1 0x800000)
    as (s' & Hs' & _ & _ & Hm & _).
  - exact ex_inv.
  - exact ex_cpu_ok.
  - left.
  - clia.
  - by exists s'.
Defined.

(** ** User pointers *)


Lemma ex_dir_ok : dir_ok ex_state 1 (2^32).
Proof.
  split.
  - simpl. lia.
  - simpl. lia.
  - intros. simpl. rewrite rdw_empty. lia.
  - intros x _. simpl. by rewrite rdw_empty.
Qed.


(**  The end of the range is computed with wrap-around, so a range that reaches the end
    of the address space and ends at [2^32] passes the check without any page being looked
    at: every environment is granted the whole kernel range [KERNBASE, 2^32). *)
Theorem user_mem_check_wraps s i e perm :
  envs s !! i = Some e ->
  user_mem_check i KERNBASE (2^32 - KERNBASE) perm s = Ret 0 s.
Proof.
  intros Hi. unfold user_mem_check. by rewrite (bind_Ret _ _ _ _ _ (get_env_eq s i e Hi)).
Qed.

Lemma user_mem_check_wraps_witness :
  user_mem_check 0 KERNBASE (2^32 - KERNBASE) PTE_W ex_state = Ret 0 ex_state.
Proof. apply (user_mem_check_wraps ex_state 0 ex_env PTE_W). reflexivity. Defined.
