(* ===== verification/Time.v ===== *)
(** * Time: the clock ([kern/time.c])

    [ticks] counts timer interrupts of 10 ms each, in an [unsigned int]. *)

From S2P Require Import Prelude Layout KState VmOps.

Definition time_init : K unit := modify (set_ticks 0).

Definition time_tick : K unit :=
  modify (fun s => set_ticks (u32 (ticks s + 1)) s);;
  t ← get ticks;
  if u32 (t * 10) <? t then panic else mret tt.

Definition time_msec : K Z := t ← get ticks; mret (u32 (t * 10)).

(** [n] timer interrupts *)
Fixpoint time_ticks (n : nat) : K unit :=
  match n with O => mret tt | S n => time_tick;; time_ticks n end.

(** The clock runs until the milliseconds no longer fit: [2^32 / 10] ticks, about 49 days. *)
Definition MAX_TICKS : Z := (2^32 - 1) / 10.

Lemma time_tick_ok s :
  0 <= ticks s < MAX_TICKS -> time_tick s = Ret tt (set_ticks (ticks s + 1) s).
Proof.
  intros H. unfold MAX_TICKS in H. unfold time_tick. ks.
  cbn [ticks set_ticks]. unfold u32.
  rewrite (Z.mod_small (ticks s + 1)) by dlia. rewrite Z.mod_small by dlia.
  rewrite (proj2 (Z.ltb_ge _ _)) by dlia. done.
Qed.

Lemma time_ticks_ok n s :
  0 <= ticks s -> ticks s + Z.of_nat n <= MAX_TICKS ->
  time_ticks n s = Ret tt (set_ticks (ticks s + Z.of_nat n) s).
Proof.
  revert s. induction n as [|n IH]; intros s H0 H.
  - rewrite Z.add_0_r. by destruct s.
  - cbn [time_ticks]. rewrite (bind_Ret _ _ _ _ _ (time_tick_ok s ltac:(lia))).
    rewrite IH by (cbn [ticks set_ticks]; lia). cbn [ticks set_ticks]. f_equal.
    unfold set_ticks. cbn. f_equal. lia.
Qed.

(** The clock is exact for its whole range: after [n] timer interrupts since [time_init],
    [time_msec] returns [10 * n] milliseconds and no tick has panicked, for every [n] up to
    429496729; the next tick panics instead of letting the clock go back. *)
Theorem clock_exact s :
  (forall n, 0 <= n <= 429496729 ->
    (time_init;; time_ticks (Z.to_nat n);; time_msec) s = Ret (10 * n) (set_ticks n s)) /\
  time_tick (set_ticks 429496729 s) = Panic (set_ticks 429496730 s).
Proof.
  split.
  - intros n Hn. unfold time_init. ks. rewrite time_ticks_ok.
    + cbn [ticks set_ticks]. unfold time_msec. ks. cbn [ticks set_ticks].
      rewrite Z.add_0_l, Z2Nat.id by lia. rewrite u32_small by lia. f_equal. lia.
    + cbn [ticks set_ticks]. lia.
    + cbn [ticks set_ticks]. unfold MAX_TICKS. rewrite Z2Nat.id by lia. dlia.
  - reflexivity.
Qed.
