(* ===== verification/Vga.v ===== *)
(** * Vga: drawing on the frame buffer ([kern/vga.c], [kern/bitmap.c])

    The frame buffer is physical memory seen at [SCREEN_BASE_ADDR].  Loops over [uint16_t]
    counters take a bound on the number of iterations; running out of it is [Stuck].  The
    theorems give the exact effect of drawing a line, the counters' values for which the
    loop ends, and what happens with coordinates above the screen. *)

From S2P Require Import Prelude Layout KState KMem VmOps.

(** ** Constants (inc/vga.h, kern/vga.h) *)

Definition SCREEN_BASE_ADDR : Z := 0xF00A0000.
Definition SCREEN_MAX_ADDR : Z := 0xF00AFFFF.
Definition SCREEN_WIDTH : Z := 320.
Definition SCREEN_HEIGHT : Z := 200.
Definition BITMAP_SIZE : Z := 8.
Definition VGA_BLACK : Z := 0.
Definition VGA_BLUE : Z := 1.
Definition VGA_GREEN : Z := 2.
Definition VGA_CYAN : Z := 3.
Definition VGA_RED : Z := 4.
Definition VGA_MAGENTA : Z := 5.
Definition VGA_BROWN : Z := 6.
Definition VGA_GREY : Z := 7.
Definition VGA_DARK_GREY : Z := 8.
Definition VGA_BRIGHT_BLUE : Z := 9.
Definition VGA_BRIGHT_GREEN : Z := 10.
Definition VGA_BRIGHT_CYAN : Z := 11.
Definition VGA_BRIGHT_RED : Z := 12.
Definition VGA_BRIGHT_MAGENTA : Z := 13.
Definition VGA_YELLOW : Z := 14.
Definition VGA_WHITE : Z := 15.
Definition VGA_NO_COLOR : Z := 16.
Definition shape_circle : Z := 0.
Definition shape_line : Z := 1.
Definition shape_rectangle : Z := 2.
Definition shape_diamond : Z := 3.
Definition shape_string : Z := 4.
#[export] Hint Unfold SCREEN_BASE_ADDR SCREEN_MAX_ADDR SCREEN_WIDTH SCREEN_HEIGHT BITMAP_SIZE : cconst.

(** The structures inside the union of [struct draw_type] *)
Record draw_circle_t := mkCircle { c_x : Z; c_y : Z; c_radius : Z; c_fill : Z }.
Record draw_rectangle_t := mkRect { r_x : Z; r_y : Z; r_width : Z; r_height : Z; r_fill : Z }.

(** ** Pixels *)

Definition write_pixel (x y color : Z) : K unit :=
  let off := u32 (SCREEN_BASE_ADDR + SCREEN_WIDTH * y + x) in
  when (off <? SCREEN_MAX_ADDR) (kstoreb off color).

Definition clear_screen : K unit :=
  kfor (seqZ 0 SCREEN_HEIGHT) (fun y => kfor (seqZ 0 SCREEN_WIDTH) (fun x => write_pixel x y VGA_BLACK)).

(** ** Lines *)

(** for (i = first; i <= last; i++) plot(i), with [uint16_t i] *)
Fixpoint u16_loop (fuel : nat) (i last : Z) (plot : Z -> K unit) : K unit :=
  if i <=? last then
    match fuel with
    | O => stuck
    | S fuel => plot i;; u16_loop fuel (u16 (i + 1)) last plot
    end
  else mret tt.

Definition draw_line_fuel (fuel : nat) (x1 y1 x2 y2 border_color : Z) : K unit :=
  if y1 =? y2 then u16_loop fuel x1 x2 (fun i => write_pixel i y1 border_color)
  else if x1 =? x2 then u16_loop fuel y1 y2 (fun i => write_pixel x1 i border_color)
  else mret tt.

(** A loop that ends does so within 65535 iterations; arguments are converted to [uint16_t]. *)
Definition draw_line (x1 y1 x2 y2 border_color : Z) : K unit :=
  draw_line_fuel (Z.to_nat 65536) (u16 x1) (u16 y1) (u16 x2) (u16 y2) (u8 border_color).

(** ** Circles, diamonds, rectangles *)

Definition draw_dots (xc yc x y color : Z) : K unit :=
  let wp a b := write_pixel (u32 a) (u32 b) color in
  wp (xc + x) (yc + y);; wp (xc - x) (yc + y);; wp (xc + x) (yc - y);; wp (xc - x) (yc - y);;
  wp (xc + y) (yc + x);; wp (xc - y) (yc + x);; wp (xc + y) (yc - x);; wp (xc - y) (yc - x).

Definition fill_shape (xc yc x y color : Z) : K unit :=
  draw_line (xc - x + 1) (yc + y - 1) (xc + x - 1) (yc + y - 1) color;;
  draw_line (xc - x + 1) (yc - y + 1) (xc + x - 1) (yc - y + 1) color;;
  draw_line (xc - y + 1) (yc + x - 1) (xc + y - 1) (yc + x - 1) color;;
  draw_line (xc - y + 1) (yc - x + 1) (xc + y - 1) (yc - x + 1) color.

Definition draw_ring (circle : draw_circle_t) (x2 y2 border_color : Z) : K unit :=
  draw_dots (c_x circle) (c_y circle) x2 y2 border_color;;
  when (negb (c_fill circle =? VGA_NO_COLOR))
    (fill_shape (c_x circle) (c_y circle) x2 y2 (u8 (c_fill circle))).

(** The [while] of [draw_circle], with [int] variables. *)
Fixpoint circle_loop (fuel : nat) (circle : draw_circle_t) (x2 y2 d border_color : Z) : K unit :=
  if x2 <=? y2 then
    match fuel with
    | O => stuck
    | S fuel =>
        let x2 := i32 (x2 + 1) in
        let y2' := if 0 <? d then i32 (y2 - 1) else y2 in
        let d := if 0 <? d then i32 (d + 4 * (x2 - y2') + 10) else i32 (d + 4 * x2 + 6) in
        draw_ring circle x2 y2' border_color;;
        circle_loop fuel circle x2 y2' d border_color
    end
  else mret tt.

Definition draw_circle (circle : draw_circle_t) (border_color : Z) : K unit :=
  draw_ring circle 0 (c_radius circle) border_color;;
  circle_loop (Z.to_nat (c_radius circle + 1)) circle 0 (c_radius circle)
    (3 - 2 * c_radius circle) border_color.

(** The [while] of [draw_diamond], with [uint16_t] variables. *)
Fixpoint diamond_loop (fuel : nat) (diamond : draw_circle_t) (x2 y2 border_color : Z) : K unit :=
  if x2 <=? y2 then
    match fuel with
    | O => stuck
    | S fuel =>
        let x2 := u16 (x2 + 1) in
        let y2 := u16 (y2 - 1) in
        draw_ring diamond x2 y2 border_color;;
        diamond_loop fuel diamond x2 y2 border_color
    end
  else mret tt.

Definition draw_diamond (diamond : draw_circle_t) (border_color : Z) : K unit :=
  draw_ring diamond 0 (c_radius diamond) border_color;;
  diamond_loop (Z.to_nat 65536) diamond 0 (c_radius diamond) border_color.

(** for (i = y + 1; i < y + height; i++), [uint16_t i] against an [int] bound *)
Fixpoint fill_rows (fuel : nat) (i bound : Z) (row : Z -> K unit) : K unit :=
  if i <? bound then
    match fuel with
    | O => stuck
    | S fuel => row i;; fill_rows fuel (u16 (i + 1)) bound row
    end
  else mret tt.

Definition draw_rectangle (rectangle : draw_rectangle_t) (border_color : Z) : K unit :=
  let x := r_x rectangle in
  let y := r_y rectangle in
  let height := r_height rectangle in
  let width := r_width rectangle in
  draw_line x y x (y + height) border_color;;
  draw_line x y (x + width) y border_color;;
  draw_line (x + width) y (x + width) (y + height) border_color;;
  draw_line x (y + height) (x + width) (y + height) border_color;;
  when (negb (r_fill rectangle =? VGA_NO_COLOR))
    (fill_rows (Z.to_nat 65536) (u16 (y + 1)) (y + height)
       (fun i => draw_line (x + 1) i (x + width - 1) i (r_fill rectangle))).

(** ** Text (kern/bitmap.c) *)

Definition bitmaps_0_9 : list (list Z) :=
  [[0x7E; 0xC3; 0xC7; 0xCF; 0xDB; 0xF3; 0xE3; 0x7E];
   [0x18; 0x38; 0x38; 0x18; 0x18; 0x18; 0x7E; 0x7E];
   [0x3C; 0xE7; 0x07; 0x06; 0x1E; 0x78; 0xE3; 0xFF];
   [0x3C; 0xE7; 0x07; 0x1C; 0x07; 0x07; 0xE6; 0x3C];
   [0x1C; 0x3C; 0x6C; 0xCC; 0xCC; 0xFE; 0x0C; 0x1E];
   [0xFF; 0xC0; 0xFE; 0x07; 0x07; 0x07; 0xC6; 0x7E];
   [0x1C; 0x30; 0x60; 0xC0; 0xFE; 0xC3; 0xC3; 0x7E];
   [0xFF; 0xFF; 0xC7; 0x07; 0x0E; 0x38; 0x38; 0x38];
   [0x7E; 0x7E; 0xC3; 0xC3; 0x7E; 0xC3; 0xC3; 0x7E];
   [0x7E; 0xC3; 0xC3; 0x7F; 0x03; 0x07; 0x0E; 0x7C]].
Definition bitmaps_A_Z : list (list Z) :=
  [[0x18; 0x3C; 0x66; 0xC3; 0xC3; 0xFF; 0xC3; 0xC3];
   [0xFC; 0x66; 0x66; 0x7C; 0x7C; 0x66; 0x66; 0xFC];
   [0x3E; 0x63; 0xC0; 0xC0; 0xC0; 0xC0; 0x63; 0x3E];
   [0xFC; 0x66; 0x63; 0x63; 0x63; 0x63; 0x66; 0xFC];
   [0xFF; 0x61; 0x60; 0x64; 0x7C; 0x64; 0x61; 0xFF];
   [0xFF; 0x61; 0x60; 0x64; 0x7C; 0x64; 0x60; 0xF0];
   [0x3E; 0x63; 0xC0; 0xC0; 0xC7; 0xE3; 0x63; 0x3F];
   [0xC3; 0xC3; 0xC3; 0xC3; 0xFF; 0xC3; 0xC3; 0xC3];
   [0x7E; 0x18; 0x18; 0x18; 0x18; 0x18; 0x18; 0x7E];
   [0x0F; 0x06; 0x06; 0x06; 0x06; 0xC6; 0xC6; 0x7C];
   [0xE3; 0x63; 0x66; 0x6C; 0x78; 0x6C; 0x66; 0xE3];
   [0xF0; 0x60; 0x60; 0x60; 0x60; 0x61; 0x63; 0xFF];
   [0xC3; 0xE7; 0xFF; 0xFF; 0xDB; 0xC3; 0xC3; 0xC3];
   [0xC3; 0xE3; 0xF3; 0xDB; 0xCF; 0xC7; 0xC3; 0xC3];
   [0x3C; 0x66; 0xC3; 0xC3; 0xC3; 0xC3; 0x66; 0x3C];
   [0xFE; 0x63; 0x63; 0x63; 0x7E; 0x60; 0x60; 0xF0];
   [0x7E; 0xC3; 0xC3; 0xC3; 0xC3; 0xCF; 0x7E; 0x0F];
   [0xFE; 0x63; 0x63; 0x7E; 0x6E; 0x66; 0x63; 0xE3];
   [0x7E; 0xC3; 0xE0; 0x70; 0x1F; 0x03; 0xC6; 0x7C];
   [0xFF; 0x99; 0x18; 0x18; 0x18; 0x18; 0x18; 0x3C];
   [0xC3; 0xC3; 0xC3; 0xC3; 0xC3; 0xC3; 0xC3; 0xFF];
   [0xC3; 0xC3; 0xC3; 0xC3; 0xC3; 0xC3; 0x3C; 0x18];
   [0xC3; 0xC3; 0xC3; 0xC3; 0xDB; 0xFF; 0xE7; 0xC3];
   [0xC3; 0xC3; 0x66; 0x66; 0x3C; 0x3C; 0x67; 0xC3];
   [0xC3; 0xC3; 0xC3; 0xC3; 0x7E; 0x18; 0x18; 0x3C];
   [0xFF; 0xC3; 0x86; 0x0C; 0x18; 0x31; 0x63; 0xFF]].

(** while (pix > 0) over the bits of one row, from the right *)
Fixpoint draw_bits (fuel : nat) (pix x y color : Z) : K unit :=
  if 0 <? pix then
    match fuel with
    | O => stuck
    | S fuel =>
        when (truth (pix .& 1)) (write_pixel x y color);;
        draw_bits fuel (pix .>> 1) (u16 (x - 1)) y color
    end
  else mret tt.

(** The rows of a letter; a row has at most 8 bits. *)
Fixpoint draw_bitmap (rows : list Z) (x y color : Z) : K unit :=
  match rows with
  | [] => mret tt
  | pix :: rows =>
      draw_bits 8 pix (u16 (x + BITMAP_SIZE)) y color;;
      draw_bitmap rows x (u16 (y + 1)) color
  end.

Definition draw_num_bitmaps (index x y color : Z) : K unit :=
  draw_bitmap (nth (Z.to_nat index) bitmaps_0_9 []) x y color.
Definition draw_alpha_bitmaps (index x y color : Z) : K unit :=
  draw_bitmap (nth (Z.to_nat index) bitmaps_A_Z []) x y color.

Definition draw_char (x y ch color : Z) : K unit :=
  if (48 <=? ch) && (ch <=? 57) then draw_num_bitmaps (ch - 48) x y color
  else if (65 <=? ch) && (ch <=? 90) then draw_alpha_bitmaps (ch - 65) x y color
  else mret tt.

(** [rd] reads a character of the string, which is in the caller's address space; a string
    longer than the address space has no end. *)
Definition draw_string (rd : Z -> K Z) (x y str color : Z) : K unit :=
  kloop (2^32)%positive (fun '(index, x) =>
    ch ← rd (str + index);
    if ch =? 0 then mret (inr tt)
    else draw_char x y ch color;; mret (inl (index + 1, u16 (x + (BITMAP_SIZE + 1))))) (0, x).

(** ** The effect of drawing *)

(** The frame buffer is backed by physical memory. *)
Definition screen_ok (s : kstate) : Prop :=
  0xB0 <= npages s <= 65536 /\ forall pg i, 0 <= rdw (mem s) pg i < 2^32.

(** Going from [s] to [s'], exactly the bytes at the addresses in [S] became [color]. *)
Definition paints (S : Z -> Prop) (color : Z) (s s' : kstate) : Prop :=
  s' = set_mem (mem s') s /\ screen_ok s' /\
  forall va, (S va -> kbyte s' va = color) /\ (~ S va -> kbyte s' va = kbyte s va).

Lemma paints_none S color s : screen_ok s -> (forall va, ~ S va) -> paints S color s s.
Proof.
  intros Hok HS. split; [by destruct s|]. split; [done|]. intros va. split; [|done].
  intros H. by apply HS in H.
Qed.

(** Painting twice paints the union. *)
Lemma paints_union S1 S2 S color s1 s2 s3 :
  paints S1 color s1 s2 -> paints S2 color s2 s3 ->
  (forall va, S va <-> S1 va \/ S2 va) -> (forall va, S2 va \/ ~ S2 va) ->
  paints S color s1 s3.
Proof.
  intros (H1 & _ & H1c) (H2 & Hok & H2c) HS Hdec. split.
  { rewrite H2, H1. by destruct s1. }
  split; [done|]. intros va. rewrite HS.
  destruct (H1c va) as [H1a H1b], (H2c va) as [H2a H2b], (Hdec va) as [Hd|Hd].
  - split; [auto|]. intros []. auto.
  - rewrite H2b by done. split; [intros [?|?]; [auto|done]|auto].
Qed.

Lemma write_pixel_spec x y color s :
  screen_ok s -> 0 <= x -> 0 <= y -> SCREEN_BASE_ADDR + SCREEN_WIDTH * y + x < 2^32 ->
  exists s', write_pixel x y color s = Ret tt s' /\
    paints (fun va => va = SCREEN_BASE_ADDR + SCREEN_WIDTH * y + x /\ va < SCREEN_MAX_ADDR)
      (u8 color) s s'.
Proof.
  intros [Hn Hw] Hx Hy Hoff. unfold write_pixel. rewrite u32_small by clia.
  set (off := SCREEN_BASE_ADDR + SCREEN_WIDTH * y + x) in *.
  destruct (Z.ltb_spec off SCREEN_MAX_ADDR) as [Hlt|Hge]; ks.
  - assert (Hm : kmapped s off) by (unfold kmapped, off in *; clia).
    rewrite kstoreb_eq by done. eexists. split; [done|]. split; [done|]. split.
    { split; [done|]. simpl. by apply wrb_range. }
    intros va. rewrite kbyte_wrb by done. split; [intros [-> _]; by rewrite decide_True|].
    intros Hne. rewrite decide_False; [done|]. intros <-. by apply Hne.
  - exists s. split; [done|]. apply paints_none; [done|]. intros va [-> ?]. lia.
Qed.

Lemma paints_ok S color s s' : paints S color s s' -> screen_ok s'.
Proof. by intros (_ & ? & _). Qed.

(** The loop over [first..last] paints what its iterations paint, and it ends. *)
Lemma u16_loop_spec (plot : Z -> K unit) (off : Z -> Z) color last :
  last < 65535 ->
  (forall i s, 0 <= i <= last -> screen_ok s -> exists s', plot i s = Ret tt s' /\
     paints (fun va => va = off i /\ va < SCREEN_MAX_ADDR) color s s') ->
  forall fuel first s, 0 <= first -> screen_ok s -> last - first < Z.of_nat fuel ->
  exists s', u16_loop fuel first last plot s = Ret tt s' /\
    paints (fun va => va < SCREEN_MAX_ADDR /\ exists i, first <= i <= last /\ va = off i) color s s'.
Proof.
  intros Hlast Hplot fuel. induction fuel as [|fuel IH]; intros first s Hf Hok Hfuel; cbn [u16_loop].
  { destruct (Z.leb_spec first last); [lia|]. exists s. split; [done|].
    apply paints_none; [done|]. intros va (_ & i & ? & _). lia. }
  destruct (Z.leb_spec first last).
  2:{ exists s. split; [done|]. apply paints_none; [done|]. intros va (_ & i & ? & _). lia. }
  destruct (Hplot first s) as (s1 & Hs1 & Hp1); [lia|done|].
  rewrite u16_small by lia.
  destruct (IH (first + 1) s1) as (s2 & Hs2 & Hp2); [lia|by eapply paints_ok|lia|].
  ks. rewrite Hs1. exists s2. split; [done|]. eapply paints_union; [exact Hp1|exact Hp2| |].
  - intros va. split.
    + intros (Hva & i & Hi & ->). destruct (decide (i = first)) as [->|]; [by left|].
      right. split; [done|]. exists i. split; [lia|done].
    + intros [[-> Hva]|(Hva & i & Hi & ->)]; (split; [done|]); [exists first|exists i]; (split; [lia|done]).
  - intros va. destruct (decide (va < SCREEN_MAX_ADDR)); [|right; by intros [? _]].
    destruct (decide (Exists (fun i => va = off i) (seqZ (first + 1) (last - first)))) as [He|He].
    + left. split; [done|]. apply Exists_exists in He as (i & Hi%elem_of_seqZ & ->).
      exists i. split; [lia|done].
    + right. intros (_ & i & Hi & ->). apply He, Exists_exists. exists i.
      rewrite elem_of_seqZ. split; [lia|done].
Qed.

(** The loop never ends when its last value is the largest [uint16_t]. *)
Lemma u16_loop_diverges plot fuel i s :
  0 <= i < 2^16 -> forall r s', u16_loop fuel i 65535 plot s <> Ret r s'.
Proof.
  revert i s. induction fuel as [|fuel IH]; intros i s Hi r s'; cbn [u16_loop].
  - destruct (Z.leb_spec i 65535); [done|lia].
  - destruct (Z.leb_spec i 65535); [|lia]. ks. destruct (plot i s); [|done..].
    apply IH. apply u16_range.
Qed.

(** ** Theorems *)

(**  Drawing a horizontal or vertical line with coordinates below 65535 terminates and
    paints exactly the pixels of the segment that lie inside the frame buffer; every other
    byte of memory keeps its value. *)
Theorem draw_line_correct x1 y1 x2 y2 color s :
  screen_ok s -> 0 <= x1 < 65535 -> 0 <= x2 < 65535 -> 0 <= y1 < 65535 -> 0 <= y2 < 65535 ->
  y1 = y2 \/ x1 = x2 ->
  exists s', draw_line x1 y1 x2 y2 color s = Ret tt s' /\
    paints (fun va => va < SCREEN_MAX_ADDR /\ exists x y, x1 <= x <= x2 /\ y1 <= y <= y2 /\
              va = SCREEN_BASE_ADDR + SCREEN_WIDTH * y + x) (u8 color) s s'.
Proof.
  intros Hok Hx1 Hx2 Hy1 Hy2 Hseg. unfold draw_line. rewrite !u16_small by lia.
  unfold draw_line_fuel. destruct (Z.eqb_spec y1 y2) as [<-|Hny].
  - destruct (u16_loop_spec (fun i => write_pixel i y1 (u8 color))
      (fun i => SCREEN_BASE_ADDR + SCREEN_WIDTH * y1 + i) (u8 color) x2 ltac:(lia))
      with (fuel := Z.to_nat 65536) (first := x1) (s := s) as (s' & Hs' & Hp); [|lia|done|lia|].
    { intros i s0 Hi Hok0. destruct (write_pixel_spec i y1 (u8 color) s0) as (s1 & ? & Hp1);
        [done|lia|lia|clia|]. rewrite (u8_small (u8 color)) in Hp1 by apply u8_range. eauto. }
    exists s'. split; [done|]. destruct Hp as (? & ? & Hp). split; [done|]. split; [done|].
    intros va. destruct (Hp va) as [Hp1 Hp2]. split.
    + intros (Hva & x & y & Hx & Hy & ->). apply Hp1. split; [done|]. exists x.
      replace y with y1 by lia. split; done.
    + intros Hn. apply Hp2. intros (Hva & x & Hx & ->). apply Hn. split; [done|].
      exists x, y1. split_and!; lia || done.
  - destruct Hseg as [?|<-]; [done|]. rewrite Z.eqb_refl.
    destruct (u16_loop_spec (fun i => write_pixel x1 i (u8 color))
      (fun i => SCREEN_BASE_ADDR + SCREEN_WIDTH * i + x1) (u8 color) y2 ltac:(lia))
      with (fuel := Z.to_nat 65536) (first := y1) (s := s) as (s' & Hs' & Hp); [|lia|done|lia|].
    { intros i s0 Hi Hok0. destruct (write_pixel_spec x1 i (u8 color) s0) as (s1 & ? & Hp1);
        [done|lia|lia|clia|]. rewrite (u8_small (u8 color)) in Hp1 by apply u8_range. eauto. }
    exists s'. split; [done|]. destruct Hp as (? & ? & Hp). split; [done|]. split; [done|].
    intros va. destruct (Hp va) as [Hp1 Hp2]. split.
    + intros (Hva & x & y & Hx & Hy & ->). apply Hp1. split; [done|]. exists y.
      split; [done|]. lia.
    + intros Hn. apply Hp2. intros (Hva & y & Hy & ->). apply Hn. split; [done|].
      exists x1, y. split_and!; lia || done.
Qed.

Definition ex_screen : kstate :=
  mkState 0xB0 0xA0 0 0 0 MMIOBASE ∅ None ∅ ∅ None ∅ 0 None 0 0 []
    (mkDevices (mkConsole ∅ 0 0 0 true ∅ 0 0x3D4 [])
      (mkMouse 0 0 0 0 (mkPacket 0 0 0 0 0 0 0 0 0 0) 0 0 ∅ ∅ ∅ 0 0)
      (mkE1000 ∅ ∅ 0 ∅ [] [] 0 0) [] []).

Lemma ex_screen_ok : screen_ok ex_screen.
Proof.
  split; [simpl; lia|]. intros pg i. unfold rdw. simpl. rewrite lookup_empty. simpl.
  rewrite lookup_empty. simpl. lia.
Qed.

Lemma draw_line_correct_witness :
  exists s', draw_line 10 5 12 5 VGA_RED ex_screen = Ret tt s' /\ kbyte s' 0xF00A064B = VGA_RED.
Proof.
  destruct (draw_line_correct 10 5 12 5 VGA_RED ex_screen) as (s' & Hs' & _ & _ & Hp).
  - exact ex_screen_ok.
  - lia.
  - lia.
  - lia.
  - lia.
  - by left.
  - exists s'. split; [exact Hs'|]. apply (proj1 (Hp 0xF00A064B)).
    split; [clia|]. exists 11, 5. split_and!; lia || reflexivity.
Defined.

(**  A horizontal line that ends at the largest [uint16_t] is never finished, whatever
    bound on the number of iterations is chosen: the counter wraps to 0 and the loop goes
    on.  A system call that draws it does not return. *)
Theorem draw_line_diverges fuel x1 y color s :
  0 <= x1 < 2^16 -> forall s', draw_line_fuel fuel x1 y 65535 y color s <> Ret tt s'.
Proof.
  intros Hx s'. unfold draw_line_fuel. rewrite Z.eqb_refl. by apply u16_loop_diverges.
Qed.

Lemma draw_line_diverges_witness :
  draw_line_fuel 1000 1 7 65535 7 VGA_RED ex_screen <> Ret tt ex_screen.
Proof. apply (draw_line_diverges 1000 1 7 VGA_RED ex_screen). lia. Defined.

(**  [write_pixel] has no lower bound: a pixel [k] rows above the screen, as
    [draw_circle] asks for when the centre is closer to the top than the radius, overwrites
    the byte [320 * k] bytes below the start of the frame buffer. *)
Theorem write_pixel_above_screen x k color s :
  screen_ok s -> 0 <= x < SCREEN_WIDTH -> 0 < k <= 0x800 ->
  exists s', write_pixel x (u32 (- k)) color s = Ret tt s' /\
    SCREEN_BASE_ADDR - SCREEN_WIDTH * k + x < SCREEN_BASE_ADDR /\
    kbyte s' (SCREEN_BASE_ADDR - SCREEN_WIDTH * k + x) = u8 color.
Proof.
  intros [Hn Hw] Hx Hk. unfold write_pixel.
  assert (Hoff : u32 (SCREEN_BASE_ADDR + SCREEN_WIDTH * u32 (- k) + x)
                 = SCREEN_BASE_ADDR - SCREEN_WIDTH * k + x).
  { replace (u32 (- k)) with (2^32 - k) by (unfold u32; dlia).
    unfold u32. replace (SCREEN_BASE_ADDR + SCREEN_WIDTH * (2^32 - k) + x)
      with (SCREEN_BASE_ADDR - SCREEN_WIDTH * k + x + SCREEN_WIDTH * 2^32) by lia.
    rewrite Z.mod_add by lia. apply Z.mod_small. clia. }
  rewrite Hoff. destruct (Z.ltb_spec (SCREEN_BASE_ADDR - SCREEN_WIDTH * k + x) SCREEN_MAX_ADDR);
    [|clia]. ks.
  rewrite kstoreb_eq by (unfold kmapped; clia). eexists. split; [done|]. split; [clia|].
  rewrite kbyte_wrb by done. by rewrite decide_True.
Qed.

Lemma write_pixel_above_screen_witness :
  exists s', write_pixel 3 (u32 (-2)) VGA_RED ex_screen = Ret tt s' /\ kbyte s' 0xF009FD83 = VGA_RED.
Proof.
  destruct (write_pixel_above_screen 3 2 VGA_RED ex_screen) as (s' & Hs' & _ & Hb).
  - exact ex_screen_ok.
  - clia.
  - lia.
  - exists s'. split; [exact Hs'|exact Hb].
Defined.
