(* ===== verification/Mouse.v ===== *)
(** * Mouse: the mouse driver ([kern/mouse.c])

    Packets are read from the shared 8042 queue, the pointer is drawn into the frame buffer
    over a saved background, and clicks are put into a circular buffer for user programs.
    The theorems: erasing the pointer restores the pixels it covered, and handling interrupts
    ends, keeps the pointer on the screen and writes nothing outside the frame buffer. *)

From S2P Require Import Prelude Layout KState Time KMem VmOps Console Vga.

Definition MOUSE_HEIGHT : Z := 18.
Definition MOUSE_WIDTH : Z := 15.
Definition BUFSIZE : Z := 512.
Definition R_CLICK : Z := 0.
Definition L_CLICK : Z := 1.
Definition DBL_CLICK : Z := 2.
Definition NO_CLICK : Z := 3.
#[export] Hint Unfold MOUSE_HEIGHT MOUSE_WIDTH BUFSIZE : cconst.

Definition mouse_pointer : list (list Z) :=
  [[2; 2; 0; 0; 0; 0; 0; 0; 0; 0; 0; 0; 0; 0; 0];
   [2; 1; 2; 0; 0; 0; 0; 0; 0; 0; 0; 0; 0; 0; 0];
   [2; 1; 1; 2; 0; 0; 0; 0; 0; 0; 0; 0; 0; 0; 0];
   [2; 1; 1; 1; 2; 0; 0; 0; 0; 0; 0; 0; 0; 0; 0];
   [2; 1; 1; 1; 1; 2; 0; 0; 0; 0; 0; 0; 0; 0; 0];
   [2; 1; 1; 1; 1; 1; 2; 0; 0; 0; 0; 0; 0; 0; 0];
   [2; 1; 1; 1; 1; 1; 1; 2; 0; 0; 0; 0; 0; 0; 0];
   [2; 1; 1; 1; 1; 1; 1; 1; 2; 0; 0; 0; 0; 0; 0];
   [2; 1; 1; 1; 1; 1; 1; 1; 1; 2; 0; 0; 0; 0; 0];
   [2; 1; 1; 1; 1; 1; 1; 1; 1; 1; 2; 0; 0; 0; 0];
   [2; 1; 1; 1; 1; 1; 1; 1; 1; 1; 1; 2; 0; 0; 0];
   [2; 1; 1; 1; 1; 1; 1; 2; 2; 2; 2; 2; 0; 0; 0];
   [2; 1; 1; 1; 2; 1; 1; 2; 0; 0; 0; 0; 0; 0; 0];
   [2; 1; 1; 2; 0; 2; 1; 1; 2; 0; 0; 0; 0; 0; 0];
   [2; 1; 2; 0; 0; 2; 1; 1; 2; 0; 0; 0; 0; 0; 0];
   [2; 2; 0; 0; 0; 0; 2; 1; 1; 2; 0; 0; 0; 0; 0];
   [0; 0; 0; 0; 0; 0; 2; 1; 1; 2; 0; 0; 0; 0; 0];
   [0; 0; 0; 0; 0; 0; 0; 2; 2; 0; 0; 0; 0; 0; 0]].
Definition pointer_at (i j : Z) : Z := nth (Z.to_nat j) (nth (Z.to_nat i) mouse_pointer []) 0.

(** ** Access to the driver's state *)

Definition get_mouse : K mouse := get (fun s => mous (dev s)).
Definition upd_mouse (f : mouse -> mouse) : K unit :=
  modify (fun s => set_dev (set_mous (f (mous (dev s))) (dev s)) s).

(** A loop that breaks at the first index not satisfying [cond]. *)
Fixpoint kfor_while (l : list Z) (cond : Z -> bool) (body : Z -> K unit) : K unit :=
  match l with
  | [] => mret tt
  | i :: l => if cond i then body i;; kfor_while l cond body else mret tt
  end.

Definition on_row (y i : Z) : bool := negb ((SCREEN_HEIGHT <=? y + i) || (y + i <? 0)).
Definition on_col (x j : Z) : bool := negb ((SCREEN_WIDTH <=? x + j) || (x + j <? 0)).
Definition pixel_addr (x y i j : Z) : Z := SCREEN_BASE_ADDR + (y + i) * SCREEN_WIDTH + x + j.

(** The double loop of [drawMouse] and [mouse_update_color_backup] over the pixels of the
    pointer that are on the screen. *)
Definition for_pointer (x y : Z) (body : Z -> Z -> Z -> K unit) : K unit :=
  kfor_while (seqZ 0 MOUSE_HEIGHT) (on_row y) (fun i =>
    kfor_while (seqZ 0 MOUSE_WIDTH) (on_col x) (fun j =>
      let temp := pointer_at i j in
      when (truth temp) (body i j temp))).

Definition set_backup (i j v : Z) : K unit :=
  upd_mouse (fun m => set_color_backup (<[(i, j) := v]> (color_backup m)) m).

Definition mouse_update_color_backup : K unit :=
  m ← get_mouse;
  for_pointer (curr_x m) (curr_y m) (fun i j temp =>
    c ← kloadb (pixel_addr (curr_x m) (curr_y m) i j); set_backup i j c).

Definition drawMouse (x y : Z) (recover_old : bool) : K unit :=
  for_pointer x y (fun i j temp =>
    let addr := pixel_addr x y i j in
    if recover_old then
      m ← get_mouse; kstoreb addr (default 0 (color_backup m !! (i, j)))
    else
      c ← kloadb addr; set_backup i j c;;
      m ← get_mouse; kstoreb addr (default 0 (mouse_color m !! (temp - 1)))).

(** ** Packets *)

Section Command.
(** The uninitialised [pkt.type] of a packet with only the middle button. *)
Variable junk : Z.

Definition clamp (lo hi v : Z) : Z := if v <? lo then lo else if hi <? v then hi else v.

Definition mouse_command : K unit :=
  m ← get_mouse;
  let p := packet m in
  if truth (x_overflow p) || truth (y_overflow p) then mret tt
  else
    let btns := l_btn p .| (r_btn p .<< 1) .| (m_btn p .<< 2) in
    when (truth (x_mov p) || truth (y_mov p)) (
      let cx := clamp 0 SCREEN_WIDTH (curr_x m + (x_mov p .>> 5)) in
      let cy := clamp 0 SCREEN_HEIGHT (curr_y m + - (y_mov p .>> 5)) in
      upd_mouse (fun m => set_prev_x (curr_x m) (set_prev_y (curr_y m) m));;
      upd_mouse (fun m => set_curr_x cx (set_curr_y cy m));;
      drawMouse (curr_x m) (curr_y m) true;;
      drawMouse cx cy false);;
    when (truth btns) (
      m ← get_mouse;
      let type :=
        if truth (r_btn p) then R_CLICK
        else if truth (l_btn p) then
          if u32 (pk_tick p - lastclicktick m) <? 200 then DBL_CLICK else L_CLICK
        else junk in
      when (truth (m_btn p)) (
        drawMouse (prev_x m) (prev_y m) true;;
        drawMouse (curr_x m) (curr_y m) false;;
        upd_mouse (fun m => set_curr_x (SCREEN_WIDTH / 2) (set_curr_y (SCREEN_HEIGHT / 2) m)));;
      upd_mouse (fun m =>
        let wpos := m_wpos m + 1 in
        set_m_wpos (if wpos =? BUFSIZE then 0 else wpos)
          (set_m_buf (<[m_wpos m := mkPkt (prev_x m) (prev_y m) type]> (m_buf m)) m));;
      upd_mouse (set_lastclicktick (i32 (pk_tick p)))).

Definition dev_status : K Z := get (fun s => inb_status (dev s)).
Definition dev_data : K Z := fun s =>
  let '(x, d) := inb_data (dev s) in Ret x (set_dev d s).

Definition next_recovery (r data : Z) : Z :=
  if (r =? 0) && (data .& 255 =? 0) then 1
  else if (r =? 1) && (data .& 255 =? 0) then 2
  else if data .& 255 =? 12 then 0 else -1.

(** The loop of [mouse_intr]; every iteration takes a byte out of the controller. *)
Fixpoint mouse_intr_loop (fuel : nat) (count first_byte ticks : Z) : K unit :=
  state ← dev_status;
  if state .& 1 =? 1 then
    match fuel with
    | O => stuck
    | S fuel =>
        data ← dev_data;
        let count := count + 1 in
        upd_mouse (fun m => set_recovery (next_recovery (recovery m) data) m);;
        now ← time_msec;
        m ← get_mouse;
        '(count, first_byte, ticks) ← (
          if count =? 1 then
            if truth (data .& 0x08) then
              upd_mouse (fun m => set_packet
                (mkPacket ((data .>> 4) .& 1) ((data .>> 5) .& 1) ((data .>> 0) .& 1)
                   ((data .>> 1) .& 1) ((data .>> 2) .& 1) ((data .>> 6) .& 1) ((data .>> 7) .& 1)
                   (x_mov (packet m)) (y_mov (packet m)) (pk_tick (packet m))) m);;
              mret (count, data, now)
            else mret (0, first_byte, ticks)
          else if count =? 2 then
            upd_mouse (fun m => set_packet (set_x_mov (data - ((first_byte .<< 4) .& 0x100)) (packet m)) m);;
            mret (count, first_byte, ticks)
          else if count =? 3 then
            upd_mouse (fun m => set_packet (set_y_mov (data - ((first_byte .<< 3) .& 0x100))
              (set_pk_tick ticks (packet m))) m);;
            mret (count, first_byte, ticks)
          else mret (0, first_byte, ticks) : K (Z * Z * Z));
        m ← get_mouse;
        if recovery m =? 2 then
          upd_mouse (set_recovery (-1));; mouse_intr_loop fuel 0 first_byte ticks
        else if count =? 3 then
          mouse_command;; mouse_intr_loop fuel 0 first_byte ticks
        else mouse_intr_loop fuel count first_byte ticks
    end
  else mret tt.

Definition mouse_intr : K unit :=
  now ← time_msec;
  n ← get (fun s => length (i8042 (dev s)));
  mouse_intr_loop n 0 0 now.

Definition mouse_poll : K unit :=
  status ← dev_status;
  if status .& 1 =? 0 then mret tt
  else when (truth (status .& 0x20)) mouse_intr.

(** The result and the packet stored in [*pkt]; without a click only its type is set. *)
Definition mouse_getp (pkt : mouse_u_pkt) : K (Z * mouse_u_pkt) :=
  mouse_poll;;
  m ← get_mouse;
  if m_rpos m =? m_wpos m then mret (-1, mkPkt (pkt_x pkt) (pkt_y pkt) NO_CLICK)
  else
    let rpos := m_rpos m + 1 in
    upd_mouse (set_m_rpos (if rpos =? BUFSIZE then 0 else rpos));;
    mret (0, default (mkPkt 0 0 0) (m_buf m !! m_rpos m)).

End Command.

(** ** The pixels of the pointer *)

Fixpoint twhile (cond : Z -> bool) (l : list Z) : list Z :=
  match l with
  | [] => []
  | i :: l => if cond i then i :: twhile cond l else []
  end.

Lemma kfor_while_eq l cond body s : kfor_while l cond body s = kfor (twhile cond l) body s.
Proof.
  revert s. induction l as [|i l IH]; intros s; [done|]. simpl. destruct (cond i); [|done].
  simpl. ks. destruct (body i s); (apply IH || done).
Qed.

Lemma twhile_elem cond l i : i ∈ twhile cond l -> i ∈ l /\ cond i = true.
Proof.
  induction l as [|a l IH]; simpl; [by intros ?%elem_of_nil|]. destruct (cond a) eqn:Ha.
  - intros [->|Hi]%elem_of_cons; [split; [left|done]|]. destruct (IH Hi). split; [by right|done].
  - by intros ?%elem_of_nil.
Qed.

Lemma twhile_NoDup cond l : NoDup l -> NoDup (twhile cond l).
Proof.
  induction l as [|a l IH]; simpl; [done|]. intros [Ha Hl]%NoDup_cons.
  destruct (cond a); [|constructor]. constructor; [|auto]. by intros [? _]%twhile_elem.
Qed.

(** The cells [(i, j)] the double loop visits. *)
Definition cells (x y : Z) : list (Z * Z) :=
  List.filter (fun c => truth (pointer_at c.1 c.2))
    (flat_map (fun i => map (pair i) (twhile (on_col x) (seqZ 0 MOUSE_WIDTH)))
       (twhile (on_row y) (seqZ 0 MOUSE_HEIGHT))).
Definition cell_addr (x y : Z) (c : Z * Z) : Z := pixel_addr x y c.1 c.2.

Lemma for_pointer_cells x y body s :
  for_pointer x y body s = kfor (cells x y) (fun c => body c.1 c.2 (pointer_at c.1 c.2)) s.
Proof.
  unfold for_pointer, cells. rewrite kfor_while_eq.
  rewrite <- (kfor_when (fun c => truth (pointer_at c.1 c.2))
                _ (fun c => body c.1 c.2 (pointer_at c.1 c.2))), <- kfor_flat.
  apply kfor_ext. intros i s' _. rewrite kfor_while_eq, kfor_map. done.
Qed.

Lemma cells_elem x y i j :
  (i, j) ∈ cells x y -> 0 <= i < 18 /\ 0 <= j < 15 /\ 0 <= y + i < 200 /\ 0 <= x + j < 320.
Proof.
  unfold cells. intros Hc%list_elem_of_In%filter_In. destruct Hc as [Hc _].
  apply in_flat_map in Hc as (i' & Hi%list_elem_of_In%twhile_elem & Hj).
  apply in_map_iff in Hj as (j' & [= -> ->] & Hj%list_elem_of_In%twhile_elem).
  destruct Hi as [Hi Hi'], Hj as [Hj Hj']. rewrite elem_of_seqZ in Hi, Hj.
  unfold on_row, on_col in *. cc.
  destruct (Z.leb_spec 200 (y + i)), (Z.ltb_spec (y + i) 0), (Z.leb_spec 320 (x + j)),
    (Z.ltb_spec (x + j) 0); try done; lia.
Qed.

Lemma NoDup_flat_pairs (l : list Z) (g : list Z) :
  NoDup l -> NoDup g -> NoDup (flat_map (fun i => map (pair i) g) l).
Proof.
  intros Hl Hg. induction Hl as [|i l Hi Hl IH]; simpl; [constructor|].
  apply NoDup_app. split; [|split; [|done]].
  - apply NoDup_fmap_2; [|done]. by intros ? ? [= ->].
  - intros c (j & -> & _)%list_elem_of_fmap Hc.
    apply list_elem_of_In, in_flat_map in Hc as (i' & Hi' & Hj).
    apply in_map_iff in Hj as (? & [= -> _] & _). by apply Hi, list_elem_of_In.
Qed.

Lemma cells_NoDup x y : NoDup (cells x y).
Proof.
  unfold cells. apply NoDup_ListNoDup, List.NoDup_filter, NoDup_ListNoDup.
  apply NoDup_flat_pairs; apply twhile_NoDup, NoDup_seqZ.
Qed.

Lemma cell_addr_inj x y c c' :
  c ∈ cells x y -> c' ∈ cells x y -> cell_addr x y c = cell_addr x y c' -> c = c'.
Proof.
  destruct c as [i j], c' as [i' j']. intros H1%cells_elem H2%cells_elem.
  unfold cell_addr, pixel_addr. cc. simpl. intros Heq. f_equal; lia.
Qed.

Lemma cell_addr_screen x y c :
  c ∈ cells x y -> SCREEN_BASE_ADDR <= cell_addr x y c < SCREEN_BASE_ADDR + 64000.
Proof.
  destruct c as [i j]. intros H%cells_elem. unfold cell_addr, pixel_addr. simpl. clia.
Qed.

(** ** Saving and restoring the background *)

(** Only memory and the saved background differ. *)
Definition mouse_frame (s s' : kstate) : Prop :=
  s' = set_mem (mem s') (set_dev (set_mous
         (set_color_backup (color_backup (mous (dev s'))) (mous (dev s))) (dev s)) s).

Lemma mouse_frame_refl s : mouse_frame s s.
Proof. destruct s as [? ? ? ? ? ? ? ? ? ? ? ? ? ? ? ? ? [? [] ? ? ?]]. done. Qed.
Lemma mouse_frame_trans s1 s2 s3 : mouse_frame s1 s2 -> mouse_frame s2 s3 -> mouse_frame s1 s3.
Proof. unfold mouse_frame. intros H1 H2. rewrite H2, H1. done. Qed.
Lemma mouse_frame_npages s s' : mouse_frame s s' -> npages s' = npages s.
Proof. by intros ->. Qed.

Definition draw_cell (x y : Z) (c : Z * Z) : K unit :=
  b ← kloadb (cell_addr x y c); set_backup c.1 c.2 b;;
  m ← get_mouse; kstoreb (cell_addr x y c) (default 0 (mouse_color m !! (pointer_at c.1 c.2 - 1))).
Definition erase_cell (x y : Z) (c : Z * Z) : K unit :=
  m ← get_mouse; kstoreb (cell_addr x y c) (default 0 (color_backup m !! c)).

Definition backup (s : kstate) (c : Z * Z) : Z := default 0 (color_backup (mous (dev s)) !! c).

Section cells.
Context (x y : Z).

Lemma draw_cells l s :
  screen_ok s -> NoDup l -> (forall c, c ∈ l -> c ∈ cells x y) ->
  exists s', kfor l (draw_cell x y) s = Ret tt s' /\ screen_ok s' /\ mouse_frame s s' /\
    (forall c, c ∈ l -> backup s' c = kbyte s (cell_addr x y c)) /\
    (forall c, c ∉ l -> backup s' c = backup s c) /\
    (forall va, (forall c, c ∈ l -> va <> cell_addr x y c) -> kbyte s' va = kbyte s va).
Proof.
  revert s. induction l as [|c l IH]; intros s Hok Hnd Hl.
  { exists s. split_and!; [done|apply Hok..|apply mouse_frame_refl| | |]; set_solver. }
  apply NoDup_cons in Hnd as [Hc Hnd]. assert (Hcc : c ∈ cells x y) by (apply Hl; left).
  assert (Ha := cell_addr_screen x y c Hcc). assert (Hok' := Hok). destruct Hok' as [Hn Hw].
  assert (Hm : kmapped s (cell_addr x y c)) by (unfold kmapped; clia).
  cbn [kfor]. unfold draw_cell at 2, set_backup, upd_mouse, get_mouse. ks.
  rewrite kloadb_eq by done.
  set (s1 := set_dev _ s). rewrite (kstoreb_eq s1) by done. set (s2 := set_mem _ s1).
  assert (Hok2 : screen_ok s2) by (split; [done|]; by apply wrb_range).
  assert (Hb2 : forall va, va <> cell_addr x y c -> kbyte s2 va = kbyte s va).
  { intros va Hne. unfold s2. rewrite kbyte_wrb by done. by rewrite decide_False. }
  assert (Hf2 : mouse_frame s s2) by done.
  assert (Hs2 : forall c', backup s2 c' = if decide (c' = c) then kbyte s (cell_addr x y c) else backup s c').
  { intros c'. unfold backup, s2, s1. simpl. destruct c as [i j]. simpl.
    destruct (decide (c' = (i, j))) as [->|Hne]; [by rewrite lookup_insert_eq|].
    by rewrite lookup_insert_ne. }
  destruct (IH s2) as (s' & Hs' & Hok' & Hf' & Hb1 & Hb3 & Hk'); [done..| |].
  { intros. apply Hl. by right. }
  exists s'. split; [exact Hs'|]. split; [done|]. split; [by eapply mouse_frame_trans|].
  split; [|split].
  - intros c' [->|Hc']%elem_of_cons.
    + rewrite Hb3 by done. rewrite Hs2. by rewrite decide_True.
    + rewrite Hb1 by done. apply Hb2. intros Heq. apply Hc.
      apply cell_addr_inj in Heq; [by subst|by apply Hl; right|done].
  - intros c' Hc'. apply not_elem_of_cons in Hc' as [Hne Hc'].
    rewrite Hb3 by done. rewrite Hs2. by rewrite decide_False.
  - intros va Hva. rewrite Hk' by (intros; apply Hva; by right). apply Hb2, Hva. left.
Qed.

Lemma erase_cells l s :
  screen_ok s -> NoDup l -> (forall c, c ∈ l -> c ∈ cells x y) ->
  exists s', kfor l (erase_cell x y) s = Ret tt s' /\ screen_ok s' /\ mouse_frame s s' /\
    (forall c, backup s' c = backup s c) /\
    (forall c, c ∈ l -> kbyte s' (cell_addr x y c) = u8 (backup s c)) /\
    (forall va, (forall c, c ∈ l -> va <> cell_addr x y c) -> kbyte s' va = kbyte s va).
Proof.
  revert s. induction l as [|c l IH]; intros s Hok Hnd Hl.
  { exists s. split_and!; [done|apply Hok..|apply mouse_frame_refl|done| |]; set_solver. }
  apply NoDup_cons in Hnd as [Hc Hnd]. assert (Hcc : c ∈ cells x y) by (apply Hl; left).
  assert (Ha := cell_addr_screen x y c Hcc). assert (Hok' := Hok). destruct Hok' as [Hn Hw].
  assert (Hm : kmapped s (cell_addr x y c)) by (unfold kmapped; clia).
  cbn [kfor]. unfold erase_cell at 2, get_mouse. ks. rewrite (kstoreb_eq s) by done.
  set (s2 := set_mem _ s).
  assert (Hok2 : screen_ok s2) by (split; [done|]; by apply wrb_range).
  assert (Hf2 : mouse_frame s s2) by (unfold s2; destruct s as [? ? ? ? ? ? ? ? ? ? ? ? ? ? ? ? ? [? [] ? ? ?]]; done).
  destruct (IH s2) as (s' & Hs' & Hok' & Hf' & Hb1 & Hb2 & Hk'); [done..| |].
  { intros. apply Hl. by right. }
  exists s'. split; [exact Hs'|]. split; [done|]. split; [by eapply mouse_frame_trans|].
  split; [intros c'; by rewrite Hb1|]. split.
  - intros c' [->|Hc']%elem_of_cons; [|by rewrite Hb2].
    rewrite Hk'; [unfold s2; rewrite kbyte_wrb by done; by rewrite decide_True|].
    intros c' Hc' Heq. apply cell_addr_inj in Heq; [by subst|done|by apply Hl; right].
  - intros va Hva. rewrite Hk' by (intros; apply Hva; by right).
    unfold s2. rewrite kbyte_wrb by done. rewrite decide_False; [done|].
    intros Heq. by apply (Hva c); [left|].
Qed.
End cells.

Lemma drawMouse_draw x y s : drawMouse x y false s = kfor (cells x y) (draw_cell x y) s.
Proof. unfold drawMouse. by rewrite for_pointer_cells. Qed.
Lemma drawMouse_erase x y s : drawMouse x y true s = kfor (cells x y) (erase_cell x y) s.
Proof.
  unfold drawMouse. rewrite for_pointer_cells. apply kfor_ext. by intros [i j] s' _.
Qed.

Lemma kbyte_range s va : (forall pg i, 0 <= rdw (mem s) pg i < 2^32) -> 0 <= kbyte s va < 2^8.
Proof. intros _. unfold kbyte. rewrite rdb_byte. apply u8_range. Qed.

(** ** Safety of the interrupt handler *)

Definition on_screen (va : Z) : Prop := SCREEN_BASE_ADDR <= va < SCREEN_BASE_ADDR + 64000.
Definition mouse_ok (m : mouse) : Prop :=
  0 <= curr_x m <= SCREEN_WIDTH /\ 0 <= curr_y m <= SCREEN_HEIGHT /\
  0 <= m_rpos m < BUFSIZE /\ 0 <= m_wpos m < BUFSIZE.

(** A step of the driver: only the frame buffer and the driver's own state change. *)
Definition mouse_step (s s' : kstate) : Prop :=
  s' = set_mem (mem s') (set_dev (set_mous (mous (dev s')) (dev s)) s) /\
  screen_ok s' /\ mouse_ok (mous (dev s')) /\
  forall va, ~ on_screen va -> kbyte s' va = kbyte s va.

Lemma mouse_step_refl s : screen_ok s -> mouse_ok (mous (dev s)) -> mouse_step s s.
Proof.
  intros. split; [|done]. destruct s as [? ? ? ? ? ? ? ? ? ? ? ? ? ? ? ? ? [? ? ? ? ?]]. done.
Qed.

Lemma mouse_step_trans s1 s2 s3 : mouse_step s1 s2 -> mouse_step s2 s3 -> mouse_step s1 s3.
Proof.
  intros (H1 & _ & _ & Hb1) (H2 & ? & ? & Hb2). split; [rewrite H2, H1; done|].
  split; [done|]. split; [done|]. intros va Hva. rewrite Hb2, Hb1; done.
Qed.

Lemma mouse_step_queue s s' : mouse_step s s' -> i8042 (dev s') = i8042 (dev s).
Proof. by intros (-> & _). Qed.

Lemma drawMouse_step x y b s :
  screen_ok s -> mouse_ok (mous (dev s)) ->
  exists s', drawMouse x y b s = Ret tt s' /\ mouse_step s s' /\ mouse_frame s s'.
Proof.
  intros Hok Hm. destruct b; [rewrite drawMouse_erase|rewrite drawMouse_draw].
  - destruct (erase_cells x y (cells x y) s Hok (cells_NoDup x y)) as (s' & Hs' & Hok' & Hf & _ & _ & Hk); [done|].
    exists s'. split; [done|]. split; [|done]. rewrite Hf. split; [done|].
    split; [by rewrite <- Hf|]. split; [done|]. intros va Hva. rewrite <- Hf. apply Hk.
    intros c Hc ->. by apply Hva, cell_addr_screen.
  - destruct (draw_cells x y (cells x y) s Hok (cells_NoDup x y)) as (s' & Hs' & Hok' & Hf & _ & _ & Hk); [done|].
    exists s'. split; [done|]. split; [|done]. rewrite Hf. split; [done|].
    split; [by rewrite <- Hf|]. split; [done|]. intros va Hva. rewrite <- Hf. apply Hk.
    intros c Hc ->. by apply Hva, cell_addr_screen.
Qed.

(** A change of the driver's state alone. *)
Lemma upd_mouse_step f s :
  screen_ok s -> mouse_ok (mous (dev s)) -> mouse_ok (f (mous (dev s))) ->
  exists s', upd_mouse f s = Ret tt s' /\ mouse_step s s' /\
    s' = set_dev (set_mous (f (mous (dev s))) (dev s)) s.
Proof. intros Hok Hm Hf. eexists. split; [done|]. done. Qed.

Lemma clamp_range lo hi v : lo <= hi -> lo <= clamp lo hi v <= hi.
Proof. intros. unfold clamp. destruct (Z.ltb_spec v lo), (Z.ltb_spec hi v); lia. Qed.

Lemma mouse_command_move s cx cy :
  screen_ok s -> mouse_ok (mous (dev s)) ->
  0 <= cx <= SCREEN_WIDTH -> 0 <= cy <= SCREEN_HEIGHT ->
  let m := mous (dev s) in
  exists s', (upd_mouse (fun m => set_prev_x (curr_x m) (set_prev_y (curr_y m) m));;
    upd_mouse (fun m => set_curr_x cx (set_curr_y cy m));;
    drawMouse (curr_x m) (curr_y m) true;;
    drawMouse cx cy false) s = Ret tt s' /\ mouse_step s s'.
Proof.
  intros Hok (Hx & Hy & Hr & Hw) Hcx Hcy m. unfold upd_mouse. ks.
  set (s1 := set_dev _ (set_dev _ s)).
  assert (H1 : mouse_step s s1) by done.
  destruct (drawMouse_step (curr_x m) (curr_y m) true s1) as (s2 & Hs2 & H2 & _); [apply H1..|].
  rewrite Hs2.
  destruct (drawMouse_step cx cy false s2) as (s3 & Hs3 & H3 & _); [apply H2..|].
  exists s3. split; [done|]. eapply mouse_step_trans; [exact H1|]. by eapply mouse_step_trans.
Qed.

Lemma mouse_command_step junk s :
  screen_ok s -> mouse_ok (mous (dev s)) ->
  exists s', mouse_command junk s = Ret tt s' /\ mouse_step s s'.
Proof.
  intros Hok Hm. unfold mouse_command, get_mouse at 1.
  rewrite (bind_Ret _ _ s (mous (dev s)) s) by done.
  set (m := mous (dev s)) in *. set (p := packet m). cbv zeta.
  destruct (_ || _); [exists s; split; [done|by apply mouse_step_refl]|].
  assert (Hmove : exists s1, (when (truth (x_mov p) || truth (y_mov p))
      (upd_mouse (fun m => set_prev_x (curr_x m) (set_prev_y (curr_y m) m));;
       upd_mouse (fun m0 => set_curr_x (clamp 0 SCREEN_WIDTH (curr_x m + (x_mov p .>> 5)))
         (set_curr_y (clamp 0 SCREEN_HEIGHT (curr_y m + - (y_mov p .>> 5))) m0));;
       drawMouse (curr_x m) (curr_y m) true;;
       drawMouse (clamp 0 SCREEN_WIDTH (curr_x m + (x_mov p .>> 5)))
         (clamp 0 SCREEN_HEIGHT (curr_y m + - (y_mov p .>> 5))) false)) s = Ret tt s1 /\ mouse_step s s1).
  { destruct (_ || _); [|exists s; split; [done|by apply mouse_step_refl]].
    apply mouse_command_move; [done..|apply clamp_range; clia|apply clamp_range; clia]. }
  destruct Hmove as (s1 & Hs1 & H1). rewrite (bind_Ret _ _ _ _ _ Hs1).
  destruct (truth (l_btn p .| (r_btn p .<< 1) .| (m_btn p .<< 2))); [|exists s1; by split].
  cbn [when]. try unfold get_mouse. rewrite (bind_Ret _ _ s1 (mous (dev s1)) s1) by done. cbv zeta.
  set (m1 := mous (dev s1)).
  match goal with |- context [mkPkt _ _ ?t] => generalize t; intros ty end.
  assert (Hmid : exists s2, (when (truth (m_btn p))
      (drawMouse (prev_x m1) (prev_y m1) true;; drawMouse (curr_x m1) (curr_y m1) false;;
       upd_mouse (fun m => set_curr_x (SCREEN_WIDTH / 2) (set_curr_y (SCREEN_HEIGHT / 2) m)))) s1
      = Ret tt s2 /\ mouse_step s1 s2).
  { destruct (truth (m_btn p)); [|exists s1; split; [done|apply mouse_step_refl; apply H1]].
    destruct (drawMouse_step (prev_x m1) (prev_y m1) true s1) as (s2 & Hs2 & H2 & _); [apply H1..|].
    destruct (drawMouse_step (curr_x m1) (curr_y m1) false s2) as (s3 & Hs3 & H3 & _); [apply H2..|].
    cbn [when]. rewrite (bind_Ret _ _ _ _ _ Hs2), (bind_Ret _ _ _ _ _ Hs3).
    eexists. split; [done|]. eapply mouse_step_trans; [done|]. eapply mouse_step_trans; [done|].
    destruct H3 as (_ & ? & Hm3 & _). split; [done|]. split; [done|]. split; [|done].
    destruct Hm3 as (_ & _ & ?). split; [simpl; dlia|]. split; [simpl; dlia|]. done. }
  destruct Hmid as (s2 & Hs2 & H2). rewrite (bind_Ret _ _ _ _ _ Hs2).
  unfold upd_mouse. ks. eexists. split; [done|]. eapply mouse_step_trans; [done|].
  eapply mouse_step_trans; [done|]. destruct H2 as (_ & ? & Hm2 & _).
  split; [done|]. split; [done|]. split; [|done].
  destruct Hm2 as (? & ? & ? & ?). split_and!; simpl; try lia.
  all: destruct (Z.eqb_spec (m_wpos (mous (dev s2)) + 1) BUFSIZE); clia.
Qed.

(** Like [mouse_step], with bytes taken out of the controller. *)
Definition intr_step (s s' : kstate) : Prop :=
  s' = set_mem (mem s') (set_dev (set_i8042 (i8042 (dev s')) (set_mous (mous (dev s')) (dev s))) s) /\
  screen_ok s' /\ mouse_ok (mous (dev s')) /\
  forall va, ~ on_screen va -> kbyte s' va = kbyte s va.

Lemma intr_step_trans s1 s2 s3 : intr_step s1 s2 -> intr_step s2 s3 -> intr_step s1 s3.
Proof.
  intros (H1 & _ & _ & Hb1) (H2 & ? & ? & Hb2). split; [rewrite H2, H1; done|].
  split; [done|]. split; [done|]. intros va Hva. rewrite Hb2, Hb1; done.
Qed.
Lemma mouse_intr_step s s' : mouse_step s s' -> intr_step s s'.
Proof. intros (-> & H). split; [done|]. done. Qed.

(** Replacing the decoded packet keeps the driver's invariant. *)
Lemma set_packet_ok p m : mouse_ok m -> mouse_ok (set_packet p m).
Proof. done. Qed.

(** One iteration up to the point where a complete packet is handled. *)
Lemma mouse_byte_step data count fb tk now s :
  screen_ok s -> mouse_ok (mous (dev s)) ->
  let m := mous (dev s) in
  exists c' fb' tk' s', (if count =? 1 then
      if truth (data .& 0x08) then
        upd_mouse (fun m => set_packet
          (mkPacket ((data .>> 4) .& 1) ((data .>> 5) .& 1) ((data .>> 0) .& 1)
             ((data .>> 1) .& 1) ((data .>> 2) .& 1) ((data .>> 6) .& 1) ((data .>> 7) .& 1)
             (x_mov (packet m)) (y_mov (packet m)) (pk_tick (packet m))) m);;
        mret (count, data, now)
      else mret (0, fb, tk)
    else if count =? 2 then
      upd_mouse (fun m => set_packet (set_x_mov (data - ((fb .<< 4) .& 0x100)) (packet m)) m);;
      mret (count, fb, tk)
    else if count =? 3 then
      upd_mouse (fun m => set_packet (set_y_mov (data - ((fb .<< 3) .& 0x100))
        (set_pk_tick tk (packet m))) m);;
      mret (count, fb, tk)
    else mret (0, fb, tk) : K (Z * Z * Z)) s = Ret (c', fb', tk') s' /\ mouse_step s s'.
Proof.
  intros Hok Hm m. destruct (count =? 1).
  - destruct (truth _).
    + eexists _, _, _, _. split; [reflexivity|]. split; [done|]. by split.
    + eexists _, _, _, _. split; [reflexivity|]. by apply mouse_step_refl.
  - destruct (count =? 2); [|destruct (count =? 3)].
    + eexists _, _, _, _. split; [reflexivity|]. split; [done|]. by split.
    + eexists _, _, _, _. split; [reflexivity|]. split; [done|]. by split.
    + eexists _, _, _, _. split; [reflexivity|]. by apply mouse_step_refl.
Qed.

Lemma mouse_intr_loop_step junk fuel count fb tk s :
  screen_ok s -> mouse_ok (mous (dev s)) -> (length (i8042 (dev s)) <= fuel)%nat ->
  exists s', mouse_intr_loop junk fuel count fb tk s = Ret tt s' /\ intr_step s s'.
Proof.
  revert count fb tk s. induction fuel as [|fuel IH]; intros count fb tk s Hok Hm Hf;
    cbn [mouse_intr_loop]; unfold dev_status.
  - rewrite (bind_Ret _ _ s (inb_status (dev s)) s) by done.
    unfold inb_status. destruct (i8042 (dev s)); [|simpl in Hf; lia].
    exists s. split; [done|]. by apply mouse_intr_step, mouse_step_refl.
  - rewrite (bind_Ret _ _ s (inb_status (dev s)) s) by done. unfold inb_status.
    destruct (i8042 (dev s)) as [|[st x] q] eqn:Hq.
    { exists s. split; [done|]. by apply mouse_intr_step, mouse_step_refl. }
    destruct (_ =? 1); [|exists s; split; [done|]; by apply mouse_intr_step, mouse_step_refl].
    set (s1 := set_dev (set_i8042 q (dev s)) s).
    assert (H1 : intr_step s s1).
    { split; [|done]. unfold s1. destruct s as [? ? ? ? ? ? ? ? ? ? ? ? ? ? ? ? ? [? ? ? ? ?]]. done. }
    rewrite (bind_Ret _ _ s (u8 x) s1).
    2:{ unfold dev_data, inb_data. by rewrite Hq. }
    cbv zeta. set (data := u8 x).
    set (s2 := set_dev (set_mous (set_recovery (next_recovery (recovery (mous (dev s1))) data)
                 (mous (dev s1))) (dev s1)) s1).
    rewrite (bind_Ret _ _ s1 tt s2) by done.
    assert (H2 : intr_step s s2) by (eapply intr_step_trans; [exact H1|]; done).
    unfold time_msec, get_mouse.
    rewrite (bind_Ret _ _ s2 (u32 (ticks s2 * 10)) s2) by done.
    rewrite (bind_Ret _ _ s2 (mous (dev s2)) s2) by done.
    destruct (mouse_byte_step data (count + 1) fb tk (u32 (ticks s2 * 10)) s2)
      as (c' & fb' & tk' & s3 & Hs3 & H3); [apply H2..|].
    rewrite (bind_Ret _ _ _ _ _ Hs3).
    rewrite (bind_Ret _ _ s3 (mous (dev s3)) s3) by done.
    assert (H3' : intr_step s s3) by (eapply intr_step_trans; [exact H2|]; by apply mouse_intr_step).
    assert (Hq3 : i8042 (dev s3) = q) by (by rewrite (mouse_step_queue _ _ H3)).
    simpl in Hf.
    destruct (recovery (mous (dev s3)) =? 2); [|destruct (c' =? 3)].
    + set (s4 := set_dev (set_mous (set_recovery (-1) (mous (dev s3))) (dev s3)) s3).
      rewrite (bind_Ret _ _ s3 tt s4) by done.
      destruct (IH 0 fb' tk' s4) as (s5 & Hs5 & H5); [apply H3'..|simpl; rewrite Hq3; lia|].
      exists s5. split; [done|]. eapply intr_step_trans; [exact H3'|].
      eapply intr_step_trans; [|exact H5]. destruct H3' as (_ & ? & ? & _). done.
    + destruct (mouse_command_step junk s3) as (s4 & Hs4 & H4); [apply H3'..|].
      rewrite (bind_Ret _ _ _ _ _ Hs4).
      destruct (IH 0 fb' tk' s4) as (s5 & Hs5 & H5);
        [apply H4..|rewrite (mouse_step_queue _ _ H4), Hq3; lia|].
      exists s5. split; [done|]. eapply intr_step_trans; [exact H3'|].
      eapply intr_step_trans; [|exact H5]. by apply mouse_intr_step.
    + destruct (IH c' fb' tk' s3) as (s5 & Hs5 & H5); [apply H3'..|rewrite Hq3; lia|].
      exists s5. split; [done|]. by eapply intr_step_trans.
Qed.

(** ** Theorems *)

(**  Erasing the mouse pointer restores the screen: drawing the pointer anywhere and
    then erasing it at the same place leaves every byte of memory as it was. *)
Theorem pointer_erase_restores x y s :
  screen_ok s ->
  exists s1 s2, drawMouse x y false s = Ret tt s1 /\ drawMouse x y true s1 = Ret tt s2 /\
    forall va, kbyte s2 va = kbyte s va.
Proof.
  intros Hok.
  destruct (draw_cells x y (cells x y) s Hok (cells_NoDup x y))
    as (s1 & Hs1 & Hok1 & _ & Hb1 & _ & Hk1); [done|].
  destruct (erase_cells x y (cells x y) s1 Hok1 (cells_NoDup x y))
    as (s2 & Hs2 & _ & _ & _ & Hb2 & Hk2); [done|].
  exists s1, s2. rewrite drawMouse_draw, drawMouse_erase. split; [done|]. split; [done|].
  intros va. destruct (decide (Exists (fun c => va = cell_addr x y c) (cells x y))) as [He|He].
  - apply Exists_exists in He as (c & Hc & ->). rewrite Hb2, Hb1 by done.
    apply u8_small, kbyte_range, Hok.
  - assert (Hva : forall c, c ∈ cells x y -> va <> cell_addr x y c).
    { intros c Hc ->. apply He, Exists_exists. by exists c. }
    by rewrite Hk2, Hk1.
Qed.

Lemma pointer_erase_restores_witness :
  exists s1 s2, drawMouse 313 190 false ex_screen = Ret tt s1 /\
    drawMouse 313 190 true s1 = Ret tt s2 /\ forall va, kbyte s2 va = kbyte ex_screen va.
Proof. apply (pointer_erase_restores 313 190 ex_screen). exact ex_screen_ok. Defined.

(**  The mouse interrupt handler ends for every finite sequence of bytes in the
    controller, keeps the pointer on the screen and the indices of the click buffer in
    range, and changes no memory outside the visible frame buffer. *)
Theorem mouse_intr_safe junk s :
  screen_ok s -> mouse_ok (mous (dev s)) ->
  exists s', mouse_intr junk s = Ret tt s' /\ mouse_ok (mous (dev s')) /\
    forall va, ~ on_screen va -> kbyte s' va = kbyte s va.
Proof.
  intros Hok Hm. unfold mouse_intr, time_msec. ks.
  destruct (mouse_intr_loop_step junk (length (i8042 (dev s))) 0 0 (u32 (ticks s * 10)) s)
    as (s' & Hs' & _ & _ & Hm' & Hb'); [done..|].
  by exists s'.
Qed.

(** A packet that moves the pointer with the left button held. *)
Lemma mouse_intr_safe_witness :
  exists s', mouse_intr 0 (set_dev (set_i8042 [(33, 9); (33, 64); (33, 0)] (dev ex_screen)) ex_screen)
    = Ret tt s' /\ mouse_ok (mous (dev s')).
Proof.
  destruct (mouse_intr_safe 0 (set_dev (set_i8042 [(33, 9); (33, 64); (33, 0)] (dev ex_screen)) ex_screen))
    as (s' & Hs' & Hm & _).
  - exact ex_screen_ok.
  - unfold mouse_ok. simpl. clia.
  - exists s'. split; [exact Hs'|exact Hm].
Defined.
