(* ===== verification/E1000.v ===== *)
(** * E1000: the network card driver ([kern/e1000.c], [kern/e1000.h])

    The descriptor rings and the registers of the card.  Hardware that this code talks to is
    a parameter: the addresses of the rings, the words of the EEPROM and the interrupt causes.
    The transmit ring is also studied as a state machine in which driver and card take turns. *)

From S2P Require Import Prelude Layout KState Pmap VmRefs VmInv VmOps.

Definition TX_DESC_POOL_SIZE : Z := 64.
Definition TX_PACKET_SIZE : Z := 1518.
Definition RX_DESC_POOL_SIZE : Z := 128.
Definition RX_PACKET_SIZE : Z := 2048.
Definition E1000_TDBAL : Z := 0x03800.
Definition E1000_TDBAH : Z := 0x03804.
Definition E1000_TDLEN : Z := 0x03808.
Definition E1000_TDH : Z := 0x03810.
Definition E1000_TDT : Z := 0x03818.
Definition E1000_TCTL : Z := 0x00400.
Definition E1000_TIPG : Z := 0x00410.
Definition E1000_RCTL : Z := 0x00100.
Definition E1000_RAL : Z := 0x5400.
Definition E1000_RAH : Z := 0x5404.
Definition E1000_RDBAL : Z := 0x02800.
Definition E1000_RDBAH : Z := 0x02804.
Definition E1000_RDLEN : Z := 0x02808.
Definition E1000_RDH : Z := 0x02810.
Definition E1000_RDT : Z := 0x02818.
Definition E1000_RAH_AV : Z := 0x80000000.
Definition E1000_MTA : Z := 0x05200.
Definition E1000_RCTL_EN : Z := 0x00000002.
Definition E1000_RCTL_SZ_2048 : Z := 0x00000000.
Definition E1000_RCTL_BAM : Z := 0x00008000.
Definition E1000_RCTL_SECRC : Z := 0x04000000.
Definition E1000_TCTL_EN : Z := 0x00000002.
Definition E1000_TCTL_PSP : Z := 0x00000008.
Definition E1000_TCTL_CT : Z := 0x00000ff0.
Definition E1000_TCTL_COLD : Z := 0x003ff000.
Definition E1000_ICR_TXDW : Z := 0x00000001.
Definition E1000_ICR_RXT0 : Z := 0x00000080.
Definition E1000_TXD_CMD_EOP : Z := 0x1.
Definition E1000_TXD_CMD_RS : Z := 0x8.
Definition E1000_TXD_STAT_DD : Z := 0x1.
Definition E1000_RXD_STAT_DD : Z := 0x01.
Definition E1000_RXD_STAT_EOP : Z := 0x02.
#[export] Hint Unfold TX_DESC_POOL_SIZE TX_PACKET_SIZE RX_DESC_POOL_SIZE RX_PACKET_SIZE : cconst.

(** ** Access to the driver's state *)

Definition rd_reg (n : e1000) (r : Z) : Z := default 0 (regs n !! r).
Definition wr_reg (r v : Z) (n : e1000) : e1000 := set_regs (<[r := u32 v]> (regs n)) n.

Definition desc0 : e1000_desc := mkDesc 0 0 0 0.
Definition pool_at (p : gmap Z e1000_desc) (i : Z) : e1000_desc := default desc0 (p !! i).

Definition get_nic : K e1000 := get (fun s => nic (dev s)).
Definition upd_nic (f : e1000 -> e1000) : K unit :=
  modify (fun s => set_dev (set_nic (f (nic (dev s))) (dev s)) s).

(** ** Initialisation *)

Section Init.
(** Physical addresses of [tx_desc_pool], [rx_desc_pool] and of the receive buffers; the
    words of the EEPROM. *)
Variables (tx_pa rx_pa : Z) (rx_buf_pa : Z -> Z) (eeprom : Z -> Z).

(** memset of the pool and the loop that marks its 64 descriptors as done *)
Definition tx_pool_init : gmap Z e1000_desc :=
  list_to_map (map (fun i =>
    (i, mkDesc 0 0 (E1000_TXD_CMD_RS .| E1000_TXD_CMD_EOP) E1000_TXD_STAT_DD))
    (seqZ 0 TX_DESC_POOL_SIZE)).

Definition e1000_tx_init (n : e1000) : e1000 :=
  let n := wr_reg E1000_TDBAH 0 (wr_reg E1000_TDBAL tx_pa n) in
  let n := wr_reg E1000_TDLEN (16 * TX_DESC_POOL_SIZE) n in
  let n := wr_reg E1000_TDT 0 (wr_reg E1000_TDH 0 n) in
  let n := wr_reg E1000_TCTL (E1000_TCTL_EN .| E1000_TCTL_PSP .| (E1000_TCTL_COLD .& (0x40 .<< 12))
                              .| (E1000_TCTL_CT .& (0x10 .<< 4))) n in
  let n := wr_reg E1000_TIPG (10 .| (4 .<< 10) .| (6 .<< 20)) n in
  set_tx_desc_pool tx_pool_init n.

Definition e1000_eeprom_read_mac (n : e1000) : e1000 :=
  let word1 := u16 (eeprom 0) in
  let word2 := u16 (eeprom 1) in
  let word3 := u16 (eeprom 2) in
  set_e1000_mac [word1 .& 0xff; word1 .>> 8; word2 .& 0xff; word2 .>> 8; word3 .& 0xff; word3 .>> 8] n.

(** The shifts by 32 and 40 are those of the processor, which uses the amount modulo 32. *)
Definition e1000_config_mac (n : e1000) : e1000 :=
  let mac i := nth (Z.to_nat i) (e1000_mac n) 0 in
  let low := fold_left (fun a i => a .| (mac i .<< (8 * i))) [0; 1; 2; 3] 0 in
  let high := fold_left (fun a i => a .| (mac i .<< ((8 * i) mod 32))) [4; 5] 0 in
  wr_reg E1000_RAH (high .| E1000_RAH_AV) (wr_reg E1000_RAL low n).

Definition e1000_rx_init (n : e1000) : e1000 :=
  let n := e1000_config_mac (e1000_eeprom_read_mac n) in
  let n := wr_reg E1000_MTA 0 n in
  let n := wr_reg E1000_RDBAH 0 (wr_reg E1000_RDBAL rx_pa n) in
  let n := wr_reg E1000_RDLEN (16 * RX_DESC_POOL_SIZE) n in
  let n := wr_reg E1000_RDT (RX_DESC_POOL_SIZE - 1) (wr_reg E1000_RDH 0 n) in
  let n := wr_reg E1000_RCTL (E1000_RCTL_EN .| E1000_RCTL_SZ_2048 .| E1000_RCTL_BAM .| E1000_RCTL_SECRC) n in
  set_rx_desc_pool (list_to_map (map (fun i => (i, mkDesc (rx_buf_pa i) 0 0 0))
    (seqZ 0 RX_DESC_POOL_SIZE))) n.

End Init.

(** ** Transmitting and receiving *)

(** Filling the descriptor at the tail, handing it to the card and advancing the tail *)
Definition tx_push (addr len : Z) (n : e1000) : e1000 :=
  let t := rd_reg n E1000_TDT in
  let d := pool_at (tx_desc_pool n) t in
  wr_reg E1000_TDT ((t + 1) mod TX_DESC_POOL_SIZE)
    (set_tx_desc_pool (<[t := mkDesc addr len (desc_cmd d)
       (Z.ldiff (desc_status d) E1000_TXD_STAT_DD)]> (tx_desc_pool n)) n).

Definition e1000_transmit (data len : Z) : K Z :=
  n ← get_nic;
  let tail_index := rd_reg n E1000_TDT in
  let d := pool_at (tx_desc_pool n) tail_index in
  if desc_status d .& E1000_TXD_STAT_DD =? 0 then mret (- E_TX_POOL_FULL)
  else if TX_PACKET_SIZE <? len then mret (- E_INVAL)
  else
    c ← curenv;
    match c with
    | None => stuck
    | Some i =>
        e ← get_env i;
        pte ← pgdir_walk (env_pgdir e) data 0;
        w ← kload (ptr pte);
        upd_nic (tx_push (PTE_ADDR w + PGOFF data) len);;
        let tail_index := (tail_index + 1) mod TX_DESC_POOL_SIZE in
        n ← get_nic;
        mret (i32 (tail_index .|
          u32 ((desc_status (pool_at (tx_desc_pool n) tail_index) .& E1000_TXD_STAT_DD) .<< 30)))
    end.

(** The length of the packet and the index stored in [*buf_idx], when a packet is there. *)
Definition e1000_receive : K (Z * option Z) :=
  n ← get_nic;
  let d := pool_at (rx_desc_pool n) (rec_head_index n) in
  if desc_status d .& E1000_RXD_STAT_DD =? 0 then mret (- E_RX_POOL_EMPTY, None)
  else mret (desc_length d, Some (rec_head_index n)).

Definition e1000_free_rx_buf : K unit :=
  n ← get_nic;
  let tail_index := rd_reg n E1000_RDT in
  let i := rec_head_index n in
  let d := pool_at (rx_desc_pool n) i in
  let d' := mkDesc (desc_addr d) (desc_length d) (desc_cmd d)
              (Z.ldiff (desc_status d) (E1000_RXD_STAT_DD .| E1000_RXD_STAT_EOP)) in
  upd_nic (fun n => set_rx_desc_pool (<[i := d']> (rx_desc_pool n)) n);;
  upd_nic (wr_reg E1000_RDT ((tail_index + 1) mod RX_DESC_POOL_SIZE));;
  upd_nic (set_rec_head_index ((i + 1) mod RX_DESC_POOL_SIZE)).

(** ** Interrupts *)

(** [env_find_by_type] (kern/env.c): the first environment of the type. *)
Definition env_find_by_type (type : Z) : K Z := fun s =>
  if negb (type =? ENV_TYPE_OUT_NS) && negb (type =? ENV_TYPE_IN_NS) then Ret (-1) s
  else
    match find_first (fun i => match envs s !! i with
                               | Some e => env_type e =? type
                               | None => false end) (seqZ 0 NENV) with
    | Some i => Ret i s
    | None => Ret (-1) s
    end.

(** Reading the interrupt cause register; 0 when no cause is pending. *)
Definition read_icr : K Z := fun s =>
  match icr_in (nic (dev s)) with
  | [] => Ret 0 s
  | c :: q => Ret (u32 c) (set_dev (set_nic (set_icr_in q (nic (dev s))) (dev s)) s)
  end.

Definition e1000_intr : K unit :=
  n ← get_nic;
  when ((out_ns n <=? 0) || (in_ns n <=? 0)) (
    o ← env_find_by_type ENV_TYPE_OUT_NS;
    i ← env_find_by_type ENV_TYPE_IN_NS;
    upd_nic (fun n => set_out_ns o (set_in_ns i n)));;
  intr_status ← read_icr;
  n ← get_nic;
  when ((0 <? out_ns n) && truth (intr_status .& E1000_ICR_TXDW))
    (upd_env (out_ns n) (set_env_status ENV_RUNNABLE));;
  when ((0 <? in_ns n) && truth (intr_status .& E1000_ICR_RXT0))
    (upd_env (in_ns n) (set_env_status ENV_RUNNABLE)).

(** ** The transmit ring as a state machine

    [tx_push] is what a successful [e1000_transmit] does to the driver's state; the card
    takes the descriptors from its head [TDH] on and, as its manual documents, considers the
    ring empty when head and tail are equal. *)

Definition tx_complete (h : Z) (n : e1000) : e1000 :=
  let d := pool_at (tx_desc_pool n) h in
  set_tx_desc_pool (<[h := mkDesc (desc_addr d) (desc_length d) (desc_cmd d)
       (desc_status d .| E1000_TXD_STAT_DD)]> (tx_desc_pool n)) n.

Definition is_done (n : e1000) (i : Z) : bool :=
  negb (desc_status (pool_at (tx_desc_pool n) i) .& E1000_TXD_STAT_DD =? 0).

Inductive tx_step : e1000 * Z -> e1000 * Z -> Prop :=
  | tx_driver n h addr len :
      is_done n (rd_reg n E1000_TDT) = true -> tx_step (n, h) (tx_push addr len n, h)
  | tx_card n h :
      h <> rd_reg n E1000_TDT -> tx_step (n, h) (tx_complete h n, (h + 1) mod TX_DESC_POOL_SIZE).

Inductive tx_reach (tx_pa : Z) : e1000 * Z -> Prop :=
  | tx_init n : tx_reach tx_pa (e1000_tx_init tx_pa n, 0)
  | tx_next st st' : tx_reach tx_pa st -> tx_step st st' -> tx_reach tx_pa st'.

(** [k] descriptors from the head on belong to the card; exactly those are not done. *)
Definition tx_inv (st : e1000 * Z) : Prop :=
  let '(n, h) := st in
  0 <= h < 64 /\ exists k, 0 <= k <= 64 /\ rd_reg n E1000_TDT = (h + k) mod 64 /\
    forall i, 0 <= i < 64 -> is_done n i = negb ((i - h) mod 64 <? k).

Lemma rd_wr_reg n r v : 0 <= v < 2^32 -> rd_reg (wr_reg r v n) r = v.
Proof. intros. unfold rd_reg, wr_reg. simpl. rewrite lookup_insert_eq. simpl. by apply u32_small. Qed.

Lemma rd_wr_reg_ne n r r' v : r <> r' -> rd_reg (wr_reg r v n) r' = rd_reg n r'.
Proof. intros. unfold rd_reg, wr_reg. simpl. by rewrite lookup_insert_ne. Qed.

Lemma land1_ldiff w : Z.ldiff w 1 .& 1 = 0.
Proof.
  apply Z.bits_inj'. intros i Hi. rewrite Z.land_spec, Z.ldiff_spec, Z.bits_0.
  destruct (Z.testbit w i), (Z.testbit 1 i); done.
Qed.
Lemma land1_lor w : (w .| 1) .& 1 = 1.
Proof. rewrite Z.land_lor_distr_l. rewrite land_one_mod. pose proof (Z.mod_pos_bound w 2).
  assert (w mod 2 = 0 \/ w mod 2 = 1) as [-> | ->] by lia; done. Qed.

Lemma is_done_push addr len n i :
  is_done (tx_push addr len n) i = if decide (rd_reg n E1000_TDT = i) then false else is_done n i.
Proof.
  unfold is_done, tx_push, pool_at. simpl. destruct (decide _) as [<-|Hne].
  - rewrite lookup_insert_eq. simpl. unfold E1000_TXD_STAT_DD. by rewrite land1_ldiff.
  - by rewrite lookup_insert_ne.
Qed.

Lemma is_done_complete h n i :
  is_done (tx_complete h n) i = if decide (h = i) then true else is_done n i.
Proof.
  unfold is_done, tx_complete, pool_at. simpl. destruct (decide _) as [<-|Hne].
  - rewrite lookup_insert_eq. simpl. unfold E1000_TXD_STAT_DD. by rewrite land1_lor.
  - by rewrite lookup_insert_ne.
Qed.

Lemma tx_step_inv st st' : tx_step st st' -> tx_inv st -> tx_inv st'.
Proof.
  destruct 1 as [n h addr len Hd|n h Hne]; intros (Hh & k & Hk & Ht & Hi).
  - assert (Hk' : k < 64).
    { rewrite Ht in Hd. rewrite Hi in Hd by dlia.
      destruct (Z.ltb_spec (((h + k) mod 64 - h) mod 64) k); [done|]. dlia. }
    split; [done|]. exists (k + 1). split; [lia|]. split.
    + unfold tx_push. rewrite rd_wr_reg by dlia. rewrite Ht. dlia.
    + intros i Hi64. rewrite is_done_push, Hi by done. rewrite Ht.
      destruct (decide _) as [He|He].
      * destruct (Z.ltb_spec ((i - h) mod 64) (k + 1)); [done|]. dlia.
      * destruct (Z.ltb_spec ((i - h) mod 64) k), (Z.ltb_spec ((i - h) mod 64) (k + 1)); try done; dlia.
  - assert (Hk' : 0 < k).
    { destruct (decide (k = 0)) as [->|]; [|lia]. exfalso. apply Hne. rewrite Ht. dlia. }
    split; [dlia|]. exists (k - 1). split; [lia|]. split.
    + change (rd_reg (tx_complete h n) E1000_TDT) with (rd_reg n E1000_TDT). rewrite Ht. dlia.
    + intros i Hi64. rewrite is_done_complete, Hi by done. cc.
      destruct (decide _) as [<-|He].
      * destruct (Z.ltb_spec ((h - (h + 1) mod 64) mod 64) (k - 1)); [|done]. dlia.
      * destruct (Z.ltb_spec ((i - h) mod 64) k), (Z.ltb_spec ((i - (h + 1) mod 64) mod 64) (k - 1));
          try done; dlia.
Qed.

Lemma tx_init_TDT tx_pa n : rd_reg (e1000_tx_init tx_pa n) E1000_TDT = 0.
Proof.
  unfold e1000_tx_init. cbv zeta.
  match goal with |- rd_reg (set_tx_desc_pool _ ?n) ?r = _ => change (rd_reg n r = 0) end.
  by rewrite !rd_wr_reg_ne, rd_wr_reg by done.
Qed.

Lemma tx_init_done tx_pa n i : 0 <= i < 64 -> is_done (e1000_tx_init tx_pa n) i = true.
Proof.
  intros Hi.
  assert (Hp : tx_pool_init !! i =
            Some (mkDesc 0 0 (E1000_TXD_CMD_RS .| E1000_TXD_CMD_EOP) E1000_TXD_STAT_DD)).
  { apply elem_of_list_to_map_1.
    - rewrite <- list_fmap_compose. rewrite (list_fmap_ext _ id), list_fmap_id; [apply NoDup_seqZ|done].
    - apply list_elem_of_fmap. exists i. split; [done|]. apply elem_of_seqZ. clia. }
  unfold is_done, pool_at.
  change (tx_desc_pool (e1000_tx_init tx_pa n)) with tx_pool_init. by rewrite Hp.
Qed.

Lemma tx_init_inv tx_pa n : tx_inv (e1000_tx_init tx_pa n, 0).
Proof.
  split; [lia|]. exists 0. split; [lia|]. split; [apply tx_init_TDT|]. intros i Hi.
  rewrite tx_init_done by done. destruct (Z.ltb_spec ((i - 0) mod 64) 0); [dlia|done].
Qed.

Lemma tx_reach_inv tx_pa st : tx_reach tx_pa st -> tx_inv st.
Proof. induction 1; [apply tx_init_inv|by eapply tx_step_inv]. Qed.

(** [k] transmissions in a row while the card is idle. *)
Lemma tx_fill tx_pa (n : e1000) (k : nat) :
  (k <= 64)%nat -> exists n', tx_reach tx_pa (n', 0) /\ rd_reg n' E1000_TDT = Z.of_nat k mod 64 /\
    (forall i, 0 <= i < 64 -> is_done n' i = negb (i <? Z.of_nat k)).
Proof.
  induction k as [|k IH]; intros Hk.
  - exists (e1000_tx_init tx_pa n). split; [constructor|]. split; [apply tx_init_TDT|].
    intros i Hi. rewrite tx_init_done by done. destruct (Z.ltb_spec i (Z.of_nat 0)); [lia|done].
  - destruct IH as (n' & Hr & Ht & Hd); [lia|]. exists (tx_push 0 0 n').
    assert (Ht' : rd_reg n' E1000_TDT = Z.of_nat k) by (rewrite Ht; apply Z.mod_small; lia).
    split; [|split].
    + eapply tx_next; [exact Hr|]. constructor. rewrite Ht', Hd by lia.
      destruct (Z.ltb_spec (Z.of_nat k) (Z.of_nat k)); [lia|done].
    + unfold tx_push. rewrite rd_wr_reg by dlia. rewrite Ht'. cc. f_equal. lia.
    + intros i Hi. rewrite is_done_push, Hd, Ht' by done. destruct (decide _) as [<-|].
      * destruct (Z.ltb_spec (Z.of_nat k) (Z.of_nat (S k))); [done|lia].
      * destruct (Z.ltb_spec i (Z.of_nat k)), (Z.ltb_spec i (Z.of_nat (S k))); try done; lia.
Qed.

(** ** Theorems *)



(**  The driver fills all 64 descriptors, and then head and tail are equal: a state is
    reachable in which the card sees an empty ring and the driver a full one, so that neither
    can take a step any more. *)
Theorem tx_ring_deadlock tx_pa :
  exists n h, tx_reach tx_pa (n, h) /\ forall st, ~ tx_step (n, h) st.
Proof.
  destruct (tx_fill tx_pa (mkE1000 ∅ ∅ 0 ∅ [] [] 0 0) 64) as (n & Hr & Ht & Hd); [lia|].
  exists n, 0. split; [done|]. change (Z.of_nat 64 mod 64) with 0 in Ht. intros st Hst. inversion Hst; subst.
  - rewrite Ht in *. rewrite Hd in * by lia. done.
  - done.
Qed.
