(* ===== verification/Sched.v ===== *)
(** * Sched: the big kernel lock, context switch and scheduler
    ([kern/spinlock.c], [kern/env.c], [kern/sched.c])

    [env_run], [sched_halt] and [sched_yield] do not return: they end in one of the outcomes
    [UserMode], [Halted] or [Monitor]. *)

From S2P Require Import Prelude Layout KState Pmap VmInv VmOps.

Definition CPU_UNUSED : Z := 0.
Definition CPU_STARTED : Z := 1.
Definition CPU_HALTED : Z := 2.

(** ** The big kernel lock (kern/spinlock.c, kern/spinlock.h)

    [kernel_lock] holds the CPU recorded in [lk->cpu] while [lk->locked] is 1.  A CPU that
    finds the lock taken by another one spins. *)

Definition holding : K bool := fun s =>
  Ret (match kernel_lock s with Some c => c =? cpunum s | None => false end) s.

Definition spin_lock : K unit :=
  h ← holding;
  if (h : bool) then panic
  else fun s =>
    match kernel_lock s with
    | None => Ret tt (set_kernel_lock (Some (cpunum s)) s)
    | Some _ => Spin s
    end.

Definition spin_unlock : K unit :=
  h ← holding;
  if (h : bool) then modify (set_kernel_lock None) else panic.

Definition lock_kernel : K unit := spin_lock.
Definition unlock_kernel : K unit := spin_unlock.

(** ** Context switch (kern/env.c) *)

Definition user_mode {A} : K A := fun s => UserMode s.
Definition halted {A} : K A := fun s => Halted s.
Definition in_monitor {A} : K A := fun s => Monitor s.

(** The registers of [curenv] are restored from its trap frame. *)
Definition env_pop_tf {A} : K A :=
  c ← curenv;
  n ← get cpunum;
  match c with
  | None => stuck
  | Some i => upd_env i (set_env_cpunum n);; user_mode
  end.

Definition env_run {A} (e : option Z) : K A :=
  match e with
  | None => panic
  | Some e =>
      c ← curenv;
      match c with
      | Some i => ce ← get_env i;
                  when (env_status ce =? ENV_RUNNING) (upd_env i (set_env_status ENV_RUNNABLE))
      | None => mret tt
      end;;
      set_curenv (Some e);;
      upd_env e (set_env_status ENV_RUNNING);;
      upd_env e (fun r => set_env_runs (u32 (env_runs r + 1)) r);;
      ne ← get_env e;
      pa ← PADDR (env_pgdir ne);
      emit (Lcr3 pa);;
      unlock_kernel;;
      env_pop_tf
  end.

(** ** Scheduling (kern/sched.c) *)

Definition has_status (s : kstate) (i st : Z) : bool :=
  match envs s !! i with Some e => env_status e =? st | None => false end.

(** The environments [sched_halt] keeps the system running for. *)
Definition alive_user (s : kstate) (i : Z) : bool :=
  match envs s !! i with
  | Some e =>
      ((env_status e =? ENV_RUNNABLE) || (env_status e =? ENV_RUNNING) ||
       (env_status e =? ENV_NOT_RUNNABLE) || (env_status e =? ENV_DYING)) &&
      (env_type e =? ENV_TYPE_USER)
  | None => false
  end.

Definition sched_halt {A} : K A :=
  s ← get id;
  match find_first (alive_user s) (seqZ 0 NENV) with
  | None => in_monitor
  | Some _ =>
      set_curenv None;;
      kd ← get kern_pgdir;
      pa ← PADDR kd;
      emit (Lcr3 pa);;
      set_thiscpu (set_cpu_status CPU_HALTED);;
      unlock_kernel;;
      halted
  end.

(** Where the round robin search of [sched_yield] starts. *)
Definition sched_start (idle : option Env) : Z :=
  match idle with Some e => ENVX (env_id e) + 1 | None => 0 end.

(** The indices in the order the loop visits them. *)
Definition sched_order (start : Z) : list Z := map (fun j => (start + j) mod NENV) (seqZ 0 NENV).

Definition sched_yield {A} : K A :=
  idle ← curenv;
  ie ← match idle with Some i => e ← get_env i; mret (Some e) | None => mret None end;
  s ← get id;
  match find_first (fun i => has_status s i ENV_RUNNABLE) (sched_order (sched_start ie)) with
  | Some i => env_run (Some i)
  | None =>
      match idle, ie with
      | Some i, Some e => if env_status e =? ENV_RUNNING then env_run (Some i) else sched_halt
      | _, _ => sched_halt
      end
  end.
