(* ===== verification/UMem.v ===== *)
(** * UMem: kernel accesses to virtual addresses below [KERNBASE]

    The kernel runs in the address space of an environment and dereferences user pointers
    directly, so that the processor walks that environment's page tables.  A missing page, or
    a write to a read-only one ([CR0_WP] is set), is a page fault in kernel mode, on which
    [page_fault_handler] panics. *)

From S2P Require Import Prelude Layout KState KMem Pmap.

(** The physical address of [va] in the address space of [pgdir]. *)
Definition translate (pgdir va : Z) (write : bool) : K Z :=
  if KERNBASE <=? va then mret (va - KERNBASE)
  else
    let denied e := negb (present e) || (write && (e .& PTE_W =? 0)) in
    pde ← kload (pgdir + 4 * PDX va);
    if (denied pde : bool) then panic
    else if truth (pde .& PTE_PS) then mret ((pde .& 0xFFC00000) + HUGH_PGOFF va)
    else
      pte ← kload (KERNBASE + PTE_ADDR pde + 4 * PTX va);
      if (denied pte : bool) then panic else mret (PTE_ADDR pte + PGOFF va).

Definition uloadb (pgdir va : Z) : K Z :=
  pa ← translate pgdir (u32 va) false; kloadb (KERNBASE + pa).
Definition ustoreb (pgdir va b : Z) : K unit :=
  pa ← translate pgdir (u32 va) true; kstoreb (KERNBASE + pa) b.

(** [n] consecutive bytes *)
Fixpoint uload (pgdir va : Z) (n : nat) : K (list Z) :=
  match n with
  | O => mret []
  | S n => b ← uloadb pgdir va; r ← uload pgdir (va + 1) n; mret (b :: r)
  end.
Fixpoint ustore (pgdir va : Z) (bs : list Z) : K unit :=
  match bs with
  | [] => mret tt
  | b :: bs => ustoreb pgdir va b;; ustore pgdir (va + 1) bs
  end.

(** Little-endian values in byte lists *)
Definition le (bs : list Z) : Z := foldr (fun b acc => u8 b + 256 * acc) 0 bs.
Fixpoint le_bytes (n : nat) (w : Z) : list Z :=
  match n with O => [] | S n => w mod 256 :: le_bytes n (w / 256) end.
(** The [n]-byte field at offset [o] *)
Definition field (bs : list Z) (o n : nat) : Z := le (take n (drop o bs)).
