(* ===== verification/Env.v ===== *)
(** * Env: environments ([kern/env.c])

    The table [envs] with its free list, address spaces, loading of programs and the
    destruction of environments.  A [struct Env *] is an index into [envs]. *)

From S2P Require Import Prelude Layout KState KMem Pmap VmInv VmOps UMem Sched.

Definition ENVGENSHIFT : Z := 12.

(** ** Looking up environments *)

(** The result and [*env_store]. *)
Definition envid2env (envid : Z) (checkperm : bool) : K (Z * option Z) :=
  if envid =? 0 then c ← curenv; mret (0, c)
  else
    let i := ENVX envid in
    e ← get_env i;
    if (env_status e =? ENV_FREE) || negb (env_id e =? envid) then mret (- E_BAD_ENV, None)
    else if checkperm then
      c ← curenv;
      if bool_decide (c = Some i) then mret (0, Some i)
      else match c with
           | None => stuck
           | Some ci =>
               ce ← get_env ci;
               if env_parent_id e =? env_id ce then mret (0, Some i) else mret (- E_BAD_ENV, None)
           end
    else mret (0, Some i).

(** ** Initialisation *)

(** The per-CPU part loads segment registers only. *)
Definition env_init : K unit :=
  modify (set_env_free_list (Some 0));;
  kfor (seqZ 0 (NENV - 1)) (fun i =>
    upd_env i (set_env_status ENV_FREE);;
    upd_env i (set_env_id 0);;
    upd_env i (set_env_link (Some (i + 1))));;
  upd_env (NENV - 1) (set_env_link None);;
  upd_env (NENV - 1) (set_env_id 0).

(** ** Allocation *)

(** memcpy(dst, src, PGSIZE) between pages of the direct map *)
Definition copy_kva (dst src : Z) : K unit := fun s =>
  let d := (dst - KERNBASE) / 4096 in
  let r := (src - KERNBASE) / 4096 in
  if (0 <=? dst - KERNBASE) && (d <? npages s) && (0 <=? src - KERNBASE) && (r <? npages s)
  then Ret tt (set_mem (copy_page (mem s) d r) s) else Stuck s.

Definition env_setup_vm (e : Z) : K Z :=
  p ← page_alloc ALLOC_ZERO;
  match p with
  | None => mret (- E_NO_MEM)
  | Some p =>
      upd_page p (fun r => set_pp_ref (u16 (pp_ref r + 1)) r);;
      kva ← page2kva p;
      upd_env e (set_env_pgdir kva);;
      kd ← get kern_pgdir;
      copy_kva kva kd;;
      pa ← PADDR kva;
      kstore (kva + 4 * PDX UVPT) (pa .| PTE_P .| PTE_U);;
      mret 0
  end.

(** The next id for slot [i], whose previous occupant had the id [old]. *)
Definition next_env_id (old i : Z) : Z :=
  let generation := i32 (Z.ldiff (i32 (old + (1 .<< ENVGENSHIFT))) (NENV - 1)) in
  let generation := if generation <=? 0 then 1 .<< ENVGENSHIFT else generation in
  generation .| i.

Definition zero_tf : Trapframe :=
  mkTrapframe (mkPushRegs 0 0 0 0 0 0 0 0) 0 0 0 0 0 0 0 0 0 0 0 0 0.
(** The trap frame of a new environment: user segments, interrupts enabled. *)
Definition new_tf : Trapframe :=
  let tf := set_tf_ds (GD_UD .| 3) zero_tf in
  let tf := set_tf_es (GD_UD .| 3) tf in
  let tf := set_tf_ss (GD_UD .| 3) tf in
  let tf := set_tf_esp USTACKTOP tf in
  let tf := set_tf_cs (GD_UT .| 3) tf in
  set_tf_eflags (tf_eflags tf .| FL_IF) tf.

(** The result and [*newenv_store]. *)
Definition env_alloc (parent_id : Z) : K (Z * option Z) :=
  fl ← get env_free_list;
  match fl with
  | None => mret (- E_NO_FREE_ENV, None)
  | Some e =>
      r ← env_setup_vm e;
      if r <? 0 then mret (r, None)
      else
        upd_env e (fun x => set_env_id (next_env_id (env_id x) e) x);;
        upd_env e (set_env_parent_id parent_id);;
        upd_env e (set_env_type ENV_TYPE_USER);;
        upd_env e (set_env_status ENV_RUNNABLE);;
        upd_env e (set_env_runs 0);;
        upd_env e (set_env_priority 0);;
        upd_env e (set_env_tf new_tf);;
        upd_env e (set_env_pgfault_upcall 0);;
        upd_env e (set_env_ipc_recving false);;
        x ← get_env e;
        modify (set_env_free_list (env_link x));;
        mret (0, Some e)
  end.

(** ** Loading a program *)

(** The loop of [region_alloc], one unit of [fuel] per page. *)
Fixpoint region_alloc_loop (fuel : nat) (e va end_ : Z) : K unit :=
  if va <? end_ then
    match fuel with
    | O => stuck
    | S fuel =>
        page ← page_alloc 0;
        match page with
        | None => panic
        | Some p =>
            x ← get_env e;
            r ← page_insert (env_pgdir x) p va (PTE_U .| PTE_W);
            if r =? 0 then region_alloc_loop fuel e (u32 (va + PGSIZE)) end_ else panic
        end
    end
  else mret tt.

Definition region_alloc (e va len : Z) : K unit :=
  let va_round := ROUNDDOWN va PGSIZE in
  let va_plus_len := ROUNDUP (u32 (va + len)) PGSIZE in
  region_alloc_loop (Z.to_nat ((va_plus_len - va_round) / PGSIZE)) e va_round va_plus_len.

Definition ELF_MAGIC : Z := 0x464C457F.
Definition ELF_PROG_LOAD : Z := 1.
(** The fields of [struct Elf] and [struct Proghdr] (inc/elf.h) in the image *)
Definition e_magic (bin : list Z) : Z := field bin 0 4.
Definition e_entry (bin : list Z) : Z := field bin 24 4.
Definition e_phoff (bin : list Z) : Z := field bin 28 4.
Definition e_phnum (bin : list Z) : Z := field bin 44 2.
Record Proghdr := mkProghdr {
  p_type : Z;
  p_offset : Z;
  p_va : Z;
  p_filesz : Z;
  p_memsz : Z;
}.
Definition proghdr (bin : list Z) (k : Z) : Proghdr :=
  let o := (Z.to_nat (e_phoff bin) + 32 * Z.to_nat k)%nat in
  mkProghdr (field bin o 4) (field bin (o + 4) 4) (field bin (o + 8) 4)
    (field bin (o + 16) 4) (field bin (o + 20) 4).

(** One program header: the pages are allocated, the file's part is copied and the rest is
    cleared, through the address space that has just been installed. *)
Definition load_segment (e : Z) (bin : list Z) (ph : Proghdr) : K unit :=
  when (p_type ph =? ELF_PROG_LOAD) (
    if p_memsz ph <? p_filesz ph then panic
    else
      region_alloc e (p_va ph) (p_memsz ph);;
      x ← get_env e;
      ustore (env_pgdir x) (p_va ph) (take (Z.to_nat (p_filesz ph)) (drop (Z.to_nat (p_offset ph)) bin));;
      ustore (env_pgdir x) (p_va ph + p_filesz ph) (replicate (Z.to_nat (p_memsz ph - p_filesz ph)) 0)).

Definition load_icode (e : Z) (binary : list Z) : K unit :=
  if negb (e_magic binary =? ELF_MAGIC) then panic
  else
    x ← get_env e;
    pa ← PADDR (env_pgdir x);
    emit (Lcr3 pa);;
    kfor (seqZ 0 (e_phnum binary)) (fun k => load_segment e binary (proghdr binary k));;
    upd_env e (fun x => set_env_tf (set_tf_eip (e_entry binary) (env_tf x)) x);;
    region_alloc e (USTACKTOP - PGSIZE) PGSIZE;;
    kd ← get kern_pgdir;
    pa ← PADDR kd;
    emit (Lcr3 pa).

Definition env_create (binary : list Z) (type : Z) : K unit :=
  '(res, e) ← env_alloc 0;
  match e with
  | Some e =>
      if res =? 0 then
        upd_env e (set_env_type type);;
        when (type =? ENV_TYPE_FS) (upd_env e (fun x =>
          set_env_tf (set_tf_eflags (tf_eflags (env_tf x) .| FL_IOPL_3) (env_tf x)) x));;
        load_icode e binary
      else panic
  | None => panic
  end.

(** ** Destruction *)

(** Unmapping all entries of page table [pt] of directory entry [pdeno]. *)
Definition env_free_table (pgdir pt pdeno : Z) : K unit :=
  kfor (seqZ 0 (PTX 0xFFFFFFFF + 1)) (fun pteno =>
    w ← kload (pt + 4 * pteno);
    when (truth (w .& PTE_P)) (page_remove pgdir (PGADDR pdeno pteno 0))).

Definition env_free_pde (pgdir pdeno : Z) : K unit :=
  pde ← kload (pgdir + 4 * pdeno);
  if pde .& PTE_P =? 0 then mret tt
  else
    let pa := PTE_ADDR pde in
    pt ← KADDR pa;
    env_free_table pgdir pt pdeno;;
    kstore (pgdir + 4 * pdeno) 0;;
    pp ← pa2page pa;
    page_decref pp.

Definition env_free (e : Z) : K unit :=
  c ← curenv;
  when (bool_decide (c = Some e)) (
    kd ← get kern_pgdir; pa ← PADDR kd; emit (Lcr3 pa));;
  x ← get_env e;
  kfor (seqZ 0 (PDX UTOP)) (env_free_pde (env_pgdir x));;
  pa ← PADDR (env_pgdir x);
  upd_env e (set_env_pgdir 0);;
  pp ← pa2page pa;
  page_decref pp;;
  upd_env e (set_env_status ENV_FREE);;
  fl ← get env_free_list;
  upd_env e (set_env_link fl);;
  modify (set_env_free_list (Some e)).

Definition env_destroy (e : Z) : K unit :=
  x ← get_env e;
  c ← curenv;
  if (env_status x =? ENV_RUNNING) && negb (bool_decide (c = Some e)) then
    upd_env e (set_env_status ENV_DYING)
  else
    env_free e;;
    c ← curenv;
    if bool_decide (c = Some e) then set_curenv None;; sched_yield else mret tt.

(** [user_mem_assert] (kern/pmap.c) *)
Definition user_mem_assert (env va len perm : Z) : K unit :=
  r ← user_mem_check env va len (perm .| PTE_U);
  when (r <? 0) (emit (Cprintf "user_mem_check assertion failure");; env_destroy env).
