(* ===== verification/Syscall.v ===== *)
(** * Syscall: the system calls ([kern/syscall.c])

    One definition per system call, and the dispatcher [syscall].  Arguments are the 32-bit
    register values; those of type [int] or [envid_t] are converted by the dispatcher.  The
    kernel reads and writes user memory through the page tables of [curenv]. *)

From S2P Require Import Prelude Layout KState KMem Pmap VmInv VmOps UMem Time Console Vga Mouse E1000 Sched Env.

(** ** System call numbers (inc/syscall.h) *)

Definition SYS_cputs : Z := 0.
Definition SYS_cgetc : Z := 1.
Definition SYS_getenvid : Z := 2.
Definition SYS_env_destroy : Z := 3.
Definition SYS_page_alloc : Z := 4.
Definition SYS_page_map : Z := 5.
Definition SYS_page_unmap : Z := 6.
Definition SYS_exofork : Z := 7.
Definition SYS_env_set_status : Z := 8.
Definition SYS_env_set_trapframe : Z := 9.
Definition SYS_env_set_pgfault_upcall : Z := 10.
Definition SYS_yield : Z := 11.
Definition SYS_ipc_try_send : Z := 12.
Definition SYS_ipc_recv : Z := 13.
Definition SYS_time_msec : Z := 14.
Definition SYS_change_priority : Z := 15.
Definition SYS_try_transmit : Z := 16.
Definition SYS_receive : Z := 17.
Definition SYS_env_set_type : Z := 18.
Definition SYS_get_mac_addr : Z := 19.
Definition SYS_draw : Z := 20.
Definition SYS_clear_screen : Z := 21.
Definition SYS_free_rx_buf : Z := 22.
Definition SYS_mouse_getp : Z := 23.

(** ** Helpers *)

(** [curenv], which every system call dereferences *)
Definition cur : K Z := c ← curenv; match c with Some i => mret i | None => stuck end.
Definition cur_env : K Env := i ← cur; get_env i.
(** An environment pointer that may be NULL *)
Definition deref (e : option Z) : K Z := match e with Some i => mret i | None => stuck end.

(** The guards of the memory system calls *)
Definition bad_va (va : Z) : bool := (UTOP <=? va) || truth (PGOFF va).
Definition bad_perm (perm : Z) : bool :=
  (perm .& PTE_U =? 0) || (perm .& PTE_P =? 0) || truth (Z.ldiff perm PTE_SYSCALL).

(** ** Console *)

(** The loop of vprintfmt (lib/printfmt.c) for %s on a string in user memory: a character is
    read, as a signed char, before the precision is looked at. *)
Definition cprintf_str (pgdir p precision : Z) : K unit :=
  kloop (2^32)%positive (fun '(p, precision) =>
    b ← uloadb pgdir p;
    if (b =? 0) || (0 <=? precision) && (precision - 1 <? 0) then mret (inr tt)
    else
      modify (fun st => set_dev (upd_cons (cputchar (if b <? 128 then b else b - 256)) (dev st)) st);;
      mret (inl (p + 1, if precision <? 0 then precision else precision - 1))) (p, precision).

(** The characters of the string literal that stands for NULL *)
Definition null_string : list Z := [40; 110; 117; 108; 108; 41].

Definition sys_cputs (s len : Z) : K unit :=
  i ← cur;
  user_mem_assert i s len 0;;
  e ← cur_env;
  if s =? 0 then
    let n := if i32 len <? 0 then 6%nat else Z.to_nat len in
    modify (fun st => set_dev (upd_cons (cputs (take n null_string)) (dev st)) st)
  else cprintf_str (env_pgdir e) s (i32 len).

Definition sys_cgetc : K Z := fun s =>
  match cons_getc (dev s) with Some (c, d) => Ret c (set_dev d s) | None => Stuck s end.

(** ** Environments *)

Definition sys_getenvid : K Z := e ← cur_env; mret (env_id e).

Definition sys_env_destroy (envid : Z) : K Z :=
  '(r, e) ← envid2env envid true;
  if r <? 0 then mret r else i ← deref e; env_destroy i;; mret 0.

Definition sys_exofork : K Z :=
  ce ← cur_env;
  '(res, new_env) ← env_alloc (env_id ce);
  if res <? 0 then mret res
  else
    i ← deref new_env;
    upd_env i (set_env_status ENV_NOT_RUNNABLE);;
    ce ← cur_env;
    upd_env i (set_env_tf (env_tf ce));;
    upd_env i (fun x => set_env_tf (set_tf_regs (set_reg_eax 0 (tf_regs (env_tf x))) (env_tf x)) x);;
    x ← get_env i;
    mret (env_id x).

Definition sys_env_set_status (envid status : Z) : K Z :=
  if negb (status =? ENV_RUNNABLE) && negb (status =? ENV_NOT_RUNNABLE) then mret (- E_INVAL)
  else
    '(res, e) ← envid2env envid true;
    if res <? 0 then mret (- E_BAD_ENV)
    else i ← deref e; upd_env i (set_env_status status);; mret 0.

(** The words of [struct Trapframe] in memory, with the paddings *)
Definition tf_of_bytes (bs : list Z) : Trapframe :=
  let w k := field bs (4 * k) 4 in
  let h o := field bs o 2 in
  mkTrapframe (mkPushRegs (w 0) (w 1) (w 2) (w 3) (w 4) (w 5) (w 6) (w 7))%nat
    (h 32%nat) (h 34%nat) (h 36%nat) (h 38%nat) (w 10%nat) (w 11%nat) (w 12%nat)
    (h 52%nat) (h 54%nat) (w 14%nat) (w 15%nat) (h 64%nat) (h 66%nat).

(** tf_cs |= 3; tf_eflags |= FL_IF; tf_eflags &= ~FL_IOPL_3 *)
Definition user_tf (tf : Trapframe) : Trapframe :=
  let tf := set_tf_cs (tf_cs tf .| 3) tf in
  let tf := set_tf_eflags (tf_eflags tf .| FL_IF) tf in
  set_tf_eflags (Z.ldiff (tf_eflags tf) FL_IOPL_3) tf.

Definition sys_env_set_trapframe (envid tf : Z) : K Z :=
  '(r, e) ← envid2env envid true;
  if r <? 0 then mret (- E_BAD_ENV)
  else
    i ← deref e;
    user_mem_assert i tf 68 PTE_W;;
    ce ← cur_env;
    bs ← uload (env_pgdir ce) tf 68;
    upd_env i (set_env_tf (user_tf (tf_of_bytes bs)));;
    mret 0.

Definition sys_env_set_pgfault_upcall (envid func : Z) : K Z :=
  '(r, e) ← envid2env envid true;
  if r <? 0 then mret (- E_BAD_ENV)
  else i ← deref e; upd_env i (set_env_pgfault_upcall func);; mret 0.

Definition sys_change_priority (p : Z) : K Z :=
  if 20 <? p then mret (- E_INVAL) else i ← cur; upd_env i (set_env_priority p);; mret 0.

Definition sys_env_set_type (type : Z) : K Z :=
  if negb (type =? ENV_TYPE_OUT_NS) && negb (type =? ENV_TYPE_IN_NS) then mret (- E_INVAL)
  else
    s ← get id;
    match find_first (fun i => match envs s !! i with
                               | Some e => env_type e =? type
                               | None => false end) (seqZ 0 NENV) with
    | Some _ => mret (- E_BAD_ENV)
    | None => i ← cur; upd_env i (set_env_type type);; mret 0
    end.

(** ** Memory *)

Definition sys_page_alloc (envid va perm : Z) : K Z :=
  '(r, e) ← envid2env envid true;
  if r <? 0 then mret (- E_BAD_ENV)
  else if bad_va va || bad_perm perm then mret (- E_INVAL)
  else
    page ← page_alloc ALLOC_ZERO;
    match page with
    | None => mret (- E_NO_MEM)
    | Some p =>
        i ← deref e;
        x ← get_env i;
        r ← page_insert (env_pgdir x) p va perm;
        if r <? 0 then page_free p;; mret (- E_NO_MEM) else mret 0
    end.

Definition sys_page_map (srcenvid srcva dstenvid dstva perm : Z) : K Z :=
  '(r1, src_env) ← envid2env srcenvid true;
  if r1 <? 0 then mret (- E_BAD_ENV) else
  '(r2, dest_env) ← envid2env dstenvid true;
  if r2 <? 0 then mret (- E_BAD_ENV)
  else if bad_va srcva || bad_va dstva || bad_perm perm then mret (- E_INVAL)
  else
    si ← deref src_env;
    se ← get_env si;
    page ← page_lookup (env_pgdir se) srcva;
    match page with
    | None => mret (- E_INVAL)
    | Some (p, pte) =>
        w ← kload pte;
        if (w .& PTE_W =? 0) && truth (perm .& PTE_W) then mret (- E_INVAL)
        else
          di ← deref dest_env;
          de ← get_env di;
          r ← page_insert (env_pgdir de) p dstva perm;
          if r <? 0 then mret (- E_NO_MEM) else mret 0
    end.

Definition sys_page_unmap (envid va : Z) : K Z :=
  '(r, e) ← envid2env envid true;
  if r <? 0 then mret (- E_BAD_ENV)
  else if bad_va va then mret (- E_INVAL)
  else i ← deref e; x ← get_env i; page_remove (env_pgdir x) va;; mret 0.

(** ** Communication *)

(** What the receiver gets when a send succeeds. *)
Definition ipc_deliver (i from value : Z) : K unit :=
  upd_env i (set_env_ipc_recving false);;
  upd_env i (set_env_ipc_from from);;
  upd_env i (set_env_ipc_value value);;
  upd_env i (set_env_status ENV_RUNNABLE);;
  upd_env i (fun x => set_env_tf (set_tf_regs (set_reg_eax 0 (tf_regs (env_tf x))) (env_tf x)) x).

Definition sys_ipc_try_send (envid value srcva perm : Z) : K Z :=
  '(r, e) ← envid2env envid false;
  if r <? 0 then mret (- E_BAD_ENV)
  else
    i ← deref e;
    x ← get_env i;
    if negb (env_ipc_recving x) then mret (- E_IPC_NOT_RECV)
    else
      let finish : K Z := ce ← cur_env; ipc_deliver i (env_id ce) value;; mret 0 in
      if srcva <? UTOP then
        if truth (PGOFF srcva) || bad_perm perm then mret (- E_INVAL)
        else
          ce ← cur_env;
          page ← page_lookup (env_pgdir ce) srcva;
          match page with
          | None => mret (- E_INVAL)
          | Some (p, pte) =>
              w ← kload pte;
              if truth (perm .& PTE_W) && (w .& PTE_W =? 0) then mret (- E_INVAL)
              else if env_ipc_dstva x <? UTOP then
                r ← page_insert (env_pgdir x) p (env_ipc_dstva x) perm;
                if r <? 0 then mret (- E_NO_MEM)
                else upd_env i (set_env_ipc_perm (i32 perm));; finish
              else finish
          end
      else upd_env i (set_env_ipc_perm 0);; finish.

Definition sys_ipc_recv (dstva : Z) : K Z :=
  if (dstva <? UTOP) && truth (PGOFF dstva) then mret (- E_INVAL)
  else
    i ← cur;
    upd_env i (set_env_ipc_dstva dstva);;
    upd_env i (set_env_ipc_recving true);;
    upd_env i (set_env_status ENV_NOT_RUNNABLE);;
    sched_yield.

(** ** Time, network, screen, mouse *)

Definition sys_time_msec : K Z := t ← time_msec; mret (i32 t).

Definition sys_try_transmit (data len : Z) : K Z :=
  i ← cur; user_mem_assert i data len 0;; e1000_transmit data (u16 len).

(** [*buf_idx] is written through the pointer the caller passes. *)
Definition sys_receive (buf_idx : Z) : K Z :=
  '(r, idx) ← e1000_receive;
  match idx with
  | Some i => e ← cur_env; ustore (env_pgdir e) buf_idx (le_bytes 4 i);; mret r
  | None => mret r
  end.

Definition sys_get_mac_addr (addr : Z) : K unit :=
  i ← cur;
  user_mem_assert i addr 6 PTE_W;;
  e ← cur_env;
  n ← get_nic;
  ustore (env_pgdir e) addr (take 6 (e1000_mac n)).

Definition sys_clear_screen : K unit := clear_screen;; mouse_update_color_backup.
Definition sys_free_rx_buf : K unit := e1000_free_rx_buf.

(** [struct draw_type] is 20 bytes: shape, border colour and the union. *)
Definition sys_draw (shape : Z) : K Z :=
  i ← cur;
  user_mem_assert i shape 20 PTE_W;;
  e ← cur_env;
  bs ← uload (env_pgdir e) shape 20;
  let kind := field bs 0 4 in
  let border := u8 (field bs 4 4) in
  let h k := field bs (8 + 2 * k)%nat 2 in
  let circle := mkCircle (h 0%nat) (h 1%nat) (h 2%nat) (field bs 16 4) in
  let rect := mkRect (h 0%nat) (h 1%nat) (h 2%nat) (h 3%nat) (field bs 16 4) in
  drawn ← (
    if kind =? shape_circle then draw_circle circle border;; mret true
    else if kind =? shape_diamond then draw_diamond circle border;; mret true
    else if kind =? shape_line then draw_line (h 0%nat) (h 1%nat) (h 2%nat) (h 3%nat) border;; mret true
    else if kind =? shape_rectangle then draw_rectangle rect border;; mret true
    else if kind =? shape_string then
      draw_string (uloadb (env_pgdir e)) (h 0%nat) (h 1%nat) (field bs 12 4) border;; mret true
    else mret false : K bool);
  if (drawn : bool) then mouse_update_color_backup;; mret 0 else mret (- E_INVAL).

Definition i32_bytes (v : Z) : list Z := le_bytes 4 (u32 v).
Definition pkt_bytes (p : mouse_u_pkt) : list Z :=
  i32_bytes (pkt_x p) ++ i32_bytes (pkt_y p) ++ i32_bytes (pkt_type p).
Definition pkt_of_bytes (bs : list Z) : mouse_u_pkt :=
  mkPkt (i32 (field bs 0 4)) (i32 (field bs 4 4)) (field bs 8 4).

(** [junk] is the uninitialised type of a packet of the middle button. *)
Definition sys_mouse_getp (junk pkt : Z) : K Z :=
  i ← cur;
  user_mem_assert i pkt 12 PTE_W;;
  e ← cur_env;
  bs ← uload (env_pgdir e) pkt 12;
  '(r, p) ← mouse_getp junk (pkt_of_bytes bs);
  ustore (env_pgdir e) pkt (pkt_bytes p);;
  mret r.

(** ** The dispatcher *)

Definition syscall (junk syscallno a1 a2 a3 a4 a5 : Z) : K Z :=
  if syscallno =? SYS_cputs then sys_cputs a1 a2;; mret 0
  else if syscallno =? SYS_cgetc then sys_cgetc
  else if syscallno =? SYS_getenvid then sys_getenvid
  else if syscallno =? SYS_env_destroy then sys_env_destroy (i32 a1)
  else if syscallno =? SYS_yield then sched_yield
  else if syscallno =? SYS_exofork then sys_exofork
  else if syscallno =? SYS_env_set_status then sys_env_set_status (i32 a1) (i32 a2)
  else if syscallno =? SYS_page_alloc then sys_page_alloc (i32 a1) a2 (i32 a3)
  else if syscallno =? SYS_page_map then sys_page_map (i32 a1) a2 (i32 a3) a4 (i32 a5)
  else if syscallno =? SYS_page_unmap then sys_page_unmap (i32 a1) a2
  else if syscallno =? SYS_env_set_pgfault_upcall then sys_env_set_pgfault_upcall (i32 a1) a2
  else if syscallno =? SYS_ipc_recv then sys_ipc_recv a1
  else if syscallno =? SYS_ipc_try_send then sys_ipc_try_send (i32 a1) a2 a3 a4
  else if syscallno =? SYS_change_priority then sys_change_priority (u8 a1)
  else if syscallno =? SYS_env_set_trapframe then sys_env_set_trapframe (i32 a1) a2
  else if syscallno =? SYS_time_msec then sys_time_msec
  else if syscallno =? SYS_try_transmit then sys_try_transmit a1 a2
  else if syscallno =? SYS_receive then sys_receive a1
  else if syscallno =? SYS_env_set_type then sys_env_set_type a1
  else if syscallno =? SYS_get_mac_addr then sys_get_mac_addr a1;; mret 0
  else if syscallno =? SYS_draw then sys_draw a1
  else if syscallno =? SYS_clear_screen then sys_clear_screen;; mret 0
  else if syscallno =? SYS_free_rx_buf then sys_free_rx_buf;; mret 0
  else if syscallno =? SYS_mouse_getp then sys_mouse_getp junk a1
  else mret (- E_INVAL).
