(* ===== verification/Trap.v ===== *)
(** * Trap: exceptions, interrupts and system calls ([kern/trap.c])

    The trap frame built by the entry code on the kernel stack is an argument of [trap]; after
    a trap from user mode it lives in [curenv->env_tf].  The kernel monitor, entered by a
    breakpoint, ends the run. *)

From S2P Require Import Prelude Layout KState KMem Pmap VmInv VmOps UMem Time Console Mouse E1000 Sched Env Syscall.

Definition T_BRKPT : Z := 3.
Definition T_PGFLT : Z := 14.
Definition T_SYSCALL : Z := 48.
Definition IRQ_OFFSET : Z := 32.
Definition IRQ_TIMER : Z := 0.
Definition IRQ_KBD : Z := 1.
Definition IRQ_SERIAL : Z := 4.
Definition IRQ_SPURIOUS : Z := 7.
Definition IRQ_E1000 : Z := 11.
Definition IRQ_MOUSE : Z := 12.

(** What the handlers read from the processor and from the other CPUs. *)
Record trap_in := mkTrapIn {
  panicstr : bool;  (* another CPU has panicked *)
  eflags : Z;  (* read_eflags() *)
  cr2 : Z;  (* rcr2(): the address of the last page fault *)
  junk : Z;  (* see [Mouse] *)
}.

Definition print_trapframe (tf : Trapframe) : K unit := emit (Cprintf "TRAP frame").

(** ** Page faults *)

(** sizeof(struct UTrapframe) *)
Definition sizeof_UTrapframe : Z := 52.
(** Where the page fault handler puts the frame for a fault at stack pointer [esp]. *)
Definition utf_addr (esp : Z) : Z :=
  if (UXSTACKTOP - PGSIZE <=? esp) && (esp <? UXSTACKTOP) then u32 (esp - 4 - sizeof_UTrapframe)
  else UXSTACKTOP - sizeof_UTrapframe.

Definition regs_bytes (r : PushRegs) : list Z :=
  flat_map (le_bytes 4) [reg_edi r; reg_esi r; reg_ebp r; reg_oesp r; reg_ebx r; reg_edx r; reg_ecx r; reg_eax r].

Definition page_fault_handler (i : trap_in) (tf : Trapframe) : K unit :=
  let fault_va := cr2 i in
  if tf_cs tf .& 3 =? 0 then panic
  else
    c ← cur;
    e ← get_env c;
    if truth (env_pgfault_upcall e) then
      let frame := utf_addr (tf_esp tf) in
      user_mem_assert c frame sizeof_UTrapframe (PTE_W .| PTE_U);;
      e ← get_env c;
      let pgdir := env_pgdir e in
      ustore pgdir (frame + 48) (le_bytes 4 (tf_esp tf));;
      ustore pgdir (frame + 44) (le_bytes 4 (tf_eflags tf));;
      ustore pgdir (frame + 40) (le_bytes 4 (tf_eip tf));;
      ustore pgdir (frame + 8) (regs_bytes (tf_regs tf));;
      ustore pgdir (frame + 4) (le_bytes 4 (tf_err tf));;
      ustore pgdir frame (le_bytes 4 fault_va);;
      upd_env c (fun x => set_env_tf (set_tf_eip (env_pgfault_upcall x) (env_tf x)) x);;
      upd_env c (fun x => set_env_tf (set_tf_esp frame (env_tf x)) x);;
      env_run (Some c)
    else
      emit (Cprintf "user fault");;
      print_trapframe tf;;
      env_destroy c.

(** ** Dispatch *)

(** A driver routine on the device state *)
Definition dev_op (f : devices -> option devices) : K unit := fun s =>
  match f (dev s) with Some d => Ret tt (set_dev d s) | None => Stuck s end.

(** [dest] says where [tf] is: in the trap frame of an environment, or on the kernel stack. *)
Definition trap_dispatch (i : trap_in) (dest : option Z) (tf : Trapframe) : K unit :=
  let n := tf_trapno tf in
  let r := tf_regs tf in
  if n =? T_PGFLT then page_fault_handler i tf
  else if n =? T_BRKPT then in_monitor
  else if n =? T_SYSCALL then
    v ← syscall (junk i) (reg_eax r) (reg_edx r) (reg_ecx r) (reg_ebx r) (reg_edi r) (reg_esi r);
    match dest with
    | Some e => upd_env e (fun x =>
        set_env_tf (set_tf_regs (set_reg_eax (u32 v) (tf_regs (env_tf x))) (env_tf x)) x)
    | None => mret tt
    end
  else if n =? IRQ_OFFSET + IRQ_SPURIOUS then
    emit (Cprintf "Spurious interrupt on irq 7");; print_trapframe tf
  else if n =? IRQ_OFFSET + IRQ_TIMER then
    emit LapicEoi;;
    c ← get cpunum;
    when (c =? 0) time_tick;;
    sched_yield
  else if n =? IRQ_OFFSET + IRQ_KBD then
    emit LapicEoi;;
    dev_op kbd_intr
  else if n =? IRQ_OFFSET + IRQ_SERIAL then
    emit LapicEoi;;
    dev_op serial_intr
  else if n =? IRQ_OFFSET + IRQ_E1000 then
    e1000_intr;; emit IrqEoi;; emit LapicEoi
  else if n =? IRQ_OFFSET + IRQ_MOUSE then
    emit IrqEoi;; emit LapicEoi;; mouse_intr (junk i)
  else
    print_trapframe tf;;
    if tf_cs tf =? GD_KT then panic
    else c ← cur; env_destroy c.

(** xchg(&thiscpu->cpu_status, CPU_STARTED) *)
Definition xchg_status : K Z :=
  c ← thiscpu; set_thiscpu (set_cpu_status CPU_STARTED);; mret (cpu_status c).

(** A trap from user mode: the lock is taken, a dying environment is collected, and the trap
    frame is saved. *)
Definition trap_enter (tf : Trapframe) : K (option Z) :=
  lock_kernel;;
  c ← curenv;
  match c with
  | None => panic
  | Some e =>
      x ← get_env e;
      when (env_status x =? ENV_DYING) (env_free e;; set_curenv None;; sched_yield);;
      upd_env e (set_env_tf tf);;
      mret (Some e)
  end.

(** The way back to user mode when the handler has not switched to another environment *)
Definition trap_exit {A} : K A :=
  c ← curenv;
  match c with
  | Some e => x ← get_env e;
              if env_status x =? ENV_RUNNING then env_run (Some e) else sched_yield
  | None => sched_yield
  end.

Definition trap (i : trap_in) (tf : Trapframe) : K unit :=
  if panicstr i then halted
  else
    st ← xchg_status;
    when (st =? CPU_HALTED) lock_kernel;;
    kassert (eflags i .& FL_IF =? 0);;
    dest ← (if tf_cs tf .& 3 =? 3 then trap_enter tf else mret None);
    trap_dispatch i dest tf;;
    trap_exit.
