(* ===== verification/KInv.v ===== *)
(** * KInv: the invariant of the kernel between two traps

    [env_inv] describes the table of environments with its free list; [kinv] joins it with
    the invariant [vm_inv] of the page allocator, whose page directories are those of the
    environments in use.  [ok] is the postcondition of kernel code that may return or leave
    the kernel. *)

From S2P Require Import Prelude Layout KState Pmap VmRefs VmInv VmOps Sched.

(** ** The table of environments *)

Definition live (e : Env) : bool := negb (env_status e =? ENV_FREE).
(** The page of the directory of an environment. *)
Definition root_of (e : Env) : Z := (env_pgdir e - KERNBASE) / PGSIZE.
Definition root_at (es : gmap Z Env) (i : Z) : option Z :=
  e ← es !! i; if live e then Some (root_of e) else None.
(** The page directories of the environments in use. *)
Definition roots (es : gmap Z Env) : list Z := omap (root_at es) (seqZ 0 NENV).

(** [fl] is the list of environments linked from [head]. *)
Fixpoint elinked (es : gmap Z Env) (head : option Z) (fl : list Z) : Prop :=
  match fl with
  | [] => head = None
  | i :: fl => head = Some i /\ exists e, es !! i = Some e /\ elinked es (env_link e) fl
  end.

Record env_inv (es : gmap Z Env) (head : option Z) : Prop := {
  ei_dom : forall i, is_Some (es !! i) <-> 0 <= i < NENV;
  ei_list : exists fl, elinked es head fl /\ NoDup fl /\
    forall i, i ∈ fl <-> exists e, es !! i = Some e /\ env_status e = ENV_FREE;
  ei_id : forall i e, es !! i = Some e ->
    0 <= env_id e < 2^31 /\ (env_id e = 0 \/ env_id e mod 4096 = i);
  ei_live : forall i e, es !! i = Some e -> live e = true ->
    env_pgdir e = kva (root_of e) /\ 0 < env_id e;
  ei_dst : forall i e, es !! i = Some e -> 0 <= env_ipc_dstva e < 2^32;
}.

(** The kernel's own directory is outside the pool and maps nothing for the user. *)
Definition kern_dir (A : gset Z) (s : kstate) (kd : Z) : Prop :=
  kern_pgdir s = kva kd /\ kd ∉ A /\ 0 <= kd < npages s /\
  forall x, x ∈ upde -> rdw (mem s) kd x = 0.

Record kinv (A : gset Z) (s : kstate) : Prop := {
  ki_vm : vm_inv A (roots (envs s)) ∅ s;
  ki_env : env_inv (envs s) (env_free_list s);
  ki_kern : exists kd, kern_dir A s kd;
  ki_cpu : cpu_ok s;
}.

(** ** Updates of one environment *)

(** The fields the invariant looks at. *)
Definition same_core (e e' : Env) : Prop :=
  live e' = live e /\ env_pgdir e' = env_pgdir e /\ env_id e' = env_id e /\ env_link e' = env_link e /\
  (0 <= env_ipc_dstva e < 2^32 -> 0 <= env_ipc_dstva e' < 2^32).

Lemma seqZ_split n i :
  0 <= i < n -> seqZ 0 n = seqZ 0 i ++ i :: seqZ (i + 1) (n - i - 1).
Proof.
  intros H. replace n with (i + (1 + (n - i - 1))) at 1 by lia.
  rewrite seqZ_app by lia. f_equal. rewrite seqZ_app by lia. rewrite (seqZ_cons (0 + i) 1) by lia.
  by rewrite seqZ_nil by lia.
Qed.

Lemma omap_ext_in {B C} (f g : B -> option C) (l : list B) :
  (forall x, x ∈ l -> f x = g x) -> omap f l = omap g l.
Proof.
  induction l as [|x l IH]; intros H; [done|]. csimpl. rewrite H by left. rewrite IH; [done|].
  intros y Hy. apply H. by right.
Qed.

Lemma root_at_ne es i j e : i <> j -> root_at (<[i := e]> es) j = root_at es j.
Proof. intros. unfold root_at. by rewrite lookup_insert_ne. Qed.

Lemma root_at_eq es i e : root_at (<[i := e]> es) i = if live e then Some (root_of e) else None.
Proof. unfold root_at. by rewrite lookup_insert_eq. Qed.

(** The directories before and after entry [i], as [roots] lists them. *)
Lemma roots_split es i :
  0 <= i < NENV -> exists l1 l2,
    (forall e, roots (<[i := e]> es) = l1 ++ (if live e then [root_of e] else []) ++ l2) /\
    roots es = l1 ++ (match root_at es i with Some d => [d] | None => [] end) ++ l2.
Proof.
  intros Hi. unfold roots. rewrite (seqZ_split NENV i) by done.
  exists (omap (root_at es) (seqZ 0 i)), (omap (root_at es) (seqZ (i + 1) (NENV - i - 1))).
  split.
  - intros e. rewrite omap_app. csimpl. rewrite root_at_eq.
    rewrite (omap_ext_in (root_at (<[i := e]> es)) (root_at es) (seqZ 0 i)).
    2:{ intros j Hj%elem_of_seqZ. apply root_at_ne. lia. }
    rewrite (omap_ext_in (root_at (<[i := e]> es)) (root_at es) (seqZ (i + 1) _)).
    2:{ intros j Hj%elem_of_seqZ. apply root_at_ne. lia. }
    by destruct (live e).
  - rewrite omap_app. csimpl. by destruct (root_at es i).
Qed.

Lemma roots_same es i e e' :
  0 <= i < NENV -> es !! i = Some e -> same_core e e' -> roots (<[i := e']> es) = roots es.
Proof.
  intros Hi He (Hl & Hd & _). destruct (roots_split es i Hi) as (l1 & l2 & H1 & H2).
  rewrite H1, H2. unfold root_at. rewrite He. cbn [mbind option_bind]. rewrite Hl. unfold root_of. rewrite Hd.
  by destruct (live e).
Qed.

Lemma roots_alloc es i e e' :
  0 <= i < NENV -> es !! i = Some e -> live e = false -> live e' = true ->
  roots (<[i := e']> es) ≡ₚ root_of e' :: roots es.
Proof.
  intros Hi He Hl Hl'. destruct (roots_split es i Hi) as (l1 & l2 & H1 & H2).
  rewrite H1, H2, Hl'. unfold root_at. rewrite He. cbn [mbind option_bind]. rewrite Hl. simpl.
  by rewrite Permutation_middle.
Qed.

Lemma roots_free es i e e' :
  0 <= i < NENV -> es !! i = Some e -> live e = true -> live e' = false ->
  roots es ≡ₚ root_of e :: roots (<[i := e']> es).
Proof.
  intros Hi He Hl Hl'. destruct (roots_split es i Hi) as (l1 & l2 & H1 & H2).
  rewrite H1, H2, Hl'. unfold root_at. rewrite He. cbn [mbind option_bind]. rewrite Hl. simpl.
  by rewrite Permutation_middle.
Qed.

Lemma elem_of_roots es i e :
  0 <= i < NENV -> es !! i = Some e -> live e = true -> root_of e ∈ roots es.
Proof.
  intros Hi He Hl. unfold roots. apply list_elem_of_omap. exists i.
  split; [apply elem_of_seqZ; lia|]. unfold root_at. rewrite He. simpl. by rewrite Hl.
Qed.

Lemma roots_elem es d :
  d ∈ roots es -> exists i e, es !! i = Some e /\ live e = true /\ root_of e = d.
Proof.
  unfold roots. intros (i & Hi & Hr)%list_elem_of_omap. unfold root_at in Hr.
  destruct (es !! i) as [e|] eqn:He; [|done]. simpl in Hr.
  destruct (live e) eqn:Hl; [|done]. exists i, e. by inversion Hr.
Qed.

Lemma elinked_frame es i e head fl :
  i ∉ fl -> elinked (<[i := e]> es) head fl <-> elinked es head fl.
Proof.
  revert head. induction fl as [|j fl IH]; intros head Hi; [done|].
  apply not_elem_of_cons in Hi as [Hij Hi]. simpl.
  rewrite lookup_insert_ne by done. split; intros (-> & q & Hq & Hl); (split; [done|]);
    exists q; (split; [done|]); by apply (IH _ Hi).
Qed.

Lemma elinked_same es i e e' head fl :
  es !! i = Some e -> env_link e' = env_link e ->
  elinked es head fl -> elinked (<[i := e']> es) head fl.
Proof.
  intros He Hl. revert head. induction fl as [|j fl IH]; intros head; [done|]. simpl.
  intros (-> & q & Hq & Hlq). split; [done|]. destruct (decide (i = j)) as [<-|Hne].
  - rewrite lookup_insert_eq. exists e'. split; [done|]. rewrite Hl.
    replace q with e in Hlq by congruence. by apply IH.
  - rewrite lookup_insert_ne by done. exists q. split; [done|]. by apply IH.
Qed.

Lemma live_free e : live e = false <-> env_status e = ENV_FREE.
Proof. unfold live. rewrite negb_false_iff. apply Z.eqb_eq. Qed.

Lemma env_inv_same es head i e e' :
  env_inv es head -> es !! i = Some e -> same_core e e' -> env_inv (<[i := e']> es) head.
Proof.
  intros [Hdom (fl & Hfl & Hnd & Hin) Hid Hlv Hds] He (Hl & Hd & Hi & Hk & Hds'). split.
  - apply dom_insert_iff; eauto.
  - exists fl. split; [by apply (elinked_same es i e)|]. split; [done|]. intros j. rewrite Hin.
    destruct (decide (i = j)) as [<-|Hne]; [|by rewrite lookup_insert_ne].
    rewrite lookup_insert_eq. split; intros (x & Hx & Hs).
    + exists e'. split; [done|]. apply live_free. rewrite Hl. apply live_free. congruence.
    + exists e. split; [done|]. apply live_free. rewrite <- Hl. apply live_free. congruence.
  - intros j x Hx. destruct (decide (i = j)) as [<-|Hne].
    + rewrite lookup_insert_eq in Hx. injection Hx as <-. rewrite Hi. by apply Hid.
    + rewrite lookup_insert_ne in Hx by done. by apply Hid.
  - intros j x Hx Hlx. destruct (decide (i = j)) as [<-|Hne].
    + rewrite lookup_insert_eq in Hx. injection Hx as <-. rewrite Hl in Hlx. rewrite Hi.
      destruct (Hlv i e He Hlx) as [Hp ?]. unfold root_of. rewrite Hd. by rewrite Hp at 1.
    + rewrite lookup_insert_ne in Hx by done. by apply (Hlv j).
  - intros j x Hx. destruct (decide (i = j)) as [<-|Hne].
    + rewrite lookup_insert_eq in Hx. injection Hx as <-. eauto.
    + rewrite lookup_insert_ne in Hx by done. by apply (Hds j).
Qed.

(** Taking environment [i] off the free list. *)
Lemma env_inv_alloc es i e e' :
  env_inv es (Some i) -> es !! i = Some e -> live e' = true -> env_link e' = env_link e ->
  0 < env_id e' < 2^31 -> env_id e' mod 4096 = i -> env_pgdir e' = kva (root_of e') ->
  env_ipc_dstva e' = env_ipc_dstva e ->
  env_inv (<[i := e']> es) (env_link e).
Proof.
  intros [Hdom (fl & Hfl & Hnd & Hin) Hid Hlv Hds] He Hl Hk Hid' Hmod Hp Hds'.
  destruct fl as [|j fl]; [done|]. simpl in Hfl. destruct Hfl as (Hj & x & Hx & Hfl).
  injection Hj as <-. replace x with e in Hfl by congruence. clear x Hx.
  apply NoDup_cons in Hnd as [Hi Hnd]. split.
  - apply dom_insert_iff; eauto.
  - exists fl. split; [by apply elinked_frame|]. split; [done|]. intros j.
    destruct (decide (i = j)) as [<-|Hne].
    + split; [done|]. rewrite lookup_insert_eq. intros (x & Hx & Hs). injection Hx as <-.
      apply live_free in Hs. congruence.
    + rewrite lookup_insert_ne by done. rewrite <- Hin, elem_of_cons. naive_solver.
  - intros j x Hx. destruct (decide (i = j)) as [<-|Hne].
    + rewrite lookup_insert_eq in Hx. injection Hx as <-. lia.
    + rewrite lookup_insert_ne in Hx by done. by apply Hid.
  - intros j x Hx Hlx. destruct (decide (i = j)) as [<-|Hne].
    + rewrite lookup_insert_eq in Hx. injection Hx as <-. split; [done|lia].
    + rewrite lookup_insert_ne in Hx by done. by apply (Hlv j).
  - intros j x Hx. destruct (decide (i = j)) as [<-|Hne].
    + rewrite lookup_insert_eq in Hx. injection Hx as <-. rewrite Hds'. eauto.
    + rewrite lookup_insert_ne in Hx by done. by apply (Hds j).
Qed.

(** Putting environment [i] back on the free list. *)
Lemma env_inv_free es head i e e' :
  env_inv es head -> es !! i = Some e -> live e = true -> live e' = false ->
  env_link e' = head -> env_id e' = env_id e -> env_ipc_dstva e' = env_ipc_dstva e ->
  env_inv (<[i := e']> es) (Some i).
Proof.
  intros [Hdom (fl & Hfl & Hnd & Hin) Hid Hlv Hds] He Hl Hl' Hk Hi Hds'.
  assert (Hif : i ∉ fl).
  { intros (x & Hx & Hs)%Hin. apply live_free in Hs. congruence. }
  split.
  - apply dom_insert_iff; eauto.
  - exists (i :: fl). split.
    { split; [done|]. exists e'. rewrite lookup_insert_eq, Hk. split; [done|]. by apply elinked_frame. }
    split; [by constructor|]. intros j. rewrite elem_of_cons, Hin.
    destruct (decide (i = j)) as [<-|Hne].
    + rewrite lookup_insert_eq. split; [|by left]. intros _. exists e'.
      split; [done|]. by apply live_free.
    + rewrite lookup_insert_ne by done. naive_solver.
  - intros j x Hx. destruct (decide (i = j)) as [<-|Hne].
    + rewrite lookup_insert_eq in Hx. injection Hx as <-. rewrite Hi. by apply Hid.
    + rewrite lookup_insert_ne in Hx by done. by apply Hid.
  - intros j x Hx Hlx. destruct (decide (i = j)) as [<-|Hne].
    + rewrite lookup_insert_eq in Hx. injection Hx as <-. congruence.
    + rewrite lookup_insert_ne in Hx by done. by apply (Hlv j).
  - intros j x Hx. destruct (decide (i = j)) as [<-|Hne].
    + rewrite lookup_insert_eq in Hx. injection Hx as <-. rewrite Hds'. eauto.
    + rewrite lookup_insert_ne in Hx by done. by apply (Hds j).
Qed.

(** ** The invariant under changes that do not concern it *)

Section frame.
Context (A : gset Z) (s : kstate).

Lemma kinv_set_klog k : kinv A s -> kinv A (set_klog k s).
Proof. by intros [? ? ? ?]. Qed.
Lemma kinv_set_dev d : kinv A s -> kinv A (set_dev d s).
Proof. by intros [? ? ? ?]. Qed.
Lemma kinv_set_lock l : kinv A s -> kinv A (set_kernel_lock l s).
Proof. by intros [? ? ? ?]. Qed.
Lemma kinv_set_ticks t : kinv A s -> kinv A (set_ticks t s).
Proof. by intros [? ? ? ?]. Qed.
Lemma kinv_set_addr a : kinv A s -> kinv A (set_user_mem_check_addr a s).
Proof. by intros [? ? ? ?]. Qed.

Lemma kinv_range i e : kinv A s -> envs s !! i = Some e -> 0 <= i < NENV.
Proof. intros H He. apply (ei_dom _ _ (ki_env _ _ H)). eauto. Qed.

Lemma kinv_env i e e' :
  kinv A s -> envs s !! i = Some e -> same_core e e' ->
  kinv A (set_envs (<[i := e']> (envs s)) s).
Proof.
  intros H He Hc. pose proof (kinv_range i e H He) as Hi. destruct H as [Hv Hen Hk Hcpu].
  assert (Hr := roots_same _ i e e' Hi He Hc). split; simpl.
  - rewrite Hr. done.
  - by apply (env_inv_same _ _ i e).
  - done.
  - destruct Hcpu as (c & Hcc & Hce). exists c. split; [done|]. intros j Hj. simpl.
    destruct (decide (i = j)) as [<-|Hne]; [rewrite lookup_insert_eq; eauto|].
    rewrite lookup_insert_ne by done. by apply Hce.
Qed.

Lemma kinv_cpus c :
  kinv A s -> (forall e, cpu_env c = Some e -> 0 <= e < NENV) ->
  kinv A (set_cpus (<[cpunum s := c]> (cpus s)) s).
Proof.
  intros [Hv Hen Hk Hcpu] Hc. split; [done..|]. exists c. simpl. rewrite lookup_insert_eq.
  split; [done|]. intros e He. apply (ei_dom _ _ Hen). by apply Hc.
Qed.

Lemma kinv_root i e :
  kinv A s -> envs s !! i = Some e -> live e = true ->
  root_of e ∈ roots (envs s) /\ env_pgdir e = kva (root_of e) /\ 0 <= root_of e < npages s.
Proof.
  intros H He Hl. assert (Hr : root_of e ∈ roots (envs s)).
  { apply (elem_of_roots _ i); [by apply (kinv_range i e)|done..]. }
  split; [done|]. split; [by apply (ei_live _ _ (ki_env _ _ H) i)|].
  apply (vm_root (ki_vm _ _ H)). done.
Qed.
End frame.
#[export] Hint Resolve kinv_set_klog kinv_set_dev kinv_set_lock kinv_set_ticks kinv_set_addr : kinv.

(** ** Leaving the kernel *)

(** [curenv] of the executing CPU *)
Definition cur_is (s : kstate) (o : option Z) : Prop :=
  exists c, cpus s !! cpunum s = Some c /\ cpu_env c = o.

(** What the CPU has written into its record about itself *)
Definition asleep (s : kstate) : Prop := exists c, cpus s !! cpunum s = Some c /\ cpu_status c = CPU_HALTED.
Definition awake (s : kstate) : Prop := exists c, cpus s !! cpunum s = Some c /\ cpu_status c <> CPU_HALTED.

(** The CPU holds the big kernel lock, and is not marked as halted. *)
Definition locked (s : kstate) : Prop := kernel_lock s = Some (cpunum s) /\ awake s.

Lemma locked_cur s c o : locked s -> cpus s !! cpunum s = Some c -> locked (set_cpus (<[cpunum s := set_cpu_env o c]> (cpus s)) s).
Proof.
  intros [Hl (c' & Hc' & Ha)] Hc. rewrite Hc in Hc'. injection Hc' as <-. split; [done|].
  exists (set_cpu_env o c). split; [apply lookup_insert_eq|done].
Qed.

(** User code of environment [i] runs: the lock is free and the address space is in force. *)
Definition running (i : Z) (s : kstate) : Prop :=
  exists e, cur_is s (Some i) /\ envs s !! i = Some e /\ env_status e = ENV_RUNNING /\
    env_cpunum e = cpunum s /\ (kernel_lock s = None /\ awake s) /\
    head (klog s) = Some (Lcr3 (root_of e * PGSIZE)).

(** The CPU waits for an interrupt, in the kernel's address space and without the lock. *)
Definition idle (s : kstate) : Prop := cur_is s None /\ kernel_lock s = None /\ asleep s.

(** Kernel code ends well: it returns with [R], or it leaves the kernel in a good state; it
    does not panic, does not wait for a lock, and makes no access outside its data. *)
Definition ok {B} (A : gset Z) (R : B -> kstate -> Prop) (o : outcome B) : Prop :=
  match o with
  | Ret b s => R b s
  | UserMode s => kinv A s /\ exists i, running i s
  | Halted s => kinv A s /\ idle s
  | Monitor s => kinv A s
  | Panic _ | Spin _ | Stuck _ => False
  end.

Lemma ok_bind {B C} A (R : B -> kstate -> Prop) (Q : C -> kstate -> Prop) (m : K B) (f : B -> K C) s :
  ok A R (m s) -> (forall b s', R b s' -> ok A Q (f b s')) -> ok A Q ((m ≫= f) s).
Proof. intros H Hf. unfold mbind, K_bind. destruct (m s); try done. by apply Hf. Qed.

Lemma ok_mono {B} A (R Q : B -> kstate -> Prop) o :
  ok A R o -> (forall b s', R b s' -> Q b s') -> ok A Q o.
Proof. intros H Hf. destruct o; try done. by apply Hf. Qed.
