(* ===== verification/KEx.v ===== *)
(** * KEx: a small machine that satisfies the kernel's invariant

    Two environments, their page directories in pages 1 and 2, four free pages, one CPU that
    runs environment 0 and holds the big kernel lock.  The theorems about the kernel are
    instantiated on it. *)

From S2P Require Import Prelude Layout KState Pmap VmRefs VmInv VmOps VmThms Sched KInv.

Definition kex_pages : gmap Z PageInfo := list_to_map
  [(0, mkPageInfo None 1); (1, mkPageInfo None 1); (2, mkPageInfo None 1);
   (3, mkPageInfo (Some 4) 0); (4, mkPageInfo (Some 5) 0); (5, mkPageInfo (Some 6) 0);
   (6, mkPageInfo None 0); (7, mkPageInfo None 1)].

(** Environment 0 runs, its child 1 waits for a message, the others are free. *)
Definition kex_parent : Env :=
  mkEnv ex_tf None 4096 0 ENV_TYPE_USER ENV_RUNNING 1 0 (kva 1) 0 false 0 0 0 0 0.
Definition kex_child : Env :=
  mkEnv ex_tf None 4097 4096 ENV_TYPE_USER ENV_RUNNABLE 0 0 (kva 2) 0 true UTEXT 0 0 7 0.
Definition kex_free (i : Z) : Env :=
  mkEnv ex_tf (if i =? 1023 then None else Some (i + 1)) 0 0 0 ENV_FREE 0 0 0 0 false 0 0 0 0 0.
Definition kex_env (i : Z) : Env :=
  if i =? 0 then kex_parent else if i =? 1 then kex_child else kex_free i.
Definition kex_envs : gmap Z Env := list_to_map (map (fun i => (i, kex_env i)) (seqZ 0 NENV)).

Definition kex : kstate :=
  mkState 8 8 (kva 7) 0 (kva 8) MMIOBASE kex_pages (Some 3) ∅ kex_envs (Some 2)
    {[0 := mkCpuInfo 1 (Some 0)]} 0 (Some 0) 0 0 [] ex_dev.
Definition kex_A : gset Z := {[1; 2; 3; 4; 5; 6]}.

Lemma kex_lookup i : 0 <= i < NENV -> kex_envs !! i = Some (kex_env i).
Proof.
  intros Hi. unfold kex_envs. apply elem_of_list_to_map_1.
  - replace (_.*1) with (seqZ 0 NENV); [apply NoDup_seqZ|].
    rewrite <- list_fmap_compose. symmetry. apply list_fmap_id.
  - apply list_elem_of_fmap. exists i. split; [done|]. apply elem_of_seqZ. lia.
Qed.

Lemma kex_lookup_inv i e : kex_envs !! i = Some e -> 0 <= i < NENV /\ e = kex_env i.
Proof.
  intros H. apply elem_of_list_to_map_2, list_elem_of_fmap in H as (j & Heq & Hj).
  injection Heq as -> ->. apply elem_of_seqZ in Hj. split; [lia|done].
Qed.

#[global] Opaque kex_envs.

Lemma kex_free_env i : 1 < i -> kex_env i = kex_free i.
Proof. intros. unfold kex_env. destruct (Z.eqb_spec i 0), (Z.eqb_spec i 1); done || lia. Qed.

Lemma kex_elinked n i :
  i + Z.of_nat n = 1023 -> 1 < i ->
  elinked kex_envs (Some i) (seqZ i (1 + Z.of_nat n)).
Proof.
  revert i. induction n as [|n IH]; intros i Hn Hi.
  - rewrite seqZ_cons, seqZ_nil by lia. split; [done|]. exists (kex_env i).
    assert (NENV = 1024) by done. rewrite kex_lookup by lia. split; [done|].
    rewrite kex_free_env by done. replace i with 1023 by lia. done.
  - rewrite seqZ_cons by lia. split; [done|]. exists (kex_env i).
    assert (NENV = 1024) by done. rewrite kex_lookup by lia. split; [done|].
    rewrite kex_free_env by done. cbn [env_link kex_free]. destruct (Z.eqb_spec i 1023); [lia|].
    replace (Z.pred (1 + Z.of_nat (S n))) with (1 + Z.of_nat n) by lia.
    replace (Z.succ i) with (i + 1) by lia. apply IH; lia.
Qed.

Lemma kex_env_inv : env_inv kex_envs (Some 2).
Proof.
  assert (HN : NENV = 1024) by done. split.
  - intros i. split; [intros [e [He _]%kex_lookup_inv]; done|]. intros Hi. rewrite kex_lookup by done. eauto.
  - exists (seqZ 2 (1 + Z.of_nat 1021)). split; [by apply kex_elinked|]. split; [apply NoDup_seqZ|].
    intros i. rewrite elem_of_seqZ. split.
    + intros Hi. exists (kex_env i). rewrite kex_lookup by lia. split; [done|].
      by rewrite kex_free_env by lia.
    + intros (e & [Hi ->]%kex_lookup_inv & Hs). unfold kex_env in Hs.
      destruct (Z.eqb_spec i 0); [done|]. destruct (Z.eqb_spec i 1); [done|]. lia.
  - intros i e [Hi ->]%kex_lookup_inv. unfold kex_env.
    destruct (Z.eqb_spec i 0) as [->|]; [split; [simpl; lia|by right]|].
    destruct (Z.eqb_spec i 1) as [->|]; [split; [simpl; lia|by right]|].
    split; [simpl; lia|by left].
  - intros i e [Hi ->]%kex_lookup_inv. unfold kex_env.
    destruct (Z.eqb_spec i 0) as [->|]; [done|]. destruct (Z.eqb_spec i 1) as [->|]; done.
  - intros i e [Hi ->]%kex_lookup_inv. unfold kex_env.
    destruct (i =? 0); [done|]. destruct (i =? 1); done.
Qed.

Lemma kex_root0 : root_at kex_envs 0 = Some 1.
Proof. unfold root_at. rewrite kex_lookup by (rewrite NENV_eq; lia). reflexivity. Qed.
Lemma kex_root1 : root_at kex_envs 1 = Some 2.
Proof. unfold root_at. rewrite kex_lookup by (rewrite NENV_eq; lia). reflexivity. Qed.
Lemma kex_root_free i : 1 < i < NENV -> root_at kex_envs i = None.
Proof.
  intros Hi. unfold root_at. rewrite kex_lookup by lia. cbn [mbind option_bind].
  by rewrite kex_free_env by lia.
Qed.

Lemma kex_roots : roots kex_envs = [1; 2].
Proof.
  pose proof kex_root0 as H0. pose proof kex_root1 as H1.
  assert (H2 : forall i, i ∈ seqZ (1 + 1) (NENV - 1 - 1) -> root_at kex_envs i = None).
  { intros i Hi%elem_of_seqZ. apply kex_root_free. lia. }
  unfold roots. rewrite (seqZ_split NENV 1) by (rewrite NENV_eq; lia).
  rewrite omap_app. change (seqZ 0 1) with [0].
  revert H2. generalize (seqZ (1 + 1) (NENV - 1 - 1)). generalize dependent kex_envs.
  intros es H0 H1 l H2. csimpl. rewrite H0, H1. csimpl. f_equal. f_equal.
  rewrite (omap_ext_in _ (fun _ => None)) by done. clear. by induction l.
Qed.

Lemma kex_vm : vm_inv kex_A [1; 2] ∅ kex.
Proof.
  assert (HA : kex_A = ex_A) by done.
  destruct (tbl_add_root kex_A [] ∅ (tbl_inv_nil _ _ ltac:(intros; rewrite rdw_empty; lia)) 2)
    as [Ht Hr]; [set_solver|done|intros; apply rdw_empty|].
  destruct (tbl_add_root kex_A [2] ∅ Ht 1) as [Ht' Hr'];
    [set_solver|by rewrite Hr|intros; apply rdw_empty|].
  split; [done|]. apply (pg_inv_ext _ _ _ (fun i => ind (2 =? i) + ind (1 =? i))).
  { intros. simpl. by rewrite Hr', Hr. }
  split.
  - simpl. lia.
  - intros i. split.
    + intros [p Hp]. apply elem_of_list_to_map_2 in Hp. set_solver by lia.
    + revert i. apply range_8; vm_compute; eauto.
  - intros i. rewrite HA, ex_A_elem. simpl. lia.
  - intros i p. rewrite HA, ex_A_elem. intros Hi Hp. assert (0 <= i < 8) as Hi8 by lia.
    revert p Hp. revert i Hi8 Hi.
    apply (range_8 (fun i => 1 <= i <= 6 -> forall p, kex_pages !! i = Some p ->
      pp_ref p = ind (2 =? i) + ind (1 =? i))); intros ? p [= <-]; (done || lia).
  - intros i _. pose proof (ind_range (1 =? i)). pose proof (ind_range (2 =? i)). lia.
  - exists [3; 4; 5; 6]. split; [|split; [|split; [|split]]].
    + simpl. repeat (split; [done|]; eexists; split; [done|]). done.
    + by apply (bool_decide_unpack _); vm_compute.
    + set_solver.
    + intros i. rewrite HA, ex_A_elem. split.
      * intros Hi. assert (3 <= i <= 6) by set_solver by lia. split; [lia|].
        destruct (Z.eqb_spec 2 i), (Z.eqb_spec 1 i); lia || done.
      * intros [Hi Hz]. left. destruct (Z.eqb_spec 2 i), (Z.eqb_spec 1 i); try done.
        assert (i = 3 \/ i = 4 \/ i = 5 \/ i = 6) by lia. set_solver.
    + intros i p. rewrite HA, ex_A_elem. intros Hi Hni Hp. assert (i = 1 \/ i = 2) as [-> | ->].
      { assert (i <> 3 /\ i <> 4 /\ i <> 5 /\ i <> 6) by set_solver. lia. }
      * by injection Hp as <-.
      * by injection Hp as <-.
Qed.

Lemma kex_inv : kinv kex_A kex.
Proof.
  split.
  - change (envs kex) with kex_envs. rewrite kex_roots. apply kex_vm.
  - apply kex_env_inv.
  - exists 7. split; [done|]. split; [unfold kex_A; set_solver by lia|]. split; [simpl; lia|].
    intros. apply rdw_empty.
  - exists (mkCpuInfo 1 (Some 0)). split; [done|]. intros e [= <-]. simpl. rewrite kex_lookup by done. eauto.
Qed.

Lemma kex_cur : cur_is kex (Some 0).
Proof. by exists (mkCpuInfo 1 (Some 0)). Qed.
Lemma kex_locked : locked kex.
Proof. split; [done|]. by exists (mkCpuInfo 1 (Some 0)). Qed.
Lemma kex_env0 : envs kex !! 0 = Some kex_parent.
Proof. by apply (kex_lookup 0). Qed.
Lemma kex_env1 : envs kex !! 1 = Some kex_child.
Proof. by apply (kex_lookup 1). Qed.
Lemma kex_status0 : has_status kex 0 ENV_RUNNING = true.
Proof. unfold has_status. rewrite kex_env0. reflexivity. Qed.
Lemma kex_status1 : has_status kex 1 ENV_RUNNABLE = true.
Proof. unfold has_status. rewrite kex_env1. reflexivity. Qed.
