(* ===== verification/SchedThms.v ===== *)
(** * SchedThms: the lock, the context switch and the scheduler

    [env_run] switches to an environment, [sched_yield] chooses it in circular order, and the
    big kernel lock is held by one CPU at a time. *)

From S2P Require Import Prelude Layout KState Pmap VmRefs VmInv VmOps Sched KInv KEx.

(** ** Running one environment *)

Lemma set_envs_id s : set_envs (envs s) s = s.
Proof. by destruct s. Qed.

Lemma curenv_eq s o : cur_is s o -> curenv s = Ret o s.
Proof. intros (c & Hc & <-). unfold curenv, thiscpu. ks. by rewrite Hc. Qed.

Lemma set_thiscpu_eq s c f :
  cpus s !! cpunum s = Some c -> set_thiscpu f s = Ret tt (set_cpus (<[cpunum s := f c]> (cpus s)) s).
Proof. intros Hc. unfold set_thiscpu. by rewrite Hc. Qed.

Lemma PADDR_kva s d : 0 <= d < 65536 -> PADDR (kva d) s = Ret (d * PGSIZE) s.
Proof.
  intros H. unfold PADDR, kva. rewrite u32_small by clia.
  destruct (Z.ltb_spec (KERNBASE + d * PGSIZE) KERNBASE); [clia|].
  ks. f_equal. rewrite u32_small; clia.
Qed.

Lemma unlock_eq s : kernel_lock s = Some (cpunum s) -> unlock_kernel s = Ret tt (set_kernel_lock None s).
Proof.
  intros H. unfold unlock_kernel, spin_unlock, holding in *. ks. rewrite H. by rewrite Z.eqb_refl.
Qed.

(** The environment that ran on this CPU becomes runnable. *)
Definition demote (es : gmap Z Env) (o : option Z) : gmap Z Env :=
  match o with
  | Some i => match es !! i with
              | Some x => if env_status x =? ENV_RUNNING
                          then <[i := set_env_status ENV_RUNNABLE x]> es else es
              | None => es
              end
  | None => es
  end.

(** Environment [e] as it runs on CPU [n]. *)
Definition resumed (n : Z) (e : Env) : Env :=
  set_env_cpunum n (set_env_runs (u32 (env_runs e + 1)) (set_env_status ENV_RUNNING e)).

(** From [s] to [s'] environment [i] has been resumed and nothing else has changed. *)
Definition resumes (i : Z) (s s' : kstate) : Prop :=
  running i s' /\
  s' = set_klog (klog s') (set_kernel_lock None (set_cpus (cpus s') (set_envs (envs s') s))) /\
  exists o e, cur_is s o /\ envs s !! i = Some e /\
    envs s' = <[i := resumed (cpunum s) e]> (demote (envs s) o).

Lemma same_core_status e st : live e = true -> st <> ENV_FREE -> same_core e (set_env_status st e).
Proof.
  intros Hl Hst. unfold same_core. rewrite Hl. split_and!; [|done..].
  unfold live. simpl. by apply negb_true_iff, Z.eqb_neq.
Qed.

Lemma running_live e : env_status e = ENV_RUNNING -> live e = true.
Proof. intros H. unfold live. by rewrite H. Qed.

Lemma kinv_demote A s o :
  kinv A s -> kinv A (set_envs (demote (envs s) o) s).
Proof.
  intros H. destruct o as [i|]; cbn [demote]; [|by rewrite set_envs_id].
  destruct (envs s !! i) as [x|] eqn:Hx; [|by rewrite set_envs_id].
  destruct (Z.eqb_spec (env_status x) ENV_RUNNING); [|by rewrite set_envs_id].
  apply (kinv_env A s i x); [done..|]. apply same_core_status; [by apply running_live|done].
Qed.

Lemma demote_lookup es o i e :
  es !! i = Some e -> exists e', demote es o !! i = Some e' /\
    (e' = e \/ env_status e = ENV_RUNNING /\ e' = set_env_status ENV_RUNNABLE e).
Proof.
  intros He. destruct o as [j|]; cbn [demote]; [|eauto]. destruct (es !! j) as [x|] eqn:Hx; [|eauto].
  destruct (Z.eqb_spec (env_status x) ENV_RUNNING); [|eauto].
  destruct (decide (j = i)) as [->|Hne]; [|rewrite lookup_insert_ne by done; eauto].
  rewrite lookup_insert_eq. replace x with e in * by congruence. eauto.
Qed.

Lemma resumed_demoted n e e' :
  e' = e \/ env_status e = ENV_RUNNING /\ e' = set_env_status ENV_RUNNABLE e -> resumed n e' = resumed n e.
Proof. by intros [->|[_ ->]]. Qed.

(** The first part of [env_run]. *)
Lemma env_run_demote {B} s o (k : K B) :
  cpu_ok s -> cur_is s o ->
  (match o with
   | Some i => ce ← get_env i;
               when (env_status ce =? ENV_RUNNING) (upd_env i (set_env_status ENV_RUNNABLE))
   | None => mret tt
   end;; k) s = k (set_envs (demote (envs s) o) s).
Proof.
  intros (c & Hc & He) (c' & Hc' & Ho). rewrite Hc' in Hc. injection Hc as ->.
  destruct o as [i|]; cbn [demote]; [|ks; by rewrite set_envs_id].
  destruct (He i Ho) as [x Hx]. rewrite Hx. ks. rewrite (get_env_eq s i x Hx).
  destruct (env_status x =? ENV_RUNNING); [|by rewrite set_envs_id].
  by rewrite (upd_env_eq s i x).
Qed.

Lemma env_run_spec {B} A s i e :
  kinv A s -> locked s -> envs s !! i = Some e -> live e = true ->
  exists s', env_run (A:=B) (Some i) s = UserMode s' /\ kinv A s' /\ resumes i s s'.
Proof.
  intros H [Hlock (c' & Hc' & Haw)] He Hl. destruct (ki_cpu _ _ H) as (c & Hc & Hce). rewrite Hc in Hc'. injection Hc' as <-.
  assert (Hcur : cur_is s (cpu_env c)) by (by exists c).
  destruct (kinv_root A s i e H He Hl) as (Hr & Hpg & Hrng).
  pose proof (vm_npages (ki_vm _ _ H)) as Hn.
  assert (Hi := kinv_range A s i e H He).
  set (o := cpu_env c) in *. set (s1 := set_envs (demote (envs s) o) s).
  assert (H1 : kinv A s1) by (by apply kinv_demote).
  destruct (demote_lookup _ o i e He) as (e1 & He1 & He1').
  set (s2 := set_cpus (<[cpunum s := set_cpu_env (Some i) c]> (cpus s)) s1).
  assert (H2 : kinv A s2).
  { apply (kinv_cpus A s1); [done|]. simpl. intros x Hx. injection Hx as <-. done. }
  assert (Hl1 : live e1 = true) by (destruct He1' as [->|[? ->]]; done).
  set (e2 := resumed (cpunum s) e).
  set (s3 := set_envs (<[i := e2]> (demote (envs s) o)) s2).
  assert (H3 : kinv A s3).
  { apply (kinv_env A s2 i e1); [done..|]. unfold e2. rewrite <- (resumed_demoted _ e e1) by done.
    apply (same_core_status e1 ENV_RUNNING); done. }
  exists (set_kernel_lock None (set_klog (Lcr3 (root_of e * PGSIZE) :: klog s) s3)).
  split; [|split; [by auto with kinv|]].
  - unfold env_run. rewrite (bind_Ret _ _ _ _ _ (curenv_eq s o Hcur)).
    rewrite env_run_demote; [|by apply (ki_cpu _ _ H)|done]. fold s1.
    unfold set_curenv. rewrite (bind_Ret _ _ _ _ _ (set_thiscpu_eq s1 c _ Hc)). fold s2.
    rewrite (bind_Ret _ _ _ _ _ (upd_env_eq s2 i e1 _ He1)).
    set (sa := set_envs _ s2).
    rewrite (bind_Ret _ _ _ _ _ (upd_env_eq sa i _ _ (lookup_insert_eq _ _ _))).
    set (sb := set_envs _ sa).
    rewrite (bind_Ret _ _ _ _ _ (get_env_eq sb i _ (lookup_insert_eq _ _ _))).
    replace (env_pgdir _) with (kva (root_of e)) by (rewrite <- Hpg; by destruct He1' as [->|[_ ->]]).
    rewrite (bind_Ret _ _ _ _ _ (PADDR_kva sb (root_of e) ltac:(lia))).
    unfold emit. ks. rewrite unlock_eq by done. unfold env_pop_tf. ks.
    rewrite (curenv_eq _ (Some i)) by (exists (set_cpu_env (Some i) c); split; [apply lookup_insert_eq|done]).
    rewrite (upd_env_eq _ i _ _ (lookup_insert_eq _ _ _)). unfold user_mode.
    f_equal. unfold s3, sb, sa, e2, resumed. destruct He1' as [->|[_ ->]]; simpl;
      unfold set_kernel_lock, set_klog, set_envs; simpl; f_equal; by rewrite !insert_insert_eq.
  - split; [|split].
    + exists e2. split_and!; try done; simpl.
      * exists (set_cpu_env (Some i) c). split; [apply lookup_insert_eq|done].
      * apply lookup_insert_eq.
      * exists (set_cpu_env (Some i) c). split; [apply lookup_insert_eq|done].
    + done.
    + exists o, e. done.
Qed.

(** ** Choosing an environment *)

Lemma sched_halt_spec {B} A s :
  kinv A s -> locked s ->
  (sched_halt (A:=B) s = Monitor s /\ forall i, 0 <= i < NENV -> alive_user s i = false) \/
  ((exists i, 0 <= i < NENV /\ alive_user s i = true) /\
   exists s', sched_halt (A:=B) s = Halted s' /\ kinv A s' /\ idle s' /\ envs s' = envs s).
Proof.
  intros H [Hlock _]. unfold sched_halt. ks. unfold id.
  destruct (find_first (alive_user s) (seqZ 0 NENV)) as [j|] eqn:Hj.
  - right. apply find_first_seqZ in Hj as (Hj & Ha & _). split; [by exists j|].
    destruct (ki_cpu _ _ H) as (c & Hc & _). destruct (ki_kern _ _ H) as (kd & Hkd & _ & Hr & _).
    pose proof (vm_npages (ki_vm _ _ H)) as Hn.
    unfold set_curenv. rewrite (set_thiscpu_eq s c _ Hc). set (s1 := set_cpus _ s).
    assert (H1 : kinv A s1) by (by apply kinv_cpus).
    change (kern_pgdir s1) with (kern_pgdir s). rewrite Hkd, PADDR_kva by lia. unfold emit. ks.
    set (s2 := set_klog _ s1). assert (H2 : kinv A s2) by (by apply kinv_set_klog).
    rewrite (set_thiscpu_eq s2 (set_cpu_env None c)) by apply lookup_insert_eq.
    set (s3 := set_cpus _ s2). assert (H3 : kinv A s3) by (by apply kinv_cpus).
    rewrite unlock_eq by done. unfold halted. eexists. split; [done|].
    split; [by apply kinv_set_lock|]. split; [|done].
    split; [|split; [done|]]; (eexists; split; [apply lookup_insert_eq|done]).
  - left. split; [done|]. rewrite find_first_seqZ_None in Hj. intros i Hi. apply Hj. lia.
Qed.

Lemma find_first_map {B C} (p : C -> bool) (f : B -> C) l :
  find_first p (map f l) = f <$> find_first (fun x => p (f x)) l.
Proof. induction l as [|x l IH]; [done|]. simpl. by destruct (p (f x)). Qed.

(** The search of the round robin, from [start] on. *)
Definition first_from (s : kstate) (start i : Z) : Prop :=
  exists k, 0 <= k < NENV /\ i = (start + k) mod NENV /\ has_status s i ENV_RUNNABLE = true /\
    forall j, 0 <= j < k -> has_status s ((start + j) mod NENV) ENV_RUNNABLE = false.

Definition none_runnable (s : kstate) : Prop :=
  forall i, 0 <= i < NENV -> has_status s i ENV_RUNNABLE = false.

Lemma sched_search s start :
  match find_first (fun i => has_status s i ENV_RUNNABLE) (sched_order start) with
  | Some i => first_from s start i
  | None => none_runnable s
  end.
Proof.
  unfold sched_order. rewrite find_first_map.
  destruct (find_first _ _) as [k|] eqn:Hk; simpl.
  - apply find_first_seqZ in Hk as (Hk & Hp & Hl). by exists k.
  - rewrite find_first_seqZ_None in Hk. intros i Hi.
    assert (HN : NENV = 1024) by done.
    specialize (Hk ((i - start) mod NENV)).
    rewrite Zplus_mod_idemp_r in Hk. replace (start + (i - start)) with i in Hk by lia.
    rewrite (Z.mod_small i) in Hk by lia. apply Hk.
    pose proof (Z.mod_pos_bound (i - start) NENV). lia.
Qed.

Lemma has_status_lookup s i st : has_status s i st = true <-> exists e, envs s !! i = Some e /\ env_status e = st.
Proof.
  unfold has_status. split.
  - destruct (envs s !! i) as [e|] eqn:He; [|done]. intros ?%Z.eqb_eq. eauto.
  - intros (e & -> & ->). apply Z.eqb_refl.
Qed.

Lemma status_live e st : env_status e = st -> st <> ENV_FREE -> live e = true.
Proof. intros He Hst. unfold live. rewrite He. by apply negb_true_iff, Z.eqb_neq. Qed.

(** Where the search starts: after the current environment. *)
Definition start_of (s : kstate) (o : option Z) : Z :=
  match o with
  | Some i => sched_start (envs s !! i)
  | None => sched_start None
  end.

(** The choice made by [sched_yield] with current environment [o]. *)
Inductive choice (s : kstate) (o : option Z) : option Z -> Prop :=
  | choose_runnable i : first_from s (start_of s o) i -> choice s o (Some i)
  | choose_current i : o = Some i -> none_runnable s -> has_status s i ENV_RUNNING = true ->
      choice s o (Some i)
  | choose_none : none_runnable s ->
      (forall i, o = Some i -> has_status s i ENV_RUNNING = false) -> choice s o None.

(** [sched_yield] runs the choice, or halts. *)
Lemma sched_yield_choice {B} s o :
  cpu_ok s -> cur_is s o -> exists r, choice s o r /\
    sched_yield (A:=B) s = match r with Some i => env_run (Some i) s | None => sched_halt s end.
Proof.
  intros (c & Hc & He) Hcur. destruct Hcur as (c' & Hc' & Ho). rewrite Hc in Hc'. injection Hc' as <-.
  assert (Hcur : cur_is s o) by (by exists c).
  unfold sched_yield. rewrite (bind_Ret _ _ _ _ _ (curenv_eq s o Hcur)).
  assert (Hie : (match o with Some i => e ← get_env i; mret (Some e) | None => mret None end : K _) s
    = Ret (match o with Some i => envs s !! i | None => None end) s).
  { destruct o as [i|]; [|done]. destruct (He i Ho) as [e Hie]. ks.
    by rewrite (get_env_eq s i e Hie), Hie. }
  rewrite (bind_Ret _ _ _ _ _ Hie). ks. unfold id.
  replace (sched_start _) with (start_of s o) by (unfold start_of; by destruct o).
  pose proof (sched_search s (start_of s o)) as Hs.
  destruct (find_first _ _) as [i|]; [exists (Some i); split; [by constructor|done]|].
  destruct o as [i|]; [|exists None; split; [by apply choose_none|done]].
  destruct (He i Ho) as [e Hi]. rewrite Hi.
  destruct (env_status e =? ENV_RUNNING) eqn:Hr.
  - exists (Some i). split; [|done]. apply choose_current; [done..|]. unfold has_status. by rewrite Hi.
  - exists None. split; [|done]. apply choose_none; [done|]. intros j Hj. injection Hj as <-.
    unfold has_status. by rewrite Hi.
Qed.

Lemma choice_live s o i : choice s o (Some i) -> exists e, envs s !! i = Some e /\ live e = true.
Proof.
  intros H. inversion H as [? (k & _ & _ & Hs & _)|? _ _ Hs|]; subst;
    apply has_status_lookup in Hs as (e & He & Hst); exists e; (split; [done|]);
    by apply (status_live e _ Hst).
Qed.

(** [sched_yield] always leaves the kernel well. *)
Lemma sched_yield_ok {B} A s (R : B -> kstate -> Prop) :
  kinv A s -> locked s -> ok A R (sched_yield s).
Proof.
  intros H Hlock. destruct (ki_cpu _ _ H) as (c & Hc & Hce).
  destruct (sched_yield_choice (B:=B) s (cpu_env c)) as (r & Hr & ->); [by apply H|by exists c|].
  destruct r as [i|].
  - destruct (choice_live _ _ _ Hr) as (e & He & Hl).
    destruct (env_run_spec (B:=B) A s i e H Hlock He Hl) as (s' & -> & H' & Hres & _).
    split; [done|]. by exists i.
  - destruct (sched_halt_spec (B:=B) A s H Hlock) as [[-> _]|(_ & s' & -> & H' & Hi & _)]; done.
Qed.

(** The state in which the kernel is left. *)
Definition leaves {B} (o : outcome B) (s : kstate) : Prop :=
  o = UserMode s \/ o = Halted s \/ o = Monitor s.

Lemma leaves_bind {B C} (m : K B) (k : B -> K C) s s' :
  leaves ((m ≫= k) s) s' -> leaves (m s) s' \/ exists b s1, m s = Ret b s1 /\ leaves (k b s1) s'.
Proof.
  unfold leaves, mbind, K_bind. intros H. destruct (m s) as [b s1| | | | | |]; [right; eauto|..];
    left; destruct H as [H|[H|H]]; (discriminate H || (injection H as ->; auto)).
Qed.

(** The scheduler does not touch the environments that are not in use. *)
Lemma sched_yield_free {B} A s i e s' :
  kinv A s -> locked s -> envs s !! i = Some e -> live e = false ->
  leaves (sched_yield (A:=B) s) s' -> envs s' !! i = Some e.
Proof.
  intros H Hlock He Hl. destruct (ki_cpu _ _ H) as (c & Hc & Hce).
  destruct (sched_yield_choice (B:=B) s (cpu_env c)) as (r & Hr & ->); [by apply H|by exists c|].
  destruct r as [j|].
  - destruct (choice_live _ _ _ Hr) as (x & Hx & Hlx).
    assert (j <> i) by (intros ->; congruence).
    destruct (env_run_spec (B:=B) A s j x H Hlock Hx Hlx) as (s1 & -> & _ & _ & _ & o & y & _ & _ & Henv).
    intros [Hs|[Hs|Hs]]; [injection Hs as <-|discriminate Hs..].
    rewrite Henv, lookup_insert_ne by done.
    destruct (demote_lookup _ o i e He) as (e' & He' & [->|[Hrun _]]); [done|].
    apply running_live in Hrun. congruence.
  - destruct (sched_halt_spec (B:=B) A s H Hlock) as [[-> _]|(_ & s1 & -> & _ & _ & Henv)];
      intros [Hs|[Hs|Hs]]; try discriminate Hs; injection Hs as <-; [done|by rewrite Henv].
Qed.

Lemma id_slot es head i e :
  env_inv es head -> es !! i = Some e -> live e = true -> ENVX (env_id e) = i /\ 0 <= i < NENV.
Proof.
  intros H He Hl. destruct (ei_id _ _ H i e He) as [Hid Hmod].
  destruct (ei_live _ _ H i e He Hl) as [_ Hpos].
  assert (Hi : 0 <= i < NENV) by (apply (ei_dom _ _ H); eauto).
  split; [|done]. destruct Hmod as [|Hmod]; [lia|]. unfold ENVX.
  rewrite (land_ones_mod _ 10) by done. assert (NENV = 1024) by done. dlia.
Qed.

Lemma start_of_live A s i e :
  kinv A s -> envs s !! i = Some e -> live e = true -> start_of s (Some i) = i + 1.
Proof.
  intros H He Hl. unfold start_of. rewrite He. simpl.
  by destruct (id_slot _ _ i e (ki_env _ _ H) He Hl) as [-> _].
Qed.

(** ** Fairness *)

(** The environment running in [s] traps into [sched_yield], [n] times over. *)
Fixpoint yields (n : nat) (s : kstate) : option kstate :=
  match n with
  | O => Some s
  | S n =>
      match sched_yield (A:=unit) (set_kernel_lock (Some (cpunum s)) s) with
      | UserMode s' => yields n s'
      | _ => None
      end
  end.

Lemma circ_step i k d :
  0 <= k < d -> d < NENV -> ((i + 1 + d) mod NENV - (i + 1 + k) mod NENV - 1) mod NENV < d.
Proof.
  intros Hk Hd. assert (HN : NENV = 1024) by done.
  rewrite <- Zminus_mod_idemp_l, <- Zminus_mod, Zminus_mod_idemp_l.
  replace (i + 1 + d - (i + 1 + k) - 1) with (d - k - 1) by lia. rewrite Z.mod_small; lia.
Qed.

(** One yield while [j] waits: [j] runs, or an environment strictly closer to it does. *)
Lemma yield_step A s i j :
  kinv A s -> running i s -> has_status s j ENV_RUNNABLE = true ->
  exists i' s', sched_yield (A:=unit) (set_kernel_lock (Some (cpunum s)) s) = UserMode s' /\
    kinv A s' /\ running i' s' /\
    (i' = j \/ has_status s' j ENV_RUNNABLE = true /\
               (j - i' - 1) mod NENV < (j - i - 1) mod NENV).
Proof.
  intros H Hrun Hj. destruct Hrun as (e & Hcur & He & Hst & _ & [_ Haw] & _).
  assert (HN : NENV = 1024) by done.
  set (s0 := set_kernel_lock (Some (cpunum s)) s).
  assert (H0 : kinv A s0) by (by apply kinv_set_lock).
  assert (Hl : live e = true) by (by apply running_live).
  destruct (id_slot _ _ i e (ki_env _ _ H) He Hl) as [_ Hi].
  destruct (proj1 (has_status_lookup s j _) Hj) as (ej & Hej & Hsj).
  assert (Hjr : 0 <= j < NENV) by (by apply (kinv_range A s j ej)).
  destruct (sched_yield_choice (B:=unit) s0 (Some i)) as (r & Hr & ->); [by apply H0|done|].
  assert (Hr' : exists i', r = Some i' /\ first_from s0 (start_of s0 (Some i)) i').
  { inversion Hr as [i' Hf|i' _ Hnone _|Hnone _]; subst; [by exists i'|..];
      specialize (Hnone j Hjr); unfold has_status in *; simpl in Hnone; congruence. }
  destruct Hr' as (i' & -> & k & Hk & Hik & Hs & Hfirst).
  rewrite (start_of_live A s0 i e H0 He Hl) in *.
  destruct (proj1 (has_status_lookup s0 i' _) Hs) as (e' & He' & Hs').
  destruct (env_run_spec (B:=unit) A s0 i' e' H0) as (s1 & -> & H1 & Hrun1 & Hf & o & x & Ho & Hx & Hes);
    [by split|done|by apply (status_live e' _ Hs')|].
  exists i', s1. split; [done|]. split; [done|]. split; [done|].
  destruct (decide (i' = j)) as [|Hne]; [by left|]. right. split.
  - apply has_status_lookup. rewrite Hes, lookup_insert_ne by done.
    destruct (demote_lookup (envs s0) o j ej Hej) as (ej' & Hej' & [->|[? ->]]); eauto.
  - set (d := (j - i - 1) mod NENV).
    assert (Hjd : j = (i + 1 + d) mod NENV).
    { unfold d. rewrite Zplus_mod_idemp_r. replace (i + 1 + (j - i - 1)) with j by lia.
      by rewrite Z.mod_small by lia. }
    assert (Hd : 0 <= d < NENV) by (unfold d; apply Z.mod_pos_bound; lia).
    assert (Hkd : k <= d).
    { destruct (Z.le_gt_cases k d); [done|]. specialize (Hfirst d ltac:(lia)).
      rewrite <- Hjd in Hfirst. change (has_status s0 j ENV_RUNNABLE) with (has_status s j ENV_RUNNABLE) in Hfirst.
      congruence. }
    assert (k <> d) by congruence. rewrite Hik, Hjd. apply circ_step; lia.
Qed.

Lemma yields_until A d : forall s i j,
  kinv A s -> running i s -> has_status s j ENV_RUNNABLE = true ->
  (j - i - 1) mod NENV < Z.of_nat d ->
  exists n s', (1 <= n <= d)%nat /\ yields n s = Some s' /\ kinv A s' /\ running j s'.
Proof.
  induction d as [|d IH]; intros s i j H Hrun Hj Hd.
  - assert (HN : NENV = 1024) by done. pose proof (Z.mod_pos_bound (j - i - 1) NENV). lia.
  - destruct (yield_step A s i j H Hrun Hj) as (i' & s' & Hy & H' & Hrun' & [->|[Hj' Hlt]]).
    + exists 1%nat, s'. simpl. rewrite Hy. split; [lia|done].
    + destruct (IH s' i' j H' Hrun' Hj') as (n & s'' & Hn & Hy' & Hend); [lia|].
      exists (S n), s''. simpl. rewrite Hy. split; [lia|done].
Qed.

(** ** Mutual exclusion *)

(** CPUs entering and leaving the kernel in any order; [inside] are those between
    [lock_kernel] and [unlock_kernel]. *)
Inductive lock_reach (s0 : kstate) : gset Z -> kstate -> Prop :=
  | lock_init : kernel_lock s0 = None -> lock_reach s0 ∅ s0
  | lock_enter inside s c s' : lock_reach s0 inside s ->
      lock_kernel (set_cpunum c s) = Ret tt s' -> lock_reach s0 (inside ∪ {[c]}) s'
  | lock_leave inside s c s' : lock_reach s0 inside s -> c ∈ inside ->
      unlock_kernel (set_cpunum c s) = Ret tt s' -> lock_reach s0 (inside ∖ {[c]}) s'.

Lemma lock_reach_owner s0 inside s :
  lock_reach s0 inside s -> forall c, c ∈ inside <-> kernel_lock s = Some c.
Proof.
  induction 1 as [H0|inside s c s' _ IH Hl|inside s c s' _ IH Hc Hl]; intros c'.
  - rewrite H0. set_solver.
  - unfold lock_kernel, spin_lock, holding in Hl. revert Hl. ks. simpl.
    destruct (kernel_lock s) as [h|] eqn:Hk.
    + destruct (h =? c); simpl; rewrite ?Hk; discriminate.
    + simpl. rewrite Hk. intros Hl. injection Hl as <-. simpl. rewrite elem_of_union, elem_of_singleton, IH.
      split; [by intros [? | ->]|]. intros [= ->]. by right.
  - unfold unlock_kernel, spin_unlock, holding in Hl. revert Hl. ks. simpl.
    rewrite (proj1 (IH c) Hc), Z.eqb_refl. intros Hl. injection Hl as <-. simpl.
    rewrite elem_of_difference, elem_of_singleton, IH, (proj1 (IH c) Hc).
    split; [intros [Heq Hne]; congruence|done].
Qed.

(** ** Properties *)

(** C23. [sched_yield] is a round robin: it switches to the first runnable environment in
    circular order after the one this CPU was running; without a runnable one it goes on with
    the current environment when that is still running, and otherwise halts the CPU, or
    enters the monitor when no user environment is left.  An environment running on another
    CPU is never chosen, the lock is released, and the invariant is kept. *)
Theorem sched_yield_correct A s o :
  kinv A s -> locked s -> cur_is s o ->
  (forall i, o = Some i -> has_status s i ENV_FREE = false) ->
  let start := match o with Some i => i + 1 | None => 0 end in
  (exists i s', first_from s start i /\
     sched_yield (A:=unit) s = UserMode s' /\ kinv A s' /\ resumes i s s') \/
  (none_runnable s /\ exists i s', o = Some i /\ has_status s i ENV_RUNNING = true /\
     sched_yield (A:=unit) s = UserMode s' /\ kinv A s' /\ resumes i s s') \/
  (none_runnable s /\ (forall i, o = Some i -> has_status s i ENV_RUNNING = false) /\
     ((exists i, 0 <= i < NENV /\ alive_user s i = true) /\
        (exists s', sched_yield (A:=unit) s = Halted s' /\ kinv A s' /\ idle s') \/
      (forall i, 0 <= i < NENV -> alive_user s i = false) /\ sched_yield (A:=unit) s = Monitor s)).
Proof.
  intros H Hlock Hcur Hfree start.
  assert (Hstart : start_of s o = start).
  { destruct o as [i|]; [|done]. destruct (ki_cpu _ _ H) as (c & Hc & He).
    destruct Hcur as (c' & Hc' & Ho). rewrite Hc in Hc'. injection Hc' as <-.
    destruct (He i Ho) as [e Hi]. apply (start_of_live A s i e H Hi).
    specialize (Hfree i eq_refl). unfold has_status in Hfree. rewrite Hi in Hfree.
    unfold live. by rewrite Hfree. }
  destruct (sched_yield_choice (B:=unit) s o (ki_cpu _ _ H) Hcur) as (r & Hr & ->).
  destruct Hr as [i Hf|i -> Hnone Hs|Hnone Hs].
  - left. destruct (choice_live s o i (choose_runnable _ _ _ Hf)) as (e & He & Hl).
    destruct (env_run_spec (B:=unit) A s i e H Hlock He Hl) as (s' & -> & H' & Hres).
    rewrite Hstart in Hf. eauto 10.
  - right. left. destruct (choice_live s (Some i) i (choose_current _ _ _ eq_refl Hnone Hs)) as (e & He & Hl).
    destruct (env_run_spec (B:=unit) A s i e H Hlock He Hl) as (s' & -> & H' & Hres). eauto 10.
  - right. right. split; [done|]. split; [done|].
    destruct (sched_halt_spec (B:=unit) A s H Hlock) as [[-> Hn]|(Ha & s' & -> & H' & Hi & _)]; [by right|].
    left. eauto.
Qed.

Lemma sched_yield_correct_witness :
  exists s', sched_yield (A:=unit) kex = UserMode s' /\ kinv kex_A s' /\ running 1 s'.
Proof.
  destruct (sched_yield_correct kex_A kex (Some 0) kex_inv kex_locked kex_cur)
    as [(i & s' & Hf & Hy & H' & Hres)|[(Hnone & _)|(Hnone & _)]].
  - intros i [= <-]. unfold has_status. rewrite kex_env0. reflexivity.
  - exists s'. split; [exact Hy|]. split; [exact H'|].
    destruct Hf as (k & Hk & -> & _ & Hfirst). destruct (Z.eq_dec k 0) as [->|Hk0]; [apply Hres|].
    specialize (Hfirst 0 ltac:(lia)). change ((0 + 1 + 0) mod NENV) with 1 in Hfirst.
    rewrite kex_status1 in Hfirst. discriminate Hfirst.
  - specialize (Hnone 1 ltac:(rewrite NENV_eq; lia)). rewrite kex_status1 in Hnone. discriminate Hnone.
  - specialize (Hnone 1 ltac:(rewrite NENV_eq; lia)). rewrite kex_status1 in Hnone. discriminate Hnone.
Defined.


Definition kex_user : kstate := set_klog [Lcr3 (1 * PGSIZE)] (set_kernel_lock None kex).



