(* ===== verification/EnvOps.v ===== *)
(** * EnvOps: what the operations of [kern/env.c] do to a state satisfying [kinv]

    Allocation and destruction of environments with their address spaces; the identifiers
    given to successive environments of one slot. *)

From S2P Require Import Prelude Layout KState KMem Pmap VmRefs VmInv VmOps Sched UMem Env KInv KEx SchedThms.

(** ** Identifiers *)

Lemma ldiff_1023 x : Z.ldiff x (NENV - 1) = x - x mod 1024.
Proof.
  change (NENV - 1) with (Z.ones 10). rewrite Z.ldiff_ones_r, Z.shiftl_mul_pow2, Z.shiftr_div_pow2 by lia.
  change (2^10) with 1024. dlia.
Qed.

Section ids.
Context (i : Z) (Hi : 0 <= i < NENV).

(** The identifier of generation [g] of slot [i]. *)
Definition gen_id (g : Z) : Z := g * 4096 + i.

Lemma lor_slot g : 0 <= g -> (g * 4096) .| i = gen_id g.
Proof.
  intros Hg. assert (Hi' := Hi). rewrite NENV_eq in Hi'. unfold gen_id.
  change 4096 with (2^12). apply lor_add_high; lia.
Qed.

Lemma next_env_id_gen g :
  0 <= g < 2^19 -> next_env_id (gen_id g) i = gen_id (if g + 1 =? 2^19 then 1 else g + 1).
Proof.
  intros Hg. assert (Hi' := Hi). rewrite NENV_eq in Hi'. unfold next_env_id.
  change (1 .<< ENVGENSHIFT) with 4096. rewrite !ldiff_1023. unfold gen_id.
  destruct (Z.eqb_spec (g + 1) (2^19)) as [Hmax|Hmax].
  - assert (Hneg : i32 (i32 (g * 4096 + i + 4096) - i32 (g * 4096 + i + 4096) mod 1024) <= 0).
    { unfold i32. dlia. }
    rewrite (proj2 (Z.leb_le _ _) Hneg). by apply (lor_slot 1).
  - rewrite (i32_small (g * 4096 + i + 4096)) by lia.
    replace (g * 4096 + i + 4096 - (g * 4096 + i + 4096) mod 1024) with ((g + 1) * 4096) by dlia.
    rewrite i32_small by lia. rewrite (proj2 (Z.leb_gt _ _)) by lia. apply lor_slot. lia.
Qed.

Lemma next_env_id_zero : next_env_id 0 i = gen_id 1.
Proof. unfold next_env_id, gen_id. by apply (lor_slot 1). Qed.

(** What [env_alloc] needs to know. *)
Lemma next_env_id_ok old :
  0 <= old < 2^31 -> old = 0 \/ old mod 4096 = i ->
  0 < next_env_id old i < 2^31 /\ next_env_id old i mod 4096 = i.
Proof.
  intros Hold Hmod. assert (Hi' := Hi). rewrite NENV_eq in Hi'.
  destruct (decide (old = 0)) as [->|Hne].
  - rewrite next_env_id_zero. unfold gen_id. split; [lia|dlia].
  - destruct Hmod as [|Hmod]; [done|].
    assert (Hg : old = gen_id (old / 4096)) by (unfold gen_id; dlia).
    rewrite Hg, next_env_id_gen by dlia. unfold gen_id.
    destruct (Z.eqb_spec (old / 4096 + 1) (2^19)); split; dlia.
Qed.

(** It differs from the identifier of the previous environment. *)
Lemma next_env_id_new old :
  0 <= old < 2^31 -> old = 0 \/ old mod 4096 = i -> next_env_id old i <> old.
Proof.
  intros Hold Hmod. assert (Hi' := Hi). rewrite NENV_eq in Hi'.
  destruct (decide (old = 0)) as [->|Hne].
  - rewrite next_env_id_zero. unfold gen_id. lia.
  - destruct Hmod as [|Hmod]; [done|].
    assert (Hg : old = gen_id (old / 4096)) by (unfold gen_id; dlia).
    intros Heq. rewrite Hg in Heq at 1. rewrite next_env_id_gen in Heq by dlia. unfold gen_id in *.
    destruct (Z.eqb_spec (old / 4096 + 1) (2^19)); dlia.
Qed.

(** The identifiers of slot [i], in order of allocation. *)
Fixpoint nth_id (n : nat) : Z := match n with O => 0 | S n => next_env_id (nth_id n) i end.

Lemma nth_id_eq n : nth_id (S n) = gen_id (1 + Z.of_nat n mod (2^19 - 1)).
Proof.
  induction n as [|n IH]; [apply next_env_id_zero|].
  change (next_env_id (nth_id (S n)) i = gen_id (1 + Z.of_nat (S n) mod (2^19 - 1))).
  rewrite IH, next_env_id_gen by dlia. f_equal.
  destruct (Z.eqb_spec (1 + Z.of_nat n mod (2 ^ 19 - 1) + 1) (2^19)); dlia.
Qed.
End ids.

(** ** A new address space *)

(** [s'] differs from [s] in the page arrays, memory, the TLB log and the table of environments. *)
Definition env_frame (s s' : kstate) : Prop :=
  vm_frame (set_env_free_list (env_free_list s') (set_envs (envs s') s)) s'.

Lemma env_frame_trans s1 s2 s3 : env_frame s1 s2 -> env_frame s2 s3 -> env_frame s1 s3.
Proof. unfold env_frame, vm_frame. intros H1 H2. rewrite H2, H1. by destruct s1, s2, s3. Qed.
Lemma vm_env_frame s s' : vm_frame s s' -> env_frame s s'.
Proof. unfold env_frame, vm_frame. intros H. rewrite H. by destruct s, s'. Qed.
Lemma env_frame_cpus s s' : env_frame s s' -> cpus s' = cpus s /\ cpunum s' = cpunum s.
Proof. by intros ->. Qed.
Lemma env_frame_lock s s' : env_frame s s' -> kernel_lock s' = kernel_lock s.
Proof. by intros ->. Qed.
Lemma env_frame_kern s s' : env_frame s s' -> kern_pgdir s' = kern_pgdir s /\ npages s' = npages s.
Proof. by intros ->. Qed.
#[export] Hint Resolve vm_env_frame : frame.

Lemma copy_kva_eq s d r :
  0 <= d < npages s -> 0 <= r < npages s ->
  copy_kva (kva d) (kva r) s = Ret tt (set_mem (copy_page (mem s) d r) s).
Proof.
  intros Hd Hr. unfold copy_kva, kva, PGSIZE.
  replace (KERNBASE + d * 4096 - KERNBASE) with (d * 4096) by lia.
  replace (KERNBASE + r * 4096 - KERNBASE) with (r * 4096) by lia.
  rewrite !Z.div_mul by lia. rewrite !(proj2 (Z.leb_le _ _)), !(proj2 (Z.ltb_lt _ _)) by lia. done.
Qed.

Lemma pde_self q : 0 <= q < 65536 -> (q * PGSIZE) .| PTE_P .| PTE_U = mkpte q PTE_U.
Proof.
  intros. unfold mkpte, PGSHIFT. rewrite shiftl_mul by lia. change (2^12) with PGSIZE.
  rewrite <- !Z.lor_assoc. done.
Qed.

Lemma UVPT_kernel x : x ∈ upde -> x <> PDX UVPT.
Proof. intros Hx%elem_upde ->. revert Hx. change (PDX UVPT) with 957. lia. Qed.

(** The memory after a directory has been set up in page [q]. *)
Definition new_dir (m : memory) (q kd : Z) : memory :=
  wrw (copy_page (zero_page m q) q kd) q (PDX UVPT) (mkpte q PTE_U).

Lemma new_dir_other m q kd pg y : pg <> q -> rdw (new_dir m q kd) pg y = rdw m pg y.
Proof.
  intros H. unfold new_dir. rewrite rdw_wrw_ne by auto. rewrite rdw_copy_page, decide_False by done.
  by rewrite rdw_zero_page, decide_False.
Qed.

Lemma new_dir_self m q kd y :
  q <> kd -> rdw (new_dir m q kd) q y = if decide (y = PDX UVPT) then mkpte q PTE_U else rdw m kd y.
Proof.
  intros H. unfold new_dir. rewrite rdw_wrw. destruct (decide (y = PDX UVPT)) as [->|Hne].
  - by rewrite decide_True.
  - rewrite decide_False by naive_solver. rewrite rdw_copy_page, decide_True by done.
    by rewrite rdw_zero_page, decide_False.
Qed.

Lemma env_setup_vm_spec A s i e q kd :
  vm_inv A (roots (envs s)) ∅ s -> kern_dir A s kd -> envs s !! i = Some e ->
  page_free_list s = Some q ->
  exists s', env_setup_vm i s = Ret 0 s' /\
    vm_inv A (q :: roots (envs s)) ∅ s' /\ env_frame s s' /\ env_free_list s' = env_free_list s /\
    envs s' = <[i := set_env_pgdir (kva q) e]> (envs s) /\
    mem s' = new_dir (mem s) q kd /\ q ∈ A /\ refs (mem s) (roots (envs s)) q = 0.
Proof.
  intros H (Hkd & HkA & Hkr & Hkz) He Hq. set (D := roots (envs s)) in *.
  destruct (page_alloc_spec ∅ s ALLOC_ZERO q H Hq) as (s1 & Hs1 & H1 & Hf1 & Hk1 & HqA & _ & H0 & Hm1).
  pose proof (vm_npages H) as Hn. pose proof (vm_frame_npages _ _ Hf1) as Hn1.
  pose proof (vm_pool H q HqA) as Hqn.
  destruct (mkpte_ok q PTE_U) as (Hv & _ & _); [lia|done|].
  assert (Hqk : q <> kd) by congruence.
  change (truth (ALLOC_ZERO .& ALLOC_ZERO)) with true in Hm1. cbn iota in Hm1.
  set (m' := new_dir (mem s) q kd).
  assert (Hnt : ~ is_table (mem s) D q) by (by apply tbl_unref).
  assert (Htab : forall p y, is_table (mem s) D p -> rdw m' p y = rdw (mem s) p y).
  { intros p y Hp. apply new_dir_other. congruence. }
  assert (Hw : forall p y, 0 <= rdw m' p y < 2^32).
  { intros p y. destruct (decide (p = q)) as [->|Hne].
    - unfold m'. rewrite new_dir_self by done. destruct (decide _); [done|apply (vm_word H)].
    - unfold m'. rewrite new_dir_other by done. apply (vm_word H). }
  pose proof (tbl_frame A D (mem s) (proj1 H) m' Htab Hw) as Ht.
  assert (Hr : forall j, refs m' D j = refs (mem s) D j) by (intros j; by apply refs_frame).
  destruct (tbl_add_root A D m' Ht q HqA) as [Ht' Hr'].
  { by rewrite Hr. }
  { intros x Hx. unfold m'. rewrite new_dir_self, decide_False by auto using UVPT_kernel. by apply Hkz. }
  assert (Hp1 : pg_inv A (∅ ∪ {[q]}) (npages s) (refs (mem s) D) (pages s1) (page_free_list s1)).
  { rewrite <- Hn1. eapply pg_inv_ext; [|exact (proj2 H1)]. intros j _. rewrite Hm1.
    apply (refs_frame (zero_page (mem s) q) (mem s)). intros p y Hp.
    rewrite rdw_zero_page, decide_False; [done|]. intros ->.
    apply (tbl_unref D (zero_page (mem s) p) p); [|done].
    rewrite (refs_frame (mem s)); [done|]. intros p' y' Hp'. rewrite rdw_zero_page, decide_False; [done|].
    congruence. }
  destruct (pg_inv_incr _ _ _ _ _ _ (refs m' (q :: D)) q Hp1 HqA) as (p & Hp & Hpr & Hp2);
    [left; set_solver|lia|intros j; rewrite Hr', Hr; done|].
  rewrite H0 in Hpr, Hp2.
  unfold env_setup_vm. rewrite (bind_Ret _ _ _ _ _ Hs1).
  rewrite (bind_Ret _ _ _ _ _ (upd_page_eq s1 q p _ Hp)). rewrite Hpr. set (s2 := set_pages _ s1).
  assert (Hn2 : npages s2 = npages s) by done.
  assert (He2 : envs s2 !! i = Some e) by (rewrite <- He; f_equal; apply (vm_frame_envs _ _ Hf1)).
  rewrite (bind_Ret _ _ _ _ _ (page2kva_eq s2 ltac:(lia) q ltac:(lia))).
  rewrite (bind_Ret _ _ _ _ _ (upd_env_eq s2 i e _ He2)). set (s3 := set_envs _ s2).
  assert (Hk3 : kern_pgdir s3 = kva kd) by (rewrite <- Hkd; unfold s3, s2; simpl; by rewrite Hf1).
  ks. rewrite Hk3. rewrite (copy_kva_eq s3) by (change (npages s3) with (npages s2); lia).
  set (s4 := set_mem _ s3). rewrite PADDR_kva by lia.
  rewrite (kstore_kva s4) by (change (npages s4) with (npages s2) || auto with frame; lia || auto with frame).
  eexists. split; [done|]. rewrite pde_self by lia.
  assert (Hm : wrw (mem s4) q (PDX UVPT) (mkpte q PTE_U) = m').
  { unfold m', new_dir, s4, s3, s2. simpl. by rewrite Hm1. }
  rewrite Hm. split; [|split; [|split; [|split; [|done]]]].
  - split; [done|]. simpl. change (npages s1) with (npages s2). rewrite Hn2.
    replace ∅ with ((∅ ∪ {[q]}) ∖ {[q]} : gset Z) by set_solver. done.
  - unfold env_frame, vm_frame in *. simpl. unfold s4, s3, s2. rewrite Hf1. by destruct s.
  - simpl. by rewrite Hf1.
  - simpl. by rewrite (vm_frame_envs _ _ Hf1).
Qed.

(** ** Allocation *)

(** A new environment in slot [i], whose previous occupant was [e]. *)
Definition new_env (parent i q : Z) (e : Env) : Env :=
  mkEnv new_tf (env_link e) (next_env_id (env_id e) i) parent ENV_TYPE_USER ENV_RUNNABLE 0
    (env_cpunum e) (kva q) 0 false (env_ipc_dstva e) (env_ipc_value e) (env_ipc_from e)
    (env_ipc_perm e) 0.

Lemma kva_root q : (kva q - KERNBASE) / PGSIZE = q.
Proof. unfold kva. replace (KERNBASE + q * PGSIZE - KERNBASE) with (q * PGSIZE) by lia. apply Z.div_mul. done. Qed.

Lemma cpu_ok_envs s es : cpu_ok s -> (forall i, is_Some (envs s !! i) -> is_Some (es !! i)) -> forall s',
  cpus s' = cpus s -> cpunum s' = cpunum s -> envs s' = es -> cpu_ok s'.
Proof.
  intros (c & Hc & He) Hes s' Hcs Hn Hen. exists c. rewrite Hcs, Hn, Hen. split; [done|].
  intros i Hi. by apply Hes, He.
Qed.

Lemma is_Some_insert {V} (m : gmap Z V) i v j : is_Some (m !! j) -> is_Some (<[i := v]> m !! j).
Proof.
  intros H. destruct (decide (i = j)) as [<-|]; [rewrite lookup_insert_eq; eauto|].
  by rewrite lookup_insert_ne.
Qed.

(** The assignments of [env_alloc] after the address space has been set up. *)
Lemma env_alloc_fields s i e q parent :
  envs s !! i = Some (set_env_pgdir (kva q) e) ->
  (upd_env i (fun x => set_env_id (next_env_id (env_id x) i) x);;
   upd_env i (set_env_parent_id parent);;
   upd_env i (set_env_type ENV_TYPE_USER);;
   upd_env i (set_env_status ENV_RUNNABLE);;
   upd_env i (set_env_runs 0);;
   upd_env i (set_env_priority 0);;
   upd_env i (set_env_tf new_tf);;
   upd_env i (set_env_pgfault_upcall 0);;
   upd_env i (set_env_ipc_recving false);;
   x ← get_env i;
   modify (set_env_free_list (env_link x));;
   mret (0, Some i)) s =
  Ret (0, Some i) (set_env_free_list (env_link e)
    (set_envs (<[i := new_env parent i q e]> (envs s)) s)).
Proof.
  intros He. rewrite (bind_Ret _ _ _ _ _ (upd_env_eq s i _ _ He)).
  fold (with_env i (set_env_id (next_env_id (env_id (set_env_pgdir (kva q) e)) i) (set_env_pgdir (kva q) e)) s).
  do 8 rewrite (bind_Ret _ _ _ _ _ (upd_with_env s i _ _)).
  rewrite (bind_Ret _ _ _ _ _ (get_with_env s i _)). done.
Qed.

Lemma env_alloc_spec A s parent i q :
  kinv A s -> env_free_list s = Some i -> page_free_list s = Some q ->
  exists e kd s', envs s !! i = Some e /\ env_status e = ENV_FREE /\ kern_dir A s kd /\
    env_alloc parent s = Ret (0, Some i) s' /\ kinv A s' /\ env_frame s s' /\
    envs s' = <[i := new_env parent i q e]> (envs s) /\
    mem s' = new_dir (mem s) q kd /\ q ∈ A /\ refs (mem s) (roots (envs s)) q = 0.
Proof.
  intros H Hi Hq. destruct H as [Hv He (kd & Hk) Hc].
  assert (He' := He). rewrite Hi in He'.
  destruct (ei_list _ _ He') as (fl & Hfl & _ & Hin).
  destruct fl as [|j fl]; [done|]. destruct Hfl as (Hj & e & Hie & _). injection Hj as <-.
  destruct (proj1 (Hin i) ltac:(left)) as (e0 & He0 & Hst). rewrite Hie in He0. injection He0 as <-.
  assert (Hir : 0 <= i < NENV) by (apply (ei_dom _ _ He); eauto).
  destruct (ei_id _ _ He i e Hie) as [Hid Hmod].
  destruct (next_env_id_ok i Hir (env_id e) Hid Hmod) as [Hnid Hnmod].
  destruct (env_setup_vm_spec A s i e q kd Hv Hk Hie Hq)
    as (s1 & Hs1 & Hv1 & Hf1 & Hl1 & He1 & Hm1 & HqA & H0).
  set (e' := new_env parent i q e).
  set (s2 := set_env_free_list (env_link e) (set_envs (<[i := e']> (envs s)) s1)).
  exists e, kd, s2. split; [done|]. split; [done|]. split; [done|].
  assert (Hroot : root_of e' = q) by apply kva_root.
  assert (Hf2 : env_frame s s2).
  { unfold env_frame, vm_frame, s2 in *. simpl. rewrite Hf1. by destruct s, s1. }
  split; [|split; [|split; [done|done]]].
  - unfold env_alloc. rewrite (bind_Ret _ (get env_free_list) s (Some i) s) by (unfold get; by rewrite Hi).
    cbn iota. rewrite (bind_Ret _ _ _ _ _ Hs1). change (0 <? 0) with false. cbn iota.
    rewrite (env_alloc_fields s1 i e q parent) by (by rewrite He1, lookup_insert_eq).
    by rewrite He1, insert_insert_eq.
  - destruct (env_frame_kern _ _ Hf2) as [Hkd2 Hn2]. destruct (env_frame_cpus _ _ Hf2) as [Hc2 Hcn2].
    split.
    + apply (vm_inv_perm A (q :: roots (envs s))); [|done].
      rewrite <- Hroot. symmetry. apply (roots_alloc _ i e); [done..| |done]. by apply live_free.
    + apply env_inv_alloc; try done; simpl; by rewrite ?Hroot.
    + exists kd. destruct Hk as (Hk1 & HkA & Hkr & Hkz). split; [by rewrite Hkd2|].
      split; [done|]. split; [by rewrite Hn2|]. intros x Hx. simpl. rewrite Hm1.
      rewrite new_dir_other; [by apply Hkz|congruence].
    + by apply (cpu_ok_envs s (<[i := e']> (envs s)) Hc (is_Some_insert (envs s) i e')).
Qed.

Lemma env_alloc_fail A s parent :
  kinv A s ->
  (env_free_list s = None -> env_alloc parent s = Ret (- E_NO_FREE_ENV, None) s) /\
  (forall i, env_free_list s = Some i -> page_free_list s = None ->
     env_alloc parent s = Ret (- E_NO_MEM, None) s).
Proof.
  intros H. unfold env_alloc. ks. split; [intros ->; done|]. intros i -> Hp.
  unfold env_setup_vm. ks. by rewrite page_alloc_empty.
Qed.
