(* ===== verification/EnvFree.v ===== *)
(** * EnvFree: destroying an environment gives back all it owned ([kern/env.c])

    [env_free] walks the user half of the page directory, unmaps every page, frees the page
    tables and the directory, and puts the environment on the free list.  The address spaces
    of the other environments are untouched. *)

From S2P Require Import Prelude Layout KState KMem Pmap VmRefs VmInv VmOps Sched UMem Env KInv KEx SchedThms EnvOps.

Lemma user_va x y :
  x ∈ upde -> y ∈ ptes ->
  0 <= PGADDR x y 0 < UTOP /\ PDX (PGADDR x y 0) = x /\ PTX (PGADDR x y 0) = y.
Proof.
  intros Hx%elem_upde Hy%elem_ptes. rewrite PGADDR_index by lia. rewrite PDX_div, PTX_div.
  split; [clia|]. split; dlia.
Qed.

(** Only words of page [p] differ. *)
Definition only_page (p : Z) (m m' : memory) : Prop :=
  forall pg y, pg <> p -> rdw m' pg y = rdw m pg y.

Section table.
Context {A : gset Z} {D : list Z} {X : gset Z}.

Lemma free_pte s d x p y :
  vm_inv A D X s -> cpu_ok s -> pt_of (mem s) D d x p -> y ∈ ptes ->
  exists s', (w ← kload (kva p + 4 * y);
              when (truth (w .& PTE_P)) (page_remove (kva d) (PGADDR x y 0))) s = Ret tt s' /\
    vm_inv A D X s' /\ vm_frame s s' /\ only_page p (mem s) (mem s') /\
    (forall y', present (rdw (mem s') p y') = true -> y' <> y /\ present (rdw (mem s) p y') = true).
Proof.
  intros H Hcpu Hp Hy. assert (Hp' := Hp). destruct Hp' as (Hd & Hx & Hpr & Hpg).
  destruct (user_va x y Hx Hy) as (Hva & HPD & HPT).
  assert (Hpn : 0 <= p < npages s) by (apply (vm_pool H), (ti_pde _ _ _ (proj1 H) d x p Hp)).
  rewrite (bind_Ret _ _ _ _ _ (kload_kva s p y Hpn ltac:(by apply elem_ptes))).
  fold (present (rdw (mem s) p y)). destruct (present (rdw (mem s) p y)) eqn:Hpy.
  - assert (Hm : vmap (mem s) d (PGADDR x y 0) = Some (rdw (mem s) p y)).
    { unfold vmap. rewrite HPD, HPT, Hpr, Hpg, Hpy. done. }
    destruct (page_remove_spec H d (PGADDR x y 0) Hd Hva _ Hcpu Hm)
      as (p' & s' & Hp' & Hr & H' & Hf & Hm' & _).
    assert (p' = p) as ->.
    { rewrite HPD in Hp'. destruct Hp as (_ & _ & _ & <-), Hp' as (_ & _ & _ & <-). done. }
    rewrite HPT in Hm'. exists s'. split; [exact Hr|]. split; [done|]. split; [done|]. rewrite Hm'. split.
    + intros pg y' Hne. by rewrite rdw_wrw_ne by auto.
    + intros y'. rewrite rdw_wrw. destruct (decide _) as [[_ ->]|Hne]; [done|].
      intros Hy'. split; [|done]. intros ->. by apply Hne.
  - exists s. split; [done|]. split; [done|]. split; [auto with frame|]. split; [done|].
    intros y' Hy'. split; [|done]. intros ->. congruence.
Qed.

Lemma pt_of_only_page m m' p d' x' p' :
  only_page p m m' -> d' <> p -> pt_of m' D d' x' p' <-> pt_of m D d' x' p'.
Proof. intros Ho Hd. unfold pt_of. by rewrite Ho. Qed.

Lemma free_table s d x p ys :
  vm_inv A D X s -> cpu_ok s -> pt_of (mem s) D d x p -> (forall y, y ∈ ys -> y ∈ ptes) ->
  exists s', kfor ys (fun y => w ← kload (kva p + 4 * y);
              when (truth (w .& PTE_P)) (page_remove (kva d) (PGADDR x y 0))) s = Ret tt s' /\
    vm_inv A D X s' /\ vm_frame s s' /\ only_page p (mem s) (mem s') /\
    (forall y, y ∈ ys -> present (rdw (mem s') p y) = false) /\
    (forall y, present (rdw (mem s') p y) = true -> present (rdw (mem s) p y) = true).
Proof.
  revert s. induction ys as [|y ys IH]; intros s H Hcpu Hp Hys.
  { exists s. split; [done|]. split; [done|]. split; [auto with frame|]. split; [done|].
    split; [by intros ? ?%elem_of_nil|done]. }
  cbn [kfor]. destruct (free_pte s d x p y H Hcpu Hp) as (s1 & Hs1 & H1 & Hf1 & Ho1 & Hpr1).
  { apply Hys. left. }
  rewrite (bind_Ret _ _ _ _ _ Hs1).
  assert (Hdp : d <> p).
  { intros ->. by apply (tbl_pt_root A D _ (proj1 H) p x p Hp), Hp. }
  destruct (IH s1) as (s2 & Hs2 & H2 & Hf2 & Ho2 & Hab & Hpr2).
  - done.
  - by apply (cpu_ok_frame s).
  - by apply (pt_of_only_page (mem s) (mem s1) p).
  - intros y' Hy'. apply Hys. by right.
  - exists s2. split; [exact Hs2|]. split; [done|]. split; [by eapply vm_frame_trans|]. split.
    { intros pg y' Hne. by rewrite Ho2, Ho1. }
    split; [|intros y' Hy'%Hpr2%Hpr1; tauto].
    intros y' [->|Hy']%elem_of_cons; [|by apply Hab].
    destruct (present (rdw (mem s2) p y)) eqn:Hpy; [|done]. apply Hpr2, Hpr1 in Hpy. tauto.
Qed.

(** The memory outside the tables of directory [d]. *)
Definition outside (m m' : memory) (d : Z) : Prop :=
  forall pg y, pg <> d -> (forall x, ~ pt_of m D d x pg) -> rdw m' pg y = rdw m pg y.

Lemma free_pde s d x :
  vm_inv A D X s -> cpu_ok s -> d ∈ D -> x ∈ upde ->
  exists s', env_free_pde (kva d) x s = Ret tt s' /\
    vm_inv A D X s' /\ vm_frame s s' /\
    (forall pg y, pg <> d -> ~ pt_of (mem s) D d x pg -> rdw (mem s') pg y = rdw (mem s) pg y) /\
    (forall x', x' <> x -> rdw (mem s') d x' = rdw (mem s) d x') /\
    present (rdw (mem s') d x) = false.
Proof.
  intros H Hcpu Hd Hx. pose proof (vm_npages H) as Hn.
  assert (Hdn : 0 <= d < npages s) by (apply (vm_pool H); by apply (ti_root _ _ _ (proj1 H))).
  assert (Hxr : 0 <= x < 1024) by (apply elem_upde in Hx; lia).
  unfold env_free_pde. rewrite (bind_Ret _ _ _ _ _ (kload_kva s d x Hdn Hxr)).
  destruct (present (rdw (mem s) d x)) eqn:Hpr.
  2:{ unfold present, truth in Hpr. apply negb_false_iff in Hpr. rewrite Hpr. exists s.
      split; [done|]. split; [done|]. split; [auto with frame|]. split; [done|]. split; [done|].
      unfold present, truth. by rewrite Hpr. }
  unfold present, truth in Hpr. rewrite (proj1 (negb_true_iff _) Hpr).
  set (p := pgn (rdw (mem s) d x)).
  assert (Hp : pt_of (mem s) D d x p) by (by repeat split).
  assert (HpA : p ∈ A) by (by apply (ti_pde _ _ _ (proj1 H) d x)).
  assert (Hpn := vm_pool H p HpA).
  rewrite (bind_Ret _ _ _ _ _ (KADDR_pte s Hn _ (vm_word H d x) (proj2 Hpn))). fold p.
  destruct (free_table s d x p (seqZ 0 (PTX 0xFFFFFFFF + 1)) H Hcpu Hp) as
    (s1 & Hs1 & H1 & Hf1 & Ho1 & Hab & _).
  { done. }
  unfold env_free_table. rewrite (bind_Ret _ _ _ _ _ Hs1).
  assert (Hdp : d <> p).
  { intros Heq. apply (tbl_pt_root A D _ (proj1 H) d x p Hp). by rewrite <- Heq. }
  assert (Hp1 : pt_of (mem s1) D d x p) by (by apply (pt_of_only_page (mem s) (mem s1) p)).
  destruct (tbl_clear_pde A D (mem s1) (proj1 H1) d x p Hp1 Hab) as [Ht2 Hr2].
  pose proof (vm_frame_npages _ _ Hf1) as Hn1.
  rewrite (bind_Ret _ _ _ _ _ (kstore_kva s1 d x 0 ltac:(lia) Hxr)).
  set (s2 := set_mem _ s1).
  rewrite (bind_Ret _ _ _ _ _ (pa2page_eq s2 _ (vm_word H d x) ltac:(change (npages s2) with (npages s1); fold p; lia))). fold p.
  assert (Hpos : 0 < refs (mem s1) D p).
  { rewrite (ti_table _ _ _ (proj1 H1)); [lia|]. right. by exists d, x. }
  destruct (page_decref_spec X s2 p _ (refs (wrw (mem s1) d x 0) D) (proj2 H1) HpA Hpos Hr2)
    as (s3 & Hs3 & Hpg3 & Hf3 & Hm3 & _).
  exists s3. split; [exact Hs3|]. pose proof (vm_frame_npages _ _ Hf3) as Hn3.
  split; [|split; [|split; [|split]]].
  - unfold vm_inv. rewrite Hm3. split; [done|]. rewrite Hn3. done.
  - eapply vm_frame_trans; [exact Hf1|]. eapply vm_frame_trans; [|exact Hf3]. unfold s2. auto with frame.
  - intros pg y Hpd Hnp. rewrite Hm3. simpl. rewrite rdw_wrw_ne by auto. apply Ho1. intros ->. by apply Hnp.
  - intros x' Hx'. rewrite Hm3. simpl. rewrite rdw_wrw_ne by auto. by apply Ho1.
  - rewrite Hm3. simpl. by rewrite rdw_wrw_eq.
Qed.

Lemma free_pdes s d xs :
  vm_inv A D X s -> cpu_ok s -> d ∈ D -> (forall x, x ∈ xs -> x ∈ upde) ->
  exists s', kfor xs (env_free_pde (kva d)) s = Ret tt s' /\
    vm_inv A D X s' /\ vm_frame s s' /\ outside (mem s) (mem s') d /\
    (forall x, x ∈ xs -> present (rdw (mem s') d x) = false) /\
    (forall x p, pt_of (mem s') D d x p -> pt_of (mem s) D d x p).
Proof.
  revert s. induction xs as [|x xs IH]; intros s H Hcpu Hd Hxs.
  { exists s. split; [done|]. split; [done|]. split; [auto with frame|]. split; [done|].
    split; [by intros ? ?%elem_of_nil|done]. }
  cbn [kfor]. destruct (free_pde s d x H Hcpu Hd) as (s1 & Hs1 & H1 & Hf1 & Ho1 & Hd1 & Hx1).
  { apply Hxs. left. }
  rewrite (bind_Ret _ _ _ _ _ Hs1).
  assert (Hback : forall x' p, pt_of (mem s1) D d x' p -> pt_of (mem s) D d x' p).
  { intros x' p (? & ? & Hpr & Hpg). destruct (decide (x' = x)) as [->|Hne]; [congruence|].
    rewrite Hd1 in Hpr, Hpg by done. by repeat split. }
  destruct (IH s1) as (s2 & Hs2 & H2 & Hf2 & Ho2 & Hab & Hpt2).
  - done.
  - by apply (cpu_ok_frame s).
  - done.
  - intros x' Hx'. apply Hxs. by right.
  - exists s2. split; [exact Hs2|]. split; [done|]. split; [by eapply vm_frame_trans|]. split.
    { intros pg y Hne Hnp. rewrite Ho2, Ho1; [done|done|by apply Hnp|done|].
      intros x' Hx'%Hback. by apply (Hnp x'). }
    split; [|intros x' p Hp'%Hpt2; by apply Hback].
    intros x' [->|Hx']%elem_of_cons; [|by apply Hab].
    destruct (present (rdw (mem s2) d x)) eqn:Hpr; [|done].
    assert (Hp : pt_of (mem s1) D d x (pgn (rdw (mem s2) d x))).
    { apply Hpt2. repeat split; [done| |done]. apply Hxs. left. }
    destruct Hp as (_ & _ & Hpr' & _). congruence.
Qed.
End table.

(** ** The environment *)

(** Environment [e] after it has been put on the free list in front of [fl]. *)
Definition freed (fl : option Z) (e : Env) : Env :=
  set_env_link fl (set_env_status ENV_FREE (set_env_pgdir 0 e)).

Lemma pa2page_page s q : 0 <= q < npages s -> npages s <= 65536 -> pa2page (q * PGSIZE) s = Ret q s.
Proof.
  intros Hq Hn. unfold pa2page. ks. rewrite PGNUM_div. unfold PGSIZE. rewrite Z.div_mul by lia.
  by rewrite (proj2 (Z.leb_gt _ _)) by lia.
Qed.

(** The assignments at the end of [env_free]. *)
Lemma env_free_fields s i e x :
  (upd_env i (set_env_status ENV_FREE);;
   fl ← get env_free_list;
   upd_env i (set_env_link fl);;
   modify (set_env_free_list (Some i))) (with_env i (set_env_pgdir x e) s) =
  Ret tt (set_env_free_list (Some i)
    (with_env i (set_env_link (env_free_list s) (set_env_status ENV_FREE (set_env_pgdir x e))) s)).
Proof.
  rewrite (bind_Ret _ _ _ _ _ (upd_with_env s i _ _)).
  rewrite (bind_Ret _ (get env_free_list) _ (env_free_list s)
    (with_env i (set_env_status ENV_FREE (set_env_pgdir x e)) s)) by done.
  rewrite (bind_Ret _ _ _ _ _ (upd_with_env s i _ _)). done.
Qed.

(** The switch to the kernel's directory when the current environment is freed *)
Lemma env_free_lcr3 {B} A s i (k : K B) :
  kinv A s -> exists l, (c ← curenv;
    when (bool_decide (c = Some i)) (kd ← get kern_pgdir; pa ← PADDR kd; emit (Lcr3 pa));; k) s
  = k (set_klog l s).
Proof.
  intros H. destruct (ki_cpu _ _ H) as (c & Hc & _). destruct (ki_kern _ _ H) as (kd & Hkd & _ & Hr & _).
  pose proof (vm_npages (ki_vm _ _ H)) as Hn.
  rewrite (bind_Ret _ _ _ _ _ (curenv_eq s (cpu_env c) ltac:(by exists c))).
  destruct (bool_decide (cpu_env c = Some i)).
  - exists (Lcr3 (kd * PGSIZE) :: klog s). ks. rewrite Hkd, PADDR_kva by lia. done.
  - exists (klog s). ks. by destruct s.
Qed.

Lemma env_frame_table s s' l i e :
  vm_frame s s' -> env_frame s (set_env_free_list l (with_env i e s')).
Proof.
  intros H. unfold env_frame, vm_frame, with_env in *. destruct s, s'. cbv in H |- *.
  injection H. intros. by subst.
Qed.

Lemma env_free_spec A s i e :
  kinv A s -> envs s !! i = Some e -> live e = true ->
  exists s', env_free i s = Ret tt s' /\ kinv A s' /\ env_frame s s' /\
    env_free_list s' = Some i /\ envs s' = <[i := freed (env_free_list s) e]> (envs s) /\
    outside (D:=roots (envs s)) (mem s) (mem s') (root_of e).
Proof.
  intros H He Hl. assert (Hi := kinv_range A s i e H He).
  destruct (kinv_root A s i e H He Hl) as (Hd & Hpg & Hrng). set (d := root_of e) in *.
  set (D := roots (envs s)) in *. set (e' := freed (env_free_list s) e).
  unfold env_free. destruct (env_free_lcr3 A s i (x ← get_env i;
    kfor (seqZ 0 (PDX UTOP)) (env_free_pde (env_pgdir x));;
    pa ← PADDR (env_pgdir x); upd_env i (set_env_pgdir 0);; pp ← pa2page pa; page_decref pp;;
    upd_env i (set_env_status ENV_FREE);; fl ← get env_free_list; upd_env i (set_env_link fl);;
    modify (set_env_free_list (Some i))) H) as [l ->].
  set (s0 := set_klog l s). assert (H0 : kinv A s0) by (by apply kinv_set_klog).
  rewrite (bind_Ret _ _ _ _ _ (get_env_eq s0 i e He)). rewrite Hpg.
  destruct (free_pdes s0 d (seqZ 0 (PDX UTOP)) (ki_vm _ _ H0) (ki_cpu _ _ H0) Hd)
    as (s1 & Hs1 & H1 & Hf1 & Ho1 & Hab & _); [done|].
  rewrite (bind_Ret _ _ _ _ _ Hs1). pose proof (vm_npages H1) as Hn1.
  assert (Hnn : npages s1 = npages s) by (by apply (vm_frame_npages s0)).
  rewrite (bind_Ret _ _ _ _ _ (PADDR_kva s1 d ltac:(lia))).
  assert (He1 : envs s1 !! i = Some e) by (rewrite <- He; f_equal; apply (vm_frame_envs _ _ Hf1)).
  rewrite (bind_Ret _ _ _ _ _ (upd_env_eq s1 i e _ He1)). fold (with_env i (set_env_pgdir 0 e) s1).
  set (s2 := with_env _ _ s1).
  assert (Hn2 : npages s2 = npages s1) by done.
  rewrite (bind_Ret _ _ _ _ _ (pa2page_page s2 d ltac:(lia) ltac:(lia))).
  assert (HD : D ≡ₚ d :: roots (<[i := e']> (envs s))) by (by apply roots_free).
  destruct (tbl_drop_root A D (mem s1) d _ (proj1 H1) HD Hab) as [Ht Hr].
  destruct (page_decref_spec ∅ s2 d _ (refs (mem s1) (roots (<[i := e']> (envs s)))) (proj2 H1)
    (ti_root _ _ _ (proj1 H1) d Hd)) as (s3 & Hs3 & Hpg3 & Hf3 & Hm3 & _);
    [rewrite (ti_table _ _ _ (proj1 H1)); [lia|by left]|exact Hr|].
  rewrite (bind_Ret _ _ _ _ _ Hs3).
  assert (Hen1 : envs s1 = envs s) by apply (vm_frame_envs _ _ Hf1).
  set (s3' := set_klog (klog s3) (set_page_free_list (page_free_list s3) (set_pages (pages s3) s1))).
  assert (Hs3' : s3 = with_env i (set_env_pgdir 0 e) s3').
  { unfold s3', with_env. simpl. rewrite Hf3, Hm3. unfold s2, with_env. simpl. by destruct s1. }
  rewrite Hs3'. rewrite env_free_fields.
  assert (Hfl : env_free_list s3' = env_free_list s) by (simpl; by rewrite Hf1).
  rewrite Hfl. fold (freed (env_free_list s) e). fold e'.
  eexists. split; [done|].
  assert (Hes : <[i := e']> (envs s3') = <[i := e']> (envs s)) by (simpl; by rewrite Hen1).
  split; [split|split; [|split; [|split]]].
  - simpl. rewrite Hen1. split; [done|]. simpl. rewrite <- (vm_frame_npages _ _ Hf3) in Hpg3.
    rewrite Hs3' in Hpg3. done.
  - simpl. rewrite Hen1. by apply (env_inv_free _ (env_free_list s) i e e' (ki_env _ _ H)).
  - destruct (ki_kern _ _ H) as (kd & Hkd & HkA & Hkr & Hkz). exists kd.
    split; [simpl; by rewrite Hf1|]. split; [done|]. split; [simpl; by rewrite Hnn|].
    intros x Hx. simpl. rewrite Ho1; [by apply Hkz| |].
    + intros ->. apply HkA. by apply (ti_root _ _ _ (proj1 H1)).
    + intros x' Hx'. apply HkA. by apply (ti_pde _ _ _ (proj1 (ki_vm _ _ H)) d x').
  - apply (cpu_ok_envs s (<[i := e']> (envs s)) (ki_cpu _ _ H) (is_Some_insert (envs s) i e'));
      simpl; by rewrite Hf1.
  - apply env_frame_table. apply (vm_frame_trans s s0); [unfold s0; auto with frame|].
    apply (vm_frame_trans s0 s1); [done|]. unfold s3'. auto with frame.
  - done.
  - simpl. by rewrite Hen1.
  - exact Ho1.
Qed.
