(* ===== verification/EnvThms.v ===== *)
(** * EnvThms: the theorems about environments

    Identifiers, the initial free list, allocation with a fresh address space, destruction
    that gives everything back, and the lookup with its permission check. *)

From S2P Require Import Prelude Layout KState KMem Pmap VmRefs VmInv VmOps VmThms Sched UMem Env KInv KEx SchedThms EnvOps EnvFree.

(** ** Address spaces that share no table *)

Section others.
Context {A : gset Z} {D : list Z} {m m' : memory} (H : tbl_inv A D m).

Lemma vmap_same d va :
  d ∈ D -> 0 <= va < UTOP ->
  (forall x, rdw m' d x = rdw m d x) ->
  (forall p y, pt_of m D d (PDX va) p -> rdw m' p y = rdw m p y) -> vmap m' d va = vmap m d va.
Proof.
  intros Hd Hva Hroot Hpt. unfold vmap. rewrite Hroot.
  destruct (present (rdw m d (PDX va))) eqn:Hpr; [|done]. rewrite Hpt; [done|].
  repeat split; auto with frame.
Qed.

(** What is written to the tables of [d] does not show in another directory. *)
Lemma outside_vmap d d' va :
  outside (D:=D) m m' d -> d ∈ D -> d' ∈ D -> d' <> d -> 0 <= va < UTOP ->
  vmap m' d' va = vmap m d' va.
Proof.
  intros Ho Hd Hd' Hne Hva. apply vmap_same; [done..| |].
  - intros x. apply Ho; [done|]. intros x' Hp. by apply (tbl_pt_root A D m H d x' d').
  - intros p y Hp. apply Ho.
    + intros ->. by apply (tbl_pt_root A D m H d' (PDX va) d).
    + intros x' Hp'. apply Hne. apply (pt_unique m D d x' p d' (PDX va)); [|done..].
      apply (ti_table _ _ _ H). right. by exists d', (PDX va).
Qed.
End others.

Lemma roots_distinct A s i e j e' :
  kinv A s -> envs s !! i = Some e -> live e = true -> envs s !! j = Some e' -> live e' = true ->
  i <> j -> root_of e <> root_of e'.
Proof.
  intros H He Hl He' Hl' Hne Heq. assert (Hi := kinv_range A s i e H He).
  pose proof (ti_nodup _ _ _ (proj1 (ki_vm _ _ H))) as Hnd.
  rewrite (roots_free (envs s) i e (freed None e) Hi He Hl eq_refl) in Hnd.
  apply NoDup_cons in Hnd as [Hnd _]. apply Hnd. rewrite Heq. apply (elem_of_roots _ j).
  - by apply (kinv_range A s j e').
  - by rewrite lookup_insert_ne.
  - done.
Qed.

(** Building a directory in an unused page, and emptying one, do not show in the address
    spaces of the other environments. *)
Lemma new_dir_vmap A s q kd j ej va :
  kinv A s -> refs (mem s) (roots (envs s)) q = 0 ->
  envs s !! j = Some ej -> live ej = true -> 0 <= va < UTOP ->
  vmap (new_dir (mem s) q kd) (root_of ej) va = vmap (mem s) (root_of ej) va.
Proof.
  intros H H0 Hej Hlj Hva. destruct (kinv_root A s j ej H Hej Hlj) as (Hr & _ & _).
  assert (Hnt : ~ is_table (mem s) (roots (envs s)) q) by (by apply tbl_unref).
  apply (vmap_same (D:=roots (envs s))); [done..| |].
  + intros x. apply new_dir_other. intros Heq. apply Hnt. left. by rewrite <- Heq.
  + intros p y Hp. apply new_dir_other. intros Heq. apply Hnt. right.
    rewrite <- Heq. by exists (root_of ej), (PDX va).
Qed.

Lemma new_dir_empty A s q kd va :
  kern_dir A s kd -> q ∈ A -> 0 <= va < UTOP -> vmap (new_dir (mem s) q kd) q va = None.
Proof.
  intros (_ & HkA & _ & Hz) HqA Hva. unfold vmap.
  rewrite new_dir_self, decide_False by (auto using UVPT_kernel, PDX_upde || congruence).
  by rewrite Hz by auto with frame.
Qed.

Lemma outside_others A s i e m' :
  kinv A s -> envs s !! i = Some e -> live e = true ->
  outside (D:=roots (envs s)) (mem s) m' (root_of e) ->
  forall j ej va, j <> i -> envs s !! j = Some ej -> live ej = true -> 0 <= va < UTOP ->
    vmap m' (root_of ej) va = vmap (mem s) (root_of ej) va.
Proof.
  intros H He Hl Ho j ej va Hne Hej Hlj Hva. destruct (kinv_root A s j ej H Hej Hlj) as (Hdj & _ & _).
  destruct (kinv_root A s i e H He Hl) as (Hd & _ & _).
  apply (outside_vmap (proj1 (ki_vm _ _ H)) (root_of e)); [done..| |done].
  apply not_eq_sym. by apply (roots_distinct A s i e j ej).
Qed.

(** ** The initial table *)

Section init.
(** The table after [mem_init] has cleared it. *)
Context (s : kstate) (Hdom : forall i, is_Some (envs s !! i) <-> 0 <= i < NENV).

(** Entry [i] after [env_init], for the first [n] entries. *)
Definition init_env (i : Z) (e : Env) : Env :=
  if i =? NENV - 1 then set_env_id 0 (set_env_link None e)
  else set_env_link (Some (i + 1)) (set_env_id 0 (set_env_status ENV_FREE e)).

Lemma init_loop n t :
  0 <= n -> n <= NENV - 1 -> (forall i, is_Some (envs t !! i) <-> 0 <= i < NENV) ->
  exists es, kfor (seqZ 0 n) (fun i =>
    upd_env i (set_env_status ENV_FREE);;
    upd_env i (set_env_id 0);;
    upd_env i (set_env_link (Some (i + 1)))) t = Ret tt (set_envs es t) /\
  forall i, es !! i = if decide (0 <= i < n) then init_env i <$> envs t !! i else envs t !! i.
Proof.
  intros Hn. revert n Hn. apply (natlike_ind (fun n => n <= NENV - 1 -> _ -> _)).
  - intros _ _. exists (envs t). split; [by destruct t|]. intros i. by rewrite decide_False by lia.
  - intros n Hn IH Hmax Ht. destruct IH as (es & Hes & Hlook); [lia|done|].
    replace (Z.succ n) with (n + 1) by lia. rewrite seqZ_app, kfor_app by lia.
    rewrite (bind_Ret _ _ _ _ _ Hes). rewrite (seqZ_cons _ 1), seqZ_nil by lia. cbn [kfor].
    destruct (proj2 (Ht n)) as [e He]; [lia|].
    assert (Hen : es !! n = Some e) by (by rewrite Hlook, decide_False by lia).
    exists (<[n := init_env n e]> es). rewrite Z.add_0_l. split.
    + unfold mbind at 1, K_bind at 1.
      rewrite (bind_Ret _ _ _ _ _ (upd_env_eq (set_envs es t) n e _ Hen)).
      fold (with_env n (set_env_status ENV_FREE e) (set_envs es t)).
      rewrite (bind_Ret _ _ _ _ _ (upd_with_env _ n _ _)). rewrite upd_with_env.
      unfold init_env. by rewrite (proj2 (Z.eqb_neq n (NENV - 1))) by lia.
    + intros i. destruct (decide (n = i)) as [<-|Hne].
      * rewrite lookup_insert_eq, decide_True by lia. by rewrite He.
      * rewrite lookup_insert_ne, Hlook by done.
        destruct (decide (0 <= i < n)), (decide (0 <= i < n + 1)); done || lia.
Qed.

Lemma env_init_run :
  exists es, env_init s = Ret tt (set_env_free_list (Some 0) (set_envs es s)) /\
    forall i, es !! i = init_env i <$> envs s !! i.
Proof.
  pose proof NENV_eq as HN.
  destruct (init_loop (NENV - 1) (set_env_free_list (Some 0) s)) as (es & Hes & Hlook); [lia|lia|done|].
  unfold env_init. rewrite (bind_Ret _ (modify _) s tt (set_env_free_list (Some 0) s)) by done.
  rewrite (bind_Ret _ _ _ _ _ Hes). set (t := set_envs es _).
  destruct (proj2 (Hdom (NENV - 1))) as [e He]; [lia|].
  assert (Het : envs t !! (NENV - 1) = Some e) by (simpl; by rewrite Hlook, decide_False by lia).
  rewrite (bind_Ret _ _ _ _ _ (upd_env_eq t _ e _ Het)). fold (with_env (NENV - 1) (set_env_link None e) t).
  rewrite upd_with_env. exists (<[NENV - 1 := init_env (NENV - 1) e]> es). split.
  - unfold init_env. by rewrite Z.eqb_refl.
  - intros i. destruct (decide (NENV - 1 = i)) as [<-|Hne].
    + by rewrite lookup_insert_eq, He.
    + rewrite lookup_insert_ne, Hlook by done. cbn [envs set_env_free_list].
      destruct (decide (0 <= i < NENV - 1)) as [|Hout]; [done|].
      destruct (envs s !! i) as [x|] eqn:Hx; [|done].
      assert (0 <= i < NENV) by (apply Hdom; eauto). lia.
Qed.

(** The free list [env_init] builds is the whole table in order. *)
Lemma init_linked es :
  (forall i, es !! i = init_env i <$> envs s !! i) ->
  forall n i, i + Z.of_nat n = NENV - 1 -> 0 <= i ->
  elinked es (Some i) (seqZ i (1 + Z.of_nat n)).
Proof.
  intros Hes n. induction n as [|n IH]; intros i Hn Hi.
  - rewrite seqZ_cons, seqZ_nil by lia. split; [done|].
    destruct (proj2 (Hdom i)) as [e He]; [lia|]. exists (init_env i e). rewrite Hes, He.
    split; [done|]. unfold init_env. by rewrite (proj2 (Z.eqb_eq i (NENV - 1))) by lia.
  - rewrite seqZ_cons by lia. split; [done|].
    destruct (proj2 (Hdom i)) as [e He]; [lia|]. exists (init_env i e). rewrite Hes, He.
    split; [done|]. unfold init_env. rewrite (proj2 (Z.eqb_neq i (NENV - 1))) by lia.
    replace (Z.pred (1 + Z.of_nat (S n))) with (1 + Z.of_nat n) by lia. apply IH; lia.
Qed.
End init.

(** ** Properties *)

(** [env_init] turns a cleared table into a free list that holds all 1024 environments in
    the order of the array, so that the first [env_alloc] returns [envs[0]]. *)
Theorem env_init_correct s :
  (forall i, is_Some (envs s !! i) <-> 0 <= i < NENV) ->
  (forall i e, envs s !! i = Some e -> env_status e = ENV_FREE /\ env_ipc_dstva e = 0) ->
  exists s', env_init s = Ret tt s' /\
    elinked (envs s') (env_free_list s') (seqZ 0 NENV) /\ env_inv (envs s') (env_free_list s').
Proof.
  intros Hdom Hfree. pose proof NENV_eq as HN.
  destruct (env_init_run s Hdom) as (es & -> & Hes). eexists. split; [done|]. cbn [envs env_free_list set_envs set_env_free_list].
  assert (Hlinked : elinked es (Some 0) (seqZ 0 NENV)).
  { replace NENV with (1 + Z.of_nat (Z.to_nat (NENV - 1))) by lia. apply (init_linked s Hdom); [done|lia..]. }
  assert (Hst : forall i e, es !! i = Some e -> env_status e = ENV_FREE /\ env_id e = 0 /\ env_ipc_dstva e = 0).
  { intros i e He. rewrite Hes in He. destruct (envs s !! i) as [x|] eqn:Hx; [|done].
    destruct (Hfree i x Hx) as [Hf Hd]. injection He as <-. unfold init_env. by destruct (i =? NENV - 1). }
  assert (Hdom' : forall i, is_Some (es !! i) <-> 0 <= i < NENV).
  { intros i. rewrite <- Hdom, Hes. destruct (envs s !! i); simpl; split; intros [? ?]; eauto || done. }
  split; [done|]. split.
  - done.
  - exists (seqZ 0 NENV). split; [done|]. split; [apply NoDup_seqZ|]. intros i. rewrite elem_of_seqZ. split.
    + intros Hi. destruct (proj2 (Hdom' i)) as [e He]; [lia|]. exists e. split; [done|]. by apply (Hst i).
    + intros (e & He & _). apply Hdom'. eauto.
  - intros i e He. destruct (Hst i e He) as (_ & -> & _). split; [lia|by left].
  - intros i e He Hl. destruct (Hst i e He) as [Hf _]. apply live_free in Hf. congruence.
  - intros i e He. destruct (Hst i e He) as (_ & _ & ->). lia.
Qed.

Definition zero_env : Env := mkEnv ex_tf None 0 0 0 ENV_FREE 0 0 0 0 false 0 0 0 0 0.
Definition cleared : kstate :=
  set_envs (list_to_map (map (fun i => (i, zero_env)) (seqZ 0 NENV))) kex.

Lemma cleared_lookup i e : envs cleared !! i = Some e <-> e = zero_env /\ 0 <= i < NENV.
Proof.
  unfold cleared. cbn [envs set_envs]. split.
  - intros H. apply elem_of_list_to_map_2, list_elem_of_fmap in H as (j & Heq & Hj).
    injection Heq as -> ->. apply elem_of_seqZ in Hj. split; [done|lia].
  - intros [-> Hi]. apply elem_of_list_to_map_1.
    + replace (_.*1) with (seqZ 0 NENV); [apply NoDup_seqZ|].
      rewrite <- list_fmap_compose. symmetry. apply list_fmap_id.
    + apply list_elem_of_fmap. exists i. split; [done|]. apply elem_of_seqZ. lia.
Qed.
#[global] Opaque cleared.

Lemma env_init_correct_witness :
  exists s', env_init cleared = Ret tt s' /\
    elinked (envs s') (env_free_list s') (seqZ 0 NENV) /\ env_inv (envs s') (env_free_list s').
Proof.
  apply (env_init_correct cleared).
  - intros i. split.
    + intros [e He]. apply cleared_lookup in He. apply He.
    + intros Hi. exists zero_env. apply cleared_lookup. split; [reflexivity|exact Hi].
  - intros i e He. apply cleared_lookup in He. destruct He as [-> _]. split; reflexivity.
Defined.

(** C36. Identifiers are not reused: the identifiers given to the successive environments of one
    slot are positive, name the slot, and any two of them within 524287 allocations differ,
    although the generation counter wraps around. *)
Theorem env_id_unique i (m n : nat) :
  0 <= i < NENV -> (1 <= m < n)%nat -> Z.of_nat n - Z.of_nat m < 2^19 - 1 ->
  nth_id i m <> nth_id i n /\ 0 < nth_id i n < 2^31 /\ ENVX (nth_id i n) = i.
Proof.
  intros Hi Hmn Hd. assert (Hi' := Hi). rewrite NENV_eq in Hi'.
  destruct m as [|m]; [lia|]. destruct n as [|n]; [lia|]. rewrite !nth_id_eq by done.
  rewrite ENVX_mod. unfold gen_id. split; [|split]; dlia.
Qed.

Lemma env_id_unique_witness :
  nth_id 5 1 <> nth_id 5 3 /\ 0 < nth_id 5 3 < 2^31 /\ ENVX (nth_id 5 3) = 5.
Proof. apply (env_id_unique 5 1 3); [rewrite NENV_eq; lia|lia|lia]. Defined.

(** C22. [env_alloc] fails exactly when no environment or no page is free, and then changes
    nothing.  Otherwise it returns a runnable environment with a new identifier and a user
    mode trap frame; nothing is mapped for it below UTOP, the kernel half of its page
    directory is the kernel's except for UVPT, which maps the directory itself, no other
    address space has changed, and the kernel's invariant holds. *)
Theorem env_alloc_correct A s parent :
  kinv A s ->
  match env_free_list s, page_free_list s with
  | None, _ => env_alloc parent s = Ret (- E_NO_FREE_ENV, None) s
  | Some _, None => env_alloc parent s = Ret (- E_NO_MEM, None) s
  | Some i, Some q => exists e kd s', kern_pgdir s = kva kd /\
      env_alloc parent s = Ret (0, Some i) s' /\ kinv A s' /\
      envs s !! i = Some e /\ envs s' = <[i := new_env parent i q e]> (envs s) /\
      ENVX (next_env_id (env_id e) i) = i /\ next_env_id (env_id e) i <> env_id e /\
      (forall va, 0 <= va < UTOP -> vmap (mem s') q va = None) /\
      (forall x, rdw (mem s') q x = if decide (x = PDX UVPT) then mkpte q PTE_U else rdw (mem s) kd x) /\
      (forall j ej va, j <> i -> envs s !! j = Some ej -> live ej = true -> 0 <= va < UTOP ->
         vmap (mem s') (root_of ej) va = vmap (mem s) (root_of ej) va)
  end.
Proof.
  intros H. destruct (env_alloc_fail A s parent H) as [Hf1 Hf2].
  destruct (env_free_list s) as [i|] eqn:Hi; [|by apply Hf1].
  destruct (page_free_list s) as [q|] eqn:Hq; [|by apply (Hf2 i)].
  destruct (env_alloc_spec A s parent i q H Hi Hq) as
    (e & kd & s' & He & Hst & (Hkd & HkA & Hkr & Hkz) & Hal & H' & Hfr & Hes & Hm & HqA & H0).
  assert (Hir := kinv_range A s i e H He).
  destruct (ei_id _ _ (ki_env _ _ H) i e He) as [Hid Hmod].
  destruct (next_env_id_ok i Hir (env_id e) Hid Hmod) as [Hnid Hnmod].
  assert (Hqk : q <> kd) by congruence.
  exists e, kd, s'. split; [done|]. split; [done|]. split; [done|]. split; [done|]. split; [done|].
  split; [|split; [|split; [|split]]].
  - rewrite ENVX_mod. rewrite NENV_eq in *. dlia.
  - by apply next_env_id_new.
  - intros va Hva. rewrite Hm. by apply (new_dir_empty A s).
  - intros x. by rewrite Hm, new_dir_self.
  - intros j ej va _ Hej Hlj Hva. rewrite Hm. by apply (new_dir_vmap A s q kd j).
Qed.

Lemma env_alloc_correct_witness :
  exists e kd s', kern_pgdir kex = kva kd /\ env_alloc 4096 kex = Ret (0, Some 2) s' /\
    kinv kex_A s' /\ envs s' = <[2 := new_env 4096 2 3 e]> (envs kex).
Proof.
  destruct (env_alloc_correct kex_A kex 4096 kex_inv) as (e & kd & s' & Hk & Ha & Hi & _ & He & _).
  exists e, kd, s'. split; [exact Hk|]. split; [exact Ha|]. split; [exact Hi|exact He].
Defined.

(** C21. [env_free] returns, puts the environment on the free list and gives back every
    reference its address space held: the reference count of each page drops by the number of
    its references from that address space, so a page nobody else maps is free afterwards.
    No mapping of another environment changes, no data page is written, and the kernel's
    invariant holds. *)
Theorem env_free_correct A s i e :
  kinv A s -> envs s !! i = Some e -> live e = true ->
  exists s', env_free i s = Ret tt s' /\ kinv A s' /\
    env_free_list s' = Some i /\ envs s' = <[i := freed (env_free_list s) e]> (envs s) /\
    (forall p, refs (mem s') (roots (envs s')) p =
       refs (mem s) (roots (envs s)) p - root_refs (mem s) p (root_of e)) /\
    (forall j ej va, j <> i -> envs s !! j = Some ej -> live ej = true -> 0 <= va < UTOP ->
       vmap (mem s') (root_of ej) va = vmap (mem s) (root_of ej) va) /\
    (forall pg y, ~ is_table (mem s) (roots (envs s)) pg -> rdw (mem s') pg y = rdw (mem s) pg y).
Proof.
  intros H He Hl. destruct (env_free_spec A s i e H He Hl) as (s' & Hf & H' & Hfr & Hfl & Hes & Ho).
  assert (Hi := kinv_range A s i e H He). destruct (kinv_root A s i e H He Hl) as (Hd & _ & _).
  exists s'. split; [done|]. split; [done|]. split; [done|]. split; [done|].
  pose proof (proj1 (ki_vm _ _ H)) as Ht.
  assert (HD := roots_free (envs s) i e (freed (env_free_list s) e) Hi He Hl eq_refl).
  split; [|split; [by apply (outside_others A s i e)|]].
  - intros p. rewrite (refs_perm _ _ _ p HD), refs_cons, Hes.
    rewrite (refs_frame (mem s) (mem s')); [lia|]. intros q y Hq.
    pose proof (ti_nodup _ _ _ Ht) as Hnd. rewrite HD in Hnd. apply NoDup_cons in Hnd as [Hnd _].
    assert (Hin : forall d, d ∈ roots (<[i:=freed (env_free_list s) e]> (envs s)) -> d ∈ roots (envs s)).
    { intros d Hd'. rewrite HD. by right. }
    destruct Hq as [Hq|(d' & x & Hq)].
    + apply Ho; [congruence|]. intros x Hx. by apply (tbl_pt_root A _ _ Ht _ x q Hx), Hin.
    + destruct Hq as (Hd' & Hq). assert (Hq' : pt_of (mem s) (roots (envs s)) d' x q) by (split; [by apply Hin|done]).
      apply Ho.
      * intros ->. by apply (tbl_pt_root A _ _ Ht d' x (root_of e)).
      * intros x' Hx'. destruct (pt_unique _ _ _ _ _ _ _ (ti_table _ _ _ Ht q ltac:(right; by exists d', x)) Hq' Hx').
        congruence.
  - intros pg y Hnt. apply Ho.
    + intros ->. apply Hnt. by left.
    + intros x Hx. apply Hnt. right. by exists (root_of e), x.
Qed.

Lemma env_free_correct_witness :
  exists s', env_free 1 kex = Ret tt s' /\ kinv kex_A s' /\ env_free_list s' = Some 1.
Proof.
  destruct (env_free_correct kex_A kex 1 kex_child kex_inv kex_env1 eq_refl) as (s' & Hf & H' & Hfl & _).
  exists s'. split; [exact Hf|]. split; [exact H'|exact Hfl].
Defined.
