(* ===== verification/SysOps.v ===== *)
(** * SysOps: what the system calls do to a state satisfying [kinv] *)

From S2P Require Import Prelude Layout KState KMem Pmap VmRefs VmInv VmOps VmThms Sched UMem Time Env Syscall KInv KEx SchedThms EnvOps EnvFree EnvThms.

(** The state in which a system call of environment [i] starts. *)
Record kin (A : gset Z) (i : Z) (e : Env) (s : kstate) : Prop := {
  kin_inv : kinv A s;
  kin_lock : locked s;
  kin_cur : cur_is s (Some i);
  kin_env : envs s !! i = Some e;
  kin_live : live e = true;
}.

(** The state in which a system call returns: the invariant holds and the lock is held. *)
Definition kret {B} (A : gset Z) (_ : B) (s : kstate) : Prop := kinv A s /\ locked s.

Lemma kin_kret {B} A i e s (b : B) : kin A i e s -> kret A b s.
Proof. intros H. split; apply H. Qed.

(** ** Finding environments *)

(** [envid] denotes environment [j] for the caller [i]. *)
Definition denotes (s : kstate) (i envid : Z) (checkperm : bool) (j : Z) : Prop :=
  exists ej, envs s !! j = Some ej /\ live ej = true /\
    (envid = 0 /\ j = i \/
     envid <> 0 /\ env_id ej = envid /\
       (checkperm = true -> j = i \/ exists ei, envs s !! i = Some ei /\ env_parent_id ej = env_id ei)).

Lemma envid2env_cases A i e s envid cp :
  kin A i e s ->
  (exists j, denotes s i envid cp j /\ envid2env envid cp s = Ret (0, Some j) s) \/
  ((forall j, ~ denotes s i envid cp j) /\ envid2env envid cp s = Ret (- E_BAD_ENV, None) s).
Proof.
  intros [H _ Hcur He Hl]. unfold envid2env.
  destruct (Z.eqb_spec envid 0) as [->|Hne].
  { left. exists i. split; [exists e; eauto|]. ks. by rewrite (curenv_eq s _ Hcur). }
  destruct (proj2 (ei_dom _ _ (ki_env _ _ H) (ENVX envid)) (ENVX_range envid)) as [ej Hej].
  rewrite (bind_Ret _ _ _ _ _ (get_env_eq s _ ej Hej)).
  assert (Honly : forall j, denotes s i envid cp j -> j = ENVX envid /\ live ej = true /\ env_id ej = envid).
  { intros j (x & Hx & Hlx & [[? _]|(_ & Hid & _)]); [done|].
    destruct (id_slot _ _ j x (ki_env _ _ H) Hx Hlx) as [Hj _]. rewrite Hid in Hj.
    assert (x = ej) as -> by (rewrite <- Hj in Hx; congruence). done. }
  destruct ((env_status ej =? ENV_FREE) || negb (env_id ej =? envid)) eqn:Hbad.
  { right. split; [|done]. intros j (_ & Hlj & Hidj)%Honly. unfold live in Hlj.
    apply orb_true_iff in Hbad as [Hb|Hb]; [by rewrite Hb in Hlj|].
    apply negb_true_iff, Z.eqb_neq in Hb. done. }
  apply orb_false_iff in Hbad as [Hlj Hidj]. apply negb_false_iff, Z.eqb_eq in Hidj.
  assert (Hlive : live ej = true) by (unfold live; by rewrite Hlj).
  destruct cp; [|left; exists (ENVX envid); split; [|done]; exists ej; split; [done|]; split; [done|]; by right].
  rewrite (bind_Ret _ _ _ _ _ (curenv_eq s _ Hcur)).
  case_bool_decide as Hself.
  { injection Hself as Hself. left. exists (ENVX envid). split; [|done]. exists ej. split; [done|].
    split; [done|]. right. auto. }
  rewrite (bind_Ret _ _ _ _ _ (get_env_eq s _ e He)).
  destruct (Z.eqb_spec (env_parent_id ej) (env_id e)) as [Hp|Hp].
  - left. exists (ENVX envid). split; [|done]. exists ej. split; [done|]. split; [done|]. right. eauto 10.
  - right. split; [|done]. intros j Hj. destruct (Honly j Hj) as [-> _].
    destruct Hj as (x & Hx & _ & [[? _]|(_ & _ & Hperm)]); [done|].
    destruct (Hperm eq_refl) as [Heq|(ei & Hei & Hpx)]; congruence.
Qed.

Lemma denotes_live s i envid cp j :
  denotes s i envid cp j -> exists ej, envs s !! j = Some ej /\ live ej = true.
Proof. intros (ej & ? & ? & _). eauto. Qed.

(** ** Destroying *)

Lemma env_frame_cur s s' o : env_frame s s' -> cur_is s o -> cur_is s' o.
Proof. intros Hf (c & Hc & Ho). destruct (env_frame_cpus _ _ Hf) as [H1 H2]. exists c. by rewrite H1, H2. Qed.
Lemma env_frame_locked s s' : env_frame s s' -> locked s -> locked s'.
Proof.
  intros Hf Hl. unfold locked, awake in *. destruct (env_frame_cpus _ _ Hf) as [-> ->]. by rewrite (env_frame_lock _ _ Hf).
Qed.

Lemma env_destroy_ok A s i e o :
  kinv A s -> locked s -> cur_is s o -> envs s !! i = Some e -> live e = true ->
  ok A (fun _ s' => kret A tt s' /\ cur_is s' o /\ o <> Some i) (env_destroy i s).
Proof.
  intros H Hlock Hcur He Hl. unfold env_destroy.
  rewrite (bind_Ret _ _ _ _ _ (get_env_eq s i e He)), (bind_Ret _ _ _ _ _ (curenv_eq s o Hcur)).
  destruct ((env_status e =? ENV_RUNNING) && negb (bool_decide (o = Some i))) eqn:Hr.
  - apply andb_true_iff in Hr as [_ Hr]. apply negb_true_iff, bool_decide_eq_false in Hr.
    rewrite (upd_env_eq s i e _ He). split; [|done]. split; [|done].
    apply (kinv_env A s i e); [done..|]. by apply same_core_status.
  - destruct (env_free_spec A s i e H He Hl) as (s' & Hf & H' & Hfr & _).
    rewrite (bind_Ret _ _ _ _ _ Hf).
    assert (Hcur' := env_frame_cur _ _ _ Hfr Hcur). assert (Hlock' := env_frame_locked _ _ Hfr Hlock).
    rewrite (bind_Ret _ _ _ _ _ (curenv_eq s' o Hcur')).
    case_bool_decide as Ho; [|done].
    destruct Hcur' as (c & Hc & Hce). unfold set_curenv.
    rewrite (bind_Ret _ _ _ _ _ (set_thiscpu_eq s' c _ Hc)).
    apply sched_yield_ok; [by apply kinv_cpus|by apply locked_cur].
Qed.

(** ** Mapping memory *)

Section perm.
Context (perm : Z) (Hperm : bad_perm perm = false).

Lemma perm_bits : perm = perm .& PTE_SYSCALL.
Proof.
  unfold bad_perm in Hperm. apply orb_false_iff in Hperm as [_ H].
  unfold truth in H. apply negb_false_iff, Z.eqb_eq in H.
  apply Z.bits_inj'. intros n Hn. rewrite Z.land_spec.
  assert (Hb : Z.testbit (Z.ldiff perm PTE_SYSCALL) n = false) by (rewrite H; apply Z.bits_0).
  rewrite Z.ldiff_spec in Hb. destruct (Z.testbit perm n), (Z.testbit PTE_SYSCALL n); done.
Qed.

Lemma perm_range : 0 <= perm < 4096.
Proof.
  assert (H : perm .& 4095 = perm).
  { rewrite perm_bits at 1. rewrite <- Z.land_assoc. change (PTE_SYSCALL .& 4095) with PTE_SYSCALL.
    symmetry. apply perm_bits. }
  rewrite (land_ones_mod _ 12) in H by done. dlia.
Qed.

Lemma perm_ps : perm .& PTE_PS = 0.
Proof. rewrite perm_bits, <- Z.land_assoc. apply Z.land_0_r. Qed.
End perm.

Lemma good_va va : 0 <= va < 2^32 -> bad_va va = false -> 0 <= va < UTOP /\ va mod 4096 = 0.
Proof.
  intros Hva H. unfold bad_va in H. apply orb_false_iff in H as [H1 H2]. apply Z.leb_gt in H1.
  unfold truth in H2. apply negb_false_iff, Z.eqb_eq in H2. rewrite PGOFF_mod in H2. split; [lia|done].
Qed.

(** A change of the page tables that keeps their invariant keeps the kernel's. *)
Lemma kinv_vm A s s' :
  kinv A s -> vm_frame s s' -> vm_inv A (roots (envs s)) ∅ s' ->
  (forall i y, i ∉ A -> rdw (mem s') i y = rdw (mem s) i y) -> kinv A s'.
Proof.
  intros [Hv He (kd & Hk & HkA & Hkr & Hkz) Hc] Hf Hv' Hout.
  pose proof (vm_frame_envs _ _ Hf) as Hen. pose proof (vm_frame_npages _ _ Hf) as Hn.
  split.
  - by rewrite Hen.
  - rewrite Hen. rewrite Hf. done.
  - exists kd. split; [rewrite Hf; done|]. split; [done|]. split; [by rewrite Hn|].
    intros x Hx. rewrite Hout by done. by apply Hkz.
  - by apply (cpu_ok_frame s).
Qed.

Lemma vm_frame_locked s s' : vm_frame s s' -> locked s -> locked s'.
Proof. intros Hf. apply env_frame_locked. auto with frame. Qed.

(** All mappings of the live environments except [va] of directory [d] agree. *)
Definition same_maps (s s' : kstate) (d va : Z) : Prop :=
  forall d' va', d' ∈ roots (envs s) -> 0 <= va' < UTOP -> ~ (d' = d /\ va' / 4096 = va / 4096) ->
    vmap (mem s') d' va' = vmap (mem s) d' va'.

(** The pages in use for data keep their contents. *)
Definition data_kept (s s' : kstate) : Prop :=
  forall q, 0 < refs (mem s) (roots (envs s)) q -> ~ is_table (mem s) (roots (envs s)) q ->
    forall y, rdw (mem s') q y = rdw (mem s) q y.

(** [s'] is [s] with [va] of directory [d] mapped to page [p] with permissions [perm]. *)
Definition maps (A : gset Z) (s s' : kstate) (d va p perm : Z) : Prop :=
  kinv A s' /\ vm_frame s s' /\ vmap (mem s') d va = Some (mkpte p perm) /\ same_maps s s' d va /\ data_kept s s'.

Lemma page_insert_kinv A s d va p perm :
  kinv A s -> d ∈ roots (envs s) -> 0 <= va < UTOP -> p ∈ A ->
  ~ is_table (mem s) (roots (envs s)) p -> 0 < refs (mem s) (roots (envs s)) p ->
  refs (mem s) (roots (envs s)) p + 1 < 2^16 -> bad_perm perm = false ->
  (page_free_list s = None /\ vmap (mem s) d va = None /\ page_insert (kva d) p va perm s = Ret (- E_NO_MEM) s) \/
  exists s', page_insert (kva d) p va perm s = Ret 0 s' /\ maps A s s' d va p perm.
Proof.
  intros H Hd Hva HpA Hnt Hpos Hmax Hperm.
  destruct (page_insert_spec A (roots (envs s)) ∅ s d va p perm (ki_vm _ _ H) (ki_cpu _ _ H))
    as [?|(s' & Hs' & Hv' & Hf & Hm & Hsame & Hdata & Hout)];
    [done|done|done|done|by right|done|by apply perm_range|by apply perm_ps|by left|].
  right. exists s'. split; [done|]. split; [|split_and!; try done; intros q Hq Hnq; apply Hdata; [by right|done]].
  apply (kinv_vm A s); [done..| |done]. by rewrite diff_notin in Hv' by set_solver.
Qed.

(** A page mapped for the user is neither a table nor free. *)
Lemma mapped_page A s d va e :
  kinv A s -> d ∈ roots (envs s) -> 0 <= va < UTOP -> vmap (mem s) d va = Some e ->
  pgn e ∈ A /\ ~ is_table (mem s) (roots (envs s)) (pgn e) /\
  0 < refs (mem s) (roots (envs s)) (pgn e).
Proof.
  intros H Hd Hva Hm.
  destruct (vmap_page (proj1 (ki_vm _ _ H)) d va e Hd Hva Hm) as (p & Hp & He & Hpr & HA & _ & Hpos & Hnt).
  done.
Qed.

(** A zeroed page that has just been allocated *)
Lemma alloc_zero_spec A s q :
  kinv A s -> page_free_list s = Some q ->
  exists s1, page_alloc ALLOC_ZERO s = Ret (Some q) s1 /\
    vm_inv A (roots (envs s)) {[q]} s1 /\ vm_frame s s1 /\ q ∈ A /\
    refs (mem s1) (roots (envs s)) q = 0 /\ mem s1 = zero_page (mem s) q /\
    ~ is_table (mem s) (roots (envs s)) q /\ ~ is_table (mem s1) (roots (envs s)) q.
Proof.
  intros H Hq.
  destruct (page_alloc_spec ∅ s ALLOC_ZERO q (ki_vm _ _ H) Hq) as (s1 & Hs1 & H1 & Hf & _ & HqA & _ & H0 & Hm).
  change (truth (ALLOC_ZERO .& ALLOC_ZERO)) with true in Hm. cbn iota in Hm.
  assert (Hnt : ~ is_table (mem s) (roots (envs s)) q) by (by apply tbl_unref).
  assert (H0' : refs (mem s1) (roots (envs s)) q = 0).
  { rewrite Hm, (refs_frame (mem s)); [done|]. intros p y Hp. rewrite rdw_zero_page, decide_False; congruence. }
  replace (∅ ∪ {[q]} : gset Z) with ({[q]} : gset Z) in H1 by set_solver.
  exists s1. split_and!; try done. by apply tbl_unref.
Qed.

(** Mappings do not see a page that is not a table. *)
Lemma vmap_zero A D m q d va :
  tbl_inv A D m -> ~ is_table m D q -> d ∈ D -> 0 <= va < UTOP ->
  vmap (zero_page m q) d va = vmap m d va.
Proof.
  intros H Hnt Hd Hva. apply (vmap_same (D:=D)); [done..| |].
  - intros x. rewrite rdw_zero_page, decide_False; [done|]. intros ->. apply Hnt. by left.
  - intros p y Hp. rewrite rdw_zero_page, decide_False; [done|]. intros ->. apply Hnt. right. by exists d, (PDX va).
Qed.

(** At most one page is free. *)
Definition scarce (s : kstate) : Prop :=
  match page_free_list s with Some q => forall p, pages s !! q = Some p -> pp_link p = None | None => True end.

Lemma page_alloc_next s q p s' :
  0 < npages s <= 65536 -> 0 <= q < npages s -> page_free_list s = Some q -> pages s !! q = Some p -> page_alloc ALLOC_ZERO s = Ret (Some q) s' -> page_free_list s' = pp_link p.
Proof.
  intros Hn Hr Hq Hp. set (s1 := set_pages (<[q := set_pp_link None p]> (pages s)) (set_page_free_list (pp_link p) s)).
  unfold page_alloc. ks. kr Hq. rewrite (get_page_eq s q p) by done. ks. rewrite (upd_page_eq _ q p) by done. ks. fold s1.
  change (truth (ALLOC_ZERO .& ALLOC_ZERO)) with true. cbn iota. ks. rewrite (page2kva_eq s1) by done. ks. rewrite (zero_kva_eq s1) by done. ks.
  intros [= <-]. done.
Qed.

Lemma page_free_last s q s' : page_free_list s = None -> page_free q s = Ret tt s' -> scarce s'.
Proof.
  intros Hn. unfold page_free, get_page. destruct (pages s !! q) as [p|] eqn:Hp; [|unfold mbind, K_bind; simpl; rewrite Hp; done].
  rewrite (bind_Ret _ _ _ _ _ (get_page_eq s q p Hp)). destruct (truth (pp_ref p) || _); [done|]. ks. rewrite (upd_page_eq s q p) by done. ks. intros [= <-].
  unfold scarce. simpl. intros p' Hp'. rewrite lookup_insert_eq in Hp'. injection Hp' as <-. exact Hn.
Qed.

(** What [sys_page_alloc] can do once the target [j] is known and the arguments are good. *)
Definition page_allocated (A : gset Z) (s : kstate) (ej : Env) (va perm : Z) (o : outcome Z) : Prop :=
  (exists s', o = Ret (- E_NO_MEM) s' /\ (scarce s /\ scarce s') /\ kinv A s' /\ vm_frame s s' /\
     (forall d va', d ∈ roots (envs s) -> 0 <= va' < UTOP -> vmap (mem s') d va' = vmap (mem s) d va') /\ data_kept s s') \/
  (exists s' q, o = Ret 0 s' /\ page_free_list s = Some q /\
     maps A s s' (root_of ej) va q perm /\ forall y, rdw (mem s') q y = 0).

Lemma page_alloc_insert A s ej d va perm q s1 :
  kinv A s -> d = root_of ej -> d ∈ roots (envs s) -> 0 <= va < UTOP -> bad_perm perm = false ->
  page_free_list s = Some q -> page_alloc ALLOC_ZERO s = Ret (Some q) s1 ->
  page_allocated A s ej va perm
    ((r ← page_insert (kva d) q va perm;
      if r <? 0 then page_free q;; mret (- E_NO_MEM) else mret 0) s1).
Proof.
  intros H -> Hd Hva Hperm Hq Hal.
  destruct (alloc_zero_spec A s q H Hq) as (s1' & Hs1 & H1 & Hf1 & HqA & H0 & Hm1 & Hnt & Hnt1).
  rewrite Hal in Hs1. injection Hs1 as <-.
  assert (Hvz : forall d va', d ∈ roots (envs s) -> 0 <= va' < UTOP -> vmap (mem s1) d va' = vmap (mem s) d va').
  { intros. rewrite Hm1. by apply (vmap_zero A (roots (envs s)) _ _ _ _ (proj1 (ki_vm _ _ H))). }
  assert (Hout1 : forall i y, i ∉ A -> rdw (mem s1) i y = rdw (mem s) i y).
  { intros i y Hi. rewrite Hm1, rdw_zero_page, decide_False; [done|]. by intros ->. }
  assert (Hrf : forall p, refs (mem s1) (roots (envs s)) p = refs (mem s) (roots (envs s)) p).
  { intros p. rewrite Hm1. apply refs_frame. intros t z Ht. rewrite rdw_zero_page, decide_False; [done|]. by intros ->. }
  assert (Hkept : data_kept s s1).
  { intros p Hp Hnp y. rewrite Hm1, rdw_zero_page, decide_False; [done|]. intros ->. rewrite <- Hrf in Hp. lia. }
  destruct (page_insert_spec A (roots (envs s)) {[q]} s1 (root_of ej) va q perm H1)
    as [(Hno & _ & Hi)|(s2 & Hi & Hv2 & Hf2 & Hm2 & Hsame & Hdata & Hout2)].
  - apply (cpu_ok_frame s); [done|apply H].
  - done.
  - done.
  - done.
  - done.
  - left. set_solver.
  - rewrite H0. lia.
  - by apply perm_range.
  - by apply perm_ps.
  - left. rewrite (bind_Ret _ _ _ _ _ Hi). change (- E_NO_MEM <? 0) with true. cbn iota.
    destruct (page_free_spec {[q]} s1 q H1) as (s2 & Hs2 & Hv2 & Hf2 & Hm2 & _); [set_solver|].
    rewrite (bind_Ret _ _ _ _ _ Hs2). exists s2. split; [done|]. split.
    { split; [|by apply (page_free_last s1 q)]. unfold scarce. rewrite Hq. intros p Hp. rewrite <- Hno. symmetry. apply (page_alloc_next s q p); [apply (vm_npages (ki_vm _ _ H))|by apply (vm_pool (ki_vm _ _ H))|done..]. }
    assert (Hf : vm_frame s s2) by (by eapply vm_frame_trans). unfold data_kept. rewrite Hm2. split; [|done].
    apply (kinv_vm A s); [done..| |by rewrite Hm2].
    replace (∅ : gset Z) with ({[q]} ∖ {[q]} : gset Z) by set_solver. done.
  - right. rewrite (bind_Ret _ _ _ _ _ Hi). exists s2, q. split; [done|]. split; [done|].
    assert (Hf : vm_frame s s2) by (by eapply vm_frame_trans).
    split; [|intros y; rewrite Hdata by (done || left; set_solver); by rewrite Hm1, rdw_zero_page, decide_True].
    split; [|split; [done|split; [done|split]]].
    + apply (kinv_vm A s); [done..| |intros; by rewrite Hout2, Hout1].
      replace (∅ : gset Z) with ({[q]} ∖ {[q]} : gset Z) by set_solver. done.
    + intros d' va' Hd' Hva' Hne. by rewrite Hsame, Hvz.
    + intros p Hp Hnp y. rewrite <- Hkept by done. apply Hdata.
      * right. by rewrite Hrf.
      * intros [Ht|Ht]; apply Hnp; [by left|right]. revert Ht. apply is_pt_frame. intros t z Ht' _.
        rewrite Hm1, rdw_zero_page, decide_False; [done|]. intros ->. apply Hnt. by left.
Qed.

Lemma sys_page_alloc_spec A i e s envid va perm :
  kin A i e s -> 0 <= va < 2^32 ->
  (sys_page_alloc envid va perm s = Ret (- E_BAD_ENV) s /\ forall j, ~ denotes s i envid true j) \/
  exists j ej, denotes s i envid true j /\ envs s !! j = Some ej /\
    if bad_va va || bad_perm perm then sys_page_alloc envid va perm s = Ret (- E_INVAL) s
    else page_allocated A s ej va perm (sys_page_alloc envid va perm s).
Proof.
  intros Hk Hva. unfold sys_page_alloc.
  destruct (envid2env_cases A i e s envid true Hk) as [(j & Hj & Heq)|[Hnone Heq]].
  2:{ left. split; [|done]. ks. by rewrite Heq. }
  right. destruct (denotes_live _ _ _ _ _ Hj) as (ej & Hej & Hlj). exists j, ej.
  split; [done|]. split; [done|]. rewrite (bind_Ret _ _ _ _ _ Heq). change (0 <? 0) with false. cbn iota.
  destruct (bad_va va || bad_perm perm) eqn:Hbad; [done|].
  apply orb_false_iff in Hbad as [Hbv Hbp]. apply good_va in Hbv as [Hva' _]; [|done].
  destruct (kinv_root A s j ej (kin_inv _ _ _ _ Hk) Hej Hlj) as (Hd & Hpg & _).
  destruct (page_free_list s) as [q|] eqn:Hq.
  - destruct (alloc_zero_spec A s q (kin_inv _ _ _ _ Hk) Hq) as (s1 & Hs1 & _ & Hf1 & _).
    rewrite (bind_Ret _ _ _ _ _ Hs1). unfold deref. rewrite (bind_Ret _ (mret j) s1 j s1) by done.
    rewrite (bind_Ret _ _ _ _ _ (get_env_eq s1 j ej ltac:(by rewrite (vm_frame_envs _ _ Hf1)))). rewrite Hpg.
    apply page_alloc_insert; [apply Hk|done..].
  - left. exists s. rewrite (bind_Ret _ _ _ _ _ (page_alloc_empty s ALLOC_ZERO Hq)).
    split; [done|]. split; [unfold scarce; by rewrite Hq|]. split; [apply Hk|]. split; [auto with frame|]. by split.
Qed.

(** The reference counters do not overflow when one more reference comes in. *)
Definition refs_small (A : gset Z) (s : kstate) : Prop :=
  forall p, p ∈ A -> ~ is_table (mem s) (roots (envs s)) p -> refs (mem s) (roots (envs s)) p + 1 < 2^16.

Lemma kex_refs_small : refs_small kex_A kex.
Proof.
  intros p Hp _. destruct (ki_vm _ _ kex_inv) as [_ Hpg].
  destruct (pg_inv_page _ _ _ _ _ _ _ Hpg Hp) as (Hr & x & Hx & <-). simpl in Hr. revert p Hr Hp x Hx.
  apply (range_8 (fun p => p ∈ kex_A -> forall x, pages kex !! p = Some x -> pp_ref x + 1 < 2^16));
    intros _ x [= <-]; reflexivity.
Qed.

Lemma kex_kin : kin kex_A 0 kex_parent kex.
Proof. split; [exact kex_inv|exact kex_locked|exact kex_cur|exact kex_env0|done]. Qed.

(** Granting [perm] on a page mapped with the entry [w] does not add the right to write. *)
Definition no_escalation (w perm : Z) : Prop := truth (perm .& PTE_W) = true -> truth (w .& PTE_W) = true.

(** Looking up the page to share, and mapping it. *)
Lemma page_share A s d va d' va' perm :
  kinv A s -> refs_small A s -> d ∈ roots (envs s) -> d' ∈ roots (envs s) ->
  0 <= va < UTOP -> 0 <= va' < UTOP -> bad_perm perm = false ->
  match vmap (mem s) d va with
  | None => page_lookup (kva d) va s = Ret None s
  | Some w => exists pte, page_lookup (kva d) va s = Ret (Some (pgn w, pte)) s /\ kload pte s = Ret w s /\
      (page_free_list s = None /\ vmap (mem s) d' va' = None /\ page_insert (kva d') (pgn w) va' perm s = Ret (- E_NO_MEM) s \/
       exists s', page_insert (kva d') (pgn w) va' perm s = Ret 0 s' /\ maps A s s' d' va' (pgn w) perm)
  end.
Proof.
  intros H Hsm Hd Hd' Hva Hva' Hp. destruct (vmap (mem s) d va) as [w|] eqn:Hm.
  - destruct (mapped_page A s d va w H Hd Hva Hm) as (HpA & Hnt & Hpos).
    destruct (page_lookup_some (ki_vm _ _ H) d va Hd Hva w Hm) as (p & _ & Hr & Hw & Hl).
    exists (kva p + 4 * PTX va). split; [done|].
    split; [rewrite kload_kva by auto with frame; by rewrite Hw|].
    apply page_insert_kinv; [done..|by apply Hsm|done].
  - by apply (page_lookup_none (ki_vm _ _ H)).
Qed.

Lemma sys_page_map_spec A i e s srcenvid srcva dstenvid dstva perm :
  kin A i e s -> refs_small A s -> 0 <= srcva < 2^32 -> 0 <= dstva < 2^32 ->
  (sys_page_map srcenvid srcva dstenvid dstva perm s = Ret (- E_BAD_ENV) s /\
     ((forall j, ~ denotes s i srcenvid true j) \/ (forall k, ~ denotes s i dstenvid true k))) \/
  exists j ej k ek, denotes s i srcenvid true j /\ envs s !! j = Some ej /\
    denotes s i dstenvid true k /\ envs s !! k = Some ek /\
    if bad_va srcva || bad_va dstva || bad_perm perm
    then sys_page_map srcenvid srcva dstenvid dstva perm s = Ret (- E_INVAL) s
    else match vmap (mem s) (root_of ej) srcva with
         | None => sys_page_map srcenvid srcva dstenvid dstva perm s = Ret (- E_INVAL) s
         | Some w =>
             (~ no_escalation w perm /\
                sys_page_map srcenvid srcva dstenvid dstva perm s = Ret (- E_INVAL) s) \/
             (no_escalation w perm /\
                (page_free_list s = None /\ vmap (mem s) (root_of ek) dstva = None /\
                   sys_page_map srcenvid srcva dstenvid dstva perm s = Ret (- E_NO_MEM) s \/
                 exists s', sys_page_map srcenvid srcva dstenvid dstva perm s = Ret 0 s' /\
                   maps A s s' (root_of ek) dstva (pgn w) perm))
         end.
Proof.
  intros Hk Hsm Hsv Hdv. unfold sys_page_map.
  destruct (envid2env_cases A i e s srcenvid true Hk) as [(j & Hj & Heq)|[Hnone Heq]].
  2:{ left. split; [|by left]. ks. by rewrite Heq. }
  rewrite (bind_Ret _ _ _ _ _ Heq). change (0 <? 0) with false. cbn iota.
  destruct (envid2env_cases A i e s dstenvid true Hk) as [(k & Hk' & Heq')|[Hnone Heq']].
  2:{ left. split; [|by right]. ks. by rewrite Heq'. }
  right. rewrite (bind_Ret _ _ _ _ _ Heq'). change (0 <? 0) with false. cbn iota.
  destruct (denotes_live _ _ _ _ _ Hj) as (ej & Hej & Hlj). destruct (denotes_live _ _ _ _ _ Hk') as (ek & Hek & Hlk).
  exists j, ej, k, ek. split; [done|]. split; [done|]. split; [done|]. split; [done|].
  destruct (bad_va srcva || bad_va dstva || bad_perm perm) eqn:Hbad; [done|].
  apply orb_false_iff in Hbad as [[Hbs Hbd]%orb_false_iff Hbp].
  apply good_va in Hbs as [Hsv' _]; [|done]. apply good_va in Hbd as [Hdv' _]; [|done].
  destruct (kinv_root A s j ej (kin_inv _ _ _ _ Hk) Hej Hlj) as (Hd & Hpg & _).
  destruct (kinv_root A s k ek (kin_inv _ _ _ _ Hk) Hek Hlk) as (Hd' & Hpg' & _).
  unfold deref. rewrite (bind_Ret _ (mret j) s j s), (bind_Ret _ _ _ _ _ (get_env_eq s j ej Hej)) by done.
  rewrite Hpg. pose proof (page_share A s _ srcva _ dstva perm (kin_inv _ _ _ _ Hk) Hsm Hd Hd' Hsv' Hdv' Hbp) as Hsh.
  destruct (vmap (mem s) (root_of ej) srcva) as [w|]; [|by rewrite (bind_Ret _ _ _ _ _ Hsh)].
  destruct Hsh as (pte & Hl & Hw & Hins). rewrite (bind_Ret _ _ _ _ _ Hl), (bind_Ret _ _ _ _ _ Hw).
  unfold no_escalation.
  destruct ((w .& PTE_W =? 0) && truth (perm .& PTE_W)) eqn:Hesc.
  - left. split; [|done]. apply andb_true_iff in Hesc as [H1 H2]. unfold truth at 2. rewrite H1, H2. naive_solver.
  - right. split.
    { intros H2. rewrite H2, andb_true_r in Hesc. unfold truth. by rewrite Hesc. }
    rewrite (bind_Ret _ (mret k) s k s), (bind_Ret _ _ _ _ _ (get_env_eq s k ek Hek)) by done. rewrite Hpg'.
    destruct Hins as [(Hno & Hno' & Hins)|(s' & Hins & Hmaps)]; rewrite (bind_Ret _ _ _ _ _ Hins); [by left|].
    right. by exists s'.
Qed.

(** [s'] is [s] with [va] of directory [d] unmapped. *)
Definition unmaps (A : gset Z) (s s' : kstate) (d va : Z) : Prop :=
  kinv A s' /\ vm_frame s s' /\ vmap (mem s') d va = None /\ same_maps s s' d va /\ data_kept s s'.

Lemma page_remove_kinv A s d va :
  kinv A s -> d ∈ roots (envs s) -> 0 <= va < UTOP ->
  exists s', page_remove (kva d) va s = Ret tt s' /\ unmaps A s s' d va.
Proof.
  intros H Hd Hva. destruct (vmap (mem s) d va) as [w|] eqn:Hm.
  - destruct (page_remove_spec (ki_vm _ _ H) d va Hd Hva w (ki_cpu _ _ H) Hm)
      as (p & s' & Hp & Hr & Hv & Hf & Hm' & _).
    exists s'. split; [done|]. pose proof (proj1 (ki_vm _ _ H)) as Ht.
    split; [|split; [done|]].
    + apply (kinv_vm A s); [done..|]. intros i y Hi. rewrite Hm', rdw_wrw_ne; [done|]. left.
      intros ->. by apply Hi, (ti_pde _ _ _ Ht d (PDX va)).
    + rewrite Hm'. split; [|split].
      * rewrite (vmap_set_pte Ht d va p) by done. by rewrite decide_True.
      * intros d' va' Hd' Hva' Hne. rewrite Hm', (vmap_set_pte Ht d va p) by done. by rewrite decide_False.
      * intros q _ Hnq y. rewrite Hm', rdw_wrw_ne; [done|]. left. intros ->. apply Hnq. right. by exists d, (PDX va).
  - exists s. split; [by apply (page_remove_none (ki_vm _ _ H))|].
    split; [done|]. split; [auto with frame|]. split; [done|]. by split.
Qed.

Lemma sys_page_unmap_spec A i e s envid va :
  kin A i e s -> 0 <= va < 2^32 ->
  (sys_page_unmap envid va s = Ret (- E_BAD_ENV) s /\ forall j, ~ denotes s i envid true j) \/
  exists j ej, denotes s i envid true j /\ envs s !! j = Some ej /\
    if bad_va va then sys_page_unmap envid va s = Ret (- E_INVAL) s
    else exists s', sys_page_unmap envid va s = Ret 0 s' /\ unmaps A s s' (root_of ej) va.
Proof.
  intros Hk Hva. unfold sys_page_unmap.
  destruct (envid2env_cases A i e s envid true Hk) as [(j & Hj & Heq)|[Hnone Heq]].
  2:{ left. split; [|done]. ks. by rewrite Heq. }
  right. destruct (denotes_live _ _ _ _ _ Hj) as (ej & Hej & Hlj). exists j, ej.
  split; [done|]. split; [done|]. rewrite (bind_Ret _ _ _ _ _ Heq). change (0 <? 0) with false. cbn iota.
  destruct (bad_va va) eqn:Hbad; [done|]. apply good_va in Hbad as [Hva' _]; [|done].
  destruct (kinv_root A s j ej (kin_inv _ _ _ _ Hk) Hej Hlj) as (Hd & Hpg & _).
  unfold deref. rewrite (bind_Ret _ (mret j) s j s), (bind_Ret _ _ _ _ _ (get_env_eq s j ej Hej)) by done.
  rewrite Hpg. destruct (page_remove_kinv A s (root_of ej) va (kin_inv _ _ _ _ Hk) Hd Hva') as (s' & Hr & Hu).
  rewrite (bind_Ret _ _ _ _ _ Hr). by exists s'.
Qed.

(** ** Communication *)

(** The receiver [e] after a message from [from]. *)
Definition delivered (from value perm : Z) (e : Env) : Env :=
  let e := set_env_ipc_perm perm e in
  let e := set_env_ipc_recving false e in
  let e := set_env_ipc_from from e in
  let e := set_env_ipc_value value e in
  let e := set_env_status ENV_RUNNABLE e in
  set_env_tf (set_tf_regs (set_reg_eax 0 (tf_regs (env_tf e))) (env_tf e)) e.

Lemma ipc_deliver_eq s j from value perm e :
  ipc_deliver j from value (with_env j (set_env_ipc_perm perm e) s) =
  Ret tt (with_env j (delivered from value perm e) s).
Proof.
  unfold ipc_deliver. do 4 rewrite (bind_Ret _ _ _ _ _ (upd_with_env s j _ _)).
  by rewrite upd_with_env.
Qed.

Lemma with_env_id s j e : envs s !! j = Some e -> with_env j e s = s.
Proof. intros H. unfold with_env. rewrite insert_id by done. apply set_envs_id. Qed.

Lemma set_env_ipc_perm_id e : set_env_ipc_perm (env_ipc_perm e) e = e.
Proof. by destruct e. Qed.

Lemma delivered_core from value perm e : live e = true -> same_core e (delivered from value perm e).
Proof. intros Hl. unfold same_core. rewrite Hl. by destruct e. Qed.

(** The outcomes of a send to the receiver [j] that waits, from the sender [e]. *)
Definition ipc_sent (A : gset Z) (s : kstate) (e : Env) (j : Z) (ej : Env) (value srcva perm : Z) (o : outcome Z) : Prop :=
  let deliver perm s := with_env j (delivered (env_id e) value perm ej) s in
  if UTOP <=? srcva then o = Ret 0 (deliver 0 s)
  else if truth (PGOFF srcva) || bad_perm perm then o = Ret (- E_INVAL) s
  else match vmap (mem s) (root_of e) srcva with
       | None => o = Ret (- E_INVAL) s
       | Some w =>
           (~ no_escalation w perm /\ o = Ret (- E_INVAL) s) \/
           (no_escalation w perm /\
            if UTOP <=? env_ipc_dstva ej then o = Ret 0 (deliver (env_ipc_perm ej) s)
            else page_free_list s = None /\ vmap (mem s) (root_of ej) (env_ipc_dstva ej) = None /\ o = Ret (- E_NO_MEM) s \/
                 exists s', maps A s s' (root_of ej) (env_ipc_dstva ej) (pgn w) perm /\
                   o = Ret 0 (deliver perm s'))
       end.

(** The last steps of a successful send *)
Lemma ipc_finish A i e s j ej x value :
  kin A i e s -> envs s !! j = Some ej ->
  (ce ← cur_env; ipc_deliver j (env_id ce) value;; mret 0) (with_env j (set_env_ipc_perm x ej) s) =
  Ret 0 (with_env j (delivered (env_id e) value x ej) s).
Proof.
  intros Hk Hej. set (t := with_env j _ s).
  assert (Hc : exists ce, cur_env t = Ret ce t /\ env_id ce = env_id e).
  { unfold cur_env, cur. ks. rewrite (curenv_eq t (Some i)) by apply Hk.
    destruct (decide (j = i)) as [->|Hne].
    - exists (set_env_ipc_perm x ej). rewrite (get_env_eq t i (set_env_ipc_perm x ej)) by apply lookup_insert_eq.
      split; [done|]. simpl. pose proof (kin_env _ _ _ _ Hk). congruence.
    - exists e. rewrite (get_env_eq t i e); [done|]. simpl. rewrite lookup_insert_ne by done. apply Hk. }
  destruct Hc as (ce & Hce & Hid). rewrite (bind_Ret _ _ _ _ _ Hce), Hid.
  unfold t. by rewrite (bind_Ret _ _ _ _ _ (ipc_deliver_eq s j (env_id e) value x ej)).
Qed.

Lemma cur_env_eq A i e s : kin A i e s -> cur_env s = Ret e s.
Proof.
  intros Hk. unfold cur_env, cur. ks. rewrite (curenv_eq s _ (kin_cur _ _ _ _ Hk)).
  apply get_env_eq, Hk.
Qed.

Lemma kin_frame A i e s s' : kin A i e s -> kinv A s' -> vm_frame s s' -> kin A i e s'.
Proof.
  intros [_ Hl Hc He Hlv] H' Hf. split; [done|by apply (vm_frame_locked s)| | |done].
  - by apply (env_frame_cur s); [auto with frame|].
  - by rewrite (vm_frame_envs _ _ Hf).
Qed.

Lemma sys_ipc_try_send_spec A i e s envid value srcva perm :
  kin A i e s -> refs_small A s -> 0 <= srcva < 2^32 ->
  (sys_ipc_try_send envid value srcva perm s = Ret (- E_BAD_ENV) s /\ forall j, ~ denotes s i envid false j) \/
  exists j ej, denotes s i envid false j /\ envs s !! j = Some ej /\
    if env_ipc_recving ej
    then ipc_sent A s e j ej value srcva perm (sys_ipc_try_send envid value srcva perm s)
    else sys_ipc_try_send envid value srcva perm s = Ret (- E_IPC_NOT_RECV) s.
Proof.
  intros Hk Hsm Hsv. unfold sys_ipc_try_send.
  destruct (envid2env_cases A i e s envid false Hk) as [(j & Hj & Heq)|[Hnone Heq]].
  2:{ left. split; [|done]. ks. by rewrite Heq. }
  right. destruct (denotes_live _ _ _ _ _ Hj) as (ej & Hej & Hlj). exists j, ej. split; [done|]. split; [done|].
  rewrite (bind_Ret _ _ _ _ _ Heq). change (0 <? 0) with false. cbn iota. unfold deref.
  rewrite (bind_Ret _ (mret j) s j s), (bind_Ret _ _ _ _ _ (get_env_eq s j ej Hej)) by done.
  destruct (env_ipc_recving ej); cbn [negb]; [|done]. unfold ipc_sent.
  rewrite Z.leb_antisym. destruct (srcva <? UTOP) eqn:Hu; cbn [negb].
  2:{ rewrite (bind_Ret _ _ _ _ _ (upd_env_eq s j ej _ Hej)). by apply (ipc_finish A i). }
  apply Z.ltb_lt in Hu. destruct (truth (PGOFF srcva) || bad_perm perm) eqn:Hbad; [done|].
  apply orb_false_iff in Hbad as [_ Hbp]. rewrite (bind_Ret _ _ _ _ _ (cur_env_eq A i e s Hk)).
  assert (H := kin_inv _ _ _ _ Hk).
  destruct (kinv_root A s i e H (kin_env _ _ _ _ Hk) (kin_live _ _ _ _ Hk)) as (Hd & Hpg & _).
  destruct (kinv_root A s j ej H Hej Hlj) as (Hd' & Hpg' & _). rewrite Hpg.
  pose proof (ei_dst _ _ (ki_env _ _ H) j ej Hej) as Hdst.
  rewrite (Z.leb_antisym (env_ipc_dstva ej)).
  destruct (vmap (mem s) (root_of e) srcva) as [w|] eqn:Hm.
  2:{ by rewrite (bind_Ret _ _ _ _ _ (page_lookup_none (ki_vm _ _ H) (root_of e) srcva Hd ltac:(lia) Hm)). }
  destruct (page_lookup_some (ki_vm _ _ H) (root_of e) srcva Hd ltac:(lia) w Hm) as (p & _ & Hr & Hw & Hl).
  rewrite (bind_Ret _ _ _ _ _ Hl).
  rewrite (bind_Ret _ _ _ _ _ (kload_kva s p (PTX srcva) Hr (PTX_range srcva))), Hw. unfold no_escalation.
  destruct (truth (perm .& PTE_W) && (w .& PTE_W =? 0)) eqn:Hesc.
  { left. split; [|done]. apply andb_true_iff in Hesc as [H1 H2]. unfold truth at 2. rewrite H1, H2. naive_solver. }
  right. split.
  { intros H2. rewrite H2, andb_true_l in Hesc. unfold truth. by rewrite Hesc. }
  destruct (env_ipc_dstva ej <? UTOP) eqn:Hdu; cbn [negb].
  - apply Z.ltb_lt in Hdu. rewrite Hpg'.
    destruct (mapped_page A s _ srcva w H Hd ltac:(lia) Hm) as (HpA & Hnt & Hpos).
    destruct (page_insert_kinv A s (root_of ej) (env_ipc_dstva ej) (pgn w) perm H Hd' ltac:(lia) HpA Hnt Hpos (Hsm _ HpA Hnt) Hbp)
      as [(Hno & Hno' & Hins)|(s' & Hins & Hmaps)]; rewrite (bind_Ret _ _ _ _ _ Hins); [by left|].
    right. exists s'. split; [done|]. destruct Hmaps as (H' & Hf & _).
    assert (Hej' : envs s' !! j = Some ej) by (by rewrite (vm_frame_envs _ _ Hf)).
    change (0 <? 0) with false. cbn iota. rewrite (bind_Ret _ _ _ _ _ (upd_env_eq s' j ej _ Hej')).
    pose proof (perm_range perm Hbp). rewrite (i32_small perm) by lia.
    apply (ipc_finish A i); [|done]. by apply (kin_frame A i e s).
  - rewrite <- (ipc_finish A i e s j ej (env_ipc_perm ej) value Hk Hej).
    by rewrite set_env_ipc_perm_id, with_env_id.
Qed.
