(* ===== verification/SysSafe.v ===== *)
(** * SysSafe: the system calls that take no pointer never bring the kernel down

    For each of them: on a state satisfying the kernel's invariant it returns with the
    invariant, or leaves the kernel well; it does not panic and makes no stray access. *)

From S2P Require Import Prelude Layout KState KMem Pmap VmRefs VmInv VmOps Console Sched UMem Time Env Syscall KInv KEx SchedThms EnvOps EnvFree EnvThms SysOps.

Section ok.
Context (A : gset Z) (i : Z) (e : Env) (s : kstate) (Hk : kin A i e s).
#[local] Notation safe m := (ok A (kret A) (m s)).

Lemma kret_here {B} (b : B) : ok A (kret A) (Ret b s).
Proof. simpl. by apply (kin_kret A i e). Qed.

Lemma cur_eq : cur s = Ret i s.
Proof. unfold cur. ks. by rewrite (curenv_eq s _ (kin_cur _ _ _ _ Hk)). Qed.

(** A change of the fields the invariant does not look at *)
Lemma upd_env_safe j ej f {B} (b : B) :
  envs s !! j = Some ej -> same_core ej (f ej) -> safe (upd_env j f;; mret b).
Proof.
  intros Hej Hc. rewrite (bind_Ret _ _ _ _ _ (upd_env_eq s j ej f Hej)). split; [|apply Hk].
  by apply (kinv_env A s j ej); [apply Hk|..].
Qed.

Lemma sys_getenvid_safe : safe sys_getenvid.
Proof.
  unfold sys_getenvid. rewrite (bind_Ret _ _ _ _ _ (cur_env_eq A i e s Hk)). apply kret_here.
Qed.

Lemma sys_cgetc_safe : safe sys_cgetc.
Proof.
  unfold sys_cgetc. destruct (cons_getc_total (dev s)) as [[c d] ->].
  split; [|apply Hk]. apply kinv_set_dev, Hk.
Qed.

Lemma sys_env_destroy_safe envid : safe (sys_env_destroy envid).
Proof.
  unfold sys_env_destroy.
  destruct (envid2env_cases A i e s envid true Hk) as [(j & Hj & Heq)|[_ Heq]];
    rewrite (bind_Ret _ _ _ _ _ Heq); [|apply kret_here].
  change (0 <? 0) with false. cbn iota. destruct (denotes_live _ _ _ _ _ Hj) as (ej & Hej & Hlj).
  rewrite (bind_Ret _ (deref (Some j)) s j s) by done. eapply ok_bind.
  - apply (env_destroy_ok A s j ej (Some i)); [apply Hk|apply Hk|apply Hk|done..].
  - intros ? s' (Hs' & _). exact Hs'.
Qed.

Lemma sys_env_set_status_safe envid status : safe (sys_env_set_status envid status).
Proof.
  unfold sys_env_set_status.
  destruct (negb (status =? ENV_RUNNABLE) && negb (status =? ENV_NOT_RUNNABLE)) eqn:Hst; [apply kret_here|].
  destruct (envid2env_cases A i e s envid true Hk) as [(j & Hj & Heq)|[_ Heq]];
    rewrite (bind_Ret _ _ _ _ _ Heq); [|apply kret_here].
  change (0 <? 0) with false. cbn iota. destruct (denotes_live _ _ _ _ _ Hj) as (ej & Hej & Hlj).
  rewrite (bind_Ret _ (deref (Some j)) s j s) by done. apply (upd_env_safe j ej); [done|].
  apply same_core_status; [done|]. intros ->. done.
Qed.

Lemma sys_env_set_pgfault_upcall_safe envid func : safe (sys_env_set_pgfault_upcall envid func).
Proof.
  unfold sys_env_set_pgfault_upcall.
  destruct (envid2env_cases A i e s envid true Hk) as [(j & Hj & Heq)|[_ Heq]];
    rewrite (bind_Ret _ _ _ _ _ Heq); [|apply kret_here].
  change (0 <? 0) with false. cbn iota. destruct (denotes_live _ _ _ _ _ Hj) as (ej & Hej & Hlj).
  rewrite (bind_Ret _ (deref (Some j)) s j s) by done. by apply (upd_env_safe j ej).
Qed.

Lemma sys_change_priority_safe p : safe (sys_change_priority p).
Proof.
  unfold sys_change_priority. destruct (20 <? p); [apply kret_here|].
  rewrite (bind_Ret _ _ _ _ _ cur_eq). by apply (upd_env_safe i e); [apply Hk|].
Qed.

Lemma sys_env_set_type_safe type : safe (sys_env_set_type type).
Proof.
  unfold sys_env_set_type. destruct (_ && _); [apply kret_here|].
  rewrite (bind_Ret _ (get id) s s s) by done. destruct (find_first _ _); [apply kret_here|].
  rewrite (bind_Ret _ _ _ _ _ cur_eq). by apply (upd_env_safe i e); [apply Hk|].
Qed.

Lemma sys_time_msec_safe : safe sys_time_msec.
Proof. apply kret_here. Qed.

Lemma page_allocated_safe ej va perm o : page_allocated A s ej va perm o -> ok A (kret A) o.
Proof.
  intros [(s' & -> & _ & H' & Hf & _)|(s' & q & -> & _ & (H' & Hf & _) & _)]; (split; [done|]);
    apply (vm_frame_locked s); (done || apply Hk).
Qed.

Lemma sys_page_alloc_safe envid va perm : 0 <= va < 2^32 -> safe (sys_page_alloc envid va perm).
Proof.
  intros Hva. destruct (sys_page_alloc_spec A i e s envid va perm Hk Hva) as [[-> _]|(j & ej & _ & _ & H)];
    [apply kret_here|].
  destruct (_ || _); [rewrite H; apply kret_here|]. by apply (page_allocated_safe ej va perm).
Qed.

Lemma sys_page_map_safe srcenvid srcva dstenvid dstva perm :
  refs_small A s -> 0 <= srcva < 2^32 -> 0 <= dstva < 2^32 ->
  safe (sys_page_map srcenvid srcva dstenvid dstva perm).
Proof.
  intros Hsm Hs Hd.
  destruct (sys_page_map_spec A i e s srcenvid srcva dstenvid dstva perm Hk Hsm Hs Hd)
    as [[-> _]|(j & ej & k & ek & _ & _ & _ & _ & H)]; [apply kret_here|].
  destruct (_ || _); [rewrite H; apply kret_here|].
  destruct (vmap _ _ _); [|rewrite H; apply kret_here].
  destruct H as [[_ ->]|[_ [(_ & _ & ->)|(s' & -> & H' & Hf & _)]]]; [apply kret_here..|].
  split; [done|]. apply (vm_frame_locked s); [done|apply Hk].
Qed.

Lemma sys_page_unmap_safe envid va : 0 <= va < 2^32 -> safe (sys_page_unmap envid va).
Proof.
  intros Hva. destruct (sys_page_unmap_spec A i e s envid va Hk Hva) as [[-> _]|(j & ej & _ & _ & H)];
    [apply kret_here|].
  destruct (bad_va va); [rewrite H; apply kret_here|]. destruct H as (s' & -> & H' & Hf & _).
  split; [done|]. apply (vm_frame_locked s); [done|apply Hk].
Qed.

Lemma kinv_receiving dstva : 0 <= dstva < 2^32 ->
  kinv A (with_env i (set_env_status ENV_NOT_RUNNABLE (set_env_ipc_recving true (set_env_ipc_dstva dstva e))) s).
Proof.
  intros Hd. apply (kinv_env A s i e); [apply Hk..|]. split; [by rewrite (kin_live _ _ _ _ Hk)|]. done.
Qed.

Lemma sys_ipc_recv_safe dstva : 0 <= dstva < 2^32 -> safe (sys_ipc_recv dstva).
Proof.
  intros Hd. unfold sys_ipc_recv. destruct (_ && _); [apply kret_here|].
  rewrite (bind_Ret _ _ _ _ _ cur_eq).
  rewrite (bind_Ret _ _ _ _ _ (upd_env_eq s i e _ (kin_env _ _ _ _ Hk))).
  fold (with_env i (set_env_ipc_dstva dstva e) s).
  do 2 rewrite (bind_Ret _ _ _ _ _ (upd_with_env s i _ _)).
  apply sched_yield_ok; [|apply Hk]. by apply kinv_receiving.
Qed.

Lemma ipc_sent_safe j ej value srcva perm o :
  envs s !! j = Some ej -> live ej = true ->
  ipc_sent A s e j ej value srcva perm o -> ok A (kret A) o.
Proof.
  intros Hej Hlj.
  assert (Hdel : forall x s', kinv A s' -> vm_frame s s' ->
    ok A (kret A) (Ret 0 (with_env j (delivered (env_id e) value x ej) s'))).
  { intros x s' H' Hf. split; [|apply (vm_frame_locked s s'); [done|apply Hk]].
    apply (kinv_env A s' j ej); [done|by rewrite (vm_frame_envs _ _ Hf)|by apply delivered_core]. }
  unfold ipc_sent. destruct (UTOP <=? srcva); [intros ->; apply Hdel; [apply Hk|auto with frame]|].
  destruct (_ || _); [intros ->; apply kret_here|].
  destruct (vmap _ _ _); [|intros ->; apply kret_here].
  intros [[_ ->]|[_ H]]; [apply kret_here|].
  destruct (UTOP <=? _); [rewrite H; apply Hdel; [apply Hk|auto with frame]|].
  destruct H as [(_ & _ & ->)|(s' & (H' & Hf & _) & ->)]; [apply kret_here|by apply Hdel].
Qed.

Lemma sys_ipc_try_send_safe envid value srcva perm :
  refs_small A s -> 0 <= srcva < 2^32 -> safe (sys_ipc_try_send envid value srcva perm).
Proof.
  intros Hsm Hs.
  destruct (sys_ipc_try_send_spec A i e s envid value srcva perm Hk Hsm Hs) as [[-> _]|(j & ej & Hj & Hej & H)];
    [apply kret_here|].
  destruct (denotes_live _ _ _ _ _ Hj) as (x & Hx & Hlj). rewrite Hej in Hx. injection Hx as <-.
  destruct (env_ipc_recving ej); [by apply (ipc_sent_safe j ej value srcva perm)|rewrite H; apply kret_here].
Qed.

(** The new child of [sys_exofork] *)
Definition forked (e : Env) (child : Env) : Env :=
  let tf := env_tf e in
  set_env_tf (set_tf_regs (set_reg_eax 0 (tf_regs tf)) tf) (set_env_status ENV_NOT_RUNNABLE child).

Lemma sys_exofork_spec :
  match env_free_list s, page_free_list s with
  | None, _ => sys_exofork s = Ret (- E_NO_FREE_ENV) s
  | Some _, None => sys_exofork s = Ret (- E_NO_MEM) s
  | Some j, Some q => exists ej s1, env_alloc (env_id e) s = Ret (0, Some j) s1 /\
      envs s !! j = Some ej /\ j <> i /\ kinv A s1 /\ env_frame s s1 /\
      envs s1 = <[j := new_env (env_id e) j q ej]> (envs s) /\
      (exists kd, mem s1 = new_dir (mem s) q kd /\ refs (mem s) (roots (envs s)) q = 0 /\ kern_dir A s kd /\ q ∈ A) /\
      sys_exofork s = Ret (next_env_id (env_id ej) j) (with_env j (forked e (new_env (env_id e) j q ej)) s1)
  end.
Proof.
  unfold sys_exofork. rewrite (bind_Ret _ _ _ _ _ (cur_env_eq A i e s Hk)).
  destruct (env_alloc_fail A s (env_id e) (kin_inv _ _ _ _ Hk)) as [Hf1 Hf2].
  destruct (env_free_list s) as [j|] eqn:Hj; [|by rewrite (bind_Ret _ _ _ _ _ (Hf1 eq_refl))].
  destruct (page_free_list s) as [q|] eqn:Hq; [|by rewrite (bind_Ret _ _ _ _ _ (Hf2 j eq_refl eq_refl))].
  destruct (env_alloc_spec A s (env_id e) j q (kin_inv _ _ _ _ Hk) Hj Hq) as
    (ej & kd & s1 & Hej & Hst & Hkd & Hal & H1 & Hfr & Hes & Hm & HqA & H0).
  exists ej, s1. split; [done|]. split; [done|].
  assert (Hji : j <> i).
  { intros ->. pose proof (kin_env _ _ _ _ Hk). pose proof (kin_live _ _ _ _ Hk) as Hl.
    apply live_free in Hst. congruence. }
  split; [done|]. split; [done|]. split; [done|]. split; [done|]. split; [by exists kd|].
  rewrite (bind_Ret _ _ _ _ _ Hal). change (0 <? 0) with false. cbn iota.
  rewrite (bind_Ret _ (deref (Some j)) s1 j s1) by done.
  set (x := new_env (env_id e) j q ej) in *.
  assert (Hx : envs s1 !! j = Some x) by (by rewrite Hes, lookup_insert_eq).
  rewrite (bind_Ret _ _ _ _ _ (upd_env_eq s1 j x _ Hx)). fold (with_env j (set_env_status ENV_NOT_RUNNABLE x) s1).
  assert (Hce : cur_env (with_env j (set_env_status ENV_NOT_RUNNABLE x) s1) = Ret e (with_env j (set_env_status ENV_NOT_RUNNABLE x) s1)).
  { unfold cur_env, cur. ks. rewrite (curenv_eq _ (Some i)) by (apply (env_frame_cur s s1); [done|apply Hk]).
    apply get_env_eq. simpl. rewrite lookup_insert_ne, Hes, lookup_insert_ne by done. apply Hk. }
  rewrite (bind_Ret _ _ _ _ _ Hce). do 2 rewrite (bind_Ret _ _ _ _ _ (upd_with_env s1 j _ _)).
  by rewrite (bind_Ret _ _ _ _ _ (get_with_env s1 j _)).
Qed.

Lemma sys_exofork_safe : safe sys_exofork.
Proof.
  pose proof sys_exofork_spec as H.
  destruct (env_free_list s) as [j|]; [|rewrite H; apply kret_here].
  destruct (page_free_list s) as [q|]; [|rewrite H; apply kret_here].
  destruct H as (ej & s1 & _ & _ & _ & H1 & Hfr & Hes & _ & ->).
  split; [|apply (env_frame_locked s s1); [done|apply Hk]].
  apply (kinv_env A s1 j (new_env (env_id e) j q ej)); [done|by rewrite Hes, lookup_insert_eq|done].
Qed.
End ok.
