(* ===== verification/UStore.v ===== *)
(** * UStore: the kernel's accesses to user memory below [UTOP]

    [ubyte] is what user code sees at an address.  A store to a range that is writable for
    the user goes through, keeps the kernel's invariant and every mapping, and is read back;
    this is what [page_fault_handler] relies on after [user_mem_assert]. *)

From S2P Require Import Prelude Layout KState KMem Pmap VmRefs VmInv VmOps UserMem UMem KInv EnvThms.

(** The byte user code reads at [va] in the address space of directory [d]. *)
Definition ubyte (s : kstate) (d va : Z) : option Z :=
  match vmap (mem s) d va with
  | Some e => Some (rdb (mem s) (pgn e) (PGOFF va))
  | None => None
  end.

(** The bytes from [va] on are [bs]. *)
Definition holds (s : kstate) (d va : Z) (bs : list Z) : Prop :=
  forall k b, bs !! k = Some b -> ubyte s d (va + Z.of_nat k) = Some (u8 b).

Lemma holds_app s d va l1 l2 :
  holds s d va l1 -> holds s d (va + Z.of_nat (length l1)) l2 -> holds s d va (l1 ++ l2).
Proof.
  intros H1 H2 k b Hk. destruct (decide (k < length l1)%nat) as [Hlt|Hge].
  - rewrite lookup_app_l in Hk by done. by apply H1.
  - rewrite lookup_app_r in Hk by lia. apply H2 in Hk.
    by replace (va + Z.of_nat (length l1) + Z.of_nat (k - length l1)) with (va + Z.of_nat k) in Hk by lia.
Qed.

(** The mapping of [va] allows the user to write. *)
Definition writable (m : memory) (d va : Z) : Prop :=
  exists e, vmap m d va = Some e /\ e .& PTE_W <> 0.

(** An entry with the rights of the user to write has each of them. *)
Lemma pde_write e : e .& (PTE_U .| PTE_W) = PTE_U .| PTE_W -> e .& PTE_W <> 0.
Proof. intros H Hw. apply (f_equal (fun x => x .& PTE_W)) in H. rewrite <- Z.land_assoc in H. change ((PTE_U .| PTE_W) .& PTE_W) with PTE_W in H. by rewrite Hw in H. Qed.
Lemma pde_user e : e .& (PTE_U .| PTE_W) = PTE_U .| PTE_W -> e .& PTE_U <> 0.
Proof. intros H Hw. apply (f_equal (fun x => x .& PTE_U)) in H. rewrite <- Z.land_assoc in H. change ((PTE_U .| PTE_W) .& PTE_U) with PTE_U in H. by rewrite Hw in H. Qed.

Section store.
Context (A : gset Z).

(** Only the contents of user pages differ. *)
Record data_step (s s' : kstate) : Prop := {
  ds_frame : s' = set_mem (mem s') s;
  ds_inv : kinv A s';
  ds_vmap : forall d va, d ∈ roots (envs s) -> 0 <= va < UTOP -> vmap (mem s') d va = vmap (mem s) d va;
}.

Lemma data_step_refl s : kinv A s -> data_step s s.
Proof. intros H. split; [by destruct s|done..]. Qed.

Lemma data_step_envs s s' : data_step s s' -> envs s' = envs s.
Proof. intros [-> _ _]. done. Qed.

Lemma data_step_trans s1 s2 s3 : data_step s1 s2 -> data_step s2 s3 -> data_step s1 s3.
Proof.
  intros H1 H2. assert (He := data_step_envs _ _ H1). destruct H1 as [F1 _ V1], H2 as [F2 I2 V2].
  split; [|done|].
  - rewrite F2, F1. by destruct s1.
  - intros d va Hd Hva. rewrite V2, V1; [done|done..|by rewrite He|done].
Qed.

Context (s : kstate) (H : kinv A s) (d : Z) (Hd : d ∈ roots (envs s)).

Lemma user_ok_vmap perm va :
  0 <= va < UTOP -> user_ok s d perm va = true ->
  exists e, vmap (mem s) d va = Some e /\ e .& (perm .| PTE_P) = perm .| PTE_P.
Proof.
  intros Hva. unfold user_ok, entry, vmap. destruct (ki_vm _ _ H) as [Ht _].
  rewrite (ti_ps _ _ _ Ht d (PDX va) Hd (PDX_upde va Hva)). change (truth 0) with false.
  rewrite andb_false_r. intros [_ Hok]%andb_true_iff.
  destruct (present (rdw (mem s) d (PDX va))); [|done]. apply Z.eqb_eq in Hok.
  set (e := rdw _ _ (PTX va)) in *. exists e. split; [|done].
  assert (present e = true) as ->; [|done]. unfold present.
  assert (Hp : e .& PTE_P = PTE_P).
  { apply (f_equal (fun x => x .& PTE_P)) in Hok. rewrite <- Z.land_assoc in Hok.
    rewrite Z.land_lor_distr_l, Z.land_diag in Hok.
    assert (Habs : (perm .& PTE_P) .| PTE_P = PTE_P); [|by rewrite Habs in Hok].
    apply Z.bits_inj'. intros n _. rewrite Z.lor_spec, Z.land_spec.
    destruct (Z.testbit perm n), (Z.testbit PTE_P n); done. }
  by rewrite Hp.
Qed.

(** Writing a byte of a page that is not a table. *)
Lemma wrb_data_step q o b :
  q ∈ A -> ~ is_table (mem s) (roots (envs s)) q -> data_step s (set_mem (wrb (mem s) q o b) s).
Proof.
  intros HqA Hnt. destruct (ki_vm _ _ H) as [Ht Hp].
  assert (Hf : forall p y, p <> q -> rdw (wrb (mem s) q o b) p y = rdw (mem s) p y).
  { intros p y Hne. rewrite wrb_word, rdw_wrw, decide_False; [done|]. by intros [-> _]. }
  assert (Hft : forall p y, is_table (mem s) (roots (envs s)) p -> rdw (wrb (mem s) q o b) p y = rdw (mem s) p y).
  { intros p y Hp'. apply Hf. by intros ->. }
  split.
  - done.
  - split; simpl.
    + split; simpl.
      * apply (tbl_frame A _ (mem s)); [done..|]. apply wrb_range, (ti_word _ _ _ Ht).
      * eapply pg_inv_ext; [|done]. intros. by apply refs_frame.
    + apply H.
    + destruct (ki_kern _ _ H) as (kd & ? & HkA & ? & Hz). exists kd. do 3 (split; [done|]).
      simpl. intros x Hx. rewrite Hf; [by apply Hz|]. by intros ->.
    + apply H.
  - intros d' va Hd' Hva. simpl. apply (vmap_same (D := roots (envs s))); [done..| |].
    + intros x. apply Hft. by left.
    + intros p y Hp'. apply Hft. right. by exists d', (PDX va).
Qed.

Lemma translate_spec va e (w : bool) :
  0 <= va < UTOP -> vmap (mem s) d va = Some e -> (w = true -> e .& PTE_W <> 0) ->
  translate (kva d) va w s = Ret (pgn e * PGSIZE + PGOFF va) s.
Proof.
  intros Hva Hm Hw. destruct (ki_vm _ _ H) as [Ht Hp]. pose proof (vm_npages (ki_vm _ _ H)) as Hn.
  destruct (vmap_page Ht d va e Hd Hva Hm) as (p & Hpt & He & Hpr & HA & _).
  assert (Hpt' := Hpt). destruct Hpt' as (_ & Hx & Hppr & Hpg).
  pose proof (vm_root (ki_vm _ _ H) d Hd) as Hdr.
  assert (Hpr' : 0 <= p < npages s) by (apply (pi_pool _ _ _ _ _ _ Hp), (ti_pde _ _ _ Ht d (PDX va)), Hpt).
  unfold translate. destruct (Z.leb_spec KERNBASE va); [clia|].
  rewrite (bind_Ret _ _ _ _ _ (kload_kva s d (PDX va) Hdr (PDX_range va))).
  assert (Hpw := pde_write _ (ti_pdew _ _ _ Ht d (PDX va) Hd Hx Hppr)). apply Z.eqb_neq in Hpw.
  rewrite Hppr, Hpw, andb_false_r, (ti_ps _ _ _ Ht d (PDX va) Hd Hx).
  cbn [negb orb]. change (truth 0) with false. cbn iota.
  assert (Hbase : KERNBASE + PTE_ADDR (rdw (mem s) d (PDX va)) = kva p).
  { unfold kva. rewrite <- Hpg. pose proof (ti_word _ _ _ Ht d (PDX va)).
    rewrite PTE_ADDR_div, pgn_div by done. done. }
  rewrite Hbase. rewrite (bind_Ret _ _ _ _ _ (kload_kva s p (PTX va) Hpr' (PTX_range va))).
  rewrite He, Hpr. assert (Hd2 : w && (e .& PTE_W =? 0) = false).
  { destruct w; [|done]. apply Z.eqb_neq. by apply Hw. }
  rewrite Hd2. cbn [negb orb]. ks. f_equal. f_equal.
  rewrite <- He. pose proof (ti_word _ _ _ Ht p (PTX va)).
  rewrite PTE_ADDR_div, pgn_div by done. done.
Qed.

Lemma ustoreb_spec va b :
  0 <= va < UTOP -> writable (mem s) d va ->
  exists e, vmap (mem s) d va = Some e /\
    ustoreb (kva d) va b s = Ret tt (set_mem (wrb (mem s) (pgn e) (PGOFF va) b) s) /\
    data_step s (set_mem (wrb (mem s) (pgn e) (PGOFF va) b) s).
Proof.
  intros Hva (e & He & Hw). exists e. split; [done|].
  destruct (ki_vm _ _ H) as [Ht Hp]. pose proof (vm_npages (ki_vm _ _ H)) as Hn.
  destruct (vmap_page Ht d va e Hd Hva He) as (p & Hpt & _ & Hpr & HA & _ & _ & Hnt).
  split; [|by apply wrb_data_step].
  unfold ustoreb. rewrite u32_small by clia. rewrite (bind_Ret _ _ _ _ _ (translate_spec va e true Hva He ltac:(done))).
  assert (Hr := pi_pool _ _ _ _ _ _ Hp _ HA). assert (Ho : 0 <= PGOFF va < 4096) by (rewrite PGOFF_mod; dlia).
  rewrite kstoreb_eq by (unfold kmapped, PGSIZE; lia).
  replace (KERNBASE + (pgn e * PGSIZE + PGOFF va) - KERNBASE) with (pgn e * 4096 + PGOFF va) by (unfold PGSIZE; lia).
  rewrite Z.div_add_l, Z.div_small, Z.add_0_r by lia.
  by rewrite Z.add_comm, Z.mod_add, Z.mod_small by lia.
Qed.

Lemma ubyte_wrb q o b d' va :
  d' ∈ roots (envs s) -> 0 <= va < UTOP ->
  data_step s (set_mem (wrb (mem s) q o b) s) ->
  ubyte (set_mem (wrb (mem s) q o b) s) d' va =
    match vmap (mem s) d' va with
    | Some e => Some (if decide (q = pgn e /\ o = PGOFF va) then u8 b else rdb (mem s) (pgn e) (PGOFF va))
    | None => None
    end.
Proof.
  intros Hd' Hva Hs. unfold ubyte. rewrite (ds_vmap _ _ Hs) by done. destruct (vmap _ d' va); [|done].
  simpl. by rewrite rdb_wrb by apply (ti_word _ _ _ (proj1 (ki_vm _ _ H))).
Qed.
End store.

(** The offsets of nearby addresses differ. *)
Lemma PGOFF_ne a b : a <> b -> Z.abs (a - b) < 4096 -> PGOFF a <> PGOFF b.
Proof. intros. rewrite !PGOFF_mod. dlia. Qed.

(** A store of [bs] at [va]; a page may be mapped twice, but addresses less than a page apart
    never share a byte. *)
Lemma ustore_spec A d bs : forall s va,
  kinv A s -> d ∈ roots (envs s) -> 0 <= va -> va + Z.of_nat (length bs) <= UTOP ->
  (forall a, va <= a < va + Z.of_nat (length bs) -> writable (mem s) d a) ->
  Z.of_nat (length bs) <= 4096 ->
  exists s', ustore (kva d) va bs s = Ret tt s' /\ data_step A s s' /\ holds s' d va bs /\
    (forall a, 0 <= a < UTOP -> (forall k, va <= k < va + Z.of_nat (length bs) -> k <> a /\ Z.abs (k - a) < 4096) ->
       ubyte s' d a = ubyte s d a) /\
    (forall pg, (forall k, va <= k < va + Z.of_nat (length bs) -> exists e, vmap (mem s) d k = Some e /\ pgn e <> pg) ->
       forall y, rdw (mem s') pg y = rdw (mem s) pg y).
Proof.
  induction bs as [|b bs IH]; intros s va H Hd Hva Htop Hw Hlen; cbn [length ustore] in *.
  { exists s. split_and!; try done. by apply data_step_refl. }
  destruct (ustoreb_spec A s H d Hd va b) as (e & He & Hst & Hds); [lia|apply Hw; lia|].
  rewrite (bind_Ret _ _ _ _ _ Hst). set (s1 := set_mem _ s) in *.
  destruct (IH s1 (va + 1)) as (s' & Hs' & Hds' & Hh & Hout & Hpg); [apply Hds|done|lia|lia| |lia|].
  { intros a Ha. destruct (Hw a ltac:(lia)) as (e' & He' & Hwe'). exists e'.
    by rewrite (ds_vmap _ _ _ Hds) by (try done; lia). }
  exists s'. split; [done|]. split; [by eapply data_step_trans|]. split_and!.
  - intros [|k] x Hx.
    + injection Hx as <-. rewrite Z.add_0_r. rewrite Hout; [|lia|lia].
      unfold s1. rewrite (ubyte_wrb A) by (done || lia). rewrite He. by rewrite decide_True.
    + specialize (Hh k x Hx). by replace (va + Z.of_nat (S k)) with (va + 1 + Z.of_nat k) by lia.
  - intros a Ha Hne. rewrite Hout; [|done|intros; apply Hne; lia].
    unfold s1. rewrite (ubyte_wrb A) by done. unfold ubyte. destruct (vmap (mem s) d a); [|done].
    rewrite decide_False; [done|]. intros [_ Ho]. revert Ho. destruct (Hne va ltac:(lia)). by apply PGOFF_ne.
  - intros pg Hno y. rewrite Hpg.
    + unfold s1. simpl. rewrite wrb_word, rdw_wrw, decide_False; [done|].
      destruct (Hno va ltac:(lia)) as (e' & He' & Hn). intros [<- _]. congruence.
    + intros k Hk. destruct (Hno k ltac:(lia)) as (e' & He' & Hn). exists e'.
      by rewrite (ds_vmap _ _ _ Hds) by (try done; lia).
Qed.

