(* ===== verification/TrapThms.v ===== *)
(** * TrapThms: traps from user mode and from a halted CPU

    A page fault is delivered to the environment's own handler, or the environment is
    destroyed.  No trap of user code brings the kernel down: whatever the faulting
    instruction, interrupt or system call of the list [unsafe_calls] excludes, the kernel
    ends in user mode, halted, or in the monitor, with its invariant and the lock free. *)

From S2P Require Import Prelude Layout KState KMem Pmap VmRefs VmInv VmOps UserMem UMem Time Console Sched Env Syscall Trap KInv KEx SchedThms EnvOps EnvFree EnvThms SysOps SysSafe UStore.

(** ** Page faults *)

(** [struct UTrapframe] in memory *)
Definition utf_bytes (fault_va : Z) (tf : Trapframe) : list Z :=
  le_bytes 4 fault_va ++ le_bytes 4 (tf_err tf) ++ regs_bytes (tf_regs tf) ++
  le_bytes 4 (tf_eip tf) ++ le_bytes 4 (tf_eflags tf) ++ le_bytes 4 (tf_esp tf).

Lemma utf_addr_range esp : 0 <= esp < 2^32 -> UXSTACKTOP - 2 * PGSIZE <= utf_addr esp <= UTOP - sizeof_UTrapframe.
Proof.
  intros He. unfold utf_addr, sizeof_UTrapframe. destruct (_ && _) eqn:Hc; [|clia].
  apply andb_true_iff in Hc as [?%Z.leb_le ?%Z.ltb_lt]. rewrite u32_small by clia. clia.
Qed.

Lemma kinv_dir A s d : kinv A s -> d ∈ roots (envs s) -> dir_ok s d UTOP.
Proof.
  intros H Hd. destruct (ki_vm _ _ H) as [Ht Hp]. split.
  - apply (vm_npages (ki_vm _ _ H)).
  - by apply (vm_root (ki_vm _ _ H)).
  - apply (ti_word _ _ _ Ht).
  - intros va Hva Hpr. apply (pi_pool _ _ _ _ _ _ Hp), (ti_pde _ _ _ Ht d (PDX va)).
    repeat split; auto with frame.
Qed.

Section frame.
Context (A : gset Z) (s0 : kstate) (d frame : Z).
Context (Hd : d ∈ roots (envs s0)) (Hlo : 0 <= frame) (Hhi : frame + sizeof_UTrapframe <= UTOP).
Context (Hw : forall a, frame <= a < frame + sizeof_UTrapframe -> writable (mem s0) d a).

(** The stack frame is filled from its end: the bytes from offset [o] on are [bs]. *)
Record filled (o : Z) (bs : list Z) (s : kstate) : Prop := {
  fl_step : data_step A s0 s;
  fl_len : o + Z.of_nat (length bs) = sizeof_UTrapframe;
  fl_holds : holds s d (frame + o) bs;
  fl_other : forall pg, (forall a, frame <= a < frame + sizeof_UTrapframe ->
      exists e, vmap (mem s0) d a = Some e /\ pgn e <> pg) ->
    forall y, rdw (mem s) pg y = rdw (mem s0) pg y;
}.

Lemma fill_step o o' bs bs' s :
  filled o bs s -> 0 <= o' -> o' + Z.of_nat (length bs') = o ->
  exists s', ustore (kva d) (frame + o') bs' s = Ret tt s' /\ filled o' (bs' ++ bs) s'.
Proof.
  intros [Hs Hl Hh Ho] Ho' Hoo. unfold sizeof_UTrapframe in *.
  assert (Hv := ds_vmap _ _ _ Hs).
  destruct (ustore_spec A d bs' s (frame + o')) as (s' & Hst & Hs' & Hh' & Hout & Hpg);
    [apply Hs|by rewrite (data_step_envs _ _ _ Hs)|lia|lia| |lia|].
  { intros a Ha. destruct (Hw a ltac:(lia)) as (e & He & Hwe). exists e. by rewrite Hv by (done || lia). }
  exists s'. split; [done|]. split.
  - by eapply data_step_trans.
  - rewrite length_app. unfold sizeof_UTrapframe. lia.
  - apply holds_app; [done|]. replace (frame + o' + Z.of_nat (length bs')) with (frame + o) by lia.
    intros k b Hk. assert (Hkl := lookup_lt_Some _ _ _ Hk). rewrite Hout; [by apply Hh|lia|lia].
  - intros pg Hpn y. rewrite Hpg; [by apply Ho|]. intros k Hk.
    destruct (Hpn k ltac:(unfold sizeof_UTrapframe; lia)) as (e & He & Hne). exists e. by rewrite Hv by (done || lia).
Qed.

(** The six stores of [page_fault_handler] *)
Lemma fill_frame {B} fault_va tf (k : K B) :
  kinv A s0 ->
  exists s, (ustore (kva d) (frame + 48) (le_bytes 4 (tf_esp tf));;
     ustore (kva d) (frame + 44) (le_bytes 4 (tf_eflags tf));;
     ustore (kva d) (frame + 40) (le_bytes 4 (tf_eip tf));;
     ustore (kva d) (frame + 8) (regs_bytes (tf_regs tf));;
     ustore (kva d) (frame + 4) (le_bytes 4 (tf_err tf));;
     ustore (kva d) frame (le_bytes 4 fault_va);; k) s0 = k s /\
    filled 0 (utf_bytes fault_va tf) s.
Proof.
  intros H.
  assert (F0 : filled 52 [] s0).
  { split; [by apply data_step_refl|done|done|done]. }
  destruct (fill_step 52 48 [] (le_bytes 4 (tf_esp tf)) s0 F0) as (s1 & E1 & F1); [lia|done|].
  destruct (fill_step 48 44 _ (le_bytes 4 (tf_eflags tf)) s1 F1) as (s2 & E2 & F2); [lia|done|].
  destruct (fill_step 44 40 _ (le_bytes 4 (tf_eip tf)) s2 F2) as (s3 & E3 & F3); [lia|done|].
  destruct (fill_step 40 8 _ (regs_bytes (tf_regs tf)) s3 F3) as (s4 & E4 & F4); [lia|done|].
  destruct (fill_step 8 4 _ (le_bytes 4 (tf_err tf)) s4 F4) as (s5 & E5 & F5); [lia|done|].
  destruct (fill_step 4 0 _ (le_bytes 4 fault_va) s5 F5) as (s6 & E6 & F6); [lia|done|].
  exists s6. rewrite Z.add_0_r in E6.
  rewrite (bind_Ret _ _ _ _ _ E1), (bind_Ret _ _ _ _ _ E2), (bind_Ret _ _ _ _ _ E3),
    (bind_Ret _ _ _ _ _ E4), (bind_Ret _ _ _ _ _ E5), (bind_Ret _ _ _ _ _ E6).
  by rewrite app_nil_r in F6.
Qed.
End frame.

(** The kernel is left and environment [c] is free. *)
Definition destroyed {B} (A : gset Z) (c : Z) (o : outcome B) : Prop :=
  ok A (fun _ _ => False) o /\
  forall s', leaves o s' -> exists e', envs s' !! c = Some e' /\ env_status e' = ENV_FREE.

Lemma destroyed_bind {B C} A c (m : K B) (k : B -> K C) s :
  destroyed A c (m s) -> destroyed A c ((m ≫= k) s).
Proof.
  intros [Hok Hl]. split; [by eapply ok_bind|]. intros s' [Hs|(b & s1 & Hs & _)]%leaves_bind; [auto|].
  by rewrite Hs in Hok.
Qed.

(** The current environment destroys itself. *)
Lemma env_destroy_self A c e s : kin A c e s -> destroyed A c (env_destroy c s).
Proof.
  intros Hk. split.
  { eapply ok_mono; [apply (env_destroy_ok A s c e (Some c)); apply Hk|]. intros _ s' (_ & _ & Hne). done. }
  destruct Hk as [H Hlock Hcur He Hl]. unfold env_destroy.
  rewrite (bind_Ret _ _ _ _ _ (get_env_eq s c e He)), (bind_Ret _ _ _ _ _ (curenv_eq s _ Hcur)).
  rewrite bool_decide_true by done. cbn [negb]. rewrite andb_false_r.
  destruct (env_free_spec A s c e H He Hl) as (s1 & Hf & H1 & Hfr & _ & Henv & _).
  rewrite (bind_Ret _ _ _ _ _ Hf).
  assert (Hcur1 := env_frame_cur _ _ _ Hfr Hcur). assert (Hlock1 := env_frame_locked _ _ Hfr Hlock).
  rewrite (bind_Ret _ _ _ _ _ (curenv_eq s1 _ Hcur1)). rewrite bool_decide_true by done.
  destruct Hcur1 as (p & Hp & _). unfold set_curenv.
  rewrite (bind_Ret _ _ _ _ _ (set_thiscpu_eq s1 p _ Hp)). intros s' Hs'.
  exists (freed (env_free_list s) e). split; [|done].
  refine (sched_yield_free A _ c _ s' _ _ _ _ Hs'); [by apply kinv_cpus|by apply locked_cur| |done].
  simpl. by rewrite Henv, lookup_insert_eq.
Qed.

(** Environment [e] with its handler about to run on [frame]. *)
Definition upcalled (frame : Z) (e : Env) : Env :=
  set_env_tf (set_tf_esp frame (set_tf_eip (env_pgfault_upcall e) (env_tf e))) e.

Section fault.
Context (A : gset Z) (c : Z) (e : Env) (s : kstate) (Hk : kin A c e s).
Context (i : trap_in) (tf : Trapframe) (Huser : tf_cs tf .& 3 <> 0) (Hesp : 0 <= tf_esp tf < 2^32).

(** The stack of the handler has room for the frame. *)
Definition stack_ok : Prop :=
  let frame := utf_addr (tf_esp tf) in
  forall a, frame <= a < frame + sizeof_UTrapframe -> user_ok s (root_of e) (PTE_W .| PTE_U) a = true.

(** The fault has been delivered: the frame is on the stack and the handler runs. *)
Definition delivers (s' : kstate) : Prop :=
  exists s1, filled A s (root_of e) (utf_addr (tf_esp tf)) 0 (utf_bytes (cr2 i) tf) s1 /\
    kinv A s' /\ resumes c (with_env c (upcalled (utf_addr (tf_esp tf)) e) s1) s'.

Lemma kin_env_root : root_of e ∈ roots (envs s) /\ env_pgdir e = kva (root_of e) /\ 0 <= root_of e < npages s.
Proof. apply (kinv_root A s c e); apply Hk. Qed.

Lemma page_fault_cases :
  (env_pgfault_upcall e <> 0 /\ stack_ok /\
     exists s', page_fault_handler i tf s = UserMode s' /\ delivers s') \/
  ((env_pgfault_upcall e = 0 \/ ~ stack_ok) /\ destroyed A c (page_fault_handler i tf s)).
Proof.
  destruct kin_env_root as (Hd & Hpg & Hrng). pose proof (utf_addr_range _ Hesp) as Hfr.
  unfold stack_ok, delivers. set (frame := utf_addr (tf_esp tf)) in *.
  unfold sizeof_UTrapframe in *.
  unfold page_fault_handler. destruct (Z.eqb_spec (tf_cs tf .& 3) 0); [done|].
  rewrite (bind_Ret _ _ _ _ _ (cur_eq A c e s Hk)).
  rewrite (bind_Ret _ _ _ _ _ (get_env_eq s c e (kin_env _ _ _ _ Hk))).
  unfold truth. destruct (Z.eqb_spec (env_pgfault_upcall e) 0) as [H0|H0]; cbn [negb]; cbv zeta.
  { right. split; [by left|]. unfold print_trapframe, emit. ks. apply (env_destroy_self A c e).
    destruct Hk. split; [|done..]. by auto with kinv. }
  unfold sizeof_UTrapframe.
  destruct (user_mem_check_spec s c e (root_of e) UTOP frame 52 (PTE_W .| PTE_U)) as [[Hc Hall]|(a & Ha & Hbad & _ & Hc)];
    [by apply (kinv_dir A), Hd; apply Hk|cc; dlia|apply Hk|done|clia|lia|clia|done|..].
  - left. split; [done|]. split; [done|].
    assert (Hpass : user_mem_assert c frame 52 (PTE_W .| PTE_U) s = Ret tt s).
    { unfold user_mem_assert. change (PTE_W .| PTE_U .| PTE_U) with (PTE_W .| PTE_U).
      by rewrite (bind_Ret _ _ _ _ _ Hc). }
    rewrite (bind_Ret _ _ _ _ _ Hpass).
    rewrite (bind_Ret _ _ _ _ _ (get_env_eq s c e (kin_env _ _ _ _ Hk))), Hpg.
    edestruct (fill_frame A s (root_of e) frame Hd ltac:(clia) ltac:(unfold sizeof_UTrapframe; lia))
      as (s1 & -> & Hfill).
    { intros x Hx. destruct (user_ok_vmap A s (kin_inv _ _ _ _ Hk) _ Hd (PTE_W .| PTE_U) x) as (w & Hw & Hwp);
        [unfold sizeof_UTrapframe in *; clia|by apply Hall|]. exists w. split; [done|].
      intros Hz. apply (f_equal (fun y => y .& PTE_W)) in Hwp. rewrite <- Z.land_assoc in Hwp.
      change ((PTE_W .| PTE_U .| PTE_P) .& PTE_W) with PTE_W in Hwp. by rewrite Hz in Hwp. }
    { apply Hk. }
    assert (Hds := fl_step _ _ _ _ _ _ _ Hfill). assert (Hen := data_step_envs _ _ _ Hds).
    assert (Hc1 : envs s1 !! c = Some e) by (rewrite Hen; apply Hk).
    rewrite (bind_Ret _ _ _ _ _ (upd_env_eq s1 c e _ Hc1)). fold (with_env c (set_env_tf (set_tf_eip (env_pgfault_upcall e) (env_tf e)) e) s1).
    rewrite (bind_Ret _ _ _ _ _ (upd_with_env s1 c _ _)).
    assert (H2 : kinv A (with_env c (upcalled frame e) s1)) by (apply (kinv_env A s1 c e); [apply Hds|done|done]).
    destruct (env_run_spec (B:=unit) A _ c (upcalled frame e) H2) as (s' & Hrun & H' & Hres).
    { rewrite (ds_frame _ _ _ Hds). apply Hk. }
    { apply lookup_insert_eq. }
    { apply (kin_live _ _ _ _ Hk). }
    exists s'. split; [exact Hrun|]. exists s1. done.
  - right. split.
    { right. intros Hok. rewrite (Hok a) in Hbad; [done|]. unfold sizeof_UTrapframe. lia. }
    apply destroyed_bind. unfold user_mem_assert. change (PTE_W .| PTE_U .| PTE_U) with (PTE_W .| PTE_U).
    rewrite (bind_Ret _ _ _ _ _ Hc). change (- E_FAULT <? 0) with true.
    unfold emit. ks. apply (env_destroy_self A c e).
    destruct Hk. split; [|done..]. by auto with kinv.
Qed.

Lemma page_fault_safe : ok A (fun _ _ => False) (page_fault_handler i tf s).
Proof.
  destruct page_fault_cases as [(_ & _ & s' & -> & _ & _ & H' & Hres & _)|[_ [Hok _]]]; [|done].
  split; [done|]. by exists c.
Qed.
End fault.

(** ** System calls *)

(** The system calls that follow a pointer or drive a device; the others touch only the
    tables the invariant describes. *)
Definition unsafe_calls : list Z :=
  [SYS_cputs; SYS_env_set_trapframe; SYS_try_transmit; SYS_receive; SYS_get_mac_addr; SYS_draw;
   SYS_clear_screen; SYS_free_rx_buf; SYS_mouse_getp].

Definition word (w : Z) : Prop := 0 <= w < 2^32.

Lemma safe_call no k : no ∉ unsafe_calls -> bool_decide (k ∈ unsafe_calls) = true -> (no =? k) = false.
Proof. intros Hno Hk%bool_decide_eq_true. apply Z.eqb_neq. by intros ->. Qed.

(** Closes the branches of [syscall] for the calls in [unsafe_calls]. *)
Ltac drop_unsafe no :=
  rewrite (safe_call no SYS_cputs), (safe_call no SYS_env_set_trapframe), (safe_call no SYS_try_transmit),
    (safe_call no SYS_receive), (safe_call no SYS_get_mac_addr), (safe_call no SYS_draw),
    (safe_call no SYS_clear_screen), (safe_call no SYS_free_rx_buf), (safe_call no SYS_mouse_getp) by done; unfold word in *.

Lemma syscall_safe A c e s junk no a1 a2 a3 a4 a5 :
  kin A c e s -> refs_small A s -> no ∉ unsafe_calls ->
  word a1 -> word a2 -> word a3 -> word a4 -> ok A (kret A) (syscall junk no a1 a2 a3 a4 a5 s).
Proof.
  intros Hk Hsm Hno H1 H2 H3 H4. unfold syscall.
  drop_unsafe no.
  destruct (_ =? _); [by apply (sys_cgetc_safe A c e)|].
  destruct (_ =? _); [by apply (sys_getenvid_safe A c e)|].
  destruct (_ =? _); [by apply (sys_env_destroy_safe A c e)|].
  destruct (_ =? _); [apply sched_yield_ok; apply Hk|].
  destruct (_ =? _); [by apply (sys_exofork_safe A c e)|].
  destruct (_ =? _); [by apply (sys_env_set_status_safe A c e)|].
  destruct (_ =? _); [by apply (sys_page_alloc_safe A c e)|].
  destruct (_ =? _); [by apply (sys_page_map_safe A c e)|].
  destruct (_ =? _); [by apply (sys_page_unmap_safe A c e)|].
  destruct (_ =? _); [by apply (sys_env_set_pgfault_upcall_safe A c e)|].
  destruct (_ =? _); [by apply (sys_ipc_recv_safe A c e)|].
  destruct (_ =? _); [by apply (sys_ipc_try_send_safe A c e)|].
  destruct (_ =? _); [by apply (sys_change_priority_safe A c e)|].
  destruct (_ =? _); [by apply (sys_time_msec_safe A c e)|].
  destruct (_ =? _); [by apply (sys_env_set_type_safe A c e)|].
  by apply (kret_here A c e s Hk).
Qed.

(** ** Traps *)

(** The interrupts of the timer, the keyboard and the serial port, and the spurious one *)
Definition plain_irqs : list Z :=
  [IRQ_OFFSET + IRQ_TIMER; IRQ_OFFSET + IRQ_KBD; IRQ_OFFSET + IRQ_SERIAL; IRQ_OFFSET + IRQ_SPURIOUS].

Lemma dev_op_safe A s f : kinv A s -> locked s -> is_Some (f (dev s)) -> ok A (kret A) (dev_op f s).
Proof. intros H Hl [d Hd]. unfold dev_op. rewrite Hd. split; [by apply kinv_set_dev|done]. Qed.

Lemma timer_safe A s :
  kinv A s -> locked s -> 0 <= ticks s < MAX_TICKS ->
  ok A (kret A) ((c ← get cpunum; when (c =? 0) time_tick;; sched_yield : K unit) s).
Proof.
  intros H Hl Ht. rewrite (bind_Ret _ (get cpunum) s (cpunum s) s) by done.
  destruct (_ =? 0); cbn [when].
  - rewrite (bind_Ret _ _ _ _ _ (time_tick_ok s Ht)). apply sched_yield_ok; [by auto with kinv|done].
  - by apply sched_yield_ok.
Qed.

Lemma irq_safe A s i dest tf :
  kinv A s -> locked s -> 0 <= ticks s < MAX_TICKS -> tf_trapno tf ∈ plain_irqs ->
  ok A (kret A) (trap_dispatch i dest tf s).
Proof.
  intros H Hl Ht Hn. unfold trap_dispatch.
  unfold plain_irqs in Hn. rewrite !elem_of_cons, elem_of_nil in Hn.
  destruct Hn as [Hn|[Hn|[Hn|[Hn|[]]]]]; rewrite Hn; cbn - [K_bind when dev_op sched_yield get].
  - unfold emit. ks. by apply timer_safe; [auto with kinv| |].
  - unfold emit. ks. apply dev_op_safe; [by auto with kinv|done|]. apply kbd_intr_total.
  - unfold emit. ks. apply dev_op_safe; [by auto with kinv|done|]. apply serial_intr_total.
  - unfold print_trapframe, emit. ks. split; [by auto with kinv|done].
Qed.

(** The trap frame of user code: the processor is in ring 3 and the registers are words. *)
Record user_frame (tf : Trapframe) : Prop := {
  uf_cs : tf_cs tf .& 3 = 3;
  uf_esp : word (tf_esp tf);
  uf_regs : word (reg_edx (tf_regs tf)) /\ word (reg_ecx (tf_regs tf)) /\ word (reg_ebx (tf_regs tf)) /\
    word (reg_edi (tf_regs tf));
}.

(** Every exception and interrupt, except those of the network card and the mouse, and
    every system call outside [unsafe_calls]. *)
Definition covered (tf : Trapframe) : Prop :=
  tf_trapno tf <> IRQ_OFFSET + IRQ_E1000 /\ tf_trapno tf <> IRQ_OFFSET + IRQ_MOUSE /\
  (tf_trapno tf = T_SYSCALL -> reg_eax (tf_regs tf) ∉ unsafe_calls).

Lemma upd_slot_safe {B} A s j (b : B) f :
  kinv A s -> locked s -> 0 <= j < NENV -> (forall x, same_core x (f x)) ->
  exists s', upd_env j f s = Ret tt s' /\ kret A b s'.
Proof.
  intros H Hl Hj Hf. destruct (proj2 (ei_dom _ _ (ki_env _ _ H) j) Hj) as [x Hx].
  eexists. split; [by apply upd_env_eq|]. split; [by apply (kinv_env A s j x)|done].
Qed.

Lemma dispatch_safe A c e s i tf :
  kin A c e s -> refs_small A s -> 0 <= ticks s < MAX_TICKS -> user_frame tf -> covered tf ->
  ok A (kret A) (trap_dispatch i (Some c) tf s).
Proof.
  intros Hk Hsm Ht [Hcs Hesp (R1 & R2 & R3 & R4)] (Hne & Hnm & Hsys).
  destruct (decide (tf_trapno tf ∈ plain_irqs)) as [Hirq|Hirq]; [by apply irq_safe; [apply Hk..|done|done]|].
  unfold plain_irqs in Hirq. rewrite !elem_of_cons, elem_of_nil in Hirq. unfold trap_dispatch.
  destruct (Z.eqb_spec (tf_trapno tf) T_PGFLT).
  { eapply ok_mono; [apply (page_fault_safe A c e s Hk i tf); [rewrite Hcs; done|done]|done]. }
  destruct (Z.eqb_spec (tf_trapno tf) T_BRKPT); [apply Hk|].
  destruct (Z.eqb_spec (tf_trapno tf) T_SYSCALL) as [Hs|].
  { eapply ok_bind; [by eapply syscall_safe; eauto|]. intros v s' [H' Hl'].
    destruct (upd_slot_safe A s' c tt (fun x =>
      set_env_tf (set_tf_regs (set_reg_eax (u32 v) (tf_regs (env_tf x))) (env_tf x)) x)) as (s2 & -> & Hs2);
      [done|done|by apply (kinv_range A s c e); apply Hk|done|done]. }
  rewrite !(proj2 (Z.eqb_neq (tf_trapno tf) _)) by tauto. cbn iota.
  unfold print_trapframe, emit. ks. destruct (Z.eqb_spec (tf_cs tf) GD_KT) as [Hk0|].
  { by rewrite Hk0 in Hcs. }
  set (s1 := set_klog _ s). assert (Hk1 : kin A c e s1) by (destruct Hk; split; [by apply kinv_set_klog|done..]).
  rewrite (cur_eq A c e s1 Hk1). eapply ok_mono; [apply (env_destroy_self A c e s1 Hk1)|done].
Qed.

(** The way back *)
Lemma trap_exit_safe {B} A s (R : B -> kstate -> Prop) : kinv A s -> locked s -> ok A R (trap_exit s).
Proof.
  intros H Hl. destruct (ki_cpu _ _ H) as (p & Hp & Hpe). unfold trap_exit.
  rewrite (bind_Ret _ _ _ _ _ (curenv_eq s (cpu_env p) ltac:(by exists p))).
  destruct (cpu_env p) as [c|] eqn:Hc; [|by apply sched_yield_ok].
  destruct (Hpe c eq_refl) as [x Hx]. rewrite (bind_Ret _ _ _ _ _ (get_env_eq s c x Hx)).
  destruct (Z.eqb_spec (env_status x) ENV_RUNNING) as [Hr|]; [|by apply sched_yield_ok].
  destruct (env_run_spec (B:=B) A s c x H Hl Hx (running_live x Hr)) as (s' & -> & H' & Hres & _).
  split; [done|]. by exists c.
Qed.

(** The beginning of [trap]: the status of the CPU becomes [CPU_STARTED]. *)
Lemma xchg_status_spec A s p :
  kinv A s -> cpus s !! cpunum s = Some p ->
  exists s', xchg_status s = Ret (cpu_status p) s' /\ kinv A s' /\
    s' = set_cpus (<[cpunum s := set_cpu_status CPU_STARTED p]> (cpus s)) s.
Proof.
  intros H Hp. eexists. split; [|split; [|done]].
  - unfold xchg_status, thiscpu. unfold mbind, K_bind. rewrite Hp. by rewrite (set_thiscpu_eq s p _ Hp).
  - apply kinv_cpus; [done|]. simpl. intros x Hx. destruct (ki_cpu _ _ H) as (p' & Hp' & He).
    rewrite Hp in Hp'. injection Hp' as <-. apply (ei_dom _ _ (ki_env _ _ H)). by apply He.
Qed.

Lemma awake_started s p : awake (set_cpus (<[cpunum s := set_cpu_status CPU_STARTED p]> (cpus s)) s).
Proof. exists (set_cpu_status CPU_STARTED p). split; [apply lookup_insert_eq|done]. Qed.

Lemma lock_kernel_free s : kernel_lock s = None -> lock_kernel s = Ret tt (set_kernel_lock (Some (cpunum s)) s).
Proof. intros Hl. unfold lock_kernel, spin_lock, holding. ks. rewrite Hl. cbn iota beta. by rewrite Hl. Qed.

Lemma trap_enter_spec A c e s tf :
  kinv A s -> kernel_lock s = None -> awake s -> cur_is s (Some c) -> envs s !! c = Some e -> live e = true ->
  (env_status e = ENV_DYING /\ ok A (fun _ _ => False) (trap_enter tf s)) \/
  exists s', trap_enter tf s = Ret (Some c) s' /\ kin A c (set_env_tf tf e) s' /\
    mem s' = mem s /\ roots (envs s') = roots (envs s) /\ ticks s' = ticks s.
Proof.
  intros H Hl Haw Hcur He Hlive. unfold trap_enter. rewrite (bind_Ret _ _ _ _ _ (lock_kernel_free s Hl)).
  set (s1 := set_kernel_lock _ s). assert (H1 : kinv A s1) by (by apply kinv_set_lock). assert (Hl1 : locked s1) by (by split).
  rewrite (bind_Ret _ _ _ _ _ (curenv_eq s1 (Some c) Hcur)), (bind_Ret _ _ _ _ _ (get_env_eq s1 c e He)).
  destruct (Z.eqb_spec (env_status e) ENV_DYING) as [Hdy|]; cbn [when].
  - left. split; [done|]. destruct (env_free_spec A s1 c e H1 He Hlive) as (s2 & Hf & H2 & Hfr & _).
    destruct (env_frame_cur _ _ _ Hfr Hcur) as (p & Hp & _).
    unfold mbind, K_bind. rewrite Hf. unfold set_curenv. rewrite (set_thiscpu_eq s2 p _ Hp).
    assert (Hy := sched_yield_ok (B:=unit) A (set_cpus (<[cpunum s2 := set_cpu_env None p]> (cpus s2)) s2)
      (fun _ _ => False) ltac:(by apply kinv_cpus) (locked_cur s2 p None (env_frame_locked s1 s2 Hfr Hl1) Hp)).
    by destruct (sched_yield _).
  - right. ks. rewrite (upd_env_eq s1 c e _ He). eexists. split; [done|]. split.
    + split; [by apply (kinv_env A s1 c e)|done|done|apply lookup_insert_eq|done].
    + split_and!; try done. simpl. apply (roots_same _ c e); [by apply (kinv_range A s c e)|done..].
Qed.

(** After the entry of a covered trap the kernel leaves well. *)
Lemma trap_rest_safe A i dest tf s :
  ok A (kret A) (trap_dispatch i dest tf s) -> ok A (fun _ _ => False) ((trap_dispatch i dest tf;; trap_exit : K unit) s).
Proof. intros H. eapply ok_bind; [exact H|]. intros _ s' [H' Hl']. by apply trap_exit_safe. Qed.

(** A trap of the example machine: number, %eax and code segment *)
Definition kex_tf (n eax cs : Z) : Trapframe :=
  mkTrapframe (mkPushRegs 0 0 0 0 0 0 0 eax) 0 0 0 0 n 0 0x800020 cs 0 FL_IF 0xeebfe000 0 0.
Definition kex_in : trap_in := mkTrapIn false 0 0 0.

Lemma kex_user_frame n eax : user_frame (kex_tf n eax 0x1b).
Proof. split; [done|unfold word; simpl; lia|unfold word; simpl; lia]. Qed.

(** The example CPU waiting for an interrupt *)
Definition kex_idle : kstate :=
  set_cpus {[0 := mkCpuInfo CPU_HALTED None]} (set_kernel_lock None kex).

Lemma kex_idle_inv : kinv kex_A kex_idle.
Proof.
  replace kex_idle with (set_cpus (<[cpunum kex := mkCpuInfo CPU_HALTED None]> (cpus kex)) (set_kernel_lock None kex)).
  - apply (kinv_cpus kex_A (set_kernel_lock None kex)); [apply kinv_set_lock, kex_inv|done].
  - unfold kex_idle. f_equal.
Qed.

(** ** Properties *)

(** C16. A page fault of user code whose environment has a handler, and whose exception stack
    has room for the 52 bytes of the frame, is delivered: the kernel returns to user mode
    with the frame (fault address, error code, registers, program counter, flags and stack
    pointer) at the place the calling convention gives, the handler's address in the program
    counter and the frame's in the stack pointer; a nested fault leaves the word below the
    old stack pointer free; no other page of memory and no mapping changes.  Otherwise the
    environment is destroyed.  In both cases the kernel's invariant holds at the end. *)
Theorem page_fault_correct A c e s i tf :
  kin A c e s -> user_frame tf ->
  (env_pgfault_upcall e <> 0 /\ stack_ok e s tf /\
     exists s', page_fault_handler i tf s = UserMode s' /\ delivers A c e s i tf s') \/
  ((env_pgfault_upcall e = 0 \/ ~ stack_ok e s tf) /\ destroyed A c (page_fault_handler i tf s)).
Proof.
  intros Hk [Hcs Hesp _]. apply (page_fault_cases A c e s Hk i tf); [by rewrite Hcs|done].
Qed.

Lemma page_fault_correct_witness :
  destroyed kex_A 0 (page_fault_handler kex_in (kex_tf T_PGFLT 0 0x1b) kex).
Proof.
  destruct (page_fault_correct kex_A 0 kex_parent kex kex_in (kex_tf T_PGFLT 0 0x1b))
    as [(Hne & _)|[_ Hd]].
  - exact kex_kin.
  - apply kex_user_frame.
  - exfalso. apply Hne. reflexivity.
  - exact Hd.
Defined.

(** No trap of user code brings the kernel down: a covered exception, interrupt or
    system call, with any values in the registers, ends in user mode, with the CPU halted, or
    in the monitor; the lock is free again (user mode, halted) and the invariant of page
    tables, reference counts and environments holds.  The kernel does not panic, does not
    wait for a lock and makes no access outside its data. *)
Theorem trap_safe A c e p s i tf :
  kinv A s -> kernel_lock s = None -> cur_is s (Some c) -> envs s !! c = Some e -> live e = true ->
  cpus s !! cpunum s = Some p -> cpu_status p <> CPU_HALTED ->
  panicstr i = false -> eflags i .& FL_IF = 0 -> user_frame tf -> covered tf ->
  refs_small A s -> 0 <= ticks s < MAX_TICKS ->
  ok A (fun _ _ => False) (trap i tf s).
Proof.
  intros H Hl (p' & Hp' & Hpe) He Hlive Hp Hst Hps Hfl Hu Hc Hsm Ht.
  rewrite Hp in Hp'. injection Hp' as <-. unfold trap. rewrite Hps.
  destruct (xchg_status_spec A s p H Hp) as (s1 & Hx & H1 & ->). rewrite (bind_Ret _ _ _ _ _ Hx).
  rewrite (proj2 (Z.eqb_neq _ _) Hst), Hfl. cbn [when kassert].
  rewrite !(bind_Ret _ (mret tt : K unit) _ tt _ eq_refl). rewrite (uf_cs _ Hu). cbn [Z.eqb Pos.eqb].
  set (s2 := set_cpus _ s) in *.
  destruct (trap_enter_spec A c e s2 tf H1) as [[_ Hd]|(s3 & Hen & Hk & Hm & Hr & Htk)];
    [done|by apply awake_started|eexists; split; [apply lookup_insert_eq|done]|done|done| |].
  - eapply ok_bind; [exact Hd|done].
  - rewrite (bind_Ret _ _ _ _ _ Hen). apply trap_rest_safe. apply (dispatch_safe A c _ s3 i tf Hk); [|by rewrite Htk|done..].
    intros q Hq. rewrite Hm, Hr. apply (Hsm q Hq).
Qed.

Lemma trap_safe_witness :
  ok kex_A (fun _ _ => False) (trap kex_in (kex_tf T_SYSCALL SYS_exofork 0x1b) kex_user).
Proof.
  apply (trap_safe kex_A 0 kex_parent (mkCpuInfo 1 (Some 0)) kex_user).
  - apply kinv_set_klog, kinv_set_lock, kex_inv.
  - reflexivity.
  - exact kex_cur.
  - exact kex_env0.
  - reflexivity.
  - reflexivity.
  - intros H. discriminate H.
  - reflexivity.
  - reflexivity.
  - apply kex_user_frame.
  - split; [|split]; [intros H; discriminate H..|]. intros _ H. revert H.
    apply (bool_decide_unpack _). vm_compute. exact I.
  - exact kex_refs_small.
  - split; reflexivity || (intros H; discriminate H).
Defined.

(** An interrupt wakes a halted CPU: the timer, the keyboard, the serial port or a
    spurious interrupt arriving at an idle CPU takes the lock, is served, and the CPU goes on
    with a runnable environment, or halts again with the lock free. *)
Theorem idle_interrupt_safe A p s i tf :
  kinv A s -> idle s -> cpus s !! cpunum s = Some p -> cpu_status p = CPU_HALTED ->
  panicstr i = false -> eflags i .& FL_IF = 0 -> tf_cs tf .& 3 <> 3 -> tf_trapno tf ∈ plain_irqs ->
  0 <= ticks s < MAX_TICKS ->
  ok A (fun _ _ => False) (trap i tf s).
Proof.
  intros H (_ & Hl & _) Hp Hst Hps Hfl Hcs Hn Ht. unfold trap. rewrite Hps.
  destruct (xchg_status_spec A s p H Hp) as (s1 & Hx & H1 & ->). rewrite (bind_Ret _ _ _ _ _ Hx).
  rewrite Hst, Hfl. cbn [when kassert Z.eqb Pos.eqb]. set (s2 := set_cpus _ s) in *.
  rewrite (bind_Ret _ _ _ _ _ (lock_kernel_free s2 Hl)). change (CPU_HALTED =? CPU_HALTED) with true.
  rewrite !(bind_Ret _ (mret tt : K unit) _ tt _ eq_refl). rewrite (proj2 (Z.eqb_neq _ _) Hcs).
  rewrite (bind_Ret _ _ _ _ _ (eq_refl : (mret None : K (option Z)) (set_kernel_lock (Some (cpunum s2)) s2) = Ret None _)).
  apply trap_rest_safe, irq_safe; [by apply kinv_set_lock|split; [done|apply awake_started]|done..].
Qed.

Lemma idle_interrupt_safe_witness :
  ok kex_A (fun _ _ => False) (trap kex_in (kex_tf (IRQ_OFFSET + IRQ_TIMER) 0 8) kex_idle).
Proof.
  apply (idle_interrupt_safe kex_A (mkCpuInfo CPU_HALTED None)).
  - exact kex_idle_inv.
  - split; [|split; [reflexivity|]]; exists (mkCpuInfo CPU_HALTED None); split; reflexivity.
  - reflexivity.
  - reflexivity.
  - reflexivity.
  - reflexivity.
  - intros H. discriminate H.
  - left.
  - split; reflexivity || (intros H; discriminate H).
Defined.
