(* ===== verification/SysThms.v ===== *)
(** * SysThms: the theorems about the system calls

    What the memory, communication and process calls promise to their callers, and that a
    system call cannot touch an environment the caller has no right to. *)

From S2P Require Import Prelude Layout KState KMem Pmap VmRefs VmInv VmOps VmThms Console Sched UMem Time Env Syscall KInv KEx SchedThms EnvOps EnvFree EnvThms SysOps SysSafe UStore TrapThms.

(** ** Isolation *)

Section isolation.
Context (A : gset Z) (i : Z) (e : Env) (s : kstate) (Hk : kin A i e s).
(** An environment that is neither the caller nor one of its children, and waits for no
    message. *)
Context (k : Z) (ek : Env) (Hek : envs s !! k = Some ek) (Hlk : live ek = true).
Context (Hki : k <> i) (Hparent : env_parent_id ek <> env_id e) (Hrecv : env_ipc_recving ek = false).

(** It is the same afterwards, and so is its address space. *)
Definition intact (s' : kstate) : Prop :=
  envs s' !! k = Some ek /\
  forall va, 0 <= va < UTOP -> vmap (mem s') (root_of ek) va = vmap (mem s) (root_of ek) va.

Definition isolated {B} (o : outcome B) : Prop := forall v s', o = Ret v s' -> intact s'.

Lemma isolated_here {B} (v : B) : isolated (Ret v s).
Proof. intros v' s' [= _ <-]. done. Qed.

Lemma denotes_other envid j : denotes s i envid true j -> j <> k.
Proof.
  intros (ej & Hej & _ & [[_ ->]|(_ & _ & Hp)]) ->; [done|].
  destruct (Hp eq_refl) as [|(ei & Hei & Heq)]; [done|]. pose proof (kin_env _ _ _ _ Hk). congruence.
Qed.

Lemma isolated_upd {B} j f (v : B) : j <> k -> isolated ((upd_env j f;; mret v) s).
Proof.
  intros Hne v' s' Hr. unfold upd_env, mbind, K_bind in Hr.
  destruct (envs s !! j) as [x|]; [|done]. injection Hr as _ <-. split; [|done].
  simpl. by rewrite lookup_insert_ne.
Qed.

(** A call that looks up a target and then works on it. *)
Lemma isolated_target {B} envid (cp : bool) r (f : option Z -> K B) :
  (forall j ej, denotes s i envid cp j -> envs s !! j = Some ej -> live ej = true -> isolated (f (Some j) s)) ->
  isolated ((('(res, o) ← envid2env envid cp; if res <? 0 then mret (r res) else f o) : K B) s).
Proof.
  intros Hf. destruct (envid2env_cases A i e s envid cp Hk) as [(j & Hj & Heq)|[_ Heq]];
    rewrite (bind_Ret _ _ _ _ _ Heq); [|apply isolated_here].
  destruct (denotes_live _ _ _ _ _ Hj) as (ej & Hej & Hlj). by apply (Hf j ej).
Qed.

Lemma isolated_maps {B} d va (o : outcome B) :
  d <> root_of ek ->
  (forall v s', o = Ret v s' -> vm_frame s s' /\ same_maps s s' d va) -> isolated o.
Proof.
  intros Hne Ho v s' Hr. destruct (Ho v s' Hr) as [Hf Hs].
  split; [by rewrite (vm_frame_envs _ _ Hf)|]. intros va' Hva. apply Hs; [|done|naive_solver].
  by apply (kinv_root A s k ek); [apply Hk|..].
Qed.

Lemma other_root j ej : j <> k -> envs s !! j = Some ej -> live ej = true -> root_of ej <> root_of ek.
Proof. intros Hne Hej Hlj. apply (roots_distinct A s j ej k ek); (apply Hk || done). Qed.

Lemma sys_env_destroy_isolated envid : isolated (sys_env_destroy envid s).
Proof.
  apply (isolated_target envid true (fun r => r) (fun o => i ← deref o; env_destroy i;; mret 0)).
  intros j ej Hj%denotes_other Hej Hlj.
  rewrite (bind_Ret _ (deref (Some j)) s j s) by done. unfold env_destroy.
  intros v s' Hr. unfold mbind at 1, K_bind at 1 in Hr.
  destruct ((ev ← get_env j; _) s) as [[] s2| | | | | |] eqn:Hd; try discriminate Hr. injection Hr as _ <-.
  rewrite (bind_Ret _ _ _ _ _ (get_env_eq s j ej Hej)) in Hd.
  rewrite (bind_Ret _ _ _ _ _ (curenv_eq s (Some i) (kin_cur _ _ _ _ Hk))) in Hd.
  destruct (_ && _).
  { rewrite (upd_env_eq s j ej _ Hej) in Hd. injection Hd as <-. split; [|done]. simpl. by rewrite lookup_insert_ne. }
  destruct (env_free_spec A s j ej (kin_inv _ _ _ _ Hk) Hej Hlj) as (s1 & Hf & H1 & Hfr & _ & Hes & Ho).
  rewrite (bind_Ret _ _ _ _ _ Hf) in Hd.
  assert (Hcur := env_frame_cur _ _ _ Hfr (kin_cur _ _ _ _ Hk)).
  rewrite (bind_Ret _ _ _ _ _ (curenv_eq s1 _ Hcur)) in Hd. case_bool_decide.
  { destruct Hcur as (p & Hp & _). unfold set_curenv in Hd.
    rewrite (bind_Ret _ _ _ _ _ (set_thiscpu_eq s1 p _ Hp)) in Hd.
    assert (Hy := sched_yield_ok (B:=unit) A (set_cpus (<[cpunum s1 := set_cpu_env None p]> (cpus s1)) s1)
      (fun _ _ => False) ltac:(by apply kinv_cpus) (locked_cur s1 p None (env_frame_locked s s1 Hfr (kin_lock _ _ _ _ Hk)) Hp)).
    by rewrite Hd in Hy. }
  injection Hd as <-. split; [by rewrite Hes, lookup_insert_ne|].
  intros va Hva. by apply (outside_others A s j ej _ (kin_inv _ _ _ _ Hk) Hej Hlj Ho k ek).
Qed.

Lemma sys_exofork_isolated : isolated (sys_exofork s).
Proof.
  pose proof (sys_exofork_spec A i e s Hk) as H.
  destruct (env_free_list s) as [j|] eqn:Hfl; [|rewrite H; apply isolated_here].
  destruct (page_free_list s) as [q|]; [|rewrite H; apply isolated_here].
  destruct H as (ej & s1 & Hal & Hej & _ & _ & _ & Hes & (kd & Hm & H0 & _) & ->). intros v s' [= _ <-].
  assert (Hjk : j <> k).
  { intros ->. destruct (ei_list _ _ (ki_env _ _ (kin_inv _ _ _ _ Hk))) as (fl & Hl & _ & Hin).
    rewrite Hfl in Hl. destruct fl as [|x fl]; [done|]. destruct Hl as [[= ->] _].
    destruct (proj1 (Hin x) ltac:(left)) as (y & Hy & Hst). apply live_free in Hst. congruence. }
  split; simpl.
  - by rewrite lookup_insert_ne, Hes, lookup_insert_ne.
  - intros va Hva. rewrite Hm. by apply (new_dir_vmap A s q kd k); [apply Hk|..].
Qed.

Lemma sys_page_alloc_isolated envid va perm : 0 <= va < 2^32 -> isolated (sys_page_alloc envid va perm s).
Proof.
  intros Hva. destruct (sys_page_alloc_spec A i e s envid va perm Hk Hva) as [[-> _]|(j & ej & Hj & Hej & H)];
    [apply isolated_here|].
  destruct (_ || _); [rewrite H; apply isolated_here|].
  destruct (denotes_live _ _ _ _ _ Hj) as (x & Hx & Hlj). rewrite Hej in Hx. injection Hx as <-.
  apply denotes_other in Hj. destruct H as [(s1 & -> & _ & _ & Hf & Hv & _)|(s1 & q & -> & _ & (_ & Hf & _ & Hm & _) & _)].
  - apply (isolated_maps (root_of ej) va); [by apply (other_root j)|]. intros v s' [= _ <-].
    split; [done|]. intros d' va' Hd' Hva' _. by apply Hv.
  - apply (isolated_maps (root_of ej) va); [by apply (other_root j)|]. by intros v s' [= _ <-].
Qed.

Lemma sys_page_map_isolated srcenvid srcva dstenvid dstva perm :
  refs_small A s -> 0 <= srcva < 2^32 -> 0 <= dstva < 2^32 ->
  isolated (sys_page_map srcenvid srcva dstenvid dstva perm s).
Proof.
  intros Hsm Hs Hd.
  destruct (sys_page_map_spec A i e s srcenvid srcva dstenvid dstva perm Hk Hsm Hs Hd)
    as [[-> _]|(j & ej & l & el & _ & _ & Hl & Hel & H)]; [apply isolated_here|].
  destruct (_ || _); [rewrite H; apply isolated_here|].
  destruct (vmap _ _ _); [|rewrite H; apply isolated_here].
  destruct H as [[_ ->]|[_ [(_ & _ & ->)|(s1 & -> & _ & Hf & _ & Hm & _)]]]; [apply isolated_here..|].
  destruct (denotes_live _ _ _ _ _ Hl) as (x & Hx & Hlj). rewrite Hel in Hx. injection Hx as <-.
  apply (isolated_maps (root_of el) dstva); [by apply (other_root l); [apply (denotes_other dstenvid)|..]|].
  by intros v s' [= _ <-].
Qed.

Lemma sys_page_unmap_isolated envid va : 0 <= va < 2^32 -> isolated (sys_page_unmap envid va s).
Proof.
  intros Hva. destruct (sys_page_unmap_spec A i e s envid va Hk Hva) as [[-> _]|(j & ej & Hj & Hej & H)];
    [apply isolated_here|].
  destruct (bad_va va); [rewrite H; apply isolated_here|]. destruct H as (s1 & -> & _ & Hf & _ & Hm & _).
  destruct (denotes_live _ _ _ _ _ Hj) as (x & Hx & Hlj). rewrite Hej in Hx. injection Hx as <-.
  apply (isolated_maps (root_of ej) va); [by apply (other_root j); [apply (denotes_other envid)|..]|].
  by intros v s' [= _ <-].
Qed.

Lemma sys_ipc_try_send_isolated envid value srcva perm :
  refs_small A s -> 0 <= srcva < 2^32 -> isolated (sys_ipc_try_send envid value srcva perm s).
Proof.
  intros Hsm Hs.
  destruct (sys_ipc_try_send_spec A i e s envid value srcva perm Hk Hsm Hs) as [[-> _]|(j & ej & Hj & Hej & H)];
    [apply isolated_here|].
  destruct (denotes_live _ _ _ _ _ Hj) as (x & Hx & Hlj). rewrite Hej in Hx. injection Hx as <-.
  destruct (env_ipc_recving ej) eqn:Hr; [|rewrite H; apply isolated_here].
  assert (Hjk : j <> k) by (intros ->; congruence).
  assert (Hdel : forall (v : Z) x s1, vm_frame s s1 ->
    (forall va, 0 <= va < UTOP -> vmap (mem s1) (root_of ek) va = vmap (mem s) (root_of ek) va) ->
    isolated (Ret v (with_env j (delivered (env_id e) value x ej) s1))).
  { intros v x s1 Hf Hv v' s' [= _ <-]. split; [|done]. simpl.
    by rewrite lookup_insert_ne, (vm_frame_envs _ _ Hf). }
  unfold ipc_sent in H. destruct (UTOP <=? srcva); [rewrite H; apply Hdel; [auto with frame|done]|].
  destruct (_ || _); [rewrite H; apply isolated_here|].
  destruct (vmap _ (root_of e) _); [|rewrite H; apply isolated_here].
  destruct H as [[_ ->]|[_ H]]; [apply isolated_here|].
  destruct (UTOP <=? _); [rewrite H; apply Hdel; [auto with frame|done]|].
  destruct H as [(_ & _ & ->)|(s' & (_ & Hf & _ & Hm & _) & ->)]; [apply isolated_here|]. apply Hdel; [done|].
  intros va Hva. apply Hm; [by apply (kinv_root A s k ek); [apply Hk|..]|done|].
  intros [Heq _]. by apply (other_root j ej Hjk Hej Hlj).
Qed.

(** The calls that only change a record of the caller or of a child *)
Lemma sys_env_set_status_isolated envid status : isolated (sys_env_set_status envid status s).
Proof.
  unfold sys_env_set_status. destruct (_ && _); [apply isolated_here|].
  apply (isolated_target envid true (fun _ => - E_BAD_ENV)
    (fun o => i ← deref o; upd_env i (set_env_status status);; mret 0)).
  intros j ej Hj%denotes_other _ _. rewrite (bind_Ret _ (deref (Some j)) s j s) by done. by apply isolated_upd.
Qed.

Lemma sys_env_set_pgfault_upcall_isolated envid func : isolated (sys_env_set_pgfault_upcall envid func s).
Proof.
  apply (isolated_target envid true (fun _ => - E_BAD_ENV)
    (fun o => i ← deref o; upd_env i (set_env_pgfault_upcall func);; mret 0)).
  intros j ej Hj%denotes_other _ _. rewrite (bind_Ret _ (deref (Some j)) s j s) by done. by apply isolated_upd.
Qed.

Lemma sys_change_priority_isolated p : isolated (sys_change_priority p s).
Proof.
  unfold sys_change_priority. destruct (20 <? p); [apply isolated_here|].
  rewrite (bind_Ret _ _ _ _ _ (cur_eq A i e s Hk)). by apply isolated_upd.
Qed.

Lemma sys_env_set_type_isolated type : isolated (sys_env_set_type type s).
Proof.
  unfold sys_env_set_type. destruct (_ && _); [apply isolated_here|].
  rewrite (bind_Ret _ (get id) s s s) by done. destruct (find_first _ _); [apply isolated_here|].
  rewrite (bind_Ret _ _ _ _ _ (cur_eq A i e s Hk)). by apply isolated_upd.
Qed.

Lemma sys_cgetc_isolated : isolated (sys_cgetc s).
Proof.
  unfold sys_cgetc. destruct (cons_getc (dev s)) as [[c d]|]; intros v s' Hr; [|done].
  injection Hr as _ <-. done.
Qed.

(** A call that does not return changes nothing that returns to the caller. *)
Lemma isolated_leave {B} (o : outcome B) : ok A (fun _ _ => False) o -> isolated o.
Proof. intros Ho v s' ->. done. Qed.

Lemma sys_ipc_recv_isolated dstva : 0 <= dstva < 2^32 -> isolated (sys_ipc_recv dstva s).
Proof.
  intros Hd. unfold sys_ipc_recv. destruct (_ && _); [apply isolated_here|].
  rewrite (bind_Ret _ _ _ _ _ (cur_eq A i e s Hk)).
  rewrite (bind_Ret _ _ _ _ _ (upd_env_eq s i e _ (kin_env _ _ _ _ Hk))).
  fold (with_env i (set_env_ipc_dstva dstva e) s).
  do 2 rewrite (bind_Ret _ _ _ _ _ (upd_with_env s i _ _)).
  apply isolated_leave, sched_yield_ok; [|apply Hk]. by apply kinv_receiving.
Qed.
End isolation.

Lemma syscall_isolated A i e s junk no a1 a2 a3 a4 a5 k ek :
  kin A i e s -> refs_small A s -> no ∉ unsafe_calls -> word a1 -> word a2 -> word a3 -> word a4 ->
  envs s !! k = Some ek -> live ek = true -> k <> i -> env_parent_id ek <> env_id e ->
  env_ipc_recving ek = false -> isolated s k ek (syscall junk no a1 a2 a3 a4 a5 s).
Proof.
  intros Hk Hsm Hno H1 H2 H3 H4 Hek Hlk Hki Hp Hr. unfold syscall. drop_unsafe no.
  destruct (_ =? _); [by apply sys_cgetc_isolated|].
  destruct (_ =? _).
  { unfold sys_getenvid. rewrite (bind_Ret _ _ _ _ _ (cur_env_eq A i e s Hk)). by apply isolated_here. }
  destruct (_ =? _); [by apply (sys_env_destroy_isolated A i e)|].
  destruct (_ =? _); [apply (isolated_leave A), sched_yield_ok; apply Hk|].
  destruct (_ =? _); [by apply (sys_exofork_isolated A i e)|].
  destruct (_ =? _); [by apply (sys_env_set_status_isolated A i e)|].
  destruct (_ =? _); [by apply (sys_page_alloc_isolated A i e)|].
  destruct (_ =? _); [by apply (sys_page_map_isolated A i e)|].
  destruct (_ =? _); [by apply (sys_page_unmap_isolated A i e)|].
  destruct (_ =? _); [by apply (sys_env_set_pgfault_upcall_isolated A i e)|].
  destruct (_ =? _); [by apply (sys_ipc_recv_isolated A i e)|].
  destruct (_ =? _); [by apply (sys_ipc_try_send_isolated A i e)|].
  destruct (_ =? _); [by apply (sys_change_priority_isolated A i e)|].
  destruct (_ =? _); [by apply isolated_here|].
  destruct (_ =? _); [by apply (sys_env_set_type_isolated A i e)|]. by apply isolated_here.
Qed.

(** ** Properties *)


(** The example machine with an unrelated second environment *)
Definition kex_other : Env := set_env_ipc_recving false (set_env_parent_id 8192 kex_child).
Definition kex2 : kstate := with_env 1 kex_other kex.

Lemma kin_with_env A i e s j ej ej' :
  kin A i e s -> j <> i -> envs s !! j = Some ej -> same_core ej ej' -> kin A i e (with_env j ej' s).
Proof.
  intros [H1 H2 H3 H4 H5] Hne Hj Hc. split; [|exact H2|exact H3| |exact H5].
  - by apply (kinv_env A s j ej ej' H1 Hj).
  - unfold with_env. cbn [envs set_envs]. by rewrite lookup_insert_ne.
Qed.
Lemma refs_small_with_env A s j ej ej' :
  refs_small A s -> 0 <= j < NENV -> envs s !! j = Some ej -> same_core ej ej' -> refs_small A (with_env j ej' s).
Proof. intros Hr Hj He Hc p Hp. unfold with_env. cbn [envs set_envs mem]. rewrite (roots_same _ j ej ej' Hj He Hc). apply (Hr p Hp). Qed.

Lemma kex_other_core : same_core kex_child kex_other.
Proof. by split. Qed.
Lemma kex2_kin : kin kex_A 0 kex_parent kex2.
Proof. apply (kin_with_env kex_A 0 kex_parent kex 1 kex_child kex_other kex_kin); [lia|exact kex_env1|exact kex_other_core]. Qed.
Lemma kex2_refs_small : refs_small kex_A kex2.
Proof. apply (refs_small_with_env kex_A kex 1 kex_child kex_other kex_refs_small); [rewrite NENV_eq; lia|exact kex_env1|exact kex_other_core]. Qed.


(** The child of the example machine, as its parent sees it *)
Lemma kex_denotes cp : denotes kex 0 4097 cp 1.
Proof.
  exists kex_child. split; [exact kex_env1|]. split; [reflexivity|]. right. split; [discriminate|].
  split; [reflexivity|]. intros _. right. exists kex_parent. split; [exact kex_env0|reflexivity].
Qed.

Lemma kex_denotes_only cp j ej : denotes kex 0 4097 cp j -> envs kex !! j = Some ej -> j = 1 /\ ej = kex_child.
Proof.
  intros (x & Hx & Hl & [[Hz _]|(_ & Hid & _)]) Hej; [discriminate Hz|].
  destruct (id_slot _ _ j x (ki_env _ _ kex_inv) Hx Hl) as [Hj _]. rewrite Hid in Hj. change (1 = j) in Hj.
  subst j. split; [reflexivity|]. rewrite kex_env1 in Hej. by injection Hej as <-.
Qed.

(** [envid2env] finds exactly the environment an identifier denotes: 0 is the caller, any
    other identifier the environment in use that carries it now, and with the permission
    check only the caller and its children are found; a stale identifier, a free slot and a
    stranger give -E_BAD_ENV.  Nothing is changed. *)
Theorem envid2env_correct A i e s envid checkperm :
  kin A i e s ->
  (exists j, denotes s i envid checkperm j /\ envid2env envid checkperm s = Ret (0, Some j) s) \/
  ((forall j, ~ denotes s i envid checkperm j) /\ envid2env envid checkperm s = Ret (- E_BAD_ENV, None) s).
Proof. apply envid2env_cases. Qed.

Lemma envid2env_correct_witness :
  exists j, denotes kex 0 4097 true j /\ envid2env 4097 true kex = Ret (0, Some j) kex.
Proof.
  destruct (envid2env_correct kex_A 0 kex_parent kex 4097 true kex_kin) as [H|[H _]]; [exact H|].
  exfalso. exact (H 1 (kex_denotes true)).
Defined.

(** C18. [sys_page_alloc] maps a fresh page filled with zeros at [va] in the address space of
    the target, which must be the caller or a child, with the permissions asked for, and
    changes no other mapping of any environment; with a bad address or bad permission bits, or
    without memory, no mapping changes. *)
Theorem sys_page_alloc_correct A i e s envid va perm :
  kin A i e s -> 0 <= va < 2^32 ->
  (sys_page_alloc envid va perm s = Ret (- E_BAD_ENV) s /\ forall j, ~ denotes s i envid true j) \/
  exists j ej, denotes s i envid true j /\ envs s !! j = Some ej /\
    if bad_va va || bad_perm perm then sys_page_alloc envid va perm s = Ret (- E_INVAL) s
    else page_allocated A s ej va perm (sys_page_alloc envid va perm s).
Proof. apply sys_page_alloc_spec. Qed.

Lemma sys_page_alloc_correct_witness :
  page_allocated kex_A kex kex_child 0x800000 7 (sys_page_alloc 4097 0x800000 7 kex).
Proof.
  destruct (sys_page_alloc_correct kex_A 0 kex_parent kex 4097 0x800000 7 kex_kin)
    as [[_ H]|(j & ej & Hj & Hej & H)]; [lia|..].
  - exfalso. exact (H 1 (kex_denotes true)).
  - destruct (kex_denotes_only true j ej Hj Hej) as [-> ->]. exact H.
Defined.

(** C17. [sys_page_map] shares the page mapped at the source with the destination: the address
    maps the same page with the permissions asked for and nothing else changes.  It refuses
    to give a right to write that the source does not have, an unmapped source, bad addresses
    or permissions, and environments that are neither the caller nor its children; then, and
    when it lacks a free page for a table, nothing changes. *)
Theorem sys_page_map_correct A i e s srcenvid srcva dstenvid dstva perm :
  kin A i e s -> refs_small A s -> 0 <= srcva < 2^32 -> 0 <= dstva < 2^32 ->
  (sys_page_map srcenvid srcva dstenvid dstva perm s = Ret (- E_BAD_ENV) s /\
     ((forall j, ~ denotes s i srcenvid true j) \/ (forall k, ~ denotes s i dstenvid true k))) \/
  exists j ej k ek, denotes s i srcenvid true j /\ envs s !! j = Some ej /\
    denotes s i dstenvid true k /\ envs s !! k = Some ek /\
    if bad_va srcva || bad_va dstva || bad_perm perm
    then sys_page_map srcenvid srcva dstenvid dstva perm s = Ret (- E_INVAL) s
    else match vmap (mem s) (root_of ej) srcva with
         | None => sys_page_map srcenvid srcva dstenvid dstva perm s = Ret (- E_INVAL) s
         | Some w =>
             (~ no_escalation w perm /\
                sys_page_map srcenvid srcva dstenvid dstva perm s = Ret (- E_INVAL) s) \/
             (no_escalation w perm /\
                (page_free_list s = None /\ vmap (mem s) (root_of ek) dstva = None /\
                   sys_page_map srcenvid srcva dstenvid dstva perm s = Ret (- E_NO_MEM) s \/
                 exists s', sys_page_map srcenvid srcva dstenvid dstva perm s = Ret 0 s' /\
                   maps A s s' (root_of ek) dstva (pgn w) perm))
         end.
Proof. apply sys_page_map_spec. Qed.

Lemma sys_page_map_correct_witness :
  sys_page_map 4097 0x800000 4097 0x900000 7 kex = Ret (- E_INVAL) kex.
Proof.
  destruct (sys_page_map_correct kex_A 0 kex_parent kex 4097 0x800000 4097 0x900000 7 kex_kin kex_refs_small)
    as [[_ [H|H]]|(j & ej & k & ek & Hj & Hej & _ & _ & H)]; [lia|lia|..].
  - exfalso. exact (H 1 (kex_denotes true)).
  - exfalso. exact (H 1 (kex_denotes true)).
  - destruct (kex_denotes_only true j ej Hj Hej) as [-> ->]. exact H.
Defined.

(** [sys_page_unmap] removes the mapping at [va] of the caller or a child and no other; a
    bad address or target changes nothing. *)
Theorem sys_page_unmap_correct A i e s envid va :
  kin A i e s -> 0 <= va < 2^32 ->
  (sys_page_unmap envid va s = Ret (- E_BAD_ENV) s /\ forall j, ~ denotes s i envid true j) \/
  exists j ej, denotes s i envid true j /\ envs s !! j = Some ej /\
    if bad_va va then sys_page_unmap envid va s = Ret (- E_INVAL) s
    else exists s', sys_page_unmap envid va s = Ret 0 s' /\ unmaps A s s' (root_of ej) va.
Proof. apply sys_page_unmap_spec. Qed.

Lemma sys_page_unmap_correct_witness :
  exists s', sys_page_unmap 4097 0x800000 kex = Ret 0 s' /\ unmaps kex_A kex s' 2 0x800000.
Proof.
  destruct (sys_page_unmap_correct kex_A 0 kex_parent kex 4097 0x800000 kex_kin)
    as [[_ H]|(j & ej & Hj & Hej & H)]; [lia|..].
  - exfalso. exact (H 1 (kex_denotes true)).
  - destruct (kex_denotes_only true j ej Hj Hej) as [-> ->]. exact H.
Defined.

(** After a message has been delivered the receiver no longer waits. *)
Lemma ipc_sent_busy A i e s j ej value srcva perm s' :
  kin A i e s -> envs s !! j = Some ej -> live ej = true ->
  ipc_sent A s e j ej value srcva perm (Ret 0 s') ->
  exists x s1, s' = with_env j (delivered (env_id e) value x ej) s1 /\ vm_frame s s1.
Proof.
  intros Hk Hej Hlj. unfold ipc_sent. destruct (UTOP <=? srcva); [intros [= ->]; eauto with frame|].
  destruct (_ || _); [done|]. destruct (vmap _ _ _); [|done]. intros [[_ ?]|[_ H]]; [done|].
  destruct (UTOP <=? _); [injection H as ->; eauto with frame|].
  destruct H as [(_ & _ & ?)|(s1 & (_ & Hf & _) & H)]; [done|]. injection H as ->. by exists perm, s1.
Qed.

Lemma denotes_unique A s i envid cp j j' :
  kinv A s -> denotes s i envid cp j -> denotes s i envid cp j' -> j = j'.
Proof.
  intros H (x & Hx & Hl & Hj) (y & Hy & Hl' & Hj').
  destruct Hj as [[-> ->]|(Hne & Hid & _)], Hj' as [[? ->]|(Hne' & Hid' & _)]; try done.
  destruct (id_slot _ _ j x (ki_env _ _ H) Hx Hl) as [<- _].
  destruct (id_slot _ _ j' y (ki_env _ _ H) Hy Hl') as [<- _]. congruence.
Qed.

Lemma ipc_not_recv A i e s envid j ej value srcva perm :
  kin A i e s -> denotes s i envid false j -> envs s !! j = Some ej -> env_ipc_recving ej = false ->
  sys_ipc_try_send envid value srcva perm s = Ret (- E_IPC_NOT_RECV) s.
Proof.
  intros Hk Hj Hej Hr. unfold sys_ipc_try_send.
  destruct (envid2env_cases A i e s envid false Hk) as [(j' & Hj' & Heq)|[Hn _]]; [|by destruct (Hn j)].
  rewrite (denotes_unique A s i envid false j' j (kin_inv _ _ _ _ Hk) Hj' Hj) in Heq.
  rewrite (bind_Ret _ _ _ _ _ Heq). change (0 <? 0) with false. cbn iota.
  rewrite (bind_Ret _ (deref (Some j)) s j s), (bind_Ret _ _ _ _ _ (get_env_eq s j ej Hej)) by done.
  by rewrite Hr.
Qed.

(** The caller and the receiver are still found after the delivery. *)
Lemma delivered_state A i e s envid j ej value x s1 :
  kin A i e s -> denotes s i envid false j -> envs s !! j = Some ej -> live ej = true -> vm_frame s s1 ->
  kinv A (with_env j (delivered (env_id e) value x ej) s1) ->
  (exists e', kin A i e' (with_env j (delivered (env_id e) value x ej) s1)) /\
  denotes (with_env j (delivered (env_id e) value x ej) s1) i envid false j.
Proof.
  intros Hk Hj Hej Hlj Hf H'. set (y := delivered (env_id e) value x ej) in *. split.
  - assert (He : exists e', envs (with_env j y s1) !! i = Some e' /\ live e' = true).
    { simpl. rewrite (vm_frame_envs _ _ Hf). destruct (decide (j = i)) as [->|Hne].
      - exists y. by rewrite lookup_insert_eq.
      - exists e. rewrite lookup_insert_ne by done. split; apply Hk. }
    destruct He as (e' & He' & Hl'). exists e'. split; [done| | |done|done].
    + apply (vm_frame_locked s s1); [done|apply Hk].
    + apply (env_frame_cur s s1); [auto with frame|apply Hk].
  - destruct Hj as (z & Hz & _ & Hj). rewrite Hej in Hz. injection Hz as <-. exists y.
    split; [apply lookup_insert_eq|]. split; [done|]. destruct Hj as [?|(? & Hid & _)]; [by left|]. right.
    split; [done|]. split; [exact Hid|done].
Qed.



(** C20. [sys_exofork] creates a child of the caller in a free slot, fails exactly when no
    environment or no page is free, and then changes nothing: the child has the caller's
    registers except that its call returns 0, it is not runnable yet and has nothing mapped
    below UTOP; the caller gets the new identifier, which envid2env then maps to the child. *)
Theorem sys_exofork_correct A i e s :
  kin A i e s ->
  match env_free_list s, page_free_list s with
  | None, _ => sys_exofork s = Ret (- E_NO_FREE_ENV) s
  | Some _, None => sys_exofork s = Ret (- E_NO_MEM) s
  | Some j, Some q => exists id x s', sys_exofork s = Ret id s' /\ kinv A s' /\ j <> i /\
      envs s' = <[j := x]> (envs s) /\ env_id x = id /\ env_parent_id x = env_id e /\
      env_status x = ENV_NOT_RUNNABLE /\ env_pgdir x = kva q /\
      env_tf x = set_tf_regs (set_reg_eax 0 (tf_regs (env_tf e))) (env_tf e) /\
      (forall va, 0 <= va < UTOP -> vmap (mem s') q va = None) /\
      envid2env id true s' = Ret (0, Some j) s'
  end.
Proof.
  intros Hk. pose proof (sys_exofork_spec A i e s Hk) as H. pose proof (sys_exofork_safe A i e s Hk) as Hs.
  destruct (env_free_list s) as [j|]; [|done]. destruct (page_free_list s) as [q|]; [|done].
  destruct H as (ej & s1 & _ & Hej & Hji & H1 & Hfr & Hes & (kd & Hm & _ & Hkd & HqA) & Heq). rewrite Heq in Hs.
  set (x := forked e (new_env (env_id e) j q ej)) in *. set (id := next_env_id (env_id ej) j) in *.
  assert (Hes' : envs (with_env j x s1) = <[j := x]> (envs s)) by (simpl; rewrite Hes; apply insert_insert_eq).
  assert (Hk' : kin A i e (with_env j x s1)).
  { split; [apply Hs|apply Hs|apply (env_frame_cur s s1); [done|apply Hk]| |apply Hk].
    rewrite Hes', lookup_insert_ne by done. apply Hk. }
  assert (Hx : envs (with_env j x s1) !! j = Some x) by apply lookup_insert_eq.
  exists id, x, (with_env j x s1). split; [done|]. split; [apply Hs|]. repeat (split; [done|]).
  split; [intros va Hva; simpl; rewrite Hm; by apply (new_dir_empty A s)|].
  assert (Hden : denotes (with_env j x s1) i id true j).
  { exists x. split; [done|]. split; [done|]. right. split; [|split; [done|]].
    - destruct (ei_live _ _ (ki_env _ _ (kin_inv _ _ _ _ Hk')) j x Hx eq_refl) as [_ Hpos].
      change (env_id x) with id in Hpos. lia.
    - intros _. right. exists e. split; [apply Hk'|done]. }
  destruct (envid2env_cases A i e _ id true Hk') as [(j' & Hj' & ->)|[Hn _]]; [|by destruct (Hn j)].
  by rewrite (denotes_unique A _ i id true j' j (kin_inv _ _ _ _ Hk') Hj' Hden).
Qed.

Lemma sys_exofork_correct_witness :
  exists id x s', sys_exofork kex = Ret id s' /\ kinv kex_A s' /\ envs s' = <[2 := x]> (envs kex) /\
    envid2env id true s' = Ret (0, Some 2) s'.
Proof.
  destruct (sys_exofork_correct kex_A 0 kex_parent kex kex_kin)
    as (id & x & s' & Hf & H' & _ & Hes & _ & _ & _ & _ & _ & _ & He).
  exists id, x, s'. split; [exact Hf|]. split; [exact H'|]. split; [exact Hes|exact He].
Defined.
