(* ===== verification/PageInit.v ===== *)
(** * PageInit: the free list built at boot

    [page_init] ([kern/pmap.c]) turns the cleared array [pages] into a free list of exactly
    the pages the kernel may hand out, and so establishes the invariant that every later
    operation keeps. *)

From S2P Require Import Prelude Layout KState Pmap VmRefs VmInv VmOps VmThms KInv SchedThms.

(** [s] with another page array and free list *)
Definition with_pages (pgs : gmap Z PageInfo) (head : option Z) (s : kstate) : kstate :=
  set_page_free_list head (set_pages pgs s).

(** Putting the pages [l] at the head of the list, one by one *)
Fixpoint push_all (l : list Z) (pgs : gmap Z PageInfo) (head : option Z) : gmap Z PageInfo * option Z :=
  match l with
  | [] => (pgs, head)
  | i :: l => push_all l (<[i := mkPageInfo head 0]> pgs) (Some i)
  end.

Lemma page_init_free_eq i pgs head s :
  is_Some (pgs !! i) ->
  page_init_free i (with_pages pgs head s) = Ret tt (with_pages (<[i := mkPageInfo head 0]> pgs) (Some i) s).
Proof.
  intros [p Hp]. unfold page_init_free.
  rewrite (bind_Ret _ _ _ _ _ (upd_page_eq (with_pages pgs head s) i p (set_pp_ref 0) Hp)).
  set (s1 := set_pages _ _). rewrite (bind_Ret _ (get page_free_list) s1 head s1) by done.
  rewrite (bind_Ret _ _ _ _ _ (upd_page_eq s1 i (set_pp_ref 0 p) (set_pp_link head) (lookup_insert_eq _ _ _))).
  unfold with_pages, s1. ks. unfold set_page_free_list, set_pages. simpl. by rewrite insert_insert_eq.
Qed.

Lemma init_loop_eq l : forall pgs head s,
  (forall i, i ∈ l -> is_Some (pgs !! i)) ->
  kfor l page_init_free (with_pages pgs head s) =
    Ret tt (with_pages (push_all l pgs head).1 (push_all l pgs head).2 s).
Proof.
  induction l as [|i l IH]; intros pgs head s Hin; [done|]. cbn [kfor push_all].
  rewrite (bind_Ret _ _ _ _ _ (page_init_free_eq i pgs head s (Hin i ltac:(left)))).
  apply IH. intros j Hj. destruct (decide (i = j)) as [->|Hne]; [rewrite lookup_insert_eq; eauto|].
  rewrite lookup_insert_ne by done. apply Hin. by right.
Qed.

(** What the loop leaves: the pages of [l] are linked in front, the others keep their entry. *)
Lemma push_all_spec l : forall pgs head fl,
  NoDup l -> (forall i, i ∈ l -> i ∉ fl) -> linked pgs head fl ->
  linked (push_all l pgs head).1 (push_all l pgs head).2 (rev l ++ fl) /\
  (forall i, i ∉ l -> (push_all l pgs head).1 !! i = pgs !! i) /\
  (forall i, i ∈ l -> exists h, (push_all l pgs head).1 !! i = Some (mkPageInfo h 0)).
Proof.
  induction l as [|i l IH]; intros pgs head fl Hnd Hfl Hl; cbn [push_all rev].
  { split; [done|]. split; [done|]. by intros i Hi%elem_of_nil. }
  apply NoDup_cons in Hnd as [Hi Hnd].
  destruct (IH (<[i := mkPageInfo head 0]> pgs) (Some i) (i :: fl)) as (H1 & H2 & H3); [done| | |].
  - intros j Hj [->|Hjf]%elem_of_cons; [done|]. apply (Hfl j); [by right|done].
  - split; [done|]. exists (mkPageInfo head 0). rewrite lookup_insert_eq. split; [done|].
    apply linked_frame; [|done]. apply Hfl. left.
  - split; [by rewrite <- app_assoc|]. split.
    + intros j Hj. apply not_elem_of_cons in Hj as [Hne Hj]. by rewrite H2, lookup_insert_ne.
    + intros j [->|Hj]%elem_of_cons; [|by apply H3]. exists head. by rewrite H2, lookup_insert_eq.
Qed.

Lemma linked_ext pgs pgs' head fl :
  (forall i, i ∈ fl -> pgs' !! i = pgs !! i) -> linked pgs head fl -> linked pgs' head fl.
Proof.
  revert head. induction fl as [|i fl IH]; intros head He; [done|]. intros (-> & p & Hp & Hl).
  split; [done|]. exists p. rewrite He by left. split; [done|]. apply IH; [|done]. intros j Hj. apply He. by right.
Qed.

Lemma elem_of_rev {B} (x : B) l : x ∈ rev l <-> x ∈ l.
Proof. by rewrite !list_elem_of_In, <- in_rev. Qed.
Lemma NoDup_rev {B} (l : list B) : NoDup (rev l) <-> NoDup l.
Proof. by rewrite <- Permutation_rev. Qed.

(** The first loop skips the page of the entry code of the other CPUs. *)
Lemma kfor_skip k l (body : Z -> K unit) s :
  kfor l (fun i => if i =? k then mret tt else body i) s = kfor (filter (fun i => i <> k) l) body s.
Proof.
  revert s. induction l as [|i l IH]; intros s; [done|]. cbn [kfor]. rewrite filter_cons.
  destruct (Z.eqb_spec i k) as [->|Hne]; [rewrite decide_False by naive_solver; apply IH|].
  rewrite decide_True by done. cbn [kfor]. unfold mbind, K_bind. destruct (body i s); [apply IH|done..].
Qed.

(** The loop that marks pages as used. *)
Fixpoint mark_used (l : list Z) (pgs : gmap Z PageInfo) : gmap Z PageInfo :=
  match l with
  | [] => pgs
  | i :: l => mark_used l (match pgs !! i with Some p => <[i := set_pp_ref 1 p]> pgs | None => pgs end)
  end.

Lemma mark_loop_eq l : forall pgs head s,
  (forall i, i ∈ l -> is_Some (pgs !! i)) ->
  kfor l (fun i => upd_page i (set_pp_ref 1)) (with_pages pgs head s) = Ret tt (with_pages (mark_used l pgs) head s).
Proof.
  induction l as [|i l IH]; intros pgs head s Hin; [done|]. cbn [kfor mark_used].
  destruct (Hin i ltac:(left)) as [p Hp]. rewrite Hp.
  rewrite (bind_Ret _ _ _ _ _ (upd_page_eq (with_pages pgs head s) i p _ Hp)).
  change (set_pages _ _) with (with_pages (<[i := set_pp_ref 1 p]> pgs) head s).
  rewrite IH; [done|]. intros j Hj. destruct (decide (i = j)) as [->|Hne]; [rewrite lookup_insert_eq; eauto|].
  rewrite lookup_insert_ne by done. apply Hin. by right.
Qed.

Lemma mark_used_other l : forall pgs i, i ∉ l -> mark_used l pgs !! i = pgs !! i.
Proof.
  induction l as [|j l IH]; intros pgs i Hi; [done|]. apply not_elem_of_cons in Hi as [Hne Hi]. cbn [mark_used].
  destruct (pgs !! j); [|by apply IH]. rewrite (IH _ i Hi). by rewrite lookup_insert_ne.
Qed.

Lemma mark_used_dom l : forall pgs i, is_Some (mark_used l pgs !! i) <-> is_Some (pgs !! i).
Proof.
  induction l as [|j l IH]; intros pgs i; [done|]. cbn [mark_used].
  destruct (pgs !! j) as [p|] eqn:Hp; [|apply IH]. rewrite IH.
  destruct (decide (j = i)) as [->|Hne]; [rewrite lookup_insert_eq; split; eauto|by rewrite lookup_insert_ne].
Qed.

Lemma kfor_two {B} (body : Z -> K unit) a b s s' (k : K B) :
  kfor [a; b] body s = Ret tt s' -> (body a;; body b;; k) s = k s'.
Proof.
  cbn [kfor]. unfold mbind, K_bind. destruct (body a s) as [[] s1| | | | | |]; try done.
  destruct (body b s1) as [[] s2| | | | | |]; try done. by intros [= ->].
Qed.

(** ** The theorem *)

(** The pages the allocator may hand out when memory is in use up to page [nf]. *)
Definition allocatable (s : kstate) (nf i : Z) : Prop :=
  1 <= i < npages_basemem s /\ i <> 7 \/ nf <= i < npages s.

(** The machine when [mem_init] calls [page_init]: [pages] is cleared, the free list is empty
    and memory is in use up to page [nf]. *)
Record boot_state (nf : Z) (s : kstate) : Prop := {
  bs_pages : forall i p, pages s !! i = Some p <-> 0 <= i < npages s /\ p = mkPageInfo None 0;
  bs_list : page_free_list s = None;
  bs_npages : npages s <= 65536;
  bs_base : 7 < npages_basemem s <= IOPHYSMEM / PGSIZE;
  bs_next : nextfree s = kva nf /\ EXTPHYSMEM / PGSIZE <= nf < npages s /\ nf < 1024;
}.

Section init.
Context (kend nf : Z) (s : kstate) (Hb : boot_state nf s).

Definition low : list Z := filter (fun i => i <> 7) (seqZ 1 (npages_basemem s - 1)).
Definition high : list Z := seqZ nf (npages s - nf).
Definition used : list Z := seqZ 160 (nf - 160).

Definition pgs1 : gmap Z PageInfo := mark_used [0; 7] (pages s).
Definition low_st : gmap Z PageInfo * option Z := push_all low pgs1 None.
Definition pgs3 : gmap Z PageInfo := mark_used used low_st.1.
Definition high_st : gmap Z PageInfo * option Z := push_all high pgs3 low_st.2.

Lemma elem_low i : i ∈ low <-> 1 <= i < npages_basemem s /\ i <> 7.
Proof. unfold low. rewrite list_elem_of_filter, elem_of_seqZ. lia. Qed.
Lemma elem_high i : i ∈ high <-> nf <= i < npages s.
Proof. unfold high. rewrite elem_of_seqZ. lia. Qed.

Lemma boot_bounds : 7 < npages_basemem s <= 160 /\ 256 <= nf < npages s /\ nf < 1024 /\ npages s <= 65536.
Proof.
  destruct Hb as [_ _ H1 H2 (_ & H3 & H4)]. unfold IOPHYSMEM, EXTPHYSMEM, PGSIZE in *.
  change (0x0A0000 / 4096) with 160 in *. change (0x100000 / 4096) with 256 in *. lia.
Qed.

Lemma pages_dom i : is_Some (pages s !! i) <-> 0 <= i < npages s.
Proof.
  split; [intros [p [Hp _]%(bs_pages _ _ Hb)]; exact Hp|]. intros Hi. exists (mkPageInfo None 0).
  by apply (bs_pages _ _ Hb).
Qed.
Lemma pgs1_dom i : is_Some (pgs1 !! i) <-> 0 <= i < npages s.
Proof. unfold pgs1. rewrite mark_used_dom. apply pages_dom. Qed.

Lemma low_spec : linked low_st.1 low_st.2 (rev low ++ []) /\
  (forall i, i ∉ low -> low_st.1 !! i = pgs1 !! i) /\
  (forall i, i ∈ low -> exists h, low_st.1 !! i = Some (mkPageInfo h 0)).
Proof.
  apply push_all_spec; [|intros i _; apply not_elem_of_nil|done]. apply NoDup_filter, NoDup_seqZ.
Qed.

Lemma low_dom i : is_Some (low_st.1 !! i) <-> 0 <= i < npages s.
Proof.
  destruct low_spec as (_ & H1 & H2). pose proof boot_bounds.
  destruct (decide (i ∈ low)) as [Hi|Hi]; [|rewrite H1 by done; apply pgs1_dom].
  destruct (H2 i Hi) as [h ->]. apply elem_low in Hi. split; [lia|eauto].
Qed.

Lemma page_init_run : page_init kend s = Ret tt (with_pages high_st.1 high_st.2 s).
Proof.
  pose proof boot_bounds as (B1 & B2 & B3 & B4). destruct Hb as [_ Hfl _ _ (Hnf & _)]. unfold page_init.
  assert (Hboot : boot_alloc kend 0 s = Ret (kva nf) s).
  { unfold boot_alloc. ks. rewrite Hnf. unfold kva, PGSIZE.
    destruct (Z.eqb_spec (KERNBASE + nf * 4096) 0); [clia|]. cbn [Z.ltb Z.compare]. rewrite Hnf. unfold kva, PGSIZE.
    destruct (Z.ltb_spec (KERNBASE + nf * 4096) (KERNBASE + 0x400000)); [done|lia]. }
  rewrite (bind_Ret _ _ _ _ _ Hboot). rewrite (bind_Ret _ _ _ _ _ (PADDR_kva s nf ltac:(lia))).
  change (IOPHYSMEM / PGSIZE) with 160. change (MPENTRY_PADDR / PGSIZE) with 7.
  unfold PGSIZE. rewrite Z.div_mul by lia. cbv zeta.
  assert (Hs : s = with_pages (pages s) None s) by (unfold with_pages; rewrite <- Hfl; by destruct s).
  assert (Hmark : kfor [0; 7] (fun i => upd_page i (set_pp_ref 1)) s = Ret tt (with_pages pgs1 None s)).
  { pose proof (mark_loop_eq [0; 7] (pages s) None s) as Hm. rewrite <- Hs in Hm. apply Hm.
    intros i Hi. apply pages_dom. rewrite !elem_of_cons, elem_of_nil in Hi. lia. }
  rewrite (kfor_two _ _ _ _ _ _ Hmark).
  set (s1 := with_pages pgs1 None s). rewrite (bind_Ret _ (get npages_basemem) s1 (npages_basemem s) s1) by done.
  assert (Hlow : kfor (seqZ 1 (npages_basemem s - 1)) (fun i => if i =? 7 then mret tt else page_init_free i) s1 =
    Ret tt (with_pages low_st.1 low_st.2 s)).
  { rewrite kfor_skip. apply init_loop_eq. intros i Hi%elem_low. apply pgs1_dom. lia. }
  rewrite (bind_Ret _ _ _ _ _ Hlow).
  assert (Hused : forall i, i ∈ used -> is_Some (low_st.1 !! i)).
  { intros i Hi. apply low_dom. apply elem_of_seqZ in Hi. lia. }
  rewrite (bind_Ret _ _ _ _ _ (mark_loop_eq used low_st.1 low_st.2 s Hused)). fold pgs3.
  set (s3 := with_pages pgs3 low_st.2 s). rewrite (bind_Ret _ (get npages) s3 (npages s) s3) by done.
  apply init_loop_eq. intros i Hi%elem_high. unfold pgs3. apply mark_used_dom, low_dom. lia.
Qed.

Lemma high_spec : linked high_st.1 high_st.2 (rev high ++ rev low) /\
  (forall i, i ∉ high -> high_st.1 !! i = pgs3 !! i) /\
  (forall i, i ∈ high -> exists h, high_st.1 !! i = Some (mkPageInfo h 0)).
Proof.
  pose proof boot_bounds as (B1 & B2 & B3 & B4).
  apply push_all_spec; [apply NoDup_seqZ|intros i Hi%elem_high; rewrite elem_of_rev, elem_low; lia|].
  destruct low_spec as (Hl & _ & _). rewrite app_nil_r in Hl.
  apply (linked_ext low_st.1); [|done]. intros i Hi. apply mark_used_other.
  rewrite elem_of_rev, elem_low in Hi. unfold used. rewrite elem_of_seqZ. lia.
Qed.

(** The entries of the pages that may be handed out, and of the others *)
Lemma final_free i : i ∈ low \/ i ∈ high -> exists h, high_st.1 !! i = Some (mkPageInfo h 0).
Proof.
  pose proof boot_bounds as (B1 & B2 & B3 & B4). destruct high_spec as (_ & H1 & H2), low_spec as (_ & _ & H3).
  intros [Hi|Hi]; [|by apply H2]. destruct (H3 i Hi) as [h Hh]. apply elem_low in Hi. exists h.
  rewrite H1 by (rewrite elem_high; lia). unfold pgs3. rewrite mark_used_other; [done|].
  unfold used. rewrite elem_of_seqZ. lia.
Qed.

Lemma final_dom i : is_Some (high_st.1 !! i) <-> 0 <= i < npages s.
Proof.
  destruct high_spec as (_ & H1 & H2). pose proof boot_bounds.
  destruct (decide (i ∈ high)) as [Hi|Hi].
  - destruct (H2 i Hi) as [h ->]. apply elem_high in Hi. split; [lia|eauto].
  - rewrite H1 by done. unfold pgs3. rewrite mark_used_dom. apply low_dom.
Qed.
End init.

(** At boot, [page_init] returns, and the allocator's invariant holds for the pages it may
    hand out: all of base memory except page 0 and the page of the entry code of the other
    CPUs, and everything above the memory the kernel has taken so far; each of them is on the
    free list exactly once with reference count 0, and no other page is: not the hole for
    devices, not the kernel, not what boot_alloc has handed out. *)
Lemma page_init_ok kend nf s A :
  boot_state nf s -> (forall i, i ∈ A <-> allocatable s nf i) ->
  (forall pg i, 0 <= rdw (mem s) pg i < 2^32) ->
  exists s' fl, page_init kend s = Ret tt s' /\ vm_inv A [] ∅ s' /\
    linked (pages s') (page_free_list s') fl /\ NoDup fl /\ (forall i, i ∈ fl <-> i ∈ A) /\
    vm_frame s s' /\ mem s' = mem s.
Proof.
  intros Hb HA Hw. set (hs := high_st nf s). exists (with_pages hs.1 hs.2 s), (rev (high nf s) ++ rev (low s)).
  pose proof (boot_bounds nf s Hb) as (B1 & B2 & B3 & B4).
  destruct (high_spec nf s Hb) as (Hl & _ & Hh). fold hs in Hl, Hh.
  assert (Hin : forall i, i ∈ rev (high nf s) ++ rev (low s) <-> i ∈ A).
  { intros i. rewrite HA, elem_of_app, !elem_of_rev, elem_low, elem_high. unfold allocatable. tauto. }
  assert (Hfree : forall i, i ∈ A -> exists h, hs.1 !! i = Some (mkPageInfo h 0)).
  { intros i Hi. apply (final_free nf s Hb). rewrite <- (Hin i), elem_of_app, !elem_of_rev in Hi. tauto. }
  assert (Hnd : NoDup (rev (high nf s) ++ rev (low s))).
  { apply NoDup_app. rewrite !NoDup_rev. split; [apply NoDup_seqZ|]. split; [|apply NoDup_filter, NoDup_seqZ].
    intros i. rewrite !elem_of_rev, elem_low, elem_high. lia. }
  split; [by apply page_init_run|]. split; [|split; [done|]; split; [done|]; split; [done|]; by split].
  split; [by apply tbl_inv_nil|]. split.
  - simpl. lia.
  - apply (final_dom nf s Hb).
  - intros i Hi%HA. unfold allocatable in Hi. simpl. lia.
  - intros i p Hi Hp. destruct (Hfree i Hi) as [h Hh']. simpl in Hp. rewrite Hh' in Hp. by injection Hp as <-.
  - intros i _. done.
  - exists (rev (high nf s) ++ rev (low s)). split; [done|]. split; [done|]. split_and!.
    + intros i _. set_solver.
    + intros i. rewrite Hin. set_solver.
    + intros i p Hi Hni. by rewrite Hin in Hni.
Qed.
