(* ===== verification/UMonad.v ===== *)
(** * UMonad: programs that run in user mode, and the memory they see

    User programs, the servers and the shared library are written in a state monad over a
    state of their own.  [Mem] is what the library's routines need of such a state, a byte
    load and a byte store; [MemLaws] is what an address space promises about them, so that the
    routines are verified once for every address space. *)

From S2P Require Import Prelude.

(** ** The monad *)

Inductive res (S A : Type) :=
  | Ok (a : A) (s : S)    (* returns *)
  | Abort (s : S)         (* panic() or exit() *)
  | Wrong (s : S).        (* an access outside memory, or a loop that does not end *)
Arguments Ok {S A} a s.
Arguments Abort {S A} s.
Arguments Wrong {S A} s.

Definition M (S A : Type) : Type := S -> res S A.

#[export] Instance M_ret {S} : MRet (M S) := fun A a s => Ok a s.
#[export] Instance M_bind {S} : MBind (M S) := fun A B f m s =>
  match m s with
  | Ok a s' => f a s'
  | Abort s' => Abort s'
  | Wrong s' => Wrong s'
  end.

Section monad.
Context {S : Type}.

Definition mget {A} (f : S -> A) : M S A := fun s => Ok (f s) s.
Definition mmod (f : S -> S) : M S unit := fun s => Ok tt (f s).
Definition abort {A} : M S A := fun s => Abort s.
Definition wrong {A} : M S A := fun s => Wrong s.
Definition massert (b : bool) : M S unit := if b then mret tt else abort.
Definition mwhen (b : bool) (m : M S unit) : M S unit := if b then m else mret tt.

Lemma bind_Ok {A B} (f : A -> M S B) (m : M S A) s a s' : m s = Ok a s' -> (m ≫= f) s = f a s'.
Proof. unfold mbind, M_bind. by intros ->. Qed.

(** [for (i = first; ...; i++) body(i)] over the listed indices *)
Fixpoint mfor {A} (l : list A) (body : A -> M S unit) : M S unit :=
  match l with
  | [] => mret tt
  | i :: l => body i;; mfor l body
  end.

(** A loop whose body ends with the next loop variables or with the result. *)
Fixpoint miter {A R} (n : positive) (body : A -> M S (A + R)) (x : A) : M S (A + R) :=
  let twice p x := r ← miter p body x;
    match r with inl x => miter p body x | inr v => mret (inr v) end in
  match n with
  | xH => body x
  | xO p => twice p x
  | xI p => r ← body x; match r with inl x => twice p x | inr v => mret (inr v) end
  end.
Definition mloop {A R} (n : positive) (body : A -> M S (A + R)) (x : A) : M S R :=
  r ← miter n body x; match r with inl _ => wrong | inr v => mret v end.

Fixpoint msteps {A R} (n : nat) (body : A -> M S (A + R)) (x : A) : M S (A + R) :=
  match n with
  | O => mret (inl x)
  | Datatypes.S n => r ← body x; match r with inl x => msteps n body x | inr v => mret (inr v) end
  end.
End monad.

(** The size of the address space bounds the loops over memory. *)
Definition ADDRS : positive := 4294967296.

Section loop.
Context {S A R : Type} (body : A -> M S (A + R)).

Lemma msteps_add a b x s :
  msteps (a + b) body x s =
  (r ← msteps a body x; match r with inl x => msteps b body x | inr v => mret (inr v) end) s.
Proof.
  revert x s. induction a as [|a IH]; intros x s; [done|]. simpl.
  unfold mbind, M_bind, mret, M_ret in *. destruct (body x s) as [[y|v] s'|?|?]; (apply IH || done).
Qed.

Lemma miter_msteps n x s : miter n body x s = msteps (Pos.to_nat n) body x s.
Proof.
  revert x s. induction n as [p IH|p IH|]; intros x s; simpl miter.
  - rewrite Pos2Nat.inj_xI. simpl. unfold mbind, M_bind.
    destruct (body x s) as [[y|v] s'|?|?]; try done.
    rewrite IH, Nat.add_0_r, msteps_add. unfold mbind, M_bind.
    destruct (msteps (Pos.to_nat p) body y s') as [[z|v] s''|?|?]; (apply IH || done).
  - rewrite Pos2Nat.inj_xO. simpl. unfold mbind, M_bind. rewrite IH, Nat.add_0_r, msteps_add.
    unfold mbind, M_bind.
    destruct (msteps (Pos.to_nat p) body x s) as [[z|v] s''|?|?]; (apply IH || done).
  - simpl. unfold mbind, M_bind. destruct (body x s) as [[y|v] s'|?|?]; done.
Qed.

(** A loop that ends within its bound *)
Lemma msteps_mloop (m : nat) n x s v s' :
  (m <= Pos.to_nat n)%nat -> msteps m body x s = Ok (inr v) s' -> mloop n body x s = Ok v s'.
Proof.
  intros Hm H. unfold mloop. unfold mbind, M_bind. rewrite miter_msteps.
  replace (Pos.to_nat n) with (m + (Pos.to_nat n - m))%nat by lia. rewrite msteps_add.
  unfold mbind, M_bind. by rewrite H.
Qed.

Lemma mloop_ADDRS (m : nat) x s v s' :
  Z.of_nat m <= 2^32 -> msteps m body x s = Ok (inr v) s' -> mloop ADDRS body x s = Ok v s'.
Proof. intros Hm. apply msteps_mloop. unfold ADDRS. lia. Qed.

(** One round *)
Lemma msteps_next n x s y s' r s'' :
  body x s = Ok (inl y) s' -> msteps n body y s' = Ok r s'' -> msteps (1 + n) body x s = Ok r s''.
Proof. intros H1 H2. simpl. by rewrite (bind_Ok _ _ _ _ _ H1). Qed.
Lemma msteps_done n x s v s' :
  body x s = Ok (inr v) s' -> msteps (1 + n) body x s = Ok (inr v) s'.
Proof. intros H1. simpl. by rewrite (bind_Ok _ _ _ _ _ H1). Qed.
Lemma msteps_le m n x s v s' :
  (m <= n)%nat -> msteps m body x s = Ok (inr v) s' -> msteps n body x s = Ok (inr v) s'.
Proof.
  intros Hm H. replace n with (m + (n - m))%nat by lia. rewrite msteps_add. unfold mbind, M_bind. by rewrite H.
Qed.
End loop.

Create HintDb mem.

(** ** Memory *)

Class Mem (S : Type) := {
  ldb : Z -> M S Z;
  stb : Z -> Z -> M S unit;
}.

(** What an address space promises: [view] is the byte an access at an address finds, [wr] the
    addresses that can be written, and [rest] that nothing but memory differs. *)
Class MemLaws (S : Type) `{Mem S} := {
  view : S -> Z -> option Z;
  wr : S -> Z -> Prop;
  rest : S -> S -> Prop;
  rest_refl s : rest s s;
  rest_trans s1 s2 s3 : rest s1 s2 -> rest s2 s3 -> rest s1 s3;
  wr_rest s s' a : rest s s' -> wr s a -> wr s' a;
  wr_view s a : wr s a -> is_Some (view s a);
  view_byte s a b : view s a = Some b -> 0 <= b < 256;
  ldb_ok s a b : view s a = Some b ->
    exists s', ldb a s = Ok b s' /\ rest s s' /\ forall a', view s' a' = view s a';
  stb_ok s a b : wr s a ->
    exists s', stb a b s = Ok tt s' /\ rest s s' /\
      forall a', view s' a' = if decide (a = a') then Some (u8 b) else view s a';
}.

(** The simplest address space: the bytes that are mapped, all of them writable *)
Notation flat := (gmap Z Z).

Definition flat_ldb (a : Z) : M flat Z := fun m =>
  match m !! a with Some b => Ok (u8 b) m | None => Wrong m end.
Definition flat_stb (a b : Z) : M flat unit := fun m =>
  match m !! a with Some _ => Ok tt (<[a := u8 b]> m) | None => Wrong m end.
#[export] Instance flat_mem : Mem flat := {| ldb := flat_ldb; stb := flat_stb |}.

Definition flat_view (m : flat) (a : Z) : option Z := u8 <$> m !! a.

#[export] Instance flat_laws : MemLaws flat.
Proof.
  refine {|
    view := flat_view;
    wr := fun (m : flat) a => is_Some (m !! a);
    rest := fun (m m' : flat) => forall a, is_Some (m !! a) -> is_Some (m' !! a) |}.
  - done.
  - auto.
  - auto.
  - intros m a [b Hb]. unfold flat_view. rewrite Hb. eauto.
  - unfold flat_view. intros m a b Hb. destruct (_ !! a); [|done]. injection Hb as <-. apply u8_range.
  - unfold flat_view. intros m a b Hb. destruct (_ !! a) as [x|] eqn:Hx; [|done]. injection Hb as <-.
    exists m. split; [|done]. simpl. unfold flat_ldb. by rewrite Hx.
  - intros m a b [x Hx]. exists (<[a := u8 b]> m). split; [|split].
    + simpl. unfold flat_stb. by rewrite Hx.
    + intros a' [y Hy]. destruct (decide (a = a')) as [->|Hne]; [rewrite lookup_insert_eq; eauto|].
      rewrite lookup_insert_ne by done. eauto.
    + intros a'. unfold flat_view. destruct (decide (a = a')) as [->|Hne].
      * rewrite lookup_insert_eq. simpl. rewrite u8_small; [done|apply u8_range].
      * by rewrite lookup_insert_ne.
Defined.

(** ** Derived facts *)

Section laws.
Context {S : Type} `{Hmem : Mem S} `{Hlaws : !MemLaws S}.

(** Nothing but the bytes at the addresses in [X] differs. *)
Definition touches (X : Z -> Prop) (s s' : S) : Prop :=
  rest s s' /\ forall a, ~ X a -> view s' a = view s a.

(** Nothing has been written. *)
Definition reads : S -> S -> Prop := touches (fun _ => False).

Lemma touches_refl X s : touches X s s.
Proof. split; [apply rest_refl|done]. Qed.
Lemma touches_trans X s1 s2 s3 : touches X s1 s2 -> touches X s2 s3 -> touches X s1 s3.
Proof. intros [R1 V1] [R2 V2]. split; [by eapply rest_trans|]. intros a Ha. by rewrite V2, V1. Qed.
Lemma touches_mono (X Y : Z -> Prop) s s' : (forall a, X a -> Y a) -> touches X s s' -> touches Y s s'.
Proof. intros Hm [R V]. split; [done|]. intros a Ha. apply V. auto. Qed.
Lemma reads_touches X s s' : reads s s' -> touches X s s'.
Proof. by apply touches_mono. Qed.
Lemma reads_view s s' a : reads s s' -> view s' a = view s a.
Proof. intros [_ V]. apply V; tauto. Qed.
Lemma touches_wr X s s' a : touches X s s' -> wr s a -> wr s' a.
Proof. intros [R _]. by apply wr_rest. Qed.

Lemma load s a b : view s a = Some b -> exists s', ldb a s = Ok b s' /\ reads s s'.
Proof. intros (s' & Hl & Hr & Hv)%ldb_ok. exists s'. split; [done|]. split; auto. Qed.

Lemma store s a b :
  wr s a -> exists s', stb a b s = Ok tt s' /\ touches (eq a) s s' /\ view s' a = Some (u8 b).
Proof.
  intros (s' & Hs & Hr & Hv)%(stb_ok s a b). exists s'. split; [done|]. split.
  - split; [done|]. intros a' Ha. by rewrite Hv, decide_False.
  - by rewrite Hv, decide_True.
Qed.
End laws.
#[export] Hint Resolve touches_refl : mem.
