(* ===== verification/Str.v ===== *)
(** * Str: the string and memory routines ([lib/string.c])

    They are shared by the kernel, the servers and user programs, and are written here for any
    memory [Mem S].  A byte is 0..255; where the code compares a [char] with [<] the sign
    matters only for bytes above 127, which the code then rejects either way.  Loops over
    memory are bounded by the size of the address space. *)

From S2P Require Import Prelude UMonad.

Section str.
Context {S : Type} `{Mem S}.

(** for (n = 0; *s != '\0'; s++) n++ *)
Definition strlen (s : Z) : M S Z :=
  mloop ADDRS (fun '(s, n) =>
    c ← ldb s; if c =? 0 then mret (inr n) else mret (inl (s + 1, i32 (n + 1)))) (s, 0).

Definition strnlen (s size : Z) : M S Z :=
  mloop ADDRS (fun '(s, size, n) =>
    if 0 <? size then
      c ← ldb s; if c =? 0 then mret (inr n) else mret (inl (s + 1, size - 1, i32 (n + 1)))
    else mret (inr n)) (s, size, 0).

Definition strcpy (dst src : Z) : M S Z :=
  mloop ADDRS (fun '(d, s) =>
    c ← ldb s; stb d c;; if c =? 0 then mret (inr dst) else mret (inl (d + 1, s + 1))) (dst, src).

Definition strcat (dst src : Z) : M S Z :=
  len ← strlen dst;
  strcpy (dst + len) src;;
  mret dst.

Definition strncpy (dst src size : Z) : M S Z :=
  mloop ADDRS (fun '(i, d, s) =>
    if i <? size then
      c ← ldb s;
      stb d c;;
      c ← ldb s;
      mret (inl (i + 1, d + 1, if c =? 0 then s else s + 1))
    else mret (inr dst)) (0, dst, src).

Definition strlcpy (dst src size : Z) : M S Z :=
  if 0 <? size then
    d ← mloop ADDRS (fun '(d, s, size) =>
      let size := size - 1 in
      if 0 <? size then
        c ← ldb s;
        if c =? 0 then mret (inr d)
        else c ← ldb s; stb d c;; mret (inl (d + 1, s + 1, size))
      else mret (inr d)) (dst, src, size);
    stb d 0;;
    mret (d - dst)
  else mret 0.

Definition strcmp (p q : Z) : M S Z :=
  mloop ADDRS (fun '(p, q) =>
    a ← ldb p;
    if a =? 0 then b ← ldb q; mret (inr (a - b))
    else b ← ldb q; if a =? b then mret (inl (p + 1, q + 1)) else mret (inr (a - b))) (p, q).

Definition strncmp (p q n : Z) : M S Z :=
  mloop ADDRS (fun '(p, q, n) =>
    if 0 <? n then
      a ← ldb p;
      if a =? 0 then b ← ldb q; mret (inr (a - b))
      else b ← ldb q; if a =? b then mret (inl (p + 1, q + 1, n - 1)) else mret (inr (a - b))
    else mret (inr 0)) (p, q, n).

(** A null pointer is 0. *)
Definition strchr (s c : Z) : M S Z :=
  mloop ADDRS (fun s =>
    x ← ldb s;
    if x =? 0 then mret (inr 0) else if x =? u8 c then mret (inr s) else mret (inl (s + 1))) s.

Definition strfind (s c : Z) : M S Z :=
  mloop ADDRS (fun s =>
    x ← ldb s;
    if x =? 0 then mret (inr s) else if x =? u8 c then mret (inr s) else mret (inl (s + 1))) s.

(** ** Blocks of memory *)

(** [n] bytes at once, as a word instruction moves them *)
Fixpoint ldn (a : Z) (n : nat) : M S (list Z) :=
  match n with
  | O => mret []
  | Datatypes.S n => b ← ldb a; r ← ldn (a + 1) n; mret (b :: r)
  end.
Fixpoint stn (a : Z) (bs : list Z) : M S unit :=
  match bs with
  | [] => mret tt
  | b :: bs => stb a b;; stn (a + 1) bs
  end.

(** A 32-bit load and store, little-endian *)
Definition unbytes (bs : list Z) : Z := foldr (fun b v => b + 256 * v) 0 bs.
Definition bytes4 (w : Z) : list Z := [w mod 256; w / 256 mod 256; w / 65536 mod 256; w / 16777216 mod 256].
Definition ld32 (a : Z) : M S Z := bs ← ldn a 4; mret (unbytes bs).
Definition st32 (a w : Z) : M S unit := stn a (bytes4 w).

(** cld; rep stos[lb]: [cnt] stores of the bytes [bs] *)
Definition rep_stos (a : Z) (bs : list Z) (cnt : Z) : M S unit :=
  mfor (seqZ 0 cnt) (fun i => stn (a + Z.of_nat (length bs) * i) bs).

(** cld; rep movs[lb], and std; rep movs[lb] with the pointers just behind the blocks *)
Definition movs (k : nat) (d s : Z) : M S unit := bs ← ldn s k; stn d bs.
Definition rep_movs (k : nat) (d s cnt : Z) : M S unit :=
  mfor (seqZ 0 cnt) (fun i => movs k (d + Z.of_nat k * i) (s + Z.of_nat k * i)).
Definition rep_movs_down (k : nat) (d s cnt : Z) : M S unit :=
  mfor (seqZ 0 cnt) (fun i => movs k (d - Z.of_nat k * (i + 1)) (s - Z.of_nat k * (i + 1))).

Definition memset (v c n : Z) : M S Z :=
  if n =? 0 then mret v
  else
    (if (v mod 4 =? 0) && (n mod 4 =? 0) then
       let c := c .& 0xFF in
       let w := u32 ((c .<< 24) .| (c .<< 16) .| (c .<< 8) .| c) in
       rep_stos v [w mod 256; w / 256 mod 256; w / 65536 mod 256; w / 16777216] (n / 4)
     else rep_stos v [u8 c] n);;
    mret v.

Definition memmove (dst src n : Z) : M S Z :=
  (if (src <? dst) && (dst <? u32 (src + n)) then
     let s := u32 (src + n) in
     let d := u32 (dst + n) in
     if (s mod 4 =? 0) && (d mod 4 =? 0) && (n mod 4 =? 0) then rep_movs_down 4 d s (n / 4)
     else rep_movs_down 1 d s n
   else if (src mod 4 =? 0) && (dst mod 4 =? 0) && (n mod 4 =? 0) then rep_movs 4 dst src (n / 4)
   else rep_movs 1 dst src n);;
  mret dst.

Definition memcpy (dst src n : Z) : M S Z := memmove dst src n.

Definition memcmp (v1 v2 n : Z) : M S Z :=
  mloop ADDRS (fun '(s1, s2, n) =>
    if 0 <? n then
      a ← ldb s1; b ← ldb s2;
      if a =? b then mret (inl (s1 + 1, s2 + 1, n - 1)) else mret (inr (a - b))
    else mret (inr 0)) (v1, v2, n).

Definition memfind (s c n : Z) : M S Z :=
  let ends := u32 (s + n) in
  mloop ADDRS (fun s =>
    if s <? ends then
      x ← ldb s; if x =? u8 c then mret (inr s) else mret (inl (s + 1))
    else mret (inr s)) s.

(** ** Numbers *)

(** The value of a digit character *)
Definition digit (c : Z) : option Z :=
  if (48 <=? c) && (c <=? 57) then Some (c - 48)
  else if (97 <=? c) && (c <=? 122) then Some (c - 97 + 10)
  else if (65 <=? c) && (c <=? 90) then Some (c - 65 + 10)
  else None.

(** The digits: the value and the address of the first character behind them *)
Definition strtol_digits (s base : Z) : M S (Z * Z) :=
  mloop ADDRS (fun '(s, val) =>
    c ← ldb s;
    match digit c with
    | None => mret (inr (val, s))
    | Some dig => if base <=? dig then mret (inr (val, s)) else mret (inl (s + 1, i32 (val * base + dig)))
    end) (s, 0).

(** The result and [*endptr] *)
Definition strtol (s base : Z) : M S (Z * Z) :=
  s ← mloop ADDRS (fun s =>
    c ← ldb s; if (c =? 32) || (c =? 9) then mret (inl (s + 1)) else mret (inr s)) s;
  c ← ldb s;
  '(s, neg) ← (if c =? 43 then mret (s + 1, false)
               else if c =? 45 then mret (s + 1, true) else mret (s, false) : M S (Z * bool));
  '(s, base) ← (
    hex ← (if (base =? 0) || (base =? 16) then
             c0 ← ldb s; if c0 =? 48 then c1 ← ldb (s + 1); mret (c1 =? 120) else mret false
           else mret false : M S bool);
    if (hex : bool) then mret (s + 2, 16)
    else if base =? 0 then
      c0 ← ldb s; if c0 =? 48 then mret (s + 1, 8) else mret (s, 10)
    else mret (s, base) : M S (Z * Z));
  '(val, s) ← strtol_digits s base;
  mret (if (neg : bool) then i32 (- val) else val, s).

Definition digit_count (num : Z) : M S Z :=
  if num =? 0 then mret 1
  else mloop 33 (fun '(num, count) =>
    if 0 <? num then mret (inl (Z.quot num 10, u32 (count + 1))) else mret (inr count)) (num, 0).

Definition itoa (num number : Z) : M S unit :=
  dgcount ← digit_count num;
  let dgcount := i32 dgcount in
  if (num =? 0) && (dgcount =? 1) then stb number 48;; stb (number + 1) 0
  else
    mloop 33 (fun '(num, index) =>
      if num =? 0 then mret (inr tt)
      else stb (number + index) (u8 (Z.rem num 10 + 48));; mret (inl (Z.quot num 10, index - 1)))
      (num, dgcount - 1);;
    stb (number + dgcount) 0.
End str.
