(* ===== verification/StrThms.v ===== *)
(** * StrThms: the theorems about [lib/string.c]

    They hold in every address space that satisfies [MemLaws]. *)

From S2P Require Import Prelude UMonad Str.

Section thms.
Context {S : Type} `{Hmem : Mem S} `{Hlaws : !MemLaws S}.
Implicit Types s : S.

(** The bytes from address [a] on are [bs]. *)
Definition bytes_at (s : S) (a : Z) (bs : list Z) : Prop :=
  forall k b, bs !! k = Some b -> view s (a + Z.of_nat k) = Some b.

(** [n] addresses from [a] on can be written. *)
Definition buffer (s : S) (a n : Z) : Prop := forall k, a <= k < a + n -> wr s k.

(** The address range [[a, a + n)] *)
Definition range (a n k : Z) : Prop := a <= k < a + n.

Lemma bytes_at_cons s a b bs : bytes_at s a (b :: bs) <-> view s a = Some b /\ bytes_at s (a + 1) bs.
Proof.
  split.
  - intros Hb. split; [rewrite <- (Z.add_0_r a); by apply (Hb 0%nat)|].
    intros k x Hx. replace (a + 1 + Z.of_nat k) with (a + Z.of_nat (Datatypes.S k)) by lia. by apply Hb.
  - intros [H0 Hb] [|k] x Hx; [injection Hx as <-; by rewrite Z.add_0_r|].
    replace (a + Z.of_nat (Datatypes.S k)) with (a + 1 + Z.of_nat k) by lia. by apply Hb.
Qed.

Lemma bytes_at_app s a l1 l2 :
  bytes_at s a (l1 ++ l2) <-> bytes_at s a l1 /\ bytes_at s (a + Z.of_nat (length l1)) l2.
Proof.
  revert a. induction l1 as [|b l1 IH]; intros a; cbn [app length].
  - rewrite Z.add_0_r. split; [|by intros [_ ?]]. intros. split; [|done]. by intros k b.
  - rewrite !bytes_at_cons, IH. replace (a + 1 + Z.of_nat (length l1)) with (a + Z.of_nat (Datatypes.S (length l1))) by lia.
    tauto.
Qed.

Lemma bytes_at_touches X s s' a bs :
  touches X s s' -> (forall k, X k -> ~ range a (Z.of_nat (length bs)) k) -> bytes_at s a bs -> bytes_at s' a bs.
Proof.
  intros [_ Hv] Hd Hb k b Hk. rewrite Hv; [by apply Hb|]. intros HX. apply (Hd _ HX).
  apply lookup_lt_Some in Hk. unfold range. lia.
Qed.

Lemma bytes_at_reads s s' a bs : reads s s' -> bytes_at s a bs -> bytes_at s' a bs.
Proof. intros Hr. apply (bytes_at_touches (fun _ => False)); [done|tauto]. Qed.

Lemma buffer_touches X s s' a n : touches X s s' -> buffer s a n -> buffer s' a n.
Proof. intros Ht Hb k Hk. eapply touches_wr; [done|]. by apply Hb. Qed.

Lemma bytes_at_range s a bs b : bytes_at s a bs -> b ∈ bs -> 0 <= b < 256.
Proof. intros Hb [k Hk]%list_elem_of_lookup. eapply view_byte. by apply Hb. Qed.

(** ** Blocks *)

Lemma ldn_spec bs : forall s a, bytes_at s a bs -> exists s', ldn a (length bs) s = Ok bs s' /\ reads s s'.
Proof.
  induction bs as [|b bs IH]; intros s a; [exists s; split; [done|apply touches_refl]|].
  rewrite bytes_at_cons. intros [H0 Hb]. cbn [length ldn].
  destruct (load s a b H0) as (s1 & Hl & Hr1). rewrite (bind_Ok _ _ _ _ _ Hl).
  destruct (IH s1 (a + 1)) as (s2 & Hl2 & Hr2); [by eapply bytes_at_reads|].
  rewrite (bind_Ok _ _ _ _ _ Hl2). exists s2. split; [done|]. by eapply touches_trans.
Qed.

Lemma stn_spec bs : forall s a,
  buffer s a (Z.of_nat (length bs)) ->
  exists s', stn a bs s = Ok tt s' /\ touches (range a (Z.of_nat (length bs))) s s' /\
    bytes_at s' a (map u8 bs).
Proof.
  induction bs as [|b bs IH]; intros s a Hw.
  { exists s. split; [done|]. split; [apply touches_refl|by intros k x]. }
  cbn [length stn map] in *. destruct (store s a b) as (s1 & Hs & Ht & Hv); [apply Hw; lia|].
  rewrite (bind_Ok _ _ _ _ _ Hs).
  destruct (IH s1 (a + 1)) as (s2 & Hs2 & Ht2 & Hb2).
  { intros k Hk. eapply touches_wr; [done|]. apply Hw. lia. }
  exists s2. split; [done|]. split.
  - eapply touches_trans; (eapply touches_mono; [|done]); unfold range; intros; lia.
  - apply bytes_at_cons. split; [|done]. destruct Ht2 as [_ V2]. rewrite V2; [done|]. unfold range. lia.
Qed.

Lemma map_u8 bs : (forall b, b ∈ bs -> 0 <= b < 256) -> map u8 bs = bs.
Proof.
  intros Hb. induction bs as [|b bs IH]; [done|]. cbn [map]. rewrite u8_small by (apply Hb; left). f_equal.
  apply IH. intros x Hx. apply Hb. by right.
Qed.

Lemma movs_spec bs s d a :
  bytes_at s a bs -> buffer s d (Z.of_nat (length bs)) ->
  exists s', movs (length bs) d a s = Ok tt s' /\ touches (range d (Z.of_nat (length bs))) s s' /\ bytes_at s' d bs.
Proof.
  intros Hb Hw. unfold movs. destruct (ldn_spec bs s a Hb) as (s1 & Hl & Hr).
  rewrite (bind_Ok _ _ _ _ _ Hl). destruct (stn_spec bs s1 d) as (s2 & Hs & Ht & Hb2); [by eapply buffer_touches|].
  exists s2. split; [done|]. split; [eapply touches_trans; [by apply reads_touches|done]|].
  rewrite map_u8 in Hb2; [done|]. intros b. by apply (bytes_at_range s a).
Qed.

Lemma mfor_shift {A B} (f : B -> A) l (body : A -> M S unit) s : mfor (map f l) body s = mfor l (fun i => body (f i)) s.
Proof.
  revert s. induction l as [|i l IH]; intros s; [done|]. cbn [map mfor]. unfold mbind, M_bind.
  destruct (body (f i) s); [apply IH|done..].
Qed.

Lemma mfor_app {A} l1 l2 (body : A -> M S unit) s : mfor (l1 ++ l2) body s = (mfor l1 body;; mfor l2 body) s.
Proof.
  revert s. induction l1 as [|i l IH]; intros s; [done|]. cbn [app mfor]. unfold mbind, M_bind in *.
  destruct (body i s); [apply IH|done..].
Qed.

Lemma mfor_ext {A} l (f g : A -> M S unit) s : (forall i s, i ∈ l -> f i s = g i s) -> mfor l f s = mfor l g s.
Proof.
  revert s. induction l as [|i l IH]; intros s Hf; [done|]. cbn [mfor]. unfold mbind, M_bind.
  rewrite Hf by left. destruct (g i s); [|done..]. apply IH. intros. apply Hf. by right.
Qed.

(** The rounds of a counted loop from its second one *)
Lemma mfor_seqZ_S n (body : Z -> M S unit) s :
  0 <= n -> mfor (seqZ 0 (n + 1)) body s = (body 0;; mfor (seqZ 0 n) (fun i => body (i + 1))) s.
Proof.
  intros Hn. rewrite seqZ_cons by lia. cbn [mfor]. unfold mbind, M_bind. destruct (body 0 s) as [[] s'| |]; try done.
  replace (Z.pred (n + 1)) with n by lia. change (Z.succ 0) with 1.
  rewrite <- (mfor_shift (fun i => i + 1)). f_equal.
  change (seqZ 1 n) with (seqZ (1 + 0) n). rewrite <- (fmap_add_seqZ 1 0 n). apply list_fmap_ext. intros. lia.
Qed.

(** Copying [cnt] chunks of [k] bytes upwards is right when the destination does not start
    inside the source. *)
Lemma rep_movs_spec k (cnt : nat) : forall bs s d a,
  length bs = (k * cnt)%nat -> bytes_at s a bs -> buffer s d (Z.of_nat (length bs)) ->
  (d <= a \/ a + Z.of_nat (length bs) <= d) ->
  exists s', rep_movs k d a (Z.of_nat cnt) s = Ok tt s' /\
    touches (range d (Z.of_nat (length bs))) s s' /\ bytes_at s' d bs.
Proof.
  induction cnt as [|cnt IH]; intros bs s d a Hlen Hb Hw Hd; unfold rep_movs in *.
  { destruct bs; [|simpl in Hlen; lia]. exists s. split; [done|]. split; [apply touches_refl|by intros j x]. }
  rewrite Nat.mul_succ_r in Hlen.
  assert (L1 : length (take k bs) = k) by (rewrite length_take; lia).
  rewrite <- (take_drop k bs) in Hlen, Hb, Hw, Hd |- *.
  revert L1 Hlen Hb Hw Hd. generalize (take k bs) (drop k bs). intros b1 b2 L1 Hlen Hb Hw Hd.
  rewrite length_app in *. rewrite L1 in *. apply bytes_at_app in Hb as [Hb1 Hb2]. rewrite L1 in Hb2.
  replace (Z.of_nat (Datatypes.S cnt)) with (Z.of_nat cnt + 1) by lia. rewrite mfor_seqZ_S by lia.
  rewrite !Z.mul_0_r, !Z.add_0_r.
  destruct (movs_spec b1 s d a Hb1) as (s1 & Hm & Ht & Hc).
  { intros j Hj. apply Hw. lia. }
  rewrite L1 in Hm. rewrite (bind_Ok _ _ _ _ _ Hm).
  destruct (IH b2 s1 (d + Z.of_nat k) (a + Z.of_nat k)) as (s2 & Hm2 & Ht2 & Hc2); [lia| | |lia|].
  - apply (bytes_at_touches _ s s1 _ _ Ht); [|done]. unfold range. rewrite L1. lia.
  - eapply buffer_touches; [done|]. intros j Hj. apply Hw. lia.
  - exists s2. split; [|split].
    + rewrite <- Hm2. apply mfor_ext. intros i s3 _. f_equal; lia.
    + eapply touches_trans; (eapply touches_mono; [|done]); unfold range; intros; lia.
    + apply bytes_at_app. rewrite L1. split; [|done]. apply (bytes_at_touches _ s1 s2 _ _ Ht2); [|done].
      unfold range. rewrite L1. lia.
Qed.

(** Downwards, when the source does not start inside the destination. *)
Lemma rep_movs_down_spec k (cnt : nat) : forall bs s d a,
  length bs = (k * cnt)%nat -> bytes_at s a bs -> buffer s d (Z.of_nat (length bs)) -> a <= d ->
  exists s', rep_movs_down k (d + Z.of_nat (length bs)) (a + Z.of_nat (length bs)) (Z.of_nat cnt) s = Ok tt s' /\
    touches (range d (Z.of_nat (length bs))) s s' /\ bytes_at s' d bs.
Proof.
  induction cnt as [|cnt IH]; intros bs s d a Hlen Hb Hw Hd; unfold rep_movs_down in *.
  { destruct bs; [|simpl in Hlen; lia]. exists s. split; [done|]. split; [apply touches_refl|by intros j x]. }
  rewrite Nat.mul_succ_r in Hlen. set (n := (k * cnt)%nat) in *.
  assert (L1 : length (take n bs) = n) by (rewrite length_take; lia).
  rewrite <- (take_drop n bs) in Hlen, Hb, Hw |- *.
  revert L1 Hlen Hb Hw. generalize (take n bs) (drop n bs). intros b1 b2 L1 Hlen Hb Hw.
  rewrite length_app in *. rewrite L1 in *. apply bytes_at_app in Hb as [Hb1 Hb2]. rewrite L1 in Hb2.
  assert (L2 : length b2 = k) by lia. rewrite L2 in *.
  replace (Z.of_nat (Datatypes.S cnt)) with (Z.of_nat cnt + 1) by lia. rewrite mfor_seqZ_S by lia.
  destruct (movs_spec b2 s (d + Z.of_nat n) (a + Z.of_nat n) Hb2) as (s1 & Hm & Ht & Hc).
  { intros j Hj. apply Hw. lia. }
  rewrite L2 in Hm, Ht. replace (d + Z.of_nat (n + k) - Z.of_nat k * (0 + 1)) with (d + Z.of_nat n) by lia.
  replace (a + Z.of_nat (n + k) - Z.of_nat k * (0 + 1)) with (a + Z.of_nat n) by lia.
  rewrite (bind_Ok _ _ _ _ _ Hm).
  destruct (IH b1 s1 d a) as (s2 & Hm2 & Ht2 & Hc2); [done| | |done|].
  - apply (bytes_at_touches _ s s1 _ _ Ht); [|done]. unfold range. rewrite L1. lia.
  - eapply buffer_touches; [done|]. intros j Hj. apply Hw. lia.
  - exists s2. rewrite L1 in Hm2, Ht2. split; [|split].
    + rewrite <- Hm2. apply mfor_ext. intros i s3 _. f_equal; lia.
    + eapply touches_trans; (eapply touches_mono; [|done]); unfold range; intros; lia.
    + apply bytes_at_app. rewrite L1. split; [done|]. apply (bytes_at_touches _ s1 s2 _ _ Ht2); [|done].
      unfold range. rewrite L2. lia.
Qed.

Lemma memmove_spec bs s dst src :
  bytes_at s src bs -> buffer s dst (Z.of_nat (length bs)) ->
  0 <= src -> src + Z.of_nat (length bs) < 2^32 -> 0 <= dst -> dst + Z.of_nat (length bs) < 2^32 ->
  exists s', memmove dst src (Z.of_nat (length bs)) s = Ok dst s' /\
    touches (range dst (Z.of_nat (length bs))) s s' /\ bytes_at s' dst bs.
Proof.
  intros Hb Hw H1 H2 H3 H4. unfold memmove. set (n := Z.of_nat (length bs)) in *. rewrite !u32_small by lia.
  assert (Hquarter : n mod 4 = 0 -> exists q : nat, length bs = (4 * q)%nat /\ n / 4 = Z.of_nat q).
  { intros Hq. exists (Z.to_nat (n / 4)). unfold n in *. split; dlia. }
  assert (Hfin : forall (m : M S unit), (exists s', m s = Ok tt s' /\ touches (range dst n) s s' /\ bytes_at s' dst bs) ->
    exists s', (m;; mret dst) s = Ok dst s' /\ touches (range dst n) s s' /\ bytes_at s' dst bs).
  { intros m (s' & Hm & ?). exists s'. by rewrite (bind_Ok _ _ _ _ _ Hm). }
  apply Hfin. destruct ((src <? dst) && (dst <? src + n)) eqn:Hov.
  - apply andb_true_iff in Hov as [?%Z.ltb_lt ?%Z.ltb_lt]. destruct (_ && (n mod 4 =? 0)) eqn:Hal.
    + apply andb_true_iff in Hal as [_ Hq%Z.eqb_eq]. destruct (Hquarter Hq) as (q & Hl & ->).
      apply (rep_movs_down_spec 4 q bs s dst src); [done..|lia].
    + apply (rep_movs_down_spec 1 (length bs) bs s dst src); [lia|done..|lia].
  - assert (dst <= src \/ src + n <= dst).
    { apply andb_false_iff in Hov as [?%Z.ltb_ge|?%Z.ltb_ge]; lia. }
    destruct (_ && (n mod 4 =? 0)) eqn:Hal.
    + apply andb_true_iff in Hal as [_ Hq%Z.eqb_eq]. destruct (Hquarter Hq) as (q & Hl & ->).
      by apply (rep_movs_spec 4 q bs s dst src).
    + apply (rep_movs_spec 1 (length bs) bs s dst src); [lia|done..].
Qed.

Lemma rep_stos_spec b k (cnt : nat) : forall s a,
  0 <= b < 256 -> buffer s a (Z.of_nat (k * cnt)) ->
  exists s', rep_stos a (replicate k b) (Z.of_nat cnt) s = Ok tt s' /\
    touches (range a (Z.of_nat (k * cnt))) s s' /\ bytes_at s' a (replicate (k * cnt) b).
Proof.
  induction cnt as [|cnt IH]; intros s a Hb Hw; unfold rep_stos in *; rewrite length_replicate in *.
  { rewrite Nat.mul_0_r. exists s. split; [done|]. split; [apply touches_refl|by intros j x]. }
  rewrite Nat.mul_succ_r, Nat.add_comm in *.
  replace (Z.of_nat (Datatypes.S cnt)) with (Z.of_nat cnt + 1) by lia. rewrite mfor_seqZ_S by lia.
  rewrite Z.mul_0_r, Z.add_0_r. destruct (stn_spec (replicate k b) s a) as (s1 & Hs & Ht & Hc).
  { rewrite length_replicate. intros j Hj. apply Hw. lia. }
  rewrite length_replicate in Ht. rewrite map_u8 in Hc by (by intros x [-> _]%elem_of_replicate).
  rewrite (bind_Ok _ _ _ _ _ Hs). destruct (IH s1 (a + Z.of_nat k) Hb) as (s2 & Hs2 & Ht2 & Hc2).
  { eapply buffer_touches; [done|]. intros j Hj. apply Hw. lia. }
  exists s2. split; [|split].
  - rewrite <- Hs2. apply mfor_ext. intros i s3 _. f_equal. lia.
  - eapply touches_trans; (eapply touches_mono; [|done]); unfold range; intros; lia.
  - rewrite replicate_add. apply bytes_at_app. rewrite length_replicate. split; [|done].
    apply (bytes_at_touches _ s1 s2 _ _ Ht2); [|done]. unfold range. rewrite length_replicate. lia.
Qed.

(** The word that [memset] stores holds four copies of the byte. *)
Lemma memset_word c :
  let b := c .& 0xFF in
  let w := u32 ((b .<< 24) .| (b .<< 16) .| (b .<< 8) .| b) in
  b = u8 c /\ w mod 256 = b /\ w / 256 mod 256 = b /\ w / 65536 mod 256 = b /\ w / 16777216 = b.
Proof.
  intros b. assert (Hb : b = u8 c) by (unfold b; rewrite (land_ones_mod _ 8) by done; done).
  pose proof (u8_range c) as Hr. rewrite <- Hb in Hr. change (2^8) with 256 in Hr. split; [done|]. clearbody b.
  assert (Hall : forallb (fun b =>
      let w := u32 ((b .<< 24) .| (b .<< 16) .| (b .<< 8) .| b) in
      (w mod 256 =? b) && (w / 256 mod 256 =? b) && (w / 65536 mod 256 =? b) && (w / 16777216 =? b))
    (seqZ 0 256) = true) by (vm_compute; reflexivity).
  rewrite forallb_forall in Hall. specialize (Hall b).
  rewrite <- list_elem_of_In, elem_of_seqZ in Hall. specialize (Hall ltac:(lia)).
  rewrite !andb_true_iff, !Z.eqb_eq in Hall. tauto.
Qed.

Lemma memset_spec s v c (n : nat) :
  buffer s v (Z.of_nat n) ->
  exists s', memset v c (Z.of_nat n) s = Ok v s' /\ touches (range v (Z.of_nat n)) s s' /\
    bytes_at s' v (replicate n (u8 c)).
Proof.
  intros Hw. unfold memset. destruct (Z.eqb_spec (Z.of_nat n) 0) as [Hz|Hz].
  { assert (n = 0%nat) as -> by lia. exists s. split; [done|]. split; [apply touches_refl|by intros j x]. }
  pose proof (u8_range c) as Hb. change (2^8) with 256 in Hb. destruct ((v mod 4 =? 0) && (Z.of_nat n mod 4 =? 0)) eqn:Hal.
  - apply andb_true_iff in Hal as [_ Hq%Z.eqb_eq].
    destruct (memset_word c) as (W0 & W1 & W2 & W3 & W4). cbv zeta in *. rewrite W1, W2, W3, W4, W0.
    change [u8 c; u8 c; u8 c; u8 c] with (replicate 4 (u8 c)).
    assert (Hn : n = (4 * Z.to_nat (Z.of_nat n / 4))%nat) by dlia.
    set (q := Z.to_nat (Z.of_nat n / 4)) in *. replace (Z.of_nat n / 4) with (Z.of_nat q) by (unfold q; dlia).
    rewrite Hn in Hw. destruct (rep_stos_spec (u8 c) 4 q s v Hb Hw) as (s' & Hs & Ht & Hc).
    exists s'. rewrite (bind_Ok _ _ _ _ _ Hs), Hn. done.
  - change [u8 c] with (replicate 1 (u8 c)).
    destruct (rep_stos_spec (u8 c) 1 n s v Hb) as (s' & Hs & Ht & Hc); [by rewrite Nat.mul_1_l|].
    rewrite Nat.mul_1_l in *. exists s'. by rewrite (bind_Ok _ _ _ _ _ Hs).
Qed.

(** ** Strings *)

(** A string at address [a]: its characters [bs], none of them null, and the terminator *)
Definition cstr (s : S) (a : Z) (bs : list Z) : Prop := bytes_at s a (bs ++ [0]) /\ 0 ∉ bs.

Lemma cstr_nil s a : cstr s a [] <-> view s a = Some 0.
Proof.
  unfold cstr. cbn [app]. rewrite bytes_at_cons. split; [tauto|]. intros Hv. split; [|apply not_elem_of_nil].
  split; [done|]. by intros k b.
Qed.

Lemma cstr_cons s a b bs : cstr s a (b :: bs) <-> view s a = Some b /\ b <> 0 /\ cstr s (a + 1) bs.
Proof. unfold cstr. cbn [app]. rewrite bytes_at_cons, not_elem_of_cons. naive_solver. Qed.

Lemma cstr_touches X s s' a bs :
  touches X s s' -> (forall k, X k -> ~ range a (Z.of_nat (length bs) + 1) k) -> cstr s a bs -> cstr s' a bs.
Proof.
  intros Ht Hd [Hb Hz]. split; [|done]. apply (bytes_at_touches X s); [done| |done].
  rewrite length_app. cbn [length]. intros k Hk. specialize (Hd k Hk). unfold range in *. lia.
Qed.

Lemma cstr_reads s s' a bs : reads s s' -> cstr s a bs -> cstr s' a bs.
Proof. intros Hr. apply (cstr_touches (fun _ => False)); [done|tauto]. Qed.

Lemma cstr_end s a bs : cstr s a bs -> view s (a + Z.of_nat (length bs)) = Some 0.
Proof. intros [Hb _]. apply Hb. rewrite lookup_app_r, Nat.sub_diag by lia. done. Qed.

(** A string has one value. *)
Lemma cstr_inj s a b1 b2 : cstr s a b1 -> cstr s a b2 -> b1 = b2.
Proof.
  revert a b2. induction b1 as [|x b1 IH]; intros a [|y b2]; rewrite ?cstr_cons, ?cstr_nil; [done|..].
  - intros H1 (H2 & ? & _). congruence.
  - intros (H1 & ? & _) H2. congruence.
  - intros (H1 & _ & C1) (H2 & _ & C2). assert (x = y) as -> by congruence. f_equal. by apply (IH (a + 1)).
Qed.

Lemma strlen_steps bs : forall s a n,
  cstr s a bs -> 0 <= n -> n + Z.of_nat (length bs) < 2^31 ->
  exists s', msteps (length bs + 1) (fun '(s, n) =>
      c ← ldb s; if c =? 0 then mret (inr n) else mret (inl (s + 1, i32 (n + 1)))) (a, n) s =
    Ok (inr (n + Z.of_nat (length bs))) s' /\ reads s s'.
Proof.
  induction bs as [|b bs IH]; intros s a n Hc Hn Hl; cbn [length] in *.
  - apply cstr_nil in Hc. destruct (load s a 0 Hc) as (s1 & Hld & Hr). exists s1. split; [|done].
    apply (msteps_done _ 0). rewrite (bind_Ok _ _ _ _ _ Hld). simpl. by rewrite Z.add_0_r.
  - apply cstr_cons in Hc as (H0 & Hb & Hc). destruct (load s a b H0) as (s1 & Hld & Hr).
    destruct (IH s1 (a + 1) (n + 1)) as (s2 & Hs2 & Hr2); [by eapply cstr_reads|lia|lia|].
    exists s2. split; [|by eapply touches_trans].
    replace (n + Z.of_nat (Datatypes.S (length bs))) with (n + 1 + Z.of_nat (length bs)) by lia.
    apply (msteps_next _ (length bs + 1) _ _ (a + 1, n + 1) s1); [|done].
    rewrite (bind_Ok _ _ _ _ _ Hld). apply Z.eqb_neq in Hb. rewrite Hb. by rewrite i32_small by lia.
Qed.

Lemma strlen_spec bs s a :
  cstr s a bs -> Z.of_nat (length bs) < 2^31 ->
  exists s', strlen a s = Ok (Z.of_nat (length bs)) s' /\ reads s s'.
Proof.
  intros Hc Hl. destruct (strlen_steps bs s a 0 Hc) as (s' & Hs & Hr); [lia|lia|]. exists s'. split; [|done].
  unfold strlen. apply (mloop_ADDRS _ (length bs + 1)); [lia|exact Hs].
Qed.

Lemma strcpy_steps (ret : Z) (bs : list Z) : forall s (d a : Z),
  cstr s a bs -> buffer s d (Z.of_nat (length bs) + 1) ->
  (d + Z.of_nat (length bs) < a \/ a + Z.of_nat (length bs) < d) ->
  exists s', msteps (length bs + 1) (fun '(d, s) =>
      c ← ldb s; stb d c;; if c =? 0 then mret (inr ret) else mret (inl (d + 1, s + 1))) (d, a) s = Ok (inr ret) s' /\
    touches (range d (Z.of_nat (length bs) + 1)) s s' /\ cstr s' d bs.
Proof.
  induction bs as [|b bs IH]; intros s d a Hc Hw Hd; cbn [length] in *.
  - apply cstr_nil in Hc. destruct (load s a 0 Hc) as (s1 & Hld & Hr).
    destruct (store s1 d 0) as (s2 & Hst & Ht & Hv); [eapply touches_wr; [done|apply Hw; lia]|].
    exists s2. split; [|split].
    + apply (msteps_done _ 0). rewrite (bind_Ok _ _ _ _ _ Hld). by rewrite (bind_Ok _ _ _ _ _ Hst).
    + eapply touches_trans; [by apply reads_touches|]. eapply touches_mono; [|done]. unfold range. lia.
    + by apply cstr_nil.
  - apply cstr_cons in Hc as (H0 & Hb & Hc). destruct (load s a b H0) as (s1 & Hld & Hr).
    destruct (store s1 d b) as (s2 & Hst & Ht & Hv); [eapply touches_wr; [done|apply Hw; lia]|].
    pose proof (touches_trans _ _ _ _ (reads_touches (eq d) _ _ Hr) Ht) as Ht2.
    destruct (IH s2 (d + 1) (a + 1)) as (s3 & Hs3 & Ht3 & Hc3).
    { eapply cstr_touches; [exact Ht2| |done]. unfold range. lia. }
    { eapply buffer_touches; [exact Ht2|]. intros k Hk. apply Hw. lia. }
    { lia. }
    exists s3. split; [|split].
    + apply (msteps_next _ (length bs + 1) _ _ (d + 1, a + 1) s2); [|done].
      rewrite (bind_Ok _ _ _ _ _ Hld), (bind_Ok _ _ _ _ _ Hst). apply Z.eqb_neq in Hb. by rewrite Hb.
    + eapply touches_trans; (eapply touches_mono; [|done]); unfold range; intros; lia.
    + apply cstr_cons. split; [|done]. destruct Ht3 as [_ V3]. rewrite V3 by (unfold range; lia).
      rewrite Hv. f_equal. apply u8_small. by apply (view_byte s a).
Qed.

Lemma strcpy_spec bs s d a :
  cstr s a bs -> buffer s d (Z.of_nat (length bs) + 1) -> Z.of_nat (length bs) < 2^31 ->
  (d + Z.of_nat (length bs) < a \/ a + Z.of_nat (length bs) < d) ->
  exists s', strcpy d a s = Ok d s' /\ touches (range d (Z.of_nat (length bs) + 1)) s s' /\ cstr s' d bs.
Proof.
  intros Hc Hw Hl Hd. destruct (strcpy_steps d bs s d a Hc Hw Hd) as (s' & Hs & Ht). exists s'. split; [|done].
  unfold strcpy. apply (mloop_ADDRS _ (length bs + 1)); [lia|exact Hs].
Qed.

(** The order of strings: the difference of the first characters that differ *)
Fixpoint cmp (l1 l2 : list Z) : Z :=
  match l1, l2 with
  | [], [] => 0
  | [], b :: _ => 0 - b
  | a :: _, [] => a - 0
  | a :: l1, b :: l2 => if a =? b then cmp l1 l2 else a - b
  end.

Lemma cmp_zero l1 l2 : 0 ∉ l1 -> 0 ∉ l2 -> cmp l1 l2 = 0 <-> l1 = l2.
Proof.
  revert l2. induction l1 as [|a l1 IH]; intros [|b l2]; cbn [cmp]; rewrite ?not_elem_of_cons; [done|..].
  - intros _ [? _]. split; [lia|done].
  - intros [? _] _. split; [lia|done].
  - intros [? H1] [? H2]. destruct (Z.eqb_spec a b) as [->|Hne]; [rewrite IH by done|]; split; [by intros ->|by intros [= ->]|lia|congruence].
Qed.

Lemma strcmp_steps b1 : forall s b2 (p q : Z),
  cstr s p b1 -> cstr s q b2 ->
  exists s', msteps (length b1 + 1) (fun '(p, q) =>
      a ← ldb p;
      if a =? 0 then b ← ldb q; mret (inr (a - b))
      else b ← ldb q; if a =? b then mret (inl (p + 1, q + 1)) else mret (inr (a - b))) (p, q) s =
    Ok (inr (cmp b1 b2)) s' /\ reads s s'.
Proof.
  induction b1 as [|a b1 IH]; intros s b2 p q Hp Hq; cbn [length].
  - apply cstr_nil in Hp. destruct (load s p 0 Hp) as (s1 & L1 & R1).
    assert (Hv : exists b, view s1 q = Some b /\ cmp [] b2 = 0 - b).
    { rewrite (reads_view s) by done. destruct b2 as [|b b2]; [apply cstr_nil in Hq; eauto|].
      apply cstr_cons in Hq as [? _]. eauto. }
    destruct Hv as (b & Hv & ->). destruct (load s1 q b Hv) as (s2 & L2 & R2).
    exists s2. split; [|by eapply touches_trans]. apply (msteps_done _ 0).
    rewrite (bind_Ok _ _ _ _ _ L1). cbn [Z.eqb]. by rewrite (bind_Ok _ _ _ _ _ L2).
  - apply cstr_cons in Hp as (Hv & Ha & Hp). apply Z.eqb_neq in Ha. destruct (load s p a Hv) as (s1 & L1 & R1).
    destruct b2 as [|b b2].
    + apply cstr_nil in Hq. rewrite <- (reads_view s s1) in Hq by done. destruct (load s1 q 0 Hq) as (s2 & L2 & R2).
      exists s2. split; [|by eapply touches_trans]. apply (msteps_done _ (length b1 + 1)).
      by rewrite (bind_Ok _ _ _ _ _ L1), Ha, (bind_Ok _ _ _ _ _ L2), Ha.
    + apply cstr_cons in Hq as (Hv2 & Hb & Hq). rewrite <- (reads_view s s1) in Hv2 by done.
      destruct (load s1 q b Hv2) as (s2 & L2 & R2). assert (R := touches_trans _ _ _ _ R1 R2). cbn [cmp].
      destruct (a =? b) eqn:Hab.
      * destruct (IH s2 b2 (p + 1) (q + 1)) as (s3 & Hs3 & R3); [by eapply cstr_reads..|].
        exists s3. split; [|by eapply touches_trans].
        apply (msteps_next _ (length b1 + 1) _ _ (p + 1, q + 1) s2); [|done].
        by rewrite (bind_Ok _ _ _ _ _ L1), Ha, (bind_Ok _ _ _ _ _ L2), Hab.
      * exists s2. split; [|done]. apply (msteps_done _ (length b1 + 1)).
        by rewrite (bind_Ok _ _ _ _ _ L1), Ha, (bind_Ok _ _ _ _ _ L2), Hab.
Qed.

Lemma strcmp_spec b1 b2 s p q :
  cstr s p b1 -> cstr s q b2 -> Z.of_nat (length b1) < 2^31 ->
  exists s', strcmp p q s = Ok (cmp b1 b2) s' /\ reads s s'.
Proof.
  intros Hp Hq Hl. destruct (strcmp_steps b1 s b2 p q Hp Hq) as (s' & Hs & Hr). exists s'. split; [|done].
  unfold strcmp. apply (mloop_ADDRS _ (length b1 + 1)); [lia|exact Hs].
Qed.

(** ** Numerals *)

(** The character of a digit *)
Definition dchar (d : Z) : Z := if d <? 10 then 48 + d else 87 + d.
(** The digits of [n > 0] in a base, the most significant first; [f] bounds their number. *)
Fixpoint numeral (base : Z) (f : nat) (n : Z) : list Z :=
  match f with
  | O => []
  | Datatypes.S f => if 0 <? n then numeral base f (n / base) ++ [dchar (n mod base)] else []
  end.

Lemma digit_dchar d : 0 <= d < 36 -> digit (dchar d) = Some d.
Proof.
  intros Hd. unfold dchar, digit. destruct (Z.ltb_spec d 10).
  - rewrite (proj2 (Z.leb_le _ _)), (proj2 (Z.leb_le _ _)) by lia. simpl. f_equal. lia.
  - rewrite (proj2 (Z.leb_le 48 _)), (proj2 (Z.leb_gt _ 57)), (proj2 (Z.leb_le 97 _)), (proj2 (Z.leb_le _ 122)) by lia.
    simpl. f_equal. lia.
Qed.

(** The value of a list of digits after the value [v] *)
Definition value (base v : Z) (ds : list Z) : Z := foldl (fun v d => v * base + d) v ds.

Lemma value_app base v l1 l2 : value base v (l1 ++ l2) = value base (value base v l1) l2.
Proof. apply foldl_app. Qed.

Lemma value_mono base v ds : 1 <= base -> 0 <= v -> (forall d, d ∈ ds -> 0 <= d) -> v <= value base v ds.
Proof.
  intros Hb. revert v. induction ds as [|d ds IH]; intros v Hv Hd; [simpl; lia|].
  cbn [value foldl]. assert (0 <= d) by (apply Hd; left).
  assert (v <= v * base + d) by nia. etransitivity; [done|]. apply IH; [lia|]. intros. apply Hd. by right.
Qed.

Lemma numeral_digits base f n :
  2 <= base <= 36 -> 0 <= n < base ^ Z.of_nat f ->
  exists ds, numeral base f n = map dchar ds /\ (forall d, d ∈ ds -> 0 <= d < base) /\ value base 0 ds = n.
Proof.
  intros Hb. revert n. induction f as [|f IH]; intros n Hn; cbn [numeral].
  { exists []. split; [done|]. split; [by intros ? ?%elem_of_nil|]. simpl in *. lia. }
  destruct (Z.ltb_spec 0 n) as [Hp|]; [|exists []; split; [done|]; split; [by intros ? ?%elem_of_nil|simpl; lia]].
  destruct (IH (n / base)) as (ds & Hds & Hr & Hv).
  { split; [apply Z.div_pos; lia|]. apply Z.div_lt_upper_bound; [lia|].
    rewrite <- Z.pow_succ_r by lia. replace (Z.succ (Z.of_nat f)) with (Z.of_nat (Datatypes.S f)) by lia. lia. }
  exists (ds ++ [n mod base]). split; [by rewrite map_app, Hds|]. split.
  - intros d [Hd|Hd]%elem_of_app; [auto|]. apply list_elem_of_singleton in Hd as ->. apply Z.mod_pos_bound. lia.
  - rewrite value_app, Hv. simpl. pose proof (Z.div_mod n base). lia.
Qed.

Lemma strtol_digits_steps base ds : forall s (a v : Z) c,
  2 <= base <= 36 -> (forall d, d ∈ ds -> 0 <= d < base) ->
  bytes_at s a (map dchar ds ++ [c]) -> digit c = None -> 0 <= v -> value base v ds < 2^31 ->
  exists s', msteps (length ds + 1) (fun '(s, val) =>
      c ← ldb s;
      match digit c with
      | None => mret (inr (val, s))
      | Some dig => if base <=? dig then mret (inr (val, s)) else mret (inl (s + 1, i32 (val * base + dig)))
      end) (a, v) s = Ok (inr (value base v ds, a + Z.of_nat (length ds))) s' /\ reads s s'.
Proof.
  induction ds as [|d ds IH]; intros s a v c Hb Hd Hm Hc Hv Hlt; cbn [length map app] in *; apply bytes_at_cons in Hm as [Hv0 Hm].
  - destruct (load s a c Hv0) as (s1 & L1 & R1). exists s1. split; [|done]. apply (msteps_done _ 0).
    rewrite (bind_Ok _ _ _ _ _ L1), Hc. by rewrite Z.add_0_r.
  - assert (Hd0 : 0 <= d < base) by (apply Hd; left). cbn [value foldl] in *.
    destruct (load s a (dchar d) Hv0) as (s1 & L1 & R1).
    assert (Hge : v * base + d <= value base (v * base + d) ds).
    { apply value_mono; [lia|nia|]. intros x Hx. apply Hd. by right. }
    destruct (IH s1 (a + 1) (v * base + d) c) as (s2 & Hs2 & R2);
      [done|intros; apply Hd; by right|by eapply bytes_at_reads|done|nia|done|].
    exists s2. split; [|by eapply touches_trans].
    replace (a + Z.of_nat (Datatypes.S (length ds))) with (a + 1 + Z.of_nat (length ds)) by lia.
    apply (msteps_next _ (length ds + 1) _ _ (a + 1, v * base + d) s1); [|done].
    rewrite (bind_Ok _ _ _ _ _ L1), digit_dchar by lia. rewrite (proj2 (Z.leb_gt base d)) by lia.
    unfold value in *. by rewrite i32_small by nia.
Qed.

Lemma dchar_head base d : 2 <= base <= 36 -> 0 <= d < base -> dchar d <> 32 /\ dchar d <> 9 /\ dchar d <> 43 /\ dchar d <> 45.
Proof. intros Hb Hd. unfold dchar. destruct (Z.ltb_spec d 10); lia. Qed.

(** [strtol] reads back a numeral that is not preceded by a sign or a prefix. *)
Lemma strtol_spec base d ds s a c :
  2 <= base <= 36 -> base <> 16 \/ d <> 0 -> (forall x, x ∈ d :: ds -> 0 <= x < base) ->
  bytes_at s a (map dchar (d :: ds) ++ [c]) -> digit c = None -> value base 0 (d :: ds) < 2^31 ->
  Z.of_nat (length ds) < 2^31 ->
  exists s', strtol a base s = Ok (value base 0 (d :: ds), a + Z.of_nat (length (d :: ds))) s' /\ reads s s'.
Proof.
  intros Hb H16 Hd Hm Hc Hlt Hlen. assert (Hd0 : 0 <= d < base) by (apply Hd; left).
  destruct (dchar_head base d Hb Hd0) as (N1 & N2 & N3 & N4). apply Z.eqb_neq in N1, N2, N3, N4.
  assert (Hv := Hm). cbn [map app] in Hv. apply bytes_at_cons in Hv as [Hv _].
  destruct (load s a _ Hv) as (s1 & L1 & R1). assert (Hv1 := Hv). rewrite <- (reads_view s s1) in Hv1 by done.
  destruct (load s1 a _ Hv1) as (s2 & L2 & R2). assert (R12 := touches_trans _ _ _ _ R1 R2).
  unfold strtol.
  assert (Hsp : mloop ADDRS (fun p : Z => c ← ldb p; if (c =? 32) || (c =? 9) then mret (inl (p + 1)) else mret (inr p)) a s = Ok a s1).
  { apply (mloop_ADDRS _ 1); [lia|]. apply (msteps_done _ 0). rewrite (bind_Ok _ _ _ _ _ L1), N1, N2. done. }
  rewrite (bind_Ok _ _ _ _ _ Hsp), (bind_Ok _ _ _ _ _ L2), N3, N4.
  rewrite (bind_Ok _ _ s2 (a, false) s2) by done. cbv beta iota.
  assert (Hpre : exists s3, reads s2 s3 /\ (hex ← (if (base =? 0) || (base =? 16) then
             c0 ← ldb a; if c0 =? 48 then c1 ← ldb (a + 1); mret (c1 =? 120) else mret false
           else mret false : M S bool);
    if (hex : bool) then mret (a + 2, 16)
    else if base =? 0 then
      c0 ← ldb a; if c0 =? 48 then mret (a + 1, 8) else mret (a, 10)
    else mret (a, base)) s2 = Ok (a, base) s3).
  { destruct (Z.eqb_spec base 0); [lia|]. destruct (Z.eqb_spec base 16) as [->|]; cbn [orb].
    - destruct H16 as [?|H16]; [done|]. destruct (load s2 a (dchar d)) as (s3 & L3 & R3).
      { by rewrite (reads_view s1). }
      exists s3. split; [done|]. assert (Hz : (dchar d =? 48) = false).
      { apply Z.eqb_neq. unfold dchar. destruct (Z.ltb_spec d 10); lia. }
      unfold mbind at 1 2, M_bind at 1 2. by rewrite L3, Hz.
    - exists s2. split; [apply touches_refl|]. by rewrite (bind_Ok _ _ s2 false s2). }
  destruct Hpre as (s3 & R3 & Hpre). rewrite (bind_Ok _ _ _ _ _ Hpre).
  destruct (strtol_digits_steps base (d :: ds) s3 a 0 c Hb Hd) as (s4 & Hs4 & R4); [|done|lia|done|].
  { eapply bytes_at_reads; [|exact Hm]. by eapply touches_trans. }
  assert (Hdig : strtol_digits a base s3 = Ok (value base 0 (d :: ds), a + Z.of_nat (length (d :: ds))) s4).
  { unfold strtol_digits. apply (mloop_ADDRS _ (length (d :: ds) + 1)); [cbn [length]; lia|exact Hs4]. }
  rewrite (bind_Ok _ _ _ _ _ Hdig). exists s4. split; [done|].
  eapply touches_trans; [exact R12|]. by eapply touches_trans.
Qed.

Lemma numeral_pos base f n : 0 < n -> numeral base (Datatypes.S f) n = numeral base f (n / base) ++ [dchar (n mod base)].
Proof. intros Hn. cbn [numeral]. by rewrite (proj2 (Z.ltb_lt _ _) Hn). Qed.
Lemma numeral_0 base f n : n <= 0 -> numeral base f n = [].
Proof. intros Hn. destruct f; [done|]. cbn [numeral]. by rewrite (proj2 (Z.ltb_ge _ _) Hn). Qed.

Lemma numeral_length base f : forall n, (length (numeral base f n) <= f)%nat.
Proof.
  induction f as [|f IH]; intros n; cbn [numeral]; [done|]. destruct (0 <? n); [|simpl; lia].
  rewrite length_app. specialize (IH (n / base)). simpl. lia.
Qed.

Lemma digit_count_steps f : forall (n k : Z) s,
  0 <= n < 10 ^ Z.of_nat f -> 0 <= k -> k + Z.of_nat f < 2^32 ->
  msteps (f + 1) (fun '(num, count) =>
    if 0 <? num then mret (inl (Z.quot num 10, u32 (count + 1))) else mret (inr count)) (n, k) s =
  Ok (inr (k + Z.of_nat (length (numeral 10 f n)))) s.
Proof.
  induction f as [|f IH]; intros n k s Hn Hk Hl.
  { replace n with 0 by (simpl in Hn; lia). cbn [numeral length]. by rewrite Z.add_0_r. }
  destruct (Z.ltb_spec 0 n) as [Hp|Hz].
  - rewrite numeral_pos by done. rewrite length_app. cbn [length].
    replace (Datatypes.S f + 1)%nat with (1 + (f + 1))%nat by lia.
    eapply (msteps_next _ (f + 1)); [rewrite (proj2 (Z.ltb_lt _ _) Hp); reflexivity|].
    rewrite Z.quot_div_nonneg, u32_small by lia. rewrite IH; [do 2 f_equal; lia| |lia|lia].
    split; [dlia|]. apply Z.div_lt_upper_bound; [lia|]. rewrite <- Z.pow_succ_r by lia.
    replace (Z.succ (Z.of_nat f)) with (Z.of_nat (Datatypes.S f)) by lia. lia.
  - rewrite numeral_0 by done. cbn [length]. apply (msteps_done _ (f + 1)). rewrite (proj2 (Z.ltb_ge _ _) Hz).
    rewrite Z.add_0_r. reflexivity.
Qed.

Lemma itoa_steps f : forall (n a : Z) s,
  0 <= n < 10 ^ Z.of_nat f -> buffer s a (Z.of_nat (length (numeral 10 f n))) ->
  exists s', msteps (f + 1) (fun '(num, index) =>
      if num =? 0 then mret (inr tt)
      else stb (a + index) (u8 (Z.rem num 10 + 48));; mret (inl (Z.quot num 10, index - 1)))
      (n, Z.of_nat (length (numeral 10 f n)) - 1) s = Ok (inr tt) s' /\
    touches (range a (Z.of_nat (length (numeral 10 f n)))) s s' /\ bytes_at s' a (numeral 10 f n).
Proof.
  induction f as [|f IH]; intros n a s Hn Hw.
  { exists s. replace n with 0 by (simpl in Hn; lia). split; [done|]. split; [apply touches_refl|by intros k b]. }
  destruct (Z.ltb_spec 0 n) as [Hp|Hz].
  - rewrite numeral_pos in * by done. rewrite length_app in *. cbn [length] in *.
    set (ds := numeral 10 f (n / 10)) in *.
    assert (Hc : u8 (Z.rem n 10 + 48) = dchar (n mod 10)).
    { rewrite Z.rem_mod_nonneg by lia. unfold dchar. rewrite (proj2 (Z.ltb_lt _ _)) by dlia.
      rewrite u8_small by dlia. lia. }
    destruct (store s (a + Z.of_nat (length ds)) (dchar (n mod 10))) as (s1 & Hs & Ht & Hv); [apply Hw; lia|].
    destruct (IH (n / 10) a s1) as (s2 & Hs2 & Ht2 & Hb2).
    { split; [dlia|]. apply Z.div_lt_upper_bound; [lia|]. rewrite <- Z.pow_succ_r by lia.
      replace (Z.succ (Z.of_nat f)) with (Z.of_nat (Datatypes.S f)) by lia. lia. }
    { eapply buffer_touches; [done|]. intros k Hk. apply Hw. fold ds in Hk. lia. }
    fold ds in Hs2, Ht2, Hb2. exists s2. split; [|split].
    + replace (Datatypes.S f + 1)%nat with (1 + (f + 1))%nat by lia.
      eapply (msteps_next _ (f + 1)); [|exact Hs2]. destruct (Z.eqb_spec n 0); [lia|].
      replace (Z.of_nat (length ds + 1) - 1) with (Z.of_nat (length ds)) by lia.
      rewrite Hc. rewrite (bind_Ok _ _ _ _ _ Hs). by rewrite Z.quot_div_nonneg by lia.
    + eapply touches_trans; (eapply touches_mono; [|done]); unfold range; intros; lia.
    + apply bytes_at_app. split; [done|]. apply bytes_at_cons. split; [|by intros k b].
      destruct Ht2 as [_ V2]. rewrite V2 by (unfold range; lia). rewrite Hv. f_equal.
      apply u8_small. unfold dchar. destruct (_ <? 10) eqn:?; dlia.
  - rewrite numeral_0 by done. cbn [length]. exists s. split; [|split; [apply touches_refl|by intros k b]].
    apply (msteps_done _ (f + 1)). replace n with 0 by lia. reflexivity.
Qed.

(** [itoa] on a number that is not negative *)
Lemma itoa_spec n s a :
  0 <= n < 2^31 -> buffer s a 11 ->
  exists s' d ds, itoa n a s = Ok tt s' /\ touches (range a 11) s s' /\
    bytes_at s' a (map dchar (d :: ds) ++ [0]) /\ (forall x, x ∈ d :: ds -> 0 <= x < 10) /\
    value 10 0 (d :: ds) = n /\ (length (d :: ds) <= 10)%nat.
Proof.
  intros Hn Hw. unfold itoa, digit_count. destruct (Z.eqb_spec n 0) as [->|Hnz].
  - destruct (store s a 48) as (s1 & Hs1 & Ht1 & Hv1); [apply Hw; lia|].
    destruct (store s1 (a + 1) 0) as (s2 & Hs2 & Ht2 & Hv2); [eapply touches_wr; [done|apply Hw; lia]|].
    exists s2, 0, []. rewrite (bind_Ok _ _ s 1 s) by done. change (i32 1) with 1. cbn [andb Z.eqb Pos.eqb].
    rewrite (bind_Ok _ _ _ _ _ Hs1). split; [done|]. split; [|split; [|split; [|split; [done|cbn [length]; lia]]]].
    + eapply touches_trans; (eapply touches_mono; [|done]); unfold range; intros; lia.
    + cbn [map app]. rewrite !bytes_at_cons. split; [|split; [done|by intros k b]].
      destruct Ht2 as [_ V2]. by rewrite V2 by lia.
    + by intros x ->%list_elem_of_singleton.
  - assert (Hb : 0 <= n < 10 ^ Z.of_nat 10) by (change (10 ^ Z.of_nat 10) with 10000000000; lia).
    destruct (numeral_digits 10 10 n ltac:(lia) Hb) as (ds & Hds & Hr & Hval).
    destruct ds as [|d ds]; [simpl in Hval; lia|].
    assert (Hlen : (length (numeral 10 10 n) <= 10)%nat) by apply numeral_length.
    assert (Hdc : mloop 33 (fun '(num, count) =>
      if 0 <? num then mret (inl (Z.quot num 10, u32 (count + 1))) else mret (inr count)) (n, 0) s =
      Ok (Z.of_nat (length (numeral 10 10 n))) s).
    { apply (msteps_mloop _ 11); [lia|]. exact (digit_count_steps 10 n 0 s Hb ltac:(lia) ltac:(lia)). }
    rewrite (bind_Ok _ _ _ _ _ Hdc). rewrite i32_small by lia. cbn [andb].
    destruct (itoa_steps 10 n a s Hb) as (s1 & Hs1 & Ht1 & Hb1); [intros k Hk; apply Hw; lia|].
    rewrite (bind_Ok _ _ _ _ _ (msteps_mloop _ 11 33 _ _ _ _ ltac:(lia) Hs1)).
    destruct (store s1 (a + Z.of_nat (length (numeral 10 10 n))) 0) as (s2 & Hs2 & Ht2 & Hv2).
    { eapply touches_wr; [done|]. apply Hw. lia. }
    exists s2, d, ds. split; [done|]. split; [|split; [|split; [done|split; [done|]]]].
    + eapply touches_trans; (eapply touches_mono; [|done]); unfold range; intros; lia.
    + rewrite <- Hds. apply bytes_at_app. split; [|apply bytes_at_cons; split; [done|by intros k b]].
      apply (bytes_at_touches _ s1 s2 _ _ Ht2); [|done]. unfold range. lia.
    + rewrite Hds, length_map in Hlen. done.
Qed.

(** ** Bounded copies *)

Lemma strlcpy_steps bs : forall s (d a n : Z),
  cstr s a bs -> 0 < n -> buffer s d n -> (d + n <= a \/ a + Z.of_nat (length bs) < d) ->
  let c := take (Z.to_nat (n - 1)) bs in
  exists s', msteps (length bs + 1) (fun '(d, s, size) =>
      let size := size - 1 in
      if 0 <? size then
        c ← ldb s;
        if c =? 0 then mret (inr d)
        else c ← ldb s; stb d c;; mret (inl (d + 1, s + 1, size))
      else mret (inr d)) (d, a, n) s = Ok (inr (d + Z.of_nat (length c))) s' /\
    touches (range d (Z.of_nat (length c))) s s' /\ bytes_at s' d c.
Proof.
  induction bs as [|b bs IH]; intros s d a n Hc Hn Hw Hd c; unfold c; clear c.
  { rewrite take_nil. cbn [length]. rewrite Z.add_0_r. apply cstr_nil in Hc.
    destruct (load s a 0 Hc) as (s1 & Hl & Hr). destruct (Z.ltb_spec 0 (n - 1)) as [Hp|Hp].
    - exists s1. split; [|split; [by apply reads_touches|by intros k x]]. apply msteps_done.
      rewrite (proj2 (Z.ltb_lt _ _) Hp). by rewrite (bind_Ok _ _ _ _ _ Hl).
    - exists s. split; [|split; [apply touches_refl|by intros k x]]. apply msteps_done.
      by rewrite (proj2 (Z.ltb_ge _ _) Hp). }
  destruct (Z.ltb_spec 0 (n - 1)) as [Hp|Hp].
  2:{ replace (Z.to_nat (n - 1)) with 0%nat by lia. rewrite take_0. cbn [length]. rewrite Z.add_0_r.
      exists s. split; [|split; [apply touches_refl|by intros k x]].
      apply (msteps_done _ (length bs + 1)). by rewrite (proj2 (Z.ltb_ge _ _) Hp). }
  apply cstr_cons in Hc as (Hb & Hnz & Hc). cbn [length] in Hd.
  destruct (load s a b Hb) as (s1 & Hl1 & Hr1).
  assert (Hb1 : view s1 a = Some b) by (by rewrite (reads_view _ _ _ Hr1)).
  destruct (load s1 a b Hb1) as (s2 & Hl2 & Hr2).
  assert (Hr : reads s s2) by (eapply touches_trans; done).
  destruct (store s2 d b) as (s3 & Hs3 & Ht3 & Hv3); [eapply touches_wr; [exact Hr|apply Hw; lia]|].
  assert (Ht : touches (eq d) s s3) by (eapply touches_trans; [by apply reads_touches|done]).
  destruct (IH s3 (d + 1) (a + 1) (n - 1)) as (s4 & Hs4 & Ht4 & Hb4).
  { eapply cstr_touches; [exact Ht| |done]. unfold range. intros; lia. }
  { lia. }
  { eapply buffer_touches; [exact Ht|]. intros k Hk. apply Hw. lia. }
  { lia. }
  replace (Z.to_nat (n - 1)) with (Datatypes.S (Z.to_nat (n - 1 - 1))) by lia. cbn [take length].
  exists s4. split; [|split].
  - replace (Datatypes.S (length bs) + 1)%nat with (1 + (length bs + 1))%nat by lia.
    eapply (msteps_next _ (length bs + 1)).
    + cbv beta iota zeta. rewrite (proj2 (Z.ltb_lt _ _) Hp), (bind_Ok _ _ _ _ _ Hl1).
      rewrite (proj2 (Z.eqb_neq _ _) Hnz), (bind_Ok _ _ _ _ _ Hl2). by rewrite (bind_Ok _ _ _ _ _ Hs3).
    + etransitivity; [exact Hs4|]. do 2 f_equal. lia.
  - eapply touches_trans; (eapply touches_mono; [|done]); unfold range; intros; lia.
  - apply bytes_at_cons. split; [|done]. destruct Ht4 as [_ V4]. rewrite V4 by (unfold range; lia).
    rewrite Hv3. f_equal. apply u8_small. by eapply view_byte.
Qed.

Lemma strlcpy_spec bs s d a n :
  cstr s a bs -> 0 < n -> buffer s d n -> (d + n <= a \/ a + Z.of_nat (length bs) < d) ->
  Z.of_nat (length bs) < 2^31 ->
  let c := take (Z.to_nat (n - 1)) bs in
  exists s', strlcpy d a n s = Ok (Z.of_nat (length c)) s' /\ touches (range d n) s s' /\ cstr s' d c.
Proof.
  intros Hc Hn Hw Hd Hl c. unfold strlcpy. rewrite (proj2 (Z.ltb_lt _ _) Hn).
  destruct (strlcpy_steps bs s d a n Hc Hn Hw Hd) as (s1 & Hs1 & Ht1 & Hb1). fold c in Hs1, Ht1, Hb1.
  assert (Hlc : Z.of_nat (length c) < n) by (unfold c; rewrite length_take; lia).
  rewrite (bind_Ok _ _ _ _ _ (mloop_ADDRS _ (length bs + 1) _ _ _ _ ltac:(lia) Hs1)).
  destruct (store s1 (d + Z.of_nat (length c)) 0) as (s2 & Hs2 & Ht2 & Hv2).
  { eapply touches_wr; [done|]. apply Hw. lia. }
  rewrite (bind_Ok _ _ _ _ _ Hs2). exists s2. split; [|split; [|split]].
  - unfold mret, M_ret. f_equal. lia.
  - eapply touches_trans; (eapply touches_mono; [|done]); unfold range; intros; lia.
  - apply bytes_at_app. split; [|apply bytes_at_cons; split; [done|by intros k b]].
    eapply bytes_at_touches; [done| |done]. unfold range. lia.
  - intros Hin. apply (proj2 Hc). unfold c in Hin. rewrite <- (take_drop (Z.to_nat (n - 1)) bs). apply elem_of_app. by left.
Qed.

(** ** The properties *)

(** C38. [memmove] copies a block to a block it may overlap in either direction, whatever the
    alignment decides about the width and the direction of the copy: the destination then holds
    the bytes the source held before, and no other byte has changed. *)
Theorem memmove_correct bs s dst src :
  bytes_at s src bs -> buffer s dst (Z.of_nat (length bs)) ->
  0 <= src -> src + Z.of_nat (length bs) < 2^32 -> 0 <= dst -> dst + Z.of_nat (length bs) < 2^32 ->
  exists s', memmove dst src (Z.of_nat (length bs)) s = Ok dst s' /\
    bytes_at s' dst bs /\ touches (range dst (Z.of_nat (length bs))) s s'.
Proof.
  intros Hb Hw H1 H2 H3 H4. destruct (memmove_spec bs s dst src Hb Hw H1 H2 H3 H4) as (s' & Hs & Ht & Hb').
  by exists s'.
Qed.

(** C39. [strlcpy] into a buffer of [n] bytes copies as much of the string as fits with its
    terminator, returns the length of the copy and writes nothing outside the buffer; when the
    whole string fits, [strcmp] then finds the two equal, and only then. *)
Theorem strlcpy_correct bs s d a n :
  cstr s a bs -> 0 < n -> buffer s d n -> (d + n <= a \/ a + Z.of_nat (length bs) < d) ->
  Z.of_nat (length bs) < 2^31 ->
  let c := take (Z.to_nat (n - 1)) bs in
  exists s1 s2 r, strlcpy d a n s = Ok (Z.of_nat (length c)) s1 /\ touches (range d n) s s1 /\ cstr s1 d c /\
    strcmp d a s1 = Ok r s2 /\ (r = 0 <-> Z.of_nat (length bs) < n).
Proof.
  intros Hc Hn Hw Hd Hl c. destruct (strlcpy_spec bs s d a n Hc Hn Hw Hd Hl) as (s1 & Hs1 & Ht1 & Hc1).
  fold c in Hs1, Hc1. assert (Hlc : (length c <= length bs)%nat) by (unfold c; rewrite length_take; lia).
  assert (Hc2 : cstr s1 a bs) by (eapply cstr_touches; [done| |done]; unfold range; lia).
  destruct (strcmp_spec c bs s1 d a Hc1 Hc2) as (s2 & Hs2 & _); [lia|].
  exists s1, s2, (cmp c bs). do 4 (split; [done|]). rewrite cmp_zero by (apply Hc1 || apply Hc2). split.
  - intros Heq. apply (f_equal length) in Heq. unfold c in Heq. rewrite length_take in Heq. lia.
  - intros Hlt. unfold c. apply take_ge. lia.
Qed.

(** [strtol] reads back what [itoa] wrote, for every int that is not negative; [itoa] stays
    within eleven bytes, and [strtol] stops at the terminator. *)
Theorem itoa_strtol n s a :
  0 <= n < 2^31 -> buffer s a 11 ->
  exists s1 s2 len, itoa n a s = Ok tt s1 /\ touches (range a 11) s s1 /\
    view s1 (a + len) = Some 0 /\ strtol a 10 s1 = Ok (n, a + len) s2 /\ reads s1 s2.
Proof.
  intros Hn Hw. destruct (itoa_spec n s a Hn Hw) as (s1 & d & ds & Hs1 & Ht1 & Hb & Hr & Hv & Hlen).
  cbn [length] in Hlen. destruct (strtol_spec 10 d ds s1 a 0) as (s2 & Hs2 & Hr2); [lia|left; lia|done|done|done|lia|lia|].
  rewrite Hv in Hs2. exists s1, s2, (Z.of_nat (length (d :: ds))). do 2 (split; [done|]). split; [|done].
  apply bytes_at_app in Hb as [_ Hb]. rewrite length_map in Hb. by apply bytes_at_cons in Hb as [Hb _].
Qed.
End thms.

(** ** Witnesses, in a memory of forty bytes *)

Definition flat_ex : flat := list_to_map (zip (seqZ 100 40) ([72; 105; 33; 0] ++ replicate 36 0)).

Lemma flat_ex_view : forall k b, ([72; 105; 33; 0] ++ replicate 36 0) !! k = Some b -> flat_view flat_ex (100 + Z.of_nat k) = Some b.
Proof.
  intros k b Hk. assert (Hlt : (k < 40)%nat) by (apply lookup_lt_Some in Hk; exact Hk).
  do 40 (destruct k as [|k]; [revert Hk; vm_compute; intros [= <-]; reflexivity|]). lia.
Qed.

Lemma flat_ex_buffer a n : 100 <= a -> a + n <= 140 -> buffer flat_ex a n.
Proof.
  intros H1 H2 k Hk. simpl. destruct (flat_ex !! k) as [x|] eqn:Hx; [eauto|].
  destruct (lookup_lt_is_Some_2 ([72; 105; 33; 0] ++ replicate 36 0) (Z.to_nat (k - 100))) as [b Hb]; [simpl; lia|].
  pose proof (flat_ex_view _ _ Hb) as Hv. unfold flat_view in Hv. replace (100 + Z.of_nat (Z.to_nat (k - 100))) with k in Hv by lia.
  rewrite Hx in Hv. discriminate.
Qed.

Lemma flat_ex_cstr : cstr flat_ex 100 [72; 105; 33].
Proof.
  split; [|set_solver]. intros k b Hk. apply flat_ex_view. exact (lookup_app_l_Some _ (replicate 36 0) _ _ Hk).
Qed.

Lemma memmove_correct_witness :
  exists s', memmove 101 100 4 flat_ex = Ok 101 s' /\ bytes_at s' 101 [72; 105; 33; 0] /\ touches (range 101 4) flat_ex s'.
Proof.
  apply (memmove_correct [72; 105; 33; 0] flat_ex 101 100); [apply flat_ex_cstr| |lia|simpl; lia|lia|simpl; lia].
  apply flat_ex_buffer; simpl; lia.
Defined.

Lemma strlcpy_correct_witness :
  exists s1 s2 r, strlcpy 110 100 3 flat_ex = Ok 2 s1 /\ touches (range 110 3) flat_ex s1 /\ cstr s1 110 [72; 105] /\
    strcmp 110 100 s1 = Ok r s2 /\ (r = 0 <-> 3 < 3).
Proof.
  apply (strlcpy_correct [72; 105; 33] flat_ex 110 100 3); [apply flat_ex_cstr|lia|apply flat_ex_buffer; lia|simpl; lia|simpl; lia].
Defined.

Lemma itoa_strtol_witness :
  exists s1 s2 len, itoa 2147483647 110 flat_ex = Ok tt s1 /\ touches (range 110 11) flat_ex s1 /\
    view s1 (110 + len) = Some 0 /\ strtol 110 10 s1 = Ok (2147483647, 110 + len) s2 /\ reads s1 s2.
Proof. apply (itoa_strtol 2147483647 flat_ex 110); [lia|apply flat_ex_buffer; lia]. Defined.

(** A negative number has no digits for [digit_count], and [itoa] stores a digit in front of its
    buffer. *)
Lemma itoa_negative : exists s', itoa (-5) 110 flat_ex = Ok tt s' /\ flat_ex !! 109 = Some 0 /\ s' !! 109 = Some 43.
Proof. eexists. split; [vm_compute; reflexivity|]. split; reflexivity. Qed.
