(* ===== verification/Fsipc.v ===== *)
(** * Fsipc: what programs and the file server share ([inc/fs.h], [inc/fd.h], [inc/lib.h])

    The requests of the file server and the layout of their arguments, the flags of [open], and the
    layout of a file descriptor. *)

From S2P Require Import Prelude.

Definition MAXNAMELEN : Z := 128.
Definition MAXPATHLEN : Z := 1024.
#[export] Hint Unfold MAXNAMELEN MAXPATHLEN : cconst.

Definition FSREQ_OPEN : Z := 1.
Definition FSREQ_SET_SIZE : Z := 2.
Definition FSREQ_READ : Z := 3.
Definition FSREQ_WRITE : Z := 4.
Definition FSREQ_STAT : Z := 5.
Definition FSREQ_FLUSH : Z := 6.
Definition FSREQ_REMOVE : Z := 7.
Definition FSREQ_SYNC : Z := 8.

Definition O_RDONLY : Z := 0x0000.
Definition O_WRONLY : Z := 0x0001.
Definition O_ACCMODE : Z := 0x0003.
Definition O_CREAT : Z := 0x0100.
Definition O_TRUNC : Z := 0x0200.
Definition O_EXCL : Z := 0x0400.

(** struct Fd *)
Definition fd_dev_id (fd : Z) : Z := fd.
Definition fd_offset (fd : Z) : Z := fd + 4.
Definition fd_omode (fd : Z) : Z := fd + 8.
Definition fd_file_id (fd : Z) : Z := fd + 12.
(** devfile.dev_id, the character f *)
Definition devfile_id : Z := 102.

(** union Fsipc *)
Definition req_path (req : Z) : Z := req.
Definition req_omode (req : Z) : Z := req + MAXPATHLEN.
Definition req_fileid (req : Z) : Z := req.
Definition req_size (req : Z) : Z := req + 4.
Definition req_n (req : Z) : Z := req + 4.
Definition req_buf (req : Z) : Z := req + 8.
Definition ret_buf (req : Z) : Z := req.
Definition ret_name (req : Z) : Z := req.
Definition ret_size (req : Z) : Z := req + MAXNAMELEN.
Definition ret_isdir (req : Z) : Z := req + MAXNAMELEN + 4.
