(* ===== verification/Ide.v ===== *)
(** * Ide: the state of the file server and its disk driver ([fs/ide.c])

    The server runs as an environment of its own.  [fpages] is its address space, a page per
    virtual page number with the accessed and dirty bits of its page table entry and the
    reference count of its physical page; [disks] are the bytes of the two drives; [ctl] is the
    drive controller as the ports 0x1F0 to 0x1F7 show it.  [answers] are the kernel's answers
    to the page allocations to come, and the controller's [id_status] the values of the status
    port to come; when a list is used up, allocation succeeds and the drive is ready.  The
    system calls are those of [Syscall] as the server sees them in its own address space. *)

From S2P Require Import Prelude Layout UMonad Str.

Definition SECTSIZE : Z := 512.
Definition BLKSIZE : Z := PGSIZE.
Definition BLKSECTS : Z := BLKSIZE / SECTSIZE.
Definition DISKMAP : Z := 0x10000000.
Definition DISKSIZE : Z := 0xC0000000.
#[export] Hint Unfold SECTSIZE BLKSIZE BLKSECTS DISKMAP DISKSIZE : cconst.

(** ** State *)

Record page := mkpage {
  pg_data : gmap Z Z;  (* bytes by offset; a missing one is zero *)
  pg_w : bool;         (* PTE_W *)
  pg_dirty : bool;     (* PTE_D *)
  pg_acc : bool;       (* PTE_A *)
  pg_ref : Z;          (* pp_ref of the physical page *)
}.

Record ide := mkide {
  id_cnt : Z;    (* 0x1F2 *)
  id_sec0 : Z;   (* 0x1F3 *)
  id_sec1 : Z;   (* 0x1F4 *)
  id_sec2 : Z;   (* 0x1F5 *)
  id_dev : Z;    (* 0x1F6 *)
  id_next : Z;   (* the sector the data port transfers next *)
  id_left : Z;   (* sectors left of the command *)
  id_write : bool;
  id_status : list Z;  (* 0x1F7, the reads to come *)
}.

Record OpenFile := mkOpenFile {
  o_fileid : Z;
  o_file : Z;
  o_mode : Z;
  o_fd : Z;
}.

Record fs := mkfs {
  fpages : gmap Z page;
  disks : gmap (Z * Z) Z;
  ctl : ide;
  diskno : Z;
  super : Z;
  bitmap : Z;
  opentab : list OpenFile;
  answers : list bool;
  out : list string;  (* what cprintf was called with, newest first *)
}.

Definition set_fpages v s := mkfs v (disks s) (ctl s) (diskno s) (super s) (bitmap s) (opentab s) (answers s) (out s).
Definition set_disks v s := mkfs (fpages s) v (ctl s) (diskno s) (super s) (bitmap s) (opentab s) (answers s) (out s).
Definition set_ctl v s := mkfs (fpages s) (disks s) v (diskno s) (super s) (bitmap s) (opentab s) (answers s) (out s).
Definition set_diskno v s := mkfs (fpages s) (disks s) (ctl s) v (super s) (bitmap s) (opentab s) (answers s) (out s).
Definition set_super v s := mkfs (fpages s) (disks s) (ctl s) (diskno s) v (bitmap s) (opentab s) (answers s) (out s).
Definition set_bitmap v s := mkfs (fpages s) (disks s) (ctl s) (diskno s) (super s) v (opentab s) (answers s) (out s).
Definition set_opentab v s := mkfs (fpages s) (disks s) (ctl s) (diskno s) (super s) (bitmap s) v (answers s) (out s).
Definition set_answers v s := mkfs (fpages s) (disks s) (ctl s) (diskno s) (super s) (bitmap s) (opentab s) v (out s).
Definition set_out v s := mkfs (fpages s) (disks s) (ctl s) (diskno s) (super s) (bitmap s) (opentab s) (answers s) v.

Definition cprintf (msg : string) : M fs unit := mmod (fun s => set_out (msg :: out s) s).

(** ** Memory *)

Definition vpn (a : Z) : Z := a / 4096.
Definition off (a : Z) : Z := a mod 4096.
Definition is_mapped (s : fs) (a : Z) : bool := bool_decide (is_Some (fpages s !! vpn a)).

Definition pg_get (p : page) (o : Z) : Z := u8 (default 0 (pg_data p !! o)).
Definition touch_r (p : page) : page := mkpage (pg_data p) (pg_w p) (pg_dirty p) true (pg_ref p).
Definition touch_w (o b : Z) (p : page) : page := mkpage (<[o := u8 b]> (pg_data p)) (pg_w p) true true (pg_ref p).

(** An access of the processor: where the page is not there, or not writable, the page fault
    handler [fault] runs and the instruction is tried again. *)
Section access.
Context (fault : Z -> M fs unit).

Definition try_load (a : Z) : M fs (option Z) := fun s =>
  match fpages s !! vpn a with
  | Some p => Ok (Some (pg_get p (off a))) (set_fpages (<[vpn a := touch_r p]> (fpages s)) s)
  | None => Ok None s
  end.
Definition try_store (a b : Z) : M fs bool := fun s =>
  match fpages s !! vpn a with
  | Some p => if pg_w p then Ok true (set_fpages (<[vpn a := touch_w (off a) b p]> (fpages s)) s) else Ok false s
  | None => Ok false s
  end.

Definition fs_ldb (a : Z) : M fs Z :=
  r ← try_load a;
  match r with
  | Some b => mret b
  | None => fault a;; r ← try_load a; match r with Some b => mret b | None => wrong end
  end.
Definition fs_stb (a b : Z) : M fs unit :=
  r ← try_store a b;
  if r : bool then mret tt
  else fault a;; r ← try_store a b; if r : bool then mret tt else wrong.
Definition fs_mem_with : Mem fs := {| ldb := fs_ldb; stb := fs_stb |}.
End access.

(** ** System calls on the server's own address space *)

Definition fs_page_alloc (va : Z) : M fs Z := fun s =>
  match answers s with
  | false :: l => Ok (- E_NO_MEM) (set_answers l s)
  | l => Ok 0 (set_fpages (<[vpn va := mkpage ∅ true false false 1]> (fpages s)) (set_answers (tail l) s))
  end.

(** sys_page_map(0, va, 0, va, uvpt[PGNUM(va)] & PTE_SYSCALL): the entry is written anew,
    without the accessed and dirty bits. *)
Definition fs_page_remap (va : Z) : M fs Z := fun s =>
  match fpages s !! vpn va with
  | Some p => Ok 0 (set_fpages (<[vpn va := mkpage (pg_data p) (pg_w p) false false (pg_ref p)]> (fpages s)) s)
  | None => Ok (- E_INVAL) s
  end.

Definition fs_page_unmap (va : Z) : M fs Z := fun s => Ok 0 (set_fpages (delete (vpn va) (fpages s)) s).

(** ** The controller *)

Definition IDE_BSY : Z := 0x80.
Definition IDE_DRDY : Z := 0x40.
Definition IDE_DF : Z := 0x20.
Definition IDE_ERR : Z := 0x01.

Definition lba (c : ide) : Z := id_sec0 c + 256 * id_sec1 c + 65536 * id_sec2 c + 16777216 * (id_dev c mod 16).
Definition drive (c : ide) : Z := id_dev c / 16 mod 2.

Definition ide_outb (port v : Z) (c : ide) : ide :=
  let v := u8 v in
  if port =? 0x1F2 then mkide v (id_sec0 c) (id_sec1 c) (id_sec2 c) (id_dev c) (id_next c) (id_left c) (id_write c) (id_status c)
  else if port =? 0x1F3 then mkide (id_cnt c) v (id_sec1 c) (id_sec2 c) (id_dev c) (id_next c) (id_left c) (id_write c) (id_status c)
  else if port =? 0x1F4 then mkide (id_cnt c) (id_sec0 c) v (id_sec2 c) (id_dev c) (id_next c) (id_left c) (id_write c) (id_status c)
  else if port =? 0x1F5 then mkide (id_cnt c) (id_sec0 c) (id_sec1 c) v (id_dev c) (id_next c) (id_left c) (id_write c) (id_status c)
  else if port =? 0x1F6 then mkide (id_cnt c) (id_sec0 c) (id_sec1 c) (id_sec2 c) v (id_next c) (id_left c) (id_write c) (id_status c)
  else if port =? 0x1F7 then
    mkide (id_cnt c) (id_sec0 c) (id_sec1 c) (id_sec2 c) (id_dev c)
      (lba c) (if id_cnt c =? 0 then 256 else id_cnt c) (v =? 0x30) (id_status c)
  else c.
Definition set_status (l : list Z) (c : ide) : ide :=
  mkide (id_cnt c) (id_sec0 c) (id_sec1 c) (id_sec2 c) (id_dev c) (id_next c) (id_left c) (id_write c) l.
(** One sector has gone through the data port. *)
Definition advance (c : ide) : ide :=
  mkide (id_cnt c) (id_sec0 c) (id_sec1 c) (id_sec2 c) (id_dev c) (id_next c + 1) (id_left c - 1) (id_write c) (id_status c).

Definition out_port (port v : Z) : M fs unit := mmod (fun s => set_ctl (ide_outb port v (ctl s)) s).
Definition in_status : M fs Z := fun s =>
  match id_status (ctl s) with
  | [] => Ok IDE_DRDY s
  | r :: l => Ok r (set_ctl (set_status l (ctl s)) s)
  end.

Definition dbyte (s : fs) (d a : Z) : Z := u8 (default 0 (disks s !! (d, a))).

(** ** The driver *)

Section ide.
Context `{Mem fs}.

(** insl(0x1F0, dst, SECTSIZE/4) and outsl(0x1F0, src, SECTSIZE/4): one sector *)
Definition insl (dst : Z) : M fs unit :=
  c ← mget ctl;
  if id_write c || (id_left c <=? 0) then wrong
  else
    mfor (seqZ 0 SECTSIZE) (fun j =>
      b ← mget (fun s => dbyte s (drive c) (id_next c * SECTSIZE + j)); stb (dst + j) b);;
    mmod (fun s => set_ctl (advance (ctl s)) s).
Definition outsl (src : Z) : M fs unit :=
  c ← mget ctl;
  if negb (id_write c) || (id_left c <=? 0) then wrong
  else
    mfor (seqZ 0 SECTSIZE) (fun j =>
      b ← ldb (src + j);
      mmod (fun s => set_disks (<[(drive c, id_next c * SECTSIZE + j) := b]> (disks s)) s));;
    mmod (fun s => set_ctl (advance (ctl s)) s).

(** The loop ends with the first value of the port that shows a drive that is ready. *)
Fixpoint poll (l : list Z) : Z * list Z :=
  match l with
  | [] => (IDE_DRDY, [])
  | r :: l => if r .& (IDE_BSY .| IDE_DRDY) =? IDE_DRDY then (r, l) else poll l
  end.
Definition ide_wait_ready (check_error : bool) : M fs Z := fun s =>
  let '(r, l) := poll (id_status (ctl s)) in
  Ok (if check_error && truth (r .& (IDE_DF .| IDE_ERR)) then -1 else 0) (set_ctl (set_status l (ctl s)) s).

Fixpoint probe (n : nat) : M fs bool :=
  match n with
  | O => mret false
  | Datatypes.S n => r ← in_status; if truth (r .& (IDE_BSY .| IDE_DF .| IDE_ERR)) then probe n else mret true
  end.
Definition ide_probe_disk1 : M fs bool :=
  ide_wait_ready false;;
  out_port 0x1F6 (0xE0 .| (1 .<< 4));;
  r ← probe 1000;
  out_port 0x1F6 (0xE0 .| (0 .<< 4));;
  cprintf "Device 1 presence";;
  mret r.

Definition ide_set_disk (d : Z) : M fs unit :=
  if negb (d =? 0) && negb (d =? 1) then abort else mmod (set_diskno d).

Definition ide_command (secno nsecs cmd : Z) : M fs unit :=
  ide_wait_ready false;;
  out_port 0x1F2 nsecs;;
  out_port 0x1F3 (secno .& 0xFF);;
  out_port 0x1F4 ((secno .>> 8) .& 0xFF);;
  out_port 0x1F5 ((secno .>> 16) .& 0xFF);;
  d ← mget diskno;
  out_port 0x1F6 (0xE0 .| ((d .& 1) .<< 4) .| ((secno .>> 24) .& 0x0F));;
  out_port 0x1F7 cmd.

Fixpoint ide_transfer (sector : Z -> M fs unit) (nsecs : nat) (a : Z) : M fs Z :=
  match nsecs with
  | O => mret 0
  | Datatypes.S nsecs =>
      r ← ide_wait_ready true;
      if r <? 0 then mret r else sector a;; ide_transfer sector nsecs (a + SECTSIZE)
  end.

Definition ide_read (secno dst nsecs : Z) : M fs Z :=
  massert (nsecs <=? 256);;
  ide_command secno nsecs 0x20;;
  ide_transfer insl (Z.to_nat nsecs) dst.

Definition ide_write (secno src nsecs : Z) : M fs Z :=
  massert (nsecs <=? 256);;
  ide_command secno nsecs 0x30;;
  ide_transfer outsl (Z.to_nat nsecs) src.
End ide.
