(* ===== verification/IdeThms.v ===== *)
(** * IdeThms: what the disk driver transfers

    A healthy drive gives no error; [ide_read] then fills a page with a block of the disk, and
    [ide_write] copies a page to the disk, whatever handler serves page faults. *)

From S2P Require Import Prelude Layout UMonad Str StrThms Ide.

Lemma set_fpages_id s : set_fpages (fpages s) s = s.
Proof. by destruct s. Qed.
Lemma set_ctl_id s : set_ctl (ctl s) s = s.
Proof. by destruct s. Qed.

(** ** Accesses to pages that are there *)

Lemma fs_ldb_mapped h a s p :
  fpages s !! vpn a = Some p ->
  fs_ldb h a s = Ok (pg_get p (off a)) (set_fpages (<[vpn a := touch_r p]> (fpages s)) s).
Proof. intros Hp. unfold fs_ldb. rewrite (bind_Ok _ _ s (Some (pg_get p (off a))) (set_fpages (<[vpn a := touch_r p]> (fpages s)) s)); [done|]. unfold try_load. by rewrite Hp. Qed.

Lemma fs_stb_mapped h a b s p :
  fpages s !! vpn a = Some p -> pg_w p = true ->
  fs_stb h a b s = Ok tt (set_fpages (<[vpn a := touch_w (off a) b p]> (fpages s)) s).
Proof. intros Hp Hw. unfold fs_stb. rewrite (bind_Ok _ _ s true (set_fpages (<[vpn a := touch_w (off a) b p]> (fpages s)) s)); [done|]. unfold try_store. by rewrite Hp, Hw. Qed.

Lemma vpn_at v o : 0 <= o < 4096 -> vpn (v * 4096 + o) = v.
Proof. intros Ho. unfold vpn. rewrite Z.div_add_l by lia. rewrite Z.div_small; lia. Qed.
Lemma off_at v o : 0 <= o < 4096 -> off (v * 4096 + o) = o.
Proof. intros Ho. unfold off. rewrite Z.add_comm, Z.mod_add, Z.mod_small; lia. Qed.
Lemma vpn_off a : a = vpn a * 4096 + off a.
Proof. unfold vpn, off. pose proof (Z.div_mod a 4096). lia. Qed.
Lemma off_range a : 0 <= off a < 4096.
Proof. apply Z.mod_pos_bound. lia. Qed.

Lemma pg_get_touch_w o b p o' : pg_get (touch_w o b p) o' = if decide (o = o') then u8 b else pg_get p o'.
Proof.
  unfold pg_get, touch_w. cbn [pg_data]. destruct (decide (o = o')) as [->|Hne].
  - rewrite lookup_insert_eq. simpl. apply u8_small, u8_range.
  - by rewrite lookup_insert_ne.
Qed.
Lemma pg_get_range p o : 0 <= pg_get p o < 256.
Proof. apply u8_range. Qed.
Lemma dbyte_range s d a : 0 <= dbyte s d a < 256.
Proof. apply u8_range. Qed.

(** ** A drive without errors *)

Definition healthy (c : ide) : bool := forallb (fun r => negb (truth (r .& (IDE_DF .| IDE_ERR)))) (id_status c).

Lemma poll_healthy c : healthy c = true ->
  exists r l, poll (id_status c) = (r, l) /\ truth (r .& (IDE_DF .| IDE_ERR)) = false /\ healthy (set_status l c) = true.
Proof.
  unfold healthy. cbn [id_status set_status]. induction (id_status c) as [|r l IH]; cbn [poll forallb]; [by eexists _, _|].
  intros [Hr Hl]%andb_true_iff. destruct (_ =? _); [|by apply IH]. exists r, l. split; [done|]. split; [|done].
  by apply negb_true_iff in Hr.
Qed.

Lemma ide_wait_ready_spec b s : healthy (ctl s) = true ->
  exists l, ide_wait_ready b s = Ok 0 (set_ctl (set_status l (ctl s)) s) /\ healthy (set_status l (ctl s)) = true.
Proof.
  intros Hh. destruct (poll_healthy _ Hh) as (r & l & Hp & Hr & Hh'). exists l. split; [|done].
  unfold ide_wait_ready. rewrite Hp, Hr. by rewrite andb_false_r.
Qed.

(** The controller after a command for [n] sectors from [sec] of drive [d] *)
Definition commanded (c : ide) (d sec n : Z) (w : bool) : Prop :=
  id_next c = sec /\ id_left c = n /\ id_write c = w /\ drive c = d /\ healthy c = true.

Lemma ide_command_spec s sec n cmd :
  healthy (ctl s) = true -> 0 <= diskno s < 2 -> 0 <= sec < 2^24 -> 0 < n < 256 -> cmd = 0x20 \/ cmd = 0x30 ->
  exists c, ide_command sec n cmd s = Ok tt (set_ctl c s) /\ commanded c (diskno s) sec n (cmd =? 0x30).
Proof.
  intros Hh Hd Hs Hn Hc. unfold ide_command. destruct (ide_wait_ready_spec false s Hh) as (l & Hw & Hh').
  rewrite (bind_Ok _ _ _ _ _ Hw).
  set (b0 := u8 (sec .& 0xFF)). set (b1 := u8 ((sec .>> 8) .& 0xFF)). set (b2 := u8 ((sec .>> 16) .& 0xFF)).
  set (dev := u8 (0xE0 .| ((diskno s .& 1) .<< 4) .| ((sec .>> 24) .& 0x0F))).
  exists (mkide (u8 n) b0 b1 b2 dev (b0 + 256 * b1 + 65536 * b2 + 16777216 * (dev mod 16))
    (if u8 n =? 0 then 256 else u8 n) (u8 cmd =? 0x30) l).
  split; [reflexivity|]. rewrite (u8_small n) by lia. change (2^24) with 16777216 in Hs.
  assert (Hdev : dev = 224 + 16 * diskno s).
  { unfold dev. rewrite (shiftr_div _ 24) by lia. rewrite (Z.div_small sec) by lia.
    assert (diskno s = 0 \/ diskno s = 1) as [-> | ->] by lia; reflexivity. }
  assert (Hb : b0 + 256 * b1 + 65536 * b2 = sec).
  { unfold b0, b1, b2. rewrite !(land_ones_mod _ 8 255), !shiftr_div by (lia || reflexivity).
    rewrite !u8_small by (apply Z.mod_pos_bound; lia). change (2^8) with 256. change (2^16) with 65536.
    Z.div_mod_to_equations. lia. }
  unfold commanded, drive. cbn [id_next id_left id_write id_dev]. rewrite Hdev. split_and!.
  - rewrite Hb. Z.div_mod_to_equations. lia.
  - destruct (Z.eqb_spec n 0); [lia|done].
  - by destruct Hc as [-> | ->].
  - Z.div_mod_to_equations. lia.
  - exact Hh'.
Qed.

(** ** Transfers *)

(** [p'] is [p] with the bytes [b] at the offsets from [lo] to [hi]. *)
Definition filled_page (p p' : page) (lo hi : Z) (b : Z -> Z) : Prop :=
  pg_w p' = pg_w p /\ pg_ref p' = pg_ref p /\
  forall o, pg_get p' o = if decide (lo <= o < hi) then b o else pg_get p o.

Lemma filled_page_nil p lo b : filled_page p p lo lo b.
Proof. split; [done|]. split; [done|]. intros o. rewrite decide_False; [done|lia]. Qed.
Lemma filled_page_app p1 p2 p3 lo mid hi b :
  lo <= mid <= hi -> filled_page p1 p2 lo mid b -> filled_page p2 p3 mid hi b -> filled_page p1 p3 lo hi b.
Proof.
  intros Hm (W1 & R1 & G1) (W2 & R2 & G2). split; [congruence|]. split; [congruence|]. intros o. rewrite G2, G1.
  destruct (decide (mid <= o < hi)), (decide (lo <= o < mid)), (decide (lo <= o < hi)); done || lia.
Qed.

Section transfer.
Context (h : Z -> M fs unit).
#[local] Instance transfer_mem : Mem fs := fs_mem_with h.

Lemma insl_loop s v lo d x p (n : nat) :
  fpages s !! v = Some p -> pg_w p = true -> 0 <= lo -> lo + Z.of_nat n <= 4096 ->
  exists p', mfor (seqZ 0 (Z.of_nat n)) (fun j => b ← mget (fun s => dbyte s d (x + j)); stb (v * 4096 + lo + j) b) s =
    Ok tt (set_fpages (<[v := p']> (fpages s)) s) /\
    filled_page p p' lo (lo + Z.of_nat n) (fun o => dbyte s d (x + o - lo)).
Proof.
  intros Hp Hw Hlo. induction n as [|n IH]; intros Hn.
  { exists p. rewrite insert_id by done. rewrite set_fpages_id, Z.add_0_r. split; [done|apply filled_page_nil]. }
  destruct IH as (p1 & Hl & Hf); [lia|]. replace (Z.of_nat (Datatypes.S n)) with (Z.of_nat n + 1) by lia.
  rewrite seqZ_app by lia. rewrite mfor_app, (bind_Ok _ _ _ _ _ Hl). change (seqZ (0 + Z.of_nat n) 1) with [0 + Z.of_nat n].
  cbn [mfor]. set (s1 := set_fpages _ s). set (o := lo + Z.of_nat n). set (b := dbyte s d (x + (0 + Z.of_nat n))).
  replace (v * 4096 + lo + (0 + Z.of_nat n)) with (v * 4096 + o) by lia.
  assert (Hp1 : fpages s1 !! vpn (v * 4096 + o) = Some p1) by (rewrite vpn_at by lia; apply lookup_insert_eq).
  assert (Hw1 : pg_w p1 = true) by (destruct Hf as (-> & _); done).
  pose proof (fs_stb_mapped h _ b s1 p1 Hp1 Hw1) as Hst. rewrite vpn_at, off_at in Hst by lia.
  exists (touch_w o b p1). split.
  - erewrite bind_Ok; [reflexivity|]. rewrite (bind_Ok _ _ s1 b s1) by done. etransitivity; [exact Hst|].
    unfold s1. cbn [fpages set_fpages]. rewrite insert_insert_eq. reflexivity.
  - apply (filled_page_app p p1 _ lo o _ _); [lia|done|]. split; [done|]. split; [done|]. intros y.
    rewrite pg_get_touch_w, (u8_small b) by apply dbyte_range.
    destruct (decide (o = y)) as [<-|]; [rewrite decide_True by lia|rewrite decide_False by lia; done].
    unfold b. f_equal. lia.
Qed.

Lemma insl_spec s v k p :
  fpages s !! v = Some p -> pg_w p = true -> 0 <= k < 8 -> id_write (ctl s) = false -> 0 < id_left (ctl s) ->
  exists p', insl (v * 4096 + 512 * k) s = Ok tt (set_ctl (advance (ctl s)) (set_fpages (<[v := p']> (fpages s)) s)) /\
    filled_page p p' (512 * k) (512 * k + 512) (fun o => dbyte s (drive (ctl s)) (id_next (ctl s) * 512 + o - 512 * k)).
Proof.
  intros Hp Hw Hk Hr Hl.
  destruct (insl_loop s v (512 * k) (drive (ctl s)) (id_next (ctl s) * 512) p 512 Hp Hw) as (p' & Hloop & Hf); [lia|lia|].
  exists p'. split; [|exact Hf]. unfold insl. rewrite (bind_Ok _ _ s (ctl s) s) by done.
  rewrite Hr, (proj2 (Z.leb_gt _ _) Hl). cbn [orb]. by rewrite (bind_Ok _ _ _ _ _ Hloop).
Qed.

Lemma transfer_in s0 d x v (n : nat) : forall s k p,
  fpages s !! v = Some p -> pg_w p = true -> 0 <= k -> k + Z.of_nat n <= 8 ->
  commanded (ctl s) d (x + k) (Z.of_nat n) false -> disks s = disks s0 ->
  exists c p', ide_transfer insl n (v * 4096 + 512 * k) s = Ok 0 (set_ctl c (set_fpages (<[v := p']> (fpages s)) s)) /\
    healthy c = true /\ filled_page p p' (512 * k) (512 * (k + Z.of_nat n)) (fun o => dbyte s0 d (x * 512 + o)).
Proof.
  induction n as [|n IH]; intros s k p Hp Hw Hk Hn (Hc1 & Hc2 & Hc3 & Hc4 & Hh) Hd.
  { exists (ctl s), p. rewrite insert_id by done. rewrite set_fpages_id, set_ctl_id, Z.add_0_r.
    split; [done|]. split; [done|apply filled_page_nil]. }
  cbn [ide_transfer]. destruct (ide_wait_ready_spec true s Hh) as (l & Hwt & Hh1). rewrite (bind_Ok _ _ _ _ _ Hwt).
  cbn [Z.ltb Z.compare]. set (s1 := set_ctl _ s).
  destruct (insl_spec s1 v k p Hp Hw) as (p1 & Hi & Hf); [lia|done|cbn; lia|]. rewrite (bind_Ok _ _ _ _ _ Hi).
  replace (v * 4096 + 512 * k + SECTSIZE) with (v * 4096 + 512 * (k + 1)) by (unfold SECTSIZE; lia). set (s2 := set_ctl _ _).
  assert (Hw1 : pg_w p1 = true) by (destruct Hf as (-> & _); done).
  destruct (IH s2 (k + 1) p1) as (c & p2 & Ht & Hc & Hf2); [apply lookup_insert_eq|done|lia|lia| |done|].
  { split_and!; cbn; [lia|lia|done|done|done]. }
  exists c, p2. split; [|split; [done|]].
  - rewrite Ht. unfold s2, s1. cbn [fpages set_ctl set_fpages ctl]. by rewrite insert_insert_eq.
  - replace (k + Z.of_nat (Datatypes.S n)) with (k + 1 + Z.of_nat n) by lia.
    apply (filled_page_app p p1 p2 _ (512 * (k + 1))); [lia| |done].
    destruct Hf as (W & R & G). split; [done|]. split; [done|]. intros o. rewrite G.
    replace (512 * (k + 1)) with (512 * k + 512) by lia. destruct (decide _); [|done].
    unfold dbyte. cbn [disks s1 set_ctl]. rewrite Hd. change (drive (ctl s1)) with (drive (ctl s)).
    change (id_next (ctl s1)) with (id_next (ctl s)). rewrite Hc1, Hc4.
    replace ((x + k) * 512 + o - 512 * k) with (x * 512 + o) by lia. done.
Qed.

(** A block is read into a page that is there. *)
Lemma ide_read_spec s v p b :
  fpages s !! v = Some p -> pg_w p = true -> healthy (ctl s) = true -> 0 <= diskno s < 2 -> 0 <= b < 2^21 ->
  exists c p', ide_read (8 * b) (v * 4096) 8 s = Ok 0 (set_ctl c (set_fpages (<[v := p']> (fpages s)) s)) /\
    healthy c = true /\ filled_page p p' 0 4096 (fun o => dbyte s (diskno s) (b * 4096 + o)).
Proof.
  intros Hp Hw Hh Hd Hb. unfold ide_read. cbn [massert Z.leb Z.compare Pos.compare Pos.compare_cont].
  rewrite (bind_Ok _ _ s tt s) by done.
  destruct (ide_command_spec s (8 * b) 8 0x20 Hh Hd) as (c & Hc & Hcm); [lia|lia|by left|].
  rewrite (bind_Ok _ _ _ _ _ Hc).
  destruct (transfer_in s (diskno s) (8 * b) v 8 (set_ctl c s) 0 p Hp Hw) as (c' & p' & Ht & Hh' & Hf); [lia|lia| |done|].
  { by rewrite Z.add_0_r. }
  exists c', p'. split; [|split; [done|]].
  - replace (v * 4096 + 512 * 0) with (v * 4096) in Ht by lia. exact Ht.
  - destruct Hf as (W & R & G). split; [done|]. split; [done|]. intros o. rewrite G.
    replace (8 * b * 512 + o) with (b * 4096 + o) by lia. done.
Qed.

(** [D'] is the disks [D] with the bytes [b] on drive [d] from [lo] to [hi]. *)
Definition written (D D' : gmap (Z * Z) Z) (d lo hi : Z) (b : Z -> Z) : Prop :=
  forall d' a, u8 (default 0 (D' !! (d', a))) =
    if decide (d' = d /\ lo <= a < hi) then b a else u8 (default 0 (D !! (d', a))).

Lemma written_nil D d lo b : written D D d lo lo b.
Proof. intros d' a. rewrite decide_False; [done|lia]. Qed.
Lemma written_app D1 D2 D3 d lo mid hi b :
  lo <= mid <= hi -> written D1 D2 d lo mid b -> written D2 D3 d mid hi b -> written D1 D3 d lo hi b.
Proof.
  intros Hm H1 H2 d' a. rewrite H2, H1.
  destruct (decide (d' = d /\ mid <= a < hi)), (decide (d' = d /\ lo <= a < mid)), (decide (d' = d /\ lo <= a < hi)); done || lia.
Qed.
Lemma written_one D d a x : 0 <= x < 256 -> written D (<[(d, a) := x]> D) d a (a + 1) (fun _ => x).
Proof.
  intros Hx d' a'. destruct (decide (d' = d /\ a <= a' < a + 1)) as [[-> Ha]|Hne].
  - replace a' with a by lia. rewrite lookup_insert_eq. simpl. by apply u8_small.
  - rewrite lookup_insert_ne; [done|]. intros [= -> ->]. apply Hne. lia.
Qed.

(** Only the accessed bit may differ. *)
Definition page_same (p p' : page) : Prop :=
  pg_data p' = pg_data p /\ pg_w p' = pg_w p /\ pg_dirty p' = pg_dirty p /\ pg_ref p' = pg_ref p.
Lemma same_page_get p p' o : page_same p p' -> pg_get p' o = pg_get p o.
Proof. intros (Hd & _). unfold pg_get. by rewrite Hd. Qed.
Lemma same_page_trans p1 p2 p3 : page_same p1 p2 -> page_same p2 p3 -> page_same p1 p3.
Proof. intros (? & ? & ? & ?) (? & ? & ? & ?). split_and!; congruence. Qed.

Lemma outsl_loop s v lo d x p (n : nat) :
  fpages s !! v = Some p -> 0 <= lo -> lo + Z.of_nat n <= 4096 ->
  exists D p', mfor (seqZ 0 (Z.of_nat n)) (fun j => b ← ldb (v * 4096 + lo + j);
      mmod (fun s => set_disks (<[(d, x + j) := b]> (disks s)) s)) s =
    Ok tt (set_disks D (set_fpages (<[v := p']> (fpages s)) s)) /\ page_same p p' /\
    written (disks s) D d x (x + Z.of_nat n) (fun a => pg_get p (lo + a - x)).
Proof.
  intros Hp Hlo. induction n as [|n IH]; intros Hn.
  { exists (disks s), p. rewrite insert_id by done. rewrite Z.add_0_r. split; [by destruct s|]. split; [done|apply written_nil]. }
  destruct IH as (D & p1 & Hl & Hs1 & HD); [lia|]. replace (Z.of_nat (Datatypes.S n)) with (Z.of_nat n + 1) by lia.
  rewrite seqZ_app by lia. rewrite mfor_app, (bind_Ok _ _ _ _ _ Hl). change (seqZ (0 + Z.of_nat n) 1) with [0 + Z.of_nat n].
  cbn [mfor]. set (s1 := set_disks _ _). set (o := lo + Z.of_nat n).
  replace (v * 4096 + lo + (0 + Z.of_nat n)) with (v * 4096 + o) by lia.
  assert (Hp1 : fpages s1 !! vpn (v * 4096 + o) = Some p1) by (rewrite vpn_at by lia; apply lookup_insert_eq).
  pose proof (fs_ldb_mapped h _ s1 p1 Hp1) as Hld. rewrite vpn_at, off_at in Hld by lia.
  exists (<[(d, x + Z.of_nat n) := pg_get p o]> D), (touch_r p1). split; [|split].
  - erewrite bind_Ok; [reflexivity|]. rewrite (bind_Ok _ _ _ _ _ Hld). unfold mmod, s1. cbn [fpages set_fpages disks set_disks].
    rewrite insert_insert_eq, (same_page_get _ _ _ Hs1). reflexivity.
  - eapply same_page_trans; [done|]. by split_and!.
  - apply (written_app _ D _ _ _ (x + Z.of_nat n)); [lia|done|].
    intros d' a. rewrite (written_one D d (x + Z.of_nat n) (pg_get p o)) by apply pg_get_range.
    destruct (decide (d' = d /\ x + Z.of_nat n <= a < x + Z.of_nat n + 1)) as [[-> Ha]|Hne].
    + rewrite decide_True by lia. unfold o. f_equal. lia.
    + rewrite decide_False; [done|]. intros [-> Ha]. apply Hne. lia.
Qed.

Lemma outsl_spec s v k p :
  fpages s !! v = Some p -> 0 <= k < 8 -> id_write (ctl s) = true -> 0 < id_left (ctl s) ->
  exists D p', outsl (v * 4096 + 512 * k) s =
      Ok tt (set_ctl (advance (ctl s)) (set_disks D (set_fpages (<[v := p']> (fpages s)) s))) /\ page_same p p' /\
    written (disks s) D (drive (ctl s)) (id_next (ctl s) * 512) (id_next (ctl s) * 512 + 512)
      (fun a => pg_get p (512 * k + a - id_next (ctl s) * 512)).
Proof.
  intros Hp Hk Hr Hl.
  destruct (outsl_loop s v (512 * k) (drive (ctl s)) (id_next (ctl s) * 512) p 512 Hp) as (D & p' & Hloop & Hs & HD); [lia|lia|].
  exists D, p'. split; [|done]. unfold outsl. rewrite (bind_Ok _ _ s (ctl s) s) by done.
  rewrite Hr, (proj2 (Z.leb_gt _ _) Hl). cbn [orb negb]. by rewrite (bind_Ok _ _ _ _ _ Hloop).
Qed.

Lemma transfer_out p0 d x v (n : nat) : forall s k p,
  fpages s !! v = Some p -> page_same p0 p -> 0 <= k -> k + Z.of_nat n <= 8 ->
  commanded (ctl s) d (x + k) (Z.of_nat n) true ->
  exists c D p', ide_transfer outsl n (v * 4096 + 512 * k) s =
      Ok 0 (set_ctl c (set_disks D (set_fpages (<[v := p']> (fpages s)) s))) /\
    healthy c = true /\ page_same p0 p' /\
    written (disks s) D d ((x + k) * 512) ((x + k + Z.of_nat n) * 512) (fun a => pg_get p0 (a - x * 512)).
Proof.
  induction n as [|n IH]; intros s k p Hp Hsp Hk Hn (Hc1 & Hc2 & Hc3 & Hc4 & Hh).
  { exists (ctl s), (disks s), p. rewrite insert_id by done. rewrite Z.add_0_r.
    split; [by destruct s|]. split; [done|]. split; [done|apply written_nil]. }
  cbn [ide_transfer]. destruct (ide_wait_ready_spec true s Hh) as (l & Hwt & Hh1). rewrite (bind_Ok _ _ _ _ _ Hwt).
  cbn [Z.ltb Z.compare]. set (s1 := set_ctl _ s).
  destruct (outsl_spec s1 v k p Hp) as (D1 & p1 & Hi & Hs1 & HD1); [lia|done|cbn; lia|]. rewrite (bind_Ok _ _ _ _ _ Hi).
  replace (v * 4096 + 512 * k + SECTSIZE) with (v * 4096 + 512 * (k + 1)) by (unfold SECTSIZE; lia). set (s2 := set_ctl _ _).
  destruct (IH s2 (k + 1) p1) as (c & D2 & p2 & Ht & Hc & Hs2 & HD2);
    [apply lookup_insert_eq|by eapply same_page_trans|lia|lia|split_and!; cbn; [lia|lia|done|done|done]|].
  exists c, D2, p2. split; [|split; [done|split; [done|]]].
  - rewrite Ht. unfold s2, s1. cbn [fpages set_ctl set_fpages set_disks ctl]. by rewrite insert_insert_eq.
  - replace (x + k + Z.of_nat (Datatypes.S n)) with (x + (k + 1) + Z.of_nat n) by lia.
    apply (written_app _ D1 _ _ _ ((x + (k + 1)) * 512)); [lia| |done].
    intros d' a. rewrite (HD1 d' a). change (drive (ctl s1)) with (drive (ctl s)).
    change (id_next (ctl s1)) with (id_next (ctl s)). rewrite Hc1, Hc4, (same_page_get p0 p _ Hsp).
    replace ((x + k) * 512 + 512) with ((x + (k + 1)) * 512) by lia. destruct (decide _) as [[_ ?]|]; [|done].
    f_equal. lia.
Qed.

(** A page is written to a block. *)
Lemma ide_write_spec s v p b :
  fpages s !! v = Some p -> healthy (ctl s) = true -> 0 <= diskno s < 2 -> 0 <= b < 2^21 ->
  exists c D p', ide_write (8 * b) (v * 4096) 8 s = Ok 0 (set_ctl c (set_disks D (set_fpages (<[v := p']> (fpages s)) s))) /\
    healthy c = true /\ page_same p p' /\
    written (disks s) D (diskno s) (b * 4096) (b * 4096 + 4096) (fun a => pg_get p (a - b * 4096)).
Proof.
  intros Hp Hh Hd Hb. unfold ide_write. cbn [massert Z.leb Z.compare Pos.compare Pos.compare_cont].
  rewrite (bind_Ok _ _ s tt s) by done.
  destruct (ide_command_spec s (8 * b) 8 0x30 Hh Hd) as (c & Hc & Hcm); [lia|lia|by right|].
  rewrite (bind_Ok _ _ _ _ _ Hc).
  destruct (transfer_out p (diskno s) (8 * b) v 8 (set_ctl c s) 0 p Hp) as (c' & D & p' & Ht & Hh' & Hs & HD); [done|lia|lia| |].
  { by rewrite Z.add_0_r. }
  exists c', D, p'. split; [|split; [done|split; [done|]]].
  - replace (v * 4096 + 512 * 0) with (v * 4096) in Ht by lia. exact Ht.
  - replace ((8 * b + 0) * 512) with (b * 4096) in HD by lia.
    replace ((8 * b + 0 + Z.of_nat 8) * 512) with (b * 4096 + 4096) in HD by lia.
    replace (8 * b * 512) with (b * 4096) in HD by lia. exact HD.
Qed.
End transfer.
