(* ===== verification/Bc.v ===== *)
(** * Bc: the block cache of the file server ([fs/bc.c])

    Block [n] of the disk is the page at [DISKMAP + n * BLKSIZE].  The first access to a block
    faults, and the page fault handler reads the block in; [flush_block] writes a dirty page
    back.  The handler itself looks at the super block and the bitmap, which may fault again:
    [fault n] allows [n] faults to be nested. *)

From S2P Require Import Prelude Layout UMonad Str Ide.

(** The addresses of the arrays on the server's stack and of a string constant *)
Record frame := mkframe {
  fr_backup : Z;  (* check_bc: struct Super backup *)
  fr_super : Z;   (* bc_init: struct Super super *)
  fr_oops : Z;    (* the constant OOPS!\n *)
  fr_elem : Z;    (* walk_path: char name[MAXNAMELEN] *)
  fr_name : Z;    (* file_create: char name[MAXNAMELEN] *)
  fr_path : Z;    (* serve_open: char path[MAXPATHLEN] *)
}.

Definition s_magic (sup : Z) : Z := sup.
Definition s_nblocks (sup : Z) : Z := sup + 4.
Definition s_root (sup : Z) : Z := sup + 8.
Definition sizeof_Super : Z := 264.

Definition va_is_mapped (va : Z) : M fs bool := mget (fun s => is_mapped s va).
Definition va_is_accessed (va : Z) : M fs bool := mget (fun s => default false (pg_acc <$> fpages s !! vpn va)).
Definition va_is_dirty (va : Z) : M fs bool := mget (fun s => default false (pg_dirty <$> fpages s !! vpn va)).

(** addr < DISKMAP || addr >= DISKMAP + DISKSIZE *)
Definition bad_addr (addr : Z) : bool := (addr <? DISKMAP) || (DISKMAP + DISKSIZE <=? addr).

Section bc.
Context `{Mem fs}.

(** super && blockno >= super->s_nblocks *)
Definition beyond (blockno : Z) : M fs bool :=
  sup ← mget super;
  if sup =? 0 then mret false else n ← ld32 (s_nblocks sup); mret (n <=? blockno).

Definition diskaddr (blockno : Z) : M fs Z :=
  if blockno =? 0 then abort
  else b ← beyond blockno; if b : bool then abort else mret (u32 (DISKMAP + blockno * BLKSIZE)).

(** fs/fs.c *)
Definition block_is_free (blockno : Z) : M fs bool :=
  sup ← mget super;
  if sup =? 0 then mret false
  else
    n ← ld32 (s_nblocks sup);
    if n <=? blockno then mret false
    else
      bm ← mget bitmap;
      w ← ld32 (bm + 4 * (blockno / 32));
      mret (truth (w .& u32 (1 .<< (blockno mod 32)))).

Definition bc_pgfault (addr : Z) : M fs unit :=
  let blockno := u32 (addr - DISKMAP) / BLKSIZE in
  if bad_addr addr then abort
  else
    b ← beyond blockno;
    if b : bool then abort
    else
      let addr := ROUNDDOWN addr PGSIZE in
      r ← fs_page_alloc addr;
      if truth r then abort
      else
        r ← ide_read (u32 (blockno * BLKSECTS)) addr BLKSECTS;
        if r <? 0 then abort
        else
          r ← fs_page_remap addr;
          if r <? 0 then abort
          else
            bm ← mget bitmap;
            if bm =? 0 then mret tt
            else free ← block_is_free blockno; if free : bool then abort else mret tt.
End bc.

Fixpoint fault (n : nat) (a : Z) : M fs unit :=
  match n with
  | O => wrong
  | Datatypes.S n => bc_pgfault (H := fs_mem_with (fault n)) a
  end.

(** A data block, its bitmap block, the first bitmap block *)
Definition FAULTS : nat := 3.
#[export] Instance fs_mem : Mem fs := fs_mem_with (fault FAULTS).

Definition flush_block (addr : Z) : M fs unit :=
  let blockno := u32 (addr - DISKMAP) / BLKSIZE in
  if bad_addr addr then abort
  else
    let addr := ROUNDDOWN addr PGSIZE in
    m ← va_is_mapped addr;
    d ← va_is_dirty addr;
    if negb m || negb d then mret tt
    else
      r ← ide_write (u32 (blockno * BLKSECTS)) addr BLKSECTS;
      if negb (r =? 0) then abort
      else
        r ← fs_page_remap addr;
        if negb (r =? 0) then abort else mret tt.

Definition check_bc (fr : frame) : M fs unit :=
  a ← diskaddr 1; memmove (fr_backup fr) a sizeof_Super;;
  a ← diskaddr 1; strcpy a (fr_oops fr);;
  a ← diskaddr 1; flush_block a;;
  a ← diskaddr 1; m ← va_is_mapped a; massert m;;
  a ← diskaddr 1; d ← va_is_dirty a; massert (negb d);;
  a ← diskaddr 1; fs_page_unmap a;;
  a ← diskaddr 1; m ← va_is_mapped a; massert (negb m);;
  a ← diskaddr 1; r ← strcmp a (fr_oops fr); massert (r =? 0);;
  a ← diskaddr 1; memmove a (fr_backup fr) sizeof_Super;;
  a ← diskaddr 1; flush_block a;;
  cprintf "block cache is good".

(** set_pgfault_handler(bc_pgfault) is [fs_mem]. *)
Definition bc_init (fr : frame) : M fs unit :=
  check_bc fr;;
  a ← diskaddr 1;
  memmove (fr_super fr) a sizeof_Super;;
  mret tt.

Definition bc_clean : M fs unit :=
  mfor (seqZ 0 (DISKSIZE / BLKSIZE)) (fun k =>
    let addr := DISKMAP + BLKSIZE * k in
    m ← va_is_mapped addr;
    if negb m then mret tt
    else
      a ← va_is_accessed addr;
      if a : bool then
        err ← fs_page_remap addr;
        if err <? 0 then abort else mret tt
      else
        d ← va_is_dirty addr;
        mwhen d (flush_block addr);;
        err ← fs_page_unmap addr;
        if err <? 0 then abort else mret tt).
