(* ===== verification/BcThms.v ===== *)
(** * BcThms: the block cache is transparent

    [byt s a] is the byte the server finds at address [a]: in the page that is mapped there,
    or else, in the disk map, on the disk.  Page faults and flushes do not change it, so the
    disk map is an address space ([MemLaws]) in which the library's routines can be used. *)

From S2P Require Import Prelude Layout UMonad Str StrThms Ide IdeThms Bc.

(** ** The logical contents *)

Definition in_map (a : Z) : bool := (DISKMAP <=? a) && (a <? DISKMAP + DISKSIZE).
Definition byt (s : fs) (a : Z) : Z :=
  match fpages s !! vpn a with
  | Some p => pg_get p (off a)
  | None => if in_map a then dbyte s (diskno s) (a - DISKMAP) else 0
  end.
Definition wrd (s : fs) (a : Z) : Z := unbytes [byt s a; byt s (a + 1); byt s (a + 2); byt s (a + 3)].

(** The block an address of the disk map belongs to *)
Definition blk_of (a : Z) : Z := (a - DISKMAP) / 4096.

Definition SUPER : Z := DISKMAP + 4096.
Definition BITMAP : Z := DISKMAP + 8192.
Definition nblk (s : fs) : Z := wrd s (s_nblocks SUPER).
(** The number of bitmap blocks *)
Definition nbm (s : fs) : Z := (nblk s + 32767) / 32768.
Definition isfree (s : fs) (b : Z) : bool := Z.testbit (wrd s (BITMAP + 4 * (b / 32))) (b mod 32).

(** The blocks that can be read in *)
Definition usable (s : fs) (b : Z) : bool :=
  ((super s =? 0) || (b <? nblk s)) && ((bitmap s =? 0) || negb (isfree s b)).
Definition accessible (s : fs) (a : Z) : bool := if in_map a then usable s (blk_of a) else is_mapped s a.

(** The server is ready to serve faults: no disk errors, memory for its pages, the super block
    in the cache and of a size the server supports, its block and the bitmap blocks marked as
    in use. *)
Definition ready (s : fs) : bool :=
  healthy (ctl s) && forallb (fun b => b) (answers s) && (0 <=? diskno s) && (diskno s <? 2) &&
  ((super s =? 0) || (super s =? SUPER) && is_mapped s SUPER && (nblk s <=? DISKSIZE / BLKSIZE)) &&
  ((bitmap s =? 0) || negb (super s =? 0) && (bitmap s =? BITMAP) && (3 <=? nblk s) &&
     forallb (fun b => negb (isfree s b)) (seqZ 1 (1 + nbm s))).

(** The bytes the two decide on: the size in the super block and the bitmap *)
Definition meta (s : fs) (a : Z) : bool :=
  (negb (super s =? 0) && (SUPER + 4 <=? a) && (a <? SUPER + 8)) ||
  (negb (bitmap s =? 0) && (BITMAP <=? a) && (a <? BITMAP + 4 * ((nblk s + 31) / 32))).

Lemma byt_range s a : 0 <= byt s a < 256.
Proof. unfold byt. destruct (_ !! _); [apply pg_get_range|]. destruct (in_map a); [apply dbyte_range|lia]. Qed.
Lemma wrd_range s a : 0 <= wrd s a < 2^32.
Proof.
  unfold wrd, unbytes. cbn [foldr]. pose proof (byt_range s a). pose proof (byt_range s (a + 1)).
  pose proof (byt_range s (a + 2)). pose proof (byt_range s (a + 3)). lia.
Qed.
Lemma wrd_ext s s' a : (forall k, 0 <= k < 4 -> byt s' (a + k) = byt s (a + k)) -> wrd s' a = wrd s a.
Proof.
  intros Hb. unfold wrd. rewrite <- (Z.add_0_r a) at 1 5. rewrite !Hb by lia. by rewrite Z.add_0_r.
Qed.

Lemma in_map_true a : in_map a = true <-> DISKMAP <= a < DISKMAP + DISKSIZE.
Proof. unfold in_map. rewrite andb_true_iff, Z.leb_le, Z.ltb_lt. done. Qed.
Lemma in_map_false a : in_map a = false <-> a < DISKMAP \/ DISKMAP + DISKSIZE <= a.
Proof. unfold in_map. rewrite andb_false_iff, Z.leb_gt, Z.ltb_ge. done. Qed.
Lemma is_mapped_true s a : is_mapped s a = true <-> exists p, fpages s !! vpn a = Some p.
Proof. unfold is_mapped. rewrite bool_decide_eq_true. split; intros [p Hp]; eauto. Qed.
Lemma is_mapped_vpn s a a' : vpn a = vpn a' -> is_mapped s a = is_mapped s a'.
Proof. unfold is_mapped. by intros ->. Qed.

(** ** What stays the same when blocks are read in *)

Record grows (s s' : fs) : Prop := {
  g_super : super s' = super s;
  g_bitmap : bitmap s' = bitmap s;
  g_diskno : diskno s' = diskno s;
  g_opentab : opentab s' = opentab s;
  g_disks : disks s' = disks s;
  g_byt a : byt s' a = byt s a;
  g_pages v p : fpages s !! v = Some p -> exists p', fpages s' !! v = Some p' /\ page_same p p';
  g_new v p : fpages s !! v = None -> fpages s' !! v = Some p ->
    in_map (v * 4096) = true /\ pg_w p = true /\ pg_dirty p = false;
  g_healthy : healthy (ctl s) = true -> healthy (ctl s') = true;
  g_answers : forallb (fun b => b) (answers s) = true -> forallb (fun b => b) (answers s') = true;
}.

Lemma same_page_refl p : page_same p p.
Proof. by split_and!. Qed.

Lemma grows_refl s : grows s s.
Proof. split; try done; [intros v p Hp; exists p; split; [done|apply same_page_refl]|congruence]. Qed.
Lemma grows_trans s1 s2 s3 : grows s1 s2 -> grows s2 s3 -> grows s1 s3.
Proof.
  intros H1 H2. split.
  1-5: by etransitivity; [apply H2|apply H1].
  - intros a. etransitivity; [apply H2|apply H1].
  - intros v p Hp. destruct (g_pages _ _ H1 v p Hp) as (p1 & Hp1 & S1). destruct (g_pages _ _ H2 v p1 Hp1) as (p2 & Hp2 & S2).
    exists p2. split; [done|]. by eapply same_page_trans.
  - intros v p Hn Hp. destruct (fpages s2 !! v) as [p1|] eqn:Hp1; [|by apply (g_new _ _ H2 v p)].
    destruct (g_new _ _ H1 v p1 Hn Hp1) as (A & B & C). destruct (g_pages _ _ H2 v p1 Hp1) as (p2 & Hp2 & _ & W & D & _).
    rewrite Hp in Hp2. injection Hp2 as <-. rewrite W, D. done.
  - intros Hh. by apply H2, H1.
  - intros Hh. by apply H2, H1.
Qed.
#[export] Hint Resolve grows_refl : mem.

Lemma grows_mapped s s' a : grows s s' -> is_mapped s a = true -> is_mapped s' a = true.
Proof. intros Hg [p Hp]%is_mapped_true. apply is_mapped_true. destruct (g_pages _ _ Hg _ p Hp) as (p' & Hp' & _). eauto. Qed.

(** The size and the bitmap decide alike where [meta] bytes are the same. *)
Record meta_eq (s s' : fs) : Prop := {
  me_super : super s' = super s;
  me_bitmap : bitmap s' = bitmap s;
  me_byt a : meta s a = true -> byt s' a = byt s a;
}.

Lemma grows_meta s s' : grows s s' -> meta_eq s s'.
Proof. intros Hg. split; intros; apply Hg. Qed.

Section meta_eq.
Context (s s' : fs) (Hm : meta_eq s s').

Lemma meta_nblk : super s <> 0 -> nblk s' = nblk s.
Proof.
  intros Hs. unfold nblk. apply wrd_ext. intros k Hk. apply (me_byt _ _ Hm). unfold meta.
  apply Z.eqb_neq in Hs. rewrite Hs. unfold s_nblocks, SUPER in *.
  rewrite (proj2 (Z.leb_le _ _)), (proj2 (Z.ltb_lt _ _)) by lia. done.
Qed.
Lemma meta_isfree b : super s <> 0 -> bitmap s <> 0 -> 0 <= b < nblk s -> isfree s' b = isfree s b.
Proof.
  intros Hs Hb Hr. unfold isfree. f_equal. apply wrd_ext. intros k Hk. apply (me_byt _ _ Hm). unfold meta.
  apply Z.eqb_neq in Hb. rewrite Hb. cbn [negb andb].
  apply orb_true_iff. right. rewrite andb_true_iff, Z.leb_le, Z.ltb_lt. Z.div_mod_to_equations. lia.
Qed.
Lemma meta_usable b : (bitmap s <> 0 -> super s <> 0) -> 0 <= b -> usable s' b = usable s b.
Proof.
  intros Hbs Hb. unfold usable. rewrite (me_super _ _ Hm), (me_bitmap _ _ Hm).
  destruct (Z.eqb_spec (super s) 0) as [Hs|Hs].
  - destruct (Z.eqb_spec (bitmap s) 0) as [Hb0|Hb0]; [done|tauto].
  - rewrite meta_nblk by done. cbn [orb]. destruct (Z.ltb_spec b (nblk s)); [|done].
    destruct (Z.eqb_spec (bitmap s) 0) as [Hb0|Hb0]; [done|]. by rewrite meta_isfree.
Qed.
Lemma meta_meta a : (bitmap s <> 0 -> super s <> 0) -> meta s' a = meta s a.
Proof.
  intros Hbs. unfold meta. rewrite (me_super _ _ Hm), (me_bitmap _ _ Hm).
  destruct (Z.eqb_spec (bitmap s) 0) as [Hb0|Hb0]; [done|]. by rewrite meta_nblk by auto.
Qed.
End meta_eq.

Lemma ready_spec s :
  ready s = true <->
  healthy (ctl s) = true /\ forallb (fun b => b) (answers s) = true /\ 0 <= diskno s < 2 /\
  (super s = 0 \/ super s = SUPER /\ is_mapped s SUPER = true /\ nblk s <= 786432) /\
  (bitmap s = 0 \/ super s <> 0 /\ bitmap s = BITMAP /\ 3 <= nblk s /\
     forall b, 1 <= b < 2 + nbm s -> isfree s b = false).
Proof.
  unfold ready. rewrite !andb_true_iff, !orb_true_iff, !andb_true_iff, !Z.leb_le, Z.ltb_lt, !Z.eqb_eq, !negb_true_iff, Z.eqb_neq.
  rewrite (forallb_forall _ (seqZ 1 (1 + nbm s))). change (DISKSIZE / BLKSIZE) with 786432.
  assert (Hb : (forall x, List.In x (seqZ 1 (1 + nbm s)) -> negb (isfree s x) = true) <-> (forall b, 1 <= b < 2 + nbm s -> isfree s b = false)).
  { split; intros Hf b Hr; apply negb_true_iff.
    - apply Hf. apply list_elem_of_In, elem_of_seqZ. lia.
    - apply negb_true_iff. rewrite Hf; [done|]. apply list_elem_of_In, elem_of_seqZ in Hr. lia. }
  rewrite Hb. tauto.
Qed.

Lemma ready_bs s : ready s = true -> bitmap s <> 0 -> super s <> 0.
Proof. intros (_ & _ & _ & _ & [?|[? _]])%ready_spec; done. Qed.

Lemma ready_meta s s' :
  meta_eq s s' -> (is_mapped s SUPER = true -> is_mapped s' SUPER = true) -> diskno s' = diskno s ->
  (healthy (ctl s) = true -> healthy (ctl s') = true) ->
  (forallb (fun b => b) (answers s) = true -> forallb (fun b => b) (answers s') = true) ->
  ready s = true -> ready s' = true.
Proof.
  intros Hm Hp Hd Hh Ha Hr. assert (Hbs := ready_bs s Hr). apply ready_spec in Hr as (R1 & R2 & R3 & R4 & R5). apply ready_spec.
  rewrite Hd, (me_super _ _ Hm), (me_bitmap _ _ Hm). split_and!; [auto|auto|lia|lia| |].
  - destruct R4 as [R4|(R4 & R6 & R7)]; [by left|]. right. rewrite (meta_nblk _ _ Hm) by (rewrite R4; done). auto.
  - destruct R5 as [R5|(R5 & R6 & R7 & R8)]; [by left|]. right. unfold nbm in *. rewrite (meta_nblk _ _ Hm) by done.
    split_and!; try done. intros b Hb. rewrite (meta_isfree _ _ Hm); [by apply R8|done|rewrite R6; done|]. Z.div_mod_to_equations. lia.
Qed.

Lemma grows_ready s s' : grows s s' -> ready s = true -> ready s' = true.
Proof.
  intros Hg. apply ready_meta; [by apply grows_meta|by apply grows_mapped|apply Hg|apply Hg|apply Hg].
Qed.

Lemma grows_accessible s s' a : grows s s' -> ready s = true -> accessible s a = true -> accessible s' a = true.
Proof.
  intros Hg Hr. unfold accessible. destruct (in_map a) eqn:Ha; [|by apply grows_mapped].
  rewrite (meta_usable s s'); [done|by apply grows_meta|by apply ready_bs|].
  apply in_map_true in Ha. unfold blk_of. apply Z.div_pos; lia.
Qed.

(** ** Loads from pages that are there *)

(** Nothing has been read in. *)
Definition steady (s s' : fs) : Prop := grows s s' /\ forall v, fpages s !! v = None -> fpages s' !! v = None.

Lemma steady_refl s : steady s s.
Proof. split; [apply grows_refl|done]. Qed.
Lemma steady_trans s1 s2 s3 : steady s1 s2 -> steady s2 s3 -> steady s1 s3.
Proof. intros [G1 N1] [G2 N2]. split; [by eapply grows_trans|auto]. Qed.

Lemma ld_mapped h a s :
  is_mapped s a = true -> exists s', fs_ldb h a s = Ok (byt s a) s' /\ steady s s'.
Proof.
  intros [p Hp]%is_mapped_true. exists (set_fpages (<[vpn a := touch_r p]> (fpages s)) s). split.
  { rewrite (fs_ldb_mapped h a s p Hp). unfold byt. by rewrite Hp. }
  split.
  2:{ intros v Hv. cbn [fpages set_fpages]. rewrite lookup_insert_ne; [done|congruence]. }
  split; try done.
  - intros a'. unfold byt. cbn [fpages set_fpages]. destruct (decide (vpn a = vpn a')) as [He|Hne].
    + rewrite <- He, lookup_insert_eq, Hp. done.
    + by rewrite lookup_insert_ne.
  - intros v q Hq. cbn [fpages set_fpages]. destruct (decide (vpn a = v)) as [<-|Hne].
    + rewrite lookup_insert_eq. exists (touch_r p). split; [done|]. rewrite Hp in Hq. injection Hq as <-. by split_and!.
    + rewrite lookup_insert_ne by done. exists q. split; [done|apply same_page_refl].
  - intros v q Hn Hq. cbn [fpages set_fpages] in Hq. destruct (decide (vpn a = v)) as [<-|Hne]; [congruence|].
    rewrite lookup_insert_ne in Hq by done. congruence.
Qed.

Lemma vpn_word a k : a mod 4 = 0 -> 0 <= k < 4 -> vpn (a + k) = vpn a.
Proof. unfold vpn. intros. Z.div_mod_to_equations. lia. Qed.

(** A word whose first byte can be loaded *)
Lemma ld32_from h a s s1 :
  a mod 4 = 0 -> fs_ldb h a s = Ok (byt s a) s1 -> grows s s1 -> is_mapped s1 a = true ->
  exists s', ld32 (H := fs_mem_with h) a s = Ok (wrd s a) s' /\ steady s1 s' /\ is_mapped s' a = true.
Proof.
  intros Ha Hl Hg Hm.
  assert (Hnext : forall s k, is_mapped s a = true -> 0 <= k < 4 ->
    exists s', fs_ldb h (a + k) s = Ok (byt s (a + k)) s' /\ steady s s' /\ is_mapped s' a = true).
  { intros s0 k Hm0 Hk. destruct (ld_mapped h (a + k) s0) as (s' & Hs & Hg').
    - by rewrite (is_mapped_vpn _ _ a) by (by apply vpn_word).
    - exists s'. split; [done|]. split; [done|]. eapply grows_mapped; [apply Hg'|done]. }
  destruct (Hnext s1 1) as (s2 & Hl2 & Hg2 & Hm2); [done|lia|]. destruct (Hnext s2 2) as (s3 & Hl3 & Hg3 & Hm3); [done|lia|].
  destruct (Hnext s3 3) as (s4 & Hl4 & Hg4 & Hm4); [done|lia|]. clear Hnext.
  exists s4. split; [|split; [repeat (eapply steady_trans; [eassumption|]); apply steady_refl|done]].
  rewrite (g_byt _ _ (proj1 Hg3)), (g_byt _ _ (proj1 Hg2)), (g_byt _ _ Hg) in Hl4. rewrite (g_byt _ _ (proj1 Hg2)), (g_byt _ _ Hg) in Hl3. rewrite (g_byt _ _ Hg) in Hl2.
  replace (a + 3) with (a + 1 + 1 + 1) in Hl4 at 1 by lia. replace (a + 2) with (a + 1 + 1) in Hl3 at 1 by lia.
  unfold ld32. erewrite bind_Ok; [reflexivity|]. cbn [ldn].
  rewrite (bind_Ok _ _ _ _ _ Hl). erewrite bind_Ok; [reflexivity|]. rewrite (bind_Ok _ _ _ _ _ Hl2). erewrite bind_Ok; [reflexivity|].
  rewrite (bind_Ok _ _ _ _ _ Hl3). erewrite bind_Ok; [reflexivity|]. rewrite (bind_Ok _ _ _ _ _ Hl4). reflexivity.
Qed.

Lemma ld32_mapped h a s :
  a mod 4 = 0 -> is_mapped s a = true ->
  exists s', ld32 (H := fs_mem_with h) a s = Ok (wrd s a) s' /\ steady s s'.
Proof.
  intros Ha Hm. destruct (ld_mapped h a s Hm) as (s1 & Hl & Hg).
  destruct (ld32_from h a s s1 Ha Hl (proj1 Hg)) as (s' & Hs & Hg' & _); [eapply grows_mapped; [apply Hg|done]|].
  exists s'. split; [done|]. by eapply steady_trans.
Qed.

Lemma beyond_spec h s b :
  ready s = true ->
  exists s', beyond (H := fs_mem_with h) b s = Ok (negb ((super s =? 0) || (b <? nblk s))) s' /\ steady s s'.
Proof.
  intros (_ & _ & _ & Hs & _)%ready_spec. unfold beyond. rewrite (bind_Ok _ _ s (super s) s) by done.
  destruct Hs as [->|(-> & Hm & _)]; [exists s; split; [done|apply steady_refl]|]. change (SUPER =? 0) with false. cbn [orb].
  destruct (ld32_mapped h (s_nblocks SUPER) s) as (s' & Hl & Hg); [done|by rewrite (is_mapped_vpn _ _ SUPER)|].
  rewrite (bind_Ok _ _ _ _ _ Hl). exists s'. split; [|done]. unfold mret, M_ret. fold (nblk s). f_equal.
  by rewrite Z.ltb_antisym, negb_involutive.
Qed.

(** ** Page faults *)

Lemma mask_bit k : 0 <= k < 32 -> u32 (1 .<< k) = 2^k.
Proof.
  intros Hk. rewrite shiftl_mul by lia. rewrite Z.mul_1_l. apply u32_small. split; [lia|]. apply Z.pow_lt_mono_r; lia.
Qed.
Lemma bit_test w k : 0 <= k < 32 -> truth (w .& u32 (1 .<< k)) = Z.testbit w k.
Proof.
  intros Hk. rewrite mask_bit by done. unfold truth. destruct (Z.testbit w k) eqn:Hb.
  - apply negb_true_iff, Z.eqb_neq. intros H0. apply (f_equal (fun x => Z.testbit x k)) in H0.
    by rewrite Z.land_spec, Hb, Z.pow2_bits_true, Z.bits_0 in H0 by lia.
  - apply negb_false_iff, Z.eqb_eq. apply Z.bits_inj'. intros i Hi. rewrite Z.land_spec, Z.bits_0, Z.pow2_bits_eqb by lia.
    destruct (Z.eqb_spec k i) as [<-|]; [by rewrite Hb|apply andb_false_r].
Qed.

Lemma block_is_free_with h s b :
  ready s = true -> super s <> 0 -> bitmap s <> 0 -> 0 <= b ->
  (forall s1, grows s s1 -> b < nblk s -> exists s2, ld32 (H := fs_mem_with h) (BITMAP + 4 * (b / 32)) s1 =
     Ok (wrd s1 (BITMAP + 4 * (b / 32))) s2 /\ grows s1 s2) ->
  exists s', block_is_free (H := fs_mem_with h) b s = Ok ((b <? nblk s) && isfree s b) s' /\ grows s s'.
Proof.
  intros (_ & _ & _ & Hs & Hbm)%ready_spec Hs0 Hb0 Hb Hld. unfold block_is_free. rewrite (bind_Ok _ _ s (super s) s) by done.
  destruct Hs as [?|(-> & Hm & _)]; [done|]. destruct Hbm as [?|(_ & Hbm & _)]; [done|]. change (SUPER =? 0) with false.
  destruct (ld32_mapped h (s_nblocks SUPER) s) as (s1 & Hl & [Hg _]); [done|by rewrite (is_mapped_vpn _ _ SUPER)|].
  rewrite (bind_Ok _ _ _ _ _ Hl). fold (nblk s). rewrite Z.ltb_antisym. destruct (Z.leb_spec (nblk s) b) as [Hge|Hlt].
  { exists s1. split; [done|apply Hg]. }
  rewrite (bind_Ok _ _ s1 (bitmap s1) s1) by done. rewrite (g_bitmap _ _ Hg), Hbm.
  destruct (Hld s1 Hg Hlt) as (s2 & Hl2 & Hg2). rewrite (bind_Ok _ _ _ _ _ Hl2). exists s2. split; [|by eapply grows_trans].
  unfold mret, M_ret, isfree. rewrite bit_test by (apply Z.mod_pos_bound; lia). cbn [negb andb]. f_equal. f_equal.
  apply wrd_ext. intros. apply Hg.
Qed.

Lemma byt_page s v o p : fpages s !! v = Some p -> 0 <= o < 4096 -> byt s (v * 4096 + o) = pg_get p o.
Proof. intros Hp Ho. unfold byt. by rewrite vpn_at, Hp, off_at. Qed.

(** A block that is not cached is read in. *)
Lemma read_in h s v :
  healthy (ctl s) = true -> forallb (fun b => b) (answers s) = true -> 0 <= diskno s < 2 ->
  65536 <= v < 851968 -> fpages s !! v = None ->
  exists s1 s2 s3, fs_page_alloc (v * 4096) s = Ok 0 s1 /\
    ide_read (H := fs_mem_with h) (8 * (v - 65536)) (v * 4096) 8 s1 = Ok 0 s2 /\
    fs_page_remap (v * 4096) s2 = Ok 0 s3 /\ grows s s3 /\ is_mapped s3 (v * 4096) = true.
Proof.
  intros Hh Ha Hd Hv Hn. assert (Hvp := vpn_at v 0 ltac:(lia)). rewrite Z.add_0_r in Hvp.
  set (p0 := mkpage ∅ true false false 1). set (s1 := set_fpages (<[v := p0]> (fpages s)) (set_answers (tail (answers s)) s)).
  destruct (ide_read_spec h s1 v p0 (v - 65536)) as (c & p1 & Hr & Hc & (W & R & G)); [apply lookup_insert_eq|done|done|done|lia|].
  set (s2 := set_ctl c (set_fpages (<[v := p1]> (fpages s1)) s1)) in *.
  set (p2 := mkpage (pg_data p1) (pg_w p1) false false (pg_ref p1)).
  set (s3 := set_fpages (<[v := p2]> (fpages s2)) s2).
  assert (Hf3 : fpages s3 = <[v := p2]> (fpages s)).
  { unfold s3, s2, s1. cbn [fpages set_fpages set_ctl set_answers]. by rewrite !insert_insert_eq. }
  exists s1, s2, s3. split_and!.
  - unfold fs_page_alloc, s1. rewrite Hvp. clear -Ha. revert Ha. by destruct (answers s) as [|[] l].
  - exact Hr.
  - unfold fs_page_remap. rewrite Hvp. unfold s2 at 1. cbn [fpages set_ctl set_fpages]. by rewrite lookup_insert_eq.
  - split; try done.
    + intros a. unfold byt. rewrite Hf3. destruct (decide (v = vpn a)) as [->|Hne].
      * rewrite lookup_insert_eq, Hn. change (pg_get p2 (off a)) with (pg_get p1 (off a)). rewrite G.
        pose proof (off_range a). pose proof (vpn_off a). rewrite decide_True by lia.
        rewrite (proj2 (in_map_true a)) by clia. unfold dbyte. cbn [disks diskno s1 set_fpages set_answers]. repeat f_equal. clia.
      * by rewrite lookup_insert_ne.
    + intros v' q Hq. rewrite Hf3. exists q. rewrite lookup_insert_ne by congruence. split; [done|apply same_page_refl].
    + intros v' q Hn' Hq. rewrite Hf3 in Hq. destruct (decide (v = v')) as [<-|Hne].
      * rewrite lookup_insert_eq in Hq. injection Hq as <-. split; [|done]. apply in_map_true. clia.
      * rewrite lookup_insert_ne in Hq by done. congruence.
    + intros _. cbn [answers s3 s2 s1 set_fpages set_ctl set_answers]. destruct (answers s); [done|]. by apply andb_true_iff in Ha as [_ ?].
  - apply is_mapped_true. rewrite Hf3, Hvp. exists p2. apply lookup_insert_eq.
Qed.

(** How deep the faults of an access are nested *)
Definition need (s : fs) (a : Z) : nat :=
  if is_mapped s a then 0
  else if (bitmap s =? 0) || (blk_of a =? 2) then 1
  else if blk_of a <? 2 + nbm s then 2 else 3.

Lemma grows_need s s' a : grows s s' -> ready s = true -> (need s' a <= need s a)%nat.
Proof.
  intros Hg Hr. unfold need. destruct (is_mapped s a) eqn:Hm; [by rewrite (grows_mapped _ _ _ Hg Hm)|].
  destruct (is_mapped s' a); [lia|]. rewrite (g_bitmap _ _ Hg). destruct (Z.eqb_spec (bitmap s) 0) as [|Hb]; [done|].
  unfold nbm. rewrite (meta_nblk s s'); [done|by apply grows_meta|by apply ready_bs].
Qed.

Lemma blk_vpn a : in_map a = true -> blk_of a = vpn a - 65536 /\ 65536 <= vpn a < 851968.
Proof. rewrite in_map_true. unfold blk_of, vpn. intros. dlia. Qed.

Definition faults_ok (n : nat) : Prop := forall s a,
  ready s = true -> in_map a = true -> usable s (blk_of a) = true -> is_mapped s a = false -> (need s a <= n)%nat ->
  exists s', fault n a s = Ok tt s' /\ grows s s' /\ is_mapped s' a = true.

Lemma ld_level n s a :
  faults_ok n -> ready s = true -> accessible s a = true -> (need s a <= n)%nat ->
  exists s', fs_ldb (fault n) a s = Ok (byt s a) s' /\ grows s s' /\ is_mapped s' a = true.
Proof.
  intros Hf Hr Ha Hn. destruct (is_mapped s a) eqn:Hm.
  { destruct (ld_mapped (fault n) a s Hm) as (s' & Hl & [Hg _]). exists s'. split; [done|]. split; [done|]. by eapply grows_mapped. }
  unfold accessible in Ha. destruct (in_map a) eqn:Hi; [|congruence].
  destruct (Hf s a Hr Hi Ha Hm Hn) as (s1 & Hs1 & Hg1 & Hm1). destruct (ld_mapped (fault n) a s1 Hm1) as (s2 & Hl & [Hg2 _]).
  exists s2. split; [|split; [by eapply grows_trans|by eapply grows_mapped]].
  unfold fs_ldb. unfold is_mapped in Hm. apply bool_decide_eq_false, eq_None_not_Some in Hm.
  rewrite (bind_Ok _ _ s None s) by (unfold try_load; by rewrite Hm). rewrite (bind_Ok _ _ _ _ _ Hs1).
  unfold fs_ldb in Hl. rewrite (g_byt _ _ Hg1) in Hl. apply is_mapped_true in Hm1 as [p Hp].
  erewrite bind_Ok in Hl |- * by (unfold try_load; rewrite Hp; reflexivity). exact Hl.
Qed.

Lemma bitmap_word s b :
  ready s = true -> bitmap s <> 0 -> 0 <= b < nblk s ->
  accessible s (BITMAP + 4 * (b / 32)) = true /\ blk_of (BITMAP + 4 * (b / 32)) = 2 + b / 32768 /\
  blk_of (BITMAP + 4 * (b / 32)) < 2 + nbm s /\ in_map (BITMAP + 4 * (b / 32)) = true.
Proof.
  intros (_ & _ & _ & Hs & Hb)%ready_spec Hb0 Hr. destruct Hb as [?|(Hs0 & Hb & H3 & Hf)]; [done|].
  destruct Hs as [?|(Hs & _ & Hn)]; [done|].
  assert (Hblk : blk_of (BITMAP + 4 * (b / 32)) = 2 + b / 32768) by (unfold blk_of, BITMAP; Z.div_mod_to_equations; lia).
  assert (Hlt : 2 + b / 32768 < 2 + nbm s) by (unfold nbm; Z.div_mod_to_equations; lia).
  assert (Hi : in_map (BITMAP + 4 * (b / 32)) = true) by (apply in_map_true; unfold BITMAP; dlia).
  rewrite Hblk. split_and!; [|done..]. unfold accessible. rewrite Hi, Hblk. unfold usable.
  rewrite Hs, Hb. change (SUPER =? 0) with false. change (BITMAP =? 0) with false. cbn [orb]. rewrite Hf by (Z.div_mod_to_equations; lia).
  rewrite (proj2 (Z.ltb_lt _ _)); [done|]. unfold nbm in *. Z.div_mod_to_equations. lia.
Qed.

Lemma ld32_level n s a :
  faults_ok n -> ready s = true -> a mod 4 = 0 -> accessible s a = true -> (need s a <= n)%nat ->
  exists s', ld32 (H := fs_mem_with (fault n)) a s = Ok (wrd s a) s' /\ grows s s' /\ is_mapped s' a = true.
Proof.
  intros Hf Hr Ha Hac Hn. destruct (ld_level n s a Hf Hr Hac Hn) as (s1 & Hl & Hg & Hm).
  destruct (ld32_from _ _ _ _ Ha Hl Hg Hm) as (s2 & Hl2 & [Hg2 _] & Hm2).
  exists s2. split; [done|]. split; [by eapply grows_trans|done].
Qed.

(** The bit of a block that has just been read in takes one fault less than the block. *)
Lemma lookup_need n s a :
  ready s = true -> bitmap s <> 0 -> in_map a = true -> is_mapped s a = true -> blk_of a < nblk s ->
  (blk_of a = 2 \/ (blk_of a < 2 + nbm s /\ (1 <= n)%nat) \/ (2 <= n)%nat) ->
  (need s (BITMAP + 4 * (blk_of a / 32)) <= n)%nat.
Proof.
  intros Hr Hb Hi Hm Hlt Hn. destruct (blk_vpn a Hi) as [Hba Hva].
  destruct (bitmap_word s (blk_of a) Hr Hb ltac:(lia)) as (_ & Hbw & Hbw2 & Hiw). destruct (blk_vpn _ Hiw) as [Hvw _].
  apply ready_spec in Hr as (_ & _ & _ & Hs & Hb2). destruct Hb2 as [?|(Hs0 & _)]; [done|]. destruct Hs as [?|(_ & _ & Hmax)]; [done|].
  unfold need. set (w := BITMAP + 4 * (blk_of a / 32)) in *.
  destruct Hn as [H2|[[H1 Hn]|Hn]].
  - rewrite (is_mapped_vpn s w a); [by rewrite Hm; lia|]. rewrite H2 in Hbw. change (2 / 32768) with 0 in Hbw. lia.
  - assert (Hz : blk_of a / 32768 = 0) by (unfold nbm in H1; Z.div_mod_to_equations; lia). rewrite Hz in Hbw. rewrite Hbw.
    destruct (is_mapped s w); [lia|]. rewrite orb_true_r. lia.
  - rewrite (proj2 (Z.ltb_lt _ _) Hbw2). destruct (is_mapped s w); [lia|]. destruct (_ || _); lia.
Qed.

Lemma level_cases s s' a n :
  grows s s' -> ready s = true -> is_mapped s a = false -> bitmap s <> 0 -> (need s a <= S n)%nat ->
  (blk_of a = 2 \/ (blk_of a < 2 + nbm s' /\ (1 <= n)%nat) \/ (2 <= n)%nat).
Proof.
  intros Hg Hr Hm Hb. unfold need. rewrite Hm. pose proof (ready_bs s Hr Hb) as Hs.
  apply Z.eqb_neq in Hb. rewrite Hb. cbn [orb]. unfold nbm. rewrite (meta_nblk s s'); [|by apply grows_meta|done].
  destruct (Z.eqb_spec (blk_of a) 2); [by left|]. destruct (Z.ltb_spec (blk_of a) (2 + (nblk s + 32767) / 32768)); intros; [right; left|right; right]; lia.
Qed.

Lemma usable_free s b : ready s = true -> bitmap s <> 0 -> usable s b = true -> b < nblk s /\ isfree s b = false.
Proof.
  intros Hr Hb. unfold usable. pose proof (ready_bs s Hr Hb) as Hs. apply Z.eqb_neq in Hb, Hs. rewrite Hb, Hs. cbn [orb].
  by intros [?%Z.ltb_lt ?%negb_true_iff]%andb_true_iff.
Qed.

(** The handler, where the fault is on a block whose bit can be looked up with [n] faults *)
Lemma faults_step n : faults_ok n -> faults_ok (S n).
Proof.
  intros IH s a Hr Hi Hu Hm Hn. destruct (blk_vpn a Hi) as [Hb Hv]. set (v := vpn a) in *.
  assert (Hblk : u32 (a - DISKMAP) / BLKSIZE = blk_of a) by (apply in_map_true in Hi; rewrite u32_small by clia; done).
  assert (Hrd : ROUNDDOWN a PGSIZE = v * 4096).
  { unfold ROUNDDOWN. apply in_map_true in Hi. rewrite (u32_small a) by clia. unfold v, vpn. cc. rewrite u32_small; Z.div_mod_to_equations; lia. }
  assert (Hsec : u32 (blk_of a * BLKSECTS) = 8 * (v - 65536)) by (rewrite Hb; change BLKSECTS with 8; rewrite u32_small; lia).
  assert (Hu' := Hu). unfold usable in Hu'. apply andb_true_iff in Hu' as [Hu1 Hu2].
  cbn [fault]. unfold bc_pgfault. rewrite Hblk, Hrd, Hsec. change BLKSECTS with 8.
  assert (Hbad : bad_addr a = false).
  { unfold bad_addr. apply in_map_true in Hi. apply orb_false_iff. rewrite Z.ltb_ge, Z.leb_gt. lia. }
  rewrite Hbad. destruct (beyond_spec (fault n) s (blk_of a) Hr) as (s1 & Hs1 & [Hg1 Hn1]).
  rewrite (bind_Ok _ _ _ _ _ Hs1), Hu1. cbn [negb].
  assert (Hr1 := grows_ready _ _ Hg1 Hr). assert (Hr1' := Hr1). apply ready_spec in Hr1' as (Hh1 & Ha1 & Hd1 & _).
  destruct (read_in (fault n) s1 v Hh1 Ha1 Hd1) as (s2 & s3 & s4 & E2 & E3 & E4 & Hg4 & Hm4); [lia| |].
  { apply Hn1. unfold is_mapped in Hm. by apply bool_decide_eq_false, eq_None_not_Some in Hm. }
  rewrite (bind_Ok _ _ _ _ _ E2). cbn [truth Z.eqb negb]. rewrite (bind_Ok _ _ _ _ _ E3). cbn [Z.ltb Z.compare].
  rewrite (bind_Ok _ _ _ _ _ E4). cbn [Z.ltb Z.compare]. assert (Hg : grows s s4) by (by eapply grows_trans).
  assert (Hr4 := grows_ready _ _ Hg Hr). rewrite (bind_Ok _ _ s4 (bitmap s4) s4) by done.
  assert (Hm4' : is_mapped s4 a = true).
  { rewrite <- Hm4. apply is_mapped_vpn. fold v. rewrite <- (Z.add_0_r (v * 4096)). by rewrite vpn_at by lia. }
  destruct (Z.eqb_spec (bitmap s4) 0) as [Hb0|Hb0]; [exists s4; by split_and!|].
  assert (Hu4 : usable s4 (blk_of a) = true).
  { rewrite (meta_usable s s4); [done|by apply grows_meta|by apply ready_bs|lia]. }
  destruct (usable_free s4 _ Hr4 Hb0 Hu4) as [Hlt Hnf].
  destruct (block_is_free_with (fault n) s4 (blk_of a) Hr4) as (s5 & Hs5 & Hg5); [by apply ready_bs|done|lia| |].
  - intros s5 Hg5 _. assert (Hr5 := grows_ready _ _ Hg5 Hr4). assert (Hb5 : bitmap s5 <> 0) by (by rewrite (g_bitmap _ _ Hg5)).
    assert (Hlt5 : blk_of a < nblk s5).
    { rewrite (meta_nblk s4 s5); [done|by apply grows_meta|by apply ready_bs]. }
    destruct (ld32_level n s5 (BITMAP + 4 * (blk_of a / 32))) as (s6 & Hl6 & Hg6 & _); [done|done| | | |by exists s6].
    + unfold BITMAP. cc. Z.div_mod_to_equations. lia.
    + apply bitmap_word; [done|done|lia].
    + apply lookup_need; [done|done|done|by eapply grows_mapped|done|].
      apply (level_cases s s5 a n); [by eapply grows_trans|done|done| |done]. by rewrite (g_bitmap _ _ Hg5), (g_bitmap _ _ Hg) in Hb5.
  - rewrite Hnf, andb_false_r in Hs5. rewrite (bind_Ok _ _ _ _ _ Hs5).
    exists s5. split; [done|split; [by eapply grows_trans|by eapply grows_mapped]].
Qed.

Lemma faults_all n : faults_ok n.
Proof.
  induction n as [|n IH]; [|by apply faults_step]. intros s a _ _ _ Hm Hn. unfold need in Hn. rewrite Hm in Hn.
  destruct (_ || _); [lia|]. destruct (_ <? _); lia.
Qed.

Lemma need_FAULTS s a : (need s a <= FAULTS)%nat.
Proof. unfold need, FAULTS. destruct (is_mapped s a); [lia|]. destruct (_ || _); [lia|]. destruct (_ <? _); lia. Qed.

(** ** The disk map as an address space *)

(** Clean pages hold what is on the disk. *)
Definition cached_ok (s : fs) : Prop := forall v p o,
  fpages s !! v = Some p -> in_map (v * 4096) = true -> pg_dirty p = false -> 0 <= o < 4096 ->
  pg_get p o = dbyte s (diskno s) (v * 4096 + o - DISKMAP).

Definition writable_page (s : fs) (a : Z) : bool := default true (pg_w <$> fpages s !! vpn a).

Record fs_rest (s s' : fs) : Prop := {
  r_super : super s' = super s;
  r_bitmap : bitmap s' = bitmap s;
  r_diskno : diskno s' = diskno s;
  r_opentab : opentab s' = opentab s;
  r_ready : ready s = true -> ready s' = true;
  r_meta a : ready s = true -> meta s a = true -> byt s' a = byt s a;
  r_raw a : ready s = true -> accessible s a = false -> byt s' a = byt s a;
  r_other d a : d <> diskno s -> dbyte s' d a = dbyte s d a;
  r_pages v p : fpages s !! v = Some p ->
    exists p', fpages s' !! v = Some p' /\ pg_w p' = pg_w p /\ pg_ref p' = pg_ref p;
  r_new v p : fpages s !! v = None -> fpages s' !! v = Some p -> in_map (v * 4096) = true /\ pg_w p = true;
  r_cached : cached_ok s -> cached_ok s';
}.

Lemma rest_meta s s' : fs_rest s s' -> ready s = true -> meta_eq s s'.
Proof. intros Hr Hs. split; [apply Hr|apply Hr|]. intros a. by apply (r_meta _ _ Hr). Qed.

Lemma rest_accessible s s' a : fs_rest s s' -> ready s = true -> accessible s' a = accessible s a.
Proof.
  intros Hr Hs. unfold accessible. destruct (in_map a) eqn:Ha.
  - apply meta_usable; [by apply rest_meta|by apply ready_bs|]. apply in_map_true in Ha. unfold blk_of. apply Z.div_pos; lia.
  - unfold is_mapped. destruct (fpages s !! vpn a) as [p|] eqn:Hp.
    + destruct (r_pages _ _ Hr _ p Hp) as (p' & -> & _). done.
    + destruct (fpages s' !! vpn a) as [p|] eqn:Hp'; [|done]. destruct (r_new _ _ Hr _ p Hp Hp') as [Hi _].
      exfalso. revert Ha Hi. rewrite in_map_false, in_map_true. unfold vpn. cc. Z.div_mod_to_equations. lia.
Qed.

Lemma fs_rest_refl s : fs_rest s s.
Proof. split; try done; [eauto|congruence]. Qed.

Lemma fs_rest_trans s1 s2 s3 : fs_rest s1 s2 -> fs_rest s2 s3 -> fs_rest s1 s3.
Proof.
  intros H1 H2. split.
  1-4: by etransitivity; [apply H2|apply H1].
  - intros Hr. by apply H2, H1.
  - intros a Hr Ha. rewrite (r_meta _ _ H2); [by apply (r_meta _ _ H1)|by apply (r_ready _ _ H1)|].
    rewrite (meta_meta s1 s2); [done|by apply rest_meta|by apply ready_bs].
  - intros a Hr Ha. rewrite (r_raw _ _ H2); [by apply (r_raw _ _ H1)|by apply (r_ready _ _ H1)|]. by rewrite (rest_accessible s1 s2).
  - intros d a Hd. rewrite (r_other _ _ H2), (r_other _ _ H1); [done|done|]. by rewrite (r_diskno _ _ H1).
  - intros v p Hp. destruct (r_pages _ _ H1 v p Hp) as (p1 & Hp1 & W1 & R1). destruct (r_pages _ _ H2 v p1 Hp1) as (p2 & Hp2 & W2 & R2).
    exists p2. split; [done|]. split; congruence.
  - intros v p Hn Hp. destruct (fpages s2 !! v) as [p1|] eqn:Hp1; [|by apply (r_new _ _ H2 v p)].
    destruct (r_new _ _ H1 v p1 Hn Hp1) as (A & B). destruct (r_pages _ _ H2 v p1 Hp1) as (p2 & Hp2 & W & _).
    rewrite Hp in Hp2. injection Hp2 as <-. by rewrite W.
  - intros Hc. by apply H2, H1.
Qed.

Lemma grows_cached s s' : grows s s' -> cached_ok s -> cached_ok s'.
Proof.
  intros Hg Hc v p o Hp Hi Hd Ho. unfold dbyte. rewrite (g_disks _ _ Hg), (g_diskno _ _ Hg).
  fold (dbyte s (diskno s) (v * 4096 + o - DISKMAP)). destruct (fpages s !! v) as [q|] eqn:Hq.
  - destruct (g_pages _ _ Hg v q Hq) as (p' & Hp' & Hs). rewrite Hp in Hp'. injection Hp' as <-.
    rewrite (same_page_get q p _ Hs). apply (Hc v q o Hq Hi); [|done]. destruct Hs as (_ & _ & Hs & _). congruence.
  - rewrite <- (byt_page s' v o p Hp Ho), (g_byt _ _ Hg). unfold byt. rewrite vpn_at, Hq by done.
    rewrite (proj2 (in_map_true _)); [done|]. apply in_map_true in Hi. revert Hi. cc. Z.div_mod_to_equations. lia.
Qed.

Lemma grows_rest s s' : grows s s' -> fs_rest s s'.
Proof.
  intros Hg. split.
  1-4: by apply Hg.
  - by apply grows_ready.
  - intros a _ _. apply (g_byt _ _ Hg).
  - intros a _ _. apply (g_byt _ _ Hg).
  - intros d a _. unfold dbyte. by rewrite (g_disks _ _ Hg).
  - intros v p Hp. destruct (g_pages _ _ Hg v p Hp) as (p' & Hp' & _ & W & _ & R). eauto.
  - intros v p Hn Hp. destruct (g_new _ _ Hg v p Hn Hp) as (A & B & _). done.
  - by apply grows_cached.
Qed.

Definition fs_view (s : fs) (a : Z) : option Z := if ready s && accessible s a then Some (byt s a) else None.
Definition fs_wr (s : fs) (a : Z) : Prop :=
  ready s = true /\ accessible s a = true /\ meta s a = false /\ writable_page s a = true.

Lemma grows_view s s' a : grows s s' -> ready s = true -> fs_view s' a = fs_view s a.
Proof.
  intros Hg Hr. unfold fs_view. rewrite Hr, (grows_ready _ _ Hg Hr), (rest_accessible s s'), (g_byt _ _ Hg); [done|by apply grows_rest|done].
Qed.

Lemma rest_wr s s' a : fs_rest s s' -> fs_wr s a -> fs_wr s' a.
Proof.
  intros Hr (H1 & H2 & H3 & H4). split_and!.
  - by apply Hr.
  - by rewrite (rest_accessible s s').
  - rewrite (meta_meta s s'); [done|by apply rest_meta|by apply ready_bs].
  - unfold writable_page in *. destruct (fpages s !! vpn a) as [p|] eqn:Hp.
    + destruct (r_pages _ _ Hr _ p Hp) as (p' & -> & W & _). simpl in *. congruence.
    + destruct (fpages s' !! vpn a) as [p|] eqn:Hp'; [|done]. by destruct (r_new _ _ Hr _ p Hp Hp') as [_ ?].
Qed.

Lemma ld_ok s a b :
  fs_view s a = Some b -> exists s', ldb a s = Ok b s' /\ grows s s' /\ is_mapped s' a = true.
Proof.
  unfold fs_view. destruct (ready s && accessible s a) eqn:He; [|done]. apply andb_true_iff in He as [Hr Ha]. intros [= <-].
  apply (ld_level FAULTS); [apply faults_all|done|done|apply need_FAULTS].
Qed.

(** A store to a page that is there *)
Lemma st_mapped s a b p :
  fpages s !! vpn a = Some p -> pg_w p = true -> ready s = true -> accessible s a = true -> meta s a = false ->
  let s' := set_fpages (<[vpn a := touch_w (off a) b p]> (fpages s)) s in
  fs_rest s s' /\ (forall a', byt s' a' = if decide (a = a') then u8 b else byt s a').
Proof.
  intros Hp Hw Hr Hac Hm s'.
  assert (Hb : forall a', byt s' a' = if decide (a = a') then u8 b else byt s a').
  { intros a'. unfold byt, s'. cbn [fpages set_fpages]. destruct (decide (vpn a = vpn a')) as [He|Hne].
    - rewrite <- He, lookup_insert_eq, Hp, pg_get_touch_w. pose proof (vpn_off a). pose proof (vpn_off a').
      destruct (decide (a = a')) as [->|]; [by rewrite decide_True|rewrite decide_False; [done|congruence]].
    - rewrite lookup_insert_ne by done. rewrite decide_False; [done|congruence]. }
  split; [|done].
  assert (Hme : meta_eq s s').
  { split; [done|done|]. intros a' Ha'. rewrite Hb, decide_False; [done|congruence]. }
  split; try done.
  - intros _. apply (ready_meta s); [done| |done|done|done|done]. intros [q Hq]%is_mapped_true. apply is_mapped_true.
    unfold s'. cbn [fpages set_fpages]. destruct (decide (vpn a = vpn SUPER)) as [->|Hne]; [rewrite lookup_insert_eq; eauto|].
    rewrite lookup_insert_ne by done. eauto.
  - intros a' _ Ha'. by apply (me_byt _ _ Hme).
  - intros a' _ Ha'. rewrite Hb, decide_False; [done|congruence].
  - intros v q Hq. unfold s'. cbn [fpages set_fpages]. destruct (decide (vpn a = v)) as [<-|Hne].
    + rewrite lookup_insert_eq. exists (touch_w (off a) b p). split; [done|]. by assert (q = p) as -> by congruence.
    + rewrite lookup_insert_ne by done. eauto.
  - intros v q Hn Hq. unfold s' in Hq. cbn [fpages set_fpages] in Hq. rewrite lookup_insert_ne in Hq by congruence. congruence.
  - intros Hc v q o Hq Hi Hd Ho. unfold s' in Hq. cbn [fpages set_fpages] in Hq. destruct (decide (vpn a = v)) as [<-|Hne].
    + rewrite lookup_insert_eq in Hq. by injection Hq as <-.
    + rewrite lookup_insert_ne in Hq by done. by apply (Hc v q o).
Qed.

Lemma fault_ok s a :
  ready s = true -> in_map a = true -> accessible s a = true -> is_mapped s a = false ->
  exists s', fault FAULTS a s = Ok tt s' /\ grows s s' /\ is_mapped s' a = true.
Proof.
  intros Hr Hi Ha Hm. unfold accessible in Ha. rewrite Hi in Ha. by apply faults_all; [..|apply need_FAULTS].
Qed.

Lemma st_ok s a b :
  fs_wr s a ->
  exists s', stb a b s = Ok tt s' /\ fs_rest s s' /\ disks s' = disks s /\
    forall a', byt s' a' = if decide (a = a') then u8 b else byt s a'.
Proof.
  intros Hwr. assert (Hwr' := Hwr). destruct Hwr' as (Hr & Ha & Hm & Hw). unfold writable_page in Hw.
  destruct (fpages s !! vpn a) as [p|] eqn:Hp.
  { eexists. split; [by apply (fs_stb_mapped _ a b s p)|]. destruct (st_mapped s a b p Hp Hw Hr Ha Hm) as [? ?]. by split_and!. }
  assert (Hnm : is_mapped s a = false) by (unfold is_mapped; rewrite Hp; done).
  destruct (in_map a) eqn:Hi; [|unfold accessible in Ha; rewrite Hi in Ha; congruence].
  destruct (fault_ok s a Hr Hi Ha Hnm) as (s1 & Hs1 & Hg & Hm1). assert (Hrest := grows_rest _ _ Hg).
  destruct (rest_wr s s1 a Hrest Hwr) as (Hr1 & Hac1 & Hme1 & Hw1). apply is_mapped_true in Hm1 as [p1 Hp1].
  unfold writable_page in Hw1. rewrite Hp1 in Hw1. simpl in Hw1.
  destruct (st_mapped s1 a b p1 Hp1 Hw1 Hr1 Hac1 Hme1) as [Hrest2 Hb2].
  eexists. split; [|split; [eapply fs_rest_trans; [exact Hrest|exact Hrest2]|split; [apply (g_disks _ _ Hg)|]]].
  - pose proof (fs_stb_mapped (fault FAULTS) a b s1 p1 Hp1 Hw1) as Hst. simpl. unfold fs_stb in Hst |- *.
    rewrite (bind_Ok _ _ s false s) by (unfold try_store; by rewrite Hp). rewrite (bind_Ok _ _ _ _ _ Hs1).
    erewrite bind_Ok in Hst |- * by (unfold try_store; rewrite Hp1, Hw1; reflexivity). exact Hst.
  - intros a'. rewrite Hb2. by rewrite (g_byt _ _ Hg).
Qed.

#[export] Instance fs_laws : MemLaws fs.
Proof.
  refine {| view := fs_view; wr := fs_wr; rest := fs_rest |}.
  - apply fs_rest_refl.
  - apply fs_rest_trans.
  - apply rest_wr.
  - intros s a (H1 & H2 & _). unfold fs_view. rewrite H1, H2. simpl. eauto.
  - unfold fs_view. intros s a b. destruct (_ && _); [|done]. intros [= <-]. apply byt_range.
  - intros s a b Hv. destruct (ld_ok s a b Hv) as (s' & Hl & Hg & _). exists s'. split; [done|]. split; [by apply grows_rest|].
    intros a'. apply grows_view; [done|]. unfold fs_view in Hv. by destruct (ready s).
  - intros s a b Hw. destruct (st_ok s a b Hw) as (s' & Hs & Hr & _ & Hb). exists s'. split; [done|]. split; [done|].
    destruct Hw as (H1 & H2 & _). intros a'. unfold fs_view. rewrite H1, (r_ready _ _ Hr H1), (rest_accessible s s'), Hb by done.
    destruct (decide (a = a')) as [<-|]; [by rewrite H2|done].
Defined.

(** ** Flushing *)

(** What every operation of the server leaves alone; [ready] says that it can go on. *)
Record fs_core (s s' : fs) : Prop := {
  c_super : super s' = super s;
  c_bitmap : bitmap s' = bitmap s;
  c_diskno : diskno s' = diskno s;
  c_opentab : opentab s' = opentab s;
  c_ready : ready s = true -> ready s' = true;
  c_other d a : d <> diskno s -> dbyte s' d a = dbyte s d a;
  c_pages v p : fpages s !! v = Some p ->
    exists p', fpages s' !! v = Some p' /\ pg_w p' = pg_w p /\ pg_ref p' = pg_ref p;
  c_new v p : fpages s !! v = None -> fpages s' !! v = Some p -> in_map (v * 4096) = true /\ pg_w p = true;
  c_cached : cached_ok s -> cached_ok s';
}.

Lemma rest_core s s' : fs_rest s s' -> fs_core s s'.
Proof. intros Hr. split; apply Hr. Qed.

Lemma core_refl s : fs_core s s.
Proof. apply rest_core, fs_rest_refl. Qed.
Lemma core_trans s1 s2 s3 : fs_core s1 s2 -> fs_core s2 s3 -> fs_core s1 s3.
Proof.
  intros H1 H2. split.
  1-4: by etransitivity; [apply H2|apply H1].
  - intros Hr. by apply (c_ready _ _ H2), (c_ready _ _ H1).
  - intros d a Hd. rewrite (c_other _ _ H2), (c_other _ _ H1); [done|done|]. by rewrite (c_diskno _ _ H1).
  - intros v p Hp. destruct (c_pages _ _ H1 v p Hp) as (p1 & Hp1 & W1 & R1). destruct (c_pages _ _ H2 v p1 Hp1) as (p2 & Hp2 & W2 & R2).
    exists p2. split; [done|]. split; congruence.
  - intros v p Hn Hp. destruct (fpages s2 !! v) as [p1|] eqn:Hp1; [|by apply (c_new _ _ H2 v p)].
    destruct (c_new _ _ H1 v p1 Hn Hp1) as (A & B). destruct (c_pages _ _ H2 v p1 Hp1) as (p2 & Hp2 & W & _).
    rewrite Hp in Hp2. injection Hp2 as <-. by rewrite W.
  - intros Hc. by apply (c_cached _ _ H2), (c_cached _ _ H1).
Qed.

(** The contents of block [b] are on the disk. *)
Definition durable (s : fs) (b : Z) : Prop := forall o, 0 <= o < 4096 ->
  dbyte s (diskno s) (b * 4096 + o) = byt s (DISKMAP + b * 4096 + o).

Lemma in_map_block b o : 0 <= b < 786432 -> 0 <= o < 4096 -> in_map (DISKMAP + b * 4096 + o) = true.
Proof. intros. apply in_map_true. clia. Qed.

Lemma durable_clean s b :
  0 <= b < 786432 -> cached_ok s ->
  (forall p, fpages s !! (65536 + b) = Some p -> pg_dirty p = false) -> durable s b.
Proof.
  intros Hb Hc Hd o Ho. unfold byt. replace (DISKMAP + b * 4096 + o) with ((65536 + b) * 4096 + o) by clia. rewrite vpn_at, off_at by done.
  destruct (fpages s !! (65536 + b)) as [p|] eqn:Hp.
  - rewrite (Hc _ p o Hp); [f_equal; clia| |by apply Hd|done]. apply in_map_true. clia.
  - rewrite (proj2 (in_map_true _)) by clia. f_equal. clia.
Qed.

(** Writing a page back *)
Lemma write_back s v p c D p1 :
  fpages s !! v = Some p -> 65536 <= v < 851968 -> ready s = true -> healthy c = true -> page_same p p1 ->
  written (disks s) D (diskno s) ((v - 65536) * 4096) ((v - 65536) * 4096 + 4096) (fun a => pg_get p (a - (v - 65536) * 4096)) ->
  let s' := set_fpages (<[v := mkpage (pg_data p1) (pg_w p1) false false (pg_ref p1)]> (fpages s)) (set_ctl c (set_disks D s)) in
  (forall a, byt s' a = byt s a) /\ fs_core s s' /\ durable s' (v - 65536) /\ forall b, durable s b -> durable s' b.
Proof.
  intros Hp Hv Hr Hh Hsp HD s'. set (p2 := mkpage _ _ _ _ _) in s'.
  assert (Hg : forall o, pg_get p2 o = pg_get p o) by (intros o; by rewrite <- (same_page_get p p1 o Hsp)).
  assert (Hf : fpages s' = <[v := p2]> (fpages s)) by done.
  assert (HD' : forall d a, dbyte s' d a = if decide (d = diskno s /\ (v - 65536) * 4096 <= a < (v - 65536) * 4096 + 4096)
    then pg_get p (a - (v - 65536) * 4096) else dbyte s d a) by (intros d a; apply HD).
  assert (Hin : forall a, in_map a = true -> vpn a <> v -> ~ ((v - 65536) * 4096 <= a - DISKMAP < (v - 65536) * 4096 + 4096)).
  { intros a Hi Hne Ha. apply Hne. unfold vpn. revert Ha. cc. Z.div_mod_to_equations. lia. }
  assert (Hb : forall a, byt s' a = byt s a).
  { intros a. unfold byt. rewrite Hf. destruct (decide (v = vpn a)) as [He|Hne].
    - rewrite <- He, lookup_insert_eq, Hp. apply Hg.
    - rewrite lookup_insert_ne by done. destruct (fpages s !! vpn a); [done|]. destruct (in_map a) eqn:Hi; [|done].
      rewrite HD'. rewrite decide_False; [done|]. intros [_ ?]. by apply (Hin a Hi). }
  assert (Hnew : durable s' (v - 65536)).
  { intros o Ho. rewrite Hb. replace (DISKMAP + (v - 65536) * 4096 + o) with (v * 4096 + o) by clia.
    rewrite (byt_page s v o p Hp Ho), HD'. change (diskno s') with (diskno s). rewrite decide_True by lia. f_equal. lia. }
  split; [done|]. split; [|split; [done|]].
  2:{ intros b Hdb o Ho. destruct (decide (b = v - 65536)) as [->|Hne]; [by apply Hnew|].
      rewrite Hb, <- (Hdb o Ho), HD'. rewrite decide_False; [done|]. intros [_ ?]. lia. }
  split; try done.
  - intros _. apply (ready_meta s); [split; [done|done|intros; apply Hb]| |done|done|done|done].
    intros [q Hq]%is_mapped_true. apply is_mapped_true. rewrite Hf. destruct (decide (v = vpn SUPER)) as [->|]; [rewrite lookup_insert_eq|rewrite lookup_insert_ne by done]; eauto.
  - intros d a Hd. rewrite HD', decide_False; [done|]. by intros [? _].
  - intros v' q Hq. rewrite Hf. destruct (decide (v = v')) as [<-|Hne]; [rewrite lookup_insert_eq|rewrite lookup_insert_ne by done; eauto].
    exists p2. split; [done|]. assert (q = p) as -> by congruence. destruct Hsp as (_ & W & _ & R). done.
  - intros v' q Hn Hq. rewrite Hf in Hq. rewrite lookup_insert_ne in Hq by congruence. congruence.
  - intros Hc v' q o Hq Hi Hd Ho. rewrite Hf in Hq. destruct (decide (v = v')) as [<-|Hne].
    + rewrite lookup_insert_eq in Hq. injection Hq as <-. rewrite Hg, HD'. change (diskno s') with (diskno s).
      rewrite decide_True by clia. f_equal. clia.
    + rewrite lookup_insert_ne in Hq by done. rewrite (Hc v' q o Hq Hi Hd Ho), HD'. change (diskno s') with (diskno s).
      rewrite decide_False; [done|]. intros [_ ?]. clia.
Qed.

Lemma flush_spec s a :
  ready s = true -> in_map a = true ->
  exists s', flush_block a s = Ok tt s' /\ fs_core s s' /\ (forall a', byt s' a' = byt s a') /\
    (cached_ok s -> durable s' (blk_of a)) /\ (forall b, durable s b -> durable s' b).
Proof.
  intros Hr Hi. destruct (blk_vpn a Hi) as [Hb Hv]. set (v := vpn a) in *. unfold flush_block.
  assert (Hbad : bad_addr a = false).
  { unfold bad_addr. apply in_map_true in Hi. apply orb_false_iff. rewrite Z.ltb_ge, Z.leb_gt. lia. }
  assert (Hrd : ROUNDDOWN a PGSIZE = v * 4096).
  { unfold ROUNDDOWN. apply in_map_true in Hi. rewrite (u32_small a) by clia. unfold v, vpn. cc. rewrite u32_small; Z.div_mod_to_equations; lia. }
  assert (Hblk : u32 (u32 (a - DISKMAP) / BLKSIZE * BLKSECTS) = 8 * (v - 65536)).
  { apply in_map_true in Hi. rewrite (u32_small (a - DISKMAP)) by clia. change ((a - DISKMAP) / BLKSIZE) with (blk_of a).
    rewrite Hb. change BLKSECTS with 8. rewrite u32_small; lia. }
  assert (Hvp := vpn_at v 0 ltac:(lia)). rewrite Z.add_0_r in Hvp.
  rewrite Hbad, Hrd, Hblk. unfold va_is_mapped, va_is_dirty, is_mapped.
  rewrite (bind_Ok _ _ s (bool_decide (is_Some (fpages s !! v))) s) by (unfold mget; by rewrite Hvp).
  rewrite (bind_Ok _ _ s (default false (pg_dirty <$> fpages s !! v)) s) by (unfold mget; by rewrite Hvp).
  assert (Hclean : (forall p, fpages s !! v = Some p -> pg_dirty p = false) -> cached_ok s -> durable s (blk_of a)).
  { intros Hd Hc. rewrite Hb. apply durable_clean; [lia|done|]. intros p. replace (65536 + (v - 65536)) with v by lia. apply Hd. }
  destruct (fpages s !! v) as [p|] eqn:Hp.
  2:{ exists s. split; [done|]. split; [apply core_refl|]. split; [done|]. split; [|done]. by apply Hclean. }
  cbn. destruct (pg_dirty p) eqn:Hd; cbn [negb].
  2:{ exists s. split; [done|]. split; [apply core_refl|]. split; [done|]. split; [|done]. apply Hclean. congruence. }
  assert (Hr' := Hr). apply ready_spec in Hr' as (Hh & _ & Hdn & _).
  destruct (ide_write_spec (fault FAULTS) s v p (v - 65536) Hp Hh Hdn) as (c & D & p1 & Hw & Hc & Hsp & HD); [lia|].
  erewrite bind_Ok by exact Hw. cbn [Z.eqb negb]. set (s2 := set_ctl _ _).
  destruct (write_back s v p c D p1 Hp Hv Hr Hc Hsp HD) as (Hb' & Hcore & Hdur & Hmono). set (s3 := set_fpages (<[v := mkpage _ _ _ _ _]> _) _) in *.
  assert (Hrm : fs_page_remap (v * 4096) s2 = Ok 0 s3).
  { unfold fs_page_remap. rewrite Hvp. change (fpages s2) with (<[v := p1]> (fpages s)). rewrite lookup_insert_eq, insert_insert_eq.
    reflexivity. }
  erewrite bind_Ok by exact Hrm. exists s3. split; [done|]. split; [done|]. split; [done|]. split; [|done]. by rewrite Hb.
Qed.

(** ** The cache refines a plain disk *)

Inductive op :=
  | Load (a : Z)
  | Store (a b : Z)
  | Flush (a : Z).

Definition run_op (o : op) : M fs Z :=
  match o with
  | Load a => ldb a
  | Store a b => stb a b;; mret 0
  | Flush a => flush_block a;; mret 0
  end.
Fixpoint run_ops (os : list op) : M fs (list Z) :=
  match os with
  | [] => mret []
  | o :: os => r ← run_op o; rs ← run_ops os; mret (r :: rs)
  end.

(** The specification: contents, and the blocks whose contents would survive a crash *)
Definition spec_op (o : op) (m : Z -> Z) (dur : Z -> bool) : Z * (Z -> Z) * (Z -> bool) :=
  match o with
  | Load a => (m a, m, dur)
  | Store a b => (0, fun x => if decide (a = x) then u8 b else m x, fun k => if decide (k = blk_of a) then false else dur k)
  | Flush a => (0, m, fun k => if decide (k = blk_of a) then true else dur k)
  end.
Fixpoint spec_ops (os : list op) (m : Z -> Z) (dur : Z -> bool) : list Z * (Z -> Z) * (Z -> bool) :=
  match os with
  | [] => ([], m, dur)
  | o :: os => let '(r, m, dur) := spec_op o m dur in let '(rs, m, dur) := spec_ops os m dur in (r :: rs, m, dur)
  end.

Definition allowed (s : fs) (o : op) : Prop :=
  match o with
  | Load a => accessible s a = true
  | Store a b => fs_wr s a
  | Flush a => in_map a = true
  end.

(** The simulation relation *)
Record simulates (s : fs) (m : Z -> Z) (dur : Z -> bool) : Prop := {
  sim_ready : ready s = true;
  sim_cached : cached_ok s;
  sim_byt a : byt s a = m a;
  sim_dur b : 0 <= b < 786432 -> dur b = true -> durable s b;
}.

Lemma durable_ext s s' b :
  disks s' = disks s -> diskno s' = diskno s -> (forall o, 0 <= o < 4096 -> byt s' (DISKMAP + b * 4096 + o) = byt s (DISKMAP + b * 4096 + o)) ->
  durable s b -> durable s' b.
Proof. intros Hd Hn Hb Hdur o Ho. rewrite Hb by done. unfold dbyte. rewrite Hd, Hn. by apply Hdur. Qed.

(** The access rights depend on [meta] only. *)
Lemma core_allowed s s' o :
  fs_core s s' -> ready s = true -> (forall a, meta s a = true -> byt s' a = byt s a) -> allowed s o -> allowed s' o.
Proof.
  intros Hc Hr Hm. assert (Hme : meta_eq s s') by (split; [apply Hc|apply Hc|done]).
  assert (Hacc : forall a, accessible s a = true -> accessible s' a = true).
  { intros a. unfold accessible. destruct (in_map a) eqn:Ha.
    - rewrite (meta_usable s s' Hme); [done|by apply ready_bs|]. apply in_map_true in Ha. unfold blk_of. apply Z.div_pos; lia.
    - intros [p Hp]%is_mapped_true. apply is_mapped_true. destruct (c_pages _ _ Hc _ p Hp) as (p' & ? & _). eauto. }
  destruct o as [a|a b|a]; cbn [allowed]; [apply Hacc| |done]. intros (H1 & H2 & H3 & H4). split_and!.
  - by apply Hc.
  - auto.
  - rewrite (meta_meta s s' Hme); [done|by apply ready_bs].
  - unfold writable_page in *. destruct (fpages s !! vpn a) as [p|] eqn:Hp.
    + destruct (c_pages _ _ Hc _ p Hp) as (p' & -> & W & _). simpl in *. congruence.
    + destruct (fpages s' !! vpn a) as [p|] eqn:Hp'; [|done]. by destruct (c_new _ _ Hc _ p Hp Hp') as [_ ?].
Qed.

Lemma op_simulates s m dur o :
  simulates s m dur -> allowed s o ->
  let '(r, m', dur') := spec_op o m dur in
  exists s', run_op o s = Ok r s' /\ simulates s' m' dur' /\ fs_core s s' /\ forall a, meta s a = true -> byt s' a = byt s a.
Proof.
  intros [Hr Hc Hb Hd] Ha. destruct o as [a|a b|a]; cbn [spec_op run_op allowed] in *.
  - destruct (ld_ok s a (byt s a)) as (s' & Hl & Hg & _); [unfold fs_view; by rewrite Hr, Ha|].
    exists s'. rewrite <- Hb. split; [done|]. split; [|split; [by apply rest_core, grows_rest|intros; apply Hg]]. split.
    + by eapply grows_ready.
    + by eapply grows_cached.
    + intros x. by rewrite (g_byt _ _ Hg).
    + intros k Hk Hdk. apply (durable_ext s); [apply Hg|apply Hg|intros; apply Hg|auto].
  - destruct (st_ok s a b Ha) as (s' & Hs & Hrest & Hdk & Hbs). rewrite (bind_Ok _ _ _ _ _ Hs). exists s'. split; [done|].
    split; [|split; [by apply rest_core|intros x Hx; by apply (r_meta _ _ Hrest)]]. split.
    + by apply (r_ready _ _ Hrest).
    + by apply (r_cached _ _ Hrest).
    + intros x. rewrite Hbs. by destruct (decide (a = x)).
    + intros k Hk Hdur. destruct (decide (k = blk_of a)) as [|Hne]; [done|].
      apply (durable_ext s); [done|apply Hrest| |auto]. intros x Hx. rewrite Hbs, decide_False; [done|].
      intros ->. apply Hne. unfold blk_of. Z.div_mod_to_equations. lia.
  - destruct (flush_spec s a Hr Ha) as (s' & Hs & Hcore & Hbs & Hdur & Hmono). rewrite (bind_Ok _ _ _ _ _ Hs). exists s'. split; [done|].
    split; [|split; [done|intros; apply Hbs]]. split.
    + by apply (c_ready _ _ Hcore).
    + by apply (c_cached _ _ Hcore).
    + intros x. by rewrite Hbs.
    + intros k Hk Hdk. destruct (decide (k = blk_of a)) as [->|Hne]; auto.
Qed.

(** C26. The block cache is transparent and safe across a crash.  For every sequence of loads, stores
    and flushes in the disk map (on blocks in use, outside the size field and the bitmap), no
    operation fails, whatever is in the cache and however deep page faults nest; the loads
    give what a plain array of bytes would give; and every block that has been flushed since
    it was last written is on the disk with exactly its contents. *)
Theorem block_cache_correct os s m dur :
  simulates s m dur -> (forall o, o ∈ os -> allowed s o) ->
  let '(rs, m', dur') := spec_ops os m dur in
  exists s', run_ops os s = Ok rs s' /\ simulates s' m' dur'.
Proof.
  revert s m dur. induction os as [|o os IH]; intros s m dur Hs Ha; [by exists s|]. cbn [spec_ops run_ops].
  pose proof (op_simulates s m dur o Hs (Ha o ltac:(left))) as Hop. destruct (spec_op o m dur) as [[r m1] dur1].
  destruct Hop as (s1 & Hr1 & Hs1 & Hc1 & Hm1). specialize (IH s1 m1 dur1 Hs1). destruct (spec_ops os m1 dur1) as [[rs m2] dur2].
  destruct IH as (s2 & Hr2 & Hs2).
  { intros o' Ho'. apply (core_allowed s s1 o' Hc1 (sim_ready _ _ _ Hs) Hm1). apply Ha. by right. }
  exists s2. rewrite (bind_Ok _ _ _ _ _ Hr1), (bind_Ok _ _ _ _ _ Hr2). done.
Qed.
