(* ===== verification/FsEx.v ===== *)
(** * FsEx: a small disk, on which the theorems about the file server are tried

    Eight blocks: the super block, a bitmap block, the block of the root directory, with one
    file named [a] in it, and the block of that file, which holds [hello]; the last three
    blocks are free.  The super block is in the cache, as it is after [fs_init]. *)

From S2P Require Import Prelude Layout UMonad Str StrThms Ide IdeThms Bc BcThms.

Definition bytes_from (a : Z) (bs : list Z) : list (Z * Z) := zip (seqZ a (Z.of_nat (length bs))) bs.

(** s_magic, s_nblocks; the root directory: f_name, f_size, f_type, f_direct[0] *)
Definition ex_super : list (Z * Z) :=
  bytes_from 0 (bytes4 0x4A0530AE) ++ bytes_from 4 (bytes4 8) ++
  bytes_from 8 [47] ++ bytes_from 136 (bytes4 4096) ++ bytes_from 140 (bytes4 1) ++ bytes_from 144 (bytes4 3).
Definition ex_bitmap : list (Z * Z) := [(0, 224)].
Definition ex_dir : list (Z * Z) :=
  bytes_from 0 [97] ++ bytes_from 128 (bytes4 5) ++ bytes_from 132 (bytes4 0) ++ bytes_from 136 (bytes4 4).
Definition ex_file : list (Z * Z) := bytes_from 0 [104; 101; 108; 108; 111].

Definition on_disk (b : Z) (l : list (Z * Z)) : list (Z * Z * Z) := map (fun '(o, x) => (1, b * 4096 + o, x)) l.

(** The path /a on the stack; a request for 3 bytes of file 1024; the descriptor of that file, at offset 1 *)
Definition ex_stack : list (Z * Z) := bytes_from 1024 [47; 97].
Definition ex_request : list (Z * Z) := bytes_from 0 (bytes4 1024) ++ bytes_from 4 (bytes4 3).
Definition ex_fd : list (Z * Z) := bytes_from 0 (bytes4 102) ++ bytes_from 4 (bytes4 1) ++ bytes_from 12 (bytes4 1024).

(** File 1024, in the first entry, is [a]. *)
Definition ex_opentab : list OpenFile :=
  mkOpenFile 1024 (DISKMAP + 3 * 4096) 0 0xD0000000 :: map (fun i => mkOpenFile i 0 0 (0xD0000000 + 4096 * i)) (seqZ 1 1023).

(** A page of stack, the page of a request and the page of an open file, which a client has mapped as well *)
Definition fs_ex : fs := {|
  fpages := <[65537 := mkpage (list_to_map ex_super) true false false 1]>
    (<[0xEEBFD := mkpage (list_to_map ex_stack) true false false 1]>
    (<[0x0FFFF := mkpage (list_to_map ex_request) true false false 2]>
    (<[0xD0000 := mkpage (list_to_map ex_fd) true false false 2]> ∅)));
  disks := list_to_map (on_disk 1 ex_super ++ on_disk 2 ex_bitmap ++ on_disk 3 ex_dir ++ on_disk 4 ex_file);
  ctl := mkide 0 0 0 0 0 0 0 false [0x80; 0x50];
  diskno := 1;
  super := SUPER;
  bitmap := BITMAP;
  opentab := ex_opentab;
  answers := [true];
  out := [];
|}.

(** All its pages are writable and clean. *)
Lemma fs_ex_pages v p : fpages fs_ex !! v = Some p -> pg_w p = true /\ pg_dirty p = false.
Proof.
  intros Hp. cbn [fpages fs_ex] in Hp. rewrite !lookup_insert_Some in Hp.
  destruct Hp as [[_ <-]|[_ [[_ <-]|[_ [[_ <-]|[_ [[_ <-]|[_ Hp]]]]]]]]; [split; reflexivity..|]. by rewrite lookup_empty in Hp.
Qed.

Lemma fs_ex_ready : ready fs_ex = true.
Proof. vm_compute. reflexivity. Qed.

Lemma fs_ex_cached : cached_ok fs_ex.
Proof.
  intros v p o Hp Hi _ Ho.
  assert (Hsuper : forallb (fun o => pg_get (mkpage (list_to_map ex_super) true false false 1) o =? dbyte fs_ex 1 (4096 + o)) (seqZ 0 4096) = true)
    by (vm_compute; reflexivity).
  rewrite forallb_forall in Hsuper. cbn [fpages fs_ex] in Hp. rewrite !lookup_insert_Some in Hp.
  assert (Hnot : forall x, v = x -> in_map (x * 4096) = false -> False) by (intros x -> Hf; congruence).
  destruct Hp as [[<- <-]|[_ [[He _]|[_ [[He _]|[_ [[He _]|[_ ?]]]]]]]].
  - replace (65537 * 4096 + o - DISKMAP) with (4096 + o) by clia. apply Z.eqb_eq, Hsuper, list_elem_of_In, elem_of_seqZ. lia.
  - by destruct (Hnot _ (eq_sym He) eq_refl).
  - by destruct (Hnot _ (eq_sym He) eq_refl).
  - by destruct (Hnot _ (eq_sym He) eq_refl).
  - done.
Qed.

Lemma fs_ex_durable b : 0 <= b < 786432 -> durable fs_ex b.
Proof.
  intros Hb. apply durable_clean; [done|apply fs_ex_cached|]. intros p Hp. by destruct (fs_ex_pages _ p Hp).
Qed.

Lemma block_cache_correct_witness :
  exists s', run_ops [Load 0x10004001; Store 0x10004001 65; Load 0x10004001; Flush 0x10004001] fs_ex = Ok [101; 0; 65; 0] s' /\
    simulates s' (fun x => if decide (0x10004001 = x) then u8 65 else byt fs_ex x)
      (fun k => if decide (k = 4) then true else if decide (k = 4) then false else true).
Proof.
  apply (block_cache_correct [Load 0x10004001; Store 0x10004001 65; Load 0x10004001; Flush 0x10004001] fs_ex (byt fs_ex) (fun _ => true)).
  - split; [apply fs_ex_ready|apply fs_ex_cached|done|]. intros b Hb _. by apply fs_ex_durable.
  - intros o Ho. rewrite !elem_of_cons in Ho.
    destruct Ho as [->|[->|[->|[->|[]%not_elem_of_nil]]]]; cbn [allowed]; try (vm_compute; reflexivity). split_and!; vm_compute; reflexivity.
Defined.
