(* ===== verification/Fs.v ===== *)
(** * Fs: files and directories ([fs/fs.c])

    A [struct File *] is its address in the disk map.  A pointer the C code returns through an
    argument is part of the result; a null pointer is 0. *)

From S2P Require Import Prelude Layout UMonad Str Fsipc Ide Bc.

Definition BLKBITSIZE : Z := BLKSIZE * 8.
Definition NDIRECT : Z := 10.
Definition NINDIRECT : Z := BLKSIZE / 4.
Definition sizeof_File : Z := 256.
Definition BLKFILES : Z := BLKSIZE / sizeof_File.
Definition FTYPE_REG : Z := 0.
Definition FTYPE_DIR : Z := 1.
Definition FS_MAGIC : Z := 0x4A0530AE.
#[export] Hint Unfold BLKBITSIZE NDIRECT NINDIRECT sizeof_File BLKFILES FTYPE_REG FTYPE_DIR : cconst.

(** struct File *)
Definition f_name (f : Z) : Z := f.
Definition f_size (f : Z) : Z := f + 128.
Definition f_type (f : Z) : Z := f + 132.
Definition f_direct (f : Z) : Z := f + 136.
Definition f_indirect (f : Z) : Z := f + 176.

(** off_t is a signed 32-bit integer. *)
Definition ld_off (a : Z) : M fs Z := w ← ld32 a; mret (i32 w).

Definition check_super : M fs unit :=
  sup ← mget super;
  m ← ld32 (s_magic sup);
  if negb (m =? FS_MAGIC) then abort
  else
    n ← ld32 (s_nblocks sup);
    if DISKSIZE / BLKSIZE <? n then abort else cprintf "superblock is good".

Definition free_block (blockno : Z) : M fs unit :=
  if blockno =? 0 then abort
  else
    bm ← mget bitmap;
    w ← ld32 (bm + 4 * (blockno / 32));
    st32 (bm + 4 * (blockno / 32)) (w .| u32 (1 .<< (blockno mod 32))).

Definition alloc_block : M fs Z :=
  mloop ADDRS (fun i =>
    sup ← mget super;
    n ← ld32 (s_nblocks sup);
    if i <? n then
      free ← block_is_free i;
      if free : bool then
        bm ← mget bitmap;
        w ← ld32 (bm + 4 * (i / 32));
        st32 (bm + 4 * (i / 32)) (w .& (2^32 - 1 - u32 (1 .<< (i mod 32))));;
        flush_block bm;;
        mret (inr (i32 i))
      else mret (inl (u32 (i + 1)))
    else mret (inr (- E_NO_DISK))) 2.

Definition check_bitmap : M fs unit :=
  mloop ADDRS (fun i =>
    sup ← mget super;
    n ← ld32 (s_nblocks sup);
    if u32 (i * BLKBITSIZE) <? n then
      free ← block_is_free (u32 (2 + i)); massert (negb free);; mret (inl (u32 (i + 1)))
    else mret (inr tt)) 0;;
  free ← block_is_free 0; massert (negb free);;
  free ← block_is_free 1; massert (negb free);;
  cprintf "bitmap is good".

Definition fs_init (fr : frame) : M fs unit :=
  p ← ide_probe_disk1;
  (if p : bool then ide_set_disk 1 else ide_set_disk 0);;
  bc_init fr;;
  a ← diskaddr 1; mmod (set_super a);;
  check_super;;
  a ← diskaddr 2; mmod (set_bitmap a);;
  check_bitmap.

(** The result and *ppdiskbno *)
Definition file_block_walk (f filebno : Z) (alloc : bool) : M fs (Z * Z) :=
  if NDIRECT + NINDIRECT <=? filebno then mret (- E_INVAL, 0)
  else if filebno <? NDIRECT then mret (0, f_direct f + 4 * filebno)
  else
    ind ← ld32 (f_indirect f);
    let slot :=
      ind ← ld32 (f_indirect f);
      a ← diskaddr ind;
      mret (0, a + 4 * (filebno - NDIRECT)) in
    if ind =? 0 then
      if negb alloc then mret (- E_NOT_FOUND, 0)
      else
        r ← alloc_block;
        if r <? 0 then mret (- E_NO_DISK, 0)
        else
          st32 (f_indirect f) (u32 r);;
          a ← diskaddr (u32 r); memset a 0 BLKSIZE;;
          a ← diskaddr (u32 r); flush_block a;;
          slot
    else slot.

(** The result and *blk *)
Definition file_get_block (f filebno : Z) : M fs (Z * Z) :=
  '(r, ppdiskbno) ← file_block_walk f filebno true;
  if r <? 0 then mret (r, 0)
  else
    let found := b ← ld32 ppdiskbno; a ← diskaddr b; mret (0, a) in
    b ← ld32 ppdiskbno;
    if b =? 0 then
      r ← alloc_block;
      if r <? 0 then mret (- E_NO_DISK, 0)
      else
        st32 ppdiskbno (u32 r);;
        a ← diskaddr (u32 r); memset a 0 BLKSIZE;;
        a ← diskaddr (u32 r); flush_block a;;
        found
    else found.

(** The loop of [dir_lookup] and [dir_alloc_file] over the entries of a directory: the first
    one with the property [test].  [inl nblock] when there is none. *)
Fixpoint scan_block (test : Z -> M fs bool) (n : nat) (f : Z) : M fs (option Z) :=
  match n with
  | O => mret None
  | Datatypes.S n =>
      b ← test f;
      if b : bool then mret (Some f) else scan_block test n (f + sizeof_File)
  end.
Definition scan_dir (dir : Z) (test : Z -> M fs bool) : M fs (Z + (Z * Z)) :=
  size ← ld_off (f_size dir);
  massert (Z.rem size BLKSIZE =? 0);;
  size ← ld_off (f_size dir);
  let nblock := u32 (Z.quot size BLKSIZE) in
  mloop ADDRS (fun i =>
    if i <? nblock then
      '(r, blk) ← file_get_block dir i;
      if r <? 0 then mret (inr (inr (r, 0)))
      else
        found ← scan_block test (Z.to_nat BLKFILES) blk;
        match found with
        | Some f => mret (inr (inr (0, f)))
        | None => mret (inl (u32 (i + 1)))
        end
    else mret (inr (inl i))) 0.

(** The result and *file *)
Definition dir_lookup (dir name : Z) : M fs (Z * Z) :=
  r ← scan_dir dir (fun f => c ← strcmp (f_name f) name; mret (c =? 0));
  match r with
  | inl _ => mret (- E_NOT_FOUND, 0)
  | inr r => mret r
  end.

Definition dir_alloc_file (dir : Z) : M fs (Z * Z) :=
  r ← scan_dir dir (fun f => c ← ldb (f_name f); mret (c =? 0));
  match r with
  | inr r => mret r
  | inl i =>
      w ← ld32 (f_size dir);
      st32 (f_size dir) (u32 (w + BLKSIZE));;
      '(r, blk) ← file_get_block dir i;
      if r <? 0 then mret (r, 0) else mret (0, blk)
  end.

Definition skip_slash (p : Z) : M fs Z :=
  mloop ADDRS (fun p => c ← ldb p; if c =? 47 then mret (inl (p + 1)) else mret (inr p)) p.

(** The inner loop of [walk_path]: on to the next slash or the end *)
Definition skip_elem (p : Z) : M fs Z :=
  mloop ADDRS (fun p => c ← ldb p; if (c =? 47) || (c =? 0) then mret (inr p) else mret (inl (p + 1))) p.

(** The result, *pdir and *pf; a caller that passes no [pdir] ignores it, one that passes no
    [lastelem] passes 0. *)
Definition walk_path (fr : frame) (path lastelem : Z) : M fs (Z * Z * Z) :=
  let name := fr_elem fr in
  path ← skip_slash path;
  sup ← mget super;
  stb name 0;;
  mloop ADDRS (fun '(path, dir, f) =>
    c ← ldb path;
    if c =? 0 then mret (inr (0, dir, f))
    else
      let dir := f in
      let p := path in
      path ← skip_elem path;
      if MAXNAMELEN <=? path - p then mret (inr (- E_BAD_PATH, 0, 0))
      else
        memmove name p (path - p);;
        stb (name + (path - p)) 0;;
        path ← skip_slash path;
        t ← ld32 (f_type dir);
        if negb (t =? FTYPE_DIR) then mret (inr (- E_NOT_FOUND, 0, 0))
        else
          '(r, f) ← dir_lookup dir name;
          if r <? 0 then
            c ← (if r =? - E_NOT_FOUND then ldb path else mret 1);
            if (r =? - E_NOT_FOUND) && (c =? 0) then
              mwhen (negb (lastelem =? 0)) (strcpy lastelem name;; mret tt);;
              mret (inr (r, dir, 0))
            else mret (inr (r, 0, 0))
          else mret (inl (path, dir, f))) (path, 0, s_root sup).

(** ** File operations *)

Definition file_free_block (f filebno : Z) : M fs Z :=
  '(r, ptr) ← file_block_walk f filebno false;
  if r <? 0 then mret r
  else
    b ← ld32 ptr;
    mwhen (truth b) (b ← ld32 ptr; free_block b;; st32 ptr 0);;
    mret 0.

(** (size + BLKSIZE - 1) / BLKSIZE *)
Definition nblocks_of (size : Z) : Z := Z.quot (i32 (size + BLKSIZE - 1)) BLKSIZE.

Definition file_truncate_blocks (f newsize : Z) : M fs unit :=
  size ← ld_off (f_size f);
  let old_nblocks := u32 (nblocks_of size) in
  let new_nblocks := u32 (nblocks_of newsize) in
  mfor (seqZ new_nblocks (old_nblocks - new_nblocks)) (fun bno =>
    r ← file_free_block f bno;
    mwhen (r <? 0) (cprintf "warning: file_free_block"));;
  if new_nblocks <=? NDIRECT then
    ind ← ld32 (f_indirect f);
    mwhen (truth ind) (ind ← ld32 (f_indirect f); free_block ind;; st32 (f_indirect f) 0)
  else mret tt.

Definition file_set_size (f newsize : Z) : M fs Z :=
  size ← ld_off (f_size f);
  mwhen (newsize <? size) (file_truncate_blocks f newsize);;
  st32 (f_size f) (u32 newsize);;
  flush_block f;;
  mret 0.

Definition file_flush (f : Z) : M fs unit :=
  mloop ADDRS (fun i =>
    size ← ld_off (f_size f);
    if i <? nblocks_of size then
      '(r, pdiskbno) ← file_block_walk f (u32 i) false;
      (if (r <? 0) || (pdiskbno =? 0) then mret tt
       else
         b ← ld32 pdiskbno;
         if b =? 0 then mret tt else b ← ld32 pdiskbno; a ← diskaddr b; flush_block a);;
      mret (inl (i + 1))
    else mret (inr tt)) 0;;
  flush_block f;;
  ind ← ld32 (f_indirect f);
  mwhen (truth ind) (ind ← ld32 (f_indirect f); a ← diskaddr ind; flush_block a).

(** The result and *pf; [pf] is what the pointer held before. *)
Definition file_create (fr : frame) (path pf : Z) : M fs (Z * Z) :=
  '(r, dir, f) ← walk_path fr path (fr_name fr);
  if r =? 0 then mret (- E_FILE_EXISTS, pf)
  else if negb (r =? - E_NOT_FOUND) || (dir =? 0) then mret (r, pf)
  else
    '(r, f) ← dir_alloc_file dir;
    if r <? 0 then mret (r, pf)
    else
      strcpy (f_name f) (fr_name fr);;
      file_flush dir;;
      mret (0, f).

Definition file_open (fr : frame) (path : Z) : M fs (Z * Z) :=
  '(r, _, f) ← walk_path fr path 0;
  mret (r, f).

(** One step of the loops below: the block number in the file, the place in the block and how
    many bytes of the request are in that block.  All is computed with C's types. *)
Definition chunk (pos stop : Z) : Z := Z.min (u32 (BLKSIZE - Z.rem pos BLKSIZE)) (u32 (stop - pos)).

Definition file_read (f buf count offset : Z) : M fs Z :=
  size ← ld_off (f_size f);
  if size <=? offset then mret 0
  else
    size ← ld_off (f_size f);
    let count := Z.min count (u32 (size - offset)) in
    let stop := u32 (offset + count) in
    mloop ADDRS (fun '(pos, buf) =>
      if u32 pos <? stop then
        '(r, blk) ← file_get_block f (u32 (Z.quot pos BLKSIZE));
        if r <? 0 then mret (inr r)
        else
          let bn := i32 (chunk pos stop) in
          memmove buf (blk + Z.rem pos BLKSIZE) (u32 bn);;
          mret (inl (i32 (pos + bn), buf + bn))
      else mret (inr (i32 count))) (offset, buf).

Definition file_write (f buf count offset : Z) : M fs Z :=
  size ← ld_off (f_size f);
  let stop := u32 (offset + count) in
  r ← (if u32 size <? stop then file_set_size f (i32 stop) else mret 0);
  if r <? 0 then mret r
  else
    mloop ADDRS (fun '(pos, buf) =>
      if u32 pos <? stop then
        '(r, blk) ← file_get_block f (u32 (Z.quot pos BLKSIZE));
        if r <? 0 then mret (inr r)
        else
          let bn := i32 (chunk pos stop) in
          memmove (blk + Z.rem pos BLKSIZE) buf (u32 bn);;
          mret (inl (i32 (pos + bn), buf + bn))
      else mret (inr (i32 count))) (offset, buf).

Definition fs_sync : M fs unit :=
  mloop ADDRS (fun i =>
    sup ← mget super;
    n ← ld32 (s_nblocks sup);
    if u32 i <? n then
      a ← diskaddr (u32 i); flush_block a;; mret (inl (i32 (i + 1)))
    else mret (inr tt)) 1.
