(* ===== verification/FsBase.v ===== *)
(** * FsBase: words, the bitmap and block allocation

    Once [fs_init] is done the server is [online].  [eff X s s'] says that an operation has
    changed no byte of the disk's contents outside [X], and left the rest of the server alone. *)

From S2P Require Import Prelude Layout UMonad Str StrThms Ide IdeThms Bc BcThms Fs.

Record online (s : fs) : Prop := {
  on_ready : ready s = true;
  on_super : super s = SUPER;
  on_bitmap : bitmap s = BITMAP;
  on_w v p : fpages s !! v = Some p -> in_map (v * 4096) = true -> pg_w p = true;
}.

Lemma core_online s s' : fs_core s s' -> online s -> online s'.
Proof.
  intros Hc [Hr Hs Hb Hw]. split.
  - by apply (c_ready _ _ Hc).
  - by rewrite (c_super _ _ Hc).
  - by rewrite (c_bitmap _ _ Hc).
  - intros v p Hp Hi. destruct (fpages s !! v) as [q|] eqn:Hq.
    + destruct (c_pages _ _ Hc v q Hq) as (p' & Hp' & W & _). assert (p' = p) as -> by congruence. rewrite W. by apply (Hw v).
    + by apply (c_new _ _ Hc v p).
Qed.

Lemma online_size s : online s -> 3 <= nblk s <= 786432 /\ 1 <= nbm s <= 24 /\ 2 + nbm s <= nblk s.
Proof.
  intros [Hr Hs Hb _]. apply ready_spec in Hr as (_ & _ & _ & R4 & R5).
  destruct R4 as [R4|(_ & _ & R4)]; [by rewrite Hs in R4|]. destruct R5 as [R5|(_ & _ & R5 & _)]; [by rewrite Hb in R5|].
  unfold nbm. Z.div_mod_to_equations. lia.
Qed.

Lemma online_reserved s b : online s -> 1 <= b < 2 + nbm s -> isfree s b = false.
Proof.
  intros [Hr Hs Hb _]. apply ready_spec in Hr as (_ & _ & _ & _ & R5).
  destruct R5 as [R5|(_ & _ & _ & R5)]; [by rewrite Hb in R5|]. apply R5.
Qed.

Lemma online_accessible s a :
  online s -> in_map a = true -> 0 <= blk_of a < nblk s -> isfree s (blk_of a) = false -> accessible s a = true.
Proof.
  intros Ho Hi Hb Hf. unfold accessible, usable. rewrite Hi, (on_super _ Ho), (on_bitmap _ Ho), Hf.
  by rewrite (proj2 (Z.ltb_lt _ _)) by lia.
Qed.

(** ** Effects *)

Record eff (X : Z -> Prop) (s s' : fs) : Prop := {
  e_core : fs_core s s';
  e_byt a : ~ X a -> byt s' a = byt s a;
}.

Lemma eff_refl X s : eff X s s.
Proof. split; [apply core_refl|done]. Qed.
Lemma eff_trans X s1 s2 s3 : eff X s1 s2 -> eff X s2 s3 -> eff X s1 s3.
Proof. intros [C1 B1] [C2 B2]. split; [by eapply core_trans|]. intros a Ha. by rewrite B2, B1. Qed.
Lemma eff_mono (X Y : Z -> Prop) s s' : (forall a, X a -> Y a) -> eff X s s' -> eff Y s s'.
Proof. intros Hm [C B]. split; [done|]. auto. Qed.
Lemma eff_online X s s' : eff X s s' -> online s -> online s'.
Proof. intros [C _]. by apply core_online. Qed.
Lemma grows_eff X s s' : grows s s' -> eff X s s'.
Proof. intros Hg. split; [by apply rest_core, grows_rest|]. intros a _. apply Hg. Qed.
Lemma eff_wrd X s s' a : eff X s s' -> (forall k, 0 <= k < 4 -> ~ X (a + k)) -> wrd s' a = wrd s a.
Proof. intros He Hx. apply wrd_ext. intros k Hk. apply (e_byt _ _ _ He). by apply Hx. Qed.

Lemma touches_eff X s s' : ready s = true -> touches X s s' -> eff X s s'.
Proof.
  intros Hr [Hrest Hv]. split; [by apply rest_core|]. intros a Ha. specialize (Hv a Ha).
  destruct (accessible s a) eqn:Hac; [|by apply (r_raw _ _ Hrest)].
  simpl in Hv. unfold fs_view in Hv. rewrite Hr, (r_ready _ _ Hrest Hr), (rest_accessible _ _ _ Hrest Hr), Hac in Hv. by injection Hv.
Qed.

(** What the library's specifications say, in terms of [byt] *)
Lemma view_byt s a : ready s = true -> accessible s a = true -> view s a = Some (byt s a).
Proof. intros Hr Ha. simpl. unfold fs_view. by rewrite Hr, Ha. Qed.
Lemma byt_view s a b : view s a = Some b -> byt s a = b.
Proof. simpl. unfold fs_view. by destruct (_ && _); intros [= <-]. Qed.

(** ** Words *)

Lemma unbytes_bytes4 w : unbytes (bytes4 w) = u32 w.
Proof.
  unfold unbytes, bytes4, u32. cbn [foldr]. change (2^32) with 4294967296. Z.div_mod_to_equations. lia.
Qed.
Lemma bytes4_range w b : b ∈ bytes4 w -> 0 <= b < 256.
Proof.
  unfold bytes4. rewrite !elem_of_cons. intros [->|[->|[->|[->|[]%not_elem_of_nil]]]]; apply Z.mod_pos_bound; lia.
Qed.

Lemma wrd_bytes s a l : length l = 4%nat -> bytes_at s a l -> wrd s a = unbytes l.
Proof.
  intros Hl Hb. destruct l as [|b0 [|b1 [|b2 [|b3 [|]]]]]; try done. unfold wrd.
  pose proof (byt_view _ _ _ (Hb 0%nat b0 eq_refl)) as H0. pose proof (byt_view _ _ _ (Hb 1%nat b1 eq_refl)) as H1.
  pose proof (byt_view _ _ _ (Hb 2%nat b2 eq_refl)) as H2. pose proof (byt_view _ _ _ (Hb 3%nat b3 eq_refl)) as H3.
  rewrite Z.add_0_r in H0. change (Z.of_nat 1) with 1 in H1. change (Z.of_nat 2) with 2 in H2. change (Z.of_nat 3) with 3 in H3.
  by rewrite H0, H1, H2, H3.
Qed.

Lemma ld32_ok s a :
  ready s = true -> a mod 4 = 0 -> accessible s a = true ->
  exists s', ld32 a s = Ok (wrd s a) s' /\ grows s s' /\ is_mapped s' a = true.
Proof. intros Hr Ha Hac. apply (ld32_level FAULTS); [apply faults_all|done|done|done|apply need_FAULTS]. Qed.

Lemma st32_ok s a w :
  buffer s a 4 ->
  exists s', st32 a w s = Ok tt s' /\ eff (range a 4) s s' /\ fs_rest s s' /\ wrd s' a = u32 w.
Proof.
  intros Hw. destruct (stn_spec (bytes4 w) s a) as (s' & Hs & Ht & Hb); [done|]. exists s'. split; [done|]. split; [|split].
  - apply touches_eff; [|done]. apply (Hw a). lia.
  - apply Ht.
  - rewrite map_u8 in Hb by apply bytes4_range. rewrite (wrd_bytes s' a (bytes4 w) eq_refl Hb). apply unbytes_bytes4.
Qed.

(** A store to a page that is there, also to the bitmap *)
Definition page_word (o w : Z) (p : page) : page :=
  touch_w (o + 1 + 1 + 1) (w / 16777216 mod 256) (touch_w (o + 1 + 1) (w / 65536 mod 256)
    (touch_w (o + 1) (w / 256 mod 256) (touch_w o (w mod 256) p))).

Lemma stb_page s v p o b :
  fpages s !! v = Some p -> pg_w p = true -> 0 <= o < 4096 ->
  stb (v * 4096 + o) b s = Ok tt (set_fpages (<[v := touch_w o b p]> (fpages s)) s).
Proof.
  intros Hp Hw Ho. pose proof (fs_stb_mapped (fault FAULTS) (v * 4096 + o) b s p) as H. rewrite vpn_at, off_at in H by done. auto.
Qed.

Lemma st32_page s v p o w :
  fpages s !! v = Some p -> pg_w p = true -> 0 <= o -> o + 4 <= 4096 ->
  st32 (v * 4096 + o) w s = Ok tt (set_fpages (<[v := page_word o w p]> (fpages s)) s).
Proof.
  intros Hp Hw Ho Ho'. unfold st32, bytes4. cbn [stn].
  rewrite (bind_Ok _ _ _ _ _ (stb_page s v p o _ Hp Hw ltac:(lia))). set (s1 := set_fpages _ _).
  replace (v * 4096 + o + 1 + 1 + 1) with (v * 4096 + (o + 1 + 1 + 1)) by lia. replace (v * 4096 + o + 1 + 1) with (v * 4096 + (o + 1 + 1)) by lia.
  replace (v * 4096 + o + 1) with (v * 4096 + (o + 1)) by lia.
  erewrite bind_Ok by (apply stb_page; [apply lookup_insert_eq|exact Hw|lia]). erewrite bind_Ok by (apply stb_page; [apply lookup_insert_eq|exact Hw|lia]).
  erewrite bind_Ok by (apply stb_page; [apply lookup_insert_eq|exact Hw|lia]).
  unfold mret, M_ret, s1. cbn [fpages set_fpages]. by rewrite !insert_insert_eq.
Qed.

Lemma page_word_get o w p x :
  pg_get (page_word o w p) x = if decide (o <= x < o + 4) then u8 (w / 256 ^ (x - o)) else pg_get p x.
Proof.
  unfold page_word. rewrite !pg_get_touch_w. unfold u8. change (2^8) with 256. destruct (decide (o <= x < o + 4)) as [Hx|Hx].
  - assert (x = o \/ x = o + 1 \/ x = o + 2 \/ x = o + 3) as [->|[->|[->| ->]]] by lia;
      repeat (rewrite decide_False by lia); rewrite decide_True by lia; rewrite Z.mod_mod by lia; f_equal.
    + rewrite Z.sub_diag. by rewrite Z.div_1_r.
    + by replace (o + 1 - o) with 1 by lia.
    + by replace (o + 2 - o) with 2 by lia.
    + by replace (o + 3 - o) with 3 by lia.
  - repeat (rewrite decide_False by lia). done.
Qed.

Lemma byt_word s s' v p o w :
  fpages s !! v = Some p -> 0 <= o -> o + 4 <= 4096 -> fpages s' = <[v := page_word o w p]> (fpages s) ->
  diskno s' = diskno s -> disks s' = disks s ->
  (forall a, ~ range (v * 4096 + o) 4 a -> byt s' a = byt s a) /\ wrd s' (v * 4096 + o) = u32 w.
Proof.
  intros Hp Ho Ho' Hf Hn Hd. assert (Hb : forall x, 0 <= x < 4096 -> byt s' (v * 4096 + x) = pg_get (page_word o w p) x).
  { intros x Hx. apply byt_page; [rewrite Hf; apply lookup_insert_eq|done]. }
  split.
  - intros a Ha. destruct (decide (vpn a = v)) as [<-|Hne].
    + pose proof (off_range a). rewrite (vpn_off a). rewrite Hb, page_word_get, decide_False, (byt_page s _ _ p) by (done || (pose proof (vpn_off a); unfold range in Ha; lia)). done.
    + unfold byt. rewrite Hf, lookup_insert_ne, Hn by done. unfold dbyte. by rewrite Hd.
  - unfold wrd. rewrite <- !Z.add_assoc. rewrite !Hb, !page_word_get by lia. rewrite !decide_True by lia.
    rewrite Z.sub_diag. replace (o + 1 - o) with 1 by lia. replace (o + 2 - o) with 2 by lia. replace (o + 3 - o) with 3 by lia.
    change (256^0) with 1. change (256^1) with 256. change (256^2) with 65536. change (256^3) with 16777216. rewrite Z.div_1_r.
    apply unbytes_bytes4.
Qed.

(** ** The bitmap *)

(** [s'] is [s] with the bit of block [b] set to [v]. *)
Record flipped (s s' : fs) (b : Z) (v : bool) : Prop := {
  fl_core : fs_core s s';
  fl_bit : isfree s' b = v;
  fl_others c : 0 <= c -> c <> b -> isfree s' c = isfree s c;
  fl_byt a : ~ range (BITMAP + 4 * (b / 32)) 4 a -> byt s' a = byt s a;
}.

Lemma word_at b : 0 <= b ->
  BITMAP + 4 * (b / 32) = (65538 + b / 32768) * 4096 + 4 * (b / 32 mod 1024) /\ 4 * (b / 32 mod 1024) + 4 <= 4096.
Proof. intros. unfold BITMAP. cc. Z.div_mod_to_equations. lia. Qed.

Lemma word_eq b c : 0 <= b -> 0 <= c -> BITMAP + 4 * (b / 32) = BITMAP + 4 * (c / 32) -> b <> c -> b mod 32 <> c mod 32.
Proof. intros. Z.div_mod_to_equations. lia. Qed.

Lemma bitmap_nblk s : online s -> forall b, 0 <= b < nblk s -> forall a, range (BITMAP + 4 * (b / 32)) 4 a -> SUPER + 8 <= a.
Proof. intros _ b Hb a. unfold range, BITMAP, SUPER. Z.div_mod_to_equations. lia. Qed.

Lemma flip s b v w p :
  online s -> 2 + nbm s <= b < nblk s -> fpages s !! vpn (BITMAP + 4 * (b / 32)) = Some p -> 0 <= w < 2^32 ->
  (forall k, 0 <= k < 32 -> Z.testbit w k = if decide (k = b mod 32) then v else Z.testbit (wrd s (BITMAP + 4 * (b / 32))) k) ->
  exists s', st32 (BITMAP + 4 * (b / 32)) w s = Ok tt s' /\ flipped s s' b v /\ disks s' = disks s.
Proof.
  intros Hon Hb Hp Hw Hbits. destruct (online_size s Hon) as (Hn1 & Hn2 & Hn3). destruct (word_at b) as [Ha Ho]; [lia|].
  set (o := 4 * (b / 32 mod 1024)) in *. set (pv := 65538 + b / 32768) in *.
  assert (Ho0 : 0 <= o) by (unfold o; Z.div_mod_to_equations; lia). rewrite Ha in Hp. rewrite vpn_at in Hp by lia.
  assert (Hin : in_map (pv * 4096) = true) by (apply in_map_true; unfold pv; cc; Z.div_mod_to_equations; lia).
  assert (Hpw : pg_w p = true) by (by apply (on_w _ Hon pv)).
  eexists. split; [rewrite Ha; by apply (st32_page s pv p)|]. set (s' := set_fpages _ _). split; [|done].
  destruct (byt_word s s' pv p o w Hp Ho0 Ho) as [Hbyt Hwrd]; [done..|]. rewrite <- Ha in Hbyt, Hwrd. rewrite u32_small in Hwrd by done.
  assert (Hnb : nblk s' = nblk s).
  { apply wrd_ext. intros k Hk. apply Hbyt. intros Hr. pose proof (bitmap_nblk s Hon b ltac:(lia) _ Hr). unfold s_nblocks in *. lia. }
  assert (Hfree : forall c, 0 <= c -> isfree s' c = if decide (c = b) then v else isfree s c).
  { intros c Hc. unfold isfree. destruct (decide (BITMAP + 4 * (c / 32) = BITMAP + 4 * (b / 32))) as [He|Hne].
    - rewrite He, Hwrd, Hbits by (apply Z.mod_pos_bound; lia). destruct (decide (c = b)) as [->|Hcb]; [by rewrite decide_True|].
      rewrite decide_False; [done|]. apply word_eq; (lia || done).
    - rewrite (decide_False (P := c = b)) by congruence. f_equal. apply wrd_ext. intros k Hk. apply Hbyt. unfold range. intros Hr. lia. }
  assert (Hmap : forall x, is_mapped s x = true -> is_mapped s' x = true).
  { intros x [q Hq]%is_mapped_true. apply is_mapped_true. unfold s'. cbn [fpages set_fpages].
    destruct (decide (pv = vpn x)) as [->|]; [rewrite lookup_insert_eq|rewrite lookup_insert_ne by done]; eauto. }
  split.
  - split; try done.
    + intros (R1 & R2 & R3 & R4 & R5)%ready_spec. apply ready_spec. unfold nbm. rewrite Hnb. fold (nbm s). split_and!; [done|done|apply R3|apply R3| |].
      * destruct R4 as [R4|(R4 & R6 & R7)]; [by left|right]. auto.
      * destruct R5 as [R5|(R5 & R6 & R7 & R8)]; [by left|right]. split_and!; try done. intros c Hc.
        rewrite Hfree, decide_False by lia. by apply R8.
    + intros v' q Hq. unfold s'. cbn [fpages set_fpages]. destruct (decide (pv = v')) as [<-|]; [|rewrite lookup_insert_ne by done; eauto].
      rewrite lookup_insert_eq. eexists. split; [done|]. by assert (q = p) as -> by congruence.
    + intros v' q Hn Hq. unfold s' in Hq. cbn [fpages set_fpages] in Hq. rewrite lookup_insert_ne in Hq by congruence. congruence.
    + intros Hc v' q x Hq Hi Hd Hx. unfold s' in Hq. cbn [fpages set_fpages] in Hq. destruct (decide (pv = v')) as [<-|].
      * rewrite lookup_insert_eq in Hq. injection Hq as <-. done.
      * rewrite lookup_insert_ne in Hq by done. by apply (Hc v' q x).
  - by rewrite Hfree, decide_True by lia.
  - intros c Hc Hne. by rewrite Hfree, decide_False by done.
  - done.
Qed.

Lemma byt_isfree s s' b : (forall a, byt s' a = byt s a) -> isfree s' b = isfree s b.
Proof. intros Hb. unfold isfree. f_equal. apply wrd_ext. intros. apply Hb. Qed.
Lemma byt_nblk s s' : (forall a, byt s' a = byt s a) -> nblk s' = nblk s.
Proof. intros Hb. apply wrd_ext. intros. apply Hb. Qed.

Lemma flipped_ext s0 s s' s1 b v :
  fs_core s0 s -> (forall a, byt s a = byt s0 a) -> flipped s s' b v -> fs_core s' s1 -> (forall a, byt s1 a = byt s' a) ->
  flipped s0 s1 b v.
Proof.
  intros C1 B1 [C2 F1 F2 F3] C3 B3. split.
  - eapply core_trans; [done|]. by eapply core_trans.
  - by rewrite (byt_isfree s' s1).
  - intros c Hc Hne. by rewrite (byt_isfree s' s1), F2, (byt_isfree s0 s).
  - intros a Ha. by rewrite B3, F3, B1.
Qed.

Lemma nblocks_ok s : online s -> exists s', ld32 (s_nblocks SUPER) s = Ok (nblk s) s' /\ grows s s'.
Proof.
  intros [Hr Hs _ _]. assert (Hr' := Hr). apply ready_spec in Hr' as (_ & _ & _ & R4 & _).
  destruct R4 as [R4|(_ & R4 & _)]; [by rewrite Hs in R4|].
  destruct (ld32_mapped (fault FAULTS) (s_nblocks SUPER) s) as (s' & Hl & [Hg _]); [done|by rewrite (is_mapped_vpn _ _ SUPER)|]. eauto.
Qed.

Lemma bitmap_word_ok s b : online s -> 0 <= b < nblk s ->
  exists s', ld32 (BITMAP + 4 * (b / 32)) s = Ok (wrd s (BITMAP + 4 * (b / 32))) s' /\ grows s s' /\
    is_mapped s' (BITMAP + 4 * (b / 32)) = true.
Proof.
  intros Ho Hb. apply ld32_ok; [apply Ho|unfold BITMAP; cc; Z.div_mod_to_equations; lia|].
  apply bitmap_word; [apply Ho| |done]. by rewrite (on_bitmap _ Ho).
Qed.

Lemma block_is_free_ok s b :
  online s -> 0 <= b -> exists s', block_is_free b s = Ok ((b <? nblk s) && isfree s b) s' /\ grows s s'.
Proof.
  intros Ho Hb. apply block_is_free_with; [apply Ho|by rewrite (on_super _ Ho)|by rewrite (on_bitmap _ Ho)|done|].
  intros s1 Hg Hlt. assert (Ho1 : online s1) by (eapply eff_online; [by apply (grows_eff (fun _ => False))|done]).
  destruct (bitmap_word_ok s1 b Ho1) as (s2 & Hl & Hg2 & _); [|by exists s2]. rewrite (byt_nblk s s1); [lia|apply Hg].
Qed.

Lemma grows_online s s' : grows s s' -> online s -> online s'.
Proof. intros Hg. apply core_online. by apply rest_core, grows_rest. Qed.

Lemma diskaddr_ok s b :
  online s -> 0 < b < nblk s -> exists s', diskaddr b s = Ok (DISKMAP + b * 4096) s' /\ grows s s'.
Proof.
  intros Ho Hb. unfold diskaddr. destruct (Z.eqb_spec b 0); [lia|].
  destruct (beyond_spec (fault FAULTS) s b (on_ready _ Ho)) as (s' & Hs & [Hg _]). erewrite bind_Ok by exact Hs.
  rewrite (on_super _ Ho), (proj2 (Z.ltb_lt _ _)) by lia. cbn. exists s'. split; [|done]. unfold mret, M_ret. f_equal.
  destruct (online_size s Ho). rewrite u32_small; clia.
Qed.

Lemma clear_bits k j : 0 <= k < 32 -> 0 <= j < 32 -> Z.testbit (2^32 - 1 - u32 (1 .<< k)) j = negb (j =? k).
Proof.
  intros Hk Hj. rewrite mask_bit by done. replace (2^32 - 1) with (Z.ones 32) by reflexivity.
  rewrite Z.sub_nocarry_ldiff.
  - rewrite Z.ldiff_spec, Z.ones_spec_low, Z.pow2_bits_eqb by lia. by rewrite Z.eqb_sym.
  - apply Z.bits_inj'. intros i Hi. rewrite Z.ldiff_spec, Z.bits_0, Z.pow2_bits_eqb by lia.
    destruct (Z.eqb_spec k i) as [<-|]; [|done]. by rewrite Z.ones_spec_low by lia.
Qed.

Lemma land_lt w m : 0 <= w < 2^32 -> 0 <= m -> 0 <= w .& m < 2^32.
Proof.
  intros Hw Hm. split; [apply Z.land_nonneg; lia|]. destruct (decide (w .& m = 0)) as [->|Hne]; [lia|].
  assert (0 <= w .& m) by (apply Z.land_nonneg; lia). apply Z.log2_lt_pow2; [lia|].
  eapply Z.le_lt_trans; [apply Z.log2_land; lia|]. apply Z.min_lt_iff. left.
  destruct (decide (w = 0)) as [->|]; [done|]. apply Z.log2_lt_pow2; lia.
Qed.

Lemma free_block_ok s b :
  online s -> 2 + nbm s <= b < nblk s ->
  exists s', free_block b s = Ok tt s' /\ flipped s s' b true.
Proof.
  intros Ho Hb. destruct (online_size s Ho) as (? & ? & ?). unfold free_block. destruct (Z.eqb_spec b 0); [lia|].
  rewrite (bind_Ok _ _ s BITMAP s) by (unfold mget; by rewrite (on_bitmap _ Ho)).
  destruct (bitmap_word_ok s b Ho ltac:(lia)) as (s1 & Hl & Hg & [p Hp]%is_mapped_true). rewrite (bind_Ok _ _ _ _ _ Hl).
  assert (Ho1 := grows_online _ _ Hg Ho). set (w := wrd s (BITMAP + 4 * (b / 32))).
  assert (Hk : 0 <= b mod 32 < 32) by (apply Z.mod_pos_bound; lia). assert (Hn1 : nblk s1 = nblk s) by (apply byt_nblk, Hg).
  destruct (flip s1 b true (w .| u32 (1 .<< (b mod 32))) p Ho1) as (s2 & Hs2 & Hf & _); [unfold nbm; rewrite Hn1; done|done| | |].
  - apply lor_bound; [lia|apply wrd_range|apply u32_range].
  - intros k Hk'. rewrite mask_bit, Z.lor_spec, Z.pow2_bits_eqb by lia. rewrite (wrd_ext s s1) by (intros; apply Hg). fold w.
    destruct (decide (k = b mod 32)) as [->|Hne]; [rewrite Z.eqb_refl; apply orb_true_r|].
    destruct (Z.eqb_spec (b mod 32) k); [congruence|]. apply orb_false_r.
  - exists s2. split; [done|]. apply (flipped_ext s s1 s2 s2); [by apply rest_core, grows_rest|apply Hg|done|apply core_refl|done].
Qed.

(** The first free block from [i] on is taken. *)
Definition alloc_post (s : fs) (i r : Z) (s' : fs) : Prop :=
  (r = - E_NO_DISK /\ grows s s' /\ forall b, i <= b < nblk s -> isfree s b = false) \/
  (i <= r < nblk s /\ 2 + nbm s <= r /\ isfree s r = true /\ (forall b, i <= b < r -> isfree s b = false) /\
   flipped s s' r false /\ (cached_ok s -> durable s' 2)).

Lemma take_block s i :
  online s -> 2 <= i < nblk s -> isfree s i = true ->
  exists s', (bm ← mget bitmap;
     w ← ld32 (bm + 4 * (i / 32));
     st32 (bm + 4 * (i / 32)) (w .& (2^32 - 1 - u32 (1 .<< (i mod 32))));;
     flush_block bm;;
     mret (inr (A := Z) (i32 i))) s = Ok (inr i) s' /\ 2 + nbm s <= i /\ flipped s s' i false /\ (cached_ok s -> durable s' 2).
Proof.
  intros Ho Hi Hf. destruct (online_size s Ho) as (? & ? & ?).
  assert (Hres : 2 + nbm s <= i).
  { destruct (Z.le_gt_cases (2 + nbm s) i) as [|Hlt]; [done|]. rewrite (online_reserved s i Ho) in Hf; [done|lia]. }
  rewrite (bind_Ok _ _ s BITMAP s) by (unfold mget; by rewrite (on_bitmap _ Ho)).
  destruct (bitmap_word_ok s i Ho ltac:(lia)) as (s1 & Hl & Hg & [p Hp]%is_mapped_true). rewrite (bind_Ok _ _ _ _ _ Hl).
  assert (Ho1 := grows_online _ _ Hg Ho). set (w := wrd s (BITMAP + 4 * (i / 32))).
  assert (Hk : 0 <= i mod 32 < 32) by (apply Z.mod_pos_bound; lia). assert (Hn1 : nblk s1 = nblk s) by (apply byt_nblk, Hg).
  destruct (flip s1 i false (w .& (2^32 - 1 - u32 (1 .<< (i mod 32)))) p Ho1) as (s2 & Hs2 & Hfl & _); [unfold nbm; rewrite Hn1; fold (nbm s); lia|done| | |].
  - apply land_lt; [apply wrd_range|]. pose proof (u32_range (1 .<< (i mod 32))). lia.
  - intros k Hk'. rewrite Z.land_spec, clear_bits by done. rewrite (wrd_ext s s1) by (intros; apply Hg). fold w.
    destruct (decide (k = i mod 32)) as [->|Hne]; [rewrite Z.eqb_refl; apply andb_false_r|].
    rewrite (proj2 (Z.eqb_neq _ _) Hne). apply andb_true_r.
  - rewrite (bind_Ok _ _ _ _ _ Hs2). assert (Ho2 : online s2) by (eapply core_online; [apply Hfl|done]).
    destruct (flush_spec s2 BITMAP (on_ready _ Ho2) eq_refl) as (s3 & Hs3 & Hc3 & Hb3 & Hd3 & _).
    rewrite (bind_Ok _ _ _ _ _ Hs3). exists s3. rewrite i32_small by lia. split; [done|]. split; [done|]. split.
    + apply (flipped_ext s s1 s2 s3); [by apply rest_core, grows_rest|apply Hg|done|done|done].
    + intros Hc. apply Hd3. apply (c_cached _ _ (fl_core _ _ _ _ Hfl)). by apply (grows_cached s).
Qed.

Lemma alloc_post_grows s s1 i r s' : grows s s1 -> alloc_post s1 i r s' -> alloc_post s i r s'.
Proof.
  intros Hg. assert (Hn : nblk s1 = nblk s) by (apply byt_nblk, Hg). assert (Hf : forall b, isfree s1 b = isfree s b) by (intros; apply byt_isfree, Hg).
  unfold alloc_post, nbm. rewrite Hn. intros [(-> & Hg1 & Hb)|(H1 & H2 & H3 & H4 & H5 & H6)]; [left|right].
  - split; [done|]. split; [by eapply grows_trans|]. intros b. rewrite <- Hf. apply Hb.
  - split_and!; try done; try lia.
    + by rewrite <- Hf.
    + intros b. rewrite <- Hf. apply H4.
    + apply (flipped_ext s s1 s' s'); [by apply rest_core, grows_rest|apply Hg|done|apply core_refl|done].
    + intros Hc. apply H6. by apply (grows_cached s).
Qed.

Lemma alloc_block_steps (m : nat) : forall s i,
  online s -> 2 <= i -> i + Z.of_nat m = nblk s ->
  exists r s', msteps (m + 1) (fun i =>
    sup ← mget super;
    n ← ld32 (s_nblocks sup);
    if i <? n then
      free ← block_is_free i;
      if free : bool then
        bm ← mget bitmap;
        w ← ld32 (bm + 4 * (i / 32));
        st32 (bm + 4 * (i / 32)) (w .& (2^32 - 1 - u32 (1 .<< (i mod 32))));;
        flush_block bm;;
        mret (inr (i32 i))
      else mret (inl (u32 (i + 1)))
    else mret (inr (- E_NO_DISK))) i s = Ok (inr r) s' /\ alloc_post s i r s'.
Proof.
  induction m as [|m IH]; intros s i Ho Hi Hm; destruct (online_size s Ho) as (? & ? & ?).
  - destruct (nblocks_ok s Ho) as (s1 & Hl & Hg). exists (- E_NO_DISK), s1. split; [|left; split; [done|split; [done|intros; lia]]].
    apply msteps_done. rewrite (bind_Ok _ _ s SUPER s) by (unfold mget; by rewrite (on_super _ Ho)).
    rewrite (bind_Ok _ _ _ _ _ Hl). rewrite (proj2 (Z.ltb_ge _ _)) by lia. done.
  - destruct (nblocks_ok s Ho) as (s1 & Hl & Hg). assert (Ho1 := grows_online _ _ Hg Ho).
    assert (Hn1 : nblk s1 = nblk s) by (apply byt_nblk, Hg).
    destruct (block_is_free_ok s1 i Ho1 ltac:(lia)) as (s2 & Hf & Hg2). assert (Ho2 := grows_online _ _ Hg2 Ho1).
    assert (Hn2 : nblk s2 = nblk s) by (rewrite <- Hn1; apply byt_nblk, Hg2).
    assert (Hf2 : isfree s2 i = isfree s1 i) by (apply byt_isfree, Hg2).
    rewrite Hn1, (proj2 (Z.ltb_lt _ _)) in Hf by lia. cbn [andb] in Hf. rewrite <- Hf2 in Hf.
    assert (Hgg : grows s s2) by (by eapply grows_trans). destruct (isfree s2 i) eqn:Hfree.
    + destruct (take_block s2 i Ho2 ltac:(lia) Hfree) as (s3 & Hs3 & Hres & Hfl & Hd). exists i, s3. split.
      * apply (msteps_done _ (m + 1)). rewrite (bind_Ok _ _ s SUPER s) by (unfold mget; by rewrite (on_super _ Ho)).
        rewrite (bind_Ok _ _ _ _ _ Hl), (proj2 (Z.ltb_lt _ _)) by lia. rewrite (bind_Ok _ _ _ _ _ Hf). exact Hs3.
      * apply (alloc_post_grows s s2); [done|]. right. split_and!; try done; lia.
    + destruct (IH s2 (i + 1) Ho2 ltac:(lia) ltac:(lia)) as (r & s3 & Hs3 & Hpost). exists r, s3. split.
      * apply (msteps_next _ (m + 1) _ _ (i + 1) s2); [|done]. rewrite (bind_Ok _ _ s SUPER s) by (unfold mget; by rewrite (on_super _ Ho)).
        rewrite (bind_Ok _ _ _ _ _ Hl), (proj2 (Z.ltb_lt _ _)) by lia. rewrite (bind_Ok _ _ _ _ _ Hf). by rewrite u32_small by lia.
      * apply (alloc_post_grows s s2); [done|]. destruct Hpost as [(-> & Hg3 & Hb)|(H1' & H2' & H3' & H4 & H5 & H6)]; [left|right].
        -- split; [done|]. split; [done|]. intros b Hb'. destruct (decide (b = i)) as [->|]; [done|]. apply Hb. lia.
        -- split_and!; try done; try lia. intros b Hb'. destruct (decide (b = i)) as [->|]; [done|]. apply H4. lia.
Qed.

Lemma alloc_block_ok s : online s -> exists r s', alloc_block s = Ok r s' /\ alloc_post s 2 r s'.
Proof.
  intros Ho. destruct (online_size s Ho) as (? & ? & ?).
  destruct (alloc_block_steps (Z.to_nat (nblk s - 2)) s 2 Ho) as (r & s' & Hs & Hp); [lia|lia|]. exists r, s'. split; [|done].
  unfold alloc_block. apply (mloop_ADDRS _ (Z.to_nat (nblk s - 2) + 1)); [lia|exact Hs].
Qed.
