(* ===== verification/FileInv.v ===== *)
(** * FileInv: the files on the disk and their blocks

    [F] are the addresses of the [struct File]s considered.  [bptr s f k] is block pointer [k] of
    file [f], where 1034 is the pointer to the indirect block.  The invariant [fs_inv]: all
    pointers are to blocks in use, no block has two owners. *)

From S2P Require Import Prelude Layout UMonad Str StrThms Ide IdeThms Bc BcThms Fs FsBase.

Definition NPTR : Z := 1034.

Definition indirect (s : fs) (f : Z) : Z := wrd s (f_indirect f).
(** Where the number of block [i] of the file is stored *)
Definition slot (s : fs) (f i : Z) : Z := if i <? 10 then f_direct f + 4 * i else DISKMAP + indirect s f * 4096 + 4 * (i - 10).
Definition bmap (s : fs) (f i : Z) : Z :=
  if i <? 10 then wrd s (f_direct f + 4 * i) else if indirect s f =? 0 then 0 else wrd s (slot s f i).
Definition bptr (s : fs) (f k : Z) : Z := if k =? NPTR then indirect s f else bmap s f k.

(** A block for data, and in use *)
Definition datablk (s : fs) (b : Z) : Prop := 2 + nbm s <= b < nblk s /\ isfree s b = false.

Definition okfile (s : fs) (f : Z) : Prop :=
  f mod 4 = 0 /\ (f = s_root SUPER \/ (in_map f = true /\ datablk s (blk_of f) /\ off f <= 3840)).

Record fs_inv (F : Z -> Prop) (s : fs) : Prop := {
  i_online : online s;
  i_file f : F f -> okfile s f;
  i_disj f g : F f -> F g -> f <> g -> f + 256 <= g \/ g + 256 <= f;
  i_ptr f k : F f -> 0 <= k <= NPTR -> bptr s f k <> 0 -> datablk s (bptr s f k);
  i_inj f g k j : F f -> F g -> 0 <= k <= NPTR -> 0 <= j <= NPTR -> bptr s f k <> 0 -> bptr s f k = bptr s g j -> f = g /\ k = j;
  i_home f g : F f -> F g -> indirect s f <> 0 -> indirect s f <> blk_of g;
}.

(** ** Addresses *)

Lemma blk_at b o : 0 <= o < 4096 -> blk_of (DISKMAP + b * 4096 + o) = b.
Proof. intros. unfold blk_of. replace (DISKMAP + b * 4096 + o - DISKMAP) with (b * 4096 + o) by lia. Z.div_mod_to_equations. lia. Qed.
Lemma blk_inv a : in_map a = true -> a = DISKMAP + blk_of a * 4096 + off a.
Proof. intros Hi. unfold blk_of, off. apply in_map_true in Hi. revert Hi. cc. Z.div_mod_to_equations. lia. Qed.

Lemma map_wr s a :
  online s -> in_map a = true -> accessible s a = true -> meta s a = false -> fs_wr s a.
Proof.
  intros Ho Hi Ha Hm. split_and!; [apply Ho|done|done|]. unfold writable_page. destruct (fpages s !! vpn a) as [p|] eqn:Hp; [|done].
  simpl. apply (on_w _ Ho (vpn a)); [done|]. apply in_map_true. apply in_map_true in Hi. revert Hi. unfold vpn. cc. Z.div_mod_to_equations. lia.
Qed.

Lemma datablk_addr s b o :
  online s -> datablk s b -> 0 <= o < 4096 ->
  in_map (DISKMAP + b * 4096 + o) = true /\ accessible s (DISKMAP + b * 4096 + o) = true /\ fs_wr s (DISKMAP + b * 4096 + o).
Proof.
  intros Hon [Hb Hf] Ho. destruct (online_size s Hon) as (H1 & H2 & H3).
  assert (Hi : in_map (DISKMAP + b * 4096 + o) = true) by (apply in_map_block; lia).
  assert (Ha : accessible s (DISKMAP + b * 4096 + o) = true) by (apply online_accessible; rewrite ?blk_at by done; done || lia).
  split_and!; [done|done|]. apply map_wr; try done. unfold meta. rewrite (on_super _ Hon), (on_bitmap _ Hon).
  change (SUPER =? 0) with false. change (BITMAP =? 0) with false. cbn [negb andb].
  apply orb_false_iff. rewrite !andb_false_iff, !Z.leb_gt, !Z.ltb_ge. unfold SUPER, BITMAP, nbm in *. Z.div_mod_to_equations. lia.
Qed.

Lemma datablk_buffer s b : online s -> datablk s b -> buffer s (DISKMAP + b * 4096) 4096.
Proof.
  intros Ho Hb k Hk. destruct (datablk_addr s b (k - (DISKMAP + b * 4096)) Ho Hb) as (_ & _ & Hw); [lia|].
  by replace (DISKMAP + b * 4096 + (k - (DISKMAP + b * 4096))) with k in Hw by lia.
Qed.

Lemma okfile_addr s f k :
  online s -> okfile s f -> 0 <= k < 256 ->
  in_map (f + k) = true /\ blk_of (f + k) = blk_of f /\ accessible s (f + k) = true /\ fs_wr s (f + k).
Proof.
  intros Hon [Hf4 Hf] Hk. destruct (online_size s Hon) as (H1 & H2 & H3). destruct Hf as [->|(Hi & Hd & Hoff)].
  - unfold s_root. assert (Hi : in_map (SUPER + 8 + k) = true) by (apply in_map_true; unfold SUPER; clia).
    assert (Hb : blk_of (SUPER + 8 + k) = 1) by (unfold blk_of, SUPER; Z.div_mod_to_equations; lia).
    assert (Ha : accessible s (SUPER + 8 + k) = true).
    { apply online_accessible; [done|done|lia|]. rewrite Hb. apply online_reserved; [done|lia]. }
    split_and!; [done|by rewrite Hb|done|]. apply map_wr; try done. unfold meta. rewrite (on_super _ Hon), (on_bitmap _ Hon).
    change (SUPER =? 0) with false. change (BITMAP =? 0) with false. cbn [negb andb].
    apply orb_false_iff. rewrite !andb_false_iff, !Z.leb_gt, !Z.ltb_ge. unfold SUPER, BITMAP. clia.
  - pose proof (blk_inv f Hi) as He. pose proof (off_range f). rewrite He at 1 2 4 5. rewrite <- !Z.add_assoc.
    destruct (datablk_addr s (blk_of f) (off f + k) Hon Hd) as (A & B & C); [lia|]. rewrite <- Z.add_assoc in A, B, C.
    split_and!; [done| |done|done]. rewrite (Z.add_assoc DISKMAP). apply blk_at. lia.
Qed.

Lemma okfile_word s f k :
  online s -> okfile s f -> 0 <= k -> k + 4 <= 256 -> k mod 4 = 0 ->
  (f + k) mod 4 = 0 /\ accessible s (f + k) = true /\ buffer s (f + k) 4.
Proof.
  intros Ho Hf Hk Hk' Hm. destruct (okfile_addr s f k Ho Hf) as (_ & _ & Ha & _); [lia|]. split_and!; [|done|].
  - destruct Hf as [Hf _]. Z.div_mod_to_equations. lia.
  - intros x Hx. destruct (okfile_addr s f (x - f) Ho Hf) as (_ & _ & _ & Hw); [lia|]. by replace (f + (x - f)) with x in Hw by lia.
Qed.

Lemma okfile_blk s f : online s -> okfile s f -> blk_of f = 1 \/ datablk s (blk_of f).
Proof. intros Ho [_ [->|(_ & Hd & _)]]; [left|by right]. reflexivity. Qed.

Lemma rest_datablk s s' b : fs_rest s s' -> online s -> datablk s b -> datablk s' b.
Proof.
  intros Hr Ho [Hb Hf]. destruct (online_size s Ho) as (? & ? & ?). pose proof (rest_meta _ _ Hr (on_ready _ Ho)) as Hm.
  assert (Hn : nblk s' = nblk s) by (apply meta_nblk; [done|by rewrite (on_super _ Ho)]).
  unfold datablk, nbm. rewrite Hn. split; [done|]. rewrite (meta_isfree s s' Hm); [done|by rewrite (on_super _ Ho)|by rewrite (on_bitmap _ Ho)|lia].
Qed.

Lemma byt_zero s b n o : bytes_at s b (replicate n 0) -> 0 <= o < Z.of_nat n -> byt s (b + o) = 0.
Proof.
  intros Hb Ho. apply byt_view. replace o with (Z.of_nat (Z.to_nat o)) by lia. apply Hb. apply lookup_replicate. lia.
Qed.

(** A new block is entered at [p], cleared and flushed. *)
Lemma install_ok s p r :
  online s -> datablk s r -> buffer s p 4 -> (forall k, range p 4 k -> ~ range (DISKMAP + r * 4096) 4096 k) ->
  exists s', (forall A (K : M fs A),
      (st32 p (u32 r);; a ← diskaddr (u32 r); memset a 0 BLKSIZE;; a ← diskaddr (u32 r); flush_block a;; K) s = K s') /\
    eff (fun a => range p 4 a \/ range (DISKMAP + r * 4096) 4096 a) s s' /\
    wrd s' p = r /\ (forall o, 0 <= o < 4096 -> byt s' (DISKMAP + r * 4096 + o) = 0) /\
    nblk s' = nblk s /\ (forall b, 0 <= b < nblk s -> isfree s' b = isfree s b).
Proof.
  intros Ho Hd Hp Hdis. destruct (online_size s Ho) as (N1 & N2 & N3). assert (Hr : 0 < r < 786432) by (destruct Hd; lia). rewrite (u32_small r) by lia.
  destruct (st32_ok s p r Hp) as (s1 & Hs1 & He1 & Hr1 & Hw1). rewrite u32_small in Hw1 by lia.
  assert (Ho1 := eff_online _ _ _ He1 Ho). assert (Hd1 := rest_datablk _ _ _ Hr1 Ho Hd).
  destruct (online_size s1 Ho1) as (N1' & N2' & N3').
  destruct (diskaddr_ok s1 r Ho1) as (s2 & Hs2 & Hg2); [destruct Hd1; lia|].
  assert (Ho2 := grows_online _ _ Hg2 Ho1). assert (Hd2 := rest_datablk _ _ _ (grows_rest _ _ Hg2) Ho1 Hd1).
  destruct (memset_spec s2 (DISKMAP + r * 4096) 0 4096) as (s3 & Hs3 & Ht3 & Hb3); [by apply datablk_buffer|].
  assert (He3 := touches_eff _ _ _ (on_ready _ Ho2) Ht3). assert (Ho3 := eff_online _ _ _ He3 Ho2).
  assert (Hr3 : fs_rest s2 s3) by apply Ht3. assert (Hd3 := rest_datablk _ _ _ Hr3 Ho2 Hd2).
  destruct (online_size s3 Ho3) as (N1'' & N2'' & N3'').
  destruct (diskaddr_ok s3 r Ho3) as (s4 & Hs4 & Hg4); [destruct Hd3; lia|]. assert (Ho4 := grows_online _ _ Hg4 Ho3).
  destruct (flush_spec s4 (DISKMAP + r * 4096) (on_ready _ Ho4)) as (s5 & Hs5 & Hc5 & Hb5 & _ & _).
  { rewrite <- (Z.add_0_r (DISKMAP + r * 4096)). apply in_map_block; lia. }
  assert (Hrest : fs_rest s s4).
  { eapply fs_rest_trans; [exact Hr1|]. eapply fs_rest_trans; [by apply grows_rest|]. eapply fs_rest_trans; [exact Hr3|by apply grows_rest]. }
  assert (Hmeta := rest_meta _ _ Hrest (on_ready _ Ho)).
  exists s5. split_and!.
  - intros A K. rewrite (bind_Ok _ _ _ _ _ Hs1), (bind_Ok _ _ _ _ _ Hs2). erewrite bind_Ok by exact Hs3.
    rewrite (bind_Ok _ _ _ _ _ Hs4). by rewrite (bind_Ok _ _ _ _ _ Hs5).
  - eapply eff_trans; [eapply eff_mono; [|exact He1]; tauto|]. eapply eff_trans; [by apply grows_eff|].
    eapply eff_trans; [eapply eff_mono; [|exact He3]; tauto|]. eapply eff_trans; [by apply grows_eff|]. by split.
  - rewrite <- Hw1. apply wrd_ext. intros k Hk. rewrite Hb5, (g_byt _ _ Hg4), (e_byt _ _ _ He3), (g_byt _ _ Hg2); [done|].
    intros Hx. apply (Hdis (p + k)); [unfold range; lia|]. exact Hx.
  - intros o Ho'. rewrite Hb5, (g_byt _ _ Hg4). apply (byt_zero s3 _ 4096); [exact Hb3|done].
  - rewrite (byt_nblk s4 s5 Hb5). apply meta_nblk; [done|by rewrite (on_super _ Ho)].
  - intros b Hb. rewrite (byt_isfree s4 s5 b Hb5). apply meta_isfree; [done|by rewrite (on_super _ Ho)|by rewrite (on_bitmap _ Ho)|done].
Qed.

(** ** Pointers and where they are stored *)

Definition pslot (s : fs) (f k : Z) : Z := if k =? NPTR then f_indirect f else slot s f k.
Definition stored (s : fs) (f k : Z) : Prop := 0 <= k <= NPTR /\ (k < 10 \/ k = NPTR \/ indirect s f <> 0).

Lemma ptr_stored s f k : stored s f k -> bptr s f k = wrd s (pslot s f k).
Proof.
  intros [Hk Hs]. unfold bptr, pslot, bmap, slot. destruct (Z.eqb_spec k NPTR) as [->|Hne]; [done|].
  destruct (Z.ltb_spec k 10); [done|]. destruct Hs as [?|[?|Hs]]; [lia|lia|]. by rewrite (proj2 (Z.eqb_neq _ _) Hs).
Qed.
Lemma ptr_unstored s f k : 0 <= k <= NPTR -> ~ stored s f k -> bptr s f k = 0.
Proof.
  intros Hk Hs. unfold bptr, bmap. destruct (Z.eqb_spec k NPTR) as [->|Hne]; [exfalso; apply Hs; split; lia|].
  destruct (Z.ltb_spec k 10); [exfalso; apply Hs; split; lia|].
  destruct (Z.eqb_spec (indirect s f) 0); [done|]. exfalso. apply Hs. split; [lia|]. by right; right.
Qed.
Lemma stored_dec s f k : 0 <= k <= NPTR -> stored s f k \/ ~ stored s f k.
Proof. intros Hk. unfold stored. destruct (Z.eq_dec (indirect s f) 0); lia. Qed.

Lemma ind_ptr s f : indirect s f = bptr s f NPTR.
Proof. unfold bptr. by rewrite Z.eqb_refl. Qed.

Lemma in_block b x : range (DISKMAP + b * 4096) 4096 x -> blk_of x = b.
Proof. unfold range. intros Hx. replace x with (DISKMAP + b * 4096 + (x - (DISKMAP + b * 4096))) by lia. apply blk_at. lia. Qed.

(** In the file's own structure, or in its indirect block *)
Lemma pslot_cases s f k :
  stored s f k ->
  (f + 136 <= pslot s f k /\ pslot s f k + 4 <= f + 180 /\ (pslot s f k - f) mod 4 = 0 /\ (k < 10 \/ k = NPTR)) \/
  (indirect s f <> 0 /\ 10 <= k < NPTR /\ pslot s f k = DISKMAP + indirect s f * 4096 + 4 * (k - 10)).
Proof.
  intros [Hk Hs]. unfold pslot, slot, f_indirect, f_direct, NPTR in *. destruct (Z.eqb_spec k 1034); [left; Z.div_mod_to_equations; lia|].
  destruct (Z.ltb_spec k 10); [left; Z.div_mod_to_equations; lia|]. destruct Hs as [?|[?|Hs]]; [lia|lia|]. right. split_and!; [done|lia|lia|done].
Qed.

Lemma free_not_data s b r : datablk s b -> isfree s r = true -> b <> r.
Proof. intros [_ Hf] Hr ->. congruence. Qed.

Lemma bmap_ptr s f i : 0 <= i < NPTR -> bmap s f i = bptr s f i.
Proof. intros Hi. unfold bptr. by rewrite (proj2 (Z.eqb_neq _ _)) by lia. Qed.

Lemma bmap_ext s s' g j : (forall a, byt s' a = byt s a) -> bmap s' g j = bmap s g j.
Proof.
  intros Hb. assert (Hw : forall a, wrd s' a = wrd s a) by (intros; by apply wrd_ext). unfold bmap, slot, indirect. by rewrite !Hw.
Qed.

Lemma ptr_ext s s' g j : (forall a, byt s' a = byt s a) -> bptr s' g j = bptr s g j.
Proof. intros Hb. unfold bptr, indirect. rewrite (bmap_ext s s') by done. by rewrite (wrd_ext s s') by auto. Qed.

Lemma byt_datablk s s' b : (forall a, byt s' a = byt s a) -> datablk s b -> datablk s' b.
Proof. intros Hb. unfold datablk, nbm. by rewrite (byt_nblk s s' Hb), (byt_isfree s s' b Hb). Qed.

Lemma wr_meta s a : fs_wr s a -> meta s a = false.
Proof. by intros (_ & _ & ? & _). Qed.

Lemma wr_map_free s a : online s -> fs_wr s a -> in_map a = true -> isfree s (blk_of a) = false.
Proof.
  intros Ho (_ & Ha & _) Hi. unfold accessible in Ha. rewrite Hi in Ha. apply (usable_free s); [apply Ho|by rewrite (on_bitmap _ Ho)|done].
Qed.

Lemma meta_map s a : online s -> meta s a = true -> in_map a = true.
Proof.
  intros Ho. destruct (online_size s Ho) as (? & ? & ?). unfold meta. rewrite orb_true_iff, !andb_true_iff, !Z.leb_le, !Z.ltb_lt, in_map_true.
  unfold SUPER, BITMAP. cc. Z.div_mod_to_equations. lia.
Qed.

(** After a bit of the bitmap has changed *)
Lemma flipped_meta s s' r v : 0 <= r < nblk s -> online s -> flipped s s' r v -> forall a, meta s a = false -> byt s' a = byt s a.
Proof.
  intros Hr Ho Hf a Hm. apply (fl_byt _ _ _ _ Hf). intros Hx. assert (Hmt : meta s a = true); [|congruence].
  unfold meta. rewrite (on_bitmap _ Ho). change (BITMAP =? 0) with false. apply orb_true_iff. right. cbn [negb andb].
  rewrite andb_true_iff, Z.leb_le, Z.ltb_lt. unfold range in Hx. Z.div_mod_to_equations. lia.
Qed.

Lemma flipped_nblk s s' r v : 0 <= r < nblk s -> online s -> flipped s s' r v -> nblk s' = nblk s.
Proof.
  intros Hr Ho Hf. apply wrd_ext. intros k Hk. apply (fl_byt _ _ _ _ Hf). intros Hx.
  pose proof (bitmap_nblk s Ho r Hr _ Hx). unfold s_nblocks in *. lia.
Qed.

Lemma flipped_wr s s' r v a :
  online s -> 0 <= r < nblk s -> flipped s s' r v -> v = false \/ blk_of a <> r -> in_map a = true -> fs_wr s a -> fs_wr s' a.
Proof.
  intros Ho Hr Hf Hv Hm Hw. assert (Ho' : online s') by (eapply core_online; [apply Hf|done]).
  assert (Hn := flipped_nblk s s' r v Hr Ho Hf). destruct Hw as (_ & Ha & Hme & _). apply map_wr; [done|done| |].
  - unfold accessible in *. rewrite Hm in *. destruct (usable_free s _ (on_ready _ Ho) ltac:(by rewrite (on_bitmap _ Ho)) Ha) as [H1 H2].
    pose proof (blk_vpn a Hm) as [Hb Hv']. unfold usable. rewrite (on_super _ Ho'), (on_bitmap _ Ho'), Hn, (proj2 (Z.ltb_lt _ _)) by done.
    destruct (Z.eq_dec (blk_of a) r) as [He|Hne]; [|rewrite (fl_others _ _ _ _ Hf) by lia; by rewrite H2].
    destruct Hv as [->|?]; [|done]. by rewrite He, (fl_bit _ _ _ _ Hf).
  - rewrite <- Hme. unfold meta. by rewrite Hn, (on_super _ Ho), (on_bitmap _ Ho), (on_super _ Ho'), (on_bitmap _ Ho').
Qed.

Section files.
Context (F : Z -> Prop).

Lemma pslot_buffer s f k :
  fs_inv F s -> F f -> stored s f k -> pslot s f k mod 4 = 0 /\ accessible s (pslot s f k) = true /\ buffer s (pslot s f k) 4.
Proof.
  intros Hi Hf Hs. assert (Ho := i_online _ _ Hi). destruct (pslot_cases s f k Hs) as [(H1 & H2 & H3 & _)|(H1 & H2 & H3)].
  - destruct (okfile_word s f (pslot s f k - f) Ho (i_file _ _ Hi f Hf)) as (A & B & C); [lia|lia|done|].
    replace (f + (pslot s f k - f)) with (pslot s f k) in A, B, C by lia. done.
  - assert (Hd : datablk s (indirect s f)) by (rewrite ind_ptr in *; apply (i_ptr _ _ Hi); [done|unfold NPTR; lia|done]).
    rewrite H3. unfold NPTR in H2. split_and!.
    + cc. Z.div_mod_to_equations. lia.
    + apply datablk_addr; [done|done|lia].
    + intros x Hx. destruct (datablk_addr s (indirect s f) (x - (DISKMAP + indirect s f * 4096)) Ho Hd) as (_ & _ & Hw); [lia|].
      by replace (DISKMAP + indirect s f * 4096 + (x - (DISKMAP + indirect s f * 4096))) with x in Hw by lia.
Qed.

Lemma file_home s f x : fs_inv F s -> F f -> f <= x < f + 256 -> in_map x = true /\ blk_of x = blk_of f.
Proof.
  intros Hi Hf Hx. destruct (okfile_addr s f (x - f) (i_online _ _ Hi) (i_file _ _ Hi f Hf)) as (A & B & _); [lia|].
  by replace (f + (x - f)) with x in A, B by lia.
Qed.

Lemma pslot_disj s f g k j x :
  fs_inv F s -> F f -> F g -> stored s f k -> stored s g j -> (f, k) <> (g, j) ->
  range (pslot s f k) 4 x -> ~ range (pslot s g j) 4 x.
Proof.
  intros Hi Hf Hg Hsf Hsg Hne Hx Hy. unfold range in *.
  assert (Hblk : forall h i, F h -> indirect s h <> 0 -> 10 <= i < NPTR -> DISKMAP + indirect s h * 4096 + 4 * (i - 10) <= x < DISKMAP + indirect s h * 4096 + 4 * (i - 10) + 4 ->
    blk_of x = indirect s h).
  { intros h i Hh Hih Hii Hxx. unfold NPTR in Hii. replace x with (DISKMAP + indirect s h * 4096 + (x - (DISKMAP + indirect s h * 4096))) by lia. apply blk_at. lia. }
  destruct (pslot_cases s f k Hsf) as [(A1 & A2 & A3 & A4)|(A1 & A2 & A3)];
    destruct (pslot_cases s g j Hsg) as [(B1 & B2 & B3 & B4)|(B1 & B2 & B3)].
  - destruct (Z.eq_dec f g) as [->|Hfg]; [|destruct (i_disj _ _ Hi f g Hf Hg Hfg); lia].
    assert (k <> j) by congruence. unfold pslot, slot, f_direct, f_indirect, NPTR in *.
    destruct (Z.eqb_spec k 1034), (Z.eqb_spec j 1034), (Z.ltb_spec k 10), (Z.ltb_spec j 10); lia.
  - rewrite B3 in Hy. pose proof (Hblk g j Hg B1 B2 Hy) as Hb. destruct (file_home s f x Hi Hf) as [_ Hh]; [lia|].
    apply (i_home _ _ Hi g f); congruence.
  - rewrite A3 in Hx. pose proof (Hblk f k Hf A1 A2 Hx) as Hb. destruct (file_home s g x Hi Hg) as [_ Hh]; [lia|].
    apply (i_home _ _ Hi f g); congruence.
  - rewrite A3 in Hx. rewrite B3 in Hy. pose proof (Hblk f k Hf A1 A2 Hx) as Hb1. pose proof (Hblk g j Hg B1 B2 Hy) as Hb2.
    destruct (i_inj _ _ Hi f g NPTR NPTR Hf Hg) as [-> _]; [unfold NPTR; lia..|by rewrite <- ind_ptr|rewrite <- !ind_ptr; congruence|].
    assert (k <> j) by congruence. lia.
Qed.

(** All pointers but one are as they were. *)
Lemma ptr_update s s' f k w :
  fs_inv F s -> F f -> stored s f k ->
  (forall a g j, F g -> stored s g j -> range (pslot s g j) 4 a -> ~ range (pslot s f k) 4 a -> byt s' a = byt s a) ->
  wrd s' (pslot s f k) = w -> k <> NPTR ->
  forall g j, F g -> 0 <= j <= NPTR -> bptr s' g j = if decide (g = f /\ j = k) then w else bptr s g j.
Proof.
  intros Hi Hf Hk Hb Hw Hkn.
  assert (Hsame : forall g j, F g -> stored s g j -> (g, j) <> (f, k) -> wrd s' (pslot s g j) = wrd s (pslot s g j)).
  { intros g j Hg Hj Hne. apply wrd_ext. intros x Hx. apply (Hb _ g j Hg Hj); [unfold range; lia|].
    apply (pslot_disj s g f j k); try done. unfold range. lia. }
  assert (Hind : forall g, F g -> indirect s' g = indirect s g).
  { intros g Hg. apply (Hsame g NPTR Hg); [split; unfold NPTR; lia|congruence]. }
  assert (Hst : forall g j, F g -> stored s' g j <-> stored s g j) by (intros g j Hg; unfold stored; by rewrite Hind).
  assert (Hps : forall g j, F g -> pslot s' g j = pslot s g j) by (intros g j Hg; unfold pslot, slot; by rewrite Hind).
  intros g j Hg Hj. destruct (stored_dec s g j Hj) as [Hs|Hs].
  - rewrite (ptr_stored s' g j), Hps by (by rewrite ?Hst). rewrite (ptr_stored s g j Hs).
    destruct (decide (g = f /\ j = k)) as [[-> ->]|Hne]; [done|]. apply Hsame; [done|done|]. intros [= -> ->]. tauto.
  - rewrite (ptr_unstored s g j), (ptr_unstored s' g j) by (rewrite ?Hst; done). rewrite decide_False; [done|]. by intros [-> ->].
Qed.

(** The pointer to a new indirect block, which is empty *)
Lemma ind_update s s' f r :
  fs_inv F s -> F f -> indirect s f = 0 -> r <> 0 ->
  (forall a g j, F g -> stored s g j -> range (pslot s g j) 4 a -> ~ range (f_indirect f) 4 a -> byt s' a = byt s a) ->
  wrd s' (f_indirect f) = r -> (forall o, 0 <= o < 4096 -> byt s' (DISKMAP + r * 4096 + o) = 0) ->
  forall g j, F g -> 0 <= j <= NPTR -> bptr s' g j = if decide (g = f /\ j = NPTR) then r else bptr s g j.
Proof.
  intros Hi Hf Hind Hr Hb Hw Hz.
  assert (Hsf : stored s f NPTR) by (split; unfold NPTR; lia).
  assert (Hsame : forall g j, F g -> stored s g j -> (g, j) <> (f, NPTR) -> wrd s' (pslot s g j) = wrd s (pslot s g j)).
  { intros g j Hg Hj Hne. apply wrd_ext. intros x Hx. apply (Hb _ g j Hg Hj); [unfold range; lia|].
    apply (pslot_disj s g f j NPTR); try done. unfold range. lia. }
  intros g j Hg Hj. destruct (Z.eq_dec g f) as [->|Hgf].
  - destruct (decide (f = f /\ j = NPTR)) as [[_ ->]|Hne]; [done|]. assert (j <> NPTR) by tauto.
    destruct (Z.lt_ge_cases j 10) as [Hlt|Hge].
    + assert (Hs : stored s f j) by (split; [done|by left]). assert (Hs' : stored s' f j) by (split; [done|by left]).
      rewrite (ptr_stored s f j Hs), (ptr_stored s' f j Hs').
      assert (pslot s' f j = pslot s f j) as ->.
      { unfold pslot, slot. rewrite (proj2 (Z.eqb_neq _ _)) by done. by rewrite (proj2 (Z.ltb_lt _ _)) by done. }
      apply Hsame; [done|done|congruence].
    + rewrite (ptr_unstored s f j) by (unfold stored; lia). unfold bptr, bmap. rewrite (proj2 (Z.eqb_neq _ _)) by done.
      rewrite (proj2 (Z.ltb_ge _ _)) by done. assert (indirect s' f = r) as Hr' by done. rewrite Hr', (proj2 (Z.eqb_neq _ _)) by done.
      unfold slot. rewrite (proj2 (Z.ltb_ge _ _)), Hr' by done. unfold wrd, NPTR in *.
      rewrite <- !(Z.add_assoc (DISKMAP + r * 4096)). by rewrite !Hz by lia.
  - rewrite decide_False by tauto. assert (Hig : indirect s' g = indirect s g).
    { apply (Hsame g NPTR Hg); [split; unfold NPTR; lia|congruence]. }
    destruct (stored_dec s g j Hj) as [Hs|Hs].
    + rewrite (ptr_stored s g j Hs), (ptr_stored s' g j) by (unfold stored; by rewrite Hig).
      assert (pslot s' g j = pslot s g j) as -> by (unfold pslot, slot; by rewrite Hig). apply Hsame; [done|done|congruence].
    + by rewrite (ptr_unstored s g j), (ptr_unstored s' g j) by (unfold stored in *; rewrite ?Hig; done).
Qed.

(** ** A file gets a new block *)

Record added (s s' : fs) (f k r : Z) : Prop := {
  ad_core : fs_core s s';
  ad_nblk : nblk s' = nblk s;
  ad_range : 2 + nbm s <= r < nblk s;
  ad_was_free : isfree s r = true;
  ad_used : isfree s' r = false;
  ad_others b : 0 <= b < nblk s -> b <> r -> isfree s' b = isfree s b;
  ad_ptr g j : F g -> 0 <= j <= NPTR -> bptr s' g j = if decide (g = f /\ j = k) then r else bptr s g j;
  ad_zero o : 0 <= o < 4096 -> byt s' (DISKMAP + r * 4096 + o) = 0;
  ad_byt a : ~ range (pslot s f k) 4 a -> ~ range (DISKMAP + r * 4096) 4096 a -> meta s a = false -> byt s' a = byt s a;
}.

Lemma added_datablk s s' f k r b : online s -> added s s' f k r -> datablk s b -> datablk s' b.
Proof.
  intros Ho Ha Hd. destruct (online_size s Ho) as (? & ? & ?). pose proof (free_not_data s b r Hd (ad_was_free _ _ _ _ _ Ha)) as Hne.
  destruct Hd as [Hb Hf]. unfold datablk, nbm. rewrite (ad_nblk _ _ _ _ _ Ha). split; [done|]. rewrite (ad_others _ _ _ _ _ Ha); [done|lia|done].
Qed.

Lemma added_okfile s s' f k r g : online s -> added s s' f k r -> okfile s g -> okfile s' g.
Proof.
  intros Ho Ha [H4 [->|(Hi & Hd & Hoff)]]; (split; [done|]); [by left|right]. split_and!; [done|by eapply added_datablk|done].
Qed.

Lemma home_not_free s g r : fs_inv F s -> F g -> 2 + nbm s <= r -> isfree s r = true -> r <> blk_of g.
Proof.
  intros Hi Hg Hr Hf He. destruct (online_size s (i_online _ _ Hi)) as (? & ? & ?).
  destruct (okfile_blk s g (i_online _ _ Hi) (i_file _ _ Hi g Hg)) as [Hb|[_ Hb]]; [lia|congruence].
Qed.

Lemma added_inv s s' f k r :
  fs_inv F s -> F f -> 0 <= k <= NPTR -> added s s' f k r -> fs_inv F s'.
Proof.
  intros Hi Hf Hk Ha. assert (Ho := i_online _ _ Hi). destruct (online_size s Ho) as (N1 & N2 & N3).
  assert (Hr := ad_range _ _ _ _ _ Ha). assert (Hfr := ad_was_free _ _ _ _ _ Ha).
  assert (Hnot : forall g j, F g -> 0 <= j <= NPTR -> bptr s g j <> 0 -> bptr s g j <> r).
  { intros g j Hg Hj Hnz. apply (free_not_data s); [by apply (i_ptr _ _ Hi)|done]. }
  split.
  - eapply core_online; [apply Ha|done].
  - intros g Hg. eapply added_okfile; [done|done|by apply (i_file _ _ Hi)].
  - apply Hi.
  - intros g j Hg Hj. rewrite (ad_ptr _ _ _ _ _ Ha) by done. destruct (decide (g = f /\ j = k)) as [_|_].
    + intros _. split; [|apply (ad_used _ _ _ _ _ Ha)]. unfold nbm. rewrite (ad_nblk _ _ _ _ _ Ha). done.
    + intros Hnz. eapply added_datablk; [done|done|]. by apply (i_ptr _ _ Hi).
  - intros g h i j Hg Hh Hi' Hj. rewrite !(ad_ptr _ _ _ _ _ Ha) by done.
    destruct (decide (g = f /\ i = k)) as [[-> ->]|Hn1], (decide (h = f /\ j = k)) as [[-> ->]|Hn2].
    + done.
    + intros Hnz He. exfalso. apply (Hnot h j Hh Hj); congruence.
    + intros Hnz He. exfalso. apply (Hnot g i Hg Hi'); congruence.
    + intros Hnz He. by apply (i_inj _ _ Hi).
  - intros g h Hg Hh. rewrite ind_ptr, (ad_ptr _ _ _ _ _ Ha) by (done || unfold NPTR; lia).
    destruct (decide _) as [_|_].
    + intros _. apply (home_not_free s); [done|done|lia|done].
    + rewrite <- ind_ptr. by apply (i_home _ _ Hi).
Qed.

(** ** What files contain *)

Definition fsize (s : fs) (f : Z) : Z := i32 (wrd s (f_size f)).
Definition fbyte (s : fs) (f o : Z) : Z :=
  let b := bmap s f (o / 4096) in if b =? 0 then 0 else byt s (DISKMAP + b * 4096 + o mod 4096).
Definition FSPAN : Z := 1034 * 4096.

(** No block of the file holds the structure of a file. *)
Definition regular (s : fs) (g : Z) : Prop :=
  forall k h, 0 <= k < NPTR -> F h -> bptr s g k <> 0 -> bptr s g k <> blk_of h.

(** All files are as they were: names, sizes and types, and the contents of regular files.
    Outside the disk map only bytes in [X] may differ. *)
Record same_files (X : Z -> Prop) (s s' : fs) : Prop := {
  sf_core : fs_core s s';
  sf_head g a : F g -> g <= a < g + 136 -> byt s' a = byt s a;
  sf_regular g : F g -> regular s g -> regular s' g;
  sf_fbyte g o : F g -> regular s g -> 0 <= o < FSPAN -> fbyte s' g o = fbyte s g o;
  sf_outside a : in_map a = false -> ~ X a -> byt s' a = byt s a;
}.

Lemma same_files_refl X s : same_files X s s.
Proof. split; try done. apply core_refl. Qed.
Lemma same_files_trans X s1 s2 s3 : same_files X s1 s2 -> same_files X s2 s3 -> same_files X s1 s3.
Proof.
  intros H1 H2. split.
  - eapply core_trans; [apply H1|apply H2].
  - intros g a Hg Ha. by rewrite (sf_head _ _ _ H2 g), (sf_head _ _ _ H1 g).
  - intros g Hg Hr. apply (sf_regular _ _ _ H2); [done|]. by apply (sf_regular _ _ _ H1).
  - intros g o Hg Hr Ho. rewrite (sf_fbyte _ _ _ H2), (sf_fbyte _ _ _ H1); try done. by apply (sf_regular _ _ _ H1).
  - intros a Ha Hx. by rewrite (sf_outside _ _ _ H2), (sf_outside _ _ _ H1).
Qed.

Lemma byt_same_files X s s' : fs_core s s' -> (forall a, byt s' a = byt s a) -> same_files X s s'.
Proof.
  intros Hc Hb. split; try done.
  - intros g Hg Hr k h. rewrite (ptr_ext s s') by done. apply Hr.
  - intros g o Hg Hr Ho. unfold fbyte. by rewrite (bmap_ext s s'), Hb by done.
Qed.

Lemma byt_inv s s' : fs_core s s' -> (forall a, byt s' a = byt s a) -> fs_inv F s -> fs_inv F s'.
Proof.
  intros Hc Hb Hi. split.
  - eapply core_online; [done|apply Hi].
  - intros f Hf. destruct (i_file _ _ Hi f Hf) as [H4 [->|(H1 & H2 & H3)]]; (split; [done|]); [by left|right].
    split_and!; [done|by apply (byt_datablk s s')|done].
  - apply Hi.
  - intros f k Hf Hk. rewrite (ptr_ext s s') by done. intros Hnz. apply (byt_datablk s s'); [done|]. by apply (i_ptr _ _ Hi).
  - intros f g k j Hf Hg Hk Hj. rewrite !(ptr_ext s s') by done. by apply (i_inj _ _ Hi).
  - intros f g Hf Hg. rewrite ind_ptr, (ptr_ext s s'), <- ind_ptr by done. by apply (i_home _ _ Hi).
Qed.
Lemma grows_inv s s' : grows s s' -> fs_inv F s -> fs_inv F s'.
Proof. intros Hg. apply byt_inv; [by apply rest_core, grows_rest|apply Hg]. Qed.
Lemma grows_same X s s' : grows s s' -> same_files X s s'.
Proof. intros Hg. apply byt_same_files; [by apply rest_core, grows_rest|apply Hg]. Qed.

Lemma pslot_map s f k x : fs_inv F s -> F f -> stored s f k -> range (pslot s f k) 4 x -> in_map x = true.
Proof.
  intros Hi Hf Hs Hx. unfold range in Hx. destruct (pslot_cases s f k Hs) as [(H1 & H2 & _)|(H1 & H2 & H3)].
  - apply (file_home s f x Hi Hf). lia.
  - assert (Hd : datablk s (indirect s f)) by (rewrite ind_ptr in *; apply (i_ptr _ _ Hi); [done|unfold NPTR; lia|done]).
    unfold NPTR in *. destruct (datablk_addr s (indirect s f) (x - (DISKMAP + indirect s f * 4096)) (i_online _ _ Hi) Hd) as (A & _ & _); [lia|].
    by replace (DISKMAP + indirect s f * 4096 + (x - (DISKMAP + indirect s f * 4096))) with x in A by lia.
Qed.

(** Data of regular files is nowhere a pointer. *)
Lemma data_not_pslot s f k g j o :
  fs_inv F s -> F f -> stored s f k -> F g -> regular s g -> 0 <= j < NPTR -> bptr s g j <> 0 -> 0 <= o < 4096 ->
  ~ range (pslot s f k) 4 (DISKMAP + bptr s g j * 4096 + o).
Proof.
  intros Hi Hf Hs Hg Hr Hj Hnz Ho Hx. destruct (pslot_cases s f k Hs) as [(H1 & H2 & _)|(H1 & H2 & H3)]; unfold range in Hx.
  - destruct (file_home s f (DISKMAP + bptr s g j * 4096 + o) Hi Hf) as [_ Hb]; [lia|].
    rewrite blk_at in Hb by done. by apply (Hr j f Hj Hf Hnz).
  - unfold NPTR in *. assert (Hb : blk_of (DISKMAP + bptr s g j * 4096 + o) = indirect s f).
    { rewrite H3 in Hx. apply in_block. unfold range. lia. }
    rewrite blk_at, ind_ptr in Hb by done. destruct (i_inj _ _ Hi g f j NPTR Hg Hf) as [_ ?]; unfold NPTR in *; try done; try lia.
Qed.

Lemma added_same X s s' f k r :
  fs_inv F s -> F f -> stored s f k -> bptr s f k = 0 -> added s s' f k r -> same_files X s s'.
Proof.
  intros Hi Hf Hs H0 Ha. assert (Ho := i_online _ _ Hi). destruct (online_size s Ho) as (N1 & N2 & N3).
  assert (Hr := ad_range _ _ _ _ _ Ha). assert (Hfr := ad_was_free _ _ _ _ _ Ha).
  assert (Hin : forall a, range (DISKMAP + r * 4096) 4096 a -> in_map a = true).
  { intros a Hra. rewrite <- (Z.sub_add (DISKMAP + r * 4096) a), Z.add_comm. unfold range in Hra. apply in_map_block; lia. }
  split.
  - apply Ha.
  - intros g a Hg Hra. destruct (okfile_addr s g (a - g) Ho (i_file _ _ Hi g Hg)) as (Hm & Hb & Hac & Hw); [lia|].
    replace (g + (a - g)) with a in * by lia. apply (ad_byt _ _ _ _ _ Ha); [| |by apply wr_meta].
    + intros Hx. destruct (pslot_cases s f k Hs) as [(H1 & H2 & _)|(H1 & H2 & H3)]; unfold range in Hx.
      * destruct (Z.eq_dec f g) as [->|Hne]; [lia|]. destruct (i_disj _ _ Hi f g Hf Hg Hne); lia.
      * unfold NPTR in H2. assert (Hba : blk_of a = indirect s f) by (apply in_block; unfold range; lia).
        apply (i_home _ _ Hi f g); congruence.
    + intros Hx. apply in_block in Hx. apply (wr_map_free s) in Hw; [congruence|done|done].
  - intros g Hg Hreg j h Hj Hh. rewrite (ad_ptr _ _ _ _ _ Ha) by (done || lia). destruct (decide _).
    + intros _. by apply (home_not_free s); [..|lia|].
    + by apply Hreg.
  - intros g o Hg Hreg Hro. unfold fbyte, FSPAN in *. assert (Hj : 0 <= o / 4096 < NPTR) by (unfold NPTR; Z.div_mod_to_equations; lia).
    rewrite !bmap_ptr, (ad_ptr _ _ _ _ _ Ha) by (done || lia). assert (Hom : 0 <= o mod 4096 < 4096) by (apply Z.mod_pos_bound; lia).
    destruct (decide (g = f /\ o / 4096 = k)) as [[-> <-]|Hne].
    + rewrite H0. change (0 =? 0) with true. cbv iota. rewrite (ad_zero _ _ _ _ _ Ha) by done. by destruct (r =? 0).
    + destruct (Z.eqb_spec (bptr s g (o / 4096)) 0) as [|Hnz]; [done|].
      assert (Hd : datablk s (bptr s g (o / 4096))) by (apply (i_ptr _ _ Hi); [done|lia|done]).
      apply (ad_byt _ _ _ _ _ Ha).
      * by apply data_not_pslot.
      * intros Hx%in_block. rewrite blk_at in Hx by done. by apply (free_not_data s _ r Hd).
      * apply wr_meta. by apply datablk_addr.
  - intros a Hm _. apply (ad_byt _ _ _ _ _ Ha).
    + intros Hx. by rewrite (pslot_map s f k a) in Hm.
    + intros Hx. by rewrite Hin in Hm.
    + destruct (meta s a) eqn:He; [|done]. by rewrite (meta_map s a) in Hm.
Qed.


(** ** What does not touch pointers, sizes and the bitmap *)

Lemma ptr_same s s' :
  (forall a g j, F g -> stored s g j -> range (pslot s g j) 4 a -> byt s' a = byt s a) ->
  forall g j, F g -> 0 <= j <= NPTR -> bptr s' g j = bptr s g j.
Proof.
  intros Hb. assert (Hsame : forall g j, F g -> stored s g j -> wrd s' (pslot s g j) = wrd s (pslot s g j)).
  { intros g j Hg Hj. apply wrd_ext. intros x Hx. apply (Hb _ g j Hg Hj). unfold range. lia. }
  assert (Hind : forall g, F g -> indirect s' g = indirect s g).
  { intros g Hg. apply (Hsame g NPTR Hg). split; unfold NPTR; lia. }
  intros g j Hg Hj. assert (Hst : stored s' g j <-> stored s g j) by (unfold stored; by rewrite Hind).
  destruct (stored_dec s g j Hj) as [Hs|Hs].
  - rewrite (ptr_stored s' g j), (ptr_stored s g j Hs) by (by rewrite Hst). rewrite <- Hsame by done. unfold pslot, slot. by rewrite Hind.
  - by rewrite (ptr_unstored s g j), (ptr_unstored s' g j) by (rewrite ?Hst; done).
Qed.

Lemma inv_online s s' :
  fs_inv F s -> online s' -> (forall a, meta s a = true -> byt s' a = byt s a) ->
  (forall g j, F g -> 0 <= j <= NPTR -> bptr s' g j = bptr s g j) -> fs_inv F s'.
Proof.
  intros Hi Ho' Hm Hp. assert (Ho := i_online _ _ Hi). destruct (online_size s Ho) as (N1 & N2 & N3).
  assert (Hme : meta_eq s s') by (split; [by rewrite (on_super _ Ho), (on_super _ Ho')|by rewrite (on_bitmap _ Ho), (on_bitmap _ Ho')|done]).
  assert (Hn : nblk s' = nblk s) by (apply meta_nblk; [done|by rewrite (on_super _ Ho)]).
  assert (Hd : forall b, datablk s b -> datablk s' b).
  { intros b [Hb Hf]. unfold datablk, nbm. rewrite Hn. split; [done|].
    rewrite (meta_isfree s s' Hme); [done|by rewrite (on_super _ Ho)|by rewrite (on_bitmap _ Ho)|lia]. }
  split.
  - done.
  - intros f Hf. destruct (i_file _ _ Hi f Hf) as [H4 [->|(H1 & H2 & H3)]]; (split; [done|]); [by left|right]. split_and!; auto.
  - apply Hi.
  - intros f k Hf Hk. rewrite Hp by done. intros Hnz. apply Hd. by apply (i_ptr _ _ Hi).
  - intros f g k j Hf Hg Hk Hj. rewrite !Hp by done. by apply (i_inj _ _ Hi).
  - intros f g Hf Hg. rewrite ind_ptr, Hp, <- ind_ptr by (done || (unfold NPTR; lia)). by apply (i_home _ _ Hi).
Qed.

Lemma inv_frame s s' :
  fs_inv F s -> fs_core s s' -> (forall a, meta s a = true -> byt s' a = byt s a) ->
  (forall g j, F g -> 0 <= j <= NPTR -> bptr s' g j = bptr s g j) -> fs_inv F s'.
Proof. intros Hi Hc. apply (inv_online s); [done|]. eapply core_online; [done|apply Hi]. Qed.

(** Memory outside the disk map *)
Lemma map_inv s s' : fs_inv F s -> online s' -> (forall a, in_map a = true -> byt s' a = byt s a) -> fs_inv F s'.
Proof.
  intros Hi Ho Hb. apply (inv_online s); [done|done| |].
  - intros a Ha. apply Hb. apply (meta_map s); [apply Hi|done].
  - apply ptr_same. intros a g j Hg Hj Ha. apply Hb. by apply (pslot_map s g j).
Qed.

Lemma outside_frame X s s' :
  fs_inv F s -> eff X s s' -> (forall a, X a -> in_map a = false) ->
  fs_inv F s' /\ same_files X s s' /\ (forall g j, F g -> 0 <= j <= NPTR -> bptr s' g j = bptr s g j).
Proof.
  intros Hi He Hx. assert (Hb : forall a, in_map a = true -> byt s' a = byt s a).
  { intros a Ha. apply (e_byt _ _ _ He). intros Hxa. apply Hx in Hxa. congruence. }
  assert (Hp : forall g j, F g -> 0 <= j <= NPTR -> bptr s' g j = bptr s g j).
  { apply ptr_same. intros a g j Hg Hj Ha. apply Hb. by apply (pslot_map s g j). }
  split; [|split; [|done]].
  - apply (inv_frame s); [done|apply He| |done]. intros a Ha. apply Hb. apply (meta_map s); [apply Hi|done].
  - split.
    + apply He.
    + intros g a Hg Ha. apply Hb. apply (file_home s g a Hi Hg). lia.
    + intros g Hg Hr k h Hk Hh. rewrite Hp by (done || lia). by apply Hr.
    + intros g o Hg Hr Ho. unfold fbyte, FSPAN in *. assert (Hj : 0 <= o / 4096 < NPTR) by (unfold NPTR; Z.div_mod_to_equations; lia).
      rewrite !bmap_ptr, Hp by (done || lia). destruct (Z.eqb_spec (bptr s g (o / 4096)) 0) as [|Hnz]; [done|]. apply Hb.
      apply (datablk_addr s); [apply Hi|apply (i_ptr _ _ Hi); [done|lia|done]|apply Z.mod_pos_bound; lia].
    + intros a _ Ha. by apply (e_byt _ _ _ He).
Qed.
End files.
