(* ===== verification/FileThms.v ===== *)
(** * FileThms: finding and adding the blocks of a file *)

From S2P Require Import Prelude Layout UMonad Str StrThms Ide IdeThms Bc BcThms Fs FsBase FileInv.

Section files.
Context (F : Z -> Prop).
Notation fs_inv := (fs_inv F).
Notation same_files := (same_files F (fun _ => False)).
Notation added := (added F).

Lemma pslot_not_free s f k r x :
  fs_inv s -> F f -> stored s f k -> isfree s r = true -> range (pslot s f k) 4 x -> ~ range (DISKMAP + r * 4096) 4096 x.
Proof.
  intros Hi Hf Hs Hfr Hx Hy%in_block. destruct (pslot_buffer F s f k Hi Hf Hs) as (_ & _ & Hw).
  assert (Hmap := pslot_map F s f k x Hi Hf Hs Hx).
  pose proof (wr_map_free s x (i_online _ _ Hi) (Hw x Hx) Hmap). congruence.
Qed.

Lemma add_block s f k :
  fs_inv s -> F f -> stored s f k -> bptr s f k = 0 ->
  (exists s', alloc_block s = Ok (- E_NO_DISK) s' /\ grows s s' /\ forall b, 2 <= b < nblk s -> isfree s b = false) \/
  (exists r s1 s', alloc_block s = Ok r s1 /\ 0 < r < 2^31 /\
    (forall A (K : M fs A), (st32 (pslot s f k) (u32 r);; a ← diskaddr (u32 r); memset a 0 BLKSIZE;;
       a ← diskaddr (u32 r); flush_block a;; K) s1 = K s') /\ added s s' f k r).
Proof.
  intros Hi Hf Hs H0. assert (Ho := i_online _ _ Hi). destruct (online_size s Ho) as (N1 & N2 & N3).
  destruct (alloc_block_ok s Ho) as (r & s1 & Hal & [(-> & Hg & Hfull)|(Hr1 & Hr2 & Hfree & Hfirst & Hfl & _)]); [left; eauto|].
  right. assert (Hr : 0 <= r < nblk s) by lia. assert (Ho1 : online s1) by (eapply core_online; [apply Hfl|done]).
  assert (Hn1 := flipped_nblk s s1 r false Hr Ho Hfl). destruct (pslot_buffer F s f k Hi Hf Hs) as (_ & _ & Hw).
  assert (Hd1 : datablk s1 r) by (split; [unfold nbm; rewrite Hn1; fold (nbm s); lia|apply (fl_bit _ _ _ _ Hfl)]).
  destruct (install_ok s1 (pslot s f k) r Ho1 Hd1) as (s2 & Hrun & He & Hwrd & Hz & Hn2 & Hfr2).
  { intros x Hx. apply (flipped_wr s s1 r false); try done; [by left|by apply (pslot_map F s f k)|by apply Hw]. }
  { intros x. by apply pslot_not_free. }
  exists r, s1, s2. split; [done|]. split; [lia|]. split; [exact Hrun|].
  assert (Hbyt : forall a, ~ range (pslot s f k) 4 a -> ~ range (DISKMAP + r * 4096) 4096 a -> meta s a = false -> byt s2 a = byt s a).
  { intros a H1 H2 H3. rewrite (e_byt _ _ _ He) by tauto. by apply (flipped_meta s s1 r false). }
  assert (Hptrs : forall a g j, F g -> stored s g j -> range (pslot s g j) 4 a -> ~ range (pslot s f k) 4 a -> byt s2 a = byt s a).
  { intros a g j Hg Hj Ha Hna. apply Hbyt; [done|by apply (pslot_not_free s g j)|].
    destruct (pslot_buffer F s g j Hi Hg Hj) as (_ & _ & Hwg). apply wr_meta, Hwg, Ha. }
  split; try done.
  - eapply core_trans; [apply Hfl|apply He].
  - by rewrite Hn2.
  - lia.
  - rewrite Hfr2 by lia. apply (fl_bit _ _ _ _ Hfl).
  - intros b Hb Hne. rewrite Hfr2 by lia. apply (fl_others _ _ _ _ Hfl); [lia|done].
  - destruct (Z.eq_dec k NPTR) as [->|Hk].
    + assert (Hi0 : indirect s f = 0) by (by rewrite ind_ptr). intros g j. apply (ind_update F s s2 f r); try done. lia.
    + intros g j. by apply (ptr_update F s s2 f k r).
Qed.

(** ** [file_block_walk] *)

Lemma ind_ok s f :
  fs_inv s -> F f -> exists s', ld32 (f_indirect f) s = Ok (indirect s f) s' /\ grows s s'.
Proof.
  intros Hi Hf. destruct (okfile_word s f 176 (i_online _ _ Hi) (i_file _ _ Hi f Hf)) as (A & B & _); [lia|lia|done|].
  destruct (ld32_ok s (f_indirect f) (on_ready _ (i_online _ _ Hi)) A B) as (s' & Hl & Hg & _). eauto.
Qed.

Lemma ind_grows s s' f : grows s s' -> indirect s' f = indirect s f.
Proof. intros Hg. apply wrd_ext. intros. apply Hg. Qed.
Lemma pslot_grows s s' f k : grows s s' -> pslot s' f k = pslot s f k.
Proof. intros Hg. unfold pslot, slot. by rewrite (ind_grows s s'). Qed.

(** The end of [file_block_walk] when there is an indirect block *)
Lemma walk_indirect s f i :
  fs_inv s -> F f -> 10 <= i < NPTR -> indirect s f <> 0 ->
  exists s', (indirect ← ld32 (f_indirect f); a ← diskaddr indirect; mret (0, a + 4 * (i - NDIRECT))) s = Ok (0, pslot s f i) s' /\ grows s s'.
Proof.
  intros Hi Hf Hr Hind. destruct (ind_ok s f Hi Hf) as (s1 & Hl & Hg1). rewrite (bind_Ok _ _ _ _ _ Hl).
  assert (Hd : datablk s (indirect s f)) by (rewrite ind_ptr in *; apply (i_ptr _ _ Hi); [done|unfold NPTR; lia|done]).
  assert (Ho := i_online _ _ Hi). assert (Ho1 := grows_online _ _ Hg1 Ho). destruct (online_size s Ho) as (? & ? & ?).
  destruct (diskaddr_ok s1 (indirect s f) Ho1) as (s2 & Hs2 & Hg2).
  { rewrite (byt_nblk s s1) by apply Hg1. destruct Hd. lia. }
  rewrite (bind_Ok _ _ _ _ _ Hs2). exists s2. split; [|by eapply grows_trans]. unfold mret, M_ret, pslot, slot, NPTR in *.
  rewrite (proj2 (Z.eqb_neq _ _)), (proj2 (Z.ltb_ge _ _)) by lia. done.
Qed.

Lemma walk_stored s f i alloc :
  fs_inv s -> F f -> 0 <= i < NPTR -> stored s f i ->
  exists s', file_block_walk f i alloc s = Ok (0, pslot s f i) s' /\ grows s s'.
Proof.
  intros Hi Hf Hr Hs. unfold file_block_walk. change (NDIRECT + NINDIRECT) with NPTR. rewrite (proj2 (Z.leb_gt _ _)) by lia.
  change NDIRECT with 10 at 1. destruct (Z.ltb_spec i 10).
  { exists s. split; [|apply grows_refl]. unfold pslot, slot. rewrite (proj2 (Z.eqb_neq _ _)), (proj2 (Z.ltb_lt _ _)) by lia. done. }
  destruct Hs as [_ [?|[?|Hind]]]; [lia|lia|]. destruct (ind_ok s f Hi Hf) as (s1 & Hl & Hg1). rewrite (bind_Ok _ _ _ _ _ Hl).
  rewrite (proj2 (Z.eqb_neq _ _) Hind). cbv zeta.
  destruct (walk_indirect s1 f i) as (s2 & Hs2 & Hg2); [by eapply grows_inv|done|lia|by rewrite (ind_grows s s1)|].
  rewrite (pslot_grows s s1) in Hs2 by done. exists s2. split; [exact Hs2|by eapply grows_trans].
Qed.

Lemma walk_none s f i :
  fs_inv s -> F f -> 0 <= i < NPTR -> ~ stored s f i ->
  exists s', file_block_walk f i false s = Ok (- E_NOT_FOUND, 0) s' /\ grows s s'.
Proof.
  intros Hi Hf Hr Hs. unfold file_block_walk. change (NDIRECT + NINDIRECT) with NPTR. rewrite (proj2 (Z.leb_gt _ _)) by lia.
  assert (~ i < 10 /\ indirect s f = 0) as [H10 Hind].
  { destruct (Z.eq_dec (indirect s f) 0); [|exfalso; apply Hs; split; [lia|auto]]. split; [|done]. intros ?. apply Hs. split; [lia|auto]. }
  change NDIRECT with 10 at 1. rewrite (proj2 (Z.ltb_ge _ _)) by lia. destruct (ind_ok s f Hi Hf) as (s1 & Hl & Hg1).
  rewrite (bind_Ok _ _ _ _ _ Hl), Hind. by exists s1.
Qed.

Lemma walk_big s f i alloc : NPTR <= i -> file_block_walk f i alloc s = Ok (- E_INVAL, 0) s.
Proof. intros Hi. unfold file_block_walk. change (NDIRECT + NINDIRECT) with NPTR. by rewrite (proj2 (Z.leb_le _ _) Hi). Qed.

(** With [alloc] set the slot is there, or the disk is full. *)
Lemma walk_alloc s f i :
  fs_inv s -> F f -> 0 <= i < NPTR ->
  exists r p s', file_block_walk f i true s = Ok (r, p) s' /\
    ((stored s f i /\ r = 0 /\ p = pslot s f i /\ grows s s') \/
     (~ stored s f i /\ r = - E_NO_DISK /\ grows s s' /\ forall b, 2 <= b < nblk s -> isfree s b = false) \/
     (~ stored s f i /\ r = 0 /\ p = pslot s' f i /\ stored s' f i /\ exists q s1 s2, grows s s1 /\ added s1 s2 f NPTR q /\ grows s2 s')).
Proof.
  intros Hi Hf Hr. destruct (stored_dec s f i ltac:(lia)) as [Hs|Hs].
  { destruct (walk_stored s f i true Hi Hf Hr Hs) as (s' & Hw & Hg). exists 0, (pslot s f i), s'. split; [done|]. by left. }
  assert (~ i < 10 /\ indirect s f = 0) as [H10 Hind].
  { destruct (Z.eq_dec (indirect s f) 0); [|exfalso; apply Hs; split; [lia|auto]]. split; [|done]. intros ?. apply Hs. split; [lia|auto]. }
  unfold file_block_walk. change (NDIRECT + NINDIRECT) with NPTR. rewrite (proj2 (Z.leb_gt _ _)) by lia.
  change NDIRECT with 10 at 1. rewrite (proj2 (Z.ltb_ge _ _)) by lia. destruct (ind_ok s f Hi Hf) as (s1 & Hl & Hg1).
  rewrite (bind_Ok _ _ _ _ _ Hl), Hind. cbn [Z.eqb negb]. assert (Hi1 := grows_inv _ _ _ Hg1 Hi).
  assert (Hst : stored s1 f NPTR) by (split; unfold NPTR; lia).
  assert (H0 : bptr s1 f NPTR = 0) by (by rewrite <- ind_ptr, (ind_grows s s1)).
  destruct (add_block s1 f NPTR Hi1 Hf Hst H0) as [(s2 & Hal & Hg2 & Hfull)|(q & s2 & s3 & Hal & Hq & Hrun & Hadd)].
  - exists (- E_NO_DISK), 0, s2. rewrite (bind_Ok _ _ _ _ _ Hal). split; [done|]. right. left. split_and!; try done; [by eapply grows_trans|].
    intros b Hb. rewrite <- (byt_isfree s s1) by apply Hg1. apply Hfull. by rewrite (byt_nblk s s1) by apply Hg1.
  - rewrite (bind_Ok _ _ _ _ _ Hal). rewrite (proj2 (Z.ltb_ge _ _)) by lia.
    assert (Hi3 : fs_inv s3) by (eapply (added_inv F s1); [done|exact Hf| |exact Hadd]; unfold NPTR; lia).
    assert (Hind3 : indirect s3 f = q).
    { rewrite ind_ptr, (ad_ptr _ _ _ _ _ _ Hadd) by (done || (unfold NPTR; lia)). by rewrite decide_True. }
    destruct (walk_indirect s3 f i) as (s4 & Hs4 & Hg4); [done|done|lia|rewrite Hind3; lia|].
    exists 0, (pslot s3 f i), s4. split; [etransitivity; [apply Hrun|exact Hs4]|]. right. right. split_and!; try done.
    + by rewrite (pslot_grows s3 s4).
    + split; [lia|]. right. right. rewrite (ind_grows s3 s4) by done. lia.
    + by exists q, s1, s3.
Qed.

(** ** [file_get_block] *)

Lemma slot_ok s f i :
  fs_inv s -> F f -> stored s f i -> exists s', ld32 (pslot s f i) s = Ok (bptr s f i) s' /\ grows s s'.
Proof.
  intros Hi Hf Hs. destruct (pslot_buffer F s f i Hi Hf Hs) as (A & B & _). rewrite (ptr_stored s f i Hs).
  destruct (ld32_ok s (pslot s f i) (on_ready _ (i_online _ _ Hi)) A B) as (s' & Hl & Hg & _). eauto.
Qed.

Lemma ptr_diskaddr s f i :
  fs_inv s -> F f -> 0 <= i <= NPTR -> bptr s f i <> 0 ->
  exists s', diskaddr (bptr s f i) s = Ok (DISKMAP + bptr s f i * 4096) s' /\ grows s s'.
Proof.
  intros Hi Hf Hr Hnz. apply diskaddr_ok; [apply Hi|]. destruct (online_size s (i_online _ _ Hi)) as (? & ? & ?).
  destruct (i_ptr _ _ Hi f i Hf Hr Hnz). lia.
Qed.

Lemma found_ok s f i :
  fs_inv s -> F f -> 0 <= i < NPTR -> stored s f i -> bptr s f i <> 0 ->
  exists s', (b ← ld32 (pslot s f i); a ← diskaddr b; mret (0, a)) s = Ok (0, DISKMAP + bptr s f i * 4096) s' /\ grows s s'.
Proof.
  intros Hi Hf Hr Hs Hnz. destruct (slot_ok s f i Hi Hf Hs) as (s1 & Hl & Hg1). rewrite (bind_Ok _ _ _ _ _ Hl).
  assert (Hp : bptr s1 f i = bptr s f i) by (apply ptr_ext, Hg1).
  destruct (ptr_diskaddr s1 f i) as (s2 & Hs2 & Hg2); [by eapply grows_inv|done|lia|by rewrite Hp|]. rewrite Hp in Hs2.
  rewrite (bind_Ok _ _ _ _ _ Hs2). exists s2. split; [done|by eapply grows_trans].
Qed.

(** All files keep their blocks and contents; at the end the block is there, or the disk is full. *)
Record got (s : fs) (f i r blk : Z) (s' : fs) : Prop := {
  got_inv : fs_inv s';
  got_same : same_files s s';
  got_ptr g j : F g -> 0 <= j < NPTR -> bptr s g j <> 0 -> bptr s' g j = bptr s g j;
  got_none g j : F g -> 0 <= j < NPTR -> (g, j) <> (f, i) -> bptr s g j = 0 -> bptr s' g j = 0;
  got_result : (r = - E_NO_DISK /\ bptr s f i = 0 /\ forall b, 2 <= b < nblk s' -> isfree s' b = false) \/
    (r = 0 /\ bptr s' f i <> 0 /\ blk = DISKMAP + bptr s' f i * 4096);
}.

Lemma grows_got s s' f i r blk :
  grows s s' -> fs_inv s ->
  ((r = - E_NO_DISK /\ bptr s f i = 0 /\ forall b, 2 <= b < nblk s -> isfree s b = false) \/ (r = 0 /\ bptr s f i <> 0 /\ blk = DISKMAP + bptr s f i * 4096)) ->
  got s f i r blk s'.
Proof.
  intros Hg Hi Hr. assert (Hp : forall g j, bptr s' g j = bptr s g j) by (intros; apply ptr_ext, Hg).
  split; [by eapply grows_inv|by eapply grows_same|by intros; rewrite Hp|by intros; rewrite Hp|].
  destruct Hr as [(-> & H1 & H2)|(-> & H1 & H2)]; [left|right].
  - split_and!; try done. intros b. rewrite (byt_nblk s s'), (byt_isfree s s') by apply Hg. apply H2.
  - by rewrite Hp.
Qed.

Lemma got_trans s s1 f i r blk s' :
  fs_inv s -> same_files s s1 -> (forall g j, F g -> 0 <= j < NPTR -> bptr s1 g j = bptr s g j) -> F f -> 0 <= i < NPTR ->
  got s1 f i r blk s' -> got s f i r blk s'.
Proof.
  intros Hi Hs Hp Hf Hr [G1 G2 G3 G4 G5]. split; [done|by eapply same_files_trans| | |].
  - intros g j Hg Hj Hnz. rewrite <- Hp in * by done. by apply G3.
  - intros g j Hg Hj Hne Hz. apply G4; try done. by rewrite Hp.
  - by rewrite Hp in G5.
Qed.

(** The slot is there. *)
Lemma get_stored s f i :
  fs_inv s -> F f -> 0 <= i < NPTR -> stored s f i ->
  exists r blk s', (let found := b ← ld32 (pslot s f i); a ← diskaddr b; mret (0, a) in
      b ← ld32 (pslot s f i);
      if b =? 0 then
        r ← alloc_block;
        if r <? 0 then mret (- E_NO_DISK, 0)
        else
          st32 (pslot s f i) (u32 r);;
          a ← diskaddr (u32 r); memset a 0 BLKSIZE;;
          a ← diskaddr (u32 r); flush_block a;;
          found
      else found) s = Ok (r, blk) s' /\ got s f i r blk s'.
Proof.
  intros Hi Hf Hr Hs. cbv zeta. destruct (slot_ok s f i Hi Hf Hs) as (s1 & Hl & Hg1). rewrite (bind_Ok _ _ _ _ _ Hl).
  assert (Hi1 := grows_inv _ _ _ Hg1 Hi). assert (Hp1 : forall g j, bptr s1 g j = bptr s g j) by (intros; apply ptr_ext, Hg1).
  assert (Hs1 : stored s1 f i) by (unfold stored in *; by rewrite (ind_grows s s1)).
  assert (Hps : pslot s1 f i = pslot s f i) by (by apply pslot_grows).
  destruct (Z.eqb_spec (bptr s f i) 0) as [H0|Hnz].
  - destruct (add_block s1 f i Hi1 Hf Hs1) as [(s2 & Hal & Hg2 & Hfull)|(q & s2 & s3 & Hal & Hq & Hrun & Hadd)]; [by rewrite Hp1| |].
    + rewrite (bind_Ok _ _ _ _ _ Hal). exists (- E_NO_DISK), 0, s2. split; [done|]. apply grows_got; [by eapply grows_trans|done|].
      left. split_and!; try done. intros b. rewrite <- (byt_nblk s s1), <- (byt_isfree s s1) by apply Hg1. apply Hfull.
    + rewrite (bind_Ok _ _ _ _ _ Hal), (proj2 (Z.ltb_ge _ _)) by lia. rewrite Hps in Hrun.
      assert (Hi3 : fs_inv s3) by (apply (added_inv F s1 s3 f i q); try done; lia).
      assert (Hp3 : forall g j, F g -> 0 <= j <= NPTR -> bptr s3 g j = if decide (g = f /\ j = i) then q else bptr s g j).
      { intros g j Hg Hj. rewrite (ad_ptr _ _ _ _ _ _ Hadd) by done. by rewrite Hp1. }
      assert (Hpf : bptr s3 f i = q) by (rewrite Hp3, decide_True by (done || lia); done).
      assert (Hind3 : i < 10 \/ indirect s3 f = indirect s f).
      { destruct (Z.lt_ge_cases i 10); [by left|right]. rewrite !ind_ptr, Hp3, decide_False by (done || (unfold NPTR in *; lia)). done. }
      assert (Hps3 : pslot s3 f i = pslot s f i).
      { unfold pslot, slot. rewrite !(proj2 (Z.eqb_neq i NPTR)) by lia. destruct Hind3 as [?| ->]; [|done].
        by rewrite !(proj2 (Z.ltb_lt i 10)) by done. }
      destruct (found_ok s3 f i Hi3 Hf Hr) as (s4 & Hs4 & Hg4).
      { destruct Hs as [_ Hs]. split; [lia|]. destruct Hind3 as [?| ->]; [by left|done]. }
      { rewrite Hpf. lia. }
      rewrite Hps3 in Hs4. exists 0, (DISKMAP + bptr s3 f i * 4096), s4. split; [etransitivity; [apply Hrun|exact Hs4]|].
      assert (Hsame : same_files s s3).
      { eapply same_files_trans; [by eapply grows_same|]. eapply (added_same F _ s1 s3 f i q); try done. by rewrite Hp1. }
      assert (Hp4 : forall g j, bptr s4 g j = bptr s3 g j) by (intros; apply ptr_ext, Hg4).
      split; [by eapply grows_inv|eapply same_files_trans; [done|by eapply grows_same]| | |].
      * intros g j Hg Hj Hnz. rewrite Hp4, Hp3, decide_False by (done || lia || (intros [-> ->]; congruence)). done.
      * intros g j Hg Hj Hne Hz. rewrite Hp4, Hp3, decide_False by (done || lia || (intros [-> ->]; by apply Hne)). done.
      * right. rewrite Hp4, Hpf. split_and!; [done|lia|done].
  - destruct (found_ok s1 f i Hi1 Hf Hr Hs1) as (s2 & Hs2 & Hg2); [by rewrite Hp1|]. rewrite Hps, Hp1 in Hs2.
    exists 0, (DISKMAP + bptr s f i * 4096), s2. split; [exact Hs2|]. apply grows_got; [by eapply grows_trans|done|]. by right.
Qed.

Lemma file_get_block_ok s f i :
  fs_inv s -> F f -> 0 <= i < NPTR ->
  exists r blk s', file_get_block f i s = Ok (r, blk) s' /\ got s f i r blk s'.
Proof.
  intros Hi Hf Hr. unfold file_get_block. destruct (walk_alloc s f i Hi Hf Hr) as (r & p & s1 & Hw & Hcases).
  rewrite (bind_Ok _ _ _ _ _ Hw). destruct Hcases as [(Hs & -> & -> & Hg)|[(Hs & -> & Hg & Hfull)|(Hs & -> & -> & Hs1 & q & s2 & s3 & Hg2 & Hadd & Hg3)]].
  - cbn [Z.ltb Z.compare]. assert (Hi1 := grows_inv _ _ _ Hg Hi). assert (Hp1 : forall g j, bptr s1 g j = bptr s g j) by (intros; apply ptr_ext, Hg).
    destruct (get_stored s1 f i Hi1 Hf Hr) as (r & blk & s2 & Hs2 & Hgot); [unfold stored in *; by rewrite (ind_grows s s1)|].
    rewrite (pslot_grows s s1) in Hs2 by done. exists r, blk, s2. split; [exact Hs2|]. apply (got_trans s s1); try done; by eapply grows_same.
  - exists (- E_NO_DISK), 0, s1. split; [done|]. apply grows_got; [done|done|]. left. split_and!; try done. apply ptr_unstored; [lia|done].
  - cbn [Z.ltb Z.compare]. assert (Hi2 := grows_inv _ _ _ Hg2 Hi). assert (Hp2 : forall g j, bptr s2 g j = bptr s g j) by (intros; apply ptr_ext, Hg2).
    assert (Hst : stored s2 f NPTR) by (split; unfold NPTR; lia).
    assert (H0 : bptr s2 f NPTR = 0).
    { rewrite Hp2, <- ind_ptr. destruct (Z.eq_dec (indirect s f) 0); [done|]. exfalso. apply Hs. split; [lia|auto]. }
    assert (Hi3 : fs_inv s3) by (eapply (added_inv F s2); [done|exact Hf| |exact Hadd]; unfold NPTR; lia).
    assert (Hi1 := grows_inv _ _ _ Hg3 Hi3).
    destruct (get_stored s1 f i Hi1 Hf Hr Hs1) as (r & blk & s4 & Hs4 & Hgot). exists r, blk, s4. split; [exact Hs4|].
    apply (got_trans s s1); try done.
    + eapply same_files_trans; [by eapply grows_same|]. eapply same_files_trans; [by eapply (added_same F _ s2)|by eapply grows_same].
    + intros g j Hg Hj. rewrite (ptr_ext s3 s1) by apply Hg3. rewrite (ad_ptr _ _ _ _ _ _ Hadd), decide_False by (done || lia). apply Hp2.
Qed.
End files.
