(* ===== verification/FileIO.v ===== *)
(** * FileIO: reading and writing files *)

From S2P Require Import Prelude Layout UMonad Str StrThms Ide IdeThms Bc BcThms Fs FsBase FileInv FileThms.

(** ** Buffers *)

(** Memory of the server outside the disk map that can be written *)
Definition outside_buffer (s : fs) (a n : Z) : Prop := forall k, range a n k -> fs_wr s k /\ in_map k = false.

Lemma outside_wr s s' a : fs_core s s' -> online s -> in_map a = false -> fs_wr s a -> fs_wr s' a.
Proof.
  intros Hc Ho Hi (_ & Ha & _ & Hw). assert (Ho' := core_online _ _ Hc Ho). unfold accessible in Ha. rewrite Hi in Ha.
  apply is_mapped_true in Ha as [p Hp]. destruct (c_pages _ _ Hc _ p Hp) as (p' & Hp' & W & _). split_and!.
  - apply Ho'.
  - unfold accessible. rewrite Hi. apply is_mapped_true. eauto.
  - destruct (meta s' a) eqn:Hm; [|done]. by rewrite (meta_map s' a Ho' Hm) in Hi.
  - unfold writable_page in *. rewrite Hp in Hw. rewrite Hp'. simpl in *. congruence.
Qed.

Lemma outside_buffer_core s s' a n : fs_core s s' -> online s -> outside_buffer s a n -> outside_buffer s' a n.
Proof. intros Hc Ho Hb k Hk. destruct (Hb k Hk). split; [by eapply outside_wr|done]. Qed.
Lemma outside_buffer_buffer s a n : outside_buffer s a n -> buffer s a n.
Proof. intros Hb k Hk. by apply Hb. Qed.

(** The bytes of the server's memory from [a] on *)
Definition bytes_of (s : fs) (a : Z) (n : Z) : list Z := map (fun k => byt s (a + k)) (seqZ 0 n).

Lemma bytes_of_length s a n : 0 <= n -> Z.of_nat (length (bytes_of s a n)) = n.
Proof. intros. unfold bytes_of. rewrite length_map, length_seqZ. lia. Qed.

Lemma bytes_of_at s a n : ready s = true -> (forall k, range a n k -> accessible s k = true) -> bytes_at s a (bytes_of s a n).
Proof.
  intros Hr Ha k b Hk. unfold bytes_of in Hk. rewrite list_lookup_fmap in Hk. destruct (seqZ 0 n !! k) as [j|] eqn:Hj; [|done].
  apply lookup_seqZ in Hj as [-> Hk']. injection Hk as <-. replace (0 + Z.of_nat k) with (Z.of_nat k) by lia. apply view_byt; [done|].
  apply Ha. unfold range. lia.
Qed.

Lemma bytes_at_of s s' a a' n k : bytes_at s' a' (bytes_of s a n) -> 0 <= k < n -> byt s' (a' + k) = byt s (a + k).
Proof.
  intros Hb Hk. apply byt_view. replace k with (Z.of_nat (Z.to_nat k)) at 1 by lia. apply Hb. unfold bytes_of.
  rewrite list_lookup_fmap, (lookup_seqZ_lt 0 n) by lia. simpl. do 2 f_equal. lia.
Qed.

(** A block transfer inside the server's memory *)
Lemma memmove_fs s dst src n :
  ready s = true -> (forall k, range src n k -> accessible s k = true) -> buffer s dst n -> 0 <= n ->
  0 <= src -> src + n < 2^32 -> 0 <= dst -> dst + n < 2^32 ->
  exists s', memmove dst src n s = Ok dst s' /\ eff (range dst n) s s' /\ (forall k, 0 <= k < n -> byt s' (dst + k) = byt s (src + k)) /\
    fs_rest s s'.
Proof.
  intros Hr Ha Hw Hn H1 H2 H3 H4. pose proof (bytes_of_length s src n Hn) as Hl.
  destruct (memmove_spec (bytes_of s src n) s dst src) as (s' & Hs & Ht & Hb); rewrite ?Hl; try done; [by apply bytes_of_at|].
  rewrite Hl in Hs, Ht. exists s'. split; [done|]. split; [by apply touches_eff|]. split; [|apply Ht].
  intros k Hk. by apply (bytes_at_of s s' src dst n).
Qed.

(** ** Chunks *)

Lemma chunk_ok pos stop :
  0 <= pos < stop -> stop <= FSPAN ->
  u32 pos = pos /\ u32 (Z.quot pos BLKSIZE) = pos / 4096 /\ Z.rem pos BLKSIZE = pos mod 4096 /\ 0 <= pos / 4096 < NPTR /\
  i32 (chunk pos stop) = Z.min (4096 - pos mod 4096) (stop - pos).
Proof.
  unfold FSPAN, chunk, NPTR. change BLKSIZE with 4096. intros H1 H2. rewrite Z.quot_div_nonneg, Z.rem_mod_nonneg by lia.
  pose proof (Z.mod_pos_bound pos 4096 ltac:(lia)). rewrite !(u32_small pos), !u32_small by (Z.div_mod_to_equations; lia).
  rewrite i32_small by lia. split_and!; try done; Z.div_mod_to_equations; lia.
Qed.

Lemma same_block pos bn k : 0 <= pos -> bn <= 4096 - pos mod 4096 -> 0 <= k < bn -> (pos + k) / 4096 = pos / 4096 /\ (pos + k) mod 4096 = pos mod 4096 + k.
Proof. intros. Z.div_mod_to_equations. lia. Qed.

Section files.
Context (F : Z -> Prop).
Notation fs_inv := (fs_inv F).
Notation regular := (regular F).

Lemma fbyte_at s f i o k :
  bptr s f i <> 0 -> 0 <= i < NPTR -> k / 4096 = i -> k mod 4096 = o -> fbyte s f k = byt s (DISKMAP + bptr s f i * 4096 + o).
Proof. intros Hnz Hi Hk Ho. unfold fbyte. rewrite Hk, Ho, bmap_ptr by done. by rewrite (proj2 (Z.eqb_neq _ _) Hnz). Qed.

Lemma size_ok s f : fs_inv s -> F f -> exists s', ld_off (f_size f) s = Ok (fsize s f) s' /\ grows s s'.
Proof.
  intros Hi Hf. destruct (okfile_word s f 128 (i_online _ _ Hi) (i_file _ _ Hi f Hf)) as (A & B & _); [lia|lia|done|].
  destruct (ld32_ok s (f_size f) (on_ready _ (i_online _ _ Hi)) A B) as (s' & Hl & Hg & _). exists s'. split; [|done].
  unfold ld_off. by rewrite (bind_Ok _ _ _ _ _ Hl).
Qed.

Lemma same_fsize X s s' f : same_files F X s s' -> F f -> fsize s' f = fsize s f.
Proof. intros Hs Hf. unfold fsize. f_equal. apply wrd_ext. intros k Hk. apply (sf_head _ _ _ _ Hs f); [done|]. unfold f_size. lia. Qed.

Lemma same_mono (X Y : Z -> Prop) s s' : (forall a, X a -> Y a) -> same_files F X s s' -> same_files F Y s s'.
Proof. intros Hm [H1 H2 H3 H4 H5]. split; try done. intros a Ha Hy. apply H5; [done|]. auto. Qed.

Definition full (s : fs) : Prop := forall b, 2 <= b < nblk s -> isfree s b = false.

Definition read_body (f stop count : Z) : Z * Z -> M fs (Z * Z + Z) := fun '(pos, buf) =>
  if u32 pos <? stop then
    '(r, blk) ← file_get_block f (u32 (Z.quot pos BLKSIZE));
    if r <? 0 then mret (inr r)
    else
      let bn := i32 (chunk pos stop) in
      memmove buf (blk + Z.rem pos BLKSIZE) (u32 bn);;
      mret (inl (i32 (pos + bn), buf + bn))
  else mret (inr (i32 count)).

Definition read_post (f stop count pos buf : Z) (s : fs) (r : Z) (s' : fs) : Prop :=
  fs_inv s' /\ same_files F (range buf (stop - pos)) s s' /\
  ((r = i32 count /\ forall k, pos <= k < stop -> byt s' (buf + (k - pos)) = fbyte s f k) \/ (r = - E_NO_DISK /\ full s')).

Lemma read_round f stop count pos buf s :
  fs_inv s -> F f -> regular s f -> 0 <= pos < stop -> stop <= FSPAN ->
  outside_buffer s buf (stop - pos) -> 0 <= buf -> buf + (stop - pos) < 2^32 ->
  let bn := Z.min (4096 - pos mod 4096) (stop - pos) in
  (exists s', read_body f stop count (pos, buf) s = Ok (inr (- E_NO_DISK)) s' /\ read_post f stop count pos buf s (- E_NO_DISK) s') \/
  (exists s', read_body f stop count (pos, buf) s = Ok (inl (pos + bn, buf + bn)) s' /\ fs_inv s' /\ same_files F (range buf bn) s s' /\
     forall k, 0 <= k < bn -> byt s' (buf + k) = fbyte s f (pos + k)).
Proof.
  intros Hi Hf Hr Hpos Hstop Hbuf Hb0 Hb1 bn. destruct (chunk_ok pos stop Hpos Hstop) as (C1 & C2 & C3 & C4 & C5).
  pose proof (Z.mod_pos_bound pos 4096 ltac:(lia)) as Hmod. unfold read_body. rewrite C1, C2, C3, C5, (proj2 (Z.ltb_lt _ _)) by lia. fold bn.
  destruct (file_get_block_ok F s f (pos / 4096) Hi Hf C4) as (r & blk & s1 & Hget & [G1 G2 G3 _ G5]). rewrite (bind_Ok _ _ _ _ _ Hget).
  assert (Ho1 := i_online _ _ G1). assert (Hbuf1 := outside_buffer_core _ _ _ _ (sf_core _ _ _ _ G2) (i_online _ _ Hi) Hbuf).
  destruct G5 as [(-> & _ & Hfull)|(-> & Hnz & ->)].
  { left. exists s1. split; [done|]. split; [done|]. split; [by eapply same_mono; [|done]|]. by right. }
  right. cbn [Z.ltb Z.compare]. rewrite (u32_small bn) by lia. set (p := bptr s1 f (pos / 4096)) in *.
  assert (Hd : datablk s1 p) by (apply (i_ptr _ _ G1); [done|lia|done]). destruct (online_size s1 Ho1) as (? & ? & ?).
  assert (Hacc : forall k, range (DISKMAP + p * 4096 + pos mod 4096) bn k -> accessible s1 k = true).
  { intros k Hk. unfold range in Hk. destruct (datablk_addr s1 p (k - (DISKMAP + p * 4096)) Ho1 Hd) as (_ & A & _); [lia|].
    by replace (DISKMAP + p * 4096 + (k - (DISKMAP + p * 4096))) with k in A by lia. }
  assert (Hsrc : 0 <= DISKMAP + p * 4096 + pos mod 4096 /\ DISKMAP + p * 4096 + pos mod 4096 + bn < 2^32) by (destruct Hd; clia).
  destruct (memmove_fs s1 buf (DISKMAP + p * 4096 + pos mod 4096) bn (on_ready _ Ho1) Hacc) as (s2 & Hs2 & He2 & Hb2 & _); [|lia|lia|lia|lia|lia|].
  { intros k Hk. apply Hbuf1. unfold range. lia. }
  destruct (outside_frame F _ s1 s2 G1 He2) as (I2 & S2 & P2); [intros a Ha; apply Hbuf1; unfold range in *; lia|].
  exists s2. rewrite (bind_Ok _ _ _ _ _ Hs2). split; [unfold mret, M_ret; by rewrite i32_small by (unfold FSPAN in *; lia)|]. split; [done|].
  split; [eapply same_files_trans; [by eapply same_mono; [|done]|done]|]. intros k Hk.
  rewrite Hb2 by done. destruct (same_block pos bn k) as [E1 E2]; [lia|lia|done|].
  rewrite <- (sf_fbyte _ _ _ _ G2 f) by (done || (unfold FSPAN in *; lia)).
  rewrite (fbyte_at s1 f (pos / 4096) (pos mod 4096 + k)) by done. f_equal. unfold p. lia.
Qed.

Lemma read_steps f stop count (m : nat) : forall s pos buf,
  fs_inv s -> F f -> regular s f -> 0 <= pos <= stop -> stop - pos <= Z.of_nat m -> stop <= FSPAN ->
  outside_buffer s buf (stop - pos) -> 0 <= buf -> buf + (stop - pos) < 2^32 ->
  exists r s', msteps (m + 1) (read_body f stop count) (pos, buf) s = Ok (inr r) s' /\ read_post f stop count pos buf s r s'.
Proof.
  induction m as [|m IH]; intros s pos buf Hi Hf Hr Hpos Hm Hstop Hbuf Hb0 Hb1.
  - exists (i32 count), s. split; [|split; [done|split; [apply same_files_refl|left; split; [done|intros; lia]]]].
    apply msteps_done. unfold read_body. rewrite u32_small by (unfold FSPAN in *; lia). by rewrite (proj2 (Z.ltb_ge _ _)) by lia.
  - destruct (Z.lt_ge_cases pos stop) as [Hlt|Hge].
    2:{ destruct (IH s pos buf) as (r & s' & Hs & Hp); try done; [lia|]. exists r, s'. split; [|done]. eapply msteps_le; [|exact Hs]. lia. }
    destruct (read_round f stop count pos buf s Hi Hf Hr) as [(s' & Hs & Hp)|(s1 & Hs1 & I1 & S1 & B1)]; try done; [lia| |].
    { exists (- E_NO_DISK), s'. split; [|done]. by apply (msteps_done _ (m + 1)). }
    set (bn := Z.min (4096 - pos mod 4096) (stop - pos)) in *. pose proof (Z.mod_pos_bound pos 4096 ltac:(lia)) as Hmod.
    assert (Hbuf1 : outside_buffer s1 (buf + bn) (stop - (pos + bn))).
    { eapply outside_buffer_core; [apply S1|apply Hi|]. intros k Hk. apply Hbuf. unfold range in *. lia. }
    destruct (IH s1 (pos + bn) (buf + bn)) as (r & s' & Hs & (I2 & S2 & Hres)); try done; try lia; [by apply (sf_regular _ _ _ _ S1)|].
    exists r, s'. split; [by apply (msteps_next _ (m + 1) _ _ _ _ _ _ Hs1)|]. split; [done|]. split.
    { eapply same_files_trans; (eapply same_mono; [|done]); unfold range; intros; lia. }
    destruct Hres as [(-> & B2)|?]; [left|by right]. split; [done|]. intros k Hk.
    destruct (Z.lt_ge_cases k (pos + bn)) as [Hk1|Hk1].
    + rewrite (sf_outside _ _ _ _ S2); [|apply Hbuf; unfold range; lia|unfold range; lia].
      rewrite B1 by lia. f_equal. lia.
    + replace (buf + (k - pos)) with (buf + bn + (k - (pos + bn))) by lia. rewrite B2 by lia.
      apply (sf_fbyte _ _ _ _ S1); [done|done|unfold FSPAN in *; lia].
Qed.

(** A read in the file: the bytes from the offset on, as many as there are *)
Lemma file_read_ok s f buf count offset :
  fs_inv s -> F f -> regular s f -> 0 <= fsize s f <= FSPAN -> 0 <= offset < 2^31 -> 0 <= count < 2^32 ->
  let n := Z.max 0 (Z.min count (fsize s f - offset)) in
  outside_buffer s buf n -> 0 <= buf -> buf + n < 2^32 ->
  exists r s', file_read f buf count offset s = Ok r s' /\ fs_inv s' /\ same_files F (range buf n) s s' /\
    ((r = n /\ forall k, 0 <= k < n -> byt s' (buf + k) = fbyte s f (offset + k)) \/ (r = - E_NO_DISK /\ full s')).
Proof.
  intros Hi Hf Hr Hsz Hoff Hcnt n Hbuf Hb0 Hb1. unfold file_read. destruct (size_ok s f Hi Hf) as (s1 & Hs1 & Hg1).
  rewrite (bind_Ok _ _ _ _ _ Hs1). assert (I1 := grows_inv _ _ _ Hg1 Hi). assert (S1 := grows_same F (range buf n) _ _ Hg1).
  destruct (Z.leb_spec (fsize s f) offset) as [Hle|Hlt].
  { exists 0, s1. split; [done|]. split; [done|]. split; [done|]. left. split; [lia|intros; lia]. }
  destruct (size_ok s1 f I1 Hf) as (s2 & Hs2 & Hg2). rewrite (bind_Ok _ _ _ _ _ Hs2). rewrite (same_fsize _ s s1 f S1 Hf).
  assert (I2 := grows_inv _ _ _ Hg2 I1). assert (S2 := grows_same F (range buf n) _ _ Hg2).
  assert (S12 : same_files F (range buf n) s s2) by (by eapply same_files_trans).
  cbv zeta. rewrite (u32_small (fsize s f - offset)) by (unfold FSPAN in *; lia).
  assert (Hn : Z.min count (fsize s f - offset) = n) by lia. rewrite Hn. rewrite (u32_small (offset + n)) by (unfold FSPAN in *; lia).
  destruct (read_steps f (offset + n) n (Z.to_nat n) s2 offset buf) as (r & s3 & Hs3 & (I3 & S3 & Hres)); try done; try lia.
  { by apply (sf_regular _ _ _ _ S12). }
  { replace (offset + n - offset) with n by lia. eapply outside_buffer_core; [apply S12|apply Hi|done]. }
  exists r, s3. split.
  { apply (mloop_ADDRS _ (Z.to_nat n + 1)); [unfold FSPAN in *; lia|]. exact Hs3. }
  replace (offset + n - offset) with n in S3 by lia. split; [done|]. split; [by eapply same_files_trans|].
  destruct Hres as [(-> & B)|?]; [left|by right]. rewrite i32_small by (unfold FSPAN in *; lia). split; [done|]. intros k Hk.
  replace (buf + k) with (buf + (offset + k - offset)) by lia. rewrite B by lia. apply (sf_fbyte _ _ _ _ S12); [done|done|unfold FSPAN in *; lia].
Qed.

(** ** Changes to one file *)

(** Only the size of [f], now [n], and its contents, now [m], may differ. *)
Record wrote (f n : Z) (m : Z -> Z) (s s' : fs) : Prop := {
  w_core : fs_core s s';
  w_head g a : F g -> g <= a < g + 136 -> ~ range (f_size f) 4 a -> byt s' a = byt s a;
  w_size : fsize s' f = n;
  w_regular g : F g -> regular s g -> regular s' g;
  w_others g o : F g -> g <> f -> regular s g -> 0 <= o < FSPAN -> fbyte s' g o = fbyte s g o;
  w_fbyte o : 0 <= o < FSPAN -> fbyte s' f o = m o;
  w_outside a : in_map a = false -> byt s' a = byt s a;
}.

Lemma wrote_trans f n1 m1 n2 m2 s1 s2 s3 : wrote f n1 m1 s1 s2 -> wrote f n2 m2 s2 s3 -> wrote f n2 m2 s1 s3.
Proof.
  intros H1 H2. split.
  - eapply core_trans; [apply H1|apply H2].
  - intros g a Hg Ha Hn. by rewrite (w_head _ _ _ _ _ H2 g), (w_head _ _ _ _ _ H1 g).
  - apply H2.
  - intros g Hg Hr. apply (w_regular _ _ _ _ _ H2); [done|]. by apply (w_regular _ _ _ _ _ H1).
  - intros g o Hg Hne Hr Ho. rewrite (w_others _ _ _ _ _ H2), (w_others _ _ _ _ _ H1); try done. by apply (w_regular _ _ _ _ _ H1).
  - apply H2.
  - intros a Ha. by rewrite (w_outside _ _ _ _ _ H2), (w_outside _ _ _ _ _ H1).
Qed.

Lemma wrote_ext f n m m' s s' : (forall o, 0 <= o < FSPAN -> m o = m' o) -> wrote f n m s s' -> wrote f n m' s s'.
Proof. intros Hm [W1 W2 W3 W4 W5 W6 W7]. split; try done. intros o Ho. by rewrite W6, Hm. Qed.

Lemma same_wrote f s s' : F f -> regular s f -> same_files F (fun _ => False) s s' -> wrote f (fsize s f) (fbyte s f) s s'.
Proof.
  intros Hf Hr Hs. split; try apply Hs.
  - intros g a Hg Ha _. by apply (sf_head _ _ _ _ Hs g).
  - by eapply same_fsize.
  - intros g o Hg _. by apply (sf_fbyte _ _ _ _ Hs).
  - intros o Ho. by apply (sf_fbyte _ _ _ _ Hs).
  - intros a Ha. by apply (sf_outside _ _ _ _ Hs); [|tauto].
Qed.

(** A block of a regular file is not where a file's structure is. *)
Lemma data_head s f i o g a :
  fs_inv s -> F f -> F g -> regular s f -> 0 <= i < NPTR -> bptr s f i <> 0 -> 0 <= o < 4096 -> g <= a < g + 256 ->
  a <> DISKMAP + bptr s f i * 4096 + o.
Proof.
  intros Hi Hf Hg Hr Hii Hnz Ho Ha ->. destruct (file_home F s g _ Hi Hg Ha) as [_ Hb]. rewrite blk_at in Hb by done.
  by apply (Hr i g Hii Hg Hnz).
Qed.

Lemma data_write s s' f i lo n :
  fs_inv s -> F f -> regular s f -> 0 <= i < NPTR -> bptr s f i <> 0 -> 0 <= lo -> lo + n <= 4096 ->
  eff (range (DISKMAP + bptr s f i * 4096 + lo) n) s s' ->
  fs_inv s' /\ wrote f (fsize s f) (fun o => if decide (o / 4096 = i /\ lo <= o mod 4096 < lo + n)
    then byt s' (DISKMAP + bptr s f i * 4096 + o mod 4096) else fbyte s f o) s s'.
Proof.
  intros Hi Hf Hr Hii Hnz Hlo Hn He. assert (Ho := i_online _ _ Hi). set (p := bptr s f i) in *.
  assert (Hd : datablk s p) by (apply (i_ptr _ _ Hi); [done|lia|done]).
  assert (Hin : forall a, range (DISKMAP + p * 4096 + lo) n a -> exists o, 0 <= o < 4096 /\ lo <= o < lo + n /\ a = DISKMAP + p * 4096 + o).
  { intros a Ha. exists (a - (DISKMAP + p * 4096)). unfold range in Ha. lia. }
  assert (Hptr : forall g j, F g -> 0 <= j <= NPTR -> bptr s' g j = bptr s g j).
  { apply ptr_same. intros a g j Hg Hj Ha. apply (e_byt _ _ _ He). intros (o & Ho1 & Ho2 & ->)%Hin.
    by apply (data_not_pslot F s g j f i o) in Ha. }
  assert (Hhead : forall g a, F g -> g <= a < g + 256 -> byt s' a = byt s a).
  { intros g a Hg Ha. apply (e_byt _ _ _ He). intros (o & Ho1 & Ho2 & ->)%Hin. by apply (data_head s f i o g _ Hi Hf Hg Hr Hii Hnz Ho1 Ha). }
  split.
  - apply (inv_frame F s); [done|apply He| |done]. intros a Ha. apply (e_byt _ _ _ He). intros (o & Ho1 & Ho2 & ->)%Hin.
    destruct (datablk_addr s p o Ho Hd Ho1) as (_ & _ & Hw%wr_meta). congruence.
  - assert (Hfb : forall g o, F g -> 0 <= o < FSPAN -> ~ (g = f /\ o / 4096 = i /\ lo <= o mod 4096 < lo + n) -> regular s g -> fbyte s' g o = fbyte s g o).
    { intros g o Hg Hspan Hne Hrg. assert (Hj : 0 <= o / 4096 < NPTR) by (unfold NPTR, FSPAN in *; Z.div_mod_to_equations; lia).
      pose proof (Z.mod_pos_bound o 4096 ltac:(lia)) as Hm. unfold fbyte. rewrite !bmap_ptr, Hptr by (done || lia).
      destruct (Z.eqb_spec (bptr s g (o / 4096)) 0) as [|Hnz']; [done|]. apply (e_byt _ _ _ He). intros (x & Hx1 & Hx2 & Hx)%Hin.
      assert (Hb : blk_of (DISKMAP + bptr s g (o / 4096) * 4096 + o mod 4096) = p) by (rewrite Hx; by apply blk_at).
      rewrite blk_at in Hb by done. destruct (i_inj _ _ Hi g f (o / 4096) i Hg Hf) as [-> <-]; [lia|lia|done|done|].
      apply Hne. split_and!; [done|done|lia..]. }
    split.
    + apply He.
    + intros g a Hg Ha _. apply (Hhead g); [done|lia].
    + unfold fsize. f_equal. apply wrd_ext. intros k Hk. apply (Hhead f); [done|]. unfold f_size. lia.
    + intros g Hg Hrg k h Hk Hh. rewrite Hptr by (done || lia). by apply Hrg.
    + intros g o Hg Hne Hrg Hspan. apply Hfb; try done. tauto.
    + intros o Hspan. destruct (decide _) as [[E1 E2]|Hne]; [|apply Hfb; [done..|tauto|done]].
      rewrite (fbyte_at s' f i (o mod 4096)), Hptr; rewrite ?Hptr; (done || lia).
    + intros a Ha. apply (e_byt _ _ _ He). intros (o & Ho1 & Ho2 & ->)%Hin. destruct (datablk_addr s p o Ho Hd Ho1) as (Hm & _). congruence.
Qed.

(** ** The size *)

Lemma data_size s s' f g o :
  fs_inv s -> F f -> F g -> regular s g -> eff (range (f_size f) 4) s s' ->
  (forall g j, F g -> 0 <= j <= NPTR -> bptr s' g j = bptr s g j) -> 0 <= o < FSPAN -> fbyte s' g o = fbyte s g o.
Proof.
  intros Hi Hf Hg Hr He Hptr Hspan. assert (Hj : 0 <= o / 4096 < NPTR) by (unfold NPTR, FSPAN in *; Z.div_mod_to_equations; lia).
  pose proof (Z.mod_pos_bound o 4096 ltac:(lia)) as Hm. unfold fbyte. rewrite !bmap_ptr, Hptr by (done || lia).
  destruct (Z.eqb_spec (bptr s g (o / 4096)) 0) as [|Hnz]; [done|]. apply (e_byt _ _ _ He). unfold range, f_size. intros Hx.
  by apply (data_head s g (o / 4096) (o mod 4096) f (DISKMAP + bptr s g (o / 4096) * 4096 + o mod 4096) Hi Hg Hf Hr Hj Hnz Hm); [lia|].
Qed.

Lemma size_write s f n :
  fs_inv s -> F f -> regular s f -> - 2^31 <= n < 2^31 ->
  exists s', st32 (f_size f) (u32 n) s = Ok tt s' /\ fs_inv s' /\ wrote f n (fbyte s f) s s' /\ 
    (forall g j, F g -> 0 <= j <= NPTR -> bptr s' g j = bptr s g j).
Proof.
  intros Hi Hf Hr Hn. assert (Ho := i_online _ _ Hi).
  destruct (okfile_word s f 128 Ho (i_file _ _ Hi f Hf)) as (_ & _ & Hw); [lia|lia|done|].
  destruct (st32_ok s (f_size f) (u32 n) Hw) as (s' & Hs & He & Hrest & Hwrd). rewrite (u32_small (u32 n)) in Hwrd by apply u32_range.
  exists s'. split; [done|].
  assert (Hptr : forall g j, F g -> 0 <= j <= NPTR -> bptr s' g j = bptr s g j).
  { apply ptr_same. intros a g j Hg Hj Ha. apply (e_byt _ _ _ He). intros Hx. unfold range, f_size in Hx.
    destruct (pslot_cases s g j Hj) as [(H1 & H2 & _)|(H1 & H2 & H3)]; unfold range in Ha.
    - destruct (Z.eq_dec f g) as [->|Hne]; [lia|]. destruct (i_disj _ _ Hi f g Hf Hg Hne); lia.
    - unfold NPTR in H2. assert (Hb : blk_of a = indirect s g) by (apply in_block; unfold range; lia).
      destruct (file_home F s f a Hi Hf) as [_ Hb']; [lia|]. apply (i_home _ _ Hi g f); congruence. }
  split; [|split; [|done]].
  - apply (inv_frame F s); [done|apply He| |done]. intros a Ha. by apply (r_meta _ _ Hrest); [apply Ho|].
  - split.
    + apply He.
    + intros g a Hg Ha Hna. by apply (e_byt _ _ _ He).
    + unfold fsize. rewrite Hwrd, i32_u32. by apply i32_small.
    + intros g Hg Hrg k h Hk Hh. rewrite Hptr by (done || lia). by apply Hrg.
    + intros g o Hg Hne Hrg Hspan. by apply (data_size s s' f g).
    + intros o Hspan. by apply (data_size s s' f f).
    + intros a Ha. apply (e_byt _ _ _ He). intros Hx. unfold range, f_size in Hx. destruct (file_home F s f a Hi Hf) as [Hm _]; [lia|]. congruence.
Qed.

Lemma flush_file s f a :
  fs_inv s -> F f -> regular s f -> in_map a = true ->
  exists s', flush_block a s = Ok tt s' /\ fs_inv s' /\ wrote f (fsize s f) (fbyte s f) s s'.
Proof.
  intros Hi Hf Hr Ha. destruct (flush_spec s a (on_ready _ (i_online _ _ Hi)) Ha) as (s' & Hs & Hc & Hb & _). exists s'. split; [done|].
  split; [by apply (byt_inv F s)|]. apply same_wrote; [done|done|]. by apply byt_same_files.
Qed.

Lemma extend_ok s f n :
  fs_inv s -> F f -> regular s f -> fsize s f <= n < 2^31 ->
  exists s', file_set_size f n s = Ok 0 s' /\ fs_inv s' /\ wrote f n (fbyte s f) s s'.
Proof.
  intros Hi Hf Hr Hn. assert (Hrange := i32_range (wrd s (f_size f))). fold (fsize s f) in Hrange.
  unfold file_set_size. destruct (size_ok s f Hi Hf) as (s1 & Hs1 & Hg1). rewrite (bind_Ok _ _ _ _ _ Hs1).
  assert (I1 := grows_inv _ _ _ Hg1 Hi). assert (W1 : wrote f (fsize s f) (fbyte s f) s s1) by (apply same_wrote; [done|done|by apply grows_same]).
  rewrite (proj2 (Z.ltb_ge _ _)) by lia. rewrite (bind_Ok _ _ s1 tt s1) by done.
  destruct (size_write s1 f n I1 Hf) as (s2 & Hs2 & I2 & W2 & _); [by apply (w_regular _ _ _ _ _ W1)|lia|]. rewrite (bind_Ok _ _ _ _ _ Hs2).
  destruct (flush_file s2 f f I2 Hf) as (s3 & Hs3 & I3 & W3).
  { apply (w_regular _ _ _ _ _ W2); [done|]. by apply (w_regular _ _ _ _ _ W1). }
  { rewrite <- (Z.add_0_r f). apply (file_home F s2 f); [done|done|lia]. }
  rewrite (bind_Ok _ _ _ _ _ Hs3). exists s3. split; [done|]. split; [done|]. rewrite (w_size _ _ _ _ _ W2) in W3.
  eapply wrote_ext; [|eapply wrote_trans; [exact W1|eapply wrote_trans; [exact W2|exact W3]]]. intros o Ho. cbv beta.
  rewrite (w_fbyte _ _ _ _ _ W2), (w_fbyte _ _ _ _ _ W1); done.
Qed.

(** ** Writing *)

Definition write_body (f stop count : Z) : Z * Z -> M fs (Z * Z + Z) := fun '(pos, buf) =>
  if u32 pos <? stop then
    '(r, blk) ← file_get_block f (u32 (Z.quot pos BLKSIZE));
    if r <? 0 then mret (inr r)
    else
      let bn := i32 (chunk pos stop) in
      memmove (blk + Z.rem pos BLKSIZE) buf (u32 bn);;
      mret (inl (i32 (pos + bn), buf + bn))
  else mret (inr (i32 count)).

(** [m] with the bytes from [buf] on at the offsets from [pos] to [stop] *)
Definition spliced (s : fs) (m : Z -> Z) (pos stop buf : Z) (o : Z) : Z :=
  if decide (pos <= o < stop) then byt s (buf + (o - pos)) else m o.

Definition source (s : fs) (a n : Z) : Prop := forall k, range a n k -> accessible s k = true /\ in_map k = false.

Lemma source_core s s' a n : fs_core s s' -> source s a n -> source s' a n.
Proof.
  intros Hc Hs k Hk. destruct (Hs k Hk) as [Ha Hi]. split; [|done]. unfold accessible in *. rewrite Hi in *.
  apply is_mapped_true in Ha as [p Hp]. apply is_mapped_true. destruct (c_pages _ _ Hc _ p Hp) as (p' & ? & _). eauto.
Qed.

Definition write_post (f stop count pos buf : Z) (s : fs) (r : Z) (s' : fs) : Prop :=
  fs_inv s' /\ exists upto, pos <= upto <= stop /\ wrote f (fsize s f) (spliced s (fbyte s f) pos upto buf) s s' /\
  ((r = i32 count /\ upto = stop) \/ (r = - E_NO_DISK /\ full s')).

Lemma write_round f stop count pos buf s :
  fs_inv s -> F f -> regular s f -> 0 <= pos < stop -> stop <= FSPAN ->
  source s buf (stop - pos) -> 0 <= buf -> buf + (stop - pos) < 2^32 ->
  let bn := Z.min (4096 - pos mod 4096) (stop - pos) in
  (exists s', write_body f stop count (pos, buf) s = Ok (inr (- E_NO_DISK)) s' /\ write_post f stop count pos buf s (- E_NO_DISK) s') \/
  (exists s', write_body f stop count (pos, buf) s = Ok (inl (pos + bn, buf + bn)) s' /\ fs_inv s' /\
     wrote f (fsize s f) (spliced s (fbyte s f) pos (pos + bn) buf) s s').
Proof.
  intros Hi Hf Hr Hpos Hstop Hbuf Hb0 Hb1 bn. destruct (chunk_ok pos stop Hpos Hstop) as (C1 & C2 & C3 & C4 & C5).
  pose proof (Z.mod_pos_bound pos 4096 ltac:(lia)) as Hmod. unfold write_body. rewrite C1, C2, C3, C5, (proj2 (Z.ltb_lt _ _)) by lia. fold bn.
  destruct (file_get_block_ok F s f (pos / 4096) Hi Hf C4) as (r & blk & s1 & Hget & [G1 G2 G3 _ G5]). rewrite (bind_Ok _ _ _ _ _ Hget).
  assert (Ho1 := i_online _ _ G1). assert (Hbuf1 := source_core _ _ _ _ (sf_core _ _ _ _ G2) Hbuf).
  assert (W1 := same_wrote f s s1 Hf Hr G2). assert (R1 := w_regular _ _ _ _ _ W1 f Hf Hr).
  destruct G5 as [(-> & _ & Hfull)|(-> & Hnz & ->)].
  { left. exists s1. split; [done|]. split; [done|]. exists pos. split; [lia|]. split; [|by right].
    eapply wrote_ext; [|exact W1]. intros o Ho. unfold spliced. by rewrite decide_False by lia. }
  right. cbn [Z.ltb Z.compare]. rewrite (u32_small bn) by lia. set (p := bptr s1 f (pos / 4096)) in *.
  assert (Hd : datablk s1 p) by (apply (i_ptr _ _ G1); [done|lia|done]). destruct (online_size s1 Ho1) as (? & ? & ?).
  assert (Hdst : 0 <= DISKMAP + p * 4096 + pos mod 4096 /\ DISKMAP + p * 4096 + pos mod 4096 + bn < 2^32) by (destruct Hd; clia).
  destruct (memmove_fs s1 (DISKMAP + p * 4096 + pos mod 4096) buf bn (on_ready _ Ho1)) as (s2 & Hs2 & He2 & Hb2 & _); [| |lia|lia|lia|lia|lia|].
  { intros k Hk. apply Hbuf1. unfold range in *. lia. }
  { intros k Hk. apply (datablk_buffer s1 p); [done|done|]. unfold range in *. lia. }
  destruct (data_write s1 s2 f (pos / 4096) (pos mod 4096) bn G1 Hf R1 C4 Hnz) as [I2 W2]; [lia|lia|done|].
  exists s2. erewrite bind_Ok by exact Hs2. split; [unfold mret, M_ret; by rewrite i32_small by (unfold FSPAN in *; lia)|]. split; [done|].
  rewrite (w_size _ _ _ _ _ W1) in W2. eapply wrote_ext; [|eapply wrote_trans; [exact W1|exact W2]]. intros o Ho. cbv beta. unfold spliced.
  destruct (decide (pos <= o < pos + bn)) as [Hin|Hout].
  - destruct (same_block pos bn (o - pos)) as [E1 E2]; [lia|lia|lia|]. replace (pos + (o - pos)) with o in E1, E2 by lia.
    rewrite decide_True by lia. fold p. rewrite E2, Z.add_assoc, Hb2 by lia. apply (w_outside _ _ _ _ _ W1). apply Hbuf. unfold range. lia.
  - rewrite decide_False; [by apply (w_fbyte _ _ _ _ _ W1)|]. intros [E1 E2]. apply Hout. Z.div_mod_to_equations. lia.
Qed.

Lemma write_steps f stop count (m : nat) : forall s pos buf,
  fs_inv s -> F f -> regular s f -> 0 <= pos <= stop -> stop - pos <= Z.of_nat m -> stop <= FSPAN ->
  source s buf (stop - pos) -> 0 <= buf -> buf + (stop - pos) < 2^32 ->
  exists r s', msteps (m + 1) (write_body f stop count) (pos, buf) s = Ok (inr r) s' /\ write_post f stop count pos buf s r s'.
Proof.
  induction m as [|m IH]; intros s pos buf Hi Hf Hr Hpos Hm Hstop Hbuf Hb0 Hb1.
  - exists (i32 count), s. split.
    + apply msteps_done. unfold write_body. rewrite u32_small by (unfold FSPAN in *; lia). by rewrite (proj2 (Z.ltb_ge _ _)) by lia.
    + split; [done|]. exists stop. split; [lia|]. split; [|by left]. eapply wrote_ext; [|apply same_wrote; [done|done|apply same_files_refl]].
      intros o Ho. unfold spliced. by rewrite decide_False by lia.
  - destruct (Z.lt_ge_cases pos stop) as [Hlt|Hge].
    2:{ destruct (IH s pos buf) as (r & s' & Hs & Hp); try done; [lia|]. exists r, s'. split; [|done]. eapply msteps_le; [|exact Hs]. lia. }
    destruct (write_round f stop count pos buf s Hi Hf Hr) as [(s' & Hs & Hp)|(s1 & Hs1 & I1 & W1)]; try done; [lia| |].
    { exists (- E_NO_DISK), s'. split; [|done]. by apply (msteps_done _ (m + 1)). }
    set (bn := Z.min (4096 - pos mod 4096) (stop - pos)) in *. pose proof (Z.mod_pos_bound pos 4096 ltac:(lia)) as Hmod.
    assert (Hbuf1 : source s1 (buf + bn) (stop - (pos + bn))).
    { eapply source_core; [apply W1|]. intros k Hk. apply Hbuf. unfold range in *. lia. }
    destruct (IH s1 (pos + bn) (buf + bn)) as (r & s' & Hs & (I2 & upto & Hu & W2 & Hres)); try done; try lia; [by apply (w_regular _ _ _ _ _ W1)|].
    exists r, s'. split; [by apply (msteps_next _ (m + 1) _ _ _ _ _ _ Hs1)|]. split; [done|]. exists upto. split; [lia|]. split; [|done].
    rewrite (w_size _ _ _ _ _ W1) in W2. eapply wrote_ext; [|eapply wrote_trans; [exact W1|exact W2]]. intros o Ho. unfold spliced at 1.
    destruct (decide (pos + bn <= o < upto)) as [Hin|Hout].
    + unfold spliced. rewrite decide_True by lia. rewrite (w_outside _ _ _ _ _ W1); [f_equal; lia|]. apply Hbuf. unfold range. lia.
    + rewrite (w_fbyte _ _ _ _ _ W1) by done. unfold spliced.
      destruct (decide (pos <= o < pos + bn)), (decide (pos <= o < upto)); done || lia.
Qed.

Lemma file_write_ok s f buf count offset :
  fs_inv s -> F f -> regular s f -> 0 <= fsize s f <= FSPAN -> 0 <= offset -> 0 <= count -> offset + count <= FSPAN ->
  source s buf count -> 0 <= buf -> buf + count < 2^32 ->
  exists r s' upto, file_write f buf count offset s = Ok r s' /\ fs_inv s' /\ offset <= upto <= offset + count /\
    wrote f (Z.max (fsize s f) (offset + count)) (spliced s (fbyte s f) offset upto buf) s s' /\
    ((r = count /\ upto = offset + count) \/ (r = - E_NO_DISK /\ full s')).
Proof.
  intros Hi Hf Hr Hsz Hoff Hcnt Hstop Hbuf Hb0 Hb1. unfold file_write. unfold FSPAN in Hsz, Hstop. destruct (size_ok s f Hi Hf) as (s1 & Hs1 & Hg1).
  rewrite (bind_Ok _ _ _ _ _ Hs1). assert (I1 := grows_inv _ _ _ Hg1 Hi).
  assert (W1 : wrote f (fsize s f) (fbyte s f) s s1) by (apply same_wrote; [done|done|by apply grows_same]).
  assert (R1 := w_regular _ _ _ _ _ W1 f Hf Hr). cbv zeta. rewrite !(u32_small (offset + count)), (u32_small (fsize s f)) by lia.
  assert (Hset : exists s2, (if fsize s f <? offset + count then file_set_size f (i32 (offset + count)) else mret 0) s1 = Ok 0 s2 /\ fs_inv s2 /\
    wrote f (Z.max (fsize s f) (offset + count)) (fbyte s f) s s2).
  { destruct (Z.ltb_spec (fsize s f) (offset + count)).
    - rewrite i32_small by lia. destruct (extend_ok s1 f (offset + count) I1 Hf R1) as (s2 & Hs2 & I2 & W2).
      { rewrite (w_size _ _ _ _ _ W1). lia. }
      exists s2. split; [done|]. split; [done|]. rewrite Z.max_r by lia. eapply wrote_ext; [|eapply wrote_trans; [exact W1|exact W2]].
      intros o Ho. by apply (w_fbyte _ _ _ _ _ W1).
    - exists s1. split; [done|]. split; [done|]. by rewrite Z.max_l by lia. }
  destruct Hset as (s2 & Hs2 & I2 & W2). rewrite (bind_Ok _ _ _ _ _ Hs2). cbn [Z.ltb Z.compare].
  destruct (write_steps f (offset + count) count (Z.to_nat count) s2 offset buf) as (r & s3 & Hs3 & (I3 & upto & Hu & W3 & Hres)); try done; try (unfold FSPAN; lia).
  { by apply (w_regular _ _ _ _ _ W2). }
  { replace (offset + count - offset) with count by lia. eapply source_core; [apply W2|done]. }
  exists r, s3, upto. split; [apply (mloop_ADDRS _ (Z.to_nat count + 1)); [lia|exact Hs3]|]. split; [done|]. split; [lia|]. split.
  - rewrite (w_size _ _ _ _ _ W2) in W3. eapply wrote_ext; [|eapply wrote_trans; [exact W2|exact W3]]. intros o Ho. unfold spliced.
    destruct (decide _); [|by apply (w_fbyte _ _ _ _ _ W2)]. apply (w_outside _ _ _ _ _ W2). apply Hbuf. unfold range. lia.
  - by rewrite i32_small in Hres by lia.
Qed.
End files.
