(* ===== verification/FileTrunc.v ===== *)
(** * FileTrunc: giving blocks back

    [dropped F P f s s']: the pointers of [f] in [P] have been cleared and their blocks, and no
    others, are free now. *)

From S2P Require Import Prelude Layout UMonad Str StrThms Ide IdeThms Bc BcThms Fs FsBase FileInv FileThms FileIO.

Section files.
Context (F : Z -> Prop).
Notation fs_inv := (fs_inv F).
Notation regular := (regular F).

Record dropped (P : Z -> bool) (f : Z) (s s' : fs) : Prop := {
  d_core : fs_core s s';
  d_nblk : nblk s' = nblk s;
  d_ptr g j : F g -> 0 <= j <= NPTR -> bptr s' g j = if bool_decide (g = f) && P j then 0 else bptr s g j;
  d_free b : 0 <= b < nblk s ->
    isfree s' b = true <-> isfree s b = true \/ exists k, 0 <= k <= NPTR /\ P k = true /\ bptr s f k = b /\ b <> 0;
  d_byt a : meta s a = false -> (forall k, stored s f k -> P k = true -> ~ range (pslot s f k) 4 a) -> byt s' a = byt s a;
}.

Lemma d_ptr_self P f s s' j : dropped P f s s' -> F f -> 0 <= j <= NPTR -> bptr s' f j = if P j then 0 else bptr s f j.
Proof. intros Hd Hf Hj. rewrite (d_ptr _ _ _ _ Hd) by done. by rewrite bool_decide_eq_true_2. Qed.
Lemma d_ptr_other P f s s' g j : dropped P f s s' -> F g -> g <> f -> 0 <= j <= NPTR -> bptr s' g j = bptr s g j.
Proof. intros Hd Hg Hne Hj. rewrite (d_ptr _ _ _ _ Hd) by done. by rewrite bool_decide_eq_false_2. Qed.

Lemma meta_nblk_eq s s' a : online s -> online s' -> nblk s' = nblk s -> meta s' a = meta s a.
Proof. intros Ho Ho' Hn. unfold meta. by rewrite Hn, (on_super _ Ho), (on_bitmap _ Ho), (on_super _ Ho'), (on_bitmap _ Ho'). Qed.

(** Reading in blocks drops nothing. *)
Lemma grows_dropped P f s s' :
  grows s s' -> (forall k, F f -> 0 <= k <= NPTR -> P k = true -> bptr s f k = 0) -> F f -> dropped P f s s'.
Proof.
  intros Hg H0 Hf. split.
  - by apply rest_core, grows_rest.
  - apply byt_nblk, Hg.
  - intros g j Hgf Hj. rewrite (ptr_ext s s') by apply Hg. destruct (bool_decide (g = f)) eqn:He; [|done].
    apply bool_decide_eq_true in He as ->. destruct (P j) eqn:HP; [by apply H0|done].
  - intros b Hb. rewrite (byt_isfree s s') by apply Hg. split; [by left|]. intros [?|(k & Hk & HP & Hkb & Hnz)]; [done|].
    rewrite (H0 k Hf Hk HP) in Hkb. congruence.
  - intros a _ _. apply Hg.
Qed.

Lemma dropped_trans P1 P2 f s1 s2 s3 :
  fs_inv s1 -> fs_inv s2 -> F f -> dropped P1 f s1 s2 -> dropped P2 f s2 s3 -> dropped (fun k => P1 k || P2 k) f s1 s3.
Proof.
  intros Hi1 Hi2 Hf H1 H2. assert (Ho1 := i_online _ _ Hi1). assert (Ho2 := i_online _ _ Hi2).
  assert (Hind : indirect s2 f <> 0 -> indirect s2 f = indirect s1 f).
  { rewrite !ind_ptr, (d_ptr_self _ _ _ _ _ H1) by (done || (unfold NPTR; lia)). by destruct (P1 NPTR). }
  assert (Hst : forall k, stored s2 f k -> stored s1 f k /\ pslot s2 f k = pslot s1 f k).
  { intros k [Hk Hs]. unfold stored, pslot, slot. destruct (Z.eq_dec (indirect s2 f) 0) as [He|Hne].
    - split; [split; [done|]; destruct Hs as [?|[?|?]]; [by left|by right; left|done]|].
      destruct (Z.eqb_spec k NPTR); [done|]. by rewrite (proj2 (Z.ltb_lt _ _)) by (unfold NPTR in *; lia).
    - rewrite <- (Hind Hne). done. }
  split.
  - eapply core_trans; [apply H1|apply H2].
  - by rewrite (d_nblk _ _ _ _ H2), (d_nblk _ _ _ _ H1).
  - intros g j Hg Hj. rewrite (d_ptr _ _ _ _ H2), (d_ptr _ _ _ _ H1) by done.
    destruct (bool_decide (g = f)); [|done]. by destruct (P1 j), (P2 j).
  - intros b Hb. rewrite (d_free _ _ _ _ H2) by (by rewrite (d_nblk _ _ _ _ H1)). rewrite (d_free _ _ _ _ H1) by done. split.
    + intros [[?|(k & Hk & HP & Hkb & Hnz)]|(k & Hk & HP & Hkb & Hnz)]; [by left|right; exists k; cbv beta; by rewrite HP|].
      right. exists k. cbv beta. rewrite (d_ptr_self _ _ _ _ _ H1) in Hkb by done. rewrite HP, orb_true_r. split_and!; try done; try lia.
      destruct (P1 k); [congruence|done].
    + intros [?|(k & Hk & HP & Hkb & Hnz)]; [by left; left|]. cbv beta in HP. destruct (P1 k) eqn:HP1.
      * left. right. by exists k.
      * right. exists k. rewrite (d_ptr_self _ _ _ _ _ H1), HP1 by done. done.
  - intros a Hm Hk. rewrite (d_byt _ _ _ _ H2).
    + apply (d_byt _ _ _ _ H1); [done|]. intros k Hs HP. apply Hk; [done|]. by rewrite HP.
    + by rewrite (meta_nblk_eq s1 s2 a Ho1 Ho2 (d_nblk _ _ _ _ H1)).
    + intros k Hs HP. destruct (Hst k Hs) as [Hs1 ->]. apply Hk; [done|]. by rewrite HP, orb_true_r.
Qed.

Lemma dropped_datablk P f s s' b :
  fs_inv s -> dropped P f s s' -> datablk s b -> (forall k, 0 <= k <= NPTR -> P k = true -> bptr s f k <> b) -> datablk s' b.
Proof.
  intros Hi Hd [Hb Hf] Hk. destruct (online_size s (i_online _ _ Hi)) as (? & ? & ?). split.
  - unfold nbm. by rewrite (d_nblk _ _ _ _ Hd).
  - apply not_true_iff_false. rewrite (d_free _ _ _ _ Hd) by lia. intros [?|(k & Hk1 & HP & Hkb & _)]; [congruence|]. by apply (Hk k).
Qed.

Lemma dropped_inv P f s s' :
  fs_inv s -> F f -> regular s f -> dropped P f s s' -> fs_inv s'.
Proof.
  intros Hi Hf Hr Hd. assert (Hhome : forall g k, F g -> 0 <= k <= NPTR -> bptr s f k <> 0 -> bptr s f k <> blk_of g).
  { intros g k Hg Hk Hnz. destruct (Z.eq_dec k NPTR) as [->|]; [rewrite <- ind_ptr in *; by apply (i_home _ _ Hi)|]. apply Hr; [lia|done|done]. }
  assert (Hkeep : forall g j, F g -> 0 <= j <= NPTR -> bptr s' g j <> 0 -> bptr s' g j = bptr s g j /\ ~ (g = f /\ P j = true)).
  { intros g j Hg Hj. rewrite (d_ptr _ _ _ _ Hd) by done. destruct (bool_decide (g = f)) eqn:He; simpl.
    - apply bool_decide_eq_true in He as ->. destruct (P j); [done|]. intros _. split; [done|]. by intros [_ ?].
    - apply bool_decide_eq_false in He. intros _. split; [done|]. by intros [? _]. }
  split.
  - eapply core_online; [apply Hd|apply Hi].
  - intros g Hg. destruct (i_file _ _ Hi g Hg) as [H4 [->|(H1 & H2 & H3)]]; (split; [done|]); [by left|right]. split_and!; [done| |done].
    eapply dropped_datablk; [done|done|done|]. intros k Hk _ He. apply (Hhome g k Hg Hk); [|done]. destruct H2. 
    destruct (online_size s (i_online _ _ Hi)) as (? & ? & ?). lia.
  - apply Hi.
  - intros g j Hg Hj Hnz. destruct (Hkeep g j Hg Hj Hnz) as [He Hn]. rewrite He in *.
    eapply dropped_datablk; [done|done|by apply (i_ptr _ _ Hi)|]. intros k Hk HP Hke.
    destruct (i_inj _ _ Hi g f j k Hg Hf Hj Hk) as [-> ->]; [done|done|]. by apply Hn.
  - intros g h k j Hg Hh Hk Hj Hnz He. destruct (Hkeep g k Hg Hk Hnz) as [He1 _]. rewrite He in Hnz.
    destruct (Hkeep h j Hh Hj Hnz) as [He2 _]. apply (i_inj _ _ Hi); congruence.
  - intros g h Hg Hh. rewrite ind_ptr. intros Hnz. destruct (Hkeep g NPTR Hg) as [He _]; [unfold NPTR; lia|done|].
    rewrite He, <- ind_ptr in *. by apply (i_home _ _ Hi).
Qed.

(** ** One block *)

Lemma pslot_blk s f k a :
  fs_inv s -> F f -> regular s f -> stored s f k -> bptr s f k <> 0 -> range (pslot s f k) 4 a -> blk_of a <> bptr s f k.
Proof.
  intros Hi Hf Hr Hs Hnz Ha Hb. assert (Hk := proj1 Hs). destruct (pslot_cases s f k Hs) as [(H1 & H2 & _)|(H1 & H2 & H3)]; unfold range in Ha.
  - destruct (file_home F s f a Hi Hf) as [_ Hh]; [lia|]. destruct (Z.eq_dec k NPTR) as [->|].
    + rewrite <- ind_ptr in *. apply (i_home _ _ Hi f f); congruence.
    + apply (Hr k f); [lia|done|done|congruence].
  - unfold NPTR in H2. assert (Hba : blk_of a = indirect s f) by (apply in_block; unfold range; lia). rewrite ind_ptr in Hba.
    destruct (i_inj _ _ Hi f f k NPTR Hf Hf) as [_ ?]; unfold NPTR in *; (done || congruence || lia).
Qed.

(** The last pointers of the indirect block are gone already. *)
Lemma ind_clear s s' f :
  fs_inv s -> F f -> (forall j, 10 <= j < NPTR -> bptr s f j = 0) ->
  (forall a g j, F g -> stored s g j -> range (pslot s g j) 4 a -> ~ range (f_indirect f) 4 a -> byt s' a = byt s a) ->
  wrd s' (f_indirect f) = 0 ->
  forall g j, F g -> 0 <= j <= NPTR -> bptr s' g j = if bool_decide (g = f) && (NPTR =? j) then 0 else bptr s g j.
Proof.
  intros Hi Hf H0 Hb Hw. assert (Hsf : stored s f NPTR) by (split; unfold NPTR; lia).
  assert (Hsame : forall g j, F g -> stored s g j -> (g, j) <> (f, NPTR) -> wrd s' (pslot s g j) = wrd s (pslot s g j)).
  { intros g j Hg Hj Hne. apply wrd_ext. intros x Hx. apply (Hb _ g j Hg Hj); [unfold range; lia|].
    apply (pslot_disj F s g f j NPTR); try done. unfold range. lia. }
  intros g j Hg Hj. destruct (Z.eq_dec g f) as [->|Hgf].
  - rewrite bool_decide_eq_true_2 by done. cbn [andb]. destruct (Z.eqb_spec NPTR j) as [<-|Hne]; [by rewrite <- ind_ptr|].
    destruct (Z.lt_ge_cases j 10) as [Hlt|Hge].
    + assert (Hs : stored s f j) by (split; [done|by left]). assert (Hs' : stored s' f j) by (split; [done|by left]).
      rewrite (ptr_stored s f j Hs), (ptr_stored s' f j Hs').
      assert (pslot s' f j = pslot s f j) as ->.
      { unfold pslot, slot. rewrite (proj2 (Z.eqb_neq _ _)) by done. by rewrite (proj2 (Z.ltb_lt _ _)) by done. }
      apply Hsame; [done|done|congruence].
    + rewrite (H0 j) by lia. apply ptr_unstored; [done|]. unfold stored, indirect. rewrite Hw. lia.
  - rewrite bool_decide_eq_false_2 by done. cbn [andb]. assert (Hig : indirect s' g = indirect s g).
    { apply (Hsame g NPTR Hg); [split; unfold NPTR; lia|congruence]. }
    destruct (stored_dec s g j Hj) as [Hs|Hs].
    + rewrite (ptr_stored s g j Hs), (ptr_stored s' g j) by (unfold stored; by rewrite Hig).
      assert (pslot s' g j = pslot s g j) as -> by (unfold pslot, slot; by rewrite Hig). apply Hsame; [done|done|congruence].
    + by rewrite (ptr_unstored s g j), (ptr_unstored s' g j) by (unfold stored in *; rewrite ?Hig; done).
Qed.

Lemma clear_slot s f k :
  fs_inv s -> F f -> regular s f -> stored s f k -> bptr s f k <> 0 -> (k = NPTR -> forall j, 10 <= j < NPTR -> bptr s f j = 0) ->
  exists s', (b ← ld32 (pslot s f k); free_block b;; st32 (pslot s f k) 0) s = Ok tt s' /\ dropped (Z.eqb k) f s s'.
Proof.
  intros Hi Hf Hr Hs Hnz Hlast. assert (Ho := i_online _ _ Hi). destruct (online_size s Ho) as (N1 & N2 & N3). assert (Hk := proj1 Hs).
  destruct (slot_ok F s f k Hi Hf Hs) as (s1 & Hl1 & Hg1). rewrite (bind_Ok _ _ _ _ _ Hl1). set (b := bptr s f k) in *.
  assert (Hd : datablk s b) by (by apply (i_ptr _ _ Hi)). assert (Ho1 := grows_online _ _ Hg1 Ho).
  assert (Hn1 : nblk s1 = nblk s) by (apply byt_nblk, Hg1). assert (Hb : 0 <= b < nblk s1) by (destruct Hd; lia).
  destruct (free_block_ok s1 b Ho1) as (s2 & Hs2 & Hfl); [unfold nbm; rewrite Hn1; apply Hd|]. rewrite (bind_Ok _ _ _ _ _ Hs2).
  assert (Ho2 : online s2) by (eapply core_online; [apply Hfl|done]). assert (Hn2 := flipped_nblk s1 s2 b true Hb Ho1 Hfl).
  destruct (pslot_buffer F s f k Hi Hf Hs) as (_ & _ & Hw).
  assert (Hw2 : buffer s2 (pslot s f k) 4).
  { intros x Hx. assert (Hm := pslot_map F s f k x Hi Hf Hs Hx). apply (flipped_wr s1 s2 b true); try done.
    - right. by apply (pslot_blk s f k).
    - apply (rest_wr s s1); [by apply grows_rest|by apply Hw]. }
  destruct (st32_ok s2 (pslot s f k) 0 Hw2) as (s3 & Hs3 & He3 & Hr3 & Hwrd). exists s3. split; [done|].
  assert (Hbyt : forall a, meta s a = false -> ~ range (pslot s f k) 4 a -> byt s3 a = byt s a).
  { intros a Hm Hna. rewrite (e_byt _ _ _ He3), (flipped_meta s1 s2 b true) by (done || by rewrite (meta_nblk_eq s s1)). apply Hg1. }
  assert (Hptrs : forall a g j, F g -> stored s g j -> range (pslot s g j) 4 a -> ~ range (pslot s f k) 4 a -> byt s3 a = byt s a).
  { intros a g j Hg Hj Ha Hna. apply Hbyt; [|done]. destruct (pslot_buffer F s g j Hi Hg Hj) as (_ & _ & Hwg). apply wr_meta, Hwg, Ha. }
  assert (Hme := rest_meta _ _ Hr3 (on_ready _ Ho2)).
  assert (Hn3 : nblk s3 = nblk s2) by (apply meta_nblk; [done|by rewrite (on_super _ Ho2)]).
  split.
  - eapply core_trans; [by apply rest_core, grows_rest|]. eapply core_trans; [apply Hfl|apply He3].
  - congruence.
  - destruct (Z.eq_dec k NPTR) as [->|Hne]; [by apply ind_clear; auto|]. intros g j Hg Hj. rewrite (ptr_update F s s3 f k 0) by done.
    destruct (bool_decide (g = f)) eqn:Hgf; simpl; [apply bool_decide_eq_true in Hgf|apply bool_decide_eq_false in Hgf; by rewrite decide_False by tauto].
    destruct (Z.eqb_spec k j); [by rewrite decide_True|by rewrite decide_False by naive_solver].
  - intros c Hc. rewrite (meta_isfree s2 s3 Hme) by (rewrite ?(on_super _ Ho2), ?(on_bitmap _ Ho2); done || lia).
    destruct (Z.eq_dec c b) as [->|Hne].
    + rewrite (fl_bit _ _ _ _ Hfl). split; [|done]. intros _. right. exists k. rewrite Z.eqb_refl. done.
    + rewrite (fl_others _ _ _ _ Hfl), (byt_isfree s s1) by (done || lia || apply Hg1). split; [by left|].
      intros [?|(j & Hj & ->%Z.eqb_eq & Hjc & _)]; [done|]. unfold b in Hne. congruence.
  - intros a Hm Hna. apply Hbyt; [done|]. apply Hna; [done|apply Z.eqb_refl].
Qed.

Lemma file_free_block_ok s f i :
  fs_inv s -> F f -> regular s f -> 0 <= i < NPTR ->
  exists r s', file_free_block f i s = Ok r s' /\ dropped (Z.eqb i) f s s'.
Proof.
  intros Hi Hf Hr Hii. unfold file_free_block. destruct (stored_dec s f i ltac:(lia)) as [Hs|Hs].
  - destruct (walk_stored F s f i false Hi Hf Hii Hs) as (s1 & Hw & Hg1). rewrite (bind_Ok _ _ _ _ _ Hw). cbn [Z.ltb Z.compare].
    assert (I1 := grows_inv _ _ _ Hg1 Hi). assert (Hs1 : stored s1 f i) by (unfold stored in *; by rewrite (ind_grows s s1)).
    rewrite <- (pslot_grows s s1) by done. destruct (slot_ok F s1 f i I1 Hf Hs1) as (s2 & Hl & Hg2). rewrite (bind_Ok _ _ _ _ _ Hl).
    assert (I2 := grows_inv _ _ _ Hg2 I1). assert (Hp1 : forall g j, bptr s1 g j = bptr s g j) by (intros; apply ptr_ext, Hg1).
    assert (Hp2 : forall g j, bptr s2 g j = bptr s g j) by (intros; rewrite <- Hp1; apply ptr_ext, Hg2). rewrite Hp1.
    unfold truth. destruct (Z.eqb_spec (bptr s f i) 0) as [H0|Hnz]; cbn [negb mwhen].
    + exists 0, s2. split; [done|]. apply grows_dropped; [by eapply grows_trans| |done]. by intros k _ _ <-%Z.eqb_eq.
    + rewrite <- (pslot_grows s1 s2) by done. assert (Hs2 : stored s2 f i) by (unfold stored in *; by rewrite (ind_grows s1 s2)).
      destruct (clear_slot s2 f i I2 Hf) as (s3 & Hs3 & Hd); [|done|by rewrite Hp2|intros ->; unfold NPTR in *; lia|].
      { intros k h Hk Hh. rewrite Hp2. by apply Hr. }
      rewrite (bind_Ok _ _ _ _ _ Hs3). exists 0, s3. split; [done|].
      assert (Hd0 : dropped (fun _ => false) f s s2) by (apply grows_dropped; [by eapply grows_trans|done|done]).
      exact (dropped_trans (fun _ => false) (Z.eqb i) f s s2 s3 Hi I2 Hf Hd0 Hd).
  - destruct (walk_none F s f i Hi Hf Hii Hs) as (s1 & Hw & Hg1). rewrite (bind_Ok _ _ _ _ _ Hw). exists (- E_NOT_FOUND), s1. split; [done|].
    apply grows_dropped; [done| |done]. intros k _ Hk <-%Z.eqb_eq. by apply ptr_unstored.
Qed.

(** ** The loop *)

Lemma dropped_ext P Q f s s' : (forall k, 0 <= k <= NPTR -> P k = Q k) -> dropped P f s s' -> dropped Q f s s'.
Proof.
  intros He [D1 D2 D3 D4 D5]. split; try done.
  - intros g j Hg Hj. rewrite <- He by done. by apply D3.
  - intros b Hb. rewrite D4 by done. split; (intros [?|(k & Hk & HP & ?)]; [by left|right; exists k; rewrite He in * by done; done]).
  - intros a Hm Hk. apply D5; [done|]. intros k Hs HP. apply Hk; [done|]. rewrite <- He; [done|apply Hs].
Qed.

(** Pointers that are null need not be dropped. *)
Lemma dropped_null P Q f s s' :
  F f -> (forall k, 0 <= k <= NPTR -> P k = true -> Q k = true) ->
  (forall k, 0 <= k <= NPTR -> Q k = true -> P k = false -> bptr s f k = 0) -> dropped P f s s' -> dropped Q f s s'.
Proof.
  intros Hf HPQ H0 [D1 D2 D3 D4 D5]. split; try done.
  - intros g j Hg Hj. rewrite D3 by done. destruct (bool_decide (g = f)) eqn:He; [|done]. apply bool_decide_eq_true in He as ->. simpl.
    destruct (P j) eqn:HP; [by rewrite (HPQ j)|]. destruct (Q j) eqn:HQ; [by apply H0|done].
  - intros b Hb. rewrite D4 by done. split; (intros [?|(k & Hk & HP & Hkb & Hnz)]; [by left|right; exists k]).
    + by rewrite (HPQ k).
    + destruct (P k) eqn:HP'; [done|]. rewrite (H0 k) in Hkb by done. congruence.
  - intros a Hm Hk. apply D5; [done|]. intros k Hs HP. apply Hk; [done|]. apply HPQ; [apply Hs|done].
Qed.

Lemma dropped_regular P f g s s' : F f -> F g -> dropped P f s s' -> regular s g -> regular s' g.
Proof.
  intros Hf Hg Hd Hr k h Hk Hh. rewrite (d_ptr _ _ _ _ Hd) by (done || lia). destruct (_ && _); [done|]. by apply Hr.
Qed.

Lemma grows_out msg s : grows s (set_out msg s).
Proof. split; try done; [intros v p Hp; exists p; split; [done|apply same_page_refl]|intros v p Hn Hp; simpl in Hp; congruence]. Qed.

Lemma truncate_loop f (n : nat) : forall s lo,
  fs_inv s -> F f -> regular s f -> 0 <= lo -> lo + Z.of_nat n <= NPTR ->
  exists s', mfor (seqZ lo (Z.of_nat n)) (fun bno => r ← file_free_block f bno; mwhen (r <? 0) (cprintf "warning: file_free_block")) s = Ok tt s' /\
    dropped (fun k => (lo <=? k) && (k <? lo + Z.of_nat n)) f s s'.
Proof.
  induction n as [|n IH]; intros s lo Hi Hf Hr Hlo Hn.
  { exists s. split; [done|]. apply grows_dropped; [apply grows_refl| |done]. intros k _ _ [?%Z.leb_le ?%Z.ltb_lt]%andb_true_iff. lia. }
  replace (Z.of_nat (S n)) with (Z.of_nat n + 1) by lia. rewrite seqZ_cons by lia. cbn [mfor].
  replace (Z.pred (Z.of_nat n + 1)) with (Z.of_nat n) by lia. replace (Z.succ lo) with (lo + 1) by lia.
  destruct (file_free_block_ok s f lo Hi Hf Hr) as (r & s1 & Hs1 & Hd1); [lia|].
  assert (Hstep : exists s2, (r ← file_free_block f lo; mwhen (r <? 0) (cprintf "warning: file_free_block")) s = Ok tt s2 /\ grows s1 s2).
  { rewrite (bind_Ok _ _ _ _ _ Hs1). destruct (r <? 0); cbn [mwhen]; [|by exists s1; split; [|apply grows_refl]].
    exists (set_out ("warning: file_free_block"%string :: out s1) s1). split; [done|apply grows_out]. }
  destruct Hstep as (s2 & Hs2 & Hg2). rewrite (bind_Ok _ _ _ _ _ Hs2).
  assert (I1 := dropped_inv _ _ _ _ Hi Hf Hr Hd1). assert (R1 := dropped_regular _ _ _ _ _ Hf Hf Hd1 Hr).
  assert (I2 := grows_inv _ _ _ Hg2 I1). assert (R2 := sf_regular _ _ _ _ (grows_same F (fun _ => False) _ _ Hg2) f Hf R1).
  destruct (IH s2 (lo + 1) I2 Hf R2) as (s3 & Hs3 & Hd3); [lia|lia|]. exists s3. split; [done|].
  assert (Hd2 : dropped (fun _ => false) f s1 s2) by (by apply grows_dropped).
  pose proof (dropped_trans _ _ f s s1 s2 Hi I1 Hf Hd1 Hd2) as Hd12. pose proof (dropped_trans _ _ f s s2 s3 Hi I2 Hf Hd12 Hd3) as Hd123.
  eapply dropped_ext; [|exact Hd123]. intros k Hk. cbv beta.
  destruct (Z.eqb_spec lo k), (Z.leb_spec (lo + 1) k), (Z.leb_spec lo k), (Z.ltb_spec k (lo + 1 + Z.of_nat n)), (Z.ltb_spec k (lo + (Z.of_nat n + 1))); simpl; (done || lia).
Qed.

(** No blocks beyond the end *)
Definition tidy (s : fs) (f : Z) : Prop := forall k, (fsize s f + 4095) / 4096 <= k < NPTR -> bptr s f k = 0.

(** What a file with [n] blocks does not need *)
Definition beyond_blocks (n k : Z) : bool := (n <=? k) && (k <? NPTR) || (k =? NPTR) && (n <=? 10).

Lemma nblocks_of_ok n : 0 <= n <= FSPAN -> u32 (nblocks_of n) = (n + 4095) / 4096 /\ 0 <= (n + 4095) / 4096 <= NPTR.
Proof.
  unfold FSPAN, nblocks_of, NPTR. change BLKSIZE with 4096. intros Hn. replace (n + 4096 - 1) with (n + 4095) by lia. rewrite i32_small by lia.
  rewrite Z.quot_div_nonneg by lia. assert (0 <= (n + 4095) / 4096 <= 1034) by (Z.div_mod_to_equations; lia). by rewrite u32_small by lia.
Qed.

Lemma truncate_blocks_ok s f newsize :
  fs_inv s -> F f -> regular s f -> tidy s f -> 0 <= newsize -> newsize <= fsize s f <= FSPAN ->
  exists s', file_truncate_blocks f newsize s = Ok tt s' /\ dropped (beyond_blocks ((newsize + 4095) / 4096)) f s s'.
Proof.
  intros Hi Hf Hr Htidy Hnew Hsz. unfold file_truncate_blocks. destruct (size_ok F s f Hi Hf) as (s1 & Hs1 & Hg1). rewrite (bind_Ok _ _ _ _ _ Hs1).
  assert (I1 := grows_inv _ _ _ Hg1 Hi). assert (R1 := sf_regular _ _ _ _ (grows_same F (fun _ => False) _ _ Hg1) f Hf Hr).
  destruct (nblocks_of_ok (fsize s f)) as [E1 B1]; [lia|]. destruct (nblocks_of_ok newsize) as [E2 B2]; [unfold FSPAN in *; lia|].
  cbv zeta. rewrite E1, E2. set (old := (fsize s f + 4095) / 4096) in *. set (new := (newsize + 4095) / 4096) in *.
  assert (Hle : new <= old) by (unfold new, old; Z.div_mod_to_equations; lia).
  destruct (truncate_loop f (Z.to_nat (old - new)) s1 new I1 Hf R1) as (s2 & Hs2 & Hd2); [lia|lia|]. rewrite Z2Nat.id in Hs2, Hd2 by lia.
  rewrite (bind_Ok _ _ _ _ _ Hs2). change NDIRECT with 10.
  assert (Hd1 : dropped (fun _ => false) f s s1) by (by apply grows_dropped). assert (I2 := dropped_inv _ _ _ _ I1 Hf R1 Hd2).
  pose proof (dropped_trans _ _ f s s1 s2 Hi I1 Hf Hd1 Hd2) as Hd12. assert (R2 := dropped_regular _ _ _ _ _ Hf Hf Hd2 R1). cbv beta in Hd12.
  assert (Hgone : forall j, new <= j < NPTR -> bptr s2 f j = 0).
  { intros j Hj. rewrite (d_ptr_self _ _ _ _ _ Hd12) by (done || lia). cbn [orb]. destruct (Z.leb_spec new j); [|lia].
    destruct (Z.ltb_spec j (new + (old - new))); [done|]. apply Htidy. unfold old in *. lia. }
  destruct (Z.leb_spec new 10) as [Hn10|Hn10].
  - destruct (ind_ok F s2 f I2 Hf) as (s3 & Hs3 & Hg3). rewrite (bind_Ok _ _ _ _ _ Hs3). assert (I3 := grows_inv _ _ _ Hg3 I2).
    assert (Hp3 : forall g j, bptr s3 g j = bptr s2 g j) by (intros; apply ptr_ext, Hg3).
    assert (Hd3 : dropped (fun _ => false) f s2 s3) by (by apply grows_dropped).
    pose proof (dropped_trans _ _ f s s2 s3 Hi I2 Hf Hd12 Hd3) as Hd123. cbv beta in Hd123.
    unfold truth. destruct (Z.eqb_spec (indirect s2 f) 0) as [H0|Hnz]; cbn [negb mwhen].
    + exists s3. split; [done|]. eapply dropped_null; [done| | |exact Hd123].
      * intros k Hk. unfold beyond_blocks. cbv beta. rewrite !orb_false_r, orb_false_l, !andb_true_iff, Z.leb_le, Z.ltb_lt. intros [H1 H2].
        apply orb_true_iff. left. rewrite andb_true_iff, Z.leb_le, Z.ltb_lt. lia.
      * intros k Hk HQ HP. assert (Hz : bptr s2 f k = 0).
        { destruct (Z.eq_dec k NPTR) as [->|]; [by rewrite <- ind_ptr|]. apply Hgone. unfold beyond_blocks in HQ.
          rewrite orb_true_iff, !andb_true_iff, !Z.leb_le, Z.ltb_lt, Z.eqb_eq in HQ. lia. }
        rewrite (d_ptr_self _ _ _ _ _ Hd12) in Hz by done. cbv beta in Hz, HP. rewrite orb_false_r in HP. by rewrite HP in Hz.
    + destruct (clear_slot s3 f NPTR I3 Hf) as (s4 & Hs4 & Hd4).
      { intros k h Hk Hh. rewrite Hp3. by apply R2. }
      { split; unfold NPTR; lia. }
      { by rewrite Hp3, <- ind_ptr. }
      { intros _ j Hj. rewrite Hp3. apply Hgone. lia. }
      exists s4. split; [exact Hs4|]. pose proof (dropped_trans _ _ f s s3 s4 Hi I3 Hf Hd123 Hd4) as Hall.
      eapply dropped_null; [done| | |exact Hall].
      * intros k Hk. unfold beyond_blocks. cbv beta. rewrite !orb_false_r, orb_false_l, orb_true_iff, !andb_true_iff, Z.leb_le, Z.ltb_lt, Z.eqb_eq.
        intros [[H1 H2]|<-]; apply orb_true_iff; rewrite !andb_true_iff, !Z.leb_le, Z.ltb_lt, Z.eqb_eq; lia.
      * intros k Hk HQ HP. cbv beta in HP. rewrite !orb_false_r, orb_false_l in HP. apply orb_false_iff in HP as [HP1 HP2].
        apply Z.eqb_neq in HP2. assert (Hz : bptr s2 f k = 0).
        { apply Hgone. unfold beyond_blocks in HQ. rewrite orb_true_iff, !andb_true_iff, !Z.leb_le, Z.ltb_lt, Z.eqb_eq in HQ. lia. }
        rewrite (d_ptr_self _ _ _ _ _ Hd12) in Hz by done. cbv beta in Hz. by rewrite HP1 in Hz.
  - exists s2. split; [done|]. eapply dropped_null; [done| | |exact Hd12].
    + intros k Hk. unfold beyond_blocks. cbv beta. rewrite orb_false_l, !andb_true_iff, Z.leb_le, Z.ltb_lt. intros [H1 H2].
      apply orb_true_iff. left. rewrite andb_true_iff, Z.leb_le, Z.ltb_lt. lia.
    + intros k Hk HQ HP. assert (Hz : bptr s2 f k = 0).
      { apply Hgone. unfold beyond_blocks in HQ. rewrite orb_true_iff, !andb_true_iff, !Z.leb_le, Z.ltb_lt, Z.eqb_eq in HQ. lia. }
      rewrite (d_ptr_self _ _ _ _ _ Hd12) in Hz by done. cbv beta in Hz, HP. rewrite orb_false_l in HP. cbn [orb] in Hz. by rewrite HP in Hz.
Qed.

Lemma dropped_wrote P f s s' :
  fs_inv s -> F f -> regular s f -> dropped P f s s' ->
  wrote F f (fsize s f) (fun o => if P (o / 4096) then 0 else fbyte s f o) s s'.
Proof.
  intros Hi Hf Hr Hd. assert (Ho := i_online _ _ Hi).
  assert (Hhead : forall g a, F g -> g <= a < g + 136 -> byt s' a = byt s a).
  { intros g a Hg Ha. destruct (okfile_addr s g (a - g) Ho (i_file _ _ Hi g Hg)) as (_ & Hb & _ & Hw); [lia|]. replace (g + (a - g)) with a in * by lia.
    apply (d_byt _ _ _ _ Hd); [by apply wr_meta|]. intros k Hs _ Hx. destruct (pslot_cases s f k Hs) as [(H1 & H2 & _)|(H1 & H2 & H3)]; unfold range in Hx.
    - destruct (Z.eq_dec f g) as [->|Hne]; [lia|]. destruct (i_disj _ _ Hi f g Hf Hg Hne); lia.
    - unfold NPTR in H2. assert (Hba : blk_of a = indirect s f) by (apply in_block; unfold range; lia). apply (i_home _ _ Hi f g); congruence. }
  assert (Hdata : forall g o, F g -> regular s g -> 0 <= o < FSPAN -> (g = f -> P (o / 4096) = false) -> fbyte s' g o = fbyte s g o).
  { intros g o Hg Hrg Hspan HP. assert (Hj : 0 <= o / 4096 < NPTR) by (unfold NPTR, FSPAN in *; Z.div_mod_to_equations; lia).
    pose proof (Z.mod_pos_bound o 4096 ltac:(lia)) as Hm. unfold fbyte. rewrite !bmap_ptr, (d_ptr _ _ _ _ Hd) by (done || lia).
    assert (Hkeep : bool_decide (g = f) && P (o / 4096) = false).
    { destruct (bool_decide (g = f)) eqn:He; [|done]. apply bool_decide_eq_true in He. by rewrite HP. }
    rewrite Hkeep. destruct (Z.eqb_spec (bptr s g (o / 4096)) 0) as [|Hnz]; [done|]. apply (d_byt _ _ _ _ Hd).
    - apply wr_meta. apply (datablk_addr s); [done|apply (i_ptr _ _ Hi); [done|lia|done]|done].
    - intros k Hs _. by apply (data_not_pslot F s f k g). }
  split.
  - apply Hd.
  - intros g a Hg Ha _. by apply (Hhead g).
  - unfold fsize. f_equal. apply wrd_ext. intros k Hk. apply (Hhead f); [done|]. unfold f_size. lia.
  - intros g Hg. by apply (dropped_regular P f).
  - intros g o Hg Hne Hrg Hspan. apply Hdata; done.
  - intros o Hspan. destruct (P (o / 4096)) eqn:HP; [|by apply Hdata].
    assert (Hj : 0 <= o / 4096 < NPTR) by (unfold NPTR, FSPAN in *; Z.div_mod_to_equations; lia).
    unfold fbyte. rewrite bmap_ptr, (d_ptr_self _ _ _ _ _ Hd), HP by (done || lia). done.
  - intros a Ha. apply (d_byt _ _ _ _ Hd).
    + destruct (meta s a) eqn:Hm; [|done]. by rewrite (meta_map s a Ho Hm) in Ha.
    + intros k Hs _ Hx. by rewrite (pslot_map F s f k a) in Ha.
Qed.

Lemma size_write_free s f n s' b :
  fs_inv s -> F f -> st32 (f_size f) (u32 n) s = Ok tt s' -> 0 <= b < nblk s -> isfree s' b = isfree s b.
Proof.
  intros Hi Hf Hs Hb. assert (Ho := i_online _ _ Hi).
  destruct (okfile_word s f 128 Ho (i_file _ _ Hi f Hf)) as (_ & _ & Hw); [lia|lia|done|].
  destruct (st32_ok s (f_size f) (u32 n) Hw) as (s1 & Hs1 & _ & Hrest & _). assert (s1 = s') as -> by congruence.
  apply meta_isfree; [by apply rest_meta; [|apply Ho]|by rewrite (on_super _ Ho)|by rewrite (on_bitmap _ Ho)|done].
Qed.

(** [file_set_size] to a smaller size *)
Lemma shrink_ok s f newsize :
  fs_inv s -> F f -> regular s f -> tidy s f -> 0 <= newsize < fsize s f -> fsize s f <= FSPAN ->
  exists s', file_set_size f newsize s = Ok 0 s' /\ fs_inv s' /\ tidy s' f /\
    wrote F f newsize (fun o => if (newsize + 4095) / 4096 <=? o / 4096 then 0 else fbyte s f o) s s' /\
    (forall b, 0 <= b < nblk s -> isfree s' b = true <-> isfree s b = true \/
       exists k, 0 <= k <= NPTR /\ beyond_blocks ((newsize + 4095) / 4096) k = true /\ bptr s f k = b /\ b <> 0).
Proof.
  intros Hi Hf Hr Htidy Hnew Hsz. unfold file_set_size. unfold FSPAN in Hsz. destruct (size_ok F s f Hi Hf) as (s1 & Hs1 & Hg1). rewrite (bind_Ok _ _ _ _ _ Hs1).
  rewrite (proj2 (Z.ltb_lt _ _)) by lia. cbn [mwhen]. assert (I1 := grows_inv _ _ _ Hg1 Hi).
  assert (S1 := grows_same F (fun _ => False) _ _ Hg1). assert (R1 := sf_regular _ _ _ _ S1 f Hf Hr). assert (Hz1 := same_fsize F _ s s1 f S1 Hf).
  assert (Hp1 : forall g j, bptr s1 g j = bptr s g j) by (intros; apply ptr_ext, Hg1).
  destruct (truncate_blocks_ok s1 f newsize I1 Hf R1) as (s2 & Hs2 & Hd2); [|lia|rewrite Hz1; unfold FSPAN; lia|].
  { intros k. rewrite Hz1, Hp1. apply Htidy. }
  rewrite (bind_Ok _ _ _ _ _ Hs2). assert (I2 := dropped_inv _ _ _ _ I1 Hf R1 Hd2). assert (R2 := dropped_regular _ _ _ _ _ Hf Hf Hd2 R1).
  assert (W2 := dropped_wrote _ _ _ _ I1 Hf R1 Hd2). set (n := (newsize + 4095) / 4096) in *.
  destruct (size_write F s2 f newsize I2 Hf R2) as (s3 & Hs3 & I3 & W3 & Hp3); [lia|]. rewrite (bind_Ok _ _ _ _ _ Hs3).
  assert (R3 := w_regular _ _ _ _ _ _ W3 f Hf R2).
  assert (Hmap : in_map f = true) by (rewrite <- (Z.add_0_r f); apply (file_home F s3 f); [done|done|lia]).
  destruct (flush_spec s3 f (on_ready _ (i_online _ _ I3)) Hmap) as (s4 & Hs4 & Hc4 & Hb4 & _). rewrite (bind_Ok _ _ _ _ _ Hs4).
  exists s4. split; [done|]. split; [by apply (byt_inv F s3)|].
  assert (S4 := byt_same_files F (fun _ => False) s3 s4 Hc4 Hb4).
  assert (Hsz4 : fsize s4 f = newsize) by (rewrite (same_fsize F _ s3 s4 f S4 Hf); apply W3).
  assert (Hfree : forall b, 0 <= b < nblk s -> isfree s4 b = isfree s2 b).
  { intros b Hb. rewrite (byt_isfree s3 s4 b Hb4). apply (size_write_free s2 f newsize s3 b); try done.
    rewrite (d_nblk _ _ _ _ Hd2), (byt_nblk s s1) by apply Hg1. done. }
  split; [|split].
  - intros k Hk. rewrite Hsz4 in Hk. fold n in Hk. assert (0 <= n) by (unfold n; Z.div_mod_to_equations; lia).
    rewrite (ptr_ext s3 s4) by done. rewrite Hp3, (d_ptr_self _ _ _ _ _ Hd2) by (done || lia).
    unfold beyond_blocks. rewrite (proj2 (Z.leb_le _ _)), (proj2 (Z.ltb_lt _ _)) by lia. done.
  - assert (W1 := same_wrote F f s s1 Hf Hr S1). assert (W4 := same_wrote F f s3 s4 Hf R3 S4). rewrite (w_size _ _ _ _ _ _ W3) in W4.
    eapply wrote_ext; [|eapply wrote_trans; [exact W1|eapply wrote_trans; [exact W2|eapply wrote_trans; [exact W3|exact W4]]]].
    intros o Ho. rewrite (w_fbyte _ _ _ _ _ _ W3), (w_fbyte _ _ _ _ _ _ W2) by done. cbv beta.
    assert (Hj : 0 <= o / 4096 < NPTR) by (unfold NPTR, FSPAN in *; Z.div_mod_to_equations; lia). unfold beyond_blocks.
    rewrite (proj2 (Z.ltb_lt _ _)), (proj2 (Z.eqb_neq _ _)) by lia. cbn [andb]. rewrite orb_false_r, andb_true_r.
    destruct (n <=? o / 4096); [done|]. apply (sf_fbyte _ _ _ _ S1); done.
  - intros b Hb. rewrite Hfree, (d_free _ _ _ _ Hd2), (byt_isfree s s1) by (done || apply Hg1 || by rewrite (byt_nblk s s1) by apply Hg1).
    split; (intros [?|(k & ?)]; [by left|right; exists k; by rewrite Hp1 in *]).
Qed.
End files.
