(* ===== verification/FsThms.v ===== *)
(** * FsThms: the theorems about [fs/fs.c] *)

From S2P Require Import Prelude Layout UMonad Str StrThms Ide IdeThms Bc BcThms FsEx Fs FsBase FileInv FileThms FileIO FileTrunc.

(** ** Sync *)

Definition quiet (s s' : fs) : Prop := fs_core s s' /\ forall a, byt s' a = byt s a.

Lemma quiet_trans s1 s2 s3 : quiet s1 s2 -> quiet s2 s3 -> quiet s1 s3.
Proof. intros [C1 B1] [C2 B2]. split; [by eapply core_trans|]. intros a. by rewrite B2, B1. Qed.
Lemma grows_quiet s s' : grows s s' -> quiet s s'.
Proof. intros Hg. split; [by apply rest_core, grows_rest|apply Hg]. Qed.
Lemma quiet_online s s' : quiet s s' -> online s -> online s'.
Proof. intros [C _]. by apply core_online. Qed.
Lemma quiet_nblk s s' : quiet s s' -> nblk s' = nblk s.
Proof. intros [_ B]. by apply byt_nblk. Qed.
Lemma grows_durable s s' b : grows s s' -> durable s b -> durable s' b.
Proof. intros Hg. apply durable_ext; [apply Hg|apply Hg|intros; apply Hg]. Qed.

Lemma fs_sync_steps (m : nat) : forall s i,
  online s -> cached_ok s -> 1 <= i -> i + Z.of_nat m = nblk s ->
  exists s', msteps (m + 1) (fun i =>
    sup ← mget super;
    n ← ld32 (s_nblocks sup);
    if u32 i <? n then a ← diskaddr (u32 i); flush_block a;; mret (inl (i32 (i + 1)))
    else mret (inr tt)) i s = Ok (inr tt) s' /\ quiet s s' /\
    (forall b, i <= b < nblk s -> durable s' b) /\ (forall b, durable s b -> durable s' b).
Proof.
  induction m as [|m IH]; intros s i Ho Hc Hi Hm; destruct (online_size s Ho) as (N1 & N2 & N3); destruct (nblocks_ok s Ho) as (s1 & Hl & Hg).
  - exists s1. split; [|split; [by apply grows_quiet|split; [intros; lia|intros b; by apply grows_durable]]].
    apply msteps_done. rewrite (bind_Ok _ _ s SUPER s) by (unfold mget; by rewrite (on_super _ Ho)).
    rewrite (bind_Ok _ _ _ _ _ Hl). rewrite u32_small, (proj2 (Z.ltb_ge _ _)) by lia. done.
  - assert (Ho1 := grows_online _ _ Hg Ho). assert (Hn1 : nblk s1 = nblk s) by (apply byt_nblk, Hg).
    destruct (diskaddr_ok s1 i Ho1) as (s2 & Hs2 & Hg2); [lia|]. assert (Ho2 := grows_online _ _ Hg2 Ho1).
    assert (Hin : in_map (DISKMAP + i * 4096) = true) by (rewrite <- (Z.add_0_r (DISKMAP + i * 4096)); apply in_map_block; lia).
    destruct (flush_spec s2 (DISKMAP + i * 4096) (on_ready _ Ho2) Hin) as (s3 & Hs3 & Hc3 & Hb3 & Hd3 & Hm3).
    assert (Hq : quiet s s3) by (split; [eapply core_trans; [by apply rest_core, grows_rest, (grows_trans s s1 s2)|done]|intros a; rewrite Hb3, (g_byt _ _ Hg2); apply Hg]).
    assert (Hc2 : cached_ok s2) by (eapply grows_cached; [done|by eapply grows_cached]).
    destruct (IH s3 (i + 1)) as (s4 & Hs4 & Hq4 & Hd4 & Hm4); [by eapply quiet_online|by apply (c_cached _ _ Hc3)|lia|rewrite (quiet_nblk _ _ Hq); lia|].
    exists s4. split; [|split; [by eapply quiet_trans|split]].
    + eapply (msteps_next _ (m + 1)); [|exact Hs4]. rewrite (bind_Ok _ _ s SUPER s) by (unfold mget; by rewrite (on_super _ Ho)).
      rewrite (bind_Ok _ _ _ _ _ Hl), u32_small, (proj2 (Z.ltb_lt _ _)) by lia. rewrite (bind_Ok _ _ _ _ _ Hs2), (bind_Ok _ _ _ _ _ Hs3).
      by rewrite i32_small by lia.
    + intros b Hb. destruct (Z.eq_dec b i) as [->|]; [|apply Hd4; rewrite (quiet_nblk _ _ Hq); lia]. apply Hm4.
      rewrite <- (blk_at i 0) by lia. rewrite Z.add_0_r. by apply Hd3.
    + intros b Hb. apply Hm4, Hm3. eapply grows_durable; [done|]. by eapply grows_durable.
Qed.

(** C32. [fs_sync] returns, changes no contents, and afterwards every block of the disk, from the
    super block on, is on the disk exactly as the server sees it, so that a restart of the
    server with an empty cache finds the same file system. *)
Theorem fs_sync_correct s :
  online s -> cached_ok s ->
  exists s', fs_sync s = Ok tt s' /\ fs_core s s' /\ (forall a, byt s' a = byt s a) /\
    (forall b, 1 <= b < nblk s -> durable s' b) /\
    (forall b o, 1 <= b < nblk s -> 0 <= o < 4096 ->
       byt (set_fpages ∅ s') (DISKMAP + b * 4096 + o) = byt s (DISKMAP + b * 4096 + o)).
Proof.
  intros Ho Hc. destruct (online_size s Ho) as (N1 & N2 & N3).
  destruct (fs_sync_steps (Z.to_nat (nblk s - 1)) s 1 Ho Hc) as (s' & Hs & [C B] & Hd & _); [lia|lia|].
  exists s'. split; [apply (mloop_ADDRS _ (Z.to_nat (nblk s - 1) + 1)); [lia|exact Hs]|]. do 2 (split; [done|]). split; [done|].
  intros b o Hb Hr. rewrite <- B, <- (Hd b Hb o Hr). unfold byt. cbn [fpages set_fpages]. rewrite lookup_empty, in_map_block by lia.
  change (diskno (set_fpages ∅ s')) with (diskno s'). unfold dbyte. cbn [disks set_fpages]. do 4 f_equal. lia.
Qed.

Lemma fs_ex_online : online fs_ex.
Proof.
  split; [apply fs_ex_ready|done|done|]. intros v p Hp _. by destruct (fs_ex_pages v p Hp).
Qed.

Lemma fs_sync_correct_witness :
  exists s', fs_sync fs_ex = Ok tt s' /\ fs_core fs_ex s' /\ (forall a, byt s' a = byt fs_ex a) /\
    (forall b, 1 <= b < nblk fs_ex -> durable s' b) /\
    (forall b o, 1 <= b < nblk fs_ex -> 0 <= o < 4096 ->
       byt (set_fpages ∅ s') (DISKMAP + b * 4096 + o) = byt fs_ex (DISKMAP + b * 4096 + o)).
Proof. apply (fs_sync_correct fs_ex); [apply fs_ex_online|apply fs_ex_cached]. Defined.

(** ** Allocation *)

(** [alloc_block] takes the first free block, which is none of the reserved ones, marks it
    in use and changes nothing else: no other bit of the bitmap and no byte outside that word
    of the bitmap.  It fails exactly when no block is free, and then changes nothing.  [free_block]
    makes a block free again, so that the bitmap is as it was. *)
Theorem alloc_block_correct s :
  online s ->
  (exists s', alloc_block s = Ok (- E_NO_DISK) s' /\ (forall b, 2 <= b < nblk s -> isfree s b = false) /\
     fs_core s s' /\ forall a, byt s' a = byt s a) \/
  (exists r s' s'', alloc_block s = Ok r s' /\ 2 + nbm s <= r < nblk s /\ isfree s r = true /\
     (forall b, 2 <= b < r -> isfree s b = false) /\ isfree s' r = false /\
     (forall b, 0 <= b -> b <> r -> isfree s' b = isfree s b) /\ fs_core s s' /\
     (forall a, ~ range (BITMAP + 4 * (r / 32)) 4 a -> byt s' a = byt s a) /\
     free_block r s' = Ok tt s'' /\ forall b, 0 <= b -> isfree s'' b = isfree s b).
Proof.
  intros Ho. destruct (alloc_block_ok s Ho) as (r & s' & Hs & [(-> & Hg & Hf)|(H1 & H2 & H3 & H4 & Hfl & _)]); [left|right].
  - exists s'. split; [done|]. split; [done|]. by apply grows_quiet.
  - assert (Hr : 0 <= r < nblk s) by (destruct (online_size s Ho); lia). assert (Hn := flipped_nblk s s' r false Hr Ho Hfl).
    destruct (free_block_ok s' r) as (s'' & Hs'' & Hfl2); [eapply core_online; [apply Hfl|done]|unfold nbm; rewrite Hn; fold (nbm s); lia|].
    exists r, s', s''. destruct Hfl as [F1 F2 F3 F4]. split_and!; try done; try lia.
    intros b Hb. destruct (Z.eq_dec b r) as [->|Hne]; [by rewrite (fl_bit _ _ _ _ Hfl2)|]. rewrite (fl_others _ _ _ _ Hfl2) by done. by apply F3.
Qed.

Lemma alloc_block_correct_witness :
  (exists s', alloc_block fs_ex = Ok (- E_NO_DISK) s' /\ (forall b, 2 <= b < nblk fs_ex -> isfree fs_ex b = false) /\
     fs_core fs_ex s' /\ forall a, byt s' a = byt fs_ex a) \/
  (exists r s' s'', alloc_block fs_ex = Ok r s' /\ 2 + nbm fs_ex <= r < nblk fs_ex /\ isfree fs_ex r = true /\
     (forall b, 2 <= b < r -> isfree fs_ex b = false) /\ isfree s' r = false /\
     (forall b, 0 <= b -> b <> r -> isfree s' b = isfree fs_ex b) /\ fs_core fs_ex s' /\
     (forall a, ~ range (BITMAP + 4 * (r / 32)) 4 a -> byt s' a = byt fs_ex a) /\
     free_block r s' = Ok tt s'' /\ forall b, 0 <= b -> isfree s'' b = isfree fs_ex b).
Proof. apply (alloc_block_correct fs_ex). apply fs_ex_online. Defined.

(** ** Files *)

(** The files of the small disk: the root directory and [a] *)
Definition ex_root : Z := s_root SUPER.
Definition ex_a : Z := DISKMAP + 3 * 4096.
Definition ex_F (f : Z) : Prop := f = ex_root \/ f = ex_a.

Lemma ex_ptr f k : ex_F f -> 0 <= k <= NPTR -> bptr fs_ex f k = if k =? 0 then if f =? ex_root then 3 else 4 else 0.
Proof.
  intros [->| ->] Hk.
  - destruct (Z.eq_dec k NPTR) as [->|]; [vm_compute; reflexivity|]. destruct (Z.lt_ge_cases k 10) as [Hlt|Hge].
    + assert (k = 0 \/ k = 1 \/ k = 2 \/ k = 3 \/ k = 4 \/ k = 5 \/ k = 6 \/ k = 7 \/ k = 8 \/ k = 9) as Hc by lia.
      repeat (destruct Hc as [->|Hc]; [vm_compute; reflexivity|]). subst k. vm_compute. reflexivity.
    + rewrite ptr_unstored; [|done|]; [by rewrite (proj2 (Z.eqb_neq _ _)) by lia|]. intros [_ [?|[?|Hs]]]; [lia|done|]. apply Hs. vm_compute. reflexivity.
  - destruct (Z.eq_dec k NPTR) as [->|]; [vm_compute; reflexivity|]. destruct (Z.lt_ge_cases k 10) as [Hlt|Hge].
    + assert (k = 0 \/ k = 1 \/ k = 2 \/ k = 3 \/ k = 4 \/ k = 5 \/ k = 6 \/ k = 7 \/ k = 8 \/ k = 9) as Hc by lia.
      repeat (destruct Hc as [->|Hc]; [vm_compute; reflexivity|]). subst k. vm_compute. reflexivity.
    + rewrite ptr_unstored; [|done|]; [by rewrite (proj2 (Z.eqb_neq _ _)) by lia|]. intros [_ [?|[?|Hs]]]; [lia|done|]. apply Hs. vm_compute. reflexivity.
Qed.

Lemma fs_ex_inv : fs_inv ex_F fs_ex.
Proof.
  split.
  - apply fs_ex_online.
  - intros f [->| ->]; (split; [reflexivity|]); [by left|right]. vm_compute. split_and!; try done; by intros [=].
  - intros f g [->| ->] [->| ->] Hne; unfold ex_root, ex_a, s_root, SUPER; clia.
  - intros f k Hf Hk. rewrite ex_ptr by done. destruct (k =? 0); [|done]. destruct (f =? ex_root); intros _; vm_compute; by split_and!.
  - intros f g k j Hf Hg Hk Hj. rewrite !ex_ptr by done. destruct (Z.eqb_spec k 0) as [->|]; [|done].
    destruct (Z.eqb_spec j 0) as [->|]; [|destruct (f =? ex_root); done]. intros _ He. split; [|done].
    destruct Hf as [->| ->], Hg as [->| ->]; vm_compute in He; done.
  - intros f g [->| ->] _ Hi; exfalso; apply Hi; vm_compute; reflexivity.
Qed.

Lemma ex_regular : regular ex_F fs_ex ex_a.
Proof.
  intros k h Hk Hh. rewrite ex_ptr by (by right || lia). destruct (k =? 0); [|done]. intros _. change (ex_a =? ex_root) with false. cbv iota.
  destruct Hh as [->| ->]; vm_compute; done.
Qed.

(** The request page is a buffer. *)
Lemma ex_buffer a n : 0x0ffff000 <= a -> a + n <= 0x10000000 -> outside_buffer fs_ex a n.
Proof.
  intros H1 H2 k Hk. unfold range in Hk. assert (Hv : vpn k = 0x0FFFF) by (unfold vpn; Z.div_mod_to_equations; lia).
  assert (Hi : in_map k = false) by (apply in_map_false; left; clia). split; [|done]. split_and!.
  - apply fs_ex_ready.
  - unfold accessible. rewrite Hi. unfold is_mapped. by rewrite Hv.
  - destruct (meta fs_ex k) eqn:Hm; [|done]. by rewrite (meta_map fs_ex k fs_ex_online Hm) in Hi.
  - unfold writable_page. by rewrite Hv.
Qed.

(** C33. [file_read] returns min(count, size - offset) (0 beyond the end) and leaves exactly those
    bytes of the file in the buffer, also when the range spans direct and indirect blocks and
    holes; no file is changed: not its name, its size or its contents, of any file, and no
    other memory of the server.  The only failure is a full disk, since a hole is filled with
    a block of zeros. *)
Theorem file_read_correct F s f buf count offset :
  fs_inv F s -> F f -> regular F s f -> 0 <= fsize s f <= FSPAN -> 0 <= offset < 2^31 -> 0 <= count < 2^32 ->
  let n := Z.max 0 (Z.min count (fsize s f - offset)) in
  outside_buffer s buf n -> 0 <= buf -> buf + n < 2^32 ->
  exists r s', file_read f buf count offset s = Ok r s' /\ fs_inv F s' /\ same_files F (range buf n) s s' /\
    ((r = n /\ forall k, 0 <= k < n -> byt s' (buf + k) = fbyte s f (offset + k)) \/ (r = - E_NO_DISK /\ full s')).
Proof. apply file_read_ok. Qed.

Lemma file_read_correct_witness :
  exists r s', file_read ex_a 0x0ffff000 100 1 fs_ex = Ok r s' /\ fs_inv ex_F s' /\ same_files ex_F (range 0x0ffff000 4) fs_ex s' /\
    ((r = 4 /\ forall k, 0 <= k < 4 -> byt s' (0x0ffff000 + k) = fbyte fs_ex ex_a (1 + k)) \/ (r = - E_NO_DISK /\ full s')).
Proof.
  apply (file_read_correct ex_F fs_ex ex_a 0x0ffff000 100 1); [apply fs_ex_inv|by right|apply ex_regular|vm_compute; by split|lia|lia| |lia|vm_compute; done].
  apply ex_buffer; vm_compute; done.
Defined.

(** C27. [file_write] puts the bytes of the buffer at the offset, extends the size when needed and
    keeps the rest of the file; every other file keeps its name, size and contents, the
    allocation invariant holds (no block has two owners) and the server's own memory is
    untouched.  When the disk is full it reports so, and a prefix has been written. *)
Theorem file_write_correct F s f buf count offset :
  fs_inv F s -> F f -> regular F s f -> 0 <= fsize s f <= FSPAN -> 0 <= offset -> 0 <= count -> offset + count <= FSPAN ->
  source s buf count -> 0 <= buf -> buf + count < 2^32 ->
  exists r s' upto, file_write f buf count offset s = Ok r s' /\ fs_inv F s' /\ offset <= upto <= offset + count /\
    wrote F f (Z.max (fsize s f) (offset + count)) (spliced s (fbyte s f) offset upto buf) s s' /\
    ((r = count /\ upto = offset + count) \/ (r = - E_NO_DISK /\ full s')).
Proof. apply file_write_ok. Qed.

Lemma ex_source a n : 0x0ffff000 <= a -> a + n <= 0x10000000 -> source fs_ex a n.
Proof. intros H1 H2 k Hk. destruct (ex_buffer a n H1 H2 k Hk) as [(_ & ? & _) ?]. done. Qed.

Lemma file_write_correct_witness :
  exists r s' upto, file_write ex_a 0x0ffff000 4000 4000 fs_ex = Ok r s' /\ fs_inv ex_F s' /\ 4000 <= upto <= 8000 /\
    wrote ex_F ex_a 8000 (spliced fs_ex (fbyte fs_ex ex_a) 4000 upto 0x0ffff000) fs_ex s' /\
    ((r = 4000 /\ upto = 8000) \/ (r = - E_NO_DISK /\ full s')).
Proof.
  apply (file_write_correct ex_F fs_ex ex_a 0x0ffff000 4000 4000); [apply fs_ex_inv|by right|apply ex_regular|vm_compute; by split|lia|lia|vm_compute; done| |lia|lia].
  apply ex_source; lia.
Defined.

(** C29. [file_set_size] sets the size.  Making a file smaller gives back exactly the blocks it no
    longer needs, and the indirect block when no block is left in it: a block is free
    afterwards if and only if it was free or is one of these; the contents up to the last
    block kept are as before, and no other file changes.  Making it larger keeps all contents. *)
Theorem file_set_size_correct F s f newsize :
  fs_inv F s -> F f -> regular F s f -> tidy s f -> 0 <= newsize <= FSPAN -> 0 <= fsize s f <= FSPAN ->
  exists s', file_set_size f newsize s = Ok 0 s' /\ fs_inv F s' /\
    (fsize s f <= newsize -> wrote F f newsize (fbyte s f) s s') /\
    (newsize < fsize s f -> tidy s' f /\
      wrote F f newsize (fun o => if (newsize + 4095) / 4096 <=? o / 4096 then 0 else fbyte s f o) s s' /\
      forall b, 0 <= b < nblk s -> isfree s' b = true <-> isfree s b = true \/
        exists k, 0 <= k <= NPTR /\ beyond_blocks ((newsize + 4095) / 4096) k = true /\ bptr s f k = b /\ b <> 0).
Proof.
  intros Hi Hf Hr Ht Hn Hs. destruct (Z.le_gt_cases (fsize s f) newsize) as [Hle|Hlt].
  - destruct (extend_ok F s f newsize Hi Hf Hr) as (s' & E & I & W); [unfold FSPAN in *; lia|]. exists s'. split_and!; try done. lia.
  - destruct (shrink_ok F s f newsize Hi Hf Hr Ht) as (s' & E & I & T & W & B); [lia|lia|]. exists s'. split_and!; try done. lia.
Qed.

Lemma file_set_size_correct_witness :
  exists s', file_set_size ex_a 0 fs_ex = Ok 0 s' /\ fs_inv ex_F s' /\
    (fsize fs_ex ex_a <= 0 -> wrote ex_F ex_a 0 (fbyte fs_ex ex_a) fs_ex s') /\
    (0 < fsize fs_ex ex_a -> tidy s' ex_a /\
      wrote ex_F ex_a 0 (fun o => if (0 + 4095) / 4096 <=? o / 4096 then 0 else fbyte fs_ex ex_a o) fs_ex s' /\
      forall b, 0 <= b < nblk fs_ex -> isfree s' b = true <-> isfree fs_ex b = true \/
        exists k, 0 <= k <= NPTR /\ beyond_blocks ((0 + 4095) / 4096) k = true /\ bptr fs_ex ex_a k = b /\ b <> 0).
Proof.
  apply (file_set_size_correct ex_F fs_ex ex_a 0); [apply fs_ex_inv|by right|apply ex_regular| |vm_compute; by split|vm_compute; by split].
  intros k Hk. assert (Hs : fsize fs_ex ex_a = 5) by (vm_compute; reflexivity). rewrite Hs in Hk. change ((5 + 4095) / 4096) with 1 in Hk.
  rewrite ex_ptr by first [by right | lia]. by rewrite (proj2 (Z.eqb_neq _ _)) by lia.
Defined.
