(* ===== verification/DirThms.v ===== *)
(** * DirThms: directories and path names ([fs/fs.c])

    [resolve] is what a path means: from the root, one directory after the other.  [walk_path]
    computes it, although it looks at blocks that have to be fetched first. *)

From S2P Require Import Prelude Layout UMonad Str StrThms Fsipc Ide IdeThms Bc BcThms FsEx Fs FsBase FileInv FileThms FileIO FileTrunc FsThms.

(** ** What a directory contains *)

(** The bytes before the first zero *)
Fixpoint upto0 (l : list Z) : list Z :=
  match l with
  | [] => []
  | b :: l => if b =? 0 then [] else b :: upto0 l
  end.
Definition fname (s : fs) (f : Z) : list Z := upto0 (bytes_of s f 128).
Definition ftype (s : fs) (f : Z) : Z := wrd s (f_type f).

Definition block_entries (blk : Z) : list Z := map (fun j => blk + 256 * j) (seqZ 0 16).
Definition nblock (s : fs) (d : Z) : Z := fsize s d / 4096.
Definition entries (s : fs) (d : Z) : list Z :=
  concat (map (fun i => block_entries (DISKMAP + bptr s d i * 4096)) (seqZ 0 (nblock s d))).

Fixpoint first (P : Z -> bool) (l : list Z) : option Z :=
  match l with
  | [] => None
  | e :: l => if P e then Some e else first P l
  end.
Definition lookup_name (s : fs) (d : Z) (n : list Z) : option Z :=
  first (fun e => bool_decide (fname s e = n)) (entries s d).

(** A directory: whole blocks, all there, and names that end. *)
Record okdir (s : fs) (d : Z) : Prop := {
  d_size : 0 <= fsize s d <= FSPAN;
  d_whole : fsize s d mod 4096 = 0;
  d_blocks i : 0 <= i < nblock s d -> bptr s d i <> 0;
  d_names e : e ∈ entries s d -> exists k, 0 <= k < 128 /\ byt s (e + k) = 0;
}.

Lemma first_app P l1 l2 : first P (l1 ++ l2) = match first P l1 with Some e => Some e | None => first P l2 end.
Proof. induction l1 as [|e l1 IH]; [done|]. cbn [app first]. by destruct (P e). Qed.
Lemma first_in P l e : first P l = Some e -> e ∈ l /\ P e = true.
Proof.
  induction l as [|x l IH]; [done|]. cbn [first]. destruct (P x) eqn:Hx; [intros [= <-]; split; [left|done]|].
  intros [? ?]%IH. split; [by right|done].
Qed.
Lemma first_ext P Q l : (forall e, e ∈ l -> P e = Q e) -> first P l = first Q l.
Proof.
  induction l as [|x l IH]; intros H; [done|]. cbn [first]. rewrite H by left. destruct (Q x); [done|]. apply IH. intros. apply H. by right.
Qed.

Lemma entries_in s d e :
  e ∈ entries s d -> exists i j, 0 <= i < nblock s d /\ 0 <= j < 16 /\ e = DISKMAP + bptr s d i * 4096 + 256 * j.
Proof.
  unfold entries, block_entries. rewrite list_elem_of_In, in_concat. intros (l & Hl & He).
  apply in_map_iff in Hl as (i & <- & Hi). apply in_map_iff in He as (j & <- & Hj).
  apply list_elem_of_In, elem_of_seqZ in Hi. apply list_elem_of_In, elem_of_seqZ in Hj. exists i, j. split_and!; lia.
Qed.

(** ** Reading names *)

Lemma upto0_nz l : 0 ∉ upto0 l.
Proof.
  induction l as [|b l IH]; cbn [upto0]; [apply not_elem_of_nil|]. destruct (Z.eqb_spec b 0); [apply not_elem_of_nil|].
  apply not_elem_of_cons. auto.
Qed.
Lemma upto0_split l : 0 ∈ l -> exists r, l = upto0 l ++ 0 :: r.
Proof.
  induction l as [|b l IH]; [by intros ?%not_elem_of_nil|]. cbn [upto0]. destruct (Z.eqb_spec b 0) as [->|Hb]; [by exists l|].
  rewrite elem_of_cons. intros [?|Hin]; [done|]. destruct (IH Hin) as [r Hr]. exists r. cbn [app]. by rewrite <- Hr.
Qed.
Lemma upto0_length l : (length (upto0 l) <= length l)%nat.
Proof. induction l as [|b l IH]; [done|]. cbn [upto0]. destruct (b =? 0); cbn [length]; lia. Qed.

Lemma fname_cstr s e :
  ready s = true -> (forall k, range e 128 k -> accessible s k = true) -> (exists k, 0 <= k < 128 /\ byt s (e + k) = 0) ->
  cstr s e (fname s e) /\ (length (fname s e) < 128)%nat.
Proof.
  intros Hr Ha (k & Hk & Hz). assert (Hb := bytes_of_at s e 128 Hr Ha). unfold fname.
  destruct (upto0_split (bytes_of s e 128)) as [r He].
  { apply list_elem_of_lookup. exists (Z.to_nat k). unfold bytes_of. rewrite list_lookup_fmap, (lookup_seqZ_lt 0 128) by lia.
    simpl. rewrite <- Hz. do 2 f_equal. lia. }
  assert (Hl := f_equal length He). rewrite length_app in Hl. cbn [length] in Hl. pose proof (bytes_of_length s e 128 ltac:(lia)).
  split; [|lia]. split; [|apply upto0_nz]. rewrite He in Hb. replace (upto0 (bytes_of s e 128) ++ 0 :: r) with ((upto0 (bytes_of s e 128) ++ [0]) ++ r) in Hb by (by rewrite <- app_assoc).
  apply bytes_at_app in Hb as [Hb _]. done.
Qed.

Lemma bytes_of_ext s s' a n : (forall k, 0 <= k < n -> byt s' (a + k) = byt s (a + k)) -> bytes_of s' a n = bytes_of s a n.
Proof. intros Hb. unfold bytes_of. apply map_ext_in. intros k Hk. apply list_elem_of_In, elem_of_seqZ in Hk. apply Hb. lia. Qed.

(** Only the disk map matters. *)
Definition same_map (s s' : fs) : Prop := forall a, in_map a = true -> byt s' a = byt s a.

(** ** Searching *)

Section files.
Context (F : Z -> Prop).
Notation fs_inv := (fs_inv F).

Lemma get_present s f i :
  fs_inv s -> F f -> 0 <= i < NPTR -> bptr s f i <> 0 ->
  exists s', file_get_block f i s = Ok (0, DISKMAP + bptr s f i * 4096) s' /\ grows s s'.
Proof.
  intros Hi Hf Hr Hnz. assert (Hs : stored s f i).
  { destruct (stored_dec s f i) as [?|Hn]; [lia|done|]. by rewrite ptr_unstored in Hnz by (done || lia). }
  destruct (walk_stored F s f i true Hi Hf Hr Hs) as (s1 & H1 & G1). unfold file_get_block. rewrite (bind_Ok _ _ _ _ _ H1). cbn [Z.ltb Z.compare].
  assert (Hi1 := grows_inv F _ _ G1 Hi). assert (Hp1 : bptr s1 f i = bptr s f i) by (apply ptr_ext, G1).
  assert (Hs1 : stored s1 f i) by (unfold stored in *; by rewrite (ind_grows s s1)).
  destruct (slot_ok F s1 f i Hi1 Hf Hs1) as (s2 & H2 & G2). rewrite <- (pslot_grows s s1 f i G1). rewrite (bind_Ok _ _ _ _ _ H2).
  rewrite Hp1, (proj2 (Z.eqb_neq _ _) Hnz).
  assert (Hi2 := grows_inv F _ _ G2 Hi1). assert (Hp2 : bptr s2 f i = bptr s f i) by (rewrite <- Hp1; apply ptr_ext, G2).
  assert (Hs2 : stored s2 f i) by (unfold stored in *; by rewrite (ind_grows s1 s2)).
  destruct (found_ok F s2 f i Hi2 Hf Hr Hs2) as (s3 & H3 & G3); [congruence|]. rewrite <- (pslot_grows s1 s2 f i G2), H3, Hp2.
  exists s3. split; [done|]. eapply grows_trans; [done|]. by eapply grows_trans.
Qed.

Lemma quiet_refl s : quiet s s.
Proof. split; [apply core_refl|done]. Qed.
Lemma quiet_inv s s' : quiet s s' -> fs_inv s -> fs_inv s'.
Proof. intros [C B]. by apply byt_inv. Qed.
Lemma quiet_same X s s' : quiet s s' -> same_files F X s s'.
Proof. intros [C B]. by apply byt_same_files. Qed.
Lemma quiet_view s s' a b : quiet s s' -> view s a = Some b -> view s' a = Some b.
Proof.
  intros [C B]. simpl. unfold fs_view. destruct (ready s) eqn:Hr; [|done]. destruct (accessible s a) eqn:Ha; [|done]. intros [= <-].
  rewrite (c_ready _ _ C Hr), B. cbn [andb]. replace (accessible s' a) with true; [done|]. unfold accessible in *. destruct (in_map a).
  - unfold usable in *. by rewrite (c_super _ _ C), (c_bitmap _ _ C), (byt_nblk s s' B), (byt_isfree s s' _ B).
  - apply is_mapped_true in Ha as [p Hp]. symmetry. apply is_mapped_true. destruct (c_pages _ _ C _ p Hp) as (p' & ? & _). eauto.
Qed.
Lemma quiet_cstr s s' a bs : quiet s s' -> cstr s a bs -> cstr s' a bs.
Proof. intros Hq [Hb Hz]. split; [|done]. intros k b Hk. eapply quiet_view; [done|]. by apply Hb. Qed.

(** A test on entries that only looks *)
Definition looks (s : fs) (test : Z -> M fs bool) (P : Z -> bool) (e : Z) : Prop :=
  forall s1, quiet s s1 -> exists s2, test e s1 = Ok (P e) s2 /\ quiet s1 s2.

Lemma scan_block_ok s test P (n : nat) : forall f s1,
  (forall j, 0 <= j < Z.of_nat n -> looks s test P (f + 256 * j)) -> quiet s s1 ->
  exists s2, scan_block test n f s1 = Ok (first P (map (fun j => f + 256 * j) (seqZ 0 (Z.of_nat n)))) s2 /\ quiet s1 s2.
Proof.
  induction n as [|n IH]; intros f s1 Ht Hg; [exists s1; split; [done|apply quiet_refl]|].
  rewrite seqZ_cons by lia. cbn [map first scan_block]. replace (f + 256 * 0) with f by lia.
  destruct (Ht 0 ltac:(lia) s1 Hg) as (s2 & H2 & G2). replace (f + 256 * 0) with f in H2 by lia. rewrite (bind_Ok _ _ _ _ _ H2).
  destruct (P f); [by exists s2|].
  destruct (IH (f + 256) s2) as (s3 & H3 & G3); [|by eapply quiet_trans|].
  { intros j Hj. replace (f + 256 + 256 * j) with (f + 256 * (j + 1)) by lia. apply Ht. lia. }
  exists s3. split; [|by eapply quiet_trans]. change sizeof_File with 256. rewrite H3. do 2 f_equal.
  replace (Z.pred (Z.of_nat (Datatypes.S n))) with (Z.of_nat n) by lia. change (Z.succ 0) with (1 + 0). rewrite <- (fmap_add_seqZ 1 0), <- list_fmap_compose.
  apply list_fmap_ext. intros k j _. simpl. lia.
Qed.

Definition scan_body (dir : Z) (test : Z -> M fs bool) (nb : Z) : Z -> M fs (Z + (Z + Z * Z)) := fun i =>
  if i <? nb then
    '(r, blk) ← file_get_block dir i;
    if r <? 0 then mret (inr (inr (r, 0)))
    else
      found ← scan_block test (Z.to_nat BLKFILES) blk;
      match found with
      | Some f => mret (inr (inr (0, f)))
      | None => mret (inl (u32 (i + 1)))
      end
  else mret (inr (inl i)).

Definition entries_from (s : fs) (d i n : Z) : list Z :=
  concat (map (fun i => block_entries (DISKMAP + bptr s d i * 4096)) (seqZ i n)).

Lemma scan_steps s d test P (m : nat) : forall i s1,
  fs_inv s -> F d -> okdir s d -> (forall e, e ∈ entries s d -> looks s test P e) -> quiet s s1 ->
  0 <= i -> i + Z.of_nat m = nblock s d ->
  exists s2, msteps (m + 1) (scan_body d test (nblock s d)) i s1 =
    Ok (inr (match first P (entries_from s d i (Z.of_nat m)) with Some e => inr (0, e) | None => inl (nblock s d) end)) s2 /\ quiet s1 s2.
Proof.
  intros i s1 Hi Hf Hd Ht. revert i s1. assert (Hnb : nblock s d <= NPTR).
  { destruct (d_size _ _ Hd). unfold nblock, NPTR. unfold FSPAN in *. Z.div_mod_to_equations. lia. }
  induction m as [|m IH]; intros i s1 Hg H0 Hm.
  - exists s1. split; [|apply quiet_refl]. apply msteps_done. unfold scan_body. rewrite (proj2 (Z.ltb_ge _ _)) by lia.
    replace (nblock s d) with i by lia. done.
  - assert (Hnz : bptr s d i <> 0) by (apply (d_blocks _ _ Hd); lia). assert (Hp1 : bptr s1 d i = bptr s d i) by (apply ptr_ext, Hg).
    destruct (get_present s1 d i (quiet_inv _ _ Hg Hi) Hf) as (s2 & H2 & G2%grows_quiet); [lia|congruence|]. rewrite Hp1 in H2.
    destruct (scan_block_ok s test P 16 (DISKMAP + bptr s d i * 4096) s2) as (s3 & H3 & G3); [|by eapply quiet_trans|].
    { intros j Hj. apply Ht. unfold entries, block_entries. apply list_elem_of_In, in_concat. eexists. split.
      - apply in_map_iff. exists i. split; [reflexivity|]. apply list_elem_of_In, elem_of_seqZ. lia.
      - apply in_map_iff. exists j. split; [done|]. apply list_elem_of_In, elem_of_seqZ. lia. }
    assert (Hst : scan_body d test (nblock s d) i s1 = match first P (block_entries (DISKMAP + bptr s d i * 4096)) with
        Some e => Ok (inr (inr (0, e))) s3 | None => Ok (inl (i + 1)) s3 end).
    { unfold scan_body. rewrite (proj2 (Z.ltb_lt _ _)) by lia. rewrite (bind_Ok _ _ _ _ _ H2). cbn [Z.ltb Z.compare].
      change (Z.to_nat BLKFILES) with 16%nat. rewrite (bind_Ok _ _ _ _ _ H3). change (Z.of_nat 16) with 16. fold (block_entries (DISKMAP + bptr s d i * 4096)).
      destruct (first P _); [done|]. rewrite u32_small by (unfold NPTR in *; lia). done. }
    unfold entries_from. rewrite seqZ_cons by lia. cbn [map concat]. rewrite first_app.
    destruct (first P (block_entries _)) as [e|] eqn:He.
    + exists s3. split; [by apply msteps_done|by eapply quiet_trans].
    + destruct (IH (i + 1) s3) as (s4 & H4 & G4); [eapply quiet_trans; [exact Hg|]; by eapply quiet_trans|lia|lia|].
      exists s4. split; [|eapply quiet_trans; [done|]; by eapply quiet_trans]. replace (Z.pred (Z.of_nat (Datatypes.S m))) with (Z.of_nat m) by lia.
      replace (Z.succ i) with (i + 1) by lia. by eapply (msteps_next _ (m + 1)).
Qed.

Lemma scan_dir_ok s d test P :
  fs_inv s -> F d -> okdir s d -> (forall e, e ∈ entries s d -> looks s test P e) ->
  exists s', scan_dir d test s = Ok (match first P (entries s d) with Some e => inr (0, e) | None => inl (nblock s d) end) s' /\ quiet s s'.
Proof.
  intros Hi Hf Hd Ht. destruct (d_size _ _ Hd) as [H0 H1]. unfold FSPAN in H1. assert (Hw := d_whole _ _ Hd).
  destruct (size_ok F s d Hi Hf) as (s1 & E1 & G1%grows_quiet). assert (Hi1 := quiet_inv _ _ G1 Hi).
  destruct (size_ok F s1 d Hi1 Hf) as (s2 & E2 & G2%grows_quiet). assert (Hs1 : fsize s1 d = fsize s d) by (by apply (same_fsize F (fun _ => False)), Hf; apply quiet_same).
  assert (G12 : quiet s s2) by (by eapply quiet_trans).
  destruct (scan_steps s d test P (Z.to_nat (nblock s d)) 0 s2 Hi Hf Hd Ht G12) as (s3 & E3 & G3); [lia|unfold nblock; Z.div_mod_to_equations; lia|].
  exists s3. split; [|by eapply quiet_trans]. unfold scan_dir. rewrite (bind_Ok _ _ _ _ _ E1).
  change BLKSIZE with 4096. rewrite Z.rem_mod_nonneg, Hw by lia. rewrite (bind_Ok _ (massert (0 =? 0)) s1 tt s1) by done.
  rewrite (bind_Ok _ _ _ _ _ E2), Hs1, Z.quot_div_nonneg by lia. fold (nblock s d).
  assert (Hnb : 0 <= nblock s d <= 1034) by (unfold nblock; Z.div_mod_to_equations; lia). cbv zeta. rewrite u32_small by lia.
  eapply (mloop_ADDRS _ (Z.to_nat (nblock s d) + 1)); [lia|]. unfold entries_from in E3. rewrite Z2Nat.id in E3 by lia. exact E3.
Qed.

Lemma entry_addr s d e k :
  fs_inv s -> F d -> okdir s d -> e ∈ entries s d -> 0 <= k < 256 -> in_map (e + k) = true /\ accessible s (e + k) = true.
Proof.
  intros Hi Hf Hd (i & j & Hr & Hj & ->)%entries_in Hk. destruct (d_size _ _ Hd) as [H0 H1]. unfold FSPAN in H1.
  assert (Hn : nblock s d <= 1034) by (unfold nblock; Z.div_mod_to_equations; lia).
  assert (Hb : datablk s (bptr s d i)) by (apply (i_ptr _ _ Hi); [done|unfold NPTR; lia|by apply (d_blocks _ _ Hd)]).
  destruct (datablk_addr s _ (256 * j + k) (i_online _ _ Hi) Hb) as (A & B & _); [lia|].
  by replace (DISKMAP + bptr s d i * 4096 + (256 * j + k)) with (DISKMAP + bptr s d i * 4096 + 256 * j + k) in A, B by lia.
Qed.

Lemma entry_cstr s d e :
  fs_inv s -> F d -> okdir s d -> e ∈ entries s d -> cstr s e (fname s e) /\ (length (fname s e) < 128)%nat.
Proof.
  intros Hi Hf Hd He. apply fname_cstr; [apply Hi| |by apply (d_names _ _ Hd)]. intros k Hk. unfold range in Hk.
  replace k with (e + (k - e)) by lia. apply (entry_addr s d); try done. lia.
Qed.

Lemma grows_reads s s' : grows s s' -> ready s = true -> reads s s'.
Proof. intros Hg Hr. split; [by apply grows_rest|]. intros a _. by apply grows_view. Qed.

(** Reading through the interface of the library keeps all bytes. *)
Lemma reads_quiet s s' : ready s = true -> reads s s' -> quiet s s'.
Proof. intros Hr Ht. destruct (touches_eff _ _ _ Hr Ht) as [C B]. split; [done|]. intros a. apply B. tauto. Qed.

Lemma name_looks s d e name n :
  fs_inv s -> F d -> okdir s d -> cstr s name n -> e ∈ entries s d ->
  looks s (fun f => c ← strcmp (f_name f) name; mret (c =? 0)) (fun e => bool_decide (fname s e = n)) e.
Proof.
  intros Hi Hf Hd Hn He s1 Hq. destruct (entry_cstr s d e Hi Hf Hd He) as [Hc Hl].
  destruct (strcmp_spec (fname s e) n s1 e name) as (s2 & E & R); [by apply (quiet_cstr s)|by apply (quiet_cstr s)|lia|].
  exists s2. split; [|apply reads_quiet; [|done]; apply (quiet_online _ _ Hq), Hi]. unfold f_name. rewrite (bind_Ok _ _ _ _ _ E).
  unfold mret, M_ret. f_equal. apply eq_true_iff_eq. rewrite Z.eqb_eq, bool_decide_eq_true. apply cmp_zero; [apply Hc|apply Hn].
Qed.

Lemma dir_lookup_ok s d name n :
  fs_inv s -> F d -> okdir s d -> cstr s name n ->
  exists s', dir_lookup d name s = Ok (match lookup_name s d n with Some e => (0, e) | None => (- E_NOT_FOUND, 0) end) s' /\ quiet s s'.
Proof.
  intros Hi Hf Hd Hn. destruct (scan_dir_ok s d _ _ Hi Hf Hd (fun e => name_looks s d e name n Hi Hf Hd Hn)) as (s' & E & Q).
  exists s'. split; [|done]. unfold dir_lookup. rewrite (bind_Ok _ _ _ _ _ E). unfold lookup_name. by destruct (first _ _).
Qed.
End files.

(** ** Path names *)

Fixpoint elems_from (cur bs : list Z) : list (list Z) :=
  match bs with
  | [] => if bool_decide (cur = []) then [] else [cur]
  | c :: bs =>
      if c =? 47 then if bool_decide (cur = []) then elems_from [] bs else cur :: elems_from [] bs
      else elems_from (cur ++ [c]) bs
  end.
(** The elements between the slashes *)
Definition elems : list Z -> list (list Z) := elems_from [].

Lemma elems_slash bs : elems (47 :: bs) = elems bs.
Proof. done. Qed.
Lemma elems_from_app w : forall cur bs, 47 ∉ w -> elems_from cur (w ++ bs) = elems_from (cur ++ w) bs.
Proof.
  induction w as [|c w IH]; intros cur bs Hw; [by rewrite app_nil_r|]. apply not_elem_of_cons in Hw as [Hc Hw]. cbn [app elems_from].
  rewrite (proj2 (Z.eqb_neq _ _)) by done. rewrite IH by done. by rewrite <- app_assoc.
Qed.
Lemma elems_word w bs : w <> [] -> 47 ∉ w -> (bs = [] \/ exists r, bs = 47 :: r) -> elems (w ++ bs) = w :: elems bs.
Proof.
  intros Hw H47 Hb. unfold elems. rewrite elems_from_app by done. cbn [app].
  destruct Hb as [->|[r ->]]; cbn [elems_from]; rewrite ?Z.eqb_refl, bool_decide_eq_false_2 by done; done.
Qed.

Fixpoint strip (bs : list Z) : list Z :=
  match bs with
  | c :: r => if c =? 47 then strip r else bs
  | [] => []
  end.
Lemma strip_split bs : exists sl, bs = sl ++ strip bs /\ elems (strip bs) = elems bs /\ (strip bs = [] \/ exists c r, strip bs = c :: r /\ c <> 47).
Proof.
  induction bs as [|c bs (sl & E & H1 & H2)]; [exists []; eauto|]. cbn [strip]. destruct (Z.eqb_spec c 47) as [->|Hc].
  - exists (47 :: sl). split_and!; [cbn [app]; congruence|by rewrite elems_slash|done].
  - exists []. split_and!; [done|done|eauto].
Qed.

Fixpoint path_word (bs : list Z) : list Z * list Z :=
  match bs with
  | [] => ([], [])
  | c :: r => if c =? 47 then ([], bs) else let '(w, t) := path_word r in (c :: w, t)
  end.
Lemma word_split bs : bs = (path_word bs).1 ++ (path_word bs).2 /\ 47 ∉ (path_word bs).1 /\ ((path_word bs).2 = [] \/ exists r, (path_word bs).2 = 47 :: r).
Proof.
  induction bs as [|c bs (E & H1 & H2)]; [split_and!; [done|apply not_elem_of_nil|by left]|]. cbn [path_word].
  destruct (Z.eqb_spec c 47) as [->|Hc]; [split_and!; [done|apply not_elem_of_nil|right; eauto]|].
  destruct (path_word bs) as [w t]. cbn [fst snd app] in *. split_and!; [congruence|apply not_elem_of_cons; auto|done].
Qed.

Section paths.
Context {S : Type} `{Hmem : Mem S} `{Hlaws : !MemLaws S}.

Lemma cstr_app s a w t : cstr s a (w ++ t) -> 0 ∉ w /\ bytes_at s a w /\ cstr s (a + Z.of_nat (length w)) t.
Proof.
  intros [Hb Hz]. rewrite <- app_assoc, bytes_at_app in Hb. rewrite not_elem_of_app in Hz. destruct Hb, Hz. by split_and!.
Qed.
End paths.

Lemma skip_slash_steps bs : forall (p : Z) (s : fs),
  cstr s p bs ->
  exists s', msteps (length bs + 1) (fun p => c ← ldb p; if c =? 47 then mret (inl (p + 1)) else mret (inr p)) p s =
    Ok (inr (p + Z.of_nat (length bs) - Z.of_nat (length (strip bs)))) s' /\ reads s s'.
Proof.
  induction bs as [|c bs IH]; intros p s.
  - rewrite cstr_nil. intros Hv. destruct (load _ _ _ Hv) as (s' & E & R). exists s'. split; [|done]. apply msteps_done.
    rewrite (bind_Ok _ _ _ _ _ E). cbn [Z.eqb strip length]. do 2 f_equal. lia.
  - rewrite cstr_cons. intros (Hv & Hc & Hs). destruct (load _ _ _ Hv) as (s1 & E & R). cbn [strip]. destruct (Z.eqb_spec c 47) as [->|Hne].
    + destruct (IH (p + 1) s1) as (s2 & E2 & R2); [by apply (cstr_reads s)|]. exists s2. split; [|by eapply touches_trans].
      cbn [length]. eapply (msteps_next _ (length bs + 1)); [by rewrite (bind_Ok _ _ _ _ _ E)|]. rewrite E2. do 2 f_equal. lia.
    + exists s1. split; [|done]. cbn [length]. apply msteps_done. rewrite (bind_Ok _ _ _ _ _ E), (proj2 (Z.eqb_neq _ _) Hne).
      unfold mret, M_ret. cbn [length]. do 2 f_equal. lia.
Qed.

Lemma skip_slash_ok bs p (s : fs) :
  cstr s p bs -> Z.of_nat (length bs) < 2^31 ->
  exists p' s', skip_slash p s = Ok p' s' /\ reads s s' /\ cstr s' p' (strip bs) /\ p <= p' /\ p' + Z.of_nat (length (strip bs)) = p + Z.of_nat (length bs).
Proof.
  intros Hs Hl. destruct (skip_slash_steps bs p s Hs) as (s' & E & R). destruct (strip_split bs) as (sl & Hsl & _).
  assert (Hln := f_equal length Hsl). rewrite length_app in Hln.
  exists (p + Z.of_nat (length bs) - Z.of_nat (length (strip bs))), s'. split; [eapply (mloop_ADDRS _ (length bs + 1)); [lia|exact E]|]. split_and!; [done| |lia|lia].
  apply (cstr_reads s); [done|]. rewrite Hsl in Hs at 1. apply cstr_app in Hs as (_ & _ & Hs).
  replace (p + Z.of_nat (length bs) - Z.of_nat (length (strip bs))) with (p + Z.of_nat (length sl)) by lia. done.
Qed.

Lemma skip_elem_steps bs : forall (p : Z) (s : fs),
  cstr s p bs ->
  exists s', msteps (length bs + 1) (fun p => c ← ldb p; if (c =? 47) || (c =? 0) then mret (inr p) else mret (inl (p + 1))) p s =
    Ok (inr (p + Z.of_nat (length (path_word bs).1))) s' /\ reads s s'.
Proof.
  induction bs as [|c bs IH]; intros p s.
  - rewrite cstr_nil. intros Hv. destruct (load _ _ _ Hv) as (s' & E & R). exists s'. split; [|done]. apply msteps_done.
    rewrite (bind_Ok _ _ _ _ _ E). cbn [Z.eqb orb path_word length fst]. unfold mret, M_ret. do 2 f_equal. simpl. lia.
  - rewrite cstr_cons. intros (Hv & Hc & Hs). destruct (load _ _ _ Hv) as (s1 & E & R). cbn [path_word]. destruct (Z.eqb_spec c 47) as [->|Hne].
    + exists s1. split; [|done]. cbn [length]. apply msteps_done. rewrite (bind_Ok _ _ _ _ _ E). unfold mret, M_ret. cbn [Z.eqb orb fst length]. simpl. do 2 f_equal. lia.
    + destruct (IH (p + 1) s1) as (s2 & E2 & R2); [by apply (cstr_reads s)|]. exists s2. split; [|by eapply touches_trans].
      cbn [length]. eapply (msteps_next _ (length bs + 1)).
      { rewrite (bind_Ok _ _ _ _ _ E), (proj2 (Z.eqb_neq _ _) Hne), (proj2 (Z.eqb_neq _ _) Hc). done. }
      rewrite E2. destruct (path_word bs) as [w t]. cbn [fst length]. do 2 f_equal. lia.
Qed.

Lemma skip_elem_ok bs p (s : fs) :
  cstr s p bs -> Z.of_nat (length bs) < 2^31 ->
  exists s', skip_elem p s = Ok (p + Z.of_nat (length (path_word bs).1)) s' /\ reads s s'.
Proof.
  intros Hs Hl. destruct (skip_elem_steps bs p s Hs) as (s' & E & R). exists s'. split; [|done].
  eapply (mloop_ADDRS _ (length bs + 1)); [lia|exact E].
Qed.

(** What the elements of a path lead to, from file [f] in directory [dir]: the result, *pdir and *pf *)
Fixpoint resolve (s : fs) (els : list (list Z)) (dir f : Z) : Z * Z * Z :=
  match els with
  | [] => (0, dir, f)
  | n :: els =>
      if 128 <=? Z.of_nat (length n) then (- E_BAD_PATH, 0, 0)
      else if negb (ftype s f =? FTYPE_DIR) then (- E_NOT_FOUND, 0, 0)
      else
        match lookup_name s f n with
        | Some e => resolve s els f e
        | None => if bool_decide (els = []) then (- E_NOT_FOUND, f, 0) else (- E_NOT_FOUND, 0, 0)
        end
  end.

(** The directories among the files: they are well formed, and what they name is a file. *)
Definition tree_ok (F : Z -> Prop) (s : fs) : Prop := forall d, F d -> ftype s d = FTYPE_DIR ->
  okdir s d /\ forall e, e ∈ entries s d -> fname s e <> [] -> F e.

Section walk.
Context (F : Z -> Prop).
Notation fs_inv := (fs_inv F).

Section frame.
Context (X : Z -> Prop) (s s' : fs) (Hi : fs_inv s) (He : eff X s s') (Hx : forall a, X a -> in_map a = false).

Lemma frame_map a : in_map a = true -> byt s' a = byt s a.
Proof. intros Ha. apply (e_byt _ _ _ He). intros Hxa. apply Hx in Hxa. congruence. Qed.
Lemma frame_ptr g j : F g -> 0 <= j <= NPTR -> bptr s' g j = bptr s g j.
Proof. apply (outside_frame F X s s' Hi He Hx). Qed.
Lemma frame_fsize g : F g -> fsize s' g = fsize s g.
Proof. apply (same_fsize F X). apply (outside_frame F X s s' Hi He Hx). Qed.
Lemma frame_ftype g : F g -> ftype s' g = ftype s g.
Proof.
  intros Hg. apply wrd_ext. intros k Hk. apply frame_map. apply (file_home F s g _ Hi Hg). unfold f_type. lia.
Qed.
Lemma frame_entries d : F d -> okdir s d -> entries s' d = entries s d.
Proof.
  intros Hd Hok. unfold entries, nblock. rewrite frame_fsize by done. f_equal. apply map_ext_in. intros i Hin.
  apply list_elem_of_In, elem_of_seqZ in Hin. destruct (d_size _ _ Hok) as [? H1]. unfold FSPAN in H1.
  rewrite frame_ptr; [done|done|]. unfold NPTR. Z.div_mod_to_equations. lia.
Qed.
Lemma frame_fname d e : F d -> okdir s d -> e ∈ entries s d -> fname s' e = fname s e.
Proof.
  intros Hd Hok Hin. unfold fname. f_equal. apply bytes_of_ext. intros k Hk. apply frame_map.
  apply (entry_addr F s d e k Hi Hd Hok Hin). lia.
Qed.
Lemma frame_okdir d : F d -> okdir s d -> okdir s' d.
Proof.
  intros Hd Hok. assert (Hs := frame_fsize d Hd). assert (Hn : nblock s' d = nblock s d) by (unfold nblock; by rewrite Hs). split.
  - rewrite Hs. apply Hok.
  - rewrite Hs. apply Hok.
  - intros i. rewrite Hn. intros Hr. destruct (d_size _ _ Hok) as [? H1]. unfold FSPAN in H1. rewrite frame_ptr; [by apply (d_blocks _ _ Hok)|done|].
    unfold NPTR, nblock in *. Z.div_mod_to_equations. lia.
  - intros e. rewrite frame_entries by done. intros Hin. destruct (d_names _ _ Hok e Hin) as (k & Hk & Hz). exists k. split; [done|].
    rewrite frame_map; [done|]. apply (entry_addr F s d e k Hi Hd Hok Hin). lia.
Qed.
Lemma frame_lookup d n : F d -> okdir s d -> lookup_name s' d n = lookup_name s d n.
Proof.
  intros Hd Hok. unfold lookup_name. rewrite frame_entries by done. apply first_ext. intros e Hin. by rewrite (frame_fname d).
Qed.
Lemma frame_tree : tree_ok F s -> tree_ok F s'.
Proof.
  intros Ht d Hd. rewrite frame_ftype by done. intros Hty. destruct (Ht d Hd Hty) as [Hok Hf]. split; [by apply frame_okdir|].
  intros e. rewrite frame_entries by done. intros Hin. rewrite (frame_fname d) by done. by apply Hf.
Qed.
Lemma frame_inv : fs_inv s'.
Proof. apply (outside_frame F X s s' Hi He Hx). Qed.
End frame.

Lemma frame_resolve X s s' els : forall dir f,
  fs_inv s -> eff X s s' -> (forall a, X a -> in_map a = false) -> tree_ok F s -> F f -> ([] ∉ els) ->
  resolve s' els dir f = resolve s els dir f.
Proof.
  induction els as [|n els IH]; intros dir f Hi He Hx Ht Hf Hn; [done|]. apply not_elem_of_cons in Hn as [Hn0 Hn]. cbn [resolve].
  destruct (128 <=? _); [done|]. rewrite (frame_ftype X s s' Hi He Hx f Hf). destruct (Z.eqb_spec (ftype s f) FTYPE_DIR) as [Hty|]; [|done]. cbn [negb].
  destruct (Ht f Hf Hty) as [Hok Hent]. rewrite (frame_lookup X s s' Hi He Hx f n Hf Hok). destruct (lookup_name s f n) as [e|] eqn:Hl; [|done].
  unfold lookup_name in Hl. apply first_in in Hl as [Hin Hnm%bool_decide_eq_true]. apply IH; try done. apply Hent; congruence.
Qed.

(** ** The loop of [walk_path] *)

Definition walk_tail (name lastelem dir path : Z) : M fs (Z * Z * Z + Z * Z * Z) :=
  t ← ld32 (f_type dir);
  if negb (t =? FTYPE_DIR) then mret (inr (- E_NOT_FOUND, 0, 0))
  else
    '(r, f) ← dir_lookup dir name;
    if r <? 0 then
      c ← (if r =? - E_NOT_FOUND then ldb path else mret 1);
      if (r =? - E_NOT_FOUND) && (c =? 0) then
        mwhen (negb (lastelem =? 0)) (strcpy lastelem name;; mret tt);;
        mret (inr (r, dir, 0))
      else mret (inr (r, 0, 0))
    else mret (inl (path, dir, f)).
Definition walk_body (name lastelem : Z) : Z * Z * Z -> M fs (Z * Z * Z + Z * Z * Z) := fun '(path, dir, f) =>
  c ← ldb path;
  if c =? 0 then mret (inr (0, dir, f))
  else
    let dir := f in
    let p := path in
    path ← skip_elem path;
    if MAXNAMELEN <=? path - p then mret (inr (- E_BAD_PATH, 0, 0))
    else
      memmove name p (path - p);;
      stb (name + (path - p)) 0;;
      path ← skip_slash path;
      walk_tail name lastelem dir path.

Context (name lastelem : Z).

Definition apart (a n b m : Z) : Prop := a + n <= b \/ b + m <= a.

(** The memory [walk_path] writes *)
Definition scratch (a : Z) : Prop := range name 128 a \/ lastelem <> 0 /\ range lastelem 128 a.

(** The arrays and the path [bs] at [p] *)
Record places (s : fs) (p : Z) (bs : list Z) : Prop := {
  p_name : outside_buffer s name 128;
  p_name_range : 0 <= name /\ name + 128 < 2^32;
  p_last : lastelem <> 0 -> outside_buffer s lastelem 128 /\ apart name 128 lastelem 128;
  p_path : cstr s p bs;
  p_path_range : 0 <= p /\ p + Z.of_nat (length bs) < 2^32 /\ Z.of_nat (length bs) < 2^31;
  p_apart : apart name 128 p (Z.of_nat (length bs) + 1);
}.

Lemma scratch_outside s p bs : places s p bs -> forall a, scratch a -> in_map a = false.
Proof. intros Hp a [Ha|[Hl Ha]]; [by apply (p_name _ _ _ Hp)|]. by apply (p_last _ _ _ Hp). Qed.

Lemma places_eff s s' p bs p' bs' :
  fs_inv s -> places s p bs -> eff scratch s s' -> cstr s' p' bs' -> p <= p' -> p' + Z.of_nat (length bs') = p + Z.of_nat (length bs) ->
  places s' p' bs'.
Proof.
  intros Hi [H1 H2 H3 H4 H5 H6] He Hs Hle Heq. split; try done.
  - eapply outside_buffer_core; [apply He|apply Hi|done].
  - intros Hl. destruct (H3 Hl). split; [|done]. eapply outside_buffer_core; [apply He|apply Hi|done].
  - lia.
  - unfold apart in *. lia.
Qed.

(** The next element is copied to [name]. *)
Lemma walk_name s p dir f bs :
  fs_inv s -> places s p bs -> bs <> [] ->
  let w := (path_word bs).1 in let t := (path_word bs).2 in
  (128 <= Z.of_nat (length w) /\ exists s', walk_body name lastelem (p, dir, f) s = Ok (inr (- E_BAD_PATH, 0, 0)) s' /\ quiet s s') \/
  (Z.of_nat (length w) < 128 /\ exists p' s', walk_body name lastelem (p, dir, f) s = walk_tail name lastelem f p' s' /\ eff scratch s s' /\
    cstr s' name w /\ places s' p' (strip t)).
Proof.
  intros Hi Hp Hne w t. assert (Hr : ready s = true) by apply Hi. assert (Hpl := Hp). destruct Hp as [P1 P2 P3 P4 P5 P6].
  destruct (word_split bs) as (Hbs & _ & _). fold w t in Hbs. destruct bs as [|c bs]; [done|]. assert (Hc := P4). apply cstr_cons in Hc as (Hv & Hc & _).
  destruct (load _ _ _ Hv) as (s1 & E1 & R1). assert (S1 : cstr s1 p (c :: bs)) by (by apply (cstr_reads s)).
  destruct (skip_elem_ok (c :: bs) p s1 S1) as (s2 & E2 & R2); [lia|]. fold w in E2. assert (R12 : reads s s2) by (by eapply touches_trans).
  assert (Hl := f_equal length Hbs). rewrite length_app in Hl.
  unfold walk_body. cbv zeta. rewrite (bind_Ok _ _ _ _ _ E1), (proj2 (Z.eqb_neq _ _) Hc), (bind_Ok _ _ _ _ _ E2). replace (p + Z.of_nat (length w) - p) with (Z.of_nat (length w)) by lia. change MAXNAMELEN with 128.
  destruct (Z.leb_spec 128 (Z.of_nat (length w))) as [Hlong|Hshort]; [left; split; [done|]; exists s2; split; [done|by apply reads_quiet]|right; split; [done|]].
  assert (S2 : cstr s2 p (w ++ t)) by (rewrite <- Hbs; by apply (cstr_reads s1)). apply cstr_app in S2 as (Hz & Hw & Ht).
  assert (B2 : buffer s2 name 128) by (eapply buffer_touches; [exact R12|by apply outside_buffer_buffer]).
  destruct (memmove_spec w s2 name p Hw) as (s3 & E3 & T3 & W3); [intros k Hk; apply B2; lia|lia|lia|lia|lia|].
  rewrite (bind_Ok _ _ _ _ _ E3). destruct (store s3 (name + Z.of_nat (length w)) 0) as (s4 & E4 & T4 & W4).
  { eapply touches_wr; [exact T3|]. apply B2. lia. }
  rewrite (bind_Ok _ _ _ _ _ E4). assert (T24 : touches scratch s2 s4).
  { eapply touches_trans; [eapply touches_mono; [|exact T3]|eapply touches_mono; [|exact T4]]; intros a Ha; left; unfold range in *; lia. }
  assert (Ht4 : cstr s4 (p + Z.of_nat (length w)) t).
  { unfold apart in P6. apply (cstr_touches (eq (name + Z.of_nat (length w))) s3); [done|intros a <-; unfold range; lia|].
    apply (cstr_touches (range name (Z.of_nat (length w))) s2); [done|intros a; unfold range; lia|done]. }
  destruct (skip_slash_ok t (p + Z.of_nat (length w)) s4 Ht4) as (p' & s5 & E5 & R5 & S5 & L5 & L5'); [lia|]. rewrite (bind_Ok _ _ _ _ _ E5).
  assert (He : eff scratch s s5).
  { apply touches_eff; [done|]. eapply touches_trans; [by apply reads_touches|]. eapply touches_trans; [exact T24|by apply reads_touches]. }
  exists p', s5. split; [done|]. split; [done|]. split; [|apply (places_eff s s5 p (c :: bs)); try done; lia].
  apply (cstr_reads s4); [done|]. split; [|done]. apply bytes_at_app. split.
  - apply (bytes_at_touches (eq (name + Z.of_nat (length w))) s3); [done|intros a <-; unfold range; lia|done].
  - apply bytes_at_cons. split; [done|]. by intros k b.
Qed.

Lemma quiet_eff X s s' : quiet s s' -> eff X s s'.
Proof. intros [C B]. split; [done|]. intros a _. apply B. Qed.

Definition next (s : fs) (f : Z) (w : list Z) (t : list Z) (p' : Z) : Z * Z * Z + Z * Z * Z :=
  if negb (ftype s f =? FTYPE_DIR) then inr (- E_NOT_FOUND, 0, 0)
  else
    match lookup_name s f w with
    | Some e => inl (p', f, e)
    | None => if bool_decide (t = []) then inr (- E_NOT_FOUND, f, 0) else inr (- E_NOT_FOUND, 0, 0)
    end.

(** The element is looked up; when it is the last one and missing it is copied to [lastelem]. *)
Lemma walk_missing s f w p t :
  fs_inv s -> places s p t -> cstr s name w -> Z.of_nat (length w) < 128 ->
  exists s', (c ← (if - E_NOT_FOUND =? - E_NOT_FOUND then ldb p else mret 1);
      if (- E_NOT_FOUND =? - E_NOT_FOUND) && (c =? 0) then
        mwhen (negb (lastelem =? 0)) (strcpy lastelem name;; mret tt);;
        mret (inr (- E_NOT_FOUND, f, 0))
      else mret (inr (- E_NOT_FOUND, 0, 0))) s =
    Ok (if bool_decide (t = []) then inr (- E_NOT_FOUND, f, 0) else inr (- E_NOT_FOUND, 0, 0) : Z * Z * Z + Z * Z * Z) s' /\ eff scratch s s' /\
    (t = [] -> lastelem <> 0 -> cstr s' lastelem w).
Proof.
  intros Hi Hp Hn Hl. rewrite Z.eqb_refl. cbn [andb]. assert (Hr : ready s = true) by apply Hi. assert (Ht := p_path _ _ _ Hp). destruct t as [|c t].
  - apply cstr_nil in Ht. destruct (load _ _ _ Ht) as (s1 & E1 & R1). rewrite (bind_Ok _ _ _ _ _ E1). cbn [Z.eqb bool_decide].
    destruct (Z.eqb_spec lastelem 0) as [Hz|Hz]; cbn [negb mwhen].
    { exists s1. split; [done|]. split; [|done]. apply touches_eff; [done|]. by apply reads_touches. }
    destruct (p_last _ _ _ Hp Hz) as [Hb Ha]. unfold apart in Ha.
    destruct (strcpy_spec w s1 lastelem name) as (s2 & E2 & T2 & C2); [by apply (cstr_reads s)| |lia|lia|].
    { intros k Hk. eapply touches_wr; [exact R1|]. apply Hb. unfold range. lia. }
    exists s2. split; [|split; [|done]].
    + unfold mwhen. erewrite bind_Ok; [reflexivity|]. by rewrite (bind_Ok _ _ _ _ _ E2).
    + apply touches_eff; [done|]. eapply touches_trans; [by apply reads_touches|]. eapply touches_mono; [|exact T2].
      intros a Ha'. right. split; [done|]. unfold range in *. lia.
  - apply cstr_cons in Ht as (Hv & Hc & _). destruct (load _ _ _ Hv) as (s1 & E1 & R1). exists s1. rewrite (bind_Ok _ _ _ _ _ E1).
    rewrite (proj2 (Z.eqb_neq _ _) Hc). split; [done|]. split; [|done]. apply touches_eff; [done|]. by apply reads_touches.
Qed.

Lemma walk_tail_ok s f w p t :
  fs_inv s -> tree_ok F s -> F f -> places s p t -> cstr s name w -> Z.of_nat (length w) < 128 ->
  exists s', walk_tail name lastelem f p s = Ok (next s f w t p) s' /\ eff scratch s s' /\
    (forall e, next s f w t p = inl e -> cstr s' p t) /\
    (next s f w t p = inr (- E_NOT_FOUND, f, 0) -> f <> 0 -> lastelem <> 0 -> cstr s' lastelem w).
Proof.
  intros Hi Htr Hf Hp Hn Hl. assert (Ho := i_online _ _ Hi). unfold walk_tail, next.
  destruct (okfile_word s f 132 Ho (i_file _ _ Hi f Hf)) as (A & B & _); [lia|lia|done|].
  destruct (ld32_ok s (f_type f) (on_ready _ Ho) A B) as (s1 & E1 & G1%grows_quiet & _). rewrite (bind_Ok _ _ _ _ _ E1). fold (ftype s f).
  destruct (Z.eqb_spec (ftype s f) FTYPE_DIR) as [Hty|]; cbn [negb].
  2:{ exists s1. split; [done|]. split; [by apply quiet_eff|]. split; [done|]. intros [= E]. by intros []. }
  destruct (Htr f Hf Hty) as [Hok _]. assert (Hout := scratch_outside _ _ _ Hp). assert (Q1 := quiet_eff scratch _ _ G1).
  destruct (dir_lookup_ok F s1 f name w) as (s2 & E2 & Q2); [by eapply frame_inv|done|by apply (frame_okdir scratch s)|by apply (quiet_cstr s)|].
  rewrite (frame_lookup scratch s s1) in E2 by done. rewrite (bind_Ok _ _ _ _ _ E2). assert (Q12 : quiet s s2) by (by eapply quiet_trans).
  destruct (lookup_name s f w) as [e|].
  - exists s2. split; [done|]. split; [by apply quiet_eff|]. split; [|done]. intros _ _. eapply quiet_cstr; [done|apply Hp].
  - cbn [Z.ltb Z.compare Z.opp E_NOT_FOUND].
    destruct (walk_missing s2 f w p t) as (s3 & E3 & T3 & L3); [by apply (quiet_inv F s)| |by apply (quiet_cstr s)|done|].
    { eapply places_eff; [exact Hi|exact Hp|by apply quiet_eff|eapply quiet_cstr; [done|apply Hp]|lia|done]. }
    exists s3. split; [exact E3|]. split; [eapply eff_trans; [by apply quiet_eff|done]|]. destruct (bool_decide_reflect (t = [])) as [->|Hne].
    + split; [done|]. intros _ _. by apply L3.
    + split; [done|]. intros [= <-]. by intros [].
Qed.

Lemma elems_from_nonempty bs : forall cur, [] ∉ elems_from cur bs.
Proof.
  induction bs as [|c bs IH]; intros cur; cbn [elems_from].
  - destruct (bool_decide_reflect (cur = [])) as [|Hne]; [apply not_elem_of_nil|]. apply not_elem_of_cons. split; [done|apply not_elem_of_nil].
  - destruct (c =? 47); [|apply IH]. destruct (bool_decide_reflect (cur = [])) as [|Hne]; [apply IH|]. apply not_elem_of_cons. split; [done|apply IH].
Qed.

Definition walk_post (s : fs) (els : list (list Z)) (dir f : Z) (s' : fs) : Prop :=
  eff scratch s s' /\ forall d, resolve s els dir f = (- E_NOT_FOUND, d, 0) -> d <> 0 ->
    F d /\ ftype s d = FTYPE_DIR /\ exists n, last els = Some n /\ lookup_name s d n = None /\ (lastelem <> 0 -> cstr s' lastelem n).

Lemma walk_round s p dir f c bs :
  fs_inv s -> tree_ok F s -> F f -> places s p (c :: bs) -> c <> 47 ->
  exists w t, elems (c :: bs) = w :: elems t /\ (length t < length (c :: bs))%nat /\ (t = [] \/ exists c r, t = c :: r /\ c <> 47) /\
  ((exists s', walk_body name lastelem (p, dir, f) s = Ok (inr (resolve s (w :: elems t) dir f)) s' /\ walk_post s (w :: elems t) dir f s') \/
   (exists e p' s', walk_body name lastelem (p, dir, f) s = Ok (inl (p', f, e)) s' /\ eff scratch s s' /\ F e /\ places s' p' t /\
     resolve s (w :: elems t) dir f = resolve s (elems t) f e)).
Proof.
  intros Hi Htr Hf Hp Hc. destruct (word_split (c :: bs)) as (Hbs & H47 & Ht). destruct (strip_split (path_word (c :: bs)).2) as (sl & Hsl & Hel & Hst).
  set (w := (path_word (c :: bs)).1) in *. set (t := (path_word (c :: bs)).2) in *.
  assert (Hw : w <> []). { unfold w. cbn [path_word]. rewrite (proj2 (Z.eqb_neq _ _) Hc). by destruct (path_word bs). }
  assert (Hll := f_equal length Hbs). assert (Hls := f_equal length Hsl). rewrite length_app in Hll, Hls.
  exists w, (strip t). split_and!; [rewrite Hbs, elems_word by done; by rewrite Hel|destruct w; [done|cbn [length] in *; lia]|done|]. cbn [resolve].
  assert (Hnil : bool_decide (elems (strip t) = []) = bool_decide (strip t = [])).
  { apply bool_decide_ext. destruct Hst as [->|(c' & r & E & Hc')]; [done|]. rewrite E. split; [|done]. intros He. exfalso.
    destruct (word_split (c' :: r)) as (Hbs' & H47' & Ht'). rewrite Hbs', elems_word in He; [done| |done|done].
    cbn [path_word]. rewrite (proj2 (Z.eqb_neq _ _) Hc'). by destruct (path_word r). }
  destruct (walk_name s p dir f (c :: bs) Hi Hp) as [(Hlong & s' & E & Q)|(Hshort & p' & s1 & E & He1 & Hn & Hp1)]; [done| |]; fold w t in E; fold w in Hlong || fold w t in Hshort, Hn, Hp1.
  { left. exists s'. rewrite (proj2 (Z.leb_le _ _) Hlong). split; [done|]. split; [by apply quiet_eff|]. cbn [resolve]. by rewrite (proj2 (Z.leb_le _ _) Hlong). }
  rewrite (proj2 (Z.leb_gt _ _) Hshort). assert (Hout := scratch_outside _ _ _ Hp). assert (Hi1 := frame_inv scratch s s1 Hi He1 Hout).
  assert (Htr1 := frame_tree scratch s s1 Hi He1 Hout Htr).
  destruct (walk_tail_ok s1 f w p' (strip t) Hi1 Htr1 Hf Hp1 Hn Hshort) as (s2 & E2 & He2 & K1 & K2). rewrite E, E2.
  assert (He : eff scratch s s2) by (by eapply eff_trans). unfold next in *. rewrite (frame_ftype scratch s s1 Hi He1 Hout f Hf) in *.
  unfold walk_post. cbn [resolve]. rewrite (proj2 (Z.leb_gt _ _) Hshort).
  destruct (Z.eqb_spec (ftype s f) FTYPE_DIR) as [Hty|]; cbn [negb] in *.
  2:{ left. exists s2. split; [done|]. split; [done|]. by intros d [= <-]. }
  destruct (Htr f Hf Hty) as [Hok Hent]. rewrite (frame_lookup scratch s s1 Hi He1 Hout f w Hf Hok) in *.
  destruct (lookup_name s f w) as [e|] eqn:Hlk.
  - right. exists e, p', s2. split_and!; try done; [|by apply (places_eff s1 s2 p' (strip t)); [..|eapply K1| |]].
    unfold lookup_name in Hlk. apply first_in in Hlk as [Hin Hnm%bool_decide_eq_true]. apply Hent; congruence.
  - left. exists s2. rewrite Hnil. destruct (bool_decide_reflect (strip t = [])) as [Hz|Hz].
    + split; [done|]. split; [done|]. intros d [= <-] Hd. do 2 (split; [done|]). exists w. rewrite Hz. split_and!; try done. by apply K2.
    + split; [done|]. split; [done|]. by intros d [= <-].
Qed.

Lemma post_trans s s1 w els dir f e s' :
  fs_inv s -> tree_ok F s -> eff scratch s s1 -> (forall a, scratch a -> in_map a = false) -> F e -> [] ∉ els ->
  resolve s (w :: els) dir f = resolve s els f e -> walk_post s1 els f e s' -> walk_post s (w :: els) dir f s'.
Proof.
  intros Hi Htr He Hout Hfe Hne Hres [P1 P2]. split; [by eapply eff_trans|]. intros d Hd Hnz. rewrite Hres in Hd.
  rewrite <- (frame_resolve scratch s s1) in Hd by done. destruct (P2 d Hd Hnz) as (Fd & Hty & n & Hlast & Hlk & Hc).
  rewrite (frame_ftype scratch s s1) in Hty by done. destruct (Htr d Fd Hty) as [Hok _]. rewrite (frame_lookup scratch s s1) in Hlk by done.
  do 2 (split; [done|]). exists n. split_and!; try done. by destruct els.
Qed.

Lemma walk_steps (m : nat) : forall bs s p dir f,
  (length bs < m)%nat -> fs_inv s -> tree_ok F s -> F f -> places s p bs -> (bs = [] \/ exists c r, bs = c :: r /\ c <> 47) ->
  exists s', msteps m (walk_body name lastelem) (p, dir, f) s = Ok (inr (resolve s (elems bs) dir f)) s' /\ walk_post s (elems bs) dir f s'.
Proof.
  induction m as [|m IH]; intros bs s p dir f Hm Hi Htr Hf Hp Hbs; [lia|]. destruct Hbs as [->|(c & r & -> & Hc)].
  - assert (Hv := p_path _ _ _ Hp). apply cstr_nil in Hv. destruct (load _ _ _ Hv) as (s' & E & R). exists s'. split.
    + apply (msteps_done _ m). unfold walk_body. by rewrite (bind_Ok _ _ _ _ _ E).
    + split; [apply touches_eff; [apply Hi|by apply reads_touches]|]. by intros d [= ?].
  - destruct (walk_round s p dir f c r Hi Htr Hf Hp Hc) as (w & t & He & Hl & Ht & [(s' & E & P)|(e & p' & s1 & E & Ee & Fe & P1 & Hres)]); rewrite He.
    + exists s'. split; [by apply (msteps_done _ m)|done].
    + assert (Hout := scratch_outside _ _ _ Hp). assert (Hne : [] ∉ elems t) by apply elems_from_nonempty.
      destruct (IH t s1 p' f e) as (s2 & E2 & P2); [lia|by eapply frame_inv|by apply (frame_tree scratch s s1)|done|done|done|].
      exists s2. split; [|by eapply post_trans]. rewrite Hres, <- (frame_resolve scratch s s1) by done. by eapply (msteps_next _ m).
Qed.

Lemma walk_path_ok fr s path bs :
  fs_inv s -> tree_ok F s -> F (s_root SUPER) -> fr_elem fr = name -> places s path bs ->
  exists s', walk_path fr path lastelem s = Ok (resolve s (elems bs) 0 (s_root SUPER)) s' /\ walk_post s (elems bs) 0 (s_root SUPER) s'.
Proof.
  intros Hi Htr Hroot Hfr Hp. destruct (strip_split bs) as (sl & Hsl & Hel & Hst). assert (Hln := f_equal length Hsl). rewrite length_app in Hln.
  destruct (skip_slash_ok bs path s (p_path _ _ _ Hp)) as (p' & s1 & E1 & R1 & C1 & L1 & L1'); [pose proof (p_path_range _ _ _ Hp); lia|].
  assert (Hr : ready s = true) by apply Hi. assert (Hout := scratch_outside _ _ _ Hp).
  assert (He1 : eff scratch s s1) by (apply touches_eff; [done|by apply reads_touches]).
  assert (Hp1 : places s1 p' (strip bs)) by (by apply (places_eff s s1 path bs)).
  assert (Hi1 : fs_inv s1) by (by eapply frame_inv).
  destruct (store s1 name 0) as (s2 & E2 & T2 & _); [apply (p_name _ _ _ Hp1); unfold range; lia|].
  assert (He2 : eff scratch s1 s2) by (apply touches_eff; [apply Hi1|]; eapply touches_mono; [|exact T2]; intros a <-; left; unfold range; lia).
  assert (Hp2 : places s2 p' (strip bs)).
  { apply (places_eff s1 s2 p' (strip bs)); try done; try lia. apply (cstr_touches (eq name) s1); [done| |apply Hp1].
    pose proof (p_apart _ _ _ Hp1). unfold apart in *. intros a <-. unfold range. lia. }
  assert (He12 : eff scratch s s2) by (by eapply eff_trans).
  destruct (walk_steps (length bs + 1) (strip bs) s2 p' 0 (s_root SUPER)) as (s3 & E3 & P3 & K3); [lia|by eapply frame_inv|by apply (frame_tree scratch s)|done|done|done|].
  rewrite Hel in *. rewrite (frame_resolve scratch s s2) in E3, K3 by (done || apply elems_from_nonempty). exists s3. split.
  - unfold walk_path. rewrite Hfr. rewrite (bind_Ok _ _ _ _ _ E1). rewrite (bind_Ok _ _ s1 SUPER s1) by (unfold mget; by rewrite (on_super _ (i_online _ _ Hi1))).
    rewrite (bind_Ok _ _ _ _ _ E2). eapply (mloop_ADDRS _ (length bs + 1)); [pose proof (p_path_range _ _ _ Hp); lia|exact E3].
  - split; [by eapply eff_trans|]. intros d Hd Hnz. destruct (K3 d Hd Hnz) as (Fd & Hty & n & Hlast & Hlk & Hc). rewrite (frame_ftype scratch s s2) in Hty by done.
    do 2 (split; [done|]). exists n. split_and!; try done. destruct (Htr d Fd Hty) as [Hok _]. by rewrite (frame_lookup scratch s s2) in Hlk.
Qed.
End walk.

(** ** The theorem *)

(** C30. [walk_path] returns and gives what the path means: from the root directory, through each
    element between slashes, the first entry with that name, over all blocks of the
    directory; an element that is too long, that follows a plain file or that does not exist
    is an error.  When only the last element is missing it returns the directory it is missing
    from and copies the element to [lastelem].  Nothing is written but the two arrays. *)
Theorem walk_path_correct F fr lastelem s path bs :
  fs_inv F s -> tree_ok F s -> F (s_root SUPER) -> places (fr_elem fr) lastelem s path bs ->
  exists s', walk_path fr path lastelem s = Ok (resolve s (elems bs) 0 (s_root SUPER)) s' /\
    eff (scratch (fr_elem fr) lastelem) s s' /\
    forall d, resolve s (elems bs) 0 (s_root SUPER) = (- E_NOT_FOUND, d, 0) -> d <> 0 ->
      F d /\ ftype s d = FTYPE_DIR /\
      exists n, last (elems bs) = Some n /\ lookup_name s d n = None /\ (lastelem <> 0 -> cstr s' lastelem n).
Proof. intros Hi Ht Hr Hp. by apply (walk_path_ok F (fr_elem fr) lastelem fr). Qed.

Definition ex_frame : frame := mkframe 0xEEBFD000 0xEEBFD000 0xEEBFD000 0xEEBFD000 0xEEBFD080 0xEEBFD400.

Lemma ex_stack_buffer a n : 0xEEBFD000 <= a -> a + n <= 0xEEBFE000 -> outside_buffer fs_ex a n.
Proof.
  intros H1 H2 k Hk. unfold range in Hk. assert (Hv : vpn k = 0xEEBFD) by (unfold vpn; Z.div_mod_to_equations; lia).
  assert (Hi : in_map k = false) by (apply in_map_false; right; clia). split; [|done]. split_and!.
  - apply fs_ex_ready.
  - unfold accessible. rewrite Hi. unfold is_mapped. by rewrite Hv.
  - destruct (meta fs_ex k) eqn:Hm; [|done]. by rewrite (meta_map fs_ex k fs_ex_online Hm) in Hi.
  - unfold writable_page. by rewrite Hv.
Qed.

Lemma ex_okdir : okdir fs_ex ex_root.
Proof.
  split.
  - vm_compute. split; intros [=].
  - vm_compute. reflexivity.
  - intros i Hi. assert (Hn : nblock fs_ex ex_root = 1) by (vm_compute; reflexivity). rewrite Hn in Hi.
    assert (i = 0) as -> by lia. vm_compute. intros [=].
  - intros e He. assert (Hb : forallb (fun e => existsb (fun k => byt fs_ex (e + k) =? 0) (seqZ 0 128)) (entries fs_ex ex_root) = true) by (vm_compute; reflexivity).
    rewrite forallb_forall in Hb. apply list_elem_of_In, Hb, existsb_exists in He as (k & Hk & Hz). exists k.
    apply list_elem_of_In, elem_of_seqZ in Hk. apply Z.eqb_eq in Hz. split; [lia|done].
Qed.

Lemma ex_tree : tree_ok ex_F fs_ex.
Proof.
  intros d [->| ->] Hty; [|vm_compute in Hty; done]. split; [apply ex_okdir|]. intros e He Hn.
  assert (Hb : forallb (fun e => (e =? ex_a) || bool_decide (fname fs_ex e = [])) (entries fs_ex ex_root) = true) by (vm_compute; reflexivity).
  rewrite forallb_forall in Hb. apply list_elem_of_In, Hb, orb_true_iff in He as [->%Z.eqb_eq|?%bool_decide_eq_true]; [by right|done].
Qed.

Lemma ex_places lastelem : lastelem = 0 \/ 0xEEBFD080 <= lastelem <= 0xEEBFD300 -> places (fr_elem ex_frame) lastelem fs_ex 0xEEBFD400 [47; 97].
Proof.
  intros Hl. split.
  - apply ex_stack_buffer; vm_compute; done.
  - vm_compute. by split.
  - intros Hnz. split; [apply ex_stack_buffer; lia|]. left. cbn. lia.
  - rewrite !cstr_cons, cstr_nil. split_and!; vm_compute; done.
  - cbn. lia.
  - left. cbn. lia.
Qed.

Lemma walk_path_correct_witness :
  exists s', walk_path ex_frame 0xEEBFD400 0xEEBFD080 fs_ex = Ok (0, ex_root, ex_a) s' /\
    eff (scratch (fr_elem ex_frame) 0xEEBFD080) fs_ex s'.
Proof.
  destruct (walk_path_correct ex_F ex_frame 0xEEBFD080 fs_ex 0xEEBFD400 [47; 97]) as (s' & E & He & _); [apply fs_ex_inv|apply ex_tree|by left|apply ex_places; lia|].
  exists s'. split; [|done]. rewrite E. vm_compute. reflexivity.
Defined.
