(* ===== verification/Serv.v ===== *)
(** * Serv: the requests of the file server ([fs/serv.c])

    The main loop receives a request and the page with its arguments, which the kernel maps at
    [fsreq], and sends the reply.  [serve_request] is one turn of the loop, with the message
    as its argument and the reply as its result. *)

From S2P Require Import Prelude Layout UMonad Str Fsipc Ide Bc Fs.

Definition MAXOPEN : Z := 1024.
Definition FILEVA : Z := 0xD0000000.
Definition fsreq : Z := 0x0ffff000.
#[export] Hint Unfold MAXOPEN FILEVA fsreq : cconst.

(** lib/pageref.c *)
Definition pageref (v : Z) : M fs Z := mget (fun s => default 0 (pg_ref <$> fpages s !! vpn v)).

Definition get_open (i : Z) : M fs OpenFile := fun s =>
  match opentab s !! Z.to_nat i with Some o => Ok o s | None => Wrong s end.
Definition put_open (i : Z) (o : OpenFile) : M fs unit :=
  mmod (fun s => set_opentab (<[Z.to_nat i := o]> (opentab s)) s).
Definition set_fileid (v : Z) (o : OpenFile) : OpenFile := mkOpenFile v (o_file o) (o_mode o) (o_fd o).
Definition set_file (v : Z) (o : OpenFile) : OpenFile := mkOpenFile (o_fileid o) v (o_mode o) (o_fd o).
Definition set_mode (v : Z) (o : OpenFile) : OpenFile := mkOpenFile (o_fileid o) (o_file o) v (o_fd o).
Definition set_fd (v : Z) (o : OpenFile) : OpenFile := mkOpenFile (o_fileid o) (o_file o) (o_mode o) v.

Definition serve_init : M fs unit :=
  mfor (seqZ 0 MAXOPEN) (fun i =>
    o ← get_open i;
    put_open i (set_fd (FILEVA + PGSIZE * i) (set_fileid i o))).

(** The result and the index of *o *)
Definition openfile_take (i : Z) : M fs (Z * Z) :=
  o ← get_open i;
  put_open i (set_fileid (u32 (o_fileid o + MAXOPEN)) o);;
  memset (o_fd o) 0 PGSIZE;;
  o ← get_open i;
  mret (i32 (o_fileid o), i).
Fixpoint openfile_scan (n : nat) (i : Z) : M fs (Z * Z) :=
  match n with
  | O => mret (- E_MAX_OPEN, 0)
  | Datatypes.S n =>
      o ← get_open i;
      r ← pageref (o_fd o);
      if r =? 0 then
        r ← fs_page_alloc (o_fd o);
        if r <? 0 then mret (r, 0) else openfile_take i
      else if r =? 1 then openfile_take i
      else openfile_scan n (i + 1)
  end.
Definition openfile_alloc : M fs (Z * Z) := openfile_scan (Z.to_nat MAXOPEN) 0.

Definition openfile_lookup (envid fileid : Z) : M fs (Z * Z) :=
  let i := fileid mod MAXOPEN in
  o ← get_open i;
  n ← pageref (o_fd o);
  if (n <=? 1) || negb (o_fileid o =? fileid) then mret (- E_INVAL, 0) else mret (0, i).

Section serve.
Context (fr : frame).

(** The end of [serve_open]: the file is found once more and the descriptor filled in. *)
Definition serve_open_finish (req i : Z) : M fs (Z * Z * Z) :=
  let path := fr_path fr in
  '(r, f) ← file_open fr path;
  if r <? 0 then mret (r, 0, 0)
  else
    o ← get_open i; put_open i (set_file f o);;
    o ← get_open i; st32 (fd_file_id (o_fd o)) (o_fileid o);;
    m ← ld32 (req_omode req);
    st32 (fd_omode (o_fd o)) (m .& O_ACCMODE);;
    st32 (fd_dev_id (o_fd o)) devfile_id;;
    m ← ld32 (req_omode req);
    o ← get_open i; put_open i (set_mode (i32 m) o);;
    mret (0, o_fd o, PTE_P .| PTE_U .| PTE_W .| PTE_SHARE).

(** The result, *pg_store and *perm_store, which are 0 where the code does not store them *)
Definition serve_open (envid req : Z) : M fs (Z * Z * Z) :=
  let path := fr_path fr in
  memmove path (req_path req) MAXPATHLEN;;
  stb (path + (MAXPATHLEN - 1)) 0;;
  '(r, i) ← openfile_alloc;
  if r <? 0 then mret (r, 0, 0)
  else
    let truncate f :=
      m ← ld32 (req_omode req);
      if truth (m .& O_TRUNC) then
        r ← file_set_size f 0;
        if r <? 0 then mret (r, 0, 0) else serve_open_finish req i
      else serve_open_finish req i in
    let try_open :=
      '(r, f) ← file_open fr path;
      if r <? 0 then mret (r, 0, 0) else truncate f in
    m ← ld32 (req_omode req);
    if truth (m .& O_CREAT) then
      '(r, f) ← file_create fr path 0;
      if r <? 0 then
        m ← ld32 (req_omode req);
        if negb (truth (m .& O_EXCL)) && (r =? - E_FILE_EXISTS) then try_open else mret (r, 0, 0)
      else truncate f
    else try_open.

Definition serve_set_size (envid req : Z) : M fs Z :=
  id ← ld32 (req_fileid req);
  '(r, i) ← openfile_lookup envid id;
  if r <? 0 then mret r
  else
    o ← get_open i;
    size ← ld_off (req_size req);
    file_set_size (o_file o) size.

Definition serve_read (envid ipc : Z) : M fs Z :=
  id ← ld32 (req_fileid ipc);
  '(r, i) ← openfile_lookup envid id;
  if r <? 0 then mret r
  else
    o ← get_open i;
    n ← ld32 (req_n ipc);
    pos ← ld_off (fd_offset (o_fd o));
    r ← file_read (o_file o) (ret_buf ipc) n pos;
    if r <? 0 then mret r
    else
      w ← ld32 (fd_offset (o_fd o));
      st32 (fd_offset (o_fd o)) (u32 (w + r));;
      mret r.

Definition serve_write (envid req : Z) : M fs Z :=
  id ← ld32 (req_fileid req);
  '(r, i) ← openfile_lookup envid id;
  if r <? 0 then mret r
  else
    o ← get_open i;
    n ← ld32 (req_n req);
    pos ← ld_off (fd_offset (o_fd o));
    r ← file_write (o_file o) (req_buf req) n pos;
    if r <? 0 then mret r
    else
      w ← ld32 (fd_offset (o_fd o));
      st32 (fd_offset (o_fd o)) (u32 (w + r));;
      mret r.

Definition serve_stat (envid ipc : Z) : M fs Z :=
  id ← ld32 (req_fileid ipc);
  '(r, i) ← openfile_lookup envid id;
  if r <? 0 then mret r
  else
    o ← get_open i;
    strcpy (ret_name ipc) (f_name (o_file o));;
    w ← ld32 (f_size (o_file o)); st32 (ret_size ipc) w;;
    t ← ld32 (f_type (o_file o)); st32 (ret_isdir ipc) (if t =? FTYPE_DIR then 1 else 0);;
    mret 0.

Definition serve_flush (envid req : Z) : M fs Z :=
  id ← ld32 (req_fileid req);
  '(r, i) ← openfile_lookup envid id;
  if r <? 0 then mret r
  else o ← get_open i; file_flush (o_file o);; mret 0.

Definition serve_sync (envid req : Z) : M fs Z := fs_sync;; mret 0.

Definition handlers (req : Z) : option (Z -> Z -> M fs Z) :=
  if req =? FSREQ_READ then Some serve_read
  else if req =? FSREQ_STAT then Some serve_stat
  else if req =? FSREQ_FLUSH then Some serve_flush
  else if req =? FSREQ_WRITE then Some serve_write
  else if req =? FSREQ_SET_SIZE then Some serve_set_size
  else if req =? FSREQ_SYNC then Some serve_sync
  else None.

(** A message of a client: the value, the sender, the permission of the page and the page *)
Record message := mkmessage {
  m_req : Z;
  m_whom : Z;
  m_perm : Z;
  m_page : page;
}.

(** One turn of the loop.  A message without a page has no reply; the reply is the value, the
    page's address, or 0, and its permission. *)
Definition serve_request (m : message) : M fs (option (Z * Z * Z)) :=
  if negb (truth (m_perm m .& PTE_P)) then cprintf "no argument page";; mret None
  else
    mmod (fun s => set_fpages (<[vpn fsreq := m_page m]> (fpages s)) s);;
    reply ←
      (if m_req m =? FSREQ_OPEN then
         '(r, pg, perm) ← serve_open (m_whom m) fsreq;
         mret (r, pg, if r =? 0 then perm else m_perm m)
       else
         match handlers (m_req m) with
         | Some h => r ← h (m_whom m) fsreq; mret (r, 0, m_perm m)
         | None => cprintf "Invalid request code";; mret (- E_INVAL, 0, m_perm m)
         end);
    fs_page_unmap fsreq;;
    mret (Some reply).

(** The loop, for the messages that arrive *)
Fixpoint serve (ms : list message) : M fs (list (option (Z * Z * Z))) :=
  match ms with
  | [] => mret []
  | m :: ms => r ← serve_request m; rs ← serve ms; mret (r :: rs)
  end.

Definition fs_umain (ms : list message) : M fs (list (option (Z * Z * Z))) :=
  cprintf "FS is running";;
  cprintf "FS can do I/O";;
  serve_init;;
  fs_init fr;;
  serve ms.
End serve.
