(* ===== verification/ServThms.v ===== *)
(** * ServThms: the open files and the requests ([fs/serv.c]) *)

From S2P Require Import Prelude Layout UMonad Str StrThms Fsipc Ide IdeThms Bc BcThms FsEx Fs FsBase FileInv FileThms FileIO FileTrunc FsThms DirThms Serv.

(** ** The table of open files *)

(** Entry [i] has its own writable page for the descriptor, and its file ids are congruent to [i]. *)
Record table_ok (s : fs) : Prop := {
  t_length : length (opentab s) = 1024%nat;
  t_fd i o : opentab s !! i = Some o -> o_fd o = FILEVA + 4096 * Z.of_nat i;
  t_w (i : nat) p : (i < 1024)%nat -> fpages s !! (0xD0000 + Z.of_nat i) = Some p -> pg_w p = true;
  t_id i o : opentab s !! i = Some o -> o_fileid o mod 1024 = Z.of_nat i /\ 0 <= o_fileid o < 2^32;
}.

(** How many address spaces have the descriptor of entry [i] mapped, the server among them *)
Definition fd_refs (s : fs) (i : nat) : Z := default 0 (pg_ref <$> fpages s !! (0xD0000 + Z.of_nat i)).

Lemma table_get s (i : nat) : table_ok s -> (i < 1024)%nat -> exists o, opentab s !! i = Some o.
Proof. intros Ht Hi. apply lookup_lt_is_Some. by rewrite (t_length _ Ht). Qed.

Lemma get_open_ok s (i : nat) o : opentab s !! i = Some o -> get_open (Z.of_nat i) s = Ok o s.
Proof. intros Ho. unfold get_open. by rewrite Nat2Z.id, Ho. Qed.

Lemma pageref_ok s (i : nat) o : table_ok s -> opentab s !! i = Some o -> pageref (o_fd o) s = Ok (fd_refs s i) s.
Proof.
  intros Ht Ho. unfold pageref, mget, fd_refs. rewrite (t_fd _ Ht _ _ Ho). do 4 f_equal. unfold vpn, FILEVA. Z.div_mod_to_equations. lia.
Qed.

(** What [openfile_lookup] decides *)
Definition valid (s : fs) (id : Z) : bool :=
  match opentab s !! Z.to_nat (id mod 1024) with
  | Some o => (1 <? fd_refs s (Z.to_nat (id mod 1024))) && (o_fileid o =? id)
  | None => false
  end.

Lemma lookup_ok s envid id :
  table_ok s -> openfile_lookup envid id s = Ok (if valid s id then (0, id mod 1024) else (- E_INVAL, 0)) s.
Proof.
  intros Ht. unfold openfile_lookup, valid. change MAXOPEN with 1024. assert (Hm : 0 <= id mod 1024 < 1024) by (apply Z.mod_pos_bound; lia).
  destruct (table_get s (Z.to_nat (id mod 1024)) Ht) as [o Ho]; [lia|]. rewrite Ho. cbv zeta.
  pose proof (get_open_ok _ _ _ Ho) as E. rewrite Z2Nat.id in E by lia. rewrite (bind_Ok _ _ _ _ _ E), (bind_Ok _ _ _ _ _ (pageref_ok _ _ _ Ht Ho)).
  rewrite Z.leb_antisym. destruct (1 <? _); [|done]. by destruct (o_fileid o =? id).
Qed.

(** ** Opening *)

Definition fd_page (i : nat) : Z := FILEVA + 4096 * Z.of_nat i.

(** [s'] is [s] after entry [i] has been taken. *)
Record taken (s s' : fs) (i : nat) (o : OpenFile) : Prop := {
  tk_entry : opentab s !! i = Some o;
  tk_table : opentab s' = <[i := set_fileid (u32 (o_fileid o + 1024)) o]> (opentab s);
  tk_zero k : 0 <= k < 4096 -> byt s' (fd_page i + k) = 0;
  tk_byt a : ~ range (fd_page i) 4096 a -> byt s' a = byt s a;
  tk_refs j : (j < 1024)%nat -> fd_refs s' j = if decide (i = j) then 1 else fd_refs s j;
}.

Lemma fd_outside (i : nat) a : (i < 1024)%nat -> range (fd_page i) 4096 a -> in_map a = false /\ vpn a = 0xD0000 + Z.of_nat i.
Proof.
  unfold range, fd_page, FILEVA. intros Hi Ha. split; [apply in_map_false; right; clia|]. unfold vpn. Z.div_mod_to_equations. lia.
Qed.

Lemma not_fd_vpn (i : nat) a : ~ range (fd_page i) 4096 a -> vpn a <> 0xD0000 + Z.of_nat i.
Proof. unfold range, fd_page, FILEVA, vpn. intros Ha He. apply Ha. Z.div_mod_to_equations. lia. Qed.

(** Another page outside the disk map *)
Definition with_page (v : Z) (p : page) (s : fs) : fs := set_fpages (<[v := p]> (fpages s)) (set_answers (tail (answers s)) s).

Lemma with_page_byt v p s a : vpn a <> v -> byt (with_page v p s) a = byt s a.
Proof. intros Hv. unfold byt, with_page. cbn [fpages set_fpages]. by rewrite lookup_insert_ne. Qed.

Lemma with_page_online v p s : online s -> in_map (v * 4096) = false -> online (with_page v p s).
Proof.
  intros Ho Hv. assert (Hb : forall a, in_map a = true -> byt (with_page v p s) a = byt s a).
  { intros a Ha. apply with_page_byt. intros <-. apply in_map_true in Ha. apply in_map_false in Hv. revert Ha Hv. unfold vpn. cc. Z.div_mod_to_equations. lia. }
  split; [|apply Ho|apply Ho|].
  - apply (ready_meta s); try done; [|intros [q Hq]%is_mapped_true|intros Ha|apply Ho].
    + split; [done|done|]. intros a Ha. apply Hb. by apply (meta_map s).
    + apply is_mapped_true. exists q. unfold with_page. cbn [fpages set_fpages]. rewrite lookup_insert_ne; [done|]. intros ->. by vm_compute in Hv.
    + unfold with_page. cbn [answers set_answers set_fpages]. destruct (answers s) as [|x l]; [done|]. by apply andb_true_iff in Ha as [_ ?].
  - intros u q Hq Hi. unfold with_page in Hq. cbn [fpages set_fpages] in Hq. destruct (decide (v = u)) as [->|Hne]; [congruence|].
    rewrite lookup_insert_ne in Hq by done. by apply (on_w _ Ho u).
Qed.

(** The same table entry with a new id *)
Lemma opentab_online t s : online s -> online (set_opentab t s).
Proof. intros [H1 H2 H3 H4]. split; [exact H1|done|done|exact H4]. Qed.

Lemma fd_buffer s (i : nat) p :
  online s -> (i < 1024)%nat -> fpages s !! (0xD0000 + Z.of_nat i) = Some p -> pg_w p = true -> buffer s (fd_page i) 4096.
Proof.
  intros Ho Hi Hp Hw a Ha. destruct (fd_outside i a Hi Ha) as [Hm Hv]. split_and!.
  - apply Ho.
  - unfold accessible. rewrite Hm. apply is_mapped_true. rewrite Hv. eauto.
  - destruct (meta s a) eqn:Hme; [|done]. apply (meta_map s) in Hme; [congruence|done].
  - unfold writable_page. by rewrite Hv, Hp.
Qed.

Lemma core_refs s s' (j : nat) : fs_core s s' -> (j < 1024)%nat -> fd_refs s' j = fd_refs s j.
Proof.
  intros Hc Hj. unfold fd_refs. destruct (fpages s !! _) as [p|] eqn:Hp.
  - destruct (c_pages _ _ Hc _ p Hp) as (p' & -> & _ & R). by simpl.
  - destruct (fpages s' !! _) as [p|] eqn:Hp'; [|done]. destruct (c_new _ _ Hc _ p Hp Hp') as [Hm _]. exfalso. revert Hm. rewrite in_map_true. clia.
Qed.

Lemma core_table s s' : fs_core s s' -> table_ok s -> table_ok s'.
Proof.
  intros Hc [H1 H2 H3 H4]. split; rewrite ?(c_opentab _ _ Hc); try done. intros i p Hi Hp. destruct (fpages s !! (0xD0000 + Z.of_nat i)) as [q|] eqn:Hq.
  - destruct (c_pages _ _ Hc _ q Hq) as (p' & Hp' & W & _). rewrite Hp in Hp'. injection Hp' as <-. rewrite W. by apply (H3 i q).
  - by apply (c_new _ _ Hc _ p Hq).
Qed.

Lemma insert_table s (i : nat) o :
  table_ok s -> opentab s !! i = Some o -> table_ok (set_opentab (<[i := set_fileid (u32 (o_fileid o + 1024)) o]> (opentab s)) s).
Proof.
  intros [H1 H2 H3 H4] Ho. assert (Hlt := lookup_lt_Some _ _ _ Ho). split; cbn [opentab set_opentab fpages].
  - by rewrite length_insert.
  - intros j o' Hj. destruct (decide (i = j)) as [<-|Hne]; [|rewrite list_lookup_insert_ne in Hj by done; eauto].
    rewrite list_lookup_insert_eq in Hj by done. injection Hj as <-. by apply (H2 i o).
  - done.
  - intros j o' Hj. destruct (decide (i = j)) as [<-|Hne]; [|rewrite list_lookup_insert_ne in Hj by done; eauto].
    rewrite list_lookup_insert_eq in Hj by done. injection Hj as <-. destruct (H4 i o Ho) as [Hm Hr]. cbn [o_fileid set_fileid].
    split; [|apply u32_range]. unfold u32. change (2^32) with (1024 * 4194304). Z.div_mod_to_equations. lia.
Qed.

Lemma take_ok s (i : nat) o p :
  online s -> table_ok s -> opentab s !! i = Some o -> fpages s !! (0xD0000 + Z.of_nat i) = Some p -> pg_w p = true -> pg_ref p = 1 ->
  exists s', openfile_take (Z.of_nat i) s = Ok (i32 (u32 (o_fileid o + 1024)), Z.of_nat i) s' /\ taken s s' i o /\ online s' /\ table_ok s'.
Proof.
  intros Hon Ht Ho Hp Hw Hr. assert (Hlt := lookup_lt_Some _ _ _ Ho). rewrite (t_length _ Ht) in Hlt. set (o' := set_fileid (u32 (o_fileid o + 1024)) o).
  set (s1 := set_opentab (<[i := o']> (opentab s)) s). assert (Ho1 : online s1) by (by apply opentab_online). assert (Ht1 : table_ok s1) by (by apply insert_table).
  destruct (memset_spec s1 (fd_page i) 0 4096) as (s2 & E2 & T2 & Z2); [by apply (fd_buffer s1 i p)|].
  assert (He := touches_eff _ _ _ (on_ready _ Ho1) T2). change (Z.of_nat 4096) with 4096 in *.
  assert (Hopen : opentab s2 = <[i := o']> (opentab s)) by (apply (c_opentab _ _ (e_core _ _ _ He))).
  exists s2. split_and!; [|split|by eapply eff_online|eapply core_table; [apply He|done]].
  - unfold openfile_take. rewrite (bind_Ok _ _ _ _ _ (get_open_ok _ _ _ Ho)). change MAXOPEN with 1024. rewrite (bind_Ok _ _ s tt s1).
    2:{ unfold put_open, mmod. by rewrite Nat2Z.id. }
    rewrite (t_fd _ Ht _ _ Ho). fold (fd_page i). change PGSIZE with 4096. rewrite (bind_Ok _ _ _ _ _ E2).
    assert (Hg : opentab s2 !! i = Some o') by (rewrite Hopen, list_lookup_insert_eq; [done|]; rewrite (t_length _ Ht); lia).
    by rewrite (bind_Ok _ _ _ _ _ (get_open_ok _ _ _ Hg)).
  - done.
  - done.
  - intros k Hk. apply byt_view. replace k with (Z.of_nat (Z.to_nat k)) by lia. apply Z2. apply lookup_replicate. split; [done|lia].
  - intros a Ha. by rewrite (e_byt _ _ _ He).
  - intros j Hj. rewrite (core_refs s1 s2) by (apply He || done). destruct (decide (i = j)) as [<-|]; [|done]. unfold fd_refs. change (fpages s1) with (fpages s). by rewrite Hp.
Qed.

(** The first entry that is not shared, from entry [i] on *)
Fixpoint unshared (s : fs) (n i : nat) : option nat :=
  match n with
  | O => None
  | Datatypes.S n => if (fd_refs s i =? 0) || (fd_refs s i =? 1) then Some i else unshared s n (1 + i)
  end.

Lemma scan_ok s (n : nat) : forall i : nat,
  online s -> table_ok s -> (i + n = 1024)%nat ->
  match unshared s n i with
  | None => openfile_scan n (Z.of_nat i) s = Ok (- E_MAX_OPEN, 0) s
  | Some j => exists o s', openfile_scan n (Z.of_nat i) s = Ok (i32 (u32 (o_fileid o + 1024)), Z.of_nat j) s' /\ (j < 1024)%nat /\ taken s s' j o /\ online s' /\ table_ok s'
  end.
Proof.
  induction n as [|n IH]; intros i Hon Ht Hi; [done|]. cbn [unshared openfile_scan]. destruct (table_get s i Ht) as [o Ho]; [lia|].
  rewrite !(bind_Ok _ _ _ _ _ (get_open_ok _ _ _ Ho)), !(bind_Ok _ _ _ _ _ (pageref_ok _ _ _ Ht Ho)).
  destruct (Z.eqb_spec (fd_refs s i) 0) as [H0|H0]; cbn [orb].
  - set (v := 0xD0000 + Z.of_nat i). assert (Hv : in_map (v * 4096) = false) by (apply in_map_false; right; unfold v; clia).
    set (p := mkpage ∅ true false false 1). assert (Ha : fs_page_alloc (o_fd o) s = Ok 0 (with_page v p s)).
    { assert (Hr := on_ready _ Hon). apply ready_spec in Hr as (_ & Ha & _). unfold fs_page_alloc, with_page. rewrite (t_fd _ Ht _ _ Ho).
      replace (vpn (FILEVA + 4096 * Z.of_nat i)) with v by (unfold v, vpn, FILEVA; Z.div_mod_to_equations; lia).
      destruct (answers s) as [|[] l]; done. }
    assert (Ht1 : table_ok (with_page v p s)).
    { destruct Ht as [T1 T2 T3 T4]. split; try done. intros j q Hj Hq. unfold with_page in Hq. cbn [fpages set_fpages] in Hq.
      destruct (decide (v = 0xD0000 + Z.of_nat j)) as [He|]; [rewrite He, lookup_insert_eq in Hq; by injection Hq as <-|].
      rewrite lookup_insert_ne in Hq by done. by apply (T3 j). }
    destruct (take_ok (with_page v p s) i o p) as (s' & E & [K1 K2 K3 K4 K5] & On & Tb); [by apply with_page_online|done|done|apply lookup_insert_eq|done|done|].
    exists o, s'. rewrite (bind_Ok _ _ _ _ _ Ha). cbn [Z.ltb Z.compare]. split_and!; [done|lia| |done|done]. split; try done.
    + intros a Hna. rewrite K4 by done. apply with_page_byt. by apply not_fd_vpn.
    + intros j Hj. rewrite K5 by done. destruct (decide (i = j)); [done|]. unfold fd_refs, with_page. cbn [fpages set_fpages]. rewrite lookup_insert_ne; [done|]. unfold v. lia.
  - destruct (Z.eqb_spec (fd_refs s i) 1) as [H1|H1].
    + unfold fd_refs in H0, H1. destruct (fpages s !! (0xD0000 + Z.of_nat i)) as [p|] eqn:Hp; [|done].
      destruct (take_ok s i o p) as (s' & E & K & On & Tb); try done; [apply (t_w _ Ht i p); [lia|done]|]. exists o, s'. split_and!; try done. lia.
    + specialize (IH (1 + i)%nat Hon Ht ltac:(lia)). replace (Z.of_nat (1 + i)) with (Z.of_nat i + 1) in IH by lia. exact IH.
Qed.

Lemma valid_stale s (i : nat) o id : opentab s !! i = Some o -> id mod 1024 = Z.of_nat i -> o_fileid o <> id -> valid s id = false.
Proof. intros Ho Hm Hne. unfold valid. rewrite Hm, Nat2Z.id, Ho, (proj2 (Z.eqb_neq _ _) Hne). apply andb_false_r. Qed.

Lemma taken_valid s s' (i : nat) o id : table_ok s -> taken s s' i o -> id mod 1024 <> Z.of_nat i -> valid s' id = valid s id.
Proof.
  intros Ht Hk Hm. pose proof (Z.mod_pos_bound id 1024 ltac:(lia)). unfold valid. rewrite (tk_table _ _ _ _ Hk), list_lookup_insert_ne by lia.
  by rewrite (tk_refs _ _ _ _ Hk), decide_False by lia.
Qed.

(** C31. [openfile_alloc] takes the first entry whose descriptor page no client has mapped, and
    fails exactly when there is none.  The descriptor is zeroed, the entry gets a new id, and
    nothing else changes: no other entry, no byte of the disk and no other memory.  The id the
    entry had before is refused from then on, in every later state of the table in which the
    entry has not been taken again, so a client that kept it cannot reach the new file; the
    ids of all other entries are answered as before. *)
Theorem openfile_alloc_correct s :
  online s -> table_ok s ->
  match unshared s 1024 0 with
  | None => openfile_alloc s = Ok (- E_MAX_OPEN, 0) s
  | Some i => exists o s', openfile_alloc s = Ok (i32 (u32 (o_fileid o + 1024)), Z.of_nat i) s' /\ (i < 1024)%nat /\ taken s s' i o /\
      online s' /\ table_ok s' /\ (forall F, fs_inv F s -> fs_inv F s') /\
      (forall s2 envid, table_ok s2 -> opentab s2 !! i = opentab s' !! i -> openfile_lookup envid (o_fileid o) s2 = Ok (- E_INVAL, 0) s2) /\
      (forall id envid, id mod 1024 <> Z.of_nat i ->
         openfile_lookup envid id s' = Ok (if valid s id then (0, id mod 1024) else (- E_INVAL, 0)) s')
  end.
Proof.
  intros Hon Ht. assert (Hn : Z.to_nat MAXOPEN = 1024%nat) by reflexivity. unfold openfile_alloc. rewrite Hn. pose proof (scan_ok s 1024 0 Hon Ht eq_refl) as H.
  change (Z.of_nat 0) with 0 in H. destruct (unshared s 1024 0) as [i|]; [|exact H].
  destruct H as (o & s' & E & Hi & Hk & On & Tb). exists o, s'. split_and!; try done.
  - intros F Hf. apply (map_inv F s); [done|done|]. intros a Ha. apply (tk_byt _ _ _ _ Hk). intros Hr. destruct (fd_outside i a Hi Hr). congruence.
  - intros s2 envid Ht2 Ho2. rewrite (lookup_ok s2 envid (o_fileid o) Ht2). assert (Ho := tk_entry _ _ _ _ Hk). destruct (t_id _ Ht i o Ho) as [Hm Hr].
    rewrite (tk_table _ _ _ _ Hk), list_lookup_insert_eq in Ho2 by (rewrite (t_length _ Ht); lia).
    rewrite (valid_stale s2 i _ _ Ho2 Hm); [done|]. cbn [o_fileid set_fileid]. unfold u32. change (2^32) with 4294967296 in *. Z.div_mod_to_equations. lia.
  - intros id envid Hm. by rewrite (lookup_ok s' envid id Tb), (taken_valid s s' i o).
Qed.

Lemma ex_table : table_ok fs_ex.
Proof.
  assert (Hb : forallb (fun '(i, o) => (o_fd o =? FILEVA + 4096 * i) && (o_fileid o mod 1024 =? i) && (0 <=? o_fileid o) && (o_fileid o <? 2^32))
    (zip (seqZ 0 1024) (opentab fs_ex)) = true) by (vm_compute; reflexivity).
  assert (He : forall i o, opentab fs_ex !! i = Some o -> o_fd o = FILEVA + 4096 * Z.of_nat i /\ o_fileid o mod 1024 = Z.of_nat i /\ 0 <= o_fileid o < 2^32).
  { intros i o Ho. rewrite forallb_forall in Hb. specialize (Hb (Z.of_nat i, o)). rewrite !andb_true_iff, !Z.eqb_eq, Z.leb_le, Z.ltb_lt in Hb.
    destruct Hb as [[[? ?] ?] ?]; [|done]. apply list_elem_of_In, list_elem_of_lookup. exists i. apply lookup_zip_with_Some. exists (Z.of_nat i), o.
    split_and!; [done| |done]. apply lookup_seqZ. split; [lia|]. apply lookup_lt_Some in Ho. change (length (opentab fs_ex)) with 1024%nat in Ho. lia. }
  split; [done|intros i o Ho; by apply He| |intros i o Ho; split; apply (He i o Ho)].
  intros i p _ Hp. apply (fs_ex_pages _ p Hp).
Qed.

Lemma openfile_alloc_correct_witness :
  exists o s', openfile_alloc fs_ex = Ok (i32 (u32 (o_fileid o + 1024)), 1) s' /\ taken fs_ex s' 1 o.
Proof.
  pose proof (openfile_alloc_correct fs_ex fs_ex_online ex_table) as H. assert (Hu : unshared fs_ex 1024 0 = Some 1%nat) by (vm_compute; reflexivity).
  rewrite Hu in H. destruct H as (o & s' & E & _ & Hk & _). exists o, s'. split; [exact E|exact Hk].
Defined.

(** ** Requests *)

(** What the handlers can rely on: the page of the request and the table *)
Record session (F : Z -> Prop) (s : fs) : Prop := {
  se_inv : fs_inv F s;
  se_table : table_ok s;
  se_page : outside_buffer s fsreq 4096;
}.

(** The open file a request names, where its id is valid *)
Definition req_entry (s : fs) : nat := Z.to_nat (wrd s fsreq mod 1024).
Definition req_fd (s : fs) : Z := fd_page (req_entry s).
Definition req_offset (s : fs) : Z := i32 (wrd s (fd_offset (req_fd s))).

Lemma req_entry_lt s : (req_entry s < 1024)%nat.
Proof. unfold req_entry. pose proof (Z.mod_pos_bound (wrd s fsreq) 1024). lia. Qed.

Lemma quiet_valid s s' id : quiet s s' -> table_ok s -> valid s' id = valid s id.
Proof.
  intros [C _] Ht. unfold valid. pose proof (Z.mod_pos_bound id 1024). rewrite (c_opentab _ _ C), (core_refs s s') by (done || lia). done.
Qed.

Lemma word_quiet s a : online s -> outside_buffer s a 4 -> a mod 4 = 0 -> exists s', ld32 a s = Ok (wrd s a) s' /\ quiet s s'.
Proof.
  intros Ho Hb Ha. destruct (ld32_ok s a (on_ready _ Ho) Ha) as (s' & E & G & _); [apply Hb; unfold range; lia|]. exists s'. split; [done|by apply grows_quiet].
Qed.

Lemma fd_writable s : table_ok s -> online s -> valid s (wrd s fsreq) = true -> outside_buffer s (req_fd s) 4096.
Proof.
  intros Ht Ho Hv a Ha. assert (Hlt := req_entry_lt s). unfold valid in Hv. fold (req_entry s) in Hv. destruct (opentab s !! req_entry s); [|done].
  apply andb_true_iff in Hv as [Hr%Z.ltb_lt _]. unfold fd_refs in Hr. destruct (fpages s !! (0xD0000 + Z.of_nat (req_entry s))) as [p|] eqn:Hp; [|simpl in Hr; lia].
  split; [|by apply (fd_outside (req_entry s))]. apply (fd_buffer s (req_entry s) p); try done. by apply (t_w _ Ht (req_entry s)).
Qed.

(** The beginning of every handler *)
Lemma handler_ok F s envid (K : OpenFile -> M fs Z) :
  session F s ->
  exists s1, quiet s s1 /\
  if valid s (wrd s fsreq) then exists o, opentab s !! req_entry s = Some o /\
    (id ← ld32 (req_fileid fsreq); '(r, i) ← openfile_lookup envid id; if r <? 0 then mret r else o ← get_open i; K o) s = K o s1
  else (id ← ld32 (req_fileid fsreq); '(r, i) ← openfile_lookup envid id; if r <? 0 then mret r else o ← get_open i; K o) s = Ok (- E_INVAL) s1.
Proof.
  intros [Hi Ht Hp]. destruct (word_quiet s fsreq (i_online _ _ Hi)) as (s1 & E1 & Q1); [intros a Ha; apply Hp; unfold range in *; lia|done|].
  assert (Ht1 : table_ok s1) by (eapply core_table; [apply Q1|done]). exists s1. split; [done|]. unfold req_fileid.
  rewrite !(bind_Ok _ _ _ _ _ E1), !(bind_Ok _ _ _ _ _ (lookup_ok s1 envid (wrd s fsreq) Ht1)), (quiet_valid s s1) by done.
  destruct (valid s (wrd s fsreq)); [|done]. destruct (table_get s (req_entry s) Ht (req_entry_lt s)) as [o Ho]. exists o. split; [done|].
  cbn [Z.ltb Z.compare]. rewrite <- (c_opentab s s1) in Ho by apply Q1. pose proof (get_open_ok _ _ _ Ho) as E. unfold req_entry in E.
  pose proof (Z.mod_pos_bound (wrd s fsreq) 1024). rewrite Z2Nat.id in E by lia. by rewrite (bind_Ok _ _ _ _ _ E).
Qed.

(** The end of [serve_read] and [serve_write]: the offset moves on. *)
Lemma offset_ok s fd r :
  online s -> outside_buffer s fd 4096 -> fd mod 4096 = 0 ->
  exists s', (w ← ld32 (fd_offset fd); st32 (fd_offset fd) (u32 (w + r));; mret r) s = Ok r s' /\ eff (range (fd_offset fd) 4) s s' /\
    wrd s' (fd_offset fd) = u32 (wrd s (fd_offset fd) + r).
Proof.
  intros Ho Hb Hm. destruct (word_quiet s (fd_offset fd) Ho) as (s1 & E1 & Q1); [intros a Ha; apply Hb; unfold range, fd_offset in *; lia|unfold fd_offset; Z.div_mod_to_equations; lia|].
  assert (Ho1 := quiet_online _ _ Q1 Ho). assert (Hb1 := outside_buffer_core _ _ _ _ (proj1 Q1) Ho Hb).
  destruct (st32_ok s1 (fd_offset fd) (u32 (wrd s (fd_offset fd) + r))) as (s2 & E2 & He & _ & W2); [intros a Ha; apply Hb1; unfold range, fd_offset in *; lia|].
  exists s2. rewrite (bind_Ok _ _ _ _ _ E1), (bind_Ok _ _ _ _ _ E2). split; [done|]. split; [|rewrite W2; apply u32_small, u32_range].
  eapply eff_trans; [by apply quiet_eff|done].
Qed.

(** The files behind the open ones *)
Definition good_file (F : Z -> Prop) (s : fs) (f : Z) : Prop := F f /\ regular F s f /\ 0 <= fsize s f <= FSPAN.

Lemma core_session F s s' : session F s -> fs_inv F s' -> fs_core s s' -> session F s'.
Proof.
  intros [H1 H2 H3] Hi Hc. split; [done|by eapply core_table|]. eapply outside_buffer_core; [done|apply H1|done].
Qed.

Lemma fd_page_aligned (i : nat) : fd_page i mod 4096 = 0.
Proof. unfold fd_page, FILEVA. Z.div_mod_to_equations. lia. Qed.

(** The number of bytes and the position: the rest of the request *)
Lemma args_ok F s :
  session F s -> valid s (wrd s fsreq) = true ->
  exists s', (forall (K : Z -> Z -> M fs Z), (n ← ld32 (req_n fsreq); pos ← ld_off (fd_offset (req_fd s)); K n pos) s =
      K (wrd s (req_n fsreq)) (req_offset s) s') /\ quiet s s'.
Proof.
  intros Hs Hv. assert (Ho := i_online _ _ (se_inv _ _ Hs)). assert (Hb := fd_writable s (se_table _ _ Hs) Ho Hv).
  destruct (word_quiet s (req_n fsreq) Ho) as (s1 & E1 & Q1); [intros a Ha; apply (se_page _ _ Hs); unfold range, req_n in *; lia|done|].
  destruct (word_quiet s1 (fd_offset (req_fd s))) as (s2 & E2 & Q2); [by apply (quiet_online s)| | |].
  - intros a Ha. apply (outside_buffer_core s s1 _ _ (proj1 Q1) Ho Hb). unfold range, fd_offset in *. lia.
  - unfold fd_offset. pose proof (fd_page_aligned (req_entry s)). fold (req_fd s) in *. Z.div_mod_to_equations. lia.
  - exists s2. split; [|by eapply quiet_trans]. intros K. rewrite (bind_Ok _ _ _ _ _ E1). unfold ld_off, req_offset.
    assert (Hw : wrd s1 (fd_offset (req_fd s)) = wrd s (fd_offset (req_fd s))) by (apply wrd_ext; intros; apply Q1).
    rewrite (bind_Ok _ _ s1 (i32 (wrd s (fd_offset (req_fd s)))) s2); [done|]. rewrite (bind_Ok _ _ _ _ _ E2). by rewrite Hw.
Qed.

Lemma u32_i32 w : 0 <= w < 2^32 -> u32 (i32 w) = w.
Proof. intros Hw. unfold u32, i32 in *. Z.div_mod_to_equations. lia. Qed.

Lemma offset_word s : 0 <= req_offset s -> wrd s (fd_offset (req_fd s)) = req_offset s /\ req_offset s < 2^31.
Proof. unfold req_offset. intros H. pose proof (wrd_range s (fd_offset (req_fd s))). unfold i32 in *. Z.div_mod_to_equations. lia. Qed.

Lemma fd_apart s a n : (forall k, range a n k -> 0x0ffff000 <= k < 0x10000000) -> forall k, 0 <= k < 4 -> ~ range a n (fd_offset (req_fd s) + k).
Proof. intros Ha k Hk Hr. apply Ha in Hr. revert Hr. unfold fd_offset, req_fd, fd_page, FILEVA. lia. Qed.

(** The page of the request and the offset in the descriptor *)
Definition reply (s : fs) (n a : Z) : Prop := range fsreq n a \/ range (fd_offset (req_fd s)) 4 a.

Lemma read_done F s s4 o n :
  session F s -> valid s (wrd s fsreq) = true -> F (o_file o) -> 0 <= req_offset s -> 0 <= n <= 4096 -> req_offset s + n < 2^31 -> fs_inv F s4 -> same_files F (range fsreq n) s s4 ->
  exists s5, (w ← ld32 (fd_offset (req_fd s)); st32 (fd_offset (req_fd s)) (u32 (w + n));; mret n) s4 = Ok n s5 /\ session F s5 /\
    same_files F (reply s n) s s5 /\ wrd s5 (fd_offset (req_fd s)) = req_offset s + n /\ forall k, 0 <= k < n -> byt s5 (fsreq + k) = byt s4 (fsreq + k).
Proof.
  intros Hs Hv Hf Hpos Hn Hsum Hi4 Hsame. assert (Ho := i_online _ _ (se_inv _ _ Hs)). assert (Hb := fd_writable s (se_table _ _ Hs) Ho Hv).
  assert (Hb4 := outside_buffer_core _ _ _ _ (sf_core _ _ _ _ Hsame) Ho Hb). destruct (offset_word s Hpos) as [Hw Hw'].
  destruct (offset_ok s4 (req_fd s) n (i_online _ _ Hi4) Hb4 (fd_page_aligned _)) as (s5 & E5 & He5 & W5).
  destruct (outside_frame F _ s4 s5 Hi4 He5) as (I5 & S5 & _); [intros a Ha; apply Hb; unfold range, fd_offset in *; lia|].
  assert (S45 : same_files F (reply s n) s s5).
  { eapply same_files_trans; [eapply same_mono; [|exact Hsame]; by left|eapply same_mono; [|exact S5]; by right]. }
  exists s5. split; [done|]. split; [by apply (core_session F s), S45|]. split; [done|]. split.
  - rewrite W5. replace (wrd s4 (fd_offset (req_fd s))) with (req_offset s); [rewrite u32_small; [done|lia]|]. rewrite <- Hw. symmetry. apply wrd_ext.
    intros k Hk. apply (sf_outside _ _ _ _ Hsame); [apply Hb; unfold range, fd_offset; lia|].
    apply fd_apart; [unfold range, fsreq; lia|done].
  - intros k Hk. apply (sf_outside _ _ _ _ S5); [apply (se_page _ _ Hs); unfold range; lia|]. unfold range, fd_offset, req_fd, fd_page, FILEVA, fsreq. lia.
Qed.


Lemma ex_session : session ex_F fs_ex.
Proof. split; [apply fs_ex_inv|apply ex_table|apply ex_buffer; vm_compute; done]. Qed.


(** ** A request for more than a page *)

(** The small disk with a boot block and a file of 4100 bytes, and a request for all of it.  The
    page of the request ends where the disk map begins. *)
Definition fs_big : fs :=
  set_disks (list_to_map (on_disk 0 (bytes_from 0 [0xEB; 0x3C; 0x90; 0x4A]) ++ on_disk 1 ex_super ++ on_disk 2 ex_bitmap ++
    on_disk 3 (bytes_from 0 [97] ++ bytes_from 128 (bytes4 4100) ++ bytes_from 132 (bytes4 0) ++ bytes_from 136 (bytes4 4)) ++ on_disk 4 ex_file))
  (set_fpages (<[0x0FFFF := mkpage (list_to_map (bytes_from 0 (bytes4 1024) ++ bytes_from 4 (bytes4 4100))) true false false 2]>
    (<[0xD0000 := mkpage (list_to_map (bytes_from 0 (bytes4 102) ++ bytes_from 12 (bytes4 1024))) true false false 2]> (fpages fs_ex))) fs_ex).

(** [serve_read] does not bound the number of bytes by the page it answers in: a request of a
    client for 4100 bytes is carried out, and runs over the boot block of the disk behind that
    page. *)
Lemma serve_read_overruns :
  match serve_read 4096 fsreq fs_big with
  | Ok r s' => r = 4100 /\ wrd fs_big DISKMAP = 0x4A903CEB /\ wrd s' DISKMAP = 0
  | _ => False
  end.
Proof. vm_compute. split_and!; reflexivity. Qed.
