(* ===== verification/Printfmt.v ===== *)
(** * Printfmt: formatted output ([lib/printfmt.c], [lib/printf.c])

    The formatter hands each character to [putch], a function its caller passes.  The arguments
    are the 32-bit words of the caller's stack frame, as [va_arg] takes them.  The string
    constants of the source are in memory, at addresses the linker has chosen. *)

From S2P Require Import Prelude Layout UMonad Str.

Definition i8 (x : Z) : Z := (x + 2^7) mod 2^8 - 2^7.
Definition i64 (x : Z) : Z := (x + 2^63) mod 2^64 - 2^63.

(** The addresses of the constants; [error_string] is 0 where the table has no entry. *)
Record literals := mkliterals {
  lit_null : Z;    (* (null) *)
  lit_error : Z;   (* error %d *)
  lit_s : Z;       (* %s *)
  error_string : Z -> Z;
}.

(** The conversion that is being read: [fmt] and [ap] and the local variables of [vprintfmt] *)
Record conv := mkconv {
  c_fmt : Z;
  c_ap : list Z;
  padc : Z;
  width : Z;
  precision : Z;
  lflag : Z;
  altflag : bool;
}.
Definition set_padc v c := mkconv (c_fmt c) (c_ap c) v (width c) (precision c) (lflag c) (altflag c).
Definition set_width v c := mkconv (c_fmt c) (c_ap c) (padc c) v (precision c) (lflag c) (altflag c).
Definition set_precision v c := mkconv (c_fmt c) (c_ap c) (padc c) (width c) v (lflag c) (altflag c).
Definition set_lflag v c := mkconv (c_fmt c) (c_ap c) (padc c) (width c) (precision c) v (altflag c).
Definition set_altflag v c := mkconv (c_fmt c) (c_ap c) (padc c) (width c) (precision c) (lflag c) v.
Definition set_fmt v c := mkconv v (c_ap c) (padc c) (width c) (precision c) (lflag c) (altflag c).
Definition set_ap v c := mkconv (c_fmt c) v (padc c) (width c) (precision c) (lflag c) (altflag c).

Section printfmt.
Context {S : Type} `{Hmem : Mem S} (lit : literals) (putch : Z -> M S unit).

Definition va_arg (ap : list Z) : M S (Z * list Z) := match ap with [] => wrong | w :: ap => mret (w, ap) end.
Definition va_arg64 (ap : list Z) : M S (Z * list Z) :=
  '(lo, ap) ← va_arg ap; '(hi, ap) ← va_arg ap; mret (lo + 2^32 * hi, ap).

Definition getuint (ap : list Z) (lflag : Z) : M S (Z * list Z) :=
  if 2 <=? lflag then va_arg64 ap else va_arg ap.
Definition getint (ap : list Z) (lflag : Z) : M S (Z * list Z) :=
  if 2 <=? lflag then '(v, ap) ← va_arg64 ap; mret (i64 v, ap)
  else '(v, ap) ← va_arg ap; mret (i32 v, ap).

(** [while (--width > 0) putch(padc)] *)
Definition pad_before (width padc : Z) : M S unit :=
  mloop ADDRS (fun w => let w := i32 (w - 1) in if 0 <? w then putch padc;; mret (inl w) else mret (inr tt)) width.
(** [for (; width > 0; width--) putch(c)] *)
Definition pad_with (width c : Z) : M S unit :=
  mloop ADDRS (fun w => if 0 <? w then putch c;; mret (inl (w - 1)) else mret (inr tt)) width.

(** The character of 0123456789abcdef *)
Definition hexdigit (d : Z) : Z := if d <? 10 then 48 + d else 87 + d.

(** [n] bounds the depth of the recursion, one call for each digit. *)
Fixpoint printnum (n : nat) (num base width padc : Z) : M S unit :=
  match n with
  | O => wrong
  | Datatypes.S n =>
      (if base <=? num then printnum n (num / base) base (i32 (width - 1)) padc else pad_before width padc);;
      putch (hexdigit (num mod base))
  end.
Definition DIGITS : nat := 64.

(** The digits of a width: the value and the place of the first other character *)
Definition scan_width (fmt ch : Z) : M S (Z * Z) :=
  mloop ADDRS (fun '(fmt, ch, precision) =>
    let precision := i32 (precision * 10 + ch - 48) in
    ch ← ldb fmt;
    let ch := i8 ch in
    if (ch <? 48) || (57 <? ch) then mret (inr (precision, fmt)) else mret (inl (fmt + 1, ch, precision))) (fmt, ch, 0).

Definition process_precision (c : conv) : conv :=
  if width c <? 0 then set_precision (-1) (set_width (precision c) c) else c.

(** The labels from reswitch on that go back to it; the other characters end the loop. *)
Definition reswitch (c : conv) : M S (conv + conv * Z) :=
  ch ← ldb (c_fmt c);
  let c := set_fmt (c_fmt c + 1) c in
  if ch =? 45 then mret (inl (set_padc 45 c))
  else if ch =? 48 then mret (inl (set_padc 48 c))
  else if (49 <=? ch) && (ch <=? 57) then
    '(p, fmt) ← scan_width (c_fmt c) ch;
    mret (inl (process_precision (set_precision p (set_fmt fmt c))))
  else if ch =? 42 then
    '(p, ap) ← va_arg (c_ap c);
    mret (inl (process_precision (set_precision (i32 p) (set_ap ap c))))
  else if ch =? 46 then mret (inl (if width c <? 0 then set_width 0 c else c))
  else if ch =? 35 then mret (inl (set_altflag true c))
  else if ch =? 108 then mret (inl (set_lflag (lflag c + 1) c))
  else mret (inr (c, ch)).

(** The characters of a string, for case 's' *)
Definition string_body (alt : bool) : Z * Z * Z -> M S (Z * Z * Z + Z) := fun '(p, precision, w) =>
  ch ← ldb p;
  let ch := i8 ch in
  if ch =? 0 then mret (inr w)
  else if (precision <? 0) || (0 <=? precision - 1) then
    (if alt && ((ch <? 32) || (126 <? ch)) then putch 63 else putch ch);;
    mret (inl (p + 1, if precision <? 0 then precision else precision - 1, i32 (w - 1)))
  else mret (inr w).

(** case 's' *)
Definition print_string (c : conv) (p : Z) : M S unit :=
  let p := if p =? 0 then lit_null lit else p in
  w ← (if (0 <? width c) && negb (padc c =? 45) then
         n ← strnlen p (u32 (precision c));
         pad_with (i32 (width c - n)) (padc c);;
         mret (Z.min (i32 (width c - n)) 0)
       else mret (width c));
  w ← mloop ADDRS (string_body (altflag c)) (p, precision c, w);
  pad_with w 32.

(** The rewinding of the default case: back to the character after the percent sign *)
Definition rewind (fmt : Z) : M S Z :=
  mloop ADDRS (fun fmt => ch ← ldb (fmt - 1); if ch =? 37 then mret (inr fmt) else mret (inl (fmt - 1))) (fmt - 1).

Definition number (c : conv) (num base : Z) : M S unit := printnum DIGITS num base (width c) (padc c).

(** The conversions, with the formatter itself, for [%e]; the result is the rest of the format and of the arguments. *)
Definition convert (printfmt : Z -> list Z -> M S unit) (c : conv) (ch : Z) : M S (Z * list Z) :=
  let next ap := mret (c_fmt c, ap) in
  if ch =? 99 then '(v, ap) ← va_arg (c_ap c); putch (i32 v);; next ap
  else if ch =? 101 then
    '(v, ap) ← va_arg (c_ap c);
    let err := i32 v in
    let err := if err <? 0 then i32 (- err) else err in
    (if MAXERROR <=? err then printfmt (lit_error lit) [u32 err]
     else if err <? 0 then wrong
     else if error_string lit err =? 0 then printfmt (lit_error lit) [u32 err]
     else printfmt (lit_s lit) [error_string lit err]);;
    next ap
  else if ch =? 115 then '(p, ap) ← va_arg (c_ap c); print_string c p;; next ap
  else if ch =? 100 then
    '(num, ap) ← getint (c_ap c) (lflag c);
    (if num <? 0 then putch 45;; number c (u64 (- num)) 10 else number c (u64 num) 10);;
    next ap
  else if ch =? 117 then '(num, ap) ← getuint (c_ap c) (lflag c); number c num 10;; next ap
  else if ch =? 111 then '(num, ap) ← getuint (c_ap c) (lflag c); number c num 8;; next ap
  else if ch =? 112 then
    putch 48;; putch 120;;
    '(num, ap) ← va_arg (c_ap c); number c num 16;; next ap
  else if ch =? 120 then '(num, ap) ← getuint (c_ap c) (lflag c); number c num 16;; next ap
  else if ch =? 37 then putch 37;; next (c_ap c)
  else putch 37;; fmt ← rewind (c_fmt c); mret (fmt, c_ap c).

(** One round of the loop: a character, or a conversion *)
Definition fmt_body (printfmt : Z -> list Z -> M S unit) : Z * list Z -> M S (Z * list Z + unit) := fun '(fmt, ap) =>
  ch ← ldb fmt;
  let fmt := fmt + 1 in
  if negb (ch =? 37) then
    if ch =? 0 then mret (inr tt) else putch ch;; mret (inl (fmt, ap))
  else
    '(c, ch) ← mloop ADDRS reswitch (mkconv fmt ap 32 (-1) (-1) 0 false);
    r ← convert printfmt c ch;
    mret (inl r).

(** [depth] bounds the calls of the formatter inside itself, of which [%e] needs one. *)
Fixpoint vprintfmt_in (depth : nat) (fmt : Z) (ap : list Z) : M S unit :=
  match depth with
  | O => wrong
  | Datatypes.S depth => mloop ADDRS (fmt_body (vprintfmt_in depth)) (fmt, ap)
  end.
Definition vprintfmt : Z -> list Z -> M S unit := vprintfmt_in 2.
End printfmt.

(** ** Printing to a string *)

(** A program's state with a structure of its own beside the memory *)
#[export] Instance prod_mem {S B} `{Mem S} : Mem (S * B) := {|
  ldb a := fun '(s, b) => match ldb a s with Ok v s => Ok v (s, b) | Abort s => Abort (s, b) | Wrong s => Wrong (s, b) end;
  stb a v := fun '(s, b) => match stb a v s with Ok v s => Ok v (s, b) | Abort s => Abort (s, b) | Wrong s => Wrong (s, b) end;
|}.
(** Run with a structure that is on the stack, and its last value *)
Definition with_local {S B A} (b : B) (m : M (S * B) A) : M S (A * B) := fun s =>
  match m (s, b) with
  | Ok a (s, b) => Ok (a, b) s
  | Abort (s, _) => Abort s
  | Wrong (s, _) => Wrong s
  end.

Record sprintbuf := mksprintbuf {
  sb_buf : Z;
  sb_ebuf : Z;
  sb_cnt : Z;
}.

Section sprintf.
Context {S : Type} `{Hmem : Mem S} (lit : literals).

Definition sprintputch (ch : Z) : M (S * sprintbuf) unit :=
  mmod (fun '(s, b) => (s, mksprintbuf (sb_buf b) (sb_ebuf b) (i32 (sb_cnt b + 1))));;
  b ← mget snd;
  if sb_buf b <? sb_ebuf b then
    stb (sb_buf b) (u8 ch);;
    mmod (fun '(s, b) => (s, mksprintbuf (sb_buf b + 1) (sb_ebuf b) (sb_cnt b)))
  else mret tt.

Definition vsnprintf (buf n fmt : Z) (ap : list Z) : M S Z :=
  if (buf =? 0) || (n <? 1) then mret (- E_INVAL)
  else
    '(_, b) ← with_local (mksprintbuf buf (buf + n - 1) 0) (vprintfmt lit sprintputch fmt ap);
    stb (sb_buf b) 0;;
    mret (sb_cnt b).
Definition snprintf (buf n fmt : Z) (ap : list Z) : M S Z := vsnprintf buf n fmt ap.
End sprintf.

(** ** Printing to the console in user mode ([lib/printf.c]) *)

(** What the kernel has been asked to print, a list for each call of [sys_cputs] *)
Record printbuf := mkprintbuf {
  pb_idx : Z;
  pb_cnt : Z;
  pb_buf : gmap Z Z;
}.
(** The system call, with the bytes of the buffer it reads *)
Definition buf_bytes (buf : gmap Z Z) (n : Z) : list Z := map (fun i => default 0 (buf !! i)) (seqZ 0 n).

Section cprintf.
Context {S : Type} `{Hmem : Mem S} (lit : literals) (sys_cputs : list Z -> M S unit).

Definition lift_state {B A} (m : M S A) : M (S * B) A := fun '(s, b) =>
  match m s with Ok v s => Ok v (s, b) | Abort s => Abort (s, b) | Wrong s => Wrong (s, b) end.

Definition user_putch (ch : Z) : M (S * printbuf) unit :=
  b ← mget snd;
  (if (0 <=? pb_idx b) && (pb_idx b <? 256) then mret tt else wrong);;
  let b := mkprintbuf (pb_idx b + 1) (pb_cnt b) (<[pb_idx b := u8 ch]> (pb_buf b)) in
  b ← (if pb_idx b =? 256 - 1 then
         lift_state (sys_cputs (buf_bytes (pb_buf b) (pb_idx b)));;
         mret (mkprintbuf 0 (pb_cnt b) (pb_buf b))
       else mret b);
  mmod (fun '(s, _) => (s, mkprintbuf (pb_idx b) (i32 (pb_cnt b + 1)) (pb_buf b))).

Definition user_vcprintf (buf : gmap Z Z) (fmt : Z) (ap : list Z) : M S Z :=
  '(_, b) ← with_local (mkprintbuf 0 0 buf) (vprintfmt lit user_putch fmt ap);
  sys_cputs (buf_bytes (pb_buf b) (pb_idx b));;
  mret (pb_cnt b).
Definition user_cprintf (buf : gmap Z Z) (fmt : Z) (ap : list Z) : M S Z := user_vcprintf buf fmt ap.
End cprintf.

(** ** Printing to the console in the kernel ([kern/printf.c]) *)

Section kern_printf.
Context {S : Type} `{Hmem : Mem S} (lit : literals) (cputchar : Z -> M S unit).

(** [*cnt++] moves the local pointer: the count beside the memory stays as it is. *)
Definition kern_putch (ch : Z) : M (S * Z) unit := fun '(s, cnt) =>
  match cputchar ch s with Ok v s => Ok v (s, cnt) | Abort s => Abort (s, cnt) | Wrong s => Wrong (s, cnt) end.
Definition kern_vcprintf (fmt : Z) (ap : list Z) : M S Z :=
  '(_, cnt) ← with_local 0 (vprintfmt lit kern_putch fmt ap);
  mret cnt.
Definition kern_cprintf (fmt : Z) (ap : list Z) : M S Z := kern_vcprintf fmt ap.
End kern_printf.

(** ** Printing to a file descriptor ([lib/fprintf.c]) *)

Record fprintbuf := mkfprintbuf {
  fb_fd : Z;
  fb_idx : Z;
  fb_result : Z;
  fb_error : Z;
  fb_buf : gmap Z Z;
}.

Section fprintf.
Context {S : Type} `{Hmem : Mem S} (lit : literals) (write : Z -> list Z -> M S Z).

Definition writebuf : M (S * fprintbuf) unit :=
  b ← mget snd;
  if 0 <? fb_error b then
    result ← lift_state (write (fb_fd b) (buf_bytes (fb_buf b) (fb_idx b)));
    let b := if 0 <? result then mkfprintbuf (fb_fd b) (fb_idx b) (i32 (fb_result b + result)) (fb_error b) (fb_buf b) else b in
    let b := if result =? fb_idx b then b
             else mkfprintbuf (fb_fd b) (fb_idx b) (fb_result b) (if result <? 0 then result else 0) (fb_buf b) in
    mmod (fun '(s, _) => (s, b))
  else mret tt.

Definition fputch (ch : Z) : M (S * fprintbuf) unit :=
  b ← mget snd;
  (if (0 <=? fb_idx b) && (fb_idx b <? 256) then mret tt else wrong);;
  let b := mkfprintbuf (fb_fd b) (fb_idx b + 1) (fb_result b) (fb_error b) (<[fb_idx b := u8 ch]> (fb_buf b)) in
  mmod (fun '(s, _) => (s, b));;
  if fb_idx b =? 256 then
    writebuf;;
    mmod (fun '(s, b) => (s, mkfprintbuf (fb_fd b) 0 (fb_result b) (fb_error b) (fb_buf b)))
  else mret tt.

Definition vfprintf (buf : gmap Z Z) (fd fmt : Z) (ap : list Z) : M S Z :=
  '(_, b) ← with_local (mkfprintbuf fd 0 0 1 buf)
    (vprintfmt lit fputch fmt ap;; b ← mget snd; mwhen (0 <? fb_idx b) writebuf);
  mret (if truth (fb_result b) then fb_result b else fb_error b).
Definition fprintf (buf : gmap Z Z) (fd fmt : Z) (ap : list Z) : M S Z := vfprintf buf fd fmt ap.
Definition printf (buf : gmap Z Z) (fmt : Z) (ap : list Z) : M S Z := vfprintf buf 1 fmt ap.
End fprintf.
