(* ===== verification/PrintThms.v ===== *)
(** * PrintThms: what formatted output prints

    [format] is the meaning of a format string: the characters it prints for the arguments.  The
    formatter is verified for every way of putting out a character: [P h s] says that the
    characters [h] have been put out so far; [PrintOut] has the buffer of [snprintf], the console
    and the files. *)

From S2P Require Import Prelude Layout UMonad Str StrThms Printfmt.

(** ** The meaning of a format *)

(** Flags, width and precision of a conversion *)
Record spec := mkspec {
  sp_pad : Z;
  sp_width : Z;
  sp_prec : Z;
  sp_long : Z;
  sp_alt : bool;
}.
Definition spec0 : spec := mkspec 32 (-1) (-1) 0 false.
Definition is_digit (c : Z) : bool := (48 <=? c) && (c <=? 57).
(** A number goes to the width, or to the precision when there is a width. *)
Definition set_field (v : Z) (d : spec) : spec :=
  if sp_width d <? 0 then mkspec (sp_pad d) v (-1) (sp_long d) (sp_alt d) else mkspec (sp_pad d) (sp_width d) v (sp_long d) (sp_alt d).

(** What is between the percent sign and the conversion character: that character, the flags, the
    rest of the arguments and of the format.  [num] is the value of the digits being read.
    There is no meaning when an argument is missing or a number is too large. *)
Fixpoint scan (f : list Z) (d : spec) (ap : list Z) (num : option Z) : option (Z * spec * list Z * list Z) :=
  match f with
  | [] => match num with
      | Some v => Some (0, set_field v d, ap, [])
      | None => Some (0, d, ap, [])
      end
  | c :: r =>
      let other d :=
        if c =? 45 then scan r (mkspec 45 (sp_width d) (sp_prec d) (sp_long d) (sp_alt d)) ap None
        else if c =? 48 then scan r (mkspec 48 (sp_width d) (sp_prec d) (sp_long d) (sp_alt d)) ap None
        else if is_digit c then scan r d ap (Some (c - 48))
        else if c =? 42 then
          match ap with
          | [] => None
          | w :: ap => if (i32 w <? - 2^20) || (2^20 <? i32 w) then None else scan r (set_field (i32 w) d) ap None
          end
        else if c =? 46 then scan r (if sp_width d <? 0 then mkspec (sp_pad d) 0 (sp_prec d) (sp_long d) (sp_alt d) else d) ap None
        else if c =? 35 then scan r (mkspec (sp_pad d) (sp_width d) (sp_prec d) (sp_long d) true) ap None
        else if c =? 108 then scan r (mkspec (sp_pad d) (sp_width d) (sp_prec d) (sp_long d + 1) (sp_alt d)) ap None
        else Some (c, d, ap, r) in
      match num with
      | Some v =>
          if is_digit c then if v <? 2^20 then scan r d ap (Some (v * 10 + (c - 48))) else None
          else other (set_field v d)
      | None => other d
      end
  end.

Definition pad (n c : Z) : list Z := replicate (Z.to_nat n) c.
(** The digits of a number, at least one *)
Definition digits (base n : Z) : list Z := if n =? 0 then [48] else numeral base 64 n.
Definition number_text (d : spec) (n base : Z) : list Z :=
  let ds := digits base n in pad (sp_width d - Z.of_nat (length ds)) (sp_pad d) ++ ds.

Definition limit (prec : Z) (l : list Z) : list Z := if prec <? 0 then l else take (Z.to_nat prec) l.
Definition visible (alt : bool) (c : Z) : Z := if alt && ((c <? 32) || (126 <? c)) then 63 else c.
Definition string_text (d : spec) (l : list Z) : list Z :=
  let t := limit (sp_prec d) l in
  let n := sp_width d - Z.of_nat (length t) in
  if (0 <? sp_width d) && negb (sp_pad d =? 45) then pad n (sp_pad d) ++ map (visible (sp_alt d)) t
  else map (visible (sp_alt d)) t ++ pad n 32.

Definition word64 (lo hi : Z) : Z := lo + 2^32 * hi.

(** A number with its arguments: 'd' when [neg], and 'u', 'o' and 'x' *)
Definition number_args (neg : bool) (base : Z) (d : spec) (ap : list Z) : option (list Z * list Z) :=
  let text v (w : Z) := if neg && (v <? 0) then 45 :: number_text d (u64 (- v)) base else number_text d (u64 w) base in
  if 2 <=? sp_long d then match ap with lo :: hi :: ap => Some (text (i64 (word64 lo hi)) (word64 lo hi), ap) | _ => None end
  else match ap with v :: ap => Some (text (i32 v) v, ap) | _ => None end.

Section format.
Context (lit : literals) (str : Z -> option (list Z)).

(** The conversion [ch]: its text and the arguments that are left.  [inner] is the meaning of the formats for [%e]. *)
Definition convert_text (inner : list Z -> list Z -> option (list Z)) (ch : Z) (d : spec) (ap : list Z) : option (list Z * list Z) :=
  if ch =? 99 then match ap with v :: ap => Some ([u8 v], ap) | [] => None end
  else if ch =? 101 then
    match ap with
    | v :: ap =>
        let err := Z.abs (i32 v) in
        if i32 v =? - 2^31 then None
        else
          t ← (if (err <? MAXERROR) && negb (error_string lit err =? 0) then inner [37; 115] [error_string lit err]
               else inner [101; 114; 114; 111; 114; 32; 37; 100] [err]);
          Some (t, ap)
    | [] => None
    end
  else if ch =? 115 then
    match ap with
    | p :: ap => l ← str (if p =? 0 then lit_null lit else p); Some (string_text d l, ap)
    | [] => None
    end
  else if ch =? 100 then number_args true 10 d ap
  else if ch =? 117 then number_args false 10 d ap
  else if ch =? 111 then number_args false 8 d ap
  else if ch =? 112 then match ap with v :: ap => Some (48 :: 120 :: number_text d v 16, ap) | [] => None end
  else if ch =? 120 then number_args false 16 d ap
  else if ch =? 37 then Some ([37], ap)
  else None.

Definition known (ch : Z) : bool :=
  existsb (Z.eqb ch) [99; 101; 115; 100; 117; 111; 112; 120; 37].

(** The text of a format.  An unknown conversion is printed as it stands.  [n] bounds the length of the format. *)
Fixpoint format_with (inner : list Z -> list Z -> option (list Z)) (n : nat) (f : list Z) (ap : list Z) : option (list Z) :=
  match n with
  | O => match f with [] => Some [] | _ => None end
  | Datatypes.S n =>
      match f with
      | [] => Some []
      | c :: r =>
          if negb (c =? 37) then t ← format_with inner n r ap; Some (c :: t)
          else
            '(ch, d, ap, r') ← scan r spec0 ap None;
            if known ch then
              '(t, ap) ← convert_text inner ch d ap;
              t' ← format_with inner n r' ap;
              Some (t ++ t')
            else t' ← format_with inner n r ap; Some (37 :: t')
      end
  end.
Fixpoint format_in (depth : nat) (f : list Z) (ap : list Z) : option (list Z) :=
  format_with (match depth with O => fun _ _ => None | Datatypes.S depth => format_in depth end) (length f) f ap.
Definition format : list Z -> list Z -> option (list Z) := format_in 1.
End format.

(** ** Emitting characters *)

Section emits.
Context {S : Type} `{Hmem : Mem S} `{Hlaws : !MemLaws S} (lit : literals) (putch : Z -> M S unit).
Context (str : Z -> option (list Z)) (P : list Z -> S -> Prop).
Hypothesis P_put : forall h s c, P h s -> exists s', putch c s = Ok tt s' /\ P (h ++ [u8 c]) s'.
Hypothesis P_reads : forall h s s', P h s -> reads s s' -> P h s'.
Hypothesis P_str : forall h s a l, P h s -> str a = Some l -> cstr s a l.
Hypothesis str_short : forall a l, str a = Some l -> Z.of_nat (length l) < 2^30.

(** [m] puts out the characters [out] and returns [a]. *)
Definition emits {A} (m : M S A) (out : list Z) (a : A) : Prop :=
  forall h s, P h s -> exists s', m s = Ok a s' /\ P (h ++ out) s'.

Lemma emits_ret {A} (a : A) : emits (mret a) [] a.
Proof. intros h s HP. exists s. by rewrite app_nil_r. Qed.
Lemma emits_put c : emits (putch c) [u8 c] tt.
Proof. intros h s HP. by apply P_put. Qed.
Lemma emits_bind {A B} (m : M S A) (k : A -> M S B) o1 o2 a b :
  emits m o1 a -> emits (k a) o2 b -> emits (m ≫= k) (o1 ++ o2) b.
Proof.
  intros H1 H2 h s HP. destruct (H1 h s HP) as (s1 & E1 & P1). destruct (H2 _ _ P1) as (s2 & E2 & P2). exists s2.
  rewrite (bind_Ok _ _ _ _ _ E1), app_assoc. done.
Qed.
Lemma emits_silent {A B} (m : M S A) (k : A -> M S B) o a b : emits m [] a -> emits (k a) o b -> emits (m ≫= k) o b.
Proof. apply emits_bind. Qed.
Lemma emits_then {B} c (k : unit -> M S B) o b : emits (k tt) o b -> emits (putch c ≫= k) (u8 c :: o) b.
Proof. intros Hk. by apply (emits_bind _ _ [u8 c] o tt), Hk; apply emits_put. Qed.
Lemma emits_loop {A R} (n : nat) (body : A -> M S (A + R)) x out v :
  Z.of_nat n <= 2^32 -> emits (msteps n body x) out (inr v) -> emits (mloop ADDRS body x) out v.
Proof. intros Hn H h s HP. destruct (H h s HP) as (s' & E & HP'). exists s'. split; [|done]. by apply (mloop_ADDRS body n). Qed.
Lemma emits_next {A R} (n : nat) (body : A -> M S (A + R)) x y o1 o2 r :
  emits (body x) o1 (inl y) -> emits (msteps n body y) o2 r -> emits (msteps (1 + n) body x) (o1 ++ o2) r.
Proof. intros H1 H2. exact (emits_bind _ _ _ _ _ _ H1 H2). Qed.
Lemma emits_done {A R} (n : nat) (body : A -> M S (A + R)) x out v :
  emits (body x) out (inr v) -> emits (msteps (1 + n) body x) out (inr v).
Proof. intros H h s HP. destruct (H h s HP) as (s' & E & HP'). exists s'. split; [|done]. by apply (msteps_done body n). Qed.

Lemma emits_ldb a pre c r : str a = Some (pre ++ c :: r) -> emits (ldb (a + Z.of_nat (length pre))) [] c.
Proof.
  intros Hs h s HP. destruct (P_str _ _ _ _ HP Hs) as [Hb _]. rewrite <- app_assoc in Hb. apply bytes_at_app in Hb as [_ Hb].
  apply bytes_at_cons in Hb as [Hv _]. destruct (load _ _ _ Hv) as (s' & E & R). exists s'. rewrite app_nil_r. eauto.
Qed.
Lemma emits_ldb_end a l : str a = Some l -> emits (ldb (a + Z.of_nat (length l))) [] 0.
Proof.
  intros Hs h s HP. destruct (load _ _ _ (cstr_end _ _ _ (P_str _ _ _ _ HP Hs))) as (s' & E & R). exists s'. rewrite app_nil_r. eauto.
Qed.

(** ** Padding and numbers *)

Lemma pad_with_ok c w : w < 2^31 -> emits (pad_with putch w c) (pad w (u8 c)) tt.
Proof.
  intros Hw. apply (emits_loop (Z.to_nat w + 1)); [lia|]. unfold pad. remember (Z.to_nat w) as n eqn:Hn. revert w Hw Hn.
  induction n as [|n IH]; intros w Hw Hn.
  - apply emits_done. rewrite (proj2 (Z.ltb_ge _ _)) by lia. apply emits_ret.
  - cbn [replicate]. apply (emits_next (n + 1) _ _ (w - 1) [u8 c]); [|apply IH; lia].
    rewrite (proj2 (Z.ltb_lt _ _)) by lia. apply emits_then, emits_ret.
Qed.

Lemma pad_before_ok c w : - 2^31 < w < 2^31 -> emits (pad_before putch w c) (pad (w - 1) (u8 c)) tt.
Proof.
  intros Hw. apply (emits_loop (Z.to_nat (w - 1) + 1)); [lia|]. unfold pad. remember (Z.to_nat (w - 1)) as n eqn:Hn. revert w Hw Hn.
  induction n as [|n IH]; intros w Hw Hn.
  - apply emits_done. rewrite i32_small, (proj2 (Z.ltb_ge _ _)) by lia. apply emits_ret.
  - cbn [replicate]. apply (emits_next (n + 1) _ _ (w - 1) [u8 c]); [|apply IH; lia].
    rewrite i32_small, (proj2 (Z.ltb_lt _ _)) by lia. apply emits_then, emits_ret.
Qed.

Lemma dchar_hex d : dchar d = hexdigit d.
Proof. done. Qed.
Lemma hexdigit_u8 d : 0 <= d < 16 -> u8 (hexdigit d) = hexdigit d.
Proof. intros Hd. unfold hexdigit. destruct (Z.ltb_spec d 10); rewrite u8_small; lia. Qed.

Lemma emits_digit d : 0 <= d < 16 -> emits (putch (hexdigit d)) [hexdigit d] tt.
Proof. intros Hd. pose proof (emits_put (hexdigit d)) as H. by rewrite hexdigit_u8 in H. Qed.

Definition digits_in (n : nat) (base num : Z) : list Z := if num =? 0 then [48] else numeral base n num.

Lemma printnum_ok base c (n : nat) : forall num w,
  2 <= base <= 16 -> 0 <= num < base ^ Z.of_nat n -> (0 < n)%nat -> - 2^31 + Z.of_nat n < w < 2^31 ->
  emits (printnum putch n num base w c) (pad (w - Z.of_nat (length (digits_in n base num))) (u8 c) ++ digits_in n base num) tt.
Proof.
  induction n as [|n IH]; intros num w Hb Hn H0 Hw; [lia|]. cbn [printnum]. assert (Hm := Z.mod_pos_bound num base ltac:(lia)).
  destruct (Z.leb_spec base num) as [Hge|Hlt].
  - assert (Hq : 1 <= num / base) by (apply Z.div_le_lower_bound; lia).
    assert (Hq' : num / base < base ^ Z.of_nat n) by (apply Z.div_lt_upper_bound; [lia|]; rewrite Nat2Z.inj_succ, Z.pow_succ_r in Hn by lia; lia).
    assert (Hn0 : (0 < n)%nat) by (destruct n; [simpl in Hq'; lia|lia]).
    assert (Hd : digits_in (Datatypes.S n) base num = digits_in n base (num / base) ++ [hexdigit (num mod base)]).
    { unfold digits_in. rewrite (proj2 (Z.eqb_neq num 0)), (proj2 (Z.eqb_neq (num / base) 0)) by lia. by rewrite numeral_pos by lia. }
    rewrite Hd, length_app. cbn [length]. rewrite app_assoc. apply (emits_bind _ _ _ _ tt).
    + rewrite i32_small by lia. replace (w - Z.of_nat (length (digits_in n base (num / base)) + 1)) with (w - 1 - Z.of_nat (length (digits_in n base (num / base)))) by lia.
      apply IH; lia.
    + apply emits_digit. lia.
  - assert (Hd : digits_in (Datatypes.S n) base num = [hexdigit num]).
    { unfold digits_in. destruct (Z.eqb_spec num 0) as [->|Hne]; [done|]. rewrite numeral_pos by lia. rewrite Z.div_small, Z.mod_small, numeral_0 by lia. done. }
    rewrite Hd. cbn [length]. apply (emits_bind _ _ _ _ tt); [apply pad_before_ok; lia|].
    rewrite Z.mod_small by lia. apply emits_digit. lia.
Qed.

Lemma number_ok c num base :
  In base [8; 10; 16] -> 0 <= num < 2^64 -> - 2^30 < width c < 2^31 -> u8 (padc c) = padc c ->
  emits (number putch c num base) (number_text (mkspec (padc c) (width c) (precision c) (lflag c) (altflag c)) num base) tt.
Proof.
  intros Hb Hn Hw Hp. unfold number, number_text, digits. cbn [sp_width sp_pad]. rewrite <- Hp at 2. change (if num =? 0 then [48] else numeral base 64 num) with (digits_in 64 base num).
  assert (2 <= base <= 16) by (destruct Hb as [<-|[<-|[<-|[]]]]; lia).
  apply printnum_ok; unfold DIGITS; try lia.
Qed.

(** ** Strings *)

Lemma i8_byte c : 0 <= c < 256 -> i8 c = if c <? 128 then c else c - 256.
Proof. intros Hc. unfold i8. destruct (Z.ltb_spec c 128); Z.div_mod_to_equations; lia. Qed.
Lemma u8_i8 c : 0 <= c < 256 -> u8 (i8 c) = c.
Proof. intros Hc. rewrite i8_byte by done. unfold u8. destruct (Z.ltb_spec c 128); Z.div_mod_to_equations; lia. Qed.
Lemma i8_nonzero c : 0 <= c < 256 -> c <> 0 -> i8 c <> 0.
Proof. intros Hc. rewrite i8_byte by done. destruct (Z.ltb_spec c 128); lia. Qed.
Lemma visible_i8 alt c : 0 <= c < 256 -> u8 (if alt && ((i8 c <? 32) || (126 <? i8 c)) then 63 else i8 c) = visible alt c.
Proof.
  intros Hc. unfold visible. assert (Hi := i8_byte c Hc). destruct alt; cbn [andb]; [|by apply u8_i8].
  replace ((i8 c <? 32) || (126 <? i8 c)) with ((c <? 32) || (126 <? c)).
  - destruct ((c <? 32) || (126 <? c)); [done|by apply u8_i8].
  - rewrite Hi. destruct (Z.ltb_spec c 128); [done|]. rewrite (proj2 (Z.ltb_lt 126 c)), (proj2 (Z.ltb_lt (c - 256) 32)) by lia. by rewrite orb_true_r.
Qed.

(** A string is made of bytes other than zero, as long as something has been put out at all. *)
Hypothesis P_init : exists h s, P h s.
Lemma str_bytes a l c : str a = Some l -> c ∈ l -> 0 <= c < 256 /\ c <> 0.
Proof.
  intros Hs Hc. destruct P_init as (h & s & HP). destruct (P_str _ _ _ _ HP Hs) as [Hb Hz]. split.
  - apply (bytes_at_range s a (l ++ [0])); [done|]. apply elem_of_app. by left.
  - intros ->. done.
Qed.
Lemma str_head a pre c r : str a = Some (pre ++ c :: r) -> 0 <= c < 256 /\ c <> 0.
Proof. intros Hs. apply (str_bytes a _ c Hs). apply elem_of_app. right. left. Qed.

Lemma strnlen_ok a l size :
  str a = Some l -> 0 <= size < 2^32 -> emits (strnlen a size) [] (Z.min (Z.of_nat (length l)) size).
Proof.
  intros Hs Hsz. assert (Hlen := str_short a l Hs). apply (emits_loop (length l + 1)); [lia|].
  assert (H : forall r pre, pre ++ r = l -> Z.of_nat (length pre) <= size ->
    emits (msteps (length r + 1) (fun '(s, size, n) =>
      if 0 <? size then c ← ldb s; if c =? 0 then mret (inr n) else mret (inl (s + 1, size - 1, i32 (n + 1)))
      else mret (inr n)) (a + Z.of_nat (length pre), size - Z.of_nat (length pre), Z.of_nat (length pre))) []
      (inr (Z.min (Z.of_nat (length l)) size))).
  { induction r as [|c r IH]; intros pre Hl Hle.
    - apply emits_done. rewrite app_nil_r in Hl. subst pre. destruct (Z.ltb_spec 0 (size - Z.of_nat (length l))).
      + eapply emits_silent; [by apply emits_ldb_end|]. cbn [Z.eqb]. rewrite Z.min_l by lia. apply emits_ret.
      + replace (Z.min (Z.of_nat (length l)) size) with (Z.of_nat (length l)) by lia. apply emits_ret.
    - assert (Hll := f_equal length Hl). rewrite length_app in Hll. cbn [length] in Hll. rewrite <- Hl in Hs.
      destruct (Z.ltb_spec 0 (size - Z.of_nat (length pre))) as [Hlt|Hge].
      + apply (emits_next (length r + 1) _ _ (a + Z.of_nat (length (pre ++ [c])), size - Z.of_nat (length (pre ++ [c])), Z.of_nat (length (pre ++ [c]))) [] []).
        * rewrite (proj2 (Z.ltb_lt _ _)) by lia. eapply emits_silent; [by eapply emits_ldb|].
          rewrite (proj2 (Z.eqb_neq _ _)) by (by eapply str_head). rewrite i32_small by lia. rewrite length_app. cbn [length].
          replace (a + Z.of_nat (length pre) + 1) with (a + Z.of_nat (length pre + 1)) by lia.
          replace (size - Z.of_nat (length pre) - 1) with (size - Z.of_nat (length pre + 1)) by lia.
          replace (Z.of_nat (length pre) + 1) with (Z.of_nat (length pre + 1)) by lia. apply emits_ret.
        * apply IH; [by rewrite <- app_assoc|rewrite length_app; cbn [length]; lia].
      + cbn [length]. apply emits_done. rewrite (proj2 (Z.ltb_ge _ _)) by lia.
        replace (Z.min (Z.of_nat (length l)) size) with (Z.of_nat (length pre)) by lia. apply emits_ret. }
  pose proof (H l [] eq_refl) as H'. cbn [length] in H'. change (Z.of_nat 0) with 0 in H'. rewrite Z.add_0_r, Z.sub_0_r in H'. apply H'. lia.
Qed.

Definition spec_of (c : conv) : spec := mkspec (padc c) (width c) (precision c) (lflag c) (altflag c).
(** The numbers the formatter works with are small enough. *)
Definition sane (c : conv) : Prop := - 2^29 < width c < 2^30 /\ - 2^29 < precision c < 2^30 /\ u8 (padc c) = padc c.

Lemma string_loop alt a l : str a = Some l -> forall r pre prec w, pre ++ r = l -> prec < 2^30 -> - 2^31 < w < 2^30 ->
  emits (msteps (length r + 1) (string_body putch alt) (a + Z.of_nat (length pre), prec, w + Z.of_nat (length r))) (map (visible alt) (limit prec r))
    (inr (w + Z.of_nat (length r) - Z.of_nat (length (limit prec r)))).
Proof.
  intros Hs. assert (Hlen := str_short a l Hs). induction r as [|c r IH]; intros pre prec w Hl Hp Hw.
  - replace (limit prec []) with (@nil Z) by (unfold limit; destruct (prec <? 0); [done|by rewrite take_nil]). apply emits_done.
    rewrite app_nil_r in Hl. subst pre. eapply emits_silent; [by apply emits_ldb_end|]. cbn [length]. replace (w + Z.of_nat 0) with w by lia.
    replace (w - Z.of_nat 0) with w by lia. apply emits_ret.
  - assert (Hll := f_equal length Hl). rewrite length_app in Hll. cbn [length] in *. rewrite <- Hl in Hs. destruct (str_head a pre c r Hs) as [Hb Hz].
    assert (Hi := i8_nonzero c Hb Hz). destruct ((prec <? 0) || (0 <=? prec - 1)) eqn:Hgo.
    + assert (Hlim : limit prec (c :: r) = c :: limit (if prec <? 0 then prec else prec - 1) r).
      { unfold limit. destruct (Z.ltb_spec prec 0) as [Hn|Hn]; [by rewrite (proj2 (Z.ltb_lt _ _) Hn)|]. cbn [orb] in Hgo. apply Z.leb_le in Hgo.
        rewrite (proj2 (Z.ltb_ge _ _)) by lia. replace (Z.to_nat prec) with (Datatypes.S (Z.to_nat (prec - 1))) by lia. done. }
      rewrite Hlim. cbn [map length]. apply (emits_next (length r + 1) _ _ (a + Z.of_nat (length (pre ++ [c])), if prec <? 0 then prec else prec - 1, w + Z.of_nat (length r)) [visible alt c]).
      * eapply emits_silent; [by eapply emits_ldb|]. cbv zeta. rewrite (proj2 (Z.eqb_neq _ _) Hi), Hgo. rewrite <- (app_nil_r [visible alt c]).
        apply (emits_bind _ _ _ _ tt); [rewrite <- visible_i8 by done; destruct (alt && _); apply emits_put|].
        rewrite i32_small by lia. rewrite length_app. cbn [length]. replace (a + Z.of_nat (length pre) + 1) with (a + Z.of_nat (length pre + 1)) by lia.
        replace (w + Z.of_nat (Datatypes.S (length r)) - 1) with (w + Z.of_nat (length r)) by lia. apply emits_ret.
      * rewrite Hl in Hs. specialize (IH (pre ++ [c]) (if prec <? 0 then prec else prec - 1) w).
        replace (w + Z.of_nat (Datatypes.S (length r)) - Z.of_nat (Datatypes.S (length (limit (if prec <? 0 then prec else prec - 1) r))))
          with (w + Z.of_nat (length r) - Z.of_nat (length (limit (if prec <? 0 then prec else prec - 1) r))) by lia.
        apply IH; [by rewrite <- app_assoc|destruct (prec <? 0); lia|lia].
    + apply orb_false_iff in Hgo as [Hn%Z.ltb_ge H1%Z.leb_gt]. assert (prec = 0) as -> by lia. change (limit 0 (c :: r)) with (@nil Z). cbn [map length].
      apply emits_done. eapply emits_silent; [by eapply emits_ldb|]. cbv zeta. rewrite (proj2 (Z.eqb_neq _ _) Hi). change ((0 <? 0) || (0 <=? 0 - 1)) with false. cbv iota.
      replace (w + Z.of_nat (Datatypes.S (length r)) - Z.of_nat 0) with (w + Z.of_nat (Datatypes.S (length r))) by lia. apply emits_ret.
Qed.

Lemma limit_length prec l : prec < 2^32 -> - 2^31 < prec -> Z.of_nat (length l) < 2^31 -> Z.of_nat (length (limit prec l)) = Z.min (Z.of_nat (length l)) (u32 prec).
Proof.
  intros H1 H2 Hl. unfold limit. destruct (Z.ltb_spec prec 0).
  - replace (u32 prec) with (prec + 2^32) by (unfold u32; Z.div_mod_to_equations; lia). lia.
  - rewrite u32_small, length_take by lia. lia.
Qed.

Lemma print_string_ok c p l :
  sane c -> str (if p =? 0 then lit_null lit else p) = Some l -> emits (print_string lit putch c p) (string_text (spec_of c) l) tt.
Proof.
  intros (Hw & Hp & Hpad) Hs. unfold print_string, string_text, spec_of. cbn [sp_width sp_prec sp_pad sp_alt]. set (a := if p =? 0 then lit_null lit else p) in *.
  assert (Hlen := str_short a l Hs). set (t := limit (precision c) l). assert (Ht := limit_length (precision c) l ltac:(lia) ltac:(lia) ltac:(lia)). fold t in Ht.
  assert (Hle : Z.of_nat (length t) <= Z.of_nat (length l)) by lia.
  assert (Hloop : forall w, - 2^30 <= w < 2^30 -> emits (mloop ADDRS (string_body putch (altflag c)) (a, precision c, w)) (map (visible (altflag c)) t) (w - Z.of_nat (length t))).
  { intros w Hw'. pose proof (string_loop (altflag c) a l Hs l [] (precision c) (w - Z.of_nat (length l)) eq_refl ltac:(lia) ltac:(lia)) as H.
    replace (w - Z.of_nat (length l) + Z.of_nat (length l)) with w in H by lia. cbn [length] in H. rewrite Z.add_0_r in H.
    apply (emits_loop (length l + 1)); [lia|exact H]. }
  destruct ((0 <? width c) && negb (padc c =? 45)) eqn:Hw0.
  - apply andb_true_iff in Hw0 as [Hw0%Z.ltb_lt _]. rewrite <- (app_nil_r (map _ t)). eapply emits_bind.
    + eapply emits_silent; [apply strnlen_ok; [exact Hs|apply u32_range]|]. rewrite <- Ht. rewrite <- (app_nil_r (pad _ _)). apply (emits_bind _ _ _ _ tt).
      * rewrite i32_small by lia. rewrite <- Hpad at 2. apply pad_with_ok. lia.
      * apply emits_ret.
    + rewrite i32_small by lia. eapply emits_bind; [apply Hloop; lia|].
      replace (@nil Z) with (pad (Z.min (width c - Z.of_nat (length t)) 0 - Z.of_nat (length t)) (u8 32)) by (unfold pad; by rewrite Z2Nat.nonpos by lia).
      apply pad_with_ok. lia.
  - eapply emits_silent; [apply emits_ret|]. eapply emits_bind; [apply Hloop; lia|]. change 32 with (u8 32) at 2. apply pad_with_ok. lia.
Qed.

(** ** Flags, width and precision *)

Lemma emits_le {A R} (m n : nat) (body : A -> M S (A + R)) x out v :
  (m <= n)%nat -> emits (msteps m body x) out (inr v) -> emits (msteps n body x) out (inr v).
Proof. intros Hm H h s HP. destruct (H h s HP) as (s' & E & HP'). exists s'. split; [|done]. by apply (msteps_le body m). Qed.

Lemma is_digit_range c : is_digit c = true -> 48 <= c <= 57.
Proof. unfold is_digit. rewrite andb_true_iff, !Z.leb_le. done. Qed.

Definition digit_value (v : Z) (ds : list Z) : Z := foldl (fun v c => v * 10 + (c - 48)) v ds.
Definition no_digit (r : list Z) : Prop := match r with [] => True | c :: _ => is_digit c = false end.

Lemma scan_digits r d ap res : forall v,
  scan r d ap (Some v) = Some res -> 0 <= v < 2^24 ->
  exists ds r1, r = ds ++ r1 /\ Forall (fun c => is_digit c = true) ds /\ no_digit r1 /\ 0 <= digit_value v ds < 2^24 /\
    scan r1 (set_field (digit_value v ds) d) ap None = Some res /\ forall k, (k <= length ds)%nat -> 0 <= digit_value v (take k ds) < 2^24.
Proof.
  induction r as [|c r IH]; intros v Hs Hv.
  - exists [], []. split; [done|]. split; [constructor|]. split; [done|]. split; [done|]. split; [exact Hs|]. intros k Hk. by rewrite take_nil.
  - cbn [scan] in Hs. destruct (is_digit c) eqn:Hc.
    + destruct (Z.ltb_spec v (2^20)) as [Hlt|]; [|done]. pose proof (is_digit_range c Hc).
      destruct (IH (v * 10 + (c - 48)) Hs) as (ds & r1 & -> & Hds & Hr1 & Hb & Hsc & Hk); [lia|].
      exists (c :: ds), r1. split; [done|]. split; [by constructor|]. split; [done|]. split; [done|]. split; [done|]. intros [|k] Hle; [done|]. apply Hk. cbn [length] in Hle. lia.
    + exists [], (c :: r). split; [done|]. split; [constructor|]. split; [done|]. split; [done|]. split; [cbn [scan digit_value foldl]; rewrite Hc; exact Hs|]. intros k Hk. by rewrite take_nil.
Qed.

Lemma scan_width_loop a l r1 : str a = Some l -> forall ds pre ch p,
  l = pre ++ ds ++ r1 -> Forall (fun c => is_digit c = true) ds -> no_digit r1 ->
  (forall k, (k <= length ds)%nat -> 0 <= digit_value (p * 10 + ch - 48) (take k ds) < 2^24) ->
  emits (msteps (length ds + 1) (fun '(fmt, ch, precision) =>
    let precision := i32 (precision * 10 + ch - 48) in
    ch ← ldb fmt;
    let ch := i8 ch in
    if (ch <? 48) || (57 <? ch) then mret (inr (precision, fmt)) else mret (inl (fmt + 1, ch, precision))) (a + Z.of_nat (length pre), ch, p)) []
    (inr (digit_value (p * 10 + ch - 48) ds, a + Z.of_nat (length pre) + Z.of_nat (length ds))).
Proof.
  intros Hs. induction ds as [|c ds IH]; intros pre ch p Hl Hds Hr1 Hk.
  - apply emits_done. pose proof (Hk 0%nat ltac:(lia)) as H0. cbn [take digit_value foldl] in *. cbv zeta. rewrite i32_small by lia. cbn [length app] in *. rewrite Z.add_0_r.
    destruct r1 as [|c r1].
    + rewrite app_nil_r in Hl. subst pre. eapply emits_silent; [by apply emits_ldb_end|]. apply emits_ret.
    + eapply emits_silent; [eapply emits_ldb; rewrite Hs, Hl; done|]. rewrite Hl in Hs. destruct (str_head _ _ _ _ Hs) as [Hb Hz].
      replace ((i8 c <? 48) || (57 <? i8 c)) with true; [apply emits_ret|]. simpl in Hr1. unfold is_digit in Hr1. rewrite i8_byte by done.
      apply andb_false_iff in Hr1. rewrite !Z.leb_gt in Hr1. symmetry. apply orb_true_iff. rewrite !Z.ltb_lt. destruct (Z.ltb_spec c 128); lia.
  - inversion_clear Hds as [|? ? Hc Hds']. pose proof (is_digit_range c Hc). pose proof (Hk 0%nat ltac:(lia)) as H0. cbn [take digit_value foldl] in H0.
    apply (emits_next (length ds + 1) _ _ (a + Z.of_nat (length (pre ++ [c])), c, p * 10 + ch - 48) [] []).
    + cbv zeta. rewrite i32_small by lia. eapply emits_silent; [eapply emits_ldb; rewrite Hs, Hl; done|]. rewrite i8_byte by lia.
      rewrite (proj2 (Z.ltb_lt c 128)), (proj2 (Z.ltb_ge c 48)), (proj2 (Z.ltb_ge 57 c)) by lia. cbn [orb].
      rewrite length_app. cbn [length]. replace (a + Z.of_nat (length pre) + 1) with (a + Z.of_nat (length pre + 1)) by lia. apply emits_ret.
    + assert (He : (p * 10 + ch - 48) * 10 + c - 48 = (p * 10 + ch - 48) * 10 + (c - 48)) by lia.
      specialize (IH (pre ++ [c]) c (p * 10 + ch - 48)). rewrite He in IH. cbn [digit_value foldl]. rewrite length_app in IH. cbn [length] in IH |- *.
      replace (a + Z.of_nat (length pre) + Z.of_nat (Datatypes.S (length ds))) with (a + Z.of_nat (length pre + 1) + Z.of_nat (length ds)) by lia.
      rewrite length_app. cbn [length]. apply IH; [by rewrite <- app_assoc|done|done|]. intros k Hk'. apply (Hk (Datatypes.S k)). cbn [length]. lia.
Qed.

Definition arg (w : Z) : Prop := 0 <= w < 2^32.

(** From [r] on, after [pre], the formatter finds the conversion [res]. *)
Definition found (a : Z) (pre r : list Z) (c : conv) (res : Z * spec * list Z * list Z) : Prop :=
  let '(ch, d', ap', r') := res in
  exists c' mid, emits (msteps (length r + 1) reswitch c) [] (inr (c', ch)) /\ spec_of c' = d' /\ c_ap c' = ap' /\ sane c' /\ Forall arg ap' /\
    37 ∉ mid /\ c_fmt c' = a + Z.of_nat (length (pre ++ mid)) + 1 /\ (r = mid /\ ch = 0 /\ r' = [] \/ r = mid ++ ch :: r').

Lemma found_step a pre con r c c1 res :
  con <> [] -> 37 ∉ con -> emits (reswitch c) [] (inl c1) -> found a (pre ++ con) r c1 res -> found a pre (con ++ r) c res.
Proof.
  destruct res as [[[ch d'] ap'] r']. intros Hne Hcon He (c' & mid & E & H1 & H2 & H3 & H4 & H5 & H6 & H7). exists c', (con ++ mid).
  split_and!; try done.
  - apply (emits_le (1 + (length r + 1))); [rewrite length_app; destruct con; [done|cbn [length]; lia]|]. exact (emits_next _ _ _ _ [] [] _ He E).
  - by apply not_elem_of_app.
  - by rewrite app_assoc.
  - destruct H7 as [(-> & ? & ?)| ->]; [left|right]; [done|by rewrite app_assoc].
Qed.

Lemma process_spec p c : spec_of (process_precision (set_precision p c)) = set_field p (spec_of c).
Proof. unfold process_precision, set_field, spec_of. cbn. by destruct (width c <? 0). Qed.
Lemma process_sane p c : sane c -> - 2^29 < p < 2^30 -> sane (process_precision (set_precision p c)).
Proof. intros (H1 & H2 & H3) Hp. unfold process_precision, sane. cbn. destruct (width c <? 0); cbn; (split_and!; lia || done). Qed.
Lemma process_fmt p c : c_fmt (process_precision (set_precision p c)) = c_fmt c /\ c_ap (process_precision (set_precision p c)) = c_ap c.
Proof. unfold process_precision. cbn. by destruct (width c <? 0). Qed.

Lemma reswitch_char a pre ch r c (K : Z -> M S (conv + conv * Z)) x :
  str a = Some (pre ++ ch :: r) -> c_fmt c = a + Z.of_nat (length pre) -> emits (K ch) [] x ->
  emits (ch ← ldb (c_fmt c); K ch) [] x.
Proof. intros Hs Hf HK. rewrite Hf. eapply emits_silent; [by eapply emits_ldb|done]. Qed.

Local Ltac sane_flag := unfold sane; cbn [width precision padc set_padc set_width set_altflag set_lflag set_fmt set_ap]; split_and!; first [done | lia | reflexivity].

Lemma scan_conv_ok a (n : nat) : forall r pre c res,
  (length r < n)%nat -> str a = Some (pre ++ r) -> c_fmt c = a + Z.of_nat (length pre) -> sane c -> Forall arg (c_ap c) ->
  scan r (spec_of c) (c_ap c) None = Some res -> found a pre r c res.
Proof.
  induction n as [|n IH]; intros r pre c res Hn Hs Hf Hsane Hap Hsc; [lia|]. destruct r as [|ch r].
  - injection Hsc as <-. exists (set_fmt (c_fmt c + 1) c), []. rewrite app_nil_r in Hs |- *. split_and!; try done; [|apply not_elem_of_nil|cbn; lia|by left].
    apply emits_done. unfold reswitch. rewrite Hf. eapply emits_silent; [by apply emits_ldb_end|]. apply emits_ret.
  - assert (Hs' : str a = Some ((pre ++ [ch]) ++ r)) by (by rewrite <- app_assoc). destruct (str_head _ _ _ _ Hs) as [Hb Hz]. cbn [length] in Hn.
    assert (Hgo : forall c1, emits (reswitch c) [] (inl c1) -> ch <> 37 -> c_fmt c1 = c_fmt c + 1 -> sane c1 -> Forall arg (c_ap c1) ->
      scan r (spec_of c1) (c_ap c1) None = Some res -> found a pre (ch :: r) c res).
    { intros c1 He H37 Hf1 Hsa1 Hap1 Hsc1. apply (found_step a pre [ch] r c c1); [done|by rewrite list_elem_of_singleton|done|].
      apply IH; try done; [lia|]. rewrite Hf1, Hf, length_app. cbn [length]. lia. }
    cbn [scan] in Hsc. assert (Hst := reswitch_char a pre ch r c). unfold reswitch in Hgo. destruct Hsane as (Sw & Sp & Sc).
    destruct (Z.eqb_spec ch 45) as [->|H45]; [eapply Hgo; [eapply Hst; [done|done|apply emits_ret]|lia|done|sane_flag|done|exact Hsc]|].
    destruct (Z.eqb_spec ch 48) as [->|H48]; [eapply Hgo; [eapply Hst; [done|done|apply emits_ret]|lia|done|sane_flag|done|exact Hsc]|].
    destruct (is_digit ch) eqn:Hd.
    { clear Hgo. pose proof (is_digit_range ch Hd). destruct (scan_digits r (spec_of c) (c_ap c) res (ch - 48) Hsc) as (ds & r1 & -> & Hds & Hr1 & Hv & Hsc1 & Hk); [lia|].
      assert (Hcon : 37 ∉ ch :: ds). { apply not_elem_of_cons. split; [lia|]. intros Hin. rewrite Forall_forall in Hds. apply Hds in Hin. done. }
      pose (c0 := set_fmt (c_fmt c + 1) c). set (v := digit_value (ch - 48) ds) in *.
      set (c1 := process_precision (set_precision v (set_fmt (a + Z.of_nat (length (pre ++ [ch])) + Z.of_nat (length ds)) c0))).
      destruct (process_fmt v (set_fmt (a + Z.of_nat (length (pre ++ [ch])) + Z.of_nat (length ds)) c0)) as [P1 P2]. fold c1 in P1, P2.
      apply (found_step a pre (ch :: ds) r1 c c1); [done|done| |].
      - unfold reswitch. eapply Hst; [done|done|]. rewrite (proj2 (Z.eqb_neq _ _) H45), (proj2 (Z.eqb_neq _ _) H48).
        rewrite (proj2 (Z.leb_le 49 ch)), (proj2 (Z.leb_le ch 57)) by lia. cbn [andb].
        apply (emits_silent _ _ _ (v, a + Z.of_nat (length (pre ++ [ch])) + Z.of_nat (length ds))); [|apply emits_ret]. change (c_fmt (set_fmt (c_fmt c + 1) c)) with (c_fmt c + 1). unfold v.
        replace (c_fmt c + 1) with (a + Z.of_nat (length (pre ++ [ch]))) by (rewrite Hf, length_app; cbn [length]; lia).
        apply (emits_loop (length ds + 1)).
        { pose proof (str_short _ _ Hs). rewrite !length_app in *. cbn [length] in *. rewrite length_app in *. lia. }
        replace (ch - 48) with (0 * 10 + ch - 48) in * by lia. apply (scan_width_loop a _ r1 Hs'); [by rewrite <- app_assoc|done|done|done].
      - apply IH; [rewrite length_app in Hn; lia|by rewrite <- app_assoc| | |by rewrite P2|].
        + rewrite P1. cbn. rewrite !length_app. cbn [length]. lia.
        + apply process_sane; [unfold c0; sane_flag|lia].
        + rewrite P2. unfold c1. rewrite process_spec. exact Hsc1. }
    assert (Hnd : (49 <=? ch) && (ch <=? 57) = false) by (unfold is_digit in Hd; apply andb_false_iff in Hd; apply andb_false_iff; rewrite !Z.leb_gt in *; lia).
    assert (Hgo' : forall c1, emits (if ch =? 42 then '(p, ap) ← va_arg (c_ap (set_fmt (c_fmt c + 1) c));
          mret (inl (process_precision (set_precision (i32 p) (set_ap ap (set_fmt (c_fmt c + 1) c)))))
        else if ch =? 46 then mret (inl (if width (set_fmt (c_fmt c + 1) c) <? 0 then set_width 0 (set_fmt (c_fmt c + 1) c) else set_fmt (c_fmt c + 1) c))
        else if ch =? 35 then mret (inl (set_altflag true (set_fmt (c_fmt c + 1) c)))
        else if ch =? 108 then mret (inl (set_lflag (lflag (set_fmt (c_fmt c + 1) c) + 1) (set_fmt (c_fmt c + 1) c)))
        else mret (inr (set_fmt (c_fmt c + 1) c, ch))) [] c1 -> emits (reswitch c) [] c1).
    { intros c1 He. unfold reswitch. eapply Hst; [done|done|]. rewrite (proj2 (Z.eqb_neq _ _) H45), (proj2 (Z.eqb_neq _ _) H48), Hnd. exact He. }
    destruct (Z.eqb_spec ch 42) as [->|H42].
    { destruct (c_ap c) as [|w ap] eqn:Hapc; [done|]. inversion_clear Hap as [|? ? Hw Hap']. destruct ((i32 w <? - 2^20) || (2^20 <? i32 w)) eqn:Hr; [done|].
      apply orb_false_iff in Hr as [Hr1%Z.ltb_ge Hr2%Z.ltb_ge]. destruct (process_fmt (i32 w) (set_ap ap (set_fmt (c_fmt c + 1) c))) as [P1 P2].
      eapply Hgo; [apply Hgo'; eapply (emits_silent _ _ _ (w, ap)); [unfold va_arg; cbn; rewrite Hapc; apply emits_ret|apply emits_ret]|lia|by rewrite P1|apply process_sane; [sane_flag|lia]|by rewrite P2|].
      rewrite P2, process_spec. exact Hsc. }
    destruct (Z.eqb_spec ch 46) as [->|H46].
    { eapply Hgo; [apply Hgo', emits_ret|lia|cbn; by destruct (width c <? 0)|cbn [width set_fmt]; destruct (width c <? 0); sane_flag|cbn; by destruct (width c <? 0)|].
      cbn. change (sp_width (spec_of c)) with (width c) in Hsc. by destruct (width c <? 0). }
    destruct (Z.eqb_spec ch 35) as [->|H35]; [eapply Hgo; [apply Hgo', emits_ret|lia|done|sane_flag|done|exact Hsc]|].
    destruct (Z.eqb_spec ch 108) as [->|H108]; [eapply Hgo; [apply Hgo', emits_ret|lia|done|sane_flag|done|exact Hsc]|].
    injection Hsc as <-. exists (set_fmt (c_fmt c + 1) c), []. split_and!; try done; [|apply not_elem_of_nil|rewrite app_nil_r; cbn; lia|by right].
    apply emits_done, Hgo', emits_ret.
Qed.

(** ** Conversions *)

Lemma rewind_ok a l pre mid r :
  str a = Some l -> l = pre ++ 37 :: mid ++ r -> 37 ∉ mid ->
  emits (rewind (a + Z.of_nat (length (pre ++ 37 :: mid)) + 1)) [] (a + Z.of_nat (length (pre ++ [37]))).
Proof.
  intros Hs Hl Hm. assert (Hlen := str_short a l Hs). assert (Hll := f_equal length Hl). rewrite !length_app in Hll. cbn [length] in Hll. rewrite length_app in Hll.
  unfold rewind. replace (a + Z.of_nat (length (pre ++ 37 :: mid)) + 1 - 1) with (a + Z.of_nat (length (pre ++ 37 :: mid))) by lia.
  apply (emits_loop (length mid + 1)); [lia|]. clear Hll. revert r Hl. induction mid as [|c mid IH] using rev_ind; intros r Hl.
  - apply emits_done. replace (a + Z.of_nat (length (pre ++ [37])) - 1) with (a + Z.of_nat (length pre)) by (rewrite length_app; cbn [length]; lia).
    eapply emits_silent; [eapply emits_ldb; rewrite Hs, Hl; done|]. apply emits_ret.
  - apply not_elem_of_app in Hm as [Hm Hc%not_elem_of_cons]. rewrite !length_app. cbn [length]. rewrite length_app. cbn [length].
    replace (length mid + 1 + 1)%nat with (1 + (length mid + 1))%nat by lia.
    apply (emits_next (length mid + 1) _ _ (a + Z.of_nat (length (pre ++ 37 :: mid))) [] []).
    + replace (a + Z.of_nat (length pre + Datatypes.S (length mid + 1)) - 1) with (a + Z.of_nat (length (pre ++ 37 :: mid))) by (rewrite length_app; cbn [length]; lia).
      assert (Hl2 : l = (pre ++ 37 :: mid) ++ c :: r) by (rewrite Hl, <- !app_assoc; done). eapply emits_silent; [eapply emits_ldb; rewrite Hs, Hl2; done|].
      rewrite (proj2 (Z.eqb_neq c 37)) by (destruct Hc; congruence). apply emits_ret.
    + assert (H := IH Hm (c :: r)). rewrite !length_app in *. cbn [length] in *. apply H. rewrite Hl. by rewrite <- app_assoc.
Qed.

Context (inner : list Z -> list Z -> option (list Z)) (pf : Z -> list Z -> M S unit).
Hypothesis inner_ok : forall a f args out, str a = Some f -> Forall arg args -> inner f args = Some out -> emits (pf a args) out tt.
Hypothesis lit_error_ok : str (lit_error lit) = Some [101; 114; 114; 111; 114; 32; 37; 100].
Hypothesis lit_s_ok : str (lit_s lit) = Some [37; 115].
Hypothesis error_string_ok : forall e, arg (error_string lit e).

Lemma number_conv c num base (k : M S (Z * list Z)) r :
  sane c -> In base [8; 10; 16] -> 0 <= num < 2^64 -> emits k [] r ->
  emits (number putch c num base;; k) (number_text (spec_of c) num base) r.
Proof.
  intros (H1 & H2 & H3) Hb Hn Hk. rewrite <- (app_nil_r (number_text _ _ _)). apply (emits_bind _ _ _ _ tt); [|done]. apply number_ok; (done || lia).
Qed.

Lemma getuint_ok ap lf v ap' :
  (if 2 <=? lf then match ap with lo :: hi :: r => Some (word64 lo hi, r) | _ => None end else match ap with w :: r => Some (w, r) | _ => None end) = Some (v, ap') ->
  Forall arg ap -> emits (getuint ap lf) [] (v, ap') /\ 0 <= v < 2^64 /\ Forall arg ap'.
Proof.
  intros H Ha. unfold getuint. destruct (2 <=? lf).
  - destruct ap as [|lo [|hi r]]; [done|done|]. injection H as <- <-. inversion_clear Ha as [|? ? H1 Ha1]. inversion_clear Ha1 as [|? ? H2 Ha2]. unfold arg in *.
    split; [|split; [unfold word64; lia|done]]. eapply (emits_silent _ _ _ (lo, hi :: r)); [apply emits_ret|]. eapply (emits_silent _ _ _ (hi, r)); apply emits_ret.
  - destruct ap as [|w r]; [done|]. injection H as <- <-. inversion_clear Ha as [|? ? H1 Ha1]. unfold arg in *. split; [apply emits_ret|]. split; [lia|done].
Qed.

Lemma getint_ok ap lf v ap' :
  (if 2 <=? lf then match ap with lo :: hi :: r => Some (i64 (word64 lo hi), r) | _ => None end else match ap with w :: r => Some (i32 w, r) | _ => None end) = Some (v, ap') ->
  Forall arg ap -> emits (getint ap lf) [] (v, ap') /\ - 2^63 <= v < 2^63 /\ Forall arg ap'.
Proof.
  intros H Ha. unfold getint. destruct (2 <=? lf).
  - destruct ap as [|lo [|hi r]]; [done|done|]. injection H as <- <-. inversion_clear Ha as [|? ? H1 Ha1]. inversion_clear Ha1 as [|? ? H2 Ha2].
    split; [|split; [unfold i64; pose proof (Z.mod_pos_bound (word64 lo hi + 2^63) (2^64)); lia|done]].
    apply (emits_silent _ _ _ (word64 lo hi, r)); [|apply emits_ret]. eapply (emits_silent _ _ _ (lo, hi :: r)); [apply emits_ret|]. eapply (emits_silent _ _ _ (hi, r)); apply emits_ret.
  - destruct ap as [|w r]; [done|]. injection H as <- <-. inversion_clear Ha as [|? ? H1 Ha1]. pose proof (i32_range w).
    split; [|split; [lia|done]]. apply (emits_silent _ _ _ (w, r)); apply emits_ret.
Qed.

Lemma unsigned_ok c base t ap' :
  sane c -> Forall arg (c_ap c) -> In base [8; 10; 16] -> number_args false base (spec_of c) (c_ap c) = Some (t, ap') ->
  emits ('(num, ap) ← getuint (c_ap c) (lflag c); number putch c num base;; mret (c_fmt c, ap)) t (c_fmt c, ap') /\ Forall arg ap'.
Proof.
  intros Hs Ha Hb Ht. unfold number_args in Ht. cbn [sp_long spec_of andb] in Ht. pose proof (getuint_ok (c_ap c) (lflag c)) as Hg. destruct (2 <=? lflag c).
  - destruct (c_ap c) as [|lo [|hi r]]; [done|done|]. injection Ht as <- <-. destruct (Hg _ _ eq_refl Ha) as (E & Hv & Ha'). split; [|done].
    eapply emits_silent; [exact E|]. rewrite (Z.mod_small _ _ Hv : u64 _ = _). apply number_conv; [done..|apply emits_ret].
  - destruct (c_ap c) as [|w r]; [done|]. injection Ht as <- <-. destruct (Hg _ _ eq_refl Ha) as (E & Hv & Ha'). split; [|done].
    eapply emits_silent; [exact E|]. rewrite (Z.mod_small _ _ Hv : u64 _ = _). apply number_conv; [done..|apply emits_ret].
Qed.

Lemma u64_signed v w : v = i64 w \/ v = i32 w /\ arg w -> 0 <= v -> u64 v = u64 w.
Proof. unfold arg, u64, i64, i32. intros [->|[-> Hw]] Hv; Z.div_mod_to_equations; lia. Qed.

Lemma signed_text c v w (r : list Z) :
  sane c -> - 2^63 <= v < 2^63 -> v = i64 w \/ v = i32 w /\ arg w ->
  emits ((if v <? 0 then putch 45;; number putch c (u64 (- v)) 10 else number putch c (u64 v) 10);; mret (c_fmt c, r))
    (if v <? 0 then 45 :: number_text (spec_of c) (u64 (- v)) 10 else number_text (spec_of c) (u64 w) 10) (c_fmt c, r).
Proof.
  intros Hs Hv Hw. assert (H64 : forall x, 0 <= u64 x < 2^64) by (intros; apply Z.mod_pos_bound; lia). destruct (Z.ltb_spec v 0).
  - rewrite <- (app_nil_r (45 :: _)). apply (emits_bind _ _ _ _ tt); [|apply emits_ret]. apply emits_then. destruct Hs as (S1 & S2 & S3). apply number_ok; try done; [by right; left|lia].
  - rewrite (u64_signed v w Hw) by done. apply number_conv; [done|by right; left|done|apply emits_ret].
Qed.

Lemma signed_ok c t ap' :
  sane c -> Forall arg (c_ap c) -> number_args true 10 (spec_of c) (c_ap c) = Some (t, ap') ->
  emits ('(num, ap) ← getint (c_ap c) (lflag c);
    (if num <? 0 then putch 45;; number putch c (u64 (- num)) 10 else number putch c (u64 num) 10);; mret (c_fmt c, ap)) t (c_fmt c, ap') /\ Forall arg ap'.
Proof.
  intros Hs Ha Ht. unfold number_args in Ht. cbn [sp_long spec_of andb] in Ht. pose proof (getint_ok (c_ap c) (lflag c)) as Hg. destruct (2 <=? lflag c).
  - destruct (c_ap c) as [|lo [|hi r]]; [done|done|]. injection Ht as <- <-. destruct (Hg _ _ eq_refl Ha) as (E & Hv & Ha'). split; [|done].
    eapply emits_silent; [exact E|]. apply signed_text; [done|done|by left].
  - destruct (c_ap c) as [|w r]; [done|]. inversion_clear Ha as [|? ? Hw Ha1]. injection Ht as <- <-. destruct (Hg _ _ eq_refl ltac:(by constructor)) as (E & Hv & Ha'). split; [|done].
    eapply emits_silent; [exact E|]. apply signed_text; [done|done|by right].
Qed.

Lemma error_ok v (t ap : list Z) :
  arg v -> (if i32 v =? - 2^31 then None
    else t ← (if (Z.abs (i32 v) <? MAXERROR) && negb (error_string lit (Z.abs (i32 v)) =? 0) then inner [37; 115] [error_string lit (Z.abs (i32 v))]
              else inner [101; 114; 114; 111; 114; 32; 37; 100] [Z.abs (i32 v)]); Some (t, ap)) = Some (t, ap) ->
  emits (let err := i32 v in let err := if err <? 0 then i32 (- err) else err in
    if MAXERROR <=? err then pf (lit_error lit) [u32 err]
    else if err <? 0 then wrong
    else if error_string lit err =? 0 then pf (lit_error lit) [u32 err]
    else pf (lit_s lit) [error_string lit err]) t tt.
Proof.
  intros Hv Ht. pose proof (i32_range v). destruct (Z.eqb_spec (i32 v) (- 2^31)) as [|Hne]; [done|]. cbv zeta.
  replace (if i32 v <? 0 then i32 (- i32 v) else i32 v) with (Z.abs (i32 v)) by (destruct (Z.ltb_spec (i32 v) 0); [rewrite (i32_small (- i32 v)) by lia|]; lia).
  set (e := Z.abs (i32 v)) in *. assert (He : 0 <= e < 2^31) by lia. rewrite u32_small by lia. rewrite (proj2 (Z.ltb_ge e 0)) by lia. rewrite Z.leb_antisym.
  assert (Hf : forall f args, (t0 ← inner f args; Some (t0, ap)) = Some (t, ap) -> inner f args = Some t) by (intros f args; destruct (inner f args); [by intros [= ->]|done]).
  destruct (e <? MAXERROR); cbn [negb andb] in *.
  - destruct (Z.eqb_spec (error_string lit e) 0); cbn [negb] in Ht; (eapply inner_ok; [done| |by apply Hf]).
    + repeat constructor; lia.
    + constructor; [apply error_string_ok|constructor].
  - eapply inner_ok; [done| |by apply Hf]. repeat constructor; lia.
Qed.

Lemma convert_ok c ch t ap' :
  sane c -> Forall arg (c_ap c) -> known ch = true -> convert_text lit str inner ch (spec_of c) (c_ap c) = Some (t, ap') ->
  emits (convert lit putch pf c ch) t (c_fmt c, ap') /\ Forall arg ap'.
Proof.
  intros Hs Ha Hk Ht. unfold convert, convert_text in *. cbv zeta.
  assert (Harg : forall v r (K : Z -> list Z -> M S (Z * list Z)) out x, emits (K v r) out x -> emits ('(v, ap) ← va_arg (v :: r); K v ap) out x).
  { intros v r K out x HK. apply (emits_silent _ _ _ (v, r)); [apply emits_ret|done]. }
  destruct (ch =? 99).
  { destruct (c_ap c) as [|v r] eqn:Hc; [done|]. injection Ht as <- <-. inversion_clear Ha as [|? ? Hv Ha']. split; [|done]. apply (Harg v r).
    replace (u8 v) with (u8 (i32 v)) by (unfold u8, i32; Z.div_mod_to_equations; lia). apply emits_then, emits_ret. }
  destruct (ch =? 101).
  { destruct (c_ap c) as [|v r] eqn:Hc; [done|]. inversion_clear Ha as [|? ? Hv Ha']. assert (r = ap') as ->.
    { unfold mbind, option_bind in Ht. repeat case_match; by simplify_eq. }
    split; [|done]. apply (Harg v ap'). rewrite <- (app_nil_r t). apply (emits_bind _ _ _ _ tt); [by apply (error_ok v t ap')|apply emits_ret]. }
  destruct (ch =? 115).
  { destruct (c_ap c) as [|p r] eqn:Hc; [done|]. inversion_clear Ha as [|? ? Hv Ha']. destruct (str (if p =? 0 then lit_null lit else p)) as [l|] eqn:Hl; [|done]. injection Ht as <- <-. split; [|done].
    apply (Harg p r). rewrite <- (app_nil_r (string_text _ _)). apply (emits_bind _ _ _ _ tt); [by apply print_string_ok|apply emits_ret]. }
  destruct (ch =? 100); [by apply signed_ok|].
  destruct (ch =? 117); [apply unsigned_ok; try done; by right; left|].
  destruct (ch =? 111); [apply unsigned_ok; try done; by left|].
  destruct (ch =? 112).
  { destruct (c_ap c) as [|v r] eqn:Hc; [done|]. injection Ht as <- <-. inversion_clear Ha as [|? ? Hv Ha']. unfold arg in Hv. split; [|done]. apply (emits_then 48), (emits_then 120).
    apply (Harg v r). apply number_conv; [done|by right; right; left|lia|apply emits_ret]. }
  destruct (ch =? 120); [apply unsigned_ok; try done; by right; right; left|].
  destruct (ch =? 37); [|done]. injection Ht as <- <-. split; [|done]. apply (emits_then 37), emits_ret.
Qed.

Lemma convert_unknown a l pre mid r c ch :
  str a = Some l -> l = pre ++ 37 :: mid ++ r -> 37 ∉ mid -> c_fmt c = a + Z.of_nat (length (pre ++ 37 :: mid)) + 1 -> known ch = false ->
  emits (convert lit putch pf c ch) [37] (a + Z.of_nat (length (pre ++ [37])), c_ap c).
Proof.
  intros Hs Hl Hm Hf Hk. unfold known in Hk. cbn [existsb] in Hk. rewrite !orb_false_iff in Hk. destruct Hk as (H1 & H2 & H3 & H4 & H5 & H6 & H7 & H8 & H9 & _).
  unfold convert. cbv zeta. rewrite H1, H2, H3, H4, H5, H6, H7, H8, H9. apply (emits_then 37). eapply emits_silent; [rewrite Hf; by eapply rewind_ok|apply emits_ret].
Qed.

Lemma fmt_loop a (n : nat) : forall r pre ap t,
  str a = Some (pre ++ r) -> Forall arg ap -> format_with lit str inner n r ap = Some t ->
  emits (msteps (n + 1) (fmt_body lit putch pf) (a + Z.of_nat (length pre), ap)) t (inr tt).
Proof.
  assert (Hend : forall k pre ap, str a = Some pre -> emits (msteps (1 + k) (fmt_body lit putch pf) (a + Z.of_nat (length pre), ap)) [] (inr tt)).
  { intros k pre ap Hs. apply emits_done. unfold fmt_body. eapply emits_silent; [apply (emits_ldb_end _ _ Hs)|]. apply emits_ret. }
  assert (Hnext : forall (pre : list Z) c, a + Z.of_nat (length pre) + 1 = a + Z.of_nat (length (pre ++ [c]))) by (intros; rewrite length_app; cbn [length]; lia).
  induction n as [|n IH]; intros r pre ap t Hs Ha Ht.
  { destruct r; [|done]. injection Ht as <-. rewrite app_nil_r in Hs. by apply (Hend 0%nat). }
  destruct r as [|c r]; [injection Ht as <-; rewrite app_nil_r in Hs; by apply (Hend (n + 1)%nat)|]. cbn [format_with] in Ht.
  assert (Hs' : str a = Some ((pre ++ [c]) ++ r)) by (by rewrite <- app_assoc). destruct (str_head _ _ _ _ Hs) as [Hb Hz].
  destruct (Z.eqb_spec c 37) as [->|Hc]; cbn [negb] in Ht.
  - destruct (scan r spec0 ap None) as [[[[ch d] ap1] r1]|] eqn:Hsc; [|done]. cbn [mbind option_bind] in Ht.
    destruct (scan_conv_ok a (Datatypes.S (length r)) r (pre ++ [37]) (mkconv (a + Z.of_nat (length (pre ++ [37]))) ap 32 (-1) (-1) 0 false) (ch, d, ap1, r1))
      as (c' & mid & E & Hd & Hap & Hsane & Ha1 & Hmid & Hfmt & Hr); [lia|done|done|unfold sane; cbn; split_and!; (lia || done)|done|done|].
    assert (Hlen := str_short _ _ Hs). rewrite length_app in Hlen. cbn [length] in Hlen.
    assert (Hbody : forall t1 x, emits (convert lit putch pf c' ch) t1 x -> emits (fmt_body lit putch pf (a + Z.of_nat (length pre), ap)) t1 (inl x)).
    { intros t1 x Hcv. unfold fmt_body. eapply emits_silent; [exact (emits_ldb _ _ _ _ Hs)|]. cbv zeta. change (negb (37 =? 37)) with false. cbv iota. rewrite (Hnext pre 37).
      eapply (emits_silent _ _ _ (c', ch)); [apply (emits_loop (length r + 1)); [lia|exact E]|]. rewrite <- (app_nil_r t1). eapply emits_bind; [exact Hcv|apply emits_ret]. }
    subst d ap1. destruct (known ch) eqn:Hk.
    + destruct (convert_text lit str inner ch (spec_of c') (c_ap c')) as [[t1 ap2]|] eqn:Hcv; [|done]. cbn [mbind option_bind] in Ht.
      destruct (format_with lit str inner n r1 ap2) as [t2|] eqn:Ht2; [|done]. injection Ht as <-. destruct (convert_ok c' ch t1 ap2 Hsane Ha1 Hk Hcv) as [Ec Ha2].
      apply (emits_next (n + 1) _ _ (c_fmt c', ap2)); [by apply Hbody|]. destruct Hr as [(-> & -> & ->)| ->]; [done|].
      specialize (IH r1 ((pre ++ [37]) ++ mid ++ [ch]) ap2 t2). rewrite Hfmt. rewrite (Hnext ((pre ++ [37]) ++ mid) ch). rewrite <- (app_assoc (pre ++ [37])). apply IH; [|done|done].
      rewrite Hs'. f_equal. rewrite <- !app_assoc. done.
    + destruct (format_with lit str inner n r (c_ap c')) as [t2|] eqn:Ht2; [|done]. injection Ht as <-.
      apply (emits_next (n + 1) _ _ (a + Z.of_nat (length (pre ++ [37])), c_ap c') [37]); [|exact (IH r (pre ++ [37]) _ _ Hs' Ha1 Ht2)]. apply Hbody.
      assert (Hmid' : exists r0, r = mid ++ r0) by (destruct Hr as [(-> & _)| ->]; [exists []; by rewrite app_nil_r|eauto]). destruct Hmid' as [r0 ->].
      eapply (convert_unknown a _ pre mid r0 c' ch Hs eq_refl Hmid); [|done]. rewrite Hfmt, <- app_assoc. done.
  - destruct (format_with lit str inner n r ap) as [t1|] eqn:Ht1; [|done]. injection Ht as <-.
    apply (emits_next (n + 1) _ _ (a + Z.of_nat (length (pre ++ [c])), ap) [c]); [|exact (IH r (pre ++ [c]) _ _ Hs' Ha Ht1)]. unfold fmt_body. eapply emits_silent; [exact (emits_ldb _ _ _ _ Hs)|]. cbv zeta.
    rewrite (proj2 (Z.eqb_neq _ _) Hc), (proj2 (Z.eqb_neq _ _) Hz). cbn [negb]. rewrite (Hnext pre c). pose proof (emits_put c) as Hput. rewrite u8_small in Hput by done.
    rewrite <- (app_nil_r [c]). apply (emits_bind _ _ _ _ tt); [done|apply emits_ret].
Qed.

Lemma fmt_ok a f ap t :
  str a = Some f -> Forall arg ap -> format_with lit str inner (length f) f ap = Some t -> emits (mloop ADDRS (fmt_body lit putch pf) (a, ap)) t tt.
Proof.
  intros Hs Ha Ht. apply (emits_loop (length f + 1)); [pose proof (str_short _ _ Hs); lia|]. pose proof (fmt_loop a (length f) f [] ap t Hs Ha Ht) as H.
  cbn [length] in H. by rewrite Z.add_0_r in H.
Qed.
End emits.

(** ** The formatter *)

(** The strings of the program: [str a] is the one at address [a].  The constants are among them. *)
Record constants (lit : literals) (str : Z -> option (list Z)) : Prop := {
  const_short a l : str a = Some l -> Z.of_nat (length l) < 2^30;
  const_error : str (lit_error lit) = Some [101; 114; 114; 111; 114; 32; 37; 100];
  const_s : str (lit_s lit) = Some [37; 115];
  const_table e : arg (error_string lit e);
}.

Section formatter.
Context {S : Type} `{Hmem : Mem S} `{Hlaws : !MemLaws S} (lit : literals) (putch : Z -> M S unit).
Context (str : Z -> option (list Z)) (P : list Z -> S -> Prop).
Hypothesis P_put : forall h s c, P h s -> exists s', putch c s = Ok tt s' /\ P (h ++ [u8 c]) s'.
Hypothesis P_reads : forall h s s', P h s -> reads s s' -> P h s'.
Hypothesis P_str : forall h s a l, P h s -> str a = Some l -> cstr s a l.
Hypothesis Hconst : constants lit str.

Lemma vprintfmt_in_eq depth a ap : vprintfmt_in lit putch (Datatypes.S depth) a ap = mloop ADDRS (fmt_body lit putch (vprintfmt_in lit putch depth)) (a, ap).
Proof. reflexivity. Qed.
Definition inner_of (depth : nat) : list Z -> list Z -> option (list Z) := match depth with O => fun _ _ => None | Datatypes.S depth => format_in lit str depth end.
Lemma format_in_eq depth f ap : format_in lit str depth f ap = format_with lit str (inner_of depth) (length f) f ap.
Proof. by destruct depth. Qed.

Lemma vprintfmt_in_ok depth : forall a f ap out,
  (exists h s, P h s) -> str a = Some f -> Forall arg ap -> format_in lit str depth f ap = Some out ->
  emits P (vprintfmt_in lit putch (Datatypes.S depth) a ap) out tt.
Proof.
  destruct Hconst as [H1 H2 H3 H4]. induction depth as [|depth IH]; intros a f ap out Hi Hs Ha Ht; rewrite vprintfmt_in_eq; rewrite format_in_eq in Ht.
  all: refine (fmt_ok lit putch str P P_put P_reads P_str H1 Hi (inner_of _) _ _ H2 H3 H4 a f ap out Hs Ha Ht).
  - intros a' f' ap' out' _ _ Hn. discriminate Hn.
  - intros a' f' ap' out' Hs' Ha' Ht'. exact (IH a' f' ap' out' Hi Hs' Ha' Ht').
Qed.

(** Every character of the meaning of the format is put out, and nothing else. *)
Lemma vprintfmt_ok a f ap out h s :
  P h s -> str a = Some f -> Forall arg ap -> format lit str f ap = Some out ->
  exists s', vprintfmt lit putch a ap s = Ok tt s' /\ P (h ++ out) s'.
Proof. intros HP Hs Ha Hf. apply (vprintfmt_in_ok 1 a f ap out); eauto. Qed.
End formatter.
