(* ===== verification/PrintOut.v ===== *)
(** * PrintOut: where formatted output goes

    [snprintf], [cprintf] in user mode and [fprintf] are the formatter with three ways of putting
    out a character.  Each keeps a structure of its own beside the memory. *)

From S2P Require Import Prelude Layout UMonad Str StrThms Printfmt PrintThms.

(** ** Printing to a string *)

#[export] Instance prod_laws {S B} `{Mem S} `{!MemLaws S} : MemLaws (S * B).
Proof.
  refine {|
    view := fun p => view p.1;
    wr := fun p => wr p.1;
    rest := fun p q => rest p.1 q.1 /\ p.2 = q.2 |}.
  - intros s. split; [apply rest_refl|done].
  - intros s1 s2 s3 [H1 E1] [H2 E2]. split; [by eapply rest_trans|congruence].
  - intros s s' a [Hr _]. by apply wr_rest.
  - intros s a. apply wr_view.
  - intros s a b. apply view_byte.
  - intros [s x] a b Hv. destruct (ldb_ok s a b Hv) as (s' & E & Hr & Hv'). exists (s', x). split; [|done]. cbn. by rewrite E.
  - intros [s x] a b Hw. destruct (stb_ok s a b Hw) as (s' & E & Hr & Hv'). exists (s', x). split; [|done]. cbn. by rewrite E.
Defined.

Lemma prod_reads {S B} `{Mem S} `{!MemLaws S} (s s' : S) (b b' : B) : reads (s, b) (s', b') -> reads s s' /\ b = b'.
Proof. intros [[R E] V]. done. Qed.
Lemma prod_cstr {S B} `{Mem S} `{!MemLaws S} (s : S) (b : B) a l : cstr s a l -> cstr (s, b) a l.
Proof. done. Qed.
Lemma with_local_ok {S B A} (b : B) (m : M (S * B) A) s a s' b' : m (s, b) = Ok a (s', b') -> with_local b m s = Ok (a, b') s'.
Proof. unfold with_local. by intros ->. Qed.

Section snprintf.
Context {S : Type} `{Hmem : Mem S} `{Hlaws : !MemLaws S} (lit : literals) (str : Z -> option (list Z)).
Context (s0 : S) (buf n : Z).
Hypothesis Hconst : constants lit str.
Hypothesis Hbuf : buffer s0 buf n.
Hypothesis Hn : 0 < n < 2^31.
Hypothesis Hstr : forall a l, str a = Some l -> cstr s0 a l /\ forall k, range a (Z.of_nat (length l) + 1) k -> ~ range buf n k.

(** The buffer holds as much of [h] as fits. *)
Definition sprinted (h : list Z) (p : S * sprintbuf) : Prop :=
  let t := take (Z.to_nat (n - 1)) h in
  p.2 = mksprintbuf (buf + Z.of_nat (length t)) (buf + n - 1) (i32 (Z.of_nat (length h))) /\
  touches (range buf n) s0 p.1 /\ bytes_at p.1 buf t.

Lemma sprinted_put h p c : sprinted h p -> exists p', sprintputch c p = Ok tt p' /\ sprinted (h ++ [u8 c]) p'.
Proof.
  destruct p as [s b]. intros (Hb & Ht & Hbytes). cbn [fst snd] in *. subst b. unfold sprintputch, mmod, mget. unfold mbind at 1, M_bind at 1. unfold mbind at 1, M_bind at 1.
  cbn [snd sb_buf sb_ebuf sb_cnt]. unfold sprinted. cbn [fst snd].
  assert (Hc : i32 (i32 (Z.of_nat (length h)) + 1) = i32 (Z.of_nat (length (h ++ [u8 c])))).
  { rewrite length_app. unfold i32. cbn [length]. Z.div_mod_to_equations. lia. }
  destruct (Z.ltb_spec (buf + Z.of_nat (length (take (Z.to_nat (n - 1)) h))) (buf + n - 1)) as [Hl|Hl].
  - rewrite length_take in *. assert (Hk : (length h < Z.to_nat (n - 1))%nat) by lia.
    rewrite (take_ge (h ++ _)) by (rewrite length_app; cbn [length]; lia). rewrite (take_ge h) in Hbytes by lia.
    destruct (store s (buf + Z.of_nat (length h)) (u8 c)) as (s1 & E & Ht1 & Hv); [apply (touches_wr _ _ _ _ Ht), Hbuf; lia|].
    replace (Z.to_nat (n - 1) `min` length h)%nat with (length h) by lia.
    exists (s1, mksprintbuf (buf + Z.of_nat (length h) + 1) (buf + n - 1) (i32 (i32 (Z.of_nat (length h)) + 1))). split.
    { unfold mbind, M_bind. unfold stb at 1, prod_mem. rewrite E. done. }
    cbn [fst snd]. rewrite Hc, length_app. split; [f_equal; cbn [length]; lia|]. split.
    + apply (touches_trans _ _ _ _ Ht). eapply touches_mono; [|exact Ht1]. unfold range. intros. lia.
    + apply bytes_at_app. split; [eapply bytes_at_touches; [exact Ht1|unfold range; intros; lia|done]|].
      apply bytes_at_cons. split; [rewrite Hv, u8_small by apply u8_range; done|by intros k b].
  - rewrite length_take in Hl. assert (Hk : (Z.to_nat (n - 1) <= length h)%nat) by lia. rewrite (take_app_le _ _ _ Hk). eexists. split; [done|]. cbn [fst snd]. by rewrite Hc.
Qed.

Lemma sprinted_start : sprinted [] (s0, mksprintbuf buf (buf + n - 1) 0).
Proof. unfold sprinted. cbn [fst snd]. rewrite take_nil. cbn [length]. rewrite Z.add_0_r. split_and!; [done|apply touches_refl|by intros k b]. Qed.

Lemma sprinted_reads h p p' : sprinted h p -> reads p p' -> sprinted h p'.
Proof.
  destruct p as [s b], p' as [s' b']. intros (E & Ht & Hb) [Hr <-]%prod_reads. split; [done|]. split; [|by eapply bytes_at_reads].
  apply (touches_trans _ _ _ _ Ht). by apply reads_touches.
Qed.

Lemma sprinted_str h p a l : sprinted h p -> str a = Some l -> cstr p a l.
Proof.
  destruct p as [s b]. intros (_ & Ht & _) Hs. destruct (Hstr a l Hs) as [Hc Hd]. apply prod_cstr. eapply cstr_touches; [exact Ht| |exact Hc].
  intros k Hk Hr. by apply (Hd k).
Qed.

End snprintf.

(** ** Buffered output *)

Lemma buf_bytes_snoc buf n c : 0 <= n -> buf_bytes (<[n := c]> buf) (n + 1) = buf_bytes buf n ++ [c].
Proof.
  intros Hn. unfold buf_bytes. rewrite seqZ_app by lia. rewrite map_app. f_equal.
  - apply map_ext_in. intros i Hi%list_elem_of_In%elem_of_seqZ. by rewrite lookup_insert_ne by lia.
  - replace (0 + n) with n by lia. rewrite seqZ_cons by lia. cbn [map]. by rewrite lookup_insert_eq.
Qed.

Section lift.
Context {S B : Type}.
Lemma lift_state_ok {A} (m : M S A) s a s' (b : B) : m s = Ok a s' -> lift_state m (s, b) = Ok a (s', b).
Proof. unfold lift_state. by intros ->. Qed.
End lift.

(** ** The console *)

Section cprintf.
Context {S : Type} `{Hmem : Mem S} `{Hlaws : !MemLaws S} (lit : literals) (str : Z -> option (list Z)) (sys_cputs : list Z -> M S unit).
(** [Q h s]: the console shows [h]. *)
Context (Q : list Z -> S -> Prop).
Hypothesis Hconst : constants lit str.
Hypothesis Q_cputs : forall h s bs, Q h s -> exists s', sys_cputs bs s = Ok tt s' /\ Q (h ++ bs) s'.
Hypothesis Q_reads : forall h s s', Q h s -> reads s s' -> Q h s'.
Hypothesis Q_str : forall h s a l, Q h s -> str a = Some l -> cstr s a l.

(** The console or the buffer has every character of [h], after [g]. *)
Definition cprinted (g h : list Z) (p : S * printbuf) : Prop :=
  exists h0 h1, g ++ h = h0 ++ h1 /\ Q h0 p.1 /\ pb_idx p.2 = Z.of_nat (length h1) /\ Z.of_nat (length h1) < 255 /\
    buf_bytes (pb_buf p.2) (pb_idx p.2) = h1 /\ pb_cnt p.2 = i32 (Z.of_nat (length h)).

Lemma cprinted_put g h p c : cprinted g h p -> exists p', user_putch sys_cputs c p = Ok tt p' /\ cprinted g (h ++ [u8 c]) p'.
Proof.
  destruct p as [s b]. intros (h0 & h1 & E & HQ & Hi & Hl & Hb & Hc). cbn [fst snd] in *. unfold user_putch. rewrite (bind_Ok _ _ _ b (s, b)) by done.
  rewrite (proj2 (Z.leb_le _ _)), (proj2 (Z.ltb_lt _ _)) by lia. cbn [andb]. rewrite (bind_Ok _ _ _ tt (s, b)) by done. cbv zeta. cbn [pb_idx pb_cnt pb_buf].
  assert (Hn : i32 (pb_cnt b + 1) = i32 (Z.of_nat (length (h ++ [u8 c])))).
  { rewrite Hc, length_app. unfold i32. cbn [length]. Z.div_mod_to_equations. lia. }
  assert (Hbuf : buf_bytes (<[pb_idx b := u8 c]> (pb_buf b)) (pb_idx b + 1) = h1 ++ [u8 c]) by (rewrite buf_bytes_snoc by lia; by rewrite Hb).
  destruct (Z.eqb_spec (pb_idx b + 1) (256 - 1)) as [Hf|Hf].
  - rewrite Hbuf. destruct (Q_cputs h0 s (h1 ++ [u8 c]) HQ) as (s1 & E1 & HQ1). rewrite (bind_Ok _ _ _ (mkprintbuf 0 (pb_cnt b) (<[pb_idx b := u8 c]> (pb_buf b))) (s1, b))
      by (rewrite (bind_Ok _ _ _ tt (s1, b)) by (by apply lift_state_ok); done).
    eexists. split; [done|]. exists (h0 ++ h1 ++ [u8 c]), []. cbn [fst snd pb_idx pb_cnt pb_buf length]. rewrite app_nil_r, Hn. split_and!; try done.
    by rewrite !app_assoc, E.
  - rewrite (bind_Ok _ _ _ (mkprintbuf (pb_idx b + 1) (pb_cnt b) (<[pb_idx b := u8 c]> (pb_buf b))) (s, b)) by done.
    eexists. split; [done|]. exists h0, (h1 ++ [u8 c]). cbn [fst snd pb_idx pb_cnt pb_buf]. rewrite Hn, length_app. cbn [length]. split_and!; try done; try lia.
    by rewrite !app_assoc, E.
Qed.

Lemma cprinted_reads g h p p' : cprinted g h p -> reads p p' -> cprinted g h p'.
Proof. destruct p, p'. intros (h0 & h1 & E & HQ & H) [Hr <-]%prod_reads. exists h0, h1. eauto. Qed.
Lemma cprinted_str g h p a l : cprinted g h p -> str a = Some l -> cstr p a l.
Proof. destruct p. intros (h0 & h1 & E & HQ & H) Hs. apply prod_cstr. eauto. Qed.

(**  In user mode [cprintf(fmt, ...)] puts the text of the format on the console, in the order of its
    characters and however many calls of [sys_cputs] it takes, and returns the length of the text. *)
Theorem user_cprintf_correct buf fmt f ap out g s :
  Q g s -> str fmt = Some f -> Forall arg ap -> format lit str f ap = Some out ->
  exists s', user_cprintf lit sys_cputs buf fmt ap s = Ok (i32 (Z.of_nat (length out))) s' /\ Q (g ++ out) s'.
Proof.
  intros HQ Hs Ha Hf. unfold user_cprintf, user_vcprintf.
  destruct (vprintfmt_ok lit (user_putch sys_cputs) str (cprinted g) (cprinted_put g) (cprinted_reads g) (cprinted_str g) Hconst fmt f ap out [] (s, mkprintbuf 0 0 buf))
    as ([s1 b1] & E & h0 & h1 & Eh & HQ1 & Hi & Hl & Hb & Hc); [|done..|].
  { exists g, []. done. }
  cbn [app fst snd] in *. rewrite (bind_Ok _ _ _ _ _ (with_local_ok _ _ _ _ _ _ E)). destruct (Q_cputs h0 s1 h1 HQ1) as (s2 & E2 & HQ2). rewrite Hb.
  rewrite (bind_Ok _ _ _ _ _ E2). exists s2. rewrite Eh. by rewrite Hc.
Qed.
End cprintf.

(** ** The console of the kernel *)

Section kern_cprintf.
Context {S : Type} `{Hmem : Mem S} `{Hlaws : !MemLaws S} (lit : literals) (str : Z -> option (list Z)) (cputchar : Z -> M S unit).
Context (Q : list Z -> S -> Prop).
Hypothesis Hconst : constants lit str.
Hypothesis Q_put : forall h s c, Q h s -> exists s', cputchar c s = Ok tt s' /\ Q (h ++ [u8 c]) s'.
Hypothesis Q_reads : forall h s s', Q h s -> reads s s' -> Q h s'.
Hypothesis Q_str : forall h s a l, Q h s -> str a = Some l -> cstr s a l.

(** The text is on the console, and the result is 0 whatever its length. *)
Lemma kern_cprintf_ok fmt f ap out g s :
  Q g s -> str fmt = Some f -> Forall arg ap -> format lit str f ap = Some out ->
  exists s', kern_cprintf lit cputchar fmt ap s = Ok 0 s' /\ Q (g ++ out) s'.
Proof.
  intros HQ Hs Ha Hf. unfold kern_cprintf, kern_vcprintf.
  destruct (vprintfmt_ok lit (kern_putch cputchar) str (fun h p => Q h p.1 /\ p.2 = 0)) with (a := fmt) (f := f) (ap := ap) (out := out) (h := g) (s := (s, 0)) as ([s1 c1] & E & HQ1 & Hc); try done.
  - intros h [s1 c1] c [HQ1 Hc]. destruct (Q_put h s1 c HQ1) as (s2 & E & HQ2). exists (s2, c1). split; [|done]. cbn. by rewrite E.
  - intros h [s1 c1] [s2 c2] [HQ1 Hc] [Hr <-]%prod_reads. split; [|done]. by eapply Q_reads.
  - intros h [s1 c1] a l [HQ1 _] Hl. apply prod_cstr. by eapply Q_str.
  - cbn [fst snd] in *. subst c1. rewrite (bind_Ok _ _ _ _ _ (with_local_ok _ _ _ _ _ _ E)). by exists s1.
Qed.
End kern_cprintf.

(** ** Files *)

(** The calls of [write], with the bytes and the result of each *)
Notation calls := (list (list Z * Z)).
Definition accepted (c : list Z * Z) : Prop := c.2 = Z.of_nat (length c.1) /\ 0 < c.2 <= 256.
Definition total (g : calls) : Z := foldr (fun c n => Z.max 0 c.2 + n) 0 g.
Definition sent (g : calls) : list Z := concat g.*1.

Lemma sent_app g1 g2 : sent (g1 ++ g2) = sent g1 ++ sent g2.
Proof. unfold sent. by rewrite fmap_app, concat_app. Qed.
Lemma sent_one bs r : sent [(bs, r)] = bs.
Proof. unfold sent. cbn. apply app_nil_r. Qed.
Lemma total_app g1 g2 : total (g1 ++ g2) = total g1 + total g2.
Proof. induction g1 as [|c g IH]; [done|]. cbn [app total foldr]. fold (total (g ++ g2)) (total g). lia. Qed.
Lemma total_one bs r : total [(bs, r)] = Z.max 0 r.
Proof. cbn. lia. Qed.
Lemma total_accepted g : Forall accepted g -> total g = Z.of_nat (length (sent g)).
Proof.
  induction 1 as [|[bs r] g [H1 H2] _ IH]; [done|]. change (total ((bs, r) :: g)) with (Z.max 0 r + total g). change (sent ((bs, r) :: g)) with (bs ++ sent g).
  rewrite length_app. cbn [fst snd] in *. lia.
Qed.

Section fprintf.
Context {S : Type} `{Hmem : Mem S} `{Hlaws : !MemLaws S} (lit : literals) (str : Z -> option (list Z)) (write : Z -> list Z -> M S Z) (fd : Z).
(** [Q g s]: these were the calls of [write]. *)
Context (Q : calls -> S -> Prop).
Hypothesis Hconst : constants lit str.
Hypothesis Q_write : forall g s bs, Q g s ->
  exists r s', write fd bs s = Ok r s' /\ Q (g ++ [(bs, r)]) s' /\ - 2^31 <= r <= Z.of_nat (length bs).
Hypothesis Q_reads : forall g s s', Q g s -> reads s s' -> Q g s'.
Hypothesis Q_str : forall g s a l, Q g s -> str a = Some l -> cstr s a l.

(** The last call was cut short, and the ones before it were not. *)
Definition cut (g : calls) (err : Z) : Prop :=
  exists g' bs r, g = g' ++ [(bs, r)] /\ Forall accepted g' /\ r < Z.of_nat (length bs) /\ err = Z.min r 0.

(** What has been written of [h] *)
Definition wrote_text (h : list Z) (g : calls) (h1 : list Z) (err : Z) : Prop :=
  err = 1 /\ Forall accepted g /\ h = sent g ++ h1 \/ cut g err /\ sent g `prefix_of` h.
Definition fprinted (h : list Z) (p : S * fprintbuf) : Prop :=
  exists g h1, Q g p.1 /\ fb_fd p.2 = fd /\ fb_idx p.2 = Z.of_nat (length h1) /\ buf_bytes (fb_buf p.2) (fb_idx p.2) = h1 /\
    fb_result p.2 = i32 (total g) /\ wrote_text h g h1 (fb_error p.2).

Lemma writebuf_ok h s b g h1 :
  Q g s -> fb_fd b = fd -> fb_idx b = Z.of_nat (length h1) -> 0 < fb_idx b <= 256 -> buf_bytes (fb_buf b) (fb_idx b) = h1 -> fb_result b = i32 (total g) ->
  wrote_text h g h1 (fb_error b) ->
  exists g' s' b', writebuf write (s, b) = Ok tt (s', b') /\ Q g' s' /\ fb_fd b' = fd /\ fb_result b' = i32 (total g') /\ wrote_text h g' [] (fb_error b').
Proof.
  intros HQ Hfd Hi Hr Hb Hres Ho. unfold writebuf. rewrite (bind_Ok _ _ _ b (s, b)) by done. destruct Ho as [(He & Hg & Hh)|(Hc & Hp)].
  - rewrite He, Hb, Hfd. cbn [Z.ltb Z.compare]. destruct (Q_write g s h1 HQ) as (r & s1 & E & HQ1 & Hr1).
    rewrite (bind_Ok _ _ _ r (s1, b)) by (by apply lift_state_ok). cbv zeta.
    set (b1 := if 0 <? r then _ else b).
    assert (H1 : fb_fd b1 = fd /\ fb_idx b1 = fb_idx b /\ fb_error b1 = 1 /\ fb_result b1 = i32 (total (g ++ [(h1, r)]))).
    { rewrite total_app, total_one. unfold b1. destruct (Z.ltb_spec 0 r) as [Hp|Hp]; cbn; split_and!; try done; rewrite Hres.
      - unfold i32. Z.div_mod_to_equations. lia.
      - by rewrite Z.max_l, Z.add_0_r by lia. }
    destruct H1 as (E1 & E2 & E3 & E4). exists (g ++ [(h1, r)]), s1. eexists. split; [done|]. rewrite E2. destruct (Z.eqb_spec r (fb_idx b)) as [Hq|Hq]; cbn.
    + rewrite E3. split_and!; try done. left. rewrite sent_app, sent_one, app_nil_r. split_and!; try done. apply Forall_app. split; [done|]. apply Forall_singleton. split; cbn; lia.
    + split_and!; try done. right. split; [|exists []; by rewrite sent_app, sent_one, app_nil_r]. exists g, h1, r. split_and!; try done; [lia|].
      destruct (Z.ltb_spec r 0); lia.
  - assert (Hle : fb_error b <= 0) by (destruct Hc as (? & ? & ? & _ & _ & _ & ->); lia). rewrite (proj2 (Z.ltb_ge _ _)) by lia.
    exists g, s, b. split_and!; try done. by right.
Qed.

Lemma wrote_text_snoc h g h1 err c : wrote_text h g h1 err -> wrote_text (h ++ [c]) g (h1 ++ [c]) err.
Proof.
  intros [(He & Hg & ->)|[Hc Hp]]; [left; split_and!; try done; by rewrite app_assoc|right]. split; [done|]. by apply prefix_app_r.
Qed.

Lemma fprinted_put h p c :
  fprinted h p /\ fb_idx p.2 < 256 -> exists p', fputch write c p = Ok tt p' /\ fprinted (h ++ [u8 c]) p' /\ fb_idx p'.2 < 256.
Proof.
  destruct p as [s b]. intros [(g & h1 & HQ & Hfd & Hi & Hb & Hres & Ho) Hl]. cbn [fst snd] in *. unfold fputch. rewrite (bind_Ok _ _ _ b (s, b)) by done.
  rewrite (proj2 (Z.leb_le _ _)), (proj2 (Z.ltb_lt _ _)) by lia. cbn [andb]. rewrite (bind_Ok _ _ _ tt (s, b)) by done. cbv zeta. cbn [fb_idx].
  set (b1 := mkfprintbuf _ _ _ _ _). rewrite (bind_Ok _ _ _ tt (s, b1)) by done. apply (wrote_text_snoc _ _ _ _ (u8 c)) in Ho.
  assert (Hb1 : buf_bytes (fb_buf b1) (fb_idx b1) = h1 ++ [u8 c]) by (cbn; rewrite buf_bytes_snoc by lia; by rewrite Hb).
  assert (Hi1 : fb_idx b1 = Z.of_nat (length (h1 ++ [u8 c]))) by (cbn; rewrite length_app; cbn [length]; lia).
  destruct (Z.eqb_spec (fb_idx b + 1) 256) as [Hf|Hf].
  - destruct (writebuf_ok (h ++ [u8 c]) s b1 g (h1 ++ [u8 c])) as (g2 & s2 & b2 & E & HQ2 & Hfd2 & Hres2 & Ho2); try done; [cbn; lia|].
    rewrite (bind_Ok _ _ _ _ _ E). eexists. split; [done|]. split; [|cbn; lia]. exists g2, []. done.
  - eexists. split; [done|]. split; [|cbn; lia]. exists g, (h1 ++ [u8 c]). done.
Qed.

Lemma fprinted_reads h p p' : fprinted h p /\ fb_idx p.2 < 256 -> reads p p' -> fprinted h p' /\ fb_idx p'.2 < 256.
Proof. destruct p, p'. intros [(g & h1 & HQ & H) Hl] [Hr <-]%prod_reads. split; [|done]. exists g, h1. eauto. Qed.
Lemma fprinted_str h p a l : fprinted h p /\ fb_idx p.2 < 256 -> str a = Some l -> cstr p a l.
Proof. destruct p. intros [(g & h1 & HQ & H) Hl] Hs. apply prod_cstr. eauto. Qed.

Lemma flush_ok h p :
  fprinted h p /\ fb_idx p.2 < 256 ->
  exists g s' b', (b ← mget snd; mwhen (0 <? fb_idx b) (writebuf write)) p = Ok tt (s', b') /\ Q g s' /\ fb_result b' = i32 (total g) /\ wrote_text h g [] (fb_error b').
Proof.
  destruct p as [s b]. intros [(g & h1 & HQ & Hfd & Hi & Hb & Hres & Ho) Hl]. cbn [fst snd] in *. rewrite (bind_Ok _ _ _ b (s, b)) by done. unfold mwhen.
  destruct (Z.ltb_spec 0 (fb_idx b)) as [Hp|Hp].
  - destruct (writebuf_ok h s b g h1) as (g2 & s2 & b2 & E & HQ2 & Hfd2 & Hres2 & Ho2); try done; [lia|]. eauto 10.
  - assert (h1 = []) as -> by (apply nil_length_inv; lia). exists g, s, b. done.
Qed.

(** C40.  [fprintf(fd, fmt, ...)] writes the text of the format in pieces of at most 256 bytes.  Either [write]
    takes every piece, and together they are the text; or a write is cut short, then it is the last one and what
    was written until then is a prefix of the text.  The result is the number of bytes that were written, and
    if there were none the error of that write, or 1 for an empty text. *)
Theorem fprintf_reports buf fmt f ap out s :
  Q [] s -> str fmt = Some f -> Forall arg ap -> format lit str f ap = Some out -> Z.of_nat (length out) < 2^31 ->
  exists g err s', fprintf lit write buf fd fmt ap s = Ok (if total g =? 0 then err else total g) s' /\ Q g s' /\
    (Forall accepted g /\ sent g = out /\ err = 1 \/ cut g err /\ sent g `prefix_of` out).
Proof.
  intros HQ Hs Ha Hf Hlen. unfold fprintf, vfprintf.
  destruct (vprintfmt_ok lit (fputch write) str (fun h p => fprinted h p /\ fb_idx p.2 < 256) fprinted_put fprinted_reads fprinted_str Hconst fmt f ap out [] (s, mkfprintbuf fd 0 0 1 buf))
    as (p1 & E & HP); [|done..|].
  { split; [|done]. exists [], []. cbn. split_and!; try done. by left. }
  destruct (flush_ok _ _ HP) as (g & s2 & b2 & E2 & HQ2 & Hres & Ho). rewrite (bind_Ok _ _ _ (tt, b2) s2).
  2: { apply with_local_ok. by rewrite (bind_Ok _ _ _ _ _ E). }
  exists g, (fb_error b2), s2. cbn [app] in Ho.
  assert (Ht : 0 <= total g < 2^31).
  { destruct Ho as [(_ & Hg & Ho)|[(g' & bs & r & -> & Hg & Hr & _) [r' Hp]]].
    - rewrite app_nil_r in Ho. rewrite (total_accepted g Hg), <- Ho. lia.
    - rewrite total_app, total_one, (total_accepted g' Hg). rewrite sent_app, sent_one in Hp. rewrite Hp, !length_app in Hlen. lia. }
  rewrite i32_small in Hres by lia. rewrite <- Hres. unfold truth. split; [by destruct (fb_result b2 =? 0)|]. split; [done|].
  destruct Ho as [(-> & Hg & Ho)|Hc]; [left; rewrite app_nil_r in Ho; done|by right].
Qed.
End fprintf.

(** ** Examples *)

(** The format [x=%d %5s|] and its strings, in a memory with a buffer at 100 *)
Definition pr_strs : list (Z * list Z) :=
  [(200, [120; 61; 37; 100; 32; 37; 53; 115; 124]); (220, [97; 98; 99]); (230, [101; 114; 114; 111; 114; 32; 37; 100]); (250, [37; 115]); (260, [40; 110; 117; 108; 108; 41])].
Definition pr_str (a : Z) : option (list Z) := (list_to_map pr_strs : gmap Z (list Z)) !! a.
Definition pr_lit : literals := mkliterals 260 230 250 (fun _ => 0).
Definition pr_mem : flat := list_to_map (zip (seqZ 100 32) (replicate 32 0) ++ concat (map (fun '(a, l) => zip (seqZ a 20) (l ++ [0])) pr_strs)).

Lemma pr_str_in a l : pr_str a = Some l -> (a, l) ∈ pr_strs.
Proof. apply elem_of_list_to_map_2. Qed.

Lemma cstr_flat (m : flat) a l :
  forallb (fun '(k, b) => bool_decide (flat_view m k = Some b)) (zip (seqZ a (Z.of_nat (length (l ++ [0])))) (l ++ [0])) = true -> 0 ∉ l -> cstr m a l.
Proof.
  intros H Hz. split; [|done]. intros k b Hk. rewrite forallb_forall in H. specialize (H (a + Z.of_nat k, b)). apply (bool_decide_eq_true_1 (flat_view m (a + Z.of_nat k) = Some b)), H.
  apply list_elem_of_In, list_elem_of_lookup. exists k. apply lookup_zip_with_Some. exists (a + Z.of_nat k), b. split_and!; [done| |done].
  apply lookup_seqZ. apply lookup_lt_Some in Hk. lia.
Qed.

Lemma pr_cstr a l : pr_str a = Some l -> cstr pr_mem a l /\ (forall k, range a (Z.of_nat (length l) + 1) k -> ~ range 100 32 k) /\ Z.of_nat (length l) < 20.
Proof.
  intros H%pr_str_in. unfold pr_strs in H. rewrite !elem_of_cons in H.
  destruct H as [E|[E|[E|[E|[E|E]]]]]; [injection E as -> ->; split; [apply cstr_flat; [vm_compute; reflexivity|set_solver]|cbn [length]; split; [unfold range; lia|lia]]..|].
  by apply elem_of_nil in E.
Qed.
Lemma pr_constants : constants pr_lit pr_str.
Proof. split; [|reflexivity|reflexivity|done]. intros a l (_ & _ & H)%pr_cstr. lia. Qed.
Lemma pr_arg : Forall arg [42; 220].
Proof. unfold arg. repeat (constructor; [lia|]). constructor. Qed.


Definition pr_cputs (bs : list Z) : M (flat * list Z) unit := mmod (fun '(m, h) => (m, h ++ bs)).
Definition pr_shown (h : list Z) (s : flat * list Z) : Prop := s.2 = h /\ forall a l, pr_str a = Some l -> cstr s.1 a l.
Lemma pr_shown_start : pr_shown [] (pr_mem, []).
Proof. split; [done|]. intros a l H. apply (pr_cstr a l H). Qed.

Lemma user_cprintf_correct_witness :
  exists s', user_cprintf pr_lit pr_cputs ∅ 200 [42; 220] (pr_mem, []) = Ok 11 s' /\ pr_shown [120; 61; 52; 50; 32; 32; 32; 97; 98; 99; 124] s'.
Proof.
  apply (user_cprintf_correct pr_lit pr_str pr_cputs pr_shown pr_constants) with (f := [120; 61; 37; 100; 32; 37; 53; 115; 124]) (g := []) (out := [120; 61; 52; 50; 32; 32; 32; 97; 98; 99; 124]).
  - intros h [m h'] bs [<- Hc]. eexists. split; [reflexivity|]. done.
  - intros h [m h1] [m' h2] [<- Hc] [Hr E]%prod_reads. split; [done|]. intros a l Hl. eapply cstr_reads; [exact Hr|]. by apply Hc.
  - intros h [m h'] a l [_ Hc] Hl. apply prod_cstr. by apply Hc.
  - apply pr_shown_start.
  - reflexivity.
  - apply pr_arg.
  - reflexivity.
Defined.

(** A file with room for five bytes at a time *)
Definition pr_write (fd : Z) (bs : list Z) : M (flat * calls) Z := fun '(m, g) =>
  let r := Z.min 5 (Z.of_nat (length bs)) in Ok r (m, g ++ [(bs, r)]).
Definition pr_wrote (g : calls) (s : flat * calls) : Prop := s.2 = g /\ forall a l, pr_str a = Some l -> cstr s.1 a l.

Lemma fprintf_reports_witness :
  exists g err s', fprintf pr_lit pr_write ∅ 1 200 [42; 220] (pr_mem, []) = Ok (if total g =? 0 then err else total g) s' /\ pr_wrote g s' /\
    (Forall accepted g /\ sent g = [120; 61; 52; 50; 32; 32; 32; 97; 98; 99; 124] /\ err = 1 \/ cut g err /\ sent g `prefix_of` [120; 61; 52; 50; 32; 32; 32; 97; 98; 99; 124]).
Proof.
  apply (fprintf_reports pr_lit pr_str pr_write 1 pr_wrote pr_constants) with (f := [120; 61; 37; 100; 32; 37; 53; 115; 124]).
  - intros g [m g'] bs [<- Hc]. eexists _, _. split; [reflexivity|]. split; [done|lia].
  - intros h [m h1] [m' h2] [<- Hc] [Hr E]%prod_reads. split; [done|]. intros a l Hl. eapply cstr_reads; [exact Hr|]. by apply Hc.
  - intros h [m h'] a l [_ Hc] Hl. apply prod_cstr. by apply Hc.
  - split; [done|]. intros a l H. apply (pr_cstr a l H).
  - reflexivity.
  - apply pr_arg.
  - reflexivity.
  - cbn [length]. lia.
Defined.
