(* ===== verification/PageUse.v ===== *)
(** * PageUse: the references of a page are its mappings

    The reference count of a page that is not a table is the number of user addresses that map
    it.  So the changes of the mappings that the system calls promise bound the changes of the
    counters, which have 16 bits. *)

From S2P Require Import Prelude Layout KState Pmap VmRefs VmInv VmOps.

(** The address of the page with entry [y] in the table of entry [x] *)
Definition page_va (x y : Z) : Z := (x * 1024 + y) * 4096.
Definition maps_to (m : memory) (d va p : Z) : bool := match vmap m d va with Some w => pgn w =? p | None => false end.
Definition uses_in (m : memory) (p d : Z) : Z := zsum (fun x => zsum (fun y => ind (maps_to m d (page_va x y) p)) ptes) upde.
Definition uses (m : memory) (D : list Z) (p : Z) : Z := zsum (uses_in m p) D.

Lemma page_va_index x y : x ∈ upde -> y ∈ ptes -> PDX (page_va x y) = x /\ PTX (page_va x y) = y /\ 0 <= page_va x y < UTOP /\ page_va x y / 4096 = x * 1024 + y.
Proof. intros Hx%elem_upde Hy%elem_ptes. unfold page_va. rewrite PDX_div, PTX_div. split_and!; dlia. Qed.
Lemma page_va_inv va : 0 <= va < UTOP -> PDX va ∈ upde /\ PTX va ∈ ptes /\ page_va (PDX va) (PTX va) / 4096 = va / 4096.
Proof. intros Hva. split; [by apply PDX_upde|]. split; [apply PTX_ptes|]. unfold page_va. rewrite PDX_div, PTX_div. dlia. Qed.

(** [vmap] looks at the page number only. *)
Lemma vmap_page_only m d va va' : 0 <= va < UTOP -> 0 <= va' < UTOP -> va' / 4096 = va / 4096 -> vmap m d va' = vmap m d va.
Proof. intros H1 H2 H. apply same_page in H as [Hx Hy]; [|done..]. unfold vmap. by rewrite Hx, Hy. Qed.

Lemma refs_uses A D m p : tbl_inv A D m -> ~ is_table m D p -> refs m D p = uses m D p.
Proof.
  intros Ht Hnt. apply zsum_ext. intros d Hd. unfold root_refs, uses_in.
  assert (d =? p = false) as -> by (apply Z.eqb_neq; intros ->; apply Hnt; by left). cbn [ind]. rewrite Z.add_0_l. apply zsum_ext. intros x Hx. unfold pde_refs.
  destruct (present (rdw m d x)) eqn:Hp.
  - assert (pgn (rdw m d x) =? p = false) as -> by (apply Z.eqb_neq; intros <-; apply Hnt; right; by exists d, x).
    cbn [ind]. rewrite Z.add_0_l. apply zsum_ext. intros y Hy. destruct (page_va_index x y Hx Hy) as (E1 & E2 & _). unfold pte_ref, maps_to, vmap. rewrite E1, E2, Hp.
    cbv zeta. by destruct (present (rdw m (pgn (rdw m d x)) y)).
  - symmetry. apply zsum_zero. intros y Hy. destruct (page_va_index x y Hx Hy) as (E1 & _). unfold maps_to, vmap. by rewrite E1, Hp.
Qed.

(** One mapping changes. *)
Lemma uses_step m m' D d va p :
  NoDup D -> d ∈ D -> 0 <= va < UTOP ->
  (forall d' va', d' ∈ D -> 0 <= va' < UTOP -> ~ (d' = d /\ va' / 4096 = va / 4096) -> vmap m' d' va' = vmap m d' va') ->
  uses m' D p = uses m D p - ind (maps_to m d va p) + ind (maps_to m' d va p).
Proof.
  intros Hn Hd Hva Hs. destruct (page_va_inv va Hva) as (Hx & Hy & Hpv). destruct (page_va_index _ _ Hx Hy) as (_ & _ & Hr & _).
  assert (Hat : forall m, maps_to m d (page_va (PDX va) (PTX va)) p = maps_to m d va p) by (intros; unfold maps_to; by rewrite (vmap_page_only _ _ va)).
  unfold uses. rewrite (zsum_update (uses_in m p) (uses_in m' p) D d Hn Hd).
  - unfold uses_in. set (f := fun m x => zsum (fun y => ind (maps_to m d (page_va x y) p)) ptes).
    change (zsum (fun x => zsum (fun y => ind (maps_to m' d (page_va x y) p)) ptes) upde) with (zsum (f m') upde).
    change (zsum (fun x => zsum (fun y => ind (maps_to m d (page_va x y) p)) ptes) upde) with (zsum (f m) upde).
    rewrite (zsum_update (f m) (f m') upde (PDX va) NoDup_upde Hx).
    + unfold f. rewrite (zsum_update (fun y => ind (maps_to m d (page_va (PDX va) y) p)) (fun y => ind (maps_to m' d (page_va (PDX va) y) p)) ptes (PTX va) NoDup_ptes Hy).
      * rewrite !Hat. lia.
      * intros y Hy' Hne. destruct (page_va_index _ _ Hx Hy') as (_ & _ & Hr' & Hi). unfold maps_to. rewrite Hs; [done|done|done|]. intros [_ E]. apply Hne.
        apply same_page in E as [_ E2]; [|done..]. destruct (page_va_index _ _ Hx Hy') as (_ & <- & _). done.
    + intros x Hx' Hne. apply zsum_ext. intros y Hy'. destruct (page_va_index _ _ Hx' Hy') as (E1 & _ & Hr' & _). unfold maps_to. rewrite Hs; [done|done|done|].
      intros [_ E]. apply Hne. apply same_page in E as [E2 _]; [|done..]. by rewrite <- E1.
  - intros d' Hd' Hne. apply zsum_ext. intros x Hx'. apply zsum_ext. intros y Hy'. destruct (page_va_index _ _ Hx' Hy') as (_ & _ & Hr' & _).
    unfold maps_to. rewrite Hs; [done|done|done|]. by intros [E _].
Qed.

Lemma uses_nonneg m D p : 0 <= uses m D p.
Proof. apply zsum_nonneg. intros d _. apply zsum_nonneg. intros x _. apply zsum_nonneg. intros y _. apply ind_range. Qed.
Lemma uses_in_le m D p d : d ∈ D -> uses_in m p d <= uses m D p.
Proof.
  intros Hd. apply zsum_elem_le; [|done]. intros d' _. apply zsum_nonneg. intros x _. apply zsum_nonneg. intros y _. apply ind_range.
Qed.

Lemma uses_perm m D D' p : D ≡ₚ D' -> uses m D p = uses m D' p.
Proof. apply zsum_perm. Qed.
Lemma uses_cons m d D p : uses m (d :: D) p = uses_in m p d + uses m D p.
Proof. done. Qed.

(** The same mappings, the same count *)
Lemma uses_same m m' D p : (forall d va, d ∈ D -> 0 <= va < UTOP -> vmap m' d va = vmap m d va) -> uses m' D p = uses m D p.
Proof.
  intros H. apply zsum_ext. intros d Hd. apply zsum_ext. intros x Hx. apply zsum_ext. intros y Hy. destruct (page_va_index _ _ Hx Hy) as (_ & _ & Hr & _).
  unfold maps_to. by rewrite H.
Qed.

(** The addresses below page number [n] that map [p] *)
Definition uses_below (m : memory) (d p n : Z) : Z :=
  zsum (fun x => zsum (fun y => if x * 1024 + y <? n then ind (maps_to m d (page_va x y) p) else 0) ptes) upde.

Lemma zsum_le {B} (f g : B -> Z) l : (forall x, x ∈ l -> f x <= g x) -> zsum f l <= zsum g l.
Proof.
  induction l as [|a l IH]; intros H; cbn [zsum]; [lia|]. assert (f a <= g a) by (apply H; left). assert (zsum f l <= zsum g l) by (apply IH; intros; apply H; by right). lia.
Qed.

Lemma uses_below_le m D d p n : d ∈ D -> uses_below m d p n <= uses m D p.
Proof.
  intros Hd. etransitivity; [|by apply (uses_in_le m D p d)]. apply zsum_le. intros x _. apply zsum_le. intros y _. destruct (_ <? n); [lia|apply ind_range].
Qed.
Lemma uses_below_0 m d p : uses_below m d p 0 = 0.
Proof.
  apply zsum_zero. intros x Hx%elem_upde. apply zsum_zero. intros y Hy%elem_ptes. by rewrite (proj2 (Z.ltb_ge _ _)) by lia.
Qed.
Lemma uses_below_S m d p n :
  0 <= n -> n * 4096 < UTOP -> uses_below m d p (n + 1) = uses_below m d p n + ind (maps_to m d (n * 4096) p).
Proof.
  intros H0 Hn. assert (Hva : 0 <= n * 4096 < UTOP) by lia. destruct (page_va_inv _ Hva) as (Hx & Hy & Hpv). rewrite Z.div_mul in Hpv by lia.
  destruct (page_va_index _ _ Hx Hy) as (_ & _ & Hr & Hi). rewrite Hi in Hpv. set (x0 := PDX (n * 4096)) in *. set (y0 := PTX (n * 4096)) in *.
  assert (Hpos : page_va x0 y0 = n * 4096) by (unfold page_va; lia). unfold uses_below.
  set (f := fun n x => zsum (fun y => if x * 1024 + y <? n then ind (maps_to m d (page_va x y) p) else 0) ptes).
  change (zsum (f (n + 1)) upde = zsum (f n) upde + ind (maps_to m d (n * 4096) p)).
  rewrite (zsum_update (f n) (f (n + 1)) upde x0 NoDup_upde Hx).
  - unfold f. rewrite (zsum_update (fun y => if x0 * 1024 + y <? n then ind (maps_to m d (page_va x0 y) p) else 0)
      (fun y => if x0 * 1024 + y <? n + 1 then ind (maps_to m d (page_va x0 y) p) else 0) ptes y0 NoDup_ptes Hy).
    + rewrite Hpos. rewrite (proj2 (Z.ltb_ge _ _)), (proj2 (Z.ltb_lt _ _)) by lia. lia.
    + intros y Hy'%elem_ptes Hne. destruct (Z.ltb_spec (x0 * 1024 + y) n), (Z.ltb_spec (x0 * 1024 + y) (n + 1)); (done || lia).
  - intros x Hx' Hne. apply zsum_ext. intros y Hy'. apply elem_ptes in Hy', Hy. apply elem_upde in Hx', Hx.
    destruct (Z.ltb_spec (x * 1024 + y) n), (Z.ltb_spec (x * 1024 + y) (n + 1)); (done || lia).
Qed.
