(* ===== verification/Usys.v ===== *)
(** * Usys: user programs on the kernel

    The memory a user program sees is the one the page tables of its environment map, and its
    system calls are the kernel's own ([lib/syscall.c]).  Here the two meet: the kernel state is
    an address space for the routines of the library, and a program of the user library is a
    computation on the kernel state.  [Abort] is a panic of the program. *)

From S2P Require Import Prelude Layout KState KMem Pmap Env Syscall UMonad.

(** ** The processor's accesses in user mode *)

(** The page directory in force is the one of the environment that runs. *)
Definition user_dir (s : kstate) : option Z :=
  match cpus s !! cpunum s with
  | Some c => match cpu_env c with
      | Some i => match envs s !! i with Some e => Some ((env_pgdir e - KERNBASE) / PGSIZE) | None => None end
      | None => None
      end
  | None => None
  end.

(** What an entry of a table lets user code do *)
Definition may (write : bool) (w : Z) : bool :=
  present w && truth (w .& PTE_U) && (negb write || truth (w .& PTE_W)).

(** The physical address of [va], unless the access faults *)
Definition mmu (s : kstate) (va : Z) (write : bool) : option Z :=
  d ← user_dir s;
  let pde := rdw (mem s) d (PDX va) in
  if negb (may write pde) then None
  else if truth (pde .& PTE_PS) then Some ((pde .& 0xFFC00000) + HUGH_PGOFF va)
  else
    let pte := rdw (mem s) (pgn pde) (PTX va) in
    if may write pte then Some (pgn pte * PGSIZE + PGOFF va) else None.

Definition user_ldb (a : Z) : M kstate Z := fun s =>
  match mmu s (u32 a) false with
  | Some pa => Ok (rdb (mem s) (pa / PGSIZE) (pa mod PGSIZE)) s
  | None => Wrong s
  end.
Definition user_stb (a b : Z) : M kstate unit := fun s =>
  match mmu s (u32 a) true with
  | Some pa => Ok tt (set_mem (wrb (mem s) (pa / PGSIZE) (pa mod PGSIZE) (u8 b)) s)
  | None => Wrong s
  end.
#[export] Instance user_mem : Mem kstate := {| ldb := user_ldb; stb := user_stb |}.

(** The page tables appear at [UVPT], where user code can read them. *)
Definition uvpd (x : Z) : M kstate Z := fun s =>
  match user_dir s with Some d => Ok (rdw (mem s) d x) s | None => Wrong s end.
Definition uvpt (pn : Z) : M kstate Z :=
  pde ← uvpd (pn / NPTENTRIES);
  if present pde then mget (fun s => rdw (mem s) (pgn pde) (pn mod NPTENTRIES)) else wrong.

(** ** System calls *)

(** A call that comes back to the program; the kernel's lock is held meanwhile. *)
Definition kcall {A} (m : K A) : M kstate A := fun s =>
  match m s with
  | Ret v s' => Ok v s'
  | o => Wrong (final o)
  end.

Section calls.
Context (junk : Z).

Definition usyscall (num : Z) (check : bool) (a1 a2 a3 a4 a5 : Z) : M kstate Z :=
  ret ← kcall (syscall junk num (u32 a1) (u32 a2) (u32 a3) (u32 a4) (u32 a5));
  if check && (0 <? ret) then abort else mret ret.

Definition usys_cputs (s len : Z) : M kstate unit := usyscall SYS_cputs false s len 0 0 0;; mret tt.
Definition usys_cgetc : M kstate Z := usyscall SYS_cgetc false 0 0 0 0 0.
Definition usys_env_destroy (envid : Z) : M kstate Z := usyscall SYS_env_destroy true envid 0 0 0 0.
Definition usys_getenvid : M kstate Z := usyscall SYS_getenvid false 0 0 0 0 0.
Definition usys_yield : M kstate unit := usyscall SYS_yield false 0 0 0 0 0;; mret tt.
Definition usys_page_alloc (envid va perm : Z) : M kstate Z := usyscall SYS_page_alloc true envid va perm 0 0.
Definition usys_page_map (srcenv srcva dstenv dstva perm : Z) : M kstate Z :=
  usyscall SYS_page_map true srcenv srcva dstenv dstva perm.
Definition usys_page_unmap (envid va : Z) : M kstate Z := usyscall SYS_page_unmap true envid va 0 0 0.
Definition usys_exofork : M kstate Z := kcall (syscall junk SYS_exofork 0 0 0 0 0).
Definition usys_env_set_status (envid status : Z) : M kstate Z := usyscall SYS_env_set_status true envid status 0 0 0.
Definition usys_env_set_trapframe (envid tf : Z) : M kstate Z := usyscall SYS_env_set_trapframe true envid tf 0 0 0.
Definition usys_env_set_pgfault_upcall (envid upcall : Z) : M kstate Z :=
  usyscall SYS_env_set_pgfault_upcall true envid upcall 0 0 0.
Definition usys_ipc_try_send (envid value srcva perm : Z) : M kstate Z :=
  usyscall SYS_ipc_try_send false envid value srcva perm 0.
Definition usys_ipc_recv (dstva : Z) : M kstate Z := usyscall SYS_ipc_recv true dstva 0 0 0 0.
Definition usys_time_msec : M kstate Z := r ← usyscall SYS_time_msec false 0 0 0 0 0; mret (u32 r).
Definition usys_change_priority (p : Z) : M kstate Z := usyscall SYS_change_priority false (u8 p) 0 0 0 0.
Definition usys_try_transmit (data len : Z) : M kstate Z := usyscall SYS_try_transmit false data (u16 len) 0 0 0.
Definition usys_receive (buf_idx : Z) : M kstate Z := usyscall SYS_receive false buf_idx 0 0 0 0.
Definition usys_env_set_type (type : Z) : M kstate Z := usyscall SYS_env_set_type false type 0 0 0 0.
Definition usys_get_mac_addr (addr : Z) : M kstate Z := usyscall SYS_get_mac_addr false addr 0 0 0 0.
Definition usys_draw (shape : Z) : M kstate Z := usyscall SYS_draw false shape 0 0 0 0.
Definition usys_clear_screen : M kstate Z := usyscall SYS_clear_screen false 0 0 0 0 0.
Definition usys_free_rx_buf : M kstate Z := usyscall SYS_free_rx_buf false 0 0 0 0 0.
Definition usys_mouse_getp (pkt : Z) : M kstate Z := usyscall SYS_mouse_getp false pkt 0 0 0 0.
End calls.
