(* ===== verification/UsysThms.v ===== *)
(** * UsysThms: the memory of a running environment

    The kernel state satisfies the laws of an address space for the environment that runs: it can
    write the addresses whose pages nothing else maps.  So what is proved of the library's routines
    for every address space holds for user programs on this kernel.  The system calls are
    restated as the program sees them. *)

From S2P Require Import Prelude Layout KState KMem Pmap VmRefs VmInv VmOps UserMem UMem KInv KEx Env Syscall EnvThms SysOps SysSafe UStore SysThms PageUse UMonad Usys.

Lemma user_dir_eq A i e s : kin A i e s -> user_dir s = Some (root_of e).
Proof. intros Hk. destruct (kin_cur _ _ _ _ Hk) as (c & Hc & He). unfold user_dir. rewrite Hc, He, (kin_env _ _ _ _ Hk). done. Qed.

Lemma kin_root A i e s : kin A i e s -> root_of e ∈ roots (envs s).
Proof. intros Hk. by apply (kinv_root A s i e (kin_inv _ _ _ _ Hk) (kin_env _ _ _ _ Hk) (kin_live _ _ _ _ Hk)). Qed.

Lemma may_dir write pde : present pde = true -> pde .& (PTE_U .| PTE_W) = PTE_U .| PTE_W -> may write pde = true.
Proof.
  intros Hp H. unfold may, truth. rewrite Hp, (proj2 (Z.eqb_neq _ _) (pde_user _ H)), (proj2 (Z.eqb_neq _ _) (pde_write _ H)). by rewrite orb_true_r.
Qed.

(** The running environment changes a field of its own. *)
Lemma kin_self A i e e' s : kin A i e s -> same_core e e' -> kin A i e' (with_env i e' s).
Proof.
  intros [Hi Hl Hc He Hlive] Hcore. split; [by apply (kinv_env A s i e)|exact Hl|exact Hc|apply lookup_insert_eq|]. by rewrite (proj1 Hcore).
Qed.

(** The processor and [vmap] agree. *)
Lemma mmu_vmap A i e s va write :
  kin A i e s -> 0 <= va < UTOP ->
  mmu s va write = match vmap (mem s) (root_of e) va with
                   | Some w => if may write w then Some (pgn w * PGSIZE + PGOFF va) else None
                   | None => None
                   end.
Proof.
  intros Hk Hva. pose proof (kin_root _ _ _ _ Hk) as Hd. destruct (ki_vm _ _ (kin_inv _ _ _ _ Hk)) as [Ht _]. unfold mmu. rewrite (user_dir_eq _ _ _ _ Hk). cbn [mbind option_bind].
  unfold vmap. pose proof (PDX_upde va Hva) as Hx. destruct (present (rdw (mem s) (root_of e) (PDX va))) eqn:Hp.
  - rewrite (may_dir write _ Hp) by (by apply (ti_pdew _ _ _ Ht)). cbn [negb]. rewrite (ti_ps _ _ _ Ht _ _ Hd Hx). change (truth 0) with false. cbv iota zeta.
    unfold may at 1. destruct (present (rdw (mem s) (pgn _) (PTX va))) eqn:Hq; [|done]. unfold may. by rewrite Hq.
  - unfold may. by rewrite Hp.
Qed.

(** Nothing else maps the page at [va] of directory [d]. *)
Definition private (s : kstate) (d va : Z) : Prop :=
  forall w d' va' w', vmap (mem s) d va = Some w -> d' ∈ roots (envs s) -> 0 <= va' < UTOP ->
    vmap (mem s) d' va' = Some w' -> pgn w' = pgn w -> d' = d /\ va' / 4096 = va / 4096.

Lemma split_pa q o : 0 <= o < 4096 -> (q * PGSIZE + o) / PGSIZE = q /\ (q * PGSIZE + o) mod PGSIZE = o.
Proof. intros Ho. unfold PGSIZE. split; dlia. Qed.
Lemma PGOFF_range va : 0 <= PGOFF va < 4096.
Proof. rewrite PGOFF_mod. dlia. Qed.
Lemma same_va va va' : va / 4096 = va' / 4096 -> PGOFF va = PGOFF va' -> va = va'.
Proof. rewrite !PGOFF_mod. dlia. Qed.

Definition user_view (s : kstate) (a : Z) : option Z :=
  if (0 <=? a) && (a <? UTOP) then pa ← mmu s a false; Some (rdb (mem s) (pa / PGSIZE) (pa mod PGSIZE)) else None.
Definition user_wr (s : kstate) (a : Z) : Prop :=
  exists A i e w, kin A i e s /\ 0 <= a < UTOP /\ vmap (mem s) (root_of e) a = Some w /\ may true w = true /\ private s (root_of e) a.
(** User code can write the page at [va] of directory [d]. *)
Definition writes (s : kstate) (d va : Z) : Prop := exists w, vmap (mem s) d va = Some w /\ may true w = true.
(** The mappings are the same, the contents of the other address spaces and of the pages that cannot be written. *)
Definition user_rest (s s' : kstate) : Prop :=
  s' = set_mem (mem s') s /\ forall A i e, kin A i e s -> kin A i e s' /\
    (forall d va, d ∈ roots (envs s) -> 0 <= va < UTOP -> vmap (mem s') d va = vmap (mem s) d va) /\
    (forall d va, d ∈ roots (envs s) -> 0 <= va < UTOP -> ~ (d = root_of e /\ writes s d va) -> ubyte s' d va = ubyte s d va).

Lemma may_read w : may true w = true -> may false w = true.
Proof. unfold may. destruct (present w); [|done]. by destruct (truth (w .& PTE_U)). Qed.

Lemma user_view_ubyte A i e s a :
  kin A i e s -> 0 <= a < UTOP ->
  user_view s a = match vmap (mem s) (root_of e) a with
                  | Some w => if may false w then Some (rdb (mem s) (pgn w) (PGOFF a)) else None
                  | None => None
                  end.
Proof.
  intros Hk Ha. unfold user_view. rewrite (proj2 (Z.leb_le _ _)), (proj2 (Z.ltb_lt _ _)) by lia. cbn [andb]. rewrite (mmu_vmap _ _ _ _ _ _ Hk Ha).
  destruct (vmap _ _ a) as [w|]; [|done]. destruct (may false w); [|done]. cbn [mbind option_bind]. destruct (split_pa (pgn w) (PGOFF a) (PGOFF_range a)) as [-> ->]. done.
Qed.

Lemma user_stb_ok s a b : user_wr s a ->
  exists s', user_stb a b s = Ok tt s' /\ user_rest s s' /\
    forall a', user_view s' a' = if decide (a = a') then Some (u8 b) else user_view s a'.
Proof.
  intros (A & i & e & w & Hk & Ha & Hw & Hm & Hp). pose proof (kin_root _ _ _ _ Hk) as Hd. unfold user_stb. rewrite u32_small by clia.
  rewrite (mmu_vmap _ _ _ _ _ _ Hk Ha), Hw, Hm. destruct (split_pa (pgn w) (PGOFF a) (PGOFF_range a)) as [-> ->].
  destruct (mapped_page A s _ a w (kin_inv _ _ _ _ Hk) Hd Ha Hw) as (HwA & Hnt & _).
  pose proof (wrb_data_step A s (kin_inv _ _ _ _ Hk) (pgn w) (PGOFF a) (u8 b) HwA Hnt) as Hds. eexists. split; [done|]. set (s' := set_mem _ s) in *.
  assert (Hk' : kin A i e s') by (split; [apply Hds|apply Hk..]).
  assert (Hbyte : forall d' va, d' ∈ roots (envs s) -> 0 <= va < UTOP -> ~ (d' = root_of e /\ writes s d' va) -> ubyte s' d' va = ubyte s d' va).
  { intros d' va Hd' Hva Hne. unfold s'. rewrite (ubyte_wrb A s (kin_inv _ _ _ _ Hk)) by done. unfold ubyte. destruct (vmap (mem s) d' va) as [w'|] eqn:Hw'; [|done].
    rewrite decide_False; [done|]. intros [Hq _]. apply Hne. destruct (Hp w d' va w' Hw Hd' Hva Hw' (eq_sym Hq)) as [-> E]. split; [done|].
    exists w. split; [|done]. rewrite <- Hw. by apply vmap_page_only. }
  split.
  - split; [done|]. intros A' i' e' Hk'e. assert (i' = i /\ e' = e) as [-> ->].
    { destruct (kin_cur _ _ _ _ Hk) as (c & Hc & He), (kin_cur _ _ _ _ Hk'e) as (c' & Hc' & He'). assert (i' = i) by congruence. subst.
      split; [done|]. pose proof (kin_env _ _ _ _ Hk). pose proof (kin_env _ _ _ _ Hk'e). congruence. }
    split; [|split; [intros; by apply (ds_vmap _ _ _ Hds)|done]].
    assert (Hds' := wrb_data_step A' s (kin_inv _ _ _ _ Hk'e) (pgn w) (PGOFF a) (u8 b)). split; [|apply Hk'e..].
    apply Hds'; [|done]. by apply (mapped_page A' s _ a w (kin_inv _ _ _ _ Hk'e) Hd Ha).
  - intros a'. destruct (decide (0 <= a' < UTOP)) as [Ha'|Hn].
    + rewrite (user_view_ubyte _ _ _ _ _ Hk' Ha'), (user_view_ubyte _ _ _ _ _ Hk Ha'), (ds_vmap _ _ _ Hds) by done. destruct (decide (a = a')) as [<-|Hne].
      * rewrite Hw, (may_read _ Hm). unfold s'. cbn [mem set_mem]. rewrite rdb_wrb by apply (ti_word _ _ _ (proj1 (ki_vm _ _ (kin_inv _ _ _ _ Hk)))).
        rewrite decide_True by done. by rewrite u8_small by apply u8_range.
      * destruct (vmap (mem s) (root_of e) a') as [w'|] eqn:Hw'; [|done]. destruct (may false w'); [|done]. unfold s'. cbn [mem set_mem].
        rewrite rdb_wrb by apply (ti_word _ _ _ (proj1 (ki_vm _ _ (kin_inv _ _ _ _ Hk)))). rewrite decide_False; [done|]. intros [Hq Ho]. apply Hne.
        destruct (Hp w (root_of e) a' w' Hw Hd Ha' Hw' (eq_sym Hq)) as [_ Hpg]. apply same_va; [done|done].
    + rewrite decide_False by (intros ->; lia). unfold user_view. destruct (Z.leb_spec 0 a'), (Z.ltb_spec a' UTOP); (lia || done).
Qed.

#[export] Instance user_laws : MemLaws kstate.
Proof.
  refine {| view := user_view; wr := user_wr; rest := user_rest |}.
  - intros s. split; [by destruct s|done].
  - intros s1 s2 s3 [E1 H1] [E2 H2]. split; [rewrite E2, E1; by destruct s1|]. intros A i e Hk. destruct (H1 A i e Hk) as (K2 & V1 & B1). destruct (H2 A i e K2) as (K3 & V2 & B2).
    assert (He : envs s2 = envs s1) by (rewrite E1; done). rewrite He in V2, B2. split; [done|]. split; [intros; by rewrite V2, V1|].
    intros d va Hd Hva Hn. rewrite B2, B1; try done. intros [-> (w & Hw & Hm)]. apply Hn. split; [done|]. exists w. by rewrite V1 in Hw.
  - intros s s' a [E H] (A & i & e & w & Hk & Ha & Hw & Hm & Hp). destruct (H A i e Hk) as (Hk' & V & _). exists A, i, e, w.
    pose proof (kin_root _ _ _ _ Hk) as Hd. rewrite V by done. split_and!; try done; try lia. assert (He : envs s' = envs s) by (rewrite E; done).
    intros v d' va' w' Hv Hd' Hva' Hw' Hq. rewrite He in Hd'. rewrite V in Hv, Hw' by done. by apply (Hp v d' va' w').
  - intros s a (A & i & e & w & Hk & Ha & Hw & Hm & Hp). rewrite (user_view_ubyte _ _ _ _ _ Hk Ha), Hw, (may_read _ Hm). eauto.
  - intros s a b. unfold user_view. destruct (_ && _); [|done]. destruct (mmu s a false); [|done]. intros [= <-]. apply u8_range.
  - intros s a b Hv. exists s. unfold user_view in Hv. destruct (Z.leb_spec 0 a), (Z.ltb_spec a UTOP); try done. cbn [andb] in Hv.
    split; [|split; [split; [by destruct s|done]|done]]. cbn. unfold user_ldb. rewrite u32_small by clia. destruct (mmu s a false); [|done]. injection Hv as <-. done.
  - exact user_stb_ok.
Defined.

(** A program that touches [X] changes no other byte of any environment. *)
Lemma touches_ubyte A i e s s' X d a :
  kin A i e s -> touches X s s' -> d ∈ roots (envs s) -> 0 <= a < UTOP -> ~ (d = root_of e /\ X a) -> ubyte s' d a = ubyte s d a.
Proof.
  intros Hk [[Hset Hrest] Hview] Hd Ha Hn. destruct (Hrest A i e Hk) as (Hk' & Hv & Hother). destruct (decide (d = root_of e)) as [->|Hne]; [|apply Hother; [done..|]; by intros [? _]].
  unfold ubyte. rewrite Hv by done. destruct (vmap (mem s) (root_of e) a) as [w|] eqn:Hw; [|done]. destruct (may true w) eqn:Hm.
  - assert (Hva : user_view s' a = user_view s a) by (apply Hview; intros ?; by apply Hn).
    rewrite (user_view_ubyte _ _ _ _ _ Hk' Ha), (user_view_ubyte _ _ _ _ _ Hk Ha), Hv, Hw, (may_read _ Hm) in Hva by done. done.
  - pose proof (Hother _ a Hd Ha) as Hu. unfold ubyte in Hu. rewrite Hv, Hw in Hu by done. apply Hu. intros [_ (w2 & E2 & Hm2)]. rewrite Hw in E2. injection E2 as <-. congruence.
Qed.

(** ** System calls *)

Lemma kcall_ret {B} (m : K B) s v s' : m s = Ret v s' -> kcall m s = Ok v s'.
Proof. unfold kcall. by intros ->. Qed.

Section calls.
Context (junk : Z).

Lemma usyscall_ret num check a1 a2 a3 a4 a5 s v s' :
  syscall junk num (u32 a1) (u32 a2) (u32 a3) (u32 a4) (u32 a5) s = Ret v s' -> v <= 0 -> usyscall junk num check a1 a2 a3 a4 a5 s = Ok v s'.
Proof.
  intros H Hv. unfold usyscall. rewrite (bind_Ok _ _ _ _ _ (kcall_ret _ _ _ _ H)). rewrite (proj2 (Z.ltb_ge _ _)) by lia. by rewrite andb_false_r.
Qed.

Context (A : gset Z) (i : Z) (e : Env) (s : kstate) (Hk : kin A i e s).

Lemma denotes_self : denotes s i 0 true i.
Proof. exists e. split; [apply Hk|]. split; [apply Hk|]. by left. Qed.

(** What [sys_page_map] does for a program that maps one of its own pages *)
Lemma usys_page_map_ok va dst j ej va' perm w :
  refs_small A s -> 0 <= va -> bad_va va = false -> 0 <= va' -> bad_va va' = false -> bad_perm perm = false -> 0 <= dst < 2^31 ->
  denotes s i dst true j -> envs s !! j = Some ej -> vmap (mem s) (root_of e) va = Some w -> no_escalation w perm ->
  (page_free_list s = None /\ vmap (mem s) (root_of ej) va' = None /\ usys_page_map junk 0 va dst va' perm s = Ok (- E_NO_MEM) s) \/
  exists s', usys_page_map junk 0 va dst va' perm s = Ok 0 s' /\ maps A s s' (root_of ej) va' (pgn w) perm.
Proof.
  intros Hsm Hva Hb Hva' Hb' Hbp Hdst Hj Hej Hw Hne. assert (Hr : va < 2^32 /\ va' < 2^32).
  { unfold bad_va in *. apply orb_false_iff in Hb as [Hb _], Hb' as [Hb' _]. apply Z.leb_gt in Hb, Hb'. clia. }
  assert (Hp := perm_range perm Hbp).
  assert (Hsys : syscall junk SYS_page_map (u32 0) (u32 va) (u32 dst) (u32 va') (u32 perm) s = sys_page_map 0 va dst va' perm s).
  { change (syscall junk SYS_page_map (u32 0) (u32 va) (u32 dst) (u32 va') (u32 perm) s) with (sys_page_map (i32 (u32 0)) (u32 va) (i32 (u32 dst)) (u32 va') (i32 (u32 perm)) s).
    rewrite !i32_u32, !u32_small, !i32_small by lia. done. }
  destruct (sys_page_map_spec A i e s 0 va dst va' perm Hk Hsm) as [(_ & [H|H])|(j1 & e1 & j2 & e2 & H1 & E1 & H2 & E2 & H)]; [lia|lia|exfalso; by apply (H i), denotes_self|exfalso; by apply (H j)|].
  pose proof (kin_inv _ _ _ _ Hk) as Hi. pose proof (denotes_unique A s i 0 true _ _ Hi H1 denotes_self) as ->. pose proof (denotes_unique A s i dst true _ _ Hi H2 Hj) as ->.
  rewrite (kin_env _ _ _ _ Hk) in E1. injection E1 as <-. rewrite Hej in E2. injection E2 as <-. rewrite Hb, Hb', Hbp in H. cbn [orb] in H. rewrite Hw in H.
  destruct H as [[Hn _]|[_ [(Hf & Hu & H)|(s' & H & Hm)]]]; [done|left|right].
  - split; [done|]. split; [done|]. rewrite <- Hsys in H. exact (usyscall_ret _ true _ _ _ _ _ _ _ _ H ltac:(clia)).
  - exists s'. split; [|done]. rewrite <- Hsys in H. exact (usyscall_ret _ true _ _ _ _ _ _ _ _ H ltac:(clia)).
Qed.

Lemma usys_page_alloc_cases dst j ej va perm :
  0 <= va -> bad_va va = false -> bad_perm perm = false -> 0 <= dst < 2^31 -> denotes s i dst true j -> envs s !! j = Some ej ->
  exists r s', usys_page_alloc junk dst va perm s = Ok r s' /\ page_allocated A s ej va perm (Ret r s').
Proof.
  intros Hva Hb Hbp Hdst Hj Hej. assert (Hr : va < 2^32). { unfold bad_va in *. apply orb_false_iff in Hb as [Hb _]. apply Z.leb_gt in Hb. clia. }
  assert (Hp := perm_range perm Hbp).
  assert (Hsys : syscall junk SYS_page_alloc (u32 dst) (u32 va) (u32 perm) (u32 0) (u32 0) s = sys_page_alloc dst va perm s).
  { change (syscall junk SYS_page_alloc (u32 dst) (u32 va) (u32 perm) (u32 0) (u32 0) s) with (sys_page_alloc (i32 (u32 dst)) (u32 va) (i32 (u32 perm)) s).
    rewrite !i32_u32, !u32_small, !i32_small by lia. done. }
  destruct (sys_page_alloc_spec A i e s dst va perm Hk) as [(_ & H)|(j1 & e1 & H1 & E1 & H)]; [lia|exfalso; by apply (H j)|].
  pose proof (denotes_unique A s i dst true _ _ (kin_inv _ _ _ _ Hk) H1 Hj) as ->. rewrite Hej in E1. injection E1 as <-. rewrite Hb, Hbp in H. cbn [orb] in H. pose proof H as Hpa.
  destruct H as [(s' & H & _)|(s' & q & H & _)]; rewrite H in Hpa; rewrite <- Hsys in H.
  - exists (- E_NO_MEM), s'. split; [|done]. exact (usyscall_ret _ true _ _ _ _ _ _ _ _ H ltac:(clia)).
  - exists 0, s'. split; [|done]. exact (usyscall_ret _ true _ _ _ _ _ _ _ _ H ltac:(clia)).
Qed.

Lemma usys_page_alloc_ok dst j ej va perm :
  0 <= va -> bad_va va = false -> bad_perm perm = false -> 0 <= dst < 2^31 -> denotes s i dst true j -> envs s !! j = Some ej ->
  (exists s', usys_page_alloc junk dst va perm s = Ok (- E_NO_MEM) s' /\ scarce s') \/
  exists s' q, usys_page_alloc junk dst va perm s = Ok 0 s' /\ page_free_list s = Some q /\ maps A s s' (root_of ej) va q perm /\ forall y, rdw (mem s') q y = 0.
Proof.
  intros Hva Hb Hbp Hdst Hj Hej. destruct (usys_page_alloc_cases dst j ej va perm Hva Hb Hbp Hdst Hj Hej) as (r & s' & E & [(t & Et & [_ Hsc] & _)|(t & q & Et & Hq)]); injection Et as -> ->; eauto.
Qed.

Lemma usys_page_unmap_ok va :
  0 <= va -> bad_va va = false -> exists s', usys_page_unmap junk 0 va s = Ok 0 s' /\ unmaps A s s' (root_of e) va.
Proof.
  intros Hva Hb. assert (Hr : va < 2^32). { unfold bad_va in *. apply orb_false_iff in Hb as [Hb _]. apply Z.leb_gt in Hb. clia. }
  assert (Hsys : syscall junk SYS_page_unmap (u32 0) (u32 va) (u32 0) (u32 0) (u32 0) s = sys_page_unmap 0 va s).
  { change (syscall junk SYS_page_unmap (u32 0) (u32 va) (u32 0) (u32 0) (u32 0) s) with (sys_page_unmap (i32 (u32 0)) (u32 va) s). by rewrite i32_u32, u32_small by lia. }
  destruct (sys_page_unmap_spec A i e s 0 va Hk) as [(_ & H)|(j1 & e1 & H1 & E1 & H)]; [lia|exfalso; by apply (H i), denotes_self|].
  pose proof (denotes_unique A s i 0 true _ _ (kin_inv _ _ _ _ Hk) H1 denotes_self) as ->. rewrite (kin_env _ _ _ _ Hk) in E1. injection E1 as <-. rewrite Hb in H.
  destruct H as (s' & H & Hu). exists s'. split; [|done]. rewrite <- Hsys in H. exact (usyscall_ret _ true _ _ _ _ _ _ _ _ H ltac:(clia)).
Qed.
End calls.

(** The calls that change a field of an environment *)
Section fields.
Context (junk : Z) (A : gset Z) (i : Z) (e : Env) (s : kstate) (Hk : kin A i e s).
Context (dst j : Z) (ej : Env) (Hdst : 0 <= dst < 2^31) (Hj : denotes s i dst true j) (Hej : envs s !! j = Some ej).

Lemma envid2env_denotes : envid2env dst true s = Ret (0, Some j) s.
Proof.
  destruct (envid2env_cases A i e s dst true Hk) as [(j' & Hj' & H)|[H _]]; [|exfalso; by apply (H j)].
  by rewrite (denotes_unique A s i dst true _ _ (kin_inv _ _ _ _ Hk) Hj Hj').
Qed.

Lemma usys_env_set_pgfault_upcall_ok upcall :
  0 <= upcall < 2^32 -> usys_env_set_pgfault_upcall junk dst upcall s = Ok 0 (with_env j (set_env_pgfault_upcall upcall ej) s).
Proof.
  intros Hu. assert (H : syscall junk SYS_env_set_pgfault_upcall (u32 dst) (u32 upcall) (u32 0) (u32 0) (u32 0) s = Ret 0 (with_env j (set_env_pgfault_upcall upcall ej) s)).
  { change (sys_env_set_pgfault_upcall (i32 (u32 dst)) (u32 upcall) s = Ret 0 (with_env j (set_env_pgfault_upcall upcall ej) s)). rewrite i32_u32, i32_small, u32_small by lia.
    unfold sys_env_set_pgfault_upcall. rewrite (bind_Ret _ _ _ _ _ envid2env_denotes). change (0 <? 0) with false. cbv iota.
    rewrite (bind_Ret _ (deref (Some j)) s j s) by done. rewrite (bind_Ret _ _ _ _ _ (upd_env_eq s j ej _ Hej)). done. }
  exact (usyscall_ret junk _ true _ _ _ _ _ _ _ _ H ltac:(lia)).
Qed.

Lemma usys_env_set_status_ok status :
  status = ENV_RUNNABLE \/ status = ENV_NOT_RUNNABLE -> usys_env_set_status junk dst status s = Ok 0 (with_env j (set_env_status status ej) s).
Proof.
  intros Hst. assert (Hr : 0 <= status < 2^31) by (destruct Hst as [-> | ->]; clia).
  assert (H : syscall junk SYS_env_set_status (u32 dst) (u32 status) (u32 0) (u32 0) (u32 0) s = Ret 0 (with_env j (set_env_status status ej) s)).
  { change (sys_env_set_status (i32 (u32 dst)) (i32 (u32 status)) s = Ret 0 (with_env j (set_env_status status ej) s)). rewrite !i32_u32, !i32_small by lia.
    unfold sys_env_set_status. assert (negb (status =? ENV_RUNNABLE) && negb (status =? ENV_NOT_RUNNABLE) = false) as -> by (by destruct Hst as [-> | ->]).
    rewrite (bind_Ret _ _ _ _ _ envid2env_denotes). change (0 <? 0) with false. cbv iota.
    rewrite (bind_Ret _ (deref (Some j)) s j s) by done. rewrite (bind_Ret _ _ _ _ _ (upd_env_eq s j ej _ Hej)). done. }
  exact (usyscall_ret junk _ true _ _ _ _ _ _ _ _ H ltac:(lia)).
Qed.
End fields.

Lemma usys_getenvid_ok junk A i e s : kin A i e s -> usys_getenvid junk s = Ok (env_id e) s.
Proof.
  intros Hk. unfold usys_getenvid, usyscall. assert (H : syscall junk SYS_getenvid (u32 0) (u32 0) (u32 0) (u32 0) (u32 0) s = Ret (env_id e) s).
  { change (sys_getenvid s = Ret (env_id e) s). unfold sys_getenvid. rewrite (bind_Ret _ _ _ _ _ (cur_env_eq A i e s Hk)). done. }
  rewrite (bind_Ok _ _ _ _ _ (kcall_ret _ _ _ _ H)). done.
Qed.
