(* ===== verification/KBig.v ===== *)
(** * KBig: a machine with more memory

    The machine of [KEx] with 32 pages of memory, 28 of them free: room for the examples in which
    programs allocate memory. *)

From S2P Require Import Prelude Layout KState Pmap VmRefs VmInv VmOps VmThms KInv KEx Syscall SysOps UMonad Usys UsysThms.

Definition kbig_info (i : Z) : PageInfo :=
  if (3 <=? i) && (i <? 30) then mkPageInfo (Some (i + 1)) 0 else mkPageInfo None (if i =? 30 then 0 else 1).
Definition kbig_pages : gmap Z PageInfo := list_to_map (map (fun i => (i, kbig_info i)) (seqZ 0 32)).
Definition kbig : kstate :=
  mkState 32 32 (kva 31) 0 (kva 32) MMIOBASE kbig_pages (Some 3) ∅ kex_envs (Some 2)
    {[0 := mkCpuInfo 1 (Some 0)]} 0 (Some 0) 0 0 [] ex_dev.
Definition kbig_A : gset Z := list_to_set (seqZ 1 30).

Lemma kbig_A_elem i : i ∈ kbig_A <-> 1 <= i <= 30.
Proof. unfold kbig_A. rewrite elem_of_list_to_set, elem_of_seqZ. lia. Qed.
Lemma kbig_lookup i : 0 <= i < 32 -> kbig_pages !! i = Some (kbig_info i).
Proof.
  intros Hi. apply elem_of_list_to_map_1.
  - replace (_.*1) with (seqZ 0 32); [apply NoDup_seqZ|]. rewrite <- list_fmap_compose. symmetry. apply list_fmap_id.
  - apply list_elem_of_fmap. exists i. split; [done|]. apply elem_of_seqZ. lia.
Qed.
Lemma kbig_lookup_inv i p : kbig_pages !! i = Some p -> 0 <= i < 32 /\ p = kbig_info i.
Proof.
  intros H. apply elem_of_list_to_map_2, list_elem_of_fmap in H as (j & Heq & Hj). injection Heq as -> ->. apply elem_of_seqZ in Hj. split; [lia|done].
Qed.

Lemma kbig_linked n i : i + Z.of_nat n = 30 -> 3 <= i -> linked kbig_pages (Some i) (seqZ i (1 + Z.of_nat n)).
Proof.
  revert i. induction n as [|n IH]; intros i Hn Hi.
  - rewrite seqZ_cons, seqZ_nil by lia. split; [done|]. exists (kbig_info i). rewrite kbig_lookup by lia. split; [done|]. replace i with 30 by lia. done.
  - rewrite seqZ_cons by lia. split; [done|]. exists (kbig_info i). rewrite kbig_lookup by lia. split; [done|].
    unfold kbig_info. rewrite (proj2 (Z.leb_le _ _)), (proj2 (Z.ltb_lt _ _)) by lia. cbn [andb pp_link].
    replace (Z.pred (1 + Z.of_nat (S n))) with (1 + Z.of_nat n) by lia. replace (Z.succ i) with (i + 1) by lia. apply IH; lia.
Qed.

Lemma kbig_vm : vm_inv kbig_A [1; 2] ∅ kbig.
Proof.
  destruct (tbl_add_root kbig_A [] ∅ (tbl_inv_nil _ _ ltac:(intros; rewrite rdw_empty; lia)) 2) as [Ht Hr]; [by apply kbig_A_elem|done|intros; apply rdw_empty|].
  destruct (tbl_add_root kbig_A [2] ∅ Ht 1) as [Ht' Hr']; [by apply kbig_A_elem|by rewrite Hr|intros; apply rdw_empty|].
  split; [done|]. apply (pg_inv_ext _ _ _ (fun i => ind (2 =? i) + ind (1 =? i))). { intros. simpl. by rewrite Hr', Hr. }
  split.
  - simpl. lia.
  - intros i. split; [intros [p [Hp _]%kbig_lookup_inv]; done|]. intros Hi. change (is_Some (kbig_pages !! i)). rewrite kbig_lookup by done. eauto.
  - intros i Hi%kbig_A_elem. simpl. lia.
  - intros i p Hi%kbig_A_elem [_ ->]%kbig_lookup_inv. unfold kbig_info. destruct (Z.leb_spec 3 i), (Z.ltb_spec i 30), (Z.eqb_spec i 30), (Z.eqb_spec 2 i), (Z.eqb_spec 1 i); (done || lia).
  - intros i _. pose proof (ind_range (1 =? i)). pose proof (ind_range (2 =? i)). lia.
  - exists (seqZ 3 (1 + Z.of_nat 27)). split; [by apply kbig_linked|]. split; [apply NoDup_seqZ|]. split; [set_solver|]. split.
    + intros i. rewrite elem_of_seqZ, kbig_A_elem. split.
      * intros [Hi|Hi]; [|set_solver]. split; [lia|]. destruct (Z.eqb_spec 2 i), (Z.eqb_spec 1 i); lia || done.
      * intros [Hi Hz]. left. destruct (Z.eqb_spec 2 i), (Z.eqb_spec 1 i); try done. lia.
    + intros i p Hi%kbig_A_elem Hn [_ ->]%kbig_lookup_inv. rewrite elem_of_seqZ in Hn. unfold kbig_info. destruct (Z.leb_spec 3 i), (Z.ltb_spec i 30); (done || lia).
Qed.

Lemma kbig_inv : kinv kbig_A kbig.
Proof.
  split.
  - change (envs kbig) with kex_envs. rewrite kex_roots. apply kbig_vm.
  - apply kex_env_inv.
  - exists 31. split; [done|]. split; [rewrite kbig_A_elem; lia|]. split; [simpl; lia|]. intros. apply rdw_empty.
  - exists (mkCpuInfo 1 (Some 0)). split; [done|]. intros e [= <-]. simpl. rewrite kex_lookup by done. eauto.
Qed.
Lemma kbig_kin : kin kbig_A 0 kex_parent kbig.
Proof. split; [exact kbig_inv|exact kex_locked|exact kex_cur|exact kex_env0|done]. Qed.

(** Nothing is mapped. *)
Lemma vmap_none d a : vmap ∅ d a = None.
Proof. unfold vmap. by rewrite rdw_empty. Qed.
Lemma kbig_root : 1 ∈ roots (envs kbig).
Proof. change (envs kbig) with kex_envs. rewrite kex_roots. left. Qed.

(** ** Runs *)

Definition after {X} (m : M kstate X) (s : kstate) : kstate := match m s with Ok _ s' => s' | _ => s end.
Definition gives (m : M kstate Z) (s : kstate) (v : Z) : bool := match m s with Ok r _ => r =? v | _ => false end.
Definition goes (m : M kstate unit) (s : kstate) : bool := match m s with Ok _ _ => true | _ => false end.

Lemma gives_ok m s v : gives m s v = true -> m s = Ok v (after m s).
Proof. unfold gives, after. destruct (m s); [|done..]. by intros ->%Z.eqb_eq. Qed.
Lemma goes_ok m s : goes m s = true -> m s = Ok tt (after m s).
Proof. unfold goes, after. by destruct (m s) as [[]| |]. Qed.
Lemma Ok_inj {X} (a b : X) (s s' : kstate) : Ok a s = Ok b s' -> a = b /\ s = s'.
Proof. intros H. by injection H. Qed.

(** The running environment allocates a page. *)
Lemma kbig_alloc va : 0 <= va -> bad_va va = false -> gives (usys_page_alloc 0 0 va 7) kbig 0 = true ->
  maps kbig_A kbig (after (usys_page_alloc 0 0 va 7) kbig) 1 va 3 7 /\ forall y, rdw (mem (after (usys_page_alloc 0 0 va 7) kbig)) 3 y = 0.
Proof.
  intros Hva Hb H%gives_ok. destruct (usys_page_alloc_ok 0 kbig_A 0 kex_parent kbig kbig_kin 0 0 kex_parent va 7 Hva Hb eq_refl ltac:(lia)
    (denotes_self kbig_A 0 kex_parent kbig kbig_kin) (kin_env _ _ _ _ kbig_kin)) as [(s' & E & Hsc)|(s' & q & E & Hq & Hm & Hz)]; rewrite H in E.
  - apply Ok_inj in E as [E _]. discriminate E.
  - apply Ok_inj in E as [_ <-]. injection Hq as <-. split; [exact Hm|exact Hz].
Qed.
