(* ===== verification/Fork.v ===== *)
(** * Fork: copy-on-write fork in user mode ([lib/fork.c], [lib/pgfault.c])

    [fork] gives the child the pages of the parent: shared pages stay shared, read-only pages are
    mapped again, and the writable ones become read-only copy-on-write pages of both.  The first
    write to such a page faults, and the handler puts a writable copy in its place. *)

From S2P Require Import Prelude Layout KState UMonad Str Usys.

Definition PTE_COW : Z := 0x800.

(** The addresses of the variables and functions of the program *)
Record symbols := mksymbols {
  sym_handler : Z;        (* _pgfault_handler *)
  sym_thisenv : Z;        (* thisenv *)
  sym_upcall : Z;         (* _pgfault_upcall *)
  sym_pgfault : Z;        (* pgfault *)
  sym_envs : Z -> Z;      (* &envs[i] *)
}.

Section fork.
Context (junk : Z) (sym : symbols).

(** The handler, on the two fields of [struct UTrapframe] it reads *)
Definition pgfault (utf_fault_va utf_err : Z) : M kstate unit :=
  let addr := utf_fault_va in
  bad ← (if utf_err .& FEC_WR =? 0 then mret true
         else pte ← uvpt (PGNUM addr); mret (pte .& PTE_COW =? 0));
  if (bad : bool) then abort
  else
    let addr := ROUNDDOWN addr PGSIZE in
    r ← usys_page_alloc junk 0 PFTEMP (PTE_U .| PTE_W .| PTE_P);
    if r <? 0 then abort
    else
      memcpy PFTEMP addr PGSIZE;;
      r ← usys_page_map junk 0 PFTEMP 0 addr (PTE_U .| PTE_W .| PTE_P);
      if r <? 0 then abort
      else
        r ← usys_page_unmap junk 0 PFTEMP;
        if r <? 0 then abort else mret tt.

(** A store of the program.  When it faults the kernel makes the handler run, and then the
    instruction is started again. *)
Definition fault_code (s : kstate) (a : Z) : Z :=
  FEC_U .| FEC_WR .| (match mmu s a false with Some _ => FEC_PR | None => 0 end).
Definition stb_cow (a b : Z) : M kstate unit :=
  pa ← mget (fun s => mmu s (u32 a) true);
  match pa with
  | Some _ => stb a b
  | None =>
      err ← mget (fun s => fault_code s (u32 a));
      pgfault (u32 a) err;;
      stb a b
  end.
Definition st32_cow (a w : Z) : M kstate unit :=
  mfor (zip (seqZ 0 4) (bytes4 w)) (fun '(k, b) => stb_cow (a + k) b).

Definition set_pgfault_handler (handler : Z) : M kstate unit :=
  h ← ld32 (sym_handler sym);
  mwhen (h =? 0) (
    me ← usys_getenvid junk;
    err ← usys_page_alloc junk me (UXSTACKTOP - PGSIZE) PTE_SYSCALL;
    if err <? 0 then abort
    else
      me ← usys_getenvid junk;
      err ← usys_env_set_pgfault_upcall junk me (sym_upcall sym);
      if err <? 0 then abort else mret tt);;
  st32_cow (sym_handler sym) handler.

Definition duppage (envid pn : Z) : M kstate Z :=
  let addr := u32 (pn * PGSIZE) in
  pte ← uvpt pn;
  if truth (pte .& PTE_SHARE) then
    err ← usys_page_map junk 0 addr envid addr (pte .& PTE_SYSCALL);
    mret (if err <? 0 then err else 0)
  else if truth (pte .& PTE_COW) || truth (pte .& PTE_W) then
    err ← usys_page_map junk 0 addr envid addr (PTE_COW .| PTE_U .| PTE_P);
    if err <? 0 then mret err
    else
      err ← usys_page_map junk 0 addr 0 addr (PTE_COW .| PTE_U .| PTE_P);
      mret (if err <? 0 then err else 0)
  else
    err ← usys_page_map junk 0 addr envid addr (PTE_U .| PTE_P);
    mret (if err <? 0 then err else 0).

(** A round of the loop over the pages below the stack *)
Definition fork_page (env_id addr : Z) : M kstate unit :=
  pde ← uvpd (PDX addr);
  if truth (pde .& PTE_P) then
    pte ← uvpt (PGNUM addr);
    if truth (pte .& PTE_P) then
      err ← duppage env_id (PGNUM addr);
      if err <? 0 then abort else mret tt
    else mret tt
  else mret tt.

(** What the parent does once it has a child *)
Definition fork_parent (env_id : Z) : M kstate Z :=
  mfor (map (fun k => k * PGSIZE) (seqZ 0 (USTACKTOP / PGSIZE))) (fork_page env_id);;
  err ← usys_page_alloc junk env_id (UXSTACKTOP - PGSIZE) (PTE_P .| PTE_W .| PTE_U);
  if err <? 0 then abort
  else
    err ← usys_env_set_pgfault_upcall junk env_id (sym_upcall sym);
    if err <? 0 then abort
    else
      err ← usys_env_set_status junk env_id ENV_RUNNABLE;
      if err <? 0 then abort else mret env_id.

Definition fork : M kstate Z :=
  set_pgfault_handler (sym_pgfault sym);;
  env_id ← usys_exofork junk;
  if env_id <? 0 then abort
  else if env_id =? 0 then
    me ← usys_getenvid junk;
    st32_cow (sym_thisenv sym) (sym_envs sym (ENVX me));;
    mret 0
  else fork_parent env_id.
End fork.

Definition sfork : M kstate Z := abort.
