(* ===== verification/ForkThms.v ===== *)
(** * ForkThms: fork gives the child its own memory

    The page fault handler gives the environment a copy of the page of its own and changes no byte
    any environment sees.  After [fork] parent and child see the same bytes in different pages or
    in pages neither can write, and from then on a store of one is not seen by the other. *)

From S2P Require Import Prelude Layout KState KMem Pmap VmRefs VmInv VmOps UserMem UMem KInv KEx Env Syscall EnvOps EnvThms SysOps SysSafe UStore SysThms UMonad Str StrThms Usys UsysThms PageUse Fork.

(** ** Mappings and bytes *)

(** No page is mapped so often that [k] more mappings overflow its counter. *)
Definition uses_small (s : kstate) (k : Z) : Prop := forall p, uses (mem s) (roots (envs s)) p + k < 2^16.

(** At most the pages with less than two mappings have got more. *)
Definition uses_le (s s' : kstate) : Prop :=
  forall p, uses (mem s') (roots (envs s')) p <= Z.max (uses (mem s) (roots (envs s)) p) 2.
Lemma uses_le_trans s1 s2 s3 : uses_le s1 s2 -> uses_le s2 s3 -> uses_le s1 s3.
Proof. intros H1 H2 p. specialize (H1 p). specialize (H2 p). lia. Qed.
Lemma uses_le_small s s' k : uses_le s s' -> k < 2^16 - 2 -> uses_small s k -> uses_small s' k.
Proof. intros H Hk Hu p. specialize (H p). specialize (Hu p). lia. Qed.

Lemma refs_small_uses A s : kinv A s -> uses_small s 1 -> refs_small A s.
Proof. intros H Hu p Hp Hnt. rewrite (refs_uses A) by (done || apply (ki_vm _ _ H)). apply Hu. Qed.

Section facts.
Context (A : gset Z) (s : kstate) (H : kinv A s).

Lemma free_unmapped q d va w :
  page_free_list s = Some q -> d ∈ roots (envs s) -> 0 <= va < UTOP -> vmap (mem s) d va = Some w -> pgn w <> q.
Proof.
  intros Hq Hd Hva Hw E. subst q. destruct (alloc_zero_spec A s _ H Hq) as (s1 & _ & _ & _ & _ & _ & _ & Hnt & _).
  destruct (page_alloc_spec ∅ s ALLOC_ZERO _ (ki_vm _ _ H) Hq) as (s2 & _ & _ & _ & _ & _ & _ & H0 & _).
  destruct (mapped_page A s d va w H Hd Hva Hw) as (_ & _ & Hpos). lia.
Qed.

Lemma maps_to_unmapped q d va : page_free_list s = Some q -> d ∈ roots (envs s) -> 0 <= va < UTOP -> maps_to (mem s) d va q = false.
Proof. intros Hq Hd Hva. unfold maps_to. destruct (vmap (mem s) d va) as [w|] eqn:Hw; [|done]. apply Z.eqb_neq. by apply (free_unmapped q d va). Qed.

Lemma uses_free q : page_free_list s = Some q -> uses (mem s) (roots (envs s)) q = 0.
Proof.
  intros Hq. apply zsum_zero. intros d Hd. apply zsum_zero. intros x Hx. apply zsum_zero. intros y Hy. destruct (page_va_index _ _ Hx Hy) as (_ & _ & Hr & _).
  by rewrite maps_to_unmapped.
Qed.

Lemma kept_byte s' d va w o : data_kept s s' -> d ∈ roots (envs s) -> 0 <= va < UTOP -> vmap (mem s) d va = Some w -> rdb (mem s') (pgn w) o = rdb (mem s) (pgn w) o.
Proof.
  intros Hkept Hd Hva Hw. destruct (mapped_page A s d va w H Hd Hva Hw) as (_ & Hnt & Hpos). unfold rdb. by rewrite Hkept.
Qed.

(** A mapping that is the same shows the same bytes. *)
Lemma kept_ubyte s' d va :
  data_kept s s' -> d ∈ roots (envs s) -> 0 <= va < UTOP -> vmap (mem s') d va = vmap (mem s) d va -> ubyte s' d va = ubyte s d va.
Proof.
  intros Hkept Hd Hva Hm. unfold ubyte. rewrite Hm. destruct (vmap (mem s) d va) as [w|] eqn:Hw; [|done]. by rewrite (kept_byte s' d va w).
Qed.

Lemma root_nodup : NoDup (roots (envs s)).
Proof. apply (ti_nodup _ _ _ (proj1 (ki_vm _ _ H))). Qed.

Context (s' : kstate) (d va p perm : Z).
Hypothesis Hd : d ∈ roots (envs s).
Hypothesis Hva : 0 <= va < UTOP.

Lemma maps_uses q : pgn (mkpte p perm) = p -> maps A s s' d va p perm -> uses (mem s') (roots (envs s)) q <= uses (mem s) (roots (envs s)) q + ind (p =? q).
Proof.
  intros Hp (_ & _ & Hm & Hs & _). rewrite (uses_step (mem s) (mem s') (roots (envs s)) d va q root_nodup Hd Hva Hs). pose proof (ind_range (maps_to (mem s) d va q)).
  assert (maps_to (mem s') d va q = (p =? q)) as -> by (unfold maps_to; by rewrite Hm, Hp). lia.
Qed.
Lemma unmaps_uses q : unmaps A s s' d va -> uses (mem s') (roots (envs s)) q <= uses (mem s) (roots (envs s)) q.
Proof.
  intros (_ & _ & Hm & Hs & _). rewrite (uses_step (mem s) (mem s') (roots (envs s)) d va q root_nodup Hd Hva Hs). pose proof (ind_range (maps_to (mem s) d va q)).
  assert (maps_to (mem s') d va q = false) as -> by (unfold maps_to; by rewrite Hm). cbn [ind]. lia.
Qed.

Lemma maps_ubyte d' a :
  maps A s s' d va p perm -> d' ∈ roots (envs s) -> 0 <= a < UTOP -> ~ (d' = d /\ a / 4096 = va / 4096) -> ubyte s' d' a = ubyte s d' a.
Proof. intros (_ & _ & _ & Hs & Hkept) Hd' Ha Hne. apply kept_ubyte; [done..|]. by apply Hs. Qed.
Lemma unmaps_ubyte d' a :
  unmaps A s s' d va -> d' ∈ roots (envs s) -> 0 <= a < UTOP -> ~ (d' = d /\ a / 4096 = va / 4096) -> ubyte s' d' a = ubyte s d' a.
Proof. intros (_ & _ & _ & Hs & Hkept) Hd' Ha Hne. apply kept_ubyte; [done..|]. by apply Hs. Qed.
End facts.

(** ** The page fault handler *)

Definition UWP : Z := PTE_U .| PTE_W .| PTE_P.

Lemma pte_fresh A s q perm :
  kinv A s -> page_free_list s = Some q -> bad_perm perm = false -> pgn (mkpte q perm) = q.
Proof.
  intros H Hq Hp. destruct (alloc_zero_spec A s q H Hq) as (s1 & _ & _ & _ & HqA & _). pose proof (vm_pool (ki_vm _ _ H) q HqA). pose proof (vm_npages (ki_vm _ _ H)).
  apply mkpte_ok; [lia|by apply perm_range].
Qed.

Lemma pte_mapped A s d va w perm :
  kinv A s -> d ∈ roots (envs s) -> 0 <= va < UTOP -> vmap (mem s) d va = Some w -> bad_perm perm = false -> pgn (mkpte (pgn w) perm) = pgn w.
Proof.
  intros H Hd Hva Hw Hp. destruct (mapped_page A s d va w H Hd Hva Hw) as (HA & _). pose proof (vm_pool (ki_vm _ _ H) _ HA). pose proof (vm_npages (ki_vm _ _ H)).
  apply mkpte_ok; [lia|by apply perm_range].
Qed.

Lemma may_mkpte write q perm : may write (mkpte q perm) = truth (perm .& PTE_U) && (negb write || truth (perm .& PTE_W)).
Proof.
  unfold may, present. rewrite !mkpte_flag by done. rewrite !Z.land_lor_distr_l. change (PTE_P .& PTE_P) with PTE_P. change (PTE_P .& PTE_U) with 0. change (PTE_P .& PTE_W) with 0.
  rewrite !Z.lor_0_r. assert (truth ((perm .& PTE_P) .| PTE_P) = true) as ->; [|done].
  unfold truth. apply negb_true_iff, Z.eqb_neq. intros E. apply Z.lor_eq_0_iff in E as [_ E]. done.
Qed.

Lemma private_fresh A s s' d va q perm :
  kinv A s -> d ∈ roots (envs s) -> page_free_list s = Some q -> bad_perm perm = false -> maps A s s' d va q perm -> private s' d va.
Proof.
  intros H Hd Hq Hp (_ & Hf & Hm & Hs & _) w d' va' w' Hw Hd' Hva' Hw' E. rewrite Hm in Hw. injection Hw as <-. rewrite (pte_fresh A s) in E by done.
  rewrite (vm_frame_envs _ _ Hf) in Hd'. destruct (decide (d' = d /\ va' / 4096 = va / 4096)) as [?|Hne]; [done|]. rewrite Hs in Hw' by done.
  exfalso. by apply (free_unmapped A s H q d' va' w').
Qed.

Lemma private_page s d va va' : 0 <= va < UTOP -> 0 <= va' < UTOP -> va' / 4096 = va / 4096 -> private s d va -> private s d va'.
Proof.
  intros H1 H2 E Hp w d' a w' Hw Hd' Ha Hw' Eq. rewrite (vmap_page_only _ _ va) in Hw by done. rewrite E. by apply (Hp w d' a w').
Qed.

Lemma uvpt_present s d va : user_dir s = Some d -> 0 <= va < UTOP -> present (rdw (mem s) d (PDX va)) = true ->
  uvpt (PGNUM va) s = Ok (rdw (mem s) (pgn (rdw (mem s) d (PDX va))) (PTX va)) s.
Proof.
  intros Hd Hva Hp. unfold uvpt, uvpd. unfold mbind, M_bind. rewrite Hd. assert (PGNUM va / NPTENTRIES = PDX va) as -> by (rewrite PGNUM_div, PDX_div; clear - Hva; dlia).
  assert (PGNUM va mod NPTENTRIES = PTX va) as -> by (rewrite PGNUM_div, PTX_div; dlia). by rewrite Hp.
Qed.

(** Fork passes over the pages that are not mapped. *)
Lemma fork_page_unmapped junk s d id va : user_dir s = Some d -> 0 <= va < UTOP -> vmap (mem s) d va = None -> fork_page junk id va s = Ok tt s.
Proof.
  intros Hd Hva Hw. assert (Hu : uvpd (PDX va) s = Ok (rdw (mem s) d (PDX va)) s) by (unfold uvpd; by rewrite Hd). unfold fork_page.
  rewrite (bind_Ok _ _ _ _ _ Hu). fold (present (rdw (mem s) d (PDX va))). destruct (present (rdw (mem s) d (PDX va))) eqn:Hp; [|done].
  rewrite (bind_Ok _ _ _ _ _ (uvpt_present s d va Hd Hva Hp)). fold (present (rdw (mem s) (pgn (rdw (mem s) d (PDX va))) (PTX va))).
  unfold vmap in Hw. rewrite Hp in Hw. cbv zeta in Hw. by destruct (present (rdw (mem s) (pgn (rdw (mem s) d (PDX va))) (PTX va))).
Qed.

Section handler.
Context (junk : Z) (A : gset Z) (i : Z) (e : Env).
Notation d := (root_of e).

Lemma uvpd_eq s x : kin A i e s -> uvpd x s = Ok (rdw (mem s) d x) s.
Proof. intros Hk. unfold uvpd. by rewrite (user_dir_eq _ _ _ _ Hk). Qed.
Lemma uvpt_eq s va w : kin A i e s -> 0 <= va < UTOP -> vmap (mem s) d va = Some w -> uvpt (PGNUM va) s = Ok w s.
Proof.
  intros Hk Hva. unfold vmap. destruct (present (rdw (mem s) d (PDX va))) eqn:Hp; [|done]. cbv zeta. destruct (present (rdw (mem s) (pgn _) (PTX va))) eqn:Hq; [|done]. intros [= <-].
  by apply uvpt_present; [apply (user_dir_eq A i e)|..].
Qed.

(** The bytes of a page as the program reads them *)
Definition page_bytes (s : kstate) (q : Z) : list Z := map (rdb (mem s) q) (seqZ 0 4096).
Lemma page_bytes_length s q : Z.of_nat (length (page_bytes s q)) = 4096.
Proof. unfold page_bytes. rewrite length_map, length_seqZ. lia. Qed.
Lemma page_bytes_lookup s q k : 0 <= k < 4096 -> page_bytes s q !! Z.to_nat k = Some (rdb (mem s) q k).
Proof. intros Hk. unfold page_bytes. rewrite list_lookup_fmap, (proj2 (lookup_seqZ 0 4096 (Z.to_nat k) k)) by lia. done. Qed.

Lemma page_bytes_at s va w :
  kin A i e s -> 0 <= va < UTOP -> va mod 4096 = 0 -> vmap (mem s) d va = Some w -> may false w = true -> bytes_at s va (page_bytes s (pgn w)).
Proof.
  intros Hk Hva Hal Hw Hm k b Hb. assert (Hkl : 0 <= Z.of_nat k < 4096) by (apply lookup_lt_Some in Hb; pose proof (page_bytes_length s (pgn w)); lia).
  rewrite <- (Nat2Z.id k) in Hb. rewrite page_bytes_lookup in Hb by done. injection Hb as <-.
  assert (Hva' : 0 <= va + Z.of_nat k < UTOP) by (split; [lia|]; clear - Hva Hal Hkl; dlia).
  change (user_view s (va + Z.of_nat k) = Some (rdb (mem s) (pgn w) (Z.of_nat k))). rewrite (user_view_ubyte _ _ _ _ _ Hk Hva').
  rewrite (vmap_page_only _ _ va) by (done || dlia). rewrite Hw, Hm. do 2 f_equal. rewrite PGOFF_mod. dlia.
Qed.

Lemma private_buffer s va w :
  kin A i e s -> 0 <= va < UTOP -> va mod 4096 = 0 -> vmap (mem s) d va = Some w -> may true w = true -> private s d va -> buffer s va 4096.
Proof.
  intros Hk Hva Hal Hw Hm Hp k Hk'. assert (Hva' : 0 <= k < UTOP) by (split; [lia|]; clear - Hva Hal Hk'; dlia).
  exists A, i, e, w. split_and!; try done; try lia; [rewrite (vmap_page_only _ _ va) by (done || dlia); done|]. apply (private_page s d va); (done || dlia).
Qed.

(** The copy: the fresh page at [PFTEMP] gets the bytes of the page at [va]. *)
Lemma copy_page_ok s va w q :
  kin A i e s -> 0 <= va < UTOP -> va mod 4096 = 0 -> vmap (mem s) d va = Some w -> may false w = true ->
  vmap (mem s) d PFTEMP = Some (mkpte q UWP) -> private s d PFTEMP -> pgn (mkpte q UWP) = q ->
  exists s', memcpy PFTEMP va PGSIZE s = Ok PFTEMP s' /\ kin A i e s' /\ s' = set_mem (mem s') s /\
    (forall d' a, d' ∈ roots (envs s) -> 0 <= a < UTOP -> vmap (mem s') d' a = vmap (mem s) d' a) /\
    (forall d' a, d' ∈ roots (envs s) -> 0 <= a < UTOP -> ~ (d' = d /\ a / 4096 = PFTEMP / 4096) -> ubyte s' d' a = ubyte s d' a) /\
    (forall o, 0 <= o < 4096 -> rdb (mem s') q o = rdb (mem s) (pgn w) o).
Proof.
  intros Hk Hva Hal Hw Hm Ht Hp Hq. unfold memcpy. assert (HT : 0 <= PFTEMP < UTOP) by clia. assert (HTa : PFTEMP mod 4096 = 0) by done.
  assert (HmT : may true (mkpte q UWP) = true) by (rewrite may_mkpte; done).
  destruct (memmove_spec (page_bytes s (pgn w)) s PFTEMP va) as (s' & E & [[Hset Hrest] Hview] & Hb).
  { by apply page_bytes_at. }
  { rewrite page_bytes_length. by apply (private_buffer s PFTEMP (mkpte q UWP)). }
  { lia. }
  { rewrite page_bytes_length. clear - Hva. clia. }
  { lia. }
  { rewrite page_bytes_length. clia. }
  rewrite page_bytes_length in E, Hview. exists s'. split; [exact E|]. destruct (Hrest A i e Hk) as (Hk' & Hv & Hother). split; [done|]. split; [exact Hset|]. split; [done|].
  assert (He : envs s' = envs s) by (rewrite Hset; done). split.
  - intros d' a Hd' Ha Hne. apply (touches_ubyte A i e s s' (range PFTEMP 4096)); [done|by split|done..|]. intros [-> [? ?]]. apply Hne. split; [done|].
    change PFTEMP with (2047 * 4096) in *. clear - H H0. dlia.
  - intros o Ho. pose proof (page_bytes_lookup s (pgn w) o Ho) as Hl. apply Hb in Hl. rewrite Z2Nat.id in Hl by lia.
    assert (HoT : 0 <= PFTEMP + o < UTOP) by clia. change (user_view s' (PFTEMP + o) = Some (rdb (mem s) (pgn w) o)) in Hl. rewrite (user_view_ubyte _ _ _ _ _ Hk' HoT), Hv in Hl by (done || by apply (kin_root A i e s)).
    rewrite (vmap_page_only _ _ PFTEMP) in Hl by (done || (change PFTEMP with (2047 * 4096); dlia)). rewrite Ht, (may_read _ HmT), Hq in Hl. injection Hl as <-.
    f_equal. rewrite PGOFF_mod. change PFTEMP with (2047 * 4096). dlia.
Qed.

(** The page at [va] is a writable copy of its own, and no byte has changed except at [PFTEMP]. *)
Record copied (s s' : kstate) (va : Z) : Prop := {
  cp_kin : kin A i e s';
  cp_frame : vm_frame s s';
  cp_uses : uses_le s s';
  cp_writes : writes s' d va;
  cp_own : private s' d va;
  cp_temp : vmap (mem s') d PFTEMP = None;
  cp_maps : forall d' a, d' ∈ roots (envs s) -> 0 <= a < UTOP -> ~ (d' = d /\ (a / 4096 = PFTEMP / 4096 \/ a / 4096 = va / 4096)) ->
    vmap (mem s') d' a = vmap (mem s) d' a;
  cp_bytes : forall d' a, d' ∈ roots (envs s) -> 0 <= a < UTOP -> ~ (d' = d /\ a / 4096 = PFTEMP / 4096) -> ubyte s' d' a = ubyte s d' a;
  cp_fresh : exists q, vmap (mem s') d va = Some (mkpte q UWP) /\ pgn (mkpte q UWP) = q /\
    forall d' a w', d' ∈ roots (envs s) -> 0 <= a < UTOP -> vmap (mem s) d' a = Some w' -> pgn w' <> q;
}.

(** From the copy on: the new page takes the place of the old one, and [PFTEMP] is unmapped. *)
Lemma pgfault_swap s s1 s2 va w q :
  kin A i e s -> uses_small s 1 -> 0 <= va < UTOP -> va mod 4096 = 0 -> va / 4096 <> PFTEMP / 4096 -> vmap (mem s) d va = Some w ->
  page_free_list s = Some q -> maps A s s1 d PFTEMP q UWP ->
  kin A i e s2 -> s2 = set_mem (mem s2) s1 ->
  (forall d' a, d' ∈ roots (envs s1) -> 0 <= a < UTOP -> vmap (mem s2) d' a = vmap (mem s1) d' a) ->
  (forall d' a, d' ∈ roots (envs s1) -> 0 <= a < UTOP -> ~ (d' = d /\ a / 4096 = PFTEMP / 4096) -> ubyte s2 d' a = ubyte s1 d' a) ->
  (forall o, 0 <= o < 4096 -> rdb (mem s2) q o = rdb (mem s1) (pgn w) o) ->
  exists s', (r ← usys_page_map junk 0 PFTEMP 0 va UWP;
     if r <? 0 then abort else r ← usys_page_unmap junk 0 PFTEMP; if r <? 0 then abort else mret tt) s2 = Ok tt s' /\ copied s s' va.
Proof.
  intros Hk Hu Hva Hal Hne Hw Hq Hmap Hk2 Hs2 Hv2 Hb2 Hc2. pose proof (kin_inv _ _ _ _ Hk) as Hi. pose proof (kin_root _ _ _ _ Hk) as Hd.
  assert (HT : 0 <= PFTEMP < UTOP) by clia. assert (Hpg := pte_fresh A s q UWP Hi Hq eq_refl). assert (Hmap' := Hmap). destruct Hmap' as (Hi1 & Hf1 & HT1 & Hsame1 & Hkept1).
  assert (He1 : envs s1 = envs s) by apply (vm_frame_envs _ _ Hf1). assert (He2 : envs s2 = envs s) by (rewrite Hs2; exact He1). rewrite He1 in Hv2, Hb2.
  assert (HT2 : vmap (mem s2) d PFTEMP = Some (mkpte q UWP)) by (by rewrite Hv2).
  assert (Hva2 : vmap (mem s2) d va = Some w) by (rewrite Hv2, Hsame1; try done; by intros [_ ?]).
  assert (Huse2 : forall p, uses (mem s2) (roots (envs s)) p <= uses (mem s) (roots (envs s)) p + ind (q =? p)).
  { intros p. rewrite (uses_same (mem s1)) by done. by apply (maps_uses A s Hi s1 d PFTEMP q UWP). }
  assert (Hq0 := uses_free A s Hi q Hq).
  assert (Hu2 : uses_small s2 1).
  { intros p. rewrite He2. specialize (Huse2 p). specialize (Hu p). destruct (Z.eqb_spec q p) as [<-|_]; cbn [ind] in Huse2; lia. }
  destruct (usys_page_map_ok junk A i e s2 Hk2 PFTEMP 0 i e va UWP (mkpte q UWP)) as [(_ & Hno & _)|(s3 & E3 & Hmap3)]; try done; try lia.
  { by apply refs_small_uses; [apply Hk2|]. }
  { unfold bad_va. rewrite (proj2 (Z.leb_gt _ _)), PGOFF_mod, Hal by lia. done. }
  { by apply (denotes_self A i e s2). }
  { apply Hk2. }
  { intros _. unfold truth. by rewrite mkpte_flag. }
  { rewrite Hva2 in Hno. done. }
  rewrite Hpg in Hmap3. rewrite (bind_Ok _ _ _ _ _ E3). change (0 <? 0) with false. cbv iota. assert (Hmap3' := Hmap3). destruct Hmap3' as (Hi3 & Hf3 & Hva3 & Hsame3 & Hkept3).
  assert (Hk3 : kin A i e s3) by (by apply (kin_frame A i e s2)). assert (He3 : envs s3 = envs s) by (by rewrite (vm_frame_envs _ _ Hf3)).
  destruct (usys_page_unmap_ok junk A i e s3 Hk3 PFTEMP) as (s4 & E4 & Hun); [lia|done|]. rewrite (bind_Ok _ _ _ _ _ E4). change (0 <? 0) with false. cbv iota.
  exists s4. split; [done|]. assert (Hun' := Hun). destruct Hun' as (Hi4 & Hf4 & HT4 & Hsame4 & Hkept4). unfold same_maps in Hsame3, Hsame4. rewrite He2 in Hsame3. rewrite He3 in Hsame4.
  assert (Hva4 : vmap (mem s4) d va = Some (mkpte q UWP)) by (rewrite Hsame4; try done; by intros [_ ?]).
  assert (Hvm4 : forall d' a, d' ∈ roots (envs s) -> 0 <= a < UTOP -> ~ (d' = d /\ (a / 4096 = PFTEMP / 4096 \/ a / 4096 = va / 4096)) -> vmap (mem s4) d' a = vmap (mem s) d' a).
  { intros d' a Hd' Ha Hn. rewrite Hsame4, Hsame3, Hv2, Hsame1; try done; intros [-> ?]; apply Hn; auto. }
  assert (Hfr : vm_frame s s4). { eapply vm_frame_trans; [exact Hf1|]. eapply vm_frame_trans; [|eapply vm_frame_trans; [exact Hf3|exact Hf4]]. unfold vm_frame. rewrite Hs2. by destruct s1. }
  split; try done.
  - by apply (kin_frame A i e s3).
  - intros p. rewrite (vm_frame_envs _ _ Hfr). pose proof (unmaps_uses A s3 Hi3 s4 d PFTEMP) as U4. rewrite He3 in U4. specialize (U4 Hd HT p Hun).
    pose proof (maps_uses A s2 (kin_inv _ _ _ _ Hk2) s3 d va q UWP) as U3. rewrite He2 in U3. specialize (U3 Hd Hva p Hpg Hmap3). specialize (Huse2 p). specialize (Hu p).
    destruct (Z.eqb_spec q p) as [<-|_]; cbn [ind] in *; lia.
  - exists (mkpte q UWP). split; [done|]. by rewrite may_mkpte.
  - intros w1 d' a w' Hw1 Hd' Ha Hw' Eq. rewrite Hva4 in Hw1. injection Hw1 as <-. rewrite Hpg in Eq. rewrite (vm_frame_envs _ _ Hfr) in Hd'.
    destruct (decide (d' = d /\ (a / 4096 = PFTEMP / 4096 \/ a / 4096 = va / 4096))) as [[-> [E|E]]|Hn]; [|done|].
    + exfalso. rewrite (vmap_page_only _ _ PFTEMP) in Hw' by done. rewrite HT4 in Hw'. done.
    + rewrite Hvm4 in Hw' by done. exfalso. by apply (free_unmapped A s Hi q d' a w').
  - intros d' a Hd' Ha Hn. rewrite (unmaps_ubyte A s3 Hi3 s4 d PFTEMP d' a) by (done || by rewrite He3). destruct (decide (d' = d /\ a / 4096 = va / 4096)) as [[-> E]|Hn'].
    + unfold ubyte. rewrite (vmap_page_only _ _ va), Hva3, Hpg by done. rewrite (vmap_page_only (mem s) _ va), Hw by done. f_equal.
      rewrite <- Hpg at 1. rewrite (kept_byte A s2 (kin_inv _ _ _ _ Hk2) s3 d PFTEMP) by (done || by rewrite He2). rewrite Hpg, Hc2 by apply PGOFF_range. by apply (kept_byte A s Hi s1 d va).
    + rewrite (maps_ubyte A s2 (kin_inv _ _ _ _ Hk2) s3 d va q UWP d' a), Hb2 by (done || by rewrite He2). by apply (maps_ubyte A s Hi s1 d PFTEMP q UWP).
  - exists q. split; [done|]. split; [done|]. intros d' a w' Hd' Ha Hw'. by apply (free_unmapped A s Hi q d' a w').
Qed.

(** A write fault on a copy-on-write page: the handler panics for lack of memory or makes the copy. *)
Lemma pgfault_ok s va w err :
  kin A i e s -> uses_small s 1 -> 0 <= va < UTOP -> va / 4096 <> PFTEMP / 4096 -> vmap (mem s) d va = Some w -> may false w = true -> truth (w .& PTE_COW) = true ->
  truth (err .& FEC_WR) = true ->
  (exists s', pgfault junk va err s = Abort s' /\ scarce s') \/ exists s', pgfault junk va err s = Ok tt s' /\ copied s s' va.
Proof.
  intros Hk Hu Hva Hne Hw Hm Hcow Herr. pose proof (kin_inv _ _ _ _ Hk) as Hi. pose proof (kin_root _ _ _ _ Hk) as Hd. unfold pgfault.
  unfold truth in Herr. apply negb_true_iff in Herr. rewrite Herr. rewrite (bind_Ok _ _ s false s).
  2: { rewrite (bind_Ok _ _ _ _ _ (uvpt_eq s va w Hk Hva Hw)). unfold truth in Hcow. apply negb_true_iff in Hcow. by rewrite Hcow. }
  cbv iota zeta. rewrite ROUNDDOWN_page by clia. set (pa := va / 4096 * 4096).
  assert (Hpa : 0 <= pa < UTOP /\ pa mod 4096 = 0 /\ pa / 4096 = va / 4096) by (unfold pa; split_and!; [dlia|dlia|rewrite Z.mod_mul by lia; done|by rewrite Z.div_mul by lia]).
  destruct Hpa as (Hpa & Hpal & Hpe).
  destruct (usys_page_alloc_ok junk A i e s Hk 0 i e PFTEMP UWP) as [(s1 & E1 & Hsc)|(s1 & q & E1 & Hq & Hmap & _)]; try done; try lia.
  { by apply (denotes_self A i e s). }
  { apply Hk. }
  { left. exists s1. split; [|done]. fold UWP. rewrite (bind_Ok _ _ _ _ _ E1). done. }
  right. fold UWP. rewrite (bind_Ok _ _ _ _ _ E1). change (0 <? 0) with false. cbv iota. assert (Hmap' := Hmap). destruct Hmap' as (Hi1 & Hf1 & HT1 & Hsame1 & Hkept1).
  assert (Hk1 : kin A i e s1) by (by apply (kin_frame A i e s)). assert (He1 := vm_frame_envs _ _ Hf1). assert (Hpg := pte_fresh A s q UWP Hi Hq eq_refl).
  assert (Hwpa : vmap (mem s) d pa = Some w) by (by rewrite (vmap_page_only _ _ va)).
  destruct (copy_page_ok s1 pa w q) as (s2 & E2 & Hk2 & Hs2 & Hv2 & Hb2 & Hc2); try done.
  { rewrite Hsame1; try done. rewrite Hpe. by intros [_ ?]. }
  { by apply (private_fresh A s s1 d PFTEMP q UWP). }
  rewrite (bind_Ok _ _ _ _ _ E2).
  destruct (pgfault_swap s s1 s2 pa w q) as (s' & E' & Hcp); try done; [by rewrite Hpe|].
  exists s'. split; [exact E'|]. destruct Hcp as [C1 C2 C3 (w' & C4 & C4') C5 C7 C8 C9 (q2 & C10 & C11)].
  split; try done.
  - exists w'. by rewrite (vmap_page_only _ _ pa).
  - by apply (private_page s' d pa).
  - by rewrite <- Hpe.
  - exists q2. by rewrite (vmap_page_only _ _ pa).
Qed.
End handler.

(** ** Duplicating a page *)

(** The entries of child and parent for a page the parent maps with [w] *)
Definition COWUP : Z := PTE_COW .| PTE_U .| PTE_P.
Definition copies (w : Z) : bool := negb (truth (w .& PTE_SHARE)) && (truth (w .& PTE_COW) || truth (w .& PTE_W)).
Definition child_perm (w : Z) : Z := if truth (w .& PTE_SHARE) then w .& PTE_SYSCALL else if copies w then COWUP else PTE_U .| PTE_P.
Definition child_pte (w : Z) : Z := mkpte (pgn w) (child_perm w).
Definition parent_pte (w : Z) : Z := if copies w then mkpte (pgn w) COWUP else w.

Lemma child_perm_ok w : may false w = true -> bad_perm (child_perm w) = false.
Proof.
  unfold may, child_perm. intros [[Hp Hu]%andb_true_iff _]%andb_true_iff. destruct (truth (w .& PTE_SHARE)); [|by destruct (copies w)].
  unfold bad_perm. rewrite <- !Z.land_assoc. change (PTE_SYSCALL .& PTE_U) with PTE_U. change (PTE_SYSCALL .& PTE_P) with PTE_P. unfold present, truth in Hp, Hu. apply negb_true_iff in Hp, Hu. rewrite Hp, Hu. cbn [orb].
  unfold truth. apply negb_false_iff, Z.eqb_eq. apply Z.bits_inj'. intros n Hn. rewrite Z.ldiff_spec, Z.land_spec, Z.bits_0. by destruct (Z.testbit w n), (Z.testbit PTE_SYSCALL n).
Qed.
Lemma child_no_escalation w : no_escalation w (child_perm w).
Proof.
  unfold no_escalation, child_perm. destruct (truth (w .& PTE_SHARE)).
  - rewrite <- Z.land_assoc. by change (PTE_SYSCALL .& PTE_W) with PTE_W.
  - by destruct (copies w).
Qed.

Section dup.
Context (junk : Z) (A : gset Z) (i j : Z) (e ej : Env) (es : gmap Z Env).
Notation d := (root_of e).
Notation c := (root_of ej).
Hypothesis Hj : es !! j = Some ej.
Hypothesis Hei : es !! i = Some e.
Hypothesis Hlive : live ej = true.
Hypothesis Hid : 0 < env_id ej < 2^31.
Hypothesis Hparent : env_parent_id ej = env_id e.
Hypothesis Hcd : c <> d.

Lemma denotes_child s : envs s = es -> denotes s i (env_id ej) true j.
Proof. intros He. exists ej. rewrite He. split; [done|]. split; [done|]. right. split; [lia|]. split; [done|]. intros _. right. by exists e. Qed.
Lemma child_root s : kinv A s -> envs s = es -> c ∈ roots (envs s).
Proof. intros H He. apply (kinv_root A s j ej H); [by rewrite He|done]. Qed.

(** [va] is duplicated, the other mappings are the same, and so are the pages in use. *)
Record dupped (s s' : kstate) (va w : Z) : Prop := {
  du_kin : kin A i e s';
  du_frame : vm_frame s s';
  du_child : vmap (mem s') c va = Some (child_pte w);
  du_parent : vmap (mem s') d va = Some (parent_pte w);
  du_same : forall d' a, d' ∈ roots es -> 0 <= a < UTOP -> ~ ((d' = c \/ d' = d) /\ a / 4096 = va / 4096) -> vmap (mem s') d' a = vmap (mem s) d' a;
  du_data : forall d' a v o, d' ∈ roots es -> 0 <= a < UTOP -> vmap (mem s) d' a = Some v -> rdb (mem s') (pgn v) o = rdb (mem s) (pgn v) o;
  du_uses : forall p, uses (mem s') (roots es) p <= uses (mem s) (roots es) p + ind (pgn w =? p);
}.

Lemma dup_child_step s va w perm :
  kin A i e s -> envs s = es -> uses_small s 1 -> 0 <= va < UTOP -> va mod 4096 = 0 -> vmap (mem s) d va = Some w -> bad_perm perm = false -> no_escalation w perm ->
  (page_free_list s = None /\ usys_page_map junk 0 va (env_id ej) va perm s = Ok (- E_NO_MEM) s) \/
  exists s', usys_page_map junk 0 va (env_id ej) va perm s = Ok 0 s' /\ maps A s s' c va (pgn w) perm /\ kin A i e s' /\ envs s' = es /\
    vmap (mem s') d va = Some w /\ (forall p, uses (mem s') (roots es) p <= uses (mem s) (roots es) p + ind (pgn w =? p)).
Proof.
  intros Hk He Hu Hva Hal Hw Hbp Hne. pose proof (kin_inv _ _ _ _ Hk) as Hi. assert (Hb : bad_va va = false) by (unfold bad_va; rewrite (proj2 (Z.leb_gt _ _)), PGOFF_mod, Hal by lia; done).
  destruct (usys_page_map_ok junk A i e s Hk va (env_id ej) j ej va perm w) as [(Hf & _ & E)|(s' & E & Hm)]; try done; try lia.
  { by apply refs_small_uses. }
  { by apply denotes_child. }
  { by rewrite He. }
  { by left. }
  right. exists s'. split; [done|]. split; [done|]. assert (Hm' := Hm). destruct Hm' as (Hi' & Hf & _ & Hs & _). split; [by apply (kin_frame A i e s)|]. split; [by rewrite (vm_frame_envs _ _ Hf)|].
  split; [rewrite Hs; [done|by apply (kin_root A i e s)|done|]; intros [? _]; congruence|]. intros p. rewrite <- He. apply (maps_uses A s Hi s' c va (pgn w) perm); [by apply child_root|done| |done].
  apply (pte_mapped A s d va w perm Hi); [by apply (kin_root A i e s)|done..].
Qed.

Lemma dup_parent_step s va w :
  kin A i e s -> envs s = es -> uses_small s 1 -> 0 <= va < UTOP -> va mod 4096 = 0 -> vmap (mem s) d va = Some w ->
  exists s', usys_page_map junk 0 va 0 va COWUP s = Ok 0 s' /\ maps A s s' d va (pgn w) COWUP /\ kin A i e s' /\ envs s' = es /\
    (forall p, uses (mem s') (roots es) p <= uses (mem s) (roots es) p).
Proof.
  intros Hk He Hu Hva Hal Hw. pose proof (kin_inv _ _ _ _ Hk) as Hi. pose proof (kin_root _ _ _ _ Hk) as Hd. assert (Hb : bad_va va = false) by (unfold bad_va; rewrite (proj2 (Z.leb_gt _ _)), PGOFF_mod, Hal by lia; done).
  destruct (usys_page_map_ok junk A i e s Hk va 0 i e va COWUP w) as [(_ & Hno & _)|(s' & E & Hm)]; try done; try lia.
  { by apply refs_small_uses. }
  { by apply (denotes_self A i e s). }
  { apply Hk. }
  { rewrite Hw in Hno. done. }
  exists s'. split; [done|]. split; [done|]. destruct Hm as (Hi' & Hf & Hm & Hs & _). split; [by apply (kin_frame A i e s)|]. split; [by rewrite (vm_frame_envs _ _ Hf)|].
  intros p. rewrite <- He. rewrite (uses_step (mem s) (mem s') (roots (envs s)) d va p (root_nodup A s Hi) Hd Hva Hs). unfold maps_to. rewrite Hw, Hm.
  rewrite (pte_mapped A s d va w COWUP Hi Hd Hva Hw eq_refl). lia.
Qed.

Lemma duppage_ok s va w :
  kin A i e s -> envs s = es -> uses_small s 2 -> 0 <= va < UTOP -> va mod 4096 = 0 -> vmap (mem s) d va = Some w -> may false w = true -> vmap (mem s) c va = None ->
  (page_free_list s = None /\ duppage junk (env_id ej) (PGNUM va) s = Ok (- E_NO_MEM) s) \/
  exists s', duppage junk (env_id ej) (PGNUM va) s = Ok 0 s' /\ dupped s s' va w.
Proof.
  intros Hk He Hu Hva Hal Hw Hm Hnone. pose proof (kin_inv _ _ _ _ Hk) as Hi. pose proof (kin_root _ _ _ _ Hk) as Hd. assert (Hc := child_root s Hi He).
  assert (Hu1 : uses_small s 1) by (intros p; specialize (Hu p); lia). unfold duppage. rewrite (bind_Ok _ _ _ _ _ (uvpt_eq A i e s va w Hk Hva Hw)).
  assert (u32 (PGNUM va * PGSIZE) = va) as -> by (rewrite PGNUM_div; unfold PGSIZE; rewrite u32_small; clear - Hva Hal; dlia).
  destruct (dup_child_step s va w (child_perm w) Hk He Hu1 Hva Hal Hw (child_perm_ok w Hm) (child_no_escalation w)) as [(Hf & E)|(s1 & E & Hmap & Hk1 & He1 & Hw1 & Hu')].
  - left. split; [done|]. unfold child_perm, copies in E. destruct (truth (w .& PTE_SHARE)); cbn [negb andb] in E; [by rewrite (bind_Ok _ _ _ _ _ E)|].
    destruct (truth (w .& PTE_COW) || truth (w .& PTE_W)); by rewrite (bind_Ok _ _ _ _ _ E).
  - assert (Hpg := pte_mapped A s d va w (child_perm w) Hi Hd Hva Hw (child_perm_ok w Hm)). assert (Hmap' := Hmap). destruct Hmap' as (Hi1 & Hf1 & Hc1 & Hs1 & Hkept1). unfold same_maps in Hs1. rewrite He in Hs1, Hc, Hd.
    assert (Hdata1 : forall d' a v o, d' ∈ roots es -> 0 <= a < UTOP -> vmap (mem s) d' a = Some v -> rdb (mem s1) (pgn v) o = rdb (mem s) (pgn v) o).
    { intros d' a v o Hd' Ha Hv. apply (kept_byte A s Hi s1 d' a); (done || by rewrite He). }
    right. destruct (copies w) eqn:Hcp.
    + destruct (dup_parent_step s1 va w Hk1 He1) as (s2 & E2 & (Hi2 & Hf2 & Hd2 & Hs2 & Hkept2) & Hk2 & He2 & Hu2); try done.
      { intros p. rewrite He1. specialize (Hu' p). specialize (Hu p). rewrite He in Hu. pose proof (ind_range (pgn w =? p)). lia. }
      exists s2. unfold copies in Hcp. apply andb_true_iff in Hcp as [Hsh Hcw]. apply negb_true_iff in Hsh. rewrite Hsh, Hcw. unfold child_perm, copies in E, Hc1, Hpg. rewrite Hsh, Hcw in E, Hc1, Hpg. cbn [negb andb] in E, Hc1, Hpg.
      fold COWUP. rewrite (bind_Ok _ _ _ _ _ E). change (0 <? 0) with false. cbv iota. rewrite (bind_Ok _ _ _ _ _ E2). split; [done|]. unfold same_maps in Hs2. rewrite He1 in Hs2.
      split; try done.
      * by eapply vm_frame_trans.
      * rewrite Hs2 by (done || by intros [? _]). rewrite Hc1. unfold child_pte, child_perm, copies. by rewrite Hsh, Hcw.
      * rewrite Hd2. unfold parent_pte, copies. by rewrite Hsh, Hcw.
      * intros d' a Hd' Ha Hn. rewrite Hs2, Hs1; try done; intros [-> ?]; apply Hn; auto.
      * intros d' a v o Hd' Ha Hv. rewrite <- (Hdata1 d' a v o) by done. destruct (decide (d' = c /\ a / 4096 = va / 4096)) as [[-> Ea]|Hn].
        -- rewrite (vmap_page_only _ _ va), Hnone in Hv by done. done.
        -- apply (kept_byte A s1 Hi1 s2 d' a); try done; [by rewrite He1|]. by rewrite Hs1.
      * intros p. specialize (Hu2 p). specialize (Hu' p). lia.
    + exists s1. split.
      * unfold copies in Hcp. unfold child_perm, copies in E. destruct (truth (w .& PTE_SHARE)); cbn [negb andb] in E, Hcp; [by rewrite (bind_Ok _ _ _ _ _ E)|].
        rewrite Hcp in E |- *. by rewrite (bind_Ok _ _ _ _ _ E).
      * split; try done; [by unfold parent_pte; rewrite Hcp|]. intros d' a Hd' Ha Hn. apply Hs1; [done..|]. intros [-> ?]. apply Hn. auto.
Qed.

(** ** The loop over the pages *)

(** The pages below page number [n] have been duplicated. *)
Record forking (s0 s : kstate) (n : Z) : Prop := {
  fk_kin : kin A i e s;
  fk_frame : vm_frame s0 s;
  fk_child : forall a, 0 <= a < UTOP -> a / 4096 < n -> vmap (mem s) c a = child_pte <$> vmap (mem s0) d a;
  fk_parent : forall a, 0 <= a < UTOP -> a / 4096 < n -> vmap (mem s) d a = parent_pte <$> vmap (mem s0) d a;
  fk_rest : forall d' a, d' ∈ roots es -> 0 <= a < UTOP -> ~ ((d' = c \/ d' = d) /\ a / 4096 < n) -> vmap (mem s) d' a = vmap (mem s0) d' a;
  fk_data : forall d' a v o, d' ∈ roots es -> 0 <= a < UTOP -> vmap (mem s0) d' a = Some v -> rdb (mem s) (pgn v) o = rdb (mem s0) (pgn v) o;
  fk_uses : forall p, uses (mem s) (roots es) p <= uses (mem s0) (roots es) p + uses_below (mem s0) d p n;
}.

Context (s0 : kstate) (Hk0 : kin A i e s0) (He0 : envs s0 = es).
Hypothesis Hempty : forall a, 0 <= a < UTOP -> vmap (mem s0) c a = None.
Hypothesis Huser : forall a w, 0 <= a < USTACKTOP -> vmap (mem s0) d a = Some w -> may false w = true.
Hypothesis Huses : forall p, 2 * uses (mem s0) (roots es) p + 2 < 2^16.

Lemma forking_start : forking s0 s0 0.
Proof.
  split; try done; [auto with frame|..]; try (intros a Ha Hn; exfalso; clear - Ha Hn; dlia). intros p. rewrite uses_below_0. lia.
Qed.

Lemma pgn_parent w a : 0 <= a < UTOP -> vmap (mem s0) d a = Some w -> pgn (parent_pte w) = pgn w.
Proof.
  intros Ha Hw. unfold parent_pte. destruct (copies w); [|done]. apply (pte_mapped A s0 d a w COWUP (kin_inv _ _ _ _ Hk0)); [by apply (kin_root A i e s0)|done..].
Qed.

Lemma forking_kept s n d' a v : forking s0 s n -> d' ∈ roots es -> 0 <= a < UTOP -> vmap (mem s0) d' a = Some v -> exists v', vmap (mem s) d' a = Some v' /\ pgn v' = pgn v.
Proof.
  intros F Hd' Ha Hv. destruct (decide (d' = c)) as [->|Hc]; [rewrite Hempty in Hv; done|].
  destruct (decide (d' = d /\ a / 4096 < n)) as [[-> Hn]|Hn].
  - exists (parent_pte v). rewrite (fk_parent _ _ _ F), Hv by done. split; [done|]. by apply (pgn_parent v a).
  - exists v. rewrite (fk_rest _ _ _ F); [done..|]. intros [[?|?] ?]; [done|]. by apply Hn.
Qed.

Lemma forking_uses s n : forking s0 s n -> uses_small s 2.
Proof.
  intros F p. rewrite (vm_frame_envs _ _ (fk_frame _ _ _ F)), He0. pose proof (fk_uses _ _ _ F p). pose proof (Huses p).
  assert (Hd : d ∈ roots es) by (rewrite <- He0; by apply (kin_root A i e s0)). pose proof (uses_below_le (mem s0) (roots es) d p n Hd). lia.
Qed.

Lemma forking_next s s' n w :
  0 <= n -> n * 4096 < USTACKTOP -> forking s0 s n -> vmap (mem s0) d (n * 4096) = Some w -> dupped s s' (n * 4096) w -> forking s0 s' (n + 1).
Proof.
  intros Hn Htop F Hw D. assert (Hva : 0 <= n * 4096 < UTOP) by clia. assert (Hnd : n * 4096 / 4096 = n) by (by rewrite Z.div_mul by lia).
  assert (Hdr : d ∈ roots es) by (rewrite <- He0; by apply (kin_root A i e s0)). assert (Hcr : c ∈ roots es) by (rewrite <- He0; apply child_root; [apply Hk0|done]).
  split.
  - apply (du_kin _ _ _ _ D).
  - eapply vm_frame_trans; [apply F|apply D].
  - intros a Ha Hlt. destruct (decide (a / 4096 = n)) as [E|E].
    + rewrite (vmap_page_only (mem s') c (n * 4096)), (vmap_page_only (mem s0) d (n * 4096)) by (done || lia). rewrite (du_child _ _ _ _ D), Hw. done.
    + rewrite (du_same _ _ _ _ D), (fk_child _ _ _ F) by (done || lia || (rewrite Hnd; lia)). done.
  - intros a Ha Hlt. destruct (decide (a / 4096 = n)) as [E|E].
    + rewrite (vmap_page_only (mem s') d (n * 4096)), (vmap_page_only (mem s0) d (n * 4096)) by (done || lia). rewrite (du_parent _ _ _ _ D), Hw. done.
    + rewrite (du_same _ _ _ _ D), (fk_parent _ _ _ F) by (done || lia || (rewrite Hnd; lia)). done.
  - intros d' a Hd' Ha Hn'. rewrite (du_same _ _ _ _ D), (fk_rest _ _ _ F); try done; intros [H1 H2]; apply Hn'; (split; [done|]); rewrite ?Hnd in H2; lia.
  - intros d' a v o Hd' Ha Hv. destruct (forking_kept s n d' a v F Hd' Ha Hv) as (v' & Hv' & Hp). rewrite <- Hp, (du_data _ _ _ _ D d' a), Hp by done. by apply (fk_data _ _ _ F d' a).
  - intros p. rewrite uses_below_S by (lia || clia). pose proof (fk_uses _ _ _ F p). pose proof (du_uses _ _ _ _ D p).
    unfold maps_to. rewrite Hw. lia.
Qed.

Lemma forking_skip s n : 0 <= n -> n * 4096 < USTACKTOP -> forking s0 s n -> vmap (mem s0) d (n * 4096) = None -> forking s0 s (n + 1).
Proof.
  intros Hn Htop F Hw. assert (Hva : 0 <= n * 4096 < UTOP) by clia. assert (Hnd : n * 4096 / 4096 = n) by (by rewrite Z.div_mul by lia).
  assert (Hdr : d ∈ roots es) by (rewrite <- He0; by apply (kin_root A i e s0)). assert (Hcr : c ∈ roots es) by (rewrite <- He0; apply child_root; [apply Hk0|done]).
  split; try apply F.
  - intros a Ha Hlt. destruct (decide (a / 4096 = n)) as [E|E]; [|apply (fk_child _ _ _ F); (done || lia)].
    rewrite (vmap_page_only (mem s) c (n * 4096)), (vmap_page_only (mem s0) d (n * 4096)) by (done || lia). rewrite (fk_rest _ _ _ F), Hempty, Hw by (done || lia || (rewrite Hnd; lia)). done.
  - intros a Ha Hlt. destruct (decide (a / 4096 = n)) as [E|E]; [|apply (fk_parent _ _ _ F); (done || lia)].
    rewrite (vmap_page_only (mem s) d (n * 4096)), (vmap_page_only (mem s0) d (n * 4096)) by (done || lia). rewrite (fk_rest _ _ _ F), Hw by (done || lia || (rewrite Hnd; lia)). done.
  - intros d' a Hd' Ha Hn'. apply (fk_rest _ _ _ F); [done..|]. intros [H1 H2]. apply Hn'. split; [done|lia].
  - intros p. rewrite uses_below_S by (lia || clia). pose proof (fk_uses _ _ _ F p). pose proof (ind_range (maps_to (mem s0) d (n * 4096) p)). lia.
Qed.

(** A round of the loop *)
Lemma fork_page_ok s n :
  0 <= n -> n * 4096 < USTACKTOP -> forking s0 s n ->
  (page_free_list s = None /\ fork_page junk (env_id ej) (n * PGSIZE) s = Abort s) \/
  exists s', fork_page junk (env_id ej) (n * PGSIZE) s = Ok tt s' /\ forking s0 s' (n + 1).
Proof.
  intros Hn Htop F. change (n * PGSIZE) with (n * 4096). set (va := n * 4096) in *. assert (Hva : 0 <= va < UTOP) by clia. assert (Hnd : va / 4096 = n) by (unfold va; by rewrite Z.div_mul by lia).
  pose proof (fk_kin _ _ _ F) as Hk. assert (He : envs s = es) by (by rewrite (vm_frame_envs _ _ (fk_frame _ _ _ F))).
  assert (Hdr : d ∈ roots es) by (rewrite <- He0; by apply (kin_root A i e s0)). assert (Hcr : c ∈ roots es) by (rewrite <- He0; apply child_root; [apply Hk0|done]).
  assert (Hsame : vmap (mem s) d va = vmap (mem s0) d va) by (apply (fk_rest _ _ _ F); [done..|]; intros [_ ?]; lia).
  assert (Hcn : vmap (mem s) c va = None) by (rewrite (fk_rest _ _ _ F), Hempty by (done || lia); done).
  destruct (vmap (mem s) d va) as [w|] eqn:Hw.
  - unfold fork_page. rewrite (bind_Ok _ _ _ _ _ (uvpd_eq A i e s (PDX va) Hk)). fold (present (rdw (mem s) d (PDX va))).
    assert (present (rdw (mem s) d (PDX va)) = true) as -> by (unfold vmap in Hw; by destruct (present (rdw (mem s) d (PDX va)))).
    rewrite (bind_Ok _ _ _ _ _ (uvpt_eq A i e s va w Hk Hva Hw)). assert (Hm : may false w = true) by (apply (Huser va); [unfold va in *; lia|by symmetry]).
    fold (present w). assert (present w = true) as -> by (unfold may in Hm; by destruct (present w)).
    destruct (duppage_ok s va w Hk He (forking_uses s n F) Hva) as [[Hf E]|(s' & E & D)]; try done.
    { unfold va. by rewrite Z.mod_mul by lia. }
    { left. split; [done|]. by rewrite (bind_Ok _ _ _ _ _ E). }
    right. exists s'. rewrite (bind_Ok _ _ _ _ _ E). split; [done|]. apply (forking_next s s' n w); (done || by symmetry).
  - right. exists s. split; [|by apply forking_skip]. apply (fork_page_unmapped junk s d); [by apply (user_dir_eq A i)|done..].
Qed.

Lemma fork_loop (n : nat) :
  Z.of_nat n * 4096 <= USTACKTOP ->
  (exists s, page_free_list s = None /\ mfor (map (fun k => k * PGSIZE) (seqZ 0 (Z.of_nat n))) (fork_page junk (env_id ej)) s0 = Abort s) \/
  exists s, mfor (map (fun k => k * PGSIZE) (seqZ 0 (Z.of_nat n))) (fork_page junk (env_id ej)) s0 = Ok tt s /\ forking s0 s (Z.of_nat n).
Proof.
  induction n as [|n IH]; intros Hn; [right; exists s0; split; [done|apply forking_start]|].
  replace (Z.of_nat (Datatypes.S n)) with (Z.of_nat n + 1) by lia. rewrite seqZ_app by lia. rewrite map_app, mfor_app. rewrite Z.add_0_l, (seqZ_cons (Z.of_nat n) 1), seqZ_nil by lia. cbn [map mfor].
  destruct (IH ltac:(lia)) as [(s & Hf & E)|(s & E & F)].
  - left. exists s. split; [done|]. unfold mbind, M_bind. by rewrite E.
  - destruct (fork_page_ok s (Z.of_nat n)) as [[Hf E']|(s' & E' & F')]; [lia|lia|done|left|right].
    + exists s. split; [done|]. rewrite (bind_Ok _ _ _ _ _ E). unfold mbind, M_bind. by rewrite E'.
    + exists s'. split; [|done]. rewrite (bind_Ok _ _ _ _ _ E), (bind_Ok _ _ _ _ _ E'). done.
Qed.
End dup.
