(* ===== verification/ForkIso.v ===== *)
(** * ForkIso: parent and child do not see each other's stores

    A store of a program goes to a page of its own, if need be one the page fault handler makes
    for it.  [fork] establishes for parent and child what the stores rely on, so any sequence of
    stores of the two is one on two separate memories. *)

From S2P Require Import Prelude Layout KState KMem Pmap VmRefs VmInv VmOps UserMem UMem KInv KEx Env Syscall EnvOps EnvThms SysOps SysSafe UStore SysThms UMonad Str StrThms Usys UsysThms PageUse Fork ForkThms.

(** Shared pages apart, nothing else maps the pages the environment can write. *)
Definition own (s : kstate) (d : Z) : Prop :=
  forall a w, 0 <= a < UTOP -> vmap (mem s) d a = Some w -> truth (w .& PTE_SHARE) = false -> may true w = true -> private s d a.
(** The program can store at [a], where the page is not shared. *)
Definition storable (s : kstate) (d a : Z) : Prop :=
  exists w, vmap (mem s) d a = Some w /\ may false w = true /\ truth (w .& PTE_SHARE) = false /\ (may true w = true \/ truth (w .& PTE_COW) = true).

Lemma flag_mkpte q perm f : 4095 .& f = f -> PTE_P .& f = 0 -> truth (mkpte q perm .& f) = truth (perm .& f).
Proof. intros H1 H2. by rewrite mkpte_flag, Z.land_lor_distr_l, H2, Z.lor_0_r. Qed.

Section store.
Context (junk : Z) (A : gset Z) (i : Z) (e : Env).
Notation d := (root_of e).

(** ** One store *)

Record user_stored (s s' : kstate) (a b : Z) : Prop := {
  st_kin : kin A i e s';
  st_frame : vm_frame s s';
  st_uses : uses_le s s';
  st_byte : ubyte s' d a = Some (u8 b);
  st_bytes : forall d' x, d' ∈ roots (envs s) -> 0 <= x < UTOP -> ~ (d' = d /\ (x = a \/ x / 4096 = PFTEMP / 4096)) -> ubyte s' d' x = ubyte s d' x;
  st_own : forall d', d' ∈ roots (envs s) -> own s d' -> own s' d';
  st_storable : forall d' x, d' ∈ roots (envs s) -> 0 <= x < UTOP -> ~ (d' = d /\ x / 4096 = PFTEMP / 4096) -> storable s d' x -> storable s' d' x;
  st_user : forall d' x w, d' ∈ roots (envs s) -> 0 <= x < UTOP -> vmap (mem s') d' x = Some w -> may false w = true \/ vmap (mem s) d' x = Some w;
}.

Lemma copied_own s s' va d' : kin A i e s -> 0 <= va < UTOP -> copied A i e s s' va -> d' ∈ roots (envs s) -> own s d' -> own s' d'.
Proof.
  intros Hk Hva C Hd' Ho a w Ha Hw Hsh Hm. pose proof (kin_root _ _ _ _ Hk) as Hd. destruct (decide (d' = d /\ a / 4096 = va / 4096)) as [[-> E]|Hn].
  { apply (private_page s' d va); [done..|apply C]. }
  destruct (decide (d' = d /\ a / 4096 = PFTEMP / 4096)) as [[-> E]|Hn2].
  { rewrite (vmap_page_only _ _ PFTEMP), (cp_temp _ _ _ _ _ _ C) in Hw by (done || clia). done. }
  assert (Hs : vmap (mem s') d' a = vmap (mem s) d' a) by (apply (cp_maps _ _ _ _ _ _ C); [done..|]; intros [-> [?|?]]; auto).
  rewrite Hs in Hw. destruct (cp_fresh _ _ _ _ _ _ C) as (q & Hq & Hpq & Hfresh). intros w1 d2 a2 w2 Hw1 Hd2 Ha2 Hw2 Eq. rewrite Hs, Hw in Hw1. injection Hw1 as <-.
  rewrite (vm_frame_envs _ _ (cp_frame _ _ _ _ _ _ C)) in Hd2. destruct (decide (d2 = d /\ a2 / 4096 = va / 4096)) as [[-> E2]|Hn3].
  { exfalso. rewrite (vmap_page_only _ _ va), Hq in Hw2 by done. injection Hw2 as <-. rewrite Hpq in Eq. by apply (Hfresh d' a w). }
  destruct (decide (d2 = d /\ a2 / 4096 = PFTEMP / 4096)) as [[-> E2]|Hn4].
  { exfalso. rewrite (vmap_page_only _ _ PFTEMP), (cp_temp _ _ _ _ _ _ C) in Hw2 by (done || clia). done. }
  rewrite (cp_maps _ _ _ _ _ _ C) in Hw2; [|done..|intros [-> [?|?]]; auto]. by apply (Ho a w Ha Hw Hsh Hm w d2 a2 w2).
Qed.

(** A store to a page the environment can write *)
Lemma stb_own_ok s a b :
  kin A i e s -> 0 <= a < UTOP -> writes s d a -> private s d a -> exists s', stb a b s = Ok tt s' /\ user_stored s s' a b.
Proof.
  intros Hk Ha (w & Hw & Hm) Hp. pose proof (kin_root _ _ _ _ Hk) as Hd. destruct (store s a b) as (s' & E & Ht & Hv).
  { exists A, i, e, w. split_and!; (done || lia). }
  exists s'. split; [exact E|]. assert (Ht' := Ht). destruct Ht as [[Hset Hrest] _]. destruct (Hrest A i e Hk) as (Hk' & Hvm & _). assert (He : envs s' = envs s) by (rewrite Hset; done).
  assert (Hpriv : forall d' x, d' ∈ roots (envs s) -> 0 <= x < UTOP -> private s d' x -> private s' d' x).
  { intros d' x Hd' Hx Hpx w1 d2 a2 w2 Hw1 Hd2 Ha2 Hw2. rewrite He in Hd2. rewrite Hvm in Hw1, Hw2 by done. by apply Hpx. }
  split.
  - done.
  - unfold vm_frame. rewrite Hset. by destruct s.
  - intros p. rewrite He, (uses_same (mem s)) by done. lia.
  - change (user_view s' a = Some (u8 b)) in Hv. rewrite (user_view_ubyte _ _ _ _ _ Hk' Ha), Hvm, Hw, (may_read _ Hm) in Hv by done. unfold ubyte. by rewrite Hvm, Hw.
  - intros d' x Hd' Hx Hn. apply (touches_ubyte A i e s s' (eq a)); try done. intros [-> <-]. apply Hn. auto.
  - intros d' Hd' Ho x v Hx Hxv Hsh Hxm. rewrite Hvm in Hxv by done. apply Hpriv; [done..|]. by apply (Ho x v).
  - intros d' x Hd' Hx _ (v & Hxv & Hr). exists v. by rewrite Hvm.
  - intros d' x v Hd' Hx Hxv. right. by rewrite Hvm in Hxv.
Qed.

Lemma stored_after s s1 s' a b : kin A i e s -> 0 <= a < UTOP -> a / 4096 <> PFTEMP / 4096 -> copied A i e s s1 a -> user_stored s1 s' a b -> user_stored s s' a b.
Proof.
  intros Hk Ha Hn C S. assert (He := vm_frame_envs _ _ (cp_frame _ _ _ _ _ _ C)). destruct S as [S1 S2 S3 S4 S5 S6 S7 S8]. rewrite He in S5, S6, S7, S8. split; try done.
  - eapply vm_frame_trans; [apply C|done].
  - eapply uses_le_trans; [apply C|done].
  - intros d' x Hd' Hx Hne. rewrite S5 by done. apply (cp_bytes _ _ _ _ _ _ C); [done..|]. intros [-> ?]. apply Hne. auto.
  - intros d' Hd' Ho. apply S6; [done|]. by apply (copied_own s s1 a).
  - intros d' x Hd' Hx Hne Hst. apply S7; [done..|]. destruct (decide (d' = d /\ x / 4096 = a / 4096)) as [[-> E]|Hn2].
    + destruct (cp_fresh _ _ _ _ _ _ C) as (q & Hq & _). exists (mkpte q UWP). rewrite (vmap_page_only _ _ a) by done. split; [done|]. rewrite !may_mkpte, flag_mkpte by done. split_and!; auto.
    + destruct Hst as (v & Hv & Hr). exists v. rewrite (cp_maps _ _ _ _ _ _ C); [done..|]. intros [-> [?|?]]; auto.
  - intros d' x v Hd' Hx Hv. destruct (S8 d' x v Hd' Hx Hv) as [?|Hv1]; [by left|]. destruct (decide (d' = d /\ x / 4096 = a / 4096)) as [[-> E]|Hn1].
    + left. destruct (cp_fresh _ _ _ _ _ _ C) as (q & Hq & _). rewrite (vmap_page_only _ _ a), Hq in Hv1 by done. injection Hv1 as <-. by rewrite may_mkpte.
    + destruct (decide (d' = d /\ x / 4096 = PFTEMP / 4096)) as [[-> E]|Hn2].
      { rewrite (vmap_page_only _ _ PFTEMP), (cp_temp _ _ _ _ _ _ C) in Hv1 by (done || clia). done. }
      right. rewrite <- Hv1. symmetry. apply (cp_maps _ _ _ _ _ _ C); [done..|]. intros [-> [?|?]]; auto.
Qed.

(** A store with its fault *)
Lemma stb_cow_ok s a b :
  kin A i e s -> uses_small s 1 -> own s d -> 0 <= a < UTOP -> a / 4096 <> PFTEMP / 4096 -> storable s d a ->
  (exists s', stb_cow junk a b s = Abort s' /\ scarce s') \/ exists s', stb_cow junk a b s = Ok tt s' /\ user_stored s s' a b.
Proof.
  intros Hk Hu Ho Ha Hn (w & Hw & Hr & Hsh & Hc). unfold stb_cow. rewrite (bind_Ok _ _ s (mmu s (u32 a) true) s) by done. rewrite u32_small by clia.
  rewrite (mmu_vmap _ _ _ _ _ _ Hk Ha), Hw. destruct (may true w) eqn:Hm.
  - right. apply stb_own_ok; try done; [by exists w|]. by apply (Ho a w).
  - destruct Hc as [?|Hc]; [done|]. rewrite (bind_Ok _ _ s (fault_code s a) s) by done.
    destruct (pgfault_ok junk A i e s a w (fault_code s a)) as [(s1 & E1 & Hsc)|(s1 & E1 & C)]; try done.
    { unfold fault_code. by destruct (mmu s a false). }
    { left. exists s1. split; [|done]. unfold mbind at 1, M_bind at 1. by rewrite E1. }
    right. rewrite (bind_Ok _ _ _ _ _ E1). destruct (stb_own_ok s1 a b) as (s' & E & S); [apply C|done|apply C|apply C|].
    exists s'. split; [done|]. by apply (stored_after s s1).
Qed.
End store.

(** ** The parent's part of fork *)

Section parent.
Context (junk : Z) (sym : symbols) (A : gset Z) (i j : Z) (e ej : Env) (s0 : kstate).
Notation d := (root_of e).
Notation c := (root_of ej).
Hypothesis Hsym : 0 <= sym_upcall sym < 2^32.
Hypothesis Hk0 : kin A i e s0.
Hypothesis Hj : envs s0 !! j = Some ej.
Hypothesis Hji : j <> i.
Hypothesis Hlive : live ej = true.
Hypothesis Hid : 0 < env_id ej < 2^31.
Hypothesis Hparent : env_parent_id ej = env_id e.
Hypothesis Hcd : c <> d.
Hypothesis Hempty : forall a, 0 <= a < UTOP -> vmap (mem s0) c a = None.
Hypothesis Huser : forall a w, 0 <= a < USTACKTOP -> vmap (mem s0) d a = Some w -> may false w = true.
Hypothesis Huses : forall p, 2 * uses (mem s0) (roots (envs s0)) p + 2 < 2^16.

(** The child that can run *)
Definition started : Env := set_env_status ENV_RUNNABLE (set_env_pgfault_upcall (sym_upcall sym) ej).

Record cloned (s : kstate) : Prop := {
  fo_kin : kin A i e s;
  fo_envs : envs s = <[j := started]> (envs s0);
  fo_child : forall a, 0 <= a < USTACKTOP -> vmap (mem s) c a = child_pte <$> vmap (mem s0) d a;
  fo_parent : forall a, 0 <= a < USTACKTOP -> vmap (mem s) d a = parent_pte <$> vmap (mem s0) d a;
  fo_guard : forall a, USTACKTOP <= a < UXSTACKTOP - PGSIZE -> vmap (mem s) c a = None;
  fo_stack : exists q, (forall a, UXSTACKTOP - PGSIZE <= a < UXSTACKTOP -> vmap (mem s) c a = Some (mkpte q UWP)) /\ pgn (mkpte q UWP) = q /\
    (forall y, rdw (mem s) q y = 0) /\ forall d' a w, d' ∈ roots (envs s0) -> 0 <= a < UTOP -> vmap (mem s0) d' a = Some w -> pgn w <> q;
  fo_rest : forall d' a, d' ∈ roots (envs s0) -> 0 <= a < UTOP -> d' <> c -> ~ (d' = d /\ a < USTACKTOP) -> vmap (mem s) d' a = vmap (mem s0) d' a;
  fo_data : forall d' a v o, d' ∈ roots (envs s0) -> 0 <= a < UTOP -> vmap (mem s0) d' a = Some v -> rdb (mem s) (pgn v) o = rdb (mem s0) (pgn v) o;
  fo_uses : uses_small s 1;
}.

Notation pages := (USTACKTOP / 4096).
Lemma pages_top a : 0 <= a -> a / 4096 < pages <-> a < USTACKTOP.
Proof. intros Ha. change USTACKTOP with (pages * 4096). change pages with 977918 at 1 2. change pages with 977918. split; intros; dlia. Qed.

(** With the exception stack of the child *)
Lemma cloned_stack s s1 q :
  forking A i e ej (envs s0) s0 s pages -> page_free_list s = Some q -> maps A s s1 c (UXSTACKTOP - PGSIZE) q UWP -> (forall y, rdw (mem s1) q y = 0) ->
  cloned (with_env j started s1).
Proof.
  intros F Hq Hm Hz. pose proof (fk_kin _ _ _ _ _ _ _ _ F) as Hk. pose proof (kin_inv _ _ _ _ Hk) as Hi. pose proof (kin_inv _ _ _ _ Hk0) as Hi0.
  assert (Hes : envs s = envs s0) by (by apply vm_frame_envs, (fk_frame _ _ _ _ _ _ _ _ F)).
  assert (Hd : d ∈ roots (envs s0)) by (by apply (kin_root A i e s0)). assert (Hc : c ∈ roots (envs s0)) by (by apply (child_root A j ej (envs s0) Hj Hlive s0)).
  assert (Hm' := Hm). destruct Hm' as (Hi1 & Hf1 & Hst1 & Hsame1 & Hkept1). unfold same_maps in Hsame1. rewrite Hes in Hsame1. assert (Hes1 : envs s1 = envs s0) by (by rewrite (vm_frame_envs _ _ Hf1)).
  assert (Hpg := pte_fresh A s q UWP Hi Hq eq_refl). set (top := UXSTACKTOP - PGSIZE) in *. assert (Htop : top = 977919 * 4096 /\ UTOP = top + 4096 /\ USTACKTOP = top - 4096) by (unfold top; clia).
  assert (Hcore : same_core ej started) by (split; [by rewrite Hlive|done]).
  assert (Hjr : 0 <= j < NENV) by (by apply (kinv_range A s0 j ej)). assert (Hroots : roots (envs (with_env j started s1)) = roots (envs s0)).
  { unfold with_env. cbn [envs set_envs]. rewrite Hes1. by apply (roots_same _ j ej). }
  split.
  - apply (kin_with_env A i e s1 j ej started); [by apply (kin_frame A i e s)|done|by rewrite Hes1|done].
  - unfold with_env. cbn [envs set_envs]. by rewrite Hes1.
  - intros a Ha. change (mem (with_env j started s1)) with (mem s1). rewrite Hsame1; [|done|lia|intros [_ E]; clear - E Ha Htop; dlia].
    apply (fk_child _ _ _ _ _ _ _ _ F); [lia|]. apply pages_top; lia.
  - intros a Ha. change (mem (with_env j started s1)) with (mem s1). rewrite Hsame1; [|done|lia|intros [E _]; congruence].
    apply (fk_parent _ _ _ _ _ _ _ _ F); [lia|]. apply pages_top; lia.
  - intros a Ha. change (mem (with_env j started s1)) with (mem s1). rewrite Hsame1; [|done|lia|intros [_ E]; clear - E Ha Htop; dlia].
    rewrite (fk_rest _ _ _ _ _ _ _ _ F); [apply Hempty; lia|done|lia|]. intros [_ E]. apply pages_top in E; lia.
  - exists q. split; [|split; [done|split; [done|]]].
    + intros a Ha. change UXSTACKTOP with UTOP in Ha. unfold PGSIZE in Ha. change (mem (with_env j started s1)) with (mem s1). rewrite <- Hst1. apply vmap_page_only; [lia|lia|]. clear - Ha Htop. dlia.
    + intros d' a w Hd' Ha Hw. destruct (forking_kept A i e ej (envs s0) s0 Hk0 Hempty s pages d' a w F Hd' Ha Hw) as (w' & Hw' & <-).
      apply (free_unmapped A s Hi q d' a w' Hq); (done || by rewrite Hes).
  - intros d' a Hd' Ha Hnc Hn. change (mem (with_env j started s1)) with (mem s1). rewrite Hsame1; [|done|done|by intros [? _]].
    apply (fk_rest _ _ _ _ _ _ _ _ F); [done..|]. intros [[?|?] E]; [done|]. apply Hn. split; [done|]. apply pages_top in E; lia.
  - intros d' a v o Hd' Ha Hv. change (mem (with_env j started s1)) with (mem s1). destruct (forking_kept A i e ej (envs s0) s0 Hk0 Hempty s pages d' a v F Hd' Ha Hv) as (v' & Hv' & Hp).
    rewrite <- Hp, (kept_byte A s Hi s1 d' a v') by (done || by rewrite Hes). rewrite Hp. by apply (fk_data _ _ _ _ _ _ _ _ F d' a).
  - intros p. rewrite Hroots. change (mem (with_env j started s1)) with (mem s1). pose proof (forking_uses A i e ej (envs s0) s0 Hk0 eq_refl Huses s pages F p) as U. rewrite Hes in U.
    pose proof (maps_uses A s Hi s1 c top q UWP) as U1. rewrite Hes in U1. specialize (U1 Hc ltac:(lia) p Hpg Hm). pose proof (ind_range (q =? p)). lia.
Qed.

Lemma fork_parent_ok :
  (exists s', fork_parent junk sym (env_id ej) s0 = Abort s' /\ scarce s') \/
  exists s, fork_parent junk sym (env_id ej) s0 = Ok (env_id ej) s /\ cloned s.
Proof.
  unfold fork_parent. assert (Hp : Z.of_nat (Z.to_nat pages) = USTACKTOP / PGSIZE) by (rewrite Z2Nat.id by (change pages with 977918; lia); done). rewrite <- Hp.
  destruct (fork_loop junk A i j e ej (envs s0) Hj (kin_env _ _ _ _ Hk0) Hlive Hid Hparent Hcd s0 Hk0 eq_refl Hempty Huser Huses (Z.to_nat pages)) as [(s & Hf & E)|(s & E & F)].
  { rewrite Hp. change (USTACKTOP / PGSIZE) with 977918. clia. }
  { left. exists s. split; [|unfold scarce; by rewrite Hf]. unfold mbind at 1, M_bind at 1. by rewrite E. }
  rewrite (bind_Ok _ _ _ _ _ E). rewrite Hp in F. clear E Hp. change (USTACKTOP / PGSIZE) with pages in F. pose proof (fk_kin _ _ _ _ _ _ _ _ F) as Hk.
  assert (Hes : envs s = envs s0) by (by apply vm_frame_envs, (fk_frame _ _ _ _ _ _ _ _ F)).
  assert (Hden : forall s, envs s = envs s0 -> denotes s i (env_id ej) true j) by (intros; by apply (denotes_child i j e ej (envs s0) Hj (kin_env _ _ _ _ Hk0) Hlive Hid Hparent)).
  destruct (usys_page_alloc_ok junk A i e s Hk (env_id ej) j ej (UXSTACKTOP - PGSIZE) UWP) as [(s1 & E1 & Hsc)|(s1 & q & E1 & Hq & Hmap & Hz)]; try done; try lia; [by apply Hden|by rewrite Hes|..].
  { left. exists s1. split; [|done]. change (PTE_P .| PTE_W .| PTE_U) with UWP. rewrite (bind_Ok _ _ _ _ _ E1). done. }
  right. change (PTE_P .| PTE_W .| PTE_U) with UWP. rewrite (bind_Ok _ _ _ _ _ E1). change (0 <? 0) with false. cbv iota.
  assert (Hmap' := Hmap). destruct Hmap' as (Hi1 & Hf1 & _). assert (Hk1 : kin A i e s1) by (by apply (kin_frame A i e s)). assert (Hes1 : envs s1 = envs s0) by (by rewrite (vm_frame_envs _ _ Hf1)).
  rewrite (bind_Ok _ _ _ _ _ (usys_env_set_pgfault_upcall_ok junk A i e s1 Hk1 (env_id ej) j ej ltac:(lia) (Hden s1 Hes1) ltac:(by rewrite Hes1) (sym_upcall sym) Hsym)).
  change (0 <? 0) with false. cbv iota. set (ej1 := set_env_pgfault_upcall (sym_upcall sym) ej). set (s2 := with_env j ej1 s1).
  assert (Hk2 : kin A i e s2) by (apply (kin_with_env A i e s1 j ej ej1); [done|done|by rewrite Hes1|by split]).
  rewrite (bind_Ok _ _ s2 0 (with_env j (set_env_status ENV_RUNNABLE ej1) s2)).
  2: { apply (usys_env_set_status_ok junk A i e s2 Hk2); [lia| |apply lookup_insert_eq|by left].
       exists ej1. split; [apply lookup_insert_eq|]. split; [done|]. right. split; [lia|]. split; [done|]. intros _. right. exists e. split; [|done]. apply Hk2. }
  change (0 <? 0) with false. cbv iota. exists (with_env j started s1). split.
  - unfold s2, with_env. cbn [envs set_envs]. rewrite insert_insert_eq. done.
  - by apply (cloned_stack s s1 q).
Qed.

(** *** What it establishes *)

Section cloned.
Context (s : kstate) (F : cloned s).

Lemma cloned_roots : roots (envs s) = roots (envs s0) /\ d ∈ roots (envs s0) /\ c ∈ roots (envs s0).
Proof.
  split; [|split; [by apply (kin_root A i e s0)|apply (child_root A j ej (envs s0) Hj Hlive s0); [apply Hk0|done]]].
  rewrite (fo_envs _ F). apply (roots_same _ j ej); [apply (kinv_range A s0 j ej); [apply Hk0|done]|done|]. split; [by rewrite Hlive|done].
Qed.

Lemma pgn_child a w : 0 <= a < USTACKTOP -> vmap (mem s0) d a = Some w -> pgn (child_pte w) = pgn w.
Proof.
  intros Ha Hw. destruct cloned_roots as (_ & Hd & _). apply (pte_mapped A s0 d a w (child_perm w) (kin_inv _ _ _ _ Hk0) Hd); [clear - Ha; clia|done|]. apply child_perm_ok. by apply (Huser a).
Qed.

(** Child and parent see what the parent saw, and nobody else sees a change. *)
Lemma cloned_child_bytes a : 0 <= a < USTACKTOP -> ubyte s c a = ubyte s0 d a.
Proof.
  intros Ha. destruct cloned_roots as (_ & Hd & _). unfold ubyte. rewrite (fo_child _ F) by done. destruct (vmap (mem s0) d a) as [w|] eqn:Hw; [|done]. cbn [fmap option_fmap option_map].
  rewrite (pgn_child a w Ha Hw). f_equal. apply (fo_data _ F d a); [done|clear - Ha; clia|done].
Qed.
Lemma cloned_bytes d' a : d' ∈ roots (envs s0) -> 0 <= a < UTOP -> d' <> c -> ubyte s d' a = ubyte s0 d' a.
Proof.
  intros Hd' Ha Hn. unfold ubyte. destruct (decide (d' = d /\ a < USTACKTOP)) as [[-> Ha']|Hn'].
  - rewrite (fo_parent _ F) by lia. destruct (vmap (mem s0) d a) as [w|] eqn:Hw; [|done]. cbn [fmap option_fmap option_map].
    rewrite (pgn_parent A i e s0 Hk0 w a) by done. f_equal. by apply (fo_data _ F d a).
  - rewrite (fo_rest _ F) by done. destruct (vmap (mem s0) d' a) as [w|] eqn:Hw; [|done]. f_equal. by apply (fo_data _ F d' a).
Qed.

(** Where a mapping comes from *)
Lemma cloned_origin d' a w :
  d' ∈ roots (envs s0) -> 0 <= a < UTOP -> vmap (mem s) d' a = Some w ->
  (d' = c /\ UXSTACKTOP - PGSIZE <= a) \/
  (d' = c /\ a < USTACKTOP /\ exists w0, vmap (mem s0) d a = Some w0 /\ pgn w0 = pgn w) \/
  (d' <> c /\ exists w0, vmap (mem s0) d' a = Some w0 /\ pgn w0 = pgn w).
Proof.
  intros Hd' Ha Hw. destruct (decide (d' = c)) as [->|Hc].
  - destruct (decide (a < USTACKTOP)) as [Hlt|Hge].
    + right. left. split; [done|]. split; [done|]. rewrite (fo_child _ F) in Hw by lia. destruct (vmap (mem s0) d a) as [w0|] eqn:Hw0; [|done]. injection Hw as <-. exists w0. split; [done|].
      symmetry. apply (pgn_child a); [lia|done].
    + left. split; [done|]. destruct (decide (UXSTACKTOP - PGSIZE <= a)); [done|]. rewrite (fo_guard _ F) in Hw by lia. done.
  - right. right. split; [done|]. destruct (decide (d' = d /\ a < USTACKTOP)) as [[-> Hlt]|Hn].
    + rewrite (fo_parent _ F) in Hw by lia. destruct (vmap (mem s0) d a) as [w0|] eqn:Hw0; [|done]. injection Hw as <-. exists w0. split; [done|]. symmetry. by apply (pgn_parent A i e s0 Hk0 w0 a).
    + rewrite (fo_rest _ F) in Hw by done. by exists w.
Qed.

Lemma cloned_own_child : own s c.
Proof.
  intros a w Ha Hw Hsh Hm. destruct cloned_roots as (Hr & Hd & Hc). destruct (cloned_origin c a w Hc Ha Hw) as [[_ Hs]|[(_ & Hlt & _)|[? _]]]; [| |done].
  - destruct (fo_stack _ F) as (q & Hq & Hpq & _ & Hfresh). rewrite (Hq a) in Hw by (unfold UXSTACKTOP in *; lia). injection Hw as <-.
    intros w1 d2 a2 w2 Hw1 Hd2 Ha2 Hw2 E. rewrite Hr in Hd2. rewrite (Hq a) in Hw1 by (unfold UXSTACKTOP in *; lia). injection Hw1 as <-. rewrite Hpq in E.
    destruct (cloned_origin d2 a2 w2 Hd2 Ha2 Hw2) as [[-> Hs2]|[(-> & _ & w0 & Hw0 & E0)|[_ (w0 & Hw0 & E0)]]].
    + split; [done|]. clear - Hs Hs2 Ha Ha2. change (UXSTACKTOP - PGSIZE) with (977919 * 4096) in *. change UTOP with (977920 * 4096) in *. dlia.
    + exfalso. apply (Hfresh d a2 w0); [done..|]. congruence.
    + exfalso. apply (Hfresh d2 a2 w0); [done..|]. congruence.
  - exfalso. rewrite (fo_child _ F) in Hw by lia. destruct (vmap (mem s0) d a) as [w0|] eqn:Hw0; [|done]. injection Hw as <-. unfold child_pte in *. rewrite may_mkpte in Hm. rewrite flag_mkpte in Hsh by done.
    unfold child_perm in *. destruct (truth (w0 .& PTE_SHARE)) eqn:Hs0; [|by destruct (copies w0)]. rewrite <- Z.land_assoc in Hsh. change (PTE_SYSCALL .& PTE_SHARE) with PTE_SHARE in Hsh. congruence.
Qed.

Lemma cloned_own d' : d' ∈ roots (envs s0) -> d' <> c -> own s0 d' -> own s d'.
Proof.
  intros Hd' Hc Ho a w Ha Hw Hsh Hm. destruct cloned_roots as (Hr & Hd & Hcr). assert (Hn : ~ (d' = d /\ a < USTACKTOP)).
  { intros [-> Hlt]. rewrite (fo_parent _ F) in Hw by lia. destruct (vmap (mem s0) d a) as [w0|]; [|done]. injection Hw as <-. unfold parent_pte in *. destruct (copies w0) eqn:Hcp; [by rewrite may_mkpte in Hm|].
    unfold copies in Hcp. rewrite Hsh in Hcp. cbn [negb andb] in Hcp. apply orb_false_iff in Hcp as [_ Hcp]. unfold may in Hm. rewrite Hcp in Hm. cbn [negb orb] in Hm. rewrite andb_false_r in Hm. done. }
  rewrite (fo_rest _ F) in Hw by done. pose proof (Ho a w Ha Hw Hsh Hm) as Hp. intros w1 d2 a2 w2 Hw1 Hd2 Ha2 Hw2 E. rewrite (fo_rest _ F), Hw in Hw1 by done. injection Hw1 as <-. rewrite Hr in Hd2.
  destruct (fo_stack _ F) as (q & Hq & Hpq & _ & Hfresh). destruct (cloned_origin d2 a2 w2 Hd2 Ha2 Hw2) as [[-> Hs2]|[(-> & Hlt2 & w0 & Hw0 & E0)|[_ (w0 & Hw0 & E0)]]].
  - exfalso. rewrite (Hq a2) in Hw2 by (unfold UXSTACKTOP in *; lia). injection Hw2 as <-. apply (Hfresh d' a w); [done..|]. congruence.
  - exfalso. destruct (Hp w d a2 w0 Hw Hd Ha2 Hw0 ltac:(congruence)) as [<- E2]. apply Hn. split; [done|]. clear - E2 Hlt2. change USTACKTOP with (977918 * 4096) in *. dlia.
  - apply (Hp w d2 a2 w0 Hw Hd2 Ha2 Hw0). congruence.
Qed.

Lemma cloned_storable d' a : d' = d \/ d' = c -> 0 <= a < USTACKTOP -> storable s0 d a -> storable s d' a.
Proof.
  intros Hd' Ha (w & Hw & Hr & Hsh & Hc). assert (Hcp : copies w = true).
  { unfold copies. rewrite Hsh. cbn [negb andb]. destruct Hc as [Hm|Hc]; [|by rewrite Hc]. unfold may in Hm. cbn [negb orb] in Hm. apply andb_true_iff in Hm as [_ Hm]. rewrite Hm. apply orb_true_r. }
  exists (mkpte (pgn w) COWUP). split.
  - destruct Hd' as [-> | ->]; [rewrite (fo_parent _ F)|rewrite (fo_child _ F)]; try lia; rewrite Hw; cbn [fmap option_fmap option_map]; unfold parent_pte, child_pte, child_perm; by rewrite ?Hsh, Hcp.
  - rewrite !may_mkpte, !flag_mkpte by done. split_and!; auto.
Qed.
End cloned.
End parent.
