(* ===== verification/ForkRun.v ===== *)
(** * ForkRun: the whole of fork, and what parent and child see afterwards

    [fork] is the set-up of the page fault handler, the system call that makes the child, and the
    parent's loop over its pages.  A program's stores [evolve] the memory; whatever the order in
    which parent and child run, each one sees the bytes of the fork and its own stores. *)

From S2P Require Import Prelude Layout KState KMem Pmap VmRefs VmInv VmOps UserMem UMem KInv KEx Env Syscall EnvOps EnvThms SysOps SysSafe UStore SysThms UMonad Str StrThms Usys UsysThms PageUse Fork ForkThms ForkIso.

(** ** Stores, in order *)

(** A store: the directory of the environment, the address, the byte *)
Notation stores := (list (Z * Z * Z)).

(** What is at [x] of [d] after the stores, if [v] is there before *)
Fixpoint replay (l : stores) (d x : Z) (v : option Z) : option Z :=
  match l with
  | [] => v
  | (d', a, b) :: l => replay l d x (if decide (d' = d /\ a = x) then Some (u8 b) else v)
  end.

Lemma replay_app l1 l2 d x v : replay (l1 ++ l2) d x v = replay l2 d x (replay l1 d x v).
Proof. revert v. induction l1 as [|[[d' a] b] l1 IH]; intros v; [done|]. apply IH. Qed.
(** The stores of the others do not count. *)
Lemma replay_own l d x v : replay (filter (fun p => p.1.1 = d) l) d x v = replay l d x v.
Proof.
  revert v. induction l as [|[[d' a] b] l IH]; intros v; [done|]. rewrite filter_cons. cbn [fst]. destruct (decide (d' = d)) as [->|Hn].
  - cbn [replay]. apply IH.
  - cbn [replay]. rewrite decide_False by (by intros [? _]). apply IH.
Qed.

(** The pages in [X] apart, the bytes are those of before with the stores [l]. *)
Record evolved (X : Z -> Z -> Prop) (l : stores) (s s' : kstate) : Prop := {
  ev_roots : roots (envs s') = roots (envs s);
  ev_uses : uses_le s s';
  ev_bytes : forall d x, d ∈ roots (envs s) -> 0 <= x < UTOP -> ~ X d (x / 4096) -> ubyte s' d x = replay l d x (ubyte s d x);
  ev_own : forall d, d ∈ roots (envs s) -> own s d -> own s' d;
  ev_storable : forall d x, d ∈ roots (envs s) -> 0 <= x < UTOP -> ~ X d (x / 4096) -> storable s d x -> storable s' d x;
  ev_user : forall d x w, d ∈ roots (envs s) -> 0 <= x < UTOP -> vmap (mem s') d x = Some w -> may false w = true \/ vmap (mem s) d x = Some w;
}.

Lemma evolved_trans X l1 l2 s1 s2 s3 : evolved X l1 s1 s2 -> evolved X l2 s2 s3 -> evolved X (l1 ++ l2) s1 s3.
Proof.
  intros [R1 U1 B1 O1 S1 P1] [R2 U2 B2 O2 S2 P2]. rewrite R1 in R2, B2, O2, S2, P2. split.
  - done.
  - by eapply uses_le_trans.
  - intros d x Hd Hx Hn. rewrite replay_app, B2, B1 by done. done.
  - auto.
  - auto.
  - intros d x w Hd Hx Hw. destruct (P2 d x w Hd Hx Hw); [by left|auto].
Qed.

Lemma evolved_mono (X Y : Z -> Z -> Prop) l s s' : (forall d n, X d n -> Y d n) -> evolved X l s s' -> evolved Y l s s'.
Proof. intros H [R U B O S P]. split; auto. Qed.

(** The same memory, the same directories *)
Lemma evolved_same X s s' : mem s' = mem s -> roots (envs s') = roots (envs s) -> evolved X [] s s'.
Proof.
  intros Hm Hr. split.
  - done.
  - intros p. rewrite Hm, Hr. lia.
  - intros d x _ _ _. unfold ubyte. by rewrite Hm.
  - intros d _ Ho a w Ha Hw Hsh Hma. rewrite Hm in Hw. pose proof (Ho a w Ha Hw Hsh Hma) as Hp. unfold private. by rewrite Hm, Hr.
  - intros d x _ _ _. unfold storable. by rewrite Hm.
  - intros d x w _ _ Hw. right. by rewrite Hm in Hw.
Qed.

(** [PFTEMP] of [d] *)
Definition temp (d d' n : Z) : Prop := d' = d /\ n = PFTEMP / 4096.

Lemma stored_evolved A i e s s' a b : user_stored A i e s s' a b -> evolved (temp (root_of e)) [(root_of e, a, b)] s s'.
Proof.
  intros [S1 S2 S3 S4 S5 S6 S7 S8]. split; try done.
  - by rewrite (vm_frame_envs _ _ S2).
  - intros d x Hd Hx Hn. cbn [replay]. destruct (decide _) as [[<- <-]|Hne]; [done|]. apply S5; [done..|]. intros [-> [->|?]]; [by apply Hne|by apply Hn].
Qed.

Lemma below_ustack a : 0 <= a < USTACKTOP -> 0 <= a < UTOP.
Proof. clia. Qed.

Lemma env_id_range A s j x : kinv A s -> envs s !! j = Some x -> live x = true -> 0 < env_id x < 2^31.
Proof. intros H Hx Hl. destruct (ei_live _ _ (ki_env _ _ H) j x Hx Hl) as [_ ?], (ei_id _ _ (ki_env _ _ H) j x Hx) as [? _]. lia. Qed.

(** ** The handler *)

Section start.
Context (junk : Z) (sym : symbols) (A : gset Z) (i : Z).
Notation hv := (sym_handler sym).

(** Several stores of the running environment *)
Lemma stores_ok e (l : list (Z * Z)) a s :
  kin A i e s -> uses_small s 1 -> own s (root_of e) ->
  (forall k b, (k, b) ∈ l -> 0 <= a + k < UTOP /\ (a + k) / 4096 <> PFTEMP / 4096 /\ storable s (root_of e) (a + k)) ->
  (exists s', mfor l (fun '(k, b) => stb_cow junk (a + k) b) s = Abort s' /\ scarce s') \/
  exists s', mfor l (fun '(k, b) => stb_cow junk (a + k) b) s = Ok tt s' /\ kin A i e s' /\ envs s' = envs s /\
    evolved (temp (root_of e)) (map (fun '(k, b) => (root_of e, a + k, b)) l) s s'.
Proof.
  revert s. induction l as [|[k b] l IH]; intros s Hk Hu Ho Hl.
  { right. exists s. split; [done|]. split; [done|]. split; [done|]. by apply evolved_same. }
  cbn [mfor map]. destruct (Hl k b ltac:(left)) as (Ha & Hn & Hst). destruct (stb_cow_ok junk A i e s (a + k) b) as [(s1 & E & Hsc)|(s1 & E & S)]; try done.
  { left. exists s1. split; [|done]. unfold mbind, M_bind. by rewrite E. }
  rewrite (bind_Ok _ _ _ _ _ E). assert (V := stored_evolved _ _ _ _ _ _ _ S). pose proof (kin_root _ _ _ _ Hk) as Hd. destruct (IH s1) as [(s' & E' & Hsc)|(s' & E' & Hk' & He' & V')].
  - apply S.
  - apply (uses_le_small s); [apply V|lia|done].
  - by apply V.
  - intros k' b' Hin. destruct (Hl k' b' ltac:(by right)) as (Ha' & Hn' & Hst'). split; [done|]. split; [done|]. apply V; [done..| |done]. by intros [_ ?].
  - left. by exists s'.
  - right. exists s'. split; [done|]. split; [done|]. split; [by rewrite He', (vm_frame_envs _ _ (st_frame _ _ _ _ _ _ _ S))|]. exact (evolved_trans _ [_] _ _ _ _ V V').
Qed.

(** A fresh page at [va] of [d] *)
Lemma fresh_evolved s s' d va q perm :
  kinv A s -> d ∈ roots (envs s) -> 0 <= va < UTOP -> page_free_list s = Some q -> bad_perm perm = false -> maps A s s' d va q perm ->
  evolved (fun d' n => d' = d /\ n = va / 4096) [] s s'.
Proof.
  intros H Hd Hva Hq Hp Hm. assert (Hm' := Hm). destruct Hm' as (H' & Hf & Hat & Hs & Hkept). assert (Hr : roots (envs s') = roots (envs s)) by (by rewrite (vm_frame_envs _ _ Hf)).
  assert (Hpg := pte_fresh A s q perm H Hq Hp). split.
  - done.
  - intros p. rewrite Hr. pose proof (maps_uses A s H s' d va q perm Hd Hva p Hpg Hm) as Hu. pose proof (uses_free A s H q Hq) as Hz.
    destruct (Z.eqb_spec q p) as [E|_]; cbn [ind] in Hu; [rewrite E in Hz|]; lia.
  - intros d' x Hd' Hx Hn. cbn [replay]. by apply (maps_ubyte A s H s' d va q perm).
  - intros d' Hd' Ho a w Ha Hw Hsh Hma. destruct (decide (d' = d /\ a / 4096 = va / 4096)) as [[-> E]|Hn].
    { apply (private_page s' d va); [done..|]. by apply (private_fresh A s s' d va q perm). }
    rewrite Hs in Hw by done. intros w1 d2 a2 w2 Hw1 Hd2 Ha2 Hw2 E. rewrite Hs, Hw in Hw1 by done. injection Hw1 as <-. rewrite Hr in Hd2.
    destruct (decide (d2 = d /\ a2 / 4096 = va / 4096)) as [[-> E2]|Hn2].
    + exfalso. rewrite (vmap_page_only _ _ va), Hat in Hw2 by done. injection Hw2 as <-. rewrite Hpg in E. by apply (free_unmapped A s H q d' a w).
    + rewrite Hs in Hw2 by done. by apply (Ho a w Ha Hw Hsh Hma w d2 a2 w2).
  - intros d' x Hd' Hx Hn (w & Hw & Hr'). exists w. by rewrite Hs.
  - intros d' x w Hd' Hx Hw. destruct (decide (d' = d /\ x / 4096 = va / 4096)) as [[-> E]|Hn].
    + left. rewrite (vmap_page_only _ _ va), Hat in Hw by done. injection Hw as <-. rewrite may_mkpte. cbn [negb orb]. rewrite andb_true_r.
      unfold bad_perm in Hp. unfold truth. by destruct (perm .& PTE_U =? 0).
    + right. by rewrite Hs in Hw.
Qed.

Lemma user_ldn n a s : (forall k, 0 <= k < Z.of_nat n -> is_Some (user_view s (a + k))) -> exists bs, ldn a n s = Ok bs s.
Proof.
  revert a. induction n as [|n IH]; intros a Hv; [by exists []|]. cbn [ldn]. destruct (Hv 0 ltac:(lia)) as [b Hb]. rewrite Z.add_0_r in Hb.
  destruct (IH (a + 1)) as [bs Hbs]. { intros k Hk. replace (a + 1 + k) with (a + (1 + k)) by lia. apply Hv. lia. }
  exists (b :: bs). rewrite (bind_Ok _ _ s b s).
  - by rewrite (bind_Ok _ _ _ _ _ Hbs).
  - unfold user_view in Hb. destruct (Z.leb_spec 0 a), (Z.ltb_spec a UTOP); try done. cbn [andb] in Hb. unfold ldb, user_mem, user_ldb. rewrite u32_small by clia.
    destruct (mmu s a false); [|done]. by injection Hb as <-.
Qed.

Context (e : Env) (s : kstate).
Notation d := (root_of e).
Hypothesis Hup : 0 <= sym_upcall sym < 2^32.
Hypothesis Hk : kin A i e s.
Hypothesis Hu : uses_small s 1.
Hypothesis Ho : own s d.
Hypothesis Hhv : forall k, 0 <= k < 4 -> 0 <= hv + k < USTACKTOP /\ (hv + k) / 4096 <> PFTEMP / 4096 /\ storable s d (hv + k).

(** The page for the copies and the exception stack *)
Definition work_pages (d' n : Z) : Prop := d' = d /\ (n = PFTEMP / 4096 \/ n = (UXSTACKTOP - PGSIZE) / 4096).

Lemma kin_id : 0 < env_id e < 2^31.
Proof. apply (env_id_range A s i e); apply Hk. Qed.
Lemma denotes_me s' e' : envs s' !! i = Some e' -> live e' = true -> env_id e' = env_id e -> denotes s' i (env_id e) true i.
Proof. intros He Hl Hid'. exists e'. split; [done|]. split; [done|]. pose proof kin_id. right. split; [lia|]. split; [done|]. intros _. by left. Qed.

(** The first part: an exception stack and the upcall, unless there is a handler already *)
Definition first_time (h : Z) : M kstate unit :=
  mwhen (h =? 0) (
    me ← usys_getenvid junk;
    err ← usys_page_alloc junk me (UXSTACKTOP - PGSIZE) PTE_SYSCALL;
    if err <? 0 then abort
    else
      me ← usys_getenvid junk;
      err ← usys_env_set_pgfault_upcall junk me (sym_upcall sym);
      if err <? 0 then abort else mret tt).

(** The environment is the same but for the upcall. *)
Definition same_env (e' : Env) : Prop := root_of e' = d /\ env_id e' = env_id e /\ env_tf e' = env_tf e.

Lemma first_time_ok h :
  (exists s', first_time h s = Abort s' /\ scarce s') \/
  exists s' e', first_time h s = Ok tt s' /\ kin A i e' s' /\ same_env e' /\ (forall k, k <> i -> envs s' !! k = envs s !! k) /\ evolved work_pages [] s s'.
Proof.
  unfold first_time. destruct (h =? 0); cbn [mwhen].
  2: { right. exists s, e. split; [done|]. split; [done|]. split; [done|]. split; [done|]. by apply evolved_same. }
  pose proof kin_id as Hid'. rewrite (bind_Ok _ _ _ _ _ (usys_getenvid_ok junk A i e s Hk)).
  destruct (usys_page_alloc_ok junk A i e s Hk (env_id e) i e (UXSTACKTOP - PGSIZE) PTE_SYSCALL) as [(s1 & E1 & Hsc)|(s1 & q & E1 & Hq & Hmap & _)]; try done; try lia.
  { apply (denotes_me s e); [apply Hk..|done]. }
  { apply Hk. }
  { left. exists s1. split; [|done]. rewrite (bind_Ok _ _ _ _ _ E1). done. }
  right. rewrite (bind_Ok _ _ _ _ _ E1). change (0 <? 0) with false. cbv iota. assert (Hmap' := Hmap). destruct Hmap' as (Hi1 & Hf1 & _).
  assert (Hk1 : kin A i e s1) by (by apply (kin_frame A i e s)). rewrite (bind_Ok _ _ _ _ _ (usys_getenvid_ok junk A i e s1 Hk1)).
  assert (Hden1 : denotes s1 i (env_id e) true i) by (apply (denotes_me s1 e); [apply Hk1..|done]).
  rewrite (bind_Ok _ _ _ _ _ (usys_env_set_pgfault_upcall_ok junk A i e s1 Hk1 (env_id e) i e ltac:(lia) Hden1 (kin_env _ _ _ _ Hk1) (sym_upcall sym) Hup)).
  change (0 <? 0) with false. cbv iota. set (e1 := set_env_pgfault_upcall (sym_upcall sym) e). exists (with_env i e1 s1), e1. split; [done|]. assert (Hcore : same_core e e1) by (by split).
  assert (Hir : 0 <= i < NENV) by (by apply (kinv_range A s i e); [apply Hk|apply Hk]).
  split; [|split; [done|split]].
  - by apply (kin_self A i e).
  - intros k Hne. simpl. by rewrite lookup_insert_ne, (vm_frame_envs _ _ Hf1).
  - eapply (evolved_trans _ [] []); [|apply (evolved_same _ s1); [done|apply (roots_same _ i e); [done|apply Hk1|done]]].
    eapply evolved_mono; [|apply (fresh_evolved s s1 d (UXSTACKTOP - PGSIZE) q PTE_SYSCALL); try done; [apply Hk|by apply (kin_root A i e s)]].
    intros d' n [-> ->]. split; [done|by right].
Qed.

Lemma set_pgfault_handler_eq handler :
  set_pgfault_handler junk sym handler = (h ← ld32 hv; first_time h;; st32_cow junk hv handler).
Proof. done. Qed.

(** The stores to the variable *)
Definition word_stores (a w : Z) : stores := map (fun '(k, b) => (d, a + k, b)) (zip (seqZ 0 4) (bytes4 w)).

Lemma set_pgfault_handler_ok handler :
  (exists s', set_pgfault_handler junk sym handler s = Abort s' /\ scarce s') \/
  exists s' e', set_pgfault_handler junk sym handler s = Ok tt s' /\ kin A i e' s' /\ same_env e' /\ (forall k, k <> i -> envs s' !! k = envs s !! k) /\ evolved work_pages (word_stores hv handler) s s'.
Proof.
  rewrite set_pgfault_handler_eq. destruct (user_ldn 4 hv s) as [bs Hbs].
  { intros k Hkk. destruct (Hhv k ltac:(lia)) as (Ha & _ & w & Hw & Hr & _). rewrite (user_view_ubyte _ _ _ _ _ Hk) by (by apply below_ustack). rewrite Hw, Hr. eauto. }
  rewrite (bind_Ok _ _ s (unbytes bs) s) by (unfold ld32; by rewrite (bind_Ok _ _ _ _ _ Hbs)).
  destruct (first_time_ok (unbytes bs)) as [(s1 & E1 & Hsc)|(s1 & e1 & E1 & Hk1 & Hsame & He1 & V1)].
  2: assert (Hr1 : root_of e1 = d) by apply Hsame.
  { left. exists s1. split; [|done]. unfold mbind, M_bind. by rewrite E1. }
  rewrite (bind_Ok _ _ _ _ _ E1). unfold st32_cow. pose proof (kin_root _ _ _ _ Hk) as Hd.
  destruct (stores_ok e1 (zip (seqZ 0 4) (bytes4 handler)) hv s1 Hk1) as [(s2 & E2 & Hsc)|(s2 & E2 & Hk2 & He2 & V2)].
  - apply (uses_le_small s); [apply V1|lia|done].
  - rewrite Hr1. by apply V1.
  - intros k b Hin. assert (Hkr : 0 <= k < 4) by (by apply elem_of_zip_l, elem_of_seqZ in Hin). destruct (Hhv k Hkr) as (Ha & Hn & Hst). rewrite Hr1.
    assert (Hau : 0 <= hv + k < UTOP) by (by apply below_ustack). split; [done|]. split; [done|]. apply V1; [done..| |done]. intros [_ [?|E]]; [done|].
    change ((UXSTACKTOP - PGSIZE) / 4096) with 977919 in E. change USTACKTOP with (977918 * 4096) in Ha. clear - E Ha. dlia.
  - left. by exists s2.
  - right. exists s2, e1. split; [done|]. split; [done|]. split; [done|]. split; [by rewrite He2|]. rewrite Hr1 in V2. eapply (evolved_trans _ [] _); [exact V1|].
    eapply evolved_mono; [|exact V2]. intros d' n [-> ->]. split; [done|by left].
Qed.
End start.

(** ** The child *)

(** [x] is a new child of [e] in slot [j], with an empty address space, and nothing else has changed. *)
Record born (A : gset Z) (i : Z) (e : Env) (s s' : kstate) (j : Z) (x : Env) : Prop := {
  bo_kin : kin A i e s';
  bo_ne : j <> i;
  bo_free : exists ej, envs s !! j = Some ej /\ live ej = false;
  bo_envs : envs s' = <[j := x]> (envs s);
  bo_live : live x = true;
  bo_id : 0 < env_id x < 2^31;
  bo_parent : env_parent_id x = env_id e;
  bo_tf : env_tf x = let tf := env_tf e in set_tf_regs (set_reg_eax 0 (tf_regs tf)) tf;
  bo_new : root_of x ∉ roots (envs s);
  bo_empty : forall a, 0 <= a < UTOP -> vmap (mem s') (root_of x) a = None;
  bo_maps : forall d a, d ∈ roots (envs s) -> 0 <= a < UTOP -> vmap (mem s') d a = vmap (mem s) d a;
  bo_bytes : forall d a, d ∈ roots (envs s) -> 0 <= a < UTOP -> ubyte s' d a = ubyte s d a;
}.

Lemma usys_exofork_ok junk A i e s :
  kin A i e s ->
  (exists v, usys_exofork junk s = Ok v s /\ v < 0 /\ (env_free_list s = None \/ scarce s)) \/
  exists j x s', usys_exofork junk s = Ok (env_id x) s' /\ born A i e s s' j x.
Proof.
  intros Hk. pose proof (kin_inv _ _ _ _ Hk) as Hi. pose proof (sys_exofork_spec A i e s Hk) as H.
  change (usys_exofork junk) with (kcall sys_exofork). destruct (env_free_list s) as [j|] eqn:Hfl.
  2: { left. exists (- E_NO_FREE_ENV). split; [by apply kcall_ret|]. split; [clia|by left]. }
  destruct (page_free_list s) as [q|] eqn:Hq.
  2: { left. exists (- E_NO_MEM). split; [by apply kcall_ret|]. split; [clia|right; unfold scarce; by rewrite Hq]. }
  right. destruct H as (ej & s1 & _ & Hej & Hji & H1 & Hfr & Hes & (kd & Hm & H0 & Hkd & HqA) & Heq).
  assert (Hlj : live ej = false).
  { destruct (ei_list _ _ (ki_env _ _ Hi)) as (fl & Hl & _ & Hin). rewrite Hfl in Hl. destruct fl as [|k fl]; [done|]. destruct Hl as [[= <-] _].
    destruct (proj1 (Hin j) ltac:(left)) as (y & Hy & Hst). apply live_free in Hst. rewrite Hej in Hy. by injection Hy as ->. }
  set (x := SysSafe.forked e (new_env (env_id e) j q ej)) in *. exists j, x, (with_env j x s1). split; [by apply kcall_ret|].
  assert (Hroot : root_of x = q) by apply kva_root. assert (Hqn : q ∉ roots (envs s)) by (intros ?%(refs_root (mem s)); lia).
  assert (Hes' : envs (with_env j x s1) = <[j := x]> (envs s)) by (simpl; rewrite Hes; apply insert_insert_eq).
  assert (Hi' : kinv A (with_env j x s1)) by (by pose proof (sys_exofork_safe A i e s Hk) as Hs; rewrite Heq in Hs; apply Hs).
  assert (Hjr : 0 <= j < NENV) by (by apply (kinv_range A s j ej)).
  assert (Hvm : forall d a, d ∈ roots (envs s) -> 0 <= a < UTOP -> vmap (mem s1) d a = vmap (mem s) d a).
  { intros d a Hd Ha. apply roots_elem in Hd as (k & ek & Hek & Hlk & <-). rewrite Hm. by apply (new_dir_vmap A s q kd k). }
  split; try done.
  - split; [done|pose proof (sys_exofork_safe A i e s Hk) as Hs; rewrite Heq in Hs; apply Hs|apply (env_frame_cur s s1); [done|apply Hk]| |apply Hk]. rewrite Hes', lookup_insert_ne by done. apply Hk.
  - by exists ej.
  - apply (env_id_range A _ j x Hi'); [apply lookup_insert_eq|done].
  - by rewrite Hroot.
  - intros a Ha. rewrite Hroot. simpl. rewrite Hm. by apply (new_dir_empty A s).
  - intros d a Hd Ha. unfold ubyte. change (mem (with_env j x s1)) with (mem s1). rewrite (Hvm d a Hd Ha). destruct (vmap (mem s) d a) as [w|] eqn:Hw; [|done]. f_equal.
    destruct (mapped_page A s d a w Hi Hd Ha Hw) as (_ & _ & Hpos). unfold rdb. rewrite Hm, new_dir_other; [done|]. intros E. rewrite E in Hpos. lia.
Qed.

Section born.
Context (A : gset Z) (i : Z) (e : Env) (s s' : kstate) (j : Z) (x : Env) (Hs : kinv A s) (B : born A i e s s' j x).

Lemma born_roots : roots (envs s') ≡ₚ root_of x :: roots (envs s).
Proof.
  destruct (bo_free _ _ _ _ _ _ _ B) as (ej & Hej & Hlj). rewrite (bo_envs _ _ _ _ _ _ _ B). apply (roots_alloc _ j ej); [by apply (kinv_range A s j ej)|done|done|apply B].
Qed.
Lemma born_root d : d ∈ roots (envs s') <-> d = root_of x \/ d ∈ roots (envs s).
Proof. rewrite born_roots. apply elem_of_cons. Qed.

Lemma born_uses p : uses (mem s') (roots (envs s')) p = uses (mem s) (roots (envs s)) p.
Proof.
  assert (E0 : uses_in (mem s') p (root_of x) = 0).
  { apply zsum_zero. intros y Hy. apply zsum_zero. intros z Hz. destruct (page_va_index _ _ Hy Hz) as (_ & _ & Hr & _). unfold maps_to. by rewrite (bo_empty _ _ _ _ _ _ _ B). }
  pose proof (uses_perm (mem s') _ _ p born_roots) as Hp. rewrite uses_cons, E0, Z.add_0_l in Hp. rewrite Hp. apply uses_same. apply B.
Qed.

Lemma born_own d : d ∈ roots (envs s) -> own s d -> own s' d.
Proof.
  intros Hd Ho a w Ha Hw Hsh Hm. assert (Hv := bo_maps _ _ _ _ _ _ _ B d a Hd Ha). rewrite Hv in Hw. pose proof (Ho a w Ha Hw Hsh Hm) as Hp.
  intros w1 d2 a2 w2 Hw1 Hd2 Ha2 Hw2 E. rewrite Hv in Hw1. apply born_root in Hd2 as [->|Hd2].
  - rewrite (bo_empty _ _ _ _ _ _ _ B a2 Ha2) in Hw2. discriminate Hw2.
  - rewrite (bo_maps _ _ _ _ _ _ _ B d2 a2 Hd2 Ha2) in Hw2. exact (Hp w1 d2 a2 w2 Hw1 Hd2 Ha2 Hw2 E).
Qed.
End born.

(** ** Fork *)

Record fork_ready (sym : symbols) (A : gset Z) (i : Z) (e : Env) (s : kstate) : Prop := {
  fr_kin : kin A i e s;
  fr_upcall : 0 <= sym_upcall sym < 2^32;
  fr_own : own s (root_of e);
  fr_user : forall a w, 0 <= a < USTACKTOP -> vmap (mem s) (root_of e) a = Some w -> may false w = true;
  fr_uses : forall p, 2 * uses (mem s) (roots (envs s)) p + 2 < 2^16;
  fr_handler : forall k, 0 <= k < 4 -> 0 <= sym_handler sym + k < USTACKTOP /\ (sym_handler sym + k) / 4096 <> PFTEMP / 4096 /\ storable s (root_of e) (sym_handler sym + k);
}.

(** The program's memory when the pages are shared out: the handler is set. *)
Definition at_fork (sym : symbols) (e : Env) (s : kstate) (a : Z) : option Z :=
  replay (word_stores e (sym_handler sym) (sym_pgfault sym)) (root_of e) a (ubyte s (root_of e) a).

Record fork_done (sym : symbols) (A : gset Z) (i : Z) (e : Env) (s s' : kstate) (j : Z) (x : Env) : Prop := {
  fd_kin : exists e', kin A i e' s' /\ same_env e e';
  fd_free : j <> i /\ exists ej, envs s !! j = Some ej /\ live ej = false;
  fd_child : envs s' !! j = Some x /\ env_status x = ENV_RUNNABLE /\ env_parent_id x = env_id e /\ env_pgfault_upcall x = sym_upcall sym;
  fd_tf : env_tf x = let tf := env_tf e in set_tf_regs (set_reg_eax 0 (tf_regs tf)) tf;
  fd_roots : root_of e ∈ roots (envs s') /\ root_of x ∈ roots (envs s') /\ root_of x <> root_of e;
  fd_bytes : forall a, 0 <= a < USTACKTOP -> a / 4096 <> PFTEMP / 4096 -> ubyte s' (root_of e) a = at_fork sym e s a /\ ubyte s' (root_of x) a = at_fork sym e s a;
  fd_guard : forall a, USTACKTOP <= a < UXSTACKTOP - PGSIZE -> ubyte s' (root_of x) a = None;
  fd_stack : forall a, UXSTACKTOP - PGSIZE <= a < UXSTACKTOP -> ubyte s' (root_of x) a = Some 0;
  fd_others : forall d a, d ∈ roots (envs s) -> 0 <= a < UTOP -> d <> root_of e -> ubyte s' d a = ubyte s d a;
  fd_own : own s' (root_of e) /\ own s' (root_of x);
  fd_storable : forall d a, d = root_of e \/ d = root_of x -> 0 <= a < USTACKTOP -> a / 4096 <> PFTEMP / 4096 -> storable s (root_of e) a -> storable s' d a;
  fd_uses : uses_small s' 1;
}.

Lemma replay_word e a w x v d : d <> root_of e -> replay (word_stores e a w) d x v = v.
Proof.
  intros Hn. unfold word_stores. generalize (zip (seqZ 0 4) (bytes4 w)) as l. induction l as [|[k b] l IH]; [done|]. cbn [map replay]. rewrite decide_False by (intros [? _]; by apply Hn). exact IH.
Qed.

Section fork.
Context (junk : Z) (sym : symbols) (A : gset Z) (i : Z) (e : Env) (s : kstate) (R : fork_ready sym A i e s).
Notation d := (root_of e).

(** The state in which the parent starts to share its pages *)
Record shared_out (s1 s2 : kstate) (e' : Env) (j : Z) (x : Env) : Prop := {
  so_kin : kin A i e' s1;
  so_env : same_env e e';
  so_envs : forall k, k <> i -> envs s1 !! k = envs s !! k;
  so_start : evolved (work_pages e) (word_stores e (sym_handler sym) (sym_pgfault sym)) s s1;
  so_born : born A i e' s1 s2 j x;
}.

Lemma so_user s1 s2 e' j x a w : shared_out s1 s2 e' j x -> 0 <= a < USTACKTOP -> vmap (mem s2) (root_of e') a = Some w -> may false w = true.
Proof.
  intros [Hk [Hr _] _ V B] Ha Hw. pose proof (kin_root _ _ _ _ (fr_kin _ _ _ _ _ R)) as Hd. apply below_ustack in Ha as Ha'. rewrite Hr in Hw.
  rewrite (bo_maps _ _ _ _ _ _ _ B d a) in Hw by (done || by rewrite (ev_roots _ _ _ _ V)). destruct (ev_user _ _ _ _ V d a w Hd Ha' Hw) as [?|H0]; [done|].
  exact (fr_user _ _ _ _ _ R a w Ha H0).
Qed.
Lemma so_uses s1 s2 e' j x p : shared_out s1 s2 e' j x -> 2 * uses (mem s2) (roots (envs s2)) p + 2 < 2^16.
Proof.
  intros [Hk _ _ V B]. rewrite (born_uses A i e' s1 s2 j x (kin_inv _ _ _ _ Hk) B). pose proof (ev_uses _ _ _ _ V p). pose proof (fr_uses _ _ _ _ _ R p). lia.
Qed.

Lemma fork_ok :
  (exists s', fork junk sym s = Abort s' /\ (env_free_list s' = None \/ scarce s')) \/
  exists s1 s2 e' j x s', fork junk sym s = Ok (env_id x) s' /\ shared_out s1 s2 e' j x /\ cloned sym A i j e' x s2 s'.
Proof.
  unfold fork. assert (Hu : uses_small s 1) by (intros p; pose proof (fr_uses _ _ _ _ _ R p); pose proof (uses_nonneg (mem s) (roots (envs s)) p); lia).
  destruct (set_pgfault_handler_ok junk sym A i e s (fr_upcall _ _ _ _ _ R) (fr_kin _ _ _ _ _ R) Hu (fr_own _ _ _ _ _ R) (fr_handler _ _ _ _ _ R) (sym_pgfault sym))
    as [(s1 & E1 & Hsc)|(s1 & e' & E1 & Hk1 & Hsame & Hes & V)].
  { left. exists s1. split; [|by right]. unfold mbind, M_bind. by rewrite E1. }
  rewrite (bind_Ok _ _ _ _ _ E1). destruct (usys_exofork_ok junk A i e' s1 Hk1) as [(v & E2 & Hv & Hno)|(j & x & s2 & E2 & B)].
  { left. exists s1. split; [|done]. rewrite (bind_Ok _ _ _ _ _ E2). by rewrite (proj2 (Z.ltb_lt _ _) Hv). }
  rewrite (bind_Ok _ _ _ _ _ E2). pose proof (bo_id _ _ _ _ _ _ _ B) as Hid. rewrite (proj2 (Z.ltb_ge _ _)), (proj2 (Z.eqb_neq _ _)) by lia.
  assert (S : shared_out s1 s2 e' j x) by done. pose proof (kin_root _ _ _ _ Hk1) as Hd1.
  destruct (fork_parent_ok junk sym A i j e' x s2) as [(s' & E3 & Hsc)|(s' & E3 & C)].
  - apply R.
  - apply B.
  - rewrite (bo_envs _ _ _ _ _ _ _ B). apply lookup_insert_eq.
  - apply B.
  - apply B.
  - done.
  - apply B.
  - intros E. apply (bo_new _ _ _ _ _ _ _ B). by rewrite E.
  - apply B.
  - intros a w. by apply (so_user s1 s2 e' j x).
  - intros p. by apply (so_uses s1 s2 e' j x).
  - left. exists s'. split; [done|by right].
  - right. by exists s1, s2, e', j, x, s'.
Qed.

Section done.
Context (s1 s2 : kstate) (e' : Env) (j : Z) (x : Env) (s' : kstate) (S : shared_out s1 s2 e' j x) (C : cloned sym A i j e' x s2 s').

Lemma below_work a d' : 0 <= a < USTACKTOP -> a / 4096 <> PFTEMP / 4096 -> ~ work_pages e d' (a / 4096).
Proof.
  intros Ha Hn [_ [?|E]]; [done|]. change ((UXSTACKTOP - PGSIZE) / 4096) with 977919 in E. change USTACKTOP with (977918 * 4096) in Ha. clear - E Ha. dlia.
Qed.

Lemma so_root : root_of e' = d /\ d ∈ roots (envs s) /\ d ∈ roots (envs s1) /\ d ∈ roots (envs s2).
Proof.
  destruct S as [Hk [Hr _] _ V B]. pose proof (kin_root _ _ _ _ (fr_kin _ _ _ _ _ R)) as Hd. assert (Hd1 : d ∈ roots (envs s1)) by (by rewrite (ev_roots _ _ _ _ V)).
  split; [done|]. split; [done|]. split; [done|]. apply (born_root A i e' s1 s2 j x (kin_inv _ _ _ _ Hk) B). by right.
Qed.
Lemma so_child : envs s2 !! j = Some x /\ live x = true /\ root_of x <> root_of e'.
Proof.
  destruct so_root as (Hr & _ & Hd1 & _). destruct S as [Hk _ _ V B]. split; [rewrite (bo_envs _ _ _ _ _ _ _ B); apply lookup_insert_eq|]. split; [apply B|].
  rewrite Hr. intros E. apply (bo_new _ _ _ _ _ _ _ B). by rewrite E.
Qed.

Lemma so_own d' : d' ∈ roots (envs s) -> own s d' -> own s2 d'.
Proof.
  intros Hd Ho. destruct S as [Hk _ _ V B]. apply (born_own A i e' s1 s2 j x (kin_inv _ _ _ _ Hk) B); [by rewrite (ev_roots _ _ _ _ V)|]. by apply V.
Qed.
Lemma so_storable a : 0 <= a < USTACKTOP -> a / 4096 <> PFTEMP / 4096 -> storable s d a -> storable s2 d a.
Proof.
  intros Ha Hn Hst. destruct so_root as (_ & Hd & Hd1 & _). destruct S as [Hk _ _ V B]. apply below_ustack in Ha as Ha'.
  destruct (ev_storable _ _ _ _ V d a Hd Ha') as (w & Hw & Hr); [|done|exists w; by rewrite (bo_maps _ _ _ _ _ _ _ B d a Hd1 Ha')].
  by apply below_work.
Qed.
Lemma so_bytes d' a :
  d' ∈ roots (envs s) -> 0 <= a < UTOP -> ~ (work_pages e d' (a / 4096)) ->
  ubyte s2 d' a = replay (word_stores e (sym_handler sym) (sym_pgfault sym)) d' a (ubyte s d' a).
Proof.
  intros Hd Ha Hn. destruct S as [Hk _ _ V B]. rewrite (bo_bytes _ _ _ _ _ _ _ B d' a) by (done || by rewrite (ev_roots _ _ _ _ V)). by apply V.
Qed.

Lemma fork_done_bytes a : 0 <= a < USTACKTOP -> a / 4096 <> PFTEMP / 4096 -> ubyte s' d a = at_fork sym e s a /\ ubyte s' (root_of x) a = at_fork sym e s a.
Proof.
  intros Ha Hn. destruct so_root as (Hr & Hd & Hd1 & Hd2), so_child as (Hx & Hl & Hne). apply below_ustack in Ha as Ha'. pose proof (bo_kin _ _ _ _ _ _ _ (so_born _ _ _ _ _ S)) as Hk2.
  assert (Hb : ubyte s2 d a = at_fork sym e s a) by (apply so_bytes; [done..|by apply below_work]). split.
  - rewrite (cloned_bytes sym A i j e' x s2 Hk2 Hne s' C d a); [done..|]. by rewrite <- Hr.
  - rewrite (cloned_child_bytes sym A i j e' x s2 Hk2 Hx Hl) by (done || intros; by apply (so_user s1 s2 e' j x a0)). by rewrite Hr.
Qed.

Lemma fork_done_stack a : UXSTACKTOP - PGSIZE <= a < UXSTACKTOP -> ubyte s' (root_of x) a = Some 0.
Proof.
  intros Ha. destruct (fo_stack _ _ _ _ _ _ _ _ C) as (q & Hq & Hpg & Hz & _). unfold ubyte. rewrite Hq, Hpg by done. unfold rdb. rewrite Hz, Z.shiftr_0_l. done.
Qed.

Lemma fork_done_ok : fork_done sym A i e s s' j (started sym x).
Proof.
  destruct so_root as (Hr & Hd & Hd1 & Hd2), so_child as (Hx & Hl & Hne). pose proof (so_born _ _ _ _ _ S) as B. pose proof (bo_kin _ _ _ _ _ _ _ B) as Hk2.
  assert (Hus : forall a w, 0 <= a < USTACKTOP -> vmap (mem s2) (root_of e') a = Some w -> may false w = true) by (intros a w; by apply (so_user s1 s2 e' j x)).
  destruct (cloned_roots sym A i j e' x s2 Hk2 Hx Hl s' C) as (Hrt & _ & Hc2). destruct (so_env _ _ _ _ _ S) as (_ & Hid & Htf).
  assert (Hst : root_of (started sym x) = root_of x) by done. assert (Hdx : d <> root_of x) by (rewrite <- Hr; intros E; by apply Hne).
  split; rewrite ?Hst.
  - exists e'. split; [apply C|apply S].
  - split; [apply B|]. destruct (bo_free _ _ _ _ _ _ _ B) as (ej & Hej & Hlj). exists ej. by rewrite <- (so_envs _ _ _ _ _ S) by apply B.
  - split; [rewrite (fo_envs _ _ _ _ _ _ _ _ C); apply lookup_insert_eq|]. split; [reflexivity|]. split; [|reflexivity]. change (env_parent_id x = env_id e). rewrite (bo_parent _ _ _ _ _ _ _ B). done.
  - change (env_tf x = set_tf_regs (set_reg_eax 0 (tf_regs (env_tf e))) (env_tf e)). rewrite (bo_tf _ _ _ _ _ _ _ B), Htf. done.
  - rewrite Hrt. split; [done|]. split; [done|]. by intros E.
  - exact fork_done_bytes.
  - intros a Ha. unfold ubyte. by rewrite (fo_guard _ _ _ _ _ _ _ _ C).
  - exact fork_done_stack.
  - intros d' a Hd' Ha Hn. assert (Hd2' : d' ∈ roots (envs s1)) by (by rewrite (ev_roots _ _ _ _ (so_start _ _ _ _ _ S))). assert (Hnx : d' <> root_of x) by (intros ->; by apply (bo_new _ _ _ _ _ _ _ B)).
    rewrite (cloned_bytes sym A i j e' x s2 Hk2 Hne s' C d' a); [| |done..].
    + rewrite so_bytes; [by apply replay_word|done..|]. by intros [? _].
    + apply (born_root A i e' s1 s2 j x (kin_inv _ _ _ _ (so_kin _ _ _ _ _ S)) B). by right.
  - split.
    + apply (cloned_own sym A i j e' x s2 Hk2 Hx Hl Hne Hus s' C); [done..|]. apply so_own; [done|apply R].
    + by apply (cloned_own_child sym A i j e' x s2 Hk2 Hx Hl Hne Hus s' C).
  - intros d' a Hd' Ha Hn Hs. apply (cloned_storable sym A i j e' x s2 s' C); [by rewrite Hr|done|]. rewrite Hr. by apply so_storable.
  - apply C.
Qed.
End done.
End fork.

(** ** Parent and child afterwards *)

(** Another environment is scheduled: memory and the directories are the same. *)
Definition switched (A : gset Z) (s s' : kstate) : Prop :=
  mem s' = mem s /\ roots (envs s') = roots (envs s) /\ exists k y, kin A k y s'.

(** Stores of the running environments, each with the page fault it may take, in the order in
    which the scheduler lets them run *)
Inductive runs (junk : Z) (A : gset Z) : kstate -> stores -> kstate -> Prop :=
  | runs_end s : runs junk A s [] s
  | runs_store s k y a b s1 l s' :
      kin A k y s -> stb_cow junk a b s = Ok tt s1 -> runs junk A s1 l s' -> runs junk A s ((root_of y, a, b) :: l) s'
  | runs_switch s s1 l s' : switched A s s1 -> runs junk A s1 l s' -> runs junk A s l s'.

(** The environments [G] run on memory they can store to. *)
Definition settled (G : list Z) (s : kstate) : Prop := uses_small s 1 /\ forall d, d ∈ G -> d ∈ roots (envs s) /\ own s d.
Definition any_temp (d n : Z) : Prop := n = PFTEMP / 4096.
(** An address the program could store to *)
Definition target (s : kstate) (d a : Z) : Prop := 0 <= a < USTACKTOP /\ a / 4096 <> PFTEMP / 4096 /\ storable s d a.

Lemma settled_evolved G X l s s' : settled G s -> evolved X l s s' -> settled G s'.
Proof.
  intros [Hu HG] V. split; [apply (uses_le_small s); [apply V|lia|done]|]. intros d Hd. destruct (HG d Hd) as [Hr Ho]. split; [by rewrite (ev_roots _ _ _ _ V)|by apply V].
Qed.
Lemma target_evolved G l s s' d a : settled G s -> d ∈ G -> evolved any_temp l s s' -> target s d a -> target s' d a.
Proof. intros [_ HG] Hd V (Ha & Hn & Hs). split; [done|]. split; [done|]. apply V; [by apply HG|by apply below_ustack|done..]. Qed.

Lemma target_store junk A G k y s a b :
  settled G s -> kin A k y s -> root_of y ∈ G -> target s (root_of y) a ->
  (exists s', stb_cow junk a b s = Abort s' /\ scarce s') \/ exists s', stb_cow junk a b s = Ok tt s' /\ user_stored A k y s s' a b.
Proof. intros [Hu HG] Hk Hy (Ha & Hn & Hs). apply stb_cow_ok; [done|done|by apply HG|by apply below_ustack|done..]. Qed.

Lemma runs_evolved junk A G s l s' :
  runs junk A s l s' -> settled G s -> (forall d a b, (d, a, b) ∈ l -> d ∈ G /\ target s d a) -> evolved any_temp l s s'.
Proof.
  induction 1 as [s|s k y a b s1 l s' Hk E _ IH|s s1 l s' (Hm & Hr & _) _ IH]; intros HG Hl.
  - by apply evolved_same.
  - destruct (Hl (root_of y) a b ltac:(left)) as [Hy Ht]. destruct (target_store junk A G k y s a b HG Hk Hy Ht) as [(s2 & E2 & _)|(s2 & E2 & S)]; rewrite E in E2; [done|]. injection E2 as <-.
    assert (V : evolved any_temp [(root_of y, a, b)] s s1) by (eapply evolved_mono; [|exact (stored_evolved _ _ _ _ _ _ _ S)]; by intros d n [_ ?]).
    apply (evolved_trans _ [_] l s s1 s' V). apply IH; [by apply (settled_evolved G any_temp [(root_of y, a, b)] s)|]. intros d a' b' Hin. destruct (Hl d a' b' ltac:(by right)) as [Hd Ht'].
    split; [done|]. by apply (target_evolved G [(root_of y, a, b)] s s1).
  - assert (V : evolved any_temp [] s s1) by (by apply evolved_same). apply (evolved_trans _ [] l s s1 s' V). apply IH; [by apply (settled_evolved G any_temp [] s)|].
    intros d a b Hin. destruct (Hl d a b Hin) as [Hd Ht]. split; [done|]. by apply (target_evolved G [] s s1).
Qed.
