(* ===== verification/ForkEx.v ===== *)
(** * ForkEx: a machine with room for a fork

    The machine of [KBig] after the running environment has allocated a page at [UTEXT].  The
    theorems about fork are instantiated on it. *)

From S2P Require Import Prelude Layout KState KMem Pmap VmRefs VmInv VmOps VmThms Sched UserMem UMem KInv KEx KBig Env Syscall EnvOps EnvThms SchedThms SysOps SysSafe UStore SysThms UMonad Str StrThms Usys UsysThms PageUse Fork ForkThms ForkIso ForkRun.

(** The page at [UTEXT] *)
Definition kbig_page : kstate := after (usys_page_alloc 0 0 UTEXT UWP) kbig.
Definition ksym : symbols := mksymbols UTEXT (UTEXT + 4) 0x801000 0x801100 (fun i => UENVS + i * 128).

Lemma kbig_uses p : uses (mem kbig) (roots (envs kbig)) p = 0.
Proof. apply zsum_zero. intros d _. apply zsum_zero. intros x _. apply zsum_zero. intros y _. unfold maps_to. change (mem kbig) with (∅ : memory). by rewrite vmap_none. Qed.

Lemma kbig_maps : maps kbig_A kbig kbig_page 1 UTEXT 3 UWP.
Proof. apply kbig_alloc; [done|done|]. vm_compute. reflexivity. Qed.

#[local] Opaque kbig_page.

Lemma UTEXT_user : 0 <= UTEXT < UTOP.
Proof. done. Qed.

Lemma kbig_evolved : evolved (fun d n => d = 1 /\ n = UTEXT / 4096) [] kbig kbig_page.
Proof. exact (fresh_evolved kbig_A kbig kbig_page 1 UTEXT 3 UWP kbig_inv kbig_root UTEXT_user eq_refl eq_refl kbig_maps). Qed.

Lemma kbig_storable a : a / 4096 = UTEXT / 4096 -> storable kbig_page 1 a.
Proof.
  intros Ha. destruct kbig_maps as (_ & _ & Hm & _). exists (mkpte 3 UWP). split; [|by rewrite !may_mkpte, flag_mkpte; auto].
  rewrite (vmap_page_only _ _ UTEXT); [exact Hm|exact UTEXT_user| |exact Ha]. change UTOP with (977920 * 4096). change (UTEXT / 4096) with 2048 in Ha. clear - Ha. dlia.
Qed.

Lemma kbig_target a : a / 4096 = UTEXT / 4096 -> target kbig_page 1 a.
Proof.
  intros Ha. split; [|split; [|by apply kbig_storable]]; change (UTEXT / 4096) with 2048 in Ha.
  - change USTACKTOP with (977918 * 4096). clear - Ha. dlia.
  - rewrite Ha. done.
Qed.

Lemma kbig_ready : fork_ready ksym kbig_A 0 kex_parent kbig_page.
Proof.
  pose proof kbig_evolved as V. pose proof kbig_maps as (Hi & Hf & Hm & _). assert (Hk : kin kbig_A 0 kex_parent kbig_page) by (apply (kin_frame kbig_A 0 kex_parent kbig); [exact kbig_kin|exact Hi|exact Hf]).
  change (root_of kex_parent) with 1. split; change (root_of kex_parent) with 1.
  - exact Hk.
  - clear. simpl. lia.
  - apply (ev_own _ _ _ _ V 1 kbig_root). intros a w _ Hw. change (mem kbig) with (∅ : memory) in Hw. rewrite vmap_none in Hw. discriminate Hw.
  - intros a w Ha Hw. destruct (ev_user _ _ _ _ V 1 a w kbig_root (below_ustack a Ha) Hw) as [H0|H0]; [exact H0|]. change (mem kbig) with (∅ : memory) in H0. rewrite vmap_none in H0. discriminate H0.
  - intros p. pose proof (ev_uses _ _ _ _ V p) as Hu. rewrite kbig_uses in Hu. lia.
  - intros k Hk4. apply kbig_target. change (sym_handler ksym) with (2048 * 4096). change (UTEXT / 4096) with 2048. clear - Hk4. dlia.
Qed.

(** ** Running fork on it *)

Lemma mfor_same {X} (l : list X) (body : X -> M kstate unit) s : (forall x, x ∈ l -> body x s = Ok tt s) -> mfor l body s = Ok tt s.
Proof.
  induction l as [|x l IH]; intros H; [done|]. cbn [mfor]. rewrite (bind_Ok _ _ _ _ _ (H x ltac:(left))). apply IH. intros y Hy. apply H. by right.
Qed.

(** With the handler, with the child, and with the page shared *)
Definition kbig_handler : kstate := after (set_pgfault_handler 0 ksym (sym_pgfault ksym)) kbig_page.
Definition kbig_child : kstate := after (usys_exofork 0) kbig_handler.
Definition kbig_shared : kstate := after (fork_page 0 4098 UTEXT) kbig_child.
Definition kbig_finish (env_id : Z) : M kstate Z :=
  err ← usys_page_alloc 0 env_id (UXSTACKTOP - PGSIZE) (PTE_P .| PTE_W .| PTE_U);
  if err <? 0 then abort
  else
    err ← usys_env_set_pgfault_upcall 0 env_id (sym_upcall ksym);
    if err <? 0 then abort
    else
      err ← usys_env_set_status 0 env_id ENV_RUNNABLE;
      if err <? 0 then abort else mret env_id.
Definition kbig_forked : kstate := after (kbig_finish 4098) kbig_shared.

(** Only the pages of the program and its exception stack are mapped. *)
Definition only_pages (m : memory) : bool :=
  forallb (fun x =>
    if present (rdw m 1 x) then forallb (fun y => negb (present (rdw m (pgn (rdw m 1 x)) y)) || (x =? 2) && (y =? 0) || (x =? 954) && (y =? 1023)) ptes
    else true) upde.
Lemma only_pages_ok m a : only_pages m = true -> 0 <= a < USTACKTOP -> a / 4096 <> UTEXT / 4096 -> vmap m 1 a = None.
Proof.
  intros H Ha Hn. apply below_ustack in Ha as Ha'. destruct (page_va_inv a Ha') as (Hx & Hy & _). unfold only_pages in H. rewrite forallb_forall in H.
  specialize (H (PDX a) ltac:(by apply list_elem_of_In)). unfold vmap. destruct (present (rdw m 1 (PDX a))); [|done]. cbv zeta.
  rewrite forallb_forall in H. specialize (H (PTX a) ltac:(by apply list_elem_of_In)). destruct (present _); [|done]. cbn [negb orb] in H. exfalso.
  rewrite PDX_div, PTX_div in H. change (UTEXT / 4096) with 2048 in Hn. change USTACKTOP with (977918 * 4096) in Ha.
  apply orb_true_iff in H as [[E1%Z.eqb_eq E2%Z.eqb_eq]%andb_true_iff|[E1%Z.eqb_eq E2%Z.eqb_eq]%andb_true_iff]; clear - Ha Hn E1 E2; dlia.
Qed.

Lemma skip_pages junk id s l :
  user_dir s = Some 1 -> only_pages (mem s) = true -> (forall k, k ∈ l -> 0 <= k * PGSIZE < USTACKTOP /\ k <> UTEXT / 4096) ->
  mfor (map (fun k => k * PGSIZE) l) (fork_page junk id) s = Ok tt s.
Proof.
  intros Hd Ho Hl. apply mfor_same. intros a (k & -> & Hk)%list_elem_of_fmap. destruct (Hl k Hk) as [Hr Hn]. apply (fork_page_unmapped junk s 1); [done|by apply below_ustack|].
  apply only_pages_ok; [done..|]. by rewrite Z.div_mul.
Qed.

(** The loop of fork: one page is shared. *)
Lemma kbig_loop : mfor (map (fun k => k * PGSIZE) (seqZ 0 (USTACKTOP / PGSIZE))) (fork_page 0 4098) kbig_child = Ok tt kbig_shared.
Proof.
  rewrite (seqZ_split (USTACKTOP / PGSIZE) 2048) by done. rewrite map_app, mfor_app. cbn [map mfor].
  assert (H1 : user_dir kbig_child = Some 1) by (vm_compute; reflexivity). assert (H2 : only_pages (mem kbig_child) = true) by (vm_compute; reflexivity).
  assert (H3 : user_dir kbig_shared = Some 1) by (vm_compute; reflexivity). assert (H4 : only_pages (mem kbig_shared) = true) by (vm_compute; reflexivity).
  assert (H5 : goes (fork_page 0 4098 UTEXT) kbig_child = true) by (vm_compute; reflexivity). apply goes_ok in H5.
  erewrite bind_Ok; [|apply skip_pages; [exact H1|exact H2|]].
  - change (2048 * PGSIZE) with UTEXT. rewrite (bind_Ok _ _ _ _ _ H5). apply (skip_pages 0 4098 kbig_shared); [exact H3|exact H4|].
    intros k Hk%elem_of_seqZ. change (USTACKTOP / PGSIZE) with 977918 in Hk. change USTACKTOP with (977918 * 4096). change (UTEXT / 4096) with 2048. change PGSIZE with 4096. clear - Hk. lia.
  - intros k Hk%elem_of_seqZ. change USTACKTOP with (977918 * 4096). change (UTEXT / 4096) with 2048. change PGSIZE with 4096. clear - Hk. lia.
Qed.

Lemma kbig_fork : fork 0 ksym kbig_page = Ok 4098 kbig_forked.
Proof.
  assert (H1 : goes (set_pgfault_handler 0 ksym (sym_pgfault ksym)) kbig_page = true) by (vm_compute; reflexivity). apply goes_ok in H1.
  assert (H2 : gives (usys_exofork 0) kbig_handler 4098 = true) by (vm_compute; reflexivity). apply gives_ok in H2.
  assert (H3 : gives (kbig_finish 4098) kbig_shared 4098 = true) by (vm_compute; reflexivity). apply gives_ok in H3.
  unfold fork. rewrite (bind_Ok _ _ _ _ _ H1), (bind_Ok _ _ _ _ _ H2). change (4098 <? 0) with false. change (4098 =? 0) with false. cbv iota.
  unfold fork_parent. rewrite (bind_Ok _ _ _ _ _ kbig_loop). exact H3.
Qed.

(** ** Parent and child store in turn *)

(** The scheduler runs environment [j]. *)
Definition run_env (j : Z) (s : kstate) : kstate := set_cpus (<[cpunum s := mkCpuInfo 1 (Some j)]> (cpus s)) s.
Lemma run_env_kin A i e s j x : kin A i e s -> envs s !! j = Some x -> live x = true -> kin A j x (run_env j s).
Proof.
  intros Hk Hx Hl. split; [|split; [apply Hk|exists (mkCpuInfo 1 (Some j)); split; [apply lookup_insert_eq|done]]| |exact Hx|exact Hl].
  - apply kinv_cpus; [apply Hk|]. intros k [= <-]. by apply (kinv_range A s j x); [apply Hk|].
  - exists (mkCpuInfo 1 (Some j)). split; [apply lookup_insert_eq|done].
Qed.

Definition kbig_parent_store : kstate := after (stb_cow 0 (UTEXT + 16) 7) kbig_forked.
Definition kbig_child_store : kstate := after (stb_cow 0 (UTEXT + 16) 9) (run_env 2 kbig_parent_store).
#[local] Opaque kbig_forked.

Lemma kbig_done : exists x, fork_done ksym kbig_A 0 kex_parent kbig_page kbig_forked 2 x.
Proof.
  destruct (fork_ok 0 ksym kbig_A 0 kex_parent kbig_page kbig_ready) as [(s' & E & _)|(s1 & s2 & e' & j & x & s' & E & S & C)]; rewrite kbig_fork in E; [discriminate E|].
  apply Ok_inj in E as [Hid <-]. pose proof (fork_done_ok ksym kbig_A 0 kex_parent kbig_page kbig_ready s1 s2 e' j x kbig_forked S C) as D.
  destruct (fd_kin _ _ _ _ _ _ _ _ D) as (e1 & Hk & _), (fd_child _ _ _ _ _ _ _ _ D) as (Hx & _). destruct (ei_id _ _ (ki_env _ _ (kin_inv _ _ _ _ Hk)) j _ Hx) as [_ Hm].
  change (env_id (started ksym x)) with (env_id x) in Hm. rewrite <- Hid in Hm. destruct Hm as [Hm|Hm]; [discriminate Hm|]. change (4098 mod 4096) with 2 in Hm. subst j. exists (started ksym x). exact D.
Qed.
Lemma kbig_slot j y : envs kbig_forked !! j = Some y -> env_id y = 4098 -> j = 2.
Proof.
  intros Hy Hid. destruct kbig_done as (x & D). destruct (fd_kin _ _ _ _ _ _ _ _ D) as (e1 & Hk & _). destruct (ei_id _ _ (ki_env _ _ (kin_inv _ _ _ _ Hk)) j y Hy) as [_ Hm]. rewrite Hid in Hm.
  destruct Hm as [Hm|Hm]; [discriminate Hm|]. symmetry. exact Hm.
Qed.

(** One stores, the other is scheduled and stores. *)
Lemma two_stores A i e s j x a b b' s1 s2 :
  kin A i e s -> stb_cow 0 a b s = Ok tt s1 -> kin A j x (run_env j s1) -> stb_cow 0 a b' (run_env j s1) = Ok tt s2 ->
  runs 0 A s [(root_of e, a, b); (root_of x, a, b')] s2.
Proof.
  intros Hk H1 Hk2 H2. apply (runs_store 0 A s i e a b s1 [(root_of x, a, b')] s2 Hk H1). apply (runs_switch 0 A s1 (run_env j s1)); [split; [done|split; [done|by exists j, x]]|].
  apply (runs_store 0 A _ j x a b' s2 [] s2 Hk2 H2). apply runs_end.
Qed.

Lemma kbig_runs : exists x, envs kbig_forked !! 2 = Some x /\ runs 0 kbig_A kbig_forked [(1, UTEXT + 16, 7); (root_of x, UTEXT + 16, 9)] kbig_child_store.
Proof.
  destruct kbig_done as (x & D). destruct (fd_kin _ _ _ _ _ _ _ _ D) as (e1 & Hk & Hr & _), (fd_child _ _ _ _ _ _ _ _ D) as (Hx & Hst & _). change (root_of kex_parent) with 1 in Hr.
  assert (Hl : live x = true) by (unfold live; by rewrite Hst). exists x. split; [exact Hx|].
  assert (H1 : goes (stb_cow 0 (UTEXT + 16) 7) kbig_forked = true) by (vm_compute; reflexivity). apply goes_ok in H1.
  assert (H2 : goes (stb_cow 0 (UTEXT + 16) 9) (run_env 2 kbig_parent_store) = true) by (vm_compute; reflexivity). apply goes_ok in H2.
  assert (HG : settled [1] kbig_forked). { split; [apply D|]. intros d ->%list_elem_of_singleton. split; apply D. }
  assert (Ht : target kbig_forked (root_of e1) (UTEXT + 16)).
  { destruct (kbig_target (UTEXT + 16) eq_refl) as (Ha & Hn & Hs). split; [exact Ha|]. split; [exact Hn|]. rewrite Hr. apply (fd_storable _ _ _ _ _ _ _ _ D); [by left|exact Ha|exact Hn|exact Hs]. }
  destruct (target_store 0 kbig_A [1] 0 e1 kbig_forked (UTEXT + 16) 7 HG Hk ltac:(rewrite Hr; left) Ht) as [(s' & E & _)|(s' & E & St)]; rewrite H1 in E; [discriminate E|]. apply Ok_inj in E as [_ <-].
  assert (Hk1 : kin kbig_A 0 e1 kbig_parent_store) by exact (st_kin _ _ _ _ _ _ _ St). assert (He1 : envs kbig_parent_store = envs kbig_forked) by exact (vm_frame_envs _ _ (st_frame _ _ _ _ _ _ _ St)).
  assert (Hk2 : kin kbig_A 2 x (run_env 2 kbig_parent_store)) by (apply (run_env_kin kbig_A 0 e1); [exact Hk1|rewrite He1; exact Hx|exact Hl]).
  pose proof (two_stores kbig_A 0 e1 kbig_forked 2 x (UTEXT + 16) 7 9 kbig_parent_store kbig_child_store Hk H1 Hk2 H2) as R. rewrite Hr in R. exact R.
Qed.

Lemma two_elem (c1 c2 t b1 b2 d a b : Z) : (d, a, b) ∈ [(c1, t, b1); (c2, t, b2)] -> d ∈ [c1; c2] /\ a = t.
Proof. intros [[= -> -> ->]|[[= -> -> ->]|Hin%elem_of_nil]%elem_of_cons]%elem_of_cons; [..|done]; (split; [set_solver|done]). Qed.
Lemma two_replay (c1 c2 t b1 b2 : Z) v : c1 <> c2 ->
  replay (filter (fun p => p.1.1 = c1) [(c1, t, b1); (c2, t, b2)]) c1 t v = Some (u8 b1) /\
  replay (filter (fun p => p.1.1 = c2) [(c1, t, b1); (c2, t, b2)]) c2 t v = Some (u8 b2).
Proof. intros Hn. rewrite !replay_own. cbn [replay]. split; repeat case_decide; naive_solver. Qed.
