(* ===== verification/ForkMain.v ===== *)
(** * ForkMain: the theorems about fork

    What fork gives parent and child, and that they do not see each other's stores afterwards,
    instantiated on the machine of [ForkEx]. *)

From S2P Require Import Prelude Layout KState KMem Pmap VmRefs VmInv VmOps VmThms Sched UserMem UMem KInv KEx KBig Env Syscall EnvOps EnvThms SysOps SysSafe UStore SysThms UMonad Str StrThms Usys UsysThms PageUse Fork ForkThms ForkIso ForkRun ForkEx.

(** C6.  Fork.  For a program with memory of its own and a handler variable it can store to, fork ends with a
    child or panics, and it panics only when no environment is free or at most one page.  The child is
    a new environment, runnable, that resumes where the parent is with 0 in eax; it and the parent
    see the memory the parent had with the handler set, it has a fresh exception stack with a
    guard page below, and no other environment sees a change. *)
Theorem fork_correct junk sym A i e s :
  fork_ready sym A i e s ->
  (exists s', fork junk sym s = Abort s' /\ (env_free_list s' = None \/ scarce s')) \/
  exists s' j x, fork junk sym s = Ok (env_id x) s' /\ 0 < env_id x /\ fork_done sym A i e s s' j x.
Proof.
  intros R. destruct (fork_ok junk sym A i e s R) as [?|(s1 & s2 & e' & j & x & s' & E & S & C)]; [by left|right].
  exists s', j, (started sym x). split; [exact E|]. split; [apply (bo_id _ _ _ _ _ _ _ (so_born _ _ _ _ _ _ _ _ _ _ S))|].
  exact (fork_done_ok sym A i e s R s1 s2 e' j x s' S C).
Qed.

Lemma fork_correct_witness : exists s' j x, fork 0 ksym kbig_page = Ok (env_id x) s' /\ 0 < env_id x /\ fork_done ksym kbig_A 0 kex_parent kbig_page s' j x.
Proof.
  destruct (fork_correct 0 ksym kbig_A 0 kex_parent kbig_page kbig_ready) as [(s' & E & _)|H]; [|exact H]. rewrite kbig_fork in E. discriminate E.
Defined.


