(* ===== verification/Upcall.v ===== *)
(** * Upcall: the way back from a page fault ([lib/pfentry.S])

    The kernel starts [_pgfault_upcall] on the exception stack with a [struct UTrapframe] on top.
    The routine calls the handler of the program and then puts all registers back as they were at
    the fault.  Its instructions are operations on the registers and an address space. *)

From S2P Require Import Prelude UMonad Str Printfmt.

(** The registers that user code has *)
Record ucpu := mkucpu {
  r_edi : Z; r_esi : Z; r_ebp : Z; r_ebx : Z; r_edx : Z; r_ecx : Z; r_eax : Z;
  r_esp : Z; r_eip : Z; r_eflags : Z;
}.
Definition set_r_eax (v : Z) (c : ucpu) : ucpu :=
  mkucpu (r_edi c) (r_esi c) (r_ebp c) (r_ebx c) (r_edx c) (r_ecx c) v (r_esp c) (r_eip c) (r_eflags c).
Definition set_r_edx (v : Z) (c : ucpu) : ucpu :=
  mkucpu (r_edi c) (r_esi c) (r_ebp c) (r_ebx c) v (r_ecx c) (r_eax c) (r_esp c) (r_eip c) (r_eflags c).
Definition set_r_esp (v : Z) (c : ucpu) : ucpu :=
  mkucpu (r_edi c) (r_esi c) (r_ebp c) (r_ebx c) (r_edx c) (r_ecx c) (r_eax c) v (r_eip c) (r_eflags c).
Definition set_r_eip (v : Z) (c : ucpu) : ucpu :=
  mkucpu (r_edi c) (r_esi c) (r_ebp c) (r_ebx c) (r_edx c) (r_ecx c) (r_eax c) (r_esp c) v (r_eflags c).
Definition set_r_eflags (v : Z) (c : ucpu) : ucpu :=
  mkucpu (r_edi c) (r_esi c) (r_ebp c) (r_ebx c) (r_edx c) (r_ecx c) (r_eax c) (r_esp c) (r_eip c) v.

(** The flags user code can change: CF PF AF ZF SF TF DF OF NT AC ID, but not IF and IOPL *)
Definition USER_FLAGS : Z := 0x244DD5.
(** The flags arithmetic sets: CF PF AF ZF SF OF *)
Definition ARITH_FLAGS : Z := 0x8D5.
(** [old] with the bits in [mask] from [new] *)
Definition merge (mask old new : Z) : Z := Z.ldiff old mask .| (new .& mask).

Section upcall.
Context {S : Type} `{Mem S}.
(** What addition and subtraction leave in the flags, of the operands *)
Context (alu : Z -> Z -> Z).
(** The code at the address of a C function, from its entry to the end of its [ret] *)
Context (code : Z -> M (S * ucpu) unit).
(** The address of the variable [_pgfault_handler], and of the instruction behind the call *)
Context (handler_var after_call : Z).

Definition reg (f : ucpu -> Z) : M (S * ucpu) Z := mget (fun p => f p.2).
Definition regs (f : ucpu -> ucpu) : M (S * ucpu) unit := mmod (fun p => (p.1, f p.2)).

Definition pushl (v : Z) : M (S * ucpu) unit :=
  regs (fun c => set_r_esp (u32 (r_esp c - 4)) c);;
  esp ← reg r_esp;
  st32 esp v.
Definition popl : M (S * ucpu) Z :=
  esp ← reg r_esp;
  v ← ld32 esp;
  regs (fun c => set_r_esp (u32 (r_esp c + 4)) c);;
  mret v.
Definition addl_esp (k : Z) : M (S * ucpu) unit :=
  regs (fun c => set_r_eflags (merge ARITH_FLAGS (r_eflags c) (alu (r_esp c) k)) (set_r_esp (u32 (r_esp c + k)) c)).
Definition ld_esp (off : Z) : M (S * ucpu) Z := esp ← reg r_esp; ld32 (u32 (esp + off)).
Definition subl_mem_esp (k off : Z) : M (S * ucpu) unit :=
  esp ← reg r_esp;
  v ← ld32 (u32 (esp + off));
  st32 (u32 (esp + off)) (u32 (v - k));;
  regs (fun c => set_r_eflags (merge ARITH_FLAGS (r_eflags c) (alu v (- k))) c).
(** popal: the saved %esp is skipped. *)
Definition popal : M (S * ucpu) unit :=
  edi ← popl; esi ← popl; ebp ← popl; _ ← popl; ebx ← popl; edx ← popl; ecx ← popl; eax ← popl;
  regs (fun c => mkucpu edi esi ebp ebx edx ecx eax (r_esp c) (r_eip c) (r_eflags c)).
Definition popfl : M (S * ucpu) unit := v ← popl; regs (fun c => set_r_eflags (merge USER_FLAGS (r_eflags c) v) c).

(** The call of the handler *)
Definition call_handler : M (S * ucpu) unit :=
  esp ← reg r_esp;
  pushl esp;;
  h ← ld32 handler_var;
  regs (set_r_eax h);;
  pushl after_call;;
  code h;;
  addl_esp 4.
(** The trap-time program counter goes onto the trap-time stack. *)
Definition push_eip : M (S * ucpu) unit :=
  addl_esp 8;;
  eip ← ld_esp 0x20;
  regs (set_r_eax eip);;
  subl_mem_esp 4 0x28;;
  sp ← ld_esp 0x28;
  regs (set_r_edx sp);;
  st32 sp eip.
(** The registers, the flags, the stack and the program counter *)
Definition restore : M (S * ucpu) unit :=
  popal;;
  addl_esp 4;;
  popfl;;
  sp ← popl;
  regs (set_r_esp sp);;
  eip ← popl;
  regs (set_r_eip eip).
Definition pgfault_upcall : M (S * ucpu) unit := call_handler;; push_eip;; restore.
End upcall.
