(* ===== verification/UpcallThms.v ===== *)
(** * UpcallThms: a page fault handled in user mode does not show

    The kernel's half puts the frame on the exception stack and starts the upcall; the upcall's
    half calls the handler and restores every register.  Together the faulting instruction starts
    again in the state in which it faulted, up to what the handler has changed. *)

From S2P Require Import Prelude Layout KState KMem Pmap VmRefs VmInv VmOps VmThms UserMem UMem KInv KEx KBig Env Syscall Trap SchedThms EnvThms SysOps SysSafe UStore SysThms TrapThms UMonad Str StrThms Printfmt PrintOut Usys UsysThms PageUse ForkThms Upcall.

Section words.
Context {S : Type} `{Hmem : Mem S} `{Hlaws : !MemLaws S}.

Definition uword_at (s : S) (a w : Z) : Prop := bytes_at s a (bytes4 w).
Definition words_at (s : S) (a : Z) (ws : list Z) : Prop :=
  Forall word ws /\ forall k w, ws !! k = Some w -> uword_at s (a + 4 * Z.of_nat k) w.

Lemma word_roundtrip w : word w -> unbytes (bytes4 w) = w.
Proof. unfold word, unbytes, bytes4. cbn [foldr]. intros. dlia. Qed.

Lemma words_at_reads s s' a ws : reads s s' -> words_at s a ws -> words_at s' a ws.
Proof. intros Hr [Hw H]. split; [done|]. intros k w Hk. by apply (bytes_at_reads s), H. Qed.
Lemma words_at_cons s a w ws : words_at s a (w :: ws) -> word w /\ uword_at s a w /\ words_at s (a + 4) ws.
Proof.
  intros [Hw H]. apply Forall_cons in Hw as [Hw Hws]. split; [done|]. split.
  - specialize (H 0%nat w eq_refl). by rewrite Z.add_0_r in H.
  - split; [done|]. intros k w' Hk. specialize (H (Datatypes.S k) w' Hk). by replace (a + 4 * Z.of_nat (Datatypes.S k)) with (a + 4 + 4 * Z.of_nat k) in H by lia.
Qed.

Lemma words_at_lookup s a ws k w : words_at s a ws -> ws !! k = Some w -> word w /\ uword_at s (a + 4 * Z.of_nat k) w.
Proof. intros [Hw H] Hk. split; [|by apply H]. rewrite Forall_forall in Hw. apply Hw. by eapply list_elem_of_lookup_2. Qed.
Lemma word_at_touches X s s' a w : touches X s s' -> (forall k, a <= k < a + 4 -> ~ X k) -> uword_at s a w -> uword_at s' a w.
Proof. intros Ht Hn. apply (bytes_at_touches X); [done|]. intros k Hk Hr. by apply (Hn k). Qed.

Lemma words_at_app s a l1 l2 : words_at s a (l1 ++ l2) <-> words_at s a l1 /\ words_at s (a + 4 * Z.of_nat (length l1)) l2.
Proof.
  unfold words_at. rewrite Forall_app. split.
  - intros [[H1 H2] H]. split; (split; [done|]); intros k w Hk.
    + apply H. by apply lookup_app_l_Some.
    + replace (a + 4 * Z.of_nat (length l1) + 4 * Z.of_nat k) with (a + 4 * Z.of_nat (length l1 + k)) by lia. apply H. rewrite lookup_app_r by lia. by replace (length l1 + k - length l1)%nat with k by lia.
  - intros [[H1 A1] [H2 A2]]. split; [done|]. intros k w [Hk|[Hle Hk]]%lookup_app_Some; [by apply A1|]. specialize (A2 _ _ Hk).
    by replace (a + 4 * Z.of_nat (length l1) + 4 * Z.of_nat (k - length l1)) with (a + 4 * Z.of_nat k) in A2 by lia.
Qed.
Lemma words_at_touches X s s' a ws : touches X s s' -> (forall k, a <= k < a + 4 * Z.of_nat (length ws) -> ~ X k) -> words_at s a ws -> words_at s' a ws.
Proof.
  intros Ht Hn [Hw H]. split; [done|]. intros k w Hk. apply (word_at_touches X s); [done| |by apply H]. intros j Hj. apply Hn. apply lookup_lt_Some in Hk. lia.
Qed.
Lemma words_at_one s a w : words_at s a [w] <-> word w /\ uword_at s a w.
Proof.
  split; [by intros (? & ? & _)%words_at_cons|]. intros [Hw H]. split; [by apply Forall_singleton|]. intros [|k] w' Hk; [|done]. injection Hk as <-. by rewrite Z.add_0_r.
Qed.

Lemma ld32_at s a w : word w -> uword_at s a w -> exists s', ld32 a s = Ok w s' /\ reads s s'.
Proof.
  intros Hw H. destruct (ldn_spec (bytes4 w) s a H) as (s' & E & Hr). exists s'. split; [|done]. unfold ld32. change (length (bytes4 w)) with 4%nat in E.
  rewrite (bind_Ok _ _ _ _ _ E). by rewrite word_roundtrip.
Qed.
Lemma bytes4_byte w b : b ∈ bytes4 w -> 0 <= b < 256.
Proof. unfold bytes4. intros Hb. repeat (apply elem_of_cons in Hb as [->|Hb]; [apply Z.mod_pos_bound; lia|]). by apply elem_of_nil in Hb. Qed.
Lemma st32_at s a w : buffer s a 4 -> exists s', st32 a w s = Ok tt s' /\ touches (range a 4) s s' /\ uword_at s' a w.
Proof.
  intros Hb. destruct (stn_spec (bytes4 w) s a) as (s' & E & Ht & Hv); [exact Hb|]. exists s'. split; [done|]. split; [exact Ht|]. unfold uword_at. rewrite map_u8 in Hv; [done|]. apply bytes4_byte.
Qed.
End words.

(** ** Flags *)

Lemma merge_arith old x v : merge USER_FLAGS (merge ARITH_FLAGS old x) v = merge USER_FLAGS old v.
Proof.
  unfold merge. apply Z.bits_inj'. intros n Hn. rewrite !Z.lor_spec, !Z.ldiff_spec, !Z.lor_spec, !Z.land_spec, !Z.ldiff_spec. destruct (Z.testbit USER_FLAGS n) eqn:E; [by rewrite !andb_false_r|].
  assert (Z.testbit ARITH_FLAGS n = false) as ->; [|cbn; by rewrite andb_false_r, orb_false_r, !andb_true_r]. assert (Ha : ARITH_FLAGS = ARITH_FLAGS .& USER_FLAGS) by done. rewrite Ha, Z.land_spec, E. apply andb_false_r.
Qed.
Lemma merge_same mask old v : Z.ldiff old mask = Z.ldiff v mask -> merge mask old v = v.
Proof. intros E. unfold merge. rewrite E. apply Z.bits_inj'. intros n Hn. rewrite Z.lor_spec, Z.ldiff_spec, Z.land_spec. by destruct (Z.testbit v n), (Z.testbit mask n). Qed.
Lemma ldiff_merge old x : Z.ldiff (merge ARITH_FLAGS old x) USER_FLAGS = Z.ldiff old USER_FLAGS.
Proof. pose proof (merge_arith old x 0) as E. unfold merge at 1 3 in E. by rewrite Z.land_0_l, !Z.lor_0_r in E. Qed.

(** ** The upcall on any address space *)

Section upcall.
Context {S : Type} `{Hmem : Mem S} `{Hlaws : !MemLaws S}.
Context (alu : Z -> Z -> Z) (code : Z -> M (S * ucpu) unit) (handler_var after_call : Z).
Implicit Types (s : S) (c : ucpu).

Lemma prod_word s c a w : uword_at s a w -> uword_at (s, c) a w.
Proof. done. Qed.
Lemma prod_buffer s c a n : buffer s a n -> buffer (s, c) a n.
Proof. done. Qed.
Lemma pld_ok s c a w : word w -> uword_at s a w -> exists s', ld32 a (s, c) = Ok w (s', c) /\ reads s s'.
Proof.
  intros Hw H. destruct (ld32_at (s, c) a w Hw (prod_word s c a w H)) as ([s' c'] & E & Hr). apply prod_reads in Hr as [Hr <-]. by exists s'.
Qed.
Lemma pst_ok s c a w : buffer s a 4 -> exists s', st32 a w (s, c) = Ok tt (s', c) /\ touches (range a 4) s s' /\ uword_at s' a w.
Proof.
  intros Hb. destruct (st32_at (s, c) a w (prod_buffer s c a 4 Hb)) as ([s' c'] & E & [[Hr Ec] Hv] & Hw). cbn in Ec. subst c'. by exists s'.
Qed.

Lemma bind_regs {B} f (g : unit -> M (S * ucpu) B) s c : (regs f ≫= g) (s, c) = g tt (s, f c).
Proof. done. Qed.
Lemma bind_reg {B} f (g : Z -> M (S * ucpu) B) s c : (reg f ≫= g) (s, c) = g (f c) (s, c).
Proof. done. Qed.

Lemma popl_ok s c w ws :
  words_at s (r_esp c) (w :: ws) -> 0 <= r_esp c < 2^32 - 4 ->
  exists s', popl (s, c) = Ok w (s', set_r_esp (r_esp c + 4) c) /\ reads s s' /\ words_at s' (r_esp c + 4) ws.
Proof.
  intros (Hw & Hat & Hws)%words_at_cons Hr. destruct (pld_ok s c (r_esp c) w Hw Hat) as (s' & E & Hrd). exists s'. split; [|split; [done|by apply (words_at_reads s)]].
  unfold popl. rewrite bind_reg, (bind_Ok _ _ _ _ _ E), bind_regs. by rewrite u32_small by lia.
Qed.

Lemma reads_trans s1 s2 s3 : reads s1 s2 -> reads s2 s3 -> reads s1 s3.
Proof. apply touches_trans. Qed.
End upcall.

(** One [popl] of a sequence: the new state is the last one. *)
Ltac pop E Hr Hws :=
  match goal with
  | H : words_at ?s ?a (_ :: _) |- context [(popl ≫= _) (?s, ?c)] =>
      let B := fresh in assert (B : 0 <= r_esp c < 2^32 - 4) by (cbn [r_esp set_r_esp]; lia);
      destruct (popl_ok s c _ _ H B) as (? & E & Hr & Hws); rewrite (bind_Ok _ _ _ _ _ E); cbn [r_esp set_r_esp] in Hws |- *; clear E H B
  end.

Section restore.
Context {S : Type} `{Hmem : Mem S} `{Hlaws : !MemLaws S}.
Context (alu : Z -> Z -> Z).
Implicit Types (s : S) (c : ucpu).

Lemma popal_ok s c edi esi ebp oesp ebx edx ecx eax ws :
  words_at s (r_esp c) ([edi; esi; ebp; oesp; ebx; edx; ecx; eax] ++ ws) -> 0 <= r_esp c < 2^32 - 32 ->
  exists s', popal (s, c) = Ok tt (s', mkucpu edi esi ebp ebx edx ecx eax (r_esp c + 32) (r_eip c) (r_eflags c)) /\ reads s s' /\ words_at s' (r_esp c + 32) ws.
Proof.
  cbn [app]. intros H Hr. unfold popal. pop E R1 W1. pop E R2 W2. pop E R3 W3. pop E R4 W4. pop E R5 W5. pop E R6 W6. pop E R7 W7. pop E R8 W8.
  replace (r_esp c + 32) with (r_esp c + 4 + 4 + 4 + 4 + 4 + 4 + 4 + 4) by lia. eexists. split; [done|]. split; [|exact W8].
  repeat (eapply reads_trans; [eassumption|]). apply touches_refl.
Qed.

Lemma reads_word s s' a w : reads s s' -> uword_at s a w -> uword_at s' a w.
Proof. apply bytes_at_reads. Qed.

Lemma restore_ok s c edi esi ebp oesp ebx edx ecx eax eip fl sp :
  words_at s (r_esp c) [edi; esi; ebp; oesp; ebx; edx; ecx; eax; eip; fl; sp] -> 0 <= r_esp c < 2^32 - 48 -> word eip -> uword_at s sp eip -> 0 <= sp < 2^32 - 4 ->
  exists s', restore alu (s, c) = Ok tt (s', mkucpu edi esi ebp ebx edx ecx eax (sp + 4) eip (merge USER_FLAGS (r_eflags c) fl)) /\ reads s s'.
Proof.
  intros H Hr He Hsp Hspr. destruct (popal_ok s c edi esi ebp oesp ebx edx ecx eax [eip; fl; sp] H ltac:(lia)) as (s1 & E1 & R1 & W1). unfold restore. rewrite (bind_Ok _ _ _ _ _ E1).
  apply words_at_cons in W1 as (_ & _ & W1). unfold addl_esp. rewrite bind_regs. cbn [r_esp]. rewrite u32_small by lia. replace (r_esp c + 32 + 4) with (r_esp c + 36) in * by lia.
  set (f := merge ARITH_FLAGS _ _). set (c1 := set_r_eflags f _).
  destruct (popl_ok s1 c1 fl [sp] W1 ltac:(cbn; lia)) as (s2 & E2 & R2 & W2). unfold popfl. rewrite (bind_Ok _ _ (s1, c1) tt (s2, set_r_eflags (merge USER_FLAGS f fl) (set_r_esp (r_esp c1 + 4) c1))).
  2: { by rewrite (bind_Ok _ _ _ _ _ E2). }
  destruct (popl_ok s2 (set_r_eflags (merge USER_FLAGS f fl) (set_r_esp (r_esp c1 + 4) c1)) sp [] W2 ltac:(cbn; lia)) as (s3 & E3 & R3 & _). rewrite (bind_Ok _ _ _ _ _ E3).
  rewrite bind_regs. assert (R : reads s s3) by (repeat (eapply reads_trans; [eassumption|]); apply touches_refl).
  set (c3 := set_r_esp sp _). assert (W3 : words_at s3 (r_esp c3) [eip]).
  { apply words_at_one. split; [done|]. change (uword_at s3 sp eip). by apply (reads_word s). }
  destruct (popl_ok s3 c3 eip [] W3 ltac:(cbn; lia)) as (s4 & E4 & R4 & _). rewrite (bind_Ok _ _ _ _ _ E4). exists s4. split; [|by eapply reads_trans].
  rewrite <- (merge_arith (r_eflags c) (alu (r_esp c + 32) 4) fl). done.
Qed.

(** The frame is [ws], its last three words the program counter, the flags and the stack pointer. *)
Lemma push_eip_ok s c va err regs8 eip fl sp :
  length regs8 = 8%nat -> words_at s (r_esp c) ([va; err] ++ regs8 ++ [eip; fl; sp]) -> 0 <= r_esp c < 2^32 - 56 ->
  buffer s (r_esp c + 48) 4 -> 4 <= sp -> buffer s (sp - 4) 4 -> sp <= r_esp c \/ r_esp c + 52 <= sp - 4 ->
  exists s' c', push_eip alu (s, c) = Ok tt (s', c') /\ r_esp c' = r_esp c + 8 /\ Z.ldiff (r_eflags c') USER_FLAGS = Z.ldiff (r_eflags c) USER_FLAGS /\
    words_at s' (r_esp c + 8) (regs8 ++ [eip; fl; sp - 4]) /\ uword_at s' (sp - 4) eip /\
    touches (fun a => range (r_esp c + 48) 4 a \/ range (sp - 4) 4 a) s s'.
Proof.
  intros Hl Hws Hr Hb4 Hsp Hbs Hdis. set (e := r_esp c) in *. set (ws := [va; err] ++ regs8 ++ [eip; fl; sp]) in *.
  assert (Hk : ws !! 10%nat = Some eip /\ ws !! 11%nat = Some fl /\ ws !! 12%nat = Some sp) by (unfold ws; do 9 (destruct regs8 as [|? regs8]; [done|]); done || (destruct regs8; done)).
  destruct Hk as (K10 & K11 & K12). destruct (words_at_lookup _ _ _ _ _ Hws K10) as [He A10], (words_at_lookup _ _ _ _ _ Hws K12) as [Hspw A12]. unfold word in Hspw.
  unfold push_eip, addl_esp. rewrite bind_regs. set (c1 := set_r_eflags _ _). assert (E1 : r_esp c1 = e + 8) by (cbn; apply u32_small; unfold e; lia).
  assert (Hld : forall s c off w, word w -> 0 <= r_esp c + off < 2^32 -> uword_at s (r_esp c + off) w -> exists s', ld_esp off (s, c) = Ok w (s', c) /\ reads s s').
  { intros s1 c0 off w Hw Hrg Hat. unfold ld_esp. rewrite bind_reg. rewrite u32_small by done. by apply pld_ok. }
  destruct (Hld s c1 0x20 eip He ltac:(lia)) as (s1 & L1 & R1); [replace (r_esp c1 + 0x20) with (e + 4 * Z.of_nat 10) by lia; done|]. rewrite (bind_Ok _ _ _ _ _ L1), bind_regs.
  set (c2 := set_r_eax eip c1). assert (E2 : r_esp c2 = e + 8) by done. unfold subl_mem_esp.
  destruct (pld_ok s1 c2 (e + 48) sp Hspw) as (s2 & L2 & R2); [apply (reads_word s); [done|]; by replace (e + 48) with (e + 4 * Z.of_nat 12) by lia|].
  destruct (pst_ok s2 c2 (e + 48) (sp - 4)) as (s3 & L3 & T3 & W3).
  { eapply buffer_touches; [exact R2|]. eapply buffer_touches; [exact R1|]. done. }
  set (c3 := set_r_eflags (merge ARITH_FLAGS (r_eflags c2) (alu sp (- 4))) c2).
  rewrite (bind_Ok _ _ (s1, c2) tt (s3, c3)).
  2: { rewrite bind_reg, E2. replace (e + 8 + 40) with (e + 48) by lia. rewrite u32_small by lia. rewrite (bind_Ok _ _ _ _ _ L2). rewrite u32_small by lia. by rewrite (bind_Ok _ _ _ _ _ L3). }
  destruct (Hld s3 c3 0x28 (sp - 4)) as (s4 & L4 & R4); [unfold word; lia|cbn; fold e; rewrite u32_small; lia|change (r_esp c3) with (r_esp c1); rewrite E1; by replace (e + 8 + 40) with (e + 48) by lia|].
  rewrite (bind_Ok _ _ _ _ _ L4), bind_regs. set (c4 := set_r_edx (sp - 4) c3). destruct (pst_ok s4 c4 (sp - 4) eip) as (s5 & L5 & T5 & W5).
  { eapply buffer_touches; [exact R4|]. eapply buffer_touches; [exact T3|]. eapply buffer_touches; [exact R2|]. by eapply buffer_touches; [exact R1|]. }
  exists s5, c4. split; [exact L5|]. split; [exact E1|]. split; [cbn [r_eflags c4 c3 c2 c1 set_r_edx set_r_eflags set_r_eax]; by rewrite !ldiff_merge|].
  assert (T : touches (fun a => range (e + 48) 4 a \/ range (sp - 4) 4 a) s s5).
  { eapply touches_trans; [apply reads_touches, R1|]. eapply touches_trans; [apply reads_touches, R2|]. eapply touches_trans; [eapply touches_mono; [|exact T3]; auto|].
    eapply touches_trans; [apply reads_touches, R4|]. eapply touches_mono; [|exact T5]; auto. }
  split; [|done]. replace (regs8 ++ [eip; fl; sp - 4]) with ((regs8 ++ [eip; fl]) ++ [sp - 4]) by (by rewrite <- app_assoc).
  unfold ws in Hws. replace (regs8 ++ [eip; fl; sp]) with ((regs8 ++ [eip; fl]) ++ [sp]) in Hws by (by rewrite <- app_assoc). cbn [app] in Hws.
  apply words_at_cons in Hws as (_ & _ & (_ & _ & Hws)%words_at_cons). replace (e + 4 + 4) with (e + 8) in Hws by lia. apply words_at_app in Hws as [Hws _]. apply words_at_app.
  assert (Hlen : Z.of_nat (length (regs8 ++ [eip; fl])) = 10) by (rewrite length_app, Hl; done). rewrite Hlen. split.
  - apply (words_at_touches _ s s5 (e + 8) (regs8 ++ [eip; fl]) T); [|exact Hws]. rewrite Hlen. unfold range. lia.
  - apply words_at_one. split; [unfold word; lia|]. replace (e + 8 + 4 * 10) with (e + 48) by lia. apply (word_at_touches (range (sp - 4) 4) s4); [exact T5|unfold range; lia|]. by apply (reads_word s3).
Qed.
End restore.

Section call.
Context {S : Type} `{Hmem : Mem S} `{Hlaws : !MemLaws S}.
Context (alu : Z -> Z -> Z) (code : Z -> M (S * ucpu) unit) (handler_var after_call : Z).
Implicit Types (s : S) (c : ucpu).

Lemma pushl_ok s c v : 4 <= r_esp c < 2^32 -> buffer s (r_esp c - 4) 4 ->
  exists s', pushl v (s, c) = Ok tt (s', set_r_esp (r_esp c - 4) c) /\ touches (range (r_esp c - 4) 4) s s' /\ uword_at s' (r_esp c - 4) v.
Proof.
  intros Hr Hb. unfold pushl. rewrite bind_regs, bind_reg. rewrite u32_small by lia. by apply pst_ok.
Qed.

(** The handler keeps to the calling convention: it returns, with the stack pointer above the
    return address and the system flags as they were. *)
Definition returned (c c' : ucpu) : Prop := r_esp c' = r_esp c + 4 /\ Z.ldiff (r_eflags c') USER_FLAGS = Z.ldiff (r_eflags c) USER_FLAGS.
(** The registers when the handler is entered *)
Definition entered (h : Z) (c : ucpu) : ucpu := set_r_esp (r_esp c - 8) (set_r_eax h (set_r_esp (r_esp c - 4) c)).

Lemma call_handler_ok s c h :
  8 <= r_esp c < 2^32 -> buffer s (r_esp c - 8) 8 -> word h -> uword_at s handler_var h -> (handler_var + 4 <= r_esp c - 8 \/ r_esp c <= handler_var) ->
  exists s1, touches (range (r_esp c - 8) 8) s s1 /\ uword_at s1 (r_esp c - 4) (r_esp c) /\ uword_at s1 (r_esp c - 8) after_call /\
    forall s2 c2, code h (s1, entered h c) = Ok tt (s2, c2) -> returned (entered h c) c2 ->
      exists c3, call_handler alu code handler_var after_call (s, c) = Ok tt (s2, c3) /\ r_esp c3 = r_esp c /\ Z.ldiff (r_eflags c3) USER_FLAGS = Z.ldiff (r_eflags c) USER_FLAGS.
Proof.
  intros Hr Hb Hh Hhv Hdis. destruct (pushl_ok s c (r_esp c)) as (s1 & E1 & T1 & W1); [lia|intros k Hk; apply Hb; lia|].
  destruct (pld_ok s1 (set_r_esp (r_esp c - 4) c) handler_var h Hh) as (s2 & E2 & R2).
  { apply (word_at_touches _ s s1 _ _ T1); [unfold range; lia|done]. }
  set (c2 := set_r_eax h (set_r_esp (r_esp c - 4) c)). destruct (pushl_ok s2 c2 after_call) as (s3 & E3 & T3 & W3).
  { cbn. lia. }
  { eapply buffer_touches; [exact R2|]. eapply buffer_touches; [exact T1|]. intros k Hk. apply Hb. cbn in Hk. lia. }
  cbn [c2 r_esp set_r_eax set_r_esp] in E3, T3, W3. replace (r_esp c - 4 - 4) with (r_esp c - 8) in * by lia. exists s3. split_and!.
  - eapply touches_trans; [eapply touches_mono; [|exact T1]; unfold range; lia|]. eapply touches_trans; [apply reads_touches, R2|]. eapply touches_mono; [|exact T3]. unfold range. lia.
  - apply (word_at_touches _ s2 s3 _ _ T3); [unfold range; lia|]. by apply (reads_word s1).
  - done.
  - intros s4 c4 E4 [Hsp Hfl]. exists (set_r_eflags (merge ARITH_FLAGS (r_eflags c4) (alu (r_esp c4) 4)) (set_r_esp (u32 (r_esp c4 + 4)) c4)). split_and!.
    + unfold call_handler. rewrite bind_reg, (bind_Ok _ _ _ _ _ E1), (bind_Ok _ _ _ _ _ E2), bind_regs. fold c2. rewrite (bind_Ok _ _ _ _ _ E3). unfold entered in E4. fold c2 in E4. by rewrite (bind_Ok _ _ _ _ _ E4).
    + cbn. rewrite Hsp. cbn. rewrite u32_small by lia. lia.
    + cbn [r_eflags set_r_eflags]. by rewrite ldiff_merge, Hfl.
Qed.

(** The words of [struct UTrapframe], and the registers they say *)
Definition regs_words (r : PushRegs) : list Z := [reg_edi r; reg_esi r; reg_ebp r; reg_oesp r; reg_ebx r; reg_edx r; reg_ecx r; reg_eax r].
Definition utf_words (va : Z) (tf : Trapframe) : list Z := [va; tf_err tf] ++ regs_words (tf_regs tf) ++ [tf_eip tf; tf_eflags tf; tf_esp tf].
Definition uregs (tf : Trapframe) : ucpu :=
  let r := tf_regs tf in mkucpu (reg_edi r) (reg_esi r) (reg_ebp r) (reg_ebx r) (reg_edx r) (reg_ecx r) (reg_eax r) (tf_esp tf) (tf_eip tf) (tf_eflags tf).

Lemma upcall_ok s c h va tf :
  8 <= r_esp c < 2^32 - 56 -> buffer s (r_esp c - 8) 8 -> word h -> uword_at s handler_var h -> (handler_var + 4 <= r_esp c - 8 \/ r_esp c <= handler_var) ->
  Z.ldiff (r_eflags c) USER_FLAGS = Z.ldiff (tf_eflags tf) USER_FLAGS ->
  exists s1, touches (range (r_esp c - 8) 8) s s1 /\ uword_at s1 (r_esp c - 4) (r_esp c) /\ uword_at s1 (r_esp c - 8) after_call /\
    forall s2 c2, code h (s1, entered h c) = Ok tt (s2, c2) -> returned (entered h c) c2 ->
      words_at s2 (r_esp c) (utf_words va tf) -> buffer s2 (r_esp c + 48) 4 -> 4 <= tf_esp tf -> buffer s2 (tf_esp tf - 4) 4 -> (tf_esp tf <= r_esp c \/ r_esp c + 52 <= tf_esp tf - 4) ->
      exists s', pgfault_upcall alu code handler_var after_call (s, c) = Ok tt (s', uregs tf) /\ touches (fun a => range (r_esp c + 48) 4 a \/ range (tf_esp tf - 4) 4 a) s2 s'.
Proof.
  intros Hr Hb Hh Hhv Hdis Hfl. destruct (call_handler_ok s c h) as (s1 & T1 & W1 & W2 & Hcall); [lia|done..|]. exists s1. split; [done|]. split; [done|]. split; [done|].
  intros s2 c2 Ecode Hret Hws Hb48 Hsp Hbsp Hd2. destruct (Hcall s2 c2 Ecode Hret) as (c3 & E3 & Hesp3 & Hfl3). unfold pgfault_upcall. rewrite (bind_Ok _ _ _ _ _ E3).
  assert (Hspw : word (tf_esp tf) /\ word (tf_eip tf)). { destruct Hws as [Hw _]. unfold utf_words in Hw. rewrite Forall_forall in Hw. split; apply Hw; cbn; set_solver. }
  rewrite <- Hesp3 in Hws, Hb48, Hd2. unfold utf_words in Hws. destruct (push_eip_ok alu s2 c3 va (tf_err tf) (regs_words (tf_regs tf)) (tf_eip tf) (tf_eflags tf) (tf_esp tf) eq_refl Hws) as (s3 & c4 & E4 & Hesp4 & Hfl4 & Hws4 & Hat & T3); [lia|done..|].
  rewrite (bind_Ok _ _ _ _ _ E4). rewrite <- Hesp4 in Hws4. cbn [app] in Hws4. destruct Hspw as [Hspw Heip]. unfold word in Hspw.
  destruct (restore_ok alu s3 c4 _ _ _ _ _ _ _ _ _ _ _ Hws4) as (s4 & E5 & R5); [lia|done|done|lia|].
  exists s4. split.
  - rewrite E5. unfold uregs. rewrite merge_same by (rewrite Hfl4, Hfl3, Hfl; done). by replace (tf_esp tf - 4 + 4) with (tf_esp tf) by lia.
  - rewrite Hesp3 in T3. eapply touches_trans; [exact T3|]. by apply reads_touches.
Qed.
End call.

Lemma le_bytes4 w : le_bytes 4 w = bytes4 w.
Proof. unfold bytes4. cbn [le_bytes]. rewrite !Z.div_div by lia. done. Qed.
Lemma words_at_bytes {S} `{Hmem : Mem S} `{Hlaws : !MemLaws S} (s : S) a ws : Forall word ws -> bytes_at s a (flat_map bytes4 ws) -> words_at s a ws.
Proof.
  revert a. induction ws as [|w ws IH]; intros a Hw Hb; [by split|]. apply Forall_cons in Hw as [Hw Hws]. cbn [flat_map] in Hb. apply bytes_at_app in Hb as [Hb1 Hb2].
  apply (words_at_app s a [w] ws). split; [by apply words_at_one|]. by apply IH.
Qed.
Lemma utf_bytes_words va tf : utf_bytes va tf = flat_map bytes4 (utf_words va tf).
Proof. unfold utf_bytes, regs_bytes, utf_words, regs_words. cbn [flat_map app]. rewrite !le_bytes4. rewrite app_nil_r, <- !app_assoc. done. Qed.

(** ** Both halves *)

(** The state in which user code goes on.  (The lock is taken again: the model of user programs
    holds it while one of them runs.) *)
Definition relock (s : kstate) : kstate := set_kernel_lock (Some (cpunum s)) s.

Section kernel.
Context (A : gset Z) (i : Z) (e : Env) (s : kstate) (inp : trap_in) (tf : Trapframe) (s' : kstate).
Hypothesis Hk : kin A i e s.
Hypothesis Hesp : word (tf_esp tf).
Notation frame := (utf_addr (tf_esp tf)).
Hypothesis Hok : stack_ok e s tf.
Hypothesis Hd : delivers A i e s inp tf s'.

Lemma delivered_kin : exists e', kin A i e' (relock s') /\ root_of e' = root_of e /\ env_tf e' = set_tf_esp frame (set_tf_eip (env_pgfault_upcall e) (env_tf e)).
Proof.
  destruct Hd as (s1 & Hf & Hi & (e1 & Hcur & He1 & Hst & _ & [_ Haw] & _) & Hs' & o & e2 & Hco & He2 & Hen). cbn [envs with_env set_envs] in *.
  rewrite lookup_insert_eq in He2. injection He2 as <-. rewrite Hen, lookup_insert_eq in He1. injection He1 as <-.
  exists (resumed (cpunum (with_env i (upcalled frame e) s1)) (upcalled frame e)). split; [|done]. split.
  - by apply kinv_set_lock.
  - by split.
  - exact Hcur.
  - change (envs (relock s')) with (envs s'). rewrite Hen. apply lookup_insert_eq.
  - done.
Qed.
Lemma delivered_mem : exists s1, mem s' = mem s1 /\ filled A s (root_of e) frame 0 (utf_bytes (cr2 inp) tf) s1.
Proof. destruct Hd as (s1 & Hf & _ & (_ & Hs' & _)). exists s1. split; [|done]. rewrite Hs'. done. Qed.

Lemma delivered_frame : Forall word (utf_words (cr2 inp) tf) -> words_at (relock s') frame (utf_words (cr2 inp) tf).
Proof.
  intros Hw. destruct delivered_kin as (e' & Hk' & Hr & _), delivered_mem as (s1 & Hm & Hf). apply words_at_bytes; [done|]. rewrite <- utf_bytes_words.
  pose proof (utf_addr_range _ Hesp) as Hfr. pose proof (kin_root _ _ _ _ Hk) as Hroot. intros k b Hb. assert (Hlen : Z.of_nat k < 52) by (apply lookup_lt_Some in Hb; pose proof (fl_len _ _ _ _ _ _ _ Hf); unfold sizeof_UTrapframe in *; lia).
  assert (Ha : 0 <= frame + Z.of_nat k < UTOP) by (unfold sizeof_UTrapframe in *; clia). change (user_view (relock s') (frame + Z.of_nat k) = Some b). rewrite (user_view_ubyte _ _ _ _ _ Hk' Ha), Hr.
  change (mem (relock s')) with (mem s'). rewrite Hm, (ds_vmap _ _ _ (fl_step _ _ _ _ _ _ _ Hf)) by done.
  destruct (user_ok_vmap A s (kin_inv _ _ _ _ Hk) _ Hroot (PTE_W .| PTE_U) (frame + Z.of_nat k) Ha) as (w & Hv & Hp); [apply Hok; unfold sizeof_UTrapframe; lia|]. rewrite Hv.
  assert (Hmay : may false w = true).
  { unfold may, present, truth. assert (Hpp : w .& PTE_P = PTE_P /\ w .& PTE_U = PTE_U).
    { split; [change PTE_P with ((PTE_W .| PTE_U .| PTE_P) .& PTE_P) at 2|change PTE_U with ((PTE_W .| PTE_U .| PTE_P) .& PTE_U) at 2]; rewrite <- Hp, <- Z.land_assoc; done. }
    destruct Hpp as [-> ->]. done. }
  rewrite Hmay. pose proof (fl_holds _ _ _ _ _ _ _ Hf k b Hb) as Hh. rewrite Z.add_0_r in Hh. unfold ubyte in Hh. rewrite (ds_vmap _ _ _ (fl_step _ _ _ _ _ _ _ Hf)), Hv in Hh by done. rewrite Hh. f_equal. apply u8_small.
  rewrite utf_bytes_words in Hb. apply list_elem_of_lookup_2, list_elem_of_In, in_flat_map in Hb as (x & _ & Hb). apply list_elem_of_In in Hb. by apply bytes4_byte in Hb.
Qed.
End kernel.

(** The word the upcall pushes is not in the frame. *)
Lemma frame_apart esp : word esp -> esp <> UXSTACKTOP -> esp <= UTOP -> esp <= utf_addr esp \/ utf_addr esp + 52 <= esp - 4.
Proof.
  unfold word, utf_addr, sizeof_UTrapframe. intros Hw Hn Hu. destruct (Z.leb_spec (UXSTACKTOP - PGSIZE) esp), (Z.ltb_spec esp UXSTACKTOP); cbn [andb]; [rewrite u32_small by clia; lia|clia..].
Qed.

(** C7.  A page fault handled in user mode is transparent.  User code faults with the registers [tf] in an
    environment that has a handler and room on its exception stack.  The kernel goes back to user
    mode with the fault's description on that stack; from there the upcall enters the handler the
    variable names, with the description as its argument; and if the handler returns as the calling convention
    says and leaves the description and the word below the program's stack pointer writable, the
    program continues with every register as it was at the fault, the
    program counter and the flags included, and with the memory the handler has left, up to that
    word and the description itself.  This holds for a fault in the program and for a fault inside the handler. *)
Theorem page_fault_transparent A i e s inp tf :
  kin A i e s -> user_frame tf -> env_tf e = tf -> Forall word (utf_words (cr2 inp) tf) ->
  env_pgfault_upcall e <> 0 -> stack_ok e s tf -> tf_esp tf <> UXSTACKTOP ->
  let frame := utf_addr (tf_esp tf) in
  exists s' e', page_fault_handler inp tf s = UserMode s' /\ kin A i e' (relock s') /\
    r_eip (uregs (env_tf e')) = env_pgfault_upcall e /\ r_esp (uregs (env_tf e')) = frame /\ words_at (relock s') frame (utf_words (cr2 inp) tf) /\
    forall alu code handler_var after_call h,
      word h -> uword_at (relock s') handler_var h -> (handler_var + 4 <= frame - 8 \/ frame <= handler_var) -> buffer (relock s') (frame - 8) 8 ->
      exists u1 c1, touches (range (frame - 8) 8) (relock s') u1 /\ r_esp c1 = frame - 8 /\ uword_at u1 (r_esp c1 + 4) frame /\
        forall u2 c2, code h (u1, c1) = Ok tt (u2, c2) -> returned c1 c2 ->
          words_at u2 frame (utf_words (cr2 inp) tf) -> buffer u2 (frame + 48) 4 -> buffer u2 (tf_esp tf - 4) 4 ->
          exists u', pgfault_upcall alu code handler_var after_call (relock s', uregs (env_tf e')) = Ok tt (u', uregs tf) /\
            touches (fun a => range (frame + 48) 4 a \/ range (tf_esp tf - 4) 4 a) u2 u'.
Proof.
  intros Hk [Hcs Hesp _] Htf Hw Hup Hst Hne frame. destruct (page_fault_cases A i e s Hk inp tf ltac:(by rewrite Hcs) Hesp) as [(_ & _ & s' & Hs' & Hd)|[[?|?] _]]; [|done..].
  destruct (delivered_kin A i e s inp tf s' Hd) as (e' & Hk' & Hr & Htf'). pose proof (delivered_frame A i e s inp tf s' Hk Hesp Hst Hd Hw) as Hframe.
  pose proof (utf_addr_range _ Hesp) as Hfr. fold frame in Hfr, Hframe. exists s', e'. split; [done|]. split; [done|]. rewrite Htf'. split; [done|]. split; [done|]. split; [done|].
  intros alu code hv ret h Hh Hhv Hdis Hb. set (c := uregs _). destruct (upcall_ok alu code hv ret (relock s') c h (cr2 inp) tf) as (u1 & T1 & W1 & _ & Hrun).
  - change (r_esp c) with frame. unfold sizeof_UTrapframe in Hfr. clia.
  - exact Hb.
  - done.
  - done.
  - exact Hdis.
  - change (r_eflags c) with (tf_eflags (env_tf e)). by rewrite Htf.
  - exists u1, (entered h c). split; [done|]. split; [done|]. split; [change (r_esp (entered h c) + 4) with (frame - 8 + 4); by replace (frame - 8 + 4) with (frame - 4) by lia|].
    intros u2 c2 Ecode Hret Hws Hb48 Hbsp. assert (H0 : wr u2 (tf_esp tf - 4) /\ wr u2 (tf_esp tf - 1)) by (split; apply Hbsp; lia).
    destruct H0 as [(A1 & i1 & e1 & w1 & _ & Ha1 & _) (A2 & i2 & e2 & w2 & _ & Ha2 & _)]. apply (Hrun u2 c2 Ecode Hret Hws Hb48); [lia|done|]. apply frame_apart; [done|done|lia].
Qed.

Lemma delivered_roots A i e s inp tf s' : kin A i e s -> delivers A i e s inp tf s' -> roots (envs s') = roots (envs s).
Proof.
  intros Hk (s2 & Hf & _ & _ & _ & o & e2 & Hco & He2 & Hen). cbn [envs with_env set_envs] in *. rewrite lookup_insert_eq in He2. injection He2 as <-.
  pose proof (fl_step _ _ _ _ _ _ _ Hf) as Hds. assert (o = Some i) as ->.
  { destruct Hco as (p & Hp & Ho), (kin_cur _ _ _ _ Hk) as (p' & Hp' & Ho'). cbn [cpus cpunum with_env set_envs] in Hp. rewrite (ds_frame _ _ _ Hds) in Hp. cbn [cpus cpunum set_mem] in Hp. congruence. }
  rewrite Hen, (data_step_envs _ _ _ Hds). set (x := upcalled _ e). set (r := resumed _ x). assert (Hes : <[i := r]> (demote (<[i := x]> (envs s)) (Some i)) = <[i := r]> (envs s)).
  { unfold demote. rewrite lookup_insert_eq. destruct (_ =? _); by rewrite !insert_insert_eq. }
  rewrite Hes. apply (roots_same _ i e); [apply (kinv_range A s i e); apply Hk|apply Hk|]. split; [by rewrite (kin_live _ _ _ _ Hk)|done].
Qed.

(** The pages the program could write it still can when the handler starts. *)
Lemma delivered_wr A i e s inp tf s' a w :
  kin A i e s -> delivers A i e s inp tf s' -> 0 <= a < UTOP -> vmap (mem s) (root_of e) a = Some w -> may true w = true -> private s (root_of e) a -> wr (relock s') a.
Proof.
  intros Hk Hd Ha Hw Hm Hp. destruct (delivered_kin A i e s inp tf s' Hd) as (e' & Hk' & Hr & _), (delivered_mem A i e s inp tf s' Hd) as (s1 & Hmem & Hf).
  pose proof (kin_root _ _ _ _ Hk) as Hroot. pose proof (ds_vmap _ _ _ (fl_step _ _ _ _ _ _ _ Hf)) as Hv. exists A, i, e', w. rewrite Hr. change (mem (relock s')) with (mem s'). rewrite Hmem.
  split; [done|]. split; [done|]. split; [by rewrite Hv|]. split; [done|]. intros w1 d2 a2 w2 Hw1 Hd2 Ha2 Hw2 E. change (mem (relock s')) with (mem s') in *. rewrite Hmem in Hw1, Hw2.
  change (envs (relock s')) with (envs s') in Hd2. rewrite (delivered_roots A i e s inp tf s' Hk Hd) in Hd2. rewrite Hv in Hw1, Hw2 by done. by apply (Hp w1 d2 a2 w2).
Qed.

(** A fault inside the handler, with the machine of [KBig] *)
Definition kup_tf : Trapframe := mkTrapframe (mkPushRegs 1 2 3 0 4 5 6 7) 0 0 0 0 T_PGFLT 6 0x800020 0x1b 0 FL_IF (UXSTACKTOP - 256) 0 0.
Definition kup_in : trap_in := mkTrapIn false 0 0x801000 0.
Definition kup_page : kstate := after (usys_page_alloc 0 0 (UXSTACKTOP - PGSIZE) 7) kbig.
Definition kup_env : Env := set_env_tf kup_tf (set_env_pgfault_upcall 0x800040 kex_parent).
Definition kup : kstate := with_env 0 kup_env kup_page.

Lemma kup_maps : maps kbig_A kbig kup_page 1 (UXSTACKTOP - PGSIZE) 3 7.
Proof. apply kbig_alloc; [done|done|]. vm_compute. reflexivity. Qed.
#[local] Opaque kup_page.

Lemma kup_core : same_core kex_parent kup_env.
Proof. by vm_compute. Qed.
Lemma kup_kin : kin kbig_A 0 kup_env kup.
Proof.
  destruct kup_maps as (Hi & Hf & _). assert (Hk : kin kbig_A 0 kex_parent kup_page) by (apply (kin_frame kbig_A 0 kex_parent kbig); [exact kbig_kin|exact Hi|exact Hf]).
  exact (kin_self kbig_A 0 kex_parent kup_env kup_page Hk kup_core).
Qed.
Lemma mem_with_env i e s : mem (with_env i e s) = mem s.
Proof. done. Qed.
Lemma envs_with_env i e s : envs (with_env i e s) = <[i := e]> (envs s).
Proof. done. Qed.
Lemma kup_mem : mem kup = mem kup_page.
Proof. unfold kup. apply mem_with_env. Qed.
Lemma kup_roots : roots (envs kup) = roots (envs kbig).
Proof.
  destruct kup_maps as (_ & Hf & _). rewrite <- (vm_frame_envs _ _ Hf). unfold kup. rewrite envs_with_env. apply (roots_same _ 0 kex_parent kup_env); [split; [discriminate|reflexivity]|rewrite (vm_frame_envs _ _ Hf); exact kex_env0|exact kup_core].
Qed.
#[local] Opaque kup.

Lemma kup_wr a : a / 4096 = (UXSTACKTOP - PGSIZE) / 4096 -> 0 <= a < UTOP /\ vmap (mem kup) 1 a = Some (mkpte 3 7) /\ private kup 1 a.
Proof.
  intros Ha. assert (Hr : 0 <= a < UTOP) by (change ((UXSTACKTOP - PGSIZE) / 4096) with 977919 in Ha; change UTOP with (977920 * 4096); clear - Ha; dlia). split; [exact Hr|].
  destruct kup_maps as (Hi & Hf & Hm & Hs & Hkept). assert (Hv : forall x, x / 4096 = (UXSTACKTOP - PGSIZE) / 4096 -> 0 <= x < UTOP -> vmap (mem kup) 1 x = Some (mkpte 3 7)).
  { intros x Hx Hxr. rewrite kup_mem. rewrite (vmap_page_only _ _ (UXSTACKTOP - PGSIZE)); [exact Hm|split; [discriminate|reflexivity]|exact Hxr|exact Hx]. }
  split; [by apply Hv|]. intros w d2 a2 w2 Hw Hd2 Ha2 Hw2 E. rewrite (Hv a Ha Hr) in Hw. injection Hw as <-.
  destruct (decide (d2 = 1 /\ a2 / 4096 = (UXSTACKTOP - PGSIZE) / 4096)) as [[-> E2]|Hn]; [split; [reflexivity|congruence]|]. exfalso.
  rewrite kup_mem in Hw2. rewrite kup_roots in Hd2.
  rewrite (Hs d2 a2 Hd2 Ha2 Hn) in Hw2. change (mem kbig) with (∅ : memory) in Hw2. rewrite vmap_none in Hw2. discriminate Hw2.
Qed.

Lemma page_fault_transparent_witness : exists s' e' u',
  page_fault_handler kup_in kup_tf kup = UserMode s' /\
  pgfault_upcall (fun _ _ => 0) (fun _ => regs (fun c => set_r_esp (r_esp c + 4) c)) (utf_addr (UXSTACKTOP - 256)) 0 (relock s', uregs (env_tf e')) = Ok tt (u', uregs kup_tf).
Proof.
  assert (Hst : stack_ok kup_env kup kup_tf).
  { assert (H : forallb (user_ok kup 1 (PTE_W .| PTE_U)) (seqZ (utf_addr (UXSTACKTOP - 256)) 52) = true) by (vm_compute; reflexivity). rewrite forallb_forall in H.
    intros a Ha. apply H, list_elem_of_In, elem_of_seqZ. exact Ha. }
  assert (Hw : Forall word (utf_words (cr2 kup_in) kup_tf)) by (repeat constructor; vm_compute; congruence).
  destruct (page_fault_transparent kbig_A 0 kup_env kup kup_in kup_tf kup_kin) as (s' & e' & Hs' & Hk' & _ & Hesp & Hframe & H).
  - split; [reflexivity|split; [discriminate|reflexivity]|]. split_and!; split; (discriminate || reflexivity).
  - reflexivity.
  - exact Hw.
  - discriminate.
  - exact Hst.
  - discriminate.
  - assert (Hd : delivers kbig_A 0 kup_env kup kup_in kup_tf s').
    { destruct (page_fault_cases kbig_A 0 kup_env kup kup_kin kup_in kup_tf) as [(_ & _ & s1 & E & Hd)|[[E|E] _]]; [discriminate|split; [discriminate|reflexivity]|rewrite Hs' in E; injection E as <-; exact Hd|discriminate E|contradiction (E Hst)]. }
    assert (Hbuf : forall a n, (UXSTACKTOP - PGSIZE) <= a -> a + n <= UXSTACKTOP -> buffer (relock s') a n).
    { intros a n Ha Hn k Hkr. destruct (kup_wr k) as (Hr & Hv & Hp); [change ((UXSTACKTOP - PGSIZE) / 4096) with 977919; change (UXSTACKTOP - PGSIZE) with (977919 * 4096) in Ha; change UXSTACKTOP with (977920 * 4096) in Hn; clear - Ha Hn Hkr; dlia|].
      apply (delivered_wr kbig_A 0 kup_env kup kup_in kup_tf s' k (mkpte 3 7) kup_kin Hd Hr Hv); [reflexivity|exact Hp]. }
    change (tf_esp kup_tf) with (UXSTACKTOP - 256) in *. set (frame := utf_addr (UXSTACKTOP - 256)) in *. assert (Hfr : frame = UXSTACKTOP - 312) by reflexivity.
    destruct (words_at_lookup _ _ _ 0%nat _ Hframe eq_refl) as [Hh Hhv]. rewrite Z.add_0_r in Hhv.
    destruct (H (fun _ _ => 0) (fun _ => regs (fun c => set_r_esp (r_esp c + 4) c)) frame 0 _ Hh Hhv) as (u1 & c1 & T1 & Hc1 & _ & Hrun); [by right|apply Hbuf; rewrite Hfr; clia|].
    destruct (Hrun u1 (set_r_esp (r_esp c1 + 4) c1)) as (u' & E & _); [reflexivity|split; reflexivity| | | |exists s', e', u'; split; [exact Hs'|exact E]].
    + apply (words_at_touches _ _ _ _ _ T1); [intros k Hkr Hn; unfold range in Hn; lia|exact Hframe].
    + eapply buffer_touches; [exact T1|]. apply Hbuf; rewrite Hfr; clia.
    + eapply buffer_touches; [exact T1|]. apply Hbuf; clia.
Defined.
