(* ===== verification/Pipe.v ===== *)
(** * Pipe: one end writes, the other reads ([lib/pipe.c])

    A pipe is a page that the two ends share: two positions and a ring of 32 bytes.  The ends run on
    any CPUs and in any order, and nothing but the order of their accesses keeps them apart.  The
    loops of [devpipe_read] and [devpipe_write] are state machines with one access to the shared
    page per step.  The processors are x86: a store is first put into a queue of the processor
    that makes it, which reads its own stores from there, and reaches memory later, in order. *)

From S2P Require Import Prelude.

Definition PIPEBUFSIZ : Z := 32.
#[export] Hint Unfold PIPEBUFSIZ : cconst.

Record Pipe := mkPipe {
  p_rpos : Z;
  p_wpos : Z;
  p_buf : gmap Z Z;
}.

(** A store on its way to memory *)
Inductive pstore := StRpos (v : Z) | StWpos (v : Z) | StBuf (i b : Z).
Definition land (p : Pipe) (st : pstore) : Pipe :=
  match st with
  | StRpos v => mkPipe v (p_wpos p) (p_buf p)
  | StWpos v => mkPipe (p_rpos p) v (p_buf p)
  | StBuf i b => mkPipe (p_rpos p) (p_wpos p) (<[i := b]> (p_buf p))
  end.
(** The page as the processor with the queue [q] sees it *)
Definition seen (p : Pipe) (q : list pstore) : Pipe := foldl land p q.

(** Where an end is in its loop *)
Inductive wpc :=
  | WIdle                  (* not in devpipe_write *)
  | WTop                   (* i < n *)
  | WWait                  (* load p_wpos *)
  | WCmp (wpos : Z)        (* load p_rpos, compare *)
  | WFull                  (* _pipeisclosed, sys_yield *)
  | WPut                   (* store the byte *)
  | WInc.                  (* p_wpos++ *)
Inductive rpc :=
  | RIdle
  | RTop
  | RWait                  (* load p_rpos *)
  | RCmp (rpos : Z)        (* load p_wpos, compare *)
  | REmpty                 (* i > 0, _pipeisclosed, sys_yield *)
  | RTake                  (* load the byte *)
  | RInc.                  (* p_rpos++ *)

(** The pipe and its two ends.  [w_rest] are the bytes the call has still to write, [r_buf] the
    ones the call has read; [sent] and [got] are what all calls have written and read. *)
Record psys := mkpsys {
  page : Pipe;
  w_queue : list pstore; w_pc : wpc; w_rest : list Z; w_i : Z; w_ret : option Z; sent : list Z;
  r_queue : list pstore; r_pc : rpc; r_n : Z; r_buf : list Z; r_ret : option Z; got : list Z;
}.

(** ** The writer *)

(** [closed] is what [_pipeisclosed] says, if the step asks. *)
Definition set_w (s : psys) (q : list pstore) (pc : wpc) (rest : list Z) (i : Z) (ret : option Z) (snt : list Z) : psys :=
  mkpsys (page s) q pc rest i ret snt (r_queue s) (r_pc s) (r_n s) (r_buf s) (r_ret s) (got s).
Definition goto_w (s : psys) (pc : wpc) : psys := set_w s (w_queue s) pc (w_rest s) (w_i s) (w_ret s) (sent s).
Definition return_w (s : psys) (v : Z) : psys := set_w s (w_queue s) WIdle (w_rest s) (w_i s) (Some v) (sent s).

Definition devpipe_write (s : psys) (bs : list Z) : psys := set_w s (w_queue s) WTop bs 0 None (sent s).
Definition step_w (s : psys) (closed : bool) : psys :=
  let p := seen (page s) (w_queue s) in
  match w_pc s with
  | WIdle => s
  | WTop => match w_rest s with [] => return_w s (w_i s) | _ => goto_w s WWait end
  | WWait => goto_w s (WCmp (p_wpos p))
  | WCmp wpos => goto_w s (if u32 (p_rpos p + PIPEBUFSIZ) <=? u32 wpos then WFull else WPut)
  | WFull => if closed then return_w s 0 else goto_w s WWait
  | WPut =>
      match w_rest s with
      | [] => s
      | b :: _ => set_w s (w_queue s ++ [StBuf (Z.rem (p_wpos p) PIPEBUFSIZ) b]) WInc (w_rest s) (w_i s) (w_ret s) (sent s)
      end
  | WInc =>
      match w_rest s with
      | [] => s
      | b :: rest => set_w s (w_queue s ++ [StWpos (i32 (p_wpos p + 1))]) WTop rest (w_i s + 1) (w_ret s) (sent s ++ [b])
      end
  end.

(** ** The reader *)

Definition set_r (s : psys) (q : list pstore) (pc : rpc) (n : Z) (bs : list Z) (ret : option Z) (gt : list Z) : psys :=
  mkpsys (page s) (w_queue s) (w_pc s) (w_rest s) (w_i s) (w_ret s) (sent s) q pc n bs ret gt.
Definition goto_r (s : psys) (pc : rpc) : psys := set_r s (r_queue s) pc (r_n s) (r_buf s) (r_ret s) (got s).
Definition return_r (s : psys) (v : Z) : psys := set_r s (r_queue s) RIdle (r_n s) (r_buf s) (Some v) (got s).

Definition devpipe_read (s : psys) (n : Z) : psys := set_r s (r_queue s) RTop n [] None (got s).
Definition step_r (s : psys) (closed : bool) : psys :=
  let p := seen (page s) (r_queue s) in
  let i := Z.of_nat (length (r_buf s)) in
  match r_pc s with
  | RIdle => s
  | RTop => if i <? r_n s then goto_r s RWait else return_r s i
  | RWait => goto_r s (RCmp (p_rpos p))
  | RCmp rpos => goto_r s (if rpos =? p_wpos p then REmpty else RTake)
  | REmpty => if 0 <? i then return_r s i else if closed then return_r s 0 else goto_r s RWait
  | RTake =>
      let b := default 0 (p_buf p !! Z.rem (p_rpos p) PIPEBUFSIZ) in
      set_r s (r_queue s) RInc (r_n s) (r_buf s ++ [b]) (r_ret s) (got s ++ [b])
  | RInc => set_r s (r_queue s ++ [StRpos (i32 (p_rpos p + 1))]) RTop (r_n s) (r_buf s) (r_ret s) (got s)
  end.

(** ** Interleavings *)

Definition landed_w (s : psys) (st : pstore) (q : list pstore) : psys :=
  mkpsys (land (page s) st) q (w_pc s) (w_rest s) (w_i s) (w_ret s) (sent s) (r_queue s) (r_pc s) (r_n s) (r_buf s) (r_ret s) (got s).
Definition landed_r (s : psys) (st : pstore) (q : list pstore) : psys :=
  mkpsys (land (page s) st) (w_queue s) (w_pc s) (w_rest s) (w_i s) (w_ret s) (sent s) q (r_pc s) (r_n s) (r_buf s) (r_ret s) (got s).

Inductive pstep : psys -> psys -> Prop :=
  | start_write s bs : w_pc s = WIdle -> pstep s (devpipe_write s bs)
  | start_read s n : r_pc s = RIdle -> pstep s (devpipe_read s n)
  | run_write s closed : pstep s (step_w s closed)
  | run_read s closed : pstep s (step_r s closed)
  | land_write s st q : w_queue s = st :: q -> pstep s (landed_w s st q)
  | land_read s st q : r_queue s = st :: q -> pstep s (landed_r s st q).

(** The page is zero when [pipe] has allocated it. *)
Definition new_pipe : psys := mkpsys (mkPipe 0 0 ∅) [] WIdle [] 0 None [] [] RIdle 0 [] None [].
