(* ===== verification/PipeThms.v ===== *)
(** * PipeThms: a pipe is a queue

    Whatever the order in which the two ends run and their stores reach memory, the bytes that
    are read are the bytes that were written, in order, and at most 32 of them wait. *)

From S2P Require Import Prelude Pipe.

(** ** Stores under way *)

Lemma seen_app p q1 q2 : seen p (q1 ++ q2) = seen (seen p q1) q2.
Proof. apply foldl_app. Qed.
Lemma seen_wpos p p' q : p_wpos p = p_wpos p' -> p_wpos (seen p q) = p_wpos (seen p' q).
Proof. revert p p'. induction q as [|st q IH]; intros p p' H; [done|]. apply IH. by destruct st. Qed.
Lemma seen_rpos p p' q : p_rpos p = p_rpos p' -> p_rpos (seen p q) = p_rpos (seen p' q).
Proof. revert p p'. induction q as [|st q IH]; intros p p' H; [done|]. apply IH. by destruct st. Qed.

Definition is_rpos (st : pstore) : bool := match st with StRpos _ => true | _ => false end.
Lemma seen_no_rpos p q : Forall (fun st => is_rpos st = false) q -> p_rpos (seen p q) = p_rpos p.
Proof. revert p. induction q as [|st q IH]; intros p H; [done|]. apply Forall_cons in H as [H1 H2]. cbn. etransitivity; [by apply IH|]. by destruct st. Qed.
Lemma seen_only_rpos p q : Forall (fun st => is_rpos st = true) q -> p_wpos (seen p q) = p_wpos p /\ p_buf (seen p q) = p_buf p.
Proof. revert p. induction q as [|st q IH]; intros p H; [done|]. apply Forall_cons in H as [H1 H2]. cbn. destruct st; try done. by apply (IH (land p (StRpos v))). Qed.

(** The bytes up to the one the writer is storing *)
Definition all (s : psys) : list Z := match w_pc s, w_rest s with WInc, b :: _ => sent s ++ [b] | _, _ => sent s end.
(** How far the reader has come *)
Definition rtaken (s : psys) : Z := Z.of_nat (length (got s)) - match r_pc s with RInc => 1 | _ => 0 end.
Notation zlen l := (Z.of_nat (length l)).
Definition byte_at (l : list Z) (k : Z) : Z := default 0 (l !! Z.to_nat k).

(** The stores from position [m] on: the byte and, once it is counted, the position behind it *)
Definition stores_at (bs : list Z) (counted k : Z) : list pstore :=
  StBuf (k mod PIPEBUFSIZ) (byte_at bs k) :: if k <? counted then [StWpos (k + 1)] else [].
Definition stores_from (bs : list Z) (counted m : Z) : list pstore := flat_map (stores_at bs counted) (seqZ m (zlen bs - m)).

Lemma stores_from_cons bs c m : m < zlen bs -> stores_from bs c m = stores_at bs c m ++ stores_from bs c (m + 1).
Proof. intros Hm. unfold stores_from. rewrite seqZ_cons by lia. cbn [flat_map]. do 3 f_equal. lia. Qed.
Lemma stores_from_nil bs c m : zlen bs <= m -> stores_from bs c m = [].
Proof. intros Hm. unfold stores_from. by rewrite seqZ_nil by lia. Qed.

Lemma byte_at_app bs b k : 0 <= k < zlen bs -> byte_at (bs ++ [b]) k = byte_at bs k.
Proof. intros Hk. unfold byte_at. by rewrite lookup_app_l by lia. Qed.
Lemma byte_at_last bs b : byte_at (bs ++ [b]) (zlen bs) = b.
Proof. unfold byte_at. by rewrite Nat2Z.id, list_lookup_middle. Qed.

Lemma flat_map_ext_in {A B} (f g : A -> list B) l : (forall x, x ∈ l -> f x = g x) -> flat_map f l = flat_map g l.
Proof. induction l as [|x l IH]; intros H; [done|]. cbn. rewrite (H x) by left. f_equal. apply IH. intros y Hy. apply H. by right. Qed.

(** A byte is stored; then it is counted. *)
Lemma stores_from_put bs b m : 0 <= m <= zlen bs ->
  stores_from (bs ++ [b]) (zlen bs) m = stores_from bs (zlen bs) m ++ [StBuf (zlen bs mod PIPEBUFSIZ) b].
Proof.
  intros Hm. unfold stores_from. rewrite length_app. cbn [length]. replace (Z.of_nat (length bs + 1) - m) with ((zlen bs - m) + 1) by lia.
  rewrite seqZ_app by lia. rewrite flat_map_app. f_equal.
  - apply flat_map_ext_in. intros k Hk%elem_of_seqZ. unfold stores_at. by rewrite byte_at_app by lia.
  - replace (m + (zlen bs - m)) with (zlen bs) by lia. rewrite seqZ_cons, seqZ_nil by lia. cbn [flat_map]. unfold stores_at. by rewrite byte_at_last, Z.ltb_irrefl.
Qed.
Lemma stores_from_inc bs m : 0 <= m < zlen bs -> stores_from bs (zlen bs) m = stores_from bs (zlen bs - 1) m ++ [StWpos (zlen bs)].
Proof.
  intros Hm. unfold stores_from. replace (zlen bs - m) with ((zlen bs - 1 - m) + 1) by lia. rewrite seqZ_app by lia. rewrite !flat_map_app, <- app_assoc. f_equal.
  - apply flat_map_ext_in. intros k Hk%elem_of_seqZ. unfold stores_at. by rewrite !(proj2 (Z.ltb_lt _ _)) by lia.
  - replace (m + (zlen bs - 1 - m)) with (zlen bs - 1) by lia. rewrite seqZ_cons, seqZ_nil by lia. cbn [flat_map]. unfold stores_at. rewrite Z.ltb_irrefl, (proj2 (Z.ltb_lt _ _)) by lia. rewrite !app_nil_r. cbn [app]. do 3 f_equal. lia.
Qed.
Lemma stores_from_kind bs c m : Forall (fun st => is_rpos st = false) (stores_from bs c m).
Proof.
  apply Forall_forall. intros st Hst. apply list_elem_of_In, in_flat_map in Hst as (k & _ & Hst). unfold stores_at in Hst. destruct (k <? c); cbn in Hst; naive_solver.
Qed.

(** ** The invariant *)

(** Memory counts [m] bytes; with [d] = 1 the next one is in memory as well. *)
Record pinv (m : Z) (d : nat) (s : psys) : Prop := {
  pp_m : p_wpos (page s) = m;
  pp_range : 0 <= m <= zlen (sent s);
  pp_taken : 0 <= rtaken s;
  pp_room : zlen (all s) <= rtaken s + 32;
  pp_queue : w_queue s = drop d (stores_from (all s) (zlen (sent s)) m);
  pp_d : d = 0%nat \/ d = 1%nat /\ m < zlen (all s) /\ p_buf (page s) !! (m mod 32) = Some (byte_at (all s) m);
  pp_data : forall k, rtaken s <= k < m -> p_buf (page s) !! (k mod 32) = Some (byte_at (all s) k);
  pp_wview : p_wpos (seen (page s) (w_queue s)) = zlen (sent s);
  pp_rview : p_rpos (seen (page s) (r_queue s)) = rtaken s;
  pp_rqueue : Forall (fun st => is_rpos st = true) (r_queue s);
  pp_rold : 0 <= p_rpos (page s) <= rtaken s /\ forall v, StRpos v ∈ r_queue s -> 0 <= v <= rtaken s;
  pp_got : forall k, 0 <= k < zlen (got s) -> byte_at (got s) k = byte_at (all s) k;
  pp_gotlen : zlen (got s) <= m;
  pp_wpc : match w_pc s with
           | WIdle | WTop => True
           | WCmp w => w = zlen (sent s) /\ w_rest s <> []
           | WPut => zlen (sent s) < rtaken s + 32 /\ w_rest s <> []
           | _ => w_rest s <> []
           end;
  pp_rpc : match r_pc s with RCmp r => r = rtaken s | RTake => rtaken s < m | _ => True end;
}.

Lemma new_pipe_inv : pinv 0 0 new_pipe.
Proof.
  split; try done; try (cbn; lia); try (intros k Hk; cbn in Hk; lia); try (by left).
  - intros k Hk. change (rtaken new_pipe) with 0 in Hk. lia.
  - change (rtaken new_pipe) with 0. split; [cbn; lia|]. intros v []%elem_of_nil.
Qed.

Lemma all_sent s : w_pc s <> WInc -> all s = sent s.
Proof. unfold all. by destruct (w_pc s). Qed.

(** The writer goes on without a store. *)
Lemma pinv_goto_w m d s pc : pinv m d s -> w_pc s <> WInc -> pc <> WInc ->
  match pc with
  | WIdle | WTop => True
  | WCmp w => w = zlen (sent s) /\ w_rest s <> []
  | WPut => zlen (sent s) < rtaken s + 32 /\ w_rest s <> []
  | _ => w_rest s <> []
  end -> forall i ret, pinv m d (set_w s (w_queue s) pc (w_rest s) i ret (sent s)).
Proof.
  intros I Hn Hpc Hok i ret. assert (E : all (set_w s (w_queue s) pc (w_rest s) i ret (sent s)) = all s) by (rewrite !all_sent by done; done).
  destruct I. split; cbn [page w_queue w_pc w_rest sent r_queue r_pc got set_w]; rewrite ?E; try done.
Qed.
Lemma pinv_goto_r m d s pc n bs ret : pinv m d s -> r_pc s <> RInc -> pc <> RInc ->
  match pc with RCmp r => r = rtaken s | RTake => rtaken s < m | _ => True end -> pinv m d (set_r s (r_queue s) pc n bs ret (got s)).
Proof.
  intros I Hn Hpc Hok. assert (E : rtaken (set_r s (r_queue s) pc n bs ret (got s)) = rtaken s) by (unfold rtaken; cbn; destruct (r_pc s), pc; done).
  destruct I. split; cbn [page w_queue w_pc w_rest sent r_queue r_pc got set_r]; rewrite ?E; try done.
Qed.

Section steps.
Context (m : Z) (d : nat) (s : psys) (I : pinv m d s).
Hypothesis Hmax : zlen (sent s) < 2^31 - 64.

Lemma queue_length : (d <= length (stores_from (all s) (zlen (sent s)) m))%nat.
Proof.
  destruct (pp_d _ _ _ I) as [->|(-> & Hm & _)]; [lia|]. rewrite stores_from_cons by done. unfold stores_at. cbn [app length]. lia.
Qed.

Lemma w_rpos : p_rpos (seen (page s) (w_queue s)) = p_rpos (page s).
Proof. apply seen_no_rpos. rewrite (pp_queue _ _ _ I). apply Forall_drop, stores_from_kind. Qed.

(** The writer stores a byte. *)
Lemma step_put b rest : w_pc s = WPut -> w_rest s = b :: rest ->
  pinv m d (set_w s (w_queue s ++ [StBuf (zlen (sent s) mod 32) b]) WInc (w_rest s) (w_i s) (w_ret s) (sent s)).
Proof.
  intros Hpc Hrest. set (s' := set_w _ _ _ _ _ _ _). assert (Ha : all s = sent s) by (apply all_sent; by rewrite Hpc). assert (Ha' : all s' = sent s ++ [b]) by (unfold all, s'; cbn; by rewrite Hrest).
  pose proof (pp_range _ _ _ I) as Hr. pose proof (pp_gotlen _ _ _ I) as Hg. pose proof (pp_taken _ _ _ I) as Ht. pose proof (pp_wpc _ _ _ I) as Hw. rewrite Hpc in Hw. destruct Hw as [Hw _]. pose proof queue_length as Hq. rewrite Ha in Hq.
  assert (Hext : forall k, 0 <= k < zlen (sent s) -> byte_at (all s') k = byte_at (all s) k) by (intros k Hk; rewrite Ha, Ha'; by apply byte_at_app).
  destruct I as [I1 I2 I3 I4 I5 I6 I7 I8 I9 I10 I11 I12 I13 I14 I15]. split; try done.
  - change (rtaken s') with (rtaken s). rewrite Ha', length_app. cbn [length]. lia.
  - rewrite Ha'. change (sent s') with (sent s). rewrite stores_from_put by done. rewrite drop_app_le by done. cbn [w_queue s' set_w]. by rewrite I5, Ha.
  - destruct I6 as [?|(-> & Hlt & Hb)]; [by left|right]. split; [done|]. rewrite Ha in Hlt. split; [rewrite Ha', length_app; cbn [length]; lia|]. change (page s') with (page s). rewrite Hb, Hext; [done|lia].
  - intros k Hk. change (rtaken s') with (rtaken s) in Hk. change (page s') with (page s). rewrite I7, Hext; [done|lia|lia].
  - cbn [w_queue s' set_w]. change (page s') with (page s). rewrite seen_app. exact I8.
  - intros k Hk. change (got s') with (got s) in *. rewrite I12, Hext; [done|lia|lia].
  - cbn [w_pc w_rest s' set_w]. by rewrite Hrest.
Qed.

(** The writer counts it. *)
Lemma step_inc b rest : w_pc s = WInc -> w_rest s = b :: rest ->
  pinv m d (set_w s (w_queue s ++ [StWpos (zlen (sent s) + 1)]) WTop rest (w_i s + 1) (w_ret s) (sent s ++ [b])).
Proof.
  intros Hpc Hrest. set (s' := set_w _ _ _ _ _ _ _). assert (Ha : all s = sent s ++ [b]) by (unfold all; by rewrite Hpc, Hrest). assert (Ha' : all s' = sent s ++ [b]) by done.
  pose proof (pp_range _ _ _ I) as Hr. pose proof queue_length as Hq. rewrite Ha in Hq.
  assert (Hlen : zlen (sent s ++ [b]) = zlen (sent s) + 1) by (rewrite length_app; cbn [length]; lia).
  destruct I as [I1 I2 I3 I4 I5 I6 I7 I8 I9 I10 I11 I12 I13 I14 I15]. rewrite Ha in *. split; rewrite ?Ha'; try done.
  - change (sent s') with (sent s ++ [b]). lia.
  - change (sent s') with (sent s ++ [b]). rewrite stores_from_inc by lia. rewrite Hlen. replace (zlen (sent s) + 1 - 1) with (zlen (sent s)) by lia. rewrite drop_app_le by done. cbn [w_queue s' set_w]. by rewrite I5.
  - cbn [w_queue s' set_w]. change (page s') with (page s). rewrite seen_app. change (sent s') with (sent s ++ [b]). by rewrite Hlen.
Qed.

Lemma all_length : zlen (sent s) <= zlen (all s) <= zlen (sent s) + 1.
Proof. unfold all. destruct (w_pc s), (w_rest s); rewrite ?length_app; cbn [length]; lia. Qed.

(** The reader takes a byte. *)
Lemma step_take n bs ret : r_pc s = RTake ->
  let b := default 0 (p_buf (seen (page s) (r_queue s)) !! (rtaken s mod 32)) in
  b = byte_at (all s) (rtaken s) /\ pinv m d (set_r s (r_queue s) RInc n bs ret (got s ++ [b])).
Proof.
  intros Hpc b. pose proof (pp_rpc _ _ _ I) as Hr. rewrite Hpc in Hr. assert (Ht : rtaken s = zlen (got s)) by (unfold rtaken; rewrite Hpc; lia). pose proof (pp_taken _ _ _ I) as H0.
  assert (Hb : b = byte_at (all s) (rtaken s)).
  { unfold b. rewrite (proj2 (seen_only_rpos _ _ (pp_rqueue _ _ _ I))), (pp_data _ _ _ I) by lia. done. }
  split; [done|]. clearbody b. set (s' := set_r _ _ _ _ _ _ _). assert (Et : rtaken s' = rtaken s) by (rewrite Ht; unfold rtaken, s'; cbn [r_pc got set_r]; rewrite length_app; cbn [length]; lia).
  destruct I. split; rewrite ?Et; try done.
  - intros k Hk. cbn [got s' set_r] in *. rewrite length_app in Hk. cbn [length] in Hk. change (all s') with (all s). destruct (decide (k = zlen (got s))) as [->|Hne].
    + rewrite byte_at_last, Hb. by rewrite Ht.
    + rewrite byte_at_app by lia. apply pp_got0. lia.
  - cbn [got s' set_r]. rewrite length_app. cbn [length]. lia.
Qed.

(** The reader gives its place back. *)
Lemma step_give n bs ret : r_pc s = RInc -> pinv m d (set_r s (r_queue s ++ [StRpos (rtaken s + 1)]) RTop n bs ret (got s)).
Proof.
  intros Hpc. assert (Ht : rtaken s = zlen (got s) - 1) by (unfold rtaken; by rewrite Hpc). set (s' := set_r _ _ _ _ _ _ _). assert (Et : rtaken s' = rtaken s + 1) by (rewrite Ht; unfold rtaken, s'; cbn; lia).
  destruct I. split; rewrite ?Et; try done; cbn [page r_queue s' set_r]; try lia.
  - change (all s') with (all s). lia.
  - intros k Hk. apply pp_data0. lia.
  - by rewrite seen_app.
  - apply Forall_app. split; [done|]. by repeat constructor.
  - destruct pp_rold0 as [H1 H2]. split; [lia|]. intros v [Hv|Hv%list_elem_of_singleton]%elem_of_app; [specialize (H2 v Hv); lia|]. injection Hv as ->. lia.
  - change (w_pc s') with (w_pc s). change (w_rest s') with (w_rest s). change (sent s') with (sent s). destruct (w_pc s); try done. destruct pp_wpc0. split; [lia|done].
Qed.

(** The reader's position reaches memory. *)
Lemma step_land_r st q : r_queue s = st :: q -> pinv m d (landed_r s st q).
Proof.
  intros Hq. assert (Hst : exists v, st = StRpos v) by (pose proof (pp_rqueue _ _ _ I) as H; rewrite Hq in H; apply Forall_cons in H as [H _]; destruct st; try done; by eexists).
  destruct Hst as [v ->]. set (s' := landed_r _ _ _). assert (Et : rtaken s' = rtaken s) by done. assert (Ea : all s' = all s) by done.
  destruct I. split; rewrite ?Et, ?Ea; try done.
  - etransitivity; [|exact pp_wview0]. by apply seen_wpos.
  - etransitivity; [|exact pp_rview0]. by rewrite Hq.
  - rewrite Hq in pp_rqueue0. by apply Forall_cons in pp_rqueue0 as [_ ?].
  - destruct pp_rold0 as [H1 H2]. rewrite Hq in H2. split; [apply (H2 v); by left|]. intros v' Hv'. apply H2. by right.
Qed.

Lemma slot_neq k : rtaken s <= k < m -> m < zlen (all s) -> m mod 32 <> k mod 32.
Proof. intros Hk Hm. pose proof (pp_room _ _ _ I). pose proof (pp_taken _ _ _ I). intros E. Z.div_mod_to_equations. lia. Qed.

(** A store of the writer reaches memory: a byte or the position behind it. *)
Lemma step_land_buf st q : d = 0%nat -> w_queue s = st :: q -> pinv m 1 (landed_w s st q).
Proof.
  intros Hd Hq. pose proof (pp_queue _ _ _ I) as Hs. rewrite Hq, Hd, drop_0 in Hs. assert (Hm : m < zlen (all s)) by (destruct (decide (m < zlen (all s))) as [?|Hge]; [done|]; by rewrite stores_from_nil in Hs by lia).
  pose proof Hs as Hs'. rewrite stores_from_cons in Hs' by done. unfold stores_at in Hs'. cbn [app] in Hs'. injection Hs' as Hst _. set (s' := landed_w _ _ _). assert (Et : rtaken s' = rtaken s) by done. assert (Ea : all s' = all s) by done.
  pose proof slot_neq as Hne. destruct I. split; rewrite ?Et, ?Ea; try done; cbn [page w_queue r_queue s' landed_w sent]; rewrite ?Hst; cbn [land p_wpos p_rpos p_buf]; try done.
  - by rewrite <- Hs.
  - right. split_and!; [done..|]. by rewrite lookup_insert_eq.
  - intros k Hk. rewrite lookup_insert_ne by (by apply Hne). by apply pp_data0.
  - etransitivity; [|exact pp_wview0]. by rewrite Hq, Hst.
  - etransitivity; [|exact pp_rview0]. by apply seen_rpos.
Qed.
Lemma step_land_wpos st q : d = 1%nat -> w_queue s = st :: q -> pinv (m + 1) 0 (landed_w s st q).
Proof.
  intros Hd Hq. destruct (pp_d _ _ _ I) as [?|(_ & Hm & Hb)]; [congruence|]. pose proof (pp_queue _ _ _ I) as Hs. rewrite Hq, Hd, stores_from_cons in Hs by done. unfold stores_at in Hs. cbn [app drop] in Hs. pose proof all_length as Hlen.
  destruct (m <? zlen (sent s)) eqn:Ec; [|rewrite stores_from_nil in Hs by lia; done]. cbn [app] in Hs. injection Hs as Hst Hq'. set (s' := landed_w _ _ _). assert (Et : rtaken s' = rtaken s) by done. assert (Ea : all s' = all s) by done.
  destruct I. split; rewrite ?Et, ?Ea; try done; cbn [page w_queue r_queue s' landed_w sent got]; rewrite ?Hst; cbn [land p_wpos p_rpos p_buf]; try done; try lia.
  - intros k Hk. destruct (decide (k = m)) as [->|]; [done|]. apply pp_data0. lia.
  - etransitivity; [|exact pp_wview0]. by rewrite Hq, Hst.
  - etransitivity; [|exact pp_rview0]. by apply seen_rpos.
  - unfold s'. cbn [landed_w r_pc]. destruct (r_pc s); try done. lia.
Qed.
End steps.

(** ** Every interleaving *)

Definition room : Z := 2^31 - 64.

Lemma step_w_inv m d s closed : pinv m d s -> zlen (sent (step_w s closed)) < room -> pinv m d (step_w s closed).
Proof.
  intros I Hmax. unfold room in Hmax. pose proof (pp_wpc _ _ _ I) as Hw. pose proof (pp_wview _ _ _ I) as Hv. pose proof (pp_rold _ _ _ I) as [Hr _]. pose proof (pp_gotlen _ _ _ I). pose proof (pp_range _ _ _ I).
  assert (Ht : rtaken s <= zlen (got s)) by (unfold rtaken; destruct (r_pc s); lia). revert Hmax. unfold step_w. rewrite Hv, (w_rpos _ _ _ I).
  destruct (w_pc s) as [| | |wpos| | |] eqn:Epc; [done| | | | | |]; cbn zeta.
  - destruct (w_rest s) as [|b rest] eqn:Er; intros _; (apply pinv_goto_w; [done|by rewrite Epc|done|]); by rewrite ?Er.
  - intros _. apply pinv_goto_w; by rewrite ?Epc.
  - intros Hmax. cbn [sent goto_w set_w] in Hmax. apply pinv_goto_w; [done|by rewrite Epc|by case_match|]. destruct Hw as [-> Hne].
    autounfold with cconst. rewrite !u32_small by lia. destruct (Z.leb_spec (p_rpos (page s) + 32) (zlen (sent s))); [done|]. split; [lia|done].
  - intros _. destruct closed; apply pinv_goto_w; by rewrite ?Epc.
  - destruct Hw as [Hw Hne]. destruct (w_rest s) as [|b rest] eqn:Er; [done|]. intros Hmax. rewrite <- Er. autounfold with cconst. rewrite Z.rem_mod_nonneg by lia. by eapply step_put.
  - destruct (w_rest s) as [|b rest] eqn:Er; [done|]. intros Hmax. cbn [sent set_w] in Hmax. rewrite length_app in Hmax. cbn [length] in Hmax. rewrite i32_small by lia. by eapply step_inc.
Qed.

Lemma step_r_inv m d s closed : pinv m d s -> zlen (sent s) < room -> pinv m d (step_r s closed).
Proof.
  intros I Hmax. unfold room in Hmax. pose proof (pp_rpc _ _ _ I) as Hr. pose proof (pp_rview _ _ _ I) as Hv. pose proof (pp_gotlen _ _ _ I). pose proof (pp_range _ _ _ I). pose proof (pp_taken _ _ _ I).
  assert (Ht : rtaken s <= zlen (got s)) by (unfold rtaken; destruct (r_pc s); lia). unfold step_r. rewrite Hv, (proj1 (seen_only_rpos _ _ (pp_rqueue _ _ _ I))), (pp_m _ _ _ I).
  destruct (r_pc s) as [| | |rpos| | |] eqn:Epc; [done| | | | | |]; cbn zeta.
  - case_match; (apply pinv_goto_r; [done|by rewrite Epc|done|done]).
  - apply pinv_goto_r; by rewrite ?Epc.
  - subst rpos. apply pinv_goto_r; [done|by rewrite Epc|by case_match|]. assert (rtaken s = zlen (got s)) by (unfold rtaken; rewrite Epc; lia). destruct (Z.eqb_spec (rtaken s) m); [done|lia].
  - repeat case_match; (apply pinv_goto_r; [done|by rewrite Epc|done|done]).
  - autounfold with cconst. rewrite Z.rem_mod_nonneg by lia. by apply step_take.
  - rewrite i32_small by lia. by apply step_give.
Qed.

Lemma sent_grows s s' : pstep s s' -> zlen (sent s) <= zlen (sent s').
Proof.
  intros H. destruct H as [| |s closed|s closed| |]; try (cbn; lia).
  - unfold step_w. destruct (w_pc s), (w_rest s), closed; cbn; rewrite ?length_app; cbn; lia.
  - unfold step_r. destruct (r_pc s); repeat case_match; cbn; lia.
Qed.

Lemma pstep_inv m d s s' : pinv m d s -> pstep s s' -> zlen (sent s') < room -> exists m' d', pinv m' d' s'.
Proof.
  intros I H Hmax. pose proof (sent_grows _ _ H) as Hg. destruct H as [s bs Hpc|s n Hpc|s closed|s closed|s st q Hq|s st q Hq].
  - exists m, d. set (s' := devpipe_write s bs). assert (Ea : all s' = all s) by (rewrite !all_sent; [done|by rewrite Hpc|done]). destruct I. split; rewrite ?Ea; done.
  - exists m, d. apply pinv_goto_r; by rewrite ?Hpc.
  - exists m, d. by apply step_w_inv.
  - exists m, d. apply step_r_inv; [done|lia].
  - destruct (pp_d _ _ _ I) as [Hd|(Hd & _)]; [exists m, 1%nat; by eapply step_land_buf|exists (m + 1), 0%nat; by eapply step_land_wpos].
  - exists m, d. by apply step_land_r.
Qed.

(** What the calls return *)
Record pret (s : psys) : Prop := {
  pr_buf : r_buf s `suffix_of` got s;
  pr_ret : forall v, r_ret s = Some v -> r_pc s = RIdle /\ v = zlen (r_buf s);
  pr_w : forall v, w_ret s = Some v -> w_pc s = WIdle /\ (v = 0 \/ v = w_i s /\ w_rest s = []);
}.
Lemma pstep_ret s s' : pret s -> pstep s s' -> pret s'.
Proof.
  intros [R1 R2 R3] H. destruct H as [s bs Hpc|s n Hpc|s closed|s closed|s st q Hq|s st q Hq]; try (by split).
  - split; [apply suffix_nil|done|done].
  - unfold step_w. destruct (w_pc s) eqn:Epc; [by split; rewrite ?Epc| | | | | |]; (assert (Hn : w_ret s = None) by (destruct (w_ret s) as [v|]; [destruct (R3 v eq_refl) as [[=] _]|done]));
      destruct (w_rest s) as [|b rest] eqn:Er, closed; split; try done; cbn [goto_w return_w set_w w_ret w_pc w_i w_rest]; rewrite ?Hn; try done; naive_solver.
  - unfold step_r. destruct (r_pc s) eqn:Epc; [by split; rewrite ?Epc| | | | | |]; (assert (Hn : r_ret s = None) by (destruct (r_ret s) as [v|]; [destruct (R2 v eq_refl) as [[=] _]|done]));
      repeat case_match; split; try done; cbn [goto_r return_r set_r r_ret r_pc r_buf got]; rewrite ?Hn; try done; try naive_solver.
    + intros v [= <-]. split; [done|lia].
    + destruct R1 as [k E]. exists k. by rewrite E, app_assoc.
Qed.

Lemma reach_inv s : rtc pstep new_pipe s -> pret s /\ (zlen (sent s) < room -> exists m d, pinv m d s).
Proof.
  revert s. apply (rtc_ind_r (fun s => pret s /\ (zlen (sent s) < room -> exists m d, pinv m d s))); [|intros s s' _ Hst [R IH]].
  - split; [split; [done|by intros v|by intros v]|]. intros _. exists 0, 0%nat. apply new_pipe_inv.
  - split; [by eapply pstep_ret|]. intros Hmax. destruct IH as (m & d & I); [apply sent_grows in Hst; lia|]. by eapply pstep_inv.
Qed.

Lemma pinv_prefix m d s : pinv m d s -> exists waiting, sent s = got s ++ waiting /\ zlen waiting <= PIPEBUFSIZ.
Proof.
  intros I. pose proof (pp_got _ _ _ I) as Hg. pose proof (pp_gotlen _ _ _ I). pose proof (pp_range _ _ _ I). pose proof (pp_room _ _ _ I) as Hroom. pose proof (all_length s) as Ha.
  assert (Ht : rtaken s <= zlen (got s)) by (unfold rtaken; destruct (r_pc s); lia).
  assert (Hs : forall k, 0 <= k < zlen (sent s) -> byte_at (all s) k = byte_at (sent s) k).
  { intros k Hk. unfold all. destruct (w_pc s), (w_rest s); try done. by apply byte_at_app. }
  exists (drop (length (got s)) (sent s)). split; [|rewrite length_drop; autounfold with cconst; lia].
  rewrite <- (take_drop (length (got s)) (sent s)) at 1. f_equal. apply list_eq. intros i. destruct (decide (i < length (got s))%nat) as [Hi|Hi].
  - rewrite lookup_take_lt by done. specialize (Hg (Z.of_nat i) ltac:(lia)). rewrite Hs in Hg by lia. unfold byte_at in Hg. rewrite Nat2Z.id in Hg.
    destruct (lookup_lt_is_Some_2 (got s) i Hi) as [x Ex]. destruct (lookup_lt_is_Some_2 (sent s) i ltac:(lia)) as [y Ey]. rewrite Ex, Ey in *. cbn in Hg. congruence.
  - rewrite !lookup_ge_None_2; [done|lia|rewrite length_take; lia].
Qed.


(** A run given by its choices *)
Inductive pmove := DoWrite (bs : list Z) | DoRead (n : Z) | StepW | StepR | LandW | LandR.
Definition choose (s : psys) (c : pmove) : psys :=
  match c with
  | DoWrite bs => match w_pc s with WIdle => devpipe_write s bs | _ => s end
  | DoRead n => match r_pc s with RIdle => devpipe_read s n | _ => s end
  | StepW => step_w s false
  | StepR => step_r s false
  | LandW => match w_queue s with st :: q => landed_w s st q | [] => s end
  | LandR => match r_queue s with st :: q => landed_r s st q | [] => s end
  end.
Lemma choose_steps s c : rtc pstep s (choose s c).
Proof. destruct c; cbn; try case_match; try done; apply rtc_once; by constructor. Qed.
Lemma foldl_steps cs s : rtc pstep s (foldl choose s cs).
Proof. revert s. induction cs as [|c cs IH]; intros s; [done|]. etransitivity; [apply choose_steps|apply IH]. Qed.

Definition ex_run : list pmove :=
  [DoWrite [7; 8; 9]; DoRead 2] ++ replicate 11 StepW ++ replicate 3 LandW ++ replicate 4 StepR ++ replicate 8 LandW ++ replicate 12 StepR ++ replicate 9 StepW.
