(* ===== verification/Kdebug.v ===== *)
(** * Kdebug: looking up addresses in the debugging tables ([kern/kdebug.c])

    [debuginfo_eip] finds the file, the function and the line of an instruction in the stabs
    table of the kernel or of a user program.  A user program supplies its own table, so the
    code has to cope with any contents.  The tables are lists here; an access outside of one,
    like a loop that does not end, makes the result [None]. *)

From S2P Require Import Prelude.

Record Stab := mkStab { n_strx : Z; n_type : Z; n_other : Z; n_desc : Z; n_value : Z }.

Definition N_FUN : Z := 0x24.
Definition N_SLINE : Z := 0x44.
Definition N_SO : Z := 0x64.
Definition N_SOL : Z := 0x84.
Definition N_PSYM : Z := 0xa0.
#[export] Hint Unfold N_FUN N_SLINE N_SO N_SOL N_PSYM : cconst.

Section search.
Context (stabs : list Stab).

Definition stab (i : Z) : option Stab := if i <? 0 then None else stabs !! Z.to_nat i.

(** while (m >= l && stabs[m].n_type != type) m--; the loop makes at most [n] = m - l + 1 rounds *)
Fixpoint scan_down (n : nat) (l type m : Z) : option Z :=
  match n with
  | O => Some m
  | S n =>
      if l <=? m then
        st ← stab m;
        if n_type st =? type then Some m else scan_down n l type (m - 1)
      else Some m
  end.

(** The local variables of the search and what the region pointers point to *)
Record bstate := mkbstate { b_l : Z; b_r : Z; b_any : bool; b_left : Z; b_right : Z; b_addr : Z }.

Fixpoint bin_loop (fuel : nat) (type : Z) (b : bstate) : option bstate :=
  match fuel with
  | O => None
  | S fuel =>
      let '(mkbstate l r any lft rgt addr) := b in
      if l <=? r then
        let true_m := Z.quot (i32 (l + r)) 2 in
        m ← scan_down (Z.to_nat (true_m - l + 1)) l type true_m;
        if m <? l then bin_loop fuel type (mkbstate (true_m + 1) r any lft rgt addr)
        else
          st ← stab m;
          if n_value st <? addr then bin_loop fuel type (mkbstate (true_m + 1) r true m rgt addr)
          else if addr <? n_value st then bin_loop fuel type (mkbstate l (m - 1) true lft (m - 1) addr)
          else bin_loop fuel type (mkbstate m r true m rgt (u32 (addr + 1)))
      else Some b
  end.

Definition bin_fuel (lft rgt : Z) : nat := Z.to_nat (2 * (rgt - lft + 1) + 2).

(** Returns [*region_left] and [*region_right]. *)
Definition stab_binsearch (lft rgt type addr : Z) : option (Z * Z) :=
  b ← bin_loop (bin_fuel lft rgt) type (mkbstate lft rgt false lft rgt addr);
  if b_any b then
    l ← scan_down (Z.to_nat (b_right b - b_left b)) (b_left b + 1) type (b_right b);
    Some (l, b_right b)
  else Some (b_left b, b_left b - 1).
End search.

(** ** The whole lookup *)

(** Names are offsets into the string table; [None] is the string <unknown>. *)
Record Eipdebuginfo := mkinfo {
  eip_file : option Z; eip_line : Z; eip_fn_name : option Z; eip_fn_namelen : Z; eip_fn_addr : Z; eip_fn_narg : Z;
}.

Section lookup.
Context (stabs : list Stab) (stabstr : list Z).

(** [strfind(s, c) - s] for the string at offset [o]; at most [n] bytes are looked at. *)
Fixpoint strfind_len (n : nat) (o c : Z) : option Z :=
  match n with
  | O => None
  | S n => b ← stabstr !! Z.to_nat o; if (b =? 0) || (b =? c) then Some 0 else k ← strfind_len n (o + 1) c; Some (k + 1)
  end.

(** The search for the file name, from the line on backwards *)
Fixpoint file_down (n : nat) (lfile lline : Z) : option Z :=
  match n with
  | O => Some lline
  | S n =>
      if lfile <=? lline then
        st ← stab stabs lline;
        if negb (n_type st =? N_SOL) && (negb (n_type st =? N_SO) || (n_value st =? 0)) then file_down n lfile (lline - 1) else Some lline
      else Some lline
  end.
(** The number of the N_PSYM entries that follow the function *)
Fixpoint count_args (n : nat) (lline rfun : Z) : option Z :=
  match n with
  | O => Some 0
  | S n => if lline <? rfun then st ← stab stabs lline; if n_type st =? N_PSYM then k ← count_args n (lline + 1) rfun; Some (k + 1) else Some 0 else Some 0
  end.

Definition strsize : Z := Z.of_nat (length stabstr).

(** The function: its name and address, and the region and address for the search of the line *)
Definition find_fn (lfile rfile lfun rfun addr : Z) : option (option Z * Z * Z * Z * Z) :=
  if lfun <=? rfun then
    st ← stab stabs lfun;
    Some (if n_strx st <? strsize then Some (n_strx st) else None, n_value st, u32 (addr - n_value st), lfun, rfun)
  else Some (None, addr, addr, lfile, rfile).

(** The part of [debuginfo_eip] after the tables are found *)
Definition debuginfo_eip (addr : Z) : option (Z * Eipdebuginfo) :=
  let info := mkinfo None 0 None 9 addr 0 in
  if (strsize =? 0) || negb (default 0 (last stabstr) =? 0) then Some (- 1, info) else
  '(lfile, rfile) ← stab_binsearch stabs 0 (Z.of_nat (length stabs) - 1) N_SO addr;
  if lfile =? 0 then Some (- 1, info) else
  '(lfun, rfun) ← stab_binsearch stabs lfile rfile N_FUN addr;
  '(name, fn_addr, addr, lline, rline) ← find_fn lfile rfile lfun rfun addr;
  namelen ← match name with Some o => strfind_len (length stabstr) o 58 | None => Some 9 end;
  '(lline, rline) ← stab_binsearch stabs lline rline N_SLINE addr;
  if rline <? lline then Some (- 1, mkinfo None 0 name namelen fn_addr 0) else
  st ← stab stabs lline;
  fl ← file_down (Z.to_nat (lline - lfile + 1)) lfile lline;
  file ← (if lfile <=? fl then sf ← stab stabs fl; Some (if n_strx sf <? strsize then Some (n_strx sf) else None) else Some None);
  narg ← (if lfun <? rfun then count_args (Z.to_nat (rfun - lfun - 1)) (lfun + 1) rfun else Some 0);
  Some (0, mkinfo file (n_desc st) name namelen fn_addr narg).
End lookup.
