(* ===== verification/KdebugThms.v ===== *)
(** * KdebugThms: the search in the debugging tables ends and finds the right entry

    The search terminates and stays inside the tables whatever they contain.  Where no entry
    lies directly behind the address, it finds the entry that the address belongs to. *)

From S2P Require Import Prelude Kdebug.

Section search.
Context (stabs : list Stab) (type L R : Z).
Notation size := (Z.of_nat (length stabs)).
Hypothesis Hsize : size < 2^30.
Hypothesis HL : 0 <= L.
Hypothesis HR : R < size.

Definition val (k : Z) : Z := default 0 (n_value <$> stab stabs k).
Definition matches (k : Z) : Prop := exists st, stab stabs k = Some st /\ n_type st = type.

Lemma stab_in k : 0 <= k < size -> exists st, stab stabs k = Some st.
Proof. intros Hk. unfold stab. rewrite (proj2 (Z.ltb_ge _ _)) by lia. apply lookup_lt_is_Some_2. lia. Qed.

Lemma scan_down_spec n l m : 0 <= l -> m < size -> Z.of_nat n = Z.max 0 (m - l + 1) ->
  exists m', scan_down stabs n l type m = Some m' /\ m' <= m /\ (l <= m -> l - 1 <= m') /\ (m < l -> m' = m) /\
    (forall k, m' < k <= m -> ~ matches k) /\ (l <= m' -> matches m').
Proof.
  revert m. induction n as [|n IH]; intros m Hl Hm Hn; cbn [scan_down].
  - exists m. split_and!; try done; lia.
  - rewrite (proj2 (Z.leb_le _ _)) by lia. destruct (stab_in m ltac:(lia)) as [st Hst]. rewrite Hst. cbn [mbind option_bind]. destruct (Z.eqb_spec (n_type st) type) as [Ht|Ht].
    + exists m. split_and!; try done; try lia. intros _. by exists st.
    + destruct (IH (m - 1)) as (m' & -> & H1 & H2 & H3 & H4 & H5); [lia..|]. exists m'. split_and!; try done; try lia.
      intros k Hk. destruct (decide (k = m)) as [->|]; [|apply H4; lia]. intros (st' & Hst' & Ht'). congruence.
Qed.

(** ** One round of the search *)

Inductive bstep : bstate -> bstate -> Prop :=
  | b_skip l r any lft rgt addr t : l <= t <= r -> (forall k, l <= k <= t -> ~ matches k) ->
      bstep (mkbstate l r any lft rgt addr) (mkbstate (t + 1) r any lft rgt addr)
  | b_low l r any lft rgt addr m t : l <= m <= t -> t <= r -> matches m -> (forall k, m < k <= t -> ~ matches k) -> val m < addr ->
      bstep (mkbstate l r any lft rgt addr) (mkbstate (t + 1) r true m rgt addr)
  | b_high l r any lft rgt addr m : l <= m <= r -> matches m -> addr < val m ->
      bstep (mkbstate l r any lft rgt addr) (mkbstate l (m - 1) true lft (m - 1) addr)
  | b_hit l r any lft rgt addr m : l <= m <= r -> matches m -> val m = addr ->
      bstep (mkbstate l r any lft rgt addr) (mkbstate m r true m rgt (u32 (addr + 1))).

Lemma bin_loop_step fuel b : L <= b_l b <= b_r b -> b_r b <= R ->
  exists b', bstep b b' /\ bin_loop stabs (S fuel) type b = bin_loop stabs fuel type b'.
Proof.
  destruct b as [l r any lft rgt addr]. cbn [b_l b_r]. intros Hl Hr. cbn [bin_loop]. rewrite (proj2 (Z.leb_le _ _)) by lia.
  rewrite i32_small by lia. rewrite Z.quot_div_nonneg by lia. set (t := (l + r) / 2). assert (Ht : l <= t <= r) by (unfold t; dlia).
  destruct (scan_down_spec (Z.to_nat (t - l + 1)) l t) as (m & -> & H1 & H2 & _ & H4 & H5); [lia..|]. cbn [mbind option_bind].
  destruct (Z.ltb_spec m l) as [Hm|Hm].
  - eexists. split; [|done]. apply b_skip; [done|]. intros k Hk. apply H4. lia.
  - destruct (H5 Hm) as (st & Hst & Hty). rewrite Hst. cbn [mbind option_bind]. assert (Hv : val m = n_value st) by (unfold val; by rewrite Hst).
    assert (Hmat : matches m) by (by exists st). rewrite <- Hv. destruct (Z.ltb_spec (val m) addr); [eexists; split; [|done]; apply b_low; done || lia|].
    destruct (Z.ltb_spec addr (val m)); [eexists; split; [|done]; apply b_high; [lia|done|done]|]. eexists. split; [|done]. apply b_hit; [lia|done|lia].
Qed.

(** The rounds that are left *)
Definition on_hit (b : bstate) : Z := if decide (val (b_l b) = b_addr b) then 1 else 0.
Definition rounds (b : bstate) : Z := 2 * (b_r b - b_l b + 1) + on_hit b.

Lemma on_hit_range b : 0 <= on_hit b <= 1.
Proof. unfold on_hit. case_decide; lia. Qed.

Definition word_addr (b : bstate) : Prop := 0 <= b_addr b < 2^32.
Lemma bstep_rounds b b' : word_addr b -> bstep b b' -> rounds b' < rounds b.
Proof.
  intros Hw H. pose proof (on_hit_range b). pose proof (on_hit_range b'). unfold rounds in *. destruct H as [| | |l r any lft rgt addr m Hm Hmat Hv]; cbn [b_l b_r] in *; try lia.
  - unfold on_hit in *. cbn [b_l b_r b_addr] in *. unfold word_addr in Hw. cbn [b_addr] in Hw. destruct (decide (m = l)) as [->|]; [|repeat case_decide; lia].
    destruct (decide (val l = u32 (addr + 1))) as [E|]; [|rewrite decide_True by done; lia]. exfalso. rewrite Hv in E. unfold u32 in E. change (2^32) with 4294967296 in *. dlia.
Qed.
Lemma bstep_word b b' : word_addr b -> bstep b b' -> word_addr b'.
Proof. unfold word_addr. intros Hw H. destruct H; cbn [b_addr] in *; try done. apply u32_range. Qed.

(** The region of the search *)
Record in_region (b : bstate) : Prop := {
  br_l : L <= b_l b <= b_r b + 1;
  br_r : b_r b <= R;
  br_right : b_right b = b_r b;
  br_left : L <= b_left b <= Z.max L R;
  br_none : b_any b = false -> b_left b = L /\ b_r b = R /\ forall k, L <= k < b_l b -> ~ matches k;
  br_next : b_r b < R -> matches (b_r b + 1);
  br_any : b_any b = true -> exists k, L <= k <= R /\ matches k;
}.
Lemma bstep_region b b' : in_region b -> bstep b b' -> in_region b'.
Proof.
  intros [I1 I2 I3 I4 I5 I6 I7] H. destruct H as [l r any lft rgt addr t Ht Hno|l r any lft rgt addr m t Hm Ht Hmat Hno Hv|l r any lft rgt addr m Hm Hmat Hv|l r any lft rgt addr m Hm Hmat Hv];
    cbn [b_l b_r b_right b_left b_any] in *; split; cbn [b_l b_r b_right b_left b_any]; try done; try lia; try (intros _; exists m; split; [lia|done]).
  - intros Ha. destruct (I5 Ha) as (H1 & H2 & H3). split_and!; [done..|]. intros k Hk. destruct (decide (k < l)); [apply H3; lia|apply Hno; lia].
  - intros _. by replace (m - 1 + 1) with m by lia.
Qed.

(** Where the entry found so far is *)
Definition sighted (b : bstate) : Prop :=
  b_left b = L /\ (forall k, L <= k < b_l b -> ~ matches k) \/
  matches (b_left b) /\ b_left b < b_l b /\ (forall k, b_left b < k < b_l b -> ~ matches k) \/
  matches (b_left b) /\ b_left b = b_l b /\ b_l b <= b_r b /\ val (b_l b) < b_addr b.

Lemma bstep_found b b' : in_region b -> b_addr b < 2^32 - 1 -> 0 <= b_addr b -> sighted b -> bstep b b' -> sighted b'.
Proof.
  intros [I1 I2 I3 I4 I5 I6 _] Ha Ha0 F H. destruct H as [l r any lft rgt addr t Ht Hno|l r any lft rgt addr m t Hm Ht Hmat Hno Hv|l r any lft rgt addr m Hm Hmat Hv|l r any lft rgt addr m Hm Hmat Hv];
    unfold sighted in *; cbn [b_l b_r b_left b_addr b_any] in *.
  - destruct F as [[F1 F2]|[(F1 & F2 & F3)|(F1 & F2 & F3 & F4)]].
    + left. split; [done|]. intros k Hk. destruct (decide (k < l)); [apply F2; lia|apply Hno; lia].
    + right. left. split; [done|]. split; [lia|]. intros k Hk. destruct (decide (k < l)); [apply F3; lia|apply Hno; lia].
    + exfalso. apply (Hno l); [lia|]. by rewrite <- F2.
  - right. left. split; [done|]. split; [lia|]. intros k Hk. apply Hno. lia.
  - destruct F as [F|[F|(F1 & F2 & F3 & F4)]]; [by left|by right; left|]. right. right. split_and!; try done. destruct (decide (m = l)) as [->|]; [lia|lia].
  - right. right. split_and!; try done; try lia. rewrite u32_small by lia. lia.
Qed.

(** What the values are, where no entry has the value after the address *)
Section values.
Context (a : Z) (Ha : 0 <= a < 2^32 - 1).
Definition no_next : Prop := forall k k', L <= k <= R -> L <= k' <= R -> matches k -> matches k' -> val k = a -> val k' <> a + 1.
Hypothesis Hgap : no_next.

Record bracketed (b : bstate) : Prop := {
  bb_addr : b_addr b = a \/ b_addr b = a + 1 /\ exists k, L <= k <= R /\ matches k /\ val k = a;
  bb_left : matches (b_left b) -> b_left b < b_l b \/ val (b_left b) < b_addr b -> val (b_left b) <= a;
}.
Lemma bstep_bracketed b b' : in_region b -> sighted b -> bracketed b -> bstep b b' -> bracketed b'.
Proof.
  intros [I1 I2 I3 I4 I5 I6 _] F [B1 B2] H. destruct H as [l r any lft rgt addr t Ht Hno|l r any lft rgt addr m t Hm Ht Hmat Hno Hv|l r any lft rgt addr m Hm Hmat Hv|l r any lft rgt addr m Hm Hmat Hv];
    unfold sighted in F; cbn [b_l b_r b_right b_left b_any b_addr] in *; split; cbn [b_l b_r b_right b_left b_any b_addr]; try done; try lia.
  - intros Hml _. destruct F as [[F1 F2]|[(F1 & F2 & F3)|(F1 & F2 & F3 & F4)]]; [|by apply B2; [|left]|by apply B2; [|right; rewrite F2]].
    destruct (decide (lft < l)) as [Hlt|Hge]; [by apply B2; [|left]|]. exfalso. apply (Hno lft); [|done]. lia.
  - destruct B1 as [->|[-> (k & Hk & Hkm & Hkv)]]; [|exfalso; apply (Hgap k m); [lia..|done|done|done|lia]]. right. rewrite u32_small by lia. split; [done|]. exists m. split; [lia|]. done.
  - destruct B1 as [->|[-> (k & Hk & Hkm & Hkv)]]; [lia|]. exfalso. apply (Hgap k m); [lia..|done|done|done|lia].
Qed.
End values.

(** ** The loop *)

Lemma bin_loop_run fuel : forall b, word_addr b -> in_region b -> rounds b < Z.of_nat fuel ->
  exists b', bin_loop stabs fuel type b = Some b' /\ rtc bstep b b' /\ in_region b' /\ b_l b' = b_r b' + 1.
Proof.
  induction fuel as [|fuel IH]; intros b Hw I Hf.
  - pose proof (on_hit_range b). pose proof (br_l _ I). unfold rounds in Hf. lia.
  - destruct (decide (b_l b <= b_r b)) as [Hle|Hgt].
    + destruct (bin_loop_step fuel b) as (b' & Hst & ->); [pose proof (br_l _ I); lia|apply (br_r _ I)|]. pose proof (bstep_rounds _ _ Hw Hst).
      destruct (IH b') as (b2 & E & H1 & H2 & H3); [by eapply bstep_word|by eapply bstep_region|lia|]. exists b2. split; [done|]. split; [by eapply rtc_l|done].
    + exists b. pose proof (br_l _ I). split; [|split; [done|split; [done|lia]]]. destruct b as [l r any lft rgt addr]. cbn [b_l b_r] in *. cbn [bin_loop]. by rewrite (proj2 (Z.leb_gt _ _)) by lia.
Qed.

Definition start (a : Z) : bstate := mkbstate L R false L R a.
Lemma start_region a : L - 1 <= R -> in_region (start a).
Proof. intros H. split; cbn [start b_l b_r b_right b_left b_any]; try done; try lia. intros _. split_and!; try done; lia. Qed.

Lemma run_kept (P : bstate -> Prop) b b' : (forall b1 b2, P b1 -> in_region b1 -> bstep b1 b2 -> P b2) -> P b -> in_region b -> rtc bstep b b' -> P b'.
Proof. intros HP H I Hr. induction Hr as [|b1 b2 b3 Hst _ IH]; [done|]. apply IH; [by eapply HP|by eapply bstep_region]. Qed.

(** The search ends, inside the region. *)
Lemma binsearch_run a : 0 <= a < 2^32 -> L - 1 <= R ->
  exists b lft, rtc bstep (start a) b /\ in_region b /\ b_l b = b_r b + 1 /\
    stab_binsearch stabs L R type a = Some (if b_any b then (lft, b_r b) else (L, L - 1)) /\
    lft <= Z.max (b_left b) (b_r b) /\ L - 1 <= lft /\ lft <= R /\
    (b_left b <= b_r b -> b_left b <= lft <= b_r b /\ (forall k, lft < k <= b_r b -> ~ matches k) /\ (b_left b < lft -> matches lft)) /\
    (b_r b < b_left b -> lft = b_r b).
Proof.
  intros Ha Hle. destruct (bin_loop_run (bin_fuel L R) (start a)) as (b & E & Hr & I & Hend); [done|by apply start_region| |].
  { pose proof (on_hit_range (start a)). unfold rounds, bin_fuel. cbn [start b_l b_r]. lia. }
  pose proof (br_l _ I) as Il. pose proof (br_r _ I) as Ir. pose proof (br_left _ I) as If. pose proof (br_right _ I) as Ig.
  destruct (scan_down_spec (Z.to_nat (b_right b - b_left b)) (b_left b + 1) (b_right b)) as (lft & Hsc & H1 & H2 & H3 & H4 & H5); [lia..|].
  exists b, lft. split; [done|]. split; [done|]. split; [done|]. split.
  { unfold stab_binsearch. fold (start a). rewrite E. cbn [mbind option_bind]. destruct (b_any b) eqn:Eany; [|destruct (br_none _ I Eany) as (-> & _); done]. rewrite Hsc. cbn [mbind option_bind]. by rewrite Ig. }
  rewrite Ig in *. split_and!; try lia.
  - intros Hlr. split; [destruct (decide (b_left b + 1 <= b_r b)); [specialize (H2 ltac:(done)); lia|rewrite H3; lia]|]. split; [done|]. intros Hlt. apply H5. lia.
Qed.

(** What the search returns.  The values are as they should be if no entry has the value after
    the address. *)
Inductive bracket (a : Z) : Z -> Z -> Prop :=
  | br_absent : (forall k, L <= k <= R -> ~ matches k) -> bracket a L (L - 1)
  | br_found lft rgt : matches lft -> L <= lft <= rgt -> rgt <= R -> (forall k, lft < k <= rgt -> ~ matches k) -> (rgt < R -> matches (rgt + 1)) ->
      (rgt < R -> a < val (rgt + 1)) -> (no_next a -> val lft <= a) -> bracket a lft rgt
  | br_before rgt : L - 1 <= rgt < R -> (forall k, L <= k <= rgt -> ~ matches k) -> matches (rgt + 1) ->
      a < val (rgt + 1) -> bracket a (Z.min L rgt) rgt.

Lemma start_bracketed a : bracketed a (start a).
Proof. split; cbn [start b_addr b_left b_l b_r]; [by left|lia]. Qed.

(** A hit raises the address, but only once for each entry. *)
Definition raised (a : Z) (b : bstate) : Prop :=
  (a <= b_addr b <= a + (b_l b - L) + 1) /\ (val (b_l b) = b_addr b -> b_addr b <= a + (b_l b - L)) /\ (b_r b < R -> a < val (b_r b + 1)).
Lemma bstep_raised a b b' : 0 <= a -> a + size < 2^32 - 1 -> in_region b -> raised a b -> bstep b b' -> raised a b'.
Proof.
  intros Ha Hmax [I1 I2 _ _ _ _ _] (H1 & H2 & H3) H. unfold raised. destruct H as [l r any lft rgt addr t Ht Hno|l r any lft rgt addr m t Hm Ht Hmat Hno Hv|l r any lft rgt addr m Hm Hmat Hv|l r any lft rgt addr m Hm Hmat Hv];
    cbn [b_l b_r b_addr] in *; try (split_and!; [lia|lia|intros; lia|done]).
  { split_and!; [lia|lia|done|]. intros _. replace (m - 1 + 1) with m by lia. lia. }
  destruct (decide (m = l)) as [->|Hne]; [specialize (H2 Hv)|]; rewrite u32_small by lia; lia.
Qed.

Lemma bracket_of a b lft : in_region b -> b_l b = b_r b + 1 -> sighted b -> raised a b -> (no_next a -> bracketed a b) ->
  (b_left b <= b_r b -> b_left b <= lft <= b_r b /\ (forall k, lft < k <= b_r b -> ~ matches k) /\ (b_left b < lft -> matches lft)) ->
  (b_r b < b_left b -> lft = b_r b) -> b_any b = true -> bracket a lft (b_r b).
Proof.
  intros [I1 I2 I3 I4 I5 I6 I7] Hend F (_ & _ & Hv) HB H1 H2 Hany. destruct F as [[F1 F2]|[(F1 & F2 & F3)|(F1 & F2 & F3 & F4)]]; [| |lia].
  - destruct (decide (b_r b < R)) as [Hlt|Hge].
    + assert (E : lft = Z.min L (b_r b)).
      { destruct (decide (b_left b <= b_r b)) as [Hle|Hgt]; [|rewrite H2; lia]. destruct (H1 Hle) as (H3 & _ & H4).
        destruct (decide (b_left b < lft)) as [Hl|]; [|lia]. exfalso. apply (F2 lft); [lia|by apply H4]. }
      rewrite E. apply br_before; [lia| |by apply I6|by apply Hv]. intros k Hk. apply F2. lia.
    + exfalso. destruct (I7 Hany) as (k & Hk & Hm). apply (F2 k); [lia|done].
  - destruct (H1 ltac:(lia)) as (H3 & H4 & H5). destruct (decide (lft = b_left b)) as [->|Hne]; [|exfalso; apply (F3 lft); [lia|apply H5; lia]].
    apply br_found; [done|lia|done..|]. intros Hn. apply (bb_left _ _ (HB Hn)); [done|by left].
Qed.

Lemma binsearch_ok a : 0 <= a -> a + size < 2^32 - 1 -> L - 1 <= R ->
  exists lft rgt, stab_binsearch stabs L R type a = Some (lft, rgt) /\ bracket a lft rgt.
Proof.
  intros Ha Hmax Hle. destruct (binsearch_run a) as (b & lft & Hr & I & Hend & E & _ & _ & _ & H1 & H2); [lia|done|].
  pose proof (start_region a Hle) as I0.
  assert (HF : sighted b /\ raised a b).
  { apply (run_kept (fun b => sighted b /\ raised a b) (start a) b); [|split|done|done].
    - intros b1 b2 [F1 R1] I1 Hst. pose proof (br_l _ I1). pose proof (br_r _ I1). split; [|by eapply bstep_raised]. destruct R1 as [R1 _]. eapply bstep_found; [done| |lia|done|done].
      destruct Hst; cbn [b_l b_r b_addr] in *; lia.
    - left. split; [done|]. cbn [start b_l]. lia.
    - split_and!; cbn [start b_addr b_l b_r]; lia. }
  destruct HF as [HF HRa]. assert (HB : no_next a -> bracketed a b).
  { intros Hn. apply (run_kept (fun b => sighted b /\ raised a b /\ bracketed a b) (start a) b); [| |done|done].
    - intros b1 b2 (F1 & R1 & B1) I1 Hst. pose proof (br_l _ I1). pose proof (br_r _ I1). split_and!; [|by eapply bstep_raised|by eapply bstep_bracketed; [lia|..]]. destruct R1 as [R1 _]. eapply bstep_found; [done| |lia|done|done].
      destruct Hst; cbn [b_l b_r b_addr] in *; lia.
    - split_and!; [left; split; [done|]; cbn [start b_l]; lia|split_and!; cbn [start b_addr b_l b_r]; lia|apply start_bracketed]. }
  destruct (b_any b) eqn:Eany; [exists lft, (b_r b)|exists L, (L - 1)]; (split; [done|]); [by eapply bracket_of|].
  destruct (br_none _ I Eany) as (_ & Er & Hno). apply br_absent. intros k Hk. apply Hno. lia.
Qed.

Lemma binsearch_range a : 0 <= a < 2^32 -> L - 1 <= R ->
  exists lft rgt, stab_binsearch stabs L R type a = Some (lft, rgt) /\ L - 1 <= lft /\ rgt <= R.
Proof.
  intros Ha Hle. destruct (binsearch_run a Ha Hle) as (b & lft & _ & I & _ & E & _ & H1 & H2 & _). pose proof (br_r _ I).
  destruct (b_any b); [exists lft, (b_r b)|exists L, (L - 1)]; (split; [done|]); lia.
Qed.

(** The entries of the type are sorted by their values. *)
Definition sorted : Prop := forall k k', L <= k <= k' -> k' <= R -> matches k -> matches k' -> val k <= val k'.

Lemma bracket_sorted a lft rgt k : sorted -> no_next a -> bracket a lft rgt -> L <= k <= R -> matches k -> val k <= a <-> k <= lft.
Proof.
  intros Hs Hn B Hk Hm. destruct B as [Hno|lft rgt Hml H1 H2 Hno Hnext V2 Hv|rgt H1 Hno Hnext Hv].
  - exfalso. by apply (Hno k).
  - specialize (Hv Hn). split.
    + intros Hle. destruct (decide (k <= lft)) as [|Hgt]; [done|]. exfalso. destruct (decide (k <= rgt)) as [Hkr|Hkr]; [apply (Hno k); [lia|done]|].
      specialize (V2 ltac:(lia)). pose proof (Hs (rgt + 1) k ltac:(lia) ltac:(lia) (Hnext ltac:(lia)) Hm). lia.
    + intros Hle. pose proof (Hs k lft ltac:(lia) ltac:(lia) Hm Hml). lia.
  - destruct (decide (k <= rgt)) as [Hkr|Hkr]; [exfalso; apply (Hno k); [lia|done]|]. pose proof (Hs (rgt + 1) k ltac:(lia) ltac:(lia) Hnext Hm). lia.
Qed.
End search.

(** ** The lookup *)

Section lookup.
Context (stabs : list Stab) (stabstr : list Z).
Notation size := (Z.of_nat (length stabs)).
Notation ssize := (Z.of_nat (length stabstr)).

Lemma strfind_ends n o c : last stabstr = Some 0 -> 0 <= o < ssize -> ssize <= o + Z.of_nat n ->
  exists k, strfind_len stabstr n o c = Some k /\ 0 <= k /\ o + k < ssize.
Proof.
  intros Hlast. revert o. induction n as [|n IH]; intros o Ho Hn; [lia|]. cbn [strfind_len].
  destruct (lookup_lt_is_Some_2 stabstr (Z.to_nat o) ltac:(lia)) as [b Hb]. rewrite Hb. cbn [mbind option_bind].
  destruct ((b =? 0) || (b =? c)) eqn:E; [exists 0; split; [done|lia]|]. destruct (decide (o + 1 < ssize)) as [Hlt|Hge].
  - destruct (IH (o + 1)) as (k & -> & H1 & H2); [lia..|]. exists (k + 1). split; [done|]. lia.
  - exfalso. rewrite last_lookup in Hlast. replace (Nat.pred (length stabstr)) with (Z.to_nat o) in Hlast by lia. rewrite Hb in Hlast. injection Hlast as ->. done.
Qed.

Lemma file_down_ends n lfile lline : 0 <= lfile -> lline < size -> exists fl, file_down stabs n lfile lline = Some fl /\ fl <= lline.
Proof.
  intros Hl. revert lline. induction n as [|n IH]; intros lline Hm; cbn [file_down]; [by exists lline|].
  destruct (Z.leb_spec lfile lline); [|by exists lline]. destruct (stab_in stabs lline ltac:(lia)) as [st ->]. cbn [mbind option_bind].
  case_match; [|by exists lline]. destruct (IH (lline - 1)) as (fl & -> & Hfl); [lia|]. exists fl. split; [done|lia].
Qed.

Lemma count_args_ends n lline rfun : 0 <= lline -> rfun <= size -> exists k, count_args stabs n lline rfun = Some k /\ 0 <= k <= Z.max 0 (rfun - lline).
Proof.
  intros Hl Hr. revert lline Hl. induction n as [|n IH]; intros lline Hl; cbn [count_args]; [exists 0; split; [done|lia]|].
  destruct (Z.ltb_spec lline rfun); [|exists 0; split; [done|lia]]. destruct (stab_in stabs lline ltac:(lia)) as [st ->]. cbn [mbind option_bind].
  case_match; [|exists 0; split; [done|lia]]. destruct (IH (lline + 1)) as (k & -> & Hk); [lia|]. exists (k + 1). split; [done|lia].
Qed.

(** A name is an offset into the string table. *)
Definition name_ok (o : option Z) : Prop := forall x, o = Some x -> 0 <= x < ssize.
Definition info_ok (i : Eipdebuginfo) : Prop :=
  name_ok (eip_file i) /\ name_ok (eip_fn_name i) /\ 0 <= eip_fn_namelen i <= Z.max 9 ssize /\ 0 <= eip_fn_narg i.

Hypothesis Hsize : size < 2^30.
Hypothesis Hfields : Forall (fun st => 0 <= n_strx st /\ 0 <= n_value st < 2^32) stabs.

Lemma stab_fields k st : stab stabs k = Some st -> 0 <= n_strx st /\ 0 <= n_value st < 2^32.
Proof. unfold stab. case_match; [done|]. intros E. rewrite Forall_lookup in Hfields. by apply (Hfields _ _ E). Qed.
Lemma strx_ok k st : stab stabs k = Some st -> name_ok (if n_strx st <? strsize stabstr then Some (n_strx st) else None).
Proof. intros Hst x E. apply stab_fields in Hst as [Hx _]. destruct (Z.ltb_spec (n_strx st) (strsize stabstr)); [|done]. injection E as <-. unfold strsize in *. lia. Qed.

Lemma find_fn_ends lfile rfile lfun rfun addr : 0 <= addr < 2^32 -> 1 <= lfile <= size -> lfile - 1 <= rfile < size -> 1 <= lfun -> rfun < size ->
  exists name fn_addr a l r, find_fn stabs stabstr lfile rfile lfun rfun addr = Some (name, fn_addr, a, l, r) /\
    name_ok name /\ 0 <= a < 2^32 /\ 1 <= l /\ l - 1 <= r < size.
Proof.
  intros Ha Hf Hr Hlf Hrf. unfold find_fn. destruct (Z.leb_spec lfun rfun) as [Hle|Hgt].
  - destruct (stab_in stabs lfun ltac:(lia)) as [st Hst]. rewrite Hst. cbn [mbind option_bind]. do 5 eexists. split; [done|]. split; [by eapply strx_ok|]. split; [apply u32_range|]. lia.
  - do 5 eexists. split; [done|]. split; [by intros x|]. lia.
Qed.

(** The searches for the file and the function *)
Lemma find_file addr : 0 <= addr -> addr + size < 2^32 - 1 -> (forall st, stab stabs 0 = Some st -> n_type st = N_SO -> n_value st <= addr) ->
  exists lfile rfile, stab_binsearch stabs 0 (size - 1) N_SO addr = Some (lfile, rfile) /\
    (lfile = 0 \/ 1 <= lfile <= rfile /\ rfile < size /\ matches stabs N_SO lfile).
Proof.
  intros Ha Hmax H0. destruct (binsearch_ok stabs N_SO 0 (size - 1) Hsize ltac:(lia) ltac:(lia) addr Ha Hmax ltac:(lia)) as (lfile & rfile & E & B).
  exists lfile, rfile. split; [done|]. destruct B as [Hno|lft rgt Hm H1 H2 _ _ _ _|rgt H1 Hno Hm Hv]; [by left| |].
  - destruct (decide (lft = 0)); [by left|right]. split_and!; [lia..|done].
  - left. destruct (decide (rgt = - 1)) as [->|]; [|lia]. exfalso. destruct Hm as (st & Hst & Hty). change (-1 + 1) with 0 in *. specialize (H0 st Hst Hty). unfold val in Hv. rewrite Hst in Hv. cbn in Hv. lia.
Qed.
Lemma find_function addr lfile rfile : 0 <= addr -> addr + size < 2^32 - 1 -> 1 <= lfile <= rfile -> rfile < size -> matches stabs N_SO lfile ->
  exists lfun rfun, stab_binsearch stabs lfile rfile N_FUN addr = Some (lfun, rfun) /\ 1 <= lfun /\ rfun < size.
Proof.
  intros Ha Hmax H1 H2 (st & Hst & Hty). destruct (binsearch_ok stabs N_FUN lfile rfile Hsize ltac:(lia) H2 addr Ha Hmax ltac:(lia)) as (lfun & rfun & E & B).
  exists lfun, rfun. split; [done|]. destruct B as [Hno|lft rgt Hm H3 H4 _ _ _ _|rgt H3 Hno Hm Hv]; [lia|lia|].
  destruct (decide (rgt = lfile - 1)) as [->|]; [|lia]. exfalso. destruct Hm as (st' & Hst' & Hty'). replace (lfile - 1 + 1) with lfile in Hst' by lia. rewrite Hst in Hst'. injection Hst' as <-. rewrite Hty in Hty'. done.
Qed.
End lookup.

(** ** Properties *)


Definition ex_stabs : list Stab :=
  [mkStab 0 0 0 0 0; mkStab 1 N_SO 0 0 0xf0100000; mkStab 3 N_FUN 0 0 0xf0100010; mkStab 0 N_PSYM 0 0 8; mkStab 0 N_SLINE 0 12 0; mkStab 0 N_SLINE 0 13 8; mkStab 1 N_SO 0 0 0xf0100040].
(** The strings "a" and "f:F" *)
Definition ex_strs : list Z := [0; 97; 0; 102; 58; 70; 0].


(** A table that begins with a file behind the address: the search for the function reads the
    entry before the first one. *)
Lemma debuginfo_reads_before_table : debuginfo_eip [mkStab 1 N_SO 0 0 0xf0100000] ex_strs 0xf0000000 = None.
Proof. vm_compute. reflexivity. Qed.

(**  The binary search for the entry of an address: it ends and returns a region that holds
    no further entry of the type behind its first one and that ends before the next one or with
    the table; where no entry of the type has the value after the address, the first entry of
    the region starts at or before the address and the next one after it; and if the entries of
    the type are sorted as well, the ones that start at or before the address are exactly those
    up to the one that is returned. *)
Theorem stab_binsearch_correct stabs type L R addr :
  Z.of_nat (length stabs) < 2^30 -> 0 <= L -> L - 1 <= R < Z.of_nat (length stabs) -> 0 <= addr -> addr + Z.of_nat (length stabs) < 2^32 - 1 ->
  exists lft rgt, stab_binsearch stabs L R type addr = Some (lft, rgt) /\ bracket stabs type L R addr lft rgt /\
    (sorted stabs type L R -> no_next stabs type L R addr -> forall k, L <= k <= R -> matches stabs type k -> (val stabs k <= addr <-> k <= lft)).
Proof.
  intros Hsize HL HR Ha Hmax. destruct (binsearch_ok stabs type L R Hsize HL ltac:(lia) addr Ha Hmax ltac:(lia)) as (lft & rgt & E & B).
  exists lft, rgt. split; [done|]. split; [done|]. intros Hs Hn k Hk Hm. by eapply bracket_sorted.
Qed.

Lemma stab_binsearch_correct_witness :
  stab_binsearch ex_stabs 0 6 N_SO 0xf0100019 = Some (1, 5) /\ exists lft rgt, stab_binsearch ex_stabs 0 6 N_SO 0xf0100019 = Some (lft, rgt) /\ bracket ex_stabs N_SO 0 6 0xf0100019 lft rgt.
Proof.
  split; [vm_compute; reflexivity|]. destruct (stab_binsearch_correct ex_stabs N_SO 0 6 0xf0100019) as (lft & rgt & E & B & _).
  - vm_compute. reflexivity.
  - lia.
  - vm_compute. split; congruence.
  - lia.
  - vm_compute. reflexivity.
  - exists lft, rgt. split; [exact E|exact B].
Defined.

(** An entry with the value directly after the address is returned instead of the one at the address. *)
Lemma stab_binsearch_takes_next : stab_binsearch [mkStab 0 N_SLINE 0 1 5; mkStab 0 N_SLINE 0 2 6] 0 1 N_SLINE 5 = Some (1, 1).
Proof. vm_compute. reflexivity. Qed.
