(* ===== verification/MemInit.v ===== *)
(** * MemInit: setting up memory at boot ([kern/pmap.c])

    [mem_init] finds out how much memory there is, takes room for the kernel's tables behind the
    kernel, builds the list of free pages and then the kernel's part of the address space.  Until
    it has done so, the machine runs on a page table that maps the first 4 MB only.  The linker's
    symbols and the contents of the CMOS memory are parameters.  Of the self-tests,
    [check_page_free_list] is modelled, since it also sorts the free list. *)

From S2P Require Import Prelude Layout KState Pmap Env.

Definition NVRAM_BASELO : Z := 0x15.
Definition NVRAM_EXTLO : Z := 0x17.
Definition RX_BUF_ADDR : Z := 0xFF500000.
Definition sizeof_PageInfo : Z := 8.
Definition sizeof_Env : Z := 128.
Definition sizeof_rx_bufs : Z := 2048 * 128.
Definition NCPU : Z := 8.
#[export] Hint Unfold NVRAM_BASELO NVRAM_EXTLO RX_BUF_ADDR sizeof_PageInfo sizeof_Env sizeof_rx_bufs NCPU : cconst.

(** Cleared tables *)
Definition null_page : PageInfo := mkPageInfo None 0.
Definition null_env : Env := mkEnv zero_tf None 0 0 0 ENV_FREE 0 0 0 0 false 0 0 0 0 0.
Definition null_pages (n : Z) : gmap Z PageInfo := list_to_map (map (fun i => (i, null_page)) (seqZ 0 n)).
Definition null_envs : gmap Z Env := list_to_map (map (fun i => (i, null_env)) (seqZ 0 NENV)).

Section boot.
(** The end of the kernel image, its stacks, and the bytes of the CMOS memory *)
Context (kend bootstack percpu_kstacks : Z) (cmos : Z -> Z).

Definition nvram_read (r : Z) : Z := cmos r .| (cmos (r + 1) .<< 8).

Definition i386_detect_memory : K unit :=
  modify (set_npages_basemem (nvram_read NVRAM_BASELO * 1024 / PGSIZE));;
  let npages_extmem := nvram_read NVRAM_EXTLO * 1024 / PGSIZE in
  basemem ← get npages_basemem;
  modify (set_npages (if truth npages_extmem then EXTPHYSMEM / PGSIZE + npages_extmem else basemem)).

(** The kernel's tables; the addresses of [pages], [envs] and [rx_buf_array] *)
Definition mem_init_alloc : K (Z * Z * Z) :=
  kd ← boot_alloc kend PGSIZE;
  modify (set_kern_pgdir kd);;
  zero_kva kd;;
  kd_pa ← PADDR kd;
  kstore (kd + 4 * PDX UVPT) (kd_pa .| PTE_U .| PTE_P);;
  n ← get npages;
  pages_va ← boot_alloc kend (u32 (sizeof_PageInfo * n));
  modify (set_pages (null_pages n));;
  envs_va ← boot_alloc kend (sizeof_Env * NENV);
  modify (set_envs null_envs);;
  rx_va ← boot_alloc kend sizeof_rx_bufs;
  kfor (seqZ 0 (sizeof_rx_bufs / PGSIZE)) (fun i => zero_kva (rx_va + i * PGSIZE));;
  mret (pages_va, envs_va, rx_va).

(** ** [check_page_free_list] *)

(** for (pp = head; pp; pp = pp->pp_link); the list has fewer than [fuel] elements. *)
Fixpoint for_free {A} (fuel : nat) (pp : option Z) (body : Z -> A -> K A) (acc : A) : K A :=
  match fuel, pp with
  | _, None => mret acc
  | O, Some _ => stuck
  | S fuel, Some i => acc ← body i acc; p ← get_page i; for_free fuel (pp_link p) body acc
  end.
Definition free_fuel (s : kstate) : nat := S (Z.to_nat (npages s)).

(** The variables pp1 and pp2 and where tp[0] and tp[1] point: to the variable or to the link of a
    page *)
Record lists2 := mklists2 { pp1 : option Z; pp2 : option Z; tp0 : option Z; tp1 : option Z }.
Definition put0 (v : option Z) (a : lists2) : K lists2 :=
  match tp0 a with
  | None => mret (mklists2 v (pp2 a) (tp0 a) (tp1 a))
  | Some i => upd_page i (set_pp_link v);; mret a
  end.
Definition put1 (v : option Z) (a : lists2) : K lists2 :=
  match tp1 a with
  | None => mret (mklists2 (pp1 a) v (tp0 a) (tp1 a))
  | Some i => upd_page i (set_pp_link v);; mret a
  end.
Definition sort_page (pdx_limit i : Z) (a : lists2) : K lists2 :=
  if pdx_limit <=? PDX (page2pa i) then a ← put1 (Some i) a; mret (mklists2 (pp1 a) (pp2 a) (tp0 a) (Some i))
  else a ← put0 (Some i) a; mret (mklists2 (pp1 a) (pp2 a) (Some i) (tp1 a)).
Definition low_first (pdx_limit : Z) : K unit :=
  fuel ← get free_fuel;
  head ← get page_free_list;
  a ← for_free fuel head (sort_page pdx_limit) (mklists2 None None None None);
  a ← put1 None a;
  a ← put0 (pp2 a) a;
  modify (set_page_free_list (pp1 a)).

(** memset(page2kva(pp), 0x97, 128) for the pages that are mapped *)
Definition scribble (pdx_limit i : Z) (_ : unit) : K unit :=
  when (PDX (page2pa i) <? pdx_limit) (va ← page2kva i; kfor (seqZ 0 32) (fun k => kstore (va + 4 * k) 0x97979797)).

Definition check_free (first_free_page i : Z) (n : Z * Z) : K (Z * Z) :=
  np ← get npages;
  kassert (0 <=? i);;
  kassert (i <? np);;
  kassert (negb (page2pa i =? 0));;
  kassert (negb (page2pa i =? IOPHYSMEM));;
  kassert (negb (page2pa i =? EXTPHYSMEM - PGSIZE));;
  kassert (negb (page2pa i =? EXTPHYSMEM));;
  (if page2pa i <? EXTPHYSMEM then mret tt else va ← page2kva i; kassert (first_free_page <=? va));;
  kassert (negb (page2pa i =? MPENTRY_PADDR));;
  mret (if page2pa i <? EXTPHYSMEM then (n.1 + 1, n.2) else (n.1, n.2 + 1)).

Definition check_page_free_list (only_low_memory : bool) : K unit :=
  let pdx_limit := if only_low_memory then 1 else NPDENTRIES in
  head ← get page_free_list;
  match head with None => panic | Some _ => mret tt end;;
  when only_low_memory (low_first pdx_limit);;
  fuel ← get free_fuel;
  head ← get page_free_list;
  for_free fuel head (scribble pdx_limit) tt;;
  first_free_page ← boot_alloc kend 0;
  head ← get page_free_list;
  n ← for_free fuel head (check_free first_free_page) (0, 0);
  kassert (0 <? n.1);;
  kassert (0 <? n.2).

(** ** The kernel's part of the address space *)

Definition mem_init_mp : K unit :=
  kfor (seqZ 0 NCPU) (fun i =>
    kd ← get kern_pgdir;
    pa ← PADDR (percpu_kstacks + i * KSTKSIZE);
    boot_map_region kd (KSTACKTOP - i * (KSTKSIZE + KSTKGAP) - KSTKSIZE) KSTKSIZE pa PTE_W).

Definition mem_init_map (pages_va envs_va : Z) : K unit :=
  kd ← get kern_pgdir;
  pse ← get pse_support;
  pages_pa ← PADDR pages_va;
  boot_map_region kd UPAGES PTSIZE pages_pa PTE_U;;
  envs_pa ← PADDR envs_va;
  (if pse =? 1 then boot_kernel_map kd UENVS PTSIZE envs_pa PTE_U else boot_map_region kd UENVS PTSIZE envs_pa PTE_U);;
  stack_pa ← PADDR bootstack;
  boot_map_region kd (KSTACKTOP - KSTKSIZE) KSTKSIZE stack_pa PTE_W;;
  (if pse =? 1 then boot_kernel_map kd KERNBASE (2^32 - 1 - KERNBASE) 0 PTE_W else boot_map_region kd KERNBASE (2^32 - 1 - KERNBASE) 0 PTE_W);;
  mem_init_mp.

Definition mem_init_rx (rx_va : Z) : K unit :=
  kd ← get kern_pgdir;
  rx_pa ← PADDR rx_va;
  boot_map_region kd RX_BUF_ADDR sizeof_rx_bufs rx_pa PTE_U.

(** [mem_init] with the one self-test; the others ([check_page_alloc], [check_page],
    [check_kern_pgdir], [check_page_installed_pgdir]) and the flags of the register cr0 are left
    out. *)
Definition mem_init : K unit :=
  i386_detect_memory;;
  tables ← mem_init_alloc;
  page_init kend;;
  check_page_free_list true;;
  mem_init_map tables.1.1 tables.1.2;;
  kd ← get kern_pgdir;
  kd_pa ← PADDR kd;
  emit (Lcr3 kd_pa);;
  check_page_free_list false;;
  mem_init_rx tables.2.
End boot.
