(* ===== verification/KernMap.v ===== *)
(** * KernMap: building the kernel's part of the address space

    The invariant of the boot code while it maps regions above [UTOP] with [boot_map_region]: the
    page tables of the kernel's directory are its own, they and the next free pages lie in the
    first 4 MB, and there are enough of those for every directory entry that is still empty. *)

From S2P Require Import Prelude Layout KState Pmap VmRefs VmInv VmOps KInv.

(** The directory entries of the kernel, without the one that maps the directory itself *)
Definition kpde (x : Z) : Prop := 955 <= x < 1024 /\ x <> PDX UVPT.
Definition kpdes : list Z := filter (fun x => x <> PDX UVPT) (seqZ 955 69).
Lemma elem_kpdes x : x ∈ kpdes <-> kpde x.
Proof. unfold kpdes, kpde. rewrite list_elem_of_filter, elem_of_seqZ. lia. Qed.
Lemma NoDup_kpdes : NoDup kpdes.
Proof. apply NoDup_filter, NoDup_seqZ. Qed.
Lemma PDX_UVPT : PDX UVPT = 957.
Proof. done. Qed.

Definition empty_pde (m : memory) (kd x : Z) : Z := ind (negb (present (rdw m kd x))).

(** The number of pages of base memory *)
Definition base_count (l : list Z) : Z := Z.of_nat (length (filter (fun i => i < 256) l)).
Lemma base_count_cons q l : base_count l <= base_count (q :: l) <= base_count l + 1.
Proof. unfold base_count. rewrite filter_cons. destruct (decide (q < 256)); cbn [length]; lia. Qed.

(** Free pages [L] in the first 4 MB, then the free pages [H] *)
Record kboot (L H : list Z) (kd : Z) (s : kstate) : Prop := {
  kb_np : 0 < npages s <= 65536;
  kb_word : forall pg i, 0 <= rdw (mem s) pg i < 2^32;
  kb_dom : forall i, is_Some (pages s !! i) <-> 0 <= i < npages s;
  kb_free : linked (pages s) (page_free_list s) (L ++ H);
  kb_nodup : NoDup (L ++ H);
  kb_pool : forall i, i ∈ L ++ H -> 0 <= i < npages s;
  kb_ref : forall i p, i ∈ L ++ H -> pages s !! i = Some p -> pp_ref p = 0;
  kb_low : Forall (fun i => i < 1024) L;
  kb_dir : kern_pgdir s = kva kd /\ kd ∉ L ++ H /\ 0 <= kd < npages s;
  kb_pse : pse_support s = 0;
  kb_user : forall x, x ∈ upde -> rdw (mem s) kd x = 0;
  kb_uvpt : rdw (mem s) kd (PDX UVPT) = mkpte kd PTE_U;
  kb_tab : forall x, kpde x -> present (rdw (mem s) kd x) = true ->
    0 <= pgn (rdw (mem s) kd x) < npages s /\ pgn (rdw (mem s) kd x) < 1024 /\ pgn (rdw (mem s) kd x) <> kd /\ pgn (rdw (mem s) kd x) ∉ L ++ H;
  kb_inj : forall x y, kpde x -> kpde y -> present (rdw (mem s) kd x) = true -> present (rdw (mem s) kd y) = true ->
    pgn (rdw (mem s) kd x) = pgn (rdw (mem s) kd y) -> x = y;
  kb_room : zsum (empty_pde (mem s) kd) kpdes < base_count L;
}.

Section walk.
Context (L H : list Z) (kd : Z) (s : kstate) (I : kboot L H kd s).

Lemma kb_kd : 0 <= kd < npages s.
Proof. apply (kb_dir _ _ _ _ I). Qed.

(** The page table is there. *)
Lemma kwalk_present va : kpde (PDX va) -> present (rdw (mem s) kd (PDX va)) = true ->
  pgdir_walk (kva kd) va 1 s = Ret (Some (kva (pgn (rdw (mem s) kd (PDX va))) + 4 * PTX va)) s.
Proof.
  intros Hx Hp. pose proof (kb_np _ _ _ _ I) as Hn. pose proof kb_kd. destruct (kb_tab _ _ _ _ I _ Hx Hp) as (Hr & _). unfold pgdir_walk. ks. rewrite (kb_pse _ _ _ _ I). cbn [Z.eqb andb].
  rewrite !(kload_kva s) by auto with frame. fold (present (rdw (mem s) kd (PDX va))). rewrite Hp. ks.
  rewrite !(kload_kva s) by auto with frame. by rewrite (KADDR_pte s Hn); [|apply (kb_word _ _ _ _ I)|lia].
Qed.

(** A new page table is taken from the free pages. *)
Definition with_table (q : Z) (p : PageInfo) (x : Z) : kstate :=
  set_mem (wrw (zero_page (mem s) q) kd x (mkpte q (PTE_U .| PTE_W)))
    (set_pages (<[q := mkPageInfo None 1]> (pages s)) (set_page_free_list (pp_link p) s)).

Lemma page_alloc_zero q p : page_free_list s = Some q -> pages s !! q = Some p -> 0 <= q < npages s ->
  page_alloc ALLOC_ZERO s = Ret (Some q) (set_mem (zero_page (mem s) q) (set_pages (<[q := set_pp_link None p]> (pages s)) (set_page_free_list (pp_link p) s))).
Proof.
  intros Hq Hp Hr. pose proof (kb_np _ _ _ _ I) as Hn. unfold page_alloc. ks. kr Hq. rewrite (get_page_eq s q p) by done. ks. rewrite (upd_page_eq _ q p) by done. ks.
  set (s1 := set_pages _ _). change (truth (ALLOC_ZERO .& ALLOC_ZERO)) with true. ks. rewrite (page2kva_eq s1) by done. ks. by rewrite (zero_kva_eq s1) by done.
Qed.

Lemma kwalk_absent va q L' p : kpde (PDX va) -> present (rdw (mem s) kd (PDX va)) = false -> L = q :: L' -> pages s !! q = Some p ->
  pgdir_walk (kva kd) va 1 s = Ret (Some (kva q + 4 * PTX va)) (with_table q p (PDX va)).
Proof.
  intros Hx Hp HL Hpq. pose proof (kb_np _ _ _ _ I) as Hn. pose proof kb_kd as Hkd. assert (Hq : 0 <= q < npages s) by (apply (kb_pool _ _ _ _ I); rewrite HL; left).
  assert (Hqk : q <> kd) by (intros ->; apply (proj1 (proj2 (kb_dir _ _ _ _ I))); rewrite HL; left).
  assert (Hfl : page_free_list s = Some q) by (pose proof (kb_free _ _ _ _ I) as Hl; rewrite HL in Hl; apply Hl).
  unfold pgdir_walk. ks. rewrite (kb_pse _ _ _ _ I). cbn [Z.eqb andb]. rewrite !(kload_kva s) by auto with frame. fold (present (rdw (mem s) kd (PDX va))). rewrite Hp. ks.
  rewrite (page_alloc_zero q p Hfl Hpq Hq). set (s1 := set_mem _ _). ks. rewrite (upd_page_eq s1 q (set_pp_link None p)) by apply lookup_insert_eq. ks. set (s2 := set_pages _ s1).
  assert (Hn2 : 0 < npages s2 <= 65536) by exact Hn. rewrite (kstore_kva s2) by auto with frame. ks. rewrite pde_value by lia. set (s3 := set_mem _ s2). assert (Hn3 : 0 < npages s3 <= 65536) by exact Hn.
  rewrite (kload_kva s3) by auto with frame. change (mem s3) with (wrw (zero_page (mem s) q) kd (PDX va) (mkpte q (PTE_U .| PTE_W))). rewrite rdw_wrw_eq.
  destruct (mkpte_ok q (PTE_U .| PTE_W)) as (Hw & Hpr & Hpg); [lia|done|]. rewrite (KADDR_pte s3 Hn3); [|done|rewrite Hpg; apply Hq]. rewrite Hpg. f_equal.
  unfold s3, s2, s1, with_table. cbn [pages mem set_mem set_pages]. by rewrite insert_insert_eq.
Qed.
End walk.

(** ** A new page table keeps the invariant *)

Section table.
Context (L' H : list Z) (kd q : Z) (s : kstate) (I : kboot (q :: L') H kd s).
Context (p : PageInfo) (Hpq : pages s !! q = Some p) (x : Z) (Hx : kpde x) (Habs : present (rdw (mem s) kd x) = false).
Notation s' := (with_table kd s q p x).

Lemma table_q : 0 <= q < npages s /\ q < 1024 /\ q <> kd /\ q ∉ L' ++ H.
Proof.
  pose proof (kb_nodup _ _ _ _ I) as Hnd. apply NoDup_cons in Hnd as [Hnd _]. split; [apply (kb_pool _ _ _ _ I); left|]. split; [pose proof (kb_low _ _ _ _ I) as Hl; by apply Forall_cons in Hl as [Hl _]|].
  split; [|done]. intros ->. apply (proj1 (proj2 (kb_dir _ _ _ _ I))). left.
Qed.
Lemma table_kd y : rdw (mem s') kd y = if decide (x = y) then mkpte q (PTE_U .| PTE_W) else rdw (mem s) kd y.
Proof.
  destruct table_q as (_ & _ & Hq & _). cbn [mem with_table set_mem]. rewrite rdw_wrw. destruct (decide (x = y)) as [->|Hn]; [by rewrite decide_True|].
  rewrite decide_False by naive_solver. rewrite rdw_zero_page. by rewrite decide_False.
Qed.
Lemma table_other pg y : pg <> kd -> pg <> q -> rdw (mem s') pg y = rdw (mem s) pg y.
Proof. intros H1 H2. cbn [mem with_table set_mem]. rewrite rdw_wrw_ne by naive_solver. rewrite rdw_zero_page. by rewrite decide_False. Qed.
Lemma table_zero y : rdw (mem s') q y = 0.
Proof. destruct table_q as (_ & _ & Hq & _). cbn [mem with_table set_mem]. rewrite rdw_wrw_ne by naive_solver. rewrite rdw_zero_page. by rewrite decide_True. Qed.
Lemma table_pde : 0 <= mkpte q (PTE_U .| PTE_W) < 2^32 /\ present (mkpte q (PTE_U .| PTE_W)) = true /\ pgn (mkpte q (PTE_U .| PTE_W)) = q.
Proof. pose proof table_q. pose proof (kb_np _ _ _ _ I). apply mkpte_ok; [lia|done]. Qed.

Lemma table_pages i : is_Some (pages s' !! i) <-> 0 <= i < npages s.
Proof. cbn [pages with_table set_mem set_pages]. rewrite <- (kb_dom _ _ _ _ I). destruct (decide (i = q)) as [->|]; [rewrite lookup_insert_eq, Hpq; split; eauto|by rewrite lookup_insert_ne]. Qed.

Lemma table_room : zsum (empty_pde (mem s') kd) kpdes < base_count L'.
Proof.
  pose proof (kb_room _ _ _ _ I) as Hr. pose proof (base_count_cons q L'). rewrite (zsum_update (empty_pde (mem s) kd) _ kpdes x).
  - unfold empty_pde at 2 3. rewrite Habs, table_kd, decide_True by done. destruct table_pde as (_ & -> & _). cbn [negb ind]. lia.
  - apply NoDup_kpdes.
  - by apply elem_kpdes.
  - intros y Hy Hne. unfold empty_pde. by rewrite table_kd, decide_False.
Qed.

Lemma table_entry y : kpde y -> present (rdw (mem s') kd y) = true ->
  y = x /\ pgn (rdw (mem s') kd y) = q \/ y <> x /\ present (rdw (mem s) kd y) = true /\ pgn (rdw (mem s') kd y) = pgn (rdw (mem s) kd y) /\ pgn (rdw (mem s) kd y) <> q.
Proof.
  intros Hy Hp. rewrite table_kd in *. destruct (decide (x = y)) as [->|Hn]; [left; split; [done|apply table_pde]|right]. split; [done|]. split; [done|]. split; [done|].
  intros E. destruct (kb_tab _ _ _ _ I y Hy Hp) as (_ & _ & _ & Hni). apply Hni. rewrite E. left.
Qed.

Lemma with_table_boot : kboot L' H kd s'.
Proof.
  destruct table_q as (Q1 & Q2 & Q3 & Q4). pose proof table_pde as (W1 & W2 & W3). pose proof (kb_dir _ _ _ _ I) as (D1 & D2 & D3). split; try (exact (kb_np _ _ _ _ I) || exact (kb_pse _ _ _ _ I)).
  - intros pg i. cbn [mem with_table set_mem]. rewrite rdw_wrw. case_decide; [done|]. apply zero_page_word, (kb_word _ _ _ _ I).
  - apply table_pages.
  - pose proof (kb_free _ _ _ _ I) as (_ & p' & Hp' & Hl). rewrite Hpq in Hp'. injection Hp' as <-. by apply linked_frame.
  - pose proof (kb_nodup _ _ _ _ I) as Hnd. by apply NoDup_cons in Hnd as [_ Hnd].
  - intros i Hi. apply (kb_pool _ _ _ _ I). by right.
  - intros i pi Hi. cbn [pages with_table set_mem set_pages]. rewrite lookup_insert_ne by (intros ->; done). apply (kb_ref _ _ _ _ I). by right.
  - pose proof (kb_low _ _ _ _ I) as Hl. by apply Forall_cons in Hl as [_ Hl].
  - split; [done|]. split; [|done]. intros Hi. apply D2. by right.
  - intros y Hy. rewrite table_kd, decide_False; [by apply (kb_user _ _ _ _ I)|]. intros ->. apply elem_upde in Hy. destruct Hx. lia.
  - rewrite table_kd, decide_False; [apply (kb_uvpt _ _ _ _ I)|]. intros ->. by destruct Hx.
  - intros y Hy Hp. destruct (table_entry y Hy Hp) as [(-> & ->)|(Hn & Hp0 & -> & Hq)]; [done|]. destruct (kb_tab _ _ _ _ I y Hy Hp0) as (T1 & T2 & T3 & T4). split; [exact T1|]. split; [done|]. split; [done|]. intros Hi. apply T4. by right.
  - intros y z Hy Hz Py Pz E. destruct (table_entry y Hy Py) as [(-> & Ey)|(Ny & Py0 & Ey & Qy)], (table_entry z Hz Pz) as [(-> & Ez)|(Nz & Pz0 & Ez & Qz)]; try congruence. apply (kb_inj _ _ _ _ I); congruence.
  - apply table_room.
Qed.

Lemma with_table_vmap va : kpde (PDX va) -> vmap (mem s') kd va = vmap (mem s) kd va.
Proof.
  intros Hva. unfold vmap. rewrite table_kd. destruct (decide (x = PDX va)) as [E|Hn].
  - destruct table_pde as (_ & -> & ->). rewrite table_zero, present_0. by rewrite <- E, Habs.
  - destruct (present (rdw (mem s) kd (PDX va))) eqn:Hp; [|done]. destruct (kb_tab _ _ _ _ I _ Hva Hp) as (_ & _ & T3 & T4). rewrite table_other; [done|done|]. intros E. apply T4. rewrite E. left.
Qed.
End table.

(** ** An entry of a page table *)

Section entry.
Context (L H : list Z) (kd : Z) (s : kstate) (I : kboot L H kd s) (va v : Z).
Context (Hx : kpde (PDX va)) (Hpr : present (rdw (mem s) kd (PDX va)) = true) (Hv : 0 <= v < 2^32).
Notation p := (pgn (rdw (mem s) kd (PDX va))).
Notation s' := (set_mem (wrw (mem s) p (PTX va) v) s).

Lemma entry_kd y : rdw (mem s') kd y = rdw (mem s) kd y.
Proof. destruct (kb_tab _ _ _ _ I _ Hx Hpr) as (_ & _ & Hk & _). cbn [mem set_mem]. rewrite rdw_wrw_ne; [done|]. naive_solver. Qed.

Lemma entry_boot : kboot L H kd s'.
Proof.
  pose proof entry_kd as E. destruct I as [I1 I2 I3 I4 I5 I6 I7 I8 I9 I10 I11 I12 I13 I14 I15]. split; try done.
  - intros pg i. cbn [mem set_mem]. rewrite rdw_wrw. by case_decide.
  - intros y Hy. rewrite E. by apply I11.
  - by rewrite E.
  - intros y Hy. rewrite E. by apply I13.
  - intros y z Hy Hz. rewrite !E. by apply I14.
  - eapply Z.le_lt_trans; [|exact I15]. apply Z.eq_le_incl, zsum_ext. intros y _. unfold empty_pde. by rewrite E.
Qed.

Lemma pages_of va1 va2 : 0 <= va1 < 2^32 -> 0 <= va2 < 2^32 -> PDX va1 = PDX va2 /\ PTX va1 = PTX va2 <-> va1 / 4096 = va2 / 4096.
Proof. rewrite !PDX_div, !PTX_div. intros. dlia. Qed.

Lemma entry_vmap va' : 0 <= va < 2^32 -> 0 <= va' < 2^32 -> kpde (PDX va') ->
  vmap (mem s') kd va' = if decide (va' / 4096 = va / 4096) then (if present v then Some v else None) else vmap (mem s) kd va'.
Proof.
  intros Hva Hva' Hx'. unfold vmap. rewrite entry_kd. destruct (decide (va' / 4096 = va / 4096)) as [E|Hn].
  - apply pages_of in E as [E1 E2]; [|done..]. rewrite E1, E2, Hpr. cbn [mem set_mem]. by rewrite rdw_wrw_eq.
  - destruct (present (rdw (mem s) kd (PDX va'))) eqn:Hp'; [|done]. cbn [mem set_mem]. rewrite rdw_wrw_ne; [done|].
    destruct (decide (p = pgn (rdw (mem s) kd (PDX va')))) as [E1|]; [right|by left]. intros E2. apply Hn, pages_of; [done..|]. split; [|done]. symmetry. by apply (kb_inj _ _ _ _ I).
Qed.
End entry.

(** ** A region *)

Lemma boot_map_page L H kd s va v : kboot L H kd s -> 0 <= va < 2^32 -> kpde (PDX va) -> 0 <= v < 2^32 ->
  exists L' s', (pte ← pgdir_walk (kva kd) va 1; kstore (ptr pte) v) s = Ret tt s' /\ kboot L' H kd s' /\ vm_frame s s' /\ klog s' = klog s /\ L' `suffix_of` L /\
    forall va', 0 <= va' < 2^32 -> kpde (PDX va') ->
      vmap (mem s') kd va' = if decide (va' / 4096 = va / 4096) then (if present v then Some v else None) else vmap (mem s) kd va'.
Proof.
  intros I Hva Hx Hv. destruct (present (rdw (mem s) kd (PDX va))) eqn:Hp.
  - rewrite (bind_Ret _ _ _ _ _ (kwalk_present _ _ _ _ I va Hx Hp)). cbv beta iota delta [ptr default from_option id]. destruct (kb_tab _ _ _ _ I _ Hx Hp) as (Hr & _). rewrite (kstore_kva s) by auto with frame.
    eexists L, _. split; [done|]. split; [by apply entry_boot|]. split; [by destruct s|]. split; [done|]. split; [done|]. intros va' Hva' Hx'. by eapply entry_vmap.
  - assert (HL : exists q L', L = q :: L').
    { destruct L as [|q L']; [|eauto]. exfalso. pose proof (kb_room _ _ _ _ I) as Hroom. change (base_count []) with 0 in Hroom.
      assert (empty_pde (mem s) kd (PDX va) <= zsum (empty_pde (mem s) kd) kpdes) as Hle by (apply zsum_elem_le; [intros; apply ind_range|by apply elem_kpdes]).
      unfold empty_pde at 1 in Hle. rewrite Hp in Hle. cbn [negb ind] in Hle. lia. }
    destruct HL as (q & L' & ->). pose proof (kb_free _ _ _ _ I) as (_ & p & Hpq & _). pose proof (with_table_boot _ _ _ _ _ I p Hpq _ Hx Hp) as I'.
    rewrite (bind_Ret _ _ _ _ _ (kwalk_absent _ _ _ _ I va q L' p Hx Hp eq_refl Hpq)). cbv beta iota delta [ptr default from_option id]. set (s1 := with_table kd s q p (PDX va)) in *.
    assert (E1 : rdw (mem s1) kd (PDX va) = mkpte q (PTE_U .| PTE_W)) by (unfold s1; rewrite (table_kd _ _ _ _ _ I p Hpq _ Hx Hp); by rewrite decide_True). pose proof (table_pde _ _ _ _ _ I p Hpq) as (W1 & W2 & W3).
    destruct (table_q _ _ _ _ _ I p Hpq) as (Q1 & _). assert (Hp1 : present (rdw (mem s1) kd (PDX va)) = true) by (by rewrite E1). rewrite (kstore_kva s1) by auto with frame. rewrite <- W3, <- E1.
    eexists L', _. split; [done|]. split; [by apply entry_boot|]. split; [reflexivity|]. split; [done|]. split; [by apply suffix_cons_r|].
    intros va' Hva' Hx'. rewrite (entry_vmap _ _ _ _ I' va v Hx Hp1 Hv va' Hva Hva' Hx'). unfold s1. by rewrite (with_table_vmap _ _ _ _ _ I p Hpq _ Hx Hp).
Qed.

(** The entry of the page [k] of a region *)
Definition region_pte (pa perm k : Z) : Z := u32 (pa + k * PGSIZE) .| perm .| PTE_P.
Lemma region_pte_ok pa perm k : 0 <= perm < 4096 -> 0 <= region_pte pa perm k < 2^32 /\ present (region_pte pa perm k) = true.
Proof.
  intros Hp. unfold region_pte. pose proof (u32_range (pa + k * PGSIZE)) as Hu. split.
  - apply lor_bound; [lia|apply lor_bound; lia|done].
  - unfold present. rewrite Z.land_lor_distr_l. change (PTE_P .& PTE_P) with 1. unfold truth. apply negb_true_iff, Z.eqb_neq. intros E%Z.lor_eq_0_iff. lia.
Qed.

Definition in_pages (va n va' : Z) : Prop := va <= va' < va + n * 4096.
#[export] Instance in_pages_dec va n va' : Decision (in_pages va n va').
Proof. unfold in_pages. apply _. Defined.

Lemma map_loop n : forall (k : Z) L H kd s va pa perm, kboot L H kd s -> va mod 4096 = 0 -> 0 <= va + k * 4096 -> va + (k + Z.of_nat n) * 4096 <= 2^32 -> 0 <= perm < 4096 ->
  (forall i, k <= i < k + Z.of_nat n -> kpde (PDX (va + i * 4096))) ->
  exists L' s', kfor (seqZ k (Z.of_nat n)) (fun i => pte ← pgdir_walk (kva kd) (u32 (va + i * PGSIZE)) 1; kstore (ptr pte) (u32 (pa + i * PGSIZE) .| perm .| PTE_P)) s = Ret tt s' /\
    kboot L' H kd s' /\ vm_frame s s' /\ klog s' = klog s /\ L' `suffix_of` L /\
    forall va', 0 <= va' < 2^32 -> kpde (PDX va') ->
      vmap (mem s') kd va' = if decide (in_pages (va + k * 4096) (Z.of_nat n) va') then Some (region_pte pa perm ((va' - va) / 4096)) else vmap (mem s) kd va'.
Proof.
  induction n as [|n IH]; intros k L H kd s va pa perm I Ha Hlo Hhi Hp Hx.
  - exists L, s. cbn [Z.of_nat]. rewrite seqZ_nil by lia. split; [done|]. split; [done|]. split; [auto with frame|]. split; [done|]. split; [done|].
    intros va' _ _. rewrite decide_False; [done|]. unfold in_pages. lia.
  - rewrite seqZ_cons by lia. cbn [kfor]. assert (E0 : u32 (va + k * PGSIZE) = va + k * 4096) by (unfold PGSIZE; apply u32_small; lia). rewrite E0. destruct (region_pte_ok pa perm k Hp) as [Hv Hpr].
    destruct (boot_map_page L H kd s (va + k * 4096) (region_pte pa perm k) I ltac:(lia) (Hx k ltac:(lia)) Hv) as (L1 & s1 & E1 & I1 & F1 & K1 & S1 & V1).
    rewrite (bind_Ret _ _ _ _ _ E1). replace (Z.pred (Z.of_nat (S n))) with (Z.of_nat n) by lia.
    destruct (IH (Z.succ k) L1 H kd s1 va pa perm I1 Ha ltac:(lia) ltac:(lia) Hp) as (L2 & s2 & E2 & I2 & F2 & K2 & S2 & V2); [intros i Hi; apply Hx; lia|].
    exists L2, s2. split; [exact E2|]. split; [done|]. split; [by eapply vm_frame_trans|]. split; [congruence|]. split; [by etransitivity|].
    intros va' Hva' Hx'. rewrite V2, V1 by done. rewrite Hpr. unfold in_pages. destruct (decide (va + Z.succ k * 4096 <= va' < _)) as [Hin|Hout].
    + rewrite decide_True by lia. done.
    + destruct (decide (va' / 4096 = (va + k * 4096) / 4096)) as [E|Hn].
      * rewrite decide_True by dlia. do 2 f_equal. dlia.
      * rewrite decide_False; [done|]. intros Hin. apply Hn. dlia.
Qed.

(** [boot_map_region] maps the region and nothing else. *)
Lemma boot_map_ok L H kd s va size pa perm : kboot L H kd s -> va mod 4096 = 0 -> 0 <= va -> 0 <= size -> va + size / 4096 * 4096 <= 2^32 -> 0 <= perm < 4096 ->
  (forall i, 0 <= i < size / 4096 -> kpde (PDX (va + i * 4096))) ->
  exists L' s', boot_map_region (kva kd) va size pa perm s = Ret tt s' /\ kboot L' H kd s' /\ vm_frame s s' /\ klog s' = klog s /\ L' `suffix_of` L /\
    forall va', 0 <= va' < 2^32 -> kpde (PDX va') ->
      vmap (mem s') kd va' = if decide (in_pages va (size / 4096) va') then Some (region_pte pa perm ((va' - va) / 4096)) else vmap (mem s) kd va'.
Proof.
  intros I Ha Hlo Hsz Hhi Hp Hx. assert (Hd : 0 <= size / 4096) by (apply Z.div_pos; lia). destruct (map_loop (Z.to_nat (size / 4096)) 0 L H kd s va pa perm) as (L' & s' & E & I' & F & K & S & V); [done|done|lia|lia|done|intros i Hi; apply Hx; lia|].
  rewrite Z2Nat.id in * by done. exists L', s'. split; [exact E|]. split_and!; try done. intros va' H1 H2. rewrite V by done. by rewrite Z.mul_0_l, Z.add_0_r.
Qed.
