(* ===== verification/FreeCheck.v ===== *)
(** * FreeCheck: the self-test of the free list ([check_page_free_list])

    The test returns when the free list holds only pages it should hold, some of them below the
    hole for devices and some above; with its flag it also puts the pages of the first 4 MB at
    the head of the list, where the boot code needs them. *)

From S2P Require Import Prelude Layout KState Pmap VmRefs VmInv VmOps KInv MemInit.

(** ** Parts of linked lists *)

(** The links lead from [h] through [l] to [e]. *)
Fixpoint chain (pgs : gmap Z PageInfo) (h : option Z) (l : list Z) (e : option Z) : Prop :=
  match l with
  | [] => h = e
  | i :: l => h = Some i /\ exists p, pgs !! i = Some p /\ chain pgs (pp_link p) l e
  end.

Lemma chain_linked pgs h l : chain pgs h l None <-> linked pgs h l.
Proof. revert h. induction l as [|i l IH]; intros h; [done|]. cbn. split; intros (-> & p & Hp & Hc); (split; [done|]); exists p; (split; [done|]); by apply IH. Qed.
Lemma chain_frame pgs i p h l e : i ∉ l -> chain (<[i := p]> pgs) h l e <-> chain pgs h l e.
Proof.
  revert h. induction l as [|j l IH]; intros h Hi; [done|]. apply not_elem_of_cons in Hi as [Hij Hi]. cbn. rewrite lookup_insert_ne by done.
  split; intros (-> & q & Hq & Hc); (split; [done|]); exists q; (split; [done|]); by apply (IH _ Hi).
Qed.
Lemma chain_app pgs h l1 l2 e : chain pgs h (l1 ++ l2) e <-> exists m, chain pgs h l1 m /\ chain pgs m l2 e.
Proof.
  revert h. induction l1 as [|i l1 IH]; intros h; cbn [app chain]; [split; [eauto|by intros (m & -> & ?)]|].
  split; [intros (-> & p & Hp & (m & H1 & H2)%IH); exists m; split; [|done]; split; [done|]; by exists p|].
  intros (m & (-> & p & Hp & H1) & H2). split; [done|]. exists p. split; [done|]. apply IH. by exists m.
Qed.

(** ** Walking along the list *)

Lemma for_free_ok {A} (body : Z -> A -> K A) (Inv : list Z -> A -> kstate -> Prop) fuel : forall l seen h acc s,
  linked (pages s) h l -> (length l < fuel)%nat -> Inv seen acc s ->
  (forall i l1 l2 acc s, seen ++ l = l1 ++ i :: l2 -> Inv l1 acc s -> exists acc' s', body i acc s = Ret acc' s' /\ pages s' = pages s /\ Inv (l1 ++ [i]) acc' s') ->
  exists acc' s', for_free fuel h body acc s = Ret acc' s' /\ pages s' = pages s /\ Inv (seen ++ l) acc' s'.
Proof.
  induction fuel as [|fuel IH]; intros l seen h acc s Hl Hf HI Hb; [lia|]. destruct l as [|i l].
  - cbn in Hl. subst h. exists acc, s. rewrite app_nil_r. by split_and!.
  - destruct Hl as (-> & p & Hp & Hl). cbn [for_free]. destruct (Hb i seen l acc s eq_refl HI) as (acc1 & s1 & E1 & P1 & I1).
    rewrite (bind_Ret _ _ _ _ _ E1). rewrite <- P1 in Hp, Hl. rewrite (bind_Ret _ _ _ _ _ (get_page_eq s1 i p Hp)).
    destruct (IH l (seen ++ [i]) (pp_link p) acc1 s1) as (acc' & s' & E & P & I'); [done|cbn in Hf; lia|done| |].
    { intros j l1 l2 acc0 s0 Hs. apply Hb with l2. by rewrite <- Hs, <- app_assoc. }
    exists acc', s'. split; [done|]. split; [congruence|]. by rewrite <- app_assoc in I'.
Qed.

(** ** The pages of the first 4 MB come first *)

Definition is_low (i : Z) : Prop := i < 1024.
Lemma PDX_page i : 0 <= i < 65536 -> PDX (page2pa i) = i / 1024.
Proof. intros Hi. rewrite page2pa_eq, PDX_div by done. dlia. Qed.

(** Only links change. *)
Definition same_refs (pgs pgs' : gmap Z PageInfo) : Prop := forall i, pp_ref <$> pgs' !! i = pp_ref <$> pgs !! i.
Lemma same_refs_link pgs pgs' i p v : same_refs pgs pgs' -> pgs' !! i = Some p -> same_refs pgs (<[i := set_pp_link v p]> pgs').
Proof. intros Hs Hp j. rewrite <- Hs. destruct (decide (i = j)) as [<-|]; [by rewrite lookup_insert_eq, Hp|by rewrite lookup_insert_ne]. Qed.

(** A list under construction: [v] is its head and [t] its last page *)
Definition open_list (pgs : gmap Z PageInfo) (v t : option Z) (l : list Z) : Prop :=
  match t with None => l = [] | Some z => exists l' p, l = l' ++ [z] /\ chain pgs v l' (Some z) /\ pgs !! z = Some p end.

Lemma open_list_frame pgs i p v t l : i ∉ l -> open_list pgs v t l -> open_list (<[i := p]> pgs) v t l.
Proof.
  intros Hi. unfold open_list. destruct t as [z|]; [|done]. intros (l' & q & -> & Hc & Hq). apply not_elem_of_app in Hi as [Hi1 Hi2]. apply not_elem_of_cons in Hi2 as [Hi2 _].
  exists l', q. split; [done|]. rewrite chain_frame, lookup_insert_ne by done. done.
Qed.
Lemma open_list_push pgs v z l i p : open_list pgs v (Some z) l -> NoDup (l ++ [i]) -> is_Some (pgs !! i) -> pgs !! z = Some p -> open_list (<[z := set_pp_link (Some i) p]> pgs) v (Some i) (l ++ [i]).
Proof.
  intros (l' & q & -> & Hc & Hq) Hnd [pi Hpi] Hp. rewrite <- app_assoc in Hnd. apply NoDup_app in Hnd as (Hnd1 & Hd & Hnd2). cbn in Hnd2. assert (Hz : z ∉ l') by (intros Hz; apply (Hd z Hz); left). assert (Hzi : z <> i) by (apply NoDup_cons in Hnd2 as [Hn _]; set_solver).
  exists (l' ++ [z]), pi. split; [done|]. split; [|by rewrite lookup_insert_ne]. apply chain_app. exists (Some z). split; [by apply chain_frame|]. split; [done|]. exists (set_pp_link (Some i) p). by rewrite lookup_insert_eq.
Qed.
(** The list is closed by the link of its last page. *)
Lemma open_list_close pgs v z l e tl p : open_list pgs v (Some z) l -> NoDup l -> z ∉ tl -> linked pgs e tl -> pgs !! z = Some p -> linked (<[z := set_pp_link e p]> pgs) v (l ++ tl).
Proof.
  intros (l' & q & -> & Hc & Hq) Hnd Hz Hl Hp. apply NoDup_app in Hnd as (_ & Hd & _). assert (Hz' : z ∉ l') by (intros Hz'; apply (Hd z Hz'); left).
  rewrite <- app_assoc. apply chain_linked, chain_app. exists (Some z). split; [by apply chain_frame|]. split; [done|]. exists (set_pp_link e p). rewrite lookup_insert_eq. split; [done|]. apply chain_linked. by apply linked_frame.
Qed.

Section sort.
Context (pgs0 : gmap Z PageInfo).

(** What holds while the lists [l0] and [l1] are built and [rest] is still to be done *)
Record sorting (l0 l1 rest : list Z) (h : option Z) (a : lists2) (s : kstate) : Prop := {
  so_rest : linked (pages s) h rest;
  so_nodup : NoDup (l0 ++ l1 ++ rest);
  so_refs : same_refs pgs0 (pages s);
  so_low : open_list (pages s) (pp1 a) (tp0 a) l0;
  so_high : open_list (pages s) (pp2 a) (tp1 a) l1;
}.

Lemma sort_nodup (l0 l1 : list Z) i rest : NoDup (l0 ++ l1 ++ i :: rest) -> i ∉ l0 /\ i ∉ l1 /\ i ∉ rest /\ NoDup (l0 ++ [i]) /\ NoDup (l1 ++ [i]) /\ NoDup ((l0 ++ [i]) ++ l1 ++ rest) /\ NoDup (l0 ++ (l1 ++ [i]) ++ rest) /\ NoDup rest.
Proof.
  intros Hnd. assert (P1 : (l0 ++ l1 ++ i :: rest) ≡ₚ ((l0 ++ [i]) ++ l1 ++ rest)) by (rewrite <- !app_assoc; apply Permutation_app_head; by rewrite <- Permutation_middle).
  assert (P2 : (l0 ++ l1 ++ i :: rest) = (l0 ++ (l1 ++ [i]) ++ rest)) by (by rewrite <- !app_assoc). pose proof Hnd as H1. rewrite P1 in H1. pose proof Hnd as H2. rewrite P2 in H2.
  pose proof Hnd as H3. apply NoDup_app in H3 as (_ & D0 & H3). apply NoDup_app in H3 as (_ & D1 & H3). apply NoDup_cons in H3 as [D2 H3].
  split_and!; try done.
  - intros Hi. apply (D0 i Hi). apply elem_of_app. right. left.
  - intros Hi. apply (D1 i Hi). left.
  - by apply NoDup_app in H1 as (H1 & _ & _).
  - apply NoDup_app in H2 as (_ & _ & H2). by apply NoDup_app in H2 as (H2 & _ & _).
Qed.


Lemma sort_page_ok i l0 l1 rest a s : 0 <= i < 65536 -> sorting l0 l1 (i :: rest) (Some i) a s ->
  exists a' s' p, sort_page 1 i a s = Ret a' s' /\ s' = set_pages (pages s') s /\ pages s' !! i = Some p /\
    if decide (i < 1024) then sorting (l0 ++ [i]) l1 rest (pp_link p) a' s' else sorting l0 (l1 ++ [i]) rest (pp_link p) a' s'.
Proof.
  intros Hi [Hr Hnd Hs H0 H1]. destruct (sort_nodup _ _ _ _ Hnd) as (N0 & N1 & N2 & N3 & N4 & N5 & N6 & N7). destruct Hr as (_ & p & Hp & Hr). unfold sort_page. rewrite PDX_page by done.
  assert (Hdis : forall l z, (l = l0 \/ l = l1) -> z ∈ l -> z ∉ rest /\ z <> i).
  { intros l z Hl Hz. split; [|by intros ->; destruct Hl as [-> | ->]]. intros Hzr. apply NoDup_app in Hnd as (_ & D0 & Hnd). apply NoDup_app in Hnd as (_ & D1 & _).
    destruct Hl as [-> | ->]; [apply (D0 z Hz), elem_of_app; right; by right|apply (D1 z Hz); by right]. }
  destruct (decide (i < 1024)) as [Hlo|Hhi].
  - rewrite (proj2 (Z.leb_gt _ _)) by dlia. unfold put0. destruct (tp0 a) as [z|] eqn:Et.
    + destruct H0 as (l' & q & El & Hc & Hq). assert (Hz : z ∈ l0) by (rewrite El; apply elem_of_app; right; left). destruct (Hdis l0 z ltac:(by left) Hz) as [Z1 Z2]. ks. rewrite (upd_page_eq s z q) by done. ks.
      eexists _, _, p. split; [reflexivity|]. split; [by destruct s|]. cbn [pages set_pages]. split; [by rewrite lookup_insert_ne|]. split; cbn [pages set_pages pp1 pp2 tp0 tp1].
      * by apply linked_frame.
      * done.
      * by apply same_refs_link.
      * apply open_list_push; [by exists l', q|done|by exists p|done].
      * apply open_list_frame; [|done]. intros Hz1. apply NoDup_app in Hnd as (_ & D0 & _). apply (D0 z Hz), elem_of_app. by left.
    + cbn in H0. subst l0. eexists _, s, p. split; [reflexivity|]. split; [by destruct s|]. split; [done|]. split; try done. exists [], p. by split_and!.
  - rewrite (proj2 (Z.leb_le _ _)) by dlia. unfold put1. destruct (tp1 a) as [z|] eqn:Et.
    + destruct H1 as (l' & q & El & Hc & Hq). assert (Hz : z ∈ l1) by (rewrite El; apply elem_of_app; right; left). destruct (Hdis l1 z ltac:(by right) Hz) as [Z1 Z2]. ks. rewrite (upd_page_eq s z q) by done. ks.
      eexists _, _, p. split; [reflexivity|]. split; [by destruct s|]. cbn [pages set_pages]. split; [by rewrite lookup_insert_ne|]. split; cbn [pages set_pages pp1 pp2 tp0 tp1].
      * by apply linked_frame.
      * done.
      * by apply same_refs_link.
      * apply open_list_frame; [|done]. intros Hz1. apply NoDup_app in Hnd as (_ & D0 & _). apply (D0 z Hz1), elem_of_app. by left.
      * apply open_list_push; [by exists l', q|done|by exists p|done].
    + cbn in H1. subst l1. eexists _, s, p. split; [reflexivity|]. split; [by destruct s|]. split; [done|]. split; try done. exists [], p. by split_and!.
Qed.

Lemma sort_loop fuel : forall rest l0 l1 h a s, sorting l0 l1 rest h a s -> (length rest < fuel)%nat -> (forall i, i ∈ rest -> 0 <= i < 65536) ->
  exists a' s', for_free fuel h (sort_page 1) a s = Ret a' s' /\ s' = set_pages (pages s') s /\
    sorting (l0 ++ filter (fun i => i < 1024) rest) (l1 ++ filter (fun i => ~ i < 1024) rest) [] None a' s'.
Proof.
  induction fuel as [|fuel IH]; intros rest l0 l1 h a s S Hf Hin; [lia|]. destruct rest as [|i rest].
  - pose proof (so_rest _ _ _ _ _ _ S) as Hh. cbn in Hh. subst h. exists a, s. split; [done|]. split; [by destruct s|]. cbn [filter list_filter]. by rewrite !app_nil_r.
  - assert (Hh : h = Some i) by apply (so_rest _ _ _ _ _ _ S). subst h. cbn [for_free]. destruct (sort_page_ok i l0 l1 rest a s) as (a1 & s1 & p & E1 & P1 & Hp & S1); [apply Hin; left|done|].
    rewrite (bind_Ret _ _ _ _ _ E1). rewrite (bind_Ret _ _ _ _ _ (get_page_eq s1 i p Hp)). rewrite !filter_cons. destruct (decide (i < 1024)) as [Hlo|Hhi].
    + destruct (IH rest _ _ _ _ _ S1) as (a' & s' & E & P & S'); [cbn in Hf; lia|intros j Hj; apply Hin; by right|]. exists a', s'. split; [done|]. split; [rewrite P, P1; by destruct s|]. rewrite (decide_False (P := ~ i < 1024)) by (intros Hn; by apply Hn). by rewrite <- app_assoc in S'.
    + destruct (IH rest _ _ _ _ _ S1) as (a' & s' & E & P & S'); [cbn in Hf; lia|intros j Hj; apply Hin; by right|]. exists a', s'. split; [done|]. split; [rewrite P, P1; by destruct s|]. rewrite (decide_True (P := ~ i < 1024)) by done. by rewrite <- app_assoc in S'.
Qed.
End sort.

Lemma range_length (l : list Z) n : NoDup l -> (forall i, i ∈ l -> 0 <= i < n) -> (length l <= Z.to_nat n)%nat.
Proof.
  intros Hnd Hr. rewrite <- (length_seqZ 0 n). apply submseteq_length, NoDup_submseteq; [done|]. intros i Hi. apply elem_of_seqZ. specialize (Hr i Hi). lia.
Qed.

(** The free list with its low pages first *)
Definition low_of (l : list Z) : list Z := filter (fun i => i < 1024) l.
Definition high_of (l : list Z) : list Z := filter (fun i => ~ i < 1024) l.

Lemma low_high_perm l : low_of l ++ high_of l ≡ₚ l.
Proof.
  induction l as [|i l IH]; [done|]. unfold low_of, high_of in *. rewrite !filter_cons. destruct (decide (i < 1024)) as [Hi|Hi].
  - rewrite (decide_False (P := ~ i < 1024)) by (intros Hn; by apply Hn). cbn. by rewrite IH.
  - rewrite (decide_True (P := ~ i < 1024)) by done. by rewrite <- Permutation_middle, IH.
Qed.

Lemma low_first_ok l s : linked (pages s) (page_free_list s) l -> NoDup l -> npages s <= 65536 -> (forall i, i ∈ l -> 0 <= i < npages s) ->
  exists s', low_first 1 s = Ret tt s' /\ s' = set_page_free_list (page_free_list s') (set_pages (pages s') s) /\
    linked (pages s') (page_free_list s') (low_of l ++ high_of l) /\ same_refs (pages s) (pages s').
Proof.
  intros Hl Hnd Hn Hr. unfold low_first. rewrite (bind_Ret _ (get free_fuel) s (free_fuel s) s) by done. rewrite (bind_Ret _ (get page_free_list) s (page_free_list s) s) by done. destruct (sort_loop (pages s) (free_fuel s) l [] [] (page_free_list s) (mklists2 None None None None) s) as (a & s1 & E1 & P1 & S).
  - by split.
  - unfold free_fuel. pose proof (range_length l (npages s) Hnd Hr). lia.
  - intros i Hi. specialize (Hr i Hi). lia.
  - rewrite (bind_Ret _ _ _ _ _ E1). destruct S as [_ S2 S3 S4 S5]. cbn [app] in *. rewrite app_nil_r in S2. fold (low_of l) in *. fold (high_of l) in *. apply NoDup_app in S2 as (N0 & D & N1).
    assert (Hhigh : exists s2 a2, put1 None a s1 = Ret a2 s2 /\
      s2 = set_pages (pages s2) s1 /\ pp1 a2 = pp1 a /\ tp0 a2 = tp0 a /\ linked (pages s2) (pp2 a2) (high_of l) /\ open_list (pages s2) (pp1 a) (tp0 a) (low_of l) /\ same_refs (pages s) (pages s2)).
    { unfold put1. destruct (tp1 a) as [z|] eqn:Et.
      - pose proof S5 as (l' & q & El & _ & Hq). rewrite (bind_Ret _ _ _ _ _ (upd_page_eq s1 z q _ Hq)). eexists _, a. split; [reflexivity|]. split; [by destruct s1|]. cbn [pages set_pages]. split_and!; [done|done| | |by apply same_refs_link].
        + rewrite <- (app_nil_r (high_of l)). apply open_list_close; [done|done|apply not_elem_of_nil|done|done].
        + apply open_list_frame; [|done]. intros Hz. apply (D z Hz). rewrite El. apply elem_of_app. right. left.
      - cbn in S5. rewrite S5. eexists s1, _. split; [reflexivity|]. split; [by destruct s1|]. by split_and!. }
    destruct Hhigh as (s2 & a2 & E2 & P2 & Q1 & Q2 & L2 & O2 & R2). rewrite (bind_Ret _ _ _ _ _ E2). unfold put0. rewrite Q2. destruct (tp0 a) as [z|] eqn:Et.
    + pose proof O2 as (l' & q & El & _ & Hq). ks. rewrite (upd_page_eq s2 z q _ Hq). eexists. split; [reflexivity|]. cbn [pages page_free_list set_pages set_page_free_list]. split; [rewrite P2, P1; by destruct s|]. rewrite Q1. split; [|by apply same_refs_link].
      apply open_list_close; try done. intros Hz. apply (D z); [|done]. rewrite El. apply elem_of_app. right. left.
    + cbn in O2. rewrite O2. eexists. split; [reflexivity|]. cbn [pages page_free_list set_pages set_page_free_list pp1 app]. split; [rewrite P2, P1; by destruct s|]. done.
Qed.

(** ** The test itself *)

(** A page that may be on the free list when memory is in use up to page [nf] *)
Definition may_be_free (nf i : Z) : Prop := i <> 0 /\ i <> 7 /\ (i < 160 \/ nf <= i) /\ (256 < nf).

Section test.
Context (s0 : kstate) (Hn : 0 < npages s0 <= 65536) (l : list Z) (Hr : forall i, i ∈ l -> 0 <= i < npages s0).

Lemma fill_loop ks0 i : forall s, 0 <= i < npages s -> (forall k, k ∈ ks0 -> 0 <= k < 1024) -> (forall pg y, 0 <= rdw (mem s) pg y < 2^32) ->
  exists m, kfor ks0 (fun k => kstore (kva i + 4 * k) 0x97979797) s = Ret tt (set_mem m s) /\ (forall pg y, 0 <= rdw m pg y < 2^32) /\ forall pg y, pg <> i -> rdw m pg y = rdw (mem s) pg y.
Proof.
  induction ks0 as [|k ks0 IH]; intros s Hi Hk Hw; [exists (mem s); split; [by destruct s|done]|]. cbn [kfor]. rewrite (bind_Ret _ _ _ _ _ (kstore_kva s i k _ Hi (Hk k ltac:(left)))).
  destruct (IH (set_mem (wrw (mem s) i k 0x97979797) s) Hi) as (m & E & W & F); [intros j Hj; apply Hk; by right|cbn [mem set_mem]; intros pg y; rewrite rdw_wrw; case_decide; [lia|apply Hw]|].
  exists m. split; [rewrite E; by destruct s|]. split; [done|]. intros pg y Hp. rewrite F by done. cbn [mem set_mem]. apply rdw_wrw_ne. naive_solver.
Qed.

Definition scribbled (_ : list Z) (_ : unit) (s : kstate) : Prop :=
  s = set_mem (mem s) s0 /\ (forall pg y, 0 <= rdw (mem s) pg y < 2^32) /\ forall pg y, pg ∉ l -> rdw (mem s) pg y = rdw (mem s0) pg y.
Lemma scribble_ok lim i seen s : i ∈ l -> scribbled seen tt s -> exists u s', scribble lim i tt s = Ret u s' /\ pages s' = pages s /\ scribbled (seen ++ [i]) u s'.
Proof.
  intros Hi (E & W & F). assert (Hni : npages s = npages s0) by (by rewrite E). unfold scribble. destruct (PDX (page2pa i) <? lim); ks; [|exists tt, s; by split_and!].
  rewrite (page2kva_eq s) by (rewrite Hni; auto). ks. destruct (fill_loop (seqZ 0 32) i s) as (m & Em & Wm & Fm); [rewrite Hni; auto|intros k Hk%elem_of_seqZ; lia|done|].
  exists tt, (set_mem m s). split; [exact Em|]. split; [done|]. split; [rewrite E; by destruct s0|]. split; [done|]. intros pg y Hp. cbn [mem set_mem]. rewrite Fm, F by (try done; by intros ->). done.
Qed.

Context (nf : Z) (Hfree : forall i, i ∈ l -> may_be_free nf i).
Definition counted (seen : list Z) (n : Z * Z) (s : kstate) : Prop :=
  s = s0 /\ n = (Z.of_nat (length (filter (fun i => i < 256) seen)), Z.of_nat (length (filter (fun i => ~ i < 256) seen))).
Lemma check_free_ok i seen n s : i ∈ l -> counted seen n s -> exists n' s', check_free (kva nf) i n s = Ret n' s' /\ pages s' = pages s /\ counted (seen ++ [i]) n' s'.
Proof.
  intros Hi [-> ->]. specialize (Hr i Hi). destruct (Hfree i Hi) as (F1 & F2 & F3 & F4). unfold check_free. rewrite page2pa_eq by lia. unfold IOPHYSMEM, EXTPHYSMEM, MPENTRY_PADDR, PGSIZE. ks.
  rewrite (proj2 (Z.leb_le 0 i)), (proj2 (Z.ltb_lt i (npages s0))) by lia. rewrite !(proj2 (Z.eqb_neq (i * 4096) _)) by lia. cbn [negb].
  assert (Ef : filter (fun i => i < 256) [i] = (if decide (i < 256) then [i] else []) /\ filter (fun i => ~ i < 256) [i] = (if decide (i < 256) then [] else [i])).
  { rewrite !filter_cons. destruct (decide (i < 256)); [rewrite (decide_False (P := ~ i < 256)) by (intros Hx; by apply Hx)|rewrite (decide_True (P := ~ i < 256)) by done]; done. }
  destruct (Z.ltb_spec (i * 4096) 0x100000) as [Hlt|Hge].
  - eexists _, s0. split; [reflexivity|]. split; [done|]. split; [done|]. rewrite !filter_app. destruct Ef as [-> ->]. rewrite !decide_True by lia. rewrite !length_app. cbn [length fst snd]. f_equal; lia.
  - rewrite (page2kva_eq s0) by lia. ks. rewrite (proj2 (Z.leb_le (kva nf) (kva i))) by (unfold kva, PGSIZE; lia). eexists _, s0. split; [reflexivity|]. split; [done|]. split; [done|]. rewrite !filter_app. destruct Ef as [-> ->]. rewrite !decide_False by lia. rewrite !length_app. cbn [length fst snd]. f_equal; lia.
Qed.
End test.

Section result.
Context (kend : Z) (s : kstate) (l : list Z) (nf : Z).
Context (Hl : linked (pages s) (page_free_list s) l) (Hnd : NoDup l) (Hn : 0 < npages s <= 65536) (Hr : forall i, i ∈ l -> 0 <= i < npages s).
Context (Hw : forall pg y, 0 <= rdw (mem s) pg y < 2^32) (Hnf : nextfree s = kva nf) (Hnf' : 256 < nf < 1024).
Context (Hfree : forall i, i ∈ l -> may_be_free nf i) (Hbase : exists i, i ∈ l /\ i < 256) (Hext : exists i, i ∈ l /\ 256 <= i).

Lemma elem_length {B} (x : B) (xs : list B) : x ∈ xs -> 0 < Z.of_nat (length xs).
Proof. intros Hx. destruct xs; [by apply elem_of_nil in Hx|cbn [length]; lia]. Qed.

Definition sorted_list (only_low : bool) : list Z := if only_low then low_of l ++ high_of l else l.
Lemma sorted_elem b i : i ∈ sorted_list b <-> i ∈ l.
Proof. destruct b; [|done]. cbn [sorted_list]. by rewrite low_high_perm. Qed.

Lemma boot_alloc_0 s1 : nextfree s1 = kva nf -> boot_alloc kend 0 s1 = Ret (kva nf) s1.
Proof. intros E. unfold boot_alloc. ks. rewrite E. rewrite (proj2 (Z.eqb_neq (kva nf) 0)) by (unfold kva, PGSIZE; clia). cbn [Z.ltb Z.compare]. rewrite E. rewrite (proj2 (Z.ltb_lt _ _)) by (unfold kva, PGSIZE; clia). done. Qed.

(** The two walks over a sorted list *)
Lemma check_walks lim s1 l1 : (forall i, i ∈ l1 <-> i ∈ l) -> NoDup l1 -> linked (pages s1) (page_free_list s1) l1 -> npages s1 = npages s -> nextfree s1 = nextfree s -> (forall pg y, 0 <= rdw (mem s1) pg y < 2^32) ->
  exists s', (fuel ← get free_fuel; head ← get page_free_list; for_free fuel head (scribble lim) tt;; first_free_page ← boot_alloc kend 0; head ← get page_free_list;
      n ← for_free fuel head (check_free first_free_page) (0, 0); kassert (0 <? n.1);; kassert (0 <? n.2)) s1 = Ret tt s' /\
    s' = set_mem (mem s') s1 /\ (forall pg y, 0 <= rdw (mem s') pg y < 2^32) /\ forall pg y, pg ∉ l -> rdw (mem s') pg y = rdw (mem s1) pg y.
Proof.
  intros Hel Hnd1 Hl1 Hn1 Hf1 Hw1. rewrite (bind_Ret _ (get free_fuel) s1 (free_fuel s1) s1) by done. rewrite (bind_Ret _ (get page_free_list) s1 (page_free_list s1) s1) by done.
  assert (Hr1 : forall i, i ∈ l1 -> 0 <= i < npages s1) by (intros i Hi%Hel; rewrite Hn1; auto). assert (Hlen : (length l1 < free_fuel s1)%nat) by (unfold free_fuel; pose proof (range_length l1 (npages s1) Hnd1 Hr1); lia).
  destruct (for_free_ok (scribble lim) (scribbled s1 l1) (free_fuel s1) l1 [] (page_free_list s1) tt s1) as ([] & s2 & E2 & P2 & S2 & W2 & F2); [done|done|split; [by destruct s1|done]| |].
  { intros i a b [] s' Hs HI. apply scribble_ok; [rewrite Hn1; lia|done| |done]. cbn in Hs. rewrite Hs. apply elem_of_app. right. left. }
  rewrite (bind_Ret _ _ _ _ _ E2). assert (Hf2 : nextfree s2 = kva nf) by (rewrite S2; cbn; congruence). rewrite (bind_Ret _ _ _ _ _ (boot_alloc_0 s2 Hf2)).
  rewrite (bind_Ret _ (get page_free_list) s2 (page_free_list s2) s2) by done. assert (Efl : page_free_list s2 = page_free_list s1) by (by rewrite S2). assert (En : npages s2 = npages s1) by (by rewrite S2).
  destruct (for_free_ok (check_free (kva nf)) (counted s2) (free_fuel s1) l1 [] (page_free_list s2) (0, 0) s2) as (n & s3 & E3 & P3 & -> & ->); [by rewrite Efl, P2|done|by split| |].
  { intros i a b acc s' Hs HI. cbn in Hs. assert (Hi : i ∈ l1) by (rewrite Hs; apply elem_of_app; right; left). eapply check_free_ok; [rewrite En, Hn1; lia|intros j Hj; rewrite En; by apply Hr1|intros j Hj; by apply Hfree, Hel|exact Hi|done]. }
  rewrite (bind_Ret _ _ _ _ _ E3). cbn [app fst snd]. unfold kassert. rewrite !(proj2 (Z.ltb_lt 0 _)).
  - exists s2. split; [done|]. split; [done|]. split; [done|]. intros pg y Hp. apply F2. by rewrite Hel.
  - destruct Hbase as (i & Hi & Hlt). apply (elem_length i), list_elem_of_filter. split; [lia|by apply Hel].
  - destruct Hext as (i & Hi & Hge). apply (elem_length i), list_elem_of_filter. split; [lia|by apply Hel].
Qed.

Lemma check_page_free_list_ok b : exists s', check_page_free_list kend b s = Ret tt s' /\
  s' = set_mem (mem s') (set_page_free_list (page_free_list s') (set_pages (pages s') s)) /\
  linked (pages s') (page_free_list s') (sorted_list b) /\ same_refs (pages s) (pages s') /\
  (forall pg y, 0 <= rdw (mem s') pg y < 2^32) /\ forall pg y, pg ∉ l -> rdw (mem s') pg y = rdw (mem s) pg y.
Proof.
  unfold check_page_free_list. rewrite (bind_Ret _ (get page_free_list) s (page_free_list s) s) by done. destruct (page_free_list s) as [h|] eqn:Eh.
  2: { exfalso. destruct Hbase as (i & Hi & _). destruct l; [by apply elem_of_nil in Hi|]. by destruct Hl. }
  erewrite bind_Ret by reflexivity. destruct b; cbn [when sorted_list].
  - destruct (low_first_ok l s) as (s1 & E1 & P1 & L1 & R1); [by rewrite Eh|done|lia|done|]. rewrite (bind_Ret _ _ _ _ _ E1).
    destruct (check_walks 1 s1 (low_of l ++ high_of l)) as (s' & E & P & W & F); [intros i; by rewrite low_high_perm|by rewrite low_high_perm|done|by rewrite P1|by rewrite P1|intros pg y; rewrite P1; apply Hw|].
    exists s'. split; [exact E|]. split; [rewrite P, P1; by destruct s|]. rewrite P. cbn [pages page_free_list set_mem]. split; [done|]. split; [done|]. cbn [mem set_mem]. split; [done|]. intros pg y Hp. rewrite F by done. by rewrite P1.
  - erewrite bind_Ret by reflexivity. destruct (check_walks NPDENTRIES s l) as (s' & E & P & W & F); [done|done|by rewrite Eh|done|done|done|].
    exists s'. split; [exact E|]. split; [rewrite P; by destruct s|]. rewrite P. cbn [pages page_free_list set_mem mem]. rewrite Eh. split; [done|]. split; [by intros i|]. done.
Qed.
End result.
