(* ===== verification/MemInitThms.v ===== *)
(** * MemInitThms: the kernel's address space after boot

    [mem_init] returns, leaves every free page on the free list, and maps the kernel, its stacks
    and the tables that user programs may read, each where and with the rights it should have. *)

From S2P Require Import Prelude Layout KState Pmap VmRefs VmInv VmOps VmThms KInv Env EnvThms PageInit MemInit KernMap FreeCheck.

(** ** The address space *)

(** The CPU whose stack or guard area an address lies in, and the lowest address of a stack *)
Definition stack_no (va : Z) : Z := (KSTACKTOP - 1 - va) / (KSTKSIZE + KSTKGAP).
Definition stack_base (i : Z) : Z := KSTACKTOP - i * (KSTKSIZE + KSTKGAP) - KSTKSIZE.
Definition in_stack (i va : Z) : Prop := in_pages (stack_base i) 8 va.
#[export] Instance in_stack_dec i va : Decision (in_stack i va).
Proof. unfold in_stack. apply _. Defined.

Lemma in_stack_no i va : in_stack i va -> stack_no va = i.
Proof. unfold in_stack, in_pages, stack_base, stack_no. autounfold with cconst. intros. dlia. Qed.
Lemma stack_kpde i k : 0 <= i < 8 -> 0 <= k < 8 -> kpde (PDX (stack_base i + k * 4096)).
Proof. intros Hi Hk. unfold kpde. rewrite PDX_UVPT, PDX_div. unfold stack_base. autounfold with cconst. dlia. Qed.

Lemma PADDR_kern s va : KERNBASE <= va < 2^32 -> PADDR va s = Ret (va - KERNBASE) s.
Proof. intros Hva. unfold PADDR. rewrite u32_small by clia. rewrite (proj2 (Z.ltb_ge _ _)) by lia. rewrite u32_small by clia. done. Qed.

Section map.
Context (bootstack percpu_kstacks : Z).
Context (Hboot : KERNBASE <= bootstack < 2^32) (Hstacks : KERNBASE <= percpu_kstacks) (Hstacks' : percpu_kstacks + NCPU * KSTKSIZE <= 2^32).

(** The stacks of the CPUs from [k] on *)
Lemma mp_loop n : forall k L H kd s, 0 <= k -> k + Z.of_nat n <= 8 -> kboot L H kd s ->
  exists L' s', kfor (seqZ k (Z.of_nat n)) (fun i => kd ← get kern_pgdir; pa ← PADDR (percpu_kstacks + i * KSTKSIZE);
      boot_map_region kd (KSTACKTOP - i * (KSTKSIZE + KSTKGAP) - KSTKSIZE) KSTKSIZE pa PTE_W) s = Ret tt s' /\
    kboot L' H kd s' /\ vm_frame s s' /\ klog s' = klog s /\ L' `suffix_of` L /\
    forall va, 0 <= va < 2^32 -> kpde (PDX va) ->
      vmap (mem s') kd va = if decide (k <= stack_no va < k + Z.of_nat n /\ in_stack (stack_no va) va)
        then Some (region_pte (percpu_kstacks - KERNBASE + stack_no va * KSTKSIZE) PTE_W ((va - stack_base (stack_no va)) / 4096)) else vmap (mem s) kd va.
Proof.
  induction n as [|n IH]; intros k L H kd s Hk Hn I.
  - exists L, s. rewrite seqZ_nil by lia. split; [done|]. split; [done|]. split; [auto with frame|]. split; [done|]. split; [done|]. intros va _ _. rewrite decide_False by lia. done.
  - rewrite seqZ_cons by lia. cbn [kfor]. assert (Hpa : PADDR (percpu_kstacks + k * KSTKSIZE) s = Ret (percpu_kstacks + k * KSTKSIZE - KERNBASE) s) by (apply PADDR_kern; unfold NCPU, KSTKSIZE, PGSIZE in *; lia).
    destruct (boot_map_ok L H kd s (stack_base k) KSTKSIZE (percpu_kstacks + k * KSTKSIZE - KERNBASE) PTE_W I) as (L1 & s1 & E1 & I1 & F1 & K1 & S1 & V1).
    1-5: unfold stack_base; autounfold with cconst; dlia. { intros i Hi. apply stack_kpde; [lia|]. exact Hi. }
    erewrite bind_Ret; [|erewrite bind_Ret; [|reflexivity]; rewrite (proj1 (kb_dir _ _ _ _ I)); erewrite bind_Ret; [|exact Hpa]; exact E1].
    replace (Z.pred (Z.of_nat (S n))) with (Z.of_nat n) by lia. destruct (IH (Z.succ k) L1 H kd s1 ltac:(lia) ltac:(lia) I1) as (L2 & s2 & E2 & I2 & F2 & K2 & S2 & V2).
    exists L2, s2. split; [exact E2|]. split; [done|]. split; [by eapply vm_frame_trans|]. split; [congruence|]. split; [by etransitivity|].
    intros va Hva Hx. rewrite V2 by done. specialize (V1 va Hva Hx). change (KSTKSIZE / 4096) with 8 in V1. destruct (decide (in_stack k va)) as [Hin|Hout].
    + pose proof (in_stack_no k va Hin) as Hno. rewrite decide_False by lia. rewrite V1, decide_True by exact Hin. rewrite decide_True by (rewrite Hno; split; [lia|done]). rewrite Hno. do 2 f_equal. lia.
    + rewrite decide_False in V1 by exact Hout. rewrite V1. destruct (decide (Z.succ k <= stack_no va < _ /\ _)) as [Hd|Hd]; [rewrite decide_True; [done|]; split; [lia|apply Hd]|].
      rewrite decide_False; [done|]. intros [H1 H2]. destruct (decide (stack_no va = k)) as [E|]; [by rewrite E in H2|]. apply Hd. split; [lia|done].
Qed.

(** What an address above [UTOP] is mapped to, the window of the page tables left out *)
Definition kernel_entry (pages_pa envs_pa va : Z) : option Z :=
  if decide (in_pages KERNBASE 65535 va) then Some (region_pte 0 PTE_W ((va - KERNBASE) / 4096))
  else if decide (0 <= stack_no va < NCPU /\ in_stack (stack_no va) va)
    then Some (region_pte (percpu_kstacks - KERNBASE + stack_no va * KSTKSIZE) PTE_W ((va - stack_base (stack_no va)) / 4096))
  else if decide (in_pages UENVS 1024 va) then Some (region_pte envs_pa PTE_U ((va - UENVS) / 4096))
  else if decide (in_pages UPAGES 1024 va) then Some (region_pte pages_pa PTE_U ((va - UPAGES) / 4096))
  else None.

Lemma region_kpde va n : (forall i, 0 <= i < n -> 955 <= PDX (va + i * 4096) /\ PDX (va + i * 4096) <> 957) -> forall i, 0 <= i < n -> kpde (PDX (va + i * 4096)).
Proof. intros H i Hi. unfold kpde. rewrite PDX_UVPT. pose proof (PDX_range (va + i * 4096)). specialize (H i Hi). lia. Qed.

Lemma mem_init_map_ok L H kd s pages_va envs_va : kboot L H kd s -> KERNBASE <= pages_va < 2^32 -> KERNBASE <= envs_va < 2^32 ->
  (forall va, 0 <= va < 2^32 -> kpde (PDX va) -> vmap (mem s) kd va = None) ->
  exists L' s', mem_init_map bootstack percpu_kstacks pages_va envs_va s = Ret tt s' /\ kboot L' H kd s' /\ vm_frame s s' /\ klog s' = klog s /\ L' `suffix_of` L /\
    forall va, 0 <= va < 2^32 -> kpde (PDX va) -> vmap (mem s') kd va = kernel_entry (pages_va - KERNBASE) (envs_va - KERNBASE) va.
Proof.
  intros I Hp He Hnone. unfold mem_init_map. erewrite bind_Ret by reflexivity. rewrite (proj1 (kb_dir _ _ _ _ I)). erewrite bind_Ret by reflexivity. rewrite (kb_pse _ _ _ _ I). change (0 =? 1) with false. cbn iota.
  erewrite bind_Ret by (by apply PADDR_kern).
  destruct (boot_map_ok L H kd s UPAGES PTSIZE (pages_va - KERNBASE) PTE_U I) as (L1 & s1 & E1 & I1 & F1 & K1 & S1 & V1). 1-5: done. { apply region_kpde. intros i Hi. rewrite PDX_div. change UPAGES with 0xef000000. change (PTSIZE / 4096) with 1024 in Hi. dlia. }
  rewrite (bind_Ret _ _ _ _ _ E1). erewrite bind_Ret by (by apply PADDR_kern).
  destruct (boot_map_ok L1 H kd s1 UENVS PTSIZE (envs_va - KERNBASE) PTE_U I1) as (L2 & s2 & E2 & I2 & F2 & K2 & S2 & V2). 1-5: done. { apply region_kpde. intros i Hi. rewrite PDX_div. change UENVS with 0xeec00000. change (PTSIZE / 4096) with 1024 in Hi. dlia. }
  rewrite (bind_Ret _ _ _ _ _ E2). erewrite bind_Ret by (by apply PADDR_kern).
  destruct (boot_map_ok L2 H kd s2 (KSTACKTOP - KSTKSIZE) KSTKSIZE (bootstack - KERNBASE) PTE_W I2) as (L3 & s3 & E3 & I3 & F3 & K3 & S3 & V3). 1-5: done. { intros i Hi. change (KSTACKTOP - KSTKSIZE) with (stack_base 0). apply stack_kpde; [lia|exact Hi]. }
  rewrite (bind_Ret _ _ _ _ _ E3).
  destruct (boot_map_ok L3 H kd s3 KERNBASE (2^32 - 1 - KERNBASE) 0 PTE_W I3) as (L4 & s4 & E4 & I4 & F4 & K4 & S4 & V4). 1-5: done. { apply region_kpde. intros i Hi. rewrite PDX_div. change KERNBASE with 0xf0000000. change ((2^32 - 1 - KERNBASE) / 4096) with 65535 in Hi. dlia. }
  rewrite (bind_Ret _ _ _ _ _ E4).
  destruct (mp_loop 8 0 L4 H kd s4 ltac:(lia) ltac:(lia) I4) as (L5 & s5 & E5 & I5 & F5 & K5 & S5 & V5). exists L5, s5. split; [exact E5|]. split; [done|].
  split; [do 4 (eapply vm_frame_trans; [eassumption|]); done|]. split; [congruence|]. split; [by do 4 (etransitivity; [eassumption|])|].
  intros va Hva Hx. rewrite V5, V4, V3, V2, V1, Hnone by done. unfold kernel_entry. change (PTSIZE / 4096) with 1024. change ((2^32 - 1 - KERNBASE) / 4096) with 65535. change (Z.of_nat 8) with NCPU. rewrite Z.add_0_l.
  destruct (decide (in_pages KERNBASE 65535 va)) as [Hk|Hk].
  - rewrite decide_False; [done|]. intros [[Hs _] _]. unfold in_pages in Hk. unfold stack_no in Hs. autounfold with cconst in Hk, Hs. dlia.
  - destruct (decide (0 <= stack_no va < NCPU /\ in_stack (stack_no va) va)) as [|Hs]; [done|]. rewrite (decide_False (P := in_pages (KSTACKTOP - KSTKSIZE) _ va)); [done|].
    intros Hb. apply Hs. assert (Hb' : in_stack 0 va) by exact Hb. rewrite (in_stack_no 0 va Hb'). done.
Qed.
End map.

(** The receive buffers *)
Lemma mem_init_rx_ok L H kd s rx_va : kboot L H kd s -> KERNBASE <= rx_va < 2^32 ->
  exists L' s', mem_init_rx rx_va s = Ret tt s' /\ kboot L' H kd s' /\ vm_frame s s' /\ klog s' = klog s /\ L' `suffix_of` L /\
    forall va, 0 <= va < 2^32 -> kpde (PDX va) -> vmap (mem s') kd va =
      if decide (in_pages RX_BUF_ADDR 64 va) then Some (region_pte (rx_va - KERNBASE) PTE_U ((va - RX_BUF_ADDR) / 4096)) else vmap (mem s) kd va.
Proof.
  intros I Hrx. unfold mem_init_rx. erewrite bind_Ret by reflexivity. rewrite (proj1 (kb_dir _ _ _ _ I)). erewrite bind_Ret by (by apply PADDR_kern).
  apply (boot_map_ok L H kd s RX_BUF_ADDR sizeof_rx_bufs (rx_va - KERNBASE) PTE_U I). 1-5: done.
  apply region_kpde. intros i Hi. rewrite PDX_div. change RX_BUF_ADDR with 0xff500000. change (sizeof_rx_bufs / 4096) with 64 in Hi. dlia.
Qed.

(** ** The kernel's tables *)

(** The pages that [n] bytes take *)
Definition up (n : Z) : Z := (n + 4095) / 4096.
Lemma up_ROUNDUP n : 0 <= n < 2^31 -> ROUNDUP n PGSIZE = up n * 4096.
Proof. intros Hn. rewrite ROUNDUP_page by lia. done. Qed.

Lemma boot_alloc_next kend n k s : nextfree s = kva k -> 0 <= k -> 0 < n < 2^31 -> k + up n < 1024 ->
  boot_alloc kend n s = Ret (kva k) (set_nextfree (kva (k + up n)) s).
Proof.
  intros Hk Hk0 Hn Hup. assert (Hu : 0 < up n) by (unfold up; dlia). unfold boot_alloc. ks. rewrite Hk. rewrite (proj2 (Z.eqb_neq (kva k) 0)) by (unfold kva; clia). rewrite Hk. rewrite (proj2 (Z.ltb_lt 0 n)) by lia. ks.
  cbn [nextfree set_nextfree]. rewrite up_ROUNDUP by lia. unfold kva, PGSIZE. rewrite u32_small by clia. rewrite (proj2 (Z.ltb_lt _ _)) by lia. do 2 f_equal. lia.
Qed.
Lemma boot_alloc_start kend n k s : nextfree s = 0 -> ROUNDUP kend PGSIZE = kva k -> 0 <= k -> 0 < n < 2^31 -> k + up n < 1024 ->
  boot_alloc kend n s = Ret (kva k) (set_nextfree (kva (k + up n)) s).
Proof.
  intros Hz Hk Hk0 Hn Hup. etransitivity; [|exact (boot_alloc_next kend n k (set_nextfree (kva k) s) eq_refl Hk0 Hn Hup)]. unfold boot_alloc. ks. rewrite Hz, Hk. cbn [nextfree set_nextfree]. change (0 =? 0) with true. cbn iota. by rewrite (proj2 (Z.eqb_neq (kva k) 0)) by (unfold kva; clia).
Qed.

Lemma zero_loop n k : forall i s, 0 <= k + i -> k + i + Z.of_nat n <= npages s -> (forall pg y, 0 <= rdw (mem s) pg y < 2^32) ->
  exists m, kfor (seqZ i (Z.of_nat n)) (fun i => zero_kva (kva k + i * PGSIZE)) s = Ret tt (set_mem m s) /\ (forall pg y, 0 <= rdw m pg y < 2^32) /\
    forall pg y, ~ (k + i <= pg < k + i + Z.of_nat n) -> rdw m pg y = rdw (mem s) pg y.
Proof.
  induction n as [|n IH]; intros i s Hi Hn Hw; [exists (mem s); rewrite seqZ_nil by lia; split; [by destruct s|done]|]. rewrite seqZ_cons by lia. cbn [kfor].
  assert (Ek : kva k + i * PGSIZE = kva (k + i)) by (unfold kva; lia). rewrite Ek. rewrite (bind_Ret _ _ _ _ _ (zero_kva_eq s (k + i) ltac:(lia))). replace (Z.pred (Z.of_nat (S n))) with (Z.of_nat n) by lia.
  destruct (IH (Z.succ i) (set_mem (zero_page (mem s) (k + i)) s)) as (m & E & W & F); [lia|cbn; lia|intros; by apply zero_page_word|]. exists m. split; [rewrite E; by destruct s|]. split; [done|].
  intros pg y Hp. rewrite F by lia. cbn [mem set_mem]. rewrite rdw_zero_page, decide_False by lia. done.
Qed.

Section machine.
Context (kend bootstack percpu_kstacks : Z) (cmos : Z -> Z).

(** Pages of memory, and the first page behind the kernel's tables, which start at page [k0] *)
Definition ext_pages : Z := nvram_read cmos NVRAM_EXTLO * 1024 / PGSIZE.
Definition base_pages : Z := nvram_read cmos NVRAM_BASELO * 1024 / PGSIZE.
Definition mem_pages : Z := 256 + ext_pages.
Definition pages_end (k0 : Z) : Z := k0 + 1 + up (8 * mem_pages).
Definition kern_end (k0 : Z) : Z := pages_end k0 + 32 + 64.

(** The machine when the kernel starts: its globals are cleared, the kernel and its tables fit into
    the first 4 MB, there is more memory than that, and at least 76 pages of base memory. *)
Record power_on (k0 : Z) (s : kstate) : Prop := {
  po_kend : ROUNDUP kend PGSIZE = kva k0 /\ 256 < k0;
  po_stacks : KERNBASE <= bootstack < 2^32 /\ KERNBASE <= percpu_kstacks /\ percpu_kstacks + NCPU * KSTKSIZE <= 2^32 /\ percpu_kstacks mod PGSIZE = 0;
  po_cmos : forall r, 0 <= cmos r < 256;
  po_base : 76 <= base_pages <= 160;
  po_ext : kern_end k0 < 1024 < mem_pages;
  po_globals : nextfree s = 0 /\ page_free_list s = None /\ pse_support s = 0;
  po_word : forall pg y, 0 <= rdw (mem s) pg y < 2^32;
  po_cpu : exists c, cpus s !! cpunum s = Some c /\ cpu_env c = None;
}.

Context (k0 : Z) (s : kstate) (P : power_on k0 s).

Lemma mem_bounds : 256 < k0 /\ 0 <= up (8 * mem_pages) /\ kern_end k0 < 1024 /\ 1024 < mem_pages <= 16639.
Proof.
  destruct P as [[_ H1] _ Hc _ [H2 H3] _ _ _]. assert (Hn : 0 <= nvram_read cmos NVRAM_EXTLO < 2^16).
  { unfold nvram_read. apply lor_bound; [lia|pose proof (Hc NVRAM_EXTLO); lia|]. rewrite shiftl_mul by lia. pose proof (Hc (NVRAM_EXTLO + 1)). lia. }
  assert (He : 0 <= ext_pages <= 16383) by (unfold ext_pages, PGSIZE; dlia). split; [done|]. split; [unfold up, mem_pages; dlia|]. split; [done|]. split; [done|]. unfold mem_pages. lia.
Qed.

(** After [i386_detect_memory] *)
Definition s_detected : kstate := set_npages mem_pages (set_npages_basemem base_pages s).
Lemma detect_ok : i386_detect_memory cmos s = Ret tt s_detected.
Proof.
  unfold i386_detect_memory. ks. fold base_pages. fold ext_pages. pose proof mem_bounds as (B0 & Bu & B1 & B2). assert (Ht : truth ext_pages = true) by (unfold truth; apply negb_true_iff, Z.eqb_neq; unfold mem_pages, kern_end, pages_end, mem_pages in *; lia).
  rewrite Ht. done.
Qed.

(** After the kernel's tables have been made *)
Definition s_tables (m : memory) : kstate :=
  set_nextfree (kva (kern_end k0)) (set_mem m (set_envs null_envs (set_pages (null_pages mem_pages) (set_kern_pgdir (kva k0) s_detected)))).

Lemma uvpt_value : k0 * 4096 .| PTE_U .| PTE_P = mkpte k0 PTE_U.
Proof. unfold mkpte, PGSHIFT. by rewrite shiftl_mul by lia. Qed.

Lemma mem_init_alloc_ok : exists m, mem_init_alloc kend s_detected = Ret (kva (k0 + 1), kva (pages_end k0), kva (pages_end k0 + 32)) (s_tables m) /\
  (forall pg y, 0 <= rdw m pg y < 2^32) /\ forall y, rdw m k0 y = if decide (y = PDX UVPT) then mkpte k0 PTE_U else 0.
Proof.
  destruct mem_bounds as (B0 & Bu & B1 & B2). unfold kern_end, pages_end in *. destruct (po_globals _ _ P) as (G1 & G2 & G3). destruct (po_kend _ _ P) as [Hk _]. unfold mem_init_alloc.
  rewrite (bind_Ret _ _ _ _ _ (boot_alloc_start kend PGSIZE k0 s_detected G1 Hk ltac:(lia) ltac:(done) ltac:(change (up PGSIZE) with 1; lia))). change (up PGSIZE) with 1. erewrite bind_Ret by reflexivity.
  set (t1 := set_kern_pgdir _ _). rewrite (bind_Ret _ _ _ _ _ (zero_kva_eq t1 k0 ltac:(cbn; lia))). set (t2 := set_mem _ t1). rewrite (bind_Ret _ _ _ _ _ (PADDR_kern t2 (kva k0) ltac:(unfold kva; clia))).
  assert (Ekd : kva k0 - KERNBASE = k0 * 4096) by (unfold kva, PGSIZE; lia). rewrite Ekd, uvpt_value. rewrite (bind_Ret _ _ _ _ _ (kstore_kva t2 k0 (PDX UVPT) (mkpte k0 PTE_U) ltac:(cbn; lia) ltac:(done))). set (t3 := set_mem _ t2).
  rewrite (bind_Ret _ (get npages) t3 mem_pages t3) by done. assert (Hsz : u32 (sizeof_PageInfo * mem_pages) = 8 * mem_pages) by (unfold sizeof_PageInfo; apply u32_small; lia). rewrite Hsz.
  rewrite (bind_Ret _ _ _ _ _ (boot_alloc_next kend (8 * mem_pages) (k0 + 1) t3 eq_refl ltac:(lia) ltac:(lia) ltac:(lia))). erewrite bind_Ret by reflexivity. set (t4 := set_pages _ _).
  rewrite (bind_Ret _ _ _ _ _ (boot_alloc_next kend (sizeof_Env * NENV) (k0 + 1 + up (8 * mem_pages)) t4 eq_refl ltac:(lia) ltac:(done) ltac:(change (up (sizeof_Env * NENV)) with 32; lia))). change (up (sizeof_Env * NENV)) with 32.
  erewrite bind_Ret by reflexivity. set (t5 := set_envs _ _).
  rewrite (bind_Ret _ _ _ _ _ (boot_alloc_next kend sizeof_rx_bufs (k0 + 1 + up (8 * mem_pages) + 32) t5 eq_refl ltac:(lia) ltac:(done) ltac:(change (up sizeof_rx_bufs) with 64; lia))). change (up sizeof_rx_bufs) with 64. set (t6 := set_nextfree _ _).
  assert (Hw : forall pg y, 0 <= rdw (mem t6) pg y < 2^32).
  { intros pg y. change (mem t6) with (wrw (zero_page (mem s) k0) k0 (PDX UVPT) (mkpte k0 PTE_U)). rewrite rdw_wrw. case_decide; [apply mkpte_ok; [lia|done]|]. apply zero_page_word, (po_word _ _ P). }
  destruct (zero_loop 64 (k0 + 1 + up (8 * mem_pages) + 32) 0 t6 ltac:(lia) ltac:(change (npages t6) with mem_pages; lia) Hw) as (m & E & W & F). rewrite (bind_Ret _ _ _ _ _ E). exists m. split; [reflexivity|]. split; [done|].
  intros y. rewrite F by lia. change (mem t6) with (wrw (zero_page (mem s) k0) k0 (PDX UVPT) (mkpte k0 PTE_U)). rewrite rdw_wrw. destruct (decide (y = PDX UVPT)) as [->|Hn]; [by rewrite decide_True|].
  rewrite decide_False by naive_solver. rewrite rdw_zero_page. by rewrite decide_True.
Qed.

(** ** The free pages *)

Lemma table_lookup {V} (v : V) n i x : (list_to_map (map (fun i => (i, v)) (seqZ 0 n)) : gmap Z V) !! i = Some x <-> 0 <= i < n /\ x = v.
Proof.
  rewrite <- elem_of_list_to_map; [|replace (_.*1) with (seqZ 0 n); [apply NoDup_seqZ|rewrite <- list_fmap_compose; symmetry; apply list_fmap_id]].
  rewrite list_elem_of_fmap. split; [intros (j & [= -> ->] & Hj%elem_of_seqZ); split; [lia|done]|]. intros [Hi ->]. exists i. split; [done|]. apply elem_of_seqZ. lia.
Qed.

Lemma tables_boot_state m : boot_state (kern_end k0) (s_tables m).
Proof.
  destruct mem_bounds as (B0 & Bu & B1 & B2). destruct (po_globals _ _ P) as (_ & G2 & _). destruct (po_base _ _ P) as [Hb1 Hb2]. split.
  - intros i p. apply table_lookup.
  - done.
  - cbn. lia.
  - cbn. change (IOPHYSMEM / PGSIZE) with 160. lia.
  - split; [done|]. change (EXTPHYSMEM / PGSIZE) with 256. cbn. unfold kern_end, pages_end in *. lia.
Qed.

Definition free_page (i : Z) : Prop := 1 <= i < base_pages /\ i <> 7 \/ kern_end k0 <= i < mem_pages.
Definition pool : gset Z := list_to_set (filter free_page (seqZ 0 mem_pages)).
Lemma elem_pool i : i ∈ pool <-> free_page i.
Proof.
  destruct mem_bounds as (B0 & Bu & B1 & B2). destruct (po_base _ _ P). unfold pool. rewrite elem_of_list_to_set, list_elem_of_filter, elem_of_seqZ. unfold free_page, kern_end, pages_end in *. lia.
Qed.
Lemma free_page_may i : free_page i -> may_be_free (kern_end k0) i.
Proof. destruct mem_bounds as (B0 & Bu & B1 & B2). destruct (po_base _ _ P). unfold may_be_free, free_page, kern_end, pages_end in *. lia. Qed.

Lemma zsum_le_length {B} (f : B -> Z) l : (forall x, f x <= 1) -> zsum f l <= Z.of_nat (length l).
Proof. intros Hf. induction l as [|x l IH]; cbn [zsum length]; [lia|]. specialize (Hf x). lia. Qed.

Lemma base_room (fl : list Z) : NoDup fl -> (forall i, i ∈ fl <-> i ∈ pool) -> 68 < base_count (low_of fl).
Proof.
  intros Hnd Hel. destruct (po_base _ _ P) as [Hb _]. assert (Hs : (1 :: seqZ 8 68) ⊆+ filter (fun i => i < 256) (low_of fl)).
  { apply NoDup_submseteq.
    - apply NoDup_cons. split; [rewrite elem_of_seqZ; lia|apply NoDup_seqZ].
    - intros i Hi. apply list_elem_of_filter. assert (Hr : i = 1 \/ 8 <= i < 76) by (apply elem_of_cons in Hi as [->|Hi%elem_of_seqZ]; lia). split; [lia|]. apply list_elem_of_filter. split; [lia|]. apply Hel, elem_pool. unfold free_page. lia. }
  apply submseteq_length in Hs. unfold base_count. cbn [length] in Hs. rewrite length_seqZ in Hs. lia.
Qed.

(** When the free list is built and sorted *)
Lemma start_boot : exists L H t, (forall B (f : Z * Z * Z -> K B), (i386_detect_memory cmos;; a ← mem_init_alloc kend; page_init kend;; check_page_free_list kend true;; f a) s = f (kva (k0 + 1), kva (pages_end k0), kva (pages_end k0 + 32)) t) /\
  kboot L H k0 t /\ (forall i, i ∈ L ++ H <-> free_page i) /\ nextfree t = kva (kern_end k0) /\ envs t = null_envs /\ cpus t = cpus s /\ cpunum t = cpunum s /\ kernel_lock t = kernel_lock s /\ 1024 ∈ H /\
  (forall va, 0 <= va < 2^32 -> kpde (PDX va) -> vmap (mem t) k0 va = None).
Proof.
  destruct mem_bounds as (B0 & Bu & B1 & B2). destruct (po_base _ _ P) as [Hb1 Hb2]. destruct mem_init_alloc_ok as (m & E1 & W1 & D1).
  destruct (page_init_ok kend (kern_end k0) (s_tables m) pool (tables_boot_state m)) as (s2 & fl & E2 & [_ V2] & L2 & N2 & M2 & F2 & Q2); [intros i; apply elem_pool|exact W1|].
  assert (Hnp : npages s2 = mem_pages) by (rewrite F2; done). assert (Hfree : forall i, i ∈ fl -> free_page i) by (intros i Hi%M2; by apply elem_pool).
  assert (Hrange : forall i, i ∈ fl -> 0 <= i < npages s2) by (intros i Hi%Hfree; rewrite Hnp; unfold free_page, kern_end, pages_end in *; lia).
  destruct (check_page_free_list_ok kend s2 fl (kern_end k0)) with (b := true) as (s3 & E3 & P3 & L3 & R3 & W3 & D3); [done|done|rewrite Hnp; lia|done|rewrite Q2; exact W1|rewrite F2; done|unfold kern_end, pages_end in *; lia|intros i Hi; by apply free_page_may, Hfree| | |].
  { exists 1. split; [|lia]. apply M2, elem_pool. unfold free_page. lia. } { exists 1024. split; [|lia]. apply M2, elem_pool. unfold free_page. lia. }
  exists (low_of fl), (high_of fl), s3. split; [intros B f; rewrite (bind_Ret _ _ _ _ _ detect_ok), (bind_Ret _ _ _ _ _ E1), (bind_Ret _ _ _ _ _ E2), (bind_Ret _ _ _ _ _ E3); reflexivity|].
  assert (Hel : forall i, i ∈ low_of fl ++ high_of fl <-> i ∈ fl) by (intros i; by rewrite low_high_perm).
  assert (Hk0 : k0 ∉ fl) by (intros Hi%Hfree; unfold free_page, kern_end, pages_end in *; lia).
  assert (Hrd : forall y, rdw (mem s3) k0 y = if decide (y = PDX UVPT) then mkpte k0 PTE_U else 0) by (intros y; rewrite D3 by done; rewrite Q2; apply D1).
  assert (Habs : forall y, kpde y -> rdw (mem s3) k0 y = 0) by (intros y [_ Hy]; by rewrite Hrd, decide_False).
  split; [|split_and!; [intros i; rewrite Hel, M2; apply elem_pool|rewrite P3, F2; done..| |]].
  2: { apply list_elem_of_filter. split; [lia|]. apply M2, elem_pool. unfold free_page. lia. }
  2: { intros va _ Hx. unfold vmap. by rewrite Habs, present_0. }
  assert (Hs3 : npages s3 = mem_pages) by (rewrite P3; exact Hnp). split.
  - rewrite Hs3. lia.
  - done.
  - intros i. rewrite Hs3, <- Hnp, <- (pi_dom _ _ _ _ _ _ V2 i). specialize (R3 i). destruct (pages s3 !! i), (pages s2 !! i); cbn in R3; try done; split; eauto; by intros [? ?].
  - exact L3.
  - by rewrite low_high_perm.
  - intros i Hi%Hel. rewrite Hs3, <- Hnp. by apply Hrange.
  - intros i p Hi%Hel Hp. specialize (R3 i). rewrite Hp in R3. destruct (pages s2 !! i) as [p2|] eqn:E; [|done]. cbn in R3. injection R3 as ->. apply (pi_ref _ _ _ _ _ _ V2 i p2); [by apply M2|done].
  - apply Forall_forall. intros i Hi. by apply list_elem_of_filter in Hi as [Hi _].
  - split; [rewrite P3, F2; done|]. split; [by rewrite Hel|]. rewrite Hs3. unfold kern_end, pages_end in *. lia.
  - rewrite P3, F2. apply (po_globals _ _ P).
  - intros x Hx%elem_upde. rewrite Hrd, decide_False; [done|]. rewrite PDX_UVPT. lia.
  - by rewrite Hrd, decide_True.
  - intros x Hx Hp. rewrite Habs in Hp by done. by rewrite present_0 in Hp.
  - intros x y Hx _ Hp. rewrite Habs in Hp by done. by rewrite present_0 in Hp.
  - eapply Z.le_lt_trans; [|apply base_room; [done|exact M2]]. etransitivity; [apply zsum_le_length; intros; apply ind_range|]. done.
Qed.

(** ** The test after the switch to the new page table *)

Lemma kboot_klog L H kd t lg : kboot L H kd t -> kboot L H kd (set_klog lg t).
Proof. intros []. by split. Qed.

Lemma kboot_mem L H kd t t' : kboot L H kd t -> t' = set_mem (mem t') (set_page_free_list (page_free_list t') (set_pages (pages t') t)) ->
  linked (pages t') (page_free_list t') (L ++ H) -> same_refs (pages t) (pages t') -> (forall pg y, 0 <= rdw (mem t') pg y < 2^32) ->
  (forall pg y, pg ∉ L ++ H -> rdw (mem t') pg y = rdw (mem t) pg y) ->
  kboot L H kd t' /\ forall va, kpde (PDX va) -> vmap (mem t') kd va = vmap (mem t) kd va.
Proof.
  intros I Et Hl Hs Hw Hm. destruct (kb_dir _ _ _ _ I) as (D1 & D2 & D3). assert (Hkd : forall y, rdw (mem t') kd y = rdw (mem t) kd y) by (intros y; by apply Hm). assert (Hn : npages t' = npages t) by (by rewrite Et). split.
  - split; rewrite ?Hn; try apply (kb_np _ _ _ _ I); try apply (kb_nodup _ _ _ _ I); try apply (kb_low _ _ _ _ I); try done.
    + intros i. rewrite <- (kb_dom _ _ _ _ I i). specialize (Hs i). destruct (pages t' !! i), (pages t !! i); cbn in Hs; try done; split; eauto; by intros [? ?].
    + apply (kb_pool _ _ _ _ I).
    + intros i p Hi Hp. specialize (Hs i). rewrite Hp in Hs. destruct (pages t !! i) as [p2|] eqn:E; [|done]. cbn in Hs. injection Hs as ->. by apply (kb_ref _ _ _ _ I i).
    + by rewrite Et.
    + rewrite Et. apply (kb_pse _ _ _ _ I).
    + intros x Hx. rewrite Hkd. by apply (kb_user _ _ _ _ I).
    + rewrite Hkd. apply (kb_uvpt _ _ _ _ I).
    + intros x Hx. rewrite Hkd. apply (kb_tab _ _ _ _ I x Hx).
    + intros x y Hx Hy. rewrite !Hkd. by apply (kb_inj _ _ _ _ I).
    + eapply Z.le_lt_trans; [|apply (kb_room _ _ _ _ I)]. apply Z.eq_le_incl, zsum_ext. intros y _. unfold empty_pde. by rewrite Hkd.
  - intros va Hx. unfold vmap. rewrite Hkd. destruct (present (rdw (mem t) kd (PDX va))) eqn:Hp; [|done]. rewrite Hm; [done|]. apply (kb_tab _ _ _ _ I _ Hx Hp).
Qed.

Lemma kboot_check L H t : kboot L H k0 t -> (forall i, i ∈ L ++ H -> free_page i) -> (exists i, i ∈ H /\ 256 <= i) -> nextfree t = kva (kern_end k0) ->
  exists t', check_page_free_list kend false t = Ret tt t' /\ kboot L H k0 t' /\ vm_frame t t' /\ klog t' = klog t /\ forall va, kpde (PDX va) -> vmap (mem t') k0 va = vmap (mem t) k0 va.
Proof.
  intros I Hf Hext Hnx. destruct mem_bounds as (B0 & Bu & B1 & B2). destruct (check_page_free_list_ok kend t (L ++ H) (kern_end k0)) with (b := false) as (t' & E & Et & Hl & Hs & Hw & Hm);
    [apply (kb_free _ _ _ _ I)|apply (kb_nodup _ _ _ _ I)|apply (kb_np _ _ _ _ I)|apply (kb_pool _ _ _ _ I)|apply (kb_word _ _ _ _ I)|done|unfold kern_end, pages_end in *; lia|intros i Hi; by apply free_page_may, Hf| | |].
  - pose proof (kb_room _ _ _ _ I) as Hr. assert (0 <= zsum (empty_pde (mem t) k0) kpdes) by (apply zsum_nonneg; intros; apply ind_range). unfold base_count in Hr. destruct (filter (fun i => i < 256) L) as [|i l] eqn:Ef; [cbn in Hr; lia|].
    assert (Hi : i ∈ filter (fun i => i < 256) L) by (rewrite Ef; left). apply list_elem_of_filter in Hi as [Hi1 Hi2]. exists i. split; [apply elem_of_app; by left|done].
  - destruct Hext as (i & Hi & Hge). exists i. split; [apply elem_of_app; by right|done].
  - destruct (kboot_mem L H k0 t t' I Et Hl Hs Hw Hm) as [I' V]. exists t'. split; [done|]. split; [done|]. split; [rewrite Et; by destruct t|]. split; [by rewrite Et|done].
Qed.

(** ** The whole of [mem_init] *)

Definition boot_entry (va : Z) : option Z :=
  if decide (in_pages RX_BUF_ADDR 64 va) then Some (region_pte ((pages_end k0 + 32) * 4096) PTE_U ((va - RX_BUF_ADDR) / 4096))
  else kernel_entry percpu_kstacks ((k0 + 1) * 4096) (pages_end k0 * 4096) va.

Lemma kva_pa k : kva k - KERNBASE = k * 4096.
Proof. unfold kva, PGSIZE. lia. Qed.

Lemma mem_init_ok : exists L H t, mem_init kend bootstack percpu_kstacks cmos s = Ret tt t /\ kboot L H k0 t /\ (forall i, i ∈ L ++ H -> free_page i) /\
  envs t = null_envs /\ cpus t = cpus s /\ cpunum t = cpunum s /\ kernel_lock t = kernel_lock s /\ (forall va, 0 <= va < 2^32 -> kpde (PDX va) -> vmap (mem t) k0 va = boot_entry va).
Proof.
  destruct mem_bounds as (B0 & Bu & B1 & B2). destruct (po_stacks _ _ P) as (S1 & S2 & S3 & _). destruct start_boot as (L & H & t0 & E0 & I0 & M0 & N0 & En & Ec & Eu & El & H0 & V0).
  assert (Hva : forall k, 0 <= k < 1024 -> KERNBASE <= kva k < 2^32) by (intros k Hk; unfold kva; clia). assert (Bk : 0 <= k0 + 1 < 1024 /\ 0 <= pages_end k0 < 1024 /\ 0 <= pages_end k0 + 32 < 1024) by (unfold kern_end, pages_end in *; lia). destruct Bk as (Bk1 & Bk2 & Bk3).
  destruct (mem_init_map_ok bootstack percpu_kstacks S1 S2 S3 L H k0 t0 (kva (k0 + 1)) (kva (pages_end k0)) I0) as (L1 & t1 & E1 & I1 & F1 & K1 & X1 & V1); [by apply Hva|by apply Hva|exact V0|].
  set (t2 := set_klog (Lcr3 (kva k0 - KERNBASE) :: klog t1) t1). assert (I2 : kboot L1 H k0 t2) by (by apply kboot_klog).
  assert (Hsub : forall L', L' `suffix_of` L -> forall i, i ∈ L' ++ H -> free_page i).
  { intros L' [pre ->] i Hi. apply M0. rewrite !elem_of_app in *. naive_solver. }
  destruct (kboot_check L1 H t2 I2) as (t3 & E3 & I3 & F3 & K3 & V3); [by apply Hsub|exists 1024; split; [done|lia]|change (nextfree t2) with (nextfree t1); rewrite F1; exact N0|].
  destruct (mem_init_rx_ok L1 H k0 t3 (kva (pages_end k0 + 32)) I3 (Hva _ Bk3)) as (L4 & t4 & E4 & I4 & F4 & K4 & X4 & V4).
  exists L4, H, t4. split.
  { unfold mem_init. etransitivity; [exact (E0 _ (fun a => mem_init_map _ _ a.1.1 a.1.2;; _))|]. cbn [fst snd]. rewrite (bind_Ret _ _ _ _ _ E1). rewrite (bind_Ret _ (get kern_pgdir) t1 (kern_pgdir t1) t1) by done. rewrite (proj1 (kb_dir _ _ _ _ I1)).
    rewrite (bind_Ret _ _ _ _ _ (PADDR_kern t1 (kva k0) ltac:(apply Hva; lia))). rewrite (bind_Ret _ (emit _) t1 tt t2) by done. rewrite (bind_Ret _ _ _ _ _ E3). exact E4. }
  split; [done|]. split; [apply Hsub; by etransitivity|]. assert (Fr : vm_frame t0 t4) by (eapply vm_frame_trans; [exact F1|]; eapply vm_frame_trans; [|exact F4]; exact F3).
  split; [rewrite Fr; exact En|]. split; [rewrite Fr; exact Ec|]. split; [rewrite Fr; exact Eu|]. split; [rewrite Fr; exact El|].
  intros va Hva' Hx. rewrite V4, V3 by done. change (mem t2) with (mem t1). rewrite V1 by done. by rewrite !kva_pa.
Qed.
End machine.

(** ** The invariant of the kernel *)

Lemma kboot_vm L H kd s : kboot L H kd s -> vm_inv (list_to_set (L ++ H)) [] ∅ s.
Proof.
  intros I. split; [apply tbl_inv_nil, (kb_word _ _ _ _ I)|]. split.
  - apply (kb_np _ _ _ _ I).
  - apply (kb_dom _ _ _ _ I).
  - intros i Hi%elem_of_list_to_set. by apply (kb_pool _ _ _ _ I).
  - intros i p Hi%elem_of_list_to_set Hp. by apply (kb_ref _ _ _ _ I i).
  - intros i _. done.
  - exists (L ++ H). split; [apply (kb_free _ _ _ _ I)|]. split; [apply (kb_nodup _ _ _ _ I)|]. split; [set_solver|]. split.
    + intros i. rewrite elem_of_list_to_set. set_solver.
    + intros i p Hi%elem_of_list_to_set Hn. done.
Qed.

Lemma no_roots es : (forall i e, es !! i = Some e -> env_status e = ENV_FREE) -> roots es = [].
Proof.
  intros Hf. unfold roots. generalize (seqZ 0 NENV) as l. induction l as [|i l IH]; [done|]. cbn. assert (root_at es i = None) as ->; [|done]. unfold root_at. destruct (es !! i) as [e|] eqn:E; [|done]. cbn. unfold live. by rewrite (Hf i e E).
Qed.

Lemma region_mkpte p perm k : 0 <= p + k < 2^20 -> region_pte (p * 4096) perm k = mkpte (p + k) perm.
Proof. intros Hp. unfold region_pte, mkpte, PGSIZE, PGSHIFT. rewrite shiftl_mul, u32_small by lia. do 2 f_equal. lia. Qed.

Section entries.
Context (kend bootstack percpu_kstacks : Z) (cmos : Z -> Z) (k0 : Z) (s : kstate) (P : power_on kend bootstack percpu_kstacks cmos k0 s).
Notation entry := (boot_entry percpu_kstacks cmos k0).

Lemma direct_map pg : 0 <= pg < mem_pages cmos -> entry (kva pg) = Some (mkpte pg PTE_W).
Proof.
  destruct (mem_bounds _ _ _ _ _ _ P) as (B0 & Bu & B1 & B2). intros Hpg. unfold boot_entry, kernel_entry, in_pages, kva. rewrite decide_False by (autounfold with cconst; lia). rewrite decide_True by (autounfold with cconst; lia).
  replace ((KERNBASE + pg * PGSIZE - KERNBASE) / 4096) with pg by (unfold PGSIZE; dlia). f_equal. exact (region_mkpte 0 PTE_W pg ltac:(lia)).
Qed.

Lemma stack_mapped i va : 0 <= i < NCPU -> in_stack i va -> entry va = Some (mkpte ((percpu_kstacks - KERNBASE + i * KSTKSIZE) / 4096 + (va - stack_base i) / 4096) PTE_W).
Proof.
  intros Hi Hin. pose proof (in_stack_no i va Hin) as Hno. destruct (po_stacks _ _ _ _ _ _ P) as (_ & S2 & S3 & S4). assert (Hva : va < KERNBASE) by (unfold in_stack, in_pages, stack_base in Hin; autounfold with cconst in *; lia).
  unfold boot_entry, kernel_entry. rewrite !(decide_False (P := in_pages _ _ va)) by (unfold in_pages; autounfold with cconst in *; lia). rewrite decide_True by (rewrite Hno; done). rewrite Hno.
  unfold in_stack, in_pages, stack_base in Hin. unfold stack_base. autounfold with cconst in *. rewrite <- region_mkpte by dlia. do 2 f_equal. dlia.
Qed.
Lemma guard_unmapped i va : 0 <= i < NCPU -> in_pages (stack_base i - KSTKGAP) 8 va -> entry va = None.
Proof.
  intros Hi Hin. unfold boot_entry, kernel_entry. unfold in_pages, stack_base in *. autounfold with cconst in *. rewrite !decide_False; try lia; [done|]. unfold in_stack, in_pages, stack_base, stack_no. autounfold with cconst. intros [_ Hs]. dlia.
Qed.

Lemma region_flag pa perm k f : pa mod 4096 = 0 -> 4095 .& f = f -> region_pte pa perm k .& f = (perm .| PTE_P) .& f.
Proof.
  intros Ha Hf. unfold region_pte. set (q := u32 (pa + k * PGSIZE) / 4096). assert (E : u32 (pa + k * PGSIZE) = q .<< PGSHIFT).
  { unfold q, PGSHIFT, u32, PGSIZE. rewrite shiftl_mul by lia. change (2^32) with 4294967296. change (2^12) with 4096. dlia. }
  rewrite E. exact (mkpte_flag q perm f Hf).
Qed.

(** What user programs can see of the kernel's part they can only read, and it lies below [ULIM],
    except for the receive buffers. *)
Lemma user_entries va w : entry va = Some w -> w .& PTE_U <> 0 -> w .& PTE_W = 0 /\ (va < ULIM \/ in_pages RX_BUF_ADDR 64 va).
Proof.
  destruct (po_stacks _ _ _ _ _ _ P) as (_ & _ & _ & S4). unfold boot_entry, kernel_entry. intros E Hu.
  assert (Hal : forall p, (p * 4096) mod 4096 = 0) by (intros; apply Z.mod_mul; lia).
  assert (Hrx : in_pages UENVS 1024 va \/ in_pages UPAGES 1024 va -> va < ULIM) by (unfold in_pages; autounfold with cconst; lia).
  destruct (decide (in_pages RX_BUF_ADDR 64 va)) as [Hin|_]; [injection E as <-; rewrite region_flag by done; split; [done|by right]|].
  destruct (decide (in_pages KERNBASE 65535 va)) as [_|_]; [injection E as <-; by rewrite region_flag in Hu|].
  destruct (decide (_ /\ in_stack _ va)) as [_|_]; [injection E as <-; rewrite region_flag in Hu; [done| |done]; unfold PGSIZE in S4; autounfold with cconst; dlia|].
  destruct (decide (in_pages UENVS 1024 va)) as [Hin|_]; [injection E as <-; rewrite region_flag by done; split; [done|left; auto]|].
  destruct (decide (in_pages UPAGES 1024 va)) as [Hin|_]; [injection E as <-; rewrite region_flag by done; split; [done|left; auto]|done].
Qed.
End entries.

(** ** The theorem *)

(** [mem_init] and [env_init] *)
Lemma boot_ok kend bootstack percpu_kstacks cmos k0 s : power_on kend bootstack percpu_kstacks cmos k0 s ->
  exists L H s', (forall B (k : K B), (mem_init kend bootstack percpu_kstacks cmos;; env_init;; k) s = k s') /\ kboot L H k0 s' /\ kinv (list_to_set (L ++ H)) s' /\
    (forall i, i ∈ L ++ H -> free_page cmos k0 i) /\ (forall i e, envs s' !! i = Some e -> env_status e = ENV_FREE) /\
    cpus s' = cpus s /\ cpunum s' = cpunum s /\ kernel_lock s' = kernel_lock s /\
    (forall va, 0 <= va < 2^32 -> kpde (PDX va) -> vmap (mem s') k0 va = boot_entry percpu_kstacks cmos k0 va).
Proof.
  intros P. destruct (mem_init_ok _ _ _ _ _ _ P) as (L & H & t & E & I & Hf & En & Ec & Eu & El & V).
  assert (Hnull : forall i e, envs t !! i = Some e -> e = null_env /\ 0 <= i < NENV) by (intros i e He; rewrite En in He; apply table_lookup in He as [H1 H2]; done).
  assert (Hdom : forall i, is_Some (envs t !! i) <-> 0 <= i < NENV).
  { intros i. split; [intros [e He]; apply Hnull in He as [_ He]; exact He|]. intros Hi. exists null_env. rewrite En. apply table_lookup. split; [exact Hi|reflexivity]. }
  destruct (env_init_correct t Hdom) as (t' & Ei & _ & Ienv); [intros i e He; destruct (Hnull i e He) as [-> _]; done|].
  destruct (env_init_run t Hdom) as (es & Er & Hes). rewrite Er in Ei. injection Ei as <-. set (s' := set_env_free_list (Some 0) (set_envs es t)) in *.
  assert (Hst : forall i e, es !! i = Some e -> env_status e = ENV_FREE).
  { intros i e He. rewrite Hes in He. destruct (envs t !! i) as [x|] eqn:Hx; [|done]. apply Hnull in Hx as [-> _]. injection He as <-. unfold init_env. by destruct (i =? NENV - 1). }
  exists L, H, s'. split; [intros B k; by rewrite (bind_Ret _ _ _ _ _ E), (bind_Ret _ _ _ _ _ Er)|]. split; [by destruct I|]. split; [split|done].
  - change (envs s') with es. rewrite (no_roots es Hst). exact (kboot_vm L H k0 t I).
  - exact Ienv.
  - exists k0. destruct (kb_dir _ _ _ _ I) as (D1 & D2 & D3). split; [exact D1|]. split; [by rewrite elem_of_list_to_set|]. split; [exact D3|]. exact (kb_user _ _ _ _ I).
  - destruct (po_cpu _ _ _ _ _ _ P) as (c & Hc & Hce). exists c. change (cpus s') with (cpus t). change (cpunum s') with (cpunum t). rewrite Ec, Eu. split; [done|]. intros e He. congruence.
Qed.


(** A machine with 8 MB of memory whose kernel ends at page 300 *)
Definition cmos_8mb (r : Z) : Z := if r =? 0x15 then 0x80 else if r =? 0x16 then 0x02 else if r =? 0x18 then 0x1c else 0.
Definition cold : kstate := mkState 0 0 0 0 0 MMIOBASE ∅ None ∅ ∅ None {[0 := mkCpuInfo 1 None]} 0 None 0 0 [] ex_dev.

Lemma cold_on : power_on (kva 300) (kva 280) (kva 270) cmos_8mb 300 cold.
Proof.
  split; try (split_and!; vm_compute; congruence).
  - intros r. unfold cmos_8mb. repeat case_match; lia.
  - intros pg y. change (mem cold) with (∅ : memory). rewrite rdw_empty. lia.
  - exists (mkCpuInfo 1 None). split; reflexivity.
Qed.

