(* ===== verification/LoadThms.v ===== *)
(** * LoadThms: creating an environment from a program ([env_create] in [kern/env.c])

    Loading a program either panics for want of memory or leaves the program's segments, its
    cleared data and its stack in the memory of a new environment, and touches no other. *)

From S2P Require Import Prelude Layout KState KMem Pmap VmRefs VmInv VmOps UMem KInv Env EnvOps EnvThms SchedThms SysOps UStore PageUse KBig.

(** No page of directory [d] is mapped a second time, and all of them can be written. *)
Definition solo (s : kstate) (d : Z) : Prop := forall a b d' e e', 0 <= a < UTOP -> 0 <= b < UTOP -> d' ∈ roots (envs s) ->
  vmap (mem s) d a = Some e -> vmap (mem s) d' b = Some e' -> pgn e = pgn e' -> d' = d /\ b / 4096 = a / 4096.
Record loading (A : gset Z) (d : Z) (s : kstate) : Prop := {
  lo_inv : kinv A s;
  lo_root : d ∈ roots (envs s);
  lo_solo : solo s d;
  lo_write : forall a e, 0 <= a < UTOP -> vmap (mem s) d a = Some e -> e .& PTE_W <> 0;
}.

(** The bytes of an address that is not touched *)
Lemma ubyte_kept A s s' d a : kinv A s -> d ∈ roots (envs s) -> 0 <= a < UTOP -> vmap (mem s') d a = vmap (mem s) d a -> data_kept s s' -> ubyte s' d a = ubyte s d a.
Proof.
  intros H Hd Ha Hv Hk. unfold ubyte. rewrite Hv. destruct (vmap (mem s) d a) as [e|] eqn:E; [|done]. destruct (mapped_page A s d a e H Hd Ha E) as (_ & Hnt & Hpos). f_equal. rewrite !rdb_byte. by rewrite Hk.
Qed.

Section page.
Context (A : gset Z) (d : Z).

(** One page of [region_alloc] *)
Lemma region_page s va : loading A d s -> 0 <= va < UTOP ->
  (page_alloc 0 s = Ret None s /\ page_free_list s = None) \/
  exists q s1, page_alloc 0 s = Ret (Some q) s1 /\ vm_frame s s1 /\
    ((page_insert (kva d) q va (PTE_U .| PTE_W) s1 = Ret (- E_NO_MEM) s1 /\ page_free_list s1 = None) \/
     exists s2, page_insert (kva d) q va (PTE_U .| PTE_W) s1 = Ret 0 s2 /\ loading A d s2 /\ vm_frame s s2 /\
       writable (mem s2) d va /\ same_maps s s2 d va /\ data_kept s s2).
Proof.
  intros [H Hd Hs Hw] Hva. destruct (page_free_list s) as [q|] eqn:Eq; [right|left; split; [by apply page_alloc_empty|done]].
  destruct (page_alloc_spec ∅ s 0 q (ki_vm _ _ H) Eq) as (s1 & E1 & V1 & F1 & _ & HqA & _ & Hq0 & M1). change (truth (0 .& ALLOC_ZERO)) with false in M1. cbn iota in M1.
  replace (∅ ∪ {[q]} : gset Z) with ({[q]} : gset Z) in V1 by set_solver. exists q, s1. split; [done|]. split; [done|]. set (D := roots (envs s)) in *. assert (Hnt : ~ is_table (mem s) D q) by (by apply tbl_unref).
  destruct (page_insert_spec A D {[q]} s1 d va q (PTE_U .| PTE_W) V1) as [(Hno & _ & Hi)|(s2 & Hi & Hv2 & Hf2 & Hm2 & Hsame & Hdata & Hout2)].
  - apply (cpu_ok_frame s); [done|apply H].
  - done.
  - done.
  - done.
  - by rewrite M1.
  - left. set_solver.
  - rewrite M1, Hq0. lia.
  - done.
  - done.
  - left. split; [done|done].
  - right. exists s2. split; [done|]. rewrite M1 in Hsame, Hdata, Hout2. assert (Hf : vm_frame s s2) by (by eapply vm_frame_trans). assert (He : envs s2 = envs s) by (by apply vm_frame_envs).
    assert (Hkept : data_kept s s2) by (intros p Hp Hnp y; apply Hdata; [by right|done]). assert (Hq : pgn (mkpte q (PTE_U .| PTE_W)) = q) by (apply mkpte_ok; [pose proof (vm_npages (ki_vm _ _ H)); pose proof (vm_pool (ki_vm _ _ H) q HqA); lia|done]).
    assert (Hnew : forall d' b e, d' ∈ D -> 0 <= b < UTOP -> vmap (mem s) d' b = Some e -> pgn e <> q).
    { intros d' b e Hd' Hb Hm E. destruct (mapped_page A s d' b e H Hd' Hb Hm) as (_ & _ & Hpos). rewrite E in Hpos. fold D in Hpos. lia. }
    assert (Hat : forall a, 0 <= a < UTOP -> a / 4096 = va / 4096 -> vmap (mem s2) d a = Some (mkpte q (PTE_U .| PTE_W))) by (intros a Ha E; by rewrite (vmap_page_only _ _ va a)).
    split; [split|].
    + apply (kinv_vm A s); [done..| |done]. replace (∅ : gset Z) with ({[q]} ∖ {[q]} : gset Z) by set_solver. done.
    + by rewrite He.
    + intros a b d' e e' Ha Hb Hd' Ea Eb Epg. rewrite He in Hd'. destruct (decide (a / 4096 = va / 4096)) as [Ea'|Na].
      * rewrite (Hat a Ha Ea') in Ea. injection Ea as <-. rewrite Hq in Epg. destruct (decide (d' = d /\ b / 4096 = va / 4096)) as [[-> Eb']|Nb]; [by rewrite Ea', Eb'|]. rewrite Hsame in Eb by done. exfalso. by apply (Hnew d' b e').
      * rewrite Hsame in Ea by (try done; naive_solver). destruct (decide (d' = d /\ b / 4096 = va / 4096)) as [[-> Eb']|Nb]; [|rewrite Hsame in Eb by done; by apply (Hs a b d' e e')].
        rewrite (Hat b Hb Eb') in Eb. injection Eb as <-. rewrite Hq in Epg. exfalso. by apply (Hnew d a e).
    + intros a e Ha Ea. destruct (decide (a / 4096 = va / 4096)) as [Ea'|Na]; [rewrite (Hat a Ha Ea') in Ea; injection Ea as <-; by rewrite mkpte_flag|]. rewrite Hsame in Ea by (try done; naive_solver). by apply (Hw a).
    + split; [done|]. split; [|done]. eexists. split; [exact Hm2|]. by rewrite mkpte_flag.
Qed.
End page.

(** ** [region_alloc] *)

Section region.
Context (A : gset Z) (i d : Z).

(** The environment under construction *)
Definition builds (s : kstate) : Prop := exists e, envs s !! i = Some e /\ env_pgdir e = kva d.
Lemma builds_frame s s' : envs s' = envs s -> builds s -> builds s'.
Proof. intros E (e & He & Hd). exists e. by rewrite E. Qed.

(** Every address space is as before, but for the part [R] of [d]. *)
Definition kept_but (s s' : kstate) (R : Z -> Prop) : Prop := forall d' a, d' ∈ roots (envs s) -> 0 <= a < UTOP -> ~ (d' = d /\ R a) ->
  vmap (mem s') d' a = vmap (mem s) d' a /\ ubyte s' d' a = ubyte s d' a.
Definition outside_kept (s s' : kstate) (lo hi : Z) : Prop := Eval cbv beta delta [kept_but] in kept_but s s' (fun a => lo <= a < hi).

Lemma kept_but_trans s s' s'' R R' : roots (envs s') = roots (envs s) -> kept_but s s' R -> kept_but s' s'' R' -> kept_but s s'' (fun a => R a \/ R' a).
Proof.
  intros He H H' d' a Hd' Ha Hn. destruct (H d' a) as [<- <-]; [done..|naive_solver|]. apply H'; [by rewrite He|done|naive_solver].
Qed.

Definition out_of_memory {B} (o : outcome B) : Prop := exists s', o = Panic s' /\ page_free_list s' = None.

Lemma region_loop n : forall s va, loading A d s -> builds s -> 0 <= va -> va mod 4096 = 0 -> va + Z.of_nat n * 4096 <= UTOP ->
  out_of_memory (region_alloc_loop n i va (va + Z.of_nat n * 4096) s) \/
  exists s', region_alloc_loop n i va (va + Z.of_nat n * 4096) s = Ret tt s' /\ loading A d s' /\ vm_frame s s' /\
    (forall a, va <= a < va + Z.of_nat n * 4096 -> writable (mem s') d a) /\ outside_kept s s' va (va + Z.of_nat n * 4096).
Proof.
  induction n as [|n IH]; intros s va Hl Hb Hva Hal Htop.
  - right. exists s. cbn [region_alloc_loop]. rewrite (proj2 (Z.ltb_ge _ _)) by lia. split; [done|]. split; [done|]. split; [auto with frame|]. split; [lia|]. by intros d' a.
  - cbn [region_alloc_loop]. rewrite (proj2 (Z.ltb_lt _ _)) by lia. destruct (region_page A d s va Hl ltac:(lia)) as [[E Hn]|(q & s1 & E & F1 & Hins)]; [left; rewrite (bind_Ret _ _ _ _ _ E); by exists s|].
    rewrite (bind_Ret _ _ _ _ _ E). pose proof Hb as (x & Hx & Hxd).
    assert (Hx1 : envs s1 !! i = Some x) by (by rewrite (vm_frame_envs _ _ F1)). rewrite (bind_Ret _ _ _ _ _ (get_env_eq s1 i x Hx1)), Hxd.
    destruct Hins as [[E2 Hn]|(s2 & E2 & L2 & F2 & W2 & M2 & K2)]; rewrite (bind_Ret _ _ _ _ _ E2); [left; exists s1; done|]. change (0 =? 0) with true. cbn iota.
    rewrite u32_small by (autounfold with cconst in *; lia). unfold PGSIZE. replace (va + Z.of_nat (S n) * 4096) with (va + 4096 + Z.of_nat n * 4096) by lia.
    destruct (IH s2 (va + 4096) L2) as [Hp|(s' & E' & L' & F' & W' & O')]; [by apply (builds_frame s); [apply vm_frame_envs|]|lia|dlia|lia|by left|]. right. exists s'. split; [done|]. split; [done|]. split; [exact (vm_frame_trans _ _ _ F2 F')|].
    assert (He2 : envs s2 = envs s) by (by apply vm_frame_envs). assert (Hd2 : d ∈ roots (envs s2)) by apply L2.
    assert (Hdiv : forall a, a / 4096 = va / 4096 <-> va <= a < va + 4096) by (intros a; dlia). split.
    + intros a Ha. destruct (decide (a < va + 4096)) as [Hlt|]; [|apply W'; lia]. destruct W2 as (e & He & Hwe). exists e. split; [|done]. destruct (O' d a Hd2 ltac:(lia) ltac:(lia)) as [-> _].
      rewrite (vmap_page_only _ _ va a); [done|lia|lia|apply Hdiv; lia].
    + intros d' a Hd' Ha Hn. assert (Hn2 : ~ (d' = d /\ a / 4096 = va / 4096)) by (rewrite Hdiv; intros [-> ?]; apply Hn; lia). destruct (O' d' a) as [O1 O2]; [by rewrite He2|done|intros [-> ?]; apply Hn; lia|].
      assert (Hv : vmap (mem s2) d' a = vmap (mem s) d' a) by (by apply M2). rewrite O1, O2. split; [done|]. apply (ubyte_kept A); [apply Hl|done..].
Qed.

Lemma region_alloc_ok s va len : loading A d s -> builds s -> 0 <= va -> 0 <= len -> va + len <= UTOP ->
  let lo := va / 4096 * 4096 in let hi := (va + len + 4095) / 4096 * 4096 in
  out_of_memory (region_alloc i va len s) \/
  exists s', region_alloc i va len s = Ret tt s' /\ loading A d s' /\ vm_frame s s' /\ (forall a, lo <= a < hi -> writable (mem s') d a) /\ outside_kept s s' lo hi.
Proof.
  intros Hl Hb Hva Hlen Htop lo hi. unfold region_alloc. autounfold with cconst in Htop. rewrite (u32_small (va + len)) by lia. rewrite ROUNDDOWN_page, ROUNDUP_page by lia. fold lo hi. unfold PGSIZE.
  assert (Hn : hi = lo + Z.of_nat (Z.to_nat ((hi - lo) / 4096)) * 4096) by (unfold lo, hi; rewrite Z2Nat.id by dlia; dlia). assert (Hhi : hi <= UTOP) by (unfold hi; autounfold with cconst; dlia).
  pose proof (region_loop (Z.to_nat ((hi - lo) / 4096)) s lo Hl Hb) as HR. rewrite <- Hn in HR. apply HR; [unfold lo; dlia|unfold lo; dlia|done].
Qed.
End region.

(** ** Stores into the new address space *)

Section fill.
Context (A : gset Z) (d : Z).

Lemma loading_data s s' : loading A d s -> data_step A s s' -> loading A d s'.
Proof.
  intros [H Hd Hs Hw] [F I V]. assert (He : envs s' = envs s) by (by rewrite F). split; [done|by rewrite He| |].
  - intros a b d' e e' Ha Hb Hd' Ea Eb. rewrite He in Hd'. rewrite V in Ea, Eb by done. by apply (Hs a b d' e e').
  - intros a e Ha Ea. rewrite V in Ea by done. by apply (Hw a).
Qed.

Definition stored_byte (va : Z) (bs : list Z) (a : Z) : option Z := u8 <$> bs !! Z.to_nat (a - va).

Lemma fill_ok bs : forall s va, loading A d s -> 0 <= va -> va + Z.of_nat (length bs) <= UTOP -> (forall a, va <= a < va + Z.of_nat (length bs) -> writable (mem s) d a) ->
  exists s', ustore (kva d) va bs s = Ret tt s' /\ data_step A s s' /\ loading A d s' /\
    forall d' a, d' ∈ roots (envs s) -> 0 <= a < UTOP ->
      ubyte s' d' a = if decide (d' = d /\ va <= a < va + Z.of_nat (length bs)) then stored_byte va bs a else ubyte s d' a.
Proof.
  induction bs as [|b bs IH]; intros s va Hl Hva Htop Hw; cbn [length ustore] in *.
  - exists s. split; [done|]. split; [apply data_step_refl, Hl|]. split; [done|]. intros d' a Hd' Ha. by rewrite decide_False by lia.
  - destruct (ustoreb_spec A s (lo_inv _ _ _ Hl) d (lo_root _ _ _ Hl) va b) as (e & He & Hst & Hds); [lia|apply Hw; lia|]. rewrite (bind_Ret _ _ _ _ _ Hst). set (s1 := set_mem _ s) in *.
    destruct (IH s1 (va + 1)) as (s' & Hs' & Hds' & Hl' & Hub); [by eapply loading_data|lia|lia| |].
    { intros a Ha. destruct (Hw a ltac:(lia)) as (e' & He' & Hwe'). exists e'. by rewrite (ds_vmap _ _ _ Hds) by (try apply (lo_root _ _ _ Hl); lia). }
    exists s'. split; [done|]. split; [by eapply data_step_trans|]. split; [done|]. intros d' a Hd' Ha. rewrite Hub by done. unfold s1. rewrite (ubyte_wrb A s (lo_inv _ _ _ Hl)) by done. unfold stored_byte.
    destruct (decide (d' = d /\ va + 1 <= a < va + 1 + _)) as [[-> Hin]|Hout].
    + rewrite decide_True by lia. replace (Z.to_nat (a - va)) with (S (Z.to_nat (a - (va + 1)))) by lia. done.
    + destruct (decide (d' = d /\ a = va)) as [[-> ->]|Hne].
      * rewrite He, !decide_True by (split; [done|lia]). by rewrite Z.sub_diag.
      * rewrite (decide_False (P := d' = d /\ va <= a < _)) by (intros [-> ?]; destruct (decide (a = va)); [naive_solver|apply Hout; lia]). unfold ubyte. destruct (vmap (mem s) d' a) as [e'|] eqn:E'; [|done].
        rewrite decide_False; [done|]. intros [Ep Eo]. destruct (lo_solo _ _ _ Hl va a d' e e' ltac:(lia) Ha Hd' He E' Ep) as [-> Epg]. rewrite !PGOFF_mod in Eo. apply Hne. split; [done|].
        pose proof (Z.div_mod a 4096 ltac:(lia)). pose proof (Z.div_mod va 4096 ltac:(lia)). lia.
Qed.
End fill.

(** ** Segments *)

Section segment.
Context (A : gset Z) (i d : Z) (bin : list Z).

(** The byte at offset [o] of a segment *)
Definition segment_byte (ph : Proghdr) (o : Z) : Z := if o <? p_filesz ph then u8 (default 0 (bin !! Z.to_nat (p_offset ph + o))) else 0.
Definition seg_lo (ph : Proghdr) : Z := p_va ph / 4096 * 4096.
Definition seg_hi (ph : Proghdr) : Z := (p_va ph + p_memsz ph + 4095) / 4096 * 4096.

Record segment_ok (ph : Proghdr) : Prop := {
  sg_va : 0 <= p_va ph /\ 0 <= p_offset ph;
  sg_size : 0 <= p_filesz ph <= p_memsz ph;
  sg_top : p_va ph + p_memsz ph <= USTACKTOP - PGSIZE;
  sg_file : p_offset ph + p_filesz ph <= Z.of_nat (length bin);
}.
Definition loaded (s : kstate) (ph : Proghdr) : Prop := forall o, 0 <= o < p_memsz ph -> ubyte s d (p_va ph + o) = Some (segment_byte ph o).

Lemma seg_bounds ph : segment_ok ph -> 0 <= seg_lo ph <= p_va ph /\ p_va ph + p_memsz ph <= seg_hi ph <= USTACKTOP - PGSIZE.
Proof. intros [H1 H2 H3 _]. unfold seg_lo, seg_hi. autounfold with cconst in *. dlia. Qed.

Lemma load_segment_ok s ph : loading A d s -> builds i d s -> (p_type ph = ELF_PROG_LOAD -> segment_ok ph) ->
  out_of_memory (load_segment i bin ph s) \/
  exists s', load_segment i bin ph s = Ret tt s' /\ loading A d s' /\ vm_frame s s' /\
    if decide (p_type ph = ELF_PROG_LOAD) then loaded s' ph /\ outside_kept d s s' (seg_lo ph) (seg_hi ph) else s' = s.
Proof.
  intros Hl Hb Hok. unfold load_segment. destruct (Z.eqb_spec (p_type ph) ELF_PROG_LOAD) as [Ht|Ht]; cbn [when].
  2: { right. exists s. rewrite decide_False by done. split; [done|]. split; [done|]. split; [auto with frame|done]. }
  specialize (Hok Ht). pose proof (seg_bounds ph Hok) as (B1 & B2). destruct Hok as [[H1 H1'] H2 H3 H4]. rewrite (proj2 (Z.ltb_ge _ _)) by lia. assert (Htop : USTACKTOP - PGSIZE <= UTOP) by clia.
  destruct (region_alloc_ok A i d s (p_va ph) (p_memsz ph) Hl Hb) as [(s' & E & Hn)|(s1 & E & L1 & F1 & W1 & O1)]; [lia|lia|lia|left; exists s'; split; [|done]; unfold mbind, K_bind; by rewrite E|]. right.
  fold (seg_lo ph) in *. fold (seg_hi ph) in *. rewrite (bind_Ret _ _ _ _ _ E). assert (He1 : envs s1 = envs s) by (by apply vm_frame_envs). pose proof (builds_frame i d s s1 He1 Hb) as (x & Hx & Hxd). rewrite (bind_Ret _ _ _ _ _ (get_env_eq s1 i x Hx)), Hxd.
  set (fb := take _ (drop _ bin)). assert (Hfb : Z.of_nat (length fb) = p_filesz ph) by (unfold fb; rewrite length_take, length_drop; lia).
  destruct (fill_ok A d fb s1 (p_va ph) L1) as (s2 & E2 & D2 & L2 & U2); [lia|lia|intros a Ha; apply W1; lia|]. rewrite (bind_Ret _ _ _ _ _ E2). pose proof (data_step_envs _ _ _ D2) as He2.
  set (zb := replicate _ 0). assert (Hzb : Z.of_nat (length zb) = p_memsz ph - p_filesz ph) by (unfold zb; rewrite length_replicate; lia).
  destruct (fill_ok A d zb s2 (p_va ph + p_filesz ph) L2) as (s3 & E3 & D3 & L3 & U3); [lia|lia| |].
  { intros a Ha. destruct (W1 a ltac:(lia)) as (e & He & Hwe). exists e. split; [|done]. by rewrite (ds_vmap _ _ _ D2) by (try apply L1; lia). }
  exists s3. split; [done|]. split; [done|]. pose proof (data_step_trans _ _ _ _ D2 D3) as D. split; [eapply vm_frame_trans; [exact F1|]; rewrite (ds_frame _ _ _ D); by destruct s1|]. rewrite decide_True by done. split.
  - intros o Ho. rewrite U3 by (try (rewrite He2; apply L1); lia). unfold segment_byte. destruct (Z.ltb_spec o (p_filesz ph)) as [Hlt|Hge].
    + rewrite decide_False by lia. rewrite U2 by (try apply L1; lia). rewrite decide_True by lia. unfold stored_byte, fb. replace (Z.to_nat (p_va ph + o - p_va ph)) with (Z.to_nat o) by lia. rewrite lookup_take_lt by lia. rewrite lookup_drop.
      replace (Z.to_nat (p_offset ph) + Z.to_nat o)%nat with (Z.to_nat (p_offset ph + o)) by lia. destruct (lookup_lt_is_Some_2 bin (Z.to_nat (p_offset ph + o)) ltac:(lia)) as [b ->]. done.
    + rewrite decide_True by lia. unfold stored_byte, zb. rewrite lookup_replicate_2 by lia. done.
  - intros d' a Hd' Ha Hn. destruct (O1 d' a Hd' Ha Hn) as [V1 Y1]. rewrite (ds_vmap _ _ _ D) by (try (by rewrite He1); lia). split; [done|].
    rewrite U3 by (try (by rewrite He2, He1); lia). rewrite decide_False by (intros [-> ?]; apply Hn; lia). rewrite U2 by (try (by rewrite He1); lia). rewrite decide_False by (intros [-> ?]; apply Hn; lia). done.
Qed.
End segment.

(** ** Programs *)

Section program.
Context (A : gset Z) (i d : Z) (bin : list Z).

Definition loads (k : Z) : Prop := 0 <= k < e_phnum bin /\ p_type (proghdr bin k) = ELF_PROG_LOAD.
Definition in_segment (k a : Z) : Prop := seg_lo (proghdr bin k) <= a < seg_hi (proghdr bin k).

(** The segments of the image lie in the file and below the stack, and no two of them share a
    page. *)
Record image_ok : Prop := {
  im_segment : forall k, loads k -> segment_ok bin (proghdr bin k);
  im_apart : forall j k a, loads j -> loads k -> in_segment j a -> in_segment k a -> j = k;
}.
Context (Him : image_ok).

Lemma loaded_kept s s' k : loading A d s -> loads k -> loaded d bin s (proghdr bin k) -> (forall a, in_segment k a -> ubyte s' d a = ubyte s d a) -> loaded d bin s' (proghdr bin k).
Proof. intros Hl Hk Hld Hkept o Ho. rewrite Hkept; [by apply Hld|]. pose proof (seg_bounds _ _ (im_segment Him k Hk)). unfold in_segment. lia. Qed.

Lemma segments_ok ks : forall s, loading A d s -> builds i d s -> NoDup ks -> (forall k, k ∈ ks -> 0 <= k < e_phnum bin) ->
  out_of_memory (kfor ks (fun k => load_segment i bin (proghdr bin k)) s) \/
  exists s', kfor ks (fun k => load_segment i bin (proghdr bin k)) s = Ret tt s' /\ loading A d s' /\ vm_frame s s' /\
    (forall k, k ∈ ks -> loads k -> loaded d bin s' (proghdr bin k)) /\ kept_but d s s' (fun a => exists k, k ∈ ks /\ loads k /\ in_segment k a).
Proof.
  induction ks as [|k ks IH]; intros s Hl Hb Hnd Hks.
  - right. exists s. split; [done|]. split; [done|]. split; [auto with frame|]. split; [by intros k Hk%elem_of_nil|]. by intros d' a.
  - apply NoDup_cons in Hnd as [Hk Hnd]. cbn [kfor]. assert (Hkr : 0 <= k < e_phnum bin) by (apply Hks; left).
    destruct (load_segment_ok A i d bin s (proghdr bin k) Hl Hb) as [(s' & E & Hn)|(s1 & E & L1 & F1 & P1)]; [intros Ht; by apply (im_segment Him)|left; exists s'; split; [|done]; unfold mbind, K_bind; by rewrite E|].
    rewrite (bind_Ret _ _ _ _ _ E). assert (He1 : envs s1 = envs s) by (by apply vm_frame_envs).
    destruct (IH s1 L1) as [Hp|(s' & E' & L' & F' & P' & O')]; [by apply (builds_frame i d s)|done|intros j Hj; apply Hks; by right|by left|]. right.
    exists s'. split; [done|]. split; [done|]. split; [exact (vm_frame_trans _ _ _ F1 F')|]. split.
    + intros j Hj Hlj. apply elem_of_cons in Hj as [->|Hj]; [|by apply P']. pose proof Hlj as [_ Ht]. rewrite decide_True in P1 by done. destruct P1 as [P1 _]. apply (loaded_kept s1); [done..|].
      intros a Ha. apply O'; [apply L1|pose proof (seg_bounds _ _ (im_segment Him k Hlj)); unfold in_segment in Ha; clia|]. intros (_ & m & Hm & Hlm & Ham). apply Hk. by rewrite (im_apart Him k m a).
    + intros d' a Hd' Ha Hn. destruct (O' d' a) as [-> ->]; [by rewrite He1|done|intros (-> & m & Hm & Hx); apply Hn; split; [done|]; exists m; split; [by right|done]|]. case_decide as Ht; [|by rewrite P1].
      apply P1; [done..|]. intros [-> Hin]. apply Hn. split; [done|]. exists k. split; [left|]. done.
Qed.

Definition on_stack (a : Z) : Prop := USTACKTOP - PGSIZE <= a < USTACKTOP.
Definition at_entry (e : Env) : Env := set_env_tf (set_tf_eip (e_entry bin) (env_tf e)) e.

Lemma loading_env s e e' : loading A d s -> envs s !! i = Some e -> same_core e e' -> loading A d (set_envs (<[i := e']> (envs s)) s).
Proof.
  intros [H Hd Hs Hw] He Hc. pose proof (kinv_range _ _ i e H He) as Hi. assert (Hr := roots_same _ i e e' Hi He Hc).
  split; [by apply (kinv_env A s i e)|simpl; by rewrite Hr| |done]. unfold solo. simpl. rewrite Hr. exact Hs.
Qed.
Lemma loading_klog s k : loading A d s -> loading A d (set_klog k s).
Proof. intros [H Hd Hs Hw]. split; [by apply kinv_set_klog|done..]. Qed.

Lemma same_core_at_entry e : same_core e (at_entry e).
Proof. by destruct e. Qed.

(** Switching to the address space of a page directory *)
Lemma emit_Lcr3 s p {B} (k : unit -> K B) : 0 <= p < 65536 -> (pa ← PADDR (kva p); emit (Lcr3 pa) ≫= k) s = k tt (set_klog (Lcr3 (p * PGSIZE) :: klog s) s).
Proof. intros Hp. by rewrite (bind_Ret _ _ _ _ _ (PADDR_kva s p Hp)). Qed.

Lemma page_range s p : kinv A s -> 0 <= p < npages s -> 0 <= p < 65536.
Proof. intros H Hp. pose proof (vm_npages (ki_vm _ _ H)). lia. Qed.

Record program_loaded (s s' : kstate) (e : Env) : Prop := {
  pl_loading : loading A d s';
  pl_frame : vm_frame (set_envs (<[i := at_entry e]> (envs s)) s) s';
  pl_segments : forall k, loads k -> loaded d bin s' (proghdr bin k);
  pl_stack : forall a, on_stack a -> writable (mem s') d a;
  pl_kept : kept_but d s s' (fun a => (exists k, loads k /\ in_segment k a) \/ on_stack a);
}.

Lemma load_icode_ok s e : loading A d s -> envs s !! i = Some e -> env_pgdir e = kva d ->
  match load_icode i bin s with
  | Panic s' => e_magic bin <> ELF_MAGIC \/ page_free_list s' = None
  | Ret _ s' => e_magic bin = ELF_MAGIC /\ program_loaded s s' e
  | _ => False
  end.
Proof.
  intros Hl He Hd. unfold load_icode. destruct (Z.eqb_spec (e_magic bin) ELF_MAGIC) as [Hm|Hm]; cbn [negb]; [|by left].
  pose proof (lo_inv _ _ _ Hl) as H. rewrite (bind_Ret _ _ _ _ _ (get_env_eq s i e He)), Hd.
  assert (Hdr : 0 <= d < 65536) by (apply (page_range s); [done|]; apply (vm_root (ki_vm _ _ H)), Hl). rewrite emit_Lcr3 by done. set (s0 := set_klog _ s).
  destruct (segments_ok (seqZ 0 (e_phnum bin)) s0 (loading_klog s _ Hl) ltac:(by exists e) (NoDup_seqZ _ _)) as [(s' & E & Hn)|(s1 & E & L1 & F1 & P1 & O1)]; [intros k Hk%elem_of_seqZ; lia|unfold mbind, K_bind; rewrite E; by right|].
  rewrite (bind_Ret _ _ _ _ _ E). assert (He1 : envs s1 = envs s) by (by rewrite (vm_frame_envs _ _ F1)). assert (Hi1 : envs s1 !! i = Some e) by (by rewrite He1). rewrite (bind_Ret _ _ _ _ _ (upd_env_eq s1 i e _ Hi1)). fold (at_entry e).
  pose proof (loading_env s1 e (at_entry e) L1 Hi1 (same_core_at_entry e)) as L2. set (s2 := set_envs _ s1) in *.
  destruct (region_alloc_ok A i d s2 (USTACKTOP - PGSIZE) PGSIZE L2) as [(s' & E' & Hn)|(s3 & E' & L3 & F3 & W3 & O3)]; [exists (at_entry e); split; [apply lookup_insert_eq|by destruct e]|done..|unfold mbind, K_bind; rewrite E'; by right|].
  change (forall a, on_stack a -> writable (mem s3) d a) in W3. change (kept_but d s2 s3 on_stack) in O3.
  rewrite (bind_Ret _ _ _ _ _ E'). destruct (ki_kern _ _ (lo_inv _ _ _ L3)) as (kd & Hkd). destruct Hkd as (Hkd & _ & Hkr & _). apply (page_range s3 kd (lo_inv _ _ _ L3)) in Hkr. rewrite (bind_Ret _ _ _ _ _ (eq_refl : get kern_pgdir s3 = Ret (kern_pgdir s3) s3)), Hkd.
  rewrite (bind_Ret _ _ _ _ _ (PADDR_kva s3 kd Hkr)). split; [done|]. assert (Hr2 : roots (envs s2) = roots (envs s)) by (unfold s2; simpl; rewrite He1; apply (roots_same _ i e); [by apply (kinv_range A s i e)|done|apply same_core_at_entry]).
  split.
  - by apply loading_klog.
  - rewrite F3. unfold s2. rewrite He1, F1. by destruct s.
  - intros k Hk. assert (Hks : k ∈ seqZ 0 (e_phnum bin)) by (apply elem_of_seqZ; destruct Hk; lia). apply (loaded_kept s2); [done|done|by apply P1|]. pose proof (seg_bounds _ _ (im_segment Him k Hk)). intros a Ha. unfold in_segment in Ha. unfold on_stack in O3. apply O3; [apply L2|clia|lia].
  - exact W3.
  - intros d' a Hd' Ha Hn. destruct (O3 d' a) as [V3 U3]; [by rewrite Hr2|done|intros [-> Hs]; apply Hn; split; [done|by right]|]. destruct (O1 d' a Hd' Ha) as [V1 U1]; [intros (-> & k & _ & Hk); apply Hn; split; [done|left; by exists k]|].
    split; [exact (eq_trans V3 V1)|exact (eq_trans U3 U1)].
Qed.
End program.

(** ** [env_create] *)

Section create.
Context (A : gset Z) (bin : list Z) (type : Z).

Definition privileged (e : Env) : Env :=
  if type =? ENV_TYPE_FS then set_env_tf (set_tf_eflags (tf_eflags (env_tf e) .| FL_IOPL_3) (env_tf e)) e else e.
(** The environment [env_create] makes: [env_alloc]'s, with the type, the privilege and the entry
    point of the program *)
Definition created (i q : Z) (e : Env) : Env := at_entry bin (privileged (set_env_type type (new_env 0 i q e))).

Lemma privileged_core e : same_core e (privileged (set_env_type type e)).
Proof. unfold privileged. destruct (_ =? _); by destruct e. Qed.

Lemma set_privileged s i e (k : K unit) : envs s !! i = Some e ->
  (upd_env i (set_env_type type);; when (type =? ENV_TYPE_FS) (upd_env i (fun x => set_env_tf (set_tf_eflags (tf_eflags (env_tf x) .| FL_IOPL_3) (env_tf x)) x));; k) s
  = k (set_envs (<[i := privileged (set_env_type type e)]> (envs s)) s).
Proof.
  intros He. rewrite (bind_Ret _ _ _ _ _ (upd_env_eq s i e _ He)). unfold privileged. destruct (type =? ENV_TYPE_FS); cbn [when]; [|done].
  erewrite bind_Ret by (apply upd_env_eq, lookup_insert_eq). simpl. by rewrite insert_insert_eq.
Qed.

(** A new address space is empty and disturbs no other. *)
Lemma new_space s s1 i q e kd :
  kinv A s -> envs s !! i = Some e -> live e = false -> kern_dir A s kd -> q ∈ A -> refs (mem s) (roots (envs s)) q = 0 ->
  kinv A s1 -> envs s1 = <[i := new_env 0 i q e]> (envs s) -> mem s1 = new_dir (mem s) q kd ->
  loading A q s1 /\ (forall a, 0 <= a < UTOP -> vmap (mem s1) q a = None) /\
  forall d a, d ∈ roots (envs s) -> 0 <= a < UTOP -> d <> q /\ d ∈ roots (envs s1) /\ vmap (mem s1) d a = vmap (mem s) d a /\ ubyte s1 d a = ubyte s d a.
Proof.
  intros H He Hlv Hkd HqA H0 H1 Hes Hm. assert (Hnone : forall a, 0 <= a < UTOP -> vmap (mem s1) q a = None) by (intros a Ha; rewrite Hm; by apply (new_dir_empty A s)).
  assert (Hir : 0 <= i < NENV) by (by apply (kinv_range A s i e)). split; [split; [done| | |]|split; [done|]].
  - rewrite Hes. replace q with (root_of (new_env 0 i q e)) at 1 by apply kva_root. apply (elem_of_roots _ i); [done|apply lookup_insert_eq|done].
  - intros a b d' w w' Ha _ _ Hw. by rewrite Hnone in Hw.
  - intros a w Ha Hw. by rewrite Hnone in Hw.
  - intros d a Hd Ha. assert (Hv : vmap (mem s1) d a = vmap (mem s) d a) by (pose proof Hd as (k & ek & Hek & Hlk & Hr)%roots_elem; subst d; rewrite Hm; by apply (new_dir_vmap A s q kd k)).
    split; [intros ->; apply (refs_root (mem s)) in Hd; lia|]. split; [|split; [done|]].
    + rewrite Hes. apply roots_elem in Hd as (k & ek & Hek & Hlk & Hr). subst d. apply (elem_of_roots _ k); [by apply (kinv_range A s k ek)| |done]. by rewrite lookup_insert_ne by congruence.
    + unfold ubyte. rewrite Hv. destruct (vmap (mem s) d a) as [w|] eqn:Hw; [|done]. destruct (mapped_page A s d a w H Hd Ha Hw) as (_ & _ & Hpos). unfold rdb. rewrite Hm, new_dir_other; [done|]. intros E. rewrite E in Hpos. lia.
Qed.
End create.

(** The run of [env_create]: [s1] is the state after the allocation, [s2] the one in which the
    program is loaded. *)
Record creation (A : gset Z) (bin : list Z) (type i q : Z) (e : Env) (s s1 s2 s' : kstate) : Prop := {
  cr_slot : envs s !! i = Some e /\ live e = false;
  cr_new : loading A q s1 /\ (forall a, 0 <= a < UTOP -> vmap (mem s1) q a = None) /\
    forall d a, d ∈ roots (envs s) -> 0 <= a < UTOP -> d <> q /\ d ∈ roots (envs s1) /\ vmap (mem s1) d a = vmap (mem s) d a /\ ubyte s1 d a = ubyte s d a;
  cr_mem : mem s2 = mem s1 /\ roots (envs s2) = roots (envs s1) /\ loading A q s2;
  cr_loaded : program_loaded A i q bin s2 s' (privileged type (set_env_type type (new_env 0 i q e)));
  cr_envs : envs s' = <[i := created bin type i q e]> (envs s);
  cr_frame : env_frame s s';
}.

Lemma env_create_ok A s bin type : kinv A s -> image_ok bin ->
  match env_create bin type s with
  | Panic s' => env_free_list s = None \/ e_magic bin <> ELF_MAGIC \/ page_free_list s' = None
  | Ret _ s' => e_magic bin = ELF_MAGIC /\ exists i q e s1 s2, env_free_list s = Some i /\ creation A bin type i q e s s1 s2 s'
  | _ => False
  end.
Proof.
  intros H Him. destruct (env_alloc_fail A s 0 H) as [Hf1 Hf2]. unfold env_create.
  destruct (env_free_list s) as [i|] eqn:Hi; [|rewrite (bind_Ret _ _ _ _ _ (Hf1 eq_refl)); by left].
  destruct (page_free_list s) as [q|] eqn:Hq; [|rewrite (bind_Ret _ _ _ _ _ (Hf2 i eq_refl eq_refl)); by right; right].
  destruct (env_alloc_spec A s 0 i q H Hi Hq) as (e & kd & s1 & He & Hst & Hkd & Hal & H1 & Hfr & Hes & Hm & HqA & H0).
  assert (Hlv : live e = false) by (by apply live_free). rewrite (bind_Ret _ _ _ _ _ Hal). change (0 =? 0) with true. cbn iota.
  pose proof (new_space A s s1 i q e kd H He Hlv Hkd HqA H0 H1 Hes Hm) as (L1 & N1).
  assert (Hi1 : envs s1 !! i = Some (new_env 0 i q e)) by (rewrite Hes; apply lookup_insert_eq).
  rewrite (set_privileged type s1 i _ _ Hi1). set (x := privileged _ _). set (s2 := set_envs _ s1).
  pose proof (loading_env A i q s1 _ x L1 Hi1 (privileged_core type _)) as L2. fold s2 in L2.
  assert (Hr2 : roots (envs s2) = roots (envs s1)) by (apply (roots_same _ i (new_env 0 i q e)); [by apply (kinv_range A s i e)|done|apply privileged_core]).
  pose proof (load_icode_ok A i q bin Him s2 x L2 (lookup_insert_eq _ _ _)) as HL. specialize (HL ltac:(unfold x, privileged; by destruct (_ =? _))).
  destruct (load_icode i bin s2) as [[] s'|s'| | | | | ]; [|by destruct HL; auto|done..]. destruct HL as [Hma HL]. split; [done|].
  exists i, q, e, s1, s2. split; [done|]. split; try done. all: pose proof (pl_frame _ _ _ _ _ _ _ HL) as F'.
  - rewrite F'. simpl. by rewrite Hes, !insert_insert_eq.
  - unfold env_frame, vm_frame. rewrite F'. unfold s2. rewrite Hfr. by destruct s.
Qed.

(** C13.  Creating an environment from a program whose segments lie inside the file and below the
    stack, no two in one page, has two outcomes.  It panics, and then there was no free
    environment, the image was not an ELF file or the memory is used up.  Or the first free
    environment is runnable with the given type, starts at the entry point with a user trap frame
    and, for the file server alone, I/O privilege; every byte of every segment is the file's byte
    or, past the file's part, zero; the stack page is there to be written, nothing else is mapped,
    none of its pages is shared; and the memory of every other environment is as before. *)
Theorem env_create_correct A s bin type : kinv A s -> image_ok bin ->
  match env_create bin type s with
  | Panic s' => env_free_list s = None \/ e_magic bin <> ELF_MAGIC \/ page_free_list s' = None
  | Ret _ s' => e_magic bin = ELF_MAGIC /\ kinv A s' /\ exists i q e, env_free_list s = Some i /\ envs s !! i = Some e /\ live e = false /\
      envs s' = <[i := created bin type i q e]> (envs s) /\
      (forall k o, loads bin k -> 0 <= o < p_memsz (proghdr bin k) -> ubyte s' q (p_va (proghdr bin k) + o) = Some (segment_byte bin (proghdr bin k) o)) /\
      (forall a, on_stack a -> writable (mem s') q a) /\
      (forall a, 0 <= a < UTOP -> (forall k, loads bin k -> ~ in_segment bin k a) -> ~ on_stack a -> vmap (mem s') q a = None) /\
      solo s' q /\
      (forall j ej a, envs s !! j = Some ej -> live ej = true -> 0 <= a < UTOP ->
         vmap (mem s') (root_of ej) a = vmap (mem s) (root_of ej) a /\ ubyte s' (root_of ej) a = ubyte s (root_of ej) a)
  | _ => False
  end.
Proof.
  intros H Him. pose proof (env_create_ok A s bin type H Him) as HC. destruct (env_create bin type s) as [[] s'|s'| | | | | ]; try done.
  destruct HC as (Hma & i & q & e & s1 & s2 & Hi & [[He Hlv] (L1 & N1 & K1) (Hm2 & Hr2 & L2) [L' F' S' T' K'] Hes _]). split; [done|]. split; [apply L'|].
  exists i, q, e. split; [done|]. split; [done|]. split; [done|]. split; [done|]. split; [intros k o Hk; by apply S'|]. split; [done|]. split; [|split; [apply L'|]].
  - intros a Ha Hseg Hstk. destruct (K' q a) as [-> _]; [apply L2|done|intros [_ [(k & Hk & Hin)|?]]; [by apply (Hseg k)|done]|]. rewrite Hm2. by apply N1.
  - intros j ej a Hej Hlj Ha. assert (Hd : root_of ej ∈ roots (envs s)) by (apply (elem_of_roots _ j); [by apply (kinv_range A s j ej)|done..]). destruct (K1 (root_of ej) a Hd Ha) as (Hne & Hd1 & V1 & U1).
    destruct (K' (root_of ej) a) as [V2 U2]; [by rewrite Hr2|done|by intros [? _]|]. unfold ubyte in *. rewrite Hm2 in *. split; [exact (eq_trans V2 V1)|exact (eq_trans U2 U1)].
Qed.

(** A program of two instructions and two bytes of cleared data *)
Definition tiny_image : list Z :=
  [0x7F; 0x45; 0x4C; 0x46] ++ replicate 20 0 ++ [0x20; 0; 0x80; 0] ++ [52; 0; 0; 0] ++ replicate 12 0 ++ [1; 0] ++ replicate 6 0 ++
  [1; 0; 0; 0] ++ [84; 0; 0; 0] ++ [0x20; 0; 0x80; 0] ++ [0; 0; 0; 0] ++ [2; 0; 0; 0] ++ [4; 0; 0; 0] ++ replicate 8 0 ++ [0x90; 0xC3].

Lemma tiny_image_ok : image_ok tiny_image.
Proof.
  assert (Hone : forall k, loads tiny_image k -> k = 0) by (intros k [Hk _]; change (e_phnum tiny_image) with 1 in Hk; lia).
  split; [intros k ->%Hone; by split|]. by intros j k a ->%Hone ->%Hone.
Qed.

Lemma env_create_correct_witness : exists s' q, env_create tiny_image ENV_TYPE_USER kbig = Ret tt s' /\ kinv kbig_A s' /\
  ubyte s' q 0x800021 = Some 0xC3 /\ ubyte s' q 0x800022 = Some 0.
Proof.
  pose proof (env_create_correct kbig_A kbig tiny_image ENV_TYPE_USER kbig_inv tiny_image_ok) as H.
  assert (E : match env_create tiny_image ENV_TYPE_USER kbig with Ret _ _ => True | _ => False end) by (vm_compute; exact I).
  destruct (env_create tiny_image ENV_TYPE_USER kbig) as [[] s'|?|?|?|?|?|?]; [|contradiction E..].
  destruct H as (_ & Hi & i & q & e & _ & _ & _ & _ & Hseg & _). exists s', q. split; [reflexivity|]. split; [exact Hi|].
  assert (H0 : loads tiny_image 0) by (split; [change (e_phnum tiny_image) with 1; lia|reflexivity]).
  split; [apply (Hseg 0 1 H0); change (p_memsz (proghdr tiny_image 0)) with 4; lia|apply (Hseg 0 2 H0); change (p_memsz (proghdr tiny_image 0)) with 4; lia].
Defined.
