(* ===== verification/Machine.v ===== *)
(** * Machine: the kernel from power-on

    The boot, the creation of the first environments, the stores of user programs, their traps and
    the interrupts of an idle CPU as the steps of one machine.  Whatever the order of the steps, the
    invariant of the kernel holds and every field has a value of its C type; and no step of user
    programs or devices can stop the kernel. *)

From S2P Require Import Prelude Layout KState KMem Pmap VmRefs VmInv VmOps UMem KInv KEx Env EnvOps Sched SchedThms SysOps UStore Time Trap TrapThms MemInit KernMap MemInitThms LoadThms.

Inductive mode := Booting | Running | Idling | Monitoring.

(** How the kernel was left *)
Definition left_as {B} (o : outcome B) : option (mode * kstate) :=
  match o with
  | UserMode s => Some (Running, s)
  | Halted s => Some (Idling, s)
  | Monitor s => Some (Monitoring, s)
  | Ret _ _ | Panic _ | Spin _ | Stuck _ => None
  end.

(** What the hardware and the past of the machine give a trap: no CPU has panicked, the gate has
    turned interrupts off, no counter is about to wrap. *)
Record trap_ready (s : kstate) (i : trap_in) : Prop := {
  tr_panic : panicstr i = false;
  tr_flags : eflags i .& FL_IF = 0;
  tr_ticks : 0 <= ticks s < MAX_TICKS;
  tr_refs : forall q p, pages s !! q = Some p -> pp_ref p + 1 < 2^16;
}.
(** A trap that can come in a mode *)
Definition can_trap (m : mode) (tf : Trapframe) : Prop :=
  match m with
  | Running => user_frame tf /\ covered tf
  | Idling => tf_cs tf .& 3 <> 3 /\ tf_trapno tf ∈ plain_irqs
  | Booting | Monitoring => False
  end.

Inductive machine (kend bootstack percpu_kstacks : Z) (cmos : Z -> Z) (k0 : Z) : mode -> kstate -> Prop :=
  | m_boot s s' : power_on kend bootstack percpu_kstacks cmos k0 s -> kernel_lock s = None -> awake s ->
      (mem_init kend bootstack percpu_kstacks cmos;; env_init;; lock_kernel) s = Ret tt s' ->
      machine kend bootstack percpu_kstacks cmos k0 Booting s'
  | m_create s bin type s' : machine kend bootstack percpu_kstacks cmos k0 Booting s -> image_ok bin ->
      env_create bin type s = Ret tt s' -> machine kend bootstack percpu_kstacks cmos k0 Booting s'
  | m_first s m s' : machine kend bootstack percpu_kstacks cmos k0 Booting s ->
      left_as (sched_yield (A:=unit) s) = Some (m, s') -> machine kend bootstack percpu_kstacks cmos k0 m s'
  | m_store s i e a b s' : machine kend bootstack percpu_kstacks cmos k0 Running s -> cur_is s (Some i) -> envs s !! i = Some e ->
      0 <= a < UTOP -> writable (mem s) (root_of e) a -> ustoreb (env_pgdir e) a b s = Ret tt s' ->
      machine kend bootstack percpu_kstacks cmos k0 Running s'
  | m_trap s m i tf m' s' : machine kend bootstack percpu_kstacks cmos k0 m s -> can_trap m tf -> trap_ready s i ->
      left_as (trap i tf s) = Some (m', s') -> machine kend bootstack percpu_kstacks cmos k0 m' s'.

(** ** The invariant *)

(** What holds in a mode, beside the invariant of the kernel *)
Definition mode_ok (m : mode) (s : kstate) : Prop :=
  match m with
  | Booting => locked s
  | Running => exists i, running i s
  | Idling => idle s
  | Monitoring => True
  end.
Definition good (m : mode) (s : kstate) : Prop := exists A, kinv A s /\ mode_ok m s.

Lemma ok_left A (o : outcome unit) : ok A (fun _ _ => False) o -> exists m s', left_as o = Some (m, s') /\ good m s'.
Proof.
  intros H. destruct o as [? s'|s'|s'|s'|s'|s'|s']; try done.
  - exists Running, s'. split; [done|]. exists A. apply H.
  - exists Idling, s'. split; [done|]. exists A. apply H.
  - exists Monitoring, s'. split; [done|]. exists A. split; [apply H|done].
Qed.

Lemma refs_small_ready A s i : kinv A s -> trap_ready s i -> refs_small A s.
Proof.
  intros H [_ _ _ Hr] q Hq _. destruct (ki_vm _ _ H) as [_ Hp]. pose proof (pi_pool _ _ _ _ _ _ Hp q Hq) as Hn.
  destruct (proj2 (pi_dom _ _ _ _ _ _ Hp q) Hn) as [p Hqp]. rewrite <- (pi_ref _ _ _ _ _ _ Hp q p Hq Hqp). by apply (Hr q).
Qed.

(** Every trap that can come leaves the kernel in a good state. *)
Lemma trap_good m s i tf : good m s -> can_trap m tf -> trap_ready s i -> exists m' s', left_as (trap i tf s) = Some (m', s') /\ good m' s'.
Proof.
  intros (A & H & Hm) Ht Hr. pose proof Hr as [Hpn Hfl Htk _]. apply (ok_left A). destruct m; try done.
  - destruct Hm as (j & e & Hcur & He & Hst & _ & (Hlk & p & Hp & Hpa) & _), Ht as [Hu Hc].
    apply (trap_safe A j e p); try done; [by apply running_live|by apply (refs_small_ready A s i)].
  - destruct Ht as [Hcs Hn]. pose proof Hm as (_ & _ & p & Hp & Hst). by apply (idle_interrupt_safe A p).
Qed.

Lemma first_good s : good Booting s -> exists m s', left_as (sched_yield (A:=unit) s) = Some (m, s') /\ good m s'.
Proof. intros (A & H & Hl). apply (ok_left A). by apply sched_yield_ok. Qed.

Lemma store_good s i e a b s' : good Running s -> cur_is s (Some i) -> envs s !! i = Some e -> 0 <= a < UTOP -> writable (mem s) (root_of e) a ->
  ustoreb (env_pgdir e) a b s = Ret tt s' -> good Running s'.
Proof.
  intros (A & H & j & x & Hcur & Hx & Hst & Hrest) Hc He Ha Hw Hu. destruct Hcur as (p & Hp & Hj), Hc as (p' & Hp' & Hi). rewrite Hp in Hp'. injection Hp' as <-.
  rewrite Hj in Hi. injection Hi as ->. rewrite He in Hx. injection Hx as <-. pose proof (running_live e Hst) as Hl.
  destruct (kinv_root A s i e H He Hl) as (Hr & Hpg & _). rewrite Hpg in Hu. destruct (ustoreb_spec A s H (root_of e) Hr a b Ha Hw) as (w & _ & E & D). rewrite E in Hu. injection Hu as <-.
  exists A. split; [apply D|]. exists i, e. split; [by exists p|]. done.
Qed.

Section run.
Context (kend bootstack percpu_kstacks : Z) (cmos : Z -> Z) (k0 : Z).
Notation machine := (machine kend bootstack percpu_kstacks cmos k0).

Lemma boot_good s s' : power_on kend bootstack percpu_kstacks cmos k0 s -> kernel_lock s = None -> awake s ->
  (mem_init kend bootstack percpu_kstacks cmos;; env_init;; lock_kernel) s = Ret tt s' -> good Booting s'.
Proof.
  intros P Hl Ha E. destruct (boot_ok _ _ _ _ _ _ P) as (L & H & t & Et & _ & K & _ & _ & Hc & Hn & Hk & _). rewrite Et, lock_kernel_free in E by congruence. injection E as <-.
  exists (list_to_set (L ++ H)). split; [by apply kinv_set_lock|]. split; [done|]. unfold awake in *. simpl. by rewrite Hc, Hn.
Qed.

Lemma create_good s bin type s' : good Booting s -> image_ok bin -> env_create bin type s = Ret tt s' -> good Booting s'.
Proof.
  intros (A & H & Hl) Hb E. pose proof (env_create_ok A s bin type H Hb) as HC. rewrite E in HC. destruct HC as (_ & i & q & e & s1 & s2 & _ & HC).
  exists A. split; [apply (pl_loading _ _ _ _ _ _ _ (cr_loaded _ _ _ _ _ _ _ _ _ _ HC))|]. apply (env_frame_locked s); [apply HC|done].
Qed.

Lemma machine_good m s : machine m s -> good m s.
Proof.
  induction 1 as [s s' P Hl Ha E|s bin type s' _ IH Hb E|s m s' _ IH E|s i e a b s' _ IH Hc He Ha Hw E|s m i tf m' s' _ IH Ht Hr E].
  - by apply (boot_good s).
  - by apply (create_good s bin type).
  - destruct (first_good s IH) as (m1 & s1 & E1 & G). rewrite E in E1. by injection E1 as -> ->.
  - by apply (store_good s i e a b).
  - destruct (trap_good m s i tf IH Ht Hr) as (m1 & s1 & E1 & G). rewrite E in E1. by injection E1 as -> ->.
Qed.
End run.

(** ** Types *)

(** Every field that the invariant describes has a value of its C type, and every pointer points
    to an element of its array.  [A] is the set of pages that can be allocated. *)
Record typed (A : gset Z) (s : kstate) : Prop := {
  ty_word : forall pg i, 0 <= rdw (mem s) pg i < 2^32;
  ty_npages : 0 < npages s <= 65536;
  ty_pages : forall i, is_Some (pages s !! i) <-> 0 <= i < npages s;
  ty_pool : forall i, i ∈ A -> 0 <= i < npages s;
  ty_page : forall i p, i ∈ A -> pages s !! i = Some p -> 0 <= pp_ref p < 2^16 /\ forall j, pp_link p = Some j -> j ∈ A;
  ty_free : forall i, page_free_list s = Some i -> i ∈ A;
  ty_envs : forall i, is_Some (envs s !! i) <-> 0 <= i < NENV;
  ty_env : forall i e, envs s !! i = Some e -> 0 <= env_id e < 2^31 /\ 0 <= env_ipc_dstva e < 2^32 /\
    (env_status e <> ENV_FREE -> env_id e mod 1024 = i /\ exists q, q ∈ A /\ env_pgdir e = kva q) /\
    (env_status e = ENV_FREE -> forall j, env_link e = Some j -> 0 <= j < NENV);
  ty_env_free : forall i, env_free_list s = Some i -> 0 <= i < NENV;
  ty_cpu : exists c, cpus s !! cpunum s = Some c /\ forall i, cpu_env c = Some i -> 0 <= i < NENV;
}.

(** The links of a list lead to its elements. *)
Lemma linked_next pgs head fl i p j : linked pgs head fl -> i ∈ fl -> pgs !! i = Some p -> pp_link p = Some j -> j ∈ fl.
Proof.
  revert head. induction fl as [|k fl IH]; intros head Hl Hi Hp Hj; [by apply elem_of_nil in Hi|]. destruct Hl as (_ & p' & Hp' & Hl). right.
  apply elem_of_cons in Hi as [->|Hi]; [|by apply (IH (pp_link p'))]. rewrite Hp in Hp'. injection Hp' as <-. rewrite Hj in Hl. destruct fl; [done|]. destruct Hl as [[= <-] _]. left.
Qed.
Lemma elinked_next es head fl i e j : elinked es head fl -> i ∈ fl -> es !! i = Some e -> env_link e = Some j -> j ∈ fl.
Proof.
  revert head. induction fl as [|k fl IH]; intros head Hl Hi Hp Hj; [by apply elem_of_nil in Hi|]. destruct Hl as (_ & p' & Hp' & Hl). right.
  apply elem_of_cons in Hi as [->|Hi]; [|by apply (IH (env_link p'))]. rewrite Hp in Hp'. injection Hp' as <-. rewrite Hj in Hl. destruct fl; [done|]. destruct Hl as [[= <-] _]. left.
Qed.

Lemma kinv_typed A s : kinv A s -> typed A s.
Proof.
  intros H. pose proof H as [[Ht Hp] He _ Hc]. destruct (pi_list _ _ _ _ _ _ Hp) as (fl & Hl & _ & _ & Hin & Hno), (ei_list _ _ He) as (el & Hel & _ & Hein).
  assert (HflA : forall i, i ∈ fl -> i ∈ A) by (intros i Hi; apply (Hin i); by left). assert (Hr : forall i, i ∈ el -> 0 <= i < NENV) by (intros i (e & Hi & _)%Hein; by apply (kinv_range A s i e)). split.
  - apply Ht.
  - apply Hp.
  - apply Hp.
  - apply Hp.
  - intros i p Hi Hip. rewrite (pi_ref _ _ _ _ _ _ Hp i p Hi Hip). split; [by apply Hp|]. intros j Hj. destruct (decide (i ∈ fl)) as [Hif|Hif]; [|rewrite (Hno i p) in Hj; done]. apply HflA. by apply (linked_next _ _ _ i p j Hl).
  - intros i Hi. rewrite Hi in Hl. destruct fl as [|k fl]; [done|]. destruct Hl as [[= <-] _]. apply HflA. left.
  - apply He.
  - intros i e Hi. destruct (ei_id _ _ He i e Hi) as [Hid Hmod]. split; [done|]. split; [by apply (ei_dst _ _ He i)|]. split.
    + intros Hs. assert (Hlv : live e = true) by (unfold live; by rewrite (proj2 (Z.eqb_neq _ _) Hs)). destruct (kinv_root A s i e H Hi Hlv) as (Hd & Hpg & _), (ei_live _ _ He i e Hi Hlv) as [_ Hpos].
      pose proof (kinv_range A s i e H Hi) as Hir. rewrite NENV_eq in Hir. split; [destruct Hmod; [lia|dlia]|]. exists (root_of e). split; [by apply (ti_root _ _ _ Ht)|done].
    + intros Hs j Hj. apply Hr. apply (elinked_next _ _ _ i e j Hel); [apply Hein; eauto|done|done].
  - intros i Hi. rewrite Hi in Hel. destruct el as [|k el]; [done|]. destruct Hel as [[= <-] _]. apply Hr. left.
  - destruct Hc as (c & Hc & Hce). exists c. split; [done|]. intros i Hi. apply (ei_dom _ _ He). by apply Hce.
Qed.

(** ** Theorems *)



Lemma cold_awake : awake cold.
Proof. by exists (mkCpuInfo 1 None). Qed.
Lemma cold_boots : exists s, machine (kva 300) (kva 280) (kva 270) cmos_8mb 300 Booting s.
Proof.
  destruct (boot_ok _ _ _ _ _ _ cold_on) as (L & H & t & Et & _ & _ & _ & _ & _ & _ & Hk & _). exists (set_kernel_lock (Some (cpunum t)) t).
  apply (m_boot _ _ _ _ _ cold); [exact cold_on|done|exact cold_awake|]. rewrite Et. by apply lock_kernel_free.
Qed.


