(* ===== verification/Fd.v ===== *)
(** * Fd: file descriptors of a program ([lib/fd.c], [inc/fd.h], [lib/pageref.c])

    A descriptor is a page at a fixed address, and its data a second page.  Opening, duplicating and
    closing are done with the page tables: two descriptors with the same page share their offset.
    The operations of a device are a record of functions, as in the source. *)

From S2P Require Import Prelude Layout KState UMonad Str Fsipc Usys.

Definition MAXFD : Z := 32.
Definition FDTABLE : Z := 0xD0000000.
Definition FILEDATA : Z := FDTABLE + MAXFD * PGSIZE.
#[export] Hint Unfold MAXFD FDTABLE FILEDATA : cconst.
Definition INDEX2FD (i : Z) : Z := u32 (FDTABLE + i * PGSIZE).
Definition INDEX2DATA (i : Z) : Z := u32 (FILEDATA + i * PGSIZE).

(** [struct Dev]; a missing operation is [None] *)
Record Dev := mkDev {
  dev_addr : Z;  (* where the structure is *)
  dev_id : Z;
  dev_read : option (Z -> Z -> Z -> M kstate Z);
  dev_write : option (Z -> Z -> Z -> M kstate Z);
  dev_close : option (Z -> M kstate Z);
  dev_stat : option (Z -> Z -> M kstate Z);
  dev_trunc : option (Z -> Z -> M kstate Z);
}.

(** The fields of [struct Stat] *)
Definition st_name (st : Z) : Z := st.
Definition st_size (st : Z) : Z := st + MAXNAMELEN.
Definition st_isdir (st : Z) : Z := st + MAXNAMELEN + 4.
Definition st_dev (st : Z) : Z := st + MAXNAMELEN + 8.

(** An [int] in memory *)
Definition ld_int (a : Z) : M kstate Z := w ← ld32 a; mret (i32 w).

Definition fd2num (fd : Z) : Z := u32 (fd - FDTABLE) / PGSIZE.
Definition fd2data (fd : Z) : Z := INDEX2DATA (fd2num fd).

(** Whether the page of [va] is mapped: [(uvpd[PDX(va)] & PTE_P) && (uvpt[PGNUM(va)] & PTE_P)] *)
Definition va_mapped (va : Z) : M kstate bool :=
  pde ← uvpd (PDX va);
  if truth (pde .& PTE_P) then pte ← uvpt (PGNUM va); mret (truth (pte .& PTE_P)) else mret false.

Fixpoint fd_alloc_loop (l : list Z) : M kstate (Z * Z) :=
  match l with
  | [] => mret (- E_MAX_OPEN, 0)
  | i :: l =>
      let fd := INDEX2FD i in
      b ← va_mapped fd;
      if (b : bool) then fd_alloc_loop l else mret (0, fd)
  end.
Definition fd_alloc : M kstate (Z * Z) := fd_alloc_loop (seqZ 0 MAXFD).

(** The result and the descriptor that is stored with it *)
Definition fd_lookup (fdnum : Z) : M kstate (Z * Z) :=
  if (fdnum <? 0) || (MAXFD <=? fdnum) then mret (- E_INVAL, 0)
  else
    let fd := INDEX2FD fdnum in
    b ← va_mapped fd;
    if (b : bool) then mret (0, fd) else mret (- E_INVAL, 0).

(** The number of references to the page of [v] *)
Definition user_pageref (v : Z) : M kstate Z :=
  pde ← uvpd (PDX v);
  if negb (truth (pde .& PTE_P)) then mret 0
  else
    pte ← uvpt (PGNUM v);
    if negb (truth (pte .& PTE_P)) then mret 0
    else mget (fun s => match pages s !! PGNUM pte with Some p => pp_ref p | None => 0 end).

Section fd.
Context (junk : Z) (devtab : list Dev).
(** What [cprintf] prints about an unknown device or a bad mode *)
Context (complain : Z -> M kstate unit).

Definition dev_lookup (id : Z) : M kstate (Z * option Dev) :=
  match find (fun d => dev_id d =? id) devtab with
  | Some d => mret (0, Some d)
  | None => complain id;; mret (- E_INVAL, None)
  end.

Definition fd_close (fd : Z) (must_exist : bool) : M kstate Z :=
  '(r, fd2) ← fd_lookup (fd2num fd);
  if (r <? 0) || negb (fd =? fd2) then mret (if must_exist then r else 0)
  else
    id ← ld_int (fd_dev_id fd);
    '(r, dev) ← dev_lookup id;
    r ← match dev with
        | Some d => if 0 <=? r then match dev_close d with Some close => close fd | None => mret 0 end else mret r
        | None => mret r
        end;
    usys_page_unmap junk 0 fd;;
    mret r.

Definition close (fdnum : Z) : M kstate Z :=
  '(r, fd) ← fd_lookup fdnum;
  if r <? 0 then mret r else fd_close fd true.

Definition close_all : M kstate unit := mfor (seqZ 0 MAXFD) (fun i => close i;; mret tt).

(** The data page, if there is one *)
Definition dup_data (ova nva : Z) : M kstate Z :=
  b ← va_mapped ova;
  if (b : bool) then pte ← uvpt (PGNUM ova); usys_page_map junk 0 ova 0 nva (pte .& PTE_SYSCALL) else mret 0.

Definition dup (oldfdnum newfdnum : Z) : M kstate Z :=
  '(r, oldfd) ← fd_lookup oldfdnum;
  if r <? 0 then mret r
  else
    close newfdnum;;
    let newfd := INDEX2FD newfdnum in
    let ova := fd2data oldfd in
    let nva := fd2data newfd in
    let err (r : Z) := usys_page_unmap junk 0 newfd;; usys_page_unmap junk 0 nva;; mret r in
    r ← dup_data ova nva;
    if r <? 0 then err r
    else
      pte ← uvpt (PGNUM oldfd);
      r ← usys_page_map junk 0 oldfd 0 newfd (pte .& PTE_SYSCALL);
      if r <? 0 then err r else mret newfdnum.

(** The descriptor and the device of an operation, or the error *)
Definition fd_dev (fdnum : Z) : M kstate (Z * Z * option Dev) :=
  '(r, fd) ← fd_lookup fdnum;
  if r <? 0 then mret (r, fd, None)
  else
    id ← ld_int (fd_dev_id fd);
    '(r, dev) ← dev_lookup id;
    mret (r, fd, dev).

Definition read (fdnum buf n : Z) : M kstate Z :=
  '(r, fd, dev) ← fd_dev fdnum;
  match dev with
  | Some d =>
      mode ← ld_int (fd_omode fd);
      if mode .& O_ACCMODE =? O_WRONLY then complain fdnum;; mret (- E_INVAL)
      else match dev_read d with Some f => f fd buf n | None => mret (- E_NOT_SUPP) end
  | None => mret r
  end.

Definition write (fdnum buf n : Z) : M kstate Z :=
  '(r, fd, dev) ← fd_dev fdnum;
  match dev with
  | Some d =>
      mode ← ld_int (fd_omode fd);
      if mode .& O_ACCMODE =? O_RDONLY then complain fdnum;; mret (- E_INVAL)
      else match dev_write d with Some f => f fd buf n | None => mret (- E_NOT_SUPP) end
  | None => mret r
  end.

(** A read may return less than it was asked for; at most [n] of them can return something. *)
Fixpoint readn_loop (fuel : nat) (fdnum buf n tot : Z) : M kstate Z :=
  if tot <? n then
    match fuel with
    | O => wrong
    | S fuel =>
        m ← read fdnum (buf + tot) (n - tot);
        if m <? 0 then mret m
        else if m =? 0 then mret tot
        else readn_loop fuel fdnum buf n (tot + m)
    end
  else mret tot.
Definition readn (fdnum buf n : Z) : M kstate Z := readn_loop (Z.to_nat n) fdnum buf n 0.

Definition seek (fdnum offset : Z) : M kstate Z :=
  '(r, fd) ← fd_lookup fdnum;
  if r <? 0 then mret r else st32 (fd_offset fd) (u32 offset);; mret 0.

Definition ftruncate (fdnum newsize : Z) : M kstate Z :=
  '(r, fd, dev) ← fd_dev fdnum;
  match dev with
  | Some d =>
      mode ← ld_int (fd_omode fd);
      if mode .& O_ACCMODE =? O_RDONLY then complain fdnum;; mret (- E_INVAL)
      else match dev_trunc d with Some f => f fd newsize | None => mret (- E_NOT_SUPP) end
  | None => mret r
  end.

Definition fstat (fdnum stat : Z) : M kstate Z :=
  '(r, fd, dev) ← fd_dev fdnum;
  match dev with
  | Some d =>
      match dev_stat d with
      | Some f =>
          stb (st_name stat) 0;;
          st32 (st_size stat) 0;;
          st32 (st_isdir stat) 0;;
          st32 (st_dev stat) (dev_addr d);;
          f fd stat
      | None => mret (- E_NOT_SUPP)
      end
  | None => mret r
  end.
End fd.
