(* ===== verification/FdThms.v ===== *)
(** * FdThms: file descriptors and their pages

    [changed] says what a library function has done to the mappings and the bytes of all
    environments.  With it the functions that make, duplicate and close descriptors are described
    by the pages they touch. *)

From S2P Require Import Prelude Layout KState KMem Pmap VmRefs VmInv VmOps KInv SysOps UStore PageUse Syscall UMonad Str Usys UsysThms ForkThms ForkRun UpcallThms Fsipc Fd.

Section space.
Context (junk : Z) (A : gset Z) (i : Z) (e : Env).
Notation d := (root_of e).

(** Only the pages [P] of the program have changed. *)
Record changed (s s' : kstate) (P : Z -> Prop) : Prop := {
  ch_kin : kin A i e s';
  ch_frame : vm_frame s s';
  ch_maps : forall d' a, d' ∈ roots (envs s) -> 0 <= a < UTOP -> ~ (d' = d /\ P (a / 4096)) -> vmap (mem s') d' a = vmap (mem s) d' a;
  ch_bytes : forall d' a, d' ∈ roots (envs s) -> 0 <= a < UTOP -> ~ (d' = d /\ P (a / 4096)) -> ubyte s' d' a = ubyte s d' a;
}.

Lemma changed_refl s P : kin A i e s -> changed s s P.
Proof. intros Hk. split; [done|auto with frame|done|done]. Qed.
Lemma changed_trans s s' s'' P Q : changed s s' P -> changed s' s'' Q -> changed s s'' (fun n => P n \/ Q n).
Proof.
  intros [K F M B] [K' F' M' B']. assert (He : envs s' = envs s) by (by apply vm_frame_envs). split; [done|by eapply vm_frame_trans| |].
  - intros d' a Hd' Ha Hn. rewrite M', M by (try rewrite He; naive_solver). done.
  - intros d' a Hd' Ha Hn. rewrite B', B by (try rewrite He; naive_solver). done.
Qed.
Lemma changed_mono s s' (P Q : Z -> Prop) : (forall n, P n -> Q n) -> changed s s' P -> changed s s' Q.
Proof. intros HPQ [K F M B]. split; [done|done| |]; intros d' a Hd' Ha Hn; [apply M|apply B]; naive_solver. Qed.

Lemma changed_map s s' va p perm : kin A i e s -> 0 <= va < UTOP -> maps A s s' d va p perm -> changed s s' (fun n => n = va / 4096).
Proof.
  intros Hk Hva Hm. pose proof Hm as (I & F & _ & M & _). split; [by apply (kin_frame A i e s)|done|by intros d' a Hd' Ha Hn; apply M|].
  intros d' a Hd' Ha Hn. by apply (maps_ubyte A s (kin_inv _ _ _ _ Hk) s' d va p perm).
Qed.
Lemma changed_unmap s s' va : kin A i e s -> 0 <= va < UTOP -> unmaps A s s' d va -> changed s s' (fun n => n = va / 4096).
Proof.
  intros Hk Hva Hm. pose proof Hm as (I & F & _ & M & _). split; [by apply (kin_frame A i e s)|done|by intros d' a Hd' Ha Hn; apply M|].
  intros d' a Hd' Ha Hn. by apply (unmaps_ubyte A s (kin_inv _ _ _ _ Hk) s' d va).
Qed.

(** ** Looking at the page tables *)

Lemma vmap_entry m d' va w : vmap m d' va = Some w -> present (rdw m d' (PDX va)) = true /\ present w = true /\ w = rdw m (pgn (rdw m d' (PDX va))) (PTX va).
Proof. unfold vmap. destruct (present (rdw m d' (PDX va))); [|done]. cbv zeta. destruct (present _) eqn:E; [|done]. intros [= <-]. done. Qed.

Lemma va_mapped_eq s va : kin A i e s -> 0 <= va < UTOP -> va_mapped va s = Ok (bool_decide (is_Some (vmap (mem s) d va))) s.
Proof.
  intros Hk Hva. unfold va_mapped. rewrite (bind_Ok _ _ _ _ _ (uvpd_eq A i e s _ Hk)). fold (present (rdw (mem s) d (PDX va))). destruct (vmap (mem s) d va) as [w|] eqn:Hw.
  - destruct (vmap_entry _ _ _ _ Hw) as (Hp & Hq & _). rewrite Hp, (bind_Ok _ _ _ _ _ (uvpt_eq A i e s va w Hk Hva Hw)). fold (present w). rewrite Hq. by rewrite bool_decide_true by eauto.
  - rewrite bool_decide_false by (by intros [? ?]). destruct (present (rdw (mem s) d (PDX va))) eqn:Hp; [|done]. rewrite (bind_Ok _ _ _ _ _ (uvpt_present s d va (user_dir_eq _ _ _ _ Hk) Hva Hp)).
    unfold vmap in Hw. rewrite Hp in Hw. cbv zeta in Hw. fold (present (rdw (mem s) (pgn (rdw (mem s) d (PDX va))) (PTX va))). by destruct (present (rdw (mem s) (pgn _) (PTX va))).
Qed.

(** Where the pages of descriptor [n] are *)
Definition fd_va (n : Z) : Z := FDTABLE + n * 4096.
Definition data_va (n : Z) : Z := FILEDATA + n * 4096.
Definition fd_range (n : Z) : Prop := 0 <= n < MAXFD.

Lemma INDEX2FD_eq n : fd_range n -> INDEX2FD n = fd_va n.
Proof. unfold fd_range, INDEX2FD, fd_va. intros Hn. apply u32_small. clia. Qed.
Lemma fd2num_va n : fd_range n -> fd2num (fd_va n) = n.
Proof. unfold fd_range, fd2num, fd_va. intros Hn. rewrite u32_small by clia. unfold PGSIZE. autounfold with cconst in *. dlia. Qed.
Lemma fd2data_va n : fd_range n -> fd2data (fd_va n) = data_va n.
Proof. intros Hn. unfold fd2data. rewrite fd2num_va by done. unfold INDEX2DATA, data_va. unfold fd_range in Hn. apply u32_small. clia. Qed.
Lemma fd_va_user n : fd_range n -> 0 <= fd_va n < UTOP /\ bad_va (fd_va n) = false.
Proof.
  unfold fd_range, fd_va. intros Hn. split; [clia|]. unfold bad_va. rewrite (proj2 (Z.leb_gt _ _)) by clia. unfold truth. rewrite PGOFF_mod. autounfold with cconst. cbn [orb]. apply negb_false_iff, Z.eqb_eq. dlia.
Qed.
Lemma data_va_user n : fd_range n -> 0 <= data_va n < UTOP /\ bad_va (data_va n) = false.
Proof.
  unfold fd_range, data_va. intros Hn. split; [clia|]. unfold bad_va. rewrite (proj2 (Z.leb_gt _ _)) by clia. unfold truth. rewrite PGOFF_mod. autounfold with cconst. cbn [orb]. apply negb_false_iff, Z.eqb_eq. dlia.
Qed.
Lemma fd_va_page n : fd_va n / 4096 = 851968 + n.
Proof. unfold fd_va. autounfold with cconst. dlia. Qed.
Lemma data_va_page n : data_va n / 4096 = 852000 + n.
Proof. unfold data_va. autounfold with cconst. dlia. Qed.

(** ** Finding descriptors *)

Definition opened (s : kstate) (n : Z) : Prop := is_Some (vmap (mem s) d (fd_va n)).

Lemma fd_alloc_loop_ok s l : kin A i e s -> Forall fd_range l ->
  (fd_alloc_loop l s = Ok (- E_MAX_OPEN, 0) s /\ Forall (opened s) l) \/
  exists l1 n l2, l = l1 ++ n :: l2 /\ fd_alloc_loop l s = Ok (0, fd_va n) s /\ ~ opened s n /\ Forall (opened s) l1.
Proof.
  intros Hk. induction l as [|n l IH]; intros Hl; [by left|]. apply Forall_cons in Hl as [Hn Hl]. cbn [fd_alloc_loop]. rewrite INDEX2FD_eq by done.
  rewrite (bind_Ok _ _ _ _ _ (va_mapped_eq s (fd_va n) Hk (proj1 (fd_va_user n Hn)))). case_bool_decide as Hm.
  - destruct (IH Hl) as [[E HA]|(l1 & m & l2 & -> & E & Hm' & Hl1)]; [left; split; [done|by constructor]|right]. exists (n :: l1), m, l2. split; [done|]. split; [done|]. split; [done|]. by constructor.
  - right. exists [], n, l. done.
Qed.

(** [fd_alloc] finds the first descriptor that is not open. *)
Lemma fd_alloc_ok s : kin A i e s ->
  (fd_alloc s = Ok (- E_MAX_OPEN, 0) s /\ forall n, fd_range n -> opened s n) \/
  exists n, fd_range n /\ fd_alloc s = Ok (0, fd_va n) s /\ ~ opened s n /\ forall m, 0 <= m < n -> opened s m.
Proof.
  intros Hk. destruct (fd_alloc_loop_ok s (seqZ 0 MAXFD) Hk) as [[E HA]|(l1 & n & l2 & El & E & Hn & Hl1)]; [apply Forall_forall; intros n Hn%elem_of_seqZ; unfold fd_range; lia| |].
  - left. split; [done|]. intros n Hn. rewrite Forall_forall in HA. apply HA, elem_of_seqZ. unfold fd_range in Hn. lia.
  - right. pose proof (f_equal (fun l => l !! length l1) El) as Hlk. simpl in Hlk. rewrite list_lookup_middle in Hlk by done. apply lookup_seqZ in Hlk as [Hlk Hlen]. assert (Hr : fd_range n) by (unfold fd_range; lia).
    exists n. split; [done|]. split; [done|]. split; [done|]. intros m Hm. rewrite Forall_forall in Hl1. apply Hl1.
    assert (Hml : seqZ 0 MAXFD !! Z.to_nat m = Some m) by (apply lookup_seqZ; lia). rewrite El, lookup_app_l in Hml by lia. by apply list_elem_of_lookup_2 in Hml.
Qed.

Lemma fd_lookup_ok s n : kin A i e s ->
  (fd_range n /\ opened s n /\ fd_lookup n s = Ok (0, fd_va n) s) \/ (~ (fd_range n /\ opened s n) /\ fd_lookup n s = Ok (- E_INVAL, 0) s).
Proof.
  intros Hk. unfold fd_lookup. destruct (decide (fd_range n)) as [Hn|Hn].
  - unfold fd_range in Hn. rewrite (proj2 (Z.ltb_ge n 0)), (proj2 (Z.leb_gt _ _)) by lia. cbn [orb]. rewrite INDEX2FD_eq by done. rewrite (bind_Ok _ _ _ _ _ (va_mapped_eq s (fd_va n) Hk (proj1 (fd_va_user n Hn)))).
    case_bool_decide as Hm; [left; done|right]. split; [by intros [_ ?]|done].
  - right. split; [naive_solver|]. assert ((n <? 0) || (MAXFD <=? n) = true) as ->; [|done]. unfold fd_range in Hn. apply orb_true_iff. rewrite Z.ltb_lt, Z.leb_le. lia.
Qed.

(** ** Counting *)

Lemma user_pageref_ok s va w : kin A i e s -> 0 <= va < UTOP -> vmap (mem s) d va = Some w -> user_pageref va s = Ok (uses (mem s) (roots (envs s)) (pgn w)) s.
Proof.
  intros Hk Hva Hw. pose proof (kin_inv _ _ _ _ Hk) as H. pose proof (kin_root _ _ _ _ Hk) as Hd. destruct (mapped_page A s d va w H Hd Hva Hw) as (HA & Hnt & _).
  unfold user_pageref. rewrite (bind_Ok _ _ _ _ _ (uvpd_eq A i e s _ Hk)). fold (present (rdw (mem s) d (PDX va))).
  destruct (vmap_entry _ _ _ _ Hw) as (Hp & Hq & Ew). rewrite Hp. cbn [negb]. rewrite (bind_Ok _ _ _ _ _ (uvpt_eq A i e s va w Hk Hva Hw)). fold (present w). rewrite Hq. cbn [negb]. unfold mget.
  destruct (ki_vm _ _ H) as [Ht Hpg]. rewrite PGNUM_div. rewrite <- pgn_div by (rewrite Ew; apply (ti_word _ _ _ Ht)).
  destruct (proj2 (pi_dom _ _ _ _ _ _ Hpg (pgn w)) (pi_pool _ _ _ _ _ _ Hpg _ HA)) as [p Hpp]. rewrite Hpp, (pi_ref _ _ _ _ _ _ Hpg _ _ HA Hpp), (refs_uses A) by done. done.
Qed.

Lemma map_count s s' va p perm q : kin A i e s -> 0 <= va < UTOP -> pgn (mkpte p perm) = p -> vmap (mem s) d va = None -> maps A s s' d va p perm ->
  uses (mem s') (roots (envs s')) q = uses (mem s) (roots (envs s)) q + ind (p =? q).
Proof.
  intros Hk Hva Hp Hn (_ & F & Hm & Hs & _). rewrite (vm_frame_envs _ _ F). rewrite (uses_step (mem s) (mem s') (roots (envs s)) d va q (root_nodup A s (kin_inv _ _ _ _ Hk)) (kin_root _ _ _ _ Hk) Hva Hs).
  unfold maps_to. rewrite Hn, Hm, Hp. cbn [ind]. lia.
Qed.
Lemma unmap_count s s' va q : kin A i e s -> 0 <= va < UTOP -> unmaps A s s' d va ->
  uses (mem s') (roots (envs s')) q = uses (mem s) (roots (envs s)) q - ind (maps_to (mem s) d va q).
Proof.
  intros Hk Hva (_ & F & Hm & Hs & _). rewrite (vm_frame_envs _ _ F). rewrite (uses_step (mem s) (mem s') (roots (envs s)) d va q (root_nodup A s (kin_inv _ _ _ _ Hk)) (kin_root _ _ _ _ Hk) Hva Hs).
  assert (maps_to (mem s') d va q = false) as -> by (unfold maps_to; by rewrite Hm). cbn [ind]. lia.
Qed.

(** ** [dup] *)

Definition shared_perm (w : Z) : Z := w .& PTE_SYSCALL.
Lemma shared_perm_ok w : may false w = true -> bad_perm (shared_perm w) = false.
Proof.
  unfold may, shared_perm. intros [[Hp Hu]%andb_true_iff _]%andb_true_iff.
  unfold bad_perm. rewrite <- !Z.land_assoc. change (PTE_SYSCALL .& PTE_U) with PTE_U. change (PTE_SYSCALL .& PTE_P) with PTE_P. unfold present, truth in Hp, Hu. apply negb_true_iff in Hp, Hu. rewrite Hp, Hu. cbn [orb].
  unfold truth. apply negb_false_iff, Z.eqb_eq. apply Z.bits_inj'. intros n Hn. rewrite Z.ldiff_spec, Z.land_spec, Z.bits_0. by destruct (Z.testbit w n), (Z.testbit PTE_SYSCALL n).
Qed.
Lemma shared_no_escalation w : no_escalation w (shared_perm w).
Proof. unfold no_escalation, shared_perm. rewrite <- Z.land_assoc. by change (PTE_SYSCALL .& PTE_W) with PTE_W. Qed.

(** Mapping one of the program's pages a second time *)
Lemma share_page s va w va' : kin A i e s -> uses_small s 1 -> 0 <= va < UTOP -> bad_va va = false -> 0 <= va' < UTOP -> bad_va va' = false -> vmap (mem s) d va = Some w -> may false w = true -> vmap (mem s) d va' = None ->
  usys_page_map junk 0 va 0 va' (shared_perm w) s = Ok (- E_NO_MEM) s \/
  exists s', usys_page_map junk 0 va 0 va' (shared_perm w) s = Ok 0 s' /\ changed s s' (fun n => n = va' / 4096) /\ vmap (mem s') d va' = Some (mkpte (pgn w) (shared_perm w)) /\ pgn (mkpte (pgn w) (shared_perm w)) = pgn w /\
    forall q, uses (mem s') (roots (envs s')) q = uses (mem s) (roots (envs s)) q + ind (pgn w =? q).
Proof.
  intros Hk Hu Hva Hb Hva' Hb' Hw Hm Hn. pose proof (pte_mapped A s d va w (shared_perm w) (kin_inv _ _ _ _ Hk) (kin_root _ _ _ _ Hk) Hva Hw (shared_perm_ok w Hm)) as Hp.
  destruct (usys_page_map_ok junk A i e s Hk va 0 i e va' (shared_perm w) w) as [(_ & _ & E)|(s' & E & M)]; try done; try lia.
  - by apply refs_small_uses; [apply Hk|].
  - by apply shared_perm_ok.
  - by apply (denotes_self A i e s).
  - apply Hk.
  - apply shared_no_escalation.
  - by left.
  - right. exists s'. split; [done|]. split; [by apply (changed_map s s' va' (pgn w) (shared_perm w))|]. split; [apply M|]. split; [done|]. intros q. by apply (map_count s s' va' (pgn w) (shared_perm w)).
Qed.

Lemma changed_back s s' (P : Z -> Prop) : changed s s' P -> (forall a, 0 <= a < UTOP -> P (a / 4096) -> vmap (mem s) d a = None /\ vmap (mem s') d a = None) -> changed s s' (fun _ => False).
Proof.
  intros [K F M B] Hn. split; [done|done| |]; intros d' a Hd' Ha _.
  - destruct (decide (d' = d)) as [->|Hne]; [|apply M; [done|done|by intros [? _]]]. destruct (decide (vmap (mem s') d a = vmap (mem s) d a)) as [E|Hd]; [done|].
    apply M; [done..|]. intros [_ HP]. destruct (Hn a Ha HP) as [E1 E2]. by rewrite E1, E2 in Hd.
  - destruct (decide (d' = d)) as [->|Hne]; [|apply B; [done|done|by intros [? _]]]. destruct (decide (ubyte s' d a = ubyte s d a)) as [E|Hd]; [done|].
    apply B; [done..|]. intros [_ HP]. destruct (Hn a Ha HP) as [E1 E2]. unfold ubyte in Hd. by rewrite E1, E2 in Hd.
Qed.
Lemma changed_uses s s' q : changed s s' (fun _ => False) -> uses (mem s') (roots (envs s')) q = uses (mem s) (roots (envs s)) q.
Proof. intros [_ F M _]. rewrite (vm_frame_envs _ _ F). apply uses_same. intros d' a Hd' Ha. apply M; [done|done|by intros [_ ?]]. Qed.

(** Unmapping pages one after the other, as the error paths do *)
Fixpoint unmap_all (l : list Z) (r : Z) : M kstate Z :=
  match l with
  | [] => mret r
  | va :: l => usys_page_unmap junk 0 va;; unmap_all l r
  end.
Definition user_page (va : Z) : Prop := 0 <= va < UTOP /\ bad_va va = false.
Definition vpages (l : list Z) (k : Z) : Prop := k ∈ map (fun va => va / 4096) l.
#[export] Instance vpages_dec l k : Decision (vpages l k).
Proof. unfold vpages. apply _. Defined.
Lemma vpages_elem l k : vpages l k <-> exists va, va ∈ l /\ k = va / 4096.
Proof. unfold vpages. rewrite list_elem_of_fmap. naive_solver. Qed.

Lemma unmap_all_ok r l : forall s, kin A i e s -> Forall user_page l ->
  exists s', unmap_all l r s = Ok r s' /\ changed s s' (vpages l) /\ forall a, 0 <= a < UTOP -> vpages l (a / 4096) -> vmap (mem s') d a = None.
Proof.
  induction l as [|va l IH]; intros s Hk Hl; cbn [unmap_all].
  - exists s. split; [done|]. split; [by apply changed_refl|]. intros a _ Hv. by apply elem_of_nil in Hv.
  - apply Forall_cons in Hl as [[Hva Hb] Hl]. destruct (usys_page_unmap_ok junk A i e s Hk va) as (s1 & E1 & M1); [lia|done|]. pose proof (changed_unmap s s1 va Hk Hva M1) as C1. pose proof (ch_kin _ _ _ C1) as K1.
    destruct (IH s1 K1 Hl) as (s' & E' & C' & N'). exists s'. rewrite (bind_Ok _ _ _ _ _ E1). split; [done|]. split.
    + apply (changed_mono s s' (fun k => k = va / 4096 \/ vpages l k)); [|by eapply changed_trans]. intros k [->|Hx]; [left|by right].
    + intros a Ha Hv. destruct (decide (vpages l (a / 4096))) as [Hp|Hp]; [by apply N'|]. apply elem_of_cons in Hv as [Ev|Hv]; [|done].
      rewrite (ch_maps _ _ _ C'); [|apply (kin_root _ _ _ _ K1)|done|by intros [_ ?]]. rewrite (vmap_page_only _ _ va a) by done. apply M1.
Qed.

(** The pages were not mapped before; once they are unmapped nothing has changed. *)
Lemma undo s t l r : changed s t (vpages l) -> Forall user_page l -> (forall va, va ∈ l -> vmap (mem s) d va = None) ->
  exists s', unmap_all l r t = Ok r s' /\ changed s s' (fun _ => False).
Proof.
  intros C Hl Hn. destruct (unmap_all_ok r l t (ch_kin _ _ _ C) Hl) as (s' & E & C' & N'). exists s'. split; [done|]. apply (changed_back s s' (vpages l)).
  - apply (changed_mono s s' (fun k => vpages l k \/ vpages l k)); [tauto|]. by eapply changed_trans.
  - intros a Ha Hp. split; [|by apply N']. apply vpages_elem in Hp as (va & Hv & Ev). rewrite Forall_forall in Hl. destruct (Hl va Hv) as [Hva _]. rewrite (vmap_page_only _ _ va a) by done. by apply Hn.
Qed.

Definition fd_pages (n : Z) : list Z := [fd_va n; data_va n].
Lemma fd_pages_user n : fd_range n -> Forall user_page (fd_pages n).
Proof. intros Hn. repeat constructor; (apply fd_va_user, Hn || apply data_va_user, Hn). Qed.
Lemma fd_closed s n : ~ opened s n -> vmap (mem s) d (fd_va n) = None.
Proof. intros Ho. destruct (vmap (mem s) d (fd_va n)) eqn:E; [|done]. exfalso. apply Ho. unfold opened. rewrite E. eauto. Qed.

Lemma data_fd_differ m n : fd_range m -> fd_range n -> data_va m / 4096 <> fd_va n / 4096.
Proof. rewrite data_va_page, fd_va_page. unfold fd_range. clia. Qed.
Lemma fd_differ m n : m <> n -> fd_va m / 4096 <> fd_va n / 4096 /\ data_va m / 4096 <> data_va n / 4096.
Proof. rewrite !data_va_page, !fd_va_page. lia. Qed.

Context (devtab : list Dev) (complain : Z -> M kstate unit).

Definition opt_uses (o : option Z) (q : Z) : Z := match o with Some v => ind (pgn v =? q) | None => 0 end.
Definition alias (o : option Z) : option Z := (fun v => mkpte (pgn v) (shared_perm v)) <$> o.

Record dupped_fd (s s' : kstate) (old new : Z) : Prop := {
  dd_changed : changed s s' (vpages (fd_pages new));
  dd_fd : vmap (mem s') d (fd_va new) = alias (vmap (mem s) d (fd_va old));
  dd_data : vmap (mem s') d (data_va new) = alias (vmap (mem s) d (data_va old));
  dd_pgn : forall va v, va = fd_va old \/ va = data_va old -> vmap (mem s) d va = Some v -> pgn (mkpte (pgn v) (shared_perm v)) = pgn v;
  dd_uses : forall q, uses (mem s') (roots (envs s')) q = uses (mem s) (roots (envs s)) q + opt_uses (vmap (mem s) d (fd_va old)) q + opt_uses (vmap (mem s) d (data_va old)) q;
}.

(** The first half: the data page *)
Lemma dup_data_ok s old new : kin A i e s -> uses_small s 1 -> fd_range old -> fd_range new -> ~ opened s new -> vmap (mem s) d (data_va new) = None -> (forall v, vmap (mem s) d (data_va old) = Some v -> may false v = true) ->
  dup_data junk (data_va old) (data_va new) s = Ok (- E_NO_MEM) s \/
  exists s', dup_data junk (data_va old) (data_va new) s = Ok 0 s' /\ changed s s' (fun n => n = data_va new / 4096) /\ vmap (mem s') d (data_va new) = alias (vmap (mem s) d (data_va old)) /\
    (forall v, vmap (mem s) d (data_va old) = Some v -> pgn (mkpte (pgn v) (shared_perm v)) = pgn v) /\
    forall q, uses (mem s') (roots (envs s')) q = uses (mem s) (roots (envs s)) q + opt_uses (vmap (mem s) d (data_va old)) q.
Proof.
  intros Hk Hu Ho Hn Hcl Hdn Hm. destruct (data_va_user old Ho) as [U1 B1], (data_va_user new Hn) as [U2 B2]. unfold dup_data. rewrite (bind_Ok _ _ _ _ _ (va_mapped_eq s (data_va old) Hk U1)).
  destruct (vmap (mem s) d (data_va old)) as [v|] eqn:Hv.
  - rewrite bool_decide_true by eauto. rewrite (bind_Ok _ _ _ _ _ (uvpt_eq A i e s _ v Hk U1 Hv)). fold (shared_perm v).
    destruct (share_page s (data_va old) v (data_va new) Hk Hu U1 B1 U2 B2 Hv (Hm v eq_refl) Hdn) as [E|(s' & E & C & V & Hp & Hq)]; [by left|right]. exists s'. split; [done|]. split; [done|]. split; [done|]. split; [by intros v' [= <-]|done].
  - rewrite bool_decide_false by (by intros [? ?]). right. exists s. split; [done|]. split; [by apply changed_refl|]. split; [done|]. split; [done|]. intros q. cbn [opt_uses]. lia.
Qed.

Lemma dup_ok s old new : kin A i e s -> uses_small s 2 -> fd_range old -> fd_range new -> opened s old -> ~ opened s new -> vmap (mem s) d (data_va new) = None ->
  (forall va v, va = fd_va old \/ va = data_va old -> vmap (mem s) d va = Some v -> may false v = true) ->
  (exists s', dup junk devtab complain old new s = Ok (- E_NO_MEM) s' /\ changed s s' (fun _ => False)) \/
  exists s', dup junk devtab complain old new s = Ok new s' /\ dupped_fd s s' old new.
Proof.
  intros Hk Hu Ho Hn [w Hw] Hcl Hdn Hm. assert (Hu1 : uses_small s 1) by (intros p; specialize (Hu p); lia). destruct (fd_va_user old Ho) as [U1 B1], (fd_va_user new Hn) as [U2 B2]. assert (Hne : old <> new) by (intros ->; apply Hcl; unfold opened; eauto).
  unfold dup. destruct (fd_lookup_ok s old Hk) as [(_ & _ & E)|[Hx _]]; [|exfalso; apply Hx; split; [done|unfold opened; eauto]]. rewrite (bind_Ok _ _ _ _ _ E). change (0 <? 0) with false. cbn iota.
  assert (Hcs : close junk devtab complain new s = Ok (- E_INVAL) s) by (unfold close; destruct (fd_lookup_ok s new Hk) as [(_ & Hx & _)|[_ En]]; [done|]; by rewrite (bind_Ok _ _ _ _ _ En)).
  rewrite (bind_Ok _ _ _ _ _ Hcs). rewrite INDEX2FD_eq, !fd2data_va by done. cbv zeta.
  assert (Hin : forall k, k = data_va new / 4096 \/ k = fd_va new / 4096 -> vpages (fd_pages new) k) by (intros k [-> | ->]; [right; left|left]).
  assert (Herr : forall t, changed s t (vpages (fd_pages new)) -> exists s', unmap_all (fd_pages new) (- E_NO_MEM) t = Ok (- E_NO_MEM) s' /\ changed s s' (fun _ => False)).
  { intros t C. apply undo; [done|by apply fd_pages_user|]. intros va Hv. apply elem_of_cons in Hv as [->|Hv]; [by apply fd_closed|]. by apply list_elem_of_singleton in Hv as ->. }
  destruct (dup_data_ok s old new Hk Hu1 Ho Hn Hcl Hdn ltac:(intros v; apply Hm; by right)) as [E1|(s1 & E1 & C1 & V1 & P1 & Q1)].
  - left. rewrite (bind_Ok _ _ _ _ _ E1). by apply (Herr s), changed_refl.
  - rewrite (bind_Ok _ _ _ _ _ E1). change (0 <? 0) with false. cbn iota. pose proof (ch_kin _ _ _ C1) as K1.
    assert (Hold : vmap (mem s1) d (fd_va old) = Some w) by (rewrite (ch_maps _ _ _ C1); [done|apply (kin_root _ _ _ _ Hk)|done|intros [_ Hx]; by apply (data_fd_differ new old)]).
    assert (Hnew : vmap (mem s1) d (fd_va new) = None) by (rewrite (ch_maps _ _ _ C1); [by apply fd_closed|apply (kin_root _ _ _ _ Hk)|done|intros [_ Hx]; by apply (data_fd_differ new new)]).
    assert (Hu2 : uses_small s1 1) by (intros q; rewrite Q1; specialize (Hu q); destruct (vmap (mem s) d (data_va old)); cbn [opt_uses]; [pose proof (ind_range (pgn z =? q)); lia|lia]).
    rewrite (bind_Ok _ _ _ _ _ (uvpt_eq A i e s1 _ w K1 U1 Hold)). fold (shared_perm w). assert (Hmw : may false w = true) by (apply (Hm (fd_va old)); auto).
    destruct (share_page s1 (fd_va old) w (fd_va new) K1 Hu2 U1 B1 U2 B2 Hold Hmw Hnew) as [E2|(s2 & E2 & C2 & V2 & P2 & Q2)]; rewrite (bind_Ok _ _ _ _ _ E2).
    + left. apply (Herr s1). apply (changed_mono s s1 (fun k => k = data_va new / 4096)); [intros k Hx; apply Hin; by left|done].
    + right. exists s2. split; [done|]. split.
      * apply (changed_mono s s2 (fun k => k = data_va new / 4096 \/ k = fd_va new / 4096)); [exact Hin|]. by eapply changed_trans.
      * by rewrite V2, Hw.
      * rewrite (ch_maps _ _ _ C2); [done|apply (kin_root _ _ _ _ K1)|apply data_va_user, Hn|intros [_ Hx]; by apply (data_fd_differ new new)].
      * intros va v [-> | ->] Hv; [rewrite Hw in Hv; by injection Hv as <-|by apply P1].
      * intros q. rewrite Q2, Q1, Hw. cbn [opt_uses]. lia.
Qed.
End space.
