(* ===== verification/PipeSys.v ===== *)
(** * PipeSys: making and closing pipes ([lib/pipe.c])

    The two descriptors of a pipe have the same data page.  How often the page of a descriptor and
    the data page are mapped, in all environments together, tells an end whether the other one is
    still there.

    [pipe] either makes two descriptors that share a page of zeros or leaves everything as it was.
    As long as descriptors and data page are counted together, an end finds out exactly when the
    other one is gone. *)

From S2P Require Import Prelude Layout KState KMem Pmap VmRefs VmInv VmOps KInv KEx SysOps UStore PageUse Syscall TrapThms UMonad Str StrThms Usys UsysThms KBig ForkThms ForkIso ForkRun ForkEx UpcallThms Fsipc Fd FdThms.

(** devpipe.dev_id, the character p *)
Definition devpipe_id : Z := 112.
Definition FDPERM : Z := PTE_P .| PTE_W .| PTE_U .| PTE_SHARE.

Section pipe.
Context (junk : Z).
(** The message of [cprintf] when the loop repeats *)
Context (race_avoided : M kstate unit).

Definition pipe (pfd : Z) : M kstate Z :=
  '(r, fd0) ← fd_alloc;
  if r <? 0 then mret r
  else
    r ← usys_page_alloc junk 0 fd0 FDPERM;
    if r <? 0 then mret r
    else
      let err1 (r : Z) : M kstate Z := usys_page_unmap junk 0 fd0;; mret r in
      '(r, fd1) ← fd_alloc;
      if r <? 0 then err1 r
      else
        r ← usys_page_alloc junk 0 fd1 FDPERM;
        if r <? 0 then err1 r
        else
          let err2 (r : Z) : M kstate Z := usys_page_unmap junk 0 fd1;; err1 r in
          let va := fd2data fd0 in
          r ← usys_page_alloc junk 0 va FDPERM;
          if r <? 0 then err2 r
          else
            let err3 (r : Z) : M kstate Z := usys_page_unmap junk 0 va;; err2 r in
            r ← usys_page_map junk 0 va 0 (fd2data fd1) FDPERM;
            if r <? 0 then err3 r
            else
              st32 (fd_dev_id fd0) devpipe_id;;
              st32 (fd_omode fd0) O_RDONLY;;
              st32 (fd_dev_id fd1) devpipe_id;;
              st32 (fd_omode fd1) O_WRONLY;;
              st32 pfd (fd2num fd0);;
              st32 (pfd + 4) (fd2num fd1);;
              mret 0.

(** [thisenv->env_runs], read from the table of environments at [UENVS] *)
Definition thisenv_runs (thisenv : Z) : M kstate Z := mget (fun s => match envs s !! thisenv with Some e => env_runs e | None => 0 end).

(** The loop repeats when the environment was switched away between the two counts.  [_pipeisclosed] *)
Definition pipe_closed_round (thisenv fd p : Z) (_ : unit) : M kstate (unit + Z) :=
  n ← thisenv_runs thisenv;
  a ← user_pageref fd;
  b ← user_pageref p;
  nn ← thisenv_runs thisenv;
  if n =? nn then mret (inr (if a =? b then 1 else 0))
  else mwhen (a =? b) race_avoided;; mret (inl tt).
Definition pipe_closed (thisenv fd p : Z) : M kstate Z := mloop ADDRS (pipe_closed_round thisenv fd p) tt.

Definition pipeisclosed (thisenv fdnum : Z) : M kstate Z :=
  '(r, fd) ← fd_lookup fdnum;
  if r <? 0 then mret r else pipe_closed thisenv fd (fd2data fd).

(** The name is the string <pipe>. *)
Definition devpipe_stat (devpipe fd stat : Z) : M kstate Z :=
  let p := fd2data fd in
  stn (st_name stat) [60; 112; 105; 112; 101; 62; 0];;
  w ← ld32 (p + 4);
  r ← ld32 p;
  st32 (st_size stat) (u32 (w - r));;
  st32 (st_isdir stat) 0;;
  st32 (st_dev stat) devpipe;;
  mret 0.

Definition devpipe_close (fd : Z) : M kstate Z :=
  usys_page_unmap junk 0 fd;;
  usys_page_unmap junk 0 (fd2data fd).
End pipe.

(** ** Pages of a pipe *)

(** How often page [q] is mapped, in all environments *)
Abbreviation count s q := (uses (mem s) (roots (envs s)) q).

(** The test of a result *)
Lemma failed {B} r (x y : B) : r < 0 -> (if r <? 0 then x else y) = x.
Proof. intros H. by rewrite (proj2 (Z.ltb_lt _ _) H). Qed.
Lemma succeeded {B} (x y : B) : (if 0 <? 0 then x else y) = y.
Proof. done. Qed.

Section pages.
Context (junk : Z) (A : gset Z) (i : Z) (e : Env).
Notation d := (root_of e).
Notation changed := (changed A i e).

(** No environment maps page [q]. *)
Definition unused (s : kstate) (q : Z) : Prop := forall d' a w, d' ∈ roots (envs s) -> 0 <= a < UTOP -> vmap (mem s) d' a = Some w -> pgn w <> q.

Lemma FDPERM_ok : bad_perm FDPERM = false.
Proof. done. Qed.

(** A page of zeros at [va] *)
Record fresh (s s' : kstate) (va q : Z) : Prop := {
  fr_changed : changed s s' (vpages [va]);
  fr_map : vmap (mem s') d va = Some (mkpte q FDPERM);
  fr_pgn : pgn (mkpte q FDPERM) = q;
  fr_unused : unused s q;
  fr_count : forall p, count s' p = count s p + ind (q =? p);
  fr_none : count s q = 0;
  fr_zero : forall y, rdw (mem s') q y = 0;
}.

Lemma changed_same s s' : kin A i e s -> kinv A s' -> vm_frame s s' -> (forall d' a, d' ∈ roots (envs s) -> 0 <= a < UTOP -> vmap (mem s') d' a = vmap (mem s) d' a) -> data_kept s s' -> changed s s' (fun _ => False).
Proof.
  intros Hk H F M D. split; [by apply (kin_frame A i e s)|done|intros; by apply M|]. intros d' a Hd' Ha _. by apply (kept_ubyte A s (kin_inv _ _ _ _ Hk)); [..|apply M].
Qed.

Lemma fresh_page s va : kin A i e s -> user_page va -> vmap (mem s) d va = None ->
  (exists s', usys_page_alloc junk 0 va FDPERM s = Ok (- E_NO_MEM) s' /\ changed s s' (fun _ => False)) \/
  exists s' q, usys_page_alloc junk 0 va FDPERM s = Ok 0 s' /\ fresh s s' va q.
Proof.
  intros Hk [Hva Hb] Hn. destruct (usys_page_alloc_cases junk A i e s Hk 0 i e va FDPERM) as (r & s' & E & [(t & Et & _ & I & F & M & D)|(t & q & Et & Hq & M & Z)]); [lia|done|done|lia|by apply (denotes_self A i e s)|apply Hk|..]; injection Et as -> ->.
  - left. exists t. split; [done|]. by apply changed_same.
  - right. exists t, q. split; [done|]. pose proof (pte_fresh A s q FDPERM (kin_inv _ _ _ _ Hk) Hq FDPERM_ok) as Hp. split; try done.
    + apply (changed_mono A i e s t (fun k => k = va / 4096)); [intros k ->; left|]. by apply (changed_map A i e s t va q FDPERM).
    + apply M.
    + intros d' a w Hd' Ha Hw. by apply (free_unmapped A s (kin_inv _ _ _ _ Hk) q d' a w).
    + intros p. by apply (map_count A i e s t va q FDPERM).
    + by apply (uses_free A s (kin_inv _ _ _ _ Hk)).
Qed.

Lemma fresh_small s s' va q : fresh s s' va q -> uses_small s 2 -> uses_small s' 2.
Proof.
  intros F Hu p. pose proof (fr_count _ _ _ _ F p) as Q. pose proof (fr_none _ _ _ _ F) as N. specialize (Hu p). rewrite Q.
  destruct (Z.eqb_spec q p) as [<-|_]; cbn [ind]; lia.
Qed.
Lemma uses_small_less s : uses_small s 2 -> uses_small s 1.
Proof. intros Hu p. specialize (Hu p). lia. Qed.

(** The same page once more at [va'] *)
Lemma share_fresh s va va' q : kin A i e s -> uses_small s 1 -> user_page va -> user_page va' -> vmap (mem s) d va = Some (mkpte q FDPERM) -> pgn (mkpte q FDPERM) = q -> vmap (mem s) d va' = None ->
  usys_page_map junk 0 va 0 va' FDPERM s = Ok (- E_NO_MEM) s \/
  exists s', usys_page_map junk 0 va 0 va' FDPERM s = Ok 0 s' /\ changed s s' (vpages [va']) /\ vmap (mem s') d va' = Some (mkpte q FDPERM) /\ data_kept s s' /\
    forall p, count s' p = count s p + ind (q =? p).
Proof.
  intros Hk Hu [Hva Hb] [Hva' Hb'] Hw Hp Hn. destruct (usys_page_map_ok junk A i e s Hk va 0 i e va' FDPERM (mkpte q FDPERM)) as [(_ & _ & E)|(s' & E & M)]; try done; try lia.
  - by apply refs_small_uses; [apply Hk|].
  - by apply (denotes_self A i e s).
  - apply Hk.
  - intros _. by rewrite mkpte_flag.
  - by left.
  - right. exists s'. rewrite Hp in M. split; [done|]. split; [|split; [apply M|split; [apply M|]]].
    + apply (changed_mono A i e s s' (fun k => k = va' / 4096)); [intros k ->; left|]. by apply (changed_map A i e s s' va' q FDPERM).
    + intros p. by apply (map_count A i e s s' va' q FDPERM).
Qed.

Lemma changed_app s s' s'' l l' : changed s s' (vpages l) -> changed s' s'' (vpages l') -> changed s s'' (vpages (l' ++ l)).
Proof.
  intros C C'. apply (changed_mono A i e s s'' (fun k => vpages l k \/ vpages l' k)); [|by eapply changed_trans]. unfold vpages. intros k Hk. rewrite map_app, elem_of_app. tauto.
Qed.
Lemma changed_then s s' s'' l : changed s s' (vpages l) -> changed s' s'' (fun _ => False) -> changed s s'' (vpages l).
Proof. intros C C'. apply (changed_mono A i e s s'' (fun k => vpages l k \/ False)); [tauto|]. by eapply changed_trans. Qed.
Lemma changed_away s s' l va : changed s s' (vpages l) -> d ∈ roots (envs s) -> 0 <= va < UTOP -> ~ vpages l (va / 4096) -> vmap (mem s') d va = vmap (mem s) d va.
Proof. intros C Hd Hva Hn. apply (ch_maps _ _ _ _ _ _ C); [done..|]. by intros [_ ?]. Qed.

Record ends_made (s s' : kstate) (n0 n1 R W D : Z) : Prop := {
  em_range : fd_range n0 /\ fd_range n1;
  em_first : ~ opened e s n0 /\ forall m, 0 <= m < n0 -> opened e s m;
  em_second : n0 < n1 /\ ~ opened e s n1 /\ forall m, n0 < m < n1 -> opened e s m;
  em_closed : forall va, va ∈ [data_va n1; data_va n0; fd_va n1; fd_va n0] -> vmap (mem s) d va = None;
  em_changed : changed s s' (vpages [data_va n1; data_va n0; fd_va n1; fd_va n0]);
  em_maps : vmap (mem s') d (fd_va n0) = Some (mkpte R FDPERM) /\ vmap (mem s') d (fd_va n1) = Some (mkpte W FDPERM) /\
    vmap (mem s') d (data_va n0) = Some (mkpte D FDPERM) /\ vmap (mem s') d (data_va n1) = Some (mkpte D FDPERM);
  em_pgn : pgn (mkpte R FDPERM) = R /\ pgn (mkpte W FDPERM) = W /\ pgn (mkpte D FDPERM) = D;
  em_unused : unused s R /\ unused s W /\ unused s D;
  em_apart : R <> W /\ R <> D /\ W <> D;
  em_count : forall p, count s' p = count s p + ind (R =? p) + ind (W =? p) + ind (D =? p) + ind (D =? p);
  em_none : count s R = 0 /\ count s W = 0 /\ count s D = 0;
  em_zero : forall y, rdw (mem s') D y = 0;
}.

Lemma vpages_not l va : (forall x, x ∈ l -> x / 4096 <> va / 4096) -> ~ vpages l (va / 4096).
Proof. intros H (x & Hx & E)%vpages_elem. by apply (H x). Qed.

(** An unused page stays unused where only [va] has got a page of its own. *)
Lemma unused_before s s' va q q' : kin A i e s -> 0 <= va < UTOP -> vmap (mem s) d va = None -> fresh s s' va q -> unused s' q' -> unused s q' /\ q <> q'.
Proof.
  intros Hk Hva Hn [C M P U _ _ _] U'. pose proof (kin_root _ _ _ _ Hk) as Hd. assert (He : envs s' = envs s) by (apply vm_frame_envs, C). split.
  - intros d' a w Hd' Ha Hw. apply (U' d' a w); [by rewrite He|done|]. rewrite (ch_maps _ _ _ _ _ _ C); [done..|]. intros [-> [E|E]%elem_of_cons]; [|by apply elem_of_nil in E]. rewrite (vmap_page_only _ _ va a), Hn in Hw; done.
  - rewrite <- P. apply (U' d va); [by rewrite He|done|done].
Qed.
End pages.

(** Two pages of descriptors are different. *)
Ltac away := unfold vpages, fd_range in *; cbn [map]; rewrite ?elem_of_cons, ?elem_of_nil, ?fd_va_page, ?data_va_page; autounfold with cconst in *; intuition lia.

Section make.
Context (junk : Z) (A : gset Z) (i : Z) (e : Env) (s : kstate) (pfd : Z).
Notation d := (root_of e).
Notation changed := (changed A i e).
Hypothesis Hk : kin A i e s.
Hypothesis Hu : uses_small s 2.
(** A descriptor that is closed has no data page. *)
Hypothesis Htidy : forall n, fd_range n -> ~ opened e s n -> vmap (mem s) d (data_va n) = None.

Lemma user_fd n : fd_range n -> user_page (fd_va n).
Proof. apply fd_va_user. Qed.
Lemma user_data n : fd_range n -> user_page (data_va n).
Proof. apply data_va_user. Qed.

Definition not_made (o : res kstate Z) : Prop := exists r s', o = Ok r s' /\ r < 0 /\ changed s s' (fun _ => False).

(** The error paths *)
Lemma give_up_pages t l r : changed s t (vpages l) -> r < 0 -> Forall user_page l -> (forall va, va ∈ l -> vmap (mem s) d va = None) -> not_made (unmap_all junk l r t).
Proof. intros C Hr Hl Hn. destruct (undo junk A i e s t l r C Hl Hn) as (s' & E & C'). by exists r, s'. Qed.

(** [fd_alloc] after one descriptor has been taken *)
Lemma second_fd s1 n0 R : fd_range n0 -> ~ opened e s n0 -> (forall m, 0 <= m < n0 -> opened e s m) -> fresh A i e s s1 (fd_va n0) R ->
  (fd_alloc s1 = Ok (- E_MAX_OPEN, 0) s1) \/
  exists n1, fd_range n1 /\ fd_alloc s1 = Ok (0, fd_va n1) s1 /\ n0 < n1 /\ ~ opened e s n1 /\ ~ opened e s1 n1 /\ forall m, n0 < m < n1 -> opened e s m.
Proof.
  intros Hn Hc Hl Hf. pose proof (fr_changed _ _ _ _ _ _ _ Hf) as C. pose proof (ch_kin _ _ _ _ _ _ C) as K1. pose proof (kin_root _ _ _ _ Hk) as Hd.
  assert (Hsame : forall m, fd_range m -> m <> n0 -> opened e s1 m <-> opened e s m) by (intros m Hm Hne; unfold opened; rewrite (changed_away A i e s s1 [fd_va n0] (fd_va m) C Hd); [done|apply user_fd, Hm|away]).
  assert (Hopen : opened e s1 n0) by (unfold opened; rewrite (fr_map _ _ _ _ _ _ _ Hf); eauto).
  destruct (fd_alloc_ok A i e s1 K1) as [[E _]|(n1 & Hn1 & E & Hc1 & Hl1)]; [by left|right]. exists n1. assert (Hne : n1 <> n0) by (by intros ->). pose proof (Hsame n1 Hn1 Hne) as Hs1.
  split; [done|]. split; [done|]. split; [destruct (decide (n0 < n1)); [done|]; exfalso; apply Hc1, Hs1, Hl; unfold fd_range in *; lia|]. split; [naive_solver|]. split; [done|].
  intros m Hm. apply Hsame; [unfold fd_range in *; lia|lia|]. apply Hl1. unfold fd_range in Hn. lia.
Qed.

(** After the two pages of the descriptors: the data page *)
Section data.
Context (s1 s2 : kstate) (n0 n1 R W : Z).
Hypothesis R0 : fd_range n0.
Hypothesis R1 : fd_range n1.
Hypothesis Hc0 : ~ opened e s n0 /\ forall m, 0 <= m < n0 -> opened e s m.
Hypothesis Hc1 : n0 < n1 /\ ~ opened e s n1 /\ forall m, n0 < m < n1 -> opened e s m.
Hypothesis F1 : fresh A i e s s1 (fd_va n0) R.
Hypothesis F2 : fresh A i e s1 s2 (fd_va n1) W.

Lemma two_fds : changed s s2 (vpages [fd_va n1; fd_va n0]).
Proof. exact (changed_app A i e s s1 s2 [fd_va n0] [fd_va n1] (fr_changed _ _ _ _ _ _ _ F1) (fr_changed _ _ _ _ _ _ _ F2)). Qed.
Lemma two_users : Forall user_page [fd_va n1; fd_va n0].
Proof. apply Forall_cons_2; [by apply user_fd|]. apply Forall_cons_2; [by apply user_fd|constructor]. Qed.
Lemma two_none va : va ∈ [data_va n1; data_va n0; fd_va n1; fd_va n0] -> vmap (mem s) d va = None.
Proof.
  intros [->|[->|[->|[->|[]%elem_of_nil]%elem_of_cons]%elem_of_cons]%elem_of_cons]%elem_of_cons; [apply Htidy; [done|apply Hc1]|apply Htidy; [done|apply Hc0]|apply fd_closed, Hc1|apply fd_closed, Hc0].
Qed.

(** The result when all four are there *)
Lemma made_ends s3 s4 D : fresh A i e s2 s3 (data_va n0) D -> changed s3 s4 (vpages [data_va n1]) -> vmap (mem s4) d (data_va n1) = Some (mkpte D FDPERM) -> data_kept s3 s4 ->
  (forall p, count s4 p = count s3 p + ind (D =? p)) -> ends_made A i e s s4 n0 n1 R W D.
Proof.
  intros F3 C4 M4 K4 Q4. pose proof (kin_root _ _ _ _ Hk) as Hd. pose proof two_fds as C02. pose proof (fr_changed _ _ _ _ _ _ _ F1) as C1. pose proof (fr_changed _ _ _ _ _ _ _ F2) as C2. pose proof (fr_changed _ _ _ _ _ _ _ F3) as C3.
  pose proof (ch_kin _ _ _ _ _ _ C1) as K1. pose proof (ch_kin _ _ _ _ _ _ C2) as K2. pose proof (ch_kin _ _ _ _ _ _ C3) as K3. pose proof (kin_root _ _ _ _ K1) as Hd1. pose proof (kin_root _ _ _ _ K2) as Hd2. pose proof (kin_root _ _ _ _ K3) as Hd3.
  assert (V1 : vmap (mem s1) d (fd_va n1) = None) by (rewrite (changed_away A i e s s1 [fd_va n0] _ C1 Hd); [apply two_none; set_solver|apply user_fd, R1|destruct Hc1; away]).
  assert (V2 : vmap (mem s2) d (data_va n0) = None) by (rewrite (changed_away A i e s s2 _ _ C02 Hd); [apply two_none; set_solver|apply user_data, R0|away]).
  destruct (unused_before A i e s s1 (fd_va n0) R W Hk (proj1 (user_fd n0 R0)) (two_none (fd_va n0) ltac:(set_solver)) F1 (fr_unused _ _ _ _ _ _ _ F2)) as [UW RW].
  destruct (unused_before A i e s1 s2 (fd_va n1) W D K1 (proj1 (user_fd n1 R1)) V1 F2 (fr_unused _ _ _ _ _ _ _ F3)) as [UD1 WD]. destruct (unused_before A i e s s1 (fd_va n0) R D Hk (proj1 (user_fd n0 R0)) (two_none (fd_va n0) ltac:(set_solver)) F1 UD1) as [UD RD].
  assert (Hcnt : forall p, count s4 p = count s p + ind (R =? p) + ind (W =? p) + ind (D =? p) + ind (D =? p)) by (intros p; rewrite Q4, (fr_count _ _ _ _ _ _ _ F3), (fr_count _ _ _ _ _ _ _ F2), (fr_count _ _ _ _ _ _ _ F1); lia).
  split; try done.
  - apply two_none.
  - apply (changed_app A i e s s3 s4 [data_va n0; fd_va n1; fd_va n0] [data_va n1]); [|done]. by apply (changed_app A i e s s2 s3 [fd_va n1; fd_va n0] [data_va n0]).
  - split_and!; [| | |done].
    + rewrite (changed_away A i e s3 s4 [data_va n1] _ C4 Hd3), (changed_away A i e s2 s3 [data_va n0] _ C3 Hd2), (changed_away A i e s1 s2 [fd_va n1] _ C2 Hd1); [apply F1|apply user_fd, R0|destruct Hc1; away|apply user_fd, R0|away|apply user_fd, R0|away].
    + rewrite (changed_away A i e s3 s4 [data_va n1] _ C4 Hd3), (changed_away A i e s2 s3 [data_va n0] _ C3 Hd2); [apply F2|apply user_fd, R1|away|apply user_fd, R1|away].
    + rewrite (changed_away A i e s3 s4 [data_va n1] _ C4 Hd3); [apply F3|apply user_data, R0|destruct Hc1; away].
  - split_and!; [apply F1|apply F2|apply F3].
  - split_and!; [apply F1|done|done].
  - pose proof (fr_none _ _ _ _ _ _ _ F1) as Q1. pose proof (fr_none _ _ _ _ _ _ _ F2) as Q2. pose proof (fr_none _ _ _ _ _ _ _ F3) as Q3. rewrite (fr_count _ _ _ _ _ _ _ F1), (proj2 (Z.eqb_neq _ _) RW) in Q2.
    rewrite (fr_count _ _ _ _ _ _ _ F2), (fr_count _ _ _ _ _ _ _ F1), (proj2 (Z.eqb_neq _ _) RD), (proj2 (Z.eqb_neq _ _) WD) in Q3. cbn [ind] in Q2, Q3. split_and!; [done|lia|lia].
  - intros y. pose proof (fr_pgn _ _ _ _ _ _ _ F3) as Hp. destruct (mapped_page A s3 d (data_va n0) _ (kin_inv _ _ _ _ K3) Hd3 (proj1 (user_data n0 R0)) (fr_map _ _ _ _ _ _ _ F3)) as (_ & Hnt & Hpos). rewrite Hp in Hnt, Hpos. rewrite K4 by done. apply F3.
Qed.

Lemma data_pages (k : M kstate Z) :
  let o := (r ← usys_page_alloc junk 0 (data_va n0) FDPERM;
     if r <? 0 then unmap_all junk [fd_va n1; fd_va n0] r
     else r ← usys_page_map junk 0 (data_va n0) 0 (data_va n1) FDPERM; if r <? 0 then unmap_all junk [data_va n0; fd_va n1; fd_va n0] r else k) s2 in
  not_made o \/ exists s4 D, ends_made A i e s s4 n0 n1 R W D /\ o = k s4.
Proof.
  cbv zeta. pose proof (kin_root _ _ _ _ Hk) as Hd. pose proof two_fds as C02. pose proof (ch_kin _ _ _ _ _ _ C02) as K2. pose proof (kin_root _ _ _ _ K2) as Hd2. assert (Nl : forall l va, l ⊆ [data_va n1; data_va n0; fd_va n1; fd_va n0] -> va ∈ l -> vmap (mem s) d va = None) by (intros l va Hl Hx; apply two_none, Hl, Hx).
  assert (V2 : vmap (mem s2) d (data_va n0) = None) by (rewrite (changed_away A i e s s2 _ _ C02 Hd); [apply two_none; set_solver|apply user_data, R0|away]).
  destruct (fresh_page junk A i e s2 (data_va n0) K2 (user_data n0 R0) V2) as [(s3 & E3 & C3)|(s3 & D & E3 & F3)]; rewrite (bind_Ok _ _ _ _ _ E3).
  { left. rewrite failed by done. apply (give_up_pages s3 [fd_va n1; fd_va n0]); [by apply (changed_then A i e s s2)|done|apply two_users|intros va Hx; apply (Nl [fd_va n1; fd_va n0]); [set_solver|done]]. }
  rewrite succeeded. pose proof (fr_changed _ _ _ _ _ _ _ F3) as C3. pose proof (ch_kin _ _ _ _ _ _ C3) as K3. pose proof (changed_app A i e s s2 s3 _ _ C02 C3) as C03. cbn [app] in C03.
  assert (V3 : vmap (mem s3) d (data_va n1) = None) by (rewrite (changed_away A i e s s3 _ _ C03 Hd); [apply two_none; set_solver|apply user_data, R1|destruct Hc1; away]).
  assert (U3 : uses_small s3 2) by (apply (fresh_small A i e s2 s3 _ _ F3), (fresh_small A i e s1 s2 _ _ F2), (fresh_small A i e s s1 _ _ F1), Hu).
  destruct (share_fresh junk A i e s3 (data_va n0) (data_va n1) D K3 (uses_small_less s3 U3) (user_data n0 R0) (user_data n1 R1) (fr_map _ _ _ _ _ _ _ F3) (fr_pgn _ _ _ _ _ _ _ F3) V3) as [E4|(s4 & E4 & C4 & M4 & D4 & Q4)]; rewrite (bind_Ok _ _ _ _ _ E4).
  - left. rewrite failed by done. apply (give_up_pages s3 [data_va n0; fd_va n1; fd_va n0]); [done|done|apply Forall_cons_2; [by apply user_data|apply two_users]|intros va Hx; apply (Nl [data_va n0; fd_va n1; fd_va n0]); [set_solver|done]].
  - right. exists s4, D. rewrite succeeded. split; [|done]. by apply (made_ends s3).
Qed.
End data.

(** The four pages, or nothing *)
Definition fill_ends (n0 n1 : Z) : M kstate Z :=
  st32 (fd_dev_id (fd_va n0)) devpipe_id;; st32 (fd_omode (fd_va n0)) O_RDONLY;; st32 (fd_dev_id (fd_va n1)) devpipe_id;; st32 (fd_omode (fd_va n1)) O_WRONLY;; st32 pfd n0;; st32 (pfd + 4) n1;; mret 0.
Lemma pipe_pages : not_made (pipe junk pfd s) \/ exists s4 n0 n1 R W D, ends_made A i e s s4 n0 n1 R W D /\ pipe junk pfd s = fill_ends n0 n1 s4.
Proof.
  assert (Hnone : forall n, ~ opened e s n -> vmap (mem s) d (fd_va n) = None) by (intros n; apply fd_closed).
  unfold pipe. destruct (fd_alloc_ok A i e s Hk) as [[E _]|(n0 & R0 & E & Hc0 & Hl0)]; rewrite (bind_Ok _ _ _ _ _ E); [rewrite failed by done; left; exists (- E_MAX_OPEN), s; split; [done|]; split; [done|by apply changed_refl]|]. rewrite succeeded.
  destruct (fresh_page junk A i e s (fd_va n0) Hk (user_fd n0 R0) (Hnone n0 Hc0)) as [(s1 & E1 & C1)|(s1 & R & E1 & F1)]; rewrite (bind_Ok _ _ _ _ _ E1); [rewrite failed by done; left; by exists (- E_NO_MEM), s1|]. rewrite succeeded.
  pose proof (fr_changed _ _ _ _ _ _ _ F1) as C1. pose proof (ch_kin _ _ _ _ _ _ C1) as K1. assert (L1 : Forall user_page [fd_va n0]) by (apply Forall_cons_2; [by apply user_fd|constructor]).
  assert (N1 : forall va, va ∈ [fd_va n0] -> vmap (mem s) d va = None) by (intros va ->%list_elem_of_singleton; by apply Hnone).
  destruct (second_fd s1 n0 R R0 Hc0 Hl0 F1) as [E2|(n1 & R1 & E2 & Hlt & Hc1 & Hc1' & Hl1)]; rewrite (bind_Ok _ _ _ _ _ E2); [rewrite failed by done; left; by apply (give_up_pages s1 [fd_va n0])|]. rewrite succeeded.
  destruct (fresh_page junk A i e s1 (fd_va n1) K1 (user_fd n1 R1) (fd_closed e s1 n1 Hc1')) as [(s2 & E3 & C2)|(s2 & W & E3 & F2)]; rewrite (bind_Ok _ _ _ _ _ E3); [rewrite failed by done; left; apply (give_up_pages s2 [fd_va n0]); [by apply (changed_then A i e s s1)|done..]|]. rewrite succeeded.
  rewrite !fd2data_va, !fd2num_va by done. cbv zeta.
  destruct (data_pages s1 s2 n0 n1 R W R0 R1 (conj Hc0 Hl0) (conj Hlt (conj Hc1 Hl1)) F1 F2 (fill_ends n0 n1)) as [Hno|(s4 & D & Hm & Eq)]; [left; exact Hno|right]. exists s4, n0, n1, R, W, D. split; [done|]. exact Eq.
Qed.
End make.

(** ** The contents of the descriptors *)

(** The words [L] have been stored, and nothing else. *)
Definition in_words (L : list (Z * Z)) (x : Z) : Prop := exists aw, aw ∈ L /\ aw.1 <= x < aw.1 + 4.
Definition wrote_words (s s' : kstate) (L : list (Z * Z)) : Prop := touches (in_words L) s s' /\ forall aw, aw ∈ L -> uword_at s' aw.1 aw.2.

Lemma wrote_step s s1 L a w : wrote_words s s1 L -> buffer s a 4 -> (forall aw, aw ∈ L -> a + 4 <= aw.1 \/ aw.1 + 4 <= a) -> exists s', st32 a w s1 = Ok tt s' /\ wrote_words s s' ((a, w) :: L).
Proof.
  intros [T H] Hb Hd. destruct (st32_at s1 a w) as (s' & E & T' & H'); [intros k Hk; apply (wr_rest s); [apply T|by apply Hb]|]. exists s'. split; [done|]. split.
  - apply (touches_trans _ _ s1); [eapply touches_mono; [|exact T]; intros x (aw & Ha & Hx); exists aw; split; [by right|done]|]. eapply touches_mono; [|exact T']. intros x Hx. exists (a, w). split; [left|done].
  - intros aw [->|Ha]%elem_of_cons; [done|]. apply (word_at_touches _ s1 s' _ _ T'); [|by apply H]. intros k Hk Hr. unfold range in Hr. destruct (Hd aw Ha); lia.
Qed.

Section contents.
Context (A : gset Z) (i : Z) (e : Env) (s s4 : kstate) (n0 n1 R W D pfd : Z).
Notation d := (root_of e).
Hypothesis Hk : kin A i e s.
Hypothesis Hm : ends_made A i e s s4 n0 n1 R W D.

Lemma made_kin : kin A i e s4.
Proof. apply (em_changed _ _ _ _ _ _ _ _ _ _ Hm). Qed.
Lemma made_roots : envs s4 = envs s.
Proof. apply vm_frame_envs, (em_changed _ _ _ _ _ _ _ _ _ _ Hm). Qed.

(** A mapping is an old one, or one of the four. *)
Lemma made_origin d' a w : d' ∈ roots (envs s) -> 0 <= a < UTOP -> vmap (mem s4) d' a = Some w ->
  vmap (mem s) d' a = Some w \/
  d' = d /\ (a / 4096 = fd_va n0 / 4096 /\ pgn w = R \/ a / 4096 = fd_va n1 / 4096 /\ pgn w = W \/ (a / 4096 = data_va n0 / 4096 \/ a / 4096 = data_va n1 / 4096) /\ pgn w = D).
Proof.
  intros Hd' Ha Hw. destruct Hm as [[R0 R1] _ _ _ C (M0 & M1 & M2 & M3) (P0 & P1 & P2) _ _ _ _ _].
  destruct (decide (d' = d /\ vpages [data_va n1; data_va n0; fd_va n1; fd_va n0] (a / 4096))) as [[-> Hv]|Hn]; [right|left; rewrite <- Hw; symmetry; by apply (ch_maps _ _ _ _ _ _ C)]. split; [done|].
  destruct (user_fd n0 R0) as [B0 _], (user_fd n1 R1) as [B1 _], (user_data n0 R0) as [B2 _], (user_data n1 R1) as [B3 _].
  unfold vpages in Hv. cbn [map] in Hv. apply elem_of_cons in Hv as [E|[E|[E|[E|[]%elem_of_nil]%elem_of_cons]%elem_of_cons]%elem_of_cons].
  - rewrite (vmap_page_only _ _ (data_va n1) a), M3 in Hw by done. injection Hw as <-. tauto.
  - rewrite (vmap_page_only _ _ (data_va n0) a), M2 in Hw by done. injection Hw as <-. tauto.
  - rewrite (vmap_page_only _ _ (fd_va n1) a), M1 in Hw by done. injection Hw as <-. tauto.
  - rewrite (vmap_page_only _ _ (fd_va n0) a), M0 in Hw by done. injection Hw as <-. tauto.
Qed.

(** The program can write a page that is mapped nowhere else. *)
Lemma write_page n q k : fd_range n -> vmap (mem s4) d (fd_va n) = Some (mkpte q FDPERM) -> pgn (mkpte q FDPERM) = q ->
  (forall d' a w, d' ∈ roots (envs s) -> 0 <= a < UTOP -> vmap (mem s4) d' a = Some w -> pgn w = q -> d' = d /\ a / 4096 = fd_va n / 4096) -> 0 <= k < 4096 -> wr s4 (fd_va n + k).
Proof.
  intros Hn Hv Hp Hown Hk4. assert (Hr : 0 <= fd_va n + k < UTOP) by (unfold fd_va, fd_range in *; clia). assert (Epg : (fd_va n + k) / 4096 = fd_va n / 4096) by (unfold fd_va; autounfold with cconst; dlia).
  exists A, i, e, (mkpte q FDPERM). split; [apply made_kin|]. split; [done|]. split; [by rewrite (vmap_page_only _ _ (fd_va n)) by (try apply user_fd, Hn; lia)|]. split; [by rewrite may_mkpte|].
  intros w d' a w' Hw Hd' Ha Hw' Eq. rewrite made_roots in Hd'. rewrite (vmap_page_only _ _ (fd_va n)), Hv in Hw by (try apply user_fd, Hn; lia). injection Hw as <-. rewrite Hp in Eq. rewrite Epg. by apply (Hown d' a w').
Qed.
Lemma write_R k : 0 <= k < 4096 -> wr s4 (fd_va n0 + k).
Proof.
  pose proof Hm as [[R0 R1] _ _ _ _ (M0 & _) (P0 & _) (U0 & _) (D1 & D2 & D3) _ _ _]. apply (write_page n0 R); [done..|]. intros d' a w Hd' Ha Hw Eq.
  destruct (made_origin d' a w Hd' Ha Hw) as [Hold|(-> & [[? _]|[[_ ?]|[_ ?]]])]; [exfalso; by apply (U0 d' a w)|done|congruence..].
Qed.
Lemma write_W k : 0 <= k < 4096 -> wr s4 (fd_va n1 + k).
Proof.
  pose proof Hm as [[R0 R1] _ _ _ _ (_ & M1 & _) (_ & P1 & _) (_ & U1 & _) (D1 & D2 & D3) _ _ _]. apply (write_page n1 W); [done..|]. intros d' a w Hd' Ha Hw Eq.
  destruct (made_origin d' a w Hd' Ha Hw) as [Hold|(-> & [[_ ?]|[[? _]|[_ ?]]])]; [exfalso; by apply (U1 d' a w)|congruence|done|congruence].
Qed.

(** What could be written before, can still be. *)
Definition own_byte (t : kstate) (a : Z) : Prop := 0 <= a < UTOP /\ (exists w, vmap (mem t) d a = Some w /\ may true w = true) /\ private t d a.
Lemma write_old a : own_byte s a -> wr s4 a.
Proof.
  intros (Ha & (w & Hw & Hmay) & Hp). pose proof (kin_root _ _ _ _ Hk) as Hd. pose proof Hm as [_ _ _ N C _ _ (U0 & U1 & U2) _ _ _ _].
  assert (Hn : ~ vpages [data_va n1; data_va n0; fd_va n1; fd_va n0] (a / 4096)).
  { intros (va & Hva & E)%vpages_elem. specialize (N va Hva). rewrite (vmap_page_only _ _ va a) in Hw; [congruence| |done|done]. pose proof Hm as [[R0 R1] _ _ _ _ _ _ _ _ _ _ _]. pose proof (user_fd n0 R0). pose proof (user_fd n1 R1). pose proof (user_data n0 R0). pose proof (user_data n1 R1). unfold user_page in *. rewrite !elem_of_cons, elem_of_nil in Hva. naive_solver. }
  exists A, i, e, w. split; [apply made_kin|]. split; [done|]. split; [by rewrite (changed_away A i e s s4 _ _ C Hd Ha Hn)|]. split; [done|].
  intros v d' b w' Hv Hd' Hb Hw' Eq. rewrite made_roots in Hd'. rewrite (changed_away A i e s s4 _ _ C Hd Ha Hn), Hw in Hv. injection Hv as <-. destruct (made_origin d' b w' Hd' Hb Hw') as [Hold|(-> & Hnew)]; [by apply (Hp w d' b w')|].
  exfalso. destruct Hnew as [[_ E]|[[_ E]|[_ E]]]; rewrite E in Eq; [by apply (U0 d a w)|by apply (U1 d a w)|by apply (U2 d a w)].
Qed.

Lemma own_away a n : own_byte s a -> n = n0 \/ n = n1 -> a / 4096 <> fd_va n / 4096.
Proof.
  intros (Ha & (w & Hw & _) & _) Hn E. pose proof Hm as [[R0 R1] _ _ N _ _ _ _ _ _ _ _]. assert (Hr : fd_range n) by (destruct Hn as [-> | ->]; done).
  rewrite (vmap_page_only _ _ (fd_va n) a), N in Hw; [done| |apply user_fd, Hr|done|done]. destruct Hn as [-> | ->]; set_solver.
Qed.
Lemma apart_words a b : (forall x, ~ (a <= x < a + 4 /\ b <= x < b + 4)) -> a + 4 <= b \/ b + 4 <= a.
Proof. intros H. specialize (H (Z.max a b)). lia. Qed.

Hypothesis Hpfd : forall k, 0 <= k < 8 -> own_byte s (pfd + k).

Lemma pfd_apart n o x : n = n0 \/ n = n1 -> 0 <= o <= 8 -> pfd <= x < pfd + 8 -> ~ (fd_va n + o <= x < fd_va n + o + 4).
Proof.
  intros Hn Ho Hx Hx'. apply (own_away x n); [replace x with (pfd + (x - pfd)) by lia; apply Hpfd; lia|done|]. unfold fd_va in *. autounfold with cconst in *. dlia.
Qed.

Definition end_words : list (Z * Z) :=
  [(pfd + 4, n1); (pfd, n0); (fd_omode (fd_va n1), O_WRONLY); (fd_dev_id (fd_va n1), devpipe_id); (fd_omode (fd_va n0), O_RDONLY); (fd_dev_id (fd_va n0), devpipe_id)].

Lemma fill_ends_ok : exists s', fill_ends pfd n0 n1 s4 = Ok 0 s' /\ wrote_words s4 s' end_words.
Proof.
  pose proof Hm as [[R0 R1] _ [Hlt _] _ _ _ _ _ _ _ _ _]. unfold fd_range in R0, R1. unfold fill_ends, end_words, fd_dev_id, fd_omode.
  assert (B0 : forall o, 0 <= o <= 4092 -> buffer s4 (fd_va n0 + o) 4) by (intros o Ho k Hk'; replace k with (fd_va n0 + (k - fd_va n0)) by lia; apply write_R; lia).
  assert (B1 : forall o, 0 <= o <= 4092 -> buffer s4 (fd_va n1 + o) 4) by (intros o Ho k Hk'; replace k with (fd_va n1 + (k - fd_va n1)) by lia; apply write_W; lia).
  assert (B2 : forall o, 0 <= o <= 4 -> buffer s4 (pfd + o) 4) by (intros o Ho k Hk'; apply write_old; replace k with (pfd + (k - pfd)) by lia; apply Hpfd; lia).
  assert (P : forall n o p, n = n0 \/ n = n1 -> 0 <= o <= 8 -> 0 <= p <= 4 -> pfd + p + 4 <= fd_va n + o \/ fd_va n + o + 4 <= pfd + p) by (intros n o p Hn Ho Hp; apply apart_words; intros x [Hx Hx']; apply (pfd_apart n o x); [done|done|lia|done]).
  pose proof (B0 0 ltac:(lia)) as B00. pose proof (B1 0 ltac:(lia)) as B10. pose proof (B2 0 ltac:(lia)) as B20. rewrite Z.add_0_r in B00, B10, B20. assert (F : fd_va n0 + 4096 <= fd_va n1) by (unfold fd_va; lia).
  pose proof (P n0 0 0) as P00. pose proof (P n0 8 0) as P08. pose proof (P n1 0 0) as P10. pose proof (P n1 8 0) as P18. pose proof (P n0 0 4) as Q00. pose proof (P n0 8 4) as Q08. pose proof (P n1 0 4) as Q10. pose proof (P n1 8 4) as Q18. clear P.
  destruct (wrote_step s4 s4 [] (fd_va n0) devpipe_id) as (t1 & E1 & W1); [split; [apply touches_refl|by intros aw ?%elem_of_nil]|done|by intros aw ?%elem_of_nil|]. rewrite (bind_Ok _ _ _ _ _ E1).
  destruct (wrote_step s4 t1 _ (fd_va n0 + 8) O_RDONLY W1) as (t2 & E2 & W2); [by apply B0|apply Forall_forall; repeat constructor; simpl; lia|]. rewrite (bind_Ok _ _ _ _ _ E2).
  destruct (wrote_step s4 t2 _ (fd_va n1) devpipe_id W2) as (t3 & E3 & W3); [done|apply Forall_forall; repeat constructor; simpl; lia|]. rewrite (bind_Ok _ _ _ _ _ E3).
  destruct (wrote_step s4 t3 _ (fd_va n1 + 8) O_WRONLY W3) as (t4 & E4 & W4); [by apply B1|apply Forall_forall; repeat constructor; simpl; lia|]. rewrite (bind_Ok _ _ _ _ _ E4).
  destruct (wrote_step s4 t4 _ pfd n0 W4) as (t5 & E5 & W5); [done|apply Forall_forall; apply Forall_cons; split; [simpl; lia|]; repeat (apply Forall_cons; split; [simpl; lia|]); constructor|]. rewrite (bind_Ok _ _ _ _ _ E5).
  destruct (wrote_step s4 t5 _ (pfd + 4) n1 W5) as (t6 & E6 & W6); [by apply B2|apply Forall_forall; repeat (apply Forall_cons; split; [simpl; lia|]); constructor|]. rewrite (bind_Ok _ _ _ _ _ E6).
  by exists t6.
Qed.
End contents.

(** An element of a list that is written out *)
Ltac listed := unfold end_words; repeat (apply elem_of_cons; first [left; reflexivity|right]).

(** ** [pipe] *)

(** A closed descriptor has no data page. *)
Definition tidy_fds (e : Env) (s : kstate) : Prop := forall n, fd_range n -> ~ opened e s n -> vmap (mem s) (root_of e) (data_va n) = None.
Definition pipe_area (n0 n1 a : Z) : Prop := vpages [data_va n1; data_va n0; fd_va n1; fd_va n0] (a / 4096).

(** Once the descriptors are filled in *)
Lemma pipe_filled A i e s s4 s' n0 n1 R W D pfd : kin A i e s -> ends_made A i e s s4 n0 n1 R W D -> wrote_words s4 s' (end_words n0 n1 pfd) ->
  kin A i e s' /\ envs s' = envs s /\ (forall d' a, d' ∈ roots (envs s) -> 0 <= a < UTOP -> vmap (mem s') d' a = vmap (mem s4) d' a) /\
  (forall d' a, d' ∈ roots (envs s) -> 0 <= a < UTOP -> ~ (d' = root_of e /\ in_words (end_words n0 n1 pfd) a) -> ubyte s' d' a = ubyte s4 d' a).
Proof.
  intros Hk Hm [T _]. pose proof (made_kin _ _ _ _ _ _ _ _ _ _ Hm) as K4. pose proof (made_roots _ _ _ _ _ _ _ _ _ _ Hm) as He. destruct T as [[Hset Hrest] Hview] eqn:HT. destruct (Hrest A i e K4) as (K' & V & _).
  split; [done|]. split; [rewrite Hset; exact He|]. rewrite He in V. split; [done|]. intros d' a Hd' Ha Hn. rewrite <- He in Hd'. by apply (touches_ubyte A i e s4 s' (in_words (end_words n0 n1 pfd))).
Qed.

Lemma end_words_area n0 n1 pfd a : in_words (end_words n0 n1 pfd) a -> pfd <= a < pfd + 8 \/ pipe_area n0 n1 a.
Proof.
  intros (aw & Haw & Ha). unfold end_words, fd_dev_id, fd_omode in Haw. assert (Hpg : forall n o, 0 <= o <= 8 -> fd_va n + o <= a < fd_va n + o + 4 -> a / 4096 = fd_va n / 4096) by (intros n o Ho Hx; unfold fd_va in *; autounfold with cconst in *; dlia).
  unfold pipe_area, vpages. cbn [map]. rewrite !elem_of_cons, elem_of_nil. repeat (apply elem_of_cons in Haw as [->|Haw]; [cbn [fst] in Ha|]); [left; lia|left; lia|..|by apply elem_of_nil in Haw]; right.
  - right; right; left. by apply (Hpg n1 8).
  - right; right; left. apply (Hpg n1 0); lia.
  - right; right; right; left. by apply (Hpg n0 8).
  - right; right; right; left. apply (Hpg n0 0); lia.
Qed.
Lemma rdb_zero m q o : (forall y, rdw m q y = 0) -> rdb m q o = 0.
Proof. intros H. unfold rdb. rewrite H. unfold u8. by rewrite Z.shiftr_0_l. Qed.
Lemma data_zero A i e s s4 s' n0 n1 R W D pfd k : kin A i e s -> ends_made A i e s s4 n0 n1 R W D -> (forall k, 0 <= k < 8 -> own_byte e s (pfd + k)) -> wrote_words s4 s' (end_words n0 n1 pfd) ->
  0 <= k < 4096 -> ubyte s' (root_of e) (data_va n0 + k) = Some 0.
Proof.
  intros Hk Hm Hp Hw Hk4. destruct (pipe_filled A i e s s4 s' n0 n1 R W D pfd Hk Hm Hw) as (_ & _ & V & B). pose proof Hm as [[R0 R1] _ _ N _ (_ & _ & M2 & _) (_ & _ & P2) _ _ _ _ Hz]. assert (Hd : root_of e ∈ roots (envs s)) by (by apply (kin_root A i)).
  assert (Epg : (data_va n0 + k) / 4096 = data_va n0 / 4096) by (unfold data_va; autounfold with cconst; dlia). assert (Ha : 0 <= data_va n0 + k < UTOP) by (unfold data_va, fd_range in *; clia). rewrite B; [|done|done|].
  - unfold ubyte. rewrite (vmap_page_only _ _ (data_va n0)), M2 by (try apply (user_data n0 R0); done). by rewrite P2, rdb_zero.
  - intros [_ (aw & Haw & Hx)]. unfold end_words, fd_dev_id, fd_omode in Haw. assert (Hown : forall x, pfd <= x < pfd + 8 -> x <> data_va n0 + k).
    { intros x Hx' ->. destruct (Hp (data_va n0 + k - pfd) ltac:(lia)) as (_ & (w & Hv & _) & _). replace (pfd + (data_va n0 + k - pfd)) with (data_va n0 + k) in Hv by lia. rewrite (vmap_page_only _ _ (data_va n0)), N in Hv; [done|set_solver|apply (user_data n0 R0)|done|done]. }
    specialize (Hown (data_va n0 + k)). unfold data_va, fd_va, fd_range in *. autounfold with cconst in *. repeat (apply elem_of_cons in Haw as [->|Haw]; [cbn [fst] in Hx; lia|]). by apply elem_of_nil in Haw.
Qed.

Lemma made_counts A i e s s4 s' n0 n1 R W D pfd : kin A i e s -> ends_made A i e s s4 n0 n1 R W D -> wrote_words s4 s' (end_words n0 n1 pfd) ->
  count s' R = 1 /\ count s' W = 1 /\ count s' D = 2 /\ forall p, p <> R -> p <> W -> p <> D -> count s' p = count s p.
Proof.
  intros Hk Hm Hw. destruct (pipe_filled A i e s s4 s' n0 n1 R W D pfd Hk Hm Hw) as (_ & He & V & _). pose proof Hm as [_ _ _ _ _ _ _ _ (D1 & D2 & D3) Q (Q0 & Q1 & Q2) _].
  assert (Hq : forall p, count s' p = count s4 p) by (intros p; rewrite He, (made_roots _ _ _ _ _ _ _ _ _ _ Hm); by apply uses_same).
  split_and!; [..|intros p N1 N2 N3; rewrite Hq, Q, (proj2 (Z.eqb_neq R p)), (proj2 (Z.eqb_neq W p)), (proj2 (Z.eqb_neq D p)) by congruence; simpl; lia];
    rewrite Hq, Q, ?Q0, ?Q1, ?Q2, ?Z.eqb_refl, ?(proj2 (Z.eqb_neq R W)), ?(proj2 (Z.eqb_neq R D)), ?(proj2 (Z.eqb_neq W D)), ?(proj2 (Z.eqb_neq W R)), ?(proj2 (Z.eqb_neq D R)), ?(proj2 (Z.eqb_neq D W)) by congruence; done.
Qed.

(** C9.  A pipe is made whole or not at all.  Without a free descriptor or enough memory [pipe]
    returns an error and nothing has changed: no page of any environment is mapped or unmapped
    and no byte differs.  Otherwise it takes the first two free descriptors, for reading and for
    writing, and stores their numbers; each has a page of its own, and the two have one data page,
    full of zeros, which only they map; and of the rest of the memory of all environments only
    the two numbers have changed. *)
Theorem pipe_correct junk A i e s pfd : kin A i e s -> uses_small s 2 -> tidy_fds e s -> (forall k, 0 <= k < 8 -> own_byte e s (pfd + k)) ->
  (exists r s', pipe junk pfd s = Ok r s' /\ r < 0 /\ changed A i e s s' (fun _ => False)) \/
  exists s' n0 n1 R W D, pipe junk pfd s = Ok 0 s' /\ kin A i e s' /\ fd_range n0 /\ fd_range n1 /\
    (~ opened e s n0 /\ forall m, 0 <= m < n0 -> opened e s m) /\ (n0 < n1 /\ ~ opened e s n1 /\ forall m, n0 < m < n1 -> opened e s m) /\
    (vmap (mem s') (root_of e) (fd_va n0) = Some (mkpte R FDPERM) /\ vmap (mem s') (root_of e) (fd_va n1) = Some (mkpte W FDPERM) /\
     vmap (mem s') (root_of e) (data_va n0) = Some (mkpte D FDPERM) /\ vmap (mem s') (root_of e) (data_va n1) = Some (mkpte D FDPERM)) /\
    (count s' R = 1 /\ count s' W = 1 /\ count s' D = 2) /\
    (uword_at s' (fd_dev_id (fd_va n0)) devpipe_id /\ uword_at s' (fd_omode (fd_va n0)) O_RDONLY /\ uword_at s' (fd_dev_id (fd_va n1)) devpipe_id /\ uword_at s' (fd_omode (fd_va n1)) O_WRONLY) /\
    (uword_at s' pfd n0 /\ uword_at s' (pfd + 4) n1) /\
    (forall k, 0 <= k < 4096 -> ubyte s' (root_of e) (data_va n0 + k) = Some 0) /\
    (forall d' a, d' ∈ roots (envs s) -> 0 <= a < UTOP -> ~ (d' = root_of e /\ pipe_area n0 n1 a) ->
       vmap (mem s') d' a = vmap (mem s) d' a /\ (~ (d' = root_of e /\ pfd <= a < pfd + 8) -> ubyte s' d' a = ubyte s d' a)).
Proof.
  intros Hk Hu Ht Hp. destruct (pipe_pages junk A i e s pfd Hk Hu Ht) as [Hno|(s4 & n0 & n1 & R & W & D & Hm & E)]; [left; exact Hno|right].
  destruct (fill_ends_ok A i e s s4 n0 n1 R W D pfd Hk Hm Hp) as (s' & E' & Hw). destruct (pipe_filled A i e s s4 s' n0 n1 R W D pfd Hk Hm Hw) as (K' & He & V & B). pose proof Hw as [_ Hwords].
  assert (Hd : root_of e ∈ roots (envs s)) by (by apply (kin_root A i)). pose proof Hm as [[R0 R1] H0 H1 N C (M0 & M1 & M2 & M3) (P0 & P1 & P2) _ (D1 & D2 & D3) Q (Q0 & Q1 & Q2) Hz].
  exists s', n0, n1, R, W, D. split; [by rewrite E|]. split; [done|]. split; [done|]. split; [done|]. split; [done|]. split; [done|]. split; [|split; [|split; [|split; [|split]]]].
  - destruct (user_fd n0 R0), (user_fd n1 R1), (user_data n0 R0), (user_data n1 R1). split_and!; by rewrite V.
  - destruct (made_counts A i e s s4 s' n0 n1 R W D pfd Hk Hm Hw) as (? & ? & ? & _). done.
  - split_and!; [apply (Hwords (_, _))..]; listed.
  - split; [apply (Hwords (_, _))|apply (Hwords (_, _))]; listed.
  - intros k Hk4. by apply (data_zero A i e s s4 s' n0 n1 R W D pfd).
  - intros d' a Hd' Ha Hn. split; [rewrite V by done; by apply (ch_maps _ _ _ _ _ _ C)|]. intros Hn2. rewrite B; [by apply (ch_bytes _ _ _ _ _ _ C)|done|done|]. intros [-> Hin].
    apply end_words_area in Hin as [Hin|Hin]; [by apply Hn2|by apply Hn].
Qed.

(** ** The ends are counted *)

Section ends.
Context (junk : Z) (A : gset Z) (i : Z) (e : Env).
Notation d := (root_of e).

(** Descriptor [n] has the page [X] and the data page [D]. *)
Record has_end (s : kstate) (n X D : Z) : Prop := {
  he_range : fd_range n;
  he_fd : exists w, vmap (mem s) d (fd_va n) = Some w /\ pgn w = X /\ may false w = true;
  he_data : exists v, vmap (mem s) d (data_va n) = Some v /\ pgn v = D /\ may false v = true;
}.
(** Each mapping of an end comes with one of the data page. *)
Definition balanced (s : kstate) (R W D : Z) : Prop := R <> D /\ W <> D /\ R <> W /\ count s D = count s R + count s W.

Lemma user_ld32 s a w : word w -> uword_at s a w -> ld32 a s = Ok w s.
Proof.
  intros Hw H. destruct (ld32_at s a w Hw H) as (s' & E & _). destruct (user_ldn 4 a s) as [bs Eb].
  { intros k Hk. assert (Hl : is_Some (bytes4 w !! Z.to_nat k)) by (apply lookup_lt_is_Some_2; simpl; lia). destruct Hl as [b Hb]. exists b. specialize (H _ _ Hb). by rewrite Z2Nat.id in H by lia. }
  unfold ld32 in *. rewrite (bind_Ok _ _ _ _ _ Eb) in *. cbv [mret M_ret] in *. congruence.
Qed.

Lemma opened_end s n X D : has_end s n X D -> opened e s n.
Proof. intros [_ (w & Hw & _) _]. unfold opened. rewrite Hw. eauto. Qed.

Section close.
Context (devtab : list Dev) (complain : Z -> M kstate unit) (devpipe : Dev).
Hypothesis Hdev : find (fun x => dev_id x =? devpipe_id) devtab = Some devpipe.
Hypothesis Hclose : dev_close devpipe = Some (devpipe_close junk).

Lemma close_end s n X D : kin A i e s -> has_end s n X D -> uword_at s (fd_dev_id (fd_va n)) devpipe_id ->
  exists s', close junk devtab complain n s = Ok 0 s' /\ changed A i e s s' (vpages (fd_pages n)) /\ ~ opened e s' n /\ forall q, count s' q = count s q - ind (X =? q) - ind (D =? q).
Proof.
  intros Hk He Hid. pose proof (opened_end _ _ _ _ He) as Ho. destruct He as [Hn (w & Hw & Hx & _) (v & Hv & Hdd & _)]. pose proof (kin_root _ _ _ _ Hk) as Hd.
  assert (Hl : fd_lookup n s = Ok (0, fd_va n) s) by (destruct (fd_lookup_ok A i e s n Hk) as [(_ & _ & E)|[Hno _]]; [done|exfalso; by apply Hno]).
  unfold close. rewrite (bind_Ok _ _ _ _ _ Hl), succeeded. unfold fd_close. rewrite fd2num_va by done. rewrite (bind_Ok _ _ _ _ _ Hl). change (0 <? 0) with false. rewrite Z.eqb_refl. cbn [orb negb]. cbn iota.
  assert (Hld : ld_int (fd_dev_id (fd_va n)) s = Ok devpipe_id s) by (unfold ld_int; rewrite (bind_Ok _ _ _ _ _ (user_ld32 s _ devpipe_id ltac:(done) Hid)); done).
  rewrite (bind_Ok _ _ _ _ _ Hld). assert (Hdl : dev_lookup devtab complain devpipe_id s = Ok (0, Some devpipe) s) by (unfold dev_lookup; by rewrite Hdev). rewrite (bind_Ok _ _ _ _ _ Hdl). change (0 <=? 0) with true. cbn iota. rewrite Hclose.
  destruct (user_fd n Hn) as [U1 B1], (user_data n Hn) as [U2 B2].
  destruct (usys_page_unmap_ok junk A i e s Hk (fd_va n)) as (s1 & E1 & M1); [lia|done|]. pose proof (changed_unmap A i e s s1 (fd_va n) Hk U1 M1) as C1. pose proof (ch_kin _ _ _ _ _ _ C1) as K1.
  destruct (usys_page_unmap_ok junk A i e s1 K1 (data_va n)) as (s2 & E2 & M2); [lia|done|]. pose proof (changed_unmap A i e s1 s2 (data_va n) K1 U2 M2) as C2. pose proof (ch_kin _ _ _ _ _ _ C2) as K2.
  destruct (usys_page_unmap_ok junk A i e s2 K2 (fd_va n)) as (s3 & E3 & M3); [lia|done|]. pose proof (changed_unmap A i e s2 s3 (fd_va n) K2 U1 M3) as C3.
  assert (Hcl : devpipe_close junk (fd_va n) s = Ok 0 s2) by (unfold devpipe_close; rewrite (bind_Ok _ _ _ _ _ E1), fd2data_va by done; done).
  rewrite (bind_Ok _ _ _ _ _ Hcl), (bind_Ok _ _ _ _ _ E3). exists s3. split; [done|].
  assert (V1 : vmap (mem s1) d (data_va n) = Some v) by (rewrite (ch_maps _ _ _ _ _ _ C1); [done|done|done|intros [_ E]; by apply (data_fd_differ n n)]).
  assert (V2 : vmap (mem s2) d (fd_va n) = None) by (rewrite (ch_maps _ _ _ _ _ _ C2); [apply M1|apply (kin_root _ _ _ _ K1)|done|intros [_ E]; by apply (data_fd_differ n n)]). split; [|split].
  - apply (changed_mono A i e s s3 (fun k => (k = fd_va n / 4096 \/ k = data_va n / 4096) \/ k = fd_va n / 4096)); [|eapply changed_trans; [eapply changed_trans; [exact C1|exact C2]|exact C3]].
    intros k [[-> | ->]| ->]; [left|right; left|left].
  - unfold opened. destruct M3 as (_ & _ & -> & _). by intros [? ?].
  - intros q. rewrite (unmap_count A i e s2 s3 (fd_va n) q K2 U1 M3), (unmap_count A i e s1 s2 (data_va n) q K1 U2 M2), (unmap_count A i e s s1 (fd_va n) q Hk U1 M1). unfold maps_to. rewrite V1, V2, Hw, Hx, Hdd. cbn [ind]. lia.
Qed.
End close.

Lemma pipeisclosed_end race s thisenv n X D : kin A i e s -> has_end s n X D -> pipeisclosed race thisenv n s = Ok (if count s X =? count s D then 1 else 0) s.
Proof.
  intros Hk He. pose proof (opened_end _ _ _ _ He) as Ho. destruct He as [Hn (w & Hw & <- & _) (v & Hv & <- & _)]. destruct (user_fd n Hn) as [U1 _], (user_data n Hn) as [U2 _].
  unfold pipeisclosed. destruct (fd_lookup_ok A i e s n Hk) as [(_ & _ & E)|[Hno _]]; [|exfalso; by apply Hno]. rewrite (bind_Ok _ _ _ _ _ E), succeeded, fd2data_va by done. unfold pipe_closed.
  apply (msteps_mloop _ 1); [lia|]. apply (msteps_done _ 0). unfold pipe_closed_round, thisenv_runs. rewrite (bind_Ok _ (mget _) s _ s eq_refl).
  rewrite (bind_Ok _ _ _ _ _ (user_pageref_ok A i e s (fd_va n) w Hk U1 Hw)), (bind_Ok _ _ _ _ _ (user_pageref_ok A i e s (data_va n) v Hk U2 Hv)), (bind_Ok _ (mget _) s _ s eq_refl). by rewrite Z.eqb_refl.
Qed.
End ends.

Lemma shared_readable w : may false w = true -> may false (mkpte (pgn w) (shared_perm w)) = true.
Proof.
  intros H. rewrite may_mkpte. unfold may in H. apply andb_true_iff in H as [H _]. apply andb_true_iff in H as [_ H]. unfold shared_perm. rewrite <- Z.land_assoc. change (PTE_SYSCALL .& PTE_U) with PTE_U. by rewrite H.
Qed.


(** ** A machine on which a pipe is made *)

Lemma page_kin : kin kbig_A 0 kex_parent kbig_page.
Proof. pose proof kbig_maps as (Hi & Hf & _). apply (kin_frame kbig_A 0 kex_parent kbig); [exact kbig_kin|exact Hi|exact Hf]. Qed.
Lemma page_small : uses_small kbig_page 2.
Proof. intros p. pose proof (ev_uses _ _ _ _ kbig_evolved p) as Hu. rewrite kbig_uses in Hu. lia. Qed.
Lemma page_other a : 0 <= a < UTOP -> a / 4096 <> UTEXT / 4096 -> vmap (mem kbig_page) 1 a = None.
Proof. intros Ha Hn. pose proof kbig_maps as (_ & _ & _ & Hs & _). rewrite (Hs 1 a kbig_root Ha); [apply vmap_none|]. intros [_ E]. exact (Hn E). Qed.
Lemma page_tidy : tidy_fds kex_parent kbig_page.
Proof.
  intros n Hn _. change (root_of kex_parent) with 1. apply page_other; [apply (user_data n Hn)|]. rewrite data_va_page. change (UTEXT / 4096) with 2048. unfold fd_range in Hn. lia.
Qed.
Lemma page_own k : 0 <= k < 4096 -> own_byte kex_parent kbig_page (UTEXT + k).
Proof.
  intros Hk. pose proof kbig_maps as (_ & _ & Hm & _). assert (Ha : 0 <= UTEXT + k < UTOP) by (change UTOP with 4005560320; change UTEXT with 8388608; lia). assert (E : (UTEXT + k) / 4096 = UTEXT / 4096) by (change UTEXT with (2048 * 4096); clear - Hk; dlia).
  split; [exact Ha|]. split; [exists (mkpte 3 UWP); split; [|by rewrite may_mkpte]; rewrite (vmap_page_only _ _ UTEXT); [exact Hm|exact UTEXT_user|exact Ha|exact E]|].
  apply (private_page _ _ UTEXT); [exact UTEXT_user|exact Ha|exact E|]. exact (private_fresh kbig_A kbig kbig_page 1 UTEXT 3 UWP kbig_inv kbig_root eq_refl eq_refl kbig_maps).
Qed.
Lemma page_pipe : gives (pipe 0 UTEXT) kbig_page 0 = true.
Proof. vm_compute. reflexivity. Qed.

Lemma pipe_correct_witness : exists s' n0 n1, pipe 0 UTEXT kbig_page = Ok 0 s' /\ uword_at s' UTEXT n0 /\ uword_at s' (UTEXT + 4) n1 /\ n0 < n1.
Proof.
  pose proof (gives_ok _ _ _ page_pipe) as H. destruct (pipe_correct 0 kbig_A 0 kex_parent kbig_page UTEXT) as [(r & s' & E & Hr & _)|(s' & n0 & n1 & R & W & D & E & _ & _ & _ & _ & (Hlt & _) & _ & _ & _ & (W0 & W1) & _)].
  - exact page_kin.
  - exact page_small.
  - exact page_tidy.
  - intros k Hk. apply page_own. lia.
  - exfalso. rewrite H in E. apply Ok_inj in E as [E _]. rewrite <- E in Hr. discriminate Hr.
  - exists s', n0, n1. split; [exact E|]. split; [exact W0|]. split; [exact W1|exact Hlt].
Defined.

(** The state after [pipe], as [pipe_ends_counted] wants it *)
Lemma ends_ready A i e s s4 s' n0 n1 R W D pfd : kin A i e s -> uses_small s 2 -> ends_made A i e s s4 n0 n1 R W D -> wrote_words s4 s' (end_words n0 n1 pfd) ->
  kin A i e s' /\ uses_small s' 2 /\ balanced s' R W D /\ has_end e s' n0 R D /\ uword_at s' (fd_dev_id (fd_va n0)) devpipe_id /\ count s' W = 1.
Proof.
  intros Hk Hu Hm Hw. destruct (pipe_filled A i e s s4 s' n0 n1 R W D pfd Hk Hm Hw) as (K' & _ & V & _). destruct (made_counts A i e s s4 s' n0 n1 R W D pfd Hk Hm Hw) as (C0 & C1 & C2 & Cp). pose proof Hw as [_ Hwords].
  pose proof Hm as [[R0 R1] _ _ _ _ (M0 & _ & M2 & _) (P0 & _ & P2) _ (D1 & D2 & D3) _ _ _]. pose proof (kin_root A i e s Hk) as Hd. destruct (user_fd n0 R0) as [U0 _], (user_data n0 R0) as [U2 _].
  split; [done|]. split; [|split; [split_and!; [done|done|done|lia]|split; [|split; [apply (Hwords (_, _)); listed|done]]]].
  - intros p. pose proof (Hu p) as Hp. destruct (decide (p = R)) as [->|]; [rewrite C0; lia|]. destruct (decide (p = W)) as [->|]; [rewrite C1; lia|]. destruct (decide (p = D)) as [->|]; [rewrite C2; lia|]. by rewrite Cp.
  - split; [done|exists (mkpte R FDPERM)|exists (mkpte D FDPERM)]; (split; [rewrite V; done|split; [done|by rewrite may_mkpte]]).
Qed.
Lemma page_piped : exists s n0 R W D, kin kbig_A 0 kex_parent s /\ uses_small s 2 /\ balanced s R W D /\ has_end kex_parent s n0 R D /\ uword_at s (fd_dev_id (fd_va n0)) devpipe_id /\ count s W = 1.
Proof.
  destruct (pipe_pages 0 kbig_A 0 kex_parent kbig_page UTEXT page_kin page_small page_tidy) as [(r & s' & E & Hr & _)|(s4 & n0 & n1 & R & W & D & Hm & E)].
  { exfalso. rewrite (gives_ok _ _ _ page_pipe) in E. apply Ok_inj in E as [E _]. rewrite <- E in Hr. discriminate Hr. }
  assert (Hown : forall k, 0 <= k < 8 -> own_byte kex_parent kbig_page (UTEXT + k)) by (intros k Hk; apply page_own; lia).
  destruct (fill_ends_ok kbig_A 0 kex_parent kbig_page s4 n0 n1 R W D UTEXT page_kin Hm Hown) as (s' & _ & Hw). exists s', n0, R, W, D.
  exact (ends_ready kbig_A 0 kex_parent kbig_page s4 s' n0 n1 R W D UTEXT page_kin page_small Hm Hw).
Qed.

Definition kdev : Dev := mkDev 0 devpipe_id None None (Some (devpipe_close 0)) None None.
